(* ===== verification/_CoqProject ===== *)
-Q . S2P
Prelude.v
Text.v
Sha256.v
Time.v
Json.v
Concrete.v
Manifest.v
Workload.v
ApiDomain.v
Authorization.v
AuthorizationProps.v
Cohorts.v
Provenance.v
Operational.v
Store.v
Authority.v
Contract.v
SelectorRules.v
Lifecycle.v
Reads.v
StoreProps.v
Governance.v
Invariants.v
LifecycleProps.v
Demo.v
Policy.v
PolicyProps.v
Base64.v
Events.v
Normalization.v
Effects.v
Detector.v
EventingProps.v
SignalProps.v
DetectorProps.v
DetectorRuns.v
Incidents.v
IncidentsProps.v
Selectors.v
Evidence.v
Binding.v
SelectorProps.v
ManifestDump.v
ManifestJson.v
Inheritance.v
CrossRefs.v
Resolution.v
Capability.v
MergeProps.v
ResolutionProps.v
ConstraintProps.v
ResolutionDemo.v
Snapshot.v
SnapshotDump.v
SnapshotRules.v
SnapshotValidation.v
SnapshotEvaluation.v
SnapshotProps.v
Proposals.v
EvidenceIndex.v
Preview.v
Propose.v
CohortDomain.v
CohortReview.v
CohortService.v
CohortDecision.v
Decide.v
PreviewProps.v
ProposeProps.v
SnapshotDemo.v
ProposeDemo.v
DecideProps.v
ReviewProps.v
DecisionProps.v
CohortDemo.v
CorrelationContract.v
CorrelationReport.v
Correlate.v
CorrelationProps.v
CorrelationDemo.v
