(* ===== verification/Prelude.v ===== *)
(** * Athena Workload Context: a verification development

    The repository manages workload manifests: humans draft, review and approve
    them, a service publishes them, and the published version is resolved per
    profile, bound to collected Azure evidence, evaluated into findings, and kept
    current by monitoring events. This development models its Python code under
    src/src/athena_context/ (paths below are relative to it) as executable
    definitions and proves what the parts guarantee, alone and together.

    ** Parts and files

    Foundations. [Prelude]: exceptions, the [result] monad, sorting, dicts keyed
    by text, the tactics [inv_ok] and [same_ok]. [Text]: [str] values.
    [Sha256], [Time], [Base64]: hashlib, [datetime] and base64 as the code uses
    them. [Json]: JSON values, canonical JSON and digests (contracts/common.py),
    Python's [==]. [Effects]: state whose updates outlive an exception.
    [Concrete]: the instances witnesses evaluate on.

    The manifest contract (contracts/manifest.py, contracts/models.py).
    [Manifest], [Workload]: the data and its validators, up to
    validate_manifest_ids. [ManifestDump], [ManifestJson]: renderings, defaults
    and canonical order. [Selectors]: narrowing, overlap, fingerprints.
    [Inheritance], [CrossRefs], [Resolution]: _resolve_manifest_profile
    with its keyed merges, governed overrides, disabled references, reference
    graph and digests, and the two selector identity validators.

    The lifecycle service (api/). [ApiDomain], [Cohorts], [Provenance],
    [Operational]: records and validators (domain.py, cohort_decision_domain.py,
    selector_provenance.py, operational_context.py). [Authorization]:
    authorization.py. [Store]: memory.py and audit.py, a store of records with
    working copies, a generation check and commit. [Authority], [Capability]:
    selector_authority.py and what a cohort decision permits. [Contract]: the
    interface the service uses of the manifest contract; [SelectorRules],
    [Lifecycle], [Reads]: service.py.

    Policy (policy/). [Policy]: domain.py and evaluator.py.

    Evidence snapshots (contracts/models.py). [Snapshot], [SnapshotDump]: the
    records of an EvidenceSnapshot, their renderings and digests.
    [SnapshotRules], [SnapshotValidation]: the validators, up to
    EvidenceSnapshot.validate_snapshot. [SnapshotEvaluation]: trusted signatures,
    response envelopes, validate_for_evaluation, and the capability of a verified
    snapshot (binding/verification.py).

    Binding (binding/). [Evidence], [Binding]: resource records, Azure resource
    ids and evaluate_selector.
    [Proposals]: domain.py. [EvidenceIndex], [Preview], [Propose]: engine.py, from
    the evidence index over the selector preview to propose_cohorts.

    The cohort services (api/). [CohortDomain]: the requests, candidates and
    receipts of cohort_domain.py and cohort_decision_domain.py. [CohortReview]:
    the checks, split and merge previews and selector guards of
    cohort_service.py; [CohortService]: its operations get_proposals, preview
    and resolve_for_decision over the persistence of cohort_memory.py.
    [CohortDecision]: what cohort_decision_service.py validates and applies;
    [Decide]: decide, as four transactions other requests come between, and the
    two reads.

    Eventing (eventing/, contracts/eventing.py). [Events], [Normalization]:
    contracts, normalization.py, routing.py. [Detector]: detector.py over any
    store and queue. [Incidents]: incident_state.py, orchestrator.py and the
    publication records of presentation_assets.py.

    Correlation (correlation/, contracts/correlation.py). [CorrelationContract]:
    change evidence, monitoring observations, coverage and the request that binds
    them, with every validator (also contracts/change_ingestion.py and
    contracts/monitoring.py). [CorrelationReport]: hypotheses, reports and
    validate_correlation_report_binding. [Correlate]: rules.py, engine.py, and of
    verification.py the bounded report and the incident anchor.

    ** How they interact

    A request reaches [Lifecycle] with a token [Authorization] accepted; it runs
    as one transaction of [Store], calls the contract through the class
    [ManifestContract], and records audit events. Publication needs a fresh
    receipt of [Operational]. [Resolution] produces the profile [Policy]
    evaluates and whose selectors [Binding] evaluates; its selector capability
    is the [Capability] of the decisions [Authority] recovers from the store.
    [Propose] reads such a profile and a snapshot [SnapshotEvaluation] vouches for, and
    runs the role selectors on its records with [Binding]. A human reviews the
    batch through [CohortService]; [Decide] records the decision in [Store] and
    applies an approval through [Lifecycle]'s replace_draft_in_transaction, with
    the authorization [Authority] later recovers.
    [Detector] emits the events [Normalization] turns into the requests
    [Incidents] answers by publishing.

    ** What the theorems show

    [Governance], [Invariants], [LifecycleProps]: every
    authorized request refines one transition of an abstract governance relation
    on stores; published versions are reviewed and approved by humans on their
    exact digest, form a linear lineage, and never change; requests are retried
    safely, consume one revision, and are audited.
    [StoreProps], [Reads]: two audit histories that end in one digest record the
    same events unless SHA-256 collides on them, comparison of versions is exact, lineage walks terminate.
    [AuthorizationProps]: authentication is sound, grants separate duties.
    [PolicyProps]: evaluation does not depend on the order of evidence, fails
    closed, and accepts residual risk only as governed.
    [SelectorProps], [MergeProps], [ResolutionProps]: narrowing means matching fewer resources when the ids of
    scale sets can be parsed ([ResolutionGaps] shows what happens when not), the
    roles of a resolved profile match disjoint resources, a lineage exists and
    through it a role only narrows. [ConstraintProps]: a constraint no override
    targets keeps its force while the profile carries it, and a single database is
    reported as a violation or a governed accepted risk.
    [SnapshotProps]: records and references of a snapshot
    correspond one to one, evaluated records come from signed responses.
    [PreviewProps], [ProposeProps]: proposals partition the eligible
    resources, stay in scope, have exact previews, read only verified content,
    and never reach the confidence that would permit bulk review.
    [ReviewProps], [DecideProps], [DecisionProps]: a candidate
    selects exactly the reviewed members and never more than the role it replaces;
    decide, whatever comes between its transactions, is retried safely, records
    decisions that never overlap, and changes one role of one draft.
    [EventingProps], [SignalProps], [DetectorProps], [DetectorRuns],
    [IncidentsProps]: routing is exact, detector runs over unreliable ports
    deliver alternating transitions and converge when the ports recover, the
    active index only moves forward, a reassessment settles it and announces only a
    state it shows, and a heartbeat vouches for health.
    [CorrelationProps]: no cause is confirmed without its complete chain of evidence,
    and a bounded report keeps the longest prefix of the ranked hypotheses.
    [Demo], [ResolutionDemo], [SnapshotDemo], [ProposeDemo], [CohortDemo],
    [CorrelationDemo] and the demo modules of the property files apply the theorems to concrete workloads.

    ** Fuel

    Recursion that is not structural takes fuel, and theorems show it is enough:
    [lineage_fuel] and [baseline_fuel] ([StoreProps]) and [visit_fuel]
    ([Workload]) exceed the number of versions or profiles a walk can visit,
    [profile_lineage_fuel] ([ResolutionProps]) the number of profiles of a manifest. The
    heartbeat's three attempts are the code's own bound. [search_retained] searches
    an interval no longer than its fuel; [close_selection] has a turn for each
    component, and each turn that goes on selects one.

    ** Parameters

    Code outside src/ is a class: Unicode ([PyText]; [PyTextAscii] and
    [PyTextFold] state what the unicode tables do on ASCII and under
    concatenation), [datetime.fromisoformat] ([PyDatetime]), [str()] of
    containers ([PyStr]), [rfc8785.dumps] ([Rfc8785]; [Rfc8785Reads] and
    [Rfc8785Members] state that its output determines the members of an object),
    PyJWT ([Jwt]), RSA keys
    ([Cryptography]), ip_address and UUID ([IpAddress], [PyUuid]), pydantic's
    renderings and parsers ([ModelDump], [CanonicalJson], [PydanticJson],
    [ManifestSetDump], [ResponseCodec], [StateParser]), signing
    ([PresentationSigner]) and the ports the program declares as protocols
    (stores, queues, publishers, outboxes), each with a class of laws. Exception
    messages are abbreviated; no theorem depends on their text. The iteration
    order of a Python set is that of stdpp's [elements]. Instants are integers:
    microseconds since 1970 in UTC.

    ** Not modelled

    Azure, SQL and HTTP adapters (eventing/service_bus.py, api/durable.py,
    api/http.py, azure_adapters.py and the like) are I/O. The demo evaluation
    methods publish signed artifacts over the evaluation [PolicyProps] covers;
    CorrelationService only reads blobs and checks signatures and freshness around
    what [Correlate] models; enrichment and guidance are independent pipelines that
    take its reports. Collectors, command line tools, fixtures and one-off converters are
    glue or data. *)
From stdpp Require Export base gmap strings list sorting.
From Stdlib Require Export ZArith Lia.
Local Open Scope Z_scope.

Declare Scope athena_scope.
Delimit Scope athena_scope with athena.

(** ** Exceptions and fallible computations

    Every Python exception class the modelled code raises or catches is one
    constructor; the argument is the exception's message (for f-strings the
    constant part). *)
Inductive exn :=
  | AthenaValidationError (msg : string)
  | ValidationError (msg : string)
  | ValueError (msg : string)
  | KeyError (msg : string)
  | RuntimeError (msg : string)
  | AssertionError
  | AuthorizationError (msg : string)
  | AuthenticationError (msg : string)
  | SignalDetectionError (msg : string)
  | EventNormalizationError (msg : string)
  | EventRoutingError (msg : string)
  | PresentationAssetAlreadyExistsError
  | PresentationAssetUnavailableError
  | TypeError (msg : string)
  | AttributeError (msg : string)
  | OverflowError
  | StopIteration
  | PyJWTError (msg : string)
  | NormalizationCollisionError (msg : string)
  | ResourceNotFoundError (msg : string)
  | DuplicateDraftError (msg : string)
  | DuplicateVersionError (msg : string)
  | InvalidTransitionError (msg : string)
  | StaleRevisionError (msg : string)
  | VersionMismatchError (msg : string)
  | DigestMismatchError (msg : string)
  | ManifestValidationError (msg : string)
  | StaleApprovalError (msg : string)
  | IdempotencyConflictError (msg : string)
  | AmbiguousLookupError (msg : string)
  | AlreadySupersededError (msg : string)
  | PersistenceConflictError (msg : string)
  | AuditIntegrityError (msg : string)
  | StaleEvidenceSnapshotError (msg : string)
  | OperationalContextReceiptError (msg : string)
  | EvidenceSnapshotMismatchError (msg : string)
  | CohortProfileMismatchError (msg : string)
  | CohortBoundaryError (msg : string)
  | CohortContractError (msg : string)
  | CohortDecisionConflictError (msg : string)
  | RejectedProposalSetError (msg : string)
  | IndexError (msg : string)
  | ExternalError (msg : string).

#[export] Instance exn_eq_dec : EqDecision exn.
Proof. solve_decision. Defined.

Inductive result (A : Type) :=
  | Ok (a : A)
  | Raise (e : exn).
Arguments Ok {A} a.
Arguments Raise {A} e.

#[export] Instance result_ret : MRet result := fun A a => Ok a.
#[export] Instance result_bind : MBind result := fun A B k m =>
  match m with Ok a => k a | Raise e => Raise e end.
#[export] Instance result_fmap : FMap result := fun A B f m =>
  match m with Ok a => Ok (f a) | Raise e => Raise e end.

(** [guard_or e b]: the idiom [if not b: raise e]. *)
Definition guard_or (e : exn) (b : bool) : result unit :=
  if b then Ok tt else Raise e.
(** [raise_if e b]: the idiom [if b: raise e]. *)
Definition raise_if (e : exn) (b : bool) : result unit :=
  if b then Raise e else Ok tt.

(** [isinstance(exc, AthenaValidationError)] and [isinstance(exc, ValueError)]:
    [AthenaValidationError] and pydantic's [ValidationError] are [ValueError]s. *)
Definition is_athena_error (e : exn) : bool :=
  match e with AthenaValidationError _ | NormalizationCollisionError _ => true | _ => false end.
Definition is_value_error (e : exn) : bool :=
  is_athena_error e || match e with ValidationError _ | ValueError _ => true | _ => false end.

(** [try: m except p: raise e] *)
Definition reraise {A} (p : exn -> bool) (e : exn) (m : result A) : result A :=
  match m with
  | Ok a => Ok a
  | Raise e0 => Raise (if p e0 then e else e0)
  end.

Lemma reraise_Ok {A} p e (m : result A) a : reraise p e m = Ok a <-> m = Ok a.
Proof. by destruct m. Qed.

Definition is_ok {A} (r : result A) : bool :=
  match r with Ok _ => true | Raise _ => false end.

Lemma is_ok_spec {A} (r : result A) : is_ok r = true -> exists a, r = Ok a.
Proof. destruct r; [by eexists|done]. Qed.

Lemma bind_Ok {A B} (m : result A) (k : A -> result B) (b : B) :
  (m ≫= k) = Ok b <-> exists a, m = Ok a /\ k a = Ok b.
Proof.
  destruct m as [a|e]; cbn; split.
  - intros H. by exists a.
  - intros (a' & [= <-] & H). exact H.
  - discriminate.
  - intros (a' & [=] & _).
Qed.

Lemma raise_if_Ok e b u : raise_if e b = Ok u <-> b = false.
Proof. destruct b, u; cbn; naive_solver. Qed.

Lemma guard_or_Ok e b u : guard_or e b = Ok u <-> b = true.
Proof. destruct b, u; cbn; naive_solver. Qed.
Lemma guard_or_Raise e e' b : guard_or e b = Raise e' <-> b = false /\ e' = e.
Proof. destruct b; cbn; naive_solver. Qed.

(** Monadic traversal, left to right, stopping at the first exception. *)
Fixpoint mapR {A B} (f : A -> result B) (l : list A) : result (list B) :=
  match l with
  | [] => Ok []
  | x :: l => y ← f x; ys ← mapR f l; Ok (y :: ys)
  end.

Fixpoint foldR {A S} (f : S -> A -> result S) (s : S) (l : list A) : result S :=
  match l with
  | [] => Ok s
  | x :: l => s' ← f s x; foldR f s' l
  end.

Lemma mapR_Ok {A B} (f : A -> result B) l ys :
  mapR f l = Ok ys <-> Forall2 (fun x y => f x = Ok y) l ys.
Proof.
  revert ys. induction l as [|x l IH]; intros ys; cbn [mapR].
  - split; [intros [= <-]; constructor|]. by inversion 1.
  - rewrite bind_Ok. setoid_rewrite bind_Ok. setoid_rewrite IH. split.
    + intros (y & ? & ys' & ? & [= <-]). by constructor.
    + inversion_clear 1. naive_solver.
Qed.

(** [resolve] proofs about a fallible computation that succeeded: split the
    binds and guards of every hypothesis of the form [... = Ok _]. *)
Ltac inv_ok :=
  repeat match goal with
  | H : (_ ≫= _) = Ok _ |- _ => apply bind_Ok in H as (? & ? & ?)
  | H : raise_if _ _ = Ok _ |- _ => apply raise_if_Ok in H
  | H : guard_or _ _ = Ok _ |- _ => apply guard_or_Ok in H
  | H : Ok _ = Ok _ |- _ => injection H as H
  | H : Raise _ = Ok _ |- _ => discriminate H
  | H : mret _ = Ok _ |- _ => injection H as H
  | H : _ || _ = false |- _ => apply orb_false_elim in H as [? ?]
  | H : _ && _ = true |- _ => apply andb_true_iff in H as [? ?]
  | H : negb _ = false |- _ => apply negb_false_iff in H
  | H : negb _ = true |- _ => apply negb_true_iff in H
  end.

(** A computation run twice has one value. *)
Ltac same_ok :=
  repeat match goal with A : ?x = Ok ?y, B : ?x = Ok ?z |- _ => rewrite A in B; injection B as B; subst end.

(** ** Total orders used as sort keys *)
Class SortKey (K : Type) := {
  key_leb : K -> K -> bool;
  key_leb_total : forall a b, key_leb a b = true \/ key_leb b a = true;
  key_leb_trans : forall a b c, key_leb a b = true -> key_leb b c = true -> key_leb a c = true;
  key_leb_antisym : forall a b, key_leb a b = true -> key_leb b a = true -> a = b;
}.

Lemma key_leb_refl {K} `{SortKey K} a : key_leb a a = true.
Proof. by destruct (key_leb_total a a). Qed.

Lemma ascii_compare_N a b : Ascii.compare a b = N.compare (Ascii.N_of_ascii a) (Ascii.N_of_ascii b).
Proof. reflexivity. Qed.

Lemma string_leb_trans (s1 s2 s3 : string) :
  String.leb s1 s2 = true -> String.leb s2 s3 = true -> String.leb s1 s3 = true.
Proof.
  unfold String.leb. revert s2 s3.
  induction s1 as [|c1 s1 IH]; intros [|c2 s2] [|c3 s3]; cbn; try done.
  rewrite !ascii_compare_N.
  destruct (N.compare_spec (Ascii.N_of_ascii c1) (Ascii.N_of_ascii c2)) as [E1|L1|L1];
  destruct (N.compare_spec (Ascii.N_of_ascii c2) (Ascii.N_of_ascii c3)) as [E2|L2|L2]; try done.
  - rewrite E1, E2, N.compare_refl. apply IH.
  - intros _ _. rewrite E1. by apply N.compare_lt_iff in L2 as ->.
  - intros _ _. rewrite <- E2. by apply N.compare_lt_iff in L1 as ->.
  - intros _ _. assert (Hlt : (Ascii.N_of_ascii c1 < Ascii.N_of_ascii c3)%N) by lia.
    by apply N.compare_lt_iff in Hlt as ->.
Qed.

#[export] Instance string_key : SortKey string := {
  key_leb := String.leb;
  key_leb_total := String.leb_total;
  key_leb_trans := string_leb_trans;
  key_leb_antisym := String.leb_antisym;
}.

#[export] Instance Z_key : SortKey Z.
Proof.
  refine {| key_leb := Z.leb |}; intros *; rewrite ?Z.leb_le; lia.
Defined.

(** Python tuples compare lexicographically. *)
Definition pair_leb {K L} `{SortKey K, EqDecision K, SortKey L} (p q : K * L) : bool :=
  if decide (p.1 = q.1) then key_leb p.2 q.2 else key_leb p.1 q.1.

#[export] Instance pair_key {K L} `{SortKey K, EqDecision K, SortKey L} : SortKey (K * L).
Proof.
  refine {| key_leb := pair_leb |}; unfold pair_leb.
  - intros [a1 b1] [a2 b2]; cbn. do 2 case_decide; subst; try done;
      apply key_leb_total.
  - intros [a1 b1] [a2 b2] [a3 b3]; cbn. repeat case_decide; subst; try done;
      eauto using key_leb_trans.
    intros Ha Hb. exfalso. eauto using key_leb_antisym.
  - intros [a1 b1] [a2 b2]; cbn. repeat case_decide; subst; try done.
    + intros. f_equal. by apply key_leb_antisym.
    + intros Ha Hb. by destruct (key_leb_antisym a1 a2 Ha Hb).
Defined.

(** Sequences compare lexicographically; a proper prefix comes first. *)
Fixpoint list_leb {K} `{SortKey K, EqDecision K} (l k : list K) : bool :=
  match l, k with
  | [], _ => true
  | _ :: _, [] => false
  | x :: l, y :: k => if decide (x = y) then list_leb l k else key_leb x y
  end.

#[export] Instance list_key {K} `{SortKey K, EqDecision K} : SortKey (list K).
Proof.
  refine {| key_leb := list_leb |}.
  - intros l. induction l as [|x l IH]; intros [|y k]; cbn; try (by left); [by right|].
    do 2 case_decide; subst; try done; apply key_leb_total.
  - intros l. induction l as [|x l IH]; intros [|y k] [|z m]; cbn; try done.
    do 3 case_decide; subst; try done; try (by apply IH); eauto using key_leb_trans.
    intros Ha Hb. exfalso. eauto using key_leb_antisym.
  - intros l. induction l as [|x l IH]; intros [|y k]; cbn; try done.
    do 2 case_decide; subst; try done.
    + intros. f_equal. by apply IH.
    + intros Ha Hb. by destruct (key_leb_antisym x y Ha Hb).
Defined.

(** ** [sorted(l, key=...)]

    Python's sort is stable; a stable insertion sort computes the same list. *)
Section sort_by.
Context {A K : Type} `{SortKey K} (key : A -> K).

Fixpoint insert_by (x : A) (l : list A) : list A :=
  match l with
  | [] => [x]
  | y :: l' => if key_leb (key x) (key y) then x :: l else y :: insert_by x l'
  end.

Definition sort_by (l : list A) : list A := foldr insert_by [] l.

Definition le_by (x y : A) : Prop := key_leb (key x) (key y) = true.

Lemma insert_by_perm x l : insert_by x l ≡ₚ x :: l.
Proof.
  induction l as [|y l IH]; cbn; [done|]. case_match; [done|].
  rewrite IH. apply perm_swap.
Qed.

Lemma sort_by_perm l : sort_by l ≡ₚ l.
Proof.
  induction l as [|x l IH]; cbn; [done|].
  fold (sort_by l). by rewrite insert_by_perm, IH.
Qed.

Lemma elem_of_sort_by x l : x ∈ sort_by l <-> x ∈ l.
Proof. by rewrite sort_by_perm. Qed.

Lemma length_sort_by l : length (sort_by l) = length l.
Proof. by rewrite sort_by_perm. Qed.

Lemma insert_by_sorted x l :
  StronglySorted le_by l -> StronglySorted le_by (insert_by x l).
Proof.
  induction 1 as [|y l Hs IH Hf]; cbn; [by repeat constructor|].
  destruct (key_leb (key x) (key y)) eqn:E.
  - constructor; [by constructor|]. constructor; [done|].
    eapply Forall_impl; [done|]. intros z Hz. by eapply key_leb_trans.
  - constructor; [done|]. rewrite insert_by_perm. constructor; [|done].
    unfold le_by. destruct (key_leb_total (key x) (key y)); congruence.
Qed.

Lemma sort_by_sorted l : StronglySorted le_by (sort_by l).
Proof.
  induction l as [|x l IH]; cbn; [constructor|]. by apply insert_by_sorted.
Qed.

(** Sorting an already strictly ordered list changes nothing. *)
Lemma sort_by_id l : StronglySorted le_by l -> sort_by l = l.
Proof.
  induction 1 as [|x l Hs IH Hf]; cbn; [done|]. fold (sort_by l). rewrite IH.
  destruct l as [|y l]; [done|]. cbn. inversion_clear Hf as [|? ? Hxy].
  unfold le_by in Hxy. by rewrite Hxy.
Qed.

Lemma sorted_perm_unique l1 l2 :
  (forall x y, x ∈ l1 -> y ∈ l1 -> key x = key y -> x = y) ->
  StronglySorted le_by l1 -> StronglySorted le_by l2 -> l1 ≡ₚ l2 -> l1 = l2.
Proof.
  intros Hinj H1. revert l2.
  induction H1 as [|x l1 H1 IH Hx]; intros l2 H2 Hp.
  { by apply Permutation_nil_l in Hp. }
  destruct H2 as [|y l2 H2 Hy]; [by apply Permutation_nil_r in Hp|].
  assert (x = y) as <-.
  { assert (Hyx : y ∈ x :: l1) by (rewrite Hp; left).
    assert (Hxy : x ∈ y :: l2) by (rewrite <- Hp; left).
    apply elem_of_cons in Hyx as [->|Hyx]; [done|].
    apply elem_of_cons in Hxy as [->|Hxy]; [done|].
    rewrite Forall_forall in Hx, Hy.
    apply Hinj; [left|by right|].
    by apply key_leb_antisym; [apply Hx|apply Hy]. }
  f_equal. apply IH; [|done|by apply Permutation_cons_inv in Hp].
  intros; apply Hinj; [by right|by right|done].
Qed.

(** The result of sorting does not depend on the order of the input when
    the keys identify the elements. *)
Lemma sort_by_permutation l1 l2 :
  (forall x y, x ∈ l1 -> y ∈ l1 -> key x = key y -> x = y) ->
  l1 ≡ₚ l2 -> sort_by l1 = sort_by l2.
Proof.
  intros Hinj Hp. apply sorted_perm_unique; auto using sort_by_sorted.
  - intros x y. rewrite !elem_of_sort_by. apply Hinj.
  - by rewrite !sort_by_perm.
Qed.
End sort_by.

(** [sorted(strings)] *)
Definition sort_strings : list string -> list string := sort_by id.

(** ** Dictionaries keyed by text

    [{key(x): x for x in l}] keeps the last element of each key;
    [tuple(d[k] for k in sorted(d))] lists the values in key order. *)
Definition dict_by {A} (key : A -> string) (l : list A) : gmap string A :=
  foldl (fun d x => <[key x := x]> d) ∅ l.

Definition sorted_keys {A} (d : gmap string A) : list string :=
  sort_strings (elements (dom d)).

Definition sorted_values {A} (d : gmap string A) : list A :=
  omap (fun k => d !! k) (sorted_keys d).

Section dicts.
Context {A : Type} (key : A -> string).
Implicit Types (d : gmap string A) (l : list A).

Lemma dict_by_snoc l x : dict_by key (l ++ [x]) = <[key x := x]> (dict_by key l).
Proof. unfold dict_by. by rewrite foldl_app. Qed.

Lemma dict_by_lookup_Some l k x : dict_by key l !! k = Some x -> x ∈ l /\ key x = k.
Proof.
  induction l as [|y l IH] using rev_ind; [done|]. rewrite dict_by_snoc, lookup_insert.
  case_decide as E.
  - intros [= <-]. split; [set_solver|done].
  - intros [? ?]%IH. split; [set_solver|done].
Qed.

Lemma dict_by_is_Some l x : x ∈ l -> is_Some (dict_by key l !! key x).
Proof.
  induction l as [|y l IH] using rev_ind; [by intros ?%elem_of_nil|].
  rewrite dict_by_snoc, lookup_insert, elem_of_app, list_elem_of_singleton.
  case_decide; [eauto|]. intros [?| ->]; [auto|congruence].
Qed.

Lemma dict_by_lookup_inj l x :
  (forall y, y ∈ l -> key y = key x -> y = x) -> x ∈ l -> dict_by key l !! key x = Some x.
Proof.
  intros Hinj Hx. destruct (dict_by_is_Some l x Hx) as [y Hy].
  destruct (dict_by_lookup_Some _ _ _ Hy) as [? ?]. by rewrite Hy, (Hinj y).
Qed.

(** A dictionary whose keys identify its values depends only on the set of
    values it was built from. *)
Lemma dict_by_permutation l1 l2 :
  (forall x y, x ∈ l1 -> y ∈ l1 -> key x = key y -> x = y) ->
  (forall x, x ∈ l1 <-> x ∈ l2) -> dict_by key l1 = dict_by key l2.
Proof.
  intros Hinj Hp. apply map_eq; intros k.
  destruct (dict_by key l1 !! k) as [x|] eqn:E1.
  - apply dict_by_lookup_Some in E1 as [Hx <-]. symmetry.
    apply dict_by_lookup_inj; [|by apply Hp]. intros y Hy Hk.
    apply Hinj; [by apply Hp|done|done].
  - destruct (dict_by key l2 !! k) as [x|] eqn:E2; [|done].
    apply dict_by_lookup_Some in E2 as [Hx <-]. apply Hp in Hx.
    destruct (dict_by_is_Some l1 x Hx) as [? ?]. congruence.
Qed.

Lemma elem_of_sorted_keys d k : k ∈ sorted_keys d <-> is_Some (d !! k).
Proof.
  unfold sorted_keys, sort_strings. by rewrite elem_of_sort_by, elem_of_elements, elem_of_dom.
Qed.

Lemma NoDup_sorted_keys d : NoDup (sorted_keys d).
Proof.
  unfold sorted_keys, sort_strings. rewrite sort_by_perm. apply NoDup_elements.
Qed.

Lemma elem_of_sorted_values d x : x ∈ sorted_values d <-> exists k, d !! k = Some x.
Proof.
  unfold sorted_values. rewrite list_elem_of_omap. split; [naive_solver|].
  intros [k Hk]. exists k. split; [|done]. apply elem_of_sorted_keys. eauto.
Qed.

Lemma elem_of_dict_values l x :
  x ∈ sorted_values (dict_by key l) -> x ∈ l.
Proof. rewrite elem_of_sorted_values. intros [k ?%dict_by_lookup_Some]. naive_solver. Qed.

(** The keys of the values, in order, are exactly the sorted keys. *)
Lemma sorted_values_keys d :
  (forall k x, d !! k = Some x -> key x = k) -> key <$> sorted_values d = sorted_keys d.
Proof.
  intros Hk. unfold sorted_values.
  assert (Hd : forall k, k ∈ sorted_keys d -> is_Some (d !! k))
    by (intros k; apply elem_of_sorted_keys).
  induction (sorted_keys d) as [|k ks IH]; [done|]. cbn.
  destruct (Hd k) as [x Hx]; [left|]. rewrite Hx. cbn. f_equal; [by apply Hk|].
  apply IH. intros k' ?. apply Hd. by right.
Qed.

Lemma dict_by_values_keys l : key <$> sorted_values (dict_by key l) = sorted_keys (dict_by key l).
Proof. apply sorted_values_keys. intros k x ?%dict_by_lookup_Some. naive_solver. Qed.
End dicts.

(** [len(l) != len(set(l))]: some element occurs twice. *)
Definition unique {A} `{EqDecision A} (l : list A) : bool := bool_decide (NoDup l).

Lemma unique_NoDup {A} `{EqDecision A} (l : list A) : unique l = true <-> NoDup l.
Proof. apply bool_decide_eq_true. Qed.

Lemma unique_perm {A} `{EqDecision A} (l1 l2 : list A) : l1 ≡ₚ l2 -> unique l1 = unique l2.
Proof. intros Hp. unfold unique. apply bool_decide_ext. by rewrite Hp. Qed.

(** Boolean quantifiers over lists depend only on the members. *)
Lemma existsb_ext_elem {A} (f g : A -> bool) l1 l2 :
  (forall x, x ∈ l1 <-> x ∈ l2) -> (forall x, x ∈ l1 -> f x = g x) ->
  existsb f l1 = existsb g l2.
Proof.
  intros Hp Hf. apply eq_true_iff_eq. rewrite !existsb_exists.
  setoid_rewrite <- list_elem_of_In. split; intros (x & Hx & ?); exists x;
    (split; [by apply Hp|]).
  - by rewrite <- Hf.
  - apply Hp in Hx. by rewrite Hf.
Qed.

Lemma forallb_ext_elem {A} (f g : A -> bool) l1 l2 :
  (forall x, x ∈ l1 <-> x ∈ l2) -> (forall x, x ∈ l1 -> f x = g x) ->
  forallb f l1 = forallb g l2.
Proof.
  intros Hp Hf. apply eq_true_iff_eq. rewrite !forallb_forall.
  setoid_rewrite <- list_elem_of_In. split; intros H x Hx.
  - apply Hp in Hx as Hx'. rewrite <- Hf; auto.
  - rewrite Hf; [|done]. by apply H, Hp.
Qed.

Lemma existsb_perm {A} (f : A -> bool) l1 l2 : l1 ≡ₚ l2 -> existsb f l1 = existsb f l2.
Proof. intros Hp. apply existsb_ext_elem; [|done]. intros x. by rewrite Hp. Qed.

Lemma forallb_perm {A} (f : A -> bool) l1 l2 : l1 ≡ₚ l2 -> forallb f l1 = forallb f l2.
Proof. intros Hp. apply forallb_ext_elem; [|done]. intros x. by rewrite Hp. Qed.

(** [filter] with a boolean test, as a list comprehension writes it. *)
Lemma Forall2_elem_of_r {A B} (P : A -> B -> Prop) l k y : Forall2 P l k -> y ∈ k -> exists x, x ∈ l /\ P x y.
Proof. induction 1 as [|x z l k Hxz _ IH]; rewrite ?elem_of_nil, ?elem_of_cons; set_solver. Qed.

Definition select {A} (p : A -> bool) (l : list A) : list A := List.filter p l.

Lemma elem_of_select {A} (p : A -> bool) x l : x ∈ select p l <-> x ∈ l /\ p x = true.
Proof. unfold select. by rewrite !list_elem_of_In, filter_In. Qed.

Lemma select_perm {A} (p : A -> bool) l1 l2 : l1 ≡ₚ l2 -> select p l1 ≡ₚ select p l2.
Proof.
  induction 1 as [|x l1 l2 ? IH|x y l|l1 l2 l3 ? IH1 ? IH2]; cbn; [done| | |by etrans].
  - case_match; [by constructor|done].
  - repeat case_match; try done. apply perm_swap.
Qed.

(** ** The hint database of the development *)
Create HintDb athena.
Create Rewrite HintDb athena.
#[export] Hint Resolve key_leb_refl sort_by_perm sort_by_sorted select_perm : athena.
#[export] Hint Rewrite @length_sort_by : athena.

(** ** Selections by a unique key *)
Lemma select_key_short {A} (f : A -> string) k (l : list A) :
  NoDup (f <$> l) -> (length (select (fun x => String.eqb (f x) k) l) <= 1)%nat.
Proof.
  induction l as [|x l IH]; cbn; [lia|]. intros [Hx Hn]%NoDup_cons.
  destruct (String.eqb_spec (f x) k) as [E|E]; [|by apply IH].
  enough (select (fun y => String.eqb (f y) k) l = []) as H by (unfold select in H; rewrite H; cbn; lia).
  destruct (select _ l) as [|y t] eqn:Es; [done|]. exfalso. apply Hx.
  assert (Hy : y ∈ select (fun y => String.eqb (f y) k) l) by (rewrite Es; left).
  apply elem_of_select in Hy as [Hy Hk%String.eqb_eq]. rewrite E, <- Hk.
  by apply list_elem_of_fmap_2.
Qed.

Lemma perm_short {A} (l1 l2 : list A) : l1 ≡ₚ l2 -> (length l1 <= 1)%nat -> l1 = l2.
Proof.
  destruct l1 as [|x [|y l1]]; cbn; intros Hp ?; [|by apply Permutation_length_1_inv in Hp as ->|lia].
  by apply Permutation_nil_l in Hp.
Qed.

Lemma select_key_perm {A} (f : A -> string) k (l1 l2 : list A) :
  NoDup (f <$> l1) -> l1 ≡ₚ l2 ->
  select (fun x => String.eqb (f x) k) l1 = select (fun x => String.eqb (f x) k) l2.
Proof.
  intros Hn Hp. apply perm_short; [by apply select_perm|by apply select_key_short].
Qed.

Lemma NoDup_fmap_select {A B} (f : A -> B) p (l : list A) :
  NoDup (f <$> l) -> NoDup (f <$> select p l).
Proof.
  intros Hn. eapply sublist_NoDup; [done|]. apply fmap_sublist. unfold select. clear Hn.
  induction l as [|x l IH]; cbn; [done|]. case_match; by constructor.
Qed.

Lemma NoDup_fmap_inj_on {A B} (f : A -> B) (l : list A) :
  NoDup (f <$> l) -> forall x y, x ∈ l -> y ∈ l -> f x = f y -> x = y.
Proof.
  induction l as [|z l IH]; cbn; [intros _ x y ?%elem_of_nil; done|].
  intros [Hz Hn]%NoDup_cons x y. rewrite !elem_of_cons.
  intros [->|Hx] [->|Hy] E; [done| | |by apply IH].
  - exfalso. apply Hz. rewrite E. by apply list_elem_of_fmap_2.
  - exfalso. apply Hz. rewrite <- E. by apply list_elem_of_fmap_2.
Qed.

(** [[x for x in l if p(x)]] where the test may raise *)
Fixpoint filterR {A} (p : A -> result bool) (l : list A) : result (list A) :=
  match l with
  | [] => Ok []
  | x :: l => b ← p x; rest ← filterR p l; Ok (if b : bool then x :: rest else rest)
  end.

Lemma elem_of_filterR {A} (p : A -> result bool) l l' y :
  filterR p l = Ok l' -> y ∈ l' <-> y ∈ l /\ p y = Ok true.
Proof.
  revert l'. induction l as [|z l IH]; intros l'; cbn [filterR]; intros Hl; inv_ok; [subst; set_solver|].
  rename select (filterR _ _ = _) into Hf. specialize (IH _ Hf). destruct x; subst l'; rewrite !elem_of_cons, IH;
    naive_solver congruence.
Qed.

(** What every turn of a loop over [l] keeps *)
Lemma foldR_invariant_elem {A S} (P : S -> Prop) (f : S -> A -> result S) l s s' :
  (forall s y s', P s -> y ∈ l -> f s y = Ok s' -> P s') -> P s -> foldR f s l = Ok s' -> P s'.
Proof.
  revert s. induction l as [|y l IH]; intros s Hf Hs; cbn [foldR]; intros E; inv_ok; [by subst|].
  eapply IH; [|by eapply Hf; [done|left|]|done]. intros ?????. apply Hf; [done|by right].
Qed.

Lemma foldR_invariant {A S} (P : S -> Prop) (f : S -> A -> result S) l s s' :
  (forall s y s', P s -> f s y = Ok s' -> P s') -> P s -> foldR f s l = Ok s' -> P s'.
Proof. intros Hf. apply foldR_invariant_elem. intros s1 y s2 Hs _. by apply Hf. Qed.

(** What a loop keeps, told by the elements it has passed *)
Lemma foldR_prefix {A S} (P : list A -> S -> Prop) (f : S -> A -> result S) l s s' :
  (forall pre y s s', P pre s -> y ∈ l -> f s y = Ok s' -> P (pre ++ [y]) s') -> P [] s -> foldR f s l = Ok s' -> P l s'.
Proof.
  intros Hf. enough (forall pre l' s, (forall y, y ∈ l' -> y ∈ l) -> P pre s -> foldR f s l' = Ok s' -> P (pre ++ l') s') as He
    by (intros; by apply (He [] l s)).
  intros pre l'. revert pre. induction l' as [|y l' IH]; intros pre s1 Hl Hs; cbn [foldR]; intros E; inv_ok.
  - subst. by rewrite app_nil_r.
  - replace (pre ++ y :: l') with ((pre ++ [y]) ++ l') by (by rewrite <- app_assoc). eapply IH; [set_solver| |done]. eapply Hf; [done|set_solver|done].
Qed.

(** Every turn of a loop that succeeds succeeds. *)
Lemma foldR_elem {A S} (f : S -> A -> result S) l s s' y : foldR f s l = Ok s' -> y ∈ l -> exists s1 s2, f s1 y = Ok s2.
Proof.
  revert s. induction l as [|z l IH]; intros s Hf; [by intros ?%elem_of_nil|]. cbn [foldR] in Hf.
  apply bind_Ok in Hf as (s1 & H1 & Hf). intros [->|Hy]%elem_of_cons; [by eexists _, _|by eapply IH].
Qed.

Lemma select_app {A} (p : A -> bool) l1 l2 : select p (l1 ++ l2) = select p l1 ++ select p l2.
Proof. apply List.filter_app. Qed.

Lemma mapR_unit_elem {A} (f : A -> result unit) l us y : mapR f l = Ok us -> y ∈ l -> f y = Ok tt.
Proof.
  intros Hm%mapR_Ok Hy. destruct (list_elem_of_lookup_1 _ _ Hy) as [i Hi].
  destruct (Forall2_lookup_l _ _ _ _ _ Hm Hi) as ([] & _ & E). done.
Qed.

(** ** Boolean tests on lists *)
Lemma existsb_elem {A} (f : A -> bool) l : existsb f l = true <-> exists y, y ∈ l /\ f y = true.
Proof. rewrite existsb_exists. by setoid_rewrite list_elem_of_In. Qed.
Lemma forallb_elem {A} (f : A -> bool) l : forallb f l = true <-> forall y, y ∈ l -> f y = true.
Proof. rewrite forallb_forall. by setoid_rewrite list_elem_of_In. Qed.

Lemma ForallOrdPairs_snoc {A} (R : A -> A -> Prop) l y :
  ForallOrdPairs R l -> Forall (fun z => R z y) l -> ForallOrdPairs R (l ++ [y]).
Proof.
  induction 1 as [|z l Hz _ IH]; cbn; [intros _; by repeat constructor|]. intros [Hzy Hl]%Forall_cons.
  constructor; [apply Forall_app; by split; [|repeat constructor]|by apply IH].
Qed.

(** ** Tests that may raise *)

(** [value is not None] *)
Definition present {A} (value : option A) : bool := match value with Some _ => true | None => false end.

(** [any(f(x) for x in l)] *)
Fixpoint anyR {A} (f : A -> result bool) (l : list A) : result bool :=
  match l with
  | [] => Ok false
  | x :: l => b ← f x; match b with true => Ok true | false => anyR f l end
  end.

Lemma anyR_true {A} (f : A -> result bool) l : anyR f l = Ok true -> exists x, x ∈ l /\ f x = Ok true.
Proof.
  induction l as [|x l IH]; [done|]. cbn [anyR]. intros (b & Hb & Hr)%bind_Ok. destruct b.
  - exists x. split; [left|done].
  - destruct (IH Hr) as (y & ? & ?). exists y. split; [by right|done].
Qed.

(** [a and b and ...] where a test may raise *)
Fixpoint allR (tests : list (result bool)) : result bool :=
  match tests with
  | [] => Ok true
  | test :: tests => b ← test; match b with true => allR tests | false => Ok false end
  end.

Lemma allR_true tests : allR tests = Ok true -> Forall (fun t => t = Ok true) tests.
Proof.
  induction tests as [|t tests IH]; [constructor|]. cbn [allR]. intros (b & -> & Hr)%bind_Ok. destruct b; [|done].
  constructor; [done|by apply IH].
Qed.

(** ** Keys seen once *)

(** A loop that collects the keys it has seen and rejects a repeated one *)
Lemma foldR_seen {A K} `{Countable K} (key : A -> K) (P : A -> Prop) (f : gset K -> A -> result (gset K)) l seen seen' :
  (forall s x s', f s x = Ok s' -> P x /\ key x ∉ s /\ s' = {[key x]} ∪ s) -> foldR f seen l = Ok seen' ->
  Forall P l /\ NoDup (key <$> l) /\ (forall x, x ∈ l -> key x ∉ seen) /\ seen' = list_to_set (key <$> l) ∪ seen.
Proof.
  intros Hf. revert seen. induction l as [|x l IH]; intros seen; cbn [foldR].
  - intros E. injection E as <-. split_and!; [constructor|constructor|by intros ? ?%elem_of_nil|set_solver].
  - intros (s1 & (Hx & Hn & ->)%Hf & (Hl & Hd & Hs & ->)%IH)%bind_Ok. split_and!; [by constructor| | |cbn; set_solver].
    + cbn. constructor; [|done]. intros (y & Hy & Hin)%list_elem_of_fmap. apply (Hs y Hin). set_solver.
    + intros y [->|Hy]%elem_of_cons; [done|]. specialize (Hs y Hy). set_solver.
Qed.

(** A test that holds of exactly one element of a list without repetitions *)
Lemma select_unique_length {A} (p : A -> bool) l : NoDup l -> (exists x, x ∈ l /\ p x = true) ->
  (forall x y, x ∈ l -> y ∈ l -> p x = true -> p y = true -> x = y) -> length (select p l) = 1%nat.
Proof.
  intros Hn (x & Hx & Hp) Hu. assert (Hs : NoDup (select p l)) by (rewrite <- (list_fmap_id (select p l)); apply NoDup_fmap_select; by rewrite list_fmap_id).
  destruct (select p l) as [|y [|z t]] eqn:E; [|done|].
  - exfalso. apply (not_elem_of_nil x). rewrite <- E. by apply elem_of_select.
  - exfalso. assert (Hy : y ∈ select p l) by (rewrite E; left). assert (Hz : z ∈ select p l) by (rewrite E; right; left).
    apply elem_of_select in Hy as [Hy Py], Hz as [Hz Pz]. rewrite (Hu y z) in Hs by done. inversion Hs; set_solver.
Qed.
