(* ===== verification/Text.v ===== *)
(** * Text: Python [str] values

    A Python string is modelled by its UTF-8 encoding, a [string] of bytes.
    Equality, concatenation, prefix and suffix tests, splitting at an ASCII
    separator and the code-point order of [<] agree with the byte-wise
    operations on the encoding; [len] counts the bytes that start a code point.
    The methods whose result depends on the interpreter's Unicode tables ([lower],
    [casefold], [strip], [split()], [unicodedata.normalize("NFC", _)]) are the
    fields of the class [PyText]; [ascii_text] is the instance for text in the
    ASCII range, on which the witnesses evaluate.

    Then lemmas on prefixes, suffixes and case folding. *)
From S2P Require Import Prelude.
From Stdlib Require Import Ascii.
Local Open Scope nat_scope.

Abbreviation slash := "/"%char.

(** [len(s)]: code points, i.e. bytes outside the range 0x80-0xBF. *)
Definition starts_code_point (c : ascii) : bool :=
  let n := N_of_ascii c in (n <? 128)%N || (191 <? n)%N.

Fixpoint py_len (s : string) : nat :=
  match s with
  | EmptyString => 0
  | String c s => (if starts_code_point c then 1 else 0) + py_len s
  end.

(** [s.startswith(p)] *)
Fixpoint starts_with (p s : string) : bool :=
  match p, s with
  | EmptyString, _ => true
  | String c p, String d s => Ascii.eqb c d && starts_with p s
  | String _ _, EmptyString => false
  end.

Fixpoint string_drop (n : nat) (s : string) : string :=
  match n, s with
  | S n, String _ s => string_drop n s
  | _, _ => s
  end.

(** [s[:n]] on ASCII text. *)
Fixpoint string_take (n : nat) (s : string) : string :=
  match n, s with
  | S n, String c s => String c (string_take n s)
  | _, _ => EmptyString
  end.

Definition ends_with (p s : string) : bool :=
  (String.length p <=? String.length s) &&
  String.eqb (string_drop (String.length s - String.length p) s) p.

Definition removeprefix (p s : string) : string :=
  if starts_with p s then string_drop (String.length p) s else s.

Definition removesuffix (p s : string) : string :=
  if ends_with p s then string_take (String.length s - String.length p) s else s.

(** [sub in s] *)
Fixpoint contains (sub s : string) : bool :=
  starts_with sub s ||
  match s with EmptyString => false | String _ s => contains sub s end.

Fixpoint contains_char (c : ascii) (s : string) : bool :=
  match s with
  | EmptyString => false
  | String d s => Ascii.eqb c d || contains_char c s
  end.

Fixpoint all_chars (p : ascii -> bool) (s : string) : bool :=
  match s with
  | EmptyString => true
  | String c s => p c && all_chars p s
  end.

(** [s.split(c)] for a one-character separator. *)
Fixpoint split_on (c : ascii) (s : string) : list string :=
  match s with
  | EmptyString => [EmptyString]
  | String d s =>
      if Ascii.eqb c d then EmptyString :: split_on c s
      else match split_on c s with
           | h :: t => String d h :: t
           | [] => []
           end
  end.

Definition join (sep : string) (l : list string) : string := String.concat sep l.

(** [s.strip(chars)], [s.rstrip(chars)] *)
Fixpoint lstrip_by (p : ascii -> bool) (s : string) : string :=
  match s with
  | String c s' => if p c then lstrip_by p s' else s
  | EmptyString => EmptyString
  end.

Fixpoint rstrip_by (p : ascii -> bool) (s : string) : string :=
  match s with
  | EmptyString => EmptyString
  | String c s =>
      match rstrip_by p s with
      | EmptyString => if p c then EmptyString else String c EmptyString
      | t => String c t
      end
  end.

Definition strip_by (p : ascii -> bool) (s : string) : string := rstrip_by p (lstrip_by p s).
Definition rstrip_slash : string -> string := rstrip_by (Ascii.eqb slash).

Fixpoint map_string (f : ascii -> ascii) (s : string) : string :=
  match s with
  | EmptyString => EmptyString
  | String c s => String (f c) (map_string f s)
  end.

(** [s.split()]: maximal runs of characters that are not whitespace. *)
Fixpoint split_runs (p : ascii -> bool) (s : string) : list string :=
  match s with
  | EmptyString => []
  | String c s =>
      if p c then split_runs p s
      else match s with
           | String d _ => if p d then String c EmptyString :: split_runs p s
                           else match split_runs p s with
                                | h :: t => String c h :: t
                                | [] => [String c EmptyString]
                                end
           | EmptyString => [String c EmptyString]
           end
  end.

(** ** The Unicode-dependent methods *)
Class PyText := {
  nfc : string -> string;
  casefold : string -> string;
  lower : string -> string;
  strip : string -> string;
  split_ws : string -> list string;
}.

(** [unicodedata.normalize("NFC", value).casefold()] *)
Definition normalized_id `{PyText} (value : string) : string := casefold (nfc value).

(** [normalized_id(a) == normalized_id(b)] *)
Definition same_id `{PyText} (a b : string) : bool := String.eqb (normalized_id a) (normalized_id b).

(** ** The ASCII instance *)
Definition is_ascii (c : ascii) : bool := (N_of_ascii c <? 128)%N.

Definition ascii_in (lo hi c : ascii) : bool :=
  (N_of_ascii lo <=? N_of_ascii c)%N && (N_of_ascii c <=? N_of_ascii hi)%N.

Definition ascii_lower (c : ascii) : ascii :=
  if ascii_in "A" "Z" c then ascii_of_N (N_of_ascii c + 32) else c.

(** ASCII characters for which [str.isspace] holds. *)
Definition ascii_space (c : ascii) : bool :=
  let n := N_of_ascii c in
  (n =? 32)%N || ((9 <=? n) && (n <=? 13))%N || ((28 <=? n) && (n <=? 31))%N.

Definition ascii_text : PyText := {|
  nfc s := s;
  casefold := map_string ascii_lower;
  lower := map_string ascii_lower;
  strip := strip_by ascii_space;
  split_ws := split_runs ascii_space;
|}.

(** What the methods do on ASCII text, whatever the Unicode tables. *)
Class PyTextAscii `{PyText} : Prop := {
  nfc_of_ascii s : all_chars is_ascii s = true -> nfc s = s;
  casefold_of_ascii s : all_chars is_ascii s = true -> casefold s = map_string ascii_lower s;
  lower_of_ascii s : all_chars is_ascii s = true -> lower s = map_string ascii_lower s;
  strip_of_ascii s : all_chars is_ascii s = true -> strip s = strip_by ascii_space s;
  split_ws_of_ascii s : all_chars is_ascii s = true -> split_ws s = split_runs ascii_space s;
}.

#[export] Instance ascii_text_ascii : @PyTextAscii ascii_text.
Proof. by split. Qed.

(** ** Character classes of the contract patterns *)
Definition is_lower_hex (c : ascii) : bool := ascii_in "0" "9" c || ascii_in "a" "f" c.
Definition is_hex (c : ascii) : bool := is_lower_hex c || ascii_in "A" "F" c.
Definition is_digit (c : ascii) : bool := ascii_in "0" "9" c.
Definition is_alnum (c : ascii) : bool := is_digit c || ascii_in "A" "Z" c || ascii_in "a" "z" c.

(** [^prefix[a-f0-9]{n}$] *)
Definition prefixed_hex (p : string) (n : nat) (s : string) : bool :=
  starts_with p s &&
  let rest := string_drop (String.length p) s in
  (String.length rest =? n) && all_chars is_lower_hex rest.

(** [^sha256:[a-f0-9]{64}$] *)
Definition is_digest : string -> bool := prefixed_hex "sha256:" 64.

(** [^[0-9a-fA-F]{8}-...{4}-...{4}-...{4}-...{12}$] *)
Definition is_guid (s : string) : bool :=
  match split_on "-" s with
  | [a; b; c; d; e] =>
      (String.length a =? 8) && (String.length b =? 4) && (String.length c =? 4) &&
      (String.length d =? 4) && (String.length e =? 12) &&
      forallb (all_chars is_hex) [a; b; c; d; e]
  | _ => false
  end.

(** [^[A-Za-z0-9][A-Za-z0-9._-]{0,127}$] *)
Definition is_id (s : string) : bool :=
  match s with
  | EmptyString => false
  | String c r =>
      is_alnum c && (String.length r <=? 127) &&
      all_chars (fun d => is_alnum d || Ascii.eqb d "." || Ascii.eqb d "_" || Ascii.eqb d "-") r
  end.

(** [Field(min_length=lo, max_length=hi)] of a text and of a list *)
Definition text_between (lo hi : nat) (s : string) : bool := (lo <=? py_len s)%nat && (py_len s <=? hi)%nat.
Definition list_between {A} (lo hi : Z) (l : list A) : bool :=
  (lo <=? Z.of_nat (length l))%Z && (Z.of_nat (length l) <=? hi)%Z.

(** ** Lemmas *)
Lemma string_app_cons c (s t : string) : String c s +:+ t = String c (s +:+ t).
Proof. done. Qed.

Lemma string_app_nil_l (s : string) : "" +:+ s = s.
Proof. done. Qed.

Lemma string_app_nil_r (s : string) : s +:+ "" = s.
Proof. induction s as [|c s IH]; [done|]. by rewrite string_app_cons, IH. Qed.

Ltac string_induction s :=
  induction s as [|?c s IH]; rewrite ?string_app_nil_l, ?string_app_cons; cbn; try done.

Lemma string_length_app (s t : string) :
  String.length (s +:+ t) = String.length s + String.length t.
Proof. string_induction s. by rewrite IH. Qed.

Lemma starts_with_app (p s : string) : starts_with p (p +:+ s) = true.
Proof.
  string_induction p. by rewrite IH, Ascii.eqb_refl.
Qed.

Lemma starts_with_spec (p s : string) : starts_with p s = true <-> exists t, s = p +:+ t.
Proof.
  split; [|intros [t ->]; apply starts_with_app].
  revert s. induction p as [|c p IH]; intros [|d s]; cbn; try done; [by eexists..|].
  intros [->%Ascii.eqb_eq [t ->]%IH]%andb_true_iff. by exists t.
Qed.

Lemma string_drop_app (p s : string) : string_drop (String.length p) (p +:+ s) = s.
Proof. string_induction p. Qed.

Lemma string_take_app (p s : string) : string_take (String.length p) (p +:+ s) = p.
Proof. string_induction p. by rewrite IH. Qed.

Lemma removeprefix_app (p s : string) : removeprefix p (p +:+ s) = s.
Proof. unfold removeprefix. by rewrite starts_with_app, string_drop_app. Qed.

Lemma ends_with_app (s p : string) : ends_with p (s +:+ p) = true.
Proof.
  unfold ends_with. rewrite string_length_app, Nat.add_sub, string_drop_app.
  rewrite String.eqb_refl, andb_true_r. apply Nat.leb_le. lia.
Qed.

Lemma removesuffix_app (s p : string) : removesuffix p (s +:+ p) = s.
Proof.
  unfold removesuffix. by rewrite ends_with_app, string_length_app, Nat.add_sub, string_take_app.
Qed.

Lemma all_chars_app p (s t : string) : all_chars p (s +:+ t) = all_chars p s && all_chars p t.
Proof. string_induction s. by rewrite IH, andb_assoc. Qed.

Lemma all_chars_take p n (s : string) : all_chars p s = true -> all_chars p (string_take n s) = true.
Proof.
  revert s. induction n as [|n IH]; intros [|c s]; cbn; try done.
  intros [? ?]%andb_true_iff. apply andb_true_iff. auto.
Qed.

Lemma length_string_take n (s : string) : n <= String.length s -> String.length (string_take n s) = n.
Proof. revert s. induction n as [|n IH]; intros [|c s]; cbn; try lia. intros. rewrite IH; lia. Qed.

Lemma prefixed_hex_app p n (s : string) :
  String.length s = n -> all_chars is_lower_hex s = true -> prefixed_hex p n (p +:+ s) = true.
Proof.
  intros <- H. unfold prefixed_hex. by rewrite starts_with_app, string_drop_app, Nat.eqb_refl, H.
Qed.

Lemma split_on_not_nil c s : split_on c s <> [].
Proof.
  induction s as [|d s IH]; cbn; [done|]. case_match; [done|]. by destruct (split_on c s).
Qed.

(** Splitting then joining is the identity. *)
Lemma join_split_on c s : join (String c "") (split_on c s) = s.
Proof.
  unfold join. induction s as [|d s IH]; cbn; [done|].
  destruct (split_on c s) as [|h t] eqn:E; [by apply split_on_not_nil in E|].
  destruct (Ascii.eqb_spec c d) as [->|]; cbn in *.
  - by rewrite string_app_nil_l, string_app_cons, string_app_nil_l, IH.
  - destruct t; rewrite ?string_app_cons; by f_equal.
Qed.

Lemma split_on_single c s : contains_char c s = false -> split_on c s = [s].
Proof.
  induction s as [|d s IH]; cbn; [done|]. intros [E ?]%orb_false_elim. rewrite E.
  by rewrite IH.
Qed.

Lemma split_on_app c s t :
  contains_char c s = false -> split_on c (s +:+ String c t) = s :: split_on c t.
Proof.
  string_induction s; [by rewrite Ascii.eqb_refl|].
  intros [E ?]%orb_false_elim. rewrite E. by rewrite IH.
Qed.

Lemma string_app_assoc (s t u : string) : (s +:+ t) +:+ u = s +:+ (t +:+ u).
Proof. string_induction s. by rewrite IH. Qed.

Lemma starts_with_trans (p q s : string) :
  starts_with p q = true -> starts_with q s = true -> starts_with p s = true.
Proof.
  rewrite !starts_with_spec. intros [t ->] [u ->]. exists (t +:+ u). apply string_app_assoc.
Qed.

(** [s] is what [s.rstrip(...)] keeps followed by what it drops. *)
Lemma rstrip_by_split p (s : string) : exists t, s = rstrip_by p s +:+ t /\ all_chars p t = true.
Proof.
  induction s as [|c s (t & Hs & Ht)]; cbn; [by exists ""|].
  destruct (rstrip_by p s) as [|d r] eqn:E.
  - rewrite string_app_nil_l in Hs. subst t. destruct (p c) eqn:Ep.
    + exists (String c s). cbn. by rewrite Ep, Ht.
    + by exists s.
  - exists t. by rewrite string_app_cons, <- Hs.
Qed.

Lemma rstrip_by_all p (t : string) : all_chars p t = true -> rstrip_by p t = "".
Proof. induction t as [|c t IH]; [done|]. cbn. intros [Hc Ht]%andb_true_iff. by rewrite IH, Hc. Qed.

Lemma rstrip_by_app p (s t : string) : all_chars p t = true -> rstrip_by p (s +:+ t) = rstrip_by p s.
Proof.
  intros Ht. induction s as [|c s IH]; [by apply rstrip_by_all|]. rewrite string_app_cons. cbn [rstrip_by]. by rewrite IH.
Qed.

(** ** [s.replace(old, new)] for a non-empty [old] *)
Fixpoint replace_from (old new : string) (skip : nat) (s : string) : string :=
  match s with
  | EmptyString => EmptyString
  | String c s' =>
      match skip with
      | S k => replace_from old new k s'
      | O =>
          if starts_with old s
          then new +:+ replace_from old new (String.length old - 1) s'
          else String c (replace_from old new 0 s')
      end
  end.

Definition replace (old new s : string) : string := replace_from old new 0 s.

Lemma replace_from_skip old new (p s : string) :
  replace_from old new (String.length p) (p +:+ s) = replace_from old new 0 s.
Proof. string_induction p. Qed.

Lemma replace_occurrence c old new (s : string) :
  replace (String c old) new (String c old +:+ s) = new +:+ replace (String c old) new s.
Proof.
  unfold replace. change (String c old +:+ s) with (String c (old +:+ s)).
  cbn [replace_from]. change (String c (old +:+ s)) with (String c old +:+ s).
  rewrite starts_with_app. cbn [String.length]. rewrite Nat.sub_succ, Nat.sub_0_r.
  by rewrite replace_from_skip.
Qed.

(** Text without the first character of [old] is left alone. *)
Lemma replace_skip c old new (p s : string) : contains_char c p = false ->
  replace (String c old) new (p +:+ s) = p +:+ replace (String c old) new s.
Proof.
  unfold replace. intros Hp. string_induction p. cbn in Hp. apply orb_false_elim in Hp as [-> Hp].
  cbn [andb]. by rewrite IH.
Qed.

Lemma replace_suffix c old new (p : string) : contains_char c p = false ->
  replace (String c old) new (p +:+ String c old) = p +:+ new.
Proof.
  intros Hp. rewrite replace_skip by done.
  pose proof (replace_occurrence c old new "") as H. rewrite string_app_nil_r in H. rewrite H.
  change (replace _ _ "") with "". by rewrite string_app_nil_r.
Qed.

Lemma contains_char_app c s1 s2 : contains_char c (s1 +:+ s2) = contains_char c s1 || contains_char c s2.
Proof. string_induction s1. by rewrite IH, orb_assoc. Qed.

Lemma not_contains_all c s : contains_char c s = false -> all_chars (fun d => negb (Ascii.eqb c d)) s = true.
Proof. induction s as [|d s IH]; [done|]. cbn [contains_char all_chars]. intros [-> Hs]%orb_false_elim. by rewrite IH. Qed.

Lemma all_chars_contains p c s : all_chars p s = true -> p c = false -> contains_char c s = false.
Proof.
  intros Hs Hc. string_induction s. cbn in Hs. apply andb_true_iff in Hs as [Hd Hs].
  rewrite IH by done. destruct (Ascii.eqb_spec c c0) as [->|]; [congruence|done].
Qed.

Lemma all_chars_impl (p q : ascii -> bool) s :
  (forall c, p c = true -> q c = true) -> all_chars p s = true -> all_chars q s = true.
Proof. intros Hpq. string_induction s. rewrite !andb_true_iff. intros [H1 H2]. auto. Qed.

(** ** Plain text: ASCII without whitespace *)
Definition is_plain (c : ascii) : bool := is_ascii c && negb (ascii_space c).

Lemma ascii_lower_idem c : ascii_lower (ascii_lower c) = ascii_lower c.
Proof. by destruct c as [[] [] [] [] [] [] [] []]. Qed.

Lemma ascii_lower_ascii c : is_ascii (ascii_lower c) = is_ascii c.
Proof. by destruct c as [[] [] [] [] [] [] [] []]. Qed.

Lemma ascii_lower_plain c : is_plain (ascii_lower c) = is_plain c.
Proof. by destruct c as [[] [] [] [] [] [] [] []]. Qed.

Lemma ascii_lower_slash c : Ascii.eqb slash (ascii_lower c) = Ascii.eqb slash c.
Proof. by destruct c as [[] [] [] [] [] [] [] []]. Qed.

Lemma map_string_lower_idem s : map_string ascii_lower (map_string ascii_lower s) = map_string ascii_lower s.
Proof. string_induction s. by rewrite ascii_lower_idem, IH. Qed.

Lemma all_chars_lower p s : (forall c, p (ascii_lower c) = p c) -> all_chars p (map_string ascii_lower s) = all_chars p s.
Proof. intros Hp. string_induction s. by rewrite Hp, IH. Qed.

Lemma plain_ascii s : all_chars is_plain s = true -> all_chars is_ascii s = true.
Proof. apply all_chars_impl. intros c. unfold is_plain. by intros [? _]%andb_true_iff. Qed.

Lemma rstrip_by_none p s : all_chars (fun c => negb (p c)) s = true -> rstrip_by p s = s.
Proof.
  string_induction s. intros [Hc Hs]%andb_true_iff. rewrite IH by done. destruct s; [|done].
  by apply negb_true_iff in Hc as ->.
Qed.

Lemma strip_by_none p s : all_chars (fun c => negb (p c)) s = true -> strip_by p s = s.
Proof.
  intros Hs. unfold strip_by. assert (Hl : lstrip_by p s = s).
  { destruct s as [|c s]; [done|]. cbn in *. apply andb_true_iff in Hs as [Hc _]. by apply negb_true_iff in Hc as ->. }
  rewrite Hl. by apply rstrip_by_none.
Qed.

Lemma rstrip_by_idem p s : rstrip_by p (rstrip_by p s) = rstrip_by p s.
Proof.
  string_induction s. destruct (rstrip_by p s) as [|d t] eqn:E; [destruct (p c) eqn:Hc; cbn; by rewrite ?Hc|].
  change (rstrip_by p (String c (String d t))) with
    (match rstrip_by p (String d t) with EmptyString => if p c then EmptyString else String c EmptyString | t => String c t end).
  by rewrite IH.
Qed.

Lemma rstrip_by_lower p s : (forall c, p (ascii_lower c) = p c) ->
  rstrip_by p (map_string ascii_lower s) = map_string ascii_lower (rstrip_by p s).
Proof.
  intros Hp. string_induction s. rewrite IH, Hp. by destruct (rstrip_by p s); [destruct (p c)|].
Qed.

Lemma all_chars_rstrip q p s : all_chars q s = true -> all_chars q (rstrip_by p s) = true.
Proof.
  string_induction s. intros [Hc Hs]%andb_true_iff. specialize (IH Hs).
  destruct (rstrip_by p s); [|cbn in *; by rewrite Hc, IH]. destruct (p c); cbn; by rewrite ?Hc.
Qed.

Lemma py_len_le s : (py_len s <= String.length s)%nat.
Proof. induction s as [|c s IH]; cbn; [done|]. destruct (starts_code_point c); lia. Qed.

(** ** Joining *)
Lemma join_cons sep x y l : join sep (x :: y :: l) = x +:+ sep +:+ join sep (y :: l).
Proof. reflexivity. Qed.

(** Splitting undoes joining parts without the separator. *)
Lemma split_on_join c x l : Forall (fun s => contains_char c s = false) (x :: l) ->
  split_on c (join (String c "") (x :: l)) = x :: l.
Proof.
  revert x. induction l as [|y l IH]; intros x [Hx Hl]%Forall_cons; [by apply split_on_single|].
  rewrite join_cons, (string_app_cons c ""), string_app_nil_l, split_on_app by done. f_equal. by apply IH.
Qed.

Section ascii_text.
Context `{PyTextAscii}.

Lemma strip_plain s : all_chars is_plain s = true -> strip s = s.
Proof.
  intros Hs. rewrite strip_of_ascii by by apply plain_ascii. apply strip_by_none.
  revert Hs. apply all_chars_impl. intros c. unfold is_plain. by intros [_ ?]%andb_true_iff.
Qed.

Lemma lower_ascii_idem s : all_chars is_ascii s = true -> lower (lower s) = lower s.
Proof.
  intros Hs. rewrite !(lower_of_ascii s) by done. rewrite lower_of_ascii; [apply map_string_lower_idem|].
  by rewrite all_chars_lower by apply ascii_lower_ascii.
Qed.
End ascii_text.

(** * Lemmas on prefixes, suffixes and case folding

    What the proofs about selectors and resource ids use of Python text: two
    prefixes (or suffixes) of one text are comparable, case folding maps the
    characters of a text one by one, and the case of ASCII text is immaterial to
    splitting, stripping and the character classes of resource ids. *)

(** What [str.casefold] documents: the folding of a text is the concatenation of
    the foldings of its characters. *)
Class PyTextFold `{PyText} : Prop := {
  casefold_app s t : casefold (s +:+ t) = casefold s +:+ casefold t;
}.

Lemma map_string_app f s t : map_string f (s +:+ t) = map_string f s +:+ map_string f t.
Proof. string_induction s. by rewrite IH. Qed.

#[export] Instance ascii_text_fold : @PyTextFold ascii_text.
Proof. split. intros s t. apply map_string_app. Qed.

(** ** Prefixes and suffixes *)
Lemma starts_with_refl s : starts_with s s = true.
Proof. apply starts_with_spec. exists "". by rewrite string_app_nil_r. Qed.

Lemma starts_with_comparable p q s : starts_with p s = true -> starts_with q s = true ->
  starts_with p q || starts_with q p = true.
Proof.
  revert q s. induction p as [|c p IH]; intros [|d q] [|e s]; cbn; try done.
  intros [->%Ascii.eqb_eq Hp]%andb_true_iff [->%Ascii.eqb_eq Hq]%andb_true_iff.
  rewrite Ascii.eqb_refl. cbn. by apply (IH q s).
Qed.

Lemma string_drop_0 s : string_drop 0 s = s.
Proof. done. Qed.

Lemma take_drop_string n s : string_take n s +:+ string_drop n s = s.
Proof. revert s. induction n as [|n IH]; intros [|c s]; cbn; try done. by rewrite string_app_cons, IH. Qed.

Lemma ends_with_spec p s : ends_with p s = true <-> exists t, s = t +:+ p.
Proof.
  split; [|intros [t ->]; apply ends_with_app]. unfold ends_with.
  intros [_ E%String.eqb_eq]%andb_true_iff. exists (string_take (String.length s - String.length p) s).
  rewrite <- E at 2. by rewrite take_drop_string.
Qed.

Lemma ends_with_refl s : ends_with s s = true.
Proof. apply ends_with_spec. by exists "". Qed.

Lemma ends_with_trans p q s : ends_with p q = true -> ends_with q s = true -> ends_with p s = true.
Proof.
  rewrite !ends_with_spec. intros [t ->] [u ->]. exists (u +:+ t). by rewrite string_app_assoc.
Qed.

Lemma ends_with_comparable p q s : ends_with p s = true -> ends_with q s = true ->
  ends_with p q || ends_with q p = true.
Proof.
  rewrite orb_true_iff, !ends_with_spec. intros [t ->] [u E]. revert u E.
  induction t as [|c t IH]; intros [|d u] E; rewrite ?string_app_nil_l, ?string_app_cons in E.
  - subst. left. by exists "".
  - right. by exists (String d u).
  - left. exists (String c t). by rewrite string_app_cons.
  - injection E as -> E. by apply (IH u).
Qed.

Section fold.
Context `{PyTextFold}.

Lemma casefold_starts_with p s : starts_with p s = true -> starts_with (casefold p) (casefold s) = true.
Proof. rewrite !starts_with_spec. intros [t ->]. exists (casefold t). apply casefold_app. Qed.

Lemma casefold_ends_with p s : ends_with p s = true -> ends_with (casefold p) (casefold s) = true.
Proof. rewrite !ends_with_spec. intros [t ->]. exists (casefold t). apply casefold_app. Qed.
End fold.

(** ** ASCII text up to case *)
Lemma split_on_lower s : split_on slash (map_string ascii_lower s) = map_string ascii_lower <$> split_on slash s.
Proof.
  induction s as [|c s IH]; [done|]. cbn [map_string split_on]. rewrite ascii_lower_slash, IH. destruct (Ascii.eqb slash c); [done|].
  by destruct (split_on slash s).
Qed.

Lemma split_on_all p c s : all_chars p s = true -> Forall (fun t => all_chars p t = true) (split_on c s).
Proof.
  induction s as [|d s IH]; [by repeat constructor|]. cbn. intros [Hd Hs]%andb_true_iff. specialize (IH Hs).
  destruct (Ascii.eqb c d); [by constructor|]. destruct (split_on c s) as [|h t]; [done|].
  apply Forall_cons in IH as [Hh Ht]. constructor; [|done]. cbn. by rewrite Hd, Hh.
Qed.

Lemma all_chars_same_class p s : (forall c, p (ascii_lower c) = p c) ->
  all_chars p (map_string ascii_lower s) = all_chars p s.
Proof. apply all_chars_lower. Qed.

Lemma lower_length s : String.length (map_string ascii_lower s) = String.length s.
Proof. string_induction s. by rewrite IH. Qed.

Lemma contains_char_lower c s : (forall d, Ascii.eqb c (ascii_lower d) = Ascii.eqb c d) ->
  contains_char c (map_string ascii_lower s) = contains_char c s.
Proof. intros Hc. string_induction s. by rewrite Hc, IH. Qed.

Lemma ascii_space_lower c : ascii_space (ascii_lower c) = ascii_space c.
Proof. by destruct c as [[] [] [] [] [] [] [] []]. Qed.
Lemma is_alnum_lower c : is_alnum (ascii_lower c) = is_alnum c.
Proof. by destruct c as [[] [] [] [] [] [] [] []]. Qed.
Lemma is_hex_lower c : is_hex (ascii_lower c) = is_hex c.
Proof. by destruct c as [[] [] [] [] [] [] [] []]. Qed.

Lemma lstrip_by_lower p s : (forall c, p (ascii_lower c) = p c) ->
  lstrip_by p (map_string ascii_lower s) = map_string ascii_lower (lstrip_by p s).
Proof. intros Hp. string_induction s. rewrite Hp. by destruct (p c). Qed.

Lemma lstrip_by_length p s : String.length (lstrip_by p s) <= String.length s.
Proof. string_induction s. destruct (p c); cbn; lia. Qed.

Lemma rstrip_by_length p s : String.length (rstrip_by p s) <= String.length s.
Proof. destruct (rstrip_by_split p s) as (t & Hs & _). rewrite Hs at 2. rewrite string_length_app. lia. Qed.

Lemma strip_by_same_length p s : String.length (strip_by p s) = String.length s -> strip_by p s = s.
Proof.
  unfold strip_by. intros E. pose proof (rstrip_by_length p (lstrip_by p s)) as H1. pose proof (lstrip_by_length p s) as H2.
  assert (Hl : lstrip_by p s = s).
  { destruct s as [|c s]; [done|]. cbn in *. destruct (p c); [|done]. pose proof (lstrip_by_length p s). lia. }
  rewrite Hl in *. destruct (rstrip_by_split p s) as (t & Hs & _). rewrite Hs in E at 2. rewrite string_length_app in E.
  destruct t; [|cbn in E; lia]. rewrite string_app_nil_r in Hs. done.
Qed.

(** Whether text is stripped does not depend on its case. *)
Lemma strip_by_lower_eqb p s : (forall c, p (ascii_lower c) = p c) ->
  String.eqb (map_string ascii_lower s) (strip_by p (map_string ascii_lower s)) = String.eqb s (strip_by p s).
Proof.
  intros Hp. assert (Hs : strip_by p (map_string ascii_lower s) = map_string ascii_lower (strip_by p s)).
  { unfold strip_by. by rewrite lstrip_by_lower, rstrip_by_lower. }
  rewrite Hs. apply eq_true_iff_eq. rewrite !String.eqb_eq. split; [|by intros <-].
  intros E. symmetry. apply strip_by_same_length. by rewrite <- (lower_length (strip_by p s)), <- E, lower_length.
Qed.

Lemma is_guid_lower s : is_guid (map_string ascii_lower s) = is_guid s.
Proof.
  assert (Hs : split_on "-" (map_string ascii_lower s) = map_string ascii_lower <$> split_on "-" s).
  { induction s as [|c s IH]; [done|]. cbn [map_string split_on].
    assert (Hc : Ascii.eqb "-" (ascii_lower c) = Ascii.eqb "-" c) by (by destruct c as [[] [] [] [] [] [] [] []]).
    rewrite Hc, IH. destruct (Ascii.eqb "-" c); [done|]. by destruct (split_on "-" s). }
  unfold is_guid. rewrite Hs. destruct (split_on "-" s) as [|a [|b [|c [|d [|e [|]]]]]]; try done. cbn.
  by rewrite !lower_length, !(all_chars_lower is_hex) by apply is_hex_lower.
Qed.

(** ** Hexadecimal text *)

Lemma hex_plain c : is_lower_hex c = true -> is_plain c = true /\ Ascii.eqb "T" c = false.
Proof. by destruct c as [[] [] [] [] [] [] [] []]. Qed.

Lemma hex_json s : all_chars is_lower_hex s = true -> all_chars is_ascii s = true /\ contains_char "T"%char s = false.
Proof.
  intros Hs. split.
  - apply plain_ascii. eapply all_chars_impl; [|exact Hs]. intros c. by intros [? _]%hex_plain.
  - apply (all_chars_contains (fun c => negb (Ascii.eqb "T" c))); [|done]. eapply all_chars_impl; [|exact Hs].
    intros c. intros [_ E]%hex_plain. by rewrite E.
Qed.
