(* ===== verification/Sha256.v ===== *)
(** * Sha256: [hashlib.sha256]

    The FIPS 180-4 compression function over 32-bit words ([N] below [2^32]),
    on the bytes of a string, and [sha256_hex] of contracts/common.py. The digest
    text has the shape every digest pattern of the contracts asks for. *)
From S2P Require Import Prelude Text.
From Stdlib Require Import NArith Ascii.
Local Open Scope N_scope.

Definition word_mask : N := 4294967295.
Definition add32 (a b : N) : N := N.land (a + b) word_mask.
Definition rotr32 (k x : N) : N := N.lor (N.shiftr x k) (N.land (N.shiftl x (32 - k)) word_mask).
Definition not32 (x : N) : N := N.lxor x word_mask.

Definition big_sigma0 (x : N) : N := N.lxor (N.lxor (rotr32 2 x) (rotr32 13 x)) (rotr32 22 x).
Definition big_sigma1 (x : N) : N := N.lxor (N.lxor (rotr32 6 x) (rotr32 11 x)) (rotr32 25 x).
Definition small_sigma0 (x : N) : N := N.lxor (N.lxor (rotr32 7 x) (rotr32 18 x)) (N.shiftr x 3).
Definition small_sigma1 (x : N) : N := N.lxor (N.lxor (rotr32 17 x) (rotr32 19 x)) (N.shiftr x 10).
Definition choose (x y z : N) : N := N.lxor (N.land x y) (N.land (not32 x) z).
Definition majority (x y z : N) : N := N.lxor (N.lxor (N.land x y) (N.land x z)) (N.land y z).

(** The constants of the standard: 32 bits of the fractional parts of the square
    roots of the first eight primes, and of the cube roots of the first sixty-four. *)
Definition is_prime (n : N) : bool :=
  forallb (fun d => negb (n mod d =? 0)) (N.of_nat <$> seq 2 (N.to_nat (N.sqrt n) - 1)).
Definition primes : list N := select is_prime (N.of_nat <$> seq 2 310).

(** The cube root, from bit [bits] down. *)
Fixpoint cube_root (bits : nat) (root x : N) : N :=
  match bits with
  | O => root
  | S bits =>
      let candidate := N.lor root (N.shiftl 1 (N.of_nat bits)) in
      cube_root bits (if candidate * candidate * candidate <=? x then candidate else root) x
  end.

Definition round_constants : list N :=
  Eval vm_compute in (fun p => N.land (cube_root 36 0 (N.shiftl p 96)) word_mask) <$> primes.
Definition initial_hash : list N :=
  Eval vm_compute in (fun p => N.land (N.sqrt (N.shiftl p 64)) word_mask) <$> take 8 primes.

Definition bytes_of (s : string) : list N := N_of_ascii <$> String.list_ascii_of_string s.

(** The [n] big-endian bytes of [x]. *)
Fixpoint be_bytes (n : nat) (x : N) : list N :=
  match n with
  | O => []
  | S n => be_bytes n (N.shiftr x 8) ++ [N.land x 255]
  end.

(** Padding: a one bit, zeros, and the bit length on 64 bits. *)
Definition pad (l : list N) : list N :=
  let n := N.of_nat (length l) in
  let zeros := N.to_nat ((119 - n mod 64) mod 64) in
  l ++ [128] ++ replicate zeros 0 ++ be_bytes 8 (8 * n).

Fixpoint words_of (fuel : nat) (l : list N) : list N :=
  match fuel, l with
  | S fuel, a :: b :: c :: d :: l =>
      N.lor (N.lor (N.shiftl a 24) (N.shiftl b 16)) (N.lor (N.shiftl c 8) d) :: words_of fuel l
  | _, _ => []
  end.

(** The message schedule, newest word first. *)
Fixpoint schedule (n : nat) (w : list N) : list N :=
  match n with
  | O => w
  | S n =>
      let next := add32 (add32 (small_sigma1 (nth 1 w 0)) (nth 6 w 0))
                        (add32 (small_sigma0 (nth 14 w 0)) (nth 15 w 0)) in
      schedule n (next :: w)
  end.

Definition sha_round (st : list N) (kw : N * N) : list N :=
  match st with
  | [a; b; c; d; e; f; g; h] =>
      let t1 := add32 (add32 (add32 h (big_sigma1 e)) (choose e f g)) (add32 (fst kw) (snd kw)) in
      let t2 := add32 (big_sigma0 a) (majority a b c) in
      [add32 t1 t2; a; b; c; add32 d t1; e; f; g]
  | _ => st
  end.

Definition compress (st : list N) (block : list N) : list N :=
  let w := rev (schedule 48 (rev block)) in
  zip_with add32 st (fold_left sha_round (zip round_constants w) st).

Fixpoint compress_all (fuel : nat) (st : list N) (words : list N) : list N :=
  match fuel, words with
  | S fuel, _ :: _ => compress_all fuel (compress st (take 16 words)) (drop 16 words)
  | _, _ => st
  end.

Definition hex_digit (n : N) : ascii :=
  if n <? 10 then ascii_of_N (48 + n) else ascii_of_N (87 + n).

Fixpoint hex_word (n : nat) (x : N) : string :=
  match n with
  | O => EmptyString
  | S n => hex_word n (N.shiftr x 4) +:+ String (hex_digit (N.land x 15)) EmptyString
  end.

(** The eight state words. *)
Definition sha256_words (s : string) : list N :=
  let padded := pad (bytes_of s) in
  let words := words_of (length padded) padded in
  compress_all (S (length words)) initial_hash words.

(** [hashlib.sha256(s).hexdigest()] *)
Definition sha256_hexdigest (s : string) : string :=
  String.concat "" (hex_word 8 <$> sha256_words s).

(** sha256_hex *)
Definition sha256_hex (value : string) : string := "sha256:" +:+ sha256_hexdigest value.

(** ** The shape of a digest *)
Lemma zip_with_length_8 (l k : list N) : length l = 8%nat -> length k = 8%nat -> length (zip_with add32 l k) = 8%nat.
Proof. intros Hl Hk. rewrite length_zip_with, Hl, Hk. done. Qed.

Lemma sha_rounds_length kws st : length st = 8%nat -> length (fold_left sha_round kws st) = 8%nat.
Proof.
  revert st. induction kws as [|kw kws IH]; intros st Hst; [done|]. cbn [fold_left]. apply IH.
  by do 9 (destruct st as [|? st]; try done).
Qed.

Lemma compress_length st block : length st = 8%nat -> length (compress st block) = 8%nat.
Proof. intros Hst. apply zip_with_length_8; [done|]. by apply sha_rounds_length. Qed.

Lemma compress_all_length fuel st words : length st = 8%nat -> length (compress_all fuel st words) = 8%nat.
Proof.
  revert st words. induction fuel as [|fuel IH]; intros st words Hst; [done|].
  destruct words; [done|]. by apply IH, compress_length.
Qed.

Lemma hex_digit_lower (x : N) : is_lower_hex (hex_digit (N.land x 15)) = true.
Proof.
  assert (Hlt : N.land x 15 < 16).
  { change 15 with (N.ones 4). rewrite N.land_ones. by apply N.mod_lt. }
  assert (Hall : forallb (fun n => is_lower_hex (hex_digit n)) (N.of_nat <$> seq 0 16) = true)
    by (vm_compute; reflexivity).
  rewrite forallb_forall in Hall. apply Hall.
  rewrite <- (N2Nat.id (N.land x 15)). apply in_map, in_seq. lia.
Qed.

Lemma hex_word_shape n x : String.length (hex_word n x) = n /\ all_chars is_lower_hex (hex_word n x) = true.
Proof.
  revert x. induction n as [|n IH]; intros x; [done|]. cbn [hex_word].
  destruct (IH (N.shiftr x 4)) as [Hl Hc]. rewrite string_length_app, all_chars_app, Hl, Hc. cbn -[N.land].
  rewrite hex_digit_lower. split; [lia|done].
Qed.

Lemma concat_hex_shape n (l : list N) :
  String.length (String.concat "" (hex_word n <$> l)) = (n * length l)%nat /\
  all_chars is_lower_hex (String.concat "" (hex_word n <$> l)) = true.
Proof.
  induction l as [|x l IH]; [split; [cbn; lia|done]|]. destruct (hex_word_shape n x) as [Hl Hc].
  destruct l as [|y l]; [cbn; split; [lia|done]|].
  change (String.concat "" (hex_word n <$> x :: y :: l))
    with (hex_word n x +:+ String.concat "" (hex_word n <$> y :: l)).
  destruct IH as [IHl IHc]. rewrite string_length_app, all_chars_app, IHl, IHc, Hl, Hc.
  split; [cbn; lia|done].
Qed.

Lemma sha256_hexdigest_shape s :
  String.length (sha256_hexdigest s) = 64%nat /\ all_chars is_lower_hex (sha256_hexdigest s) = true.
Proof.
  destruct (concat_hex_shape 8 (sha256_words s)) as [Hl Hc].
  unfold sha256_words in Hl at 2. rewrite compress_all_length in Hl by done. done.
Qed.

(** Every digest the program computes matches the digest pattern. *)
Lemma sha256_hex_is_digest s : is_digest (sha256_hex s) = true.
Proof. destruct (sha256_hexdigest_shape s) as [Hl Hc]. by apply prefixed_hex_app. Qed.

Example sha256_abc :
  sha256_hex "abc" = "sha256:ba7816bf8f01cfea414140de5dae2223b00361a396177a9cb410ff61f20015ad".
Proof. vm_compute. reflexivity. Qed.
