(* ===== verification/Time.v ===== *)
(** * Time: [datetime] values and their texts

    An aware [datetime] is its instant in microseconds since the Unix epoch (two
    aware datetimes compare and convert to UTC through their instants). The
    proleptic Gregorian calendar of [datetime] is computed with eras of 400
    years; [strftime] and [isoformat] render years on four digits. *)
From S2P Require Import Prelude Text.
From Stdlib Require Import Ascii.
Local Open Scope Z_scope.

Definition second : Z := 1000000.
Definition day : Z := 86400000000.

(** ** The calendar *)
Definition is_leap (y : Z) : bool := (y mod 4 =? 0) && (negb (y mod 100 =? 0) || (y mod 400 =? 0)).

Definition days_in_month (y m : Z) : Z :=
  if m =? 2 then (if is_leap y then 29 else 28)
  else if existsb (Z.eqb m) [4; 6; 9; 11] then 30 else 31.

(** Days between 1970-01-01 and year [y], month [m], day [d]; years start in March. *)
Definition days_from_civil (y m d : Z) : Z :=
  let y := if m <=? 2 then y - 1 else y in
  let era := y / 400 in
  let yoe := y - era * 400 in
  let doy := (153 * (if 2 <? m then m - 3 else m + 9) + 2) / 5 + d - 1 in
  era * 146097 + (yoe * 365 + yoe / 4 - yoe / 100 + doy) - 719468.

Definition civil_from_days (days : Z) : Z * Z * Z :=
  let z := days + 719468 in
  let era := z / 146097 in
  let doe := z - era * 146097 in
  let yoe := (doe - doe / 1460 + doe / 36524 - doe / 146096) / 365 in
  let doy := doe - (365 * yoe + yoe / 4 - yoe / 100) in
  let mp := (5 * doy + 2) / 153 in
  let d := doy - (153 * mp + 2) / 5 + 1 in
  let m := if mp <? 10 then mp + 3 else mp - 9 in
  let y := yoe + era * 400 in
  ((if m <=? 2 then y + 1 else y), m, d).

(** ** Rendering *)
Definition digit_char (d : Z) : ascii := ascii_of_nat (48 + Z.to_nat d).

(** [x] on [n] decimal digits. *)
Fixpoint digits (n : nat) (x : Z) : string :=
  match n with
  | O => EmptyString
  | S n => digits n (x / 10) +:+ String (digit_char (x mod 10)) EmptyString
  end.

Definition microsecond (t : Z) : Z := t mod second.

(** [t.strftime("%Y-%m-%dT%H:%M:%S")] of a UTC datetime *)
Definition strftime_seconds (t : Z) : string :=
  let '(y, m, d) := civil_from_days (t / day) in
  let s := t mod day / second in
  digits 4 y +:+ "-" +:+ digits 2 m +:+ "-" +:+ digits 2 d +:+ "T" +:+
  digits 2 (s / 3600) +:+ ":" +:+ digits 2 (s / 60 mod 60) +:+ ":" +:+ digits 2 (s mod 60).

(** [strftime("%Y-%m-%dT%H:%M:%S.%f")[:-3] + "Z"], and
    [isoformat(timespec="milliseconds")] with ["+00:00"] replaced by ["Z"] *)
Definition iso_millis (t : Z) : string :=
  strftime_seconds t +:+ "." +:+ digits 3 (microsecond t / 1000) +:+ "Z".

(** The timestamp text of canonical JSON (the three branches of contracts/common.py). *)
Definition canonical_timestamp (t : Z) : string :=
  if microsecond t =? 0 then strftime_seconds t +:+ ".000Z" else iso_millis t.

(** [t.isoformat()] of a UTC datetime *)
Definition isoformat_fraction (t : Z) : string :=
  if microsecond t =? 0 then "" else "." +:+ digits 6 (microsecond t).

Definition isoformat (t : Z) : string := strftime_seconds t +:+ isoformat_fraction t +:+ "+00:00".

(** [t.isoformat().replace("+00:00", "Z")] *)
Definition isoformat_z (t : Z) : string := replace "+00:00" "Z" (isoformat t).

(** _timestamp_text of api/operational_context.py, after [ensure_timestamp] *)
Definition ensure_timestamp (t : Z) : result Z :=
  _ ← raise_if (ValueError "injected clock timestamp must have millisecond precision")
        (negb (microsecond t mod 1000 =? 0));
  Ok t.

(** ** Parsing *)
Definition digit_value (c : ascii) : option Z :=
  if is_digit c then Some (Z.of_nat (nat_of_ascii c) - 48) else None.

(** [n] decimal digits, and the rest of the text. *)
Fixpoint take_digits (n : nat) (acc : Z) (s : string) : option (Z * string) :=
  match n, s with
  | O, _ => Some (acc, s)
  | S n, String c s => v ← digit_value c; take_digits n (10 * acc + v) s
  | S _, EmptyString => None
  end.

Definition take_char (c : ascii) (s : string) : option string :=
  match s with
  | String d s => if Ascii.eqb c d then Some s else None
  | EmptyString => None
  end.

(** The longest run of decimal digits at the front. *)
Fixpoint digit_run (s : string) : string * string :=
  match s with
  | String c s' => if is_digit c then let '(a, b) := digit_run s' in (String c a, b) else (EmptyString, s)
  | EmptyString => (EmptyString, EmptyString)
  end.

(** The components of a text that matches [_ISO_DATETIME_PREFIX_RE]: date, time, rest. *)
Definition iso_prefix (s : string) : option ((Z * Z * Z) * (Z * Z * Z) * string) :=
  '(y, s) ← take_digits 4 0 s; s ← take_char "-" s;
  '(mo, s) ← take_digits 2 0 s; s ← take_char "-" s;
  '(d, s) ← take_digits 2 0 s; s ← take_char "T" s;
  '(h, s) ← take_digits 2 0 s; s ← take_char ":" s;
  '(mi, s) ← take_digits 2 0 s; s ← take_char ":" s;
  '(sec, s) ← take_digits 2 0 s;
  Some ((y, mo, d), (h, mi, sec), s).

(** The offset suffix of [_ISO_DATETIME_RE], in minutes, at the end of the text. *)
Definition iso_offset (s : string) : option Z :=
  if String.eqb s "Z" then Some 0
  else
    match s with
    | String c s' =>
        if Ascii.eqb c "+" || Ascii.eqb c "-" then
          '(h, s') ← take_digits 2 0 s'; s' ← take_char ":" s';
          '(m, s') ← take_digits 2 0 s';
          if String.eqb s' "" then Some ((if Ascii.eqb c "-" then -1 else 1) * (60 * h + m)) else None
        else None
    | EmptyString => None
    end.

(** [_ISO_DATETIME_RE.fullmatch]: date, time, fractional digits and offset. *)
Definition iso_datetime (s : string) : option ((Z * Z * Z) * (Z * Z * Z) * option string * Z) :=
  '(date, time, rest) ← iso_prefix s;
  match take_char "." rest with
  | Some rest =>
      let '(fraction, rest) := digit_run rest in
      if String.eqb fraction "" then None
      else o ← iso_offset rest; Some (date, time, Some fraction, o)
  | None => o ← iso_offset rest; Some (date, time, None, o)
  end.

(** The microseconds of up to six fractional digits. *)
Definition fraction_micros (fraction : string) : Z :=
  match take_digits 6 0 (fraction +:+ "000000") with Some (v, _) => v | None => 0 end.

(** [datetime.fromisoformat] on a text that [iso_datetime] accepts: the instant,
    or [None] where it raises [ValueError] (a component out of its range). *)
Definition fromisoformat (date time : Z * Z * Z) (fraction : option string) (offset : Z) : option Z :=
  let '(y, mo, d) := date in
  let '(h, mi, s) := time in
  if (1 <=? y) && (1 <=? mo) && (mo <=? 12) && (1 <=? d) && (d <=? days_in_month y mo)
     && (h <? 24) && (mi <? 60) && (s <? 60) && (Z.abs offset <? 1440)
  then Some (days_from_civil y mo d * day + ((h * 60 + mi - offset) * 60 + s) * second
             + match fraction with Some f => fraction_micros f | None => 0 end)
  else None.

(** [datetime.fromisoformat] on a text of any length up to the forty characters
    the event code admits: the instant and the UTC offset in minutes ([None] of a
    naive datetime), or [None] where it raises [ValueError]. The lexical forms it
    accepts depend on the interpreter's release, so it is an interface;
    [strict_datetime] accepts the forms [datetime.isoformat] itself writes. *)
Class PyDatetime := parse_iso : string -> option (Z * option Z).

Definition strict_datetime : PyDatetime := fun s =>
  '(date, time, fraction, offset) ← iso_datetime s;
  t ← fromisoformat date time fraction offset;
  Some (t, Some offset).

(** The instants [datetime] can represent in UTC: years 1 to 9999. *)
Definition datetime_min : Z := -62135596800000000.
Definition datetime_max : Z := 253402300799999999.
Definition representable (t : Z) : bool := (datetime_min <=? t) && (t <=? datetime_max).

(** ** The calendar round trip *)

(** [p] on every [x] with [b <= x < b + 2^k]. *)
Fixpoint check_range (k : nat) (p : Z -> bool) (b : Z) : bool :=
  match k with
  | O => p b
  | S k => check_range k p b && check_range k p (b + 2 ^ Z.of_nat k)
  end.

Lemma check_range_spec k p b x :
  check_range k p b = true -> b <= x < b + 2 ^ Z.of_nat k -> p x = true.
Proof.
  revert b. induction k as [|k IH]; intros b; cbn [check_range].
  - cbn. intros Hp Hx. by replace x with b by lia.
  - rewrite andb_true_iff, Nat2Z.inj_succ, Z.pow_succ_r by lia. intros [H1 H2] Hx.
    destruct (Z.lt_ge_cases x (b + 2 ^ Z.of_nat k)); [apply (IH b)|apply (IH (b + 2 ^ Z.of_nat k))]; (done || lia).
Qed.

(** The month and day of a day of the year that starts in March. *)
Definition march_month_day (doy : Z) : Z * Z :=
  let mp := (5 * doy + 2) / 153 in
  (if mp <? 10 then mp + 3 else mp - 9, doy - (153 * mp + 2) / 5 + 1).

(** They are a date of every year, or 29 February on day 365; and count back. *)
Definition march_day_ok (doy : Z) : bool :=
  let '(m, d) := march_month_day doy in
  (366 <=? doy) ||
  ((1 <=? m) && (m <=? 12) && (1 <=? d) && ((d <=? days_in_month 1 m) || ((doy =? 365) && (m =? 2) && (d =? 29))) &&
   (doy =? (153 * (if 2 <? m then m - 3 else m + 9) + 2) / 5 + d - 1)).

Definition year_of_era (doe : Z) : Z := (doe - doe / 1460 + doe / 36524 - doe / 146096) / 365.

(** A year of the era with a day 365 is followed by a leap February. *)
Definition long_year_ok (yoe : Z) : bool :=
  let doe := 365 * yoe + yoe / 4 - yoe / 100 + 365 in
  (400 <=? yoe) || (146097 <=? doe) || negb (year_of_era doe =? yoe) || is_leap (yoe + 1).

Lemma march_days_ok doy : 0 <= doy < 366 -> march_day_ok doy = true.
Proof.
  intros H. apply (check_range_spec 9 march_day_ok 0); [vm_compute; reflexivity|]. change (2 ^ Z.of_nat 9) with 512. lia.
Qed.

Lemma long_years_ok yoe : 0 <= yoe < 400 -> long_year_ok yoe = true.
Proof.
  intros H. apply (check_range_spec 9 long_year_ok 0); [vm_compute; reflexivity|]. change (2 ^ Z.of_nat 9) with 512. lia.
Qed.

Lemma year_of_era_spec doe : 0 <= doe < 146097 ->
  let yoe := year_of_era doe in
  0 <= yoe < 400 /\ 0 <= doe - (365 * yoe + yoe / 4 - yoe / 100) < 366.
Proof.
  unfold year_of_era. intros H. cbn. split; Z.div_mod_to_equations; lia.
Qed.

Lemma days_in_month_leap y m d :
  1 <= m <= 12 -> d <= days_in_month 1 m \/ (is_leap y = true /\ m = 2 /\ d = 29) -> d <= days_in_month y m.
Proof.
  unfold days_in_month. intros Hm [Hd|(Hl & -> & ->)]; [|by rewrite Hl].
  destruct (m =? 2); [|done]. change (is_leap 1) with false in Hd. cbn in Hd. destruct (is_leap y); lia.
Qed.

Lemma is_leap_era y e : is_leap (y + e * 400) = is_leap y.
Proof.
  unfold is_leap. replace (y + e * 400) with (y + (e * 100) * 4) at 1 by lia. rewrite Z_mod_plus_full.
  replace (y + e * 400) with (y + (e * 4) * 100) at 1 by lia. rewrite Z_mod_plus_full.
  by rewrite Z_mod_plus_full.
Qed.

Lemma days_in_month_era y m e : days_in_month (y + e * 400) m = days_in_month y m.
Proof. unfold days_in_month. by rewrite is_leap_era. Qed.

Lemma civil_from_days_era days :
  civil_from_days days =
    (let z := days + 719468 in
     let era := z / 146097 in
     let doe := z - era * 146097 in
     let yoe := year_of_era doe in
     let '(m, d) := march_month_day (doe - (365 * yoe + yoe / 4 - yoe / 100)) in
     ((if m <=? 2 then yoe + era * 400 + 1 else yoe + era * 400), m, d)).
Proof. reflexivity. Qed.

(** The date of a day number is valid and denotes that day. *)
Lemma civil_roundtrip days y m d :
  civil_from_days days = (y, m, d) ->
  days_from_civil y m d = days /\ 1 <= m <= 12 /\ 1 <= d <= days_in_month y m.
Proof.
  rewrite civil_from_days_era. cbv zeta.
  set (z := days + 719468). set (era := z / 146097). set (doe := z - era * 146097).
  assert (Hdoe : 0 <= doe < 146097).
  { pose proof (Z.mod_pos_bound z 146097 eq_refl). unfold doe, era. pose proof (Z.div_mod z 146097). lia. }
  destruct (year_of_era_spec doe Hdoe) as [Hyoe Hdoy]. set (yoe := year_of_era doe) in *.
  set (doy := doe - (365 * yoe + yoe / 4 - yoe / 100)) in *.
  pose proof (march_days_ok doy ltac:(lia)) as Hok. unfold march_day_ok in Hok.
  destruct (march_month_day doy) as [m' d'] eqn:Hmd. clear Hmd.
  rewrite (proj2 (Z.leb_gt _ _)) in Hok by lia. cbn [orb] in Hok.
  rewrite !andb_true_iff, orb_true_iff, !andb_true_iff, !Z.leb_le, !Z.eqb_eq in Hok.
  destruct Hok as [[[[Hm0 Hm1] Hd0] Hd1] Heq]. intros E. injection E as <- <- <-.
  assert (Hleap : doy = 365 -> is_leap (yoe + 1) = true).
  { intros H365. pose proof (long_years_ok yoe Hyoe) as Hl. unfold long_year_ok in Hl.
    replace (365 * yoe + yoe / 4 - yoe / 100 + 365) with doe in Hl by (unfold doy in H365; lia).
    rewrite (proj2 (Z.leb_gt 400 _)), (proj2 (Z.leb_gt 146097 _)) in Hl by lia.
    fold yoe in Hl. rewrite Z.eqb_refl in Hl. exact Hl. }
  split_and!; [|done|done|done|].
  - unfold days_from_civil.
    assert (Hyy : (if m' <=? 2 then (if m' <=? 2 then yoe + era * 400 + 1 else yoe + era * 400) - 1
             else (if m' <=? 2 then yoe + era * 400 + 1 else yoe + era * 400)) = yoe + era * 400) by (destruct (m' <=? 2); lia).
    rewrite Hyy. rewrite Z.div_add, (Z.div_small yoe), Z.add_0_l by lia.
    replace (yoe + era * 400 - era * 400) with yoe by lia.
    replace ((153 * (if 2 <? m' then m' - 3 else m' + 9) + 2) / 5 + d' - 1) with doy by lia. unfold doy, doe, z. lia.
  - apply days_in_month_leap; [done|]. destruct Hd1 as [Hd1|[[Hl ->] ->]]; [by left|]. right.
    split_and!; [|done|done]. cbn. replace (yoe + era * 400 + 1) with (yoe + 1 + era * 400) by lia.
    rewrite is_leap_era. by apply Hleap.
Qed.

(** ** The text round trip *)
Lemma digit_value_char d : 0 <= d < 10 -> digit_value (digit_char d) = Some d.
Proof.
  intros H. assert (Hd : d = 0 \/ d = 1 \/ d = 2 \/ d = 3 \/ d = 4 \/ d = 5 \/ d = 6 \/ d = 7 \/ d = 8 \/ d = 9) by lia.
  by destruct_or! Hd; subst.
Qed.

Lemma take_digits_S n acc s :
  take_digits (S n) acc s = ('(a, r) ← take_digits n acc s; take_digits 1 a r).
Proof.
  revert acc s. induction n as [|n IH]; intros acc s; [done|].
  change (take_digits (S (S n)) acc s) with
    (match s with String c s => v ← digit_value c; take_digits (S n) (10 * acc + v) s | EmptyString => None end).
  destruct s as [|c s]; [done|]. cbn [take_digits]. destruct (digit_value c) as [v|]; [|done].
  apply IH.
Qed.

Lemma take_digits_digits n x acc rest : 0 <= x < 10 ^ Z.of_nat n ->
  take_digits n acc (digits n x +:+ rest) = Some (acc * 10 ^ Z.of_nat n + x, rest).
Proof.
  revert x acc rest. induction n as [|n IH]; intros x acc rest Hx.
  { cbn in *. do 2 f_equal. lia. }
  rewrite Nat2Z.inj_succ, Z.pow_succ_r in * by lia. rewrite take_digits_S. cbn [digits].
  rewrite string_app_assoc. rewrite IH by (Z.div_mod_to_equations; lia).
  rewrite string_app_cons, string_app_nil_l. unfold mbind, option_bind. cbn [take_digits].
  rewrite digit_value_char by (apply Z.mod_pos_bound; lia). unfold mbind, option_bind. do 2 f_equal.
  pose proof (Z.div_mod x 10). lia.
Qed.

Lemma take_digits_field n x rest : 0 <= x < 10 ^ Z.of_nat n -> take_digits n 0 (digits n x +:+ rest) = Some (x, rest).
Proof. intros Hx. by rewrite take_digits_digits. Qed.

Lemma digits_length n x : String.length (digits n x) = n.
Proof.
  revert x. induction n as [|n IH]; intros x; [done|]. cbn [digits]. rewrite string_length_app, IH. cbn. lia.
Qed.

Lemma digits_all n x : all_chars is_digit (digits n x) = true.
Proof.
  revert x. induction n as [|n IH]; intros x; [done|]. cbn [digits]. rewrite all_chars_app, IH. cbn.
  pose proof (Z.mod_pos_bound x 10 eq_refl) as Hm. pose proof (digit_value_char _ Hm) as Hd.
  unfold digit_value in Hd. by destruct (is_digit _).
Qed.

Lemma digit_run_digits s c rest : all_chars is_digit s = true -> is_digit c = false ->
  digit_run (s +:+ String c rest) = (s, String c rest).
Proof.
  intros Hs Hc. string_induction s; [by rewrite Hc|]. cbn in Hs. apply andb_true_iff in Hs as [-> Hs].
  by rewrite IH.
Qed.

Lemma days_in_month_le y m : days_in_month y m <= 31.
Proof. unfold days_in_month. repeat case_match; lia. Qed.

(** Representable instants fall in the years 1 to 9999. *)
Lemma representable_year t y m d :
  representable t = true -> civil_from_days (t / day) = (y, m, d) -> 1 <= y <= 9999.
Proof.
  unfold representable. rewrite andb_true_iff, !Z.leb_le. unfold datetime_min, datetime_max, day. intros Ht Hc.
  apply civil_roundtrip in Hc as (Hd & Hm & Hdd). pose proof (days_in_month_le y m) as H31.
  assert (Hdays : -719162 <= t / 86400000000 <= 2932896) by (Z.div_mod_to_equations; lia).
  unfold days_from_civil in Hd.
  set (doy := (153 * (if 2 <? m then m - 3 else m + 9) + 2) / 5 + d - 1) in Hd.
  assert (Hdoy : 0 <= doy <= 367 /\ (m <= 2 -> 306 <= doy) /\ (2 < m -> doy <= 305)).
  { unfold doy. destruct (Z.ltb_spec 2 m); Z.div_mod_to_equations; lia. }
  clearbody doy. destruct (Z.leb_spec m 2); Z.div_mod_to_equations; lia.
Qed.

(** The components of an instant's time of day. *)
Lemma day_seconds t : 0 <= t mod day / second < 86400.
Proof. pose proof (Z.mod_pos_bound t day eq_refl). unfold day, second in *. Z.div_mod_to_equations; lia. Qed.

Lemma take_char_lit c s : take_char c (String c EmptyString +:+ s) = Some s.
Proof. rewrite string_app_cons, string_app_nil_l. unfold take_char. by rewrite Ascii.eqb_refl. Qed.

Lemma iso_prefix_seconds t y m d rest :
  representable t = true -> civil_from_days (t / day) = (y, m, d) ->
  let s := t mod day / second in
  iso_prefix (strftime_seconds t +:+ rest) = Some ((y, m, d), (s / 3600, s / 60 mod 60, s mod 60), rest).
Proof.
  intros Hr Hc s. pose proof (representable_year _ _ _ _ Hr Hc) as Hy.
  pose proof (civil_roundtrip _ _ _ _ Hc) as (_ & Hm & Hd). pose proof (days_in_month_le y m) as H31.
  pose proof (day_seconds t) as Hs. fold s in Hs. unfold strftime_seconds. rewrite Hc. fold s.
  rewrite !string_app_assoc. unfold iso_prefix.
  assert (H2 : forall x, 0 <= x < 100 -> 0 <= x < 10 ^ Z.of_nat 2) by (intros; lia).
  rewrite take_digits_field by (cbn; lia). unfold mbind, option_bind. rewrite take_char_lit.
  do 5 (rewrite take_digits_field by (apply H2; Z.div_mod_to_equations; lia); rewrite ?take_char_lit).
  done.
Qed.

Lemma instant_parts t :
  t = (t / day) * day + (t mod day / second) * second + microsecond t.
Proof. unfold microsecond, day, second. Z.div_mod_to_equations; lia. Qed.

Lemma seconds_parts s : 0 <= s < 86400 ->
  0 <= s / 3600 < 24 /\ 0 <= s / 60 mod 60 < 60 /\ 0 <= s mod 60 < 60 /\
  (s / 3600 * 60 + s / 60 mod 60) * 60 + s mod 60 = s.
Proof. intros H. Z.div_mod_to_equations; lia. Qed.

(** The canonical text of an instant parses back to the instant. *)
Lemma canonical_timestamp_parses t :
  representable t = true -> microsecond t mod 1000 = 0 ->
  exists date time,
    iso_datetime (canonical_timestamp t) = Some (date, time, Some (digits 3 (microsecond t / 1000)), 0) /\
    fromisoformat date time (Some (digits 3 (microsecond t / 1000))) 0 = Some t.
Proof.
  intros Hr Hms. destruct (civil_from_days (t / day)) as [[y m] d] eqn:Hc.
  pose proof (representable_year _ _ _ _ Hr Hc) as Hy. pose proof (civil_roundtrip _ _ _ _ Hc) as (Hdays & Hm & Hd).
  pose proof (day_seconds t) as Hs. set (s := t mod day / second) in *.
  destruct (seconds_parts s Hs) as (Hh & Hmi & Hsec & Hsum).
  assert (Hmic : 0 <= microsecond t < 1000000) by (apply Z.mod_pos_bound; done).
  assert (Hf : 0 <= microsecond t / 1000 < 10 ^ Z.of_nat 3) by (change (10 ^ Z.of_nat 3) with 1000; Z.div_mod_to_equations; lia).
  exists (y, m, d), (s / 3600, s / 60 mod 60, s mod 60).
  assert (Htext : canonical_timestamp t = strftime_seconds t +:+ ("." +:+ (digits 3 (microsecond t / 1000) +:+ "Z"))).
  { unfold canonical_timestamp, iso_millis. destruct (Z.eqb_spec (microsecond t) 0) as [->|]; done. }
  split.
  - rewrite Htext. unfold iso_datetime. rewrite (iso_prefix_seconds t y m d) by done. unfold mbind, option_bind at 1.
    rewrite take_char_lit. fold s. rewrite (digit_run_digits _ "Z"%char "") by (apply digits_all || done).
    destruct (digits 3 (microsecond t / 1000)) as [|c r] eqn:E; [|done].
    pose proof (digits_length 3 (microsecond t / 1000)) as Hl. by rewrite E in Hl.
  - unfold fromisoformat.
    assert (Hmicro : fraction_micros (digits 3 (microsecond t / 1000)) = microsecond t).
    { unfold fraction_micros. change "000000" with ("000" +:+ "000").
      assert (H6 : forall x, take_digits 6 0 (digits 3 x +:+ ("000" +:+ "000")) =
                 ('(a, r) ← take_digits 3 0 (digits 3 x +:+ ("000" +:+ "000")); take_digits 3 a r)).
      { intros x. rewrite (take_digits_S 5), (take_digits_S 4), (take_digits_S 3).
        destruct (take_digits 3 0 _) as [[a r]|]; [|done]. cbn [mbind option_bind].
        unfold mbind, option_bind. rewrite (take_digits_S 2), (take_digits_S 1). unfold mbind, option_bind.
        destruct (take_digits 1 a r) as [[a1 r1]|]; [|done].
        by destruct (take_digits 1 a1 r1) as [[a2 r2]|]. }
      rewrite H6, take_digits_field by done.
      unfold mbind, option_bind. change ("000" +:+ "000") with (digits 3 0 +:+ "000").
      rewrite take_digits_digits by done. change (10 ^ Z.of_nat 3) with 1000. clear - Hms.
      Z.div_mod_to_equations; lia. }
    rewrite Hmicro.
    match goal with |- (if ?c then _ else _) = _ => assert (Hg : c = true) end.
    { rewrite !andb_true_iff, !Z.leb_le, !Z.ltb_lt. split_and!; lia. }
    rewrite Hg, Hdays. f_equal. rewrite Z.sub_0_r. rewrite Hsum. rewrite (instant_parts t) at 3. fold s. lia.
Qed.

(** ** The [isoformat] round trip *)
Lemma strftime_chars p t :
  (forall c, is_digit c = true -> p c = true) -> p "-"%char = true -> p "T"%char = true -> p ":"%char = true ->
  all_chars p (strftime_seconds t) = true.
Proof.
  intros Hd H1 H2 H3. unfold strftime_seconds. destruct (civil_from_days (t / day)) as [[y m] d].
  assert (Hdig : forall n x, all_chars p (digits n x) = true).
  { intros n x. by eapply all_chars_impl; [|apply digits_all]. }
  rewrite !all_chars_app, !Hdig. cbn. by rewrite H1, H2, H3.
Qed.

(** The part before the offset has neither the sign of the offset nor a [Z]. *)
Lemma isoformat_body_chars c t : is_digit c = false -> c <> "-"%char -> c <> "T"%char -> c <> ":"%char -> c <> "."%char ->
  contains_char c (strftime_seconds t +:+ isoformat_fraction t) = false.
Proof.
  intros Hc H1 H2 H3 H4. apply (all_chars_contains (fun d => negb (Ascii.eqb c d))); [|by rewrite Ascii.eqb_refl].
  assert (Hdig : forall d, is_digit d = true -> negb (Ascii.eqb c d) = true).
  { intros d Hd. destruct (Ascii.eqb_spec c d) as [->|]; [congruence|done]. }
  rewrite all_chars_app. apply andb_true_iff. split.
  - apply strftime_chars; [done|..]; by apply negb_true_iff, Ascii.eqb_neq.
  - unfold isoformat_fraction. case_match; [done|]. rewrite all_chars_app. cbn [all_chars].
    rewrite (proj2 (Ascii.eqb_neq c "."%char) H4). cbn [negb andb]. by eapply all_chars_impl; [|apply digits_all].
Qed.

Lemma isoformat_z_text t : isoformat_z t = strftime_seconds t +:+ isoformat_fraction t +:+ "Z".
Proof.
  unfold isoformat_z, isoformat. rewrite <- !string_app_assoc.
  rewrite replace_suffix; [done|]. by apply isoformat_body_chars.
Qed.

(** Undoing the [Z] abbreviation. *)
Lemma isoformat_z_expand t : replace "Z" "+00:00" (isoformat_z t) = isoformat t.
Proof.
  rewrite isoformat_z_text. unfold isoformat. rewrite <- !string_app_assoc.
  rewrite replace_suffix; [done|]. by apply isoformat_body_chars.
Qed.

Lemma isoformat_roundtrip t : representable t = true -> strict_datetime (isoformat t) = Some (t, Some 0).
Proof.
  intros Hr. destruct (civil_from_days (t / day)) as [[y m] d] eqn:Hc.
  pose proof (representable_year _ _ _ _ Hr Hc) as Hy. pose proof (civil_roundtrip _ _ _ _ Hc) as (Hdays & Hm & Hd).
  pose proof (day_seconds t) as Hs. set (s := t mod day / second) in *.
  destruct (seconds_parts s Hs) as (Hh & Hmi & Hsec & Hsum).
  assert (Hmic : 0 <= microsecond t < 1000000) by (apply Z.mod_pos_bound; done).
  set (fraction := if microsecond t =? 0 then None else Some (digits 6 (microsecond t))).
  assert (Hi : iso_datetime (isoformat t) = Some ((y, m, d), (s / 3600, s / 60 mod 60, s mod 60), fraction, 0)).
  { unfold isoformat, iso_datetime. rewrite (iso_prefix_seconds t y m d) by done. unfold mbind, option_bind at 1.
    fold s. unfold isoformat_fraction, fraction. destruct (microsecond t =? 0); [done|].
    rewrite string_app_assoc, take_char_lit. rewrite (digit_run_digits _ "+"%char "00:00") by (apply digits_all || done).
    destruct (digits 6 (microsecond t)) as [|c r] eqn:E; [|done].
    pose proof (digits_length 6 (microsecond t)) as Hl. by rewrite E in Hl. }
  unfold strict_datetime. rewrite Hi. unfold mbind, option_bind.
  assert (Hf : fromisoformat (y, m, d) (s / 3600, s / 60 mod 60, s mod 60) fraction 0 = Some t); [|by rewrite Hf].
  assert (Hmicro : match fraction with Some f => fraction_micros f | None => 0 end = microsecond t).
  { unfold fraction. destruct (Z.eqb_spec (microsecond t) 0) as [->|]; [done|].
    unfold fraction_micros. rewrite take_digits_field by (cbn; lia). done. }
  unfold fromisoformat. rewrite Hmicro.
  match goal with |- (if ?c then _ else _) = _ => assert (Hg : c = true) end.
  { rewrite !andb_true_iff, !Z.leb_le, !Z.ltb_lt. split_and!; lia. }
  rewrite Hg, Hdays. f_equal. rewrite Z.sub_0_r, Hsum. rewrite (instant_parts t) at 3. fold s. lia.
Qed.

(** What [datetime] documents: [fromisoformat] reads what [isoformat] writes. *)
Class PyDatetimeIso `{PyDatetime} : Prop :=
  parse_isoformat t : representable t = true -> parse_iso (isoformat t) = Some (t, Some 0).

#[export] Instance strict_datetime_iso : @PyDatetimeIso strict_datetime.
Proof. exact isoformat_roundtrip. Qed.

Lemma isoformat_inj t u : representable t = true -> representable u = true -> isoformat t = isoformat u -> t = u.
Proof. intros Ht Hu E. pose proof (isoformat_roundtrip t Ht) as H1. rewrite E, isoformat_roundtrip in H1 by done. congruence. Qed.

Lemma isoformat_z_ascii t : all_chars is_ascii (isoformat_z t) = true.
Proof.
  rewrite isoformat_z_text, !all_chars_app. assert (Hd : forall c, is_digit c = true -> is_ascii c = true).
  { by intros [[] [] [] [] [] [] [] []]. }
  rewrite strftime_chars by done. unfold isoformat_fraction. case_match; [done|]. 
  by rewrite all_chars_app, (all_chars_impl _ _ _ Hd (digits_all 6 (microsecond t))).
Qed.

Lemma isoformat_z_length t : (String.length (isoformat_z t) <= 27)%nat.
Proof.
  rewrite isoformat_z_text, !string_length_app. unfold strftime_seconds. destruct (civil_from_days (t / day)) as [[y m] d].
  rewrite !string_length_app, !digits_length. unfold isoformat_fraction. case_match; [cbn; lia|].
  rewrite string_length_app, digits_length. cbn. lia.
Qed.

(** The lexical form of [isoformat_z]. *)
Lemma isoformat_z_lexical t : representable t = true ->
  exists date time,
    iso_datetime (isoformat_z t) =
      Some (date, time, if microsecond t =? 0 then None else Some (digits 6 (microsecond t)), 0) /\
    fromisoformat date time (if microsecond t =? 0 then None else Some (digits 6 (microsecond t))) 0 = Some t.
Proof.
  intros Hr. pose proof (isoformat_roundtrip t Hr) as Hs. unfold strict_datetime in Hs.
  destruct (civil_from_days (t / day)) as [[y m] d] eqn:Hc.
  assert (Hlex : forall z, z = "Z" \/ z = "+00:00" ->
    iso_datetime (strftime_seconds t +:+ isoformat_fraction t +:+ z) =
      Some ((y, m, d), ((t mod day / second) / 3600, (t mod day / second) / 60 mod 60, (t mod day / second) mod 60),
            if microsecond t =? 0 then None else Some (digits 6 (microsecond t)), 0)).
  { intros z Hz. unfold iso_datetime. rewrite (iso_prefix_seconds t y m d) by done. unfold mbind, option_bind at 1.
    unfold isoformat_fraction. destruct (microsecond t =? 0); [by destruct Hz as [->| ->]|].
    rewrite string_app_assoc, take_char_lit. pose proof (digits_length 6 (microsecond t)) as Hl.
    destruct Hz as [->| ->];
      [rewrite (digit_run_digits _ "Z"%char "") by (apply digits_all || done)
      |rewrite (digit_run_digits _ "+"%char "00:00") by (apply digits_all || done)];
      destruct (digits 6 (microsecond t)); done. }
  unfold isoformat in Hs. rewrite Hlex in Hs by by right. unfold mbind, option_bind in Hs.
  rewrite isoformat_z_text. do 2 eexists. split; [apply Hlex; by left|].
  destruct (fromisoformat _ _ _ 0) as [u|]; [|done]. congruence.
Qed.

(** Six digits that end in three zeros denote whole milliseconds. *)
Lemma digits_milliseconds x : 0 <= x < 1000000 ->
  all_chars (fun c => Ascii.eqb c "0"%char) (string_drop 3 (digits 6 x)) = true -> x mod 1000 = 0.
Proof.
  intros Hx. assert (Hz : forall d, 0 <= d < 10 -> Ascii.eqb (digit_char d) "0" = true -> d = 0).
  { intros d Hd. assert (d = 0 \/ d = 1 \/ d = 2 \/ d = 3 \/ d = 4 \/ d = 5 \/ d = 6 \/ d = 7 \/ d = 8 \/ d = 9) as Ho by lia.
    by destruct_or! Ho; subst. }
  assert (E : digits 6 x = digits 3 (x / 10 / 10 / 10) +:+
    String (digit_char (x / 10 / 10 mod 10)) (String (digit_char (x / 10 mod 10)) (String (digit_char (x mod 10)) ""))).
  { change (digits 6 x) with (((digits 3 (x / 10 / 10 / 10) +:+ String (digit_char (x / 10 / 10 mod 10)) "") +:+
      String (digit_char (x / 10 mod 10)) "") +:+ String (digit_char (x mod 10)) ""). by rewrite !string_app_assoc. }
  rewrite E. pose proof (string_drop_app (digits 3 (x / 10 / 10 / 10))) as Hd. rewrite digits_length in Hd. rewrite Hd.
  cbn [all_chars]. rewrite !andb_true_iff. intros (H3 & H4 & H5 & _).
  apply Hz in H3; [|apply Z.mod_pos_bound; done]. apply Hz in H4; [|apply Z.mod_pos_bound; done].
  apply Hz in H5; [|apply Z.mod_pos_bound; done]. Z.div_mod_to_equations; lia.
Qed.
