(* ===== verification/Json.v ===== *)
(** * Json: canonical JSON and content digests

    [contracts/common.py]. A Python value that reaches a digest is a [json]: an
    object keeps its members in insertion order, [JTime] is a [datetime] not yet
    rendered. [rfc8785.dumps] is a third-party function: the class [Rfc8785]. *)
From S2P Require Import Prelude Text Sha256 Time.
From Stdlib Require Import SpecFloat Ascii.
Local Open Scope Z_scope.

Inductive json :=
  | JNull
  | JBool (b : bool)
  | JInt (z : Z)
  | JFloat (x : spec_float)
  | JStr (s : string)
  | JTime (t : Z)
  | JArr (l : list json)
  | JObj (members : list (string * json)).

(** Induction with the hypothesis for every element and member. *)
Lemma json_nested_ind (P : json -> Prop) :
  P JNull -> (forall b, P (JBool b)) -> (forall z, P (JInt z)) -> (forall x, P (JFloat x)) ->
  (forall s, P (JStr s)) -> (forall t, P (JTime t)) ->
  (forall l, Forall P l -> P (JArr l)) ->
  (forall ms, Forall (fun m => P (snd m)) ms -> P (JObj ms)) ->
  forall v, P v.
Proof.
  intros HN HB HI HF HS HT HA HO. fix IH 1. intros [|b|z|x|s|t|l|ms].
  - exact HN.
  - apply HB.
  - apply HI.
  - apply HF.
  - apply HS.
  - apply HT.
  - apply HA. induction l as [|v l IHl]; constructor; [apply IH|exact IHl].
  - apply HO. induction ms as [|[k v] ms IHms]; constructor; [apply IH|exact IHms].
Qed.

#[export] Instance spec_float_eq_dec : EqDecision spec_float.
Proof. solve_decision. Defined.

#[export] Instance json_eq_dec : EqDecision json.
Proof.
  refine (fix go v w := match v, w with
    | JNull, JNull => left _
    | JBool a, JBool b => cast_if (decide (a = b))
    | JInt a, JInt b => cast_if (decide (a = b))
    | JFloat a, JFloat b => cast_if (decide (a = b))
    | JStr a, JStr b => cast_if (decide (a = b))
    | JTime a, JTime b => cast_if (decide (a = b))
    | JArr a, JArr b => cast_if (@decide (a = b) (@list_eq_dec _ go a b))
    | JObj a, JObj b => cast_if (@decide (a = b)
        (@list_eq_dec _ (fun p q => @prod_eq_dec _ _ _ go p q) a b))
    | _, _ => right _
    end); abstract congruence.
Defined.

(** Member access, [dict.get(k)]. *)
Fixpoint assoc {A} (k : string) (members : list (string * A)) : option A :=
  match members with
  | [] => None
  | (k', v) :: members => if String.eqb k k' then Some v else assoc k members
  end.

Lemma assoc_elem {A} (k : string) (v : A) ms : assoc k ms = Some v -> (k, v) ∈ ms.
Proof.
  induction ms as [|[k' w] ms IH]; [done|]. cbn. destruct (String.eqb_spec k k') as [->|]; [|set_solver].
  intros E. injection E as ->. left.
Qed.

Lemma assoc_NoDup {A} (k : string) (v : A) ms : NoDup (fst <$> ms) -> (k, v) ∈ ms -> assoc k ms = Some v.
Proof.
  induction ms as [|[k' w] ms IH]; [by intros _ ?%elem_of_nil|]. cbn. intros [Hn Hd]%NoDup_cons Hin.
  apply elem_of_cons in Hin as [E|Hin]; [injection E as -> ->; by rewrite String.eqb_refl|].
  destruct (String.eqb_spec k k') as [->|]; [|by apply IH]. exfalso. apply Hn. by apply (list_elem_of_fmap_2 fst) in Hin.
Qed.

Lemma assoc_None {A} (k : string) (ms : list (string * A)) : assoc k ms = None <-> k ∉ fst <$> ms.
Proof.
  induction ms as [|[k' w] ms IH]; cbn; [rewrite elem_of_nil; naive_solver|].
  destruct (String.eqb_spec k k') as [->|]; [split; [done|set_solver]|]. rewrite IH. set_solver.
Qed.

Definition max_safe_int : Z := 9007199254740991.

Section canonical.
Context `{PyText}.

(** normalize_nfc_text: no surrogate occurs in UTF-8 text. *)
Definition normalize_nfc_text (value : string) : string := nfc value.

(** _normalize_datetime_string *)
Definition normalize_datetime_string (value : string) : result string :=
  match iso_datetime value with
  | None =>
      match iso_prefix value with
      | Some _ => Raise (AthenaValidationError "timestamp text must use RFC 3339 with Z or an HH:MM offset")
      | None => Ok value
      end
  | Some (date, time, fraction, offset) =>
      let imprecise :=
        match fraction with
        | Some f => (3 <? String.length f)%nat &&
            ((6 <? String.length f)%nat || negb (all_chars (fun c => Ascii.eqb c "0"%char) (string_drop 3 f)))
        | None => false
        end in
      if imprecise then Ok value
      else
        match fromisoformat date time fraction offset with
        | None => Ok value
        | Some t =>
            if negb (representable t) then Raise OverflowError
            else if negb (microsecond t mod 1000 =? 0)
            then Raise (AthenaValidationError "timestamp precision must be exactly representable in milliseconds")
            else Ok (canonical_timestamp t)
        end
  end.

(** _normalize_json_value *)
Fixpoint normalize_json_value (value : json) : result json :=
  match value with
  | JNull | JBool _ => Ok value
  | JStr s =>
      let text := normalize_nfc_text s in
      if contains_char "T"%char text then JStr <$> normalize_datetime_string text else Ok (JStr text)
  | JInt z =>
      if max_safe_int <? Z.abs z
      then Raise (AthenaValidationError "numeric value exceeds IEEE-754 safe integer range")
      else Ok value
  | JFloat (S754_infinity _) | JFloat S754_nan =>
      Raise (AthenaValidationError "non-finite JSON numbers are invalid")
  | JFloat (S754_zero true) => Raise (AthenaValidationError "negative zero is invalid in canonical JSON")
  | JFloat _ => Ok value
  | JTime t =>
      if negb (representable t) then Raise OverflowError
      else if negb (microsecond t mod 1000 =? 0)
      then Raise (AthenaValidationError "timestamp precision must be exactly representable in milliseconds")
      else Ok (JStr (canonical_timestamp t))
  | JArr l =>
      JArr <$> (fix go l := match l with
        | [] => Ok []
        | v :: l => v' ← normalize_json_value v; l' ← go l; Ok (v' :: l')
        end) l
  | JObj members =>
      JObj <$> (fix go seen members := match members with
        | [] => Ok []
        | (k, v) :: members =>
            let key_text := normalize_nfc_text k in
            if bool_decide (key_text ∈ seen)
            then Raise (NormalizationCollisionError "duplicate normalized object key")
            else v' ← normalize_json_value v; ms ← go (key_text :: seen) members; Ok ((key_text, v') :: ms)
        end) [] members
  end.

(** [rfc8785.dumps], on a value [_normalize_json_value] returned. *)
Class Rfc8785 := rfc8785_dumps : json -> string.
Context `{Rfc8785}.

(** canonicalize_json *)
Definition canonicalize_json (value : json) : result string :=
  rfc8785_dumps <$> normalize_json_value value.

(** canonicalize_for_digest *)
Definition canonicalize_for_digest (value : json) : result string :=
  v ← normalize_json_value value; canonicalize_json v.

(** compute_artifact_digest *)
Definition compute_artifact_digest (value : json) : result string :=
  sha256_hex <$> canonicalize_for_digest value.

(** compute_semantic_digest *)
Definition compute_semantic_digest (value : json) : result string :=
  sha256_hex <$> canonicalize_json value.

(** ** Normalization is idempotent *)

(** What [unicodedata] documents: NFC is idempotent and leaves ASCII text alone. *)
Hypothesis nfc_idem : forall s, nfc (nfc s) = nfc s.
Hypothesis nfc_ascii : forall s, all_chars is_ascii s = true -> nfc s = s.

Lemma digits_ascii n x : all_chars is_ascii (digits n x) = true.
Proof.
  eapply all_chars_impl; [|apply digits_all]. intros c. unfold is_digit, ascii_in, is_ascii.
  change (N_of_ascii "0") with 48%N. change (N_of_ascii "9") with 57%N.
  rewrite andb_true_iff, !N.leb_le, N.ltb_lt. lia.
Qed.

Lemma canonical_timestamp_ascii t : all_chars is_ascii (canonical_timestamp t) = true.
Proof.
  unfold canonical_timestamp, iso_millis, strftime_seconds. destruct (civil_from_days (t / day)) as [[y m] d].
  case_match; rewrite !all_chars_app, !digits_ascii; reflexivity.
Qed.

Lemma canonical_timestamp_T t : contains_char "T"%char (canonical_timestamp t) = true.
Proof.
  unfold canonical_timestamp, iso_millis, strftime_seconds. destruct (civil_from_days (t / day)) as [[y m] d].
  case_match; rewrite !contains_char_app; change (contains_char "T" "T") with true; by rewrite !orb_true_r.
Qed.

(** A canonical timestamp is its own normal form. *)
Lemma normalize_canonical_timestamp t :
  representable t = true -> microsecond t mod 1000 = 0 ->
  normalize_datetime_string (canonical_timestamp t) = Ok (canonical_timestamp t).
Proof.
  intros Hr Hm. destruct (canonical_timestamp_parses t Hr Hm) as (date & time & Hi & Hf).
  unfold normalize_datetime_string. rewrite Hi, Hf, Hr, Hm, digits_length. reflexivity.
Qed.

Lemma normalize_datetime_idem s s' :
  normalize_datetime_string s = Ok s' ->
  s' = s \/ exists t, s' = canonical_timestamp t /\ representable t = true /\ microsecond t mod 1000 = 0.
Proof.
  unfold normalize_datetime_string. destruct (iso_datetime s) as [[[[date time] fraction] offset]|].
  - case_match; [intros E; injection E as <-; by left|].
    destruct (fromisoformat date time fraction offset) as [t|]; [|intros E; injection E as <-; by left].
    destruct (representable t) eqn:Hr; [|done]. cbn [negb].
    destruct (Z.eqb_spec (microsecond t mod 1000) 0) as [Hm|]; [|done]. cbn [negb].
    intros E. injection E as <-. right. by exists t.
  - destruct (iso_prefix s); [done|]. intros E. injection E as <-. by left.
Qed.

Lemma normalize_text_idem s s' :
  (if contains_char "T"%char (nfc s) then JStr <$> normalize_datetime_string (nfc s) else Ok (JStr (nfc s))) = Ok (JStr s') ->
  normalize_json_value (JStr s') = Ok (JStr s').
Proof.
  intros Hs. cbn. unfold normalize_nfc_text. destruct (contains_char "T" (nfc s)) eqn:HT.
  - destruct (normalize_datetime_string (nfc s)) as [s0|] eqn:Hd; [|done]. cbn in Hs. injection Hs as ->.
    pose proof Hd as Hd0. apply normalize_datetime_idem in Hd as [->|(t & -> & Hr & Hm)].
    + rewrite nfc_idem, HT, Hd0. done.
    + rewrite nfc_ascii by apply canonical_timestamp_ascii.
      by rewrite canonical_timestamp_T, normalize_canonical_timestamp.
  - injection Hs as <-. by rewrite nfc_idem, HT.
Qed.

Lemma normalize_JArr l : normalize_json_value (JArr l) = JArr <$> mapR normalize_json_value l.
Proof.
  cbn [normalize_json_value]. f_equal. induction l as [|v l IH]; [done|]. cbn [mapR]. by rewrite IH.
Qed.

(** The members loop of [_normalize_json_value]. *)
Fixpoint normalize_members (seen : list string) (members : list (string * json)) : result (list (string * json)) :=
  match members with
  | [] => Ok []
  | (k, v) :: members =>
      if bool_decide (nfc k ∈ seen) then Raise (NormalizationCollisionError "duplicate normalized object key")
      else v' ← normalize_json_value v; ms ← normalize_members (nfc k :: seen) members; Ok ((nfc k, v') :: ms)
  end.

Lemma normalize_JObj ms : normalize_json_value (JObj ms) = JObj <$> normalize_members [] ms.
Proof.
  reflexivity.
Qed.

(** Normalization is idempotent: a normalized value is its own normal form. *)
Lemma normalize_json_idem v w : normalize_json_value v = Ok w -> normalize_json_value w = Ok w.
Proof.
  revert w. induction v as [|b|z|x|s|t|l IH|ms IH] using json_nested_ind; intros w Hw.
  - by injection Hw as <-.
  - by injection Hw as <-.
  - cbn in Hw. destruct (max_safe_int <? Z.abs z) eqn:E; [done|]. injection Hw as <-. cbn. by rewrite E.
  - cbn in Hw. destruct x as [[]|[]| |]; try done; by injection Hw as <-.
  - pose proof Hw as Hw'. cbn in Hw. unfold normalize_nfc_text in Hw. destruct (contains_char "T" (nfc s)) eqn:HT.
    + destruct (normalize_datetime_string (nfc s)) as [s'|] eqn:Hd; [|done]. injection Hw as <-.
      apply (normalize_text_idem s). by rewrite HT, Hd.
    + injection Hw as <-. apply (normalize_text_idem s). by rewrite HT.
  - cbn in Hw. destruct (representable t) eqn:Hr; [|done]. cbn [negb] in Hw.
    destruct (Z.eqb_spec (microsecond t mod 1000) 0) as [Hm|]; [|done]. injection Hw as <-.
    cbn. unfold normalize_nfc_text. rewrite nfc_ascii by apply canonical_timestamp_ascii.
    by rewrite canonical_timestamp_T, normalize_canonical_timestamp.
  - rewrite normalize_JArr in Hw. destruct (mapR normalize_json_value l) as [l'|] eqn:Hl; [|done]. injection Hw as <-.
    rewrite normalize_JArr. apply mapR_Ok in Hl. enough (mapR normalize_json_value l' = Ok l') as -> by done.
    apply mapR_Ok. induction Hl as [|v v' l l' Hv _ IHl]; [constructor|]. inversion IH; subst. constructor; auto.
  - rewrite normalize_JObj in Hw. destruct (normalize_members [] ms) as [ms'|] eqn:Hms; [|done]. injection Hw as <-.
    rewrite normalize_JObj. enough (normalize_members [] ms' = Ok ms') as -> by done.
    revert Hms. generalize (@nil string). revert ms'.
    induction IH as [|[k v] ms Hv _ IHms]; intros ms' seen Hms; cbn [normalize_members] in Hms.
    + by injection Hms as <-.
    + case_bool_decide as Hk; [done|]. apply bind_Ok in Hms as (v' & Hv' & (ms'' & Hms'' & E)%bind_Ok). injection E as <-.
      cbn [normalize_members]. rewrite nfc_idem, bool_decide_eq_false_2 by done.
      rewrite (Hv _ Hv'). unfold mbind, result_bind at 1. by rewrite (IHms _ _ Hms'').
Qed.

Lemma artifact_semantic_digest v : compute_artifact_digest v = compute_semantic_digest v.
Proof.
  unfold compute_artifact_digest, compute_semantic_digest, canonicalize_for_digest, canonicalize_json.
  destruct (normalize_json_value v) as [w|e] eqn:Hv; [|done]. unfold mbind, result_bind.
  by rewrite (normalize_json_idem _ _ Hv).
Qed.

(** ** Values that canonicalize *)
Lemma normalize_plain_text s : all_chars is_ascii s = true -> contains_char "T"%char s = false ->
  normalize_json_value (JStr s) = Ok (JStr s).
Proof. clear nfc_idem. intros Hs HT. cbn. unfold normalize_nfc_text. by rewrite nfc_ascii, HT. Qed.

(** The text of an instant with any number of microseconds canonicalizes. *)
Lemma normalize_isoformat_z t : representable t = true -> is_ok (normalize_json_value (JStr (isoformat_z t))) = true.
Proof.
  clear nfc_idem. intros Hr. cbn. unfold normalize_nfc_text. rewrite nfc_ascii by apply isoformat_z_ascii.
  destruct (contains_char "T" (isoformat_z t)); [|done]. destruct (isoformat_z_lexical t Hr) as (date & time & Hi & Hf).
  unfold normalize_datetime_string. rewrite Hi.
  assert (Hm : 0 <= microsecond t < 1000000) by (apply Z.mod_pos_bound; done).
  destruct (Z.eqb_spec (microsecond t) 0) as [E|E].
  - rewrite Hf, Hr, E. done.
  - rewrite digits_length. change (3 <? 6)%nat with true. change (6 <? 6)%nat with false. cbn [andb orb].
    destruct (all_chars _ (string_drop 3 _)) eqn:Hz; [|done]. cbn [negb]. rewrite Hf, Hr.
    apply digits_milliseconds in Hz; [|done]. by rewrite Hz.
Qed.

Lemma normalize_JArr_ok l : Forall (fun v => is_ok (normalize_json_value v) = true) l ->
  is_ok (normalize_json_value (JArr l)) = true.
Proof.
  clear nfc_idem nfc_ascii. rewrite normalize_JArr. intros Hl. assert (Hm : is_ok (mapR normalize_json_value l) = true).
  { induction Hl as [|v l Hv _ IH]; [done|]. cbn [mapR]. apply is_ok_spec in Hv as [w ->].
    apply is_ok_spec in IH as [ws ->]. done. }
  by apply is_ok_spec in Hm as [ws ->].
Qed.

Lemma normalize_JObj_ok ms :
  forallb (fun k => all_chars is_ascii k) (fst <$> ms) = true -> unique (fst <$> ms) = true ->
  Forall (fun v => is_ok (normalize_json_value v) = true) (snd <$> ms) ->
  is_ok (normalize_json_value (JObj ms)) = true.
Proof.
  clear nfc_idem. intros Ha Hu%unique_NoDup Hv. rewrite normalize_JObj.
  enough (forall seen, (forall k, k ∈ fst <$> ms -> k ∉ seen) -> is_ok (normalize_members seen ms) = true) as Hg.
  { specialize (Hg [] ltac:(set_solver)). by apply is_ok_spec in Hg as [ms' ->]. }
  induction ms as [|[k v] ms IH]; intros seen Hs; [done|]. cbn in *. apply andb_true_iff in Ha as [Hk Ha].
  apply NoDup_cons in Hu as [Hn Hu]. apply Forall_cons in Hv as [Hv Hvs].
  rewrite nfc_ascii by done. rewrite bool_decide_eq_false_2 by (apply Hs; left).
  apply is_ok_spec in Hv as [w ->]. unfold mbind, result_bind.
  specialize (IH Ha Hu Hvs (k :: seen)). apply is_ok_spec in IH as [ms' ->]; [done|].
  intros k' Hk' [->|Hin]%elem_of_cons; [done|]. by apply (Hs k'); [right|].
Qed.

(** canonicalization for a digest normalizes twice, to no effect: the
    artifact digest and the semantic digest of a value are the same, value or
    error. *)
Theorem artifact_digest_is_semantic_digest v : compute_artifact_digest v = compute_semantic_digest v.
Proof. apply artifact_semantic_digest. Qed.

Lemma compute_artifact_digest_shape v d : compute_artifact_digest v = Ok d -> is_digest d = true.
Proof.
  unfold compute_artifact_digest. destruct (canonicalize_for_digest v) as [c|e]; [|discriminate].
  intros E. injection E as <-. apply sha256_hex_is_digest.
Qed.
End canonical.

(** [model.model_dump(mode="json", by_alias=True, exclude_none=True)]: pydantic's
    rendering of a model, and of a [datetime] field in it. *)
Class ModelDump (A : Type) := model_dump : A -> json.
Class PydanticJson := json_datetime : Z -> string.

(** A member that [exclude_none] drops when it is [None]. *)
Definition opt_member (k : string) (v : option json) : list (string * json) :=
  match v with Some v => [(k, v)] | None => [] end.

(** ** Python's [==] on JSON values *)

(** The exact value [m * 2 ^ e] of a finite number; a [bool] is an [int]. *)
Definition finite_number (v : json) : option (Z * Z) :=
  match v with
  | JBool b => Some (if b then 1 else 0, 0)
  | JInt z => Some (z, 0)
  | JFloat (S754_zero _) => Some (0, 0)
  | JFloat (S754_finite s m e) => Some (if s then Zneg m else Zpos m, e)
  | _ => None
  end.

Definition number_eq (x y : Z * Z) : bool :=
  let e := Z.min (snd x) (snd y) in
  fst x * 2 ^ (snd x - e) =? fst y * 2 ^ (snd y - e).

(** Equality of values that are not both objects or both arrays. *)
Definition scalar_eq (left right : json) : bool :=
  match left, right with
  | JNull, JNull => true
  | JStr a, JStr b => String.eqb a b
  | JTime a, JTime b => a =? b
  | JFloat (S754_infinity a), JFloat (S754_infinity b) => Bool.eqb a b
  | _, _ =>
      match finite_number left, finite_number right with
      | Some x, Some y => number_eq x y
      | _, _ => false
      end
  end.

(** [left == right]: dicts compare by members, in any order. *)
Fixpoint py_eq (left right : json) : bool :=
  match left, right with
  | JObj l, JObj r =>
      bool_decide (length l = length r) &&
      (fix all l := match l with
       | [] => true
       | (k, v) :: l => match assoc k r with Some w => py_eq v w | None => false end && all l
       end) l
  | JArr l, JArr r =>
      (fix all l r := match l, r with
       | [], [] => true
       | v :: l, w :: r => py_eq v w && all l r
       | _, _ => false
       end) l r
  | _, _ => scalar_eq left right
  end.

(** The recursive equations of [py_eq]. *)
Lemma py_eq_JObj l r :
  py_eq (JObj l) (JObj r) = bool_decide (length l = length r) &&
    forallb (fun m => match assoc (fst m) r with Some w => py_eq (snd m) w | None => false end) l.
Proof. cbn. f_equal. induction l as [|[k v] l IH]; [done|]. cbn. by rewrite IH. Qed.

Lemma py_eq_JArr l r : py_eq (JArr l) (JArr r) = true <-> Forall2 (fun v w => py_eq v w = true) l r.
Proof.
  cbn. revert r. induction l as [|v l IH]; intros [|w r]; [split; [constructor|done]|by split; [|inversion 1]..|].
  rewrite andb_true_iff, IH. split; [intros []; by constructor|by inversion_clear 1].
Qed.

Lemma py_eq_JStr a b : py_eq (JStr a) (JStr b) = true <-> a = b.
Proof. apply String.eqb_eq. Qed.

Lemma py_eq_JInt a b : py_eq (JInt a) (JInt b) = true <-> a = b.
Proof. change (a * 1 =? b * 1 = true <-> a = b). rewrite Z.eqb_eq. lia. Qed.

(** ** JSON access *)

(** [bool(value)] *)
Definition truthy (v : json) : bool :=
  match v with
  | JNull | JBool false => false
  | JBool true => true
  | JInt z => negb (z =? 0)
  | JFloat (S754_zero _) => false
  | JFloat _ => true
  | JStr s => negb (String.eqb s "")
  | JTime _ => true
  | JArr l => negb (bool_decide (l = []))
  | JObj ms => negb (bool_decide (ms = []))
  end.

(** [d.get(k)] and [a or b] *)
Definition get (k : string) (d : list (string * json)) : json := default JNull (assoc k d).
Definition py_or (a b : json) : json := if truthy a then a else b.
Definition has_key (k : string) (d : list (string * json)) : bool := bool_decide (is_Some (assoc k d)).

(** [payload[key] = value], at the place of a key that is there *)
Fixpoint set_member (k : string) (v : json) (members : list (string * json)) : list (string * json) :=
  match members with
  | [] => [(k, v)]
  | (k', w) :: members => if String.eqb k k' then (k, v) :: members else (k', w) :: set_member k v members
  end.

(** [str(value)] of a JSON value that is not a string. *)
Class PyStr := repr_json : json -> string.

(** [str(value)] *)
Definition py_str `{PyStr} (v : json) : string :=
  match v with JStr s => s | _ => repr_json v end.
