(* ===== verification/Concrete.v ===== *)
(** * Concrete: instances the witnesses evaluate on

    The development's theorems quantify over the third-party functions; the
    witnesses instantiate them. [coded_json] renders a JSON value injectively:
    the bits of its code, three to a character. *)
From S2P Require Import Prelude Text Json.
From Stdlib Require Import Ascii SpecFloat.
Local Open Scope Z_scope.

#[export] Existing Instance ascii_text.

(** ** JSON values are countable *)
#[export] Instance spec_float_countable : Countable spec_float.
Proof.
  refine (inj_countable'
    (fun x => match x with
     | S754_zero s => inl s | S754_infinity s => inr (inl s) | S754_nan => inr (inr (inl tt))
     | S754_finite s m e => inr (inr (inr (s, m, e))) end)
    (fun y => match y with
     | inl s => S754_zero s | inr (inl s) => S754_infinity s | inr (inr (inl tt)) => S754_nan
     | inr (inr (inr (s, m, e))) => S754_finite s m e end) _).
  by intros [].
Defined.

Definition json_leaf : Type := option bool + (Z + (spec_float + (string + Z))).

Fixpoint json_tree (v : json) : gen_tree json_leaf :=
  match v with
  | JNull => GenLeaf (inl None)
  | JBool b => GenLeaf (inl (Some b))
  | JInt z => GenLeaf (inr (inl z))
  | JFloat x => GenLeaf (inr (inr (inl x)))
  | JStr s => GenLeaf (inr (inr (inr (inl s))))
  | JTime t => GenLeaf (inr (inr (inr (inr t))))
  | JArr l => GenNode 0 (json_tree <$> l)
  | JObj ms => GenNode 1 ((fun m => GenNode 2 [GenLeaf (inr (inr (inr (inl (fst m))))); json_tree (snd m)]) <$> ms)
  end.

(** The string of a leaf that holds a member's name. *)
Definition leaf_text (t : gen_tree json_leaf) : string :=
  match t with GenLeaf (inr (inr (inr (inl s)))) => s | _ => "" end.

Fixpoint tree_json (t : gen_tree json_leaf) : json :=
  match t with
  | GenLeaf (inl None) => JNull
  | GenLeaf (inl (Some b)) => JBool b
  | GenLeaf (inr (inl z)) => JInt z
  | GenLeaf (inr (inr (inl x))) => JFloat x
  | GenLeaf (inr (inr (inr (inl s)))) => JStr s
  | GenLeaf (inr (inr (inr (inr t)))) => JTime t
  | GenNode 0 l => JArr (tree_json <$> l)
  | GenNode _ l => JObj ((fun t => match t with
      | GenNode _ [k; v] => (leaf_text k, tree_json v)
      | _ => ("", JNull)
      end) <$> l)
  end.

Lemma tree_json_tree v : tree_json (json_tree v) = v.
Proof.
  induction v as [| | | | | |l IH|ms IH] using json_nested_ind; try done; cbn; f_equal.
  - induction IH as [|v l Hv _ IHl]; cbn; [done|]. by rewrite Hv, IHl.
  - induction IH as [|[k v] ms Hv _ IHms]; cbn in *; [done|]. by rewrite Hv, IHms.
Qed.

#[export] Instance json_countable : Countable json.
Proof. exact (inj_countable' json_tree tree_json tree_json_tree). Defined.

(** ** Bits as text *)
Definition bit_char (n : nat) : ascii := ascii_of_nat (48 + n).

Fixpoint pos_text (p : positive) : string :=
  match p with
  | (p~0~0~0)%positive => String "0" (pos_text p)
  | (p~0~0~1)%positive => String "1" (pos_text p)
  | (p~0~1~0)%positive => String "2" (pos_text p)
  | (p~0~1~1)%positive => String "3" (pos_text p)
  | (p~1~0~0)%positive => String "4" (pos_text p)
  | (p~1~0~1)%positive => String "5" (pos_text p)
  | (p~1~1~0)%positive => String "6" (pos_text p)
  | (p~1~1~1)%positive => String "7" (pos_text p)
  | 1%positive => "a" | 2%positive => "b" | 3%positive => "c"
  | 4%positive => "d" | 5%positive => "e" | 6%positive => "f" | 7%positive => "g"
  end.

Lemma pos_text_inj p q : pos_text p = pos_text q -> p = q.
Proof.
  revert p q. fix IH 1. intros p q E.
  destruct p as [[[p|p|]|[p|p|]|]|[[p|p|]|[p|p|]|]|], q as [[[q|q|]|[q|q|]|]|[[q|q|]|[q|q|]|]|];
    cbn in E; try discriminate E; try reflexivity; injection E as E; f_equal; f_equal; f_equal; exact (IH _ _ E).
Qed.

#[export] Instance coded_json : Rfc8785 := fun v => pos_text (encode v).

Lemma coded_json_inj v w : coded_json v = coded_json w -> v = w.
Proof. unfold coded_json. intros E%pos_text_inj. by apply (inj encode) in E. Qed.

(** ** Digests of a concrete value *)
Lemma ascii_nfc_idem (s : string) : nfc (nfc s) = nfc s.
Proof. reflexivity. Qed.

Lemma ascii_nfc_ascii (s : string) : all_chars is_ascii s = true -> nfc s = s.
Proof. reflexivity. Qed.

Lemma artifact_digest_witness :
  compute_artifact_digest (JObj [("at", JStr "2024-01-02T03:04:05+01:00")]) =
  compute_semantic_digest (JObj [("at", JStr "2024-01-02T03:04:05+01:00")]).
Proof. exact (artifact_digest_is_semantic_digest ascii_nfc_idem ascii_nfc_ascii _). Defined.
