(* ===== verification/Manifest.v ===== *)
(** * Manifest: the data of the manifest contract

    The selector union of contracts/manifest.py, cardinalities, owners and roles;
    then the records and tagged unions a policy evaluation reads, with their model
    validators. A field keeps its source name after a short prefix; timestamps are
    instants in microseconds since the epoch; a Python [float] is an IEEE-754
    [spec_float]. *)
From S2P Require Import Prelude Text Json.
From Stdlib Require Import Ascii.
From Stdlib Require Export SpecFloat.

(** * Selectors, cardinalities, owners and roles of a manifest

    The selector union of contracts/manifest.py with its model validators. A
    selector keeps its source fields; [selector_id] and [selector_type] are the
    attributes every variant has. *)
Local Open Scope Z_scope.

(** _require_unique and _require_unique_text, on the keys of the items *)
Definition require_unique_text `{PyText} (values : list string) (label : string) : result unit :=
  guard_or (AthenaValidationError ("duplicate " +:+ label)) (unique (normalized_id <$> values)).

Record TagEquals := {
  te_key : string;
  te_value : string;
}.

Inductive AtomicSelector :=
  | ResourceIdListSelector (selector_id : string) (resource_ids : list string) (max_matches : Z)
  | TagPredicateSelector (selector_id : string) (predicates : list TagEquals) (max_matches : Z)
  | NamePredicateSelector (selector_id : string) (prefix suffix : option string) (max_matches : Z)
  | ResourceTypeSelector (selector_id resource_type : string)
      (locations resource_groups : list string) (max_matches : Z)
  | VmssSelector (selector_id scale_set_resource_id : string) (instance_ids : list string) (max_matches : Z)
  | LoadBalancerBackendSelector (selector_id load_balancer_resource_id backend_pool_name : string)
      (max_matches : Z)
  | SubnetSelector (selector_id subnet_resource_id : string) (max_matches : Z)
  | ImageSelector (selector_id publisher offer sku : string) (version : option string) (max_matches : Z)
  | ProvenanceSelector (selector_id collector_tool_name collector_tool_version
      identity_evidence_ref : string) (max_matches : Z).

Inductive ManifestSelector :=
  | Atomic (s : AtomicSelector)
  | CompositeAllSelector (selector_id : string) (children : list AtomicSelector) (max_matches : Z)
  | CompositeAnySelector (selector_id : string) (children : list AtomicSelector) (max_matches : Z).

#[export] Instance TagEquals_eq_dec : EqDecision TagEquals.
Proof. solve_decision. Defined.
#[export] Instance AtomicSelector_eq_dec : EqDecision AtomicSelector.
Proof. solve_decision. Defined.
#[export] Instance ManifestSelector_eq_dec : EqDecision ManifestSelector.
Proof. solve_decision. Defined.

Definition atomic_selector_id (s : AtomicSelector) : string :=
  match s with
  | ResourceIdListSelector id _ _ | TagPredicateSelector id _ _ | NamePredicateSelector id _ _ _
  | ResourceTypeSelector id _ _ _ _ | VmssSelector id _ _ _ | LoadBalancerBackendSelector id _ _ _
  | SubnetSelector id _ _ | ImageSelector id _ _ _ _ _ | ProvenanceSelector id _ _ _ _ => id
  end.

Definition selector_id (s : ManifestSelector) : string :=
  match s with
  | Atomic s => atomic_selector_id s
  | CompositeAllSelector id _ _ | CompositeAnySelector id _ _ => id
  end.

(** The [selectorType] literals. *)
Definition selector_type (s : ManifestSelector) : string :=
  match s with
  | Atomic (ResourceIdListSelector _ _ _) => "resourceIdList"
  | Atomic (TagPredicateSelector _ _ _) => "tagPredicate"
  | Atomic (NamePredicateSelector _ _ _ _) => "namePredicate"
  | Atomic (ResourceTypeSelector _ _ _ _ _) => "resourceType"
  | Atomic (VmssSelector _ _ _ _) => "vmScaleSet"
  | Atomic (LoadBalancerBackendSelector _ _ _ _) => "loadBalancerBackend"
  | Atomic (SubnetSelector _ _ _) => "subnet"
  | Atomic (ImageSelector _ _ _ _ _ _) => "image"
  | Atomic (ProvenanceSelector _ _ _ _ _) => "provenance"
  | CompositeAllSelector _ _ _ => "compositeAll"
  | CompositeAnySelector _ _ _ => "compositeAny"
  end.

Definition selector_children (s : ManifestSelector) : list AtomicSelector :=
  match s with
  | Atomic _ => []
  | CompositeAllSelector _ children _ | CompositeAnySelector _ children _ => children
  end.

(** The model validators of the selector variants. *)
Definition validate_atomic_selector `{PyText} (s : AtomicSelector) : result unit :=
  match s with
  | ResourceIdListSelector _ resource_ids _ => require_unique_text resource_ids "selector resource id"
  | TagPredicateSelector _ predicates _ => require_unique_text (te_key <$> predicates) "tag predicate key"
  | NamePredicateSelector _ prefix suffix _ =>
      _ ← raise_if (AthenaValidationError "namePredicate requires prefix or suffix")
            (bool_decide (prefix = None) && bool_decide (suffix = None));
      raise_if (AthenaValidationError "namePredicate forbids regex and wildcard syntax")
        (existsb (fun value =>
           match value with
           | Some v => existsb (fun token => contains_char token v) ["*"; "?"; "["; "]"; "("; ")"]%char
           | None => false
           end) [prefix; suffix])
  | ResourceTypeSelector _ _ locations resource_groups _ =>
      _ ← require_unique_text locations "selector location";
      require_unique_text resource_groups "selector resource group"
  | VmssSelector _ _ instance_ids _ => require_unique_text instance_ids "VM scale set instance id"
  | _ => Ok tt
  end.

(** CompositeAllSelector.validate_children, CompositeAnySelector.validate_children *)
Definition validate_children `{PyText} (s : ManifestSelector) : result unit :=
  match s with
  | Atomic s => validate_atomic_selector s
  | CompositeAllSelector _ children _ | CompositeAnySelector _ children _ =>
      _ ← mapR validate_atomic_selector children;
      require_unique_text (atomic_selector_id <$> children) "composite child selector id"
  end.

Inductive ManifestCardinality :=
  | ExactlyOneCardinality
  | OneOrMoreCardinality
  | ZeroOrMoreCardinality
  | BoundedCardinality (minimum maximum : Z).

#[export] Instance ManifestCardinality_eq_dec : EqDecision ManifestCardinality.
Proof. solve_decision. Defined.

(** The [ge]/[le] field bounds and [validate_range]. *)
Definition validate_cardinality (c : ManifestCardinality) : result unit :=
  match c with
  | BoundedCardinality lo hi =>
      _ ← guard_or (ValidationError "cardinality bound")
            ((0 <=? lo) && (lo <=? 10000) && (0 <=? hi) && (hi <=? 10000));
      raise_if (AthenaValidationError "cardinality maximum must be >= minimum") (hi <? lo)
  | _ => Ok tt
  end.

Record ManifestOwner := {
  mo_owner_ref : string;
  mo_owner_role : string;
  mo_authority_ref : string;
}.

Inductive RoleStatus := RoleApproved | RoleDeprecated.

Record ManifestRole := {
  mr_role_id : string;
  mr_kind : string;
  mr_cardinality : ManifestCardinality;
  mr_selectors : list ManifestSelector;
  mr_owner_ref : string;
  mr_status : RoleStatus;
}.

#[export] Instance ManifestOwner_eq_dec : EqDecision ManifestOwner.
Proof. solve_decision. Defined.
#[export] Instance RoleStatus_eq_dec : EqDecision RoleStatus.
Proof. solve_decision. Defined.
#[export] Instance ManifestRole_eq_dec : EqDecision ManifestRole.
Proof. solve_decision. Defined.

(** ManifestRole.validate_selectors *)
Definition validate_selectors `{PyText} (r : ManifestRole) : result unit :=
  require_unique_text (selector_id <$> mr_selectors r) "selector id".

(** * The contract data of the policy engine

    The records and tagged unions of [contracts/manifest.py] (and the evidence
    scopes and references of [contracts/models.py]) that a policy evaluation
    reads, with their model validators. A field keeps its source name after a
    short prefix; timestamps are instants in microseconds since the epoch;
    a Python [float] is an IEEE-754 [spec_float]. *)

(** ** Literals *)
Inductive AvailabilityZone := Zone1 | Zone2 | Zone3 | ZoneUnknown.
Inductive ResourceState := RsRunning | RsStopped | RsDeallocated | RsUnknown.
Inductive EvidenceState := StComplete | StMissing | StGap | StStale | StConflicting.
Inductive ProofSource := SrcObserved | SrcInferred.
Inductive Presence := PrPresent | PrAbsent.
Inductive ControlHealth := ChEffective | ChDegraded | ChMissing | ChUnknown | ChExpired.
Inductive ApprovalStatus := AsApproved | AsExpired | AsRevoked | AsSuperseded.
Inductive Comparison := CmpLt | CmpLte | CmpGt | CmpGte | CmpEq.
Inductive FindingVerdict :=
  | VPass | VViolation | VExpectedConstraint | VAcceptedResidualRisk
  | VObservation | VUnknown | VConflicting.
Inductive FailureVerdict := FvViolation | FvUnknown | FvConflicting.
Inductive SuccessVerdict := SvPass | SvExpectedConstraint | SvObservation.
Inductive ManifestFindingKind :=
  | FkArchitectureConstraint | FkTechnologyConstraint | FkActualSpof | FkControlHealth
  | FkRiskAcceptance | FkObjective | FkRelationshipConflict | FkEvidenceGap
  | FkOperationalState.
Inductive ConstraintType :=
  | CtCardinality | CtZoneColocation | CtZoneDistribution | CtRoleOperationalState
  | CtDependencyRequired | CtDependencyProhibited | CtSupportedSingleton
  | CtObjectiveRequired | CtEvidenceFreshness | CtControlRequired.

#[export] Instance AvailabilityZone_eq_dec : EqDecision AvailabilityZone.
Proof. solve_decision. Defined.
#[export] Instance ResourceState_eq_dec : EqDecision ResourceState.
Proof. solve_decision. Defined.
#[export] Instance EvidenceState_eq_dec : EqDecision EvidenceState.
Proof. solve_decision. Defined.
#[export] Instance ProofSource_eq_dec : EqDecision ProofSource.
Proof. solve_decision. Defined.
#[export] Instance Presence_eq_dec : EqDecision Presence.
Proof. solve_decision. Defined.
#[export] Instance ControlHealth_eq_dec : EqDecision ControlHealth.
Proof. solve_decision. Defined.
#[export] Instance ApprovalStatus_eq_dec : EqDecision ApprovalStatus.
Proof. solve_decision. Defined.
#[export] Instance FindingVerdict_eq_dec : EqDecision FindingVerdict.
Proof. solve_decision. Defined.
#[export] Instance FailureVerdict_eq_dec : EqDecision FailureVerdict.
Proof. solve_decision. Defined.
#[export] Instance ManifestFindingKind_eq_dec : EqDecision ManifestFindingKind.
Proof. solve_decision. Defined.
#[export] Instance ConstraintType_eq_dec : EqDecision ConstraintType.
Proof. solve_decision. Defined.

#[export] Instance AvailabilityZone_countable : Countable AvailabilityZone.
Proof.
  refine (inj_countable'
    (fun z => match z with Zone1 => 1%nat | Zone2 => 2%nat | Zone3 => 3%nat | ZoneUnknown => 0%nat end)
    (fun n => match n with 1%nat => Zone1 | 2%nat => Zone2 | 3%nat => Zone3 | _ => ZoneUnknown end) _).
  by intros [].
Defined.

(** The verdict literals a constraint declares are finding verdicts. *)
Definition failure_verdict_value (v : FailureVerdict) : FindingVerdict :=
  match v with FvViolation => VViolation | FvUnknown => VUnknown | FvConflicting => VConflicting end.
Definition success_verdict_value (v : SuccessVerdict) : FindingVerdict :=
  match v with SvPass => VPass | SvExpectedConstraint => VExpectedConstraint | SvObservation => VObservation end.

(** ** Evidence scopes and references (contracts/models.py) *)
Inductive EvidenceScope :=
  | SubscriptionScope (tenant_id subscription_id : string)
  | ResourceGroupScope (tenant_id subscription_id resource_group_name : string)
  | ResourceIdScope (resource_id : string)
  | LogAnalyticsWorkspaceScope (tenant_id subscription_id resource_group_name workspace_name : string)
  | ServiceHealthRegionScope (cloud region : string).

#[export] Instance EvidenceScope_eq_dec : EqDecision EvidenceScope.
Proof. solve_decision. Defined.

Record EvidenceItemRef := {
  ir_snapshot_id : string;
  ir_snapshot_artifact_digest : string;
  ir_snapshot_semantic_digest : string;
  ir_item_digest : string;
  ir_collector_attempt_id : string;
  ir_collector_attempt_digest : string;
  ir_collector_tool_name : string;
  ir_collector_tool_version : string;
  ir_collector_attempt_at : Z;
  ir_collector_identity_evidence_ref : string;
  ir_source_response_digest : string;
  ir_source_response_pointer : string;
}.

Record EvidenceGapRef := {
  gr_snapshot_id : string;
  gr_snapshot_artifact_digest : string;
  gr_snapshot_semantic_digest : string;
  gr_gap_id : string;
  gr_gap_record_digest : string;
  gr_evidence_scope : EvidenceScope;
  gr_expected_record_type : string;
  gr_collector_attempt_id : string;
  gr_collector_attempt_digest : string;
  gr_collector_tool_name : string;
  gr_collector_tool_version : string;
  gr_collector_attempt_at : Z;
  gr_collector_identity_evidence_ref : string;
  gr_gap_reason : string;
  gr_failure_payload_digest : option string;
  gr_failure_payload_pointer : option string;
}.

Inductive EvidenceReference :=
  | ItemRef (r : EvidenceItemRef)
  | GapRef (r : EvidenceGapRef).

#[export] Instance EvidenceItemRef_eq_dec : EqDecision EvidenceItemRef.
Proof. solve_decision. Defined.
#[export] Instance EvidenceGapRef_eq_dec : EqDecision EvidenceGapRef.
Proof. solve_decision. Defined.
#[export] Instance EvidenceReference_eq_dec : EqDecision EvidenceReference.
Proof. solve_decision. Defined.

Definition ref_snapshot_id (r : EvidenceReference) : string :=
  match r with ItemRef r => ir_snapshot_id r | GapRef r => gr_snapshot_id r end.
Definition ref_snapshot_artifact_digest (r : EvidenceReference) : string :=
  match r with
  | ItemRef r => ir_snapshot_artifact_digest r | GapRef r => gr_snapshot_artifact_digest r end.
Definition ref_snapshot_semantic_digest (r : EvidenceReference) : string :=
  match r with
  | ItemRef r => ir_snapshot_semantic_digest r | GapRef r => gr_snapshot_semantic_digest r end.
Definition ref_collector_attempt_at (r : EvidenceReference) : Z :=
  match r with
  | ItemRef r => ir_collector_attempt_at r | GapRef r => gr_collector_attempt_at r end.

(** [model.canonical_json()]: pydantic's [model_dump] rendered by [rfc8785.dumps],
    both outside the repository. The policy engine only compares the texts. *)
Class CanonicalJson (A : Type) := canonical_json : A -> string.

(** ** Manifest clauses *)
Inductive ManifestEndpoint :=
  | RoleEndpoint (role_ref : string)
  | ExternalEndpoint (external_ref : string).

Record ClauseScope := {
  cs_manifest_id : string;
  cs_profile_id : string;
  cs_clause_path : string;
  cs_owner_ref : string;
}.

Record DeclaredManifestRelationship := {
  dr_relationship_id : string;
  dr_kind : string;
  dr_source : ManifestEndpoint;
  dr_target : ManifestEndpoint;
  dr_owner_ref : string;
  dr_profiles : list string;
  dr_source_clause : string;
}.

Record ExceptionManifestRelationship := {
  xr_exception_id : string;
  xr_applies_to_relationship_ref : option string;
  xr_applies_to_clause_ref : option string;
  xr_risk_acceptance_ref : string;
  xr_governance_scope : ClauseScope;
  xr_owner_ref : string;
  xr_rationale : string;
  xr_expires_at : Z;
}.

Inductive ManifestRelationship :=
  | Declared (r : DeclaredManifestRelationship)
  | Exception (r : ExceptionManifestRelationship).

(** ExceptionManifestRelationship.validate_target *)
Definition validate_target (r : ExceptionManifestRelationship) : result unit :=
  raise_if (AthenaValidationError "exception requires exactly one relationship or clause target")
    (Bool.eqb (bool_decide (xr_applies_to_relationship_ref r = None))
              (bool_decide (xr_applies_to_clause_ref r = None))).

(** ** Proof requirements *)
Record RoleOperationalStateProof := {
  osp_role_ref : string;
  osp_healthy_states : list ResourceState;
  osp_failure_states : list ResourceState;
  osp_minimum_healthy : Z;
}.

Inductive ManifestProof :=
  | CardinalityProof (role_ref : string) (expected : ManifestCardinality)
  | ZoneColocationProof (subject_role_ref anchor_role_ref : string)
  | ZoneDistributionProof (role_ref : string) (minimum_distinct_zones : Z)
  | RoleOperationalState (p : RoleOperationalStateProof)
  | RelationshipPresenceProof (declared_relationship_ref : string)
  | EvidenceFreshnessProof (maximum_age_seconds : Z)
  | ControlHealthProof (control_ref : string) (required_health : ControlHealth)
  | ObjectiveThresholdProof (objective_ref : string) (comparison : Comparison)
      (threshold : spec_float).

(** RoleOperationalStateProof.validate_state_classification *)
Definition validate_state_classification (p : RoleOperationalStateProof) : result unit :=
  let healthy := osp_healthy_states p in
  let failure := osp_failure_states p in
  _ ← raise_if (AthenaValidationError "role operational state classifications must be unique")
        (negb (unique healthy) || negb (unique failure));
  _ ← raise_if (AthenaValidationError "unknown resource state cannot be classified as healthy or failure")
        (bool_decide (RsUnknown ∈ healthy) || bool_decide (RsUnknown ∈ failure));
  raise_if (AthenaValidationError "healthyStates and failureStates must be disjoint")
    (existsb (fun s => bool_decide (s ∈ failure)) healthy).

Record ManifestConstraint := {
  mc_constraint_id : string;
  mc_constraint_type : ConstraintType;
  mc_finding_kind : ManifestFindingKind;
  mc_governance_scope : ClauseScope;
  mc_owner_ref : string;
  mc_profiles : list string;
  mc_proof_requirement : ManifestProof;
  mc_failure_verdict : FailureVerdict;
  mc_success_verdict : SuccessVerdict;
  mc_risk_acceptance_ref : option string;
  mc_risk_acceptance_clause_ref : option string;
  mc_protected : bool;
}.

(** [isinstance(self.proof_requirement, proof_types[self.constraint_type])] *)
Definition proof_matches_type (t : ConstraintType) (p : ManifestProof) : bool :=
  match t, p with
  | CtCardinality, CardinalityProof _ _ => true
  | CtSupportedSingleton, CardinalityProof _ _ => true
  | CtZoneColocation, ZoneColocationProof _ _ => true
  | CtZoneDistribution, ZoneDistributionProof _ _ => true
  | CtRoleOperationalState, RoleOperationalState _ => true
  | CtDependencyRequired, RelationshipPresenceProof _ => true
  | CtDependencyProhibited, RelationshipPresenceProof _ => true
  | CtObjectiveRequired, ObjectiveThresholdProof _ _ _ => true
  | CtEvidenceFreshness, EvidenceFreshnessProof _ => true
  | CtControlRequired, ControlHealthProof _ _ => true
  | _, _ => false
  end.

(** ManifestConstraint.validate_constraint_shape *)
Definition validate_constraint_shape (c : ManifestConstraint) : result unit :=
  _ ← guard_or (AthenaValidationError "constraintType requires its matching proof variant")
        (proof_matches_type (mc_constraint_type c) (mc_proof_requirement c));
  _ ← raise_if (AthenaValidationError "dependencyProhibited requires failureVerdict violation")
        (bool_decide (mc_constraint_type c = CtDependencyProhibited) &&
         negb (bool_decide (mc_failure_verdict c = FvViolation)));
  raise_if (AthenaValidationError "riskAcceptanceClauseRef is allowed only for riskAcceptance findings")
    (negb (bool_decide (mc_risk_acceptance_clause_ref c = None)) &&
     negb (bool_decide (mc_finding_kind c = FkRiskAcceptance))).

(** ** Risk acceptances *)
Record AcceptedResourceBinding := {
  arb_role_ref : string;
  arb_resource_id : string;
}.

Record ManifestRiskAcceptance := {
  ra_risk_acceptance_id : string;
  ra_governance_scope : ClauseScope;
  ra_risk_kind : string;
  ra_risk_rating : string;
  ra_residual_risk_statement : string;
  ra_rationale_ref : string;
  ra_accepted_by : string;
  ra_owned_by : string;
  ra_accepted_at : Z;
  ra_expires_at : Z;
  ra_linked_control_refs : list string;
  ra_accepted_resource_bindings : list AcceptedResourceBinding;
  ra_profiles : list string;
  ra_status : ApprovalStatus;
}.

Section acceptance.
Context `{PyText}.

(** [(_normalized_id(binding.role_ref), _normalized_id(binding.resource_id))] *)
Definition binding_key (b : AcceptedResourceBinding) : string * string :=
  (normalized_id (arb_role_ref b), normalized_id (arb_resource_id b)).

(** ManifestRiskAcceptance.validate_lifetime *)
Definition validate_lifetime (a : ManifestRiskAcceptance) : result unit :=
  _ ← raise_if (AthenaValidationError "risk acceptance expiresAt must be after acceptedAt")
        (ra_expires_at a <=? ra_accepted_at a);
  raise_if (AthenaValidationError "acceptedResourceBindings must be unique")
    (negb (unique (binding_key <$> ra_accepted_resource_bindings a))).

(** ManifestRiskAcceptance.is_active *)
Definition is_active (a : ManifestRiskAcceptance) (as_of : Z)
    (manifest_id profile_id clause_path owner_ref : string) : bool :=
  let scope := ra_governance_scope a in
  bool_decide (ra_status a = AsApproved) &&
  (ra_accepted_at a <=? as_of) && (as_of <? ra_expires_at a) &&
  String.eqb (cs_manifest_id scope) manifest_id &&
  String.eqb (normalized_id (cs_profile_id scope)) (normalized_id profile_id) &&
  String.eqb (cs_clause_path scope) clause_path &&
  String.eqb (cs_owner_ref scope) owner_ref &&
  String.eqb (ra_owned_by a) owner_ref &&
  existsb (String.eqb (normalized_id profile_id)) (normalized_id <$> ra_profiles a).
End acceptance.

(** ** Controls, objectives and settings *)
Record ControlBase := {
  cb_control_id : string;
  cb_governance_scope : ClauseScope;
  cb_owner_ref : string;
  cb_profiles : list string;
  cb_health : string;
}.

Inductive ManifestControl :=
  | BackupControl (base : ControlBase) (backup_policy_ref : string) (last_successful_backup_at : Z)
      (evidence_refs : list string)
  | RestoreTestControl (base : ControlBase) (last_tested_at : Z) (test_outcome : string)
      (rto_observed_seconds : Z) (evidence_refs : list string)
  | ManualFailoverRunbookControl (base : ControlBase) (runbook_ref : string) (last_reviewed_at : Z)
  | MonitoringAlertControl (base : ControlBase) (alert_rule_ref enabled_state : string)
      (last_fired_at : option Z) (evidence_refs : list string)
  | CapacityReviewControl (base : ControlBase) (cadence : string) (last_reviewed_at next_review_due_at : Z)
  | AccessReviewControl (base : ControlBase) (cadence : string) (last_completed_at : Z)
      (review_system_ref : string)
  | ChangeApprovalControl (base : ControlBase) (approval_system_ref : string)
      (required_for_change_kinds : list string)
  | VendorSupportControl (base : ControlBase) (support_plan_ref coverage_hours : string) (expires_at : Z).

(** The [_ControlBase] fields of a control. *)
Definition control_base (c : ManifestControl) : ControlBase :=
  match c with
  | BackupControl b _ _ _ | RestoreTestControl b _ _ _ _ | ManualFailoverRunbookControl b _ _
  | MonitoringAlertControl b _ _ _ _ | CapacityReviewControl b _ _ _ | AccessReviewControl b _ _ _
  | ChangeApprovalControl b _ _ | VendorSupportControl b _ _ _ => b
  end.

Record ManifestObjective := {
  ob_objective_id : string;
  ob_objective_type : string;
  ob_owner_ref : string;
  ob_target : spec_float;
}.

Record ContinuitySettings := {
  cn_zone_loss_continuity_required : bool;
}.

Record ManifestProfileSettings := {
  st_continuity : ContinuitySettings;
}.

(** CapabilityRequirement and CompatibilityMetadata of contracts/models.py *)
Record CapabilityRequirement := {
  cq_capability_id : string;
  cq_minimum_version : string;
  cq_required_for : string;
}.

#[export] Instance CapabilityRequirement_eq_dec : EqDecision CapabilityRequirement.
Proof. solve_decision. Defined.

Record CompatibilityMetadata := {
  cm_artifact_kind : string;
  cm_schema_version : string;
  cm_semantic_contract_version : string;
  cm_policy_contract_version : string;
  cm_minimum_reader_version : string;
  cm_requires_capabilities : list CapabilityRequirement;
  cm_producer_id : string;
  cm_producer_version : string;
  cm_extension_policy : string;
  cm_artifact_digest : string;
  cm_semantic_digest : string;
}.

#[export] Instance ManifestEndpoint_eq_dec : EqDecision ManifestEndpoint.
Proof. solve_decision. Defined.
#[export] Instance ClauseScope_eq_dec : EqDecision ClauseScope.
Proof. solve_decision. Defined.
#[export] Instance DeclaredManifestRelationship_eq_dec : EqDecision DeclaredManifestRelationship.
Proof. solve_decision. Defined.
#[export] Instance ExceptionManifestRelationship_eq_dec : EqDecision ExceptionManifestRelationship.
Proof. solve_decision. Defined.
#[export] Instance ManifestRelationship_eq_dec : EqDecision ManifestRelationship.
Proof. solve_decision. Defined.
#[export] Instance Comparison_eq_dec : EqDecision Comparison.
Proof. solve_decision. Defined.
#[export] Instance RoleOperationalStateProof_eq_dec : EqDecision RoleOperationalStateProof.
Proof. solve_decision. Defined.
#[export] Instance ManifestProof_eq_dec : EqDecision ManifestProof.
Proof. solve_decision. Defined.
#[export] Instance SuccessVerdict_eq_dec : EqDecision SuccessVerdict.
Proof. solve_decision. Defined.
#[export] Instance ManifestConstraint_eq_dec : EqDecision ManifestConstraint.
Proof. solve_decision. Defined.
#[export] Instance AcceptedResourceBinding_eq_dec : EqDecision AcceptedResourceBinding.
Proof. solve_decision. Defined.
#[export] Instance ManifestRiskAcceptance_eq_dec : EqDecision ManifestRiskAcceptance.
Proof. solve_decision. Defined.
#[export] Instance ControlBase_eq_dec : EqDecision ControlBase.
Proof. solve_decision. Defined.
#[export] Instance ManifestControl_eq_dec : EqDecision ManifestControl.
Proof. solve_decision. Defined.
#[export] Instance ManifestObjective_eq_dec : EqDecision ManifestObjective.
Proof. solve_decision. Defined.
#[export] Instance ContinuitySettings_eq_dec : EqDecision ContinuitySettings.
Proof. solve_decision. Defined.
#[export] Instance ManifestProfileSettings_eq_dec : EqDecision ManifestProfileSettings.
Proof. solve_decision. Defined.
#[export] Instance CompatibilityMetadata_eq_dec : EqDecision CompatibilityMetadata.
Proof. solve_decision. Defined.

(** ** The resolved profile *)
Record ResolvedManifestProfile := {
  rp_manifest_id : string;
  rp_manifest_version : string;
  rp_profile_id : string;
  rp_profile_type : string;
  rp_allowed_evidence_scopes : list EvidenceScope;
  rp_compatibility : CompatibilityMetadata;
  rp_inheritance_chain : list string;
  rp_settings : ManifestProfileSettings;
  rp_roles : list ManifestRole;
  rp_relationships : list ManifestRelationship;
  rp_constraints : list ManifestConstraint;
  rp_controls : list ManifestControl;
  rp_risk_acceptances : list ManifestRiskAcceptance;
  rp_objectives : list ManifestObjective;
  rp_ownership : list ManifestOwner;
  rp_resolved_profile_digest : string;
}.

(** [profile.settings.continuity.zone_loss_continuity_required] *)
Definition rp_zone_loss_continuity_required (p : ResolvedManifestProfile) : bool :=
  cn_zone_loss_continuity_required (st_continuity (rp_settings p)).

(** ** Evidence facts *)
Record ResourceProofFact := {
  rf_resource_id : string;
  rf_role_ref : string;
  rf_availability_zone : AvailabilityZone;
  rf_operational_state : ResourceState;
  rf_state : EvidenceState;
  rf_proof_source : ProofSource;
  rf_evidence_ref : EvidenceReference;
}.

Record RelationshipProofFact := {
  lf_relationship_ref : string;
  lf_state : EvidenceState;
  lf_proof_source : ProofSource;
  lf_presence : Presence;
  lf_evidence_ref : EvidenceReference;
}.

Record ControlProofFact := {
  cf_control_ref : string;
  cf_state : EvidenceState;
  cf_health : ControlHealth;
  cf_evidence_ref : EvidenceReference;
}.

Record ObjectiveProofFact := {
  of_objective_ref : string;
  of_state : EvidenceState;
  of_current_value : spec_float;
  of_evidence_ref : EvidenceReference;
}.

Record RoleBindingProof := {
  rb_role_ref : string;
  rb_selected_resource_ids : list string;
  rb_selector_result_digest : string;
  rb_state : EvidenceState;
}.

Record EvidenceReferenceContext := {
  ec_snapshot_id : string;
  ec_snapshot_artifact_digest : string;
  ec_snapshot_semantic_digest : string;
  ec_collected_at : Z;
  ec_expires_at : Z;
  ec_authorized_scopes : list EvidenceScope;
  ec_manifest_id : string;
  ec_profile_id : string;
  ec_resolved_profile_digest : string;
  ec_resources : list ResourceProofFact;
  ec_relationships : list RelationshipProofFact;
  ec_controls : list ControlProofFact;
  ec_objectives : list ObjectiveProofFact;
  ec_role_bindings : list RoleBindingProof;
}.

Record ManifestFinding := {
  mf_clause_id : string;
  mf_finding_kind : ManifestFindingKind;
  mf_verdict : FindingVerdict;
  mf_manifest_id : string;
  mf_manifest_version : string;
  mf_profile_id : string;
  mf_resolved_profile_digest : string;
  mf_governance_scope : ClauseScope;
  mf_evidence_refs : list EvidenceReference;
  mf_risk_acceptance_ref : option string;
}.

(** The [validate_reference_kind] validator shared by the four fact classes. *)
Definition validate_reference_kind (state : EvidenceState) (ref : EvidenceReference) : result unit :=
  let is_item := match ref with ItemRef _ => true | GapRef _ => false end in
  _ ← raise_if (AthenaValidationError "complete proof facts require EvidenceItemRef")
        (bool_decide (state = StComplete) && negb is_item);
  raise_if (AthenaValidationError "incomplete proof facts require EvidenceGapRef")
    (bool_decide (state ∈ [StMissing; StGap; StStale]) && is_item).

Section context_validation.
Context `{PyText}.

(** RoleBindingProof.validate_selected_ids *)
Definition validate_selected_ids (b : RoleBindingProof) : result unit :=
  raise_if (AthenaValidationError "role binding selectedResourceIds must be unique")
    (negb (unique (normalized_id <$> rb_selected_resource_ids b))).

(** The reference part of EvidenceReferenceContext.validate_provenance_binding *)
Definition validate_reference (c : EvidenceReferenceContext) (r : EvidenceReference) : result unit :=
  raise_if (AthenaValidationError "evidence fact is not bound to the trusted snapshot context")
    (negb (String.eqb (ref_snapshot_id r) (ec_snapshot_id c)) ||
     negb (String.eqb (ref_snapshot_artifact_digest r) (ec_snapshot_artifact_digest c)) ||
     negb (String.eqb (ref_snapshot_semantic_digest r) (ec_snapshot_semantic_digest c)) ||
     negb ((ec_collected_at c <=? ref_collector_attempt_at r) &&
           (ref_collector_attempt_at r <? ec_expires_at c))).

(** EvidenceReferenceContext.validate_provenance_binding *)
Definition validate_provenance_binding (c : EvidenceReferenceContext) : result unit :=
  _ ← raise_if (AthenaValidationError "evidence context expiresAt must be after collectedAt")
        (ec_expires_at c <=? ec_collected_at c);
  let check (ids : list string) :=
    raise_if (AthenaValidationError "duplicate or conflicting normalized reference")
      (negb (unique (normalized_id <$> ids))) in
  _ ← check (rf_resource_id <$> ec_resources c);
  _ ← check (lf_relationship_ref <$> ec_relationships c);
  _ ← check (cf_control_ref <$> ec_controls c);
  _ ← check (of_objective_ref <$> ec_objectives c);
  _ ← check (rb_role_ref <$> ec_role_bindings c);
  _ ← mapR (validate_reference c) (rf_evidence_ref <$> ec_resources c);
  _ ← mapR (validate_reference c) (lf_evidence_ref <$> ec_relationships c);
  _ ← mapR (validate_reference c) (cf_evidence_ref <$> ec_controls c);
  _ ← mapR (validate_reference c) (of_evidence_ref <$> ec_objectives c);
  Ok tt.
End context_validation.
