(* ===== verification/Workload.v ===== *)
(** * Workload: the canonical workload manifest

    [CanonicalWorkloadManifest] of contracts/manifest.py with every part it is
    built of, and its model validators: uniqueness after normalisation, profile
    applicability, and the acyclicity of profile inheritance. The [profiles]
    dict keeps its insertion order as an association list. *)
From S2P Require Import Prelude Text Json.
From S2P Require Export Manifest.
From Stdlib Require Import Ascii.
Local Open Scope Z_scope.

Record GovernedWeakeningOverride := {
  wo_override_id : string;
  wo_reason : string;
  wo_target_path : string;
  wo_target_ref : string;
  wo_owner_ref : string;
  wo_rationale : string;
  wo_approved_by : string;
  wo_status : ApprovalStatus;
  wo_accepted_at : Z;
  wo_expires_at : Z;
  wo_profiles : list string;
}.

Record DisabledManifestRef := {
  dm_target_kind : string;
  dm_target_ref : string;
  dm_governance_override_ref : string;
}.

Record ManifestProfile := {
  mp_profile_id : string;
  mp_profile_type : string;
  mp_extends : option string;
  mp_settings : ManifestProfileSettings;
  mp_roles : list ManifestRole;
  mp_relationships : list ManifestRelationship;
  mp_constraints : list ManifestConstraint;
  mp_controls : list ManifestControl;
  mp_risk_acceptances : list ManifestRiskAcceptance;
  mp_objectives : list ManifestObjective;
  mp_ownership : list ManifestOwner;
  mp_weakening_overrides : list GovernedWeakeningOverride;
  mp_disabled_refs : list DisabledManifestRef;
}.

Record CanonicalWorkloadIdentity := {
  wi_display_name : string;
  wi_environments : list string;
  wi_allowed_evidence_scopes : list EvidenceScope;
}.

Record CanonicalManifestAudit := {
  ma_published_by : string;
  ma_published_at : Z;
  ma_approval_status : string;
}.

Record CanonicalWorkloadManifest := {
  wm_manifest_id : string;
  wm_manifest_version : string;
  wm_cloud : string;
  wm_workload : CanonicalWorkloadIdentity;
  wm_profiles : list (string * ManifestProfile);
  wm_roles : list ManifestRole;
  wm_relationships : list ManifestRelationship;
  wm_constraints : list ManifestConstraint;
  wm_controls : list ManifestControl;
  wm_risk_acceptances : list ManifestRiskAcceptance;
  wm_objectives : list ManifestObjective;
  wm_ownership : list ManifestOwner;
  wm_compatibility : CompatibilityMetadata;
  wm_audit : CanonicalManifestAudit;
}.

#[export] Instance GovernedWeakeningOverride_eq_dec : EqDecision GovernedWeakeningOverride.
Proof. solve_decision. Defined.
#[export] Instance DisabledManifestRef_eq_dec : EqDecision DisabledManifestRef.
Proof. solve_decision. Defined.
#[export] Instance ManifestProfile_eq_dec : EqDecision ManifestProfile.
Proof. solve_decision. Defined.
#[export] Instance CanonicalWorkloadIdentity_eq_dec : EqDecision CanonicalWorkloadIdentity.
Proof. solve_decision. Defined.
#[export] Instance CanonicalManifestAudit_eq_dec : EqDecision CanonicalManifestAudit.
Proof. solve_decision. Defined.
#[export] Instance CanonicalWorkloadManifest_eq_dec : EqDecision CanonicalWorkloadManifest.
Proof. solve_decision. Defined.

(** ** Versions *)

(** [str(int)] digits without a leading zero: [0|[1-9][0-9]*]. *)
Definition is_number (s : string) : bool :=
  match s with
  | EmptyString => false
  | String c r => if Ascii.eqb c "0"%char then String.eqb r "" else all_chars is_digit s
  end.

(** The version pattern: three such numbers separated by dots. *)
Definition is_version (s : string) : bool :=
  match split_on "."%char s with
  | [a; b; c] => is_number a && is_number b && is_number c
  | _ => false
  end.

(** [int(s)] on a digit string *)
Definition int_of_text (s : string) : Z :=
  fold_left (fun acc c => 10 * acc + (Z.of_nat (Ascii.nat_of_ascii c) - 48)) (String.list_ascii_of_string s) 0.

(** _version_key, _version_tuple; text that is not a version never reaches it. *)
Definition version_key (version : string) : Z * Z * Z :=
  match split_on "."%char version with
  | [major; minor; patch] => (int_of_text major, int_of_text minor, int_of_text patch)
  | _ => (0, 0, 0)
  end.

(** The lexicographic order of tuples. *)
Definition key_lt (a b : Z * Z * Z) : bool :=
  let '(a1, a2, a3) := a in
  let '(b1, b2, b3) := b in
  (a1 <? b1) || ((a1 =? b1) && ((a2 <? b2) || ((a2 =? b2) && (a3 <? b3)))).

Definition version_lt (v w : string) : bool := key_lt (version_key v) (version_key w).

(** _require_supported_compatibility *)
Definition require_supported_compatibility (c : CompatibilityMetadata) (artifact_kind : string) : result unit :=
  _ ← guard_or (AthenaValidationError "compatibility artifactKind must match")
        (String.eqb (cm_artifact_kind c) artifact_kind);
  raise_if (AthenaValidationError "artifact compatibility negotiation outcome is not supported")
    (negb (fst (fst (version_key (cm_schema_version c))) =? 1) ||
     negb (String.eqb (cm_semantic_contract_version c) "1.0.0") ||
     negb (String.eqb (cm_policy_contract_version c) "1.0.0") ||
     key_lt (1, 0, 0) (version_key (cm_minimum_reader_version c)) ||
     negb (bool_decide (cm_requires_capabilities c = []))).

Section validators.
Context `{PyText}.

(** GovernedWeakeningOverride.authorizes *)
Definition authorizes_override (o : GovernedWeakeningOverride) (as_of : Z)
    (profile_id target_path target_ref reason : string) : bool :=
  bool_decide (wo_status o = AsApproved) &&
  (wo_accepted_at o <=? as_of) && (as_of <? wo_expires_at o) &&
  existsb (String.eqb (normalized_id profile_id)) (normalized_id <$> wo_profiles o) &&
  String.eqb (wo_target_path o) target_path &&
  String.eqb (normalized_id (wo_target_ref o)) (normalized_id target_ref) &&
  String.eqb (wo_reason o) reason.

(** _item_key, for relationships *)
Definition relationship_key (r : ManifestRelationship) : string :=
  match r with
  | Declared d => dr_relationship_id d
  | Exception x => xr_exception_id x
  end.

(** The uniqueness checks shared by a profile and the manifest. *)
Definition validate_keyed_collections (roles : list ManifestRole) (relationships : list ManifestRelationship)
    (constraints : list ManifestConstraint) (controls : list ManifestControl)
    (risks : list ManifestRiskAcceptance) (objectives : list ManifestObjective)
    (ownership : list ManifestOwner) : result unit :=
  _ ← require_unique_text (mr_role_id <$> roles) "role id";
  _ ← require_unique_text (relationship_key <$> relationships) "relationship id";
  _ ← require_unique_text (mc_constraint_id <$> constraints) "constraint id";
  _ ← require_unique_text ((fun c => cb_control_id (control_base c)) <$> controls) "control id";
  _ ← require_unique_text (ra_risk_acceptance_id <$> risks) "risk acceptance id";
  _ ← require_unique_text (ob_objective_id <$> objectives) "objective id";
  require_unique_text (mo_owner_ref <$> ownership) "owner ref".

(** ManifestProfile.validate_local_uniqueness *)
Definition validate_local_uniqueness (p : ManifestProfile) : result unit :=
  _ ← validate_keyed_collections (mp_roles p) (mp_relationships p) (mp_constraints p) (mp_controls p)
        (mp_risk_acceptances p) (mp_objectives p) (mp_ownership p);
  require_unique_text (wo_override_id <$> mp_weakening_overrides p) "override id".

(** [profiles_by_id], a dict keyed by the normalised profile id *)
Definition profiles_by_id (m : CanonicalWorkloadManifest) : gmap string ManifestProfile :=
  dict_by (fun p => normalized_id (mp_profile_id p)) (snd <$> wm_profiles m).

(** [visit] of validate_manifest_ids: [completed] is the shared set, [path] the
    ancestors of the call; [None] is exhausted fuel. *)
Fixpoint visit (fuel : nat) (by_id : gmap string ManifestProfile) (completed : gset string)
    (profile_id : string) (path : gset string) : option (result (gset string)) :=
  match fuel with
  | O => None
  | S fuel =>
      if bool_decide (profile_id ∈ path)
      then Some (Raise (AthenaValidationError "profile inheritance cycle detected"))
      else if bool_decide (profile_id ∈ completed) then Some (Ok completed)
      else
        match by_id !! profile_id with
        | None => Some (Raise (KeyError profile_id))
        | Some profile =>
            match mp_extends profile with
            | None => Some (Ok ({[profile_id]} ∪ completed))
            | Some parent =>
                r ← visit fuel by_id completed (normalized_id parent) ({[profile_id]} ∪ path);
                Some (completed ← r; Ok ({[profile_id]} ∪ completed))
            end
        end
  end.

(** Each call adds a profile to [path], so this many calls nest at most. *)
Definition visit_fuel (by_id : gmap string ManifestProfile) : nat := S (S (size by_id)).

(** [for profile_id in profiles_by_id: visit(profile_id, set())], in the dict's
    insertion order. *)
Definition visit_all (by_id : gmap string ManifestProfile) (ids : list string) : result (gset string) :=
  foldR (fun completed id =>
    match visit (visit_fuel by_id) by_id completed id ∅ with
    | Some r => r
    | None => Raise (RuntimeError "maximum recursion depth exceeded")
    end) ∅ ids.

(** The profiles an applicable item names. *)
Definition applicable_profiles (constraints : list ManifestConstraint) (controls : list ManifestControl)
    (risks : list ManifestRiskAcceptance) : list (list string) :=
  (mc_profiles <$> constraints) ++ ((fun c => cb_profiles (control_base c)) <$> controls) ++ (ra_profiles <$> risks).

(** One applicability check: the references are distinct and resolved. *)
Definition require_applicability (normalized_profiles : gset string) (label : string) (profiles : list string)
    : result unit :=
  _ ← require_unique_text profiles label;
  guard_or (AthenaValidationError "profile applicability reference is unresolved")
    (forallb (fun p => bool_decide (normalized_id p ∈ normalized_profiles)) profiles).

(** CanonicalWorkloadManifest.validate_manifest_ids *)
Definition validate_manifest_ids (m : CanonicalWorkloadManifest) : result unit :=
  let profiles := snd <$> wm_profiles m in
  _ ← require_supported_compatibility (wm_compatibility m) "workloadManifest";
  _ ← require_unique_text (wi_environments (wm_workload m)) "workload environment";
  normalized_profiles ←
    foldR (fun (seen : gset string) '(key, profile) =>
      let normalized := normalized_id key in
      _ ← raise_if (AthenaValidationError "duplicate normalized profile id") (bool_decide (normalized ∈ seen));
      _ ← guard_or (AthenaValidationError "profile map key must match profileId")
            (String.eqb normalized (normalized_id (mp_profile_id profile)));
      Ok ({[normalized]} ∪ seen)) ∅ (wm_profiles m);
  _ ← guard_or (AthenaValidationError "canonical WC-001 manifest requires production, development, and training")
        (forallb (fun p => bool_decide (p ∈ normalized_profiles)) ["production"; "development"; "training"]);
  let by_id := profiles_by_id m in
  _ ← guard_or (AthenaValidationError "missing parent profile")
        (forallb (fun p => match mp_extends p with
                           | Some parent => bool_decide (is_Some (by_id !! normalized_id parent))
                           | None => true
                           end) profiles);
  _ ← visit_all by_id ((fun p => normalized_id (mp_profile_id p)) <$> profiles);
  _ ← validate_keyed_collections (wm_roles m) (wm_relationships m) (wm_constraints m) (wm_controls m)
        (wm_risk_acceptances m) (wm_objectives m) (wm_ownership m);
  _ ← guard_or (AthenaValidationError "published manifests may contain only approved roles")
        (forallb (fun r => bool_decide (mr_status r = RoleApproved)) (wm_roles m ++ concat (mp_roles <$> profiles)));
  _ ← mapR (require_applicability normalized_profiles "profile applicability reference")
        (applicable_profiles (wm_constraints m) (wm_controls m) (wm_risk_acceptances m) ++
         concat ((fun p => applicable_profiles (mp_constraints p) (mp_controls p) (mp_risk_acceptances p)) <$> profiles));
  _ ← mapR (fun r => match r with
                     | Declared d => require_applicability normalized_profiles
                         "relationship profile applicability reference" (dr_profiles d)
                     | Exception _ => Ok tt
                     end) (wm_relationships m ++ concat (mp_relationships <$> profiles));
  _ ← mapR (fun risk => require_unique_text (ra_linked_control_refs risk) "linked control reference")
        (wm_risk_acceptances m ++ concat (mp_risk_acceptances <$> profiles));
  _ ← mapR (fun p =>
        _ ← mapR (fun o => require_applicability normalized_profiles
                  "weakening override profile applicability reference" (wo_profiles o)) (mp_weakening_overrides p);
        guard_or (AthenaValidationError "duplicate normalized disabled reference")
          (unique ((fun d => (dm_target_kind d, normalized_id (dm_target_ref d))) <$> mp_disabled_refs p))) profiles;
  Ok tt.

(** ** Profile inheritance is well founded *)

(** [rooted by_id id n]: following [extends] from [id] reaches a profile without
    a parent after [n] steps. *)
Inductive rooted (by_id : gmap string ManifestProfile) : string -> nat -> Prop :=
  | rooted_root id p : by_id !! id = Some p -> mp_extends p = None -> rooted by_id id 0
  | rooted_child id p parent n :
      by_id !! id = Some p -> mp_extends p = Some parent -> rooted by_id (normalized_id parent) n ->
      rooted by_id id (S n).

Lemma rooted_unique by_id id n k : rooted by_id id n -> rooted by_id id k -> n = k.
Proof.
  intros Hn. revert k. induction Hn as [id p Hp He|id p parent n Hp He _ IH]; intros k Hk;
    inversion Hk; simplify_eq; [done|]. f_equal. by apply IH.
Qed.

Lemma visit_sound fuel by_id completed id path c :
  (forall x, x ∈ completed -> exists n, rooted by_id x n) ->
  visit fuel by_id completed id path = Some (Ok c) ->
  id ∈ c /\ completed ⊆ c /\ forall x, x ∈ c -> exists n, rooted by_id x n.
Proof.
  revert completed id path c. induction fuel as [|fuel IH]; intros completed id path c Hc; [done|]. cbn [visit].
  case_bool_decide as Hpath; [done|]. case_bool_decide as Hdone.
  { intros E. simplify_eq. split_and!; [done|done|exact Hc]. }
  destruct (by_id !! id) as [p|] eqn:Hp; [|done]. destruct (mp_extends p) as [parent|] eqn:He.
  - destruct (visit fuel by_id completed (normalized_id parent) _) as [r|] eqn:Hv; [|done]. cbn.
    destruct r as [c'|e]; [|done]. cbn. intros E. simplify_eq.
    destruct (IH _ _ _ _ Hc Hv) as (Hin & Hsub & Hall). split_and!; [set_solver|set_solver|].
    intros x [->%elem_of_singleton|Hx]%elem_of_union; [|by apply Hall].
    destruct (Hall _ Hin) as [n Hn]. exists (S n). by eapply rooted_child.
  - intros E. simplify_eq. split_and!; [set_solver|set_solver|].
    intros x [->%elem_of_singleton|Hx]%elem_of_union; [|by apply Hc].
    exists 0%nat. by eapply rooted_root.
Qed.

(** The recursion never exhausts its fuel: every nested call enlarges [path]. *)
Lemma visit_total fuel by_id completed id path :
  path ⊆ dom by_id -> (size (dom by_id) < fuel + size path)%nat ->
  is_Some (visit fuel by_id completed id path).
Proof.
  revert completed id path. induction fuel as [|fuel IH]; intros completed id path Hsub Hlt.
  { apply subseteq_size in Hsub. lia. }
  cbn [visit]. case_bool_decide as Hpath; [done|]. case_bool_decide; [done|].
  destruct (by_id !! id) as [p|] eqn:Hp; [|done]. destruct (mp_extends p) as [parent|]; [|done].
  destruct (IH completed (normalized_id parent) ({[id]} ∪ path)) as [r Hr].
  - apply elem_of_dom_2 in Hp. set_solver.
  - rewrite size_union by set_solver. rewrite size_singleton. lia.
  - rewrite Hr. cbn. eauto.
Qed.

(** On a rooted profile whose chain avoids [path], [visit] succeeds. *)
Lemma visit_complete fuel by_id completed id path n r :
  rooted by_id id n -> (forall x, x ∈ path -> exists k, rooted by_id x k /\ (n < k)%nat) ->
  visit fuel by_id completed id path = Some r -> exists c, r = Ok c.
Proof.
  revert completed id path n r. induction fuel as [|fuel IH]; intros completed id path n r Hr Hpath; [done|].
  cbn [visit]. case_bool_decide as Hin.
  { destruct (Hpath id Hin) as (k & Hk & Hlt). pose proof (rooted_unique _ _ _ _ Hr Hk). lia. }
  case_bool_decide; [naive_solver|].
  inversion Hr as [id' p Hp He|id' p parent m Hp He Hm]; subst id'; rewrite Hp, He; [naive_solver|].
  destruct (visit fuel by_id completed (normalized_id parent) _) as [r'|] eqn:Hv; [|done].
  apply IH with (n := m) in Hv as [c ->]; [|done|].
  - cbn. naive_solver.
  - intros x [->%elem_of_singleton|Hx]%elem_of_union; [exists n; subst; split; [done|lia]|].
    destruct (Hpath x Hx) as (k & Hk & Hlt). exists k. split; [done|lia].
Qed.

Lemma visit_all_sound by_id ids c0 c :
  (forall x, x ∈ c0 -> exists n, rooted by_id x n) ->
  foldR (fun completed id =>
    match visit (visit_fuel by_id) by_id completed id ∅ with
    | Some r => r
    | None => Raise (RuntimeError "maximum recursion depth exceeded")
    end) c0 ids = Ok c ->
  forall id, id ∈ ids -> exists n, rooted by_id id n.
Proof.
  revert c0. induction ids as [|id ids IH]; intros c0 Hc0 Hf; [by intros ? ?%elem_of_nil|]. cbn [foldR] in Hf.
  apply bind_Ok in Hf as (c1 & H1 & Hf). destruct (visit _ by_id c0 id ∅) as [r|] eqn:Hv; [subst r|done].
  apply visit_sound in Hv as (Hin & Hsub & Hall); [|exact Hc0].
  intros x [->|Hx]%elem_of_cons; [by apply Hall|by eapply IH].
Qed.
Lemma visit_all_complete by_id ids c0 :
  (forall id, id ∈ ids -> exists n, rooted by_id id n) ->
  exists c, foldR (fun completed id =>
    match visit (visit_fuel by_id) by_id completed id ∅ with
    | Some r => r
    | None => Raise (RuntimeError "maximum recursion depth exceeded")
    end) c0 ids = Ok c.
Proof.
  revert c0. induction ids as [|id ids IH]; intros c0 Hall; [by eexists|]. cbn [foldR].
  destruct (Hall id ltac:(left)) as [n Hn].
  destruct (visit_total (visit_fuel by_id) by_id c0 id ∅) as [r Hr].
  { set_solver. }
  { unfold visit_fuel. rewrite size_dom, size_empty. lia. }
  rewrite Hr. apply visit_complete with (n := n) in Hr as [c ->]; [|done|set_solver].
  apply IH. intros x Hx. apply Hall. by right.
Qed.

(** The inheritance check terminates and accepts exactly the manifests in
    which every profile reaches a profile without a parent: a cycle is always
    rejected, and nothing else is. *)
Theorem visit_all_iff_rooted by_id ids :
  (exists completed, visit_all by_id ids = Ok completed) <->
  (forall id, id ∈ ids -> exists n, rooted by_id id n).
Proof.
  split.
  - intros [c Hc]. eapply visit_all_sound; [|exact Hc]. set_solver.
  - intros Hall. by apply visit_all_complete.
Qed.
End validators.
