(* ===== verification/ApiDomain.v ===== *)
(** * ApiDomain: the Context API's data

    The records of api/domain.py and the model validators of its commands.
    [AwareDatetime] fields are instants in microseconds. *)
From S2P Require Import Prelude Text Json Time.
From S2P Require Export Workload.
Local Open Scope Z_scope.

(** ensure_concrete_workload_id *)
Definition ensure_concrete_workload_id (value : string) : result string :=
  _ ← raise_if (ValueError "'*' is reserved for typed all-workloads grant scope") (String.eqb value "*");
  _ ← guard_or (ValueError "workload identifier must use route-safe ASCII letters, digits") (is_id value);
  Ok value.

Inductive ActorKind := ActorHuman | ActorAgent | ActorService.
#[export] Instance ActorKind_eq_dec : EqDecision ActorKind.
Proof. solve_decision. Defined.

Record Actor := {
  ac_actor_id : string;
  ac_kind : ActorKind;
}.
#[export] Instance Actor_eq_dec : EqDecision Actor.
Proof. solve_decision. Defined.

Inductive AuthenticationMethod := MethodEntraJwt | MethodTest.

Record VerifiedAuthentication := {
  va_actor : Actor;
  va_subject_id : string;
  va_issuer : string;
  va_audience : string;
  va_method : AuthenticationMethod;
}.

Inductive Role :=
  | RoleProposer | RoleReviewer | RoleApprover | RolePublisher | RoleReader | RoleAuditor
  | RoleOperationalContextIssuer.
#[export] Instance Role_eq_dec : EqDecision Role.
Proof. solve_decision. Defined.

Inductive Permission :=
  | PermCreateDraft | PermRead | PermList | PermUpdateDraft | PermValidate | PermSubmit | PermReview
  | PermApprove | PermPublish | PermSupersede | PermAudit | PermIssueOperationalContext.
#[export] Instance Permission_eq_dec : EqDecision Permission.
Proof. solve_decision. Defined.

(** [permission.value] *)
Definition permission_value (p : Permission) : string :=
  match p with
  | PermCreateDraft => "create_draft" | PermRead => "read" | PermList => "list"
  | PermUpdateDraft => "update_draft" | PermValidate => "validate" | PermSubmit => "submit"
  | PermReview => "review" | PermApprove => "approve" | PermPublish => "publish"
  | PermSupersede => "supersede" | PermAudit => "audit"
  | PermIssueOperationalContext => "issue_operational_context"
  end.

(** [role.value] *)
Definition role_value (r : Role) : string :=
  match r with
  | RoleProposer => "proposer" | RoleReviewer => "reviewer" | RoleApprover => "approver"
  | RolePublisher => "publisher" | RoleReader => "reader" | RoleAuditor => "auditor"
  | RoleOperationalContextIssuer => "operational_context_issuer"
  end.

(** [kind.value] *)
Definition actor_kind_value (k : ActorKind) : string :=
  match k with ActorHuman => "human" | ActorAgent => "agent" | ActorService => "service" end.

Inductive GrantScope :=
  | AllWorkloadsGrantScope
  | WorkloadGrantScope (workload_id : string).
#[export] Instance GrantScope_eq_dec : EqDecision GrantScope.
Proof. solve_decision. Defined.

Record RoleGrant := {
  rg_actor_id : string;
  rg_role : Role;
  rg_scope : GrantScope;
}.
#[export] Instance RoleGrant_eq_dec : EqDecision RoleGrant.
Proof. solve_decision. Defined.

Inductive DraftState := StateDraft | StateValidated | StateInReview | StateApproved | StatePublished | StateSuperseded.
#[export] Instance DraftState_eq_dec : EqDecision DraftState.
Proof. solve_decision. Defined.

Inductive AuditAction :=
  | DraftCreated | DraftReplaced | DraftValidated | ReviewSubmitted | ReviewRecorded | DraftApproved
  | VersionPublished | VersionSuperseded | DemoEvaluationApprovalCreated | DemoEvaluationApprovalRevoked
  | CohortDecisionRecorded.
#[export] Instance AuditAction_eq_dec : EqDecision AuditAction.
Proof. solve_decision. Defined.

(** [action.value] *)
Definition audit_action_value (a : AuditAction) : string :=
  match a with
  | DraftCreated => "draft_created" | DraftReplaced => "draft_replaced"
  | DraftValidated => "draft_validated" | ReviewSubmitted => "review_submitted"
  | ReviewRecorded => "review_recorded" | DraftApproved => "draft_approved"
  | VersionPublished => "version_published" | VersionSuperseded => "version_superseded"
  | DemoEvaluationApprovalCreated => "demo_evaluation_approval_created"
  | DemoEvaluationApprovalRevoked => "demo_evaluation_approval_revoked"
  | CohortDecisionRecorded => "cohort_decision_recorded"
  end.

Record ValidationRecord := {
  vr_validated_by : Actor;
  vr_validated_at : Z;
  vr_validated_revision : Z;
  vr_manifest_digest : string;
}.

Record ReviewSubmission := {
  rs_submitted_by : Actor;
  rs_submitted_at : Z;
  rs_submitted_revision : Z;
  rs_publication_candidate_digest : string;
  rs_reason : string;
}.

Record PublicationCandidate := {
  pc_finalized_by : Actor;
  pc_finalized_at : Z;
  pc_manifest_version : string;
  pc_manifest_digest : string;
  pc_semantic_digest : string;
  pc_approval_status : string;
}.

Inductive ReviewDecisionKind := ReviewApproved | ReviewChangesRequested.
#[export] Instance ReviewDecisionKind_eq_dec : EqDecision ReviewDecisionKind.
Proof. solve_decision. Defined.

Record ReviewDecision := {
  rd_decision_id : string;
  rd_decision : ReviewDecisionKind;
  rd_reviewed_by : Actor;
  rd_reviewed_at : Z;
  rd_reviewed_revision : Z;
  rd_manifest_version : string;
  rd_manifest_digest : string;
  rd_comments : string;
  rd_rejected_fields : list string;
  rd_required_corrections : list string;
}.

Record ApprovalDecision := {
  ad_decision_id : string;
  ad_approved_by : Actor;
  ad_approved_at : Z;
  ad_approved_revision : Z;
  ad_manifest_version : string;
  ad_manifest_digest : string;
  ad_review_decision_id : option string;
  ad_operational_context_receipt_id : option string;
  ad_reason : string;
}.

Record DraftRecord := {
  dr_draft_id : string;
  dr_manifest_id : string;
  dr_state : DraftState;
  dr_revision : Z;
  dr_manifest : CanonicalWorkloadManifest;
  dr_manifest_digest : string;
  dr_previous_version : option string;
  dr_rollback_source_version : option string;
  dr_created_by : Actor;
  dr_created_at : Z;
  dr_updated_by : Actor;
  dr_updated_at : Z;
  dr_reason : string;
  dr_validation : option ValidationRecord;
  dr_review : option ReviewSubmission;
  dr_publication_candidate : option PublicationCandidate;
  dr_review_decisions : list ReviewDecision;
  dr_approval : option ApprovalDecision;
}.

Record PublishedManifest := {
  pm_manifest_id : string;
  pm_manifest_version : string;
  pm_manifest_digest : string;
  pm_manifest : CanonicalWorkloadManifest;
  pm_source_draft_id : string;
  pm_source_draft_revision : Z;
  pm_previous_version : option string;
  pm_approval : ApprovalDecision;
  pm_published_by : Actor;
  pm_published_at : Z;
  pm_publication_authorized_by : Actor;
  pm_publication_authorized_at : Z;
  pm_operational_context_receipt_id : option string;
  pm_reason : string;
}.

Record Supersession := {
  su_manifest_id : string;
  su_superseded_version : string;
  su_replacement_version : string;
  su_superseded_by : Actor;
  su_superseded_at : Z;
  su_reason : string;
}.

Record PublishedManifestView := {
  pv_published : PublishedManifest;
  pv_supersession : option Supersession;
}.

Record PendingAuditEvent := {
  pa_occurred_at : Z;
  pa_actor : Actor;
  pa_action : AuditAction;
  pa_manifest_id : string;
  pa_draft_id : option string;
  pa_revision : option Z;
  pa_previous_revision : option Z;
  pa_manifest_version : option string;
  pa_previous_version : option string;
  pa_replacement_version : option string;
  pa_publication_actor : option Actor;
  pa_publication_timestamp : option Z;
  pa_manifest_digest : string;
  pa_reason : string;
}.

(** AuditEvent extends PendingAuditEvent. *)
Record AuditEvent := {
  ae_event : PendingAuditEvent;
  ae_sequence : Z;
  ae_event_id : string;
  ae_previous_event_digest : option string;
  ae_event_digest : string;
}.

Record MutationTarget := {
  mt_draft_id : option string;
  mt_manifest_id : option string;
  mt_manifest_version : option string;
}.

#[export] Instance PublishedManifest_eq_dec : EqDecision PublishedManifest.
Proof. assert (EqDecision ApprovalDecision) by solve_decision. solve_decision. Defined.
#[export] Instance PendingAuditEvent_eq_dec : EqDecision PendingAuditEvent.
Proof. solve_decision. Defined.
#[export] Instance MutationTarget_eq_dec : EqDecision MutationTarget.
Proof. solve_decision. Defined.

(** ** Commands *)
Record CreateDraftCommand := {
  cc_draft_id : string;
  cc_manifest : CanonicalWorkloadManifest;
  cc_manifest_digest : string;
  cc_previous_version : option string;
  cc_rollback_source_version : option string;
  cc_reason : string;
}.

Record ReplaceDraftCommand := {
  rc_expected_revision : Z;
  rc_expected_manifest_version : string;
  rc_expected_digest : string;
  rc_replacement_manifest : CanonicalWorkloadManifest;
  rc_replacement_digest : string;
  rc_reason : string;
}.

Record TransitionCommand := {
  tc_expected_revision : Z;
  tc_expected_manifest_version : string;
  tc_expected_digest : string;
  tc_reason : string;
}.

Record ReviewCommand := {
  vc_transition : TransitionCommand;
  vc_decision : ReviewDecisionKind;
  vc_comments : string;
  vc_rejected_fields : list string;
  vc_required_corrections : list string;
}.

Record ApproveCommand := {
  apc_transition : TransitionCommand;
  apc_operational_context_receipt_id : string;
}.

Record PublishCommand := {
  puc_transition : TransitionCommand;
  puc_approval_id : string;
  puc_operational_context_receipt_id : string;
}.

Record SupersedeCommand := {
  suc_expected_revision : Z;
  suc_expected_manifest_version : string;
  suc_expected_digest : string;
  suc_replacement_version : string;
  suc_replacement_digest : string;
  suc_reason : string;
}.

Record VersionComparison := {
  vcmp_manifest_id : string;
  vcmp_from_version : string;
  vcmp_to_version : string;
  vcmp_from_digest : string;
  vcmp_to_digest : string;
  vcmp_equivalent : bool;
  vcmp_changed_paths : list string;
}.

Record ResolvedProfileAuthority := {
  rpa_manifest_id : string;
  rpa_manifest_version : string;
  rpa_profile_id : string;
  rpa_resolved_profile_digest : string;
}.

(** An optional field with a [pattern]. *)
Definition opt_matches (p : string -> bool) (v : option string) : bool :=
  match v with Some s => p s | None => true end.

(** [MutationTarget(...)]: the field patterns and validate_target *)
Definition make_MutationTarget (draft_id manifest_id manifest_version : option string) : result MutationTarget :=
  _ ← guard_or (ValidationError "mutation target field")
        (opt_matches is_id draft_id && opt_matches is_id manifest_id && opt_matches is_version manifest_version);
  _ ← raise_if (ValidationError "mutation target requires a draft_id or manifest_id")
        (bool_decide (draft_id = None) && bool_decide (manifest_id = None));
  _ ← raise_if (ValidationError "manifest_version target requires manifest_id")
        (negb (bool_decide (manifest_version = None)) && bool_decide (manifest_id = None));
  Ok {| mt_draft_id := draft_id; mt_manifest_id := manifest_id; mt_manifest_version := manifest_version |}.

(** CreateDraftCommand.validate_manifest_id *)
Definition validate_create_command (c : CreateDraftCommand) : result unit :=
  _ ← ensure_concrete_workload_id (wm_manifest_id (cc_manifest c));
  match cc_rollback_source_version c with
  | None => Ok tt
  | Some source =>
      _ ← raise_if (ValueError "rollback_source_version requires the active previous_version")
            (bool_decide (cc_previous_version c = None));
      raise_if (ValueError "rollback_source_version must identify an older version")
        (bool_decide (cc_previous_version c = Some source))
  end.

(** ReplaceDraftCommand.validate_manifest_id *)
Definition validate_replace_command (c : ReplaceDraftCommand) : result unit :=
  _ ← ensure_concrete_workload_id (wm_manifest_id (rc_replacement_manifest c)); Ok tt.

(** ReviewCommand.validate_review_details *)
Definition validate_review_details `{PyText} (c : ReviewCommand) : result unit :=
  let fields := vc_rejected_fields c in
  let corrections := vc_required_corrections c in
  _ ← guard_or (ValueError "rejected_fields must be unique") (unique fields);
  _ ← guard_or (ValueError "required_corrections must be unique") (unique corrections);
  _ ← raise_if (ValueError "rejected_fields must be bounded JSON pointer paths")
        (existsb (fun field => negb (starts_with "/" field) || (512 <? Z.of_nat (py_len field))) fields);
  _ ← raise_if (ValueError "required_corrections must be bounded trimmed text")
        (existsb (fun correction =>
           String.eqb (strip correction) "" || negb (String.eqb correction (strip correction)) ||
           (500 <? Z.of_nat (py_len correction))) corrections);
  _ ← raise_if (ValueError "approved reviews cannot declare rejected fields or corrections")
        (bool_decide (vc_decision c = ReviewApproved) &&
         (negb (bool_decide (fields = [])) || negb (bool_decide (corrections = []))));
  raise_if (ValueError "changes_requested reviews require explicit corrections")
    (bool_decide (vc_decision c = ReviewChangesRequested) && bool_decide (corrections = [])).
