(* ===== verification/Authorization.v ===== *)
(** * Authorization: role grants and bearer authentication

    api/authorization.py. [RoleBasedAuthorization] keeps a tuple of grants and a
    revision; [EntraJwtAuthenticator] turns a verified Entra access token into an
    actor. PyJWT is a third-party library: the class [Jwt]. *)
From S2P Require Import Prelude Text Json.
From S2P Require Export ApiDomain.
From Stdlib Require Import Ascii.
Local Open Scope Z_scope.

(** _ROLE_PERMISSIONS *)
Definition ROLE_PERMISSIONS (r : Role) : list Permission :=
  match r with
  | RoleProposer => [PermCreateDraft; PermRead; PermList; PermUpdateDraft; PermValidate; PermSubmit]
  | RoleReviewer => [PermRead; PermList; PermAudit; PermReview]
  | RoleApprover => [PermRead; PermList; PermAudit; PermApprove]
  | RolePublisher => [PermRead; PermList; PermAudit; PermPublish; PermSupersede]
  | RoleReader => [PermRead; PermList]
  | RoleAuditor => [PermRead; PermList; PermAudit]
  | RoleOperationalContextIssuer => [PermRead; PermIssueOperationalContext]
  end.

(** _HUMAN_ONLY *)
Definition HUMAN_ONLY : list Permission := [PermReview; PermApprove; PermPublish; PermSupersede].

(** _require_actor_kind *)
Definition require_actor_kind (actor : Actor) (permission : Permission) : result unit :=
  raise_if (AuthorizationError (permission_value permission +:+ " requires a human actor"))
    (bool_decide (permission ∈ HUMAN_ONLY) && negb (bool_decide (ac_kind actor = ActorHuman))).

(** _require_concrete_manifest_id *)
Definition require_concrete_manifest_id (manifest_id : option string) : result unit :=
  match manifest_id with
  | None => Ok tt
  | Some id =>
      _ ← reraise is_value_error (AuthorizationError "'*' is not a workload identifier")
            (ensure_concrete_workload_id id);
      Ok tt
  end.

(** The grant test of _matching_grants. *)
Definition grant_matches (actor : Actor) (permission : Permission) (manifest_id : option string)
    (explicit_only : bool) (grant : RoleGrant) : bool :=
  String.eqb (rg_actor_id grant) (ac_actor_id actor) &&
  bool_decide (permission ∈ ROLE_PERMISSIONS (rg_role grant)) &&
  match rg_scope grant with
  | AllWorkloadsGrantScope => negb explicit_only
  | WorkloadGrantScope workload_id => bool_decide (manifest_id = Some workload_id)
  end.

Record RoleBasedAuthorization := {
  rb_grants : list RoleGrant;
  rb_grant_revision : Z;
}.

(** RoleBasedAuthorization.__init__ *)
Definition new_authorization (grants : list RoleGrant) : RoleBasedAuthorization :=
  {| rb_grants := grants; rb_grant_revision := 1 |}.

(** _matching_grants *)
Definition matching_grants (auth : RoleBasedAuthorization) (actor : Actor) (permission : Permission)
    (manifest_id : option string) (explicit_only : bool) : list RoleGrant :=
  select (grant_matches actor permission manifest_id explicit_only) (rb_grants auth).

(** The shared body of [require] and [require_explicit]. *)
Definition require_grants (auth : RoleBasedAuthorization) (actor : Actor) (permission : Permission)
    (manifest_id : option string) (explicit_only : bool) (message : string) : result unit :=
  _ ← require_actor_kind actor permission;
  _ ← require_concrete_manifest_id manifest_id;
  raise_if (AuthorizationError message)
    (bool_decide (matching_grants auth actor permission manifest_id explicit_only = [])).

(** RoleBasedAuthorization.require *)
Definition require_role (auth : RoleBasedAuthorization) (actor : Actor) (permission : Permission)
    (manifest_id : option string) : result unit :=
  require_grants auth actor permission manifest_id false
    ("actor is not authorized for " +:+ permission_value permission).

(** RoleBasedAuthorization.require_explicit *)
Definition require_explicit (auth : RoleBasedAuthorization) (actor : Actor) (permission : Permission)
    (manifest_id : string) : result unit :=
  require_grants auth actor permission (Some manifest_id) true
    ("actor has no explicit grant for " +:+ permission_value permission).

(** RoleBasedAuthorization.remove_grant *)
Definition remove_grant (auth : RoleBasedAuthorization) (grant : RoleGrant) : RoleBasedAuthorization :=
  let remaining := select (fun candidate => negb (bool_decide (candidate = grant))) (rb_grants auth) in
  if (length remaining =? length (rb_grants auth))%nat then auth
  else {| rb_grants := remaining; rb_grant_revision := rb_grant_revision auth + 1 |}.

(** ** Grant tokens *)
Record AuthorizationGrantToken := {
  gt_actor_id : string;
  gt_permission : Permission;
  gt_manifest_id : string;
  gt_grant_revision : Z;
  gt_grant_digest : string;
}.

(** [grant.model_dump(mode="json")] *)
Definition grant_json (grant : RoleGrant) : json :=
  JObj [("actor_id", JStr (rg_actor_id grant));
        ("role", JStr (role_value (rg_role grant)));
        ("scope", JObj (match rg_scope grant with
                        | AllWorkloadsGrantScope => [("scope_type", JStr "all_workloads")]
                        | WorkloadGrantScope id => [("scope_type", JStr "workload"); ("workload_id", JStr id)]
                        end))].

Section tokens.
Context `{PyText} `{Rfc8785}.

(** [sorted(values, key=compute_artifact_digest)] *)
Definition sorted_by_digest (values : list json) : result (list json) :=
  keyed ← mapR (fun v => d ← compute_artifact_digest v; Ok (d, v)) values;
  Ok (snd <$> sort_by fst keyed).

(** authorize_role_grants *)
Definition authorize_role_grants (actor : Actor) (permission : Permission) (manifest_id : string)
    (grants : list RoleGrant) (grant_revision : Z) : result AuthorizationGrantToken :=
  _ ← require_actor_kind actor permission;
  _ ← require_concrete_manifest_id (Some manifest_id);
  let matching := select (grant_matches actor permission (Some manifest_id) false) grants in
  _ ← raise_if (AuthorizationError ("actor is not authorized for " +:+ permission_value permission))
        (bool_decide (matching = []));
  canonical_grants ← sorted_by_digest (grant_json <$> matching);
  digest ← compute_artifact_digest
    (JObj [("actorId", JStr (ac_actor_id actor)); ("permission", JStr (permission_value permission));
           ("manifestId", JStr manifest_id); ("grants", JArr canonical_grants)]);
  Ok {| gt_actor_id := ac_actor_id actor; gt_permission := permission; gt_manifest_id := manifest_id;
        gt_grant_revision := grant_revision; gt_grant_digest := digest |}.

(** RoleBasedAuthorization.authorize *)
Definition authorize (auth : RoleBasedAuthorization) (actor : Actor) (permission : Permission)
    (manifest_id : string) : result AuthorizationGrantToken :=
  authorize_role_grants actor permission manifest_id (rb_grants auth) (rb_grant_revision auth).
End tokens.

(** ** The port the application service uses *)
Class AuthorizationPort := {
  require : Actor -> Permission -> option string -> result unit;
  require_human_only : forall actor permission manifest_id,
    require actor permission manifest_id = Ok tt -> permission ∈ HUMAN_ONLY -> ac_kind actor = ActorHuman;
}.

Lemma require_actor_kind_human actor permission :
  require_actor_kind actor permission = Ok tt -> permission ∈ HUMAN_ONLY -> ac_kind actor = ActorHuman.
Proof.
  unfold require_actor_kind. intros Hk%raise_if_Ok Hp.
  rewrite bool_decide_eq_true_2 in Hk by done. cbn in Hk. by apply negb_false_iff, bool_decide_eq_true in Hk.
Qed.

Lemma require_grants_Ok auth actor permission manifest_id explicit_only message :
  require_grants auth actor permission manifest_id explicit_only message = Ok tt <->
  require_actor_kind actor permission = Ok tt /\ require_concrete_manifest_id manifest_id = Ok tt /\
  exists grant, grant ∈ rb_grants auth /\ grant_matches actor permission manifest_id explicit_only grant = true.
Proof.
  unfold require_grants. split.
  - intros ([] & Hk & ([] & Hc & Hr)%bind_Ok)%bind_Ok. split_and!; [done|done|].
    apply raise_if_Ok, bool_decide_eq_false in Hr.
    destruct (matching_grants _ _ _ _ _) as [|g l] eqn:Hm; [done|]. exists g.
    apply elem_of_select. unfold matching_grants in Hm. rewrite Hm. left.
  - intros (Hk & Hc & g & Hg & Hm). rewrite Hk. cbn. rewrite Hc. cbn. apply raise_if_Ok, bool_decide_eq_false.
    assert (Hin : g ∈ matching_grants auth actor permission manifest_id explicit_only)
      by (apply elem_of_select; done).
    intros E. rewrite E in Hin. by apply elem_of_nil in Hin.
Qed.

(** Role-based authorization implements the port. *)
#[refine] Instance role_based_port (auth : RoleBasedAuthorization) : AuthorizationPort := {
  require := require_role auth;
}.
Proof.
  intros actor permission manifest_id (Hk & _)%require_grants_Ok Hp. by eapply require_actor_kind_human.
Defined.

(** ** Entra access tokens *)

(** PyJWT: the unverified header, the signing key of the issuer's key set for a
    token, and the verified claims ([jwt.decode] with RS256, the audience, the
    issuer, zero leeway, the required claims and the three time checks). *)
Class Jwt := {
  get_unverified_header : string -> result json;
  get_signing_key_from_jwt : string -> string -> result string;
  jwt_decode : string -> string -> string -> string -> result json;
}.

Definition CR : ascii := "013"%char.
Definition LF : ascii := "010"%char.

(** [any(character in value for character in "\r\n")] *)
Definition has_line_break (value : string) : bool := contains_char CR value || contains_char LF value.

(** _DELEGATED_SCOPE_PATTERN *)
Definition is_delegated_scope (s : string) : bool :=
  match s with
  | EmptyString => false
  | String c r =>
      is_alnum c && (String.length r <=? 255)%nat &&
      all_chars (fun d => is_alnum d || existsb (Ascii.eqb d) ["."; "_"; ":"; "-"]%char) r
  end.

(** _AGENT_IDENTITY_CLAIMS *)
Definition AGENT_IDENTITY_CLAIMS : list string :=
  ["xms_act_fct"; "xms_sub_fct"; "xms_tnt_fct"; "xms_par_app_azp"].

Record EntraJwtAuthenticator := {
  ej_tenant_id : string;
  ej_audience : string;
  ej_delegated_scope : string;
  ej_issuer : string;
  ej_jwks_url : string;
}.

Section entra.
Context `{PyText} `{Jwt}.

(** EntraJwtAuthenticator.__init__ *)
Definition new_authenticator (tenant_id audience delegated_scope : string) : result EntraJwtAuthenticator :=
  _ ← guard_or (ValueError "Context API Entra tenant ID is invalid") (is_guid tenant_id);
  _ ← raise_if (ValueError "Context API Entra audience is invalid")
        (String.eqb audience "" || (256 <? Z.of_nat (py_len audience)) ||
         negb (String.eqb audience (strip audience)) || has_line_break audience);
  _ ← guard_or (ValueError "Context API Entra delegated scope is invalid") (is_delegated_scope delegated_scope);
  let tenant := casefold tenant_id in
  Ok {| ej_tenant_id := tenant; ej_audience := audience; ej_delegated_scope := delegated_scope;
        ej_issuer := "https://login.microsoftonline.com/" +:+ tenant +:+ "/v2.0";
        ej_jwks_url := "https://login.microsoftonline.com/" +:+ tenant +:+ "/discovery/v2.0/keys" |}.

(** _required_text *)
Definition required_text (claims : list (string * json)) (name : string) (maximum_length : Z) : result string :=
  match assoc name claims with
  | Some (JStr value) =>
      _ ← raise_if (ValueError ("access token claim is invalid: " +:+ name))
            (String.eqb value "" || (maximum_length <? Z.of_nat (py_len value)) ||
             negb (String.eqb value (strip value)) || has_line_break value);
      Ok value
  | _ => Raise (ValueError ("access token claim is invalid: " +:+ name))
  end.

(** _required_object_id *)
Definition required_object_id (claims : list (string * json)) (name : string) : result string :=
  value ← required_text claims name 36;
  _ ← guard_or (ValueError ("access token claim is invalid: " +:+ name)) (is_guid value);
  Ok (casefold value).

(** [claims.get(name) is None] *)
Definition absent (claims : list (string * json)) (name : string) : bool :=
  match assoc name claims with None | Some JNull => true | _ => false end.

(** _service_client_id *)
Definition service_client_id (claims : list (string * json)) : result unit :=
  client_ids ← mapR (required_object_id claims) (select (fun name => negb (absent claims name)) ["azp"; "appid"]);
  guard_or (ValueError "application access token client ID is invalid")
    (negb (bool_decide (client_ids = [])) &&
     (size (list_to_set client_ids : gset string) =? 1)%nat).

(** _required_delegated_scope *)
Definition required_delegated_scope (auth : EntraJwtAuthenticator) (claims : list (string * json)) : result string :=
  scope ← required_text claims "scp" 4096;
  let scopes := split_on " "%char scope in
  _ ← raise_if (ValueError "delegated access token scope is invalid")
        (String.eqb scope "/" || existsb (fun item => String.eqb item "" || String.eqb item "/") scopes ||
         negb (bool_decide (ej_delegated_scope auth ∈ scopes)));
  Ok scope.

(** The kind of actor the claims identify. *)
Definition claimed_actor_kind (auth : EntraJwtAuthenticator) (claims : list (string * json)) : result ActorKind :=
  if bool_decide (assoc "idtyp" claims = Some (JStr "app")) then
    _ ← guard_or (ValueError "application access token has delegated scopes")
          (absent claims "scp" || bool_decide (assoc "scp" claims ∈ [Some (JStr ""); Some (JStr "/")]));
    _ ← service_client_id claims;
    Ok ActorService
  else if absent claims "idtyp" || bool_decide (assoc "idtyp" claims = Some (JStr "user")) then
    _ ← required_delegated_scope auth claims;
    Ok (if existsb (fun name => bool_decide (is_Some (assoc name claims))) AGENT_IDENTITY_CLAIMS
        then ActorAgent else ActorHuman)
  else Raise (ValueError "access token identity type is invalid").

(** The checks of authenticate_bearer on the decoded claims. *)
Definition identity_of_claims (auth : EntraJwtAuthenticator) (decoded : json) : result VerifiedAuthentication :=
  match decoded with
  | JObj claims =>
      audience ← required_text claims "aud" 256;
      issuer ← required_text claims "iss" 512;
      tenant_id ← casefold <$> required_text claims "tid" 36;
      subject_id ← required_text claims "sub" 256;
      object_id ← required_object_id claims "oid";
      _ ← raise_if (ValueError "access token tenant binding is invalid")
            (negb (String.eqb audience (ej_audience auth)) || negb (String.eqb issuer (ej_issuer auth)) ||
             negb (String.eqb tenant_id (ej_tenant_id auth)));
      actor_kind ← claimed_actor_kind auth claims;
      Ok {| va_actor := {| ac_actor_id := object_id; ac_kind := actor_kind |}; va_subject_id := subject_id;
            va_issuer := ej_issuer auth; va_audience := audience; va_method := MethodEntraJwt |}
  | _ => Raise (ValueError "access token claims are invalid")
  end.

(** [(jwt.PyJWTError, TypeError, ValueError, KeyError)] *)
Definition authentication_failure (e : exn) : bool :=
  is_value_error e || match e with PyJWTError _ | TypeError _ | KeyError _ => true | _ => false end.

(** EntraJwtAuthenticator.authenticate_bearer *)
Definition authenticate_bearer (auth : EntraJwtAuthenticator) (credential : string) : result VerifiedAuthentication :=
  _ ← raise_if (AuthenticationError "bearer credentials were not verified")
        (String.eqb credential "" || negb (String.eqb credential (strip credential)) ||
         (8192 <? Z.of_nat (String.length credential)) || has_line_break credential);
  reraise authentication_failure (AuthenticationError "bearer credentials were not verified")
    (header ← get_unverified_header credential;
     _ ← guard_or (ValueError "access token header is invalid")
           match header with
           | JObj members =>
               bool_decide (assoc "alg" members = Some (JStr "RS256")) &&
               match assoc "kid" members with Some (JStr kid) => negb (String.eqb kid "") | _ => false end
           | _ => false
           end;
     signing_key ← get_signing_key_from_jwt (ej_jwks_url auth) credential;
     claims ← jwt_decode credential signing_key (ej_audience auth) (ej_issuer auth);
     identity_of_claims auth claims).
End entra.

(** RejectUnverifiedAuthentication.authenticate_bearer *)
Definition reject_unverified (credential : string) : result VerifiedAuthentication :=
  Raise (AuthenticationError "bearer credentials were not verified").

(** StaticTestAuthenticator.authenticate_bearer *)
Definition static_authenticate (identities : gmap string VerifiedAuthentication) (credential : string)
    : result VerifiedAuthentication :=
  match identities !! credential with
  | Some identity => Ok identity
  | None => Raise (AuthenticationError "bearer credentials were not verified")
  end.
