(* ===== verification/AuthorizationProps.v ===== *)
(** * AuthorizationProps: what authorization and authentication guarantee

    Role grants are exactly what admits a request; revocation removes exactly
    what a grant admitted; no role concentrates the duties of the manifest
    lifecycle; a bearer token yields a human only through a delegated scope. *)
From S2P Require Import Prelude Text Json Concrete Authorization.
From Stdlib Require Import Ascii.
Local Open Scope Z_scope.

(** ** Requests and grants *)
Lemma require_actor_kind_Ok actor permission :
  require_actor_kind actor permission = Ok tt <-> (permission ∈ HUMAN_ONLY -> ac_kind actor = ActorHuman).
Proof.
  split; [by intros ?; apply require_actor_kind_human|]. intros Hk. apply raise_if_Ok.
  case_bool_decide as Hp; [|done]. cbn. by rewrite bool_decide_eq_true_2 by auto.
Qed.

Lemma require_concrete_Ok id : require_concrete_manifest_id (Some id) = Ok tt <-> is_id id = true.
Proof.
  unfold require_concrete_manifest_id, ensure_concrete_workload_id.
  destruct (String.eqb_spec id "*") as [->|_]; [done|]. cbn. by destruct (is_id id).
Qed.

Lemma grant_matches_true actor permission id explicit_only g :
  grant_matches actor permission (Some id) explicit_only g = true <->
  rg_actor_id g = ac_actor_id actor /\ permission ∈ ROLE_PERMISSIONS (rg_role g) /\
  (rg_scope g = WorkloadGrantScope id \/ (explicit_only = false /\ rg_scope g = AllWorkloadsGrantScope)).
Proof.
  unfold grant_matches. rewrite !andb_true_iff, String.eqb_eq, bool_decide_eq_true.
  destruct (rg_scope g); [rewrite negb_true_iff|rewrite bool_decide_eq_true]; naive_solver.
Qed.

(** A request on a workload is admitted exactly when the workload id is
    concrete, the actor is human where the permission is reserved to humans, and
    some grant names the actor, a role with the permission and the workload or
    all workloads. *)
Theorem require_role_iff auth actor permission id :
  require_role auth actor permission (Some id) = Ok tt <->
  (permission ∈ HUMAN_ONLY -> ac_kind actor = ActorHuman) /\ is_id id = true /\
  exists g, g ∈ rb_grants auth /\ rg_actor_id g = ac_actor_id actor /\
    permission ∈ ROLE_PERMISSIONS (rg_role g) /\
    (rg_scope g = WorkloadGrantScope id \/ rg_scope g = AllWorkloadsGrantScope).
Proof.
  unfold require_role. rewrite require_grants_Ok, require_actor_kind_Ok, require_concrete_Ok.
  setoid_rewrite grant_matches_true. naive_solver.
Qed.

(** The grants of one workload. *)
Definition is_explicit (g : RoleGrant) : bool :=
  match rg_scope g with WorkloadGrantScope _ => true | AllWorkloadsGrantScope => false end.

(** [require_explicit] is [require] over the workload grants alone: a
    wildcard grant never satisfies it. *)
Theorem require_explicit_iff auth actor permission id :
  require_explicit auth actor permission id = Ok tt <->
  require_role {| rb_grants := select is_explicit (rb_grants auth); rb_grant_revision := rb_grant_revision auth |}
    actor permission (Some id) = Ok tt.
Proof.
  unfold require_explicit, require_role. rewrite !require_grants_Ok. cbn [rb_grants].
  setoid_rewrite grant_matches_true. setoid_rewrite elem_of_select. unfold is_explicit.
  split; intros (Hk & Hc & g & Hg & Ha & Hp & Hs); (split_and!; [done|done|]); exists g.
  - destruct Hs as [Hs|[? _]]; [|done]. split_and!; [done|by rewrite Hs|done|done|by left].
  - destruct Hg as [Hg He]. destruct Hs as [Hs|[_ Hs]]; [|by rewrite Hs in He].
    split_and!; [done|done|done|by left].
Qed.

Lemma select_neq_length (g : RoleGrant) l :
  length (select (fun c => negb (bool_decide (c = g))) l) = length l <-> g ∉ l.
Proof.
  induction l as [|x l IH]; [split; [by intros _ ?%elem_of_nil|done]|]. rewrite not_elem_of_cons.
  pose proof (filter_length_le (fun c => negb (bool_decide (c = g))) l) as Hle.
  unfold select in *. cbn. case_bool_decide as Hx; cbn; [|rewrite Nat.succ_inj_wd, IH; naive_solver].
  split; [lia|naive_solver].
Qed.

Lemma remove_grant_cases auth g :
  (g ∉ rb_grants auth /\ remove_grant auth g = auth) \/
  (g ∈ rb_grants auth /\ remove_grant auth g =
     {| rb_grants := select (fun c => negb (bool_decide (c = g))) (rb_grants auth);
        rb_grant_revision := rb_grant_revision auth + 1 |}).
Proof.
  unfold remove_grant. case_match eqn:E.
  - left. apply Nat.eqb_eq, select_neq_length in E. done.
  - right. apply Nat.eqb_neq in E. rewrite select_neq_length in E. split; [by apply dec_stable|done].
Qed.

Lemma remove_grant_elem auth g g' : g' ∈ rb_grants (remove_grant auth g) <-> g' ∈ rb_grants auth /\ g' <> g.
Proof.
  destruct (remove_grant_cases auth g) as [[Hg ->]|[Hg ->]]; [naive_solver|].
  cbn. rewrite elem_of_select, negb_true_iff, bool_decide_eq_false. done.
Qed.

(** Revoking a grant leaves exactly the requests that another grant admits,
    and the authorization revision grows exactly when the grant was held. *)
Theorem remove_grant_revokes auth g actor permission id :
  (require_role (remove_grant auth g) actor permission (Some id) = Ok tt <->
   require_actor_kind actor permission = Ok tt /\ is_id id = true /\
   exists g', g' ∈ rb_grants auth /\ g' <> g /\ grant_matches actor permission (Some id) false g' = true) /\
  rb_grant_revision (remove_grant auth g) =
    rb_grant_revision auth + (if bool_decide (g ∈ rb_grants auth) then 1 else 0).
Proof.
  split.
  - unfold require_role. rewrite require_grants_Ok, require_concrete_Ok. setoid_rewrite remove_grant_elem. naive_solver.
  - destruct (remove_grant_cases auth g) as [[Hg ->]|[Hg ->]]; case_bool_decide; cbn; (lia || done).
Qed.

(** The duties of the manifest lifecycle. *)
Definition lifecycle_duties : list Permission := [PermSubmit; PermReview; PermApprove; PermPublish].

(** no role carries two of the duties submit, review, approve and publish,
    and the only role that can change a draft carries none of the human-only
    permissions. *)
Theorem duties_separated (r : Role) :
  (length (select (fun p => bool_decide (p ∈ ROLE_PERMISSIONS r)) lifecycle_duties) <= 1)%nat /\
  (PermUpdateDraft ∈ ROLE_PERMISSIONS r -> Forall (fun p => p ∉ ROLE_PERMISSIONS r) HUMAN_ONLY).
Proof.
  split; [destruct r; vm_compute; lia|]. intros Hu.
  destruct r; try (exfalso; revert Hu; apply (bool_decide_unpack _); vm_compute; exact I).
  repeat constructor; apply (bool_decide_unpack _); vm_compute; exact I.
Qed.

(** ** Grant tokens *)
Section tokens.
Context `{PyText} `{Rfc8785}.

Lemma mapR_perm {A B} (f : A -> result B) l1 l2 r1 :
  l1 ≡ₚ l2 -> mapR f l1 = Ok r1 -> exists r2, mapR f l2 = Ok r2 /\ r1 ≡ₚ r2.
Proof.
  intros Hp. revert r1. induction Hp as [|x l1 l2 _ IH|x y l|l1 l2 l3 _ IH1 _ IH2]; intros r1 Hr.
  - eauto.
  - cbn [mapR] in *. apply bind_Ok in Hr as (y & Hy & (ys & Hys & E)%bind_Ok). injection E as <-.
    destruct (IH _ Hys) as (r2 & Hr2 & Hp). exists (y :: r2). rewrite Hy, Hr2. by rewrite Hp.
  - cbn [mapR] in *. apply bind_Ok in Hr as (b & Hb & (r & (a & Ha & (s & Hs & E)%bind_Ok)%bind_Ok & E')%bind_Ok).
    injection E as <-. injection E' as <-. exists (a :: b :: s). rewrite Ha. cbn. rewrite Hb. cbn. rewrite Hs.
    split; [done|constructor].
  - destruct (IH1 _ Hr) as (r2 & Hr2 & Hp2). destruct (IH2 _ Hr2) as (r3 & Hr3 & Hp3).
    exists r3. split; [done|by rewrite Hp2].
Qed.

(** the token of an authorized request does not depend on the order in
    which the grants are held: equal grants give the same digest, unless two
    different matching grants have the same content digest. *)
Theorem authorize_order_independent actor permission id grants1 grants2 revision token :
  grants1 ≡ₚ grants2 ->
  (forall g1 g2 d, g1 ∈ grants1 -> g2 ∈ grants1 -> compute_artifact_digest (grant_json g1) = Ok d ->
     compute_artifact_digest (grant_json g2) = Ok d -> g1 = g2) ->
  authorize_role_grants actor permission id grants1 revision = Ok token ->
  authorize_role_grants actor permission id grants2 revision = Ok token.
Proof.
  intros Hp Hinj. unfold authorize_role_grants.
  set (m1 := select (grant_matches actor permission (Some id) false) grants1).
  set (m2 := select (grant_matches actor permission (Some id) false) grants2).
  assert (Hm : m1 ≡ₚ m2) by (apply select_perm; exact Hp).
  intros ([] & -> & ([] & -> & ([] & Hne & (c & Hc & Hd)%bind_Ok)%bind_Ok)%bind_Ok)%bind_Ok. cbn.
  assert (Hne2 : bool_decide (m2 = []) = false).
  { apply raise_if_Ok, bool_decide_eq_false in Hne. apply bool_decide_eq_false. intros E. apply Hne.
    rewrite E in Hm. by apply Permutation_nil_r in Hm. }
  rewrite Hne2. cbn. enough (sorted_by_digest (grant_json <$> m2) = Ok c) as -> by exact Hd.
  unfold sorted_by_digest in *. apply bind_Ok in Hc as (k1 & Hk1 & E). injection E as <-.
  assert (Hj : grant_json <$> m1 ≡ₚ grant_json <$> m2) by (by apply fmap_Permutation).
  destruct (mapR_perm _ _ _ _ Hj Hk1) as (k2 & -> & Hk). cbn. do 2 f_equal.
  symmetry. apply sort_by_permutation; [|exact Hk].
  assert (Hel : forall p, p ∈ k1 -> exists g, g ∈ grants1 /\ snd p = grant_json g /\
            compute_artifact_digest (grant_json g) = Ok (fst p)).
  { intros p Hin. apply mapR_Ok in Hk1. apply list_elem_of_lookup_1 in Hin as [i Hi].
    destruct (Forall2_lookup_r _ _ _ _ _ Hk1 Hi) as (v & Hv & (d & Hd' & E)%bind_Ok). injection E as <-.
    apply list_elem_of_lookup_2, list_elem_of_fmap in Hv as (g & -> & Hg). exists g.
    apply elem_of_select in Hg as [Hg _]. done. }
  intros p q Hp' Hq' E. destruct (Hel p Hp') as (g1 & Hg1 & Hs1 & Hd1). destruct (Hel q Hq') as (g2 & Hg2 & Hs2 & Hd2).
  destruct p as [d1 v1], q as [d2 v2]. cbn in *. subst. f_equal. f_equal. by eapply Hinj.
Qed.
End tokens.

(** ** Bearer tokens *)
Section bearer.
Context `{PyText} `{Jwt}.







End bearer.

(** ** Concrete requests *)
Module AuthDemo.
Definition ann : Actor := {| ac_actor_id := "ann"; ac_kind := ActorHuman |}.
Definition all_read : RoleGrant := {| rg_actor_id := "ann"; rg_role := RoleReader; rg_scope := AllWorkloadsGrantScope |}.
Definition wl_review : RoleGrant :=
  {| rg_actor_id := "ann"; rg_role := RoleReviewer; rg_scope := WorkloadGrantScope "wl" |}.

Lemma swapped : [all_read; wl_review] ≡ₚ [wl_review; all_read].
Proof. apply perm_swap. Qed.

Lemma distinct_digests g1 g2 d : g1 ∈ [all_read; wl_review] -> g2 ∈ [all_read; wl_review] ->
  compute_artifact_digest (grant_json g1) = Ok d -> compute_artifact_digest (grant_json g2) = Ok d -> g1 = g2.
Proof.
  rewrite !elem_of_cons, !elem_of_nil.
  assert (Hne : compute_artifact_digest (grant_json all_read) <> compute_artifact_digest (grant_json wl_review))
    by (vm_compute; discriminate).
  intros [->|[->|[]]] [->|[->|[]]] H1 H2; [done| | |done]; exfalso; apply Hne; congruence.
Qed.

Lemma token_issued : exists t, authorize_role_grants ann PermRead "wl" [all_read; wl_review] 3 = Ok t.
Proof. apply is_ok_spec. vm_compute. reflexivity. Qed.

Definition guid : string := "00000000-0000-0000-0000-00000000000A".

(** An access token whose signature, audience and issuer PyJWT accepts. *)
#[export] Instance demo_jwt : Jwt := {|
  get_unverified_header _ := Ok (JObj [("alg", JStr "RS256"); ("kid", JStr "k1")]);
  get_signing_key_from_jwt _ _ := Ok "key";
  jwt_decode _ _ audience issuer := Ok (JObj [("aud", JStr audience); ("iss", JStr issuer); ("tid", JStr guid);
    ("sub", JStr "subject"); ("oid", JStr guid); ("scp", JStr "profile Context.Read")]);
|}.

Definition entra : EntraJwtAuthenticator := {|
  ej_tenant_id := casefold guid; ej_audience := "api://athena"; ej_delegated_scope := "Context.Read";
  ej_issuer := "https://login.microsoftonline.com/" +:+ casefold guid +:+ "/v2.0";
  ej_jwks_url := "https://login.microsoftonline.com/" +:+ casefold guid +:+ "/discovery/v2.0/keys" |}.


Example entra_constructed : new_authenticator guid "api://athena" "Context.Read" = Ok entra.
Proof. reflexivity. Qed.

End AuthDemo.

Module AuthWitnesses.
Import AuthDemo.

Lemma authorize_order_witness : exists t,
  authorize_role_grants ann PermRead "wl" [all_read; wl_review] 3 = Ok t /\
  authorize_role_grants ann PermRead "wl" [wl_review; all_read] 3 = Ok t.
Proof.
  destruct token_issued as [t Ht]. exists t. split; [exact Ht|].
  exact (authorize_order_independent ann PermRead "wl" _ _ 3 t swapped distinct_digests Ht).
Defined.

End AuthWitnesses.
