(* ===== verification/Cohorts.v ===== *)
(** * Cohorts: cohort decision data

    api/cohort_decision_domain.py (and the bindings it takes from
    api/cohort_domain.py and binding/domain.py): the records of a governed
    cohort decision, their validators, and the identities overlap arbitration
    compares. *)
From S2P Require Import Prelude Text Json.
From S2P Require Export ApiDomain.
Local Open Scope Z_scope.

Inductive CohortDecisionKind := DecisionApprove | DecisionReject | DecisionSplit | DecisionMerge.
#[export] Instance CohortDecisionKind_eq_dec : EqDecision CohortDecisionKind.
Proof. solve_decision. Defined.

(** CohortDraftBinding of api/cohort_domain.py *)
Record CohortDraftBinding := {
  cdb_draft_id : string;
  cdb_revision : Z;
  cdb_manifest_digest : string;
}.
#[export] Instance CohortDraftBinding_eq_dec : EqDecision CohortDraftBinding.
Proof. solve_decision. Defined.

(** ProposalSnapshot of binding/domain.py *)
Record ProposalSnapshot := {
  ps_snapshot_id : string;
  ps_artifact_digest : string;
  ps_semantic_digest : string;
  ps_collected_at : Z;
  ps_expires_at : Z;
}.
#[export] Instance ProposalSnapshot_eq_dec : EqDecision ProposalSnapshot.
Proof. solve_decision. Defined.

Record CohortDecisionApplyBinding := {
  cb_decision_id : string;
  cb_decision : CohortDecisionKind;
  cb_decided_at : Z;
  cb_actor : Actor;
  cb_candidate_id : string;
  cb_candidate_digest : string;
  cb_manifest_id : string;
  cb_manifest_version : string;
  cb_profile_id : string;
  cb_resolved_profile_digest : string;
  cb_source_draft : CohortDraftBinding;
  cb_current_draft : CohortDraftBinding;
  cb_resulting_draft : CohortDraftBinding;
  cb_proposal_ids : list string;
  cb_proposal_set_digest : string;
  cb_snapshot_artifact_digest : string;
  cb_target_role_id : string;
  cb_inherited_role_digest : string;
  cb_replacement_role_digest : string;
  cb_replacement_selector_provenance_digest : string;
  cb_retained_replacement_role_digests : list (string * string * string);
  cb_replacement_manifest_digest : string;
}.
#[export] Instance CohortDecisionApplyBinding_eq_dec : EqDecision CohortDecisionApplyBinding.
Proof. solve_decision. Defined.

(** The [status] literal has the single value "approved". *)
Record CohortDecisionApplyAuthorization := {
  ca_status : string;
  ca_binding : CohortDecisionApplyBinding;
  ca_mutation_digest : string;
}.
#[export] Instance CohortDecisionApplyAuthorization_eq_dec : EqDecision CohortDecisionApplyAuthorization.
Proof. solve_decision. Defined.

Record CohortRejectionAuthority := {
  cr_selector_role_fingerprint : string;
  cr_member_fingerprints : list string;
}.
#[export] Instance CohortRejectionAuthority_eq_dec : EqDecision CohortRejectionAuthority.
Proof. solve_decision. Defined.

Record CohortProposalSetVersion := {
  cv_manifest_id : string;
  cv_manifest_version : string;
  cv_profile_id : string;
  cv_resolved_profile_digest : string;
  cv_source_draft : CohortDraftBinding;
  cv_proposal_set_digest : string;
  cv_snapshot_artifact_digest : string;
  cv_source_proposal_ids : list string;
  cv_source_rejection_authorities : list CohortRejectionAuthority;
}.

Record CohortDecisionAudit := {
  cau_audit_id : string;
  cau_decision_id : string;
  cau_actor : Actor;
  cau_occurred_at : Z;
  cau_source_revision : Z;
  cau_source_proposal_ids : list string;
  cau_resulting_revision : option Z;
  cau_draft_mutated : bool;
}.
#[export] Instance CohortDecisionAudit_eq_dec : EqDecision CohortDecisionAudit.
Proof. solve_decision. Defined.

Record CohortDecisionRecord := {
  cd_decision_id : string;
  cd_decision : CohortDecisionKind;
  cd_manifest_id : string;
  cd_manifest_version : string;
  cd_profile_id : string;
  cd_profile_type : string;
  cd_resolved_profile_digest : string;
  cd_source_draft : CohortDraftBinding;
  cd_applied_draft : option CohortDraftBinding;
  cd_batch_input_digest : string;
  cd_proposal_set_digest : string;
  cd_source_proposal_ids : list string;
  cd_source_role_refs : list string;
  cd_source_rejection_authorities : list CohortRejectionAuthority;
  cd_snapshot : ProposalSnapshot;
  cd_candidate_id : option string;
  cd_candidate_digest : option string;
  cd_apply_authorization : option CohortDecisionApplyAuthorization;
  cd_rationale : string;
  cd_decided_by : Actor;
  cd_decided_at : Z;
  cd_audit : CohortDecisionAudit;
}.
#[export] Instance CohortDecisionRecord_eq_dec : EqDecision CohortDecisionRecord.
Proof. solve_decision. Defined.

Record CohortDecisionReceipt := {
  cdr_actor_id : string;
  cdr_idempotency_key : string;
  cdr_request_digest : string;
  cdr_manifest_id : string;
  cdr_decision_id : string;
  cdr_decision_digest : string;
}.

(** ** Identities and overlap *)
Section identities.
Context `{PyText}.

(** canonical_proposal_ids of api/cohort_domain.py *)
Definition canonical_proposal_ids (values : list string) : result (list string) :=
  _ ← guard_or (ValueError "proposal_ids must contain WC-010 proposal identifiers")
        (forallb (prefixed_hex "proposal-" 16) values);
  let canonical := sort_strings (normalized_id <$> values) in
  _ ← guard_or (ValueError "proposal_ids must be unique after normalization") (unique canonical);
  Ok canonical.

(** CohortProposalSetVersion.authority_overlap_identity *)
Definition authority_overlap_identity (v : CohortProposalSetVersion) : string * string :=
  (normalized_id (cv_manifest_id v), normalized_id (cv_profile_id v)).

(** CohortProposalSetVersion.batch_overlap_identity *)
Definition batch_overlap_identity (v : CohortProposalSetVersion) : list string :=
  [normalized_id (cv_manifest_id v); cv_manifest_version v; normalized_id (cv_profile_id v);
   cv_resolved_profile_digest v; cv_proposal_set_digest v; cv_snapshot_artifact_digest v].

(** CohortProposalSetVersion.authority_selected_identity *)
Definition authority_selected_identity (v : CohortProposalSetVersion) : list string :=
  batch_overlap_identity v ++ cv_source_proposal_ids v.

(** CohortDecisionRecord.proposal_set_version *)
Definition proposal_set_version (d : CohortDecisionRecord) : CohortProposalSetVersion := {|
  cv_manifest_id := cd_manifest_id d;
  cv_manifest_version := cd_manifest_version d;
  cv_profile_id := cd_profile_id d;
  cv_resolved_profile_digest := cd_resolved_profile_digest d;
  cv_source_draft := cd_source_draft d;
  cv_proposal_set_digest := cd_proposal_set_digest d;
  cv_snapshot_artifact_digest := ps_artifact_digest (cd_snapshot d);
  cv_source_proposal_ids := cd_source_proposal_ids d;
  cv_source_rejection_authorities := cd_source_rejection_authorities d |}.

(** rejection_authorities_overlap: the dict of [right] keeps the last entry of a
    fingerprint. *)
Definition rejection_authorities_overlap (left right : list CohortRejectionAuthority) : bool :=
  let right_members := dict_by cr_selector_role_fingerprint right in
  existsb (fun authority =>
    match right_members !! cr_selector_role_fingerprint authority with
    | Some other => existsb (fun m => bool_decide (m ∈ cr_member_fingerprints other)) (cr_member_fingerprints authority)
    | None => false
    end) left.

(** The validators of CohortRejectionAuthority. *)
Definition validate_member_fingerprints (values : list string) : bool :=
  bool_decide (values = sort_strings values) && unique values && forallb is_digest values.

Definition members_of (authorities : list CohortRejectionAuthority) : list string :=
  concat (cr_member_fingerprints <$> authorities).

(** The consistency of an authorization with its decision, in validate_outcome. *)
Definition authorization_consistent (d : CohortDecisionRecord) (a : CohortDecisionApplyAuthorization) : bool :=
  let b := ca_binding a in
  String.eqb (cb_decision_id b) (cd_decision_id d) &&
  bool_decide (cb_decision b = cd_decision d) &&
  (cb_decided_at b =? cd_decided_at d) &&
  bool_decide (cb_actor b = cd_decided_by d) &&
  bool_decide (Some (cb_candidate_id b) = cd_candidate_id d) &&
  bool_decide (Some (cb_candidate_digest b) = cd_candidate_digest d) &&
  String.eqb (cb_manifest_id b) (cd_manifest_id d) &&
  String.eqb (cb_manifest_version b) (cd_manifest_version d) &&
  String.eqb (normalized_id (cb_profile_id b)) (normalized_id (cd_profile_id d)) &&
  String.eqb (cb_resolved_profile_digest b) (cd_resolved_profile_digest d) &&
  bool_decide (cb_source_draft b = cd_source_draft d) &&
  bool_decide (Some (cb_resulting_draft b) = cd_applied_draft d) &&
  bool_decide (cb_proposal_ids b = cd_source_proposal_ids d) &&
  String.eqb (cb_proposal_set_digest b) (cd_proposal_set_digest d) &&
  String.eqb (cb_snapshot_artifact_digest b) (ps_artifact_digest (cd_snapshot d)) &&
  bool_decide (normalized_id (cb_target_role_id b) ∈ normalized_id <$> cd_source_role_refs d).

(** CohortDecisionRecord.validate_outcome *)
Definition validate_outcome (d : CohortDecisionRecord) : result unit :=
  let rejected := bool_decide (cd_decision d = DecisionReject) in
  let member_fingerprints := members_of (cd_source_rejection_authorities d) in
  _ ← raise_if (ValueError "selected rejection authority members must be globally unique and bounded")
        ((1000 <? Z.of_nat (length member_fingerprints)) || negb (unique member_fingerprints));
  _ ← guard_or (ValueError "only reject decisions may omit an applied draft")
        (Bool.eqb rejected (bool_decide (cd_applied_draft d = None)));
  _ ← guard_or (ValueError "only reject decisions may omit a candidate")
        (Bool.eqb rejected (bool_decide (cd_candidate_id d = None)));
  _ ← guard_or (ValueError "only reject decisions may omit a candidate digest")
        (Bool.eqb rejected (bool_decide (cd_candidate_digest d = None)));
  _ ← guard_or (ValueError "only reject decisions may omit apply authorization")
        (Bool.eqb rejected (bool_decide (cd_apply_authorization d = None)));
  _ ← guard_or (ValueError "cohort apply authorization is inconsistent with its decision")
        (match cd_apply_authorization d with Some a => authorization_consistent d a | None => true end);
  let audit := cd_audit d in
  guard_or (ValueError "cohort decision audit binding is inconsistent")
    (String.eqb (cau_decision_id audit) (cd_decision_id d) &&
     bool_decide (cau_actor audit = cd_decided_by d) &&
     (cau_occurred_at audit =? cd_decided_at d) &&
     (cau_source_revision audit =? cdb_revision (cd_source_draft d)) &&
     bool_decide (cau_source_proposal_ids audit = cd_source_proposal_ids d) &&
     negb (Bool.eqb (cau_draft_mutated audit) rejected) &&
     bool_decide (cau_resulting_revision audit = cdb_revision <$> cd_applied_draft d)).

(** The fields of a CohortDecisionAudit, with its validator *)
Definition construct_decision_audit (a : CohortDecisionAudit) : result CohortDecisionAudit :=
  canonical ← reraise is_value_error (ValidationError "CohortDecisionAudit") (canonical_proposal_ids (cau_source_proposal_ids a));
  _ ← guard_or (ValidationError "CohortDecisionAudit")
        (is_id (cau_audit_id a) && is_id (cau_decision_id a) && (1 <=? cau_source_revision a) &&
         list_between 1 200 (cau_source_proposal_ids a) && bool_decide (cau_source_proposal_ids a = canonical) &&
         match cau_resulting_revision a with Some revision => 1 <=? revision | None => true end);
  Ok a.

(** The fields of a CohortDecisionRecord, with its validators; the fields copied
    from the batch and the set version were validated there. *)
Definition construct_decision_record (d : CohortDecisionRecord) : result CohortDecisionRecord :=
  canonical ← reraise is_value_error (ValidationError "CohortDecisionRecord") (canonical_proposal_ids (cd_source_proposal_ids d));
  let fingerprints := cr_selector_role_fingerprint <$> cd_source_rejection_authorities d in
  _ ← guard_or (ValidationError "CohortDecisionRecord")
        (is_id (cd_decision_id d) && list_between 1 200 (cd_source_proposal_ids d) &&
         bool_decide (cd_source_proposal_ids d = canonical) && list_between 1 200 (cd_source_role_refs d) &&
         list_between 0 200 fingerprints && bool_decide (fingerprints = sort_strings fingerprints) && unique fingerprints &&
         match cd_candidate_id d with Some id => is_id id | None => true end && text_between 1 2000 (cd_rationale d));
  _ ← reraise is_value_error (ValidationError "CohortDecisionRecord") (validate_outcome d);
  Ok d.

(** Whether [list_overlapping_cohort_decisions] of api/memory.py selects [d] for [v]. *)
Definition decision_overlaps (v : CohortProposalSetVersion) (d : CohortDecisionRecord) : bool :=
  (bool_decide (authority_overlap_identity (proposal_set_version d) = authority_overlap_identity v) &&
   rejection_authorities_overlap (cv_source_rejection_authorities v) (cd_source_rejection_authorities d)) ||
  (bool_decide (batch_overlap_identity (proposal_set_version d) = batch_overlap_identity v) &&
   existsb (fun p => bool_decide (p ∈ cd_source_proposal_ids d)) (cv_source_proposal_ids v)).
End identities.

(** ** The mutation an approved decision authorizes *)
Section authorization.
Context `{PyText} `{Rfc8785} `{ModelDump CohortDecisionApplyBinding} `{ModelDump ReplaceDraftCommand}.

(** CohortDecisionApplyAuthorization.issue *)
Definition issue_apply_authorization (binding : CohortDecisionApplyBinding) (command : ReplaceDraftCommand)
    : result CohortDecisionApplyAuthorization :=
  digest ← compute_artifact_digest
    (JObj [("operation", JStr "cohort_decision_apply"); ("status", JStr "approved");
           ("binding", model_dump binding); ("command", model_dump command)]);
  Ok {| ca_status := "approved"; ca_binding := binding; ca_mutation_digest := digest |}.

(** CohortDecisionApplyAuthorization.authorizes *)
Definition authorizes_command (a : CohortDecisionApplyAuthorization) (command : ReplaceDraftCommand) : result bool :=
  expected ← issue_apply_authorization (ca_binding a) command;
  Ok (String.eqb (ca_status a) "approved" && String.eqb (ca_mutation_digest a) (ca_mutation_digest expected)).
End authorization.
