(* ===== verification/Provenance.v ===== *)
(** * Provenance: selector provenance of a manifest

    api/selector_provenance.py: the identity of every selector at its exact
    manifest location, the canonical order and digest of such entries, and the
    immutable baseline captured when a draft is created. *)
From S2P Require Import Prelude Text Json.
From S2P Require Export ApiDomain.
Local Open Scope Z_scope.

Inductive SelectorLocation := LocGlobal | LocProfile.
#[export] Instance SelectorLocation_eq_dec : EqDecision SelectorLocation.
Proof. solve_decision. Defined.

Definition location_value (l : SelectorLocation) : string :=
  match l with LocGlobal => "global" | LocProfile => "profile" end.

Record SelectorProvenanceEntry := {
  se_location : SelectorLocation;
  se_profile_id : option string;
  se_role_id : string;
  se_selector_path : list string;
  se_selector_id : string;
  se_selector_variant : string;
  se_semantic_digest : string;
}.
#[export] Instance SelectorProvenanceEntry_eq_dec : EqDecision SelectorProvenanceEntry.
Proof. solve_decision. Defined.

(** [SelectorProvenanceEntry(...)]: field patterns and validate_location. *)
Definition make_entry (location : SelectorLocation) (profile_id : option string) (role_id : string)
    (selector_path : list string) (selector_id selector_variant semantic_digest : string)
    : result SelectorProvenanceEntry :=
  _ ← guard_or (ValidationError "selector provenance field")
        (opt_matches is_id profile_id && is_id role_id && is_id selector_id && is_digest semantic_digest &&
         (1 <=? Z.of_nat (length selector_path)) && (Z.of_nat (length selector_path) <=? 11));
  _ ← guard_or (ValidationError "global selector provenance must omit profile_id")
        (Bool.eqb (bool_decide (location = LocGlobal)) (bool_decide (profile_id = None)));
  _ ← guard_or (ValidationError "selector provenance path must end at selector_id")
        (bool_decide (last selector_path = Some selector_id));
  Ok {| se_location := location; se_profile_id := profile_id; se_role_id := role_id;
        se_selector_path := selector_path; se_selector_id := selector_id;
        se_selector_variant := selector_variant; se_semantic_digest := semantic_digest |}.

(** _entry_key *)
Definition entry_key (e : SelectorProvenanceEntry) : string * (string * (string * (list string * (string * string)))) :=
  (location_value (se_location e), (default "" (se_profile_id e), (se_role_id e,
   (se_selector_path e, (se_selector_variant e, se_semantic_digest e))))).

(** [tuple(sorted(entries, key=_entry_key))] *)
Definition canonical_entries (entries : list SelectorProvenanceEntry) : list SelectorProvenanceEntry :=
  sort_by entry_key entries.

(** [entry.model_dump(mode="json", exclude_none=True)] *)
Definition entry_json (e : SelectorProvenanceEntry) : json :=
  JObj ([("location", JStr (location_value (se_location e)))] ++
        opt_member "profile_id" (JStr <$> se_profile_id e) ++
        [("role_id", JStr (se_role_id e)); ("selector_path", JArr (JStr <$> se_selector_path e));
         ("selector_id", JStr (se_selector_id e)); ("selector_variant", JStr (se_selector_variant e));
         ("semantic_digest", JStr (se_semantic_digest e))]).

Record DraftSelectorBaselineReference := {
  br_draft_id : string;
  br_manifest_id : string;
  br_manifest_version : string;
  br_source_manifest_digest : string;
  br_selector_provenance_digest : string;
  br_captured_by : Actor;
  br_captured_at : Z;
}.
#[export] Instance DraftSelectorBaselineReference_eq_dec : EqDecision DraftSelectorBaselineReference.
Proof. solve_decision. Defined.

Record DraftSelectorBaseline := {
  bl_draft_id : string;
  bl_manifest_id : string;
  bl_manifest_version : string;
  bl_source_manifest_digest : string;
  bl_selector_provenance_digest : string;
  bl_inferred_predecessor : option DraftSelectorBaselineReference;
  bl_entries : list SelectorProvenanceEntry;
  bl_captured_by : Actor;
  bl_captured_at : Z;
}.

(** DraftSelectorBaselineReference.capture *)
Definition capture_reference (b : DraftSelectorBaseline) : DraftSelectorBaselineReference := {|
  br_draft_id := bl_draft_id b;
  br_manifest_id := bl_manifest_id b;
  br_manifest_version := bl_manifest_version b;
  br_source_manifest_digest := bl_source_manifest_digest b;
  br_selector_provenance_digest := bl_selector_provenance_digest b;
  br_captured_by := bl_captured_by b;
  br_captured_at := bl_captured_at b |}.

(** SelectorRoleKey *)
Definition SelectorRoleKey : Type := string * option string * string.

Section provenance.
Context `{PyText} `{Rfc8785} `{ModelDump ManifestSelector}.

(** selector_provenance_digest *)
Definition selector_provenance_digest (entries : list SelectorProvenanceEntry) : result string :=
  compute_artifact_digest (JArr (entry_json <$> entries)).

(** _selector_entries; the children of a composite are atomic. *)
Definition selector_entry (s : ManifestSelector) (location : SelectorLocation) (profile_id : option string)
    (role_id : string) (parent_path : list string) : result SelectorProvenanceEntry :=
  let id := normalized_id (selector_id s) in
  semantic_digest ← compute_artifact_digest (model_dump s);
  make_entry location profile_id role_id (parent_path ++ [id]) id (selector_type s) semantic_digest.

Definition selector_entries (s : ManifestSelector) (location : SelectorLocation) (profile_id : option string)
    (role_id : string) : result (list SelectorProvenanceEntry) :=
  head ← selector_entry s location profile_id role_id [];
  children ← mapR (fun child => selector_entry (Atomic child) location profile_id role_id
                                  [normalized_id (selector_id s)]) (selector_children s);
  Ok (head :: children).

(** role_selector_provenance *)
Definition role_selector_provenance (role : ManifestRole) (location : SelectorLocation) (profile_id : option string)
    : result (list SelectorProvenanceEntry) :=
  entries ← mapR (fun s => selector_entries s location (normalized_id <$> profile_id) (normalized_id (mr_role_id role)))
              (mr_selectors role);
  Ok (canonical_entries (concat entries)).

(** role_selector_provenance_digest *)
Definition role_selector_provenance_digest (role : ManifestRole) (profile_id : string) : result string :=
  entries ← role_selector_provenance role LocProfile (Some profile_id);
  selector_provenance_digest entries.

(** manifest_selector_provenance *)
Definition manifest_selector_provenance (m : CanonicalWorkloadManifest) : result (list SelectorProvenanceEntry) :=
  global ← mapR (fun role => role_selector_provenance role LocGlobal None) (wm_roles m);
  profiles ← mapR (fun p =>
      mapR (fun role => role_selector_provenance role LocProfile (Some (mp_profile_id p))) (mp_roles p))
    (snd <$> wm_profiles m);
  Ok (canonical_entries (concat global ++ concat (concat profiles))).

(** resolved_profile_selector_provenance *)
Definition resolved_profile_selector_provenance (p : ResolvedManifestProfile) : result (list SelectorProvenanceEntry) :=
  entries ← mapR (fun role => role_selector_provenance role LocProfile (Some (rp_profile_id p))) (rp_roles p);
  Ok (canonical_entries (concat entries)).

Definition entry_role_key (e : SelectorProvenanceEntry) : SelectorRoleKey :=
  (location_value (se_location e), se_profile_id e, se_role_id e).

(** selector_role_digests *)
Definition selector_role_digests (entries : list SelectorProvenanceEntry) : result (gmap SelectorRoleKey string) :=
  foldR (fun digests key =>
    digest ← selector_provenance_digest
               (canonical_entries (select (fun e => bool_decide (entry_role_key e = key)) entries));
    Ok (<[key := digest]> digests)) ∅ (entry_role_key <$> entries).

(** DraftSelectorBaseline.validate_provenance *)
Definition validate_provenance (b : DraftSelectorBaseline) : result unit :=
  _ ← guard_or (ValidationError "selector baseline entries must use canonical order")
        (bool_decide (bl_entries b = canonical_entries (bl_entries b)));
  digest ← selector_provenance_digest (bl_entries b);
  guard_or (ValidationError "selector baseline digest does not match its entries")
    (String.eqb (bl_selector_provenance_digest b) digest).

(** DraftSelectorBaseline.capture *)
Definition capture (draft_id : string) (manifest : CanonicalWorkloadManifest) (manifest_digest : string)
    (inferred_predecessor : option DraftSelectorBaselineReference) (actor : Actor) (captured_at : Z)
    : result DraftSelectorBaseline :=
  entries ← manifest_selector_provenance manifest;
  digest ← selector_provenance_digest entries;
  let baseline := {|
    bl_draft_id := draft_id;
    bl_manifest_id := wm_manifest_id manifest;
    bl_manifest_version := wm_manifest_version manifest;
    bl_source_manifest_digest := manifest_digest;
    bl_selector_provenance_digest := digest;
    bl_inferred_predecessor := inferred_predecessor;
    bl_entries := entries;
    bl_captured_by := actor;
    bl_captured_at := captured_at |} in
  _ ← validate_provenance baseline;
  Ok baseline.
End provenance.
