(* ===== verification/Operational.v ===== *)
(** * Operational: operational context receipts

    api/operational_context.py: the command that binds collected evidence to one
    draft revision and profile, and the receipt issued for it. [json.dumps] with
    compact separators is written out for the flat objects the module renders. *)
From stdpp Require Import pretty.
From S2P Require Import Prelude Text Json Sha256 Time Concrete.
From S2P Require Export ApiDomain.
From Stdlib Require Import Ascii.
Local Open Scope Z_scope.

(** ** [json.dumps(value, ensure_ascii=False, separators=(",", ":"))] *)
Definition hex_pair (n : N) : string :=
  String (hex_digit (N.shiftr n 4)) (String (hex_digit (N.land n 15)) EmptyString).

Definition escape_char (c : ascii) : string :=
  let n := N_of_ascii c in
  if (n =? 34)%N then String "\" (String "034" EmptyString)
  else if (n =? 92)%N then "\\"
  else if (n =? 8)%N then "\b"
  else if (n =? 9)%N then "\t"
  else if (n =? 10)%N then "\n"
  else if (n =? 12)%N then "\f"
  else if (n =? 13)%N then "\r"
  else if (n <? 32)%N then "\u00" +:+ hex_pair n
  else String c EmptyString.

Fixpoint escape (s : string) : string :=
  match s with
  | EmptyString => EmptyString
  | String c s => escape_char c +:+ escape s
  end.

Definition quote (s : string) : string := String "034" (escape s +:+ String "034" EmptyString).

(** A flat object: its values are texts or integers. *)
Definition dumps_value (v : string + Z) : string :=
  match v with inl s => quote s | inr z => pretty z end.
Definition dumps_object (members : list (string * (string + Z))) : string :=
  "{" +:+ String.concat "," ((fun m => quote (fst m) +:+ ":" +:+ dumps_value (snd m)) <$> members) +:+ "}".
Definition dumps_array (items : list string) : string := "[" +:+ String.concat "," items +:+ "]".

(** _timestamp_text *)
Definition timestamp_text (t : Z) : result string := iso_millis <$> ensure_timestamp t.

Record OperationalEvidenceInventoryItem := {
  ei_evidence_ref : string;
  ei_evidence_digest : string;
}.

(** compute_operational_evidence_inventory_digest *)
Definition compute_operational_evidence_inventory_digest (inventory : list OperationalEvidenceInventoryItem) : string :=
  sha256_hex (dumps_array
    ((fun item => dumps_object [("evidenceDigest", inl (ei_evidence_digest item));
                                ("evidenceRef", inl (ei_evidence_ref item))])
     <$> sort_by ei_evidence_ref inventory)).

(** The coordinates both digests below are computed from. *)
Record OperationalBinding := {
  ob_manifest_id : string;
  ob_manifest_version : string;
  ob_profile_id : string;
  ob_draft_id : string;
  ob_draft_revision : Z;
  ob_manifest_digest : string;
  ob_profile_digest : string;
  ob_snapshot_id : string;
  ob_collected_at : Z;
  ob_expires_at : Z;
  ob_evidence_inventory_digest : string;
  ob_content_digest : string;
}.

(** compute_operational_binding_digest *)
Definition compute_operational_binding_digest (b : OperationalBinding) : result string :=
  collected ← timestamp_text (ob_collected_at b);
  expires ← timestamp_text (ob_expires_at b);
  Ok (sha256_hex (dumps_object
    [("workloadId", inl (ob_manifest_id b)); ("manifestVersion", inl (ob_manifest_version b));
     ("profileId", inl (ob_profile_id b)); ("draftId", inl (ob_draft_id b));
     ("draftRevision", inr (ob_draft_revision b)); ("manifestDigest", inl (ob_manifest_digest b));
     ("profileDigest", inl (ob_profile_digest b)); ("snapshotId", inl (ob_snapshot_id b));
     ("collectedAt", inl collected); ("expiresAt", inl expires);
     ("evidenceInventoryDigest", inl (ob_evidence_inventory_digest b));
     ("contentDigest", inl (ob_content_digest b))])).

(** IssueOperationalContextReceiptCommand *)
Record IssueOperationalContextReceiptCommand := {
  ic_binding : OperationalBinding;
  ic_evidence_inventory : list OperationalEvidenceInventoryItem;
  ic_binding_digest : string;
}.

(** IssueOperationalContextReceiptCommand.validate_timestamp and validate_binding,
    with the bounds of the inventory field *)
Definition validate_binding (c : IssueOperationalContextReceiptCommand) : result unit :=
  let b := ic_binding c in
  _ ← guard_or (ValidationError "evidence_inventory length")
        ((1 <=? Z.of_nat (length (ic_evidence_inventory c))) && (Z.of_nat (length (ic_evidence_inventory c)) <=? 1000));
  _ ← ensure_timestamp (ob_collected_at b);
  _ ← ensure_timestamp (ob_expires_at b);
  _ ← guard_or (ValueError "operational evidence references must be unique")
        (unique (ei_evidence_ref <$> ic_evidence_inventory c));
  _ ← raise_if (ValueError "operational context expiry must follow collection time")
        (ob_expires_at b <=? ob_collected_at b);
  _ ← guard_or (ValueError "operational evidence inventory digest is invalid")
        (String.eqb (compute_operational_evidence_inventory_digest (ic_evidence_inventory c))
           (ob_evidence_inventory_digest b));
  digest ← compute_operational_binding_digest b;
  guard_or (ValueError "operational context binding digest is invalid") (String.eqb digest (ic_binding_digest c)).

Record OperationalContextReceipt := {
  or_receipt_id : string;
  or_issued_by : Actor;
  or_issued_at : Z;
  or_binding : OperationalBinding;
  or_evidence_count : Z;
  or_binding_digest : string;
  or_receipt_digest : string;
}.

(** [actor.model_dump(mode="json")] *)
Definition actor_json (a : Actor) : json :=
  JObj [("actor_id", JStr (ac_actor_id a)); ("kind", JStr (actor_kind_value (ac_kind a)))].

Section receipts.
Context `{PyText} `{Rfc8785} `{PydanticJson}.

(** operational_context_receipt_id *)
Definition operational_context_receipt_id (issuer : Actor) (b : OperationalBinding) (binding_digest : string)
    : result string :=
  collected ← timestamp_text (ob_collected_at b);
  expires ← timestamp_text (ob_expires_at b);
  digest ← compute_artifact_digest
    (JObj [("schemaVersion", JStr "athena.context-api.operational-context-receipt-id.v1");
           ("issuedBy", actor_json issuer);
           ("manifestId", JStr (ob_manifest_id b)); ("manifestVersion", JStr (ob_manifest_version b));
           ("profileId", JStr (ob_profile_id b)); ("draftId", JStr (ob_draft_id b));
           ("draftRevision", JInt (ob_draft_revision b)); ("manifestDigest", JStr (ob_manifest_digest b));
           ("profileDigest", JStr (ob_profile_digest b)); ("snapshotId", JStr (ob_snapshot_id b));
           ("collectedAt", JStr collected); ("expiresAt", JStr expires);
           ("evidenceInventoryDigest", JStr (ob_evidence_inventory_digest b));
           ("contentDigest", JStr (ob_content_digest b)); ("bindingDigest", JStr binding_digest)]);
  Ok ("operational-" +:+ string_take 32 (removeprefix "sha256:" digest)).

(** The members of a receipt but its digest; [render] is how a [datetime] appears:
    as a value in build_operational_context_receipt, rendered by pydantic in
    operational_context_receipt_digest. *)
Definition receipt_payload (render : Z -> json) (r : OperationalContextReceipt) : json :=
  let b := or_binding r in
  JObj [("schema_version", JStr "athena.context-api.operational-context-receipt.v1");
        ("receipt_id", JStr (or_receipt_id r)); ("issued_by", actor_json (or_issued_by r));
        ("issued_at", render (or_issued_at r));
        ("manifest_id", JStr (ob_manifest_id b)); ("manifest_version", JStr (ob_manifest_version b));
        ("profile_id", JStr (ob_profile_id b)); ("draft_id", JStr (ob_draft_id b));
        ("draft_revision", JInt (ob_draft_revision b)); ("manifest_digest", JStr (ob_manifest_digest b));
        ("profile_digest", JStr (ob_profile_digest b)); ("snapshot_id", JStr (ob_snapshot_id b));
        ("collected_at", render (ob_collected_at b)); ("expires_at", render (ob_expires_at b));
        ("evidence_count", JInt (or_evidence_count r));
        ("evidence_inventory_digest", JStr (ob_evidence_inventory_digest b));
        ("content_digest", JStr (ob_content_digest b)); ("binding_digest", JStr (or_binding_digest r))].

(** operational_context_receipt_digest *)
Definition operational_context_receipt_digest (r : OperationalContextReceipt) : result string :=
  compute_artifact_digest (receipt_payload (fun t => JStr (json_datetime t)) r).

(** OperationalContextReceipt.validate_timestamp and validate_receipt *)
Definition validate_receipt (r : OperationalContextReceipt) : result unit :=
  let b := or_binding r in
  _ ← ensure_timestamp (or_issued_at r);
  _ ← ensure_timestamp (ob_collected_at b);
  _ ← ensure_timestamp (ob_expires_at b);
  _ ← guard_or (ValidationError "operational receipt time is outside its evidence validity")
        ((ob_collected_at b <=? or_issued_at r) && (or_issued_at r <? ob_expires_at b));
  id ← operational_context_receipt_id (or_issued_by r) b (or_binding_digest r);
  _ ← guard_or (ValidationError "operational receipt identifier is invalid") (String.eqb (or_receipt_id r) id);
  digest ← operational_context_receipt_digest r;
  guard_or (ValidationError "operational receipt digest is invalid") (String.eqb (or_receipt_digest r) digest).

(** build_operational_context_receipt *)
Definition build_operational_context_receipt (issuer : Actor) (command : IssueOperationalContextReceiptCommand)
    (issued_at : Z) : result OperationalContextReceipt :=
  normalized_issued_at ← ensure_timestamp issued_at;
  receipt_id ← operational_context_receipt_id issuer (ic_binding command) (ic_binding_digest command);
  let receipt digest := {|
    or_receipt_id := receipt_id; or_issued_by := issuer; or_issued_at := normalized_issued_at;
    or_binding := ic_binding command;
    or_evidence_count := Z.of_nat (length (ic_evidence_inventory command));
    or_binding_digest := ic_binding_digest command; or_receipt_digest := digest |} in
  digest ← compute_artifact_digest (receipt_payload JTime (receipt ""));
  _ ← validate_receipt (receipt digest);
  Ok (receipt digest).
End receipts.

(** ** Issued receipts validate *)
Section receipt_props.
Context `{PyText} `{Rfc8785} `{PydanticJson}.

(** pydantic renders a millisecond [datetime] as ISO 8601 in UTC, a text the
    canonicalization brings to the canonical timestamp. *)
Hypothesis pydantic_datetime : forall t,
  representable t = true -> microsecond t mod 1000 = 0 ->
  normalize_json_value (JStr (json_datetime t)) = Ok (JStr (canonical_timestamp t)).

Lemma ensure_timestamp_Ok t u : ensure_timestamp t = Ok u <-> microsecond t mod 1000 = 0 /\ u = t.
Proof.
  unfold ensure_timestamp. destruct (Z.eqb_spec (microsecond t mod 1000) 0); cbn; split; try naive_solver.
Qed.

Lemma normalize_rendered t : representable t = true -> microsecond t mod 1000 = 0 ->
  normalize_json_value (JStr (json_datetime t)) = normalize_json_value (JTime t).
Proof. intros Hr Ht. rewrite pydantic_datetime by done. cbn. by rewrite Hr, Ht. Qed.

(** The instants of a receipt, as [datetime] values with millisecond precision. *)
Definition timed (issued_at : Z) (b : OperationalBinding) : Prop :=
  Forall (fun t => representable t = true /\ microsecond t mod 1000 = 0)
    [issued_at; ob_collected_at b; ob_expires_at b].

(** The receipt digest is the same whether datetimes are rendered by pydantic
    (validation) or by the canonicalization (construction). *)
Lemma receipt_digest_agrees r :
  timed (or_issued_at r) (or_binding r) ->
  operational_context_receipt_digest r = compute_artifact_digest (receipt_payload JTime r).
Proof.
  intros Ht. unfold timed in Ht. rewrite !Forall_cons in Ht. destruct Ht as ([Hi Hi'] & [Hc Hc'] & [He He'] & _).
  unfold operational_context_receipt_digest, compute_artifact_digest, canonicalize_for_digest.
  enough (normalize_json_value (receipt_payload (fun t => JStr (json_datetime t)) r) =
          normalize_json_value (receipt_payload JTime r)) as -> by done.
  unfold receipt_payload. cbn [normalize_json_value].
  change (if contains_char "T" (normalize_nfc_text (json_datetime (or_issued_at r))) then
            JStr <$> normalize_datetime_string (normalize_nfc_text (json_datetime (or_issued_at r)))
          else Ok (JStr (normalize_nfc_text (json_datetime (or_issued_at r)))))
    with (normalize_json_value (JStr (json_datetime (or_issued_at r)))).
  change (if contains_char "T" (normalize_nfc_text (json_datetime (ob_collected_at (or_binding r)))) then
            JStr <$> normalize_datetime_string (normalize_nfc_text (json_datetime (ob_collected_at (or_binding r))))
          else Ok (JStr (normalize_nfc_text (json_datetime (ob_collected_at (or_binding r))))))
    with (normalize_json_value (JStr (json_datetime (ob_collected_at (or_binding r))))).
  change (if contains_char "T" (normalize_nfc_text (json_datetime (ob_expires_at (or_binding r)))) then
            JStr <$> normalize_datetime_string (normalize_nfc_text (json_datetime (ob_expires_at (or_binding r))))
          else Ok (JStr (normalize_nfc_text (json_datetime (ob_expires_at (or_binding r))))))
    with (normalize_json_value (JStr (json_datetime (ob_expires_at (or_binding r))))).
  rewrite !normalize_rendered by done. reflexivity.
Qed.

(** a receipt built for a command and issued inside the evidence
    window always passes its own validation: construction fails only where a
    digest cannot be computed. *)
Theorem built_receipt_validates issuer command issued_at id digest :
  timed issued_at (ic_binding command) ->
  ob_collected_at (ic_binding command) <= issued_at < ob_expires_at (ic_binding command) ->
  operational_context_receipt_id issuer (ic_binding command) (ic_binding_digest command) = Ok id ->
  let receipt d := {|
    or_receipt_id := id; or_issued_by := issuer; or_issued_at := issued_at; or_binding := ic_binding command;
    or_evidence_count := Z.of_nat (length (ic_evidence_inventory command));
    or_binding_digest := ic_binding_digest command; or_receipt_digest := d |} in
  compute_artifact_digest (receipt_payload JTime (receipt "")) = Ok digest ->
  build_operational_context_receipt issuer command issued_at = Ok (receipt digest) /\
  validate_receipt (receipt digest) = Ok tt.
Proof.
  intros Ht Hw Hid receipt Hd. pose proof Ht as Ht'. unfold timed in Ht'. rewrite !Forall_cons in Ht'.
  destruct Ht' as ([_ Hi] & [_ Hc] & [_ He] & _).
  assert (Hok : validate_receipt (receipt digest) = Ok tt).
  { unfold validate_receipt. cbn [or_issued_at or_binding or_receipt_id or_issued_by or_binding_digest or_receipt_digest receipt].
    rewrite !(proj2 (ensure_timestamp_Ok _ _) (conj Hi eq_refl)), !(proj2 (ensure_timestamp_Ok _ _) (conj Hc eq_refl)),
      !(proj2 (ensure_timestamp_Ok _ _) (conj He eq_refl)). cbn -[operational_context_receipt_digest].
    rewrite (proj2 (Z.leb_le _ _)) by lia. rewrite (proj2 (Z.ltb_lt _ _)) by lia. cbn -[operational_context_receipt_digest].
    rewrite Hid. cbn -[operational_context_receipt_digest]. rewrite String.eqb_refl. cbn -[operational_context_receipt_digest].
    rewrite receipt_digest_agrees by done. change (receipt_payload JTime (receipt digest)) with (receipt_payload JTime (receipt "")).
    unfold mbind, result_bind. rewrite Hd. by rewrite String.eqb_refl. }
  split; [|exact Hok]. unfold build_operational_context_receipt.
  rewrite (proj2 (ensure_timestamp_Ok _ _) (conj Hi eq_refl)). unfold mbind, result_bind at 1.
  rewrite Hid. change (match compute_artifact_digest (receipt_payload JTime (receipt "")) with
    | Ok d => match validate_receipt (receipt d) with Ok _ => Ok (receipt d) | Raise e => Raise e end
    | Raise e => Raise e end = Ok (receipt digest)). by rewrite Hd, Hok.
Qed.
End receipt_props.

(** ** A concrete receipt *)
Module ReceiptDemo.
(** pydantic's rendering, on the canonical text. *)
#[export] Instance demo_pydantic : PydanticJson := canonical_timestamp.

Lemma demo_pydantic_datetime t : representable t = true -> microsecond t mod 1000 = 0 ->
  normalize_json_value (JStr (json_datetime t)) = Ok (JStr (canonical_timestamp t)).
Proof.
  intros Hr Hm. cbn. change (normalize_nfc_text (json_datetime t)) with (canonical_timestamp t).
  by rewrite canonical_timestamp_T, normalize_canonical_timestamp.
Qed.

Definition issuer : Actor := {| ac_actor_id := "collector"; ac_kind := ActorService |}.
Definition binding : OperationalBinding := {|
  ob_manifest_id := "wl"; ob_manifest_version := "1.0.0"; ob_profile_id := "production"; ob_draft_id := "d1";
  ob_draft_revision := 4; ob_manifest_digest := sha256_hex "m"; ob_profile_digest := sha256_hex "p";
  ob_snapshot_id := "snap"; ob_collected_at := 1704164645123000; ob_expires_at := 1704168245123000;
  ob_evidence_inventory_digest := sha256_hex "i"; ob_content_digest := sha256_hex "c" |}.
Definition command : IssueOperationalContextReceiptCommand := {|
  ic_binding := binding; ic_evidence_inventory := [{| ei_evidence_ref := "r"; ei_evidence_digest := sha256_hex "e" |}];
  ic_binding_digest := sha256_hex "b" |}.

Lemma receipt_built : exists r, build_operational_context_receipt issuer command 1704164646000000 = Ok r.
Proof. apply is_ok_spec. vm_compute. reflexivity. Qed.

Lemma receipt_id_built : exists id, operational_context_receipt_id issuer binding (sha256_hex "b") = Ok id.
Proof. apply is_ok_spec. vm_compute. reflexivity. Qed.

Lemma times_valid : timed 1704164646000000 binding.
Proof. repeat constructor. Qed.

Lemma window_valid : ob_collected_at binding <= 1704164646000000 < ob_expires_at binding.
Proof. cbn. lia. Qed.

Definition receipt (id digest : string) : OperationalContextReceipt := {|
  or_receipt_id := id; or_issued_by := issuer; or_issued_at := 1704164646000000; or_binding := binding;
  or_evidence_count := 1; or_binding_digest := sha256_hex "b"; or_receipt_digest := digest |}.

Lemma receipt_digest_built id : operational_context_receipt_id issuer binding (sha256_hex "b") = Ok id ->
  exists digest, compute_artifact_digest (receipt_payload JTime (receipt id "")) = Ok digest.
Proof.
  intros Hid. apply is_ok_spec. revert Hid.
  destruct receipt_id_built as [id' Hid']. intros Hid. rewrite Hid' in Hid. injection Hid as <-.
  vm_compute in Hid'. injection Hid' as <-. vm_compute. reflexivity.
Qed.

Lemma built_receipt_witness : exists r, validate_receipt r = Ok tt.
Proof.
  destruct receipt_id_built as [id Hid]. destruct (receipt_digest_built id Hid) as [digest Hd].
  exists (receipt id digest).
  exact (proj2 (built_receipt_validates demo_pydantic_datetime issuer command 1704164646000000 id digest times_valid
    window_valid Hid Hd)).
Defined.
End ReceiptDemo.
