(* ===== verification/Store.v ===== *)
(** * Store: the transactional context store

    [InMemoryContextStore] and [_MemoryTransaction] of api/memory.py, and the
    audit chain of api/audit.py. A transaction works on a copy of the store's
    dicts (the model's values are persistent, so the copy is the value) and
    installs it on a clean exit if the generation has not moved. The evaluation
    dicts belong to a part that is not modelled and are left out. *)
From S2P Require Import Prelude Text Json Time.
From S2P Require Export ApiDomain Cohorts Provenance Operational.
Local Open Scope Z_scope.

(** ** Responses of a mutation *)
Inductive ApiResponse :=
  | DraftResponse (d : DraftRecord)
  | PublishedResponse (p : PublishedManifest)
  | SupersessionResponse (s : Supersession)
  | ReceiptResponse (r : OperationalContextReceipt).

(** [response_type.__name__] *)
Definition response_type (r : ApiResponse) : string :=
  match r with
  | DraftResponse _ => "DraftRecord"
  | PublishedResponse _ => "PublishedManifest"
  | SupersessionResponse _ => "Supersession"
  | ReceiptResponse _ => "OperationalContextReceipt"
  end.

(** pydantic's [model_dump_json] and [model_validate_json] of those models. *)
Class ResponseCodec := {
  response_text : Type;
  model_dump_json : ApiResponse -> response_text;
  model_validate_json : string -> response_text -> result ApiResponse;
}.

Record MutationReceipt `{ResponseCodec} := {
  mr_actor_id : string;
  mr_idempotency_key : string;
  mr_operation : string;
  mr_target : MutationTarget;
  mr_request_digest : string;
  mr_response_type : string;
  mr_response_json : response_text;
}.

(** ** The audit chain (api/audit.py) *)

(** [f"{n:08d}"] *)
Definition pad8 (n : Z) : string := if n <? 100000000 then digits 8 n else pretty.pretty n.

Definition audit_event_id (sequence : Z) : string := "audit-" +:+ pad8 sequence.

(** [event.model_dump(mode="json", exclude_none=True)] *)
Definition pending_event_json `{PydanticJson} (e : PendingAuditEvent) : json :=
  JObj ([("occurred_at", JStr (json_datetime (pa_occurred_at e))); ("actor", actor_json (pa_actor e));
         ("action", JStr (audit_action_value (pa_action e))); ("manifest_id", JStr (pa_manifest_id e))] ++
        opt_member "draft_id" (JStr <$> pa_draft_id e) ++
        opt_member "revision" (JInt <$> pa_revision e) ++
        opt_member "previous_revision" (JInt <$> pa_previous_revision e) ++
        opt_member "manifest_version" (JStr <$> pa_manifest_version e) ++
        opt_member "previous_version" (JStr <$> pa_previous_version e) ++
        opt_member "replacement_version" (JStr <$> pa_replacement_version e) ++
        opt_member "publication_actor" (actor_json <$> pa_publication_actor e) ++
        opt_member "publication_timestamp" ((fun t => JStr (json_datetime t)) <$> pa_publication_timestamp e) ++
        [("manifest_digest", JStr (pa_manifest_digest e)); ("reason", JStr (pa_reason e))]).

Section audit.
Context `{PyText} `{Rfc8785} `{PydanticJson}.

(** The payload of audit_event_digest. *)
Definition audit_payload (event : PendingAuditEvent) (sequence : Z) (event_id : string)
    (previous_event_digest : option string) : json :=
  JObj [("schemaVersion", JStr "athena.context-audit.v1"); ("sequence", JInt sequence);
        ("eventId", JStr event_id);
        ("previousEventDigest", match previous_event_digest with Some d => JStr d | None => JNull end);
        ("event", pending_event_json event)].

(** audit_event_digest *)
Definition audit_event_digest (event : PendingAuditEvent) (sequence : Z) (event_id : string)
    (previous_event_digest : option string) : result string :=
  compute_artifact_digest (audit_payload event sequence event_id previous_event_digest).

(** verify_audit_chain, from sequence number [sequence] on. *)
Fixpoint verify_audit_from (sequence : Z) (previous_event_digest : option string) (events : list AuditEvent)
    : result unit :=
  match events with
  | [] => Ok tt
  | event :: events =>
      let expected_event_id := audit_event_id sequence in
      _ ← guard_or (AuditIntegrityError "audit history ordering or linkage is invalid")
            ((ae_sequence event =? sequence) && String.eqb (ae_event_id event) expected_event_id &&
             bool_decide (ae_previous_event_digest event = previous_event_digest));
      expected_digest ← audit_event_digest (ae_event event) sequence expected_event_id previous_event_digest;
      _ ← guard_or (AuditIntegrityError "audit history integrity digest is invalid")
            (String.eqb (ae_event_digest event) expected_digest);
      verify_audit_from (sequence + 1) (Some (ae_event_digest event)) events
  end.

Definition verify_audit_chain (events : list AuditEvent) : result unit := verify_audit_from 1 None events.

(** The event [append_audit] stores: the [event_id] pattern admits eight digits. *)
Definition next_audit_event (audit : list AuditEvent) (event : PendingAuditEvent) : result AuditEvent :=
  let sequence := Z.of_nat (length audit) + 1 in
  let event_id := audit_event_id sequence in
  let previous_event_digest := ae_event_digest <$> last audit in
  digest ← audit_event_digest event sequence event_id previous_event_digest;
  _ ← guard_or (ValidationError "event_id pattern") (sequence <? 100000000);
  Ok {| ae_event := event; ae_sequence := sequence; ae_event_id := event_id;
        ae_previous_event_digest := previous_event_digest; ae_event_digest := digest |}.
End audit.

(** ** The store *)
Record StoreData `{ResponseCodec} := {
  sd_drafts : gmap string DraftRecord;
  sd_draft_selector_baselines : gmap string DraftSelectorBaseline;
  sd_published : gmap (string * string) PublishedManifest;
  sd_supersessions : gmap (string * string) Supersession;
  sd_audit : list AuditEvent;
  sd_receipts : gmap (string * string) MutationReceipt;
  sd_operational_context_receipts : gmap string OperationalContextReceipt;
  sd_cohort_decisions : gmap (string * string) CohortDecisionRecord;
  sd_cohort_decision_versions : gmap (list string) (string * string);
  sd_cohort_decision_receipts : gmap (string * string) CohortDecisionReceipt;
}.

(** InMemoryContextStore: the data and [_transaction_generation]. *)
Record ContextStore `{ResponseCodec} := {
  cs_data : StoreData;
  cs_generation : Z;
}.

(** _MemoryTransaction: the working copy and [_dirty]. *)
Record Transaction `{ResponseCodec} := {
  tx_data : StoreData;
  tx_dirty : bool;
}.

Section store.
Context `{ResponseCodec}.

Definition empty_data : StoreData := {|
  sd_drafts := ∅; sd_draft_selector_baselines := ∅; sd_published := ∅; sd_supersessions := ∅; sd_audit := [];
  sd_receipts := ∅; sd_operational_context_receipts := ∅; sd_cohort_decisions := ∅;
  sd_cohort_decision_versions := ∅; sd_cohort_decision_receipts := ∅ |}.

(** InMemoryContextStore.__init__ *)
Definition new_store : ContextStore := {| cs_data := empty_data; cs_generation := 0 |}.

(** A fallible computation on the transaction: an exception abandons the working copy. *)
Definition txM (A : Type) : Type := Transaction -> result (A * Transaction).
#[global] Instance txM_ret : MRet txM := fun A a tx => Ok (a, tx).
#[global] Instance txM_bind : MBind txM := fun A B k m tx =>
  match m tx with Ok (a, tx) => k a tx | Raise e => Raise e end.

Definition liftR {A} (r : result A) : txM A := fun tx =>
  match r with Ok a => Ok (a, tx) | Raise e => Raise e end.
Definition reads {A} (f : StoreData -> A) : txM A := fun tx => Ok (f (tx_data tx), tx).
(** [self._field = ...; self._dirty = True] *)
Definition writes (f : StoreData -> StoreData) : txM unit := fun tx =>
  Ok (tt, {| tx_data := f (tx_data tx); tx_dirty := true |}).

(** __enter__ *)
Definition enter (store : ContextStore) : Transaction := {| tx_data := cs_data store; tx_dirty := false |}.

(** __exit__ after a clean body: [base_generation] was read on entry. *)
Definition commit (base_generation : Z) (tx : Transaction) (store : ContextStore) : result unit * ContextStore :=
  if negb (cs_generation store =? base_generation)
  then (Raise (StaleRevisionError "authoritative persistence changed during the transaction"), store)
  else if tx_dirty tx then (Ok tt, {| cs_data := tx_data tx; cs_generation := cs_generation store + 1 |})
  else (Ok tt, store).

(** [with self._store.transaction() as tx: body] *)
Definition transaction {A} (body : txM A) (store : ContextStore) : result A * ContextStore :=
  match body (enter store) with
  | Raise e => (Raise e, store)
  | Ok (a, tx) =>
      match commit (cs_generation store) tx store with
      | (Ok _, store) => (Ok a, store)
      | (Raise e, store) => (Raise e, store)
      end
  end.

(** get_draft *)
Definition get_draft (draft_id : string) : txM (option DraftRecord) := reads (fun d => sd_drafts d !! draft_id).

(** list_drafts *)
Definition list_drafts (manifest_id : option string) (state : option DraftState) : txM (list DraftRecord) :=
  reads (fun d => sort_by dr_draft_id
    (select (fun r => match manifest_id with Some id => String.eqb (dr_manifest_id r) id | None => true end &&
                      match state with Some s => bool_decide (dr_state r = s) | None => true end)
       (snd <$> map_to_list (sd_drafts d)))).

(** put_draft *)
Definition put_draft (draft : DraftRecord) (expected_revision : option Z) : txM unit :=
  current ← get_draft (dr_draft_id draft);
  _ ← liftR match expected_revision, current with
      | None, Some _ => Raise (DuplicateDraftError "draft already exists")
      | None, None => Ok tt
      | Some _, None => Raise (ResourceNotFoundError "draft was not found")
      | Some expected, Some current =>
          raise_if (StaleRevisionError "expected draft revision") (negb (dr_revision current =? expected))
      end;
  writes (fun d => {|
    sd_drafts := <[dr_draft_id draft := draft]> (sd_drafts d);
    sd_draft_selector_baselines := sd_draft_selector_baselines d; sd_published := sd_published d;
    sd_supersessions := sd_supersessions d; sd_audit := sd_audit d; sd_receipts := sd_receipts d;
    sd_operational_context_receipts := sd_operational_context_receipts d;
    sd_cohort_decisions := sd_cohort_decisions d; sd_cohort_decision_versions := sd_cohort_decision_versions d;
    sd_cohort_decision_receipts := sd_cohort_decision_receipts d |}).

(** get_draft_selector_baseline *)
Definition get_draft_selector_baseline (draft_id : string) : txM (option DraftSelectorBaseline) :=
  reads (fun d => sd_draft_selector_baselines d !! draft_id).

(** list_draft_selector_baselines *)
Definition list_draft_selector_baselines (manifest_id : string) (manifest_version : option string)
    : txM (list DraftSelectorBaseline) :=
  reads (fun d => sort_by (fun b => (bl_captured_at b, bl_draft_id b))
    (select (fun b => String.eqb (bl_manifest_id b) manifest_id &&
                      match manifest_version with Some v => String.eqb (bl_manifest_version b) v | None => true end)
       (snd <$> map_to_list (sd_draft_selector_baselines d)))).

(** put_draft_selector_baseline *)
Definition put_draft_selector_baseline (b : DraftSelectorBaseline) : txM unit :=
  existing ← get_draft_selector_baseline (bl_draft_id b);
  _ ← liftR (raise_if (PersistenceConflictError "draft selector baseline is immutable") (bool_decide (is_Some existing)));
  writes (fun d => {|
    sd_drafts := sd_drafts d;
    sd_draft_selector_baselines := <[bl_draft_id b := b]> (sd_draft_selector_baselines d);
    sd_published := sd_published d; sd_supersessions := sd_supersessions d; sd_audit := sd_audit d;
    sd_receipts := sd_receipts d; sd_operational_context_receipts := sd_operational_context_receipts d;
    sd_cohort_decisions := sd_cohort_decisions d; sd_cohort_decision_versions := sd_cohort_decision_versions d;
    sd_cohort_decision_receipts := sd_cohort_decision_receipts d |}).

(** get_published *)
Definition get_published (manifest_id manifest_version : string) : txM (option PublishedManifest) :=
  reads (fun d => sd_published d !! (manifest_id, manifest_version)).

(** list_published: sorted by workload and version *)
Definition published_list (manifest_id : option string) (d : StoreData) : list PublishedManifest :=
  sort_by (fun p => (pm_manifest_id p, version_key (pm_manifest_version p)))
    (select (fun p => match manifest_id with Some id => String.eqb (pm_manifest_id p) id | None => true end)
       (snd <$> map_to_list (sd_published d))).
Definition list_published (manifest_id : option string) : txM (list PublishedManifest) :=
  reads (published_list manifest_id).

(** put_published *)
Definition put_published (p : PublishedManifest) : txM unit :=
  existing ← get_published (pm_manifest_id p) (pm_manifest_version p);
  _ ← liftR (raise_if (DuplicateVersionError "manifest version exists") (bool_decide (is_Some existing)));
  writes (fun d => {|
    sd_drafts := sd_drafts d; sd_draft_selector_baselines := sd_draft_selector_baselines d;
    sd_published := <[(pm_manifest_id p, pm_manifest_version p) := p]> (sd_published d);
    sd_supersessions := sd_supersessions d; sd_audit := sd_audit d; sd_receipts := sd_receipts d;
    sd_operational_context_receipts := sd_operational_context_receipts d;
    sd_cohort_decisions := sd_cohort_decisions d; sd_cohort_decision_versions := sd_cohort_decision_versions d;
    sd_cohort_decision_receipts := sd_cohort_decision_receipts d |}).

(** get_supersession *)
Definition get_supersession (manifest_id manifest_version : string) : txM (option Supersession) :=
  reads (fun d => sd_supersessions d !! (manifest_id, manifest_version)).

(** put_supersession *)
Definition put_supersession (s : Supersession) : txM unit :=
  existing ← get_supersession (su_manifest_id s) (su_superseded_version s);
  _ ← liftR (raise_if (AlreadySupersededError "manifest version is already superseded") (bool_decide (is_Some existing)));
  writes (fun d => {|
    sd_drafts := sd_drafts d; sd_draft_selector_baselines := sd_draft_selector_baselines d;
    sd_published := sd_published d;
    sd_supersessions := <[(su_manifest_id s, su_superseded_version s) := s]> (sd_supersessions d);
    sd_audit := sd_audit d; sd_receipts := sd_receipts d;
    sd_operational_context_receipts := sd_operational_context_receipts d;
    sd_cohort_decisions := sd_cohort_decisions d; sd_cohort_decision_versions := sd_cohort_decision_versions d;
    sd_cohort_decision_receipts := sd_cohort_decision_receipts d |}).

(** append_audit *)
Definition append_audit `{PyText} `{Rfc8785} `{PydanticJson} (event : PendingAuditEvent) : txM AuditEvent :=
  audit ← reads sd_audit;
  _ ← liftR (verify_audit_chain audit);
  stored ← liftR (next_audit_event audit event);
  _ ← writes (fun d => {|
    sd_drafts := sd_drafts d; sd_draft_selector_baselines := sd_draft_selector_baselines d;
    sd_published := sd_published d; sd_supersessions := sd_supersessions d; sd_audit := sd_audit d ++ [stored];
    sd_receipts := sd_receipts d; sd_operational_context_receipts := sd_operational_context_receipts d;
    sd_cohort_decisions := sd_cohort_decisions d; sd_cohort_decision_versions := sd_cohort_decision_versions d;
    sd_cohort_decision_receipts := sd_cohort_decision_receipts d |});
  mret stored.

(** list_audit *)
Definition list_audit (manifest_id : option string) : txM (list AuditEvent) :=
  reads (fun d => select (fun e => match manifest_id with
                                   | Some id => String.eqb (pa_manifest_id (ae_event e)) id
                                   | None => true end) (sd_audit d)).

(** get_receipt *)
Definition get_receipt (actor_id idempotency_key : string) : txM (option MutationReceipt) :=
  reads (fun d => sd_receipts d !! (actor_id, idempotency_key)).

(** put_receipt *)
Definition put_receipt (r : MutationReceipt) : txM unit :=
  existing ← get_receipt (mr_actor_id r) (mr_idempotency_key r);
  _ ← liftR (raise_if (IdempotencyConflictError "idempotency key has already been recorded") (bool_decide (is_Some existing)));
  writes (fun d => {|
    sd_drafts := sd_drafts d; sd_draft_selector_baselines := sd_draft_selector_baselines d;
    sd_published := sd_published d; sd_supersessions := sd_supersessions d; sd_audit := sd_audit d;
    sd_receipts := <[(mr_actor_id r, mr_idempotency_key r) := r]> (sd_receipts d);
    sd_operational_context_receipts := sd_operational_context_receipts d;
    sd_cohort_decisions := sd_cohort_decisions d; sd_cohort_decision_versions := sd_cohort_decision_versions d;
    sd_cohort_decision_receipts := sd_cohort_decision_receipts d |}).

(** get_operational_context_receipt *)
Definition get_operational_context_receipt (receipt_id : string) : txM (option OperationalContextReceipt) :=
  reads (fun d => sd_operational_context_receipts d !! receipt_id).

(** put_operational_context_receipt *)
Definition put_operational_context_receipt (r : OperationalContextReceipt) : txM unit :=
  existing ← get_operational_context_receipt (or_receipt_id r);
  _ ← liftR (raise_if (PersistenceConflictError "operational context receipt identifier already exists")
               (bool_decide (is_Some existing)));
  writes (fun d => {|
    sd_drafts := sd_drafts d; sd_draft_selector_baselines := sd_draft_selector_baselines d;
    sd_published := sd_published d; sd_supersessions := sd_supersessions d; sd_audit := sd_audit d;
    sd_receipts := sd_receipts d;
    sd_operational_context_receipts := <[or_receipt_id r := r]> (sd_operational_context_receipts d);
    sd_cohort_decisions := sd_cohort_decisions d; sd_cohort_decision_versions := sd_cohort_decision_versions d;
    sd_cohort_decision_receipts := sd_cohort_decision_receipts d |}).

(** get_cohort_decision *)
Definition get_cohort_decision (manifest_id decision_id : string) : txM (option CohortDecisionRecord) :=
  reads (fun d => sd_cohort_decisions d !! (manifest_id, decision_id)).

(** list_cohort_decisions *)
Definition list_cohort_decisions (manifest_id : string) (profile_id draft_id proposal_set_digest : option string)
    : txM (list CohortDecisionRecord) :=
  let selects v o := match o with Some x => String.eqb v x | None => true end in
  reads (fun d => sort_by (fun r => (cd_decided_at r, cd_decision_id r))
    (select (fun r => String.eqb (cd_manifest_id r) manifest_id && selects (cd_profile_id r) profile_id &&
                      selects (cdb_draft_id (cd_source_draft r)) draft_id &&
                      selects (cd_proposal_set_digest r) proposal_set_digest)
       (snd <$> map_to_list (sd_cohort_decisions d)))).

(** list_overlapping_cohort_decisions *)
Definition overlapping_decisions `{PyText} (v : CohortProposalSetVersion) (d : StoreData) : list CohortDecisionRecord :=
  sort_by (fun r => (cd_decided_at r, cd_decision_id r))
    (select (decision_overlaps v) (snd <$> map_to_list (sd_cohort_decisions d))).
Definition list_overlapping_cohort_decisions `{PyText} (v : CohortProposalSetVersion) : txM (list CohortDecisionRecord) :=
  reads (overlapping_decisions v).

(** put_cohort_decision *)
Definition put_cohort_decision `{PyText} (r : CohortDecisionRecord) : txM unit :=
  let decision_key := (cd_manifest_id r, cd_decision_id r) in
  let version := proposal_set_version r in
  let version_key := authority_selected_identity version in
  existing ← reads (fun d => sd_cohort_decisions d !! decision_key);
  _ ← liftR (raise_if (PersistenceConflictError "cohort decision identifier already exists") (bool_decide (is_Some existing)));
  decided ← reads (fun d => sd_cohort_decision_versions d !! version_key);
  _ ← liftR (raise_if (PersistenceConflictError "the proposal-set version already has an authoritative decision")
               (bool_decide (is_Some decided)));
  overlapping ← list_overlapping_cohort_decisions version;
  _ ← liftR (raise_if (PersistenceConflictError "an overlapping selected proposal already has an authoritative decision")
               (negb (bool_decide (overlapping = []))));
  writes (fun d => {|
    sd_drafts := sd_drafts d; sd_draft_selector_baselines := sd_draft_selector_baselines d;
    sd_published := sd_published d; sd_supersessions := sd_supersessions d; sd_audit := sd_audit d;
    sd_receipts := sd_receipts d; sd_operational_context_receipts := sd_operational_context_receipts d;
    sd_cohort_decisions := <[decision_key := r]> (sd_cohort_decisions d);
    sd_cohort_decision_versions := <[version_key := decision_key]> (sd_cohort_decision_versions d);
    sd_cohort_decision_receipts := sd_cohort_decision_receipts d |}).

(** get_cohort_decision_receipt *)
Definition get_cohort_decision_receipt (actor_id idempotency_key : string) : txM (option CohortDecisionReceipt) :=
  reads (fun d => sd_cohort_decision_receipts d !! (actor_id, idempotency_key)).

(** put_cohort_decision_receipt *)
Definition put_cohort_decision_receipt (r : CohortDecisionReceipt) : txM unit :=
  existing ← get_cohort_decision_receipt (cdr_actor_id r) (cdr_idempotency_key r);
  _ ← liftR (raise_if (IdempotencyConflictError "cohort decision idempotency key has already been recorded")
               (bool_decide (is_Some existing)));
  writes (fun d => {|
    sd_drafts := sd_drafts d; sd_draft_selector_baselines := sd_draft_selector_baselines d;
    sd_published := sd_published d; sd_supersessions := sd_supersessions d; sd_audit := sd_audit d;
    sd_receipts := sd_receipts d; sd_operational_context_receipts := sd_operational_context_receipts d;
    sd_cohort_decisions := sd_cohort_decisions d; sd_cohort_decision_versions := sd_cohort_decision_versions d;
    sd_cohort_decision_receipts := <[(cdr_actor_id r, cdr_idempotency_key r) := r]> (sd_cohort_decision_receipts d) |}).
End store.
