(* ===== verification/Authority.v ===== *)
(** * Authority: persisted selector authority

    api/selector_authority.py: the selector bindings a draft or a published
    version inherits from applied cohort decisions along its published lineage.
    The lineage walk is recursive over the predecessor versions; [visited]
    guards it, and the fuel [lineage_fuel] bounds its depth. *)
From S2P Require Import Prelude Text Json.
From S2P Require Export Store.
Local Open Scope Z_scope.

Record PersistedSelectorAuthority := {
  sa_bindings : list CohortDecisionApplyBinding;
  sa_effective_manifest_version : string;
}.

Section authority.
Context `{ResponseCodec}.

(** The consistency test of _applied_bindings. *)
Definition applied_binding_consistent (decision : CohortDecisionRecord)
    (authorization : CohortDecisionApplyAuthorization) (applied : CohortDraftBinding)
    (manifest_id draft_id : string) : bool :=
  let binding := ca_binding authorization in
  String.eqb (ca_status authorization) "approved" &&
  String.eqb (cd_decision_id decision) (cb_decision_id binding) &&
  bool_decide (cd_decision decision = cb_decision binding) &&
  String.eqb (cd_manifest_id decision) manifest_id &&
  String.eqb (cb_manifest_id binding) manifest_id &&
  String.eqb (cd_manifest_version decision) (cb_manifest_version binding) &&
  String.eqb (cdb_draft_id (cd_source_draft decision)) draft_id &&
  String.eqb (cdb_draft_id (cb_source_draft binding)) draft_id &&
  String.eqb (cdb_draft_id (cb_current_draft binding)) draft_id &&
  String.eqb (cdb_draft_id (cb_resulting_draft binding)) draft_id &&
  bool_decide (applied = cb_resulting_draft binding).

(** One decision of the loop of _applied_bindings. *)
Definition applied_binding (manifest_id draft_id : string) (maximum_revision : Z) (decision : CohortDecisionRecord)
    : result (list CohortDecisionApplyBinding) :=
  match cd_apply_authorization decision, cd_applied_draft decision with
  | None, None => Ok []
  | Some authorization, Some applied =>
      _ ← guard_or (PersistenceConflictError "selector authority decision binding is inconsistent")
            (applied_binding_consistent decision authorization applied manifest_id draft_id);
      Ok (if cdb_revision applied <=? maximum_revision then [ca_binding authorization] else [])
  | _, _ => Raise (PersistenceConflictError "selector authority decision application is incomplete")
  end.

(** _applied_bindings *)
Definition applied_bindings (manifest_id draft_id : string) (maximum_revision : Z)
    : txM (list CohortDecisionApplyBinding) :=
  decisions ← list_cohort_decisions manifest_id None (Some draft_id) None;
  bindings ← liftR (mapR (applied_binding manifest_id draft_id maximum_revision) decisions);
  mret (concat bindings).

(** _deduplicate_bindings *)
Definition deduplicate_bindings (bindings : list CohortDecisionApplyBinding)
    : result (list CohortDecisionApplyBinding) :=
  unique ← foldR (fun (unique : gmap string CohortDecisionApplyBinding) binding =>
      _ ← raise_if (PersistenceConflictError "selector authority lineage contains conflicting decision bindings")
            match unique !! cb_decision_id binding with
            | Some existing => negb (bool_decide (existing = binding))
            | None => false
            end;
      Ok (<[cb_decision_id binding := binding]> unique)) ∅ bindings;
  Ok (sort_by (fun b => (version_key (cb_manifest_version b), (cdb_revision (cb_resulting_draft b), cb_decision_id b)))
        (snd <$> map_to_list unique)).

(** The consistency test of _validate_published_lineage_entry. *)
Definition lineage_entry_consistent (published : PublishedManifest) (stored : option PublishedManifest)
    (source : DraftRecord) : bool :=
  bool_decide (stored = Some published) &&
  String.eqb (pm_manifest_id published) (wm_manifest_id (pm_manifest published)) &&
  String.eqb (pm_manifest_version published) (wm_manifest_version (pm_manifest published)) &&
  String.eqb (pm_manifest_digest published) (cm_artifact_digest (wm_compatibility (pm_manifest published))) &&
  String.eqb (dr_manifest_id source) (pm_manifest_id published) &&
  String.eqb (wm_manifest_id (dr_manifest source)) (pm_manifest_id published) &&
  String.eqb (wm_manifest_version (dr_manifest source)) (pm_manifest_version published) &&
  String.eqb (dr_manifest_digest source) (pm_manifest_digest published) &&
  bool_decide (dr_manifest source = pm_manifest published) &&
  (pm_source_draft_revision published <=? dr_revision source) &&
  bool_decide (dr_previous_version source = pm_previous_version published).

(** _validate_published_lineage_entry *)
Definition validate_published_lineage_entry (published : PublishedManifest) : txM DraftRecord :=
  stored ← get_published (pm_manifest_id published) (pm_manifest_version published);
  source ← get_draft (pm_source_draft_id published);
  match source with
  | Some source =>
      _ ← liftR (guard_or (PersistenceConflictError "published selector authority lineage is inconsistent")
                   (lineage_entry_consistent published stored source));
      mret source
  | None => liftR (Raise (PersistenceConflictError "published selector authority lineage is inconsistent"))
  end.

(** [a or b] on optional texts: the empty text is falsy. *)
Definition or_text (a b : option string) : option string :=
  match a with Some s => if String.eqb s "" then b else Some s | None => b end.

(** The predecessor test of the lineage walk. *)
Definition require_predecessor (message manifest_id version effective : string) : txM PublishedManifest :=
  previous ← get_published manifest_id version;
  match previous with
  | Some previous =>
      _ ← liftR (guard_or (PersistenceConflictError message)
            (String.eqb (pm_manifest_id previous) manifest_id && String.eqb (pm_manifest_version previous) version &&
             version_lt (pm_manifest_version previous) effective));
      mret previous
  | None => liftR (Raise (PersistenceConflictError message))
  end.

(** _published_lineage_bindings; exhausted fuel is Python's recursion limit. *)
Fixpoint published_lineage_bindings (fuel : nat) (published : PublishedManifest) (visited : gset (string * string))
    : txM (list CohortDecisionApplyBinding) :=
  match fuel with
  | O => liftR (Raise (RuntimeError "maximum recursion depth exceeded"))
  | S fuel =>
      let key := (pm_manifest_id published, pm_manifest_version published) in
      _ ← liftR (raise_if (PersistenceConflictError "published selector authority lineage contains a cycle")
                   (bool_decide (key ∈ visited)));
      source ← validate_published_lineage_entry published;
      inherited ←
        match or_text (dr_rollback_source_version source) (pm_previous_version published) with
        | Some version =>
            previous ← require_predecessor "published selector authority predecessor is invalid"
                         (pm_manifest_id published) version (pm_manifest_version published);
            published_lineage_bindings fuel previous ({[key]} ∪ visited)
        | None => mret []
        end;
      direct ← applied_bindings (pm_manifest_id published) (pm_source_draft_id published)
                 (pm_source_draft_revision published);
      liftR (deduplicate_bindings (inherited ++ direct))
  end.

(** One nested call per stored version, and one more. *)
Definition lineage_fuel (d : StoreData) : nat := S (S (size (sd_published d))).

(** persisted_selector_authority_for_published *)
Definition persisted_selector_authority_for_published (published : PublishedManifest)
    (effective_manifest_version : string) : txM (option PersistedSelectorAuthority) :=
  fuel ← reads lineage_fuel;
  bindings ← published_lineage_bindings fuel published ∅;
  mret (match bindings with
        | [] => None
        | _ => Some {| sa_bindings := bindings; sa_effective_manifest_version := effective_manifest_version |}
        end).

(** persisted_selector_authority_for_draft *)
Definition persisted_selector_authority_for_draft (current : DraftRecord) : txM (option PersistedSelectorAuthority) :=
  direct ← applied_bindings (dr_manifest_id current) (dr_draft_id current) (dr_revision current);
  inherited ←
    match or_text (dr_rollback_source_version current) (dr_previous_version current) with
    | Some version =>
        previous ← require_predecessor "draft selector authority predecessor is invalid"
                     (dr_manifest_id current) version (wm_manifest_version (dr_manifest current));
        authority ← persisted_selector_authority_for_published previous (wm_manifest_version (dr_manifest current));
        mret (match authority with Some a => sa_bindings a | None => [] end)
    | None => mret []
    end;
  match direct ++ inherited with
  | [] => mret None
  | bindings =>
      unique ← liftR (deduplicate_bindings bindings);
      mret (Some {| sa_bindings := unique;
                    sa_effective_manifest_version := wm_manifest_version (dr_manifest current) |})
  end.
End authority.
