(* ===== verification/Contract.v ===== *)
(** * Contract: what the lifecycle service uses of the manifest contract

    The interface between api/service.py and contracts/manifest.py: rendering a
    manifest, validating a payload, and resolving its profiles. The service's
    theorems hold for every implementation. [Resolution] models the functions of
    contracts/manifest.py behind the class; pydantic's dump and parser stay
    parameters. *)
From S2P Require Import Prelude Text Json.
From S2P Require Export Authority.

Class ManifestContract `{PyText} := {
  (** [manifest.model_dump(mode="json", by_alias=True)], and with [exclude_none=True] *)
  dump_json : CanonicalWorkloadManifest -> json;
  dump_json_exclude_none : CanonicalWorkloadManifest -> json;
  (** [manifest.model_dump(mode="python", by_alias=True, exclude_none=True)] *)
  dump_python : CanonicalWorkloadManifest -> json;
  (** [CanonicalWorkloadManifest.model_validate(payload)] *)
  model_validate : json -> result CanonicalWorkloadManifest;
  canonicalize_manifest_payload : json -> result json;
  compute_artifact_digest_value : CanonicalWorkloadManifest -> result string;
  validate_manifest_selector_identity_inheritance : CanonicalWorkloadManifest -> result unit;
  validate_manifest_selector_identity_transition :
    CanonicalWorkloadManifest -> CanonicalWorkloadManifest -> result unit;
  (** [resolve_manifest_profile(manifest, profile_id, as_of=...)] *)
  resolve_manifest_profile : CanonicalWorkloadManifest -> string -> Z -> result ResolvedManifestProfile;
  (** [_resolve_manifest_profile_for_cohort_decision(..., selector_capability=authority)] *)
  resolve_manifest_profile_for_cohort_decision :
    CanonicalWorkloadManifest -> string -> Z -> PersistedSelectorAuthority -> result ResolvedManifestProfile;
}.

(** The conditional resolution every caller writes: the generic resolver without
    an authority, the decision resolver with one. *)
Definition resolve_profile `{ManifestContract} (authority : option PersistedSelectorAuthority)
    (manifest : CanonicalWorkloadManifest) (profile_id : string) (as_of : Z) : result ResolvedManifestProfile :=
  match authority with
  | None => resolve_manifest_profile manifest profile_id as_of
  | Some a => resolve_manifest_profile_for_cohort_decision manifest profile_id as_of a
  end.

(** [except (AthenaValidationError, StopIteration)] *)
Definition athena_or_stop (e : exn) : bool :=
  is_athena_error e || bool_decide (e = StopIteration).

(** [payload.pop(key, None)] on a JSON object. *)
Definition pop_member (k : string) (members : list (string * json)) : list (string * json) :=
  select (fun m => negb (String.eqb (fst m) k)) members.
