(* ===== verification/SelectorRules.v ===== *)
(** * SelectorRules: what a draft may do to selectors

    The selector checks of [ContextService] in api/service.py: a draft keeps the
    selectors of its immutable creation baseline except where a persisted cohort
    decision changes them. Each helper of the class is a definition; a [try]
    block is a pure computation under [reraise]. *)
From S2P Require Import Prelude Text Json Time.
From S2P Require Export Contract.
Local Open Scope Z_scope.

Record NewDraftSelectorReference := {
  ns_manifest : CanonicalWorkloadManifest;
  ns_selector_authority : option PersistedSelectorAuthority;
  ns_selector_entries : list SelectorProvenanceEntry;
  ns_inferred_predecessor : option DraftSelectorBaselineReference;
}.

Section rules.
Context `{PyText} `{Rfc8785} `{ResponseCodec} `{!ManifestContract} `{ModelDump ManifestSelector}
  `{ModelDump CohortDecisionApplyBinding} `{ModelDump ReplaceDraftCommand}.

(** [manifest.profiles.values()] *)
Definition profiles_of (m : CanonicalWorkloadManifest) : list ManifestProfile := snd <$> wm_profiles m.

(** _resolve_effective_selector_provenance *)
Definition resolve_effective_selector_provenance (manifest : CanonicalWorkloadManifest) (as_of : Z)
    (selector_authority : option PersistedSelectorAuthority) : result (gmap string (list SelectorProvenanceEntry)) :=
  foldR (fun effective profile =>
    resolved ← resolve_profile selector_authority manifest (mp_profile_id profile) as_of;
    let profile_id := normalized_id (rp_profile_id resolved) in
    _ ← raise_if (AthenaValidationError "resolved profile identifiers must be unique after normalization")
          (bool_decide (is_Some (effective !! profile_id)));
    provenance ← resolved_profile_selector_provenance resolved;
    Ok (<[profile_id := provenance]> effective)) ∅ (profiles_of manifest).

(** Resolving every profile, as a check. *)
Definition resolve_all (selector_authority : option PersistedSelectorAuthority) (manifest : CanonicalWorkloadManifest)
    (as_of : Z) : result unit :=
  _ ← mapR (fun profile => resolve_profile selector_authority manifest (mp_profile_id profile) as_of)
        (profiles_of manifest);
  Ok tt.

(** The generic resolution, without persisted authority. *)
Definition resolve_generic (manifest : CanonicalWorkloadManifest) (as_of : Z) : result unit :=
  _ ← validate_manifest_selector_identity_inheritance manifest;
  resolve_all None manifest as_of.

(** _validate_generic_manifest_profiles *)
Definition validate_generic_manifest_profiles (manifest : CanonicalWorkloadManifest) (as_of : Z)
    (selector_authority : option PersistedSelectorAuthority) : result unit :=
  let invalid := ManifestValidationError "the draft manifest profile inheritance is not valid" in
  match resolve_generic manifest as_of with
  | Ok _ => Ok tt
  | Raise generic_error =>
      if athena_or_stop generic_error then
        match selector_authority with
        | None => Raise invalid
        | Some _ => reraise athena_or_stop invalid (resolve_all selector_authority manifest as_of)
        end
      else Raise generic_error
  end.

(** The [sorted(bindings, key=...)] order of selector bindings. *)
Definition sort_bindings (bindings : list CohortDecisionApplyBinding) : list CohortDecisionApplyBinding :=
  sort_by (fun item => (cdb_revision (cb_resulting_draft item), cb_decision_id item)) bindings.

(** _validate_manifest_selector_provenance *)
Definition validate_manifest_selector_provenance (baseline : DraftSelectorBaseline)
    (manifest : CanonicalWorkloadManifest) (authority : option PersistedSelectorAuthority) : result unit :=
  base ← selector_role_digests (bl_entries baseline);
  let expected :=
    match authority with
    | None => base
    | Some a =>
        foldl (fun expected binding =>
          <[("profile", Some (normalized_id (cb_profile_id binding)), normalized_id (cb_target_role_id binding))
            := cb_replacement_selector_provenance_digest binding]> expected)
          base (sort_bindings (sa_bindings a))
    end in
  entries ← manifest_selector_provenance manifest;
  actual ← selector_role_digests entries;
  guard_or (AthenaValidationError "selectors must match the immutable baseline and approved provenance")
    (bool_decide (actual = expected)).

(** Whether [binding] replaces exactly the current revision of the draft. *)
Definition binds_replacement (current : DraftRecord) (replacement : CanonicalWorkloadManifest)
    (binding : CohortDecisionApplyBinding) : bool :=
  bool_decide (cb_current_draft binding =
    {| cdb_draft_id := dr_draft_id current; cdb_revision := dr_revision current;
       cdb_manifest_digest := dr_manifest_digest current |}) &&
  bool_decide (cb_resulting_draft binding =
    {| cdb_draft_id := dr_draft_id current; cdb_revision := dr_revision current + 1;
       cdb_manifest_digest := cm_artifact_digest (wm_compatibility replacement) |}).

(** The profiles whose effective selectors a replacement may change. *)
Definition allowed_effective_changes (current : DraftRecord) (replacement : CanonicalWorkloadManifest)
    (selector_authority : option PersistedSelectorAuthority) (selector_change_authorized : bool)
    : result (gset string) :=
  if selector_change_authorized then
    match selector_authority with
    | None => Raise (AthenaValidationError "selector-changing replacement lacks persisted authority")
    | Some a =>
        let allowed : gset string := list_to_set
          ((fun b => normalized_id (cb_profile_id b)) <$> select (binds_replacement current replacement) (sa_bindings a)) in
        _ ← guard_or (AthenaValidationError "selector-changing replacement is not bound to one exact profile")
              (size allowed =? 1)%nat;
        Ok allowed
    end
  else Ok ∅.

(** The comparison of effective selectors, outside [allowed]. *)
Definition effective_unchanged (allowed : gset string)
    (current_effective replacement_effective : gmap string (list SelectorProvenanceEntry)) : bool :=
  bool_decide (dom current_effective = dom replacement_effective) &&
  forallb (fun p => bool_decide (current_effective !! p = replacement_effective !! p) || bool_decide (p ∈ allowed))
    (elements (dom current_effective)).

(** _validate_replacement_profiles *)
Definition validate_replacement_profiles (current : DraftRecord) (replacement : CanonicalWorkloadManifest) (as_of : Z)
    (selector_baseline : DraftSelectorBaseline) (selector_authority : option PersistedSelectorAuthority)
    (selector_change_authorized : bool) : result unit :=
  reraise athena_or_stop (ManifestValidationError "replacement manifest profile inheritance is not valid")
    (current_provenance ← manifest_selector_provenance (dr_manifest current);
     replacement_provenance ← manifest_selector_provenance replacement;
     _ ← raise_if (AthenaValidationError "ordinary draft replacement cannot alter selector provenance")
           (negb selector_change_authorized && negb (bool_decide (current_provenance = replacement_provenance)));
     _ ← validate_manifest_selector_provenance selector_baseline replacement selector_authority;
     allowed ← allowed_effective_changes current replacement selector_authority selector_change_authorized;
     current_effective ← resolve_effective_selector_provenance (dr_manifest current) as_of selector_authority;
     replacement_effective ← resolve_effective_selector_provenance replacement as_of selector_authority;
     _ ← guard_or (AthenaValidationError "draft replacement cannot alter effective selectors outside its profile")
           (effective_unchanged allowed current_effective replacement_effective);
     match selector_authority with
     | Some _ => Ok tt
     | None =>
         _ ← validate_manifest_selector_identity_transition (dr_manifest current) replacement;
         validate_generic_manifest_profiles replacement as_of None
     end).

(** _persisted_lifecycle_selector_authority *)
Definition persisted_lifecycle_selector_authority (current : DraftRecord) : txM (option PersistedSelectorAuthority) :=
  if bool_decide (dr_state current = StateValidated) &&
     match dr_validation current with
     | None => true
     | Some v => negb (vr_validated_revision v =? dr_revision current) ||
                 negb (String.eqb (dr_manifest_digest current) (vr_manifest_digest v))
     end
  then mret None
  else persisted_selector_authority_for_draft current.

Definition throw {A} (e : exn) : txM A := liftR (Raise e).
(** [if not b: raise e] *)
Definition check (e : exn) (b : bool) : txM unit := liftR (guard_or e b).

(** _ensure_manifest_digest *)
Definition ensure_manifest_digest (manifest : CanonicalWorkloadManifest) (supplied_digest : string) : result unit :=
  computed ← compute_artifact_digest_value manifest;
  guard_or (DigestMismatchError "manifest digest does not match the canonical manifest")
    (String.eqb (cm_artifact_digest (wm_compatibility manifest)) computed && String.eqb supplied_digest computed).

(** The audit event of _require_persisted_cohort_apply. *)
Definition audit_records_apply (actor : Actor) (current : DraftRecord) (command : ReplaceDraftCommand)
    (occurred_at : Z) (event : AuditEvent) : bool :=
  let e := ae_event event in
  bool_decide (pa_action e = CohortDecisionRecorded) && bool_decide (pa_actor e = actor) &&
  (pa_occurred_at e =? occurred_at) && bool_decide (pa_draft_id e = Some (dr_draft_id current)) &&
  bool_decide (pa_revision e = Some (dr_revision current + 1)) &&
  String.eqb (pa_manifest_digest e) (rc_replacement_digest command).

(** The decision's own coordinates, before its mutation digest is recomputed. *)
Definition decision_matches_apply (actor : Actor) (current : DraftRecord) (command : ReplaceDraftCommand)
    (occurred_at : Z) (decision_id : string) (record : CohortDecisionRecord)
    (authorization : CohortDecisionApplyAuthorization) : bool :=
  let b := ca_binding authorization in
  String.eqb (ca_status authorization) "approved" &&
  bool_decide (cd_decision record ∈ [DecisionApprove; DecisionSplit; DecisionMerge]) &&
  String.eqb (cd_decision_id record) decision_id &&
  bool_decide (cd_decided_by record = actor) && (cd_decided_at record =? occurred_at) &&
  String.eqb (cd_manifest_id record) (dr_manifest_id current) &&
  String.eqb (cd_manifest_version record) (wm_manifest_version (rc_replacement_manifest command)) &&
  negb (bool_decide (cd_candidate_id record = None)) && negb (bool_decide (cd_candidate_digest record = None)) &&
  bool_decide (cb_actor b = actor) && (cb_decided_at b =? occurred_at) &&
  String.eqb (cdb_draft_id (cb_current_draft b)) (dr_draft_id current) &&
  (cdb_revision (cb_current_draft b) =? dr_revision current) &&
  String.eqb (cdb_manifest_digest (cb_current_draft b)) (dr_manifest_digest current) &&
  String.eqb (cdb_draft_id (cb_source_draft b)) (dr_draft_id current) &&
  (cdb_revision (cb_source_draft b) <=? dr_revision current) &&
  String.eqb (cdb_draft_id (cb_resulting_draft b)) (dr_draft_id current) &&
  (cdb_revision (cb_resulting_draft b) =? dr_revision current + 1) &&
  String.eqb (cdb_manifest_digest (cb_resulting_draft b)) (rc_replacement_digest command) &&
  bool_decide (cd_applied_draft record = Some (cb_resulting_draft b)) &&
  String.eqb (cb_replacement_manifest_digest b) (rc_replacement_digest command) &&
  String.eqb (cm_artifact_digest (wm_compatibility (rc_replacement_manifest command))) (rc_replacement_digest command) &&
  contains decision_id (rc_reason command).

(** _require_persisted_cohort_apply *)
Definition require_persisted_cohort_apply (actor : Actor) (current : DraftRecord) (command : ReplaceDraftCommand)
    (occurred_at : Z) (decision_id : string) : txM (PersistedSelectorAuthority * Z) :=
  record ← get_cohort_decision (dr_manifest_id current) decision_id;
  match record with
  | Some record =>
      match cd_apply_authorization record with
      | Some authorization =>
          events ← list_audit (Some (dr_manifest_id current));
          let matching_audit :=
            List.find (fun event => String.eqb (ae_event_id event) (cau_audit_id (cd_audit record))) events in
          let conflict := PersistenceConflictError "persisted cohort decision does not authorize the exact mutation" in
          _ ← check conflict (decision_matches_apply actor current command occurred_at decision_id record authorization);
          authorized ← liftR (authorizes_command authorization command);
          _ ← check conflict (authorized &&
                match matching_audit with
                | Some event => audit_records_apply actor current command occurred_at event
                | None => false
                end);
          prior_authority ← persisted_lifecycle_selector_authority current;
          let bindings := match prior_authority with Some a => sa_bindings a | None => [] end in
          mret ({| sa_bindings := sort_bindings (bindings ++ [ca_binding authorization]);
                   sa_effective_manifest_version := wm_manifest_version (dr_manifest current) |},
                ps_expires_at (cd_snapshot record))
      | None => throw (PersistenceConflictError "cohort draft mutation requires a persisted approved decision")
      end
  | None => throw (PersistenceConflictError "cohort draft mutation requires a persisted approved decision")
  end.

(** _validate_new_draft_selector_baseline *)
Definition validate_new_draft_selector_baseline (candidate : DraftSelectorBaseline)
    (selector_reference : option NewDraftSelectorReference) : txM unit :=
  same_version ← list_draft_selector_baselines (bl_manifest_id candidate) (Some (bl_manifest_version candidate));
  _ ← check (ManifestValidationError "a fresh draft cannot redefine the immutable selector baseline")
        (forallb (fun b => String.eqb (bl_selector_provenance_digest b) (bl_selector_provenance_digest candidate) &&
                           bool_decide (bl_entries b = bl_entries candidate)) same_version);
  match same_version, selector_reference with
  | [], Some reference =>
      check (ManifestValidationError "a fresh draft cannot introduce, relocate, or change selectors")
        (bool_decide (bl_entries candidate = ns_selector_entries reference))
  | _, _ => mret tt
  end.

(** _validate_new_draft_effective_selector_provenance *)
Definition validate_new_draft_effective_selector_provenance (manifest : CanonicalWorkloadManifest) (as_of : Z)
    (selector_reference : option NewDraftSelectorReference) (selector_authority : option PersistedSelectorAuthority)
    : result unit :=
  match selector_reference with
  | None => Ok tt
  | Some reference =>
      provenance ← reraise athena_or_stop
        (ManifestValidationError "fresh draft effective selector provenance is not valid")
        (expected ← resolve_effective_selector_provenance (ns_manifest reference) as_of (ns_selector_authority reference);
         actual ← resolve_effective_selector_provenance manifest as_of selector_authority;
         Ok (expected, actual));
      guard_or (ManifestValidationError "a fresh draft cannot add, remove, or change effective profile selectors")
        (bool_decide (fst provenance = snd provenance))
  end.

(** The draft behind a baseline is the one the baseline was captured from. *)
Definition baseline_consistent (baseline : DraftSelectorBaseline) (manifest_id : string) (current : DraftRecord) : bool :=
  String.eqb (dr_draft_id current) (bl_draft_id baseline) &&
  String.eqb (dr_manifest_id current) manifest_id &&
  String.eqb (wm_manifest_id (dr_manifest current)) manifest_id &&
  String.eqb (wm_manifest_version (dr_manifest current)) (bl_manifest_version baseline) &&
  bool_decide (dr_created_by current = bl_captured_by baseline) &&
  (dr_created_at current =? bl_captured_at baseline).

(** The predecessor a baseline refers to is the one it was captured from. *)
Definition predecessor_consistent (baseline predecessor : DraftSelectorBaseline)
    (reference : DraftSelectorBaselineReference) : bool :=
  bool_decide (capture_reference predecessor = reference) &&
  String.eqb (bl_manifest_id predecessor) (bl_manifest_id baseline) &&
  version_lt (bl_manifest_version predecessor) (bl_manifest_version baseline) &&
  bool_decide (bl_entries predecessor = bl_entries baseline).

(** _validate_inferred_selector_baseline *)
Fixpoint validate_inferred_selector_baseline (fuel : nat) (baseline : DraftSelectorBaseline) (visited : gset string)
    : txM unit :=
  match fuel with
  | O => throw (RuntimeError "maximum recursion depth exceeded")
  | S fuel =>
      _ ← check (PersistenceConflictError "draft selector baseline lineage contains a cycle")
            (negb (bool_decide (bl_draft_id baseline ∈ visited)));
      current ← get_draft (bl_draft_id baseline);
      match current with
      | None => throw (PersistenceConflictError "draft selector baseline lineage is inconsistent")
      | Some current =>
          _ ← check (PersistenceConflictError "draft selector baseline lineage is inconsistent")
                (baseline_consistent baseline (bl_manifest_id baseline) current);
          match bl_inferred_predecessor baseline with
          | None =>
              candidates ← list_draft_selector_baselines (bl_manifest_id baseline) None;
              check (PersistenceConflictError "draft selector baseline predecessor is missing")
                (negb (bool_decide (dr_previous_version current = None) &&
                       existsb (fun c => version_lt (bl_manifest_version c) (bl_manifest_version baseline)) candidates))
          | Some reference =>
              _ ← check (PersistenceConflictError "draft selector baseline has conflicting predecessor kinds")
                    (bool_decide (dr_previous_version current = None));
              predecessor ← get_draft_selector_baseline (br_draft_id reference);
              match predecessor with
              | None => throw (PersistenceConflictError "draft selector baseline predecessor is inconsistent")
              | Some predecessor =>
                  _ ← check (PersistenceConflictError "draft selector baseline predecessor is inconsistent")
                        (predecessor_consistent baseline predecessor reference);
                  validate_inferred_selector_baseline fuel predecessor ({[bl_draft_id baseline]} ∪ visited)
              end
          end
      end
  end.

(** One nested call per stored baseline, and one more. *)
Definition baseline_fuel (d : StoreData) : nat := S (S (size (sd_draft_selector_baselines d))).

(** The top call, [visited=frozenset()]. *)
Definition validate_baseline_lineage (baseline : DraftSelectorBaseline) : txM unit :=
  fuel ← reads baseline_fuel;
  validate_inferred_selector_baseline fuel baseline ∅.

(** [max(versions, key=_version_key)]: the first of the largest versions. *)
Definition latest_version (versions : list string) : option string :=
  foldl (fun best v =>
    match best with
    | None => Some v
    | Some b => if version_lt b v then Some v else Some b
    end) None versions.

(** The baselines a draft without a declared predecessor may continue. *)
Definition predecessor_candidates (manifest_version : string) (workload_baselines : list DraftSelectorBaseline)
    : result (list DraftSelectorBaseline) :=
  match select (fun b => String.eqb (bl_manifest_version b) manifest_version) workload_baselines with
  | [] =>
      let predecessor_versions :=
        select (fun v => version_lt v manifest_version) (bl_manifest_version <$> workload_baselines) in
      match latest_version predecessor_versions with
      | None => Raise (VersionMismatchError "new manifest version has no earlier selector predecessor")
      | Some latest => Ok (select (fun b => String.eqb (bl_manifest_version b) latest) workload_baselines)
      end
  | same_version => Ok same_version
  end.

(** The unpublished predecessor still carries the selectors it was created with. *)
Definition matches_creation_baseline (baseline : DraftSelectorBaseline) (reference : DraftRecord) : result bool :=
  if String.eqb (dr_manifest_digest reference) (bl_source_manifest_digest baseline) &&
     String.eqb (dr_manifest_digest reference) (cm_artifact_digest (wm_compatibility (dr_manifest reference)))
  then entries ← manifest_selector_provenance (dr_manifest reference);
       Ok (bool_decide (entries = bl_entries baseline))
  else Ok false.

(** The branch of _new_draft_selector_reference with a declared predecessor. *)
Definition published_selector_reference (manifest_id reference_version : string) : txM NewDraftSelectorReference :=
  published ← get_published manifest_id reference_version;
  match published with
  | None => throw (PersistenceConflictError "declared selector predecessor is missing")
  | Some published =>
      authority ← persisted_selector_authority_for_published published (wm_manifest_version (pm_manifest published));
      entries ← liftR (manifest_selector_provenance (pm_manifest published));
      mret {| ns_manifest := pm_manifest published; ns_selector_authority := authority;
              ns_selector_entries := entries; ns_inferred_predecessor := None |}
  end.

(** Its branch for the one candidate baseline of an undeclared predecessor. *)
Definition inferred_selector_reference (manifest : CanonicalWorkloadManifest) (as_of : Z)
    (baseline : DraftSelectorBaseline) : txM NewDraftSelectorReference :=
  reference ← get_draft (bl_draft_id baseline);
  match reference with
  | None => throw (PersistenceConflictError "selector predecessor baseline is inconsistent")
  | Some reference =>
      _ ← check (PersistenceConflictError "selector predecessor baseline is inconsistent")
            (baseline_consistent baseline (wm_manifest_id manifest) reference);
      _ ← validate_baseline_lineage baseline;
      _ ← check (ManifestValidationError "an unpublished draft with declared lineage cannot seed another draft")
            (bool_decide (dr_previous_version reference = None));
      authority ← persisted_selector_authority_for_draft reference;
      _ ← check (ManifestValidationError "unpublished selector authority requires an explicit previous_version")
            (match authority with None => true | Some _ => false end);
      let same := String.eqb (bl_manifest_version baseline) (wm_manifest_version manifest) in
      unchanged ← liftR (if same then Ok true else matches_creation_baseline baseline reference);
      _ ← check (ManifestValidationError "unpublished selector predecessor no longer matches its baseline") unchanged;
      _ ← liftR (reraise is_athena_error (ManifestValidationError "selector predecessor provenance is not valid")
            (_ ← validate_manifest_selector_provenance baseline (dr_manifest reference) None;
             validate_generic_manifest_profiles (dr_manifest reference) as_of None));
      mret {| ns_manifest := dr_manifest reference; ns_selector_authority := None;
              ns_selector_entries := bl_entries baseline;
              ns_inferred_predecessor :=
                if same then bl_inferred_predecessor baseline else Some (capture_reference baseline) |}
  end.

(** _new_draft_selector_reference *)
Definition new_draft_selector_reference (manifest : CanonicalWorkloadManifest)
    (previous_version selector_source_version : option string) (as_of : Z) : txM (option NewDraftSelectorReference) :=
  match or_text selector_source_version previous_version with
  | Some reference_version =>
      reference ← published_selector_reference (wm_manifest_id manifest) reference_version;
      mret (Some reference)
  | None =>
      workload_baselines ← list_draft_selector_baselines (wm_manifest_id manifest) None;
      match workload_baselines with
      | [] => mret None
      | _ =>
          candidates ← liftR (predecessor_candidates (wm_manifest_version manifest) workload_baselines);
          match candidates with
          | [baseline] =>
              reference ← inferred_selector_reference manifest as_of baseline;
              mret (Some reference)
          | _ => throw (AmbiguousLookupError "selector predecessor lineage has multiple candidate drafts")
          end
      end
  end.

(** The backfill of _require_selector_baseline for a draft older than baselines. *)
Definition backfill_selector_baseline (current : DraftRecord) : txM DraftSelectorBaseline :=
  decisions ← list_cohort_decisions (dr_manifest_id current) None (Some (dr_draft_id current)) None;
  _ ← check (PersistenceConflictError "legacy draft baseline cannot be backfilled after cohort decisions")
        (bool_decide (decisions = []));
  let invalid := PersistenceConflictError "legacy draft baseline cannot be backfilled from invalid content" in
  _ ← check invalid (String.eqb (dr_manifest_digest current) (cm_artifact_digest (wm_compatibility (dr_manifest current))));
  computed ← liftR (compute_artifact_digest_value (dr_manifest current));
  _ ← check invalid (String.eqb (dr_manifest_digest current) computed);
  _ ← match or_text (dr_rollback_source_version current) (dr_previous_version current) with
      | None => mret tt
      | Some version =>
          let conflict := PersistenceConflictError "legacy draft selectors do not match their published source" in
          source ← get_published (dr_manifest_id current) version;
          match source with
          | None => throw conflict
          | Some source =>
              own ← liftR (manifest_selector_provenance (dr_manifest current));
              published ← liftR (manifest_selector_provenance (pm_manifest source));
              check conflict (bool_decide (own = published))
          end
      end;
  baseline ← liftR (capture (dr_draft_id current) (dr_manifest current) (dr_manifest_digest current) None
                      (dr_created_by current) (dr_created_at current));
  _ ← put_draft_selector_baseline baseline;
  mret baseline.

(** _require_selector_baseline, ensure_selector_baseline_in_transaction *)
Definition require_selector_baseline (current : DraftRecord) : txM DraftSelectorBaseline :=
  stored ← get_draft_selector_baseline (dr_draft_id current);
  baseline ← match stored with Some b => mret b | None => backfill_selector_baseline current end;
  _ ← check (PersistenceConflictError "draft selector baseline is missing or inconsistent")
        (String.eqb (bl_manifest_id baseline) (dr_manifest_id current) &&
         String.eqb (bl_manifest_version baseline) (wm_manifest_version (dr_manifest current)));
  _ ← validate_baseline_lineage baseline;
  mret baseline.

(** _validate_lifecycle_manifest *)
Definition validate_lifecycle_manifest (current : DraftRecord) (manifest : CanonicalWorkloadManifest)
    (manifest_digest : string) (as_of : Z) : txM unit :=
  validated_manifest ← liftR (reraise is_value_error (ManifestValidationError "the draft manifest is not valid")
    (validated ← model_validate (dump_python manifest);
     _ ← ensure_manifest_digest validated manifest_digest;
     Ok validated));
  baseline ← require_selector_baseline current;
  authority ← persisted_lifecycle_selector_authority current;
  _ ← liftR (reraise is_athena_error (ManifestValidationError "the draft selector provenance is not valid")
        (validate_manifest_selector_provenance baseline validated_manifest authority));
  let invalid := ManifestValidationError "the draft manifest profile inheritance is not valid" in
  liftR match resolve_generic validated_manifest as_of with
        | Ok _ => Ok tt
        | Raise generic_error =>
            if is_athena_error generic_error then
              match authority with
              | None => Raise invalid
              | Some _ => reraise is_athena_error invalid (resolve_all authority validated_manifest as_of)
              end
            else Raise generic_error
        end.
End rules.
