(* ===== verification/Lifecycle.v ===== *)
(** * Lifecycle: the manifest state machine

    The mutations of [ContextService] in api/service.py. Each mutation is a body
    on the open transaction; [mutate] runs it under idempotency, and the public
    method authorises first. Readings of the injected clock are arguments and
    pass through [ensure_timestamp]. *)
From S2P Require Import Prelude Text Json Time Authorization.
From S2P Require Export SelectorRules.
Local Open Scope Z_scope.

(** ContextService.__init__ refuses a publication actor that is not a service. *)
Definition init_publication_actor (actor : Actor) : result Actor :=
  _ ← guard_or (ValueError "publication_actor must be a service actor") (bool_decide (ac_kind actor = ActorService));
  Ok actor.

Section service.
Context `{PyText} `{Rfc8785} `{PydanticJson} `{ResponseCodec} `{!ManifestContract} `{!AuthorizationPort}
  `{ModelDump ManifestSelector} `{ModelDump CohortDecisionApplyBinding}
  `{ModelDump CreateDraftCommand} `{ModelDump ReplaceDraftCommand} `{ModelDump TransitionCommand}
  `{ModelDump ReviewCommand} `{ModelDump ApproveCommand} `{ModelDump PublishCommand} `{ModelDump SupersedeCommand}
  `{ModelDump IssueOperationalContextReceiptCommand}.
(** [self._publication_actor] *)
Context (publication_actor : Actor).

(** ** Guards *)

(** _require_draft *)
Definition require_draft (draft_id : string) : txM DraftRecord :=
  draft ← get_draft draft_id;
  match draft with
  | None => throw (ResourceNotFoundError "draft was not found")
  | Some draft => mret draft
  end.

(** _require_published *)
Definition require_published (manifest_id manifest_version : string) : txM PublishedManifest :=
  published ← get_published manifest_id manifest_version;
  match published with
  | None => throw (ResourceNotFoundError "manifest version was not found")
  | Some published => mret published
  end.

(** _require_state *)
Definition require_state (draft : DraftRecord) (required : DraftState) : result unit :=
  guard_or (InvalidTransitionError "draft state cannot perform transition") (bool_decide (dr_state draft = required)).

(** _ensure_expected *)
Definition ensure_expected (draft : DraftRecord) (expected_revision : Z)
    (expected_manifest_version expected_digest : string) : result unit :=
  _ ← guard_or (StaleRevisionError "expected draft revision") (dr_revision draft =? expected_revision);
  _ ← guard_or (VersionMismatchError "expected manifest version does not match the draft")
        (String.eqb (wm_manifest_version (dr_manifest draft)) expected_manifest_version);
  guard_or (DigestMismatchError "expected manifest digest does not match the draft")
    (String.eqb (dr_manifest_digest draft) expected_digest).

(** _ensure_expected_command *)
Definition ensure_expected_command (draft : DraftRecord) (command : TransitionCommand) : result unit :=
  ensure_expected draft (tc_expected_revision command) (tc_expected_manifest_version command) (tc_expected_digest command).

(** [active] of _ensure_lineage: the published versions without a supersession. *)
Definition active_versions (manifest_id : string) (d : StoreData) : list PublishedManifest :=
  select (fun item => bool_decide (sd_supersessions d !! (manifest_id, pm_manifest_version item) = None))
    (published_list (Some manifest_id) d).

(** _ensure_lineage *)
Definition ensure_lineage (manifest_id new_version : string) (previous_version : option string) : txM unit :=
  active ← reads (active_versions manifest_id);
  match active with
  | [] => check (VersionMismatchError "previous_version does not identify an active version")
            (bool_decide (previous_version = None))
  | [current] =>
      _ ← check (VersionMismatchError "previous_version must identify the active published version")
            (bool_decide (previous_version = Some (pm_manifest_version current)));
      check (VersionMismatchError "new manifest version must be greater than previous_version")
        (version_lt (pm_manifest_version current) new_version)
  | _ => throw (AmbiguousLookupError "published version lineage has multiple active versions")
  end.

(** _finalize_publication_candidate; [finalized_at] enters the payload as a
    [datetime]. *)
Definition finalize_publication_candidate (manifest : CanonicalWorkloadManifest) (finalized_at : Z)
    : result CanonicalWorkloadManifest :=
  let audit := JObj [("publishedBy", JStr (ac_actor_id publication_actor)); ("publishedAt", JTime finalized_at);
                     ("approvalStatus", JStr "approved")] in
  let payload :=
    match dump_json_exclude_none manifest with
    | JObj members => JObj (set_member "audit" audit members)
    | other => other
    end in
  reraise is_value_error (ManifestValidationError "the server could not finalize the publication candidate")
    (finalized_payload ← canonicalize_manifest_payload payload;
     model_validate finalized_payload).

(** The provenance test of _require_current_publication_candidate. *)
Definition candidate_current (draft : DraftRecord) (candidate : PublicationCandidate) (review : ReviewSubmission) : bool :=
  let audit := wm_audit (dr_manifest draft) in
  bool_decide (pc_finalized_by candidate = publication_actor) &&
  String.eqb (pc_manifest_version candidate) (wm_manifest_version (dr_manifest draft)) &&
  String.eqb (pc_manifest_digest candidate) (dr_manifest_digest draft) &&
  String.eqb (pc_semantic_digest candidate) (cm_semantic_digest (wm_compatibility (dr_manifest draft))) &&
  String.eqb (pc_approval_status candidate) "approved" &&
  String.eqb (rs_publication_candidate_digest review) (dr_manifest_digest draft) &&
  String.eqb (ma_published_by audit) (ac_actor_id publication_actor) &&
  (ma_published_at audit =? pc_finalized_at candidate) &&
  String.eqb (ma_approval_status audit) (pc_approval_status candidate).

(** _require_current_publication_candidate *)
Definition require_current_publication_candidate (draft : DraftRecord) : result PublicationCandidate :=
  let stale := StaleApprovalError "the publication candidate provenance does not match this draft" in
  match dr_publication_candidate draft, dr_review draft with
  | Some candidate, Some review =>
      _ ← guard_or stale (candidate_current draft candidate review);
      _ ← ensure_manifest_digest (dr_manifest draft) (dr_manifest_digest draft);
      Ok candidate
  | _, _ => Raise stale
  end.

(** The coordinates and window test of _require_operational_context_receipt. *)
Definition receipt_authorizes (receipt : OperationalContextReceipt) (current : DraftRecord) (as_of : Z) : bool :=
  let b := or_binding receipt in
  bool_decide (ac_kind (or_issued_by receipt) = ActorService) &&
  String.eqb (ob_manifest_id b) (dr_manifest_id current) &&
  String.eqb (ob_manifest_version b) (wm_manifest_version (dr_manifest current)) &&
  String.eqb (ob_draft_id b) (dr_draft_id current) &&
  (ob_draft_revision b =? dr_revision current) &&
  String.eqb (ob_manifest_digest b) (dr_manifest_digest current) &&
  (or_issued_at receipt <=? as_of) &&
  (ob_collected_at b <=? or_issued_at receipt) &&
  (as_of <? ob_expires_at b).

(** [required_profile]: the production profile of the draft. *)
Definition production_profile (manifest : CanonicalWorkloadManifest) : option ManifestProfile :=
  List.find (fun p => String.eqb (normalized_id (mp_profile_id p)) "production" &&
                      String.eqb (mp_profile_type p) "production") (profiles_of manifest).

(** _require_operational_context_receipt *)
Definition require_operational_context_receipt (current : DraftRecord) (receipt_id : string) (as_of : Z)
    : txM OperationalContextReceipt :=
  stored ← get_operational_context_receipt receipt_id;
  match stored with
  | None => throw (OperationalContextReceiptError "operational context receipt was not found")
  | Some receipt =>
      _ ← check (OperationalContextReceiptError "operational context receipt does not authorize this draft")
            (receipt_authorizes receipt current as_of);
      _ ← check (OperationalContextReceiptError "operational context receipt is not bound to the active profile")
            match production_profile (dr_manifest current) with
            | None => false
            | Some required => String.eqb (ob_profile_id (or_binding receipt)) (mp_profile_id required)
            end;
      authority ← persisted_selector_authority_for_draft current;
      resolved ← liftR (reraise is_athena_error
        (OperationalContextReceiptError "operational context receipt profile is no longer resolvable")
        (resolve_profile authority (dr_manifest current) (ob_profile_id (or_binding receipt)) as_of));
      _ ← check (OperationalContextReceiptError "operational context receipt profile digest is stale")
            (String.eqb (rp_resolved_profile_digest resolved) (ob_profile_digest (or_binding receipt)));
      mret receipt
  end.

(** _audit_event *)
Definition audit_event (now : Z) (actor : Actor) (action : AuditAction) (draft : DraftRecord)
    (previous_revision : option Z) (reason : string) (replacement_version : option string)
    (publication_actor : option Actor) (publication_timestamp : option Z) : PendingAuditEvent := {|
  pa_occurred_at := now;
  pa_actor := actor;
  pa_action := action;
  pa_manifest_id := dr_manifest_id draft;
  pa_draft_id := Some (dr_draft_id draft);
  pa_revision := Some (dr_revision draft);
  pa_previous_revision := previous_revision;
  pa_manifest_version := Some (wm_manifest_version (dr_manifest draft));
  pa_previous_version := dr_previous_version draft;
  pa_replacement_version := replacement_version;
  pa_publication_actor := publication_actor;
  pa_publication_timestamp := publication_timestamp;
  pa_manifest_digest := dr_manifest_digest draft;
  pa_reason := reason |}.

(** ** [current.model_copy(update={...})]

    [touched] updates the fields every transition updates; the other setters
    update one field of the copy. *)
Definition touched (actor : Actor) (now : Z) (reason : string) (d : DraftRecord) : DraftRecord := {|
  dr_draft_id := dr_draft_id d; dr_manifest_id := dr_manifest_id d; dr_state := dr_state d;
  dr_revision := dr_revision d + 1; dr_manifest := dr_manifest d; dr_manifest_digest := dr_manifest_digest d;
  dr_previous_version := dr_previous_version d; dr_rollback_source_version := dr_rollback_source_version d;
  dr_created_by := dr_created_by d; dr_created_at := dr_created_at d;
  dr_updated_by := actor; dr_updated_at := now; dr_reason := reason;
  dr_validation := dr_validation d; dr_review := dr_review d; dr_publication_candidate := dr_publication_candidate d;
  dr_review_decisions := dr_review_decisions d; dr_approval := dr_approval d |}.

Definition set_state (state : DraftState) (d : DraftRecord) : DraftRecord := {|
  dr_draft_id := dr_draft_id d; dr_manifest_id := dr_manifest_id d; dr_state := state;
  dr_revision := dr_revision d; dr_manifest := dr_manifest d; dr_manifest_digest := dr_manifest_digest d;
  dr_previous_version := dr_previous_version d; dr_rollback_source_version := dr_rollback_source_version d;
  dr_created_by := dr_created_by d; dr_created_at := dr_created_at d;
  dr_updated_by := dr_updated_by d; dr_updated_at := dr_updated_at d; dr_reason := dr_reason d;
  dr_validation := dr_validation d; dr_review := dr_review d; dr_publication_candidate := dr_publication_candidate d;
  dr_review_decisions := dr_review_decisions d; dr_approval := dr_approval d |}.

Definition set_manifest (manifest : CanonicalWorkloadManifest) (manifest_digest : string) (d : DraftRecord)
    : DraftRecord := {|
  dr_draft_id := dr_draft_id d; dr_manifest_id := dr_manifest_id d; dr_state := dr_state d;
  dr_revision := dr_revision d; dr_manifest := manifest; dr_manifest_digest := manifest_digest;
  dr_previous_version := dr_previous_version d; dr_rollback_source_version := dr_rollback_source_version d;
  dr_created_by := dr_created_by d; dr_created_at := dr_created_at d;
  dr_updated_by := dr_updated_by d; dr_updated_at := dr_updated_at d; dr_reason := dr_reason d;
  dr_validation := dr_validation d; dr_review := dr_review d; dr_publication_candidate := dr_publication_candidate d;
  dr_review_decisions := dr_review_decisions d; dr_approval := dr_approval d |}.

(** The governance fields: validation, review, publication candidate, decisions, approval. *)
Definition set_governance (validation : option ValidationRecord) (review : option ReviewSubmission)
    (candidate : option PublicationCandidate) (decisions : list ReviewDecision) (approval : option ApprovalDecision)
    (d : DraftRecord) : DraftRecord := {|
  dr_draft_id := dr_draft_id d; dr_manifest_id := dr_manifest_id d; dr_state := dr_state d;
  dr_revision := dr_revision d; dr_manifest := dr_manifest d; dr_manifest_digest := dr_manifest_digest d;
  dr_previous_version := dr_previous_version d; dr_rollback_source_version := dr_rollback_source_version d;
  dr_created_by := dr_created_by d; dr_created_at := dr_created_at d;
  dr_updated_by := dr_updated_by d; dr_updated_at := dr_updated_at d; dr_reason := dr_reason d;
  dr_validation := validation; dr_review := review; dr_publication_candidate := candidate;
  dr_review_decisions := decisions; dr_approval := approval |}.

(** [tx.put_draft(updated, expected_revision=current.revision)], then the audit
    event of the transition. *)
Definition store_transition (now : Z) (actor : Actor) (action : AuditAction) (current updated : DraftRecord)
    (reason : string) (replacement_version : option string) (publisher : option Actor)
    (publication_timestamp : option Z) : txM unit :=
  _ ← put_draft updated (Some (dr_revision current));
  _ ← append_audit (audit_event now actor action updated (Some (dr_revision current)) reason replacement_version
                      publisher publication_timestamp);
  mret tt.

(** ** Mutation bodies *)

(** _rollback_content_digest *)
Definition rollback_content_digest (manifest : CanonicalWorkloadManifest) : result string :=
  let strip_compatibility m :=
    match m with
    | ("compatibility", JObj c) => ("compatibility", JObj (pop_member "semanticDigest" (pop_member "artifactDigest" c)))
    | m => m
    end in
  compute_artifact_digest
    match dump_json manifest with
    | JObj members => JObj (strip_compatibility <$> pop_member "audit" (pop_member "manifestVersion" members))
    | other => other
    end.

(** The rollback check of create_draft. *)
Definition check_rollback (command : CreateDraftCommand) : txM unit :=
  match cc_rollback_source_version command with
  | None => mret tt
  | Some source_version =>
      let not_a_clone := ManifestValidationError "rollback draft must clone an older published version" in
      source ← get_published (wm_manifest_id (cc_manifest command)) source_version;
      match source, cc_previous_version command with
      | None, _ => throw (ResourceNotFoundError "rollback source version was not found")
      | Some _, None => throw not_a_clone
      | Some rollback_source, Some previous_version =>
          _ ← check not_a_clone (version_lt source_version previous_version);
          own ← liftR (rollback_content_digest (cc_manifest command));
          cloned ← liftR (rollback_content_digest (pm_manifest rollback_source));
          check not_a_clone (String.eqb own cloned)
      end
  end.

(** [create] of create_draft *)
Definition create_body (actor : Actor) (command : CreateDraftCommand) (clock : Z) : txM DraftRecord :=
  let manifest := cc_manifest command in
  let manifest_id := wm_manifest_id manifest in
  _ ← liftR (ensure_manifest_digest manifest (cc_manifest_digest command));
  _ ← ensure_lineage manifest_id (wm_manifest_version manifest) (cc_previous_version command);
  now ← liftR (ensure_timestamp clock);
  _ ← check_rollback command;
  selector_reference ←
    new_draft_selector_reference manifest (cc_previous_version command) (cc_rollback_source_version command) now;
  let selector_authority :=
    reference ← selector_reference;
    authority ← ns_selector_authority reference;
    Some {| sa_bindings := sa_bindings authority; sa_effective_manifest_version := wm_manifest_version manifest |} in
  selector_baseline ← liftR (capture (cc_draft_id command) manifest (cc_manifest_digest command)
                               (selector_reference ≫= ns_inferred_predecessor) actor now);
  _ ← validate_new_draft_selector_baseline selector_baseline selector_reference;
  _ ← liftR (validate_generic_manifest_profiles manifest now selector_authority);
  _ ← liftR (validate_new_draft_effective_selector_provenance manifest now selector_reference selector_authority);
  let draft := {|
    dr_draft_id := cc_draft_id command; dr_manifest_id := manifest_id; dr_state := StateDraft; dr_revision := 1;
    dr_manifest := manifest; dr_manifest_digest := cc_manifest_digest command;
    dr_previous_version := cc_previous_version command;
    dr_rollback_source_version := cc_rollback_source_version command;
    dr_created_by := actor; dr_created_at := now; dr_updated_by := actor; dr_updated_at := now;
    dr_reason := cc_reason command; dr_validation := None; dr_review := None; dr_publication_candidate := None;
    dr_review_decisions := []; dr_approval := None |} in
  _ ← put_draft_selector_baseline selector_baseline;
  _ ← put_draft draft None;
  _ ← append_audit (audit_event now actor DraftCreated draft None (cc_reason command) None None None);
  mret draft.

(** replace_draft_in_transaction: [occurred_at] is the caller's, [clock] and
    [final_clock] the readings of the injected clock. *)
Definition replace_draft_in_transaction (actor : Actor) (draft_id : string) (command : ReplaceDraftCommand)
    (occurred_at : option Z) (cohort_decision_id : option string) (clock final_clock : Z) : txM DraftRecord :=
  current ← require_draft draft_id;
  _ ← liftR (require actor PermUpdateDraft (Some (dr_manifest_id current)));
  _ ← liftR (require_state current StateDraft);
  _ ← liftR (ensure_expected current (rc_expected_revision command) (rc_expected_manifest_version command)
               (rc_expected_digest command));
  let manifest := rc_replacement_manifest command in
  _ ← check (VersionMismatchError "a replacement cannot change manifestId")
        (String.eqb (wm_manifest_id manifest) (dr_manifest_id current));
  _ ← check (VersionMismatchError "a replacement cannot change the draft manifestVersion")
        (String.eqb (wm_manifest_version manifest) (wm_manifest_version (dr_manifest current)));
  _ ← liftR (ensure_manifest_digest manifest (rc_replacement_digest command));
  _ ← ensure_lineage (dr_manifest_id current) (wm_manifest_version manifest) (dr_previous_version current);
  now ← liftR (ensure_timestamp (default clock occurred_at));
  selector_baseline ← require_selector_baseline current;
  authority ←
    match cohort_decision_id with
    | None => authority ← persisted_lifecycle_selector_authority current; mret (authority, None)
    | Some decision_id =>
        apply ← require_persisted_cohort_apply actor current command now decision_id;
        mret (Some (fst apply), Some (snd apply))
    end;
  _ ← liftR (validate_replacement_profiles current manifest now selector_baseline (fst authority)
               (negb (bool_decide (cohort_decision_id = None))));
  let replacement :=
    touched actor now (rc_reason command)
      (set_manifest manifest (rc_replacement_digest command)
         (set_governance None None (dr_publication_candidate current) (dr_review_decisions current) None current)) in
  _ ← match snd authority with
      | None => mret tt
      | Some cohort_snapshot_expires_at =>
          final_apply_at ← liftR (ensure_timestamp final_clock);
          check (StaleEvidenceSnapshotError "cohort evidence expired before the atomic draft mutation")
            ((now <=? final_apply_at) && (final_apply_at <? cohort_snapshot_expires_at))
      end;
  _ ← store_transition now actor DraftReplaced current replacement (rc_reason command) None None None;
  mret replacement.

(** [validate] of validate_draft *)
Definition validate_body (actor : Actor) (draft_id : string) (command : TransitionCommand) (clock : Z)
    : txM DraftRecord :=
  current ← require_draft draft_id;
  _ ← liftR (require actor PermValidate (Some (dr_manifest_id current)));
  _ ← liftR (require_state current StateDraft);
  _ ← liftR (ensure_expected_command current command);
  now ← liftR (ensure_timestamp clock);
  _ ← validate_lifecycle_manifest current (dr_manifest current) (dr_manifest_digest current) now;
  let revision := dr_revision current + 1 in
  let validation := {| vr_validated_by := actor; vr_validated_at := now; vr_validated_revision := revision;
                       vr_manifest_digest := dr_manifest_digest current |} in
  let updated :=
    touched actor now (tc_reason command) (set_state StateValidated
      (set_governance (Some validation) (dr_review current) (dr_publication_candidate current)
         (dr_review_decisions current) (dr_approval current) current)) in
  _ ← store_transition now actor DraftValidated current updated (tc_reason command) None None None;
  mret updated.

(** The comparison of an existing receipt with the command, in [issue]. *)
Definition same_receipt (actor : Actor) (command : IssueOperationalContextReceiptCommand)
    (existing : OperationalContextReceipt) : bool :=
  let b := or_binding existing in
  let c := ic_binding command in
  bool_decide (or_issued_by existing = actor) &&
  String.eqb (ob_manifest_id b) (ob_manifest_id c) && String.eqb (ob_manifest_version b) (ob_manifest_version c) &&
  String.eqb (ob_profile_id b) (ob_profile_id c) && String.eqb (ob_draft_id b) (ob_draft_id c) &&
  (ob_draft_revision b =? ob_draft_revision c) && String.eqb (ob_manifest_digest b) (ob_manifest_digest c) &&
  String.eqb (ob_profile_digest b) (ob_profile_digest c) && String.eqb (ob_snapshot_id b) (ob_snapshot_id c) &&
  (ob_collected_at b =? ob_collected_at c) && (ob_expires_at b =? ob_expires_at c) &&
  (or_evidence_count existing =? Z.of_nat (length (ic_evidence_inventory command))) &&
  String.eqb (ob_evidence_inventory_digest b) (ob_evidence_inventory_digest c) &&
  String.eqb (ob_content_digest b) (ob_content_digest c) &&
  String.eqb (or_binding_digest existing) (ic_binding_digest command).

(** [issue] of issue_operational_context_receipt *)
Definition issue_body (actor : Actor) (command : IssueOperationalContextReceiptCommand) (clock : Z)
    : txM OperationalContextReceipt :=
  let c := ic_binding command in
  current ← require_draft (ob_draft_id c);
  _ ← liftR (require actor PermIssueOperationalContext (Some (dr_manifest_id current)));
  _ ← check (OperationalContextReceiptError "operational context workload does not match its draft")
        (String.eqb (dr_manifest_id current) (ob_manifest_id c));
  _ ← liftR (ensure_expected current (ob_draft_revision c) (ob_manifest_version c) (ob_manifest_digest c));
  now ← liftR (ensure_timestamp clock);
  _ ← liftR (raise_if (StaleEvidenceSnapshotError "operational context is future-dated or expired")
               ((now <? ob_collected_at c) || (ob_expires_at c <=? now)));
  authority ← persisted_selector_authority_for_draft current;
  profile ← liftR (reraise is_athena_error
    (OperationalContextReceiptError "operational context profile is not currently resolvable")
    (resolve_profile authority (dr_manifest current) (ob_profile_id c) now));
  _ ← check (OperationalContextReceiptError "operational context profile digest is not authoritative")
        (String.eqb (rp_profile_id profile) (ob_profile_id c) &&
         String.eqb (rp_resolved_profile_digest profile) (ob_profile_digest c));
  candidate ← liftR (build_operational_context_receipt actor command now);
  existing ← get_operational_context_receipt (or_receipt_id candidate);
  match existing with
  | Some existing =>
      _ ← check (PersistenceConflictError "operational context receipt identifier collision")
            (same_receipt actor command existing);
      mret existing
  | None =>
      _ ← put_operational_context_receipt candidate;
      mret candidate
  end.

(** [submit] of submit_for_review *)
Definition submit_body (actor : Actor) (draft_id : string) (command : TransitionCommand) (clock : Z)
    : txM DraftRecord :=
  current ← require_draft draft_id;
  _ ← liftR (require actor PermSubmit (Some (dr_manifest_id current)));
  _ ← liftR (require_state current StateValidated);
  _ ← liftR (ensure_expected_command current command);
  now ← liftR (ensure_timestamp clock);
  _ ← validate_lifecycle_manifest current (dr_manifest current) (dr_manifest_digest current) now;
  candidate_manifest ← liftR (finalize_publication_candidate (dr_manifest current) now);
  let candidate_digest := cm_artifact_digest (wm_compatibility candidate_manifest) in
  _ ← validate_lifecycle_manifest current candidate_manifest candidate_digest now;
  let revision := dr_revision current + 1 in
  let review := {| rs_submitted_by := actor; rs_submitted_at := now; rs_submitted_revision := revision;
                   rs_publication_candidate_digest := candidate_digest; rs_reason := tc_reason command |} in
  let candidate := {|
    pc_finalized_by := publication_actor; pc_finalized_at := now;
    pc_manifest_version := wm_manifest_version candidate_manifest; pc_manifest_digest := candidate_digest;
    pc_semantic_digest := cm_semantic_digest (wm_compatibility candidate_manifest);
    pc_approval_status := "approved" |} in
  let updated :=
    touched actor now (tc_reason command) (set_state StateInReview (set_manifest candidate_manifest candidate_digest
      (set_governance (dr_validation current) (Some review) (Some candidate) (dr_review_decisions current)
         (dr_approval current) current))) in
  _ ← store_transition now actor ReviewSubmitted current updated (tc_reason command) None
        (Some publication_actor) (Some now);
  mret updated.

(** [f"{draft_id}-r{revision}{suffix}"] *)
Definition governance_decision_id (draft_id : string) (revision : Z) (suffix : string) : string :=
  draft_id +:+ "-r" +:+ pretty.pretty revision +:+ suffix.

(** The [ReviewDecision(...)] of review_draft. *)
Definition review_decision (actor : Actor) (command : ReviewCommand) (current : DraftRecord) (now : Z)
    : ReviewDecision := {|
  rd_decision_id := governance_decision_id (dr_draft_id current) (dr_revision current + 1) "-review";
  rd_decision := vc_decision command;
  rd_reviewed_by := actor;
  rd_reviewed_at := now;
  rd_reviewed_revision := dr_revision current + 1;
  rd_manifest_version := wm_manifest_version (dr_manifest current);
  rd_manifest_digest := dr_manifest_digest current;
  rd_comments := vc_comments command;
  rd_rejected_fields := vc_rejected_fields command;
  rd_required_corrections := vc_required_corrections command |}.

(** The draft [review] stores. *)
Definition reviewed_draft (actor : Actor) (now : Z) (reason : string) (decision : ReviewDecision)
    (current : DraftRecord) : DraftRecord :=
  let decisions := dr_review_decisions current ++ [decision] in
  touched actor now reason
    match rd_decision decision with
    | ReviewChangesRequested => set_state StateDraft (set_governance None None None decisions None current)
    | ReviewApproved =>
        set_governance (dr_validation current) (dr_review current) (dr_publication_candidate current) decisions
          (dr_approval current) current
    end.

(** [review] of review_draft; the decision id must match the identifier pattern. *)
Definition review_body (actor : Actor) (draft_id : string) (command : ReviewCommand) (clock : Z)
    : txM DraftRecord :=
  current ← require_draft draft_id;
  _ ← liftR (require actor PermReview (Some (dr_manifest_id current)));
  _ ← liftR (require_state current StateInReview);
  _ ← liftR (ensure_expected_command current (vc_transition command));
  _ ← liftR (require_current_publication_candidate current);
  _ ← liftR (raise_if (InvalidTransitionError "draft review decision history is full")
               (100 <=? Z.of_nat (length (dr_review_decisions current))));
  now ← liftR (ensure_timestamp clock);
  let decision := review_decision actor command current now in
  _ ← check (ValidationError "review decision_id pattern") (is_id (rd_decision_id decision));
  let reason := tc_reason (vc_transition command) in
  let updated := reviewed_draft actor now reason decision current in
  _ ← store_transition now actor ReviewRecorded current updated reason None None None;
  mret updated.

(** The current approved review [approve] requires. *)
Definition approved_review_of (current : DraftRecord) : option ReviewDecision :=
  match last (dr_review_decisions current) with
  | Some review =>
      if bool_decide (rd_decision review = ReviewApproved) && (rd_reviewed_revision review =? dr_revision current) &&
         String.eqb (rd_manifest_version review) (wm_manifest_version (dr_manifest current)) &&
         String.eqb (rd_manifest_digest review) (dr_manifest_digest current)
      then Some review else None
  | None => None
  end.

(** The [ApprovalDecision(...)] of approve_draft. *)
Definition approval_decision (actor : Actor) (reason : string) (current : DraftRecord) (review : ReviewDecision)
    (receipt : OperationalContextReceipt) (now : Z) : ApprovalDecision := {|
  ad_decision_id := governance_decision_id (dr_draft_id current) (dr_revision current + 1) "-approval";
  ad_approved_by := actor;
  ad_approved_at := now;
  ad_approved_revision := dr_revision current + 1;
  ad_manifest_version := wm_manifest_version (dr_manifest current);
  ad_manifest_digest := dr_manifest_digest current;
  ad_review_decision_id := Some (rd_decision_id review);
  ad_operational_context_receipt_id := Some (or_receipt_id receipt);
  ad_reason := reason |}.

(** [approve] of approve_draft *)
Definition approve_body (actor : Actor) (draft_id : string) (command : ApproveCommand) (clock : Z)
    : txM DraftRecord :=
  current ← require_draft draft_id;
  _ ← liftR (require actor PermApprove (Some (dr_manifest_id current)));
  _ ← liftR (require_state current StateInReview);
  _ ← liftR (ensure_expected_command current (apc_transition command));
  _ ← liftR (require_current_publication_candidate current);
  review ← match approved_review_of current with
           | Some review => mret review
           | None => throw (InvalidTransitionError "approval requires a current authoritative approved review")
           end;
  now ← liftR (ensure_timestamp clock);
  operational_receipt ←
    require_operational_context_receipt current (apc_operational_context_receipt_id command) now;
  _ ← validate_lifecycle_manifest current (dr_manifest current) (dr_manifest_digest current) now;
  let reason := tc_reason (apc_transition command) in
  let decision := approval_decision actor reason current review operational_receipt now in
  _ ← check (ValidationError "approval decision_id pattern") (is_id (ad_decision_id decision));
  let updated :=
    touched actor now reason (set_state StateApproved
      (set_governance (dr_validation current) (dr_review current) (dr_publication_candidate current)
         (dr_review_decisions current) (Some decision) current)) in
  _ ← store_transition now actor DraftApproved current updated reason None None None;
  mret updated.

(** [approved_review] of publish: the review decision the approval names. *)
Definition review_of_approval (current : DraftRecord) (approval : ApprovalDecision) : option ReviewDecision :=
  List.find (fun review => bool_decide (Some (rd_decision_id review) = ad_review_decision_id approval))
    (dr_review_decisions current).

(** Whether the approval authorizes publishing this revision. *)
Definition approval_authorizes (current : DraftRecord) (approval : ApprovalDecision) (approval_id : string) : bool :=
  String.eqb (ad_decision_id approval) approval_id &&
  (ad_approved_revision approval =? dr_revision current) &&
  String.eqb (ad_manifest_version approval) (wm_manifest_version (dr_manifest current)) &&
  String.eqb (ad_manifest_digest approval) (dr_manifest_digest current) &&
  match review_of_approval current approval with
  | None => false
  | Some review =>
      bool_decide (rd_decision review = ReviewApproved) &&
      (rd_reviewed_revision review =? ad_approved_revision approval - 1) &&
      String.eqb (rd_manifest_digest review) (ad_manifest_digest approval)
  end.

(** [publish] of publish_draft *)
Definition publish_body (actor : Actor) (draft_id : string) (command : PublishCommand) (clock : Z)
    : txM PublishedManifest :=
  current ← require_draft draft_id;
  _ ← liftR (require actor PermPublish (Some (dr_manifest_id current)));
  _ ← liftR (require_state current StateApproved);
  _ ← liftR (ensure_expected_command current (puc_transition command));
  candidate ← liftR (require_current_publication_candidate current);
  let stale := StaleApprovalError "the approval does not authorize this draft revision" in
  approval ← match dr_approval current with Some approval => mret approval | None => throw stale end;
  _ ← check stale (approval_authorizes current approval (puc_approval_id command));
  now ← liftR (ensure_timestamp clock);
  operational_receipt ←
    require_operational_context_receipt current (puc_operational_context_receipt_id command) now;
  _ ← validate_lifecycle_manifest current (dr_manifest current) (dr_manifest_digest current) now;
  let manifest_version := wm_manifest_version (dr_manifest current) in
  existing ← get_published (dr_manifest_id current) manifest_version;
  _ ← check (DuplicateVersionError "the manifest version is already published") (bool_decide (existing = None));
  _ ← ensure_lineage (dr_manifest_id current) manifest_version (dr_previous_version current);
  let reason := tc_reason (puc_transition command) in
  let published := {|
    pm_manifest_id := dr_manifest_id current; pm_manifest_version := manifest_version;
    pm_manifest_digest := dr_manifest_digest current; pm_manifest := dr_manifest current;
    pm_source_draft_id := dr_draft_id current; pm_source_draft_revision := dr_revision current + 1;
    pm_previous_version := dr_previous_version current; pm_approval := approval;
    pm_published_by := publication_actor; pm_published_at := pc_finalized_at candidate;
    pm_publication_authorized_by := actor; pm_publication_authorized_at := now;
    pm_operational_context_receipt_id := Some (or_receipt_id operational_receipt);
    pm_reason := reason |} in
  let updated := touched actor now reason (set_state StatePublished current) in
  _ ← put_published published;
  _ ← store_transition now actor VersionPublished current updated reason None (Some publication_actor)
        (Some (pc_finalized_at candidate));
  mret published.

(** [supersede] of supersede_version *)
Definition supersede_body (actor : Actor) (manifest_id superseded_version : string) (command : SupersedeCommand)
    (clock : Z) : txM Supersession :=
  published ← require_published manifest_id superseded_version;
  source ← require_draft (pm_source_draft_id published);
  _ ← liftR (require_state source StatePublished);
  _ ← liftR (ensure_expected source (suc_expected_revision command) (suc_expected_manifest_version command)
               (suc_expected_digest command));
  _ ← check (VersionMismatchError "expected version does not match the superseded version")
        (String.eqb (suc_expected_manifest_version command) superseded_version);
  existing ← get_supersession manifest_id superseded_version;
  _ ← check (AlreadySupersededError "the manifest version is already superseded")
        (match existing with None => true | Some _ => false end);
  replacement ← require_published manifest_id (suc_replacement_version command);
  _ ← check (DigestMismatchError "replacement manifest digest does not match")
        (String.eqb (pm_manifest_digest replacement) (suc_replacement_digest command));
  _ ← check (VersionMismatchError "replacement previous_version does not reference the superseded version")
        (bool_decide (pm_previous_version replacement = Some superseded_version));
  _ ← liftR (raise_if (VersionMismatchError "a version cannot supersede itself")
               (String.eqb (pm_manifest_version replacement) superseded_version));
  now ← liftR (ensure_timestamp clock);
  let relation := {| su_manifest_id := manifest_id; su_superseded_version := superseded_version;
                     su_replacement_version := pm_manifest_version replacement; su_superseded_by := actor;
                     su_superseded_at := now; su_reason := suc_reason command |} in
  let updated := touched actor now (suc_reason command) (set_state StateSuperseded source) in
  _ ← put_supersession relation;
  _ ← store_transition now actor VersionSuperseded source updated (suc_reason command)
        (Some (pm_manifest_version replacement)) None None;
  mret relation.

(** ** The idempotent mutation *)

(** [target.model_dump(mode="json", exclude_none=True)] *)
Definition target_json (t : MutationTarget) : json :=
  JObj (opt_member "draft_id" (JStr <$> mt_draft_id t) ++ opt_member "manifest_id" (JStr <$> mt_manifest_id t) ++
        opt_member "manifest_version" (JStr <$> mt_manifest_version t)).

(** [request_digest] of _mutate *)
Definition mutation_request_digest `{ModelDump C} (actor : Actor) (operation : string) (target : MutationTarget)
    (command : C) : result string :=
  compute_artifact_digest
    (JObj [("operation", JStr operation); ("actorId", JStr (ac_actor_id actor)); ("target", target_json target);
           ("command", model_dump command)]).

(** The transaction of _mutate; [response] is [response_type.__name__]. *)
Definition mutate_body (actor : Actor) (idempotency_key operation : string) (target : MutationTarget)
    (request_digest response : string) (mutation : txM ApiResponse) : txM ApiResponse :=
  stored ← get_receipt (ac_actor_id actor) idempotency_key;
  match stored with
  | Some receipt =>
      _ ← check (IdempotencyConflictError "idempotency key was used for a different mutation")
            (String.eqb (mr_operation receipt) operation && bool_decide (mr_target receipt = target) &&
             String.eqb (mr_request_digest receipt) request_digest && String.eqb (mr_response_type receipt) response);
      liftR (model_validate_json response (mr_response_json receipt))
  | None =>
      answer ← mutation;
      _ ← check (ValidationError "idempotency_key pattern") (is_id idempotency_key);
      _ ← put_receipt {|
            mr_actor_id := ac_actor_id actor; mr_idempotency_key := idempotency_key; mr_operation := operation;
            mr_target := target; mr_request_digest := request_digest; mr_response_type := response;
            mr_response_json := model_dump_json answer |};
      mret answer
  end.

(** _mutate *)
Definition mutate `{ModelDump C} (actor : Actor) (idempotency_key operation : string) (target : MutationTarget)
    (command : C) (response : string) (mutation : txM ApiResponse) (store : ContextStore)
    : result ApiResponse * ContextStore :=
  match mutation_request_digest actor operation target command with
  | Raise e => (Raise e, store)
  | Ok request_digest =>
      transaction (mutate_body actor idempotency_key operation target request_digest response mutation) store
  end.

(** _authorize_draft, in a transaction of its own *)
Definition authorize_draft (actor : Actor) (draft_id : string) (permission : Permission) (store : ContextStore)
    : result unit * ContextStore :=
  transaction (draft ← require_draft draft_id; liftR (require actor permission (Some (dr_manifest_id draft)))) store.

(** ** The public mutations

    A call is a value; [guard_call] is what the method does before [_mutate] and
    [apply_call] is its [_mutate]. Another request may run between the two. *)
Inductive Call :=
  | CallCreate (command : CreateDraftCommand)
  | CallReplace (draft_id : string) (command : ReplaceDraftCommand)
  | CallValidate (draft_id : string) (command : TransitionCommand)
  | CallIssueReceipt (command : IssueOperationalContextReceiptCommand)
  | CallSubmit (draft_id : string) (command : TransitionCommand)
  | CallReview (draft_id : string) (command : ReviewCommand)
  | CallApprove (draft_id : string) (command : ApproveCommand)
  | CallPublish (draft_id : string) (command : PublishCommand)
  | CallSupersede (manifest_id superseded_version : string) (command : SupersedeCommand).

(** The authorization each public method performs first. *)
Definition guard_call (actor : Actor) (call : Call) (store : ContextStore) : result unit * ContextStore :=
  match call with
  | CallCreate command => (require actor PermCreateDraft (Some (wm_manifest_id (cc_manifest command))), store)
  | CallReplace draft_id _ => authorize_draft actor draft_id PermUpdateDraft store
  | CallValidate draft_id _ => authorize_draft actor draft_id PermValidate store
  | CallIssueReceipt command =>
      (_ ← guard_or (AuthorizationError "operational context receipts require a verified service actor")
             (bool_decide (ac_kind actor = ActorService));
       require actor PermIssueOperationalContext (Some (ob_manifest_id (ic_binding command))), store)
  | CallSubmit draft_id _ => authorize_draft actor draft_id PermSubmit store
  | CallReview draft_id _ => authorize_draft actor draft_id PermReview store
  | CallApprove draft_id _ => authorize_draft actor draft_id PermApprove store
  | CallPublish draft_id _ => authorize_draft actor draft_id PermPublish store
  | CallSupersede manifest_id _ _ => (require actor PermSupersede (Some manifest_id), store)
  end.

(** The [MutationTarget] of each method. *)
Definition call_target (call : Call) : result MutationTarget :=
  match call with
  | CallCreate command =>
      make_MutationTarget (Some (cc_draft_id command)) (Some (wm_manifest_id (cc_manifest command)))
        (Some (wm_manifest_version (cc_manifest command)))
  | CallReplace draft_id _ | CallValidate draft_id _ | CallSubmit draft_id _ | CallReview draft_id _
  | CallApprove draft_id _ | CallPublish draft_id _ => make_MutationTarget (Some draft_id) None None
  | CallIssueReceipt command => make_MutationTarget (Some (ob_draft_id (ic_binding command))) None None
  | CallSupersede manifest_id superseded_version _ =>
      make_MutationTarget None (Some manifest_id) (Some superseded_version)
  end.

(** The mutation of each method, on the open transaction. *)
Definition call_body (actor : Actor) (call : Call) (clock : Z) : txM ApiResponse :=
  match call with
  | CallCreate command => d ← create_body actor command clock; mret (DraftResponse d)
  | CallReplace draft_id command =>
      d ← replace_draft_in_transaction actor draft_id command None None clock clock; mret (DraftResponse d)
  | CallValidate draft_id command => d ← validate_body actor draft_id command clock; mret (DraftResponse d)
  | CallIssueReceipt command => r ← issue_body actor command clock; mret (ReceiptResponse r)
  | CallSubmit draft_id command => d ← submit_body actor draft_id command clock; mret (DraftResponse d)
  | CallReview draft_id command => d ← review_body actor draft_id command clock; mret (DraftResponse d)
  | CallApprove draft_id command => d ← approve_body actor draft_id command clock; mret (DraftResponse d)
  | CallPublish draft_id command => p ← publish_body actor draft_id command clock; mret (PublishedResponse p)
  | CallSupersede manifest_id superseded_version command =>
      s ← supersede_body actor manifest_id superseded_version command clock; mret (SupersessionResponse s)
  end.

(** The operation and response names [_mutate] records. *)
Definition call_operation (call : Call) : string :=
  match call with
  | CallCreate _ => "create_draft" | CallReplace _ _ => "replace_draft" | CallValidate _ _ => "validate_draft"
  | CallIssueReceipt _ => "issue_operational_context_receipt" | CallSubmit _ _ => "submit_for_review"
  | CallReview _ _ => "review_draft" | CallApprove _ _ => "approve_draft" | CallPublish _ _ => "publish_draft"
  | CallSupersede _ _ _ => "supersede_version"
  end.
Definition call_response (call : Call) : string :=
  match call with
  | CallIssueReceipt _ => "OperationalContextReceipt"
  | CallPublish _ _ => "PublishedManifest"
  | CallSupersede _ _ _ => "Supersession"
  | _ => "DraftRecord"
  end.

(** [command.model_dump(...)] of the call's command. *)
#[global] Instance call_dump : ModelDump Call := fun call =>
  match call with
  | CallCreate c => model_dump c | CallReplace _ c => model_dump c | CallValidate _ c => model_dump c
  | CallIssueReceipt c => model_dump c | CallSubmit _ c => model_dump c | CallReview _ c => model_dump c
  | CallApprove _ c => model_dump c | CallPublish _ c => model_dump c | CallSupersede _ _ c => model_dump c
  end.

(** The [return self._mutate(...)] of the public method. *)
Definition apply_call (actor : Actor) (idempotency_key : string) (call : Call) (clock : Z) (store : ContextStore)
    : result ApiResponse * ContextStore :=
  match call_target call with
  | Raise e => (Raise e, store)
  | Ok target =>
      mutate actor idempotency_key (call_operation call) target call (call_response call)
        (call_body actor call clock) store
  end.

(** create_draft, replace_draft, validate_draft, issue_operational_context_receipt,
    submit_for_review, review_draft, approve_draft, publish_draft, supersede_version *)
Definition run_call (actor : Actor) (idempotency_key : string) (call : Call) (clock : Z) (store : ContextStore)
    : result ApiResponse * ContextStore :=
  match guard_call actor call store with
  | (Raise e, store) => (Raise e, store)
  | (Ok _, store) => apply_call actor idempotency_key call clock store
  end.

(** ensure_selector_baseline_for_decision *)
Definition ensure_selector_baseline_for_decision (actor : Actor) (draft_id : string) (expected_revision : Z)
    (expected_manifest_version expected_digest : string) (store : ContextStore)
    : result DraftSelectorBaseline * ContextStore :=
  transaction
    (current ← require_draft draft_id;
     _ ← liftR (require actor PermUpdateDraft (Some (dr_manifest_id current)));
     existing ← get_draft_selector_baseline draft_id;
     _ ← match existing with
         | Some _ => mret tt
         | None => liftR (ensure_expected current expected_revision expected_manifest_version expected_digest)
         end;
     require_selector_baseline current) store.
End service.
