(* ===== verification/Reads.v ===== *)
(** * Reads: queries of the context service

    The read operations of [ContextService] in api/service.py: authorised
    lookups, profile authorities, the audit history, and the comparison of two
    published versions by JSON pointer.

    Then: the comparison is exact. *)
From stdpp Require Import pretty.
From S2P Require Import Prelude Text Sha256 Time Json Authorization.
From S2P Require Export Lifecycle.
From Stdlib Require Import SpecFloat Ascii.
Local Open Scope Z_scope.

(** ** _changed_paths *)

(** _pointer_token *)
Fixpoint pointer_token (value : string) : string :=
  match value with
  | EmptyString => EmptyString
  | String c value =>
      (if Ascii.eqb c "~"%char then "~0" else if Ascii.eqb c "/"%char then "~1" else String c EmptyString) +:+
      pointer_token value
  end.

(** [sorted(set(left) | set(right))] *)
Definition all_keys (left right : list (string * json)) : list string :=
  sort_strings (remove_dups ((fst <$> left) ++ (fst <$> right))).

(** The indices only the longer array has, from [index] on. *)
Fixpoint extra_paths (path : string) (index : Z) (items : list json) : list string :=
  match items with
  | [] => []
  | _ :: items => (path +:+ "/" +:+ pretty index) :: extra_paths path (index + 1) items
  end.

(** One key of the dict case: [go] is [_changed_paths] of the left members. *)
Definition changed_key (path : string) (go : list (string * (json -> string -> list string)))
    (right : list (string * json)) (key : string) : list string :=
  let child_path := path +:+ "/" +:+ pointer_token key in
  match assoc key go, assoc key right with
  | Some changed, Some w => changed w child_path
  | _, _ => [child_path]
  end.

Fixpoint changed_paths (left right : json) (path : string) : list string :=
  match left, right with
  | JObj l, JObj r =>
      let go := (fix go l := match l with [] => [] | (k, v) :: l => (k, changed_paths v) :: go l end) l in
      flat_map (changed_key path go r) (all_keys l r)
  | JArr l, JArr r =>
      (fix go l r index := match l, r with
       | [], _ => extra_paths path index r
       | _ :: _, [] => extra_paths path index l
       | v :: l, w :: r => changed_paths v w (path +:+ "/" +:+ pretty index) ++ go l r (index + 1)
       end) l r 0
  | _, _ => if scalar_eq left right then [] else [if String.eqb path "" then "/" else path]
  end.

(** ** Queries *)
Section reads.
Context `{PyText} `{Rfc8785} `{PydanticJson} `{ResponseCodec} `{!ManifestContract} `{!AuthorizationPort}.

(** get_draft *)
Definition service_get_draft (actor : Actor) (draft_id : string) (store : ContextStore)
    : result DraftRecord * ContextStore :=
  transaction
    (draft ← require_draft draft_id;
     _ ← liftR (require actor PermRead (Some (dr_manifest_id draft)));
     mret draft) store.

(** list_drafts *)
Definition service_list_drafts (actor : Actor) (manifest_id : option string) (state : option DraftState)
    (store : ContextStore) : result (list DraftRecord) * ContextStore :=
  match require actor PermList manifest_id with
  | Raise e => (Raise e, store)
  | Ok _ => transaction (list_drafts manifest_id state) store
  end.

(** [PublishedManifestView(...)] of one version *)
Definition published_view (published : PublishedManifest) : txM PublishedManifestView :=
  supersession ← get_supersession (pm_manifest_id published) (pm_manifest_version published);
  mret {| pv_published := published; pv_supersession := supersession |}.

(** get_published *)
Definition service_get_published (actor : Actor) (manifest_version : string) (manifest_id : option string)
    (store : ContextStore) : result PublishedManifestView * ContextStore :=
  transaction
    (published ←
       match manifest_id with
       | None =>
           _ ← liftR (require actor PermList None);
           items ← list_published None;
           match select (fun item => String.eqb (pm_manifest_version item) manifest_version) items with
           | [] => throw (ResourceNotFoundError "manifest version was not found")
           | [published] => mret published
           | _ => throw (AmbiguousLookupError "manifest_id is required because the version is ambiguous")
           end
       | Some manifest_id => require_published manifest_id manifest_version
       end;
     _ ← liftR (require actor PermRead (Some (pm_manifest_id published)));
     published_view published) store.

(** The list comprehension of list_published. *)
Fixpoint views (items : list PublishedManifest) : txM (list PublishedManifestView) :=
  match items with
  | [] => mret []
  | item :: items => view ← published_view item; rest ← views items; mret (view :: rest)
  end.

(** list_published *)
Definition service_list_published (actor : Actor) (manifest_id : string) (store : ContextStore)
    : result (list PublishedManifestView) * ContextStore :=
  match require actor PermList (Some manifest_id) with
  | Raise e => (Raise e, store)
  | Ok _ => transaction (items ← list_published (Some manifest_id); views items) store
  end.

(** compare_versions; its versions match the version pattern. *)
Definition compare_versions (actor : Actor) (manifest_id from_version to_version : string) (store : ContextStore)
    : result VersionComparison * ContextStore :=
  match require actor PermRead (Some manifest_id) with
  | Raise e => (Raise e, store)
  | Ok _ =>
      if negb (version_lt from_version to_version)
      then (Raise (VersionMismatchError "version comparison requires from_version before to_version"), store)
      else
        let read :=
          older ← require_published manifest_id from_version;
          newer ← require_published manifest_id to_version;
          mret (older, newer) in
        match transaction read store with
        | (Raise e, store) => (Raise e, store)
        | (Ok (older, newer), store) =>
            (Ok {| vcmp_manifest_id := manifest_id; vcmp_from_version := from_version; vcmp_to_version := to_version;
                   vcmp_from_digest := pm_manifest_digest older; vcmp_to_digest := pm_manifest_digest newer;
                   vcmp_equivalent := String.eqb (pm_manifest_digest older) (pm_manifest_digest newer);
                   vcmp_changed_paths := changed_paths (dump_json (pm_manifest older)) (dump_json (pm_manifest newer)) "" |},
             store)
        end
  end.

(** [ResolvedProfileAuthority(...)]: only the profile's id and digest are new. *)
Definition make_profile_authority (manifest_id manifest_version : string) (profile : ResolvedManifestProfile)
    : result ResolvedProfileAuthority :=
  _ ← guard_or (ValidationError "resolved profile authority field")
        (is_id (rp_profile_id profile) && is_digest (rp_resolved_profile_digest profile));
  Ok {| rpa_manifest_id := manifest_id; rpa_manifest_version := manifest_version;
        rpa_profile_id := rp_profile_id profile; rpa_resolved_profile_digest := rp_resolved_profile_digest profile |}.

(** resolve_draft_profile_authority *)
Definition resolve_draft_profile_authority (actor : Actor) (draft_id profile_id : string) (clock : Z)
    (store : ContextStore) : result ResolvedProfileAuthority * ContextStore :=
  transaction
    (draft ← require_draft draft_id;
     _ ← liftR (require actor PermRead (Some (dr_manifest_id draft)));
     authority ← persisted_selector_authority_for_draft draft;
     as_of ← liftR (ensure_timestamp clock);
     profile ← liftR (resolve_profile authority (dr_manifest draft) profile_id as_of);
     liftR (make_profile_authority (dr_manifest_id draft) (wm_manifest_version (dr_manifest draft)) profile)) store.

(** resolve_published_profile_authority *)
Definition resolve_published_profile_authority (actor : Actor) (manifest_id manifest_version profile_id : string)
    (clock : Z) (store : ContextStore) : result ResolvedProfileAuthority * ContextStore :=
  transaction
    (published ← require_published manifest_id manifest_version;
     _ ← liftR (require actor PermRead (Some manifest_id));
     authority ← persisted_selector_authority_for_published published manifest_version;
     as_of ← liftR (ensure_timestamp clock);
     profile ← liftR (resolve_profile authority (pm_manifest published) profile_id as_of);
     liftR (make_profile_authority manifest_id manifest_version profile)) store.

(** audit_history *)
Definition audit_history (actor : Actor) (manifest_id : string) (store : ContextStore)
    : result (list AuditEvent) * ContextStore :=
  match require actor PermAudit (Some manifest_id) with
  | Raise e => (Raise e, store)
  | Ok _ =>
      transaction
        (audit ← list_audit None;
         _ ← liftR (verify_audit_chain audit);
         mret (select (fun event => String.eqb (pa_manifest_id (ae_event event)) manifest_id) audit)) store
  end.
End reads.

(** * Version comparison is exact

    [_changed_paths] reports no path exactly when the two values are equal in
    Python's sense. *)

(** A value Python can hold: the keys of every dict are distinct. *)
Fixpoint is_value (v : json) : Prop :=
  match v with
  | JArr l => (fix all l := match l with [] => True | v :: l => is_value v /\ all l end) l
  | JObj ms =>
      NoDup (fst <$> ms) /\ (fix all ms := match ms with [] => True | (_, v) :: ms => is_value v /\ all ms end) ms
  | _ => True
  end.

Lemma is_value_JArr l : is_value (JArr l) <-> Forall is_value l.
Proof. cbn. induction l as [|v l IH]; [done|]. by rewrite Forall_cons, IH. Qed.

Lemma is_value_JObj ms : is_value (JObj ms) <-> NoDup (fst <$> ms) /\ Forall (fun m => is_value (snd m)) ms.
Proof.
  cbn. apply and_iff_compat_l. induction ms as [|[k v] ms IH]; [done|]. by rewrite Forall_cons, IH.
Qed.

Lemma assoc_fmap {A B} (f : A -> B) k (ms : list (string * A)) :
  assoc k ((fun m => (fst m, f (snd m))) <$> ms) = f <$> assoc k ms.
Proof. induction ms as [|[k' w] ms IH]; [done|]. cbn. by destruct (String.eqb k k'). Qed.

Lemma flat_map_nil {A B} (f : A -> list B) l : flat_map f l = [] <-> forall x, x ∈ l -> f x = [].
Proof.
  induction l as [|x l IH]; cbn; [split; [by intros _ ? ?%elem_of_nil|done]|].
  rewrite app_nil, IH. setoid_rewrite elem_of_cons. naive_solver.
Qed.

(** ** The recursive equations *)
Lemma changed_JObj l r path :
  changed_paths (JObj l) (JObj r) path =
  flat_map (changed_key path ((fun m => (fst m, changed_paths (snd m))) <$> l) r) (all_keys l r).
Proof.
  cbn [changed_paths]. do 2 f_equal. induction l as [|[x v] l IH]; [done|]. cbn. by rewrite IH.
Qed.

(** The array loop of [_changed_paths]. *)
Fixpoint changed_items (path : string) (index : Z) (l r : list json) : list string :=
  match l, r with
  | [], _ => extra_paths path index r
  | _ :: _, [] => extra_paths path index l
  | v :: l, w :: r => changed_paths v w (path +:+ "/" +:+ pretty index) ++ changed_items path (index + 1) l r
  end.

Lemma changed_JArr l r path : changed_paths (JArr l) (JArr r) path = changed_items path 0 l r.
Proof.
  cbn [changed_paths]. generalize 0. revert r. induction l as [|v l IH]; intros [|w r] i; [done..|].
  cbn [changed_items]. by rewrite <- IH.
Qed.

Lemma elem_of_all_keys k l r : k ∈ all_keys l r <-> k ∈ fst <$> l \/ k ∈ fst <$> r.
Proof. unfold all_keys, sort_strings. by rewrite elem_of_sort_by, elem_of_remove_dups, elem_of_app. Qed.

(** Dicts with the same keys: each key of one side is a key of the other. *)
Lemma same_keys {A B} (l : list (string * A)) (r : list (string * B)) :
  NoDup (fst <$> l) -> NoDup (fst <$> r) ->
  (length l = length r /\ forall k, k ∈ fst <$> l -> k ∈ fst <$> r) <->
  (forall k, k ∈ fst <$> l <-> k ∈ fst <$> r).
Proof.
  intros Hl Hr. split.
  - intros [Hlen Hsub] k. split; [apply Hsub|]. intros Hk.
    assert (Hp : (fst <$> l) ≡ₚ (fst <$> r)).
    { apply submseteq_length_Permutation; [by apply NoDup_submseteq|]. by rewrite !length_fmap, Hlen. }
    by rewrite Hp.
  - intros Hk. split; [|by intros k ?%Hk]. rewrite <- (length_fmap fst l), <- (length_fmap fst r).
    apply Permutation_length, NoDup_Permutation; done.
Qed.

Lemma scalar_paths (left right : json) path :
  (if scalar_eq left right then [] else [if String.eqb path "" then "/" else path]) = [] <-> scalar_eq left right = true.
Proof. by destruct (scalar_eq left right). Qed.

Ltac same_scalar :=
  match goal with |- changed_paths ?a ?b ?p = [] <-> _ => exact (scalar_paths a b p) end.

(** The comparison of two JSON values lists no changed path exactly when the
    values are equal; in particular two versions with no changed path have equal
    content. *)
Theorem changed_paths_exact (left right : json) path :
  is_value left -> is_value right -> changed_paths left right path = [] <-> py_eq left right = true.
Proof.
  revert right path. induction left as [|b|z|x|s|t|l IH|l IH] using json_nested_ind; intros right path Hl Hr;
    [destruct right; same_scalar..| |].
  - destruct right as [| | | | | |r|r]; try same_scalar. rewrite changed_JArr.
    rewrite is_value_JArr in Hl, Hr. change (py_eq (JArr l) (JArr r)) with
      ((fix all l r := match l, r with
        | [], [] => true | v :: l, w :: r => py_eq v w && all l r | _, _ => false end) l r).
    generalize 0. revert r Hr. induction IH as [|v l Hv _ IHl]; intros [|w r] Hr i; cbn [changed_items]; [done..|].
    apply Forall_cons in Hl as [Hlv Hl], Hr as [Hrw Hr]. rewrite app_nil, andb_true_iff, (Hv w) by done. by rewrite IHl.
  - destruct right as [| | | | | |r|r]; try same_scalar.
    rewrite changed_JObj, py_eq_JObj. apply is_value_JObj in Hl as [Hdl Hl], Hr as [Hdr Hr].
    rewrite flat_map_nil, andb_true_iff, bool_decide_eq_true, forallb_forall.
    rewrite Forall_forall in IH, Hl, Hr. pose proof (same_keys l r Hdl Hdr) as Hkeys. split.
    + intros Hall.
      assert (Hboth : forall k, k ∈ fst <$> l \/ k ∈ fst <$> r -> exists v w, assoc k l = Some v /\ assoc k r = Some w /\ py_eq v w = true).
      { intros k Hk%elem_of_all_keys%Hall. unfold changed_key in Hk. rewrite assoc_fmap in Hk.
        destruct (assoc k l) as [v|] eqn:El; [|done]. destruct (assoc k r) as [w|] eqn:Er; [|done]. exists v, w.
        split_and!; [done|done|]. apply assoc_elem in El, Er. cbn in Hk.
        apply (IH (k, v) El) in Hk; [done|exact (Hl (k, v) El)|exact (Hr (k, w) Er)]. }
      destruct (proj2 Hkeys) as [Hlen _].
      { intros k. split; intros Hk; [destruct (Hboth k (or_introl Hk)) as (v & w & Ev & Ew & _)|
          destruct (Hboth k (or_intror Hk)) as (v & w & Ev & Ew & _)].
        - apply assoc_elem in Ew. by apply (list_elem_of_fmap_2 fst) in Ew.
        - apply assoc_elem in Ev. by apply (list_elem_of_fmap_2 fst) in Ev. }
      split; [done|]. intros [k v] Hin%list_elem_of_In. cbn.
      destruct (Hboth k) as (v' & w & Ev & -> & He); [left; by apply (list_elem_of_fmap_2 fst) in Hin|].
      apply assoc_NoDup in Hin; [|done]. congruence.
    + intros [Hlen Hall] k Hk%elem_of_all_keys.
      assert (Hlk : forall k v, (k, v) ∈ l -> exists w, assoc k r = Some w /\ py_eq v w = true).
      { intros k' v Hin%list_elem_of_In%Hall. cbn in Hin. destruct (assoc k' r); eauto. done. }
      assert (Hkl : k ∈ fst <$> l).
      { destruct Hk as [Hk|Hk]; [done|]. apply (proj1 Hkeys); [|done]. split; [done|].
        intros k' ([k'' v] & -> & Hin)%list_elem_of_fmap. destruct (Hlk _ _ Hin) as (w & Ew & _).
        apply assoc_elem in Ew. by apply (list_elem_of_fmap_2 fst) in Ew. }
      apply list_elem_of_fmap in Hkl as ([k' v] & -> & Hin). cbn. destruct (Hlk _ _ Hin) as (w & Ew & He).
      unfold changed_key. rewrite assoc_fmap, (assoc_NoDup _ _ _ Hdl Hin), Ew. cbn.
      apply (IH (k', v) Hin); [exact (Hl _ Hin)|exact (Hr _ (assoc_elem _ _ _ Ew))|done].
Qed.
