(* ===== verification/StoreProps.v ===== *)
(** * StoreProps: reasoning about transactions

    Inversion of successful transaction bodies, what each store operation
    changes, and the integrity of the audit chain.

    Two consequences follow: the audit chain is tamper evident, and the lineage
    walks of the selector authority end on every store. *)
From S2P Require Import Prelude Text Sha256 Time Json.
From S2P Require Export Reads.
From Stdlib Require Import Ascii.
Local Open Scope Z_scope.

(** ** Successful computations *)
Section tx.
Context `{ResponseCodec}.
Implicit Types (tx : Transaction).

Lemma tx_bind_Ok {A B} (m : txM A) (k : A -> txM B) tx b tx' :
  (m ≫= k) tx = Ok (b, tx') -> exists a tx1, m tx = Ok (a, tx1) /\ k a tx1 = Ok (b, tx').
Proof. unfold mbind, txM_bind. destruct (m tx) as [[a tx1]|e]; [|done]. eauto. Qed.

Lemma tx_ret_Ok {A} (a b : A) tx tx' : (mret a : txM A) tx = Ok (b, tx') -> b = a /\ tx' = tx.
Proof. intros E. injection E as -> ->. done. Qed.

Lemma liftR_Ok {A} (r : result A) a tx tx' : liftR r tx = Ok (a, tx') -> r = Ok a /\ tx' = tx.
Proof. unfold liftR. destruct r; [|done]. intros E. injection E as -> ->. done. Qed.

Lemma check_Ok e b u tx tx' : check e b tx = Ok (u, tx') -> b = true /\ tx' = tx.
Proof. unfold check. intros [?%guard_or_Ok ->]%liftR_Ok. done. Qed.

Lemma throw_Ok {A} e (a : A) tx tx' : throw e tx = Ok (a, tx') -> False.
Proof. unfold throw. by intros [? _]%liftR_Ok. Qed.

Lemma reads_Ok {A} (f : StoreData -> A) a tx tx' : reads f tx = Ok (a, tx') -> a = f (tx_data tx) /\ tx' = tx.
Proof. intros E. injection E as -> ->. done. Qed.

Lemma writes_Ok f u tx tx' :
  writes f tx = Ok (u, tx') -> tx' = {| tx_data := f (tx_data tx); tx_dirty := true |}.
Proof. intros E. by injection E as _ <-. Qed.

Lemma require_draft_Ok draft_id d tx tx' :
  require_draft draft_id tx = Ok (d, tx') -> sd_drafts (tx_data tx) !! draft_id = Some d /\ tx' = tx.
Proof.
  unfold require_draft, get_draft. intros (o & tx1 & [-> ->]%reads_Ok & Hk)%tx_bind_Ok. destruct (sd_drafts _ !! _); [|by apply throw_Ok in Hk].
  by apply tx_ret_Ok in Hk as [-> ->].
Qed.

Lemma require_published_Ok manifest_id version p tx tx' :
  require_published manifest_id version tx = Ok (p, tx') ->
  sd_published (tx_data tx) !! (manifest_id, version) = Some p /\ tx' = tx.
Proof.
  unfold require_published, get_published. intros (o & tx1 & [-> ->]%reads_Ok & Hk)%tx_bind_Ok. destruct (sd_published _ !! _); [|by apply throw_Ok in Hk].
  by apply tx_ret_Ok in Hk as [-> ->].
Qed.

(** ** Relations a computation maintains *)
Definition preserves {A} (R : Transaction -> Transaction -> Prop) (m : txM A) : Prop :=
  forall tx a tx', m tx = Ok (a, tx') -> R tx tx'.

Section preserves.
Context (R : Transaction -> Transaction -> Prop) `{!PreOrder R}.

Lemma preserves_bind {A B} (m : txM A) (k : A -> txM B) :
  preserves R m -> (forall a, preserves R (k a)) -> preserves R (m ≫= k).
Proof.
  intros Hm Hk tx b tx' (a & tx1 & H1 & H2)%tx_bind_Ok. transitivity tx1; [by eapply Hm|by eapply Hk].
Qed.

Lemma preserves_ret {A} (a : A) : preserves R (mret a).
Proof. by intros tx b tx' [-> ->]%tx_ret_Ok. Qed.

Lemma preserves_liftR {A} (r : result A) : preserves R (liftR r).
Proof. by intros tx b tx' [_ ->]%liftR_Ok. Qed.

Lemma preserves_reads {A} (f : StoreData -> A) : preserves R (reads f).
Proof. by intros tx b tx' [_ ->]%reads_Ok. Qed.
End preserves.

Definition read_only {A} (m : txM A) : Prop := preserves eq m.
End tx.

Create HintDb tx.
#[export] Hint Resolve preserves_ret preserves_liftR preserves_reads : tx.

(** [tx_frame]: walk a computation, leaving the calls the hints do not know. *)
Ltac tx_frame :=
  repeat match goal with
  | |- preserves _ (_ ≫= _) => apply preserves_bind; [typeclasses eauto| |intros ?]
  | |- preserves _ (match ?x with _ => _ end) => destruct x eqn:?
  | |- preserves _ (if ?b then _ else _) => destruct b eqn:?
  | |- preserves _ (check _ _) => apply preserves_liftR; typeclasses eauto
  | |- preserves _ (throw _) => apply preserves_liftR; typeclasses eauto
  | |- preserves _ (mret _) => apply preserves_ret; typeclasses eauto
  | |- preserves _ (liftR _) => apply preserves_liftR; typeclasses eauto
  | |- preserves _ (reads _) => apply preserves_reads; typeclasses eauto
  | |- preserves _ (get_draft _) => apply preserves_reads; typeclasses eauto
  | |- preserves _ (get_published _ _) => apply preserves_reads; typeclasses eauto
  | |- preserves _ (get_supersession _ _) => apply preserves_reads; typeclasses eauto
  | |- preserves _ (get_receipt _ _) => apply preserves_reads; typeclasses eauto
  | |- preserves _ (get_draft_selector_baseline _) => apply preserves_reads; typeclasses eauto
  | |- preserves _ (get_operational_context_receipt _) => apply preserves_reads; typeclasses eauto
  | |- preserves _ (get_cohort_decision _ _) => apply preserves_reads; typeclasses eauto
  | |- preserves _ (list_draft_selector_baselines _ _) => apply preserves_reads; typeclasses eauto
  | |- preserves _ (list_cohort_decisions _ _ _ _) => apply preserves_reads; typeclasses eauto
  | |- preserves _ (list_overlapping_cohort_decisions _) => apply preserves_reads; typeclasses eauto
  | |- preserves _ (get_cohort_decision_receipt _ _) => apply preserves_reads; typeclasses eauto
  | |- preserves _ (list_audit _) => apply preserves_reads; typeclasses eauto
  end; auto with tx.

(** [inv_tx]: invert the successful steps of a computation. *)
Ltac inv_tx :=
  repeat match goal with
  | H : (_ ≫= _) _ = Ok (_, _) |- _ => apply tx_bind_Ok in H as (? & ? & ? & ?)
  | H : liftR (Raise _) _ = Ok (_, _) |- _ => discriminate H
  | H : liftR _ _ = Ok (_, _) |- _ => apply liftR_Ok in H as [? ->]
  | H : check _ _ _ = Ok (_, _) |- _ => apply check_Ok in H as [? ->]
  | H : throw _ _ = Ok (_, _) |- _ => by apply throw_Ok in H
  | H : reads _ _ = Ok (_, _) |- _ => apply reads_Ok in H as [-> ->]
  | H : get_draft _ _ = Ok (_, _) |- _ => apply reads_Ok in H as [-> ->]
  | H : get_published _ _ _ = Ok (_, _) |- _ => apply reads_Ok in H as [-> ->]
  | H : get_supersession _ _ _ = Ok (_, _) |- _ => apply reads_Ok in H as [-> ->]
  | H : get_receipt _ _ _ = Ok (_, _) |- _ => apply reads_Ok in H as [-> ->]
  | H : get_cohort_decision _ _ _ = Ok (_, _) |- _ => apply reads_Ok in H as [-> ->]
  | H : get_cohort_decision_receipt _ _ _ = Ok (_, _) |- _ => apply reads_Ok in H as [-> ->]
  | H : list_cohort_decisions _ _ _ _ _ = Ok (_, _) |- _ => apply reads_Ok in H as [-> ->]
  | H : list_overlapping_cohort_decisions _ _ = Ok (_, _) |- _ => apply reads_Ok in H as [-> ->]
  | H : get_draft_selector_baseline _ _ = Ok (_, _) |- _ => apply reads_Ok in H as [-> ->]
  | H : get_operational_context_receipt _ _ = Ok (_, _) |- _ => apply reads_Ok in H as [-> ->]
  | H : mret _ _ = Ok (_, _) |- _ => apply tx_ret_Ok in H as [-> ->]
  | H : writes _ _ = Ok (_, _) |- _ => apply writes_Ok in H as ->
  | H : require_draft _ _ = Ok (_, _) |- _ => apply require_draft_Ok in H as [? ->]
  | H : require_published _ _ _ = Ok (_, _) |- _ => apply require_published_Ok in H as [? ->]
  | H : raise_if _ _ = Ok _ |- _ => apply raise_if_Ok in H
  | H : guard_or _ _ = Ok _ |- _ => apply guard_or_Ok in H
  | H : Raise _ = Ok _ |- _ => discriminate H
  end.

(** ** Read-only helpers *)
Section read_only.
Context `{PyText} `{Rfc8785} `{ResponseCodec} `{!ManifestContract} `{ModelDump ManifestSelector}
  `{ModelDump CohortDecisionApplyBinding} `{ModelDump ReplaceDraftCommand}.

Lemma applied_bindings_read_only manifest_id draft_id r : read_only (applied_bindings manifest_id draft_id r).
Proof. unfold read_only, applied_bindings. tx_frame. Qed.

Lemma require_predecessor_read_only msg a b c : read_only (require_predecessor msg a b c).
Proof. unfold read_only, require_predecessor. tx_frame. Qed.

Lemma validate_entry_read_only p : read_only (validate_published_lineage_entry p).
Proof. unfold read_only, validate_published_lineage_entry. tx_frame. Qed.

Hint Resolve applied_bindings_read_only require_predecessor_read_only validate_entry_read_only : tx.
Hint Unfold read_only : tx.

Lemma published_lineage_bindings_read_only fuel p visited : read_only (published_lineage_bindings fuel p visited).
Proof.
  revert p visited. induction fuel as [|fuel IH]; intros p visited; cbn [published_lineage_bindings]; unfold read_only.
  - tx_frame.
  - tx_frame; try (apply validate_entry_read_only); try apply require_predecessor_read_only;
      try apply applied_bindings_read_only. apply IH.
Qed.

Lemma published_authority_read_only p v : read_only (persisted_selector_authority_for_published p v).
Proof.
  unfold read_only, persisted_selector_authority_for_published. tx_frame. apply published_lineage_bindings_read_only.
Qed.

Lemma draft_authority_read_only d : read_only (persisted_selector_authority_for_draft d).
Proof.
  unfold read_only, persisted_selector_authority_for_draft. tx_frame;
    try apply applied_bindings_read_only; try apply require_predecessor_read_only; apply published_authority_read_only.
Qed.

Lemma lifecycle_authority_read_only d : read_only (persisted_lifecycle_selector_authority d).
Proof. unfold read_only, persisted_lifecycle_selector_authority. tx_frame. apply draft_authority_read_only. Qed.

Lemma cohort_apply_read_only actor d c t id : read_only (require_persisted_cohort_apply actor d c t id).
Proof. unfold read_only, require_persisted_cohort_apply. tx_frame. apply lifecycle_authority_read_only. Qed.

Lemma inferred_baseline_read_only fuel b visited : read_only (validate_inferred_selector_baseline fuel b visited).
Proof.
  unfold read_only. revert b visited. induction fuel as [|fuel IH]; intros b visited;
    cbn [validate_inferred_selector_baseline]; tx_frame.
Qed.

Lemma baseline_lineage_read_only b : read_only (validate_baseline_lineage b).
Proof. unfold read_only, validate_baseline_lineage. tx_frame. apply inferred_baseline_read_only. Qed.

Lemma operational_receipt_read_only d id t : read_only (require_operational_context_receipt d id t).
Proof. unfold read_only, require_operational_context_receipt. tx_frame. apply draft_authority_read_only. Qed.

Lemma selector_reference_read_only m p s t : read_only (new_draft_selector_reference m p s t).
Proof.
  unfold read_only, new_draft_selector_reference, published_selector_reference, inferred_selector_reference. tx_frame;
    try apply published_authority_read_only; try apply baseline_lineage_read_only; apply draft_authority_read_only.
Qed.

Lemma new_baseline_read_only b r : read_only (validate_new_draft_selector_baseline b r).
Proof. unfold read_only, validate_new_draft_selector_baseline. tx_frame. Qed.

Lemma ensure_lineage_read_only m v p : read_only (ensure_lineage m v p).
Proof. unfold read_only, ensure_lineage. tx_frame. Qed.

Lemma check_rollback_read_only c : read_only (check_rollback c).
Proof. unfold read_only, check_rollback. tx_frame. Qed.
End read_only.

(** ** What the store operations change *)
Section effects.
Context `{PyText} `{Rfc8785} `{PydanticJson} `{ResponseCodec}.

Definition set_drafts (v : gmap string DraftRecord) (d : StoreData) : StoreData := {|
  sd_drafts := v; sd_draft_selector_baselines := sd_draft_selector_baselines d; sd_published := sd_published d;
  sd_supersessions := sd_supersessions d; sd_audit := sd_audit d; sd_receipts := sd_receipts d;
  sd_operational_context_receipts := sd_operational_context_receipts d; sd_cohort_decisions :=
  sd_cohort_decisions d; sd_cohort_decision_versions := sd_cohort_decision_versions d;
  sd_cohort_decision_receipts := sd_cohort_decision_receipts d |}.

Definition set_published (v : gmap (string * string) PublishedManifest) (d : StoreData) : StoreData := {|
  sd_drafts := sd_drafts d; sd_draft_selector_baselines := sd_draft_selector_baselines d; sd_published := v;
  sd_supersessions := sd_supersessions d; sd_audit := sd_audit d; sd_receipts := sd_receipts d;
  sd_operational_context_receipts := sd_operational_context_receipts d; sd_cohort_decisions :=
  sd_cohort_decisions d; sd_cohort_decision_versions := sd_cohort_decision_versions d;
  sd_cohort_decision_receipts := sd_cohort_decision_receipts d |}.

Definition set_supersessions (v : gmap (string * string) Supersession) (d : StoreData) : StoreData := {|
  sd_drafts := sd_drafts d; sd_draft_selector_baselines := sd_draft_selector_baselines d; sd_published :=
  sd_published d; sd_supersessions := v; sd_audit := sd_audit d; sd_receipts := sd_receipts d;
  sd_operational_context_receipts := sd_operational_context_receipts d; sd_cohort_decisions :=
  sd_cohort_decisions d; sd_cohort_decision_versions := sd_cohort_decision_versions d;
  sd_cohort_decision_receipts := sd_cohort_decision_receipts d |}.

Definition set_audit (v : list AuditEvent) (d : StoreData) : StoreData := {|
  sd_drafts := sd_drafts d; sd_draft_selector_baselines := sd_draft_selector_baselines d; sd_published :=
  sd_published d; sd_supersessions := sd_supersessions d; sd_audit := v; sd_receipts := sd_receipts d;
  sd_operational_context_receipts := sd_operational_context_receipts d; sd_cohort_decisions :=
  sd_cohort_decisions d; sd_cohort_decision_versions := sd_cohort_decision_versions d;
  sd_cohort_decision_receipts := sd_cohort_decision_receipts d |}.

Definition set_receipts (v : gmap (string * string) MutationReceipt) (d : StoreData) : StoreData := {|
  sd_drafts := sd_drafts d; sd_draft_selector_baselines := sd_draft_selector_baselines d; sd_published :=
  sd_published d; sd_supersessions := sd_supersessions d; sd_audit := sd_audit d; sd_receipts := v;
  sd_operational_context_receipts := sd_operational_context_receipts d; sd_cohort_decisions :=
  sd_cohort_decisions d; sd_cohort_decision_versions := sd_cohort_decision_versions d;
  sd_cohort_decision_receipts := sd_cohort_decision_receipts d |}.

Definition set_operational_receipts (v : gmap string OperationalContextReceipt) (d : StoreData) : StoreData := {|
  sd_drafts := sd_drafts d; sd_draft_selector_baselines := sd_draft_selector_baselines d; sd_published :=
  sd_published d; sd_supersessions := sd_supersessions d; sd_audit := sd_audit d; sd_receipts := sd_receipts d;
  sd_operational_context_receipts := v; sd_cohort_decisions := sd_cohort_decisions d;
  sd_cohort_decision_versions := sd_cohort_decision_versions d; sd_cohort_decision_receipts :=
  sd_cohort_decision_receipts d |}.

Lemma put_draft_Ok draft expected u tx tx' :
  put_draft draft expected tx = Ok (u, tx') ->
  dr_revision <$> sd_drafts (tx_data tx) !! dr_draft_id draft = expected /\
  tx' = {| tx_data := set_drafts (<[dr_draft_id draft := draft]> (sd_drafts (tx_data tx))) (tx_data tx); tx_dirty := true |}.
Proof.
  unfold put_draft. intros Hp. inv_tx. split; [|reflexivity].
  destruct expected as [expected|], (sd_drafts _ !! _) as [current|]; inv_tx; [|done..]. cbn. f_equal.
  match goal with H : negb _ = false |- _ => by apply negb_false_iff, Z.eqb_eq in H end.
Qed.

Lemma put_published_Ok p u tx tx' :
  put_published p tx = Ok (u, tx') ->
  sd_published (tx_data tx) !! (pm_manifest_id p, pm_manifest_version p) = None /\
  tx' = {| tx_data := set_published (<[(pm_manifest_id p, pm_manifest_version p) := p]> (sd_published (tx_data tx)))
                        (tx_data tx); tx_dirty := true |}.
Proof.
  unfold put_published. intros Hp. inv_tx. split; [|reflexivity].
  match goal with H : bool_decide _ = false |- _ => by apply bool_decide_eq_false, eq_None_not_Some in H end.
Qed.

Lemma put_supersession_Ok s u tx tx' :
  put_supersession s tx = Ok (u, tx') ->
  sd_supersessions (tx_data tx) !! (su_manifest_id s, su_superseded_version s) = None /\
  tx' = {| tx_data := set_supersessions
                        (<[(su_manifest_id s, su_superseded_version s) := s]> (sd_supersessions (tx_data tx)))
                        (tx_data tx); tx_dirty := true |}.
Proof.
  unfold put_supersession. intros Hp. inv_tx. split; [|reflexivity].
  match goal with H : bool_decide _ = false |- _ => by apply bool_decide_eq_false, eq_None_not_Some in H end.
Qed.

Lemma append_audit_Ok event stored tx tx' :
  append_audit event tx = Ok (stored, tx') ->
  verify_audit_chain (sd_audit (tx_data tx)) = Ok tt /\ next_audit_event (sd_audit (tx_data tx)) event = Ok stored /\
  tx' = {| tx_data := set_audit (sd_audit (tx_data tx) ++ [stored]) (tx_data tx); tx_dirty := true |}.
Proof.
  unfold append_audit. intros Hp. inv_tx. split_and!; [|done|reflexivity].
  match goal with H : verify_audit_chain _ = Ok ?u |- _ => by destruct u end.
Qed.

Lemma put_receipt_Ok r u tx tx' :
  put_receipt r tx = Ok (u, tx') ->
  sd_receipts (tx_data tx) !! (mr_actor_id r, mr_idempotency_key r) = None /\
  tx' = {| tx_data := set_receipts (<[(mr_actor_id r, mr_idempotency_key r) := r]> (sd_receipts (tx_data tx)))
                        (tx_data tx); tx_dirty := true |}.
Proof.
  unfold put_receipt. intros Hp. inv_tx. split; [|reflexivity].
  match goal with H : bool_decide _ = false |- _ => by apply bool_decide_eq_false, eq_None_not_Some in H end.
Qed.

Lemma put_operational_receipt_Ok r u tx tx' :
  put_operational_context_receipt r tx = Ok (u, tx') ->
  sd_operational_context_receipts (tx_data tx) !! or_receipt_id r = None /\
  tx' = {| tx_data := set_operational_receipts
                        (<[or_receipt_id r := r]> (sd_operational_context_receipts (tx_data tx))) (tx_data tx);
           tx_dirty := true |}.
Proof.
  unfold put_operational_context_receipt. intros Hp. inv_tx. split; [|reflexivity].
  match goal with H : bool_decide _ = false |- _ => by apply bool_decide_eq_false, eq_None_not_Some in H end.
Qed.
End effects.

(** ** Backfilled baselines

    Validation may backfill the selector baseline of a legacy draft; it changes
    nothing else. *)
Section frame.
Context `{PyText} `{Rfc8785} `{ResponseCodec} `{!ManifestContract} `{ModelDump ManifestSelector}
  `{ModelDump CohortDecisionApplyBinding} `{ModelDump ReplaceDraftCommand}.

Definition set_baselines (b : gmap string DraftSelectorBaseline) (d : StoreData) : StoreData := {|
  sd_drafts := sd_drafts d; sd_draft_selector_baselines := b; sd_published := sd_published d;
  sd_supersessions := sd_supersessions d; sd_audit := sd_audit d; sd_receipts := sd_receipts d;
  sd_operational_context_receipts := sd_operational_context_receipts d;
  sd_cohort_decisions := sd_cohort_decisions d; sd_cohort_decision_versions := sd_cohort_decision_versions d;
  sd_cohort_decision_receipts := sd_cohort_decision_receipts d |}.

Definition baselines_grow (tx tx' : Transaction) : Prop :=
  exists b, tx_data tx' = set_baselines b (tx_data tx) /\ sd_draft_selector_baselines (tx_data tx) ⊆ b.

#[global] Instance baselines_grow_preorder : PreOrder baselines_grow.
Proof.
  split.
  - intros tx. exists (sd_draft_selector_baselines (tx_data tx)). split; [by destruct (tx_data tx)|done].
  - intros x y z (b & Hb & Hs) (c & Hc & Ht). exists c. rewrite Hc, Hb. split; [done|].
    rewrite Hb in Ht. cbn in Ht. by etrans.
Qed.

Lemma read_only_grow {A} (m : txM A) : read_only m -> preserves baselines_grow m.
Proof. intros Hm tx a tx' E. rewrite (Hm _ _ _ E). done. Qed.

Lemma put_baseline_grow b : preserves baselines_grow (put_draft_selector_baseline b).
Proof.
  intros tx u tx' E. unfold put_draft_selector_baseline in E. inv_tx.
  match goal with E : raise_if _ _ = Ok _ |- _ => apply raise_if_Ok, bool_decide_eq_false in E as Hn
             | E : bool_decide _ = false |- _ => apply bool_decide_eq_false in E as Hn end.
  eexists. split; [reflexivity|]. apply insert_subseteq. by apply eq_None_not_Some.
Qed.

Lemma require_baseline_grow d : preserves baselines_grow (require_selector_baseline d).
Proof.
  unfold require_selector_baseline, backfill_selector_baseline. tx_frame;
    try apply put_baseline_grow; apply read_only_grow, baseline_lineage_read_only.
Qed.

Lemma lifecycle_manifest_grow d m g t : preserves baselines_grow (validate_lifecycle_manifest d m g t).
Proof.
  unfold validate_lifecycle_manifest. tx_frame; [apply require_baseline_grow|].
  apply read_only_grow, lifecycle_authority_read_only.
Qed.
End frame.

(** ** The audit chain *)
Section audit_chain.
Context `{PyText} `{Rfc8785} `{PydanticJson}.

Lemma verify_audit_snoc sequence previous events stored sequence' previous' :
  verify_audit_from sequence previous events = Ok tt ->
  sequence' = sequence + Z.of_nat (length events) ->
  previous' = match last events with Some e => Some (ae_event_digest e) | None => previous end ->
  audit_event_digest (ae_event stored) sequence' (audit_event_id sequence') previous' = Ok (ae_event_digest stored) ->
  ae_sequence stored = sequence' -> ae_event_id stored = audit_event_id sequence' ->
  ae_previous_event_digest stored = previous' ->
  verify_audit_from sequence previous (events ++ [stored]) = Ok tt.
Proof.
  revert sequence previous. induction events as [|e events IH]; intros sequence previous Hv Es Ep Hd Hs Hi Hp;
    cbn [app verify_audit_from] in *.
  - cbn [length last] in *. rewrite Z.add_0_r in Es. subst sequence' previous'.
    rewrite Hs, Hi, Hp, Z.eqb_refl, String.eqb_refl, bool_decide_eq_true_2 by done. cbn -[audit_event_digest].
    rewrite Hd. cbn. by rewrite String.eqb_refl.
  - apply bind_Ok in Hv as ([] & Ha & (d & Hb & ([] & Hc & Hv)%bind_Ok)%bind_Ok).
    rewrite Ha. unfold mbind, result_bind at 1. rewrite Hb. unfold mbind, result_bind at 1. rewrite Hc.
    unfold mbind, result_bind at 1. apply IH; try done.
    + rewrite Es. cbn [length]. lia.
    + rewrite Ep, last_cons. by destruct (last events).
Qed.

(** Appending the next event keeps the chain valid. *)
Lemma next_audit_event_verifies audit event stored :
  verify_audit_chain audit = Ok tt -> next_audit_event audit event = Ok stored ->
  verify_audit_chain (audit ++ [stored]) = Ok tt.
Proof.
  intros Hv. unfold next_audit_event. intros (d & Hd & ([] & _ & E)%bind_Ok)%bind_Ok. injection E as <-.
  unfold verify_audit_chain. eapply verify_audit_snoc; cbn -[audit_event_digest];
    [done| | |exact Hd|done..]; [lia|by destruct (last audit)].
Qed.
End audit_chain.

(** ** What only grows *)
Section grows.
Context `{PyText} `{Rfc8785} `{PydanticJson} `{ResponseCodec}.

(** Nothing recorded is removed or rewritten, and a valid audit history stays valid. *)
Record grows (s s' : StoreData) : Prop := {
  gr_published : sd_published s ⊆ sd_published s';
  gr_supersessions : sd_supersessions s ⊆ sd_supersessions s';
  gr_baselines : sd_draft_selector_baselines s ⊆ sd_draft_selector_baselines s';
  gr_receipts : sd_receipts s ⊆ sd_receipts s';
  gr_operational : sd_operational_context_receipts s ⊆ sd_operational_context_receipts s';
  gr_decisions : sd_cohort_decisions s ⊆ sd_cohort_decisions s';
  gr_decision_receipts : sd_cohort_decision_receipts s ⊆ sd_cohort_decision_receipts s';
  gr_audit : sd_audit s `prefix_of` sd_audit s';
  gr_verifies : verify_audit_chain (sd_audit s) = Ok tt -> verify_audit_chain (sd_audit s') = Ok tt;
}.

#[global] Instance grows_preorder : PreOrder grows.
Proof.
  split; [by intros s|]. intros a b c [] []. split; try (by etrans); auto.
Qed.

Definition tx_grows (tx tx' : Transaction) : Prop := grows (tx_data tx) (tx_data tx').
#[global] Instance tx_grows_preorder : PreOrder tx_grows.
Proof. split; [by intros tx; unfold tx_grows|]. intros a b c. unfold tx_grows. by etrans. Qed.

Lemma read_only_grows {A} (m : txM A) : read_only m -> preserves tx_grows m.
Proof. intros Hm tx a tx' E. rewrite (Hm _ _ _ E). done. Qed.

Lemma baselines_grow_grows {A} (m : txM A) : preserves baselines_grow m -> preserves tx_grows m.
Proof. intros Hm tx a tx' E. unfold tx_grows. destruct (Hm _ _ _ E) as (b & -> & Hs). by split. Qed.

Lemma put_draft_grows d e : preserves tx_grows (put_draft d e).
Proof. by intros tx u tx' [_ ->]%put_draft_Ok; split. Qed.
Lemma put_published_grows p : preserves tx_grows (put_published p).
Proof. intros tx u tx' [Hn ->]%put_published_Ok; split; try done. by apply insert_subseteq. Qed.
Lemma put_supersession_grows r : preserves tx_grows (put_supersession r).
Proof. intros tx u tx' [Hn ->]%put_supersession_Ok; split; try done. by apply insert_subseteq. Qed.
Lemma put_receipt_grows r : preserves tx_grows (put_receipt r).
Proof. intros tx u tx' [Hn ->]%put_receipt_Ok; split; try done. by apply insert_subseteq. Qed.
Lemma put_operational_receipt_grows r : preserves tx_grows (put_operational_context_receipt r).
Proof. intros tx u tx' [Hn ->]%put_operational_receipt_Ok; split; try done. by apply insert_subseteq. Qed.
Lemma append_audit_grows e : preserves tx_grows (append_audit e).
Proof.
  intros tx u tx' (Hv & Hn & ->)%append_audit_Ok; split; try done; cbn; [by apply prefix_app_r|].
  intros _. by eapply next_audit_event_verifies.
Qed.
Lemma put_cohort_decision_grows r : preserves tx_grows (put_cohort_decision r).
Proof.
  intros tx u tx'. unfold put_cohort_decision, list_overlapping_cohort_decisions. intros Hp. inv_tx. split; try done.
  cbn. apply insert_subseteq, eq_None_not_Some.
  match goal with E : bool_decide (is_Some (sd_cohort_decisions _ !! _)) = false |- _ => by apply bool_decide_eq_false in E end.
Qed.
Lemma put_cohort_decision_receipt_grows r : preserves tx_grows (put_cohort_decision_receipt r).
Proof.
  intros tx u tx'. unfold put_cohort_decision_receipt. intros Hp. inv_tx. split; try done.
  cbn. apply insert_subseteq, eq_None_not_Some.
  match goal with E : bool_decide (is_Some (sd_cohort_decision_receipts _ !! _)) = false |- _ => by apply bool_decide_eq_false in E end.
Qed.
End grows.
#[export] Hint Resolve put_draft_grows put_published_grows put_supersession_grows put_receipt_grows
  put_operational_receipt_grows append_audit_grows put_cohort_decision_grows put_cohort_decision_receipt_grows : tx.

(** * The audit chain is tamper evident

    Two valid histories that end in the same event digest record the same events,
    one by one, in their canonical texts, unless two of their own digest payloads
    have different texts with the same SHA-256. *)

(** What RFC 8785 documents: the canonical text of an object can be read back, so
    equal texts have the same members with equal texts, and the text of a string is
    that of no other value. *)
Class Rfc8785Members `{PyText} `{Rfc8785} : Prop := {
  dumps_member v1 v2 m1 m2 k x1 :
    normalize_json_value v1 = Ok (JObj m1) -> normalize_json_value v2 = Ok (JObj m2) ->
    rfc8785_dumps (JObj m1) = rfc8785_dumps (JObj m2) -> assoc k m1 = Some x1 ->
    exists x2, assoc k m2 = Some x2 /\ rfc8785_dumps x1 = rfc8785_dumps x2;
  dumps_string v x t :
    normalize_json_value v = Ok x -> rfc8785_dumps x = rfc8785_dumps (JStr t) -> x = JStr t;
}.

Section audit.
Context `{PyText} `{Rfc8785} `{!Rfc8785Members} `{PydanticJson}.
(** What [unicodedata] documents: NFC leaves ASCII text alone. *)
Hypothesis nfc_ascii : forall s, all_chars is_ascii s = true -> nfc s = s.

(** The canonical text of the event itself, and of the payload its digest is computed
    from. *)
Definition event_text (e : AuditEvent) : result string := canonicalize_json (pending_event_json (ae_event e)).
Definition event_payload (e : AuditEvent) : json :=
  audit_payload (ae_event e) (ae_sequence e) (ae_event_id e) (ae_previous_event_digest e).

(** Two records of one event: same place, links and digest, and the same canonical text *)
Definition same_event (e1 e2 : AuditEvent) : Prop :=
  ae_sequence e1 = ae_sequence e2 /\ ae_event_id e1 = ae_event_id e2 /\
  ae_previous_event_digest e1 = ae_previous_event_digest e2 /\ ae_event_digest e1 = ae_event_digest e2 /\
  exists text, event_text e1 = Ok text /\ event_text e2 = Ok text.

(** Two payloads with different texts and the same SHA-256 *)
Definition collision (e1 e2 : AuditEvent) : Prop :=
  exists t1 t2, canonicalize_json (event_payload e1) = Ok t1 /\ canonicalize_json (event_payload e2) = Ok t2 /\
    t1 <> t2 /\ sha256_hex t1 = sha256_hex t2.

Definition last_digest (l : list AuditEvent) : option string := ae_event_digest <$> last l.

Lemma digest_chars (d : string) : is_digest d = true ->
  all_chars (fun c => is_ascii c && negb (Ascii.eqb c "T")) d = true.
Proof.
  unfold is_digest, prefixed_hex. cbn zeta. rewrite !andb_true_iff. intros (Hp & _ & Hh).
  apply starts_with_spec in Hp as [t ->]. rewrite string_drop_app in Hh. rewrite all_chars_app. cbn [all_chars].
  change (all_chars (fun c => is_ascii c && negb (Ascii.eqb c "T")) "sha256:") with true. cbn [andb].
  eapply all_chars_impl; [|exact Hh]. clear. intros c Hc.
  apply andb_true_iff. split; [|by apply negb_true_iff, Ascii.eqb_neq; intros ->].
  revert Hc. unfold is_lower_hex, ascii_in, is_ascii. rewrite orb_true_iff, !andb_true_iff, !N.leb_le, N.ltb_lt. cbn. lia.
Qed.

Lemma contains_char_all c (s : string) : all_chars (fun d => negb (Ascii.eqb d c)) s = true -> contains_char c s = false.
Proof.
  string_induction s. rewrite andb_true_iff, negb_true_iff, orb_false_iff. intros [Hc ?]. split; [|auto].
  apply Ascii.eqb_neq in Hc. by apply Ascii.eqb_neq.
Qed.

(** A digest is its own canonical form. *)
Lemma normalize_digest (d : string) : is_digest d = true -> normalize_json_value (JStr d) = Ok (JStr d).
Proof.
  intros Hd%digest_chars. cbn. unfold normalize_nfc_text.
  rewrite nfc_ascii by (eapply all_chars_impl; [|exact Hd]; by intros c [? ?]%andb_true_iff).
  rewrite contains_char_all; [done|]. eapply all_chars_impl; [|exact Hd]. by intros c [? ?]%andb_true_iff.
Qed.

Definition previous_json (p : option string) : json := match p with Some d => JStr d | None => JNull end.

(** The members of a canonical object are the canonical members. *)
Lemma normalize_members_cons seen k v ms ms' :
  normalize_members seen ((k, v) :: ms) = Ok ms' ->
  exists v' rest, normalize_json_value v = Ok v' /\ normalize_members (nfc k :: seen) ms = Ok rest /\
    ms' = (nfc k, v') :: rest.
Proof.
  cbn [normalize_members]. case_bool_decide; [done|]. intros (v' & Hv & (rest & Hr & E)%bind_Ok)%bind_Ok.
  injection E as <-. eauto.
Qed.

(** The members of a canonical payload *)
Lemma payload_members e v :
  normalize_json_value (event_payload e) = Ok v ->
  exists ms p ev, v = JObj ms /\ assoc "previousEventDigest" ms = Some p /\ assoc "event" ms = Some ev /\
    normalize_json_value (previous_json (ae_previous_event_digest e)) = Ok p /\
    normalize_json_value (pending_event_json (ae_event e)) = Ok ev.
Proof.
  unfold event_payload, audit_payload. fold (previous_json (ae_previous_event_digest e)). rewrite normalize_JObj. intros E.
  match type of E with _ <$> ?m = _ => destruct m as [ms|] eqn:M; [|done] end. injection E as <-.
  do 5 (apply normalize_members_cons in M as (? & ? & ? & M & ->); rewrite nfc_ascii by done).
  do 3 eexists. by split_and!.
Qed.

(** Payloads with one text have the same predecessor and the same event text. *)
Lemma payload_text_inj e1 e2 t :
  (forall d, ae_previous_event_digest e1 = Some d -> is_digest d = true) ->
  (forall d, ae_previous_event_digest e2 = Some d -> is_digest d = true) ->
  canonicalize_json (event_payload e1) = Ok t -> canonicalize_json (event_payload e2) = Ok t ->
  ae_previous_event_digest e1 = ae_previous_event_digest e2 /\
  exists text, event_text e1 = Ok text /\ event_text e2 = Ok text.
Proof.
  intros Hp1 Hp2. unfold canonicalize_json, event_text. intros C1 C2.
  destruct (normalize_json_value (event_payload e1)) as [v1|] eqn:N1; [|done].
  destruct (normalize_json_value (event_payload e2)) as [v2|] eqn:N2; [|done]. injection C1 as C1. injection C2 as C2.
  destruct (payload_members _ _ N1) as (m1 & p1 & ev1 & -> & A1 & B1 & P1 & E1).
  destruct (payload_members _ _ N2) as (m2 & p2 & ev2 & -> & A2 & B2 & P2 & E2).
  assert (Hd : rfc8785_dumps (JObj m1) = rfc8785_dumps (JObj m2)) by congruence.
  destruct (dumps_member _ _ _ _ _ _ N1 N2 Hd A1) as (p & A2' & Hdp). rewrite A2 in A2'. injection A2' as <-.
  destruct (dumps_member _ _ _ _ _ _ N1 N2 Hd B1) as (ev & B2' & Hde). rewrite B2 in B2'. injection B2' as <-.
  split; [|unfold canonicalize_json; rewrite E1, E2; cbn; rewrite Hde; eauto].
  destruct (ae_previous_event_digest e1) as [d1|] eqn:D1, (ae_previous_event_digest e2) as [d2|] eqn:D2; [| | |done];
    cbn [previous_json] in P1, P2; try (rewrite (normalize_digest d1) in P1 by auto); try (rewrite (normalize_digest d2) in P2 by auto).
  - injection P1 as <-. injection P2 as <-. pose proof (dumps_string (JStr d2) (JStr d2) d1 (normalize_digest _ (Hp2 _ eq_refl)) (eq_sym Hdp)).
    congruence.
  - injection P1 as <-. pose proof (dumps_string _ _ _ P2 (eq_sym Hdp)) as ->. done.
  - injection P2 as <-. pose proof (dumps_string _ _ _ P1 Hdp) as ->. done.
Qed.

(** The links of a chain, and its last event. *)
Lemma verify_audit_snoc_inv sequence previous events e :
  verify_audit_from sequence previous (events ++ [e]) = Ok tt ->
  verify_audit_from sequence previous events = Ok tt /\
  (ae_sequence e = sequence + Z.of_nat (length events) /\ ae_event_id e = audit_event_id (ae_sequence e)) /\
  ae_previous_event_digest e = match last_digest events with Some d => Some d | None => previous end /\
  audit_event_digest (ae_event e) (ae_sequence e) (ae_event_id e) (ae_previous_event_digest e) = Ok (ae_event_digest e).
Proof.
  revert sequence previous. induction events as [|e0 events IH]; intros sequence previous; cbn [app verify_audit_from].
  - intros ([] & Hl%guard_or_Ok & (d & Hd & ([] & He%guard_or_Ok & _)%bind_Ok)%bind_Ok)%bind_Ok.
    rewrite !andb_true_iff, Z.eqb_eq, String.eqb_eq, bool_decide_eq_true in Hl. destruct Hl as ((Hs & Hi) & Hp).
    apply String.eqb_eq in He. split_and!; [done|cbn; lia|by rewrite Hi, Hs|done|]. rewrite Hs, Hi, Hp, He. done.
  - intros ([] & Hl & (d & Hd & ([] & He & Hv)%bind_Ok)%bind_Ok)%bind_Ok.
    destruct (IH _ _ Hv) as (Hv' & [Hs Hi] & Hp & Hdig). split_and!; [|cbn [length]; lia|done|rewrite Hp|done].
    + rewrite Hl. unfold mbind, result_bind at 1. rewrite Hd. unfold mbind, result_bind at 1. by rewrite He.
    + unfold last_digest. rewrite last_cons. by destruct (last events).
Qed.

Lemma event_digest_text e :
  audit_event_digest (ae_event e) (ae_sequence e) (ae_event_id e) (ae_previous_event_digest e) = Ok (ae_event_digest e) ->
  (forall s : string, nfc (nfc s) = nfc s) ->
  exists t, canonicalize_json (event_payload e) = Ok t /\ ae_event_digest e = sha256_hex t.
Proof.
  intros Hd Hidem. unfold audit_event_digest in Hd. rewrite artifact_semantic_digest in Hd by done.
  unfold compute_semantic_digest in Hd. fold (event_payload e) in Hd.
  destruct (canonicalize_json (event_payload e)) as [t|]; [|done]. exists t. by injection Hd.
Qed.

Hypothesis nfc_idem : forall s, nfc (nfc s) = nfc s.

Lemma last_digest_valid l d : verify_audit_chain l = Ok tt -> last_digest l = Some d -> is_digest d = true.
Proof.
  destruct l as [|e l _] using rev_ind; [done|]. unfold verify_audit_chain, last_digest. rewrite last_snoc.
  intros (_ & _ & _ & Hd)%verify_audit_snoc_inv E. injection E as <-. by eapply compute_artifact_digest_shape.
Qed.

(** C35: Two valid audit histories with the same final digest have the same length and
    record, place by place, the same events: equal sequence numbers, ids, links,
    digests and canonical event texts (actor, action, draft, revision, digest, reason
    and all other members), unless two of their own digest payloads collide under
    SHA-256: no event can be altered, inserted, removed or reordered without changing
    the final digest. *)
Theorem audit_history_tamper_evident l1 l2 :
  verify_audit_chain l1 = Ok tt -> verify_audit_chain l2 = Ok tt -> last_digest l1 = last_digest l2 ->
  Forall2 same_event l1 l2 \/ exists e1 e2, e1 ∈ l1 /\ e2 ∈ l2 /\ collision e1 e2.
Proof.
  revert l2. induction l1 as [|e1 l1 IH] using rev_ind; intros l2 V1 V2 Hlast.
  - destruct l2 as [|e2 l2 _] using rev_ind; [by left; constructor|]. unfold last_digest in Hlast.
    by rewrite last_snoc in Hlast.
  - destruct l2 as [|e2 l2 _] using rev_ind; [unfold last_digest in Hlast; by rewrite last_snoc in Hlast|].
    unfold last_digest in Hlast. rewrite !last_snoc in Hlast. injection Hlast as Hlast.
    unfold verify_audit_chain in V1, V2. apply verify_audit_snoc_inv in V1 as (V1 & [S1 I1] & P1 & D1), V2 as (V2 & [S2 I2] & P2 & D2).
    destruct (event_digest_text _ D1 nfc_idem) as (t1 & F1 & E1), (event_digest_text _ D2 nfc_idem) as (t2 & F2 & E2).
    destruct (decide (t1 = t2)) as [->|Ht]; [|right; exists e1, e2; split_and!; [set_solver|set_solver|]; exists t1, t2;
      split_and!; [done|done|done|congruence]].
    destruct (payload_text_inj e1 e2 t2) as [Hprev Htext]; [..|exact F1|exact F2|].
    { intros d E. rewrite P1 in E. apply (last_digest_valid l1); [exact V1|]. by destruct (last_digest l1). }
    { intros d E. rewrite P2 in E. apply (last_digest_valid l2); [exact V2|]. by destruct (last_digest l2). }
    assert (Hsame : last_digest l1 = last_digest l2).
    { rewrite P1, P2 in Hprev. by destruct (last_digest l1), (last_digest l2). }
    destruct (IH _ V1 V2 Hsame) as [Hall|(c1 & c2 & ? & ? & ?)]; [|right; exists c1, c2; set_solver].
    left. pose proof (Forall2_length _ _ _ Hall) as Hlen. apply Forall2_app; [done|]. constructor; [|constructor].
    assert (Hseq : ae_sequence e1 = ae_sequence e2) by (rewrite S1, S2, Hlen; done).
    split_and!; [done|by rewrite I1, I2, Hseq|done|done|done].
Qed.
End audit.

(** * The lineage walks terminate

    The recursions over published versions and over selector baselines visit
    each stored entry at most once, so the recursion the code writes ends on
    every store, consistent or not: it never exhausts the fuel of its model. *)

Definition is_runtime (e : exn) : bool := match e with RuntimeError _ => true | _ => false end.

Section no_runtime.
Context `{ResponseCodec}.

(** On [tx], the computation does not run out of fuel. *)
Definition fuelled {A} (m : txM A) (tx : Transaction) : Prop :=
  forall e, m tx = Raise e -> is_runtime e = false.

Lemma fuelled_bind {A B} (m : txM A) (k : A -> txM B) tx :
  fuelled m tx -> (forall a tx1, m tx = Ok (a, tx1) -> fuelled (k a) tx1) -> fuelled (m ≫= k) tx.
Proof.
  intros Hm Hk e. unfold mbind, txM_bind. destruct (m tx) as [[a tx1]|e'] eqn:E; [by apply Hk|].
  intros Ee. injection Ee as ->. by apply Hm.
Qed.

Lemma fuelled_ret {A} (a : A) tx : fuelled (mret a) tx.
Proof. intros e. discriminate. Qed.

Lemma fuelled_liftR {A} (r : result A) tx : (forall e, r = Raise e -> is_runtime e = false) -> fuelled (liftR r) tx.
Proof. intros Hr e. unfold liftR. destruct r as [a|e']; [done|]. intros E. injection E as ->. by apply Hr. Qed.

Lemma fuelled_check e b tx : is_runtime e = false -> fuelled (check e b) tx.
Proof. intros He. apply fuelled_liftR. intros e'. unfold guard_or. destruct b; [done|]. congruence. Qed.

Lemma fuelled_raise_if e b tx : is_runtime e = false -> fuelled (liftR (raise_if e b)) tx.
Proof. intros He. apply fuelled_liftR. intros e'. unfold raise_if. destruct b; [congruence|done]. Qed.

Lemma fuelled_throw {A} e tx : is_runtime e = false -> fuelled (throw e : txM A) tx.
Proof. intros He. apply fuelled_liftR. congruence. Qed.

Lemma fuelled_reads {A} (f : StoreData -> A) tx : fuelled (reads f) tx.
Proof. intros e. discriminate. Qed.
End no_runtime.

(** [fuel_free]: walk a computation that raises no recursion error itself. *)
Ltac fuel_free :=
  repeat match goal with
  | |- fuelled (_ ≫= _) _ => apply fuelled_bind; [|intros ? ? ?]
  | |- fuelled (match ?x with _ => _ end) _ => destruct x eqn:?
  | |- fuelled (check _ _) _ => by apply fuelled_check
  | |- fuelled (liftR (raise_if _ _)) _ => by apply fuelled_raise_if
  | |- fuelled (liftR (guard_or _ _)) _ => by apply fuelled_check
  | |- fuelled (liftR (Raise _)) _ => by apply fuelled_throw
  | |- fuelled (throw _) _ => by apply fuelled_throw
  | |- fuelled (mret _) _ => apply fuelled_ret
  | |- fuelled _ _ => apply fuelled_reads
  end.

Section walks.
Context `{PyText} `{ResponseCodec}.

Lemma mapR_no_runtime {A B} (f : A -> result B) l e :
  (forall x e, f x = Raise e -> is_runtime e = false) -> mapR f l = Raise e -> is_runtime e = false.
Proof.
  intros Hf. induction l as [|x l IH]; [done|]. cbn [mapR]. unfold mbind, result_bind.
  destruct (f x) as [y|e'] eqn:E; [|intros Ee; injection Ee as <-; by eapply Hf].
  destruct (mapR f l); [done|]. intros Ee. injection Ee as <-. by apply IH.
Qed.

Lemma foldR_no_runtime {A S} (f : S -> A -> result S) s l e :
  (forall s x e, f s x = Raise e -> is_runtime e = false) -> foldR f s l = Raise e -> is_runtime e = false.
Proof.
  intros Hf. revert s. induction l as [|x l IH]; intros s; [done|]. cbn [foldR]. unfold mbind, result_bind.
  destruct (f s x) as [s'|e'] eqn:E; [apply IH|]. intros Ee. injection Ee as <-. by eapply Hf.
Qed.

Lemma applied_bindings_fuelled m d r tx : fuelled (applied_bindings m d r) tx.
Proof.
  unfold applied_bindings. fuel_free. apply fuelled_liftR. intros e. apply mapR_no_runtime. clear.
  intros decision e. unfold applied_binding. destruct (cd_apply_authorization decision), (cd_applied_draft decision);
    try (intros E; by injection E as <-); try done.
  unfold guard_or. destruct (applied_binding_consistent _ _ _ _ _); [done|]. intros E. by injection E as <-.
Qed.

Lemma deduplicate_fuelled bindings tx : fuelled (liftR (deduplicate_bindings bindings)) tx.
Proof.
  apply fuelled_liftR. intros e. unfold deduplicate_bindings. intros Hd.
  match type of Hd with (?m ≫= _) = _ => destruct m as [u|e'] eqn:E end; [discriminate Hd|].
  injection Hd as <-. revert E. apply foldR_no_runtime. clear. intros s x e.
  destruct (s !! cb_decision_id x) as [b|]; [|done]. destruct (negb _); [|done]. intros E. by injection E as <-.
Qed.

(** A fresh key of the store enlarges the visited set. *)
Lemma visited_grows {K} `{Countable K} (D V : gset K) k fuel :
  V ⊆ D -> k ∈ D -> k ∉ V -> (size D < S fuel + size V)%nat ->
  {[k]} ∪ V ⊆ D /\ (size D < fuel + size ({[k]} ∪ V))%nat.
Proof.
  intros HV Hk Hn Hs. split; [set_solver|]. rewrite size_union by set_solver. rewrite size_singleton. lia.
Qed.

Lemma published_lineage_fuelled fuel p visited tx :
  visited ⊆ dom (sd_published (tx_data tx)) ->
  (size (dom (sd_published (tx_data tx))) < fuel + size visited)%nat ->
  fuelled (published_lineage_bindings fuel p visited) tx.
Proof.
  revert p visited tx. induction fuel as [|fuel IH]; intros p visited tx Hv Hs.
  { apply subseteq_size in Hv. lia. }
  cbn [published_lineage_bindings]. apply fuelled_bind; [by apply fuelled_raise_if|]. intros u tx1 Hc.
  inv_tx. match goal with E : bool_decide _ = false |- _ => apply bool_decide_eq_false in E as Hfresh end.
  apply fuelled_bind.
  { unfold validate_published_lineage_entry. fuel_free. }
  intros source tx1 Hentry. pose proof (validate_entry_read_only _ _ _ _ Hentry) as <-.
  assert (Hin : (pm_manifest_id p, pm_manifest_version p) ∈ dom (sd_published (tx_data tx))).
  { unfold validate_published_lineage_entry in Hentry. inv_tx. destruct (sd_drafts _ !! _) as [d|]; inv_tx.
    match goal with E : lineage_entry_consistent _ _ _ = true |- _ =>
      unfold lineage_entry_consistent in E; rewrite !andb_true_iff, bool_decide_eq_true in E;
      apply elem_of_dom; exists p; tauto end. }
  destruct (visited_grows _ _ _ _ Hv Hin Hfresh Hs) as [Hv' Hs'].
  apply fuelled_bind.
  - destruct (or_text _ _) as [version|]; [|apply fuelled_ret]. apply fuelled_bind.
    + unfold require_predecessor. fuel_free.
    + intros previous tx1 Hp. pose proof (require_predecessor_read_only _ _ _ _ _ _ _ Hp) as <-. by apply IH.
  - intros inherited tx1 Hi. assert (tx = tx1) as <-.
    { destruct (or_text _ _) as [version|]; inv_tx; [|done].
      match goal with E : require_predecessor _ _ _ _ _ = _ |- _ =>
        pose proof (require_predecessor_read_only _ _ _ _ _ _ _ E) as <- end.
      by eapply published_lineage_bindings_read_only. }
    apply fuelled_bind; [apply applied_bindings_fuelled|]. intros direct tx1 _. apply deduplicate_fuelled.
Qed.

(** Recovering selector authority along the published lineage terminates on every
    store, even one whose lineage is cyclic or broken: the walk never nests more
    calls than there are published versions. *)
Theorem selector_authority_terminates p version tx :
  fuelled (persisted_selector_authority_for_published p version) tx.
Proof.
  apply (fuelled_bind (reads lineage_fuel)); [apply fuelled_reads|]. intros fuel tx1 Hf. inv_tx.
  apply fuelled_bind; [|intros bindings tx1 _; apply fuelled_ret]. apply published_lineage_fuelled; [set_solver|].
  unfold lineage_fuel. rewrite size_dom, size_empty. lia.
Qed.
End walks.

Section baselines.
Context `{PyText} `{Rfc8785} `{ResponseCodec} `{!ManifestContract} `{ModelDump ManifestSelector}.

Lemma inferred_baseline_fuelled fuel b visited tx (D : gset string) :
  dom (sd_draft_selector_baselines (tx_data tx)) ⊆ D ->
  bl_draft_id b ∈ D -> visited ⊆ D -> (size D < fuel + size visited)%nat ->
  fuelled (validate_inferred_selector_baseline fuel b visited) tx.
Proof.
  intros HD. revert b visited. induction fuel as [|fuel IH]; intros b visited Hb Hv Hs.
  { apply subseteq_size in Hv. lia. }
  cbn [validate_inferred_selector_baseline]. apply fuelled_bind; [by apply fuelled_check|]. intros u tx1 Hc. inv_tx.
  match goal with E : negb _ = true |- _ => apply negb_true_iff, bool_decide_eq_false in E as Hfresh end.
  destruct (visited_grows _ _ _ _ Hv Hb Hfresh Hs) as [Hv' Hs'].
  apply fuelled_bind; [apply fuelled_reads|]. intros current tx1 Hc. inv_tx.
  destruct (sd_drafts _ !! _) as [d|]; [|by apply fuelled_throw].
  apply fuelled_bind; [by apply fuelled_check|]. intros u' tx1 Hc. inv_tx.
  destruct (bl_inferred_predecessor b) as [reference|]; [|fuel_free].
  apply fuelled_bind; [by apply fuelled_check|]. intros u'' tx1 Hc. inv_tx.
  apply fuelled_bind; [apply fuelled_reads|]. intros stored tx1 Hc. inv_tx.
  destruct (sd_draft_selector_baselines _ !! _) as [predecessor|] eqn:Hp; [|by apply fuelled_throw].
  apply fuelled_bind; [by apply fuelled_check|]. intros u3 tx1 Hc. inv_tx.
  match goal with E : predecessor_consistent _ _ _ = true |- _ =>
    unfold predecessor_consistent in E; rewrite !andb_true_iff, bool_decide_eq_true in E; destruct E as (((Er & _) & _) & _) end.
  apply IH; [|done|done]. change (bl_draft_id predecessor) with (br_draft_id (capture_reference predecessor)).
  rewrite Er. apply HD, elem_of_dom. eauto.
Qed.

(** Checking the unpublished lineage of a selector baseline terminates on every
    store: the walk visits each stored baseline at most once. *)
Theorem baseline_lineage_terminates b tx : fuelled (validate_baseline_lineage b) tx.
Proof.
  apply (fuelled_bind (reads baseline_fuel)); [apply fuelled_reads|]. intros fuel tx1 Hf. inv_tx.
  apply (inferred_baseline_fuelled _ _ _ _ ({[bl_draft_id b]} ∪ dom (sd_draft_selector_baselines (tx_data tx))));
    [set_solver|set_solver|set_solver|].
  unfold baseline_fuel. rewrite size_empty.
  pose proof (size_union_alt ({[bl_draft_id b]} : gset string) (dom (sd_draft_selector_baselines (tx_data tx)))) as Hu.
  rewrite Hu, size_singleton.
  pose proof (subseteq_size (dom (sd_draft_selector_baselines (tx_data tx)) ∖ {[bl_draft_id b]})
    (dom (sd_draft_selector_baselines (tx_data tx))) ltac:(set_solver)) as Hsub.
  rewrite size_dom in Hsub. lia.
Qed.
End baselines.
