(* ===== verification/Governance.v ===== *)
(** * Governance: the abstract lifecycle and its refinement

    What the service promises, as a transition relation on the drafts, the
    published versions and their supersessions: the facts each transition
    requires, without the store's mechanics. Every successful mutation of
    Lifecycle.v is one of these transitions. *)
From S2P Require Import Prelude Text Sha256 Time Json Authorization.
From S2P Require Export StoreProps.
Local Open Scope Z_scope.

Section governance.
Context `{PyText} `{Rfc8785} `{PydanticJson} `{ResponseCodec} `{!ManifestContract} `{!AuthorizationPort}
  `{ModelDump ManifestSelector} `{ModelDump CohortDecisionApplyBinding} `{ModelDump ReplaceDraftCommand}.
Context (publisher : Actor).

(** The digest is the manifest's own. *)
Definition digest_ok (m : CanonicalWorkloadManifest) (digest : string) : Prop :=
  compute_artifact_digest_value m = Ok digest /\ cm_artifact_digest (wm_compatibility m) = digest.

(** The draft carries the publication candidate the service finalized. *)
Definition candidate_ok (d : DraftRecord) : Prop :=
  exists c r, dr_publication_candidate d = Some c /\ dr_review d = Some r /\
    candidate_current publisher d c r = true /\ digest_ok (dr_manifest d) (dr_manifest_digest d).

(** A stored operational receipt covers exactly this draft revision, now. *)
Definition receipt_ok (s : StoreData) (d : DraftRecord) (r : OperationalContextReceipt) (now : Z) : Prop :=
  (exists id, sd_operational_context_receipts s !! id = Some r) /\ receipt_authorizes r d now = true /\
  exists p, production_profile (dr_manifest d) = Some p /\ ob_profile_id (or_binding r) = mp_profile_id p.

(** How one draft may change. *)
Inductive edge (s : StoreData) : DraftRecord -> DraftRecord -> Prop :=
  | edge_replace actor now reason m digest d :
      dr_state d = StateDraft -> wm_manifest_id m = dr_manifest_id d ->
      wm_manifest_version m = wm_manifest_version (dr_manifest d) -> digest_ok m digest ->
      edge s d (touched actor now reason (set_manifest m digest
        (set_governance None None (dr_publication_candidate d) (dr_review_decisions d) None d)))
  | edge_validate actor now reason v d :
      dr_state d = StateDraft -> vr_validated_revision v = dr_revision d + 1 ->
      vr_manifest_digest v = dr_manifest_digest d ->
      edge s d (touched actor now reason (set_state StateValidated
        (set_governance (Some v) (dr_review d) (dr_publication_candidate d) (dr_review_decisions d) (dr_approval d) d)))
  | edge_submit actor now reason m review candidate d :
      dr_state d = StateValidated -> pc_finalized_by candidate = publisher ->
      pc_manifest_digest candidate = cm_artifact_digest (wm_compatibility m) ->
      rs_publication_candidate_digest review = cm_artifact_digest (wm_compatibility m) ->
      edge s d (touched actor now reason (set_state StateInReview (set_manifest m (cm_artifact_digest (wm_compatibility m))
        (set_governance (dr_validation d) (Some review) (Some candidate) (dr_review_decisions d) (dr_approval d) d))))
  | edge_review actor now reason decision d :
      dr_state d = StateInReview -> candidate_ok d -> ac_kind actor = ActorHuman ->
      rd_reviewed_by decision = actor -> rd_reviewed_revision decision = dr_revision d + 1 ->
      rd_manifest_version decision = wm_manifest_version (dr_manifest d) ->
      rd_manifest_digest decision = dr_manifest_digest d ->
      (length (dr_review_decisions d) < 100)%nat ->
      edge s d (reviewed_draft actor now reason decision d)
  | edge_approve actor now reason review approval receipt d :
      dr_state d = StateInReview -> candidate_ok d -> ac_kind actor = ActorHuman ->
      approved_review_of d = Some review -> receipt_ok s d receipt now ->
      ad_approved_by approval = actor -> ad_approved_revision approval = dr_revision d + 1 ->
      ad_manifest_version approval = wm_manifest_version (dr_manifest d) ->
      ad_manifest_digest approval = dr_manifest_digest d ->
      ad_review_decision_id approval = Some (rd_decision_id review) ->
      edge s d (touched actor now reason (set_state StateApproved
        (set_governance (dr_validation d) (dr_review d) (dr_publication_candidate d) (dr_review_decisions d)
           (Some approval) d))).

(** What the lineage allows for a new version of a workload. *)
Definition lineage_allows (s : StoreData) (manifest_id new_version : string) (previous_version : option string) : Prop :=
  match active_versions manifest_id s with
  | [] => previous_version = None
  | [current] => previous_version = Some (pm_manifest_version current) /\
                 version_lt (pm_manifest_version current) new_version = true
  | _ => False
  end.

(** The version [publish] stores for the approved draft [d]. *)
Record publishes (s : StoreData) (d : DraftRecord) (p : PublishedManifest) : Prop := {
  pub_state : dr_state d = StateApproved;
  pub_candidate : candidate_ok d;
  pub_approval : dr_approval d = Some (pm_approval p);
  pub_authorizes : exists approval_id, approval_authorizes d (pm_approval p) approval_id = true;
  pub_receipt : exists receipt, receipt_ok s d receipt (pm_publication_authorized_at p) /\
    pm_operational_context_receipt_id p = Some (or_receipt_id receipt);
  pub_human : ac_kind (pm_publication_authorized_by p) = ActorHuman;
  pub_new : sd_published s !! (dr_manifest_id d, wm_manifest_version (dr_manifest d)) = None;
  pub_lineage : lineage_allows s (dr_manifest_id d) (wm_manifest_version (dr_manifest d)) (dr_previous_version d);
  pub_id : pm_manifest_id p = dr_manifest_id d;
  pub_version : pm_manifest_version p = wm_manifest_version (dr_manifest d);
  pub_digest : pm_manifest_digest p = dr_manifest_digest d;
  pub_manifest : pm_manifest p = dr_manifest d;
  pub_source : pm_source_draft_id p = dr_draft_id d;
  pub_revision : pm_source_draft_revision p = dr_revision d + 1;
  pub_previous : pm_previous_version p = dr_previous_version d;
  pub_by : pm_published_by p = publisher;
}.

(** The change that stored [d] appended the audit event that records it. *)
Definition audited (s s' : StoreData) (d : DraftRecord) : Prop :=
  exists event, sd_audit s' = sd_audit s ++ [event] /\
    pa_draft_id (ae_event event) = Some (dr_draft_id d) /\ pa_revision (ae_event event) = Some (dr_revision d) /\
    pa_manifest_digest (ae_event event) = dr_manifest_digest d /\
    pa_actor (ae_event event) = dr_updated_by d /\ pa_occurred_at (ae_event event) = dr_updated_at d.

(** The drafts, versions and supersessions one mutation changes. *)
Inductive transition (s s' : StoreData) : Prop :=
  | t_idle :
      sd_drafts s' = sd_drafts s -> sd_published s' = sd_published s -> sd_supersessions s' = sd_supersessions s ->
      sd_audit s `prefix_of` sd_audit s' ->
      transition s s'
  | t_create d :
      sd_drafts s !! dr_draft_id d = None -> dr_state d = StateDraft -> dr_revision d = 1 ->
      dr_manifest_id d = wm_manifest_id (dr_manifest d) -> digest_ok (dr_manifest d) (dr_manifest_digest d) ->
      dr_review_decisions d = [] -> dr_approval d = None -> dr_publication_candidate d = None ->
      lineage_allows s (dr_manifest_id d) (wm_manifest_version (dr_manifest d)) (dr_previous_version d) ->
      sd_drafts s' = <[dr_draft_id d := d]> (sd_drafts s) ->
      sd_published s' = sd_published s -> sd_supersessions s' = sd_supersessions s -> audited s s' d ->
      transition s s'
  | t_edge d d' id :
      sd_drafts s !! id = Some d -> edge s d d' ->
      sd_drafts s' = <[dr_draft_id d := d']> (sd_drafts s) ->
      sd_published s' = sd_published s -> sd_supersessions s' = sd_supersessions s -> audited s s' d' ->
      transition s s'
  | t_publish d p id now :
      sd_drafts s !! id = Some d -> publishes s d p ->
      sd_drafts s' =
        <[dr_draft_id d := touched (pm_publication_authorized_by p) now (pm_reason p) (set_state StatePublished d)]>
          (sd_drafts s) ->
      sd_published s' = <[(pm_manifest_id p, pm_manifest_version p) := p]> (sd_published s) ->
      sd_supersessions s' = sd_supersessions s ->
      audited s s' (touched (pm_publication_authorized_by p) now (pm_reason p) (set_state StatePublished d)) ->
      transition s s'
  | t_supersede p replacement relation d :
      sd_published s !! (su_manifest_id relation, su_superseded_version relation) = Some p ->
      sd_published s !! (su_manifest_id relation, su_replacement_version relation) = Some replacement ->
      pm_previous_version replacement = Some (su_superseded_version relation) ->
      su_replacement_version relation = pm_manifest_version replacement ->
      sd_supersessions s !! (su_manifest_id relation, su_superseded_version relation) = None ->
      sd_drafts s !! pm_source_draft_id p = Some d -> dr_state d = StatePublished ->
      ac_kind (su_superseded_by relation) = ActorHuman ->
      sd_drafts s' =
        <[dr_draft_id d := touched (su_superseded_by relation) (su_superseded_at relation) (su_reason relation)
                             (set_state StateSuperseded d)]> (sd_drafts s) ->
      sd_published s' = sd_published s ->
      sd_supersessions s' = <[(su_manifest_id relation, su_superseded_version relation) := relation]> (sd_supersessions s) ->
      audited s s' (touched (su_superseded_by relation) (su_superseded_at relation) (su_reason relation)
                      (set_state StateSuperseded d)) ->
      transition s s'.
End governance.

(** ** Every mutation is a transition *)
Section refinement.
Context `{PyText} `{Rfc8785} `{PydanticJson} `{ResponseCodec} `{!ManifestContract} `{!AuthorizationPort}
  `{ModelDump ManifestSelector} `{ModelDump CohortDecisionApplyBinding} `{ModelDump ReplaceDraftCommand}.
Context (publisher : Actor).

Lemma next_audit_event_records audit event stored : next_audit_event audit event = Ok stored -> ae_event stored = event.
Proof. unfold next_audit_event. intros (d & _ & ([] & _ & E)%bind_Ok)%bind_Ok. by injection E as <-. Qed.

Lemma store_transition_Ok now actor action current updated reason v pa pt u tx tx' :
  store_transition now actor action current updated reason v pa pt tx = Ok (u, tx') ->
  dr_draft_id updated = dr_draft_id current -> dr_updated_by updated = actor -> dr_updated_at updated = now ->
  sd_drafts (tx_data tx') = <[dr_draft_id current := updated]> (sd_drafts (tx_data tx)) /\
  sd_published (tx_data tx') = sd_published (tx_data tx) /\
  sd_supersessions (tx_data tx') = sd_supersessions (tx_data tx) /\
  audited (tx_data tx) (tx_data tx') updated.
Proof.
  unfold store_transition. intros Hs <- <- <-. inv_tx.
  match goal with Hp : put_draft _ _ _ = _ |- _ => apply put_draft_Ok in Hp as [? ->] end.
  match goal with Ha : append_audit _ _ = _ |- _ => apply append_audit_Ok in Ha as (_ & Hn & ->) end.
  split_and!; try done. eexists. split; [reflexivity|].
  by rewrite (next_audit_event_records _ _ _ Hn).
Qed.

Lemma reviewed_draft_id actor now reason decision d :
  dr_draft_id (reviewed_draft actor now reason decision d) = dr_draft_id d.
Proof. unfold reviewed_draft. by destruct (rd_decision decision). Qed.

Lemma ensure_manifest_digest_Ok m digest u : ensure_manifest_digest m digest = Ok u -> digest_ok m digest.
Proof.
  unfold ensure_manifest_digest. intros (c & Hc & Hg%guard_or_Ok)%bind_Ok.
  apply andb_true_iff in Hg as [Ea%String.eqb_eq Eb%String.eqb_eq]. split; [by rewrite Eb|by rewrite Ea, Eb].
Qed.

Lemma candidate_Ok d c : require_current_publication_candidate publisher d = Ok c ->
  candidate_ok publisher d /\ dr_publication_candidate d = Some c.
Proof.
  unfold require_current_publication_candidate, candidate_ok.
  destruct (dr_publication_candidate d) as [c'|]; [|done]. destruct (dr_review d) as [r|]; [|done].
  intros ([] & Hg%guard_or_Ok & ([] & Hd%ensure_manifest_digest_Ok & E)%bind_Ok)%bind_Ok. injection E as <-.
  split; [|done]. by exists c', r.
Qed.

Lemma ensure_lineage_Ok m v p u tx tx' :
  ensure_lineage m v p tx = Ok (u, tx') -> lineage_allows (tx_data tx) m v p /\ tx' = tx.
Proof.
  unfold ensure_lineage, lineage_allows. intros Hl. inv_tx.
  destruct (active_versions m (tx_data _)) as [|c [|? ?]]; inv_tx; (split; [|done]).
  - by match goal with H : bool_decide _ = true |- _ => apply bool_decide_eq_true in H end.
  - match goal with H : bool_decide _ = true |- _ => apply bool_decide_eq_true in H end. done.
Qed.

Lemma require_state_Ok d st u : require_state d st = Ok u -> dr_state d = st.
Proof. by intros ?%guard_or_Ok%bool_decide_eq_true. Qed.

Lemma operational_receipt_Ok d id now r tx tx' :
  require_operational_context_receipt d id now tx = Ok (r, tx') -> receipt_ok (tx_data tx) d r now /\ tx' = tx.
Proof.
  intros Hr. assert (tx = tx') as <- by (by eapply operational_receipt_read_only). split; [|done].
  unfold require_operational_context_receipt in Hr. inv_tx.
  destruct (sd_operational_context_receipts _ !! id) as [r'|] eqn:Hl; inv_tx. split_and!; [eauto|done|].
  destruct (production_profile _) as [p|]; [|done]. exists p. split; [done|].
  match goal with H : String.eqb (ob_profile_id _) _ = true |- _ => by apply String.eqb_eq in H end.
Qed.

(** Store keys agree with the values they hold. *)
Definition well_keyed (s : StoreData) : Prop :=
  (forall id d, sd_drafts s !! id = Some d -> dr_draft_id d = id) /\
  (forall m v p, sd_published s !! (m, v) = Some p -> pm_manifest_id p = m /\ pm_manifest_version p = v) /\
  (forall m v r, sd_supersessions s !! (m, v) = Some r -> su_manifest_id r = m /\ su_superseded_version r = v).

(** [lifecycle H]: a successful manifest validation changes only baselines. *)
Ltac lifecycle :=
  repeat match goal with
  | H : validate_lifecycle_manifest _ _ _ _ _ = Ok (_, ?tx1) |- _ =>
      apply lifecycle_manifest_grow in H as (? & ? & _)
  | H : require_selector_baseline _ _ = Ok (_, ?tx1) |- _ =>
      apply require_baseline_grow in H as (? & ? & _)
  end.

Lemma human_only actor permission manifest_id u :
  require actor permission manifest_id = Ok u -> permission ∈ HUMAN_ONLY -> ac_kind actor = ActorHuman.
Proof. destruct u. apply require_human_only. Qed.

(** [transitioned]: the effect of the final [store_transition], past backfills. *)
Ltac transitioned Hd Hp Hs Hau :=
  lifecycle;
  match goal with H : store_transition _ _ _ _ _ _ _ _ _ _ = _ |- _ =>
    apply store_transition_Ok in H as (Hd & Hp & Hs & Hau);
      [|first [reflexivity|apply reviewed_draft_id]|reflexivity..] end;
  repeat match goal with H : tx_data ?t = set_baselines _ _ |- _ => rewrite H in *; clear H end;
  cbn in Hd, Hp, Hs.

Lemma validate_body_refines actor id command clock d' tx tx' :
  validate_body actor id command clock tx = Ok (d', tx') -> transition publisher (tx_data tx) (tx_data tx').
Proof.
  unfold validate_body. intros Hb. inv_tx. transitioned Hd Hp Hs Hau.
  eapply t_edge; [eassumption| |exact Hd|exact Hp|exact Hs|exact Hau].
  apply edge_validate; [by eapply require_state_Ok|done|done].
Qed.

Lemma submit_body_refines actor id command clock d' tx tx' :
  submit_body publisher actor id command clock tx = Ok (d', tx') -> transition publisher (tx_data tx) (tx_data tx').
Proof.
  unfold submit_body. intros Hb. inv_tx. transitioned Hd Hp Hs Hau.
  eapply t_edge; [eassumption| |exact Hd|exact Hp|exact Hs|exact Hau].
  eapply edge_submit; [by eapply require_state_Ok|done|done|done].
Qed.

Lemma review_body_refines actor id command clock d' tx tx' :
  review_body publisher actor id command clock tx = Ok (d', tx') -> transition publisher (tx_data tx) (tx_data tx').
Proof.
  unfold review_body. intros Hb. inv_tx.
  match goal with H : require_current_publication_candidate _ _ = _ |- _ => apply candidate_Ok in H as [Hc _] end.
  match goal with H : require _ PermReview _ = _ |- _ => apply human_only in H as Hh; [|vm_compute; set_solver] end.
  match goal with H : (100 <=? _) = false |- _ => apply Z.leb_gt in H as Hl end.
  transitioned Hd Hp Hs Hau.
  eapply t_edge; [eassumption| |exact Hd|exact Hp|exact Hs|exact Hau].
  apply edge_review; try done; [by eapply require_state_Ok|cbn; lia].
Qed.

Lemma approve_body_refines actor id command clock d' tx tx' :
  approve_body publisher actor id command clock tx = Ok (d', tx') -> transition publisher (tx_data tx) (tx_data tx').
Proof.
  unfold approve_body. intros Hb. inv_tx.
  match goal with H : require_current_publication_candidate _ _ = _ |- _ => apply candidate_Ok in H as [Hc _] end.
  match goal with H : require _ PermApprove _ = _ |- _ => apply human_only in H as Hh; [|vm_compute; set_solver] end.
  destruct (approved_review_of _) as [review|] eqn:Hr; inv_tx.
  match goal with H : require_operational_context_receipt _ _ _ _ = _ |- _ =>
    apply operational_receipt_Ok in H as [Ho ->] end.
  transitioned Hd Hp Hs Hau.
  eapply t_edge; [eassumption| |exact Hd|exact Hp|exact Hs|exact Hau].
  eapply edge_approve; try done. by eapply require_state_Ok.
Qed.

Lemma publish_body_refines actor id command clock p tx tx' :
  publish_body publisher actor id command clock tx = Ok (p, tx') -> transition publisher (tx_data tx) (tx_data tx').
Proof.
  unfold publish_body. intros Hb. inv_tx.
  match goal with H : require_current_publication_candidate _ _ = _ |- _ => apply candidate_Ok in H as [Hc _] end.
  match goal with H : require _ PermPublish _ = _ |- _ => apply human_only in H as Hh; [|vm_compute; set_solver] end.
  destruct (dr_approval _) as [approval|] eqn:Ha; inv_tx.
  match goal with H : require_operational_context_receipt _ _ _ _ = _ |- _ =>
    apply operational_receipt_Ok in H as [Ho ->] end.
  match goal with H : ensure_lineage _ _ _ _ = _ |- _ => apply ensure_lineage_Ok in H as [Hl ->] end.
  match goal with H : put_published _ _ = _ |- _ => apply put_published_Ok in H as [Hn ->] end.
  transitioned Hd Hp Hs Hau. cbn in Hn. unfold lineage_allows, active_versions in Hl; cbn in Hl.
  match type of Hp with _ = <[_ := ?p]> _ => eapply (t_publish _ _ _ _ p) end;
    [eassumption| |exact Hd|exact Hp|exact Hs|exact Hau].
  split; cbn; try done; eauto. by eapply require_state_Ok.
Qed.

(** What a replacement does: the draft it finds, and the draft it stores. *)
Lemma replace_body_effect actor id command occurred_at decision clock final_clock d' tx tx' :
  replace_draft_in_transaction actor id command occurred_at decision clock final_clock tx = Ok (d', tx') ->
  exists d now, sd_drafts (tx_data tx) !! id = Some d /\ dr_state d = StateDraft /\
    wm_manifest_id (rc_replacement_manifest command) = dr_manifest_id d /\
    wm_manifest_version (rc_replacement_manifest command) = wm_manifest_version (dr_manifest d) /\
    digest_ok (rc_replacement_manifest command) (rc_replacement_digest command) /\
    d' = touched actor now (rc_reason command) (set_manifest (rc_replacement_manifest command) (rc_replacement_digest command)
           (set_governance None None (dr_publication_candidate d) (dr_review_decisions d) None d)) /\
    sd_drafts (tx_data tx') = <[dr_draft_id d := d']> (sd_drafts (tx_data tx)) /\
    sd_published (tx_data tx') = sd_published (tx_data tx) /\
    sd_supersessions (tx_data tx') = sd_supersessions (tx_data tx) /\ audited (tx_data tx) (tx_data tx') d'.
Proof.
  unfold replace_draft_in_transaction. intros Hb. inv_tx.
  match goal with H : ensure_lineage _ _ _ _ = _ |- _ => apply ensure_lineage_Ok in H as [_ ->] end.
  match goal with H : ensure_manifest_digest _ _ = _ |- _ => apply ensure_manifest_digest_Ok in H as Hg end.
  destruct decision; inv_tx; cbn [fst snd] in *; inv_tx;
    (match goal with
     | H : require_persisted_cohort_apply _ _ _ _ _ _ = _ |- _ => pose proof (cohort_apply_read_only _ _ _ _ _ _ _ _ H) as <-
     | H : persisted_lifecycle_selector_authority _ _ = _ |- _ => pose proof (lifecycle_authority_read_only _ _ _ _ H) as <-
     end);
    transitioned Hd Hp Hs Hau;
    repeat match goal with H : String.eqb _ _ = true |- _ => apply String.eqb_eq in H end;
    (do 2 eexists; split_and!; [eassumption|by eapply require_state_Ok|done|done|exact Hg|reflexivity|exact Hd|exact Hp|exact Hs|exact Hau]).
Qed.

Lemma replace_body_refines actor id command occurred_at decision clock final_clock d' tx tx' :
  replace_draft_in_transaction actor id command occurred_at decision clock final_clock tx = Ok (d', tx') ->
  transition publisher (tx_data tx) (tx_data tx').
Proof.
  intros (d & now & Hf & Hst & Hm & Hv & Hg & -> & Hd & Hp & Hs & Hau)%replace_body_effect.
  eapply t_edge; [exact Hf| |exact Hd|exact Hp|exact Hs|exact Hau]. by apply edge_replace.
Qed.

Lemma create_body_refines actor command clock d tx tx' :
  create_body actor command clock tx = Ok (d, tx') -> transition publisher (tx_data tx) (tx_data tx').
Proof.
  unfold create_body. intros Hb. inv_tx.
  match goal with H : ensure_lineage _ _ _ _ = _ |- _ => apply ensure_lineage_Ok in H as [Hl ->] end.
  match goal with H : ensure_manifest_digest _ _ = _ |- _ => apply ensure_manifest_digest_Ok in H as Hg end.
  match goal with H : check_rollback _ ?t = Ok (_, ?t') |- _ => pose proof (check_rollback_read_only _ _ _ _ H) as <- end.
  match goal with H : new_draft_selector_reference _ _ _ _ ?t = Ok (_, ?t') |- _ =>
    pose proof (selector_reference_read_only _ _ _ _ _ _ _ H) as <- end.
  match goal with H : validate_new_draft_selector_baseline _ _ ?t = Ok (_, ?t') |- _ =>
    pose proof (new_baseline_read_only _ _ _ _ _ H) as <- end.
  match goal with H : put_draft_selector_baseline _ _ = _ |- _ => apply put_baseline_grow in H as (b & Hb & _) end.
  match goal with H : put_draft _ _ _ = _ |- _ => apply put_draft_Ok in H as [Hn ->] end.
  match goal with H : append_audit _ _ = _ |- _ => apply append_audit_Ok in H as (_ & Hev & ->) end.
  apply next_audit_event_records in Hev. rewrite Hb in *. cbn in Hn |- *. apply fmap_None in Hn.
  match goal with |- context [<[_ := ?d]> _] => apply (t_create _ _ _ d) end; try done.
  eexists. split; [reflexivity|]. by rewrite Hev.
Qed.

Lemma issue_body_refines actor command clock r tx tx' :
  issue_body actor command clock tx = Ok (r, tx') -> transition publisher (tx_data tx) (tx_data tx').
Proof.
  unfold issue_body. intros Hb. inv_tx.
  match goal with H : persisted_selector_authority_for_draft _ ?t = Ok (_, ?t') |- _ =>
    pose proof (draft_authority_read_only _ _ _ _ H) as <- end.
  destruct (sd_operational_context_receipts _ !! _); inv_tx; [by apply t_idle|].
  match goal with H : put_operational_context_receipt _ _ = _ |- _ =>
    apply put_operational_receipt_Ok in H as [_ ->] end. by apply t_idle.
Qed.

Lemma supersede_body_refines actor m v command clock r tx tx' :
  well_keyed (tx_data tx) -> ac_kind actor = ActorHuman ->
  supersede_body actor m v command clock tx = Ok (r, tx') -> transition publisher (tx_data tx) (tx_data tx').
Proof.
  unfold supersede_body. intros (_ & Hkey & _) Hh Hb. inv_tx.
  match goal with H : sd_published _ !! (m, suc_replacement_version command) = Some _ |- _ => rename H into Hr end.
  destruct (Hkey _ _ _ Hr) as [_ Hv].
  match goal with H : put_supersession _ _ = _ |- _ => apply put_supersession_Ok in H as [Hn ->] end.
  transitioned Hd Hp Hs Hau. cbn in Hn.
  repeat match goal with
  | H : String.eqb _ _ = true |- _ => apply String.eqb_eq in H
  | H : bool_decide _ = true |- _ => apply bool_decide_eq_true in H
  end.
  match type of Hs with _ = <[_ := ?r]> _ => eapply (t_supersede _ _ _ _ _ r) end; cbn; rewrite ?Hv; try done.
  - by eapply require_state_Ok.
  - by rewrite <- Hv.
Qed.

(** ** The service's history

    One request runs on the current store; its authorization was granted on some
    store, this one or an earlier one. The cohort services write decisions,
    audit events and receipts, and replace drafts, inside one transaction; the
    evaluation service appends audit events. *)
Context `{ModelDump CreateDraftCommand} `{ModelDump TransitionCommand} `{ModelDump ReviewCommand}
  `{ModelDump ApproveCommand} `{ModelDump PublishCommand} `{ModelDump SupersedeCommand}
  `{ModelDump IssueOperationalContextReceiptCommand}.

Inductive CohortAction :=
  | ActEnsureBaseline (d : DraftRecord)
  | ActPutDecision (r : CohortDecisionRecord)
  | ActAppendAudit (e : PendingAuditEvent)
  | ActReplaceDraft (actor : Actor) (draft_id : string) (command : ReplaceDraftCommand) (occurred_at : Z)
      (decision_id : string) (final_clock : Z)
  | ActPutDecisionReceipt (r : CohortDecisionReceipt).

Definition cohort_action (a : CohortAction) : txM unit :=
  match a with
  | ActEnsureBaseline d => _ ← require_selector_baseline d; mret tt
  | ActPutDecision r => _ ← liftR (construct_decision_record r); put_cohort_decision r
  | ActAppendAudit e => _ ← append_audit e; mret tt
  | ActReplaceDraft actor draft_id command occurred_at decision_id final_clock =>
      _ ← replace_draft_in_transaction actor draft_id command (Some occurred_at) (Some decision_id) final_clock final_clock;
      mret tt
  | ActPutDecisionReceipt r => put_cohort_decision_receipt r
  end.

Fixpoint cohort_actions (l : list CohortAction) : txM unit :=
  match l with
  | [] => mret tt
  | a :: l => _ ← cohort_action a; cohort_actions l
  end.

Inductive step (store store' : ContextStore) : Prop :=
  | step_call actor key call clock earlier :
      fst (guard_call actor call earlier) = Ok tt ->
      snd (apply_call publisher actor key call clock store) = store' -> step store store'
  | step_cohort actions : snd (transaction (cohort_actions actions) store) = store' -> step store store'.

(** The stores a service can reach from an empty one. *)
Definition reachable (store : ContextStore) : Prop := rtc step new_store store.
End refinement.
