(* ===== verification/Invariants.v ===== *)
(** * Invariants: what holds in every reachable store

    Published versions carry a human review and a human approval of exactly the
    published digest, and each workload's published versions form one linear
    lineage. Both are proved over the abstract transitions of Governance.v. *)
From S2P Require Import Prelude Text Sha256 Time Json Authorization.
From S2P Require Export Governance.
Local Open Scope Z_scope.

Section invariants.
Context `{PyText} `{Rfc8785} `{PydanticJson} `{ResponseCodec} `{!ManifestContract} `{!AuthorizationPort}
  `{ModelDump ManifestSelector} `{ModelDump CohortDecisionApplyBinding} `{ModelDump ReplaceDraftCommand}.
Context (publisher : Actor).
Implicit Types (s : StoreData) (d : DraftRecord) (p : PublishedManifest).

(** ** Approval *)

(** A draft's decisions were made by humans. *)
Record human_governed d : Prop := {
  hg_revision : 1 <= dr_revision d;
  hg_reviews : forall r, r ∈ dr_review_decisions d -> ac_kind (rd_reviewed_by r) = ActorHuman;
  hg_approval : forall a, dr_approval d = Some a -> ac_kind (ad_approved_by a) = ActorHuman;
}.

(** The source draft of a published version, as it stays after publication. *)
Record published_source d p : Prop := {
  ps_state : dr_state d = StatePublished \/ dr_state d = StateSuperseded;
  ps_manifest : dr_manifest d = pm_manifest p;
  ps_manifest_id : dr_manifest_id d = pm_manifest_id p;
  ps_digest : dr_manifest_digest d = pm_manifest_digest p;
  ps_previous : dr_previous_version d = pm_previous_version p;
  ps_revision : pm_source_draft_revision p <= dr_revision d;
  ps_review : exists r, r ∈ dr_review_decisions d /\ rd_decision r = ReviewApproved /\
    ac_kind (rd_reviewed_by r) = ActorHuman /\ rd_manifest_digest r = pm_manifest_digest p /\
    rd_reviewed_revision r = pm_source_draft_revision p - 2;
}.

Record governed_publication s p : Prop := {
  gp_source : exists d, sd_drafts s !! pm_source_draft_id p = Some d /\ published_source d p;
  gp_digest : digest_ok (pm_manifest p) (pm_manifest_digest p);
  gp_version : pm_manifest_version p = wm_manifest_version (pm_manifest p);
  gp_approver : ac_kind (ad_approved_by (pm_approval p)) = ActorHuman;
  gp_approved : ad_approved_revision (pm_approval p) = pm_source_draft_revision p - 1;
  gp_approved_digest : ad_manifest_digest (pm_approval p) = pm_manifest_digest p;
  gp_authorizer : ac_kind (pm_publication_authorized_by p) = ActorHuman;
  gp_publisher : pm_published_by p = publisher;
}.

Definition approval_invariant s : Prop :=
  well_keyed s /\
  (forall id d, sd_drafts s !! id = Some d -> human_governed d) /\
  (forall m v p, sd_published s !! (m, v) = Some p -> governed_publication s p).

(** ** Lineage *)

(** A lineage, newest version first: each version's predecessor is the next one. *)
Fixpoint linear (l : list PublishedManifest) : Prop :=
  match l with
  | [] => True
  | p :: l =>
      match l with
      | [] => pm_previous_version p = None
      | q :: _ => pm_previous_version p = Some (pm_manifest_version q) /\
                  version_lt (pm_manifest_version q) (pm_manifest_version p) = true
      end /\ linear l
  end.

Definition unsuperseded s p : Prop := sd_supersessions s !! (pm_manifest_id p, pm_manifest_version p) = None.

(** Every version but the newest is superseded by its successor. *)
Fixpoint settled s (l : list PublishedManifest) : Prop :=
  match l with
  | [] => True
  | q :: l =>
      match l with
      | [] => True
      | r :: _ => exists relation,
          sd_supersessions s !! (pm_manifest_id r, pm_manifest_version r) = Some relation /\
          su_replacement_version relation = pm_manifest_version q
      end /\ settled s l
  end.

(** The newest version is active; its predecessor is active too until it is superseded. *)
Definition supersession_state s (l : list PublishedManifest) : Prop :=
  match l with
  | [] => True
  | p :: l' => unsuperseded s p /\
      (settled s l \/ exists q l'', l' = q :: l'' /\ unsuperseded s q /\ settled s l')
  end.

Definition lineage_of s (m : string) (l : list PublishedManifest) : Prop :=
  linear l /\ (forall p, p ∈ l <-> exists v, sd_published s !! (m, v) = Some p) /\ supersession_state s l.

Definition lineage_invariant s : Prop :=
  well_keyed s /\
  (forall m v r, sd_supersessions s !! (m, v) = Some r -> is_Some (sd_published s !! (m, v))) /\
  (forall m, exists l, lineage_of s m l).

(** ** Keys *)
Lemma transition_keyed s s' : well_keyed s -> transition publisher s s' -> well_keyed s'.
Proof.
  intros (Kd & Kp & Ks) Ht.
  assert (Kins : forall k d, dr_draft_id d = k -> forall id d', <[k := d]> (sd_drafts s) !! id = Some d' -> dr_draft_id d' = id).
  { intros k d Hk id d' Hl. rewrite lookup_insert in Hl. case_decide; [congruence|by apply Kd]. }
  destruct Ht as [E1 E2 E3|d ? ? ? ? ? ? ? ? ? E1 E2 E3|d d' id Hl He E1 E2 E3|d p id now Hl Hp E1 E2 E3|
    p q r d ? ? ? ? ? ? ? ? E1 E2 E3]; unfold well_keyed; rewrite ?E1, ?E2, ?E3.
  - done.
  - split_and!; [|done|done]. by apply Kins.
  - split_and!; [|done|done]. apply Kins. destruct He; try done. apply reviewed_draft_id.
  - split_and!; [by apply Kins| |done]. intros m v p' Hp'. rewrite lookup_insert in Hp'.
    case_decide as E; [injection E as <- <-; injection Hp' as <-; done|by apply Kp].
  - split_and!; [by apply Kins|done|]. intros m v r' Hr'. rewrite lookup_insert in Hr'.
    case_decide as E; [injection E as <- <-; injection Hr' as <-; done|by apply Ks].
Qed.

(** ** Approval is preserved *)
Lemma edge_human s d d' : human_governed d -> edge publisher s d d' -> human_governed d'.
Proof.
  intros [Hr Hv Ha] He. destruct He as [| | |actor now reason decision d ? ? ? Hby|]; try (split; cbn; [lia|done|done]).
  - unfold reviewed_draft. split; cbn.
    + destruct (rd_decision decision); cbn; lia.
    + intros r. destruct (rd_decision decision); cbn; rewrite elem_of_app, list_elem_of_singleton;
        (intros [?| ->]; [by apply Hv|by rewrite Hby]).
    + destruct (rd_decision decision); cbn; [done|by intros ?].
  - split; cbn; [lia|done|]. intros a E. injection E as <-. congruence.
Qed.

Lemma edge_unpublished s d d' :
  edge publisher s d d' -> dr_state d <> StateApproved /\ dr_state d <> StatePublished /\ dr_state d <> StateSuperseded.
Proof. by destruct 1 as [? ? ? ? ? ? E|? ? ? ? ? E|? ? ? ? ? ? ? E|? ? ? ? ? E|? ? ? ? ? ? ? E]; rewrite E. Qed.

Lemma approval_authorizes_spec d a approval_id :
  approval_authorizes d a approval_id = true ->
  ad_approved_revision a = dr_revision d /\ ad_manifest_digest a = dr_manifest_digest d /\
  exists r, r ∈ dr_review_decisions d /\ rd_decision r = ReviewApproved /\
    rd_reviewed_revision r = ad_approved_revision a - 1 /\ rd_manifest_digest r = ad_manifest_digest a.
Proof.
  unfold approval_authorizes. destruct (review_of_approval d a) as [r|] eqn:Hr; [|by rewrite andb_false_r].
  apply find_some in Hr as [Hin _]. rewrite !andb_true_iff, bool_decide_eq_true, !Z.eqb_eq, !String.eqb_eq.
  intros ((((_ & Hrev) & _) & Hdig) & (Hdec & Hrr) & Hrd). split_and!; [done|done|].
  exists r. by rewrite list_elem_of_In.
Qed.

Lemma publish_governed s s' d p now :
  human_governed d -> publishes publisher s d p ->
  sd_drafts s' !! dr_draft_id d =
    Some (touched (pm_publication_authorized_by p) now (pm_reason p) (set_state StatePublished d)) ->
  governed_publication s' p.
Proof.
  intros [_ Hrev Happ] Hp Hl. destruct (pub_authorizes _ _ _ _ Hp) as [approval_id Hauth].
  apply approval_authorizes_spec in Hauth as (Hr & Hdig & r & Hin & Hdec & Hrr & Hrd).
  destruct (pub_candidate _ _ _ _ Hp) as (c & sub & _ & _ & _ & Hok).
  pose proof (pub_digest _ _ _ _ Hp) as Ed. pose proof (pub_manifest _ _ _ _ Hp) as Em.
  pose proof (pub_revision _ _ _ _ Hp) as Er.
  split.
  - eexists. rewrite (pub_source _ _ _ _ Hp). split; [exact Hl|]. split; cbn.
    + by left.
    + done.
    + by rewrite (pub_id _ _ _ _ Hp).
    + done.
    + by rewrite (pub_previous _ _ _ _ Hp).
    + lia.
    + exists r. split_and!; [done|done|by apply Hrev|congruence|lia].
  - by rewrite Em, Ed.
  - by rewrite (pub_version _ _ _ _ Hp), Em.
  - apply Happ, (pub_approval _ _ _ _ Hp).
  - lia.
  - congruence.
  - exact (pub_human _ _ _ _ Hp).
  - exact (pub_by _ _ _ _ Hp).
Qed.

(** A published version's source draft is only ever superseded. *)
Lemma source_kept s s' p d :
  well_keyed s -> transition publisher s s' -> sd_drafts s !! pm_source_draft_id p = Some d -> published_source d p ->
  exists d', sd_drafts s' !! pm_source_draft_id p = Some d' /\ published_source d' p.
Proof.
  intros (Kd & _) Ht Hd Hsrc.
  assert (Hother : forall d0 d', (forall id, sd_drafts s !! id = Some d0 -> dr_state d0 <> StatePublished /\ dr_state d0 <> StateSuperseded) ->
    sd_drafts s !! dr_draft_id d0 = Some d0 \/ sd_drafts s !! dr_draft_id d0 = None ->
    sd_drafts s' = <[dr_draft_id d0 := d']> (sd_drafts s) ->
    exists d', sd_drafts s' !! pm_source_draft_id p = Some d' /\ published_source d' p).
  { intros d0 d' Hst Hk E. rewrite E, lookup_insert. case_decide as Ek; [|eauto].
    rewrite <- Ek in Hd. destruct Hk as [Hk|Hk]; [|congruence]. assert (d0 = d) as -> by congruence.
    destruct (Hst _ Hk). by destruct (ps_state _ _ Hsrc). }
  destruct Ht as [E1|d0 Hn ? ? ? ? ? ? ? ? E1|d0 d' id Hl He E1|d0 p' id now Hl Hp E1|
    p' q r d0 ? ? ? ? ? Hl Hst ? E1].
  - rewrite E1. eauto.
  - eapply Hother; [|by right|exact E1]. intros id Hid. pose proof (Kd _ _ Hid). congruence.
  - eapply Hother; [|left|exact E1]; [by apply edge_unpublished in He as (_ & ? & ?)|by rewrite (Kd _ _ Hl)].
  - eapply Hother; [|left|exact E1]; [by rewrite (pub_state _ _ _ _ Hp)|by rewrite (Kd _ _ Hl)].
  - rewrite E1, lookup_insert. case_decide as Ek; [|eauto]. eexists. split; [reflexivity|].
    rewrite (Kd _ _ Hl) in Ek. rewrite <- Ek, Hl in Hd. injection Hd as ->.
    destruct Hsrc. split; cbn; try done; [by right|lia].
Qed.

Lemma approval_preserved s s' : approval_invariant s -> transition publisher s s' -> approval_invariant s'.
Proof.
  intros (Hk & Hh & Hg) Ht. split_and!; [by eapply transition_keyed| |].
  - intros id d' Hd'. destruct Ht as [E1|d0 ? ? Hr ? ? Hnil Hno ? ? E1|d0 d1 id0 Hl He E1|d0 p' id0 now Hl Hp E1|
      p' q r d0 ? ? ? ? ? Hl Hst ? E1]; rewrite E1 in Hd'; [by eapply Hh|..];
      rewrite lookup_insert in Hd'; case_decide; try (by eapply Hh); injection Hd' as <-.
    + split; [lia|rewrite Hnil; by intros ? ?%elem_of_nil|by rewrite Hno].
    + eapply edge_human; [by eapply Hh|done].
    + destruct (Hh _ _ Hl). by split; cbn; [lia|..].
    + destruct (Hh _ _ Hl). by split; cbn; [lia|..].
  - intros m v p Hp.
    assert (Hkeep : governed_publication s p -> governed_publication s' p).
    { intros [(d & Hd & Hs) ? ? ? ? ? ? ?]. split; try done. by eapply source_kept. }
    destruct Ht as [E1 E2|? ? ? ? ? ? ? ? ? ? ? E2|? ? ? ? ? ? E2|d0 p' id0 now Hl Hpub E1 E2|? ? ? ? ? ? ? ? ? ? ? ? ? E2];
      rewrite E2 in Hp; try (by eapply Hkeep, Hg).
    rewrite lookup_insert in Hp. case_decide; [|by eapply Hkeep, Hg]. injection Hp as <-.
    eapply publish_governed; [by eapply Hh|done|]. by rewrite E1, lookup_insert, decide_True.
Qed.

(** ** Lineage is preserved *)
Lemma version_lt_trans a b c : version_lt a b = true -> version_lt b c = true -> version_lt a c = true.
Proof.
  unfold version_lt. destruct (version_key a) as [[a1 a2] a3], (version_key b) as [[b1 b2] b3],
    (version_key c) as [[c1 c2] c3]. unfold key_lt.
  repeat rewrite ?orb_true_iff, ?andb_true_iff, ?Z.ltb_lt, ?Z.eqb_eq. lia.
Qed.

Lemma version_lt_irrefl a : version_lt a a = false.
Proof.
  unfold version_lt. destruct (version_key a) as [[a1 a2] a3]. unfold key_lt. by rewrite !Z.ltb_irrefl, !andb_false_r.
Qed.

Lemma linear_below p l q : linear (p :: l) -> q ∈ l -> version_lt (pm_manifest_version q) (pm_manifest_version p) = true.
Proof.
  revert p. induction l as [|r l IH]; intros p Hl; [by intros ?%elem_of_nil|].
  destruct Hl as [[_ Hlt] Hl]. intros [->|Hq]%elem_of_cons; [done|]. eapply version_lt_trans; [by apply IH|done].
Qed.

Lemma linear_previous l r v :
  linear l -> r ∈ l -> pm_previous_version r = Some v ->
  exists l1 q l2, l = l1 ++ r :: q :: l2 /\ pm_manifest_version q = v.
Proof.
  induction l as [|p l IH]; [by intros _ ?%elem_of_nil|]. intros [Hp Hl] [->|Hr]%elem_of_cons Hv.
  - destruct l as [|q l]; [congruence|]. exists [], q, l. destruct Hp. split; [done|congruence].
  - destruct (IH Hl Hr Hv) as (l1 & q & l2 & -> & Hq). by exists (p :: l1), q, l2.
Qed.

Lemma settled_tail s p l q : settled s (p :: l) -> q ∈ l -> ~ unsuperseded s q.
Proof.
  revert p. induction l as [|r l IH]; intros p Hl; [by intros ?%elem_of_nil|].
  destruct Hl as [(relation & Hr & _) Hl]. intros [->|Hq]%elem_of_cons; [|by eapply IH].
  unfold unsuperseded. by rewrite Hr.
Qed.

Lemma settled_mono s s' l : sd_supersessions s ⊆ sd_supersessions s' -> settled s l -> settled s' l.
Proof.
  intros Hs. induction l as [|p l IH]; [done|]. intros [Hp Hl]. split; [|by apply IH].
  destruct l as [|q l]; [done|]. destruct Hp as (relation & Hr & Hv). exists relation. split; [|done].
  by eapply lookup_weaken.
Qed.

Lemma supersession_state_ext s s' l :
  (forall q, q ∈ l -> unsuperseded s q -> unsuperseded s' q) -> (forall k, settled s k -> settled s' k) ->
  supersession_state s l -> supersession_state s' l.
Proof.
  intros Hu Hs. destruct l as [|p l]; [done|]. intros [Hp Hl]. split; [apply Hu; [left|done]|].
  destruct Hl as [Hl|(q & l' & -> & Hq & Hl)]; [auto|]. right. exists q, l'.
  split_and!; [done|apply Hu; [right; left|done]|auto].
Qed.

Lemma elem_of_published_list s m p :
  well_keyed s -> p ∈ published_list (Some m) s <-> exists v, sd_published s !! (m, v) = Some p.
Proof.
  intros (_ & Kp & _). unfold published_list. rewrite elem_of_sort_by, elem_of_select, String.eqb_eq, list_elem_of_fmap.
  split.
  - intros [([[m' v'] p'] & -> & Hp%elem_of_map_to_list) Hm]. cbn in *. destruct (Kp _ _ _ Hp). exists v'. congruence.
  - intros [v Hp]. split; [|by apply (Kp _ _ _ Hp)]. exists ((m, v), p). split; [done|by apply elem_of_map_to_list].
Qed.

Lemma elem_of_active s m p :
  well_keyed s -> p ∈ active_versions m s <-> (exists v, sd_published s !! (m, v) = Some p) /\ unsuperseded s p.
Proof.
  intros Hk. unfold active_versions. rewrite elem_of_select, elem_of_published_list, bool_decide_eq_true by done.
  unfold unsuperseded. destruct Hk as (_ & Kp & _).
  split; (intros [[v Hv] Hu]; destruct (Kp _ _ _ Hv) as [Hm _]; split; [by exists v|]); congruence.
Qed.

(** What the active version check says about a lineage. *)
Lemma lineage_allows_settled s m l new_version previous :
  well_keyed s -> lineage_of s m l -> lineage_allows s m new_version previous ->
  match l with
  | [] => previous = None
  | p :: _ => previous = Some (pm_manifest_version p) /\ version_lt (pm_manifest_version p) new_version = true /\
              unsuperseded s p /\ settled s l
  end.
Proof.
  intros Hk (Hl & Hin & Hss) Ha. unfold lineage_allows in Ha.
  assert (Hact : forall p, p ∈ l -> unsuperseded s p -> p ∈ active_versions m s).
  { intros p Hp Hu. apply elem_of_active; [done|]. split; [by apply Hin|done]. }
  destruct l as [|p l].
  - destruct (active_versions m s) as [|c active] eqn:Ec; [done|]. exfalso.
    assert (Hc : c ∈ active_versions m s) by (rewrite Ec; left).
    apply elem_of_active in Hc as [Hc _]; [|done]. by apply Hin, elem_of_nil in Hc.
  - destruct Hss as [Hu Hss]. pose proof (Hact p ltac:(left) Hu) as Hp.
    destruct (active_versions m s) as [|c [|? ?]]; [by apply elem_of_nil in Hp| |done].
    apply list_elem_of_singleton in Hp as <-. destruct Ha as [-> Hlt]. split_and!; [done|done|done|].
    destruct Hss as [Hss|(q & l'' & -> & Hq & _)]; [done|]. exfalso.
    pose proof (Hact q ltac:(right; left) Hq) as Hq'. apply list_elem_of_singleton in Hq' as <-.
    destruct Hl as [[_ Hlt'] _]. by rewrite version_lt_irrefl in Hlt'.
Qed.

Lemma lineage_publish s s' d p m l :
  lineage_invariant s -> publishes publisher s d p -> lineage_of s m l ->
  sd_published s' = <[(pm_manifest_id p, pm_manifest_version p) := p]> (sd_published s) ->
  sd_supersessions s' = sd_supersessions s -> exists l', lineage_of s' m l'.
Proof.
  intros (Hk & Hsup & _) Hp Hlin E2 E3.
  assert (Hset : forall k, settled s k -> settled s' k) by (intros k; apply settled_mono; by rewrite E3).
  assert (Huns : forall q, unsuperseded s q -> unsuperseded s' q) by (intros q; unfold unsuperseded; by rewrite E3).
  destruct (decide (pm_manifest_id p = m)) as [Em|Em].
  - exists (p :: l). pose proof (pub_lineage _ _ _ _ Hp) as Ha. rewrite <- (pub_id _ _ _ _ Hp), Em in Ha.
    pose proof (lineage_allows_settled _ _ _ _ _ Hk Hlin Ha) as Hset'. destruct Hlin as (Hl & Hin & Hss).
    pose proof (pub_new _ _ _ _ Hp) as Hnew. rewrite <- (pub_id _ _ _ _ Hp), <- (pub_version _ _ _ _ Hp), Em in Hnew.
    assert (Hup : unsuperseded s' p).
    { apply Huns. unfold unsuperseded. rewrite Em. apply eq_None_not_Some. intros [r Hr].
      destruct (Hsup _ _ _ Hr). congruence. }
    split_and!.
    + split; [|done]. rewrite (pub_previous _ _ _ _ Hp), (pub_version _ _ _ _ Hp).
      destruct l as [|q l]; [done|]. by destruct Hset' as (? & ? & _).
    + intros q. rewrite E2, elem_of_cons. rewrite Hin. split.
      * intros [->|[v Hv]]; [exists (pm_manifest_version p); by rewrite Em, lookup_insert, decide_True|].
        exists v. rewrite lookup_insert_ne; [done|]. intros E. rewrite Em in E. injection E as E. congruence.
      * intros [v Hv]. rewrite lookup_insert in Hv. case_decide; [left; congruence|right; eauto].
    + split; [done|]. destruct l as [|q l]; [left; by split|]. right. exists q, l.
      destruct Hset' as (_ & _ & Hq & Hsq). auto.
  - exists l. destruct Hlin as (Hl & Hin & Hss). split_and!; [done| |].
    + intros q. rewrite Hin, E2. split; intros [v Hv]; exists v; (rewrite lookup_insert_ne in *; [done|congruence]).
    + eapply supersession_state_ext; [intros r _; apply Huns|exact Hset|exact Hss].
Qed.

(** The superseded version is the predecessor of the newest one. *)
Lemma lineage_replacement s m l p r :
  lineage_of s m l -> p ∈ l -> r ∈ l -> unsuperseded s p ->
  (forall q, q ∈ l -> pm_manifest_version q = pm_manifest_version p -> q = p) ->
  pm_previous_version r = Some (pm_manifest_version p) -> exists l2, l = r :: p :: l2.
Proof.
  intros (Hl & _ & Hss) Hp Hr Hu Hkey Hprev.
  destruct (linear_previous l r _ Hl Hr Hprev) as (l1 & q & l2 & El & Hq).
  assert (q = p) as ->. { apply Hkey; [|done]. rewrite El. set_solver. }
  destruct l1 as [|h l1]; [by exists l2|]. exfalso.
  assert (Htail : forall h l', settled s (h :: l') -> p ∉ l') by (intros h' l' Hs Hin; by eapply settled_tail).
  subst l. destruct Hss as [_ [Hs|(q & l'' & El & Hq' & Hs)]].
  - apply (Htail _ _ Hs). set_solver.
  - destruct l1 as [|h' l1]; apply (Htail _ _ Hs); set_solver.
Qed.

Lemma lineage_supersede s s' p r relation m l :
  lineage_invariant s -> lineage_of s m l ->
  sd_published s !! (su_manifest_id relation, su_superseded_version relation) = Some p ->
  sd_published s !! (su_manifest_id relation, su_replacement_version relation) = Some r ->
  pm_previous_version r = Some (su_superseded_version relation) ->
  sd_supersessions s !! (su_manifest_id relation, su_superseded_version relation) = None ->
  sd_published s' = sd_published s ->
  sd_supersessions s' = <[(su_manifest_id relation, su_superseded_version relation) := relation]> (sd_supersessions s) ->
  lineage_of s' m l.
Proof.
  intros ((_ & Kp & _) & _ & _) Hlin Hp Hr Hprev Hnone E2 E3.
  destruct (Kp _ _ _ Hp) as [Hpm Hpv]. destruct (Kp _ _ _ Hr) as [Hrm Hrv].
  assert (Hsub : sd_supersessions s ⊆ sd_supersessions s') by (rewrite E3; by apply insert_subseteq).
  pose proof Hlin as (Hl & Hin & Hss). split_and!; [done|by rewrite E2|].
  destruct (decide (su_manifest_id relation = m)) as [Em|Em].
  - assert (Hpl : p ∈ l) by (apply Hin; rewrite <- Em; eauto).
    assert (Hrl : r ∈ l) by (apply Hin; rewrite <- Em; eauto).
    assert (Hkey : forall q, q ∈ l -> pm_manifest_version q = pm_manifest_version p -> q = p).
    { intros q [v Hq]%Hin Hv. destruct (Kp _ _ _ Hq) as [_ Hqv]. rewrite Hv, Hpv in Hqv. subst v.
      rewrite <- Em in Hq. congruence. }
    destruct (lineage_replacement s m l p r Hlin Hpl Hrl) as [l2 ->]; [|exact Hkey|congruence|].
    { unfold unsuperseded. by rewrite Hpm, Hpv. }
    destruct Hss as [Hru Hss]. split.
    + unfold unsuperseded in *. rewrite E3, lookup_insert_ne; [done|]. intros E.
      destruct Hl as [[_ Hlt] _]. injection E as _ E. rewrite Hpv, E, version_lt_irrefl in Hlt. done.
    + left. split.
      * exists relation. rewrite Hpm, Hpv, E3, lookup_insert, decide_True by done. done.
      * eapply settled_mono; [exact Hsub|]. destruct Hss as [Hs|Hs]; [exact (proj2 Hs)|].
        destruct Hs as (q & k & Heq & _ & Hs). exact Hs.
  - eapply supersession_state_ext; [| |exact Hss]; [|intros k; by apply settled_mono].
    intros q [v Hq]%Hin. destruct (Kp _ _ _ Hq). unfold unsuperseded. rewrite E3, lookup_insert_ne; [done|congruence].
Qed.

Lemma lineage_of_ext s s' m l :
  sd_published s' = sd_published s -> sd_supersessions s' = sd_supersessions s -> lineage_of s m l -> lineage_of s' m l.
Proof.
  intros E2 E3 (Hl & Hin & Hss). split_and!; [done|by rewrite E2|]. eapply supersession_state_ext; [| |exact Hss].
  - intros q _. unfold unsuperseded. by rewrite E3.
  - intros k. apply settled_mono. by rewrite E3.
Qed.

Lemma lineage_preserved s s' : lineage_invariant s -> transition publisher s s' -> lineage_invariant s'.
Proof.
  intros Hinv Ht. pose proof Hinv as (Hk & Hsup & Hlin). split; [by eapply transition_keyed|].
  destruct Ht as [? E2 E3|? ? ? ? ? ? ? ? ? ? ? E2 E3|? ? ? ? ? ? E2 E3|d p id now Hl Hp ? E2 E3|
    p r relation d Hp Hr Hprev ? Hn ? ? ? ? E2 E3].
  1-3: split; [by rewrite E2, E3|]; intros m; destruct (Hlin m) as [l Hm]; exists l; by eapply lineage_of_ext.
  - split.
    + intros m v r. rewrite E2, E3. intros [q Hq]%Hsup. destruct (decide ((pm_manifest_id p, pm_manifest_version p) = (m, v))) as [<-|].
      * rewrite lookup_insert, decide_True by done. eauto.
      * rewrite lookup_insert_ne by done. eauto.
    + intros m. destruct (Hlin m) as [l Hm]. by eapply lineage_publish.
  - split.
    + intros m v r'. rewrite E2, E3, lookup_insert. case_decide as E; [|apply Hsup]. injection E as <- <-. eauto.
    + intros m. destruct (Hlin m) as [l Hm]. exists l. by eapply lineage_supersede.
Qed.

Lemma lineage_empty : lineage_invariant empty_data.
Proof.
  split_and!; try done. intros m. exists []. split_and!; [done| |done]. intros p. rewrite elem_of_nil. split; [done|].
  by intros [v ?].
Qed.

Lemma approval_empty : approval_invariant empty_data.
Proof. split_and!; try done; split_and!; done. Qed.
End invariants.
