(* ===== verification/LifecycleProps.v ===== *)
(** * LifecycleProps: the service's guarantees

    The refinement of Governance.v lifted to whole requests, the invariants of
    Invariants.v in every reachable store, and what requests never undo:
    published versions, supersessions, receipts and the audit history.

    Then what one publication requires of the store, and the drafts whose
    identifiers are too long to be reviewed. *)
From stdpp Require Import pretty.
From S2P Require Import Prelude Text Sha256 Time Json Authorization.
From S2P Require Export Invariants.
Local Open Scope Z_scope.

Section transactions.
Context `{ResponseCodec}.

(** The store after a transaction holds its working copy, or is untouched. *)
Lemma transaction_spec {A} (body : txM A) store :
  transaction body store =
    match body (enter store) with
    | Ok (a, tx) => (Ok a, if tx_dirty tx then {| cs_data := tx_data tx; cs_generation := cs_generation store + 1 |} else store)
    | Raise e => (Raise e, store)
    end.
Proof.
  unfold transaction, commit. destruct (body (enter store)) as [[a tx]|e]; [|done].
  rewrite Z.eqb_refl. cbn. by destruct (tx_dirty tx).
Qed.

Lemma transaction_data {A} (body : txM A) store :
  cs_data (snd (transaction body store)) = cs_data store \/
  exists a tx, body (enter store) = Ok (a, tx) /\ fst (transaction body store) = Ok a /\
    cs_data (snd (transaction body store)) = tx_data tx.
Proof.
  rewrite transaction_spec. destruct (body (enter store)) as [[a tx]|e] eqn:E; [|by left].
  destruct (tx_dirty tx); [right; eauto|by left].
Qed.

(** Nothing is installed after a read-only body. *)
Lemma read_only_transaction {A} (body : txM A) store : read_only body -> snd (transaction body store) = store.
Proof.
  intros Hb. rewrite transaction_spec. destruct (body (enter store)) as [[a tx]|e] eqn:E; [|done].
  by rewrite <- (Hb _ _ _ E).
Qed.
End transactions.

Section service.
Context `{PyText} `{Rfc8785} `{PydanticJson} `{ResponseCodec} `{!ManifestContract} `{!AuthorizationPort}
  `{ModelDump ManifestSelector} `{ModelDump CohortDecisionApplyBinding}
  `{ModelDump CreateDraftCommand} `{ModelDump ReplaceDraftCommand} `{ModelDump TransitionCommand}
  `{ModelDump ReviewCommand} `{ModelDump ApproveCommand} `{ModelDump PublishCommand} `{ModelDump SupersedeCommand}
  `{ModelDump IssueOperationalContextReceiptCommand}.
Context (publisher : Actor).

(** ** Requests refine transitions *)
Lemma transition_ext s s1 s2 :
  transition publisher s s1 -> sd_drafts s2 = sd_drafts s1 -> sd_published s2 = sd_published s1 ->
  sd_supersessions s2 = sd_supersessions s1 -> sd_audit s2 = sd_audit s1 -> transition publisher s s2.
Proof.
  intros Ht E1 E2 E3 E4. destruct Ht; unfold audited in *; rewrite <- ?E1, <- ?E2, <- ?E3, <- ?E4 in *;
    [by eapply t_idle|by eapply t_create|by eapply t_edge|by eapply t_publish|by eapply t_supersede].
Qed.

Lemma call_body_refines actor call clock r tx tx' :
  well_keyed (tx_data tx) -> (forall m v c, call = CallSupersede m v c -> ac_kind actor = ActorHuman) ->
  call_body publisher actor call clock tx = Ok (r, tx') -> transition publisher (tx_data tx) (tx_data tx').
Proof.
  intros Hk Hh. destruct call; cbn [call_body]; intros Hb; inv_tx.
  - by eapply create_body_refines.
  - by eapply replace_body_refines.
  - by eapply validate_body_refines.
  - by eapply issue_body_refines.
  - by eapply submit_body_refines.
  - by eapply review_body_refines.
  - by eapply approve_body_refines.
  - by eapply publish_body_refines.
  - eapply supersede_body_refines; eauto.
Qed.

Lemma mutate_body_refines actor key operation target digest response mutation a tx tx' :
  (forall r tx1, mutation tx = Ok (r, tx1) -> transition publisher (tx_data tx) (tx_data tx1)) ->
  mutate_body actor key operation target digest response mutation tx = Ok (a, tx') ->
  transition publisher (tx_data tx) (tx_data tx').
Proof.
  intros Hm. unfold mutate_body. intros Hb. inv_tx. destruct (sd_receipts _ !! _); inv_tx; [by apply t_idle|].
  match goal with Hp : put_receipt _ _ = _ |- _ => apply put_receipt_Ok in Hp as [_ ->] end.
  eapply transition_ext; [by eapply Hm|done..].
Qed.

Lemma supersede_authorized actor call earlier m v c :
  fst (guard_call actor call earlier) = Ok tt -> call = CallSupersede m v c -> ac_kind actor = ActorHuman.
Proof. intros Hg ->. cbn in Hg. eapply require_human_only; [exact Hg|vm_compute; set_solver]. Qed.

Lemma apply_call_transition actor key call clock earlier store :
  well_keyed (cs_data store) -> fst (guard_call actor call earlier) = Ok tt ->
  transition publisher (cs_data store) (cs_data (snd (apply_call publisher actor key call clock store))).
Proof.
  intros Hk Hg. unfold apply_call. destruct (call_target call) as [target|]; [|by apply t_idle].
  unfold mutate. destruct (mutation_request_digest _ _ _ _) as [digest|]; [|by apply t_idle].
  match goal with |- context [transaction ?b store] => destruct (transaction_data b store) as [->|(a & tx & Hb & _ & ->)] end;
    [by apply t_idle|].
  eapply (mutate_body_refines _ _ _ _ _ _ _ _ (enter store)); [|exact Hb].
  intros r tx1. apply call_body_refines; [exact Hk|]. intros m v c. by eapply supersede_authorized.
Qed.

(** C2: Refinement: every authorized request, whatever it does and whether it
    returns or raises, is one transition of the abstract governance relation on
    drafts, published versions, supersessions and audit history. *)
Theorem request_refines_transition actor key call clock earlier store :
  well_keyed (cs_data store) -> fst (guard_call actor call earlier) = Ok tt ->
  transition publisher (cs_data store) (cs_data (snd (apply_call publisher actor key call clock store))).
Proof. apply apply_call_transition. Qed.

Lemma cohort_action_refines action u tx tx' :
  cohort_action action tx = Ok (u, tx') -> transition publisher (tx_data tx) (tx_data tx').
Proof.
  destruct action; cbn [cohort_action]; intros Hb.
  - inv_tx. match goal with H : require_selector_baseline _ _ = _ |- _ => apply require_baseline_grow in H as (? & -> & _) end.
    by apply t_idle.
  - unfold put_cohort_decision, list_overlapping_cohort_decisions in Hb. inv_tx. by apply t_idle.
  - inv_tx. match goal with H : append_audit _ _ = _ |- _ => apply append_audit_Ok in H as (_ & _ & ->) end.
    apply t_idle; try done. by apply prefix_app_r.
  - inv_tx. by eapply replace_body_refines.
  - unfold put_cohort_decision_receipt, get_cohort_decision_receipt in Hb. inv_tx. by apply t_idle.
Qed.

(** An invariant of transitions that implies agreeing keys holds after any step. *)
Lemma cohort_actions_invariant (I : StoreData -> Prop) actions u tx tx' :
  (forall s s', I s -> transition publisher s s' -> I s') ->
  cohort_actions actions tx = Ok (u, tx') -> I (tx_data tx) -> I (tx_data tx').
Proof.
  intros HI. revert tx. induction actions as [|a actions IH]; intros tx; cbn [cohort_actions]; intros Hb Hi; inv_tx;
    [done|]. eapply IH; [done|]. eapply HI; [done|]. by eapply cohort_action_refines.
Qed.

Lemma step_invariant (I : StoreData -> Prop) store store' :
  (forall s, I s -> well_keyed s) -> (forall s s', I s -> transition publisher s s' -> I s') ->
  step publisher store store' -> I (cs_data store) -> I (cs_data store').
Proof.
  intros Hk HI [actor key call clock earlier Hg <-|actions <-] Hi.
  - eapply HI; [done|]. eapply apply_call_transition; eauto.
  - destruct (transaction_data (cohort_actions actions) store) as [->|(u & tx & Hb & _ & ->)]; [done|].
    by eapply (cohort_actions_invariant I actions u (enter store)).
Qed.

Lemma steps_invariant (I : StoreData -> Prop) store store' :
  (forall s, I s -> well_keyed s) -> (forall s s', I s -> transition publisher s s' -> I s') ->
  rtc (step publisher) store store' -> I (cs_data store) -> I (cs_data store').
Proof. intros Hk HI. induction 1 as [|x y z Hs _ IH]; [done|]. intros Hi. apply IH. by eapply step_invariant. Qed.

Lemma reachable_invariant (I : StoreData -> Prop) store :
  (forall s, I s -> well_keyed s) -> (forall s s', I s -> transition publisher s s' -> I s') -> I empty_data ->
  reachable publisher store -> I (cs_data store).
Proof.
  intros Hk HI He Hr. by eapply steps_invariant.
Qed.

(** C1: In every reachable store, a published version was reviewed and approved by
    humans, on its own digest, in the two revisions before publication; a human
    authorized its publication and the service performed it. *)
Theorem published_versions_governed store m v p :
  reachable publisher store -> sd_published (cs_data store) !! (m, v) = Some p ->
  governed_publication publisher (cs_data store) p.
Proof.
  intros Hr. apply (reachable_invariant (approval_invariant publisher)) in Hr as (_ & _ & Hg).
  - apply Hg.
  - by intros s (? & _).
  - apply approval_preserved.
  - apply approval_empty.
Qed.

(** C3: In every reachable store, the published versions of a workload form one
    linear lineage with increasing versions, of which at most the two newest are
    active and every older one is superseded by its successor. *)
Theorem published_lineage_linear store m :
  reachable publisher store -> exists l, lineage_of (cs_data store) m l.
Proof.
  intros Hr. apply (reachable_invariant lineage_invariant) in Hr as (_ & _ & Hl).
  - apply Hl.
  - by intros s (? & _).
  - apply lineage_preserved.
  - apply lineage_empty.
Qed.

(** ** Nothing recorded is rewritten *)
Lemma baseline_grows d : preserves tx_grows (require_selector_baseline d).
Proof. apply baselines_grow_grows, require_baseline_grow. Qed.
Lemma put_baseline_grows b : preserves tx_grows (put_draft_selector_baseline b).
Proof. apply baselines_grow_grows, put_baseline_grow. Qed.
Lemma lifecycle_grows d m g t : preserves tx_grows (validate_lifecycle_manifest d m g t).
Proof. apply baselines_grow_grows, lifecycle_manifest_grow. Qed.
Lemma require_draft_read_only id : read_only (require_draft id).
Proof. unfold read_only, require_draft. tx_frame. Qed.
Lemma require_published_read_only m v : read_only (require_published m v).
Proof. unfold read_only, require_published. tx_frame. Qed.

Hint Resolve baseline_grows put_baseline_grows lifecycle_grows : tx.
Hint Extern 2 (preserves tx_grows _) => apply read_only_grows;
  first [apply require_draft_read_only|apply require_published_read_only|apply ensure_lineage_read_only
        |apply check_rollback_read_only|apply selector_reference_read_only|apply new_baseline_read_only
        |apply draft_authority_read_only|apply lifecycle_authority_read_only|apply cohort_apply_read_only
        |apply operational_receipt_read_only] : tx.

Lemma store_transition_grows now actor action d d' reason v pa pt :
  preserves tx_grows (store_transition now actor action d d' reason v pa pt).
Proof. unfold store_transition. tx_frame. Qed.
Hint Resolve store_transition_grows : tx.

Lemma replace_grows actor id command t decision c1 c2 :
  preserves tx_grows (replace_draft_in_transaction actor id command t decision c1 c2).
Proof. unfold replace_draft_in_transaction. tx_frame. Qed.
Hint Resolve replace_grows : tx.

Lemma call_body_grows actor call clock : preserves tx_grows (call_body publisher actor call clock).
Proof.
  destruct call; cbn [call_body];
    unfold create_body, validate_body, issue_body, submit_body, review_body, approve_body, publish_body, supersede_body;
    tx_frame.
Qed.

Lemma cohort_actions_grows actions : preserves tx_grows (cohort_actions actions).
Proof.
  induction actions as [|a actions IH]; cbn [cohort_actions]; tx_frame.
  destruct a; cbn [cohort_action]; tx_frame.
Qed.

Lemma mutate_body_grows actor key operation target digest response mutation :
  preserves tx_grows mutation ->
  preserves tx_grows (mutate_body actor key operation target digest response mutation).
Proof. intros Hm. unfold mutate_body. tx_frame. Qed.

Lemma transaction_grows {A} (body : txM A) store :
  preserves tx_grows body -> grows (cs_data store) (cs_data (snd (transaction body store))).
Proof.
  intros Hb. destruct (transaction_data body store) as [->|(a & tx & E & _ & ->)]; [done|]. exact (Hb _ _ _ E).
Qed.

Lemma apply_call_grows actor key call clock store :
  grows (cs_data store) (cs_data (snd (apply_call publisher actor key call clock store))).
Proof.
  unfold apply_call. destruct (call_target call) as [target|]; [|done]. unfold mutate.
  destruct (mutation_request_digest _ _ _ _) as [digest|]; [|done].
  apply transaction_grows, mutate_body_grows, call_body_grows.
Qed.

Lemma steps_grow store store' :
  rtc (step publisher) store store' -> grows (cs_data store) (cs_data store').
Proof.
  induction 1 as [|x y z Hs _ IH]; [done|]. etrans; [|exact IH].
  destruct Hs as [actor key call clock earlier _ <-|actions <-]; [apply apply_call_grows|].
  apply transaction_grows, cohort_actions_grows.
Qed.

Lemma reachable_audit_verifies store :
  reachable publisher store -> verify_audit_chain (sd_audit (cs_data store)) = Ok tt.
Proof. intros Hr. by apply (gr_verifies _ _ (steps_grow _ _ Hr)). Qed.

(** C4: Published versions, supersessions, baselines, mutation and operational
    receipts and cohort decisions are never removed or rewritten by any later
    activity; the audit history is only extended, and stays valid. *)
Theorem history_is_append_only store store' :
  rtc (step publisher) store store' -> grows (cs_data store) (cs_data store').
Proof. apply steps_grow. Qed.

(** The audit history of a reachable store verifies. *)
Theorem audit_history_verifies store :
  reachable publisher store -> verify_audit_chain (sd_audit (cs_data store)) = Ok tt.
Proof. apply reachable_audit_verifies. Qed.

(** ** Idempotency *)
Section idempotency.
(** What pydantic promises of a model's JSON: parsing it back gives the model. *)
Hypothesis json_round_trip : forall r, model_validate_json (response_type r) (model_dump_json r) = Ok r.

Lemma call_body_response actor call clock r tx tx' :
  call_body publisher actor call clock tx = Ok (r, tx') -> response_type r = call_response call.
Proof. destruct call; cbn [call_body]; intros Hb; inv_tx; done. Qed.

Lemma apply_call_receipt actor key call clock store r store' :
  apply_call publisher actor key call clock store = (Ok r, store') ->
  exists target digest receipt, call_target call = Ok target /\
    mutation_request_digest actor (call_operation call) target call = Ok digest /\
    sd_receipts (cs_data store') !! (ac_actor_id actor, key) = Some receipt /\
    mr_operation receipt = call_operation call /\ mr_target receipt = target /\ mr_request_digest receipt = digest /\
    mr_response_type receipt = call_response call /\
    model_validate_json (call_response call) (mr_response_json receipt) = Ok r.
Proof.
  unfold apply_call. destruct (call_target call) as [target|] eqn:Et; [|done]. unfold mutate.
  destruct (mutation_request_digest _ _ _ _) as [digest|] eqn:Ed; [|done]. rewrite transaction_spec.
  destruct (mutate_body _ _ _ _ _ _ _ _) as [[r' tx]|] eqn:Hb; [|done]. intros E. injection E as -> <-.
  exists target, digest. unfold mutate_body in Hb. inv_tx. cbn [enter tx_data] in *.
  destruct (sd_receipts (cs_data store) !! _) as [receipt|] eqn:Hr; inv_tx.
  - exists receipt. repeat match goal with H : _ && _ = true |- _ => apply andb_true_iff in H as [? ?] end.
    repeat match goal with H : String.eqb _ _ = true |- _ => apply String.eqb_eq in H
                      | H : bool_decide _ = true |- _ => apply bool_decide_eq_true in H end. done.
  - match goal with H : put_receipt _ _ = _ |- _ => apply put_receipt_Ok in H as [_ ->] end. cbn [tx_dirty tx_data set_receipts sd_receipts cs_data mr_actor_id mr_idempotency_key].
    eexists. rewrite lookup_insert, decide_True by done. split_and!; try done. cbn [mr_response_json].
    match goal with Hb : call_body _ _ _ _ _ = _ |- _ => rewrite <- (call_body_response _ _ _ _ _ _ Hb) end.
    apply json_round_trip.
Qed.

(** C6: Retrying a completed request, at any later time and whatever happened in
    between, returns the recorded response and changes nothing. *)
Theorem retry_is_idempotent actor key call clock store r store1 store2 clock' :
  apply_call publisher actor key call clock store = (Ok r, store1) -> rtc (step publisher) store1 store2 ->
  apply_call publisher actor key call clock' store2 = (Ok r, store2).
Proof.
  intros Ha Hs. apply apply_call_receipt in Ha as (target & digest & receipt & Et & Ed & Hr & Eo & Em & Eq & Ep & Hv).
  pose proof (lookup_weaken _ _ _ _ Hr (gr_receipts _ _ (steps_grow _ _ Hs))) as Hr2.
  unfold apply_call. rewrite Et. unfold mutate. rewrite Ed, transaction_spec. unfold mutate_body.
  unfold mbind, txM_bind, get_receipt, reads at 1. cbn [enter tx_data]. rewrite Hr2. unfold check, liftR.
  rewrite Eo, Em, Eq, Ep, !String.eqb_refl, bool_decide_eq_true_2 by done. cbn. rewrite Hv. cbn. by destruct store2.
Qed.
End idempotency.

(** ** Failures *)
Lemma guard_call_store actor call store : snd (guard_call actor call store) = store.
Proof.
  assert (Ha : forall id p, snd (authorize_draft actor id p store) = store).
  { intros id p. apply read_only_transaction. unfold read_only. tx_frame. apply require_draft_read_only. }
  destruct call; cbn [guard_call]; auto.
Qed.

(** ** Drafts over time *)

(** The edges of the draft state machine. *)
Definition lifecycle_edge (a b : DraftState) : bool :=
  match a, b with
  | StateDraft, StateDraft | StateDraft, StateValidated | StateValidated, StateInReview
  | StateInReview, StateInReview | StateInReview, StateDraft | StateInReview, StateApproved
  | StateApproved, StatePublished | StatePublished, StateSuperseded => true
  | _, _ => false
  end.

(** What no transition changes of a draft. *)
Definition same_origin (d d' : DraftRecord) : Prop :=
  dr_draft_id d' = dr_draft_id d /\ dr_manifest_id d' = dr_manifest_id d /\
  dr_previous_version d' = dr_previous_version d /\ dr_rollback_source_version d' = dr_rollback_source_version d /\
  dr_created_by d' = dr_created_by d /\ dr_created_at d' = dr_created_at d.

Lemma edge_advances s d d' : edge publisher s d d' ->
  dr_revision d' = dr_revision d + 1 /\ lifecycle_edge (dr_state d) (dr_state d') = true /\ same_origin d d'.
Proof.
  intros [? ? ? ? ? ? E|? ? ? ? ? E|? ? ? ? ? ? ? E|? ? ? decision ? E|? ? ? ? ? ? ? E];
    [..|unfold reviewed_draft; destruct (rd_decision decision)|]; cbn; rewrite E; done.
Qed.

(** How one transition moves the draft stored under [id]. *)
Lemma transition_draft s s' id d :
  well_keyed s -> transition publisher s s' -> sd_drafts s !! id = Some d ->
  exists d', sd_drafts s' !! id = Some d' /\ (d' = d \/ (dr_revision d' = dr_revision d + 1 /\
    lifecycle_edge (dr_state d) (dr_state d') = true /\ same_origin d d')).
Proof.
  intros (Kd & _) Ht Hd.
  destruct Ht as [E1|d0 Hn ? ? ? ? ? ? ? ? E1|d0 d' id0 Hl He E1|d0 p id0 now Hl Hp E1|p q r d0 ? ? ? ? ? Hl Hst ? E1];
    rewrite E1; [eauto|rewrite lookup_insert; case_decide as Ek; [|by eauto]..].
  - congruence.
  - rewrite (Kd _ _ Hl) in Ek. rewrite <- Ek, Hl in Hd. injection Hd as <-. apply edge_advances in He. eauto.
  - rewrite (Kd _ _ Hl) in Ek. rewrite <- Ek, Hl in Hd. injection Hd as <-. eexists. split; [reflexivity|]. right.
    cbn. by rewrite (pub_state _ _ _ _ Hp).
  - rewrite (Kd _ _ Hl) in Ek. rewrite <- Ek, Hl in Hd. injection Hd as <-. eexists. split; [reflexivity|]. right.
    cbn. by rewrite Hst.
Qed.

(** C9: A request moves a stored draft along at most one edge of the state machine,
    raising its revision by one and keeping its identity, lineage and creation;
    it never removes a draft. *)
Theorem request_follows_state_machine actor key call clock earlier store id d :
  well_keyed (cs_data store) -> fst (guard_call actor call earlier) = Ok tt ->
  sd_drafts (cs_data store) !! id = Some d ->
  exists d', sd_drafts (cs_data (snd (apply_call publisher actor key call clock store))) !! id = Some d' /\
    (d' = d \/ (dr_revision d' = dr_revision d + 1 /\ lifecycle_edge (dr_state d) (dr_state d') = true /\ same_origin d d')).
Proof. intros Hk Hg. apply transition_draft; [done|]. by eapply apply_call_transition. Qed.

(** Whatever happens, a stored draft stays stored, with no smaller revision. *)
Definition draft_at_least (id : string) (revision : Z) (s : StoreData) : Prop :=
  well_keyed s /\ exists d, sd_drafts s !! id = Some d /\ revision <= dr_revision d.

Lemma draft_at_least_step id revision s s' :
  draft_at_least id revision s -> transition publisher s s' -> draft_at_least id revision s'.
Proof.
  intros (Hk & d & Hd & Hr) Ht. split; [by eapply transition_keyed|].
  destruct (transition_draft _ _ _ _ Hk Ht Hd) as (d' & Hd' & Hc). exists d'. split; [done|].
  destruct Hc as [->|(? & _)]; lia.
Qed.

(** ** Optimistic concurrency *)

(** The draft and the revision a draft mutation names. *)
Definition call_expects (call : Call) : option (string * Z) :=
  match call with
  | CallReplace id c => Some (id, rc_expected_revision c)
  | CallValidate id c | CallSubmit id c => Some (id, tc_expected_revision c)
  | CallReview id c => Some (id, tc_expected_revision (vc_transition c))
  | CallApprove id c => Some (id, tc_expected_revision (apc_transition c))
  | CallPublish id c => Some (id, tc_expected_revision (puc_transition c))
  | _ => None
  end.

(** ... and the one any request names, an operational receipt's included. A
    supersession names a published version. *)
Definition call_names (call : Call) : option (string * Z) :=
  match call with
  | CallIssueReceipt c => Some (ob_draft_id (ic_binding c), ob_draft_revision (ic_binding c))
  | _ => call_expects call
  end.

Lemma expects_names call p : call_expects call = Some p -> call_names call = Some p.
Proof. by destruct call. Qed.

Lemma ensure_expected_revision d r v g u : ensure_expected d r v g = Ok u -> dr_revision d = r.
Proof. unfold ensure_expected. by intros ([] & ?%guard_or_Ok%Z.eqb_eq & _)%bind_Ok. Qed.

(** An accepted request found the draft at the revision it names. *)
Lemma accepted_at_expected actor call clock id revision r tx tx' :
  call_names call = Some (id, revision) -> call_body publisher actor call clock tx = Ok (r, tx') ->
  exists d, sd_drafts (tx_data tx) !! id = Some d /\ dr_revision d = revision.
Proof.
  intros Hc Hb. destruct call; try done; injection Hc as <- <-; cbn [call_body] in Hb;
    unfold replace_draft_in_transaction, validate_body, issue_body, submit_body, review_body, approve_body, publish_body in Hb;
    inv_tx; match goal with
    | He : ensure_expected ?d _ _ _ = Ok _ |- _ => exists d; by apply ensure_expected_revision in He
    | He : ensure_expected_command ?d _ = Ok _ |- _ => exists d; by apply ensure_expected_revision in He
    end.
Qed.

(** ... and stored it at the next one. *)
Lemma accepted_advances actor call clock id revision r tx tx' :
  well_keyed (tx_data tx) -> call_expects call = Some (id, revision) ->
  call_body publisher actor call clock tx = Ok (r, tx') ->
  exists d, sd_drafts (tx_data tx') !! id = Some d /\ dr_revision d = revision + 1.
Proof.
  intros (Kd & _) Hc Hb. pose proof (accepted_at_expected _ _ _ _ _ _ _ _ (expects_names _ _ Hc) Hb) as (d & Hd & Hr).
  pose proof (Kd _ _ Hd) as Hid.
  destruct call; try done; injection Hc as -> <-; cbn [call_body] in Hb;
    unfold replace_draft_in_transaction, validate_body, submit_body, review_body, approve_body, publish_body in Hb;
    inv_tx; match goal with
    | Hs : store_transition _ _ _ ?c _ _ _ _ _ _ = Ok _, Hl : sd_drafts _ !! id = Some ?c |- _ =>
        rewrite Hd in Hl; injection Hl as <-;
        apply store_transition_Ok in Hs as (Hst & _); [|first [reflexivity|apply reviewed_draft_id]|reflexivity..];
        rewrite Hid in Hst; eexists; rewrite Hst, lookup_insert, decide_True by done; split; [done|];
        rewrite <- Hr; unfold reviewed_draft; try destruct (rd_decision _); reflexivity
    end.
Qed.

Lemma reachable_keyed store : reachable publisher store -> well_keyed (cs_data store).
Proof. apply (reachable_invariant well_keyed); [done|apply transition_keyed|]. by split_and!. Qed.

(** C5: Optimistic concurrency: of the requests to replace, validate, submit, review,
    approve or publish a draft that name the same revision of it, at most one is
    ever accepted: after it, every such request, and every request for an
    operational receipt of that revision, raises, whoever sends it and whatever
    happened in between. *)
Theorem revision_consumed_once actor key call clock earlier store r id revision store2 actor2 call2 clock2 :
  reachable publisher store -> fst (guard_call actor call earlier) = Ok tt ->
  sd_receipts (cs_data store) !! (ac_actor_id actor, key) = None ->
  fst (apply_call publisher actor key call clock store) = Ok r -> call_expects call = Some (id, revision) ->
  rtc (step publisher) (snd (apply_call publisher actor key call clock store)) store2 ->
  call_names call2 = Some (id, revision) ->
  exists e, call_body publisher actor2 call2 clock2 (enter store2) = Raise e.
Proof.
  intros Hreach Hg Hnew Hok Hc Hsteps Hc2. pose proof (reachable_keyed _ Hreach) as Hk.
  assert (Hat : draft_at_least id (revision + 1) (cs_data (snd (apply_call publisher actor key call clock store)))).
  { split; [eapply transition_keyed; [exact Hk|]; by eapply apply_call_transition|].
    clear Hsteps. revert Hok. unfold apply_call. destruct (call_target call) as [target|]; [|done]. unfold mutate.
    destruct (mutation_request_digest _ _ _ _) as [digest|]; [|done]. rewrite !transaction_spec.
    destruct (mutate_body _ _ _ _ _ _ _ _) as [[r' tx]|] eqn:Hb; [|done]. intros _. unfold mutate_body in Hb.
    apply tx_bind_Ok in Hb as (stored & tx1 & [-> ->]%reads_Ok & Hb). cbn [enter tx_data] in Hb. rewrite Hnew in Hb.
    inv_tx.
    match goal with Hp : put_receipt _ _ = _ |- _ => apply put_receipt_Ok in Hp as [_ ->] end.
    match goal with Hb : call_body _ _ _ _ _ = _ |- _ =>
      destruct (accepted_advances _ _ _ _ _ _ (enter store) _ Hk Hc Hb) as (d & Hd & Hrev) end.
    exists d. split; [exact Hd|lia]. }
  eapply (steps_invariant (draft_at_least id (revision + 1))) in Hat; [| | |exact Hsteps];
    [|by intros s (? & _)|apply draft_at_least_step].
  destruct (call_body publisher actor2 call2 clock2 (enter store2)) as [[r2 tx2]|e] eqn:E; [|eauto]. exfalso.
  apply (accepted_at_expected _ _ _ _ _ _ _ _ Hc2) in E as (d & Hd & Hr). destruct Hat as (_ & d' & Hd' & Hr').
  cbn in Hd. assert (d = d') as -> by congruence. lia.
Qed.

(** ** The audit history is complete *)

(** Some event records the draft's revision [n]. *)
Definition recorded (s : StoreData) (id : string) (n : Z) (event : AuditEvent) : Prop :=
  event ∈ sd_audit s /\ pa_draft_id (ae_event event) = Some id /\ pa_revision (ae_event event) = Some n.

Definition audit_complete (s : StoreData) : Prop :=
  well_keyed s /\ forall id d, sd_drafts s !! id = Some d ->
    1 <= dr_revision d /\
    (forall n, 1 <= n <= dr_revision d -> exists event, recorded s id n event) /\
    exists event, recorded s id (dr_revision d) event /\ pa_manifest_digest (ae_event event) = dr_manifest_digest d /\
      pa_actor (ae_event event) = dr_updated_by d /\ pa_occurred_at (ae_event event) = dr_updated_at d.

(** A transition changes no draft, or stores one at its next revision and records it. *)
Lemma transition_change s s' :
  well_keyed s -> transition publisher s s' ->
  (sd_drafts s' = sd_drafts s /\ sd_audit s `prefix_of` sd_audit s') \/
  (exists d', sd_drafts s' = <[dr_draft_id d' := d']> (sd_drafts s) /\ audited s s' d' /\
    dr_revision d' = match sd_drafts s !! dr_draft_id d' with Some d => dr_revision d + 1 | None => 1 end).
Proof.
  intros (Kd & _) Ht.
  destruct Ht as [E1 _ _ Ha|d0 Hn ? Hr ? ? ? ? ? ? E1 _ _ Ha|d0 d' id0 Hl He E1 _ _ Ha|d0 p id0 now Hl Hp E1 _ _ Ha|
    p q r d0 ? ? ? ? ? Hl Hst ? E1 _ _ Ha]; [by left|right..].
  - exists d0. by rewrite Hn.
  - apply edge_advances in He as (Hr & _ & Ho & _). exists d'. rewrite Ho. split_and!; [done|done|].
    rewrite (Kd _ _ Hl), Hl. done.
  - eexists. split; [exact E1|]. split; [exact Ha|]. cbn. by rewrite (Kd _ _ Hl), Hl.
  - eexists. split; [exact E1|]. split; [exact Ha|]. cbn. by rewrite (Kd _ _ Hl), Hl.
Qed.

Lemma audit_complete_step s s' : audit_complete s -> transition publisher s s' -> audit_complete s'.
Proof.
  intros (Hk & Hc) Ht. split; [by eapply transition_keyed|].
  assert (Hkeep : forall id n event, sd_audit s `prefix_of` sd_audit s' -> recorded s id n event -> recorded s' id n event).
  { intros id n event [l El] (Hin & ? & ?). split; [rewrite El; set_solver|done]. }
  destruct (transition_change _ _ Hk Ht) as [[E1 Ha]|(d' & E1 & (event & El & Hid & Hrev & Hrest) & Hn)]; intros id d; rewrite E1.
  - intros (Hlow & Hall & event & Hlast & Hfacts)%Hc. split_and!; [done| |exists event; eauto].
    intros n Hn. destruct (Hall n Hn) as [ev Hev]. eauto.
  - assert (Ha : sd_audit s `prefix_of` sd_audit s') by (rewrite El; by apply prefix_app_r).
    rewrite lookup_insert. case_decide as Ek.
    + intros E. injection E as <-. subst id.
      assert (Hev : recorded s' (dr_draft_id d') (dr_revision d') event) by (split; [rewrite El; set_solver|done]).
      destruct (sd_drafts s !! dr_draft_id d') as [d0|] eqn:E0.
      * destruct (Hc _ _ E0) as (Hlow & Hall & _). split_and!; [lia| |by exists event].
        intros n Hr. destruct (decide (n = dr_revision d')) as [->|]; [by exists event|].
        destruct (Hall n ltac:(lia)) as [ev Hev']. eauto.
      * split_and!; [lia| |by exists event]. intros n Hr. assert (n = dr_revision d') as -> by lia. by exists event.
    + intros (Hlow & Hall & ev & Hlast & Hfacts)%Hc. split_and!; [done| |exists ev; eauto].
      intros n Hr. destruct (Hall n Hr) as [ev' Hev']. eauto.
Qed.

(** C8: In every reachable store the audit history records every revision of every
    draft, and the event of the current revision names its digest, its author
    and its time. *)
Theorem every_revision_audited store id d :
  reachable publisher store -> sd_drafts (cs_data store) !! id = Some d ->
  (forall n, 1 <= n <= dr_revision d -> exists event, recorded (cs_data store) id n event) /\
  exists event, recorded (cs_data store) id (dr_revision d) event /\
    pa_manifest_digest (ae_event event) = dr_manifest_digest d /\
    pa_actor (ae_event event) = dr_updated_by d /\ pa_occurred_at (ae_event event) = dr_updated_at d.
Proof.
  intros Hr. apply (reachable_invariant audit_complete) in Hr as (_ & Hc).
  - intros Hd. by apply Hc.
  - by intros s (? & _).
  - apply audit_complete_step.
  - by split.
Qed.
End service.

(** * Publication, receipts, and where review cannot go

    What one publication requires of the store, and the drafts whose identifiers
    are too long to be reviewed. *)

Section publication.
Context `{PyText} `{Rfc8785} `{PydanticJson} `{ResponseCodec} `{!ManifestContract} `{!AuthorizationPort}
  `{ModelDump ManifestSelector} `{ModelDump CohortDecisionApplyBinding} `{ModelDump ReplaceDraftCommand}.
Context (publisher : Actor).

Lemma ensure_timestamp_id clock now : ensure_timestamp clock = Ok now -> now = clock.
Proof. unfold ensure_timestamp. intros ([] & _ & E)%bind_Ok. by injection E. Qed.

Lemma receipt_authorizes_spec receipt d now :
  receipt_authorizes receipt d now = true ->
  ac_kind (or_issued_by receipt) = ActorService /\
  ob_manifest_id (or_binding receipt) = dr_manifest_id d /\ ob_draft_id (or_binding receipt) = dr_draft_id d /\
  ob_draft_revision (or_binding receipt) = dr_revision d /\
  ob_manifest_digest (or_binding receipt) = dr_manifest_digest d /\
  ob_collected_at (or_binding receipt) <= or_issued_at receipt /\ or_issued_at receipt <= now /\
  now < ob_expires_at (or_binding receipt).
Proof.
  unfold receipt_authorizes. rewrite !andb_true_iff, bool_decide_eq_true, !String.eqb_eq, Z.eqb_eq, !Z.leb_le, Z.ltb_lt.
  naive_solver.
Qed.

(** C7: A publication happens only on the approved revision the caller named, with
    the approval the caller named, issued for that revision and digest, and with
    a stored operational receipt that a service issued for exactly that draft,
    revision and digest and whose evidence is valid at that moment. *)
Theorem publication_needs_fresh_receipt actor id command clock p tx tx' :
  publish_body publisher actor id command clock tx = Ok (p, tx') ->
  exists d receipt, sd_drafts (tx_data tx) !! id = Some d /\ dr_state d = StateApproved /\
    dr_revision d = tc_expected_revision (puc_transition command) /\ ac_kind actor = ActorHuman /\
    dr_approval d = Some (pm_approval p) /\ ad_decision_id (pm_approval p) = puc_approval_id command /\
    ad_approved_revision (pm_approval p) = dr_revision d /\ ad_manifest_digest (pm_approval p) = dr_manifest_digest d /\
    sd_operational_context_receipts (tx_data tx) !! puc_operational_context_receipt_id command = Some receipt /\
    ac_kind (or_issued_by receipt) = ActorService /\ ob_draft_id (or_binding receipt) = dr_draft_id d /\
    ob_draft_revision (or_binding receipt) = dr_revision d /\
    ob_manifest_digest (or_binding receipt) = pm_manifest_digest p /\
    ob_collected_at (or_binding receipt) <= clock < ob_expires_at (or_binding receipt).
Proof.
  unfold publish_body. intros Hb. inv_tx.
  match goal with Hh : require _ PermPublish _ = _ |- _ => apply human_only in Hh as Hhuman; [|vm_compute; set_solver] end.
  match goal with Hs : require_state _ _ = _ |- _ => apply require_state_Ok in Hs as Hstate end.
  match goal with He : ensure_expected_command _ _ = _ |- _ => apply ensure_expected_revision in He as Hrev end.
  match goal with Ht : ensure_timestamp _ = _ |- _ => apply ensure_timestamp_id in Ht as -> end.
  match goal with Hl : sd_drafts _ !! id = Some ?x |- _ => destruct (dr_approval x) as [approval|] eqn:Happ; inv_tx end.
  match goal with Ha : approval_authorizes _ _ _ = true |- _ =>
    apply approval_authorizes_spec in Ha as Hspec; destruct Hspec as (Har & Had & _);
    unfold approval_authorizes in Ha; rewrite !andb_true_iff, !String.eqb_eq in Ha; destruct Ha as ((((Hid & _) & _) & _) & _) end.
  match goal with Ho : require_operational_context_receipt ?x ?rid _ _ = Ok (?r, _) |- _ =>
    pose proof (operational_receipt_read_only _ _ _ _ _ _ Ho) as <-;
    unfold require_operational_context_receipt in Ho; inv_tx end.
  match goal with Ho : match sd_operational_context_receipts _ !! _ with _ => _ end _ = _ |- _ =>
    destruct (sd_operational_context_receipts _ !! _) as [receipt|] eqn:Hrec; inv_tx end.
  match goal with Hr : receipt_authorizes _ _ _ = true |- _ =>
    apply receipt_authorizes_spec in Hr as (Hkind & _ & Hdraft & Hdrev & Hddig & Hw1 & Hw2 & Hw3) end.
  do 2 eexists. split_and!; try done; lia.
Qed.

(** ** Identifiers too long to review *)
Lemma pretty_Z_nonempty (z : Z) : (1 <= String.length (pretty z))%nat.
Proof.
  assert (Hn : forall n : N, (1 <= String.length (pretty n))%nat).
  { intros n. unfold pretty, pretty_N. case_decide; [cbn; lia|].
    destruct (String.length (pretty_N_go n "")) eqn:E; [|lia]. exfalso.
    assert (Hgo : forall m s, (String.length s <= String.length (pretty_N_go m s))%nat).
    { intros m. induction (N.lt_wf_0 m) as [m _ IH]. intros s. destruct (decide (0 < m)%N).
      - rewrite pretty_N_go_step by done. etrans; [|apply IH]; [cbn; lia|by apply N.div_lt].
      - assert (m = 0%N) as -> by lia. by rewrite pretty_N_go_0. }
    rewrite pretty_N_go_step in E by lia.
    match type of E with String.length (pretty_N_go ?m ?s) = _ => pose proof (Hgo m s) as Hl end. rewrite E in Hl. cbn in Hl. lia. }
  destruct z as [|p|p]; [cbn; lia|apply (Hn (Npos p))|]. unfold pretty, pretty_Z.
  rewrite string_length_app. cbn. lia.
Qed.

Lemma is_id_length s : is_id s = true -> (String.length s <= 128)%nat.
Proof.
  destruct s as [|c s]; [done|]. cbn. intros [[_ Hl%Nat.leb_le]%andb_true_iff _]%andb_true_iff. lia.
Qed.

(** A draft whose identifier has 119 characters or more, which the identifier
    pattern of the API admits, can never be reviewed: the id of its review
    decision exceeds the same pattern, and the review raises. *)
Theorem long_draft_id_blocks_review actor id command clock tx :
  well_keyed (tx_data tx) -> (119 <= String.length id)%nat ->
  exists e, review_body publisher actor id command clock tx = Raise e.
Proof.
  intros (Kd & _) Hl. destruct (review_body publisher actor id command clock tx) as [[d tx']|e] eqn:Hb; [|eauto].
  exfalso. unfold review_body in Hb. inv_tx.
  match goal with Hi : is_id _ = true |- _ => apply is_id_length in Hi as Hlen end.
  match goal with Hd : sd_drafts _ !! id = Some _ |- _ => apply Kd in Hd as Hid end.
  cbn [review_decision rd_decision_id] in Hlen. unfold governance_decision_id in Hlen.
  rewrite !string_length_app, Hid in Hlen.
  match type of Hlen with context [pretty ?z] => pose proof (pretty_Z_nonempty z) end. cbn in Hlen. lia.
Qed.
End publication.
