(* ===== verification/Demo.v ===== *)
(** * Demo: one workload through its lifecycle

    Concrete instances of every parameter, and the requests that take two
    versions of a workload from draft to publication and supersede the first.
    The theorems of LifecycleProps.v, StoreProps.v and Reads.v are applied to the
    store they reach. *)
From stdpp Require Import pretty.
From S2P Require Import Prelude Text Sha256 Time Json Concrete Authorization.
From S2P Require Export LifecycleProps StoreProps Reads.
Local Open Scope Z_scope.

Module LifecycleDemo.
(** ** Parameters *)

(** A short text for a JSON value. *)
Definition mix (h x : Z) : Z := Z.land (32 * h + h + x) 67108863.
Fixpoint mix_text (h : Z) (s : string) : Z :=
  match s with EmptyString => mix h 1 | String c s => mix_text (mix h (Z.of_nat (Ascii.nat_of_ascii c))) s end.
Fixpoint mix_json (h : Z) (v : json) : Z :=
  match v with
  | JNull => mix h 2
  | JBool b => mix h (if b then 3 else 4)
  | JInt z => mix (mix h 5) z
  | JFloat _ => mix h 6
  | JStr s => mix_text (mix h 7) s
  | JTime t => mix (mix h 8) t
  | JArr l => (fix go h l := match l with [] => mix h 9 | v :: l => go (mix_json h v) l end) h l
  | JObj ms => (fix go h ms := match ms with [] => mix h 10 | (k, v) :: ms => go (mix_json (mix_text h k) v) ms end) h ms
  end.
#[export] Instance short_json : Rfc8785 | 0 := fun v => pretty (mix_json 0 v).
#[export] Instance demo_datetime : PydanticJson := canonical_timestamp.
#[export] Instance demo_codec : ResponseCodec :=
  {| response_text := ApiResponse; model_dump_json := fun r => r; model_validate_json := fun _ r => Ok r |}.

Lemma demo_round_trip (r : ApiResponse) : model_validate_json (response_type r) (model_dump_json r) = Ok r.
Proof. reflexivity. Qed.

Definition actor (id : string) : Actor := {| ac_actor_id := id; ac_kind := ActorHuman |}.
Definition service (id : string) : Actor := {| ac_actor_id := id; ac_kind := ActorService |}.
Definition publisher : Actor := service "athena".

(** ** A manifest with one production profile *)
Definition profile : ManifestProfile := {|
  mp_profile_id := "production"; mp_profile_type := "production"; mp_extends := None;
  mp_settings := {| st_continuity := {| cn_zone_loss_continuity_required := false |} |}; mp_roles := []; mp_relationships := [];
  mp_constraints := []; mp_controls := []; mp_risk_acceptances := []; mp_objectives := []; mp_ownership := [];
  mp_weakening_overrides := []; mp_disabled_refs := [] |}.

Definition manifest (version published_by : string) (published_at : Z) (status digest : string)
    : CanonicalWorkloadManifest := {|
  wm_manifest_id := "wl"; wm_manifest_version := version; wm_cloud := "AzureCloud";
  wm_workload := {| wi_display_name := "Shop"; wi_environments := ["production"]; wi_allowed_evidence_scopes := [] |};
  wm_profiles := [("production", profile)]; wm_roles := []; wm_relationships := []; wm_constraints := [];
  wm_controls := []; wm_risk_acceptances := []; wm_objectives := []; wm_ownership := [];
  wm_compatibility := {|
    cm_artifact_kind := "workloadManifest"; cm_schema_version := "1.0.0"; cm_semantic_contract_version := "1.0.0";
    cm_policy_contract_version := "1.0.0"; cm_minimum_reader_version := "1.0.0"; cm_requires_capabilities := [];
    cm_producer_id := "athena"; cm_producer_version := "1.0.0"; cm_extension_policy := "strict";
    cm_artifact_digest := digest; cm_semantic_digest := digest |};
  wm_audit := {| ma_published_by := published_by; ma_published_at := published_at; ma_approval_status := status |} |}.

(** What varies between the demo's manifests. *)
Definition content (version published_by : string) (published_at : Z) (status : string) : list (string * json) :=
  [("manifestVersion", JStr version);
   ("audit", JObj [("publishedBy", JStr published_by); ("publishedAt", JTime published_at); ("approvalStatus", JStr status)])].
Definition content_of (m : CanonicalWorkloadManifest) : list (string * json) :=
  let a := wm_audit m in
  content (wm_manifest_version m) (ma_published_by a) (ma_published_at a) (ma_approval_status a).
Definition dump (m : CanonicalWorkloadManifest) : json :=
  JObj (content_of m ++ [("compatibility", JObj [("artifactDigest", JStr (cm_artifact_digest (wm_compatibility m)))])]).

#[export] Instance demo_contract : ManifestContract := {|
  dump_json := dump; dump_json_exclude_none := dump; dump_python := dump;
  model_validate := fun payload =>
    match payload with
    | JObj [("manifestVersion", JStr version);
            ("audit", JObj [("publishedBy", JStr by'); ("publishedAt", JTime at'); ("approvalStatus", JStr status)]);
            ("compatibility", JObj [("artifactDigest", JStr digest)])] =>
        computed ← compute_artifact_digest (JObj (content version by' at' status));
        _ ← guard_or (AthenaValidationError "digests") (String.eqb digest computed);
        Ok (manifest version by' at' status digest)
    | _ => Raise (ValidationError "payload")
    end;
  canonicalize_manifest_payload := fun payload =>
    match payload with
    | JObj members =>
        let body := pop_member "compatibility" members in
        digest ← compute_artifact_digest (JObj body);
        Ok (JObj (body ++ [("compatibility", JObj [("artifactDigest", JStr digest)])]))
    | _ => Raise (AthenaValidationError "payload")
    end;
  compute_artifact_digest_value := fun m => compute_artifact_digest (JObj (content_of m));
  validate_manifest_selector_identity_inheritance := fun _ => Ok tt;
  validate_manifest_selector_identity_transition := fun _ _ => Ok tt;
  resolve_manifest_profile := fun m profile_id _ => Ok {|
    rp_manifest_id := wm_manifest_id m; rp_manifest_version := wm_manifest_version m; rp_profile_id := profile_id;
    rp_profile_type := "production"; rp_allowed_evidence_scopes := []; rp_compatibility := wm_compatibility m;
    rp_inheritance_chain := [profile_id]; rp_settings := mp_settings profile; rp_roles := []; rp_relationships := [];
    rp_constraints := []; rp_controls := []; rp_risk_acceptances := []; rp_objectives := []; rp_ownership := [];
    rp_resolved_profile_digest := "sha256:p" |};
  resolve_manifest_profile_for_cohort_decision := fun _ _ _ _ => Raise (AthenaValidationError "unused");
|}.

(** Commands render as the fields that tell the demo's commands apart. *)
Definition transition_json (c : TransitionCommand) : json :=
  JObj [("expected_revision", JInt (tc_expected_revision c)); ("reason", JStr (tc_reason c))].
#[export] Instance dump_selector : ModelDump ManifestSelector := fun s => JStr (selector_id s).
#[export] Instance dump_binding : ModelDump CohortDecisionApplyBinding := fun b => JStr (cb_decision_id b).
#[export] Instance dump_create : ModelDump CreateDraftCommand := fun c =>
  JObj [("draft_id", JStr (cc_draft_id c)); ("manifest", dump_json (cc_manifest c))].
#[export] Instance dump_replace : ModelDump ReplaceDraftCommand := fun c => dump_json (rc_replacement_manifest c).
#[export] Instance dump_transition : ModelDump TransitionCommand := transition_json.
#[export] Instance dump_review : ModelDump ReviewCommand := fun c => transition_json (vc_transition c).
#[export] Instance dump_approve : ModelDump ApproveCommand := fun c => transition_json (apc_transition c).
#[export] Instance dump_publish : ModelDump PublishCommand := fun c => transition_json (puc_transition c).
#[export] Instance dump_supersede : ModelDump SupersedeCommand := fun c => JInt (suc_expected_revision c).
#[export] Instance dump_issue : ModelDump IssueOperationalContextReceiptCommand := fun c => JStr (ic_binding_digest c).

Definition grant (id : string) (role : Role) : RoleGrant :=
  {| rg_actor_id := id; rg_role := role; rg_scope := AllWorkloadsGrantScope |}.
#[export] Instance demo_port : AuthorizationPort := role_based_port (new_authorization
  [grant "ann" RoleProposer; grant "rita" RoleReviewer; grant "paul" RoleApprover; grant "petra" RolePublisher;
   grant "collector" RoleOperationalContextIssuer]).

(** ** Requests *)
Record Request := { rq_actor : Actor; rq_key : string; rq_call : Call; rq_clock : Z }.

Definition now (n : Z) : Z := 1704164645123000 + n * 1000000.

(** The command that expects the draft as it is stored. *)
Definition expecting (store : ContextStore) (id : string) : TransitionCommand :=
  match sd_drafts (cs_data store) !! id with
  | Some d => {| tc_expected_revision := dr_revision d; tc_expected_manifest_version := wm_manifest_version (dr_manifest d);
                 tc_expected_digest := dr_manifest_digest d; tc_reason := "demo" |}
  | None => {| tc_expected_revision := 0; tc_expected_manifest_version := ""; tc_expected_digest := ""; tc_reason := "demo" |}
  end.

Definition create (id version : string) (previous : option string) (n : Z) (_ : ContextStore) : Request :=
  let digest := match compute_artifact_digest (JObj (content version "ann" 0 "draft")) with Ok d => d | Raise _ => "" end in
  {| rq_actor := actor "ann"; rq_key := id +:+ "-create"; rq_clock := now n;
     rq_call := CallCreate {| cc_draft_id := id; cc_manifest := manifest version "ann" 0 "draft" digest;
       cc_manifest_digest := digest; cc_previous_version := previous; cc_rollback_source_version := None;
       cc_reason := "demo" |} |}.
Definition validate (id : string) (n : Z) (store : ContextStore) : Request :=
  {| rq_actor := actor "ann"; rq_key := id +:+ "-validate"; rq_clock := now n;
     rq_call := CallValidate id (expecting store id) |}.
Definition submit (id : string) (n : Z) (store : ContextStore) : Request :=
  {| rq_actor := actor "ann"; rq_key := id +:+ "-submit"; rq_clock := now n; rq_call := CallSubmit id (expecting store id) |}.
Definition review (id : string) (n : Z) (store : ContextStore) : Request :=
  {| rq_actor := actor "rita"; rq_key := id +:+ "-review"; rq_clock := now n;
     rq_call := CallReview id {| vc_transition := expecting store id; vc_decision := ReviewApproved;
       vc_comments := "fine"; vc_rejected_fields := []; vc_required_corrections := [] |} |}.
Definition issue (id key : string) (n : Z) (store : ContextStore) : Request :=
  let c := expecting store id in
  {| rq_actor := service "collector"; rq_key := id +:+ key; rq_clock := now n;
     rq_call := CallIssueReceipt {| ic_binding := {|
         ob_manifest_id := "wl"; ob_manifest_version := tc_expected_manifest_version c; ob_profile_id := "production";
         ob_draft_id := id; ob_draft_revision := tc_expected_revision c; ob_manifest_digest := tc_expected_digest c;
         ob_profile_digest := "sha256:p"; ob_snapshot_id := "snap"; ob_collected_at := now 0;
         ob_expires_at := now 1000; ob_evidence_inventory_digest := "i"; ob_content_digest := "c" |};
       ic_evidence_inventory := [{| ei_evidence_ref := "r"; ei_evidence_digest := "e" |}];
       ic_binding_digest := key |} |}.
(** The receipt issued for the draft's current revision. *)
Definition receipt_for (store : ContextStore) (id : string) : string :=
  match List.find (fun r => String.eqb (ob_draft_id (or_binding r)) id &&
                    (ob_draft_revision (or_binding r) =? tc_expected_revision (expecting store id)))
          (snd <$> map_to_list (sd_operational_context_receipts (cs_data store))) with
  | Some r => or_receipt_id r
  | None => ""
  end.
Definition approve (id : string) (n : Z) (store : ContextStore) : Request :=
  {| rq_actor := actor "paul"; rq_key := id +:+ "-approve"; rq_clock := now n;
     rq_call := CallApprove id {| apc_transition := expecting store id;
       apc_operational_context_receipt_id := receipt_for store id |} |}.
Definition publish_command (id : string) (store : ContextStore) : PublishCommand := {|
  puc_transition := expecting store id;
  puc_approval_id := match sd_drafts (cs_data store) !! id ≫= dr_approval with Some a => ad_decision_id a | None => "" end;
  puc_operational_context_receipt_id := receipt_for store id |}.
Definition publish (id : string) (n : Z) (store : ContextStore) : Request :=
  {| rq_actor := actor "petra"; rq_key := id +:+ "-publish"; rq_clock := now n;
     rq_call := CallPublish id (publish_command id store) |}.
Definition supersede (id old new : string) (n : Z) (store : ContextStore) : Request :=
  let c := expecting store id in
  {| rq_actor := actor "petra"; rq_key := id +:+ "-supersede"; rq_clock := now n;
     rq_call := CallSupersede "wl" old {| suc_expected_revision := tc_expected_revision c;
       suc_expected_manifest_version := tc_expected_manifest_version c; suc_expected_digest := tc_expected_digest c;
       suc_replacement_version := new; suc_replacement_digest :=
         match sd_published (cs_data store) !! ("wl", new) with Some p => pm_manifest_digest p | None => "" end;
       suc_reason := "demo" |} |}.

(** Run the requests; stop at the first that raises. *)
Fixpoint run (requests : list (ContextStore -> Request)) (store : ContextStore) : result ContextStore :=
  match requests with
  | [] => Ok store
  | request :: requests =>
      let r := request store in
      match run_call publisher (rq_actor r) (rq_key r) (rq_call r) (rq_clock r) store with
      | (Ok _, store) => run requests store
      | (Raise e, _) => Raise e
      end
  end.

(** One version, from creation to the revision before publication. *)
Definition to_approved (id version : string) (previous : option string) (n : Z) : list (ContextStore -> Request) :=
  [create id version previous n; validate id (n + 1); submit id (n + 2); review id (n + 3);
   issue id "-r1" (n + 4); approve id (n + 5); issue id "-r2" (n + 6)].
Definition two_versions : list (ContextStore -> Request) :=
  to_approved "d1" "1.0.0" None 0 ++ [publish "d1" 7] ++
  to_approved "d2" "1.1.0" (Some "1.0.0") 10 ++ [publish "d2" 17; supersede "d1" "1.0.0" "1.1.0" 18].

Lemma run_reachable requests store store' :
  reachable publisher store -> run requests store = Ok store' -> reachable publisher store'.
Proof.
  revert store. induction requests as [|request requests IH]; intros store Hr; cbn [run].
  { intros E. by injection E as <-. }
  set (r := request store). destruct (run_call _ _ _ _ _ store) as [[response|e] store1] eqn:E; [|done].
  apply IH. eapply rtc_r; [exact Hr|]. unfold run_call in E.
  pose proof (guard_call_store (rq_actor r) (rq_call r) store) as Hs.
  destruct (guard_call (rq_actor r) (rq_call r) store) as [[[]|e] store0] eqn:Eg; [|done]. cbn in Hs. subst store0.
  eapply (step_call _ _ _ (rq_actor r) (rq_key r) (rq_call r) (rq_clock r) store); [by rewrite Eg|by rewrite E].
Qed.

(** ** The theorems at the stores the demo reaches *)
Definition store_after (requests : list (ContextStore -> Request)) : ContextStore :=
  match run requests new_store with Ok store => store | Raise _ => new_store end.

Lemma store_after_reachable requests : is_ok (run requests new_store) = true -> reachable publisher (store_after requests).
Proof.
  unfold store_after. destruct (run requests new_store) as [store|e] eqn:E; [|done]. intros _.
  eapply run_reachable; [apply rtc_refl|exact E].
Qed.

(** After both publications and the supersession. *)
Definition final_store : ContextStore := store_after two_versions.
Lemma final_run : is_ok (run two_versions new_store) && present (sd_published (cs_data final_store) !! ("wl", "1.1.0")) &&
  present (sd_drafts (cs_data final_store) !! "d1") = true.
Proof. vm_cast_no_check (eq_refl true). Qed.
Lemma final_reachable : reachable publisher final_store.
Proof. apply store_after_reachable. pose proof final_run as H. by do 2 apply andb_prop in H as [H _]. Qed.
Lemma final_published : exists p, sd_published (cs_data final_store) !! ("wl", "1.1.0") = Some p.
Proof.
  pose proof final_run as H. apply andb_prop in H as [H _]. apply andb_prop in H as [_ H].
  destruct (sd_published _ !! _) as [p|]; [by exists p|done].
Qed.
Lemma final_draft : exists d, sd_drafts (cs_data final_store) !! "d1" = Some d.
Proof. pose proof final_run as H. apply andb_prop in H as [_ H]. destruct (sd_drafts _ !! _) as [d|]; [by exists d|done]. Qed.

(** With the first draft approved and a receipt issued for the approved revision. *)
Definition approved_store : ContextStore := store_after (to_approved "d1" "1.0.0" None 0).
(** The publication request, run there. *)
Definition publication : Call := CallPublish "d1" (publish_command "d1" approved_store).
Definition published_run := apply_call publisher (actor "petra") "d1-publish" publication (now 7) approved_store.
Definition body_run := publish_body publisher (actor "petra") "d1" (publish_command "d1" approved_store) (now 7) (enter approved_store).
(** The same request from an actor without the publisher role *)
Definition refused_run := run_call publisher (actor "ann") "key" publication (now 7) approved_store.

Lemma approved_run :
  is_ok (run (to_approved "d1" "1.0.0" None 0) new_store) && (present (sd_drafts (cs_data approved_store) !! "d1") &&
  (is_ok (fst (guard_call (actor "petra") publication approved_store)) && (is_ok (fst published_run) &&
  (negb (present (sd_receipts (cs_data approved_store) !! (ac_actor_id (actor "petra"), "d1-publish"))) &&
  (is_ok body_run && negb (is_ok (fst refused_run))))))) = true.
Proof. vm_cast_no_check (eq_refl true). Qed.
Lemma approved_facts : reachable publisher approved_store /\ present (sd_drafts (cs_data approved_store) !! "d1") = true /\
  is_ok (fst (guard_call (actor "petra") publication approved_store)) = true /\ is_ok (fst published_run) = true /\
  negb (present (sd_receipts (cs_data approved_store) !! (ac_actor_id (actor "petra"), "d1-publish"))) = true /\
  is_ok body_run = true /\ negb (is_ok (fst refused_run)) = true.
Proof.
  destruct (andb_prop _ _ approved_run) as [H1 (H2 & (H3 & (H4 & (H5 & (H6 & H7)%andb_prop)%andb_prop)%andb_prop)%andb_prop)%andb_prop].
  exact (conj (store_after_reachable _ H1) (conj H2 (conj H3 (conj H4 (conj H5 (conj H6 H7)))))).
Qed.
Lemma approved_reachable : reachable publisher approved_store.
Proof. apply approved_facts. Qed.
Lemma approved_keyed : well_keyed (cs_data approved_store).
Proof. eapply reachable_keyed, approved_reachable. Qed.
Lemma approved_draft : exists d, sd_drafts (cs_data approved_store) !! "d1" = Some d.
Proof. destruct approved_facts as (_ & H & _). destruct (sd_drafts _ !! _) as [d|]; [by exists d|done]. Qed.
Lemma publication_authorized : fst (guard_call (actor "petra") publication approved_store) = Ok tt.
Proof. destruct approved_facts as (_ & _ & H & _). by apply is_ok_spec in H as [[] H]. Qed.
Lemma publication_succeeds : exists r store, published_run = (Ok r, store).
Proof.
  destruct approved_facts as (_ & _ & _ & H & _). apply is_ok_spec in H as [r Hr]. exists r.
  destruct published_run as [r' store]. cbn in Hr. subst r'. by exists store.
Qed.
Lemma publication_key_new : sd_receipts (cs_data approved_store) !! (ac_actor_id (actor "petra"), "d1-publish") = None.
Proof. destruct approved_facts as (_ & _ & _ & _ & H & _). by destruct (sd_receipts _ !! _). Qed.
Lemma publication_body_succeeds : exists p tx, body_run = Ok (p, tx).
Proof. destruct approved_facts as (_ & _ & _ & _ & _ & H & _). apply is_ok_spec in H as [[p tx] Hr]. by exists p, tx. Qed.
Lemma publication_refused : exists e, fst refused_run = Raise e.
Proof.
  destruct approved_facts as (_ & _ & _ & _ & _ & _ & H). destruct (fst refused_run) as [r|e]; [done|by exists e].
Qed.

Lemma request_refines_witness :
  transition publisher (cs_data approved_store)
    (cs_data (snd (apply_call publisher (actor "petra") "d1-publish" publication (now 7) approved_store))).
Proof. exact (request_refines_transition publisher _ _ _ _ _ _ approved_keyed publication_authorized). Defined.

Lemma published_governed_witness : exists p, governed_publication publisher (cs_data final_store) p.
Proof.
  destruct final_published as [p Hp]. exists p.
  exact (published_versions_governed publisher final_store "wl" "1.1.0" p final_reachable Hp).
Defined.

Lemma lineage_linear_witness : exists l, lineage_of (cs_data final_store) "wl" l.
Proof. exact (published_lineage_linear publisher final_store "wl" final_reachable). Defined.

Lemma append_only_witness : grows (cs_data new_store) (cs_data final_store).
Proof. exact (history_is_append_only publisher new_store final_store final_reachable). Defined.

Lemma audit_verifies_witness : verify_audit_chain (sd_audit (cs_data final_store)) = Ok tt.
Proof. exact (audit_history_verifies publisher final_store final_reachable). Defined.

Lemma retry_witness : exists r store,
  apply_call publisher (actor "petra") "d1-publish" publication (now 99) store = (Ok r, store).
Proof.
  destruct publication_succeeds as (r & store & Hs). exists r, store.
  exact (retry_is_idempotent publisher demo_round_trip _ _ _ _ _ _ _ _ (now 99) Hs (rtc_refl _ _)).
Defined.

Lemma state_machine_witness : exists d d',
  sd_drafts (cs_data (snd (apply_call publisher (actor "petra") "d1-publish" publication (now 7) approved_store))) !! "d1"
    = Some d' /\
  (d' = d \/ (dr_revision d' = dr_revision d + 1 /\ lifecycle_edge (dr_state d) (dr_state d') = true /\ same_origin d d')).
Proof.
  destruct approved_draft as [d Hd]. exists d.
  exact (request_follows_state_machine publisher _ _ _ _ _ _ _ _ approved_keyed publication_authorized Hd).
Defined.

Lemma revision_consumed_witness : exists store e,
  call_body publisher (actor "petra") publication (now 8) (enter store) = Raise e.
Proof.
  destruct publication_succeeds as (r & store & Hs).
  exists (snd (apply_call publisher (actor "petra") "d1-publish" publication (now 7) approved_store)).
  exact (revision_consumed_once publisher _ _ publication (now 7) _ _ r "d1" _ _ (actor "petra") publication (now 8)
    approved_reachable publication_authorized publication_key_new (f_equal fst Hs) eq_refl (rtc_refl _ _) eq_refl).
Defined.

Lemma revision_audited_witness : exists d event, recorded (cs_data final_store) "d1" (dr_revision d) event.
Proof.
  destruct final_draft as [d Hd]. exists d.
  destruct (every_revision_audited publisher final_store "d1" d final_reachable Hd) as [_ (event & He & _)].
  exists event. exact He.
Defined.

Lemma publication_receipt_witness : exists receipt,
  ac_kind (or_issued_by receipt) = ActorService /\ now 7 < ob_expires_at (or_binding receipt).
Proof.
  destruct publication_body_succeeds as (p & tx & Hb).
  destruct (publication_needs_fresh_receipt publisher _ _ _ _ _ _ _ Hb)
    as (d & receipt & _ & _ & _ & _ & _ & _ & _ & _ & _ & Hk & _ & _ & _ & _ & Hw).
  exists receipt. exact (conj Hk Hw).
Defined.

(** An identifier of 119 characters. *)
Definition long_id : string := String.concat "" (repeat "a" 119).
Lemma long_id_accepted : is_id long_id = true /\ (119 <= String.length long_id)%nat.
Proof. split; [vm_compute; reflexivity|]. apply Nat.leb_le. vm_compute. reflexivity. Qed.

Lemma long_draft_id_witness : exists e,
  review_body publisher (actor "rita") long_id
    {| vc_transition := expecting approved_store "d1"; vc_decision := ReviewApproved; vc_comments := "fine";
       vc_rejected_fields := []; vc_required_corrections := [] |} (now 7) (enter approved_store) = Raise e.
Proof.
  exact (long_draft_id_blocks_review publisher _ _ _ _ (enter approved_store) approved_keyed (proj2 long_id_accepted)).
Defined.

Lemma changed_paths_witness :
  changed_paths (JObj [("a", JInt 1); ("b", JArr [JNull])]) (JObj [("b", JArr [JNull]); ("a", JInt 1)]) "" = [] <->
  py_eq (JObj [("a", JInt 1); ("b", JArr [JNull])]) (JObj [("b", JArr [JNull]); ("a", JInt 1)]) = true.
Proof.
  apply changed_paths_exact; cbn; (split; [apply (bool_decide_eq_true_1 _); vm_compute; reflexivity|]); tauto.
Defined.
End LifecycleDemo.
