(* ===== verification/Policy.v ===== *)
(** * Policy: deterministic evaluation of one resolved profile

    [policy/domain.py] (one [evaluate_*] definition per proof variant, the
    risk-acceptance matching and [evaluate_constraint]) and
    [policy/evaluator.py]. [as_of] is an instant in microseconds. *)
From S2P Require Import Prelude Text Manifest.
Local Open Scope Z_scope.

Record PolicyDecision := {
  pd_verdict : FindingVerdict;
  pd_evidence_refs : list EvidenceReference;
  pd_risk_acceptance_ref : option string;
}.

(** A decision of an [evaluate_*] function: no acceptance yet. *)
Definition decide_with (v : FindingVerdict) (refs : list EvidenceReference) : PolicyDecision :=
  {| pd_verdict := v; pd_evidence_refs := refs; pd_risk_acceptance_ref := None |}.

Record BoundResources := {
  br_resources : list ResourceProofFact;
  br_gate : option FindingVerdict;
}.

(** _merge_gates *)
Definition merge_gates (gates : list (option FindingVerdict)) : option FindingVerdict :=
  if bool_decide (Some VConflicting ∈ gates) then Some VConflicting
  else if bool_decide (Some VUnknown ∈ gates) then Some VUnknown
  else None.

(** _resource_gate *)
Definition resource_gate (resources : list ResourceProofFact) : option FindingVerdict :=
  match resources with
  | [] => Some VUnknown
  | _ =>
      if existsb (fun r => bool_decide (rf_state r = StConflicting)) resources then Some VConflicting
      else if existsb (fun r => negb (bool_decide (rf_state r = StComplete))) resources then Some VUnknown
      else if existsb (fun r => bool_decide (rf_proof_source r = SrcInferred)) resources then Some VUnknown
      else None
  end.

(** _cardinality_bounds *)
Definition cardinality_bounds (expected : ManifestCardinality) : Z * Z :=
  match expected with
  | ExactlyOneCardinality => (1, 1)
  | OneOrMoreCardinality => (1, 10000)
  | ZeroOrMoreCardinality => (0, 10000)
  | BoundedCardinality minimum maximum => (minimum, maximum)
  end.

(** _references_for_resources *)
Definition references_for_resources (groups : list (list ResourceProofFact)) : list EvidenceReference :=
  rf_evidence_ref <$> concat groups.

(** [{resource.availability_zone for resource in resources}] *)
Definition zones (resources : list ResourceProofFact) : gset AvailabilityZone :=
  list_to_set (rf_availability_zone <$> resources).

Definition has_unknown_zone (resources : list ResourceProofFact) : bool :=
  existsb (fun r => bool_decide (rf_availability_zone r = ZoneUnknown)) resources.

(** _comparison_matches, on binary64 values *)
Definition comparison_matches (actual : spec_float) (c : Comparison) (threshold : spec_float) : bool :=
  match c with
  | CmpLt => SFltb actual threshold
  | CmpLte => SFleb actual threshold
  | CmpGt => SFltb threshold actual
  | CmpGte => SFleb threshold actual
  | CmpEq => SFeqb actual threshold
  end.

(** [math.isfinite] *)
Definition isfinite (x : spec_float) : bool :=
  match x with
  | S754_zero _ | S754_finite _ _ _ => true
  | S754_infinity _ | S754_nan => false
  end.

Definition is_freshness_proof (p : ManifestProof) : bool :=
  match p with EvidenceFreshnessProof _ => true | _ => false end.

(** The finding kinds and constraint types a risk acceptance may cover. *)
Definition acceptance_semantics_are_eligible (c : ManifestConstraint) : bool :=
  (bool_decide (mc_finding_kind c ∈ [FkActualSpof; FkRiskAcceptance]) &&
   bool_decide (mc_constraint_type c = CtSupportedSingleton)) ||
  (bool_decide (mc_finding_kind c = FkArchitectureConstraint) &&
   bool_decide (mc_constraint_type c ∈ [CtCardinality; CtZoneColocation; CtZoneDistribution;
                                        CtDependencyRequired; CtDependencyProhibited])) ||
  (bool_decide (mc_finding_kind c = FkRelationshipConflict) &&
   bool_decide (mc_constraint_type c ∈ [CtDependencyRequired; CtDependencyProhibited])).

Section policy.
Context `{PyText} `{!CanonicalJson EvidenceReference}.

(** _bound_role_resources *)
Definition bound_role_resources (evidence : EvidenceReferenceContext) (role_ref : string) : BoundResources :=
  let resources := sort_by (fun r => normalized_id (rf_resource_id r))
                     (select (fun r => same_id (rf_role_ref r) role_ref) (ec_resources evidence)) in
  let gate :=
    match select (fun b => same_id (rb_role_ref b) role_ref) (ec_role_bindings evidence) with
    | [binding] =>
        match rb_state binding with
        | StConflicting => Some VConflicting
        | StComplete =>
            let selected : gset string := list_to_set (normalized_id <$> rb_selected_resource_ids binding) in
            let actual : gset string := list_to_set ((fun r => normalized_id (rf_resource_id r)) <$> resources) in
            if decide (selected = actual) then None else Some VUnknown
        | _ => Some VUnknown
        end
    | _ => Some VUnknown
    end in
  {| br_resources := resources; br_gate := gate |}.

(** _evaluate_cardinality *)
Definition evaluate_cardinality (profile : ResolvedManifestProfile) (evidence : EvidenceReferenceContext)
    (constraint : ManifestConstraint) (role_ref : string) (expected : ManifestCardinality) : PolicyDecision :=
  let bound := bound_role_resources evidence role_ref in
  let resources := br_resources bound in
  let references := references_for_resources [resources] in
  let gate := merge_gates [br_gate bound; resource_gate resources] in
  let spof_kind := bool_decide (mc_finding_kind constraint ∈ [FkActualSpof; FkRiskAcceptance]) in
  let requires_zone := bool_decide (mc_constraint_type constraint = CtSupportedSingleton) || spof_kind in
  match gate with
  | Some g => decide_with g references
  | None =>
      if requires_zone && has_unknown_zone resources then decide_with VUnknown references
      else
        let '(minimum, maximum) := cardinality_bounds expected in
        let matches := Z.of_nat (length resources) in
        if spof_kind then
          if negb ((matches =? 1) && (size (zones resources) =? 1)%nat)
          then decide_with (failure_verdict_value (mc_failure_verdict constraint)) references
          else if negb (rp_zone_loss_continuity_required profile) then decide_with VObservation references
          else decide_with VViolation references
        else
          decide_with
            (if (minimum <=? matches) && (matches <=? maximum)
             then success_verdict_value (mc_success_verdict constraint)
             else failure_verdict_value (mc_failure_verdict constraint)) references
  end.

(** _evaluate_zone_colocation *)
Definition evaluate_zone_colocation (evidence : EvidenceReferenceContext) (constraint : ManifestConstraint)
    (subject_role_ref anchor_role_ref : string) : PolicyDecision :=
  let subjects := bound_role_resources evidence subject_role_ref in
  let anchors := bound_role_resources evidence anchor_role_ref in
  let references := references_for_resources [br_resources subjects; br_resources anchors] in
  match merge_gates [br_gate subjects; br_gate anchors;
                     resource_gate (br_resources subjects); resource_gate (br_resources anchors)] with
  | Some g => decide_with g references
  | None =>
      if has_unknown_zone (br_resources subjects ++ br_resources anchors)
      then decide_with VUnknown references
      else
        let anchor_zones := zones (br_resources anchors) in
        let subject_zones := zones (br_resources subjects) in
        decide_with
          (if (size anchor_zones =? 1)%nat && bool_decide (subject_zones = anchor_zones)
           then success_verdict_value (mc_success_verdict constraint)
           else failure_verdict_value (mc_failure_verdict constraint)) references
  end.

(** _evaluate_zone_distribution *)
Definition evaluate_zone_distribution (evidence : EvidenceReferenceContext) (constraint : ManifestConstraint)
    (role_ref : string) (minimum_distinct_zones : Z) : PolicyDecision :=
  let bound := bound_role_resources evidence role_ref in
  let references := references_for_resources [br_resources bound] in
  match merge_gates [br_gate bound; resource_gate (br_resources bound)] with
  | Some g => decide_with g references
  | None =>
      if has_unknown_zone (br_resources bound) then decide_with VUnknown references
      else
        decide_with
          (if minimum_distinct_zones <=? Z.of_nat (size (zones (br_resources bound)))
           then success_verdict_value (mc_success_verdict constraint)
           else failure_verdict_value (mc_failure_verdict constraint)) references
  end.

(** _evaluate_role_operational_state *)
Definition evaluate_role_operational_state (evidence : EvidenceReferenceContext)
    (constraint : ManifestConstraint) (proof : RoleOperationalStateProof) : PolicyDecision :=
  let bound := bound_role_resources evidence (osp_role_ref proof) in
  let references := references_for_resources [br_resources bound] in
  match merge_gates [br_gate bound; resource_gate (br_resources bound)] with
  | Some g => decide_with g references
  | None =>
      let healthy s := bool_decide (s ∈ osp_healthy_states proof) in
      let failure s := bool_decide (s ∈ osp_failure_states proof) in
      let operational_states := rf_operational_state <$> br_resources bound in
      if existsb (fun s => bool_decide (s = RsUnknown) || negb (healthy s || failure s)) operational_states
      then decide_with VUnknown references
      else
        let healthy_count := Z.of_nat (length (select healthy operational_states)) in
        if healthy_count <? osp_minimum_healthy proof
        then decide_with (failure_verdict_value (mc_failure_verdict constraint)) references
        else if existsb failure operational_states then decide_with VObservation references
        else decide_with (success_verdict_value (mc_success_verdict constraint)) references
  end.

(** _declared_relationship *)
Definition declared_relationship (profile : ResolvedManifestProfile) (relationship_ref : string)
    : result DeclaredManifestRelationship :=
  let relationships :=
    omap (fun r => match r with
                   | Declared d => if same_id (dr_relationship_id d) relationship_ref then Some d else None
                   | Exception _ => None
                   end) (rp_relationships profile) in
  match relationships with
  | [d] => Ok d
  | _ => Raise (AthenaValidationError "relationship proof must resolve to exactly one declared relationship")
  end.

(** The role references among [(relationship.source, relationship.target)]. *)
Definition endpoint_roles (d : DeclaredManifestRelationship) : list string :=
  omap (fun e => match e with RoleEndpoint r => Some r | ExternalEndpoint _ => None end)
    [dr_source d; dr_target d].

(** _relationship_role_bindings *)
Definition relationship_role_bindings (profile : ResolvedManifestProfile) (evidence : EvidenceReferenceContext)
    (declared_relationship_ref : string) : result (option FindingVerdict * list EvidenceReference) :=
  relationship ← declared_relationship profile declared_relationship_ref;
  let role_refs := dict_by normalized_id (endpoint_roles relationship) in
  let bounds := bound_role_resources evidence <$> sort_by normalized_id (snd <$> map_to_list role_refs) in
  let gates := concat ((fun b => [br_gate b; resource_gate (br_resources b)]) <$> bounds) in
  Ok (merge_gates gates, references_for_resources (br_resources <$> bounds)).

(** _evaluate_relationship *)
Definition evaluate_relationship (profile : ResolvedManifestProfile) (evidence : EvidenceReferenceContext)
    (constraint : ManifestConstraint) (declared_relationship_ref : string) : result PolicyDecision :=
  let facts := sort_by (fun f => canonical_json (lf_evidence_ref f))
                 (select (fun f => same_id (lf_relationship_ref f) declared_relationship_ref)
                    (ec_relationships evidence)) in
  '(binding_gate, binding_references) ←
     relationship_role_bindings profile evidence declared_relationship_ref;
  let references := (lf_evidence_ref <$> facts) ++ binding_references in
  if existsb (fun f => bool_decide (lf_state f = StConflicting)) facts
  then Ok (decide_with VConflicting references)
  else
    match binding_gate with
    | Some g => Ok (decide_with g references)
    | None =>
        match facts with
        | [fact] =>
            if negb (bool_decide (lf_state fact = StComplete)) || bool_decide (lf_proof_source fact = SrcInferred)
            then Ok (decide_with VUnknown references)
            else
              let relationship_present := bool_decide (lf_presence fact = PrPresent) in
              let failure := failure_verdict_value (mc_failure_verdict constraint) in
              let success := success_verdict_value (mc_success_verdict constraint) in
              Ok (decide_with
                    (if bool_decide (mc_constraint_type constraint = CtDependencyProhibited)
                     then (if relationship_present then failure else success)
                     else (if relationship_present then success else failure)) references)
        | _ => Ok (decide_with VUnknown references)
        end
    end.

(** _evaluate_control *)
Definition evaluate_control (evidence : EvidenceReferenceContext) (constraint : ManifestConstraint)
    (control_ref : string) (required_health : ControlHealth) : PolicyDecision :=
  let facts := select (fun f => same_id (cf_control_ref f) control_ref) (ec_controls evidence) in
  let references := cf_evidence_ref <$> facts in
  if existsb (fun f => bool_decide (cf_state f = StConflicting)) facts
  then decide_with VConflicting references
  else
    match facts with
    | [fact] =>
        if negb (bool_decide (cf_state fact = StComplete)) then decide_with VUnknown references
        else decide_with
               (if bool_decide (cf_health fact = required_health)
                then success_verdict_value (mc_success_verdict constraint)
                else failure_verdict_value (mc_failure_verdict constraint)) references
    | _ => decide_with VUnknown references
    end.

(** The references and the states [_evaluate_freshness] collects. *)
Definition all_fact_refs (evidence : EvidenceReferenceContext) : list EvidenceReference :=
  (rf_evidence_ref <$> ec_resources evidence) ++ (lf_evidence_ref <$> ec_relationships evidence) ++
  (cf_evidence_ref <$> ec_controls evidence) ++ (of_evidence_ref <$> ec_objectives evidence).
Definition all_fact_states (evidence : EvidenceReferenceContext) : list EvidenceState :=
  (rf_state <$> ec_resources evidence) ++ (lf_state <$> ec_relationships evidence) ++
  (cf_state <$> ec_controls evidence) ++ (of_state <$> ec_objectives evidence).

(** _evaluate_freshness. [age_seconds <= maximum] is compared in microseconds:
    [total_seconds()] is the correctly rounded quotient, and no rounding
    reaches an integer bound of at most 2592000 seconds. *)
Definition evaluate_freshness (evidence : EvidenceReferenceContext) (constraint : ManifestConstraint)
    (maximum_age_seconds : Z) (as_of : Z) : PolicyDecision :=
  let references := all_fact_refs evidence in
  let states := all_fact_states evidence in
  let binding_gate :=
    merge_gates ((fun b => br_gate (bound_role_resources evidence (rb_role_ref b))) <$> ec_role_bindings evidence) in
  if bool_decide (StConflicting ∈ states) || bool_decide (binding_gate = Some VConflicting)
  then decide_with VConflicting references
  else
    let inferred := existsb (fun r => bool_decide (rf_proof_source r = SrcInferred)) (ec_resources evidence)
                 || existsb (fun l => bool_decide (lf_proof_source l = SrcInferred)) (ec_relationships evidence) in
    if bool_decide (states = []) || existsb (fun s => negb (bool_decide (s = StComplete))) states
       || inferred || bool_decide (binding_gate = Some VUnknown)
    then decide_with VUnknown references
    else
      decide_with
        (if as_of - ec_collected_at evidence <=? maximum_age_seconds * 1000000
         then success_verdict_value (mc_success_verdict constraint)
         else failure_verdict_value (mc_failure_verdict constraint)) references.

(** _evaluate_objective *)
Definition evaluate_objective (evidence : EvidenceReferenceContext) (constraint : ManifestConstraint)
    (objective_ref : string) (comparison : Comparison) (threshold : spec_float) : PolicyDecision :=
  let facts := select (fun f => same_id (of_objective_ref f) objective_ref) (ec_objectives evidence) in
  let references := of_evidence_ref <$> facts in
  if existsb (fun f => bool_decide (of_state f = StConflicting)) facts
  then decide_with VConflicting references
  else
    match facts with
    | [fact] =>
        if negb (bool_decide (of_state fact = StComplete)) then decide_with VUnknown references
        else if negb (isfinite (of_current_value fact)) || negb (isfinite threshold)
        then decide_with VUnknown references
        else decide_with
               (if comparison_matches (of_current_value fact) comparison threshold
                then success_verdict_value (mc_success_verdict constraint)
                else failure_verdict_value (mc_failure_verdict constraint)) references
    | _ => decide_with VUnknown references
    end.

(** _proof_role_refs *)
Definition proof_role_refs (profile : ResolvedManifestProfile) (constraint : ManifestConstraint)
    : result (list string) :=
  match mc_proof_requirement constraint with
  | CardinalityProof role_ref _ => Ok [role_ref]
  | ZoneDistributionProof role_ref _ => Ok [role_ref]
  | RoleOperationalState p => Ok [osp_role_ref p]
  | ZoneColocationProof subject anchor => Ok [subject; anchor]
  | RelationshipPresenceProof ref =>
      relationship ← declared_relationship profile ref;
      Ok (endpoint_roles relationship)
  | _ => Ok []
  end.

(** One iteration of _required_resource_bindings: [None] is its early return. *)
Definition role_required_bindings (evidence : EvidenceReferenceContext) (role_ref : string)
    : option (gset (string * string)) :=
  let bound := bound_role_resources evidence role_ref in
  match merge_gates [br_gate bound; resource_gate (br_resources bound)], br_resources bound with
  | None, (_ :: _) as resources =>
      Some (list_to_set ((fun r => (normalized_id role_ref, normalized_id (rf_resource_id r))) <$> resources))
  | _, _ => None
  end.

(** _required_resource_bindings *)
Definition required_resource_bindings (profile : ResolvedManifestProfile) (evidence : EvidenceReferenceContext)
    (constraint : ManifestConstraint) : result (option (gset (string * string))) :=
  role_refs ← proof_role_refs profile constraint;
  Ok (match role_refs with
      | [] => None
      | _ => (fun sets => ⋃ sets) <$> mapM (role_required_bindings evidence) role_refs
      end).

(** Whether the loop body of _validated_exception_refs reaches the expiry test. *)
Definition exception_applies (proof_relationship : option DeclaredManifestRelationship)
    (constraint : ManifestConstraint) (r : ExceptionManifestRelationship) : bool :=
  let applies_to_clause :=
    match xr_applies_to_clause_ref r with
    | Some ref => same_id ref (mc_constraint_id constraint)
    | None => false
    end in
  let applies_to_relationship :=
    match proof_relationship, xr_applies_to_relationship_ref r with
    | Some d, Some ref =>
        same_id ref (dr_relationship_id d) &&
        String.eqb (cs_clause_path (mc_governance_scope constraint)) (dr_source_clause d)
    | _, _ => false
    end in
  applies_to_clause || applies_to_relationship.

(** The governance comparison of _validated_exception_refs. *)
Definition exception_governed (profile : ResolvedManifestProfile) (constraint : ManifestConstraint)
    (r : ExceptionManifestRelationship) : bool :=
  let scope := xr_governance_scope r in
  String.eqb (xr_owner_ref r) (mc_owner_ref constraint) &&
  String.eqb (cs_manifest_id scope) (rp_manifest_id profile) &&
  same_id (cs_profile_id scope) (rp_profile_id profile) &&
  String.eqb (cs_clause_path scope) (cs_clause_path (mc_governance_scope constraint)) &&
  String.eqb (cs_owner_ref scope) (mc_owner_ref constraint).

(** _validated_exception_refs *)
Definition validated_exception_refs (profile : ResolvedManifestProfile) (constraint : ManifestConstraint)
    (as_of : Z) : result (gset string) :=
  proof_relationship ←
    match mc_proof_requirement constraint with
    | RelationshipPresenceProof ref => d ← declared_relationship profile ref; Ok (Some d)
    | _ => Ok None
    end;
  foldR (fun acc relationship =>
    match relationship with
    | Declared _ => Ok acc
    | Exception r =>
        if negb (exception_applies proof_relationship constraint r) then Ok acc
        else if xr_expires_at r <=? as_of then Ok acc
        else if negb (exception_governed profile constraint r)
        then Raise (AthenaValidationError "exception overlay does not exactly match constraint governance")
        else Ok ({[ normalized_id (xr_risk_acceptance_ref r) ]} ∪ acc)
    end) ∅ (rp_relationships profile).

(** The acceptance clause path of _matching_acceptance. *)
Definition acceptance_clause_path (constraint : ManifestConstraint) : string :=
  "/constraints/" +:+
  match mc_risk_acceptance_clause_ref constraint with
  | Some ref => if bool_decide (mc_finding_kind constraint = FkRiskAcceptance) then ref
                else mc_constraint_id constraint
  | None => mc_constraint_id constraint
  end.

(** The test each declared acceptance has to pass in _matching_acceptance. *)
Definition acceptance_matches (profile : ResolvedManifestProfile) (constraint : ManifestConstraint)
    (as_of : Z) (acceptance_refs : gset string) (required : gset (string * string))
    (a : ManifestRiskAcceptance) : bool :=
  bool_decide (normalized_id (ra_risk_acceptance_id a) ∈ acceptance_refs) &&
  is_active a as_of (rp_manifest_id profile) (rp_profile_id profile)
    (acceptance_clause_path constraint) (mc_owner_ref constraint) &&
  bool_decide (list_to_set (binding_key <$> ra_accepted_resource_bindings a) = required).

(** _matching_acceptance *)
Definition matching_acceptance (profile : ResolvedManifestProfile) (evidence : EvidenceReferenceContext)
    (constraint : ManifestConstraint) (as_of : Z) : result (option ManifestRiskAcceptance) :=
  exception_refs ← validated_exception_refs profile constraint as_of;
  let acceptance_refs :=
    match mc_risk_acceptance_ref constraint with
    | Some ref => {[ normalized_id ref ]} ∪ exception_refs
    | None => exception_refs
    end in
  if decide (acceptance_refs = ∅) then Ok None
  else
    required ← required_resource_bindings profile evidence constraint;
    match required with
    | None => Ok None
    | Some required =>
        match select (acceptance_matches profile constraint as_of acceptance_refs required)
                (rp_risk_acceptances profile) with
        | [] => Ok None
        | [a] => Ok (Some a)
        | _ => Raise (AthenaValidationError "riskAcceptanceRef resolved ambiguously")
        end
    end.

(** _ordered_bounded_references *)
Definition ordered_bounded_references (references : list EvidenceReference)
    : list EvidenceReference * bool :=
  let ordered := sorted_values (dict_by canonical_json references) in
  (take 1000 ordered, (1000 <? Z.of_nat (length ordered))).

(** The dispatch of evaluate_constraint over the proof variants. *)
Definition evaluate_proof (profile : ResolvedManifestProfile) (evidence : EvidenceReferenceContext)
    (constraint : ManifestConstraint) (as_of : Z) : result PolicyDecision :=
  match mc_proof_requirement constraint with
  | CardinalityProof role expected => Ok (evaluate_cardinality profile evidence constraint role expected)
  | ZoneColocationProof subject anchor => Ok (evaluate_zone_colocation evidence constraint subject anchor)
  | ZoneDistributionProof role minimum => Ok (evaluate_zone_distribution evidence constraint role minimum)
  | RoleOperationalState p => Ok (evaluate_role_operational_state evidence constraint p)
  | RelationshipPresenceProof ref => evaluate_relationship profile evidence constraint ref
  | ControlHealthProof ref health => Ok (evaluate_control evidence constraint ref health)
  | EvidenceFreshnessProof maximum => Ok (evaluate_freshness evidence constraint maximum as_of)
  | ObjectiveThresholdProof ref comparison threshold =>
      Ok (evaluate_objective evidence constraint ref comparison threshold)
  end.

Definition acceptance_eligible (constraint : ManifestConstraint) (verdict : FindingVerdict) : bool :=
  bool_decide (verdict = VViolation) &&
  negb (String.eqb (normalized_id (mc_constraint_id constraint)) "db-singleton-supported") &&
  acceptance_semantics_are_eligible constraint &&
  negb (is_freshness_proof (mc_proof_requirement constraint)).

(** evaluate_constraint *)
Definition evaluate_constraint (profile : ResolvedManifestProfile) (evidence : EvidenceReferenceContext)
    (constraint : ManifestConstraint) (as_of : Z) : result PolicyDecision :=
  decision ← evaluate_proof profile evidence constraint as_of;
  let '(references, over_broad) := ordered_bounded_references (pd_evidence_refs decision) in
  let verdict :=
    if over_broad && negb (bool_decide (pd_verdict decision = VConflicting))
    then VUnknown else pd_verdict decision in
  acceptance ←
    (if acceptance_eligible constraint verdict
     then matching_acceptance profile evidence constraint as_of else Ok None);
  Ok {| pd_verdict := match acceptance with Some _ => VAcceptedResidualRisk | None => verdict end;
        pd_evidence_refs := references;
        pd_risk_acceptance_ref := ra_risk_acceptance_id <$> acceptance |}.

(** ** policy/evaluator.py *)

(** The [ManifestFinding] [_evaluate_verified_profile] builds from a decision. *)
Definition finding_of (profile : ResolvedManifestProfile) (constraint : ManifestConstraint)
    (decision : PolicyDecision) : ManifestFinding := {|
  mf_clause_id := mc_constraint_id constraint;
  mf_finding_kind := mc_finding_kind constraint;
  mf_verdict := pd_verdict decision;
  mf_manifest_id := rp_manifest_id profile;
  mf_manifest_version := rp_manifest_version profile;
  mf_profile_id := rp_profile_id profile;
  mf_resolved_profile_digest := rp_resolved_profile_digest profile;
  mf_governance_scope := mc_governance_scope constraint;
  mf_evidence_refs := pd_evidence_refs decision;
  mf_risk_acceptance_ref := pd_risk_acceptance_ref decision |}.

(** _evaluate_verified_profile *)
Definition evaluate_verified_profile (profile : ResolvedManifestProfile) (evidence : EvidenceReferenceContext)
    (as_of : Z) : result (gmap string ManifestFinding) :=
  foldR (fun findings constraint =>
    decision ← evaluate_constraint profile evidence constraint as_of;
    _ ← raise_if (AthenaValidationError "constraint requires typed evidence or gap references")
          (bool_decide (pd_evidence_refs decision = []));
    Ok (<[mc_constraint_id constraint := finding_of profile constraint decision]> findings))
    ∅ (sort_by (fun c => normalized_id (mc_constraint_id c)) (rp_constraints profile)).
End policy.

(** ** The scope check of the evaluator *)
Section scopes.
Context `{PyText} `{!CanonicalJson EvidenceScope}.

(** [text.casefold().startswith(prefix.casefold())] *)
Definition folded_prefix (prefix text : string) : bool := starts_with (casefold prefix) (casefold text).

(** _scope_contains *)
Definition scope_contains (allowed authorized : EvidenceScope) : bool :=
  if String.eqb (canonical_json allowed) (canonical_json authorized) then true
  else
    match allowed, authorized with
    | SubscriptionScope tenant subscription, ResourceGroupScope tenant' subscription' _
    | SubscriptionScope tenant subscription, LogAnalyticsWorkspaceScope tenant' subscription' _ _ =>
        String.eqb tenant tenant' && String.eqb subscription subscription'
    | SubscriptionScope _ subscription, ResourceIdScope resource_id =>
        folded_prefix ("/subscriptions/" +:+ subscription +:+ "/") resource_id
    | ResourceGroupScope _ subscription group, ResourceIdScope resource_id =>
        folded_prefix ("/subscriptions/" +:+ subscription +:+ "/resourceGroups/" +:+ group +:+ "/") resource_id
    | ResourceIdScope allowed_resource, ResourceIdScope authorized_resource =>
        let allowed_id := casefold (rstrip_slash allowed_resource) in
        let authorized_id := casefold (rstrip_slash authorized_resource) in
        String.eqb authorized_id allowed_id || starts_with (allowed_id +:+ "/") authorized_id
    | _, _ => false
    end.
End scopes.

(** ** The evaluator's entry point

    [validate_resolved_profile] stands for [validate_resolved_manifest_profile]
    of contracts/manifest.py, not modelled yet, and [verify_evidence_context]
    is the verifier the caller supplies; [as_of_aware] is
    [as_of.tzinfo is not None and as_of.utcoffset() is not None]. *)
Section evaluator.
Context `{PyText} `{!CanonicalJson EvidenceReference} `{!CanonicalJson EvidenceScope}.
Context (validate_resolved_profile : ResolvedManifestProfile -> Z -> result unit).

(** _validate_evaluation_context *)
Definition validate_evaluation_context (profile : ResolvedManifestProfile)
    (evidence : EvidenceReferenceContext) (as_of_aware : bool) (as_of : Z) : result unit :=
  _ ← guard_or (AthenaValidationError "trusted as_of must be timezone-aware") as_of_aware;
  _ ← validate_resolved_profile profile as_of;
  _ ← raise_if (AthenaValidationError "evidence reference context does not match resolved profile")
        (negb (String.eqb (ec_manifest_id evidence) (rp_manifest_id profile)) ||
         negb (same_id (ec_profile_id evidence) (rp_profile_id profile)) ||
         negb (String.eqb (ec_resolved_profile_digest evidence) (rp_resolved_profile_digest profile)));
  _ ← raise_if (AthenaValidationError "evidence reference context exceeds manifest allowedEvidenceScopes")
        (existsb (fun authorized =>
           negb (existsb (fun allowed => scope_contains allowed authorized)
                   (rp_allowed_evidence_scopes profile))) (ec_authorized_scopes evidence));
  guard_or (AthenaValidationError "evidence reference context is stale at trusted as_of")
    ((ec_collected_at evidence <=? as_of) && (as_of <? ec_expires_at evidence)).

(** evaluate_manifest_profile *)
Definition evaluate_manifest_profile (profile : ResolvedManifestProfile)
    (evidence : EvidenceReferenceContext) (as_of_aware : bool) (as_of : Z)
    (verify_evidence_context : EvidenceReferenceContext -> Z -> result unit)
    : result (gmap string ManifestFinding) :=
  _ ← validate_evaluation_context profile evidence as_of_aware as_of;
  _ ← verify_evidence_context evidence as_of;
  evaluate_verified_profile profile evidence as_of.
End evaluator.

(** ** Evidence up to reordering

    Two evidence contexts are equivalent when they list the same facts and
    bindings in a different order. *)
Record context_equiv (c1 c2 : EvidenceReferenceContext) : Prop := {
  ce_collected_at : ec_collected_at c1 = ec_collected_at c2;
  ce_resources : ec_resources c1 ≡ₚ ec_resources c2;
  ce_relationships : ec_relationships c1 ≡ₚ ec_relationships c2;
  ce_controls : ec_controls c1 ≡ₚ ec_controls c2;
  ce_objectives : ec_objectives c1 ≡ₚ ec_objectives c2;
  ce_role_bindings : ec_role_bindings c1 ≡ₚ ec_role_bindings c2;
}.

#[export] Instance context_equiv_equivalence : Equivalence context_equiv.
Proof.
  split.
  - intros c. by constructor.
  - intros c1 c2 []. by constructor.
  - intros c1 c2 c3 [] []. constructor; by etrans.
Qed.

(** Every gate is a fixed function of the set of gates it merges. *)
#[export] Instance merge_gates_proper : Proper ((≡ₚ) ==> (=)) merge_gates.
Proof.
  intros g1 g2 Hp. unfold merge_gates.
  rewrite (bool_decide_ext (Some VConflicting ∈ g1) (Some VConflicting ∈ g2)) by by rewrite Hp.
  by rewrite (bool_decide_ext (Some VUnknown ∈ g1) (Some VUnknown ∈ g2)) by by rewrite Hp.
Qed.

Lemma merge_gates_None gates :
  merge_gates gates = None <-> Some VConflicting ∉ gates /\ Some VUnknown ∉ gates.
Proof. unfold merge_gates. repeat case_bool_decide; naive_solver. Qed.

Lemma resource_gate_values rs g : resource_gate rs = Some g -> g = VConflicting \/ g = VUnknown.
Proof. unfold resource_gate. repeat case_match; naive_solver. Qed.

Lemma merge_gates_values gates g : merge_gates gates = Some g -> g = VConflicting \/ g = VUnknown.
Proof. unfold merge_gates. repeat case_bool_decide; naive_solver. Qed.

(** A role's resources pass the gate when they exist and every one of them is
    complete and observed. *)
Lemma resource_gate_None rs :
  resource_gate rs = None <->
  rs <> [] /\ forall r, r ∈ rs -> rf_state r = StComplete /\ rf_proof_source r = SrcObserved.
Proof.
  unfold resource_gate. destruct rs as [|r0 rs0]; [naive_solver|]. set (rs := r0 :: rs0).
  split.
  - intros H. split; [done|]. intros r Hr.
    destruct (existsb _ rs) eqn:E1 in H; [done|].
    destruct (existsb _ rs) eqn:E2 in H; [done|].
    destruct (existsb _ rs) eqn:E3 in H; [done|].
    rewrite list_elem_of_In in Hr.
    assert (Hn : forall p, existsb p rs = false -> p r = false).
    { intros p Hp. destruct (p r) eqn:E; [|done].
      by rewrite (proj2 (existsb_exists p rs)) in Hp by eauto. }
    apply Hn in E2, E3. cbn in E2, E3. rewrite negb_false_iff, bool_decide_eq_true in E2.
    rewrite bool_decide_eq_false in E3. by destruct (rf_proof_source r).
  - intros [_ Hall].
    assert (Hn : forall p, (forall r, r ∈ rs -> p r = false) -> existsb p rs = false).
    { intros p Hp. destruct (existsb p rs) eqn:E; [|done].
      apply existsb_exists in E as (r & Hr & E). rewrite <- list_elem_of_In in Hr.
      by rewrite Hp in E. }
    rewrite !Hn; [done|..]; intros r Hr; destruct (Hall r Hr) as [E1 E2]; cbn; by rewrite ?E1, ?E2.
Qed.

Section policy_facts.
Context `{PyText} `{!CanonicalJson EvidenceReference}.

(** The identifier uniqueness that [validate_provenance_binding] establishes. *)
Record unique_ids (c : EvidenceReferenceContext) : Prop := {
  ui_resources : NoDup ((fun r => normalized_id (rf_resource_id r)) <$> ec_resources c);
  ui_relationships : NoDup ((fun r => normalized_id (lf_relationship_ref r)) <$> ec_relationships c);
  ui_controls : NoDup ((fun r => normalized_id (cf_control_ref r)) <$> ec_controls c);
  ui_objectives : NoDup ((fun r => normalized_id (of_objective_ref r)) <$> ec_objectives c);
  ui_role_bindings : NoDup ((fun r => normalized_id (rb_role_ref r)) <$> ec_role_bindings c);
}.

Lemma validated_unique_ids c : validate_provenance_binding c = Ok tt -> unique_ids c.
Proof.
  unfold validate_provenance_binding. cbv beta zeta. intros Hv. inv_ok.
  repeat match goal with Hu : unique _ = true |- _ => apply unique_NoDup in Hu end.
  repeat match goal with
  | Hn : NoDup (_ <$> (_ <$> _)) |- _ => rewrite <- list_fmap_compose in Hn end.
  by constructor.
Qed.

(** Distinct references have distinct canonical JSON texts. *)
Definition references_identified (c : EvidenceReferenceContext) : Prop :=
  forall r1 r2, r1 ∈ all_fact_refs c -> r2 ∈ all_fact_refs c ->
    canonical_json r1 = canonical_json r2 -> r1 = r2.

Lemma all_fact_refs_equiv c1 c2 : context_equiv c1 c2 -> all_fact_refs c1 ≡ₚ all_fact_refs c2.
Proof. intros []. unfold all_fact_refs. repeat apply Permutation_app; by apply fmap_Permutation. Qed.

Lemma all_fact_states_equiv c1 c2 : context_equiv c1 c2 -> all_fact_states c1 ≡ₚ all_fact_states c2.
Proof. intros []. unfold all_fact_states. repeat apply Permutation_app; by apply fmap_Permutation. Qed.

(** A role's bound resources do not depend on the order of the facts. *)
Lemma bound_role_resources_equiv c1 c2 role_ref :
  unique_ids c1 -> context_equiv c1 c2 ->
  bound_role_resources c1 role_ref = bound_role_resources c2 role_ref.
Proof.
  intros Hu Hc. unfold bound_role_resources, same_id.
  assert (Hs : sort_by (fun r => normalized_id (rf_resource_id r))
      (select (fun r => String.eqb (normalized_id (rf_role_ref r)) (normalized_id role_ref)) (ec_resources c1)) =
    sort_by (fun r => normalized_id (rf_resource_id r))
      (select (fun r => String.eqb (normalized_id (rf_role_ref r)) (normalized_id role_ref)) (ec_resources c2))).
  { apply sort_by_permutation; [|apply select_perm, Hc].
    intros x y [Hx _]%elem_of_select [Hy _]%elem_of_select.
    exact (NoDup_fmap_inj_on (fun r => normalized_id (rf_resource_id r)) _ (ui_resources _ Hu) x y Hx Hy). }
  rewrite Hs.
  by rewrite (select_key_perm (fun b => normalized_id (rb_role_ref b)) _ _ _ (ui_role_bindings _ Hu)
    (ce_role_bindings _ _ Hc)).
Qed.

(** Two decisions with the same verdict citing the same evidence. *)
Definition decision_equiv (d1 d2 : PolicyDecision) : Prop :=
  pd_verdict d1 = pd_verdict d2 /\ pd_evidence_refs d1 ≡ₚ pd_evidence_refs d2.

(** [decide_with] cites its references whatever the verdict is. *)
Lemma elem_of_bound_resources c role r :
  r ∈ br_resources (bound_role_resources c role) <->
  r ∈ ec_resources c /\ same_id (rf_role_ref r) role = true.
Proof. cbn. by rewrite elem_of_sort_by, elem_of_select. Qed.

Lemma references_for_resources_incl c groups :
  (forall g, g ∈ groups -> exists role, g = br_resources (bound_role_resources c role)) ->
  forall r, r ∈ references_for_resources groups -> r ∈ all_fact_refs c.
Proof.
  intros Hg r. unfold references_for_resources, all_fact_refs.
  rewrite list_elem_of_fmap. intros (f & -> & Hf).
  rewrite list_elem_of_In, in_concat in Hf. destruct Hf as (g & Hgin & Hf).
  rewrite <- list_elem_of_In in Hgin. rewrite <- list_elem_of_In in Hf.
  destruct (Hg g Hgin) as [role ->]. apply elem_of_bound_resources in Hf as [Hf _].
  apply elem_of_app. left. by apply list_elem_of_fmap_2.
Qed.

Lemma relationship_role_bindings_equiv p c1 c2 ref :
  unique_ids c1 -> context_equiv c1 c2 ->
  relationship_role_bindings p c1 ref = relationship_role_bindings p c2 ref.
Proof.
  intros Hu Hc. unfold relationship_role_bindings. destruct (declared_relationship p ref); [|done].
  cbn. assert (E : forall l : list string, fmap (M := list) (bound_role_resources c1) l = bound_role_resources c2 <$> l).
  { intros l. apply list_fmap_ext. intros _ x _. by apply bound_role_resources_equiv. }
  by rewrite E.
Qed.

Lemma evaluate_freshness_equiv c1 c2 constraint max as_of :
  unique_ids c1 -> context_equiv c1 c2 ->
  decision_equiv (evaluate_freshness c1 constraint max as_of) (evaluate_freshness c2 constraint max as_of).
Proof.
  intros Hu Hc. unfold evaluate_freshness.
  pose proof (all_fact_refs_equiv _ _ Hc) as Hr. pose proof (all_fact_states_equiv _ _ Hc) as Hs.
  rewrite (bool_decide_ext (StConflicting ∈ all_fact_states c1) (StConflicting ∈ all_fact_states c2))
    by (by rewrite Hs).
  rewrite (bool_decide_ext (all_fact_states c1 = []) (all_fact_states c2 = [])).
  2: { split; intros E; rewrite E in Hs;
         [by apply Permutation_nil_l in Hs|by apply Permutation_nil_r in Hs]. }
  rewrite (existsb_perm _ _ _ Hs), (existsb_perm _ _ _ (ce_resources _ _ Hc)),
    (existsb_perm _ _ _ (ce_relationships _ _ Hc)), (ce_collected_at _ _ Hc).
  assert (E : merge_gates ((fun b => br_gate (bound_role_resources c1 (rb_role_ref b))) <$> ec_role_bindings c1)
            = merge_gates ((fun b => br_gate (bound_role_resources c2 (rb_role_ref b))) <$> ec_role_bindings c2)).
  { rewrite <- (fmap_Permutation _ _ _ (ce_role_bindings _ _ Hc)). f_equal.
    apply list_fmap_ext. intros _ b _. by rewrite (bound_role_resources_equiv c1 c2). }
  rewrite E. repeat case_match; split; done.
Qed.

(** The decision a proof variant yields depends on the facts, not on the order
    they are listed in. *)
Lemma evaluate_proof_equiv p c1 c2 constraint as_of :
  unique_ids c1 -> context_equiv c1 c2 ->
  (exists e, evaluate_proof p c1 constraint as_of = Raise e /\ evaluate_proof p c2 constraint as_of = Raise e) \/
  (exists d1 d2, evaluate_proof p c1 constraint as_of = Ok d1 /\
     evaluate_proof p c2 constraint as_of = Ok d2 /\ decision_equiv d1 d2).
Proof.
  intros Hu Hc. unfold evaluate_proof.
  assert (Hb : forall role, bound_role_resources c1 role = bound_role_resources c2 role)
    by (intros; by apply bound_role_resources_equiv).
  destruct (mc_proof_requirement constraint) as [role ex|s a|role m|o|ref|m|ref h|ref cmp t].
  7: { right. eexists _, _. split_and!; [done|done|]. unfold evaluate_control, same_id.
       by rewrite (select_key_perm (fun f => normalized_id (cf_control_ref f)) _ _ _
         (ui_controls _ Hu) (ce_controls _ _ Hc)). }
  7: { right. eexists _, _. split_and!; [done|done|]. unfold evaluate_objective, same_id.
       by rewrite (select_key_perm (fun f => normalized_id (of_objective_ref f)) _ _ _
         (ui_objectives _ Hu) (ce_objectives _ _ Hc)). }
  6: { right. eexists _, _. split_and!; [done|done|]. by apply evaluate_freshness_equiv. }
  5: { unfold evaluate_relationship, same_id.
       rewrite (select_key_perm (fun f => normalized_id (lf_relationship_ref f)) _ _ _
         (ui_relationships _ Hu) (ce_relationships _ _ Hc)),
         (relationship_role_bindings_equiv p c1 c2 ref Hu Hc).
       destruct (relationship_role_bindings p c2 ref) as [[g rs]|e]; cbn; [|by left; eauto].
       right. repeat case_match; eexists _, _; done. }
  all: right; eexists _, _; split_and!; [done|done|].
  - unfold evaluate_cardinality. by rewrite Hb.
  - unfold evaluate_zone_colocation. by rewrite !Hb.
  - unfold evaluate_zone_distribution. by rewrite Hb.
  - unfold evaluate_role_operational_state. by rewrite Hb.
Qed.

Lemma role_required_bindings_equiv c1 c2 role :
  unique_ids c1 -> context_equiv c1 c2 -> role_required_bindings c1 role = role_required_bindings c2 role.
Proof. intros. unfold role_required_bindings. by rewrite (bound_role_resources_equiv c1 c2). Qed.

Lemma matching_acceptance_equiv p c1 c2 constraint as_of :
  unique_ids c1 -> context_equiv c1 c2 ->
  matching_acceptance p c1 constraint as_of = matching_acceptance p c2 constraint as_of.
Proof.
  intros Hu Hc. unfold matching_acceptance, required_resource_bindings.
  destruct (validated_exception_refs p constraint as_of); [|done]. cbn.
  case_decide; [done|]. destruct (proof_role_refs p constraint) as [roles|]; [|done]. cbn.
  assert (E : mapM (role_required_bindings c1) roles = mapM (role_required_bindings c2) roles).
  { apply mapM_ext. intros. by apply role_required_bindings_equiv. }
  by rewrite E.
Qed.

Lemma ordered_bounded_references_equiv rs1 rs2 :
  (forall r1 r2, r1 ∈ rs1 -> r2 ∈ rs1 -> canonical_json r1 = canonical_json r2 -> r1 = r2) ->
  rs1 ≡ₚ rs2 -> ordered_bounded_references rs1 = ordered_bounded_references rs2.
Proof.
  intros Hi Hp. unfold ordered_bounded_references.
  by rewrite (dict_by_permutation canonical_json rs1 rs2) by (auto; intros; by rewrite Hp).
Qed.

(** ** References cited by a decision *)
Lemma cardinality_refs p c k role ex :
  pd_evidence_refs (evaluate_cardinality p c k role ex) =
  references_for_resources [br_resources (bound_role_resources c role)].
Proof. unfold evaluate_cardinality. by repeat (case_match; try done). Qed.

Lemma zone_colocation_refs c k s a :
  pd_evidence_refs (evaluate_zone_colocation c k s a) =
  references_for_resources [br_resources (bound_role_resources c s); br_resources (bound_role_resources c a)].
Proof. unfold evaluate_zone_colocation. by repeat (case_match; try done). Qed.

Lemma zone_distribution_refs c k role m :
  pd_evidence_refs (evaluate_zone_distribution c k role m) =
  references_for_resources [br_resources (bound_role_resources c role)].
Proof. unfold evaluate_zone_distribution. by repeat (case_match; try done). Qed.

Lemma role_operational_state_refs c k o :
  pd_evidence_refs (evaluate_role_operational_state c k o) =
  references_for_resources [br_resources (bound_role_resources c (osp_role_ref o))].
Proof. unfold evaluate_role_operational_state. by repeat (case_match; try done). Qed.

Lemma freshness_refs c k m as_of : pd_evidence_refs (evaluate_freshness c k m as_of) = all_fact_refs c.
Proof. unfold evaluate_freshness. by repeat (case_match; try done). Qed.

Lemma control_refs c k ref h :
  pd_evidence_refs (evaluate_control c k ref h) =
  cf_evidence_ref <$> select (fun f => same_id (cf_control_ref f) ref) (ec_controls c).
Proof. unfold evaluate_control. by repeat (case_match; try done). Qed.

Lemma objective_refs c k ref cmp t :
  pd_evidence_refs (evaluate_objective c k ref cmp t) =
  of_evidence_ref <$> select (fun f => same_id (of_objective_ref f) ref) (ec_objectives c).
Proof. unfold evaluate_objective. by repeat (case_match; try done). Qed.

Lemma relationship_refs p c k ref d :
  evaluate_relationship p c k ref = Ok d ->
  exists g brs, relationship_role_bindings p c ref = Ok (g, brs) /\
    pd_evidence_refs d =
    (lf_evidence_ref <$> sort_by (fun f => canonical_json (lf_evidence_ref f))
      (select (fun f => same_id (lf_relationship_ref f) ref) (ec_relationships c))) ++ brs.
Proof.
  unfold evaluate_relationship.
  destruct (relationship_role_bindings p c ref) as [[g brs]|e]; cbn; [|done].
  intros Hd. exists g, brs. split; [done|]. by repeat (case_match; simplify_eq; try done).
Qed.

(** A decision only cites references of the evidence context. *)
Lemma evaluate_proof_refs p c k as_of d r :
  evaluate_proof p c k as_of = Ok d -> r ∈ pd_evidence_refs d -> r ∈ all_fact_refs c.
Proof.
  unfold evaluate_proof.
  destruct (mc_proof_requirement k) as [role ex|s a|role m|o|ref|m|ref h|ref cmp t].
  5: { intros (g & brs & Hb & ->)%relationship_refs. rewrite elem_of_app. intros [Hr|Hr].
       - apply list_elem_of_fmap in Hr as (f & -> & Hf).
         apply elem_of_sort_by, elem_of_select in Hf as [Hf _].
         unfold all_fact_refs. rewrite !elem_of_app. right; left. by apply list_elem_of_fmap_2.
       - unfold relationship_role_bindings in Hb.
         destruct (declared_relationship p ref); [|done]. cbn in Hb. injection Hb as _ <-.
         eapply references_for_resources_incl; [|done]. intros g' Hg'.
         apply list_elem_of_fmap in Hg' as (b & -> & Hb).
         apply list_elem_of_fmap in Hb as (role & -> & _). eauto. }
  all: intros [= <-].
  1: rewrite cardinality_refs. 2: rewrite zone_colocation_refs. 3: rewrite zone_distribution_refs.
  4: rewrite role_operational_state_refs. 5: by rewrite freshness_refs.
  1-4: apply references_for_resources_incl; intros g; rewrite ?elem_of_cons, elem_of_nil; naive_solver.
  - rewrite control_refs. intros (f & -> & [Hf _]%elem_of_select)%list_elem_of_fmap.
    unfold all_fact_refs. rewrite !elem_of_app. do 2 right; left. by apply list_elem_of_fmap_2.
  - rewrite objective_refs. intros (f & -> & [Hf _]%elem_of_select)%list_elem_of_fmap.
    unfold all_fact_refs. rewrite !elem_of_app. do 3 right. by apply list_elem_of_fmap_2.
Qed.

Lemma evaluate_constraint_equiv p c1 c2 k as_of :
  unique_ids c1 -> references_identified c1 -> context_equiv c1 c2 ->
  evaluate_constraint p c1 k as_of = evaluate_constraint p c2 k as_of.
Proof.
  intros Hu Hi Hc. unfold evaluate_constraint.
  destruct (evaluate_proof_equiv p c1 c2 k as_of Hu Hc)
    as [(e & -> & ->)|(d1 & d2 & E1 & E2 & Hv & Hr)]; [done|].
  rewrite E1, E2. unfold mbind, result_bind. rewrite Hv, (ordered_bounded_references_equiv _ (pd_evidence_refs d2)); [|..|done].
  - by rewrite (matching_acceptance_equiv p c1 c2 k as_of Hu Hc).
  - intros r1 r2 H1 H2. apply Hi; by eapply evaluate_proof_refs.
Qed.
End policy_facts.
