(* ===== verification/PolicyProps.v ===== *)
(** * PolicyProps: what policy evaluation guarantees

    Evaluation does not depend on the order of evidence, fails closed on missing
    or conflicting bindings, and accepts residual risk only for an active, exactly
    scoped acceptance. [Demo] is a workload the witnesses evaluate. *)
From stdpp Require Import pretty.
From S2P Require Import Prelude Text Manifest Policy.
Local Open Scope Z_scope.

(** Verdicts that no proof variant decides by itself. *)
Lemma gate_not_accepted gates g : merge_gates gates = Some g -> g <> VAcceptedResidualRisk.
Proof. by intros [-> | ->]%merge_gates_values. Qed.

Lemma failure_not_accepted v : failure_verdict_value v <> VAcceptedResidualRisk.
Proof. by destruct v. Qed.

Lemma success_not_accepted v : success_verdict_value v <> VAcceptedResidualRisk.
Proof. by destruct v. Qed.

#[export] Hint Resolve gate_not_accepted failure_not_accepted success_not_accepted : athena.

(** [case_all]: split a decision into the branches of its definition. *)
Ltac case_all := repeat (case_match; simplify_eq/=; try done).

Section props.
Context `{PyText} `{!CanonicalJson EvidenceReference}.

Lemma relationship_gate_values p c ref g brs :
  relationship_role_bindings p c ref = Ok (Some g, brs) -> g = VConflicting \/ g = VUnknown.
Proof.
  unfold relationship_role_bindings. destruct (declared_relationship p ref); [|done]. cbn.
  intros [= Hg _]. by eapply merge_gates_values.
Qed.

Lemma evaluate_proof_not_accepted p c k as_of d :
  evaluate_proof p c k as_of = Ok d -> pd_verdict d <> VAcceptedResidualRisk.
Proof.
  unfold evaluate_proof.
  destruct (mc_proof_requirement k) as [role ex|s a|role m|o|ref|m|ref h|ref cmp t].
  5: { unfold evaluate_relationship.
       destruct (relationship_role_bindings p c ref) as [[g brs]|e] eqn:E; [|done].
       unfold mbind, result_bind. destruct g as [g|]; intros Hd.
       - apply relationship_gate_values in E. case_all; naive_solver.
       - case_all; eauto with athena. }
  all: intros [= <-]; unfold evaluate_cardinality, evaluate_zone_colocation,
    evaluate_zone_distribution, evaluate_role_operational_state, evaluate_freshness,
    evaluate_control, evaluate_objective; case_all; eauto with athena.
Qed.

(** ** The evidence a role needs before a verdict about it is determinate *)

(** Exactly one binding names the role, it is complete, it selects exactly the
    resources recorded for the role, there is at least one of them, and each
    is complete and observed. *)
Record role_evidenced (c : EvidenceReferenceContext) (role : string) : Prop := {
  re_binding : exists b, select (fun b => same_id (rb_role_ref b) role) (ec_role_bindings c) = [b] /\
    rb_state b = StComplete /\
    forall id, id ∈ normalized_id <$> rb_selected_resource_ids b <->
      exists r, r ∈ ec_resources c /\ same_id (rf_role_ref r) role = true /\ id = normalized_id (rf_resource_id r);
  re_nonempty : exists r, r ∈ ec_resources c /\ same_id (rf_role_ref r) role = true;
  re_complete : forall r, r ∈ ec_resources c -> same_id (rf_role_ref r) role = true ->
    rf_state r = StComplete /\ rf_proof_source r = SrcObserved;
}.

Lemma bound_gate_None c role :
  br_gate (bound_role_resources c role) = None ->
  exists b, select (fun b => same_id (rb_role_ref b) role) (ec_role_bindings c) = [b] /\
    rb_state b = StComplete /\
    forall id, id ∈ normalized_id <$> rb_selected_resource_ids b <->
      exists r, r ∈ ec_resources c /\ same_id (rf_role_ref r) role = true /\ id = normalized_id (rf_resource_id r).
Proof.
  cbn. destruct (select _ (ec_role_bindings c)) as [|b [|]] eqn:E; [done| |done].
  destruct (rb_state b) eqn:Es; try done. case_decide as Hd; [|done]. intros _.
  exists b. split_and!; [done|done|]. intros id.
  rewrite <- (elem_of_list_to_set (C := gset string)), Hd, elem_of_list_to_set, list_elem_of_fmap.
  setoid_rewrite elem_of_sort_by. setoid_rewrite elem_of_select. naive_solver.
Qed.

Lemma br_gate_values c role g :
  br_gate (bound_role_resources c role) = Some g -> g = VConflicting \/ g = VUnknown.
Proof. cbn. repeat case_match; naive_solver. Qed.

Lemma gates_evidenced c role :
  Some VConflicting ∉ [br_gate (bound_role_resources c role); resource_gate (br_resources (bound_role_resources c role))] ->
  Some VUnknown ∉ [br_gate (bound_role_resources c role); resource_gate (br_resources (bound_role_resources c role))] ->
  role_evidenced c role.
Proof.
  intros Hc Hu.
  assert (Hb : br_gate (bound_role_resources c role) = None).
  { destruct (br_gate _) as [g|] eqn:E; [|done]. exfalso.
    destruct (br_gate_values _ _ _ E) as [-> | ->]; set_solver. }
  assert (Hr : resource_gate (br_resources (bound_role_resources c role)) = None).
  { destruct (resource_gate _) as [g|] eqn:E; [|done]. exfalso.
    destruct (resource_gate_values _ _ E) as [-> | ->]; set_solver. }
  apply resource_gate_None in Hr as [Hne Hall]. split.
  - by apply bound_gate_None.
  - destruct (br_resources (bound_role_resources c role)) as [|r rs] eqn:E; [done|].
    exists r. apply elem_of_bound_resources. rewrite E. left.
  - intros r Hr Hs. apply Hall, elem_of_bound_resources. done.
Qed.

Lemma gate_evidenced c role :
  merge_gates [br_gate (bound_role_resources c role); resource_gate (br_resources (bound_role_resources c role))] = None ->
  role_evidenced c role.
Proof. intros [? ?]%merge_gates_None. by apply gates_evidenced. Qed.

(** Verdicts that fail closed. *)
Definition indeterminate (v : FindingVerdict) : Prop := v = VUnknown \/ v = VConflicting.

Lemma gate_indeterminate gates g : merge_gates gates = Some g -> indeterminate g.
Proof. unfold indeterminate. by intros [-> | ->]%merge_gates_values; [right|left]. Qed.

(** A determinate decision of a proof about roles needs every role evidenced. *)
Lemma evaluate_proof_evidenced p c k as_of d roles role :
  evaluate_proof p c k as_of = Ok d -> ~ indeterminate (pd_verdict d) ->
  proof_role_refs p k = Ok roles -> role ∈ roles -> role_evidenced c role.
Proof.
  unfold evaluate_proof, proof_role_refs. intros Hd Hi Hroles Hrole.
  destruct (mc_proof_requirement k) as [r0 ex|s a|r0 m|o|ref|m|ref h|ref cmp t]; simplify_eq.
  7-8: by apply elem_of_nil in Hrole.
  6: by apply elem_of_nil in Hrole.
  - apply list_elem_of_singleton in Hrole as ->. apply gate_evidenced.
    unfold evaluate_cardinality in Hi. destruct (merge_gates _) as [g|] eqn:E; [|done].
    by apply gate_indeterminate in E.
  - unfold evaluate_zone_colocation in Hi. destruct (merge_gates _) as [g|] eqn:E.
    { by apply gate_indeterminate in E. }
    apply merge_gates_None in E as [E1 E2].
    rewrite elem_of_cons, list_elem_of_singleton in Hrole.
    destruct Hrole as [-> | ->]; apply gates_evidenced; set_solver.
  - apply list_elem_of_singleton in Hrole as ->. apply gate_evidenced.
    unfold evaluate_zone_distribution in Hi. destruct (merge_gates _) as [g|] eqn:E; [|done].
    by apply gate_indeterminate in E.
  - apply list_elem_of_singleton in Hrole as ->. apply gate_evidenced.
    unfold evaluate_role_operational_state in Hi. destruct (merge_gates _) as [g|] eqn:E; [|done].
    by apply gate_indeterminate in E.
  - destruct (declared_relationship p ref) as [dr|] eqn:Edr; [|done]. cbn in Hroles. simplify_eq.
    unfold evaluate_relationship, relationship_role_bindings in Hd. rewrite Edr in Hd.
    unfold mbind, result_bind in Hd.
    destruct (existsb _ _); [by simplify_eq; destruct Hi; right|].
    destruct (merge_gates _) as [g|] eqn:E.
    { simplify_eq. by apply gate_indeterminate in E. }
    apply merge_gates_None in E as [E1 E2].
    destruct (dict_by_is_Some normalized_id (endpoint_roles dr) role Hrole) as [role' Hr'].
    assert (Hsame : normalized_id role' = normalized_id role)
      by by destruct (dict_by_lookup_Some _ _ _ _ Hr').
    enough (role_evidenced c role') as [Hb Hn Hc'].
    { unfold same_id in *. rewrite Hsame in *. by split. }
    set (g := [br_gate (bound_role_resources c role');
               resource_gate (br_resources (bound_role_resources c role'))]).
    assert (Hsub : forall x, x ∈ g -> x ∈ concat ((fun b => [br_gate b; resource_gate (br_resources b)]) <$>
      (bound_role_resources c <$> sort_by normalized_id (snd <$> map_to_list (dict_by normalized_id (endpoint_roles dr)))))).
    { intros x Hx. rewrite list_elem_of_In, in_concat. exists g.
      rewrite <- !list_elem_of_In. split; [|done].
      apply list_elem_of_fmap. exists (bound_role_resources c role'). split; [done|].
      apply list_elem_of_fmap_2, elem_of_sort_by, list_elem_of_fmap.
      exists (normalized_id role, role'). split; [done|]. by apply elem_of_map_to_list. }
    apply gates_evidenced; intros Hx; [by apply E1, Hsub|by apply E2, Hsub].
Qed.

(** ** The shape of a successful evaluation *)
Lemma evaluate_constraint_Ok p c k as_of d :
  evaluate_constraint p c k as_of = Ok d ->
  exists d0 refs over verdict acceptance,
    evaluate_proof p c k as_of = Ok d0 /\
    ordered_bounded_references (pd_evidence_refs d0) = (refs, over) /\
    verdict = (if over && negb (bool_decide (pd_verdict d0 = VConflicting)) then VUnknown else pd_verdict d0) /\
    (if acceptance_eligible k verdict then matching_acceptance p c k as_of else Ok None) = Ok acceptance /\
    d = {| pd_verdict := match acceptance with Some _ => VAcceptedResidualRisk | None => verdict end;
           pd_evidence_refs := refs; pd_risk_acceptance_ref := ra_risk_acceptance_id <$> acceptance |}.
Proof.
  unfold evaluate_constraint. intros Hd. apply bind_Ok in Hd as (d0 & Hd0 & Hd).
  destruct (ordered_bounded_references (pd_evidence_refs d0)) as [refs over] eqn:Er.
  apply bind_Ok in Hd as (acc & Hacc & [= <-]). by eexists d0, refs, over, _, acc.
Qed.

Lemma acceptance_eligible_true k v :
  acceptance_eligible k v = true ->
  v = VViolation /\ normalized_id (mc_constraint_id k) <> "db-singleton-supported" /\
  acceptance_semantics_are_eligible k = true.
Proof.
  unfold acceptance_eligible. intros Hv. inv_ok.
  split_and!; [by eapply bool_decide_eq_true|by apply String.eqb_neq|done].
Qed.

(** The identifiers an acceptance may be referenced by. *)
Definition acceptance_referenced (p : ResolvedManifestProfile) (k : ManifestConstraint) (as_of : Z)
    (id : string) : Prop :=
  (exists ref, mc_risk_acceptance_ref k = Some ref /\ normalized_id ref = id) \/
  (exists x, Exception x ∈ rp_relationships p /\ as_of < xr_expires_at x /\
     exception_governed p k x = true /\ normalized_id (xr_risk_acceptance_ref x) = id).

Lemma validated_exception_refs_sound p k as_of refs id :
  validated_exception_refs p k as_of = Ok refs -> id ∈ refs ->
  exists x, Exception x ∈ rp_relationships p /\ as_of < xr_expires_at x /\
     exception_governed p k x = true /\ normalized_id (xr_risk_acceptance_ref x) = id.
Proof.
  unfold validated_exception_refs. intros Hr. apply bind_Ok in Hr as (pr & _ & Hr). revert Hr.
  assert (Hgen : forall l acc, (forall x, x ∈ l -> x ∈ rp_relationships p) ->
    foldR (fun acc relationship =>
      match relationship with
      | Declared _ => Ok acc
      | Exception r =>
          if negb (exception_applies pr k r) then Ok acc
          else if xr_expires_at r <=? as_of then Ok acc
          else if negb (exception_governed p k r)
          then Raise (AthenaValidationError "exception overlay does not exactly match constraint governance")
          else Ok ({[ normalized_id (xr_risk_acceptance_ref r) ]} ∪ acc)
      end) acc l = Ok refs -> id ∈ refs -> id ∈ acc \/
    exists x, Exception x ∈ rp_relationships p /\ as_of < xr_expires_at x /\
     exception_governed p k x = true /\ normalized_id (xr_risk_acceptance_ref x) = id).
  { induction l as [|r l IH]; cbn; intros acc Hin Hf Hid; [left; by injection Hf as ->|].
    assert (Hl : forall x, x ∈ l -> x ∈ rp_relationships p) by (intros; apply Hin; by right).
    apply bind_Ok in Hf as (acc' & Hacc' & Hf).
    destruct (IH _ Hl Hf Hid) as [Hid'|?]; [|by right].
    destruct r as [dr|x]; [left; by injection Hacc' as ->|].
    destruct (negb _) in Hacc'; [left; by injection Hacc' as ->|].
    destruct (xr_expires_at x <=? as_of) eqn:Ee; [left; by injection Hacc' as ->|].
    destruct (exception_governed p k x) eqn:Eg; [|done]. injection Hacc' as <-.
    apply elem_of_union in Hid' as [Hid'%elem_of_singleton|?]; [|by left].
    right. exists x. split_and!; [apply Hin; left|lia|done|done]. }
  intros Hf Hid. destruct (Hgen _ _ (fun _ Hx => Hx) Hf Hid) as [?%not_elem_of_empty|?]; [done|done].
Qed.

Lemma mapM_role_bindings c roles sets :
  mapM (role_required_bindings c) roles = Some sets ->
  forall pair, pair ∈ ⋃ sets <-> exists role r, role ∈ roles /\ r ∈ ec_resources c /\
    same_id (rf_role_ref r) role = true /\ pair = (normalized_id role, normalized_id (rf_resource_id r)).
Proof.
  intros Hm pair. apply mapM_Some in Hm. rewrite elem_of_union_list.
  assert (Hone : forall role s, role_required_bindings c role = Some s ->
    (pair ∈ s <-> exists r, r ∈ ec_resources c /\ same_id (rf_role_ref r) role = true /\
      pair = (normalized_id role, normalized_id (rf_resource_id r)))).
  { intros role s. unfold role_required_bindings. destruct (merge_gates _); [done|].
    destruct (br_resources (bound_role_resources c role)) as [|r0 rs] eqn:E; [done|].
    intros Hs. assert (s = list_to_set ((fun r => (normalized_id role, normalized_id (rf_resource_id r)))
      <$> br_resources (bound_role_resources c role))) as -> by (rewrite E; by injection Hs).
    rewrite elem_of_list_to_set, list_elem_of_fmap.
    setoid_rewrite elem_of_bound_resources. naive_solver. }
  clear -Hm Hone. induction Hm as [|role s roles sets Hs Hm IH].
  - split; [intros (X & ?%elem_of_nil & _); done|intros (role & r & ?%elem_of_nil & _); done].
  - setoid_rewrite elem_of_cons. specialize (Hone _ _ Hs). destruct IH as [IH1 IH2]. split.
    + intros (X & [-> | HX] & Hp).
      * apply Hone in Hp as (r & ? & ? & ?). exists role, r. auto.
      * destruct IH1 as (role' & r & ? & ? & ? & ?); [by exists X|]. exists role', r. auto.
    + intros (role' & r & [-> | Hr] & Hrest).
      * exists s. split; [by left|]. apply Hone. eauto.
      * destruct IH2 as (X & ? & ?); [by exists role', r|]. exists X. auto.
Qed.

Lemma role_required_evidenced c role s : role_required_bindings c role = Some s -> role_evidenced c role.
Proof.
  unfold role_required_bindings. destruct (merge_gates _) eqn:E; [done|]. intros _. by apply gate_evidenced.
Qed.

Lemma matching_acceptance_sound p c k as_of a :
  matching_acceptance p c k as_of = Ok (Some a) ->
  a ∈ rp_risk_acceptances p /\
  is_active a as_of (rp_manifest_id p) (rp_profile_id p) (acceptance_clause_path k) (mc_owner_ref k) = true /\
  acceptance_referenced p k as_of (normalized_id (ra_risk_acceptance_id a)) /\
  exists roles, proof_role_refs p k = Ok roles /\ (forall role, role ∈ roles -> role_evidenced c role) /\
    forall pair, pair ∈ binding_key <$> ra_accepted_resource_bindings a <->
      exists role r, role ∈ roles /\ r ∈ ec_resources c /\ same_id (rf_role_ref r) role = true /\
        pair = (normalized_id role, normalized_id (rf_resource_id r)).
Proof.
  unfold matching_acceptance, required_resource_bindings. intros Hm.
  apply bind_Ok in Hm as (xrefs & Hx & Hm). case_decide; [done|].
  apply bind_Ok in Hm as (req & Hreq & Hm). apply bind_Ok in Hreq as (roles & Hroles & Hreq).
  injection Hreq as <-. destruct roles as [|role0 roles0]; [done|].
  destruct (mapM _ _) as [sets|] eqn:Es; [|done]. cbn in Hm.
  destruct (select _ _) as [|a' [|]] eqn:Esel; [done| |done]. injection Hm as ->.
  assert (Ha : a ∈ [a]) by left. rewrite <- Esel in Ha. apply elem_of_select in Ha as [Ha Hmatch].
  unfold acceptance_matches in Hmatch. inv_ok.
  repeat match goal with Hb : bool_decide _ = true |- _ => apply bool_decide_eq_true in Hb end.
  split_and!; [done|done| |].
  - destruct (mc_risk_acceptance_ref k) as [ref|] eqn:Eref.
    + match goal with Hin : _ ∈ {[ _ ]} ∪ _ |- _ => apply elem_of_union in Hin as [Hin|Hin] end.
      * left. exists ref. split; [done|]. set_solver.
      * right. by eapply validated_exception_refs_sound.
    + right. by eapply validated_exception_refs_sound.
  - exists (role0 :: roles0). split_and!; [done| |].
    + intros role Hr. apply mapM_Some in Es.
      apply Forall2_flip in Es. rewrite list_elem_of_In in Hr. clear -Es Hr.
      induction Es as [|s r sets rs Hs Es IH]; [done|]. destruct Hr as [-> | Hr]; [|auto].
      by eapply role_required_evidenced.
    + intros pair. rewrite <- (mapM_role_bindings _ _ _ Es).
      match goal with He : list_to_set _ = _ |- _ => rewrite <- He end.
      by rewrite elem_of_list_to_set.
Qed.

Lemma ordered_references_spec rs refs over :
  ordered_bounded_references rs = (refs, over) ->
  (length refs <= 1000)%nat /\ NoDup (canonical_json <$> refs) /\
  StronglySorted (le_by id) (canonical_json <$> refs) /\
  (forall r, r ∈ refs -> r ∈ rs) /\
  (over = false -> forall r, r ∈ rs -> exists r', r' ∈ refs /\ canonical_json r' = canonical_json r).
Proof.
  unfold ordered_bounded_references. intros [= <- <-].
  set (vs := sorted_values (dict_by canonical_json rs)).
  assert (Hk : canonical_json <$> vs = sorted_keys (dict_by canonical_json rs)) by apply dict_by_values_keys.
  assert (Hs : canonical_json <$> vs = (canonical_json <$> take 1000 vs) ++ (canonical_json <$> drop 1000 vs))
    by (by rewrite <- fmap_app, take_drop).
  split_and!.
  - rewrite length_take. lia.
  - pose proof (NoDup_sorted_keys (dict_by canonical_json rs)) as Hn.
    rewrite <- Hk, Hs in Hn. by apply NoDup_app in Hn as [? _].
  - pose proof (sort_by_sorted id (elements (dom (dict_by canonical_json rs)))) as Hn.
    change (StronglySorted (le_by id) (sorted_keys (dict_by canonical_json rs))) in Hn.
    rewrite <- Hk, Hs in Hn. by eapply StronglySorted_app_1_l.
  - intros r Hr. apply (elem_of_dict_values canonical_json). fold vs.
    rewrite <- (take_drop 1000 vs). set_solver.
  - intros Ho r Hr. destruct (dict_by_is_Some canonical_json rs r Hr) as [r' Hr'].
    exists r'. split; [|by apply dict_by_lookup_Some in Hr' as [_ ?]].
    rewrite take_ge by (apply Z.ltb_ge in Ho; lia).
    apply (elem_of_sorted_values canonical_json). exists (canonical_json r). exact Hr'.
Qed.

Lemma constraint_references_bound p c k as_of d :
  evaluate_constraint p c k as_of = Ok d -> (length (pd_evidence_refs d) <= 1000)%nat.
Proof.
  intros (d0 & refs & over & v & acc & Hd0 & Hr & Hv & Hacc & ->)%evaluate_constraint_Ok; cbn.
  by apply ordered_references_spec in Hr as [? _].
Qed.

(** C37: the findings of a profile do not depend on the order in which the
    evidence context lists its facts and role bindings. *)
Theorem evaluate_verified_profile_order_independent p c1 c2 as_of :
  validate_provenance_binding c1 = Ok tt -> references_identified c1 -> context_equiv c1 c2 ->
  evaluate_verified_profile p c1 as_of = evaluate_verified_profile p c2 as_of.
Proof.
  intros Hu%validated_unique_ids Hi Hc. unfold evaluate_verified_profile.
  generalize (∅ : gmap string ManifestFinding).
  induction (sort_by _ (rp_constraints p)) as [|k ks IH]; intros fs; cbn [foldR]; [done|].
  rewrite (evaluate_constraint_equiv p c1 c2 k as_of Hu Hi Hc).
  destruct (evaluate_constraint p c2 k as_of) as [d|e]; [|done]. unfold mbind, result_bind.
  destruct (raise_if _ _); [|done]. apply IH.
Qed.

(** C38: a residual risk is reported as accepted only when the constraint is
    violated and of an eligible kind, every role of its proof is backed by
    complete observed evidence, and one active approved acceptance of the
    profile, referenced by the constraint or by an unexpired governed
    exception, covers exactly the observed role/resource pairs. *)
Theorem accepted_residual_risk_sound p c k as_of d :
  evaluate_constraint p c k as_of = Ok d -> pd_verdict d = VAcceptedResidualRisk ->
  exists a roles,
    a ∈ rp_risk_acceptances p /\ pd_risk_acceptance_ref d = Some (ra_risk_acceptance_id a) /\
    ra_status a = AsApproved /\ ra_accepted_at a <= as_of < ra_expires_at a /\
    ra_owned_by a = mc_owner_ref k /\
    cs_manifest_id (ra_governance_scope a) = rp_manifest_id p /\
    cs_clause_path (ra_governance_scope a) = acceptance_clause_path k /\
    acceptance_referenced p k as_of (normalized_id (ra_risk_acceptance_id a)) /\
    normalized_id (mc_constraint_id k) <> "db-singleton-supported" /\
    acceptance_semantics_are_eligible k = true /\
    (exists d0, evaluate_proof p c k as_of = Ok d0 /\ pd_verdict d0 = VViolation) /\
    proof_role_refs p k = Ok roles /\ (forall role, role ∈ roles -> role_evidenced c role) /\
    forall pair, pair ∈ binding_key <$> ra_accepted_resource_bindings a <->
      exists role r, role ∈ roles /\ r ∈ ec_resources c /\ same_id (rf_role_ref r) role = true /\
        pair = (normalized_id role, normalized_id (rf_resource_id r)).
Proof.
  intros (d0 & refs & over & v & acc & Hd0 & Hr & Hv & Hacc & ->)%evaluate_constraint_Ok; cbn.
  intros Hver.
  assert (Hv0 : v = pd_verdict d0 \/ v = VUnknown) by (rewrite Hv; destruct (over && _); auto).
  destruct acc as [a|]; cbn in *.
  2: { exfalso. destruct Hv0 as [E|E]; [|congruence].
       apply (evaluate_proof_not_accepted _ _ _ _ _ Hd0). congruence. }
  destruct (acceptance_eligible k v) eqn:He; [|done].
  apply acceptance_eligible_true in He as (-> & Hid & Hsem).
  apply matching_acceptance_sound in Hacc as (Ha & Hact & Href & roles & Hroles & Hev & Hpairs).
  exists a, roles. unfold is_active in Hact. inv_ok.
  repeat match goal with
  | Hb : String.eqb _ _ = true |- _ => apply String.eqb_eq in Hb
  | Hb : bool_decide _ = true |- _ => apply bool_decide_eq_true in Hb end.
  split_and!; try done; try lia. exists d0. split; [done|]. destruct Hv0; congruence.
Qed.

(** an acceptance is cited exactly when the verdict says so. *)
Theorem acceptance_cited_iff p c k as_of d :
  evaluate_constraint p c k as_of = Ok d ->
  pd_verdict d = VAcceptedResidualRisk <-> is_Some (pd_risk_acceptance_ref d).
Proof.
  intros (d0 & refs & over & v & acc & Hd0 & Hr & Hv & Hacc & ->)%evaluate_constraint_Ok; cbn.
  destruct acc as [a|]; cbn; [split; [by eexists|done]|].
  split; [|by intros [? ?]]. intros ->. exfalso.
  apply (evaluate_proof_not_accepted _ _ _ _ _ Hd0). destruct (over && _); congruence.
Qed.

(** C39: evaluation fails closed: unless every role of the proof has exactly
    one complete binding that selects exactly its recorded resources, all of
    them complete and observed, the verdict is unknown or conflicting. *)
Theorem evaluate_constraint_fails_closed p c k as_of d roles role :
  evaluate_constraint p c k as_of = Ok d -> proof_role_refs p k = Ok roles ->
  role ∈ roles -> ~ role_evidenced c role -> pd_verdict d = VUnknown \/ pd_verdict d = VConflicting.
Proof.
  intros Hd Hroles Hrole Hnot.
  destruct (decide (pd_verdict d = VUnknown \/ pd_verdict d = VConflicting)) as [|Hi]; [done|].
  exfalso. apply Hnot.
  apply evaluate_constraint_Ok in Hd as (d0 & refs & over & v & acc & Hd0 & Hr & Hv & Hacc & ->).
  cbn in Hi. eapply evaluate_proof_evidenced; [exact Hd0| |exact Hroles|exact Hrole].
  destruct acc as [a|].
  - destruct (acceptance_eligible k v) eqn:He; [|done].
    apply acceptance_eligible_true in He as (E & _). rewrite E in Hv.
    unfold indeterminate. destruct (over && _); [done|]. rewrite <- Hv. naive_solver.
  - unfold indeterminate. intros Hind. apply Hi. subst v. destruct (over && _); auto.
Qed.

(** the cited evidence is canonical: at most 1000 references, in strictly
    increasing order of their canonical JSON, all of them evidence of the
    context; and when the proof's evidence was cut, the verdict is unknown or
    conflicting. *)
Theorem constraint_references_canonical p c k as_of d :
  evaluate_constraint p c k as_of = Ok d ->
  (length (pd_evidence_refs d) <= 1000)%nat /\
  NoDup (canonical_json <$> pd_evidence_refs d) /\
  StronglySorted (le_by id) (canonical_json <$> pd_evidence_refs d) /\
  (forall r, r ∈ pd_evidence_refs d -> r ∈ all_fact_refs c) /\
  exists d0, evaluate_proof p c k as_of = Ok d0 /\
    ((forall r, r ∈ pd_evidence_refs d0 -> exists r', r' ∈ pd_evidence_refs d /\ canonical_json r' = canonical_json r)
     \/ pd_verdict d = VUnknown \/ pd_verdict d = VConflicting).
Proof.
  intros (d0 & refs & over & v & acc & Hd0 & Hr & Hv & Hacc & ->)%evaluate_constraint_Ok; cbn.
  destruct (ordered_references_spec _ _ _ Hr) as (Hl & Hn & Hs & Hin & Hall).
  split_and!; [done|done|done| |].
  - intros r ?. eapply evaluate_proof_refs; [exact Hd0|auto].
  - exists d0. split; [done|]. destruct over; [|left; auto]. right.
    assert (Hiv : v = VUnknown \/ v = VConflicting) by (subst v; cbn; case_bool_decide; cbn; auto).
    assert (He : acceptance_eligible k v = false).
    { destruct (acceptance_eligible k v) eqn:He; [|done].
      apply acceptance_eligible_true in He as [-> _]. by destruct Hiv. }
    rewrite He in Hacc. injection Hacc as <-. done.
Qed.

Lemma gate_evidenced_iff c role :
  merge_gates [br_gate (bound_role_resources c role); resource_gate (br_resources (bound_role_resources c role))] = None
  <-> role_evidenced c role.
Proof.
  split; [apply gate_evidenced|]. intros [(b & Eb & Es & Hsel) [r0 [Hr0 Hs0]] Hall].
  assert (Hbr : br_gate (bound_role_resources c role) = None).
  { cbn. rewrite Eb, Es. rewrite decide_True; [done|]. apply set_eq. intros id.
    rewrite !elem_of_list_to_set, Hsel, list_elem_of_fmap.
    setoid_rewrite elem_of_sort_by. setoid_rewrite elem_of_select. naive_solver. }
  assert (Hrg : resource_gate (br_resources (bound_role_resources c role)) = None).
  { apply resource_gate_None. split.
    - intros E. assert (Hin : r0 ∈ br_resources (bound_role_resources c role))
        by by apply elem_of_bound_resources. rewrite E in Hin. by apply elem_of_nil in Hin.
    - intros r [Hr Hs]%elem_of_bound_resources. auto. }
  rewrite Hbr, Hrg. done.
Qed.

Lemma spof_decision p c k role ex r :
  mc_finding_kind k ∈ [FkActualSpof; FkRiskAcceptance] -> role_evidenced c role ->
  br_resources (bound_role_resources c role) = [r] -> rf_availability_zone r <> ZoneUnknown ->
  evaluate_cardinality p c k role ex =
  decide_with (if rp_zone_loss_continuity_required p then VViolation else VObservation) [rf_evidence_ref r].
Proof.
  intros Hk Hev Er Hz. apply gate_evidenced_iff in Hev. unfold evaluate_cardinality. rewrite Hev, Er.
  rewrite (bool_decide_eq_true_2 _ Hk), orb_true_r. unfold has_unknown_zone, zones.
  cbn [existsb list_fmap fmap]. rewrite bool_decide_eq_false_2 by done. cbn.
  rewrite union_empty_r_L, size_singleton. destruct (cardinality_bounds ex).
  by destruct (rp_zone_loss_continuity_required p).
Qed.

(** The same evidence supports different, correct conclusions for
    different profiles: a lone resource in a known zone is a violation (or an
    accepted residual risk) where zone-loss continuity is required, and an
    observation where it is not, citing the same evidence. *)
Theorem same_evidence_different_profiles pp pd c k as_of role ex r dp dd :
  rp_zone_loss_continuity_required pp = true -> rp_zone_loss_continuity_required pd = false ->
  mc_finding_kind k ∈ [FkActualSpof; FkRiskAcceptance] ->
  mc_proof_requirement k = CardinalityProof role ex ->
  role_evidenced c role -> br_resources (bound_role_resources c role) = [r] ->
  rf_availability_zone r <> ZoneUnknown ->
  evaluate_constraint pp c k as_of = Ok dp -> evaluate_constraint pd c k as_of = Ok dd ->
  (pd_verdict dp = VViolation \/ pd_verdict dp = VAcceptedResidualRisk) /\
  pd_verdict dd = VObservation /\ pd_evidence_refs dp = pd_evidence_refs dd.
Proof.
  intros Hp Hd Hk Hproof Hev Er Hz.
  intros (d0 & refs & over & v & acc & Hd0 & Hr & Hv & Hacc & ->)%evaluate_constraint_Ok.
  intros (d0' & refs' & over' & v' & acc' & Hd0' & Hr' & Hv' & Hacc' & ->)%evaluate_constraint_Ok.
  unfold evaluate_proof in Hd0, Hd0'. rewrite Hproof in Hd0, Hd0'.
  rewrite (spof_decision pp c k role ex r Hk Hev Er Hz), Hp in Hd0.
  rewrite (spof_decision pd c k role ex r Hk Hev Er Hz), Hd in Hd0'.
  injection Hd0 as <-. injection Hd0' as <-. cbn in Hr, Hr', Hv, Hv'.
  assert (over = false) as ->.
  { unfold ordered_bounded_references in Hr. injection Hr as _ <-. apply Z.ltb_ge.
    assert (Hone : forall r', r' ∈ sorted_values (dict_by canonical_json [rf_evidence_ref r]) -> r' = rf_evidence_ref r)
      by (intros r' ?%elem_of_dict_values; set_solver).
    pose proof (NoDup_sorted_keys (dict_by canonical_json [rf_evidence_ref r])) as Hn.
    rewrite <- dict_by_values_keys in Hn.
    destruct (sorted_values _) as [|x [|y t]]; cbn; [lia..|].
    rewrite (Hone x), (Hone y) in Hn by set_solver. cbn in Hn. apply NoDup_cons in Hn as [Hn _]. set_solver. }
  rewrite Hr in Hr'. injection Hr' as <- <-. cbn in Hv, Hv'. subst v v'.
  cbn in Hacc'. injection Hacc' as <-. cbn. destruct acc; auto.
Qed.

(** every constraint of the profile gets exactly one finding, the one its
    evaluation decides, citing between 1 and 1000 references as the
    [ManifestFinding] contract requires. *)
Theorem verified_profile_findings p c as_of fs :
  evaluate_verified_profile p c as_of = Ok fs ->
  NoDup (mc_constraint_id <$> rp_constraints p) ->
  dom fs = list_to_set (mc_constraint_id <$> rp_constraints p) /\
  forall k, k ∈ rp_constraints p -> exists d, evaluate_constraint p c k as_of = Ok d /\
    fs !! mc_constraint_id k = Some (finding_of p k d) /\
    (1 <= length (pd_evidence_refs d) <= 1000)%nat.
Proof.
  intros Hf Hn.
  assert (Hgen : forall l acc, NoDup (mc_constraint_id <$> l) ->
    foldR (fun findings constraint =>
      decision ← evaluate_constraint p c constraint as_of;
      _ ← raise_if (AthenaValidationError "constraint requires typed evidence or gap references")
            (bool_decide (pd_evidence_refs decision = []));
      Ok (<[mc_constraint_id constraint := finding_of p constraint decision]> findings)) acc l = Ok fs ->
    dom fs = dom acc ∪ list_to_set (mc_constraint_id <$> l) /\
    (forall id, id ∉ mc_constraint_id <$> l -> fs !! id = acc !! id) /\
    forall k, k ∈ l -> exists d, evaluate_constraint p c k as_of = Ok d /\
      fs !! mc_constraint_id k = Some (finding_of p k d) /\ (1 <= length (pd_evidence_refs d) <= 1000)%nat).
  { clear Hf Hn. induction l as [|k l IH]; intros acc Hn Hf; cbn in *.
    { injection Hf as ->. split_and!; [set_solver|done|by intros k ?%elem_of_nil]. }
    apply NoDup_cons in Hn as [Hk Hn]. apply bind_Ok in Hf as (acc' & Hacc & Hf).
    apply bind_Ok in Hacc as (d & Hd & Hacc). apply bind_Ok in Hacc as (u & Hu & Hacc).
    injection Hacc as <-. apply raise_if_Ok, bool_decide_eq_false in Hu.
    destruct (IH _ Hn Hf) as (Hdom & Hother & Hall). split_and!.
    - rewrite Hdom, dom_insert_L. set_solver.
    - intros id Hid. rewrite Hother by set_solver. apply lookup_insert_ne. set_solver.
    - intros k' [-> | Hk']%elem_of_cons; [|auto]. exists d. split_and!; [done| |by destruct (pd_evidence_refs d); cbn; [|lia]|].
      + rewrite Hother by done. by rewrite lookup_insert_eq.
      + by apply constraint_references_bound in Hd. }
  assert (Hp := sort_by_perm (fun k => normalized_id (mc_constraint_id k)) (rp_constraints p)).
  assert (Hn' := Hn). rewrite <- Hp in Hn'.
  destruct (Hgen _ ∅ Hn' Hf) as (Hdom & _ & Hall). split.
  - rewrite Hdom, dom_empty_L. apply set_eq. intros id. rewrite elem_of_union, !elem_of_list_to_set, Hp. set_solver.
  - intros k Hk. by apply Hall, elem_of_sort_by.
Qed.
End props.

(** ** Evidence scopes *)
Section scope_props.
Context `{PyText} `{!CanonicalJson EvidenceScope}.
(** [str.casefold] maps text character by character, and canonical JSON
    identifies a scope. *)
Hypothesis casefold_app : forall s t, casefold (s +:+ t) = casefold s +:+ casefold t.
Hypothesis canonical_json_inj : forall s1 s2 : EvidenceScope, canonical_json s1 = canonical_json s2 -> s1 = s2.

(** The scope contract admits no resource id with a trailing slash. *)
Definition canonical_scope (s : EvidenceScope) : Prop :=
  match s with ResourceIdScope r => rstrip_slash r = r | _ => True end.

Lemma folded_prefix_app p q text : folded_prefix (p +:+ q) text = true -> folded_prefix p text = true.
Proof.
  unfold folded_prefix. rewrite casefold_app. apply starts_with_trans, starts_with_app.
Qed.

Lemma casefold_rstrip r : starts_with (casefold (rstrip_slash r)) (casefold r) = true.
Proof.
  destruct (rstrip_by_split (Ascii.eqb slash) r) as (t & Hr & _).
  unfold rstrip_slash. rewrite Hr at 2. rewrite casefold_app. apply starts_with_app.
Qed.

Lemma resource_within_prefix allowed inner prefix :
  rstrip_slash allowed = allowed -> folded_prefix prefix allowed = true ->
  String.eqb (casefold (rstrip_slash inner)) (casefold (rstrip_slash allowed)) ||
    starts_with (casefold (rstrip_slash allowed) +:+ "/") (casefold (rstrip_slash inner)) = true ->
  folded_prefix prefix inner = true.
Proof.
  unfold folded_prefix. intros -> Hp Hin.
  eapply starts_with_trans; [exact Hp|]. eapply starts_with_trans; [|apply casefold_rstrip].
  apply orb_true_iff in Hin as [->%String.eqb_eq|Hin].
  - rewrite <- (string_app_nil_r (casefold allowed)) at 2. apply starts_with_app.
  - eapply starts_with_trans; [apply starts_with_app|exact Hin].
Qed.

(** Scope containment is transitive: a scope authorised inside an allowed
    scope only contains scopes the allowed scope contains. *)
Theorem scope_contains_trans a b c :
  canonical_scope b -> scope_contains a b = true -> scope_contains b c = true -> scope_contains a c = true.
Proof.
  intros Hb Hab Hbc. pose proof Hab as Hab'. pose proof Hbc as Hbc'. unfold scope_contains in Hab, Hbc.
  destruct (String.eqb_spec (canonical_json a) (canonical_json b)) as [->%canonical_json_inj|_]; [exact Hbc'|].
  destruct (String.eqb_spec (canonical_json b) (canonical_json c)) as [<-%canonical_json_inj|_]; [exact Hab'|].
  unfold scope_contains. destruct (String.eqb _ _); [done|].
  destruct a, b; try done; destruct c; try done; cbn in Hb.
  - apply andb_true_iff in Hab as [_ ->%String.eqb_eq].
    apply (folded_prefix_app _ ("resourceGroups/" +:+ resource_group_name +:+ "/")).
    by rewrite !string_app_assoc.
  - by eapply resource_within_prefix.
  - by eapply resource_within_prefix.
  - apply orb_true_iff in Hab as [<-%String.eqb_eq|Hab]; [done|].
    apply orb_true_iff. right. apply orb_true_iff in Hbc as [->%String.eqb_eq|Hbc]; [done|].
    eapply starts_with_trans; [exact Hab|]. eapply starts_with_trans; [apply starts_with_app|exact Hbc].
Qed.
End scope_props.

(** ** A concrete workload

    One database and two web servers in distinct zones, an accepted zone-loss
    risk for the database, and a dependency of the web role on the database. *)
Module Demo.
#[export] Existing Instance ascii_text.
#[export] Instance demo_json : CanonicalJson EvidenceReference := fun r =>
  match r with ItemRef r => "item:" +:+ ir_item_digest r | GapRef r => "gap:" +:+ gr_gap_id r end.
(** An injective text for a scope: its fields, coded as one number. *)
Definition scope_fields (s : EvidenceScope) : nat * list string :=
  match s with
  | SubscriptionScope t u => (0%nat, [t; u])
  | ResourceGroupScope t u g => (1%nat, [t; u; g])
  | ResourceIdScope r => (2%nat, [r])
  | LogAnalyticsWorkspaceScope t u g w => (3%nat, [t; u; g; w])
  | ServiceHealthRegionScope c r => (4%nat, [c; r])
  end.
#[export] Instance demo_scope_json : CanonicalJson EvidenceScope := fun s =>
  pretty (N.pos (encode (scope_fields s))).

Lemma demo_scope_json_inj (s1 s2 : EvidenceScope) : canonical_json s1 = canonical_json s2 -> s1 = s2.
Proof.
  unfold canonical_json, demo_scope_json. intros E%(inj pretty). injection E as E%(inj encode).
  by destruct s1, s2; simplify_eq/=.
Qed.

Lemma ascii_casefold_app (s t : string) : casefold (s +:+ t) = casefold s +:+ casefold t.
Proof. change (map_string ascii_lower (s +:+ t) = map_string ascii_lower s +:+ map_string ascii_lower t).
  string_induction s. by rewrite IH. Qed.

Definition item (digest : string) : EvidenceReference := ItemRef {|
  ir_snapshot_id := "snap-1"; ir_snapshot_artifact_digest := "a"; ir_snapshot_semantic_digest := "s";
  ir_item_digest := digest; ir_collector_attempt_id := "attempt-1"; ir_collector_attempt_digest := "d";
  ir_collector_tool_name := "azure.resourceInventory.read"; ir_collector_tool_version := "1.0.0";
  ir_collector_attempt_at := 100; ir_collector_identity_evidence_ref := "identity-1";
  ir_source_response_digest := "r"; ir_source_response_pointer := "" |}.

Definition vm (id role : string) (z : AvailabilityZone) (digest : string) : ResourceProofFact := {|
  rf_resource_id := id; rf_role_ref := role; rf_availability_zone := z; rf_operational_state := RsRunning;
  rf_state := StComplete; rf_proof_source := SrcObserved; rf_evidence_ref := item digest |}.

Definition bind_role (role : string) (ids : list string) : RoleBindingProof := {|
  rb_role_ref := role; rb_selected_resource_ids := ids; rb_selector_result_digest := "x"; rb_state := StComplete |}.

Definition context (resources : list ResourceProofFact) (bindings : list RoleBindingProof)
    : EvidenceReferenceContext := {|
  ec_snapshot_id := "snap-1"; ec_snapshot_artifact_digest := "a"; ec_snapshot_semantic_digest := "s";
  ec_collected_at := 0; ec_expires_at := 1000000000; ec_authorized_scopes := [SubscriptionScope "t" "u"];
  ec_manifest_id := "wl"; ec_profile_id := "production"; ec_resolved_profile_digest := "p";
  ec_resources := resources;
  ec_relationships := [ {| lf_relationship_ref := "web-db"; lf_state := StComplete;
    lf_proof_source := SrcObserved; lf_presence := PrPresent; lf_evidence_ref := item "3" |} ];
  ec_controls := []; ec_objectives := []; ec_role_bindings := bindings |}.

Definition resources := [vm "/web-1" "web" Zone1 "1"; vm "/web-2" "WEB" Zone2 "2"; vm "/db" "database" Zone1 "0"].
Definition bindings := [bind_role "web" ["/WEB-1"; "/web-2"]; bind_role "database" ["/db"]].
Definition evidence := context resources bindings.
Definition evidence' := context (rev resources) (rev bindings).

Definition clause (id : string) : ClauseScope := {|
  cs_manifest_id := "wl"; cs_profile_id := "production"; cs_clause_path := "/constraints/" +:+ id;
  cs_owner_ref := "ops" |}.

Definition constraint (id : string) (t : ConstraintType) (kind : ManifestFindingKind) (proof : ManifestProof)
    (acceptance : option string) : ManifestConstraint := {|
  mc_constraint_id := id; mc_constraint_type := t; mc_finding_kind := kind;
  mc_governance_scope := clause id; mc_owner_ref := "ops"; mc_profiles := ["production"];
  mc_proof_requirement := proof; mc_failure_verdict := FvViolation; mc_success_verdict := SvPass;
  mc_risk_acceptance_ref := acceptance; mc_risk_acceptance_clause_ref := None; mc_protected := false |}.

Definition spof := constraint "db-zone-loss-spof" CtSupportedSingleton FkActualSpof
  (CardinalityProof "database" ExactlyOneCardinality) (Some "accept-db").
Definition web_zones := constraint "web-zone-distribution" CtZoneDistribution FkArchitectureConstraint
  (ZoneDistributionProof "web" 2) None.
Definition dependency := constraint "web-needs-db" CtDependencyRequired FkRelationshipConflict
  (RelationshipPresenceProof "web-db") None.

Definition acceptance : ManifestRiskAcceptance := {|
  ra_risk_acceptance_id := "accept-db"; ra_governance_scope := clause "db-zone-loss-spof";
  ra_risk_kind := "availability"; ra_risk_rating := "high"; ra_residual_risk_statement := "zone loss";
  ra_rationale_ref := "r"; ra_accepted_by := "cto"; ra_owned_by := "ops"; ra_accepted_at := 0;
  ra_expires_at := 500; ra_linked_control_refs := [];
  ra_accepted_resource_bindings := [ {| arb_role_ref := "Database"; arb_resource_id := "/DB" |} ];
  ra_profiles := ["production"]; ra_status := AsApproved |}.

Definition compatibility : CompatibilityMetadata := {|
  cm_artifact_kind := "resolvedProfile"; cm_schema_version := "1.0.0"; cm_semantic_contract_version := "1.0.0";
  cm_policy_contract_version := "1.0.0"; cm_minimum_reader_version := "1.0.0"; cm_requires_capabilities := [];
  cm_producer_id := "athena"; cm_producer_version := "1.0.0"; cm_extension_policy := "rejectUnknownDecisionFields";
  cm_artifact_digest := "p"; cm_semantic_digest := "p" |}.

Definition profile (continuity : bool) : ResolvedManifestProfile := {|
  rp_manifest_id := "wl"; rp_manifest_version := "1.0.0"; rp_profile_id := "production";
  rp_profile_type := "production"; rp_allowed_evidence_scopes := [SubscriptionScope "t" "u"];
  rp_compatibility := compatibility; rp_inheritance_chain := ["production"];
  rp_settings := {| st_continuity := {| cn_zone_loss_continuity_required := continuity |} |};
  rp_roles := []; rp_controls := []; rp_objectives := []; rp_ownership := [];
  rp_relationships := [Declared {| dr_relationship_id := "web-db"; dr_kind := "dependsOn";
    dr_source := RoleEndpoint "web"; dr_target := RoleEndpoint "database"; dr_owner_ref := "ops";
    dr_profiles := ["production"]; dr_source_clause := "/relationships/web-db" |}];
  rp_constraints := [spof; web_zones; dependency]; rp_risk_acceptances := [acceptance];
  rp_resolved_profile_digest := "p" |}.

Example spof_accepted :
  pd_verdict <$> evaluate_constraint (profile true) evidence spof 200 = Ok VAcceptedResidualRisk.
Proof. reflexivity. Qed.
Example spof_expired :
  pd_verdict <$> evaluate_constraint (profile true) evidence spof 500 = Ok VViolation.
Proof. reflexivity. Qed.
Example spof_development :
  pd_verdict <$> evaluate_constraint (profile false) evidence spof 200 = Ok VObservation.
Proof. reflexivity. Qed.
Example web_passes : pd_verdict <$> evaluate_constraint (profile true) evidence web_zones 200 = Ok VPass.
Proof. reflexivity. Qed.
Example dependency_passes :
  pd_verdict <$> evaluate_constraint (profile true) evidence dependency 200 = Ok VPass.
Proof. reflexivity. Qed.

Lemma evidence_equiv : context_equiv evidence evidence'.
Proof. constructor; cbn; done || (symmetry; apply Permutation_rev). Qed.

Lemma evidence_identified : references_identified evidence.
Proof.
  intros r1 r2. change (all_fact_refs evidence) with [item "1"; item "2"; item "0"; item "3"].
  rewrite !elem_of_cons, !elem_of_nil. naive_solver.
Qed.

Lemma database_evidenced : role_evidenced evidence "database".
Proof. by apply gate_evidenced. Qed.

Lemma accepted_decision : evaluate_constraint (profile true) evidence spof 200 =
  Ok {| pd_verdict := VAcceptedResidualRisk; pd_evidence_refs := [item "0"];
        pd_risk_acceptance_ref := Some "accept-db" |}.
Proof. reflexivity. Qed.

(** The evidence without the second web server. *)
Definition one_web_server : EvidenceReferenceContext :=
  context [vm "/web-1" "web" Zone1 "1"] bindings.

Lemma one_web_server_evaluates :
  exists d, evaluate_constraint (profile true) one_web_server web_zones 200 = Ok d.
Proof. apply is_ok_spec. reflexivity. Qed.

Lemma web_not_evidenced : ~ role_evidenced one_web_server "web".
Proof. intros Hev%gate_evidenced_iff. vm_compute in Hev. discriminate Hev. Qed.

Lemma profile_evaluates : exists fs, evaluate_verified_profile (profile true) evidence 200 = Ok fs.
Proof. apply is_ok_spec. vm_compute. reflexivity. Qed.

Lemma constraint_ids_distinct :
  NoDup (mc_constraint_id <$> rp_constraints (profile true)).
Proof.
  change (NoDup ["db-zone-loss-spof"; "web-zone-distribution"; "web-needs-db"]).
  repeat constructor; rewrite ?elem_of_cons, ?elem_of_nil; naive_solver.
Qed.
End Demo.

Module Witnesses.
Import Demo.

Lemma order_independent_witness :
  evaluate_verified_profile (profile true) evidence 200 = evaluate_verified_profile (profile true) evidence' 200.
Proof.
  apply evaluate_verified_profile_order_independent;
    [reflexivity|exact evidence_identified|exact evidence_equiv].
Defined.

Lemma accepted_residual_risk_witness :
  exists a, a ∈ rp_risk_acceptances (profile true) /\ Some "accept-db" = Some (ra_risk_acceptance_id a).
Proof.
  destruct (accepted_residual_risk_sound _ _ _ _ _ accepted_decision eq_refl) as (a & roles & Ha & Hid & _).
  exists a. split; [exact Ha|exact Hid].
Defined.

Lemma acceptance_cited_witness :
  VAcceptedResidualRisk = VAcceptedResidualRisk <-> is_Some (Some "accept-db").
Proof. exact (acceptance_cited_iff _ _ _ _ _ accepted_decision). Defined.

(** Without its second web server the recorded binding no longer matches. *)
Lemma fails_closed_witness : exists d,
  evaluate_constraint (profile true) one_web_server web_zones 200 = Ok d /\
  (pd_verdict d = VUnknown \/ pd_verdict d = VConflicting).
Proof.
  destruct one_web_server_evaluates as [d Hd]. exists d. split; [exact Hd|].
  apply (evaluate_constraint_fails_closed _ _ _ _ _ ["web"] "web" Hd eq_refl); [left|].
  exact web_not_evidenced.
Defined.

Lemma references_canonical_witness :
  (length [item "0"] <= 1000)%nat /\ NoDup (canonical_json <$> [item "0"]).
Proof.
  destruct (constraint_references_canonical _ _ _ _ _ accepted_decision) as (Hl & Hn & _).
  split; [exact Hl|exact Hn].
Defined.

Lemma different_profiles_witness :
  (VAcceptedResidualRisk = VViolation \/ VAcceptedResidualRisk = VAcceptedResidualRisk) /\
  VObservation = VObservation /\ [item "0"] = [item "0"].
Proof.
  refine (same_evidence_different_profiles (profile true) (profile false) evidence spof 200 "database"
    ExactlyOneCardinality (vm "/db" "database" Zone1 "0") _
    {| pd_verdict := VObservation; pd_evidence_refs := [item "0"]; pd_risk_acceptance_ref := None |}
    eq_refl eq_refl _ eq_refl database_evidenced eq_refl _ accepted_decision eq_refl).
  - left.
  - discriminate.
Defined.

Lemma profile_findings_witness : exists fs,
  evaluate_verified_profile (profile true) evidence 200 = Ok fs /\
  dom fs = list_to_set ["db-zone-loss-spof"; "web-zone-distribution"; "web-needs-db"].
Proof.
  destruct profile_evaluates as [fs Hfs]. exists fs. split; [exact Hfs|].
  exact (proj1 (verified_profile_findings (profile true) evidence 200 fs Hfs constraint_ids_distinct)).
Defined.

Lemma scope_contains_trans_witness :
  scope_contains (SubscriptionScope "t" "u")
    (ResourceIdScope "/subscriptions/U/resourceGroups/g/providers/p/x/y") = true.
Proof.
  apply (scope_contains_trans ascii_casefold_app demo_scope_json_inj _
    (ResourceGroupScope "t" "u" "G")); [exact I|reflexivity|reflexivity].
Defined.
End Witnesses.
