(* ===== verification/Base64.v ===== *)
(** * Base64: the standard library's codecs

    [base64.b64decode(s, validate=True)], which is strict about alphabet and
    padding but not about unused bits, and [base64.urlsafe_b64encode]; bytes are
    a string. *)
From S2P Require Import Prelude Text.
From Stdlib Require Import Ascii.
Local Open Scope Z_scope.

(** ** Digits *)
Definition code (c : ascii) : Z := Z.of_nat (nat_of_ascii c).

(** The value of a digit of the standard alphabet. *)
Definition digit_value (c : ascii) : option Z :=
  if ascii_in "A" "Z" c then Some (code c - 65)
  else if ascii_in "a" "z" c then Some (code c - 71)
  else if is_digit c then Some (code c + 4)
  else if Ascii.eqb c "+" then Some 62
  else if Ascii.eqb c "/" then Some 63
  else None.

Definition byte (z : Z) : ascii := ascii_of_nat (Z.to_nat z).

(** The digit of a value in the URL-safe alphabet. *)
Definition url_digit (v : Z) : ascii :=
  if v <? 26 then byte (v + 65)
  else if v <? 52 then byte (v + 71)
  else if v <? 62 then byte (v - 4)
  else if v =? 62 then "-"%char else "_"%char.

(** ** Decoding *)
Definition equals : ascii := "="%char.

(** Four digits, the last group possibly padded: six bits each. *)
Fixpoint b64decode (s : string) : option string :=
  match s with
  | EmptyString => Some EmptyString
  | String a (String b (String c (String d rest))) =>
      match digit_value a, digit_value b, digit_value c, digit_value d with
      | Some x, Some y, Some z, Some w =>
          (fun t => String (byte (4 * x + y / 16)) (String (byte (16 * (y mod 16) + z / 4)) (String (byte (64 * (z mod 4) + w)) t)))
            <$> b64decode rest
      | Some x, Some y, Some z, None =>
          if Ascii.eqb d equals && String.eqb rest ""
          then Some (String (byte (4 * x + y / 16)) (String (byte (16 * (y mod 16) + z / 4)) "")) else None
      | Some x, Some y, None, None =>
          if Ascii.eqb c equals && Ascii.eqb d equals && String.eqb rest ""
          then Some (String (byte (4 * x + y / 16)) "") else None
      | _, _, _, _ => None
      end
  | _ => None
  end.

(** ** Encoding *)

(** [urlsafe_b64encode(s)] *)
Fixpoint urlsafe_b64encode (s : string) : string :=
  match s with
  | EmptyString => EmptyString
  | String a EmptyString =>
      String (url_digit (code a / 4)) (String (url_digit (16 * (code a mod 4))) (String equals (String equals "")))
  | String a (String b EmptyString) =>
      String (url_digit (code a / 4)) (String (url_digit (16 * (code a mod 4) + code b / 16))
        (String (url_digit (4 * (code b mod 16))) (String equals "")))
  | String a (String b (String c rest)) =>
      String (url_digit (code a / 4)) (String (url_digit (16 * (code a mod 4) + code b / 16))
        (String (url_digit (4 * (code b mod 16) + code c / 64)) (String (url_digit (code c mod 64)) (urlsafe_b64encode rest))))
  end.

Example b64decode_text : b64decode "QXRoZW5h" = Some "Athena" /\ b64decode "QXQ=" = Some "At" /\ b64decode "QR==" = Some "A" /\
  b64decode "QQ=" = None /\ b64decode "QQ==QQ==" = None /\ b64decode "Q-Q=" = None.
Proof. vm_compute. done. Qed.
Example urlsafe_text : urlsafe_b64encode "Athena" = "QXRoZW5h" /\ urlsafe_b64encode "At" = "QXQ=".
Proof. vm_compute. done. Qed.

(** ** Encoded text *)
Definition is_url_char (c : ascii) : bool := is_alnum c || Ascii.eqb c "_" || Ascii.eqb c "-".

Lemma url_digit_char v : 0 <= v < 64 -> is_url_char (url_digit v) = true.
Proof.
  intros Hv. assert (Hall : forallb (fun n => is_url_char (url_digit (Z.of_nat n))) (seq 0 64) = true) by by vm_compute.
  rewrite List.forallb_forall in Hall. specialize (Hall (Z.to_nat v)). rewrite Z2Nat.id in Hall by lia.
  apply Hall, List.in_seq. lia.
Qed.

Lemma code_bound a : 0 <= code a < 256.
Proof. unfold code. pose proof (nat_ascii_bounded a). lia. Qed.

(** The digits a group of bytes is encoded by are in range. *)
Lemma digit_bounds a b : 0 <= code a / 4 < 64 /\ 0 <= 16 * (code a mod 4) < 64 /\ 0 <= 4 * (code a mod 16) < 64 /\
  0 <= code a mod 64 < 64 /\ 0 <= 16 * (code a mod 4) + code b / 16 < 64 /\ 0 <= 4 * (code a mod 16) + code b / 64 < 64.
Proof. pose proof (code_bound a). pose proof (code_bound b). split_and!; Z.to_euclidean_division_equations; lia. Qed.

Lemma urlsafe_shape n s : (String.length s <= n)%nat ->
  exists body pad, urlsafe_b64encode s = body +:+ pad /\ all_chars is_url_char body = true /\ all_chars (Ascii.eqb equals) pad = true /\
    (s <> "" -> body <> "").
Proof.
  revert s. induction n as [|n IH]; intros s Hn; [destruct s; [|cbn in Hn; lia]; by exists "", ""|].
  destruct s as [|a [|b [|c rest]]].
  - by exists "", "".
  - pose proof (digit_bounds a a) as (B1 & B2 & _).
    exists (String (url_digit (code a / 4)) (String (url_digit (16 * (code a mod 4))) "")), "==".
    split_and!; [done| |done|done]. cbn. by rewrite !url_digit_char.
  - pose proof (digit_bounds a b) as (B1 & _ & _ & _ & B2 & _). pose proof (digit_bounds b b) as (_ & _ & B3 & _).
    eexists (String _ (String _ (String _ ""))), "=". split_and!; [reflexivity| |done|done]. cbn. by rewrite !url_digit_char.
  - destruct (IH rest) as (body & pad & E & Hb & Hp & _); [cbn in Hn; lia|].
    pose proof (digit_bounds a b) as (B1 & _ & _ & _ & B2 & _). pose proof (digit_bounds b c) as (_ & _ & _ & _ & _ & B3).
    pose proof (digit_bounds c c) as (_ & _ & _ & B4 & _).
    eexists (String _ (String _ (String _ (String _ body)))), pad. cbn [urlsafe_b64encode]. rewrite E.
    split_and!; [reflexivity| |done|done]. cbn. by rewrite !url_digit_char.
Qed.

Lemma urlsafe_stripped s : s <> "" ->
  rstrip_by (Ascii.eqb equals) (urlsafe_b64encode s) <> "" /\
  all_chars is_url_char (rstrip_by (Ascii.eqb equals) (urlsafe_b64encode s)) = true.
Proof.
  intros Hs. destruct (urlsafe_shape (String.length s) s ltac:(lia)) as (body & pad & -> & Hb & Hp & Hne).
  rewrite rstrip_by_app by done. rewrite rstrip_by_none; [by split; [apply Hne|]|].
  eapply all_chars_impl; [|exact Hb]. intros c. by destruct c as [[] [] [] [] [] [] [] []].
Qed.
