(* ===== verification/Events.v ===== *)
(** * Events: the incident event contracts

    [contracts/eventing.py]: the normalized monitor event, the reassessment
    request, the incident state, feed pointer, attestations, occurrence receipt
    and active-incident index, each as a record with the validator pydantic runs
    on its fields and after construction. A [datetime] field of these models is
    an instant: their validators accept UTC only. The closed [Literal] strings
    are enumerations with their texts. *)
From S2P Require Import Prelude Text Sha256 Time Json.
From Stdlib Require Import Ascii.
Local Open Scope Z_scope.

(** ** Literals *)
Inductive EventLifecycle := Activated | Resolved | Changed | Unknown.
Inductive EventSource := AzureEventGrid | AzureMonitorCommonAlert.
Inductive SignalKind := ActivityLog | ResourceHealth | MetricAlert.
Inductive EventSeverity := SeverityCritical | SeverityWarning | SeverityInformational | SeverityUnknown.
Inductive TargetResourceType := VirtualMachines | LoadBalancers.
Inductive IncidentScenario := SingletonDatabaseFailure | WebServerFailure | LoadBalancerFailure.
Inductive IncidentLifecycle := Detected | Queued | Reassessing | IncidentActive | RecoveryObserved | IncidentResolved.
Inductive WorkloadRole := DatabasePrimary | Web | LoadBalancer.
Inductive FindingOutcome := FindingPass | FindingFail | FindingResolved | FindingReview.
Inductive Availability := AvailabilityNormal | AvailabilityWarning | AvailabilityCritical | AvailabilityUnknown.
Inductive BlastRadius := BlastNone | WebTier | IngressEdge | DataTier | WholeWorkload | BlastUnknown.
Inductive OperatorAttention := AttentionNormal | AttentionRequired | AttentionUrgent.
Inductive NotificationStatus := NotRequired | PendingDispatch.

#[export] Instance EventLifecycle_eq_dec : EqDecision EventLifecycle. Proof. solve_decision. Defined.
#[export] Instance EventSource_eq_dec : EqDecision EventSource. Proof. solve_decision. Defined.
#[export] Instance SignalKind_eq_dec : EqDecision SignalKind. Proof. solve_decision. Defined.
#[export] Instance EventSeverity_eq_dec : EqDecision EventSeverity. Proof. solve_decision. Defined.
#[export] Instance TargetResourceType_eq_dec : EqDecision TargetResourceType. Proof. solve_decision. Defined.
#[export] Instance IncidentScenario_eq_dec : EqDecision IncidentScenario. Proof. solve_decision. Defined.
#[export] Instance IncidentLifecycle_eq_dec : EqDecision IncidentLifecycle. Proof. solve_decision. Defined.
#[export] Instance WorkloadRole_eq_dec : EqDecision WorkloadRole. Proof. solve_decision. Defined.
#[export] Instance FindingOutcome_eq_dec : EqDecision FindingOutcome. Proof. solve_decision. Defined.
#[export] Instance Availability_eq_dec : EqDecision Availability. Proof. solve_decision. Defined.
#[export] Instance BlastRadius_eq_dec : EqDecision BlastRadius. Proof. solve_decision. Defined.
#[export] Instance OperatorAttention_eq_dec : EqDecision OperatorAttention. Proof. solve_decision. Defined.
#[export] Instance NotificationStatus_eq_dec : EqDecision NotificationStatus. Proof. solve_decision. Defined.

Definition lifecycle_value (l : EventLifecycle) : string :=
  match l with Activated => "activated" | Resolved => "resolved" | Changed => "changed" | Unknown => "unknown" end.

Definition event_source_value (s : EventSource) : string :=
  match s with AzureEventGrid => "azureEventGrid" | AzureMonitorCommonAlert => "azureMonitorCommonAlert" end.

Definition signal_kind_value (k : SignalKind) : string :=
  match k with ActivityLog => "activityLog" | ResourceHealth => "resourceHealth" | MetricAlert => "metricAlert" end.

Definition event_severity_value (s : EventSeverity) : string :=
  match s with
  | SeverityCritical => "critical" | SeverityWarning => "warning"
  | SeverityInformational => "informational" | SeverityUnknown => "unknown"
  end.

Definition resource_type_value (t : TargetResourceType) : string :=
  match t with
  | VirtualMachines => "Microsoft.Compute/virtualMachines"
  | LoadBalancers => "Microsoft.Network/loadBalancers"
  end.

Definition scenario_value (s : IncidentScenario) : string :=
  match s with
  | SingletonDatabaseFailure => "singletonDatabaseFailure"
  | WebServerFailure => "webServerFailure"
  | LoadBalancerFailure => "loadBalancerFailure"
  end.

Definition incident_lifecycle_value (l : IncidentLifecycle) : string :=
  match l with
  | Detected => "detected" | Queued => "queued" | Reassessing => "reassessing"
  | IncidentActive => "active" | RecoveryObserved => "recoveryObserved" | IncidentResolved => "resolved"
  end.

Definition workload_role_value (r : WorkloadRole) : string :=
  match r with DatabasePrimary => "database-primary" | Web => "web" | LoadBalancer => "load-balancer" end.

Definition finding_outcome_value (v : FindingOutcome) : string :=
  match v with
  | FindingPass => "pass" | FindingFail => "fail" | FindingResolved => "resolved" | FindingReview => "review"
  end.

Definition availability_value (a : Availability) : string :=
  match a with
  | AvailabilityNormal => "normal" | AvailabilityWarning => "warning"
  | AvailabilityCritical => "critical" | AvailabilityUnknown => "unknown"
  end.

Definition blast_radius_value (b : BlastRadius) : string :=
  match b with
  | BlastNone => "none" | WebTier => "web-tier" | IngressEdge => "ingress-edge"
  | DataTier => "data-tier" | WholeWorkload => "whole-workload" | BlastUnknown => "unknown"
  end.

Definition operator_attention_value (o : OperatorAttention) : string :=
  match o with AttentionNormal => "normal" | AttentionRequired => "required" | AttentionUrgent => "urgent" end.

Definition notification_status_value (n : NotificationStatus) : string :=
  match n with NotRequired => "notRequired" | PendingDispatch => "pendingDispatch" end.

(** ** Field patterns *)

(** A regular expression made of literals and runs of lower-case hex digits of
    fixed lengths, anchored at both ends. *)
Inductive pattern_piece := Lit (text : string) | Hexes (n : nat).

Fixpoint matches (pieces : list pattern_piece) (s : string) : bool :=
  match pieces with
  | [] => String.eqb s ""
  | Lit p :: pieces => starts_with p s && matches pieces (string_drop (String.length p) s)
  | Hexes n :: pieces =>
      (n <=? String.length s)%nat && all_chars is_lower_hex (string_take n s) && matches pieces (string_drop n s)
  end.

(** [min_length <= len(s) <= max_length] *)
Definition length_between (lo hi : nat) (s : string) : bool := (lo <=? py_len s)%nat && (py_len s <=? hi)%nat.

(** [^\./incidents/[a-z0-9./-]+\.json$] *)
Definition is_incident_path (s : string) : bool :=
  let inner := string_drop 12 s in
  let middle := string_take (String.length inner - 5) inner in
  starts_with "./incidents/" s && ends_with ".json" inner &&
  negb (String.eqb middle "") &&
  all_chars (fun c => ascii_in "a" "z" c || is_digit c || Ascii.eqb c "." || Ascii.eqb c "/" || Ascii.eqb c "-") middle.

(** [^[A-Za-z0-9_-]+$] *)
Definition is_base64url (s : string) : bool :=
  negb (String.eqb s "") && all_chars (fun c => is_alnum c || Ascii.eqb c "_" || Ascii.eqb c "-") s.

(** The error of a field that does not match its declaration, and of a [ValueError]
    a validator raises: pydantic reports both as a [ValidationError]. *)
Definition field (name : string) (b : bool) : result unit := guard_or (ValidationError name) b.

(** ** Models *)
Record NormalizedMonitorEvent := {
  ne_event_id : string;
  ne_deduplication_key : string;
  ne_source_system : EventSource;
  ne_signal_kind : SignalKind;
  ne_lifecycle : EventLifecycle;
  ne_severity : EventSeverity;
  ne_subscription_id : string;
  ne_resource_group_name : string;
  ne_target_resource_id : string;
  ne_target_resource_type : TargetResourceType;
  ne_operation_name : string;
  ne_observed_at : Z;
  ne_received_at : Z;
  ne_source_digest : string;
}.

Record ReassessmentRequest := {
  rr_request_id : string;
  rr_incident_id : string;
  rr_trigger_event_id : string;
  rr_trigger_event : NormalizedMonitorEvent;
  rr_scenario : IncidentScenario;
  rr_workload_role : WorkloadRole;
  rr_target_resource_id : string;
  rr_lifecycle : EventLifecycle;
  rr_idempotency_key : string;
}.

Record IncidentFinding := {
  if_clause_id : string;
  if_verdict : FindingOutcome;
  if_summary : string;
  if_evidence_refs : list string;
}.

Record IncidentState := {
  is_incident_id : string;
  is_transition_id : string;
  is_scenario : IncidentScenario;
  is_lifecycle : IncidentLifecycle;
  is_workload_role : WorkloadRole;
  is_detected_at : Z;
  is_updated_at : Z;
  is_target_binding : string;
  is_availability : Availability;
  is_blast_radius : BlastRadius;
  is_operator_attention : OperatorAttention;
  is_findings : list IncidentFinding;
  is_reasoning : list string;
  is_notification_status : NotificationStatus;
  is_result_digest : string;
}.

Record IncidentStateAttestation := {
  sa_result_digest : string;
  sa_key_vault_key_id : string;
  sa_detached_signature : string;
}.

Record VerifiedReassessmentResult := {
  vr_request_id : string;
  vr_snapshot_id : string;
  vr_observed_at : Z;
  vr_target_binding : string;
  vr_verified_healthy : bool;
  vr_findings : list IncidentFinding;
  vr_reasoning : list string;
}.

Record IncidentFeedPointer := {
  fp_incident_id : string;
  fp_state_path : string;
  fp_state_sha256 : string;
  fp_attestation_path : string;
  fp_attestation_sha256 : string;
  fp_pointer_attestation_path : string;
  fp_key_id : string;
  fp_key_fingerprint : string;
  fp_published_at : Z;
}.

Record IncidentFeedAttestation := {
  fa_pointer_digest : string;
  fa_key_vault_key_id : string;
  fa_detached_signature : string;
}.

Record VersionPinnedBlobReference := {
  vp_name : string;
  vp_version : string;
  vp_content_digest : string;
}.

Record IncidentOccurrenceReceipt := {
  io_occurrence_id : string;
  io_incident_id : string;
  io_transition_id : string;
  io_state_result_digest : string;
  io_state_reference : VersionPinnedBlobReference;
  io_state_attestation_reference : VersionPinnedBlobReference;
  io_pointer_reference : VersionPinnedBlobReference;
  io_pointer_attestation_reference : VersionPinnedBlobReference;
  io_published_at : Z;
  io_occurrence_digest : string;
}.

Record ActiveIncidentEntry := {
  ae_incident_id : string;
  ae_scenario : IncidentScenario;
  ae_workload_role : WorkloadRole;
  ae_pointer_path : string;
  ae_pointer_sha256 : string;
  ae_detected_at : Z;
  ae_updated_at : Z;
}.

Record ActiveIncidentIndex := {
  ai_incidents : list ActiveIncidentEntry;
  ai_index_attestation_path : string;
  ai_key_id : string;
  ai_key_fingerprint : string;
  ai_published_at : Z;
}.

Record ActiveIncidentIndexAttestation := {
  xa_index_digest : string;
  xa_key_vault_key_id : string;
  xa_detached_signature : string;
}.

#[export] Instance NormalizedMonitorEvent_eq_dec : EqDecision NormalizedMonitorEvent. Proof. solve_decision. Defined.
#[export] Instance ReassessmentRequest_eq_dec : EqDecision ReassessmentRequest. Proof. solve_decision. Defined.
#[export] Instance IncidentFinding_eq_dec : EqDecision IncidentFinding. Proof. solve_decision. Defined.
#[export] Instance IncidentState_eq_dec : EqDecision IncidentState. Proof. solve_decision. Defined.
#[export] Instance IncidentFeedPointer_eq_dec : EqDecision IncidentFeedPointer. Proof. solve_decision. Defined.
#[export] Instance VersionPinnedBlobReference_eq_dec : EqDecision VersionPinnedBlobReference. Proof. solve_decision. Defined.
#[export] Instance IncidentOccurrenceReceipt_eq_dec : EqDecision IncidentOccurrenceReceipt. Proof. solve_decision. Defined.
#[export] Instance ActiveIncidentEntry_eq_dec : EqDecision ActiveIncidentEntry. Proof. solve_decision. Defined.
#[export] Instance ActiveIncidentIndex_eq_dec : EqDecision ActiveIncidentIndex. Proof. solve_decision. Defined.

(** ** Rendering: [model_dump(mode="json", by_alias=True)] *)
Section rendering.
Context `{PyText, Rfc8785, PydanticJson}.

Definition time_json (t : Z) : json := JStr (json_datetime t).
Definition str_list (l : list string) : json := JArr (JStr <$> l).

Definition event_dump (e : NormalizedMonitorEvent) : json := JObj [
  ("schemaVersion", JStr "athena.monitorEvent.normalized.v1");
  ("eventId", JStr (ne_event_id e));
  ("deduplicationKey", JStr (ne_deduplication_key e));
  ("sourceSystem", JStr (event_source_value (ne_source_system e)));
  ("signalKind", JStr (signal_kind_value (ne_signal_kind e)));
  ("lifecycle", JStr (lifecycle_value (ne_lifecycle e)));
  ("severity", JStr (event_severity_value (ne_severity e)));
  ("subscriptionId", JStr (ne_subscription_id e));
  ("resourceGroupName", JStr (ne_resource_group_name e));
  ("targetResourceId", JStr (ne_target_resource_id e));
  ("targetResourceType", JStr (resource_type_value (ne_target_resource_type e)));
  ("operationName", JStr (ne_operation_name e));
  ("observedAt", time_json (ne_observed_at e));
  ("receivedAt", time_json (ne_received_at e));
  ("sourceDigest", JStr (ne_source_digest e))].

Definition request_dump (r : ReassessmentRequest) : json := JObj [
  ("schemaVersion", JStr "athena.incidentReassessmentRequest.v1");
  ("requestId", JStr (rr_request_id r));
  ("incidentId", JStr (rr_incident_id r));
  ("triggerEventId", JStr (rr_trigger_event_id r));
  ("triggerEvent", event_dump (rr_trigger_event r));
  ("scenario", JStr (scenario_value (rr_scenario r)));
  ("workloadRole", JStr (workload_role_value (rr_workload_role r)));
  ("targetResourceId", JStr (rr_target_resource_id r));
  ("lifecycle", JStr (lifecycle_value (rr_lifecycle r)));
  ("idempotencyKey", JStr (rr_idempotency_key r));
  ("noAutoRemediation", JBool true)].

Definition incident_finding_dump (f : IncidentFinding) : json := JObj [
  ("clauseId", JStr (if_clause_id f));
  ("verdict", JStr (finding_outcome_value (if_verdict f)));
  ("summary", JStr (if_summary f));
  ("evidenceRefs", str_list (if_evidence_refs f))].

(** The members of a state up to [findings], with its instants rendered by [time]:
    [model_dump] renders text, [build_signed_incident_state] keeps the [datetime]. *)
Definition unsigned_state (time : Z -> json) (s : IncidentState) : list (string * json) := [
  ("schemaVersion", JStr "athena.incidentState.v1");
  ("incidentId", JStr (is_incident_id s));
  ("transitionId", JStr (is_transition_id s));
  ("scenario", JStr (scenario_value (is_scenario s)));
  ("lifecycle", JStr (incident_lifecycle_value (is_lifecycle s)));
  ("workloadRole", JStr (workload_role_value (is_workload_role s)));
  ("detectedAt", time (is_detected_at s));
  ("updatedAt", time (is_updated_at s));
  ("targetBinding", JStr (is_target_binding s));
  ("availability", JStr (availability_value (is_availability s)));
  ("blastRadius", JStr (blast_radius_value (is_blast_radius s)));
  ("operatorAttention", JStr (operator_attention_value (is_operator_attention s)));
  ("findings", JArr (incident_finding_dump <$> is_findings s));
  ("reasoning", str_list (is_reasoning s));
  ("notificationStatus", JStr (notification_status_value (is_notification_status s)));
  ("noAutoRemediation", JBool true)].

Definition state_dump (s : IncidentState) : json :=
  JObj (unsigned_state time_json s ++ [("resultDigest", JStr (is_result_digest s))]).

Definition state_attestation_dump (a : IncidentStateAttestation) : json := JObj [
  ("schemaVersion", JStr "athena.incidentStateAttestation.v1");
  ("resultDigest", JStr (sa_result_digest a));
  ("signatureAlgorithm", JStr "RS256");
  ("keyVaultKeyId", JStr (sa_key_vault_key_id a));
  ("detachedSignature", JStr (sa_detached_signature a))].

Definition pointer_dump (p : IncidentFeedPointer) : json := JObj [
  ("schemaVersion", JStr "athena.incidentFeed.v1");
  ("incidentId", JStr (fp_incident_id p));
  ("statePath", JStr (fp_state_path p));
  ("stateSha256", JStr (fp_state_sha256 p));
  ("attestationPath", JStr (fp_attestation_path p));
  ("attestationSha256", JStr (fp_attestation_sha256 p));
  ("pointerAttestationPath", JStr (fp_pointer_attestation_path p));
  ("keyId", JStr (fp_key_id p));
  ("keyFingerprint", JStr (fp_key_fingerprint p));
  ("publishedAt", time_json (fp_published_at p))].

Definition feed_attestation_dump (a : IncidentFeedAttestation) : json := JObj [
  ("schemaVersion", JStr "athena.incidentFeedAttestation.v1");
  ("pointerDigest", JStr (fa_pointer_digest a));
  ("signatureAlgorithm", JStr "RS256");
  ("keyVaultKeyId", JStr (fa_key_vault_key_id a));
  ("detachedSignature", JStr (fa_detached_signature a))].

Definition blob_reference_dump (r : VersionPinnedBlobReference) : json := JObj [
  ("name", JStr (vp_name r)); ("version", JStr (vp_version r)); ("contentDigest", JStr (vp_content_digest r))].

(** The members of a receipt its digest covers, with its instant rendered by [time]. *)
Definition occurrence_payload (time : Z -> json) (o : IncidentOccurrenceReceipt) : list (string * json) := [
  ("schemaVersion", JStr "athena.incidentOccurrenceReceipt.v1");
  ("incidentId", JStr (io_incident_id o));
  ("transitionId", JStr (io_transition_id o));
  ("stateResultDigest", JStr (io_state_result_digest o));
  ("stateReference", blob_reference_dump (io_state_reference o));
  ("stateAttestationReference", blob_reference_dump (io_state_attestation_reference o));
  ("pointerReference", blob_reference_dump (io_pointer_reference o));
  ("pointerAttestationReference", blob_reference_dump (io_pointer_attestation_reference o));
  ("publishedAt", time (io_published_at o))].

Definition occurrence_dump (o : IncidentOccurrenceReceipt) : json :=
  JObj (("occurrenceId", JStr (io_occurrence_id o)) :: occurrence_payload time_json o ++
        [("occurrenceDigest", JStr (io_occurrence_digest o))]).

Definition index_entry_dump (e : ActiveIncidentEntry) : json := JObj [
  ("incidentId", JStr (ae_incident_id e));
  ("scenario", JStr (scenario_value (ae_scenario e)));
  ("lifecycle", JStr "active");
  ("workloadRole", JStr (workload_role_value (ae_workload_role e)));
  ("pointerPath", JStr (ae_pointer_path e));
  ("pointerSha256", JStr (ae_pointer_sha256 e));
  ("detectedAt", time_json (ae_detected_at e));
  ("updatedAt", time_json (ae_updated_at e))].

Definition index_dump (x : ActiveIncidentIndex) : json := JObj [
  ("schemaVersion", JStr "athena.activeIncidentIndex.v1");
  ("incidents", JArr (index_entry_dump <$> ai_incidents x));
  ("indexAttestationPath", JStr (ai_index_attestation_path x));
  ("keyId", JStr (ai_key_id x));
  ("keyFingerprint", JStr (ai_key_fingerprint x));
  ("publishedAt", time_json (ai_published_at x))].

Definition index_attestation_dump (a : ActiveIncidentIndexAttestation) : json := JObj [
  ("schemaVersion", JStr "athena.activeIncidentIndexAttestation.v1");
  ("indexDigest", JStr (xa_index_digest a));
  ("signatureAlgorithm", JStr "RS256");
  ("keyVaultKeyId", JStr (xa_key_vault_key_id a));
  ("detachedSignature", JStr (xa_detached_signature a))].

(** _StrictEventModel.canonical_bytes *)
Definition newline : string := String (ascii_of_nat 10) "".
Definition canonical_bytes (dump : json) : result string :=
  text ← canonicalize_json dump; Ok (text +:+ newline).

(** incident_state_signature_preimage, incident_pointer_signature_preimage:
    [model_validate_json] of a model's own [model_dump_json] is the model again. *)
Definition incident_state_signature_preimage (s : IncidentState) : result string :=
  canonicalize_json (JObj (unsigned_state time_json s)).
Definition incident_pointer_signature_preimage (p : IncidentFeedPointer) : result string :=
  canonical_bytes (pointer_dump p).
End rendering.

(** ** Validators *)
Section validators.
Context `{PyText, Rfc8785, PydanticJson}.

Definition is_event_id : string -> bool := matches [Lit "evt-"; Hexes 12].
Definition is_incident_id_text : string -> bool := matches [Lit "inc-"; Hexes 12].
Definition is_request_id : string -> bool := matches [Lit "reassess-"; Hexes 12].
Definition is_transition_id_text : string -> bool := matches [Lit "wc016-"; Hexes 64].

(** NormalizedMonitorEvent.validate_freshness_order *)
Definition validate_freshness_order (e : NormalizedMonitorEvent) : result unit :=
  _ ← raise_if (ValidationError "receivedAt must not precede observedAt") (ne_received_at e <? ne_observed_at e);
  _ ← raise_if (ValidationError "event is outside the ten-minute reassessment window")
        (600 * second <? ne_received_at e - ne_observed_at e);
  match split_on slash (ne_target_resource_id e) with
  | [_; s1; s2; s3; s4; s5; s6; s7; _] =>
      _ ← guard_or (ValidationError "event scope fields do not match targetResourceId")
            (String.eqb s1 "subscriptions" && String.eqb s2 (lower (ne_subscription_id e)) &&
             String.eqb s3 "resourcegroups" && String.eqb s4 (lower (ne_resource_group_name e)) &&
             String.eqb s5 "providers");
      _ ← guard_or (ValidationError "event resource type does not match targetResourceId")
            (String.eqb (casefold (s6 +:+ "/" +:+ s7)) (casefold (resource_type_value (ne_target_resource_type e))));
      guard_or (ValidationError "eventId does not match deduplicationKey")
        (String.eqb (ne_event_id e) ("evt-" +:+ string_take 12 (sha256_hexdigest (ne_deduplication_key e))))
  | _ => Raise (ValidationError "event scope fields do not match targetResourceId")
  end.

(** The construction of an event: its fields ([normalize_resource_id] stores the
    lower-cased resource id), then the model validator. *)
Definition make_event (e : NormalizedMonitorEvent) : result NormalizedMonitorEvent :=
  _ ← field "eventId" (is_event_id (ne_event_id e));
  _ ← field "deduplicationKey" (is_digest (ne_deduplication_key e));
  _ ← field "subscriptionId" (is_guid (ne_subscription_id e));
  _ ← field "resourceGroupName" (length_between 1 90 (ne_resource_group_name e));
  _ ← field "targetResourceId" (length_between 1 2048 (ne_target_resource_id e));
  _ ← field "operationName" (length_between 1 256 (ne_operation_name e));
  _ ← field "sourceDigest" (is_digest (ne_source_digest e));
  let id := ne_target_resource_id e in
  _ ← field "targetResourceId must be one canonical Azure resource ID"
        (starts_with "/subscriptions/" id && negb (contains_char "\" id) && negb (contains_char "%" id));
  let e := {| ne_event_id := ne_event_id e; ne_deduplication_key := ne_deduplication_key e;
              ne_source_system := ne_source_system e; ne_signal_kind := ne_signal_kind e;
              ne_lifecycle := ne_lifecycle e; ne_severity := ne_severity e;
              ne_subscription_id := ne_subscription_id e; ne_resource_group_name := ne_resource_group_name e;
              ne_target_resource_id := lower id; ne_target_resource_type := ne_target_resource_type e;
              ne_operation_name := ne_operation_name e; ne_observed_at := ne_observed_at e;
              ne_received_at := ne_received_at e; ne_source_digest := ne_source_digest e |} in
  _ ← validate_freshness_order e; Ok e.

(** The table of ReassessmentRequest.validate_request_binding *)
Definition expected_role_and_scenario (t : TargetResourceType) (r : WorkloadRole) : option IncidentScenario :=
  match t, r with
  | VirtualMachines, DatabasePrimary => Some SingletonDatabaseFailure
  | VirtualMachines, Web => Some WebServerFailure
  | LoadBalancers, LoadBalancer => Some LoadBalancerFailure
  | _, _ => None
  end.

(** ReassessmentRequest.validate_request_binding *)
Definition validate_request_binding (r : ReassessmentRequest) : result unit :=
  let event := rr_trigger_event r in
  let digest := removeprefix "sha256:" (ne_deduplication_key event) in
  guard_or (ValidationError "reassessment request is not deterministically bound")
    (String.eqb (rr_trigger_event_id r) (ne_event_id event) &&
     String.eqb (rr_target_resource_id r) (ne_target_resource_id event) &&
     bool_decide (rr_lifecycle r = ne_lifecycle event) &&
     String.eqb (rr_request_id r) ("reassess-" +:+ string_take 12 digest) &&
     String.eqb (rr_incident_id r) ("inc-" +:+ string_take 12 (sha256_hexdigest (ne_target_resource_id event))) &&
     String.eqb (rr_idempotency_key r) ("wc016-" +:+ digest) &&
     bool_decide (expected_role_and_scenario (ne_target_resource_type event) (rr_workload_role r) = Some (rr_scenario r))).

Definition make_request (r : ReassessmentRequest) : result ReassessmentRequest :=
  _ ← field "requestId" (is_request_id (rr_request_id r));
  _ ← field "incidentId" (is_incident_id_text (rr_incident_id r));
  _ ← field "triggerEventId" (is_event_id (rr_trigger_event_id r));
  _ ← field "targetResourceId" (length_between 1 2048 (rr_target_resource_id r));
  _ ← field "idempotencyKey" (is_transition_id_text (rr_idempotency_key r));
  _ ← validate_request_binding r; Ok r.

Definition make_incident_finding (f : IncidentFinding) : result IncidentFinding :=
  _ ← field "clauseId" (length_between 1 128 (if_clause_id f));
  _ ← field "summary" (length_between 1 512 (if_summary f));
  _ ← field "evidenceRefs" ((1 <=? length (if_evidence_refs f))%nat && (length (if_evidence_refs f) <=? 32)%nat);
  Ok f.

(** IncidentState.validate_lifecycle_claim *)
Definition notifiable (l : IncidentLifecycle) : bool := bool_decide (l = IncidentActive) || bool_decide (l = IncidentResolved).
Definition validate_lifecycle_claim (s : IncidentState) : result unit :=
  _ ← raise_if (ValidationError "updatedAt must not precede detectedAt") (is_updated_at s <? is_detected_at s);
  _ ← raise_if (ValidationError "active incidents cannot claim normal availability")
        (bool_decide (is_lifecycle s = IncidentActive) && bool_decide (is_availability s = AvailabilityNormal));
  _ ← raise_if (ValidationError "resolved incidents must claim normal availability")
        (bool_decide (is_lifecycle s = IncidentResolved) && negb (bool_decide (is_availability s = AvailabilityNormal)));
  _ ← raise_if (ValidationError "notifiable incidents must record pending dispatch")
        (notifiable (is_lifecycle s) && negb (bool_decide (is_notification_status s = PendingDispatch)));
  raise_if (ValidationError "non-notifiable incidents cannot claim outbox enqueue")
    (negb (notifiable (is_lifecycle s)) && negb (bool_decide (is_notification_status s = NotRequired))).

Definition make_state (s : IncidentState) : result IncidentState :=
  _ ← field "incidentId" (is_incident_id_text (is_incident_id s));
  _ ← field "transitionId" (is_transition_id_text (is_transition_id s));
  _ ← field "targetBinding" (is_digest (is_target_binding s));
  _ ← field "findings" ((1 <=? length (is_findings s))%nat && (length (is_findings s) <=? 32)%nat);
  _ ← field "reasoning" ((1 <=? length (is_reasoning s))%nat && (length (is_reasoning s) <=? 16)%nat);
  _ ← field "resultDigest" (is_digest (is_result_digest s));
  _ ← validate_lifecycle_claim s; Ok s.

(** The two attestations of a feed carry a digest, a key id and a signature. *)
Definition attestation_fields (digest key_id signature : string) : result unit :=
  _ ← field "digest" (is_digest digest);
  _ ← field "keyVaultKeyId" (length_between 1 512 key_id);
  field "detachedSignature" (is_base64url signature).

Definition make_state_attestation (a : IncidentStateAttestation) : result IncidentStateAttestation :=
  _ ← attestation_fields (sa_result_digest a) (sa_key_vault_key_id a) (sa_detached_signature a); Ok a.
Definition make_feed_attestation (a : IncidentFeedAttestation) : result IncidentFeedAttestation :=
  _ ← attestation_fields (fa_pointer_digest a) (fa_key_vault_key_id a) (fa_detached_signature a); Ok a.
Definition make_index_attestation (a : ActiveIncidentIndexAttestation) : result ActiveIncidentIndexAttestation :=
  _ ← attestation_fields (xa_index_digest a) (xa_key_vault_key_id a) (xa_detached_signature a); Ok a.

(** IncidentFeedPointer.validate_incident_paths *)
Definition validate_incident_paths (p : IncidentFeedPointer) : result unit :=
  let prefix := "./incidents/" +:+ fp_incident_id p +:+ "/versions/" in
  _ ← guard_or (ValidationError "incident state path is invalid")
        (starts_with prefix (fp_state_path p) && ends_with "/state.json" (fp_state_path p));
  let rest := string_drop (String.length prefix) (fp_state_path p) in
  let version := string_take (String.length rest - 11) rest in
  guard_or (ValidationError "incident pointer paths must bind one immutable version")
    ((String.length version =? 64)%nat && all_chars is_lower_hex version &&
     String.eqb (fp_attestation_path p) (prefix +:+ version +:+ "/attestation.json") &&
     String.eqb (fp_pointer_attestation_path p) (prefix +:+ version +:+ "/pointer-attestation.json")).

Definition make_pointer (p : IncidentFeedPointer) : result IncidentFeedPointer :=
  _ ← field "incidentId" (is_incident_id_text (fp_incident_id p));
  _ ← field "statePath" (is_incident_path (fp_state_path p));
  _ ← field "stateSha256" (is_digest (fp_state_sha256 p));
  _ ← field "attestationPath" (is_incident_path (fp_attestation_path p));
  _ ← field "attestationSha256" (is_digest (fp_attestation_sha256 p));
  _ ← field "pointerAttestationPath" (is_incident_path (fp_pointer_attestation_path p));
  _ ← field "keyId" (length_between 1 512 (fp_key_id p));
  _ ← field "keyFingerprint" (is_digest (fp_key_fingerprint p));
  _ ← validate_incident_paths p; Ok p.

Definition is_relative_char (c : ascii) : bool :=
  is_alnum c || Ascii.eqb c "." || Ascii.eqb c "_" || Ascii.eqb c "/" || Ascii.eqb c "-".

(** [_RELATIVE_FILE_PATTERN.fullmatch] *)
Definition matches_relative_file (s : string) : bool :=
  match String.list_ascii_of_string s with
  | [] => false
  | c :: rest =>
      is_alnum c && forallb is_relative_char rest && (length rest <=? 511)%nat &&
      match last rest with Some d => is_alnum d | None => true end
  end.

(** _validate_relative_name of contracts/operational_phase.py *)
Definition validate_relative_name (value : string) : result unit :=
  _ ← guard_or (AthenaValidationError "artifact name must be one bounded portable relative path")
        (String.eqb value (strip value) && negb (contains_char "\" value) && matches_relative_file value);
  raise_if (AthenaValidationError "artifact name must not contain empty or traversing path segments")
    (existsb (fun part => bool_decide (part ∈ [""; "."; ".."])) (split_on slash value)).

(** [^[A-Za-z0-9][A-Za-z0-9._:+/-]{0,255}$] *)
Definition is_blob_version (s : string) : bool :=
  match s with
  | EmptyString => false
  | String c r =>
      is_alnum c && (String.length r <=? 255)%nat &&
      all_chars (fun d => is_relative_char d || Ascii.eqb d ":" || Ascii.eqb d "+") r
  end.

Definition make_blob_reference (r : VersionPinnedBlobReference) : result VersionPinnedBlobReference :=
  _ ← field "name" (length_between 1 512 (vp_name r));
  _ ← field "version" (is_blob_version (vp_version r));
  _ ← field "contentDigest" (is_digest (vp_content_digest r));
  _ ← reraise is_value_error (ValidationError "name") (validate_relative_name (vp_name r)); Ok r.

(** The id of a receipt with a given digest. *)
Definition occurrence_id_of (digest : string) : string :=
  "incident-occurrence-" +:+ string_take 32 (removeprefix "sha256:" digest).

(** IncidentOccurrenceReceipt.validate_receipt *)
Definition validate_occurrence (o : IncidentOccurrenceReceipt) : result unit :=
  let prefix := "incidents/" +:+ io_incident_id o +:+ "/versions/" +:+ removeprefix "sha256:" (io_state_result_digest o) in
  _ ← guard_or (ValidationError "incident occurrence references do not bind one state version")
        (String.eqb (vp_name (io_state_reference o)) (prefix +:+ "/state.json") &&
         String.eqb (vp_name (io_state_attestation_reference o)) (prefix +:+ "/attestation.json") &&
         String.eqb (vp_name (io_pointer_reference o)) (prefix +:+ "/pointer.json") &&
         String.eqb (vp_name (io_pointer_attestation_reference o)) (prefix +:+ "/pointer-attestation.json"));
  expected ← reraise is_value_error (ValidationError "canonicalization") (compute_artifact_digest (JObj (occurrence_payload time_json o)));
  _ ← guard_or (ValidationError "occurrenceDigest does not bind incident occurrence receipt")
        (String.eqb (io_occurrence_digest o) expected);
  _ ← guard_or (ValidationError "occurrenceId is not digest-bound")
        (String.eqb (io_occurrence_id o) (occurrence_id_of expected));
  bytes ← reraise is_value_error (ValidationError "canonicalization") (canonical_bytes (occurrence_dump o));
  raise_if (ValidationError "incident occurrence receipt exceeds its byte budget") (16 * 1024 <? Z.of_nat (String.length bytes)).

(** The references are constructed before: pydantic does not validate an instance again. *)
Definition make_occurrence (o : IncidentOccurrenceReceipt) : result IncidentOccurrenceReceipt :=
  _ ← field "occurrenceId" (matches [Lit "incident-occurrence-"; Hexes 32] (io_occurrence_id o));
  _ ← field "incidentId" (is_incident_id_text (io_incident_id o));
  _ ← field "transitionId" (is_transition_id_text (io_transition_id o));
  _ ← field "stateResultDigest" (is_digest (io_state_result_digest o));
  _ ← field "occurrenceDigest" (is_digest (io_occurrence_digest o));
  _ ← validate_occurrence o; Ok o.

(** build_incident_occurrence_receipt *)
Definition build_incident_occurrence_receipt (state : IncidentState) (state_attestation : IncidentStateAttestation)
    (pointer : IncidentFeedPointer) (pointer_attestation : IncidentFeedAttestation)
    (state_reference state_attestation_reference pointer_reference pointer_attestation_reference
       : VersionPinnedBlobReference) : result IncidentOccurrenceReceipt :=
  state_bytes ← canonical_bytes (state_dump state);
  state_attestation_bytes ← canonical_bytes (state_attestation_dump state_attestation);
  pointer_bytes ← canonical_bytes (pointer_dump pointer);
  pointer_attestation_bytes ← canonical_bytes (feed_attestation_dump pointer_attestation);
  preimage ← incident_state_signature_preimage state;
  _ ← guard_or (ValueError "incident occurrence receipt inputs do not match exact artifacts")
        (String.eqb (is_result_digest state) (sha256_hex preimage) &&
         String.eqb (sa_result_digest state_attestation) (is_result_digest state) &&
         String.eqb (sa_key_vault_key_id state_attestation) (fa_key_vault_key_id pointer_attestation) &&
         String.eqb (fp_incident_id pointer) (is_incident_id state) &&
         String.eqb (fp_state_sha256 pointer) (sha256_hex state_bytes) &&
         String.eqb (removeprefix "./" (fp_state_path pointer)) (vp_name state_reference) &&
         String.eqb (fp_attestation_sha256 pointer) (sha256_hex state_attestation_bytes) &&
         String.eqb (removeprefix "./" (fp_attestation_path pointer)) (vp_name state_attestation_reference) &&
         String.eqb (removeprefix "./" (removesuffix "/state.json" (fp_state_path pointer)) +:+ "/pointer.json")
           (vp_name pointer_reference) &&
         String.eqb (removeprefix "./" (fp_pointer_attestation_path pointer)) (vp_name pointer_attestation_reference) &&
         String.eqb (fa_pointer_digest pointer_attestation) (sha256_hex pointer_bytes) &&
         String.eqb (vp_content_digest state_reference) (sha256_hex state_bytes) &&
         String.eqb (vp_content_digest state_attestation_reference) (sha256_hex state_attestation_bytes) &&
         String.eqb (vp_content_digest pointer_reference) (sha256_hex pointer_bytes) &&
         String.eqb (vp_content_digest pointer_attestation_reference) (sha256_hex pointer_attestation_bytes) &&
         (is_updated_at state <=? fp_published_at pointer));
  let receipt occurrence_id occurrence_digest :=
    {| io_occurrence_id := occurrence_id; io_incident_id := is_incident_id state;
       io_transition_id := is_transition_id state; io_state_result_digest := is_result_digest state;
       io_state_reference := state_reference; io_state_attestation_reference := state_attestation_reference;
       io_pointer_reference := pointer_reference; io_pointer_attestation_reference := pointer_attestation_reference;
       io_published_at := fp_published_at pointer; io_occurrence_digest := occurrence_digest |} in
  digest ← compute_artifact_digest (JObj (occurrence_payload JTime (receipt "" "")));
  make_occurrence (receipt (occurrence_id_of digest) digest).

(** ActiveIncidentEntry.validate_pointer_path *)
Definition validate_pointer_path (e : ActiveIncidentEntry) : result unit :=
  _ ← guard_or (ValidationError "active incident entry pointer path is invalid")
        (starts_with ("./incidents/" +:+ ae_incident_id e +:+ "/versions/") (ae_pointer_path e));
  raise_if (ValidationError "active incident entry timestamps are invalid") (ae_updated_at e <? ae_detected_at e).

Definition make_entry_active (e : ActiveIncidentEntry) : result ActiveIncidentEntry :=
  _ ← field "incidentId" (is_incident_id_text (ae_incident_id e));
  _ ← field "pointerPath" (matches [Lit "./incidents/inc-"; Hexes 12; Lit "/versions/"; Hexes 64; Lit "/pointer.json"] (ae_pointer_path e));
  _ ← field "pointerSha256" (is_digest (ae_pointer_sha256 e));
  _ ← validate_pointer_path e; Ok e.

(** ActiveIncidentIndex.validate_deterministic_order *)
Definition validate_deterministic_order (x : ActiveIncidentIndex) : result unit :=
  let incident_ids := ae_incident_id <$> ai_incidents x in
  guard_or (ValidationError "active incidents must be uniquely sorted by incidentId")
    (bool_decide (incident_ids = sort_strings incident_ids) && unique incident_ids).

Definition make_index (x : ActiveIncidentIndex) : result ActiveIncidentIndex :=
  _ ← field "incidents" (length (ai_incidents x) <=? 64)%nat;
  _ ← field "indexAttestationPath" (matches [Lit "./incidents/index-attestations/"; Hexes 64; Lit ".json"] (ai_index_attestation_path x));
  _ ← field "keyId" (length_between 1 512 (ai_key_id x));
  _ ← field "keyFingerprint" (is_digest (ai_key_fingerprint x));
  _ ← validate_deterministic_order x; Ok x.
End validators.
