(* ===== verification/Normalization.v ===== *)
(** * Normalization: Azure events to monitor events and reassessment requests

    [eventing/normalization.py] and [eventing/routing.py]. A raw event is a JSON
    value. [str()] of a JSON number or container is the interface [PyStr];
    [datetime.fromisoformat] is [parse_iso]. *)
From S2P Require Import Prelude Text Sha256 Time Json Events.
From Stdlib Require Import Ascii SpecFloat.
Local Open Scope Z_scope.

(** An aware or naive [datetime]: its instant and its UTC offset in minutes. *)
Record PyTime := { pt_instant : Z; pt_offset : option Z }.
Definition utc (t : Z) : PyTime := {| pt_instant := t; pt_offset := Some 0 |}.

(** [t.utcoffset() is None or t.utcoffset() != UTC.utcoffset(t)] *)
Definition not_utc (t : PyTime) : bool := negb (bool_decide (pt_offset t = Some 0)).

Section normalization.
Context `{PyText, PyDatetime, PyStr, Rfc8785}.

(** _record *)
Definition record (value : json) (label : string) : result (list (string * json)) :=
  match value with
  | JObj ms => Ok ms
  | _ => Raise (EventNormalizationError (label +:+ " must be an object"))
  end.

(** _bounded_text *)
Definition bounded_text (value : json) (label : string) : result string :=
  match value with
  | JStr s =>
      if String.eqb (strip s) "" || (256 <? py_len s)%nat
      then Raise (EventNormalizationError (label +:+ " is missing or outside its bound"))
      else Ok (strip s)
  | _ => Raise (EventNormalizationError (label +:+ " is missing or outside its bound"))
  end.

(** _timestamp *)
Definition timestamp (value : json) : result Z :=
  match value with
  | JStr s =>
      _ ← raise_if (EventNormalizationError "event timestamp is missing or invalid") (40 <? py_len s)%nat;
      match parse_iso (replace "Z" "+00:00" s) with
      | None => Raise (EventNormalizationError "event timestamp is invalid")
      | Some (t, offset) =>
          if bool_decide (offset = Some 0) then Ok t
          else Raise (EventNormalizationError "event timestamp must use UTC")
      end
  | _ => Raise (EventNormalizationError "event timestamp is missing or invalid")
  end.

(** _resource_id *)
Definition resource_id (value : json) : result string :=
  match value with
  | JStr s =>
      let normalized := lower (rstrip_slash (strip s)) in
      if starts_with "/subscriptions/" normalized && (py_len normalized <=? 2048)%nat then Ok normalized
      else Raise (EventNormalizationError "target resource ID is invalid")
  | _ => Raise (EventNormalizationError "target resource ID is missing")
  end.

(** _resource_type *)
Definition resource_type (id : string) (provider : json) : result TargetResourceType :=
  let lowered := lower id in
  if contains "/providers/microsoft.compute/virtualmachines/" lowered then Ok VirtualMachines
  else if contains "/providers/microsoft.network/loadbalancers/" lowered then Ok LoadBalancers
  else
    match provider with
    | JStr p =>
        let normalized := lower (strip p) in
        if String.eqb normalized "microsoft.compute" then Ok VirtualMachines
        else if String.eqb normalized "microsoft.network" then Ok LoadBalancers
        else Raise (EventNormalizationError "target resource type is not allowlisted")
    | _ => Raise (EventNormalizationError "target resource type is not allowlisted")
    end.

(** _scope *)
Definition scope (id : string) : result (string * string) :=
  match split_on slash id with
  | _ :: _ :: subscription :: _ :: group :: _ => Ok (subscription, group)
  | _ => Raise (EventNormalizationError "target resource scope is invalid")
  end.

Definition active_states : list string :=
  ["unavailable"; "degraded"; "fired"; "activated"; "deallocate"; "poweroff"; "delete"].
Definition resolved_states : list string := ["available"; "resolved"; "start"; "restart"].
Definition active_actions : list string := ["/deallocate/"; "/poweroff/"; "/delete"].
Definition resolved_actions : list string := ["/start/"; "/restart/"].

(** [" :,"] *)
Definition is_separator (c : ascii) : bool := Ascii.eqb c " " || Ascii.eqb c ":" || Ascii.eqb c ",".

(** _lifecycle: the tokens are the non-empty stripped words of the text. *)
Definition lifecycle_tokens (lowered : string) : list string :=
  select (fun token => negb (String.eqb token ""))
    (strip_by is_separator <$> split_ws (replace newline " " lowered)).

Definition lifecycle (value : string) : EventLifecycle :=
  let lowered := strip (lower value) in
  let tokens := lifecycle_tokens lowered in
  let meets states actions :=
    existsb (fun token => bool_decide (token ∈ states)) tokens || existsb (fun action => contains action lowered) actions in
  if meets active_states active_actions then Activated
  else if meets resolved_states resolved_actions then Resolved
  else Unknown.

(** _severity *)
Definition severity (value : json) : EventSeverity :=
  let lowered := lower (py_str (py_or value (JStr ""))) in
  if bool_decide (lowered ∈ ["sev0"; "sev1"; "critical"; "error"; "unavailable"]) then SeverityCritical
  else if bool_decide (lowered ∈ ["sev2"; "sev3"; "warning"; "degraded"]) then SeverityWarning
  else if bool_decide (lowered ∈ ["sev4"; "informational"; "info"; "available"]) then SeverityInformational
  else SeverityUnknown.

(** The NUL that separates the parts of a deduplication key. *)
Definition nul : string := String (ascii_of_nat 0) "".

(** The text whose digest is the deduplication key of _normalized. *)
Definition deduplication_text (source : EventSource) (source_id id : string) (l : EventLifecycle) (observed_at : Z) : string :=
  join nul [event_source_value source; lower source_id; id; lifecycle_value l; isoformat observed_at].

(** _normalized: the members handed to the model. *)
Definition normalized (source : EventSource) (kind : SignalKind) (source_id id : string) (type : TargetResourceType)
    (operation : string) (l : EventLifecycle) (sev : EventSeverity) (observed_at received_at : Z)
    (raw_safe : json) : result NormalizedMonitorEvent :=
  '(subscription_id, resource_group) ← scope id;
  source_digest ← compute_semantic_digest raw_safe;
  let deduplication_key := sha256_hex (deduplication_text source source_id id l observed_at) in
  Ok {| ne_event_id := "evt-" +:+ string_take 12 (sha256_hexdigest deduplication_key);
        ne_deduplication_key := deduplication_key; ne_source_system := source; ne_signal_kind := kind;
        ne_lifecycle := l; ne_severity := sev; ne_subscription_id := subscription_id;
        ne_resource_group_name := resource_group; ne_target_resource_id := id; ne_target_resource_type := type;
        ne_operation_name := operation; ne_observed_at := observed_at; ne_received_at := received_at;
        ne_source_digest := source_digest |}.

(** The members an event digest covers, [None] where absent. *)
Definition pick (keys : list string) (d : list (string * json)) : list (string * json) :=
  (fun k => (k, get k d)) <$> keys.

(** _from_event_grid *)
Definition from_event_grid (event : list (string * json)) (received_at : Z) : result NormalizedMonitorEvent :=
  data ← record (get "data" event) "event data";
  id ← resource_id (py_or (py_or (get "resourceUri" data) (get "resourceId" data)) (get "subject" event));
  type ← resource_type id (get "resourceProvider" data);
  operation ← bounded_text (py_or (py_or (get "operationName" data) (get "status" data)) (get "eventType" event)) "operation";
  let category := lower (py_str (default (JStr "") (assoc "category" data))) in
  let kind := if String.eqb category "resourcehealth" then ResourceHealth else ActivityLog in
  observed_at ← timestamp (py_or (get "eventTime" event) (get "eventTimestamp" data));
  let status := join " " (py_str <$> select truthy [JStr operation; get "status" data; get "currentHealthStatus" data]) in
  source_id ← bounded_text (get "id" event) "event id";
  normalized AzureEventGrid kind source_id id type operation (lifecycle status)
    (severity (py_or (get "level" data) (get "currentHealthStatus" data))) observed_at received_at
    (JObj (pick ["id"; "eventType"; "subject"; "eventTime"] event ++
       [("data", JObj (pick ["resourceUri"; "resourceProvider"; "operationName"; "status"; "category"; "currentHealthStatus"] data))])).

(** _from_common_alert *)
Definition from_common_alert (event : list (string * json)) (received_at : Z) (approved_metric_alert_rules : list string)
    : result NormalizedMonitorEvent :=
  data ← record (get "data" event) "alert data";
  essentials ← record (get "essentials" data) "alert essentials";
  let targets := get "alertTargetIDs" essentials in
  target ← match targets with
           | JArr [target] => Ok target
           | _ => Raise (EventNormalizationError "alert must target exactly one Azure resource")
           end;
  id ← resource_id target;
  type ← resource_type id JNull;
  signal_type ← bounded_text (get "signalType" essentials) "signal type";
  monitor_condition ← bounded_text (get "monitorCondition" essentials) "monitor condition";
  operation ← bounded_text (py_or (get "alertRule" essentials) (JStr signal_type)) "alert rule";
  _ ← raise_if (EventNormalizationError "load balancer failures require metric or resource-health evidence")
        (bool_decide (type = LoadBalancers) && negb (bool_decide (lower signal_type ∈ ["metric"; "resource health"])));
  _ ← raise_if (EventNormalizationError "metric alert rule is not an approved workload availability signal")
        (String.eqb (lower signal_type) "metric" &&
         negb (bool_decide (casefold operation ∈ casefold <$> approved_metric_alert_rules)));
  let observed_value :=
    if String.eqb (lower monitor_condition) "resolved" then get "resolvedDateTime" essentials
    else get "firedDateTime" essentials in
  source_id ← bounded_text (get "alertId" essentials) "alert id";
  observed_at ← timestamp observed_value;
  normalized AzureMonitorCommonAlert
    (if String.eqb (lower signal_type) "resource health" then ResourceHealth else MetricAlert)
    source_id id type operation (lifecycle monitor_condition) (severity (get "severity" essentials)) observed_at received_at
    (JObj [("schemaId", get "schemaId" event);
       ("data", JObj [("essentials", JObj (pick ["alertId"; "signalType"; "monitorCondition"; "severity"; "alertRule"]
                        essentials ++ [("alertTargetIDs", targets)] ++ pick ["firedDateTime"; "resolvedDateTime"] essentials))])]).

(** normalize_monitor_event *)
Definition normalize_monitor_event (value : json) (received_at : PyTime) (approved_metric_alert_rules : list string)
    : result NormalizedMonitorEvent :=
  _ ← raise_if (EventNormalizationError "received_at must use UTC") (not_utc received_at);
  event ← record value "event";
  let received := pt_instant received_at in
  members ←
    (if has_key "eventType" event && has_key "data" event then from_event_grid event received
     else if bool_decide (assoc "schemaId" event = Some (JStr "azureMonitorCommonAlertSchema"))
     then from_common_alert event received approved_metric_alert_rules
     else Raise (EventNormalizationError "unsupported Azure event envelope"));
  reraise (fun e => match e with ValidationError _ => true | _ => false end)
    (EventNormalizationError "normalized event contract is invalid") (make_event members).

(** ** Routing *)
Definition scenario_of (r : WorkloadRole) : IncidentScenario :=
  match r with
  | DatabasePrimary => SingletonDatabaseFailure
  | Web => WebServerFailure
  | LoadBalancer => LoadBalancerFailure
  end.

(** The request of an event for a role. *)
Definition request_of (event : NormalizedMonitorEvent) (role : WorkloadRole) : ReassessmentRequest :=
  let seed := removeprefix "sha256:" (ne_deduplication_key event) in
  let incident_seed := sha256_hexdigest (ne_target_resource_id event) in
  {| rr_request_id := "reassess-" +:+ string_take 12 seed;
     rr_incident_id := "inc-" +:+ string_take 12 incident_seed;
     rr_trigger_event_id := ne_event_id event; rr_trigger_event := event;
     rr_scenario := scenario_of role; rr_workload_role := role;
     rr_target_resource_id := ne_target_resource_id event; rr_lifecycle := ne_lifecycle event;
     rr_idempotency_key := "wc016-" +:+ seed |}.

(** build_reassessment_request *)
Definition build_reassessment_request (event : NormalizedMonitorEvent)
    (approved_resource_roles : list (string * WorkloadRole)) : result ReassessmentRequest :=
  role ← match assoc (ne_target_resource_id event) approved_resource_roles with
         | Some role => Ok role
         | None => Raise (EventRoutingError "event target is not bound to one approved workload role")
         end;
  _ ← raise_if (EventRoutingError "load balancer event has an inconsistent workload role")
        (bool_decide (ne_target_resource_type event = LoadBalancers) && negb (bool_decide (role = LoadBalancer)));
  _ ← raise_if (EventRoutingError "virtual machine event has an inconsistent workload role")
        (bool_decide (ne_target_resource_type event = VirtualMachines) && bool_decide (role = LoadBalancer));
  _ ← guard_or (EventRoutingError "event lifecycle is not actionable")
        (bool_decide (ne_lifecycle event ∈ [Activated; Resolved]));
  make_request (request_of event role).
End normalization.
