(* ===== verification/Effects.v ===== *)
(** * Effects: computations whose state outlives an exception

    A call on a port (a table, a queue, a blob container) may raise after the
    service has acted, and [finally] blocks run in every case, so the state is
    returned beside the outcome. [triple] is the Hoare logic of these
    computations, with one postcondition for a value and one for an exception. *)
From S2P Require Import Prelude.

Definition stateful (W A : Type) : Type := W -> result A * W.

#[export] Instance stateful_ret {W} : MRet (stateful W) := fun A a w => (Ok a, w).
#[export] Instance stateful_bind {W} : MBind (stateful W) := fun A B k m w =>
  match m w with
  | (Ok a, w) => k a w
  | (Raise e, w) => (Raise e, w)
  end.

Section effects.
Context {W : Type}.

Definition lift {A} (r : result A) : stateful W A := fun w => (r, w).
Definition throw {A} (e : exn) : stateful W A := fun w => (Raise e, w).

(** [try: m finally: f]: an exception of [f] replaces the outcome of [m]. *)
Definition finally {A} (m : stateful W A) (f : stateful W unit) : stateful W A := fun w =>
  let '(r, w) := m w in
  match f w with
  | (Ok _, w) => (r, w)
  | (Raise e, w) => (Raise e, w)
  end.

(** [try: m except e: h e] where [h e] is [None] when [e] is not caught. *)
Definition catching {A} (m : stateful W A) (h : exn -> option (stateful W A)) : stateful W A := fun w =>
  match m w with
  | (Ok a, w) => (Ok a, w)
  | (Raise e, w) => match h e with Some k => k w | None => (Raise e, w) end
  end.

(** A loop that threads an accumulator. *)
Fixpoint foldM {A S} (f : S -> A -> stateful W S) (s : S) (l : list A) : stateful W S :=
  match l with
  | [] => mret s
  | x :: l => s ← f s x; foldM f s l
  end.

(** ** Hoare logic *)
Definition triple {A} (P : W -> Prop) (m : stateful W A) (Q : A -> W -> Prop) (E : exn -> W -> Prop) : Prop :=
  forall w, P w -> match m w with (Ok a, w') => Q a w' | (Raise e, w') => E e w' end.

Lemma triple_ret {A} (a : A) (P : W -> Prop) (Q : A -> W -> Prop) E : (forall w, P w -> Q a w) -> triple P (mret a) Q E.
Proof. intros H w Hw. exact (H w Hw). Qed.

Lemma triple_lift {A} (r : result A) (P : W -> Prop) (Q : A -> W -> Prop) (E : exn -> W -> Prop) :
  (forall a w, r = Ok a -> P w -> Q a w) -> (forall e w, r = Raise e -> P w -> E e w) -> triple P (lift r) Q E.
Proof. intros HQ HE w Hw. unfold lift. destruct r as [a|e]; eauto. Qed.

Lemma triple_bind {A B} (m : stateful W A) (k : A -> stateful W B) P R Q E :
  triple P m R E -> (forall a, triple (R a) (k a) Q E) -> triple P (m ≫= k) Q E.
Proof.
  intros Hm Hk w Hw. specialize (Hm w Hw). unfold mbind, stateful_bind. destruct (m w) as [[a|e] w']; [|done].
  by apply Hk.
Qed.

Lemma triple_consequence {A} (m : stateful W A) (P P' : W -> Prop) (Q Q' : A -> W -> Prop) (E E' : exn -> W -> Prop) :
  triple P' m Q' E' -> (forall w, P w -> P' w) -> (forall a w, Q' a w -> Q a w) -> (forall e w, E' e w -> E e w) ->
  triple P m Q E.
Proof.
  intros H HP HQ HE w Hw. specialize (H w (HP w Hw)). destruct (m w) as [[a|e] w']; auto.
Qed.

Lemma triple_pure {A} (m : stateful W A) (P : W -> Prop) (F : Prop) Q E :
  (F -> triple P m Q E) -> triple (fun w => P w /\ F) m Q E.
Proof. intros H w [Hw HF]. by apply H. Qed.

Lemma triple_exists {A X} (m : stateful W A) (P : X -> W -> Prop) (Q : A -> W -> Prop) E :
  (forall x, triple (P x) m Q E) -> triple (fun w => exists x, P x w) m Q E.
Proof. intros H w [x Hw]. by apply (H x). Qed.

Lemma triple_pre {A} (m : stateful W A) (P P' : W -> Prop) Q E :
  (forall w, P w -> P' w) -> triple P' m Q E -> triple P m Q E.
Proof. intros HP H w Hw. by apply H, HP. Qed.

Lemma triple_post {A} (m : stateful W A) (P : W -> Prop) (Q Q' : A -> W -> Prop) E :
  triple P m Q' E -> (forall a w, Q' a w -> Q a w) -> triple P m Q E.
Proof. intros H HQ w Hw. specialize (H w Hw). destruct (m w) as [[a|e] w']; auto. Qed.

(** The rule of the loop: [I done s] holds after the elements [done]. *)
Lemma triple_foldM {A S} (f : S -> A -> stateful W S) (I : list A -> S -> W -> Prop) E s0 l0 :
  (forall pre x post s, l0 = pre ++ x :: post -> triple (I pre s) (f s x) (I (pre ++ [x])) E) ->
  triple (I [] s0) (foldM f s0 l0) (I l0) E.
Proof.
  intros Hf. enough (forall l pre s, l0 = pre ++ l -> triple (I pre s) (foldM f s l) (I l0) E) as H by by apply (H l0 []).
  induction l as [|x l IH]; intros pre s E0; cbn [foldM].
  - rewrite app_nil_r in E0. subst. by apply triple_ret.
  - eapply triple_bind; [by apply (Hf pre x l)|]. intros s'. apply (IH (pre ++ [x])). by rewrite <- app_assoc.
Qed.

Lemma triple_catching {A} (m : stateful W A) (h : exn -> option (stateful W A)) (P : W -> Prop) (Q : A -> W -> Prop) (E E' : exn -> W -> Prop) :
  triple P m Q E' -> (forall e k, h e = Some k -> triple (E' e) k Q E) -> (forall e w, h e = None -> E' e w -> E e w) ->
  triple P (catching m h) Q E.
Proof.
  intros Hm HS HN w Hw. specialize (Hm w Hw). unfold catching. destruct (m w) as [[a|e] w']; [done|].
  destruct (h e) as [k|] eqn:Hh; [by apply (HS e k)|by apply HN].
Qed.

Lemma triple_finally {A} (m : stateful W A) (f : stateful W unit) (P : W -> Prop) (Q : A -> W -> Prop) (E : exn -> W -> Prop) Q' E' :
  triple P m Q' E' ->
  (forall a, triple (Q' a) f (fun _ => Q a) E) -> (forall e, triple (E' e) f (fun _ => E e) E) ->
  triple P (finally m f) Q E.
Proof.
  intros Hm HQ HE w Hw. specialize (Hm w Hw). unfold finally. destruct (m w) as [[a|e] w'].
  - specialize (HQ a w' Hm). destruct (f w') as [[]]; done.
  - specialize (HE e w' Hm). destruct (f w') as [[]]; done.
Qed.

Lemma triple_conj {A} (m : stateful W A) (P1 P2 : W -> Prop) (Q1 Q2 : A -> W -> Prop) (E1 E2 : exn -> W -> Prop) :
  triple P1 m Q1 E1 -> triple P2 m Q2 E2 ->
  triple (fun w => P1 w /\ P2 w) m (fun a w => Q1 a w /\ Q2 a w) (fun e w => E1 e w /\ E2 e w).
Proof.
  intros H1 H2 w [Hw1 Hw2]. specialize (H1 w Hw1). specialize (H2 w Hw2). by destruct (m w) as [[a|e] w'].
Qed.

(** A property of the state that a computation keeps, whatever its outcome. *)
Definition keeps {A} (I : W -> Prop) (m : stateful W A) : Prop := triple I m (fun _ => I) (fun _ => I).

Lemma keeps_ret {A} I (a : A) : keeps I (mret a).
Proof. by apply triple_ret. Qed.
Lemma keeps_lift {A} I (r : result A) : keeps I (lift r).
Proof. by apply triple_lift. Qed.
Lemma keeps_bind {A B} I (m : stateful W A) (k : A -> stateful W B) : keeps I m -> (forall a, keeps I (k a)) -> keeps I (m ≫= k).
Proof. intros Hm Hk. by eapply triple_bind. Qed.
Lemma keeps_foldM {A S} I (f : S -> A -> stateful W S) s l : (forall s x, keeps I (f s x)) -> keeps I (foldM f s l).
Proof. intros Hf. apply (triple_foldM f (fun _ _ => I)). intros. apply Hf. Qed.

(** A property of the outcome of a run. *)
Lemma triple_run {A} (m : stateful W A) (P : W -> Prop) (I : W -> Prop) w r w' :
  triple P m (fun _ => I) (fun _ => I) -> P w -> m w = (r, w') -> I w'.
Proof. intros H Hw E. specialize (H w Hw). rewrite E in H. by destruct r. Qed.
End effects.

#[export] Hint Resolve keeps_ret keeps_lift keeps_bind keeps_foldM : athena.

(** A computation on a part of the state. *)
Definition zoom {W X A} (get : W -> X) (put : X -> W -> W) (m : stateful X A) : stateful W A := fun w =>
  let '(r, x) := m (get w) in (r, put x w).
