(* ===== verification/Detector.v ===== *)
(** * Detector: the scheduled signal detector

    [eventing/detector.py] up to its Azure adapters: the checkpoint of a
    resource, the state store port with its in-memory implementation, the
    allowlist of resources and of ARM reads, the reading of a signal, and one
    detector run. Ports are classes; their calls are [stateful] because a remote
    call can take effect and still raise. *)
From S2P Require Import Prelude Text Sha256 Time Json Events Normalization Effects.
From Stdlib Require Import Ascii SpecFloat.
Local Open Scope Z_scope.

(** ** Checkpoints and ports *)
Record SignalCheckpoint := {
  sc_committed_health : option bool;
  sc_pending_healthy : option bool;
  sc_pending_request : option ReassessmentRequest;
}.

#[export] Instance SignalCheckpoint_eq_dec : EqDecision SignalCheckpoint.
Proof. solve_decision. Defined.

(** SignalCheckpoint.__post_init__ *)
Definition make_checkpoint (committed pending : option bool) (request : option ReassessmentRequest) : result SignalCheckpoint :=
  _ ← raise_if (ValueError "pending detector state must be complete")
        (negb (Bool.eqb (bool_decide (pending = None)) (bool_decide (request = None))));
  Ok {| sc_committed_health := committed; sc_pending_healthy := pending; sc_pending_request := request |}.

Definition committed_checkpoint (committed : option bool) : SignalCheckpoint :=
  {| sc_committed_health := committed; sc_pending_healthy := None; sc_pending_request := None |}.

Record ApprovedSignalObservation := {
  ao_resource_id : string;
  ao_workload_role : WorkloadRole;
  ao_healthy : bool;
  ao_observed_at : PyTime;
  ao_evidence : list (string * json);
  ao_summary : string;
}.

Class SignalStateStorePort (S : Type) := {
  acquire_run_lease : PyTime -> stateful S bool;
  release_run_lease : stateful S unit;
  load_checkpoint : string -> stateful S SignalCheckpoint;
  record_initial_health : string -> PyTime -> stateful S unit;
  stage_transition : string -> bool -> PyTime -> ReassessmentRequest -> stateful S unit;
  complete_transition : string -> string -> PyTime -> stateful S unit;
}.

(** [send(request, message_id=..., session_id=...)] *)
Class ReassessmentRequestSenderPort (Q : Type) := send : ReassessmentRequest -> string -> string -> stateful Q unit.

(** ** What the ports promise

    A store is seen through the checkpoint of every lower-cased id. A call that
    raises may still have had its effect. *)
Class SignalStateStoreLaws (S : Type) `{PyText, SignalStateStorePort S} := {
  checkpoint_of : S -> string -> SignalCheckpoint;
  unchanged (s s' : S) : Prop := forall k, checkpoint_of s' k = checkpoint_of s k;
  updated (s s' : S) (id : string) (c : SignalCheckpoint) : Prop :=
    forall k, checkpoint_of s' k = if decide (k = lower id) then c else checkpoint_of s k;
  acquire_view t s : unchanged s (snd (acquire_run_lease t s));
  release_view s : unchanged s (snd (release_run_lease s));
  load_view id s : unchanged s (snd (load_checkpoint id s));
  load_value id s c : fst (load_checkpoint id s) = Ok c -> c = checkpoint_of s (lower id);
  record_view id t s :
    updated s (snd (record_initial_health id t s)) id (committed_checkpoint (Some true)) \/
    (unchanged s (snd (record_initial_health id t s)) /\ is_ok (fst (record_initial_health id t s)) = false);
  stage_view id healthy t r s :
    (sc_pending_request (checkpoint_of s (lower id)) = None /\
     updated s (snd (stage_transition id healthy t r s)) id
       {| sc_committed_health := sc_committed_health (checkpoint_of s (lower id));
          sc_pending_healthy := Some healthy; sc_pending_request := Some r |}) \/
    (unchanged s (snd (stage_transition id healthy t r s)) /\ is_ok (fst (stage_transition id healthy t r s)) = false);
  complete_view id request_id t s :
    (exists r healthy, sc_pending_request (checkpoint_of s (lower id)) = Some r /\
       sc_pending_healthy (checkpoint_of s (lower id)) = Some healthy /\ rr_request_id r = request_id /\
       updated s (snd (complete_transition id request_id t s)) id (committed_checkpoint (Some healthy))) \/
    (unchanged s (snd (complete_transition id request_id t s)) /\ is_ok (fst (complete_transition id request_id t s)) = false);
}.

Class ReassessmentRequestSenderLaws (Q : Type) `{ReassessmentRequestSenderPort Q} := {
  delivered : Q -> list ReassessmentRequest;
  send_view r message_id session_id q :
    delivered (snd (send r message_id session_id q)) = delivered q ++ [r] \/
    (delivered (snd (send r message_id session_id q)) = delivered q /\ is_ok (fst (send r message_id session_id q)) = false);
}.

(** Ports that raise only where their contract says so. *)
Class ReliableStore (S : Type) `{SignalStateStoreLaws S} : Prop := {
  load_reliable id s : is_ok (fst (load_checkpoint id s)) = true;
  record_reliable id t s : is_ok (fst (record_initial_health id t s)) = true;
  stage_reliable id healthy t r s : sc_pending_request (checkpoint_of s (lower id)) = None ->
    is_ok (fst (stage_transition id healthy t r s)) = true;
  complete_reliable id t r healthy s : sc_pending_request (checkpoint_of s (lower id)) = Some r ->
    sc_pending_healthy (checkpoint_of s (lower id)) = Some healthy ->
    is_ok (fst (complete_transition id (rr_request_id r) t s)) = true;
}.

Class ReliableSender (Q : Type) `{ReassessmentRequestSenderPort Q} : Prop :=
  send_reliable r message_id session_id q : is_ok (fst (send r message_id session_id q)) = true.

(** [get_json(resource_id, query=...)] *)
Definition ArmJsonReader : Type := string -> gmap string string -> result (list (string * json)).

(** ** InMemorySignalStateStore *)
Record InMemorySignalStateStore := {
  ms_state : gmap string SignalCheckpoint;
  ms_lease_held : bool;
}.

Section memory.
Context `{PyText}.

(** InMemorySignalStateStore.__init__ *)
Definition new_signal_store (initial : list (string * bool)) : InMemorySignalStateStore :=
  {| ms_state := foldl (fun m '(id, healthy) => <[lower id := committed_checkpoint (Some healthy)]> m) ∅ initial;
     ms_lease_held := false |}.

Definition memory_checkpoint (id : string) (s : InMemorySignalStateStore) : SignalCheckpoint :=
  default (committed_checkpoint None) (ms_state s !! lower id).

Definition memory_write (id : string) (c : SignalCheckpoint) (s : InMemorySignalStateStore) : InMemorySignalStateStore :=
  {| ms_state := <[lower id := c]> (ms_state s); ms_lease_held := ms_lease_held s |}.

Definition memory_acquire (observed_at : PyTime) : stateful InMemorySignalStateStore bool := fun s =>
  if ms_lease_held s then (Ok false, s) else (Ok true, {| ms_state := ms_state s; ms_lease_held := true |}).

Definition memory_release : stateful InMemorySignalStateStore unit := fun s =>
  (Ok tt, {| ms_state := ms_state s; ms_lease_held := false |}).

Definition memory_load (id : string) : stateful InMemorySignalStateStore SignalCheckpoint := fun s =>
  (Ok (memory_checkpoint id s), s).

Definition memory_record_initial (id : string) (observed_at : PyTime) : stateful InMemorySignalStateStore unit := fun s =>
  (Ok tt, memory_write id (committed_checkpoint (Some true)) s).

Definition memory_stage (id : string) (healthy : bool) (observed_at : PyTime) (request : ReassessmentRequest)
    : stateful InMemorySignalStateStore unit := fun s =>
  let current := memory_checkpoint id s in
  if bool_decide (is_Some (sc_pending_request current))
  then (Raise (SignalDetectionError "detector transition is already pending"), s)
  else match make_checkpoint (sc_committed_health current) (Some healthy) (Some request) with
       | Ok c => (Ok tt, memory_write id c s)
       | Raise e => (Raise e, s)
       end.

Definition memory_complete (id request_id : string) (observed_at : PyTime) : stateful InMemorySignalStateStore unit := fun s =>
  let current := memory_checkpoint id s in
  match sc_pending_request current, sc_pending_healthy current with
  | Some r, Some healthy =>
      if String.eqb (rr_request_id r) request_id
      then (Ok tt, memory_write id (committed_checkpoint (Some healthy)) s)
      else (Raise (SignalDetectionError "detector pending transition changed before commit"), s)
  | _, _ => (Raise (SignalDetectionError "detector pending transition changed before commit"), s)
  end.

#[global] Instance memory_store_port : SignalStateStorePort InMemorySignalStateStore := {|
  acquire_run_lease := memory_acquire; release_run_lease := memory_release; load_checkpoint := memory_load;
  record_initial_health := memory_record_initial; stage_transition := memory_stage;
  complete_transition := memory_complete |}.

(** ** The in-memory store keeps the promises *)
#[global] Program Instance memory_store_laws : SignalStateStoreLaws InMemorySignalStateStore := {|
  checkpoint_of s k := default (committed_checkpoint None) (ms_state s !! k) |}.
Next Obligation. intros t s k. cbn. unfold memory_acquire. by destruct (ms_lease_held s). Qed.
Next Obligation. by intros s k. Qed.
Next Obligation. by intros id s k. Qed.
Next Obligation. intros id s c E. cbn in E. by injection E as <-. Qed.
Next Obligation.
  intros id t s. left. intros k. cbn. case_decide; [subst; by rewrite lookup_insert_eq|by rewrite lookup_insert_ne by congruence].
Qed.
Next Obligation.
  intros id healthy t r s. cbn. unfold memory_stage, memory_checkpoint.
  case_bool_decide as Hp; [by right|left]. split; [by apply eq_None_not_Some|]. intros k. cbn.
  case_decide; [subst; by rewrite lookup_insert_eq|by rewrite lookup_insert_ne by congruence].
Qed.
Next Obligation.
  intros id request_id t s. cbn. unfold memory_complete, memory_checkpoint.
  destruct (sc_pending_request _) as [r|] eqn:Hr; [|by right]. destruct (sc_pending_healthy _) as [h|] eqn:Hh; [|by right].
  destruct (String.eqb_spec (rr_request_id r) request_id); [|by right]. left. exists r, h. split_and!; try done.
  intros k. cbn. case_decide; [subst; by rewrite lookup_insert_eq|by rewrite lookup_insert_ne by congruence].
Qed.

#[global] Instance memory_store_reliable : ReliableStore InMemorySignalStateStore.
Proof.
  split; try done.
  - intros id healthy t r s Hp. cbn in *. unfold memory_stage, memory_checkpoint. rewrite Hp. by rewrite bool_decide_eq_false_2 by by intros [? [=]].
  - intros id t r healthy s Hr Hh. cbn in *. unfold memory_complete, memory_checkpoint. by rewrite Hr, Hh, String.eqb_refl.
Qed.
End memory.

(** ** Instants and floats *)

(** [t.isoformat()] of an aware or naive datetime *)
Definition isoformat_of (t : PyTime) : string :=
  match pt_offset t with
  | None => strftime_seconds (pt_instant t) +:+ isoformat_fraction (pt_instant t)
  | Some o =>
      let local := pt_instant t + o * 60 * second in
      strftime_seconds local +:+ isoformat_fraction local +:+ (if o <? 0 then "-" else "+") +:+
      digits 2 (Z.abs o / 60) +:+ ":" +:+ digits 2 (Z.abs o mod 60)
  end.

(** [t.isoformat().replace("+00:00", "Z")] *)
Definition isoformat_of_z (t : PyTime) : string := replace "+00:00" "Z" (isoformat_of t).

(** [float(z)] of an [int]: round half to even, [OverflowError] past the largest double. *)
Definition float_of_int (z : Z) : result spec_float :=
  match binary_normalize 53 1024 z 0 false with
  | S754_infinity _ => Raise OverflowError
  | x => Ok x
  end.

Definition hundred : spec_float := Eval vm_compute in binary_normalize 53 1024 100 0 false.

Definition is_finite (x : spec_float) : bool :=
  match x with S754_zero _ | S754_finite _ _ _ => true | _ => false end.

(** [min(a, b)]: the first argument unless the second is smaller. *)
Definition float_min (a b : spec_float) : spec_float := if SFltb b a then b else a.

(** ** The approved resources *)
Section approval.
Context `{PyText}.

(** [str(UUID(text)) == text] *)
Definition is_canonical_uuid : string -> bool :=
  matches [Hexes 8; Lit "-"; Hexes 4; Lit "-"; Hexes 4; Lit "-"; Hexes 4; Lit "-"; Hexes 12].

(** _canonical_resource_id *)
Definition canonical_resource_id (id : string) : result string :=
  let canonical := lower (rstrip_slash (strip id)) in
  match split_on slash canonical with
  | [_; s1; s2; s3; s4; s5; _; _; _] =>
      _ ← guard_or (SignalDetectionError "approved resource ID is invalid")
            (starts_with "/subscriptions/" canonical && (py_len canonical <=? 2048)%nat &&
             negb (existsb (fun c => contains_char c canonical) ["\"; "%"; "?"; "#"]%char) &&
             String.eqb s1 "subscriptions" && String.eqb s3 "resourcegroups" && negb (String.eqb s4 "") &&
             String.eqb s5 "providers");
      _ ← guard_or (SignalDetectionError "approved resource subscription ID is not canonical") (is_canonical_uuid s2);
      Ok canonical
  | _ => Raise (SignalDetectionError "approved resource ID is invalid")
  end.

(** The segment of an id, [segments[n]]. *)
Definition segment (n : nat) (id : string) : string := default "" (split_on slash id !! n).

Definition expected_provider (r : WorkloadRole) : string :=
  match r with LoadBalancer => "microsoft.network" | _ => "microsoft.compute" end.
Definition expected_type (r : WorkloadRole) : string :=
  match r with LoadBalancer => "loadbalancers" | _ => "virtualmachines" end.

(** The loop of validate_approved_resource_roles: one binding into [normalized]. *)
Definition bind_role (normalized : list (string * WorkloadRole)) (binding : string * WorkloadRole)
    : result (list (string * WorkloadRole)) :=
  let '(id, role) := binding in
  canonical ← canonical_resource_id id;
  _ ← guard_or (SignalDetectionError "approved resource role binding is invalid or ambiguous")
        (String.eqb (segment 6 canonical) (expected_provider role) &&
         String.eqb (segment 7 canonical) (expected_type role) &&
         negb (String.eqb (segment 8 canonical) "") && negb (bool_decide (canonical ∈ fst <$> normalized)));
  Ok (normalized ++ [(canonical, role)]).

Definition role_count (role : WorkloadRole) (roles : list (string * WorkloadRole)) : nat :=
  length (select (fun p => bool_decide (snd p = role)) roles).

(** validate_approved_resource_roles: [roles] in the order of the mapping. *)
Definition validate_approved_resource_roles (roles : list (string * WorkloadRole)) : result (list (string * WorkloadRole)) :=
  _ ← guard_or (SignalDetectionError "detector requires one database, one or more web VMs, and one load balancer")
        ((3 <=? length roles)%nat && (length roles <=? 18)%nat);
  normalized ← foldR bind_role [] roles;
  _ ← guard_or (SignalDetectionError "approved resource roles have invalid cardinality")
        ((role_count DatabasePrimary normalized =? 1)%nat && (role_count LoadBalancer normalized =? 1)%nat &&
         (1 <=? role_count Web normalized)%nat && (role_count Web normalized <=? 16)%nat);
  let scopes := remove_dups ((fun p => (segment 2 (fst p), segment 4 (fst p))) <$> normalized) in
  _ ← guard_or (SignalDetectionError "approved resources must share one subscription and resource group")
        (length scopes =? 1)%nat;
  Ok normalized.

(** ** ARM reads *)
Definition vm_instance_view_suffix : string := "/instanceView".
Definition metrics_suffix : string := "/providers/microsoft.insights/metrics".
Definition vm_query : gmap string string := {["api-version" := "2024-11-01"]}.
Definition metrics_query (timespan : string) : gmap string string :=
  list_to_map [("api-version", "2023-10-01"); ("metricnames", "VipAvailability,DipAvailability");
    ("metricnamespace", "Microsoft.Network/loadBalancers"); ("timespan", timespan); ("interval", "PT1M");
    ("aggregation", "Average"); ("AutoAdjustTimegrain", "false"); ("ValidateDimensions", "true")].

(** One end of [_ARM_TIMESPAN_PATTERN], converted by [datetime.fromisoformat]. *)
Definition timespan_end (s : string) : option Z :=
  '(date, time, fraction, offset) ← iso_datetime s;
  if ends_with "Z" s && match fraction with Some f => (String.length f <=? 6)%nat | None => true end
  then fromisoformat date time fraction offset else None.

(** _valid_metrics_timespan *)
Definition valid_metrics_timespan (value : option string) : bool :=
  match split_on slash <$> value with
  | Some [first; last] =>
      match timespan_end first, timespan_end last with
      | Some start_time, Some end_time =>
          (120 * second <=? end_time - start_time) && (end_time - start_time <=? 600 * second)
      | _, _ => false
      end
  | _ => false
  end.

(** _canonical_arm_operation *)
Definition canonical_arm_operation (id : string) (query : gmap string string) : result string :=
  if ends_with vm_instance_view_suffix id then
    _ ← guard_or (SignalDetectionError "VM instanceView request must use the exact reviewed query")
          (bool_decide (query = vm_query));
    base ← canonical_resource_id (removesuffix vm_instance_view_suffix id); Ok (base +:+ vm_instance_view_suffix)
  else if ends_with metrics_suffix id then
    _ ← guard_or (SignalDetectionError "Azure Monitor metrics request must use the exact reviewed query")
          (bool_decide (query = metrics_query (default "" (query !! "timespan"))) && valid_metrics_timespan (query !! "timespan"));
    base ← canonical_resource_id (removesuffix metrics_suffix id); Ok (base +:+ metrics_suffix)
  else Raise (SignalDetectionError "ARM operation path is not allowlisted").

(** _timespan *)
Definition timespan (observed_at : PyTime) (metric_window_minutes : Z) : result string :=
  let start := {| pt_instant := pt_instant observed_at - metric_window_minutes * 60 * second; pt_offset := pt_offset observed_at |} in
  _ ← guard_or OverflowError (representable (pt_instant start + default 0 (pt_offset start) * 60 * second));
  Ok (isoformat_of_z start +:+ "/" +:+ isoformat_of_z observed_at).

(** ** Readings *)
Definition vm_running : string := "powerstate/running".
Definition vm_known_unhealthy : list string :=
  ["powerstate/starting"; "powerstate/stopping"; "powerstate/stopped"; "powerstate/deallocating";
   "powerstate/deallocated"; "powerstate/hibernated"].

(** [item.get("code", "").casefold()] of the dictionaries among the statuses. *)
Definition status_code (item : json) : result (option string) :=
  match item with
  | JObj d =>
      match assoc "code" d with
      | None => Ok (Some (casefold ""))
      | Some (JStr s) => Ok (Some (casefold s))
      | Some _ => Raise (AttributeError "casefold")
      end
  | _ => Ok None
  end.

(** _vm_power_state *)
Definition vm_power_state (value : list (string * json)) : result string :=
  match get "statuses" value with
  | JArr statuses =>
      codes ← mapR status_code statuses;
      match select (starts_with "powerstate/") (omap id codes) with
      | [power_state] =>
          if String.eqb power_state vm_running || bool_decide (power_state ∈ vm_known_unhealthy) then Ok power_state
          else Raise (SignalDetectionError "VM instanceView power state was unknown")
      | _ => Raise (SignalDetectionError "VM instanceView power state was missing or ambiguous")
      end
  | _ => Raise (SignalDetectionError "VM instanceView omitted statuses")
  end.

(** The finite [average] of a point, if it has one. *)
Definition point_average (point : json) : result (option spec_float) :=
  match point with
  | JObj d =>
      match get "average" d with
      | JInt z => x ← float_of_int z; Ok (Some x)
      | JFloat x => Ok (if is_finite x then Some x else None)
      | _ => Ok None
      end
  | _ => Ok None
  end.

(** The minimum of one series. *)
Definition series_minimum (series : json) : result spec_float :=
  match match series with JObj d => get "data" d | _ => JNull end with
  | JArr points =>
      values ← mapR point_average points;
      match omap id values with
      | v :: vs => Ok (foldl float_min v vs)
      | [] => Raise (SignalDetectionError "load balancer metric series had no numeric samples")
      end
  | _ => Raise (SignalDetectionError "load balancer metric series was invalid")
  end.

(** One metric entry into [by_name]. *)
Definition name_metric (by_name : list (string * list (string * json))) (metric : json)
    : result (list (string * list (string * json))) :=
  match metric with
  | JObj d =>
      match match get "name" d with JObj n => get "value" n | _ => JNull end with
      | JStr name =>
          if bool_decide (name ∈ fst <$> by_name)
          then Raise (SignalDetectionError "load balancer metric names were missing or duplicated")
          else Ok (by_name ++ [(name, d)])
      | _ => Raise (SignalDetectionError "load balancer metric names were missing or duplicated")
      end
  | _ => Raise (SignalDetectionError "load balancer metric entry is invalid")
  end.

(** The running minimum over the series of one metric. *)
Definition metric_minimum (by_name : list (string * list (string * json))) (name : string) : result spec_float :=
  match assoc name by_name with
  | None => Raise (SignalDetectionError "required load balancer metric was absent")
  | Some metric =>
      match get "timeseries" metric with
      | JArr (first :: rest) =>
          m ← series_minimum first;
          foldR (fun m series => v ← series_minimum series; Ok (float_min m v)) m rest
      | _ => Raise (SignalDetectionError "load balancer metric contained no time series")
      end
  end.

(** _load_balancer_availability *)
Definition load_balancer_availability (value : list (string * json)) : result (spec_float * spec_float) :=
  match get "value" value with
  | JArr [m1; m2] =>
      by_name ← foldR name_metric [] [m1; m2];
      vip ← metric_minimum by_name "VipAvailability";
      dip ← metric_minimum by_name "DipAvailability";
      Ok (vip, dip)
  | _ => Raise (SignalDetectionError "load balancer metrics were missing or ambiguous")
  end.

Definition vm_type_segment : string := "/providers/microsoft.compute/virtualmachines/".
Definition lb_type_segment : string := "/providers/microsoft.network/loadbalancers/".

(** read_approved_signal *)
Definition read_approved_signal (reader : ArmJsonReader) (id : string) (role : WorkloadRole) (observed_at : PyTime)
    (metric_window_minutes : Z) : result ApprovedSignalObservation :=
  canonical ← canonical_resource_id id;
  match role with
  | DatabasePrimary | Web =>
      _ ← guard_or (SignalDetectionError "approved VM signal target has the wrong type") (contains vm_type_segment canonical);
      view ← reader (canonical +:+ "/instanceView") vm_query;
      power_state ← vm_power_state view;
      let healthy := String.eqb power_state vm_running in
      Ok {| ao_resource_id := canonical; ao_workload_role := role; ao_healthy := healthy; ao_observed_at := observed_at;
            ao_evidence := [("powerState", JStr power_state)];
            ao_summary := if healthy then "The approved virtual machine is running."
                          else "The approved virtual machine reports " +:+ power_state +:+ "." |}
  | LoadBalancer =>
      _ ← guard_or (SignalDetectionError "approved signal target has an invalid role or type") (contains lb_type_segment canonical);
      span ← timespan observed_at metric_window_minutes;
      metrics ← reader (canonical +:+ "/providers/microsoft.insights/metrics") (metrics_query span);
      '(vip, dip) ← load_balancer_availability metrics;
      let healthy := SFleb hundred vip in
      Ok {| ao_resource_id := canonical; ao_workload_role := role; ao_healthy := healthy; ao_observed_at := observed_at;
            ao_evidence := [("vipAvailabilityMinimum", JFloat vip); ("dipAvailabilityMinimum", JFloat dip)];
            ao_summary :=
              if negb healthy then "The approved load balancer VIP availability is degraded."
              else if SFltb dip hundred
              then "The load balancer VIP is available; DipAvailability indicates backend degradation, not a load balancer failure."
              else "The approved load balancer VIP and backend availability are healthy." |}
  end.
End approval.

(** ** Requests *)
Section requests.
Context `{PyText, PyDatetime, PyStr, Rfc8785}.

(** _signal_rule_name *)
Definition signal_rule_name (role : WorkloadRole) : string :=
  match role with
  | LoadBalancer => "wc016-scheduled-load-balancer-availability"
  | _ => "wc016-scheduled-" +:+ workload_role_value role +:+ "-power-state"
  end.

(** _synthetic_monitor_event *)
Definition synthetic_monitor_event (id rule_name : string) (l : EventLifecycle) (observed_at : PyTime) : json :=
  let text := isoformat_of_z observed_at in
  let digest_seed := join nul [id; rule_name; lifecycle_value l; text] in
  let source_id := "scheduled-" +:+ string_take 24 (sha256_hexdigest digest_seed) in
  JObj [("schemaId", JStr "azureMonitorCommonAlertSchema");
        ("data", JObj [("essentials", JObj [
           ("alertId", JStr source_id);
           ("signalType", JStr "Metric");
           ("monitorCondition", JStr (if bool_decide (l = Resolved) then "Resolved" else "Fired"));
           ("severity", JStr "Sev1");
           ("alertRule", JStr rule_name);
           ("alertTargetIDs", JArr [JStr id]);
           ("firedDateTime", JStr text);
           ("resolvedDateTime", JStr text)])])].

Definition is_event_error (e : exn) : bool :=
  match e with EventNormalizationError _ | EventRoutingError _ => true | _ => false end.

(** The lifecycle a health reports. *)
Definition health_lifecycle (healthy : bool) : EventLifecycle := if healthy then Resolved else Activated.

(** build_signal_reassessment_request *)
Definition build_signal_reassessment_request (observation : ApprovedSignalObservation)
    (approved_resource_roles : list (string * WorkloadRole)) (approved_metric_alert_rules : list string)
    : result ReassessmentRequest :=
  roles ← validate_approved_resource_roles approved_resource_roles;
  let id := lower (ao_resource_id observation) in
  _ ← guard_or (SignalDetectionError "signal observation is outside the approved resource roles")
        (bool_decide (assoc id roles = Some (ao_workload_role observation)));
  let rule_name := signal_rule_name (ao_workload_role observation) in
  let alert_rules := casefold <$> approved_metric_alert_rules in
  _ ← guard_or (SignalDetectionError "detector signal rule is not in the exact approved allowlist")
        (bool_decide (casefold rule_name ∈ alert_rules));
  let raw_event := synthetic_monitor_event id rule_name (health_lifecycle (ao_healthy observation)) (ao_observed_at observation) in
  reraise is_event_error (SignalDetectionError "detected signal failed exact normalization or routing")
    (normalized ← normalize_monitor_event raw_event (ao_observed_at observation) alert_rules;
     build_reassessment_request normalized roles).
End requests.

(** ** A detector run *)
Section run.
Context `{PyText, PyDatetime, PyStr, Rfc8785, PydanticJson}.
Context {S Q : Type} `{SignalStateStorePort S, ReassessmentRequestSenderPort Q}.

Definition on_store {A} (m : stateful S A) : stateful (S * Q) A := zoom fst (fun s w => (s, snd w)) m.
Definition on_sender {A} (m : stateful Q A) : stateful (S * Q) A := zoom snd (fun q w => (fst w, q)) m.

(** The request is sent under its idempotency key in the session of its incident, then committed. *)
Definition deliver (id : string) (observed_at : PyTime) (request : ReassessmentRequest) : stateful (S * Q) unit :=
  _ ← on_sender (send request (rr_idempotency_key request) (rr_incident_id request));
  on_store (complete_transition id (rr_request_id request) observed_at).

(** The binding of a pending transition is checked again before it is redelivered. *)
Definition pending_bound (roles : list (string * WorkloadRole)) (rule_name : string) (c : SignalCheckpoint)
    (pending : ReassessmentRequest) : result unit :=
  let lost := SignalDetectionError "pending detector transition lost its binding" in
  expected ← build_reassessment_request (rr_trigger_event pending) roles;
  _ ← guard_or lost (bool_decide (sc_pending_healthy c = Some (bool_decide (rr_lifecycle pending = Resolved))));
  pending_bytes ← canonical_bytes (request_dump pending);
  expected_bytes ← canonical_bytes (request_dump expected);
  _ ← guard_or lost (String.eqb pending_bytes expected_bytes);
  guard_or lost (String.eqb (casefold (ne_operation_name (rr_trigger_event pending))) (casefold rule_name)).

(** The first loop: redeliver what is pending, remember the other checkpoints. *)
Definition recover_pending (roles : list (string * WorkloadRole)) (alert_rules : list string) (observed_at : PyTime)
    (acc : gmap string SignalCheckpoint * list ReassessmentRequest) (binding : string * WorkloadRole)
    : stateful (S * Q) (gmap string SignalCheckpoint * list ReassessmentRequest) :=
  let '(checkpoints, sent) := acc in
  let '(id, role) := binding in
  let rule_name := signal_rule_name role in
  _ ← lift (guard_or (SignalDetectionError "detector signal rule is not in the exact approved allowlist")
        (bool_decide (casefold rule_name ∈ alert_rules)));
  checkpoint ← on_store (load_checkpoint id);
  match sc_pending_request checkpoint with
  | None => mret (<[id := checkpoint]> checkpoints, sent)
  | Some pending =>
      _ ← lift (pending_bound roles rule_name checkpoint pending);
      _ ← deliver id observed_at pending;
      mret (checkpoints, sent ++ [pending])
  end.

(** The second loop: read the signal of every resource that had nothing pending. *)
Definition observe (reader : ArmJsonReader) (observed_at : PyTime) (metric_window_minutes : Z)
    (checkpoints : gmap string SignalCheckpoint) (roles : list (string * WorkloadRole)) : result (list ApprovedSignalObservation) :=
  mapR (fun '(id, role) => read_approved_signal reader id role observed_at metric_window_minutes)
    (select (fun p => bool_decide (is_Some (checkpoints !! fst p))) roles).

(** Whether an observation is a transition from the committed health. *)
Definition emits (previous : option bool) (healthy : bool) : bool :=
  match previous with
  | None => negb healthy
  | Some p => negb (Bool.eqb p healthy)
  end.

(** The third loop: stage the transitions, collect the first healthy readings. *)
Definition stage_observation (roles : list (string * WorkloadRole)) (alert_rules : list string) (observed_at : PyTime)
    (checkpoints : gmap string SignalCheckpoint) (acc : list string * list (string * ReassessmentRequest))
    (observation : ApprovedSignalObservation) : stateful (S * Q) (list string * list (string * ReassessmentRequest)) :=
  let '(initial_healthy, pending) := acc in
  let id := ao_resource_id observation in
  checkpoint ← lift match checkpoints !! id with Some c => Ok c | None => Raise (KeyError id) end;
  let previous := sc_committed_health checkpoint in
  if emits previous (ao_healthy observation) then
    reassessment ← lift (build_signal_reassessment_request observation roles alert_rules);
    _ ← on_store (stage_transition id (ao_healthy observation) observed_at reassessment);
    mret (initial_healthy, pending ++ [(id, reassessment)])
  else mret (if bool_decide (previous = None) then initial_healthy ++ [id] else initial_healthy, pending).

(** _detect_signal_requests_with_lease *)
Definition detect_with_lease (reader : ArmJsonReader) (approved_resource_roles : list (string * WorkloadRole))
    (approved_metric_alert_rules : list string) (observed_at : PyTime) (metric_window_minutes : Z)
    : stateful (S * Q) (list ReassessmentRequest) :=
  roles ← lift (validate_approved_resource_roles approved_resource_roles);
  let alert_rules := casefold <$> approved_metric_alert_rules in
  '(checkpoints, sent) ← foldM (recover_pending roles alert_rules observed_at) (∅, []) roles;
  observations ← lift (observe reader observed_at metric_window_minutes checkpoints roles);
  '(initial_healthy, pending) ← foldM (stage_observation roles alert_rules observed_at checkpoints) ([], []) observations;
  _ ← foldM (fun _ id => on_store (record_initial_health id observed_at)) tt initial_healthy;
  _ ← foldM (fun _ '(id, reassessment) => deliver id observed_at reassessment) tt pending;
  mret (sent ++ (snd <$> pending)).

(** detect_signal_requests *)
Definition detect_signal_requests (reader : ArmJsonReader) (approved_resource_roles : list (string * WorkloadRole))
    (approved_metric_alert_rules : list string) (observed_at : PyTime) (metric_window_minutes : Z)
    : stateful (S * Q) (list ReassessmentRequest) :=
  _ ← lift (raise_if (SignalDetectionError "observed_at must use UTC") (not_utc observed_at));
  _ ← lift (guard_or (SignalDetectionError "metric window must be between two and ten minutes")
        ((2 <=? metric_window_minutes) && (metric_window_minutes <=? 10)));
  acquired ← on_store (acquire_run_lease observed_at);
  if (acquired : bool)
  then finally (detect_with_lease reader approved_resource_roles approved_metric_alert_rules observed_at metric_window_minutes)
         (on_store release_run_lease)
  else mret [].
End run.
