(* ===== verification/EventingProps.v ===== *)
(** * EventingProps: normalized events and routed requests

    What the normalization of an Azure event keeps of it, and when an event is
    routed: exactly the actionable ones, to the request bound to them. *)
From S2P Require Import Prelude Text Sha256 Time Json Events.
From S2P Require Export Normalization.
From Stdlib Require Import Ascii.
Local Open Scope Z_scope.

(** ** Patterns of digests *)
Lemma matches_hex p n (s : string) :
  String.length s = n -> all_chars is_lower_hex s = true -> matches [Lit p; Hexes n] (p +:+ s) = true.
Proof.
  intros Hl Hs. cbn [matches]. rewrite starts_with_app, string_drop_app, <- Hl, Nat.leb_refl.
  pose proof (string_take_app s "") as Ht. pose proof (string_drop_app s "") as Hd.
  rewrite string_app_nil_r in Ht, Hd. by rewrite Ht, Hd, Hs.
Qed.

Lemma matches_hex_prefix p n (s : string) :
  (n <= String.length s)%nat -> all_chars is_lower_hex s = true -> matches [Lit p; Hexes n] (p +:+ string_take n s) = true.
Proof. intros Hn Hs. apply matches_hex; [by apply length_string_take|by apply all_chars_take]. Qed.

(** The hex digits of a digest text. *)
Lemma is_digest_hex d : is_digest d = true ->
  String.length (removeprefix "sha256:" d) = 64%nat /\ all_chars is_lower_hex (removeprefix "sha256:" d) = true.
Proof.
  unfold is_digest, prefixed_hex, removeprefix. intros [-> [H1%Nat.eqb_eq H2]%andb_true_iff]%andb_true_iff. done.
Qed.

Lemma hexdigest_take n s : (n <= 64)%nat ->
  String.length (string_take n (sha256_hexdigest s)) = n /\ all_chars is_lower_hex (string_take n (sha256_hexdigest s)) = true.
Proof.
  intros Hn. destruct (sha256_hexdigest_shape s) as [Hl Hc]. split; [apply length_string_take; lia|by apply all_chars_take].
Qed.

#[local] Opaque sha256_hexdigest.

Section eventing.
Context `{PyText, PyDatetime, PyStr, Rfc8785}.

(** ** Construction of events *)
Lemma make_event_Ok e e' : make_event e = Ok e' ->
  ne_target_resource_id e' = lower (ne_target_resource_id e) /\
  is_event_id (ne_event_id e') = true /\ is_digest (ne_deduplication_key e') = true /\
  validate_freshness_order e' = Ok tt /\
  e' = {| ne_event_id := ne_event_id e; ne_deduplication_key := ne_deduplication_key e;
          ne_source_system := ne_source_system e; ne_signal_kind := ne_signal_kind e;
          ne_lifecycle := ne_lifecycle e; ne_severity := ne_severity e;
          ne_subscription_id := ne_subscription_id e; ne_resource_group_name := ne_resource_group_name e;
          ne_target_resource_id := lower (ne_target_resource_id e); ne_target_resource_type := ne_target_resource_type e;
          ne_operation_name := ne_operation_name e; ne_observed_at := ne_observed_at e;
          ne_received_at := ne_received_at e; ne_source_digest := ne_source_digest e |}.
Proof.
  unfold make_event, field. intros He. inv_ok. subst.
  repeat match goal with u : unit |- _ => destruct u end. done.
Qed.

Lemma make_event_intro e :
  is_event_id (ne_event_id e) = true -> is_digest (ne_deduplication_key e) = true -> is_guid (ne_subscription_id e) = true ->
  length_between 1 90 (ne_resource_group_name e) = true -> length_between 1 2048 (ne_target_resource_id e) = true ->
  length_between 1 256 (ne_operation_name e) = true -> is_digest (ne_source_digest e) = true ->
  starts_with "/subscriptions/" (ne_target_resource_id e) = true ->
  contains_char "\" (ne_target_resource_id e) = false -> contains_char "%" (ne_target_resource_id e) = false ->
  lower (ne_target_resource_id e) = ne_target_resource_id e -> validate_freshness_order e = Ok tt ->
  make_event e = Ok e.
Proof.
  intros E1 E2 E3 E4 E5 E6 E7 E8 E9 E10 E11 E12. unfold make_event, field. rewrite E1, E2, E3, E4, E5, E6, E7, E8, E9, E10, E11.
  cbn [guard_or negb andb]. destruct e. cbn in *. by rewrite E12.
Qed.

Lemma request_of_valid event role : is_event_id (ne_event_id event) = true -> is_digest (ne_deduplication_key event) = true ->
  length_between 1 2048 (ne_target_resource_id event) = true ->
  expected_role_and_scenario (ne_target_resource_type event) role = Some (scenario_of role) ->
  make_request (request_of event role) = Ok (request_of event role).
Proof.
  intros Hid Hd Hlen Hrole. destruct (is_digest_hex _ Hd) as [Hl Hc].
  destruct (sha256_hexdigest_shape (ne_target_resource_id event)) as [Hl' Hc'].
  assert (Hr1 : is_request_id (rr_request_id (request_of event role)) = true) by (apply matches_hex_prefix; [lia|done]).
  assert (Hr2 : is_incident_id_text (rr_incident_id (request_of event role)) = true) by (apply matches_hex_prefix; [lia|done]).
  assert (Hr3 : is_transition_id_text (rr_idempotency_key (request_of event role)) = true) by by apply matches_hex.
  assert (Hr4 : validate_request_binding (request_of event role) = Ok tt).
  { unfold validate_request_binding, request_of. cbn [rr_request_id rr_incident_id rr_trigger_event_id
      rr_trigger_event rr_scenario rr_workload_role rr_target_resource_id rr_lifecycle rr_idempotency_key].
    rewrite !String.eqb_refl, Hrole. by rewrite !bool_decide_eq_true_2. }
  unfold make_request, field. rewrite Hr1, Hr2, Hr3, Hr4. cbn [rr_trigger_event_id rr_target_resource_id request_of].
  by rewrite Hid, Hlen.
Qed.

Lemma expected_role_consistent type role s : expected_role_and_scenario type role = Some s ->
  s = scenario_of role /\
  bool_decide (type = LoadBalancers) && negb (bool_decide (role = LoadBalancer)) = false /\
  bool_decide (type = VirtualMachines) && bool_decide (role = LoadBalancer) = false.
Proof. by destruct type, role; cbn; intros [= <-]. Qed.

(** ** Routing *)
Lemma routing_Ok event roles r :
  build_reassessment_request event roles = Ok r ->
  exists role, assoc (ne_target_resource_id event) roles = Some role /\
    expected_role_and_scenario (ne_target_resource_type event) role = Some (scenario_of role) /\
    ne_lifecycle event ∈ [Activated; Resolved] /\
    length_between 1 2048 (ne_target_resource_id event) = true /\
    validate_request_binding r = Ok tt /\ r = request_of event role.
Proof.
  unfold build_reassessment_request. destruct (assoc _ roles) as [role|]; [|done]. cbn [mbind result_bind].
  intros Hr. inv_ok. exists role. unfold make_request, field in *. inv_ok. subst.
  repeat match goal with u : unit |- _ => destruct u end.
  repeat match goal with Hb : bool_decide _ = true |- _ => apply bool_decide_eq_true in Hb end.
  split_and!; try done. by destruct (ne_target_resource_type event), role.
Qed.

(** C33: routing is exact: a valid event yields a request exactly when its target is
    bound to a role of the target's kind and its lifecycle is actionable, and the
    request is the one determined by event and role, which passes its binding
    validator. *)
Theorem routing_exact e0 event roles r : make_event e0 = Ok event ->
  build_reassessment_request event roles = Ok r <->
  exists role, assoc (ne_target_resource_id event) roles = Some role /\
    expected_role_and_scenario (ne_target_resource_type event) role = Some (rr_scenario r) /\
    ne_lifecycle event ∈ [Activated; Resolved] /\
    length_between 1 2048 (ne_target_resource_id event) = true /\
    validate_request_binding r = Ok tt /\ r = request_of event role.
Proof.
  intros He. apply make_event_Ok in He as (_ & Hid & Hd & _ & _). split.
  - intros (role & Ha & Hx & Hl & Hlen & Hv & ->)%routing_Ok. by exists role.
  - intros (role & Ha & Hx & Hl & Hlen & _ & ->). cbn [rr_scenario request_of] in Hx.
    destruct (expected_role_consistent _ _ _ Hx) as (_ & Hn1 & Hn2).
    unfold build_reassessment_request. rewrite Ha. unfold mbind, result_bind.
    rewrite Hn1, Hn2, bool_decide_eq_true_2 by done. cbn [raise_if guard_or]. by apply request_of_valid.
Qed.

(** ** Redelivery *)
Definition with_received (t : Z) (e : NormalizedMonitorEvent) : NormalizedMonitorEvent :=
  {| ne_event_id := ne_event_id e; ne_deduplication_key := ne_deduplication_key e;
     ne_source_system := ne_source_system e; ne_signal_kind := ne_signal_kind e;
     ne_lifecycle := ne_lifecycle e; ne_severity := ne_severity e;
     ne_subscription_id := ne_subscription_id e; ne_resource_group_name := ne_resource_group_name e;
     ne_target_resource_id := ne_target_resource_id e; ne_target_resource_type := ne_target_resource_type e;
     ne_operation_name := ne_operation_name e; ne_observed_at := ne_observed_at e;
     ne_received_at := t; ne_source_digest := ne_source_digest e |}.

Lemma normalized_received source kind source_id id type op l sev o t raw m t' :
  normalized source kind source_id id type op l sev o t raw = Ok m ->
  normalized source kind source_id id type op l sev o t' raw = Ok (with_received t' m) /\ ne_received_at m = t.
Proof.
  unfold normalized. destruct (scope id) as [[a b]|]; [|done]. destruct (compute_semantic_digest raw); [|done].
  by intros [= <-].
Qed.

Lemma event_grid_received event t m t' : from_event_grid event t = Ok m ->
  from_event_grid event t' = Ok (with_received t' m) /\ ne_received_at m = t.
Proof.
  unfold from_event_grid. intros Hm. inv_ok.
  repeat match goal with E : ?x = Ok _ |- context [?x] => rewrite E; unfold mbind at 1, result_bind at 1 end.
  by eapply normalized_received.
Qed.

Lemma common_alert_received event t m t' rules rules' :
  from_common_alert event t rules = Ok m ->
  forall m', from_common_alert event t' rules' = Ok m' -> m' = with_received t' m /\ ne_received_at m = t.
Proof.
  unfold from_common_alert. intros Hm m' Hm'. inv_ok.
  same_ok.
  match goal with E : normalized _ _ _ _ _ _ _ _ _ t _ = Ok m, E' : normalized _ _ _ _ _ _ _ _ _ t' _ = Ok m' |- _ =>
    apply normalized_received with (t' := t') in E as [E ?]; split; [congruence|done] end.
Qed.

Lemma make_event_received m e t : make_event m = Ok e -> forall e', make_event (with_received t m) = Ok e' -> e' = with_received t e.
Proof.
  intros He%make_event_Ok e' He'%make_event_Ok. destruct He as (_ & _ & _ & _ & ->), He' as (_ & _ & _ & _ & ->). done.
Qed.

Lemma normalize_received v t1 rules1 e1 t2 rules2 e2 :
  normalize_monitor_event v t1 rules1 = Ok e1 -> normalize_monitor_event v t2 rules2 = Ok e2 ->
  e2 = with_received (pt_instant t2) e1 /\ ne_received_at e1 = pt_instant t1.
Proof.
  unfold normalize_monitor_event. intros Ha Hb. inv_ok.
  same_ok.
  repeat match goal with E : reraise _ _ _ = Ok _ |- _ => apply reraise_Ok in E end.
  repeat case_match; try done.
  - match goal with A : from_event_grid _ (pt_instant t1) = Ok ?m |- _ => apply event_grid_received with (t' := pt_instant t2) in A as [A Hr] end.
    same_ok. split; [by eapply make_event_received|].
    match goal with E : make_event _ = Ok e1 |- _ => by apply make_event_Ok in E as (_ & _ & _ & _ & ->) end.
  - match goal with A : from_common_alert _ (pt_instant t1) _ = Ok ?m, B : from_common_alert _ (pt_instant t2) _ = Ok ?m' |- _ =>
      destruct (common_alert_received _ _ _ _ _ _ A _ B) as [-> Hr] end.
    split; [by eapply make_event_received|].
    match goal with E : make_event _ = Ok e1 |- _ => by apply make_event_Ok in E as (_ & _ & _ & _ & ->) end.
Qed.

(** a redelivered Azure event leads to the same request: its ids and its
    idempotency key depend on the raw event alone, not on when it was received,
    which rules were approved, or to whom the resource was bound. *)
Theorem redelivered_event_same_request v t1 t2 rules1 rules2 e1 e2 roles1 roles2 r1 r2 :
  normalize_monitor_event v t1 rules1 = Ok e1 -> normalize_monitor_event v t2 rules2 = Ok e2 ->
  build_reassessment_request e1 roles1 = Ok r1 -> build_reassessment_request e2 roles2 = Ok r2 ->
  rr_request_id r1 = rr_request_id r2 /\ rr_incident_id r1 = rr_incident_id r2 /\
  rr_trigger_event_id r1 = rr_trigger_event_id r2 /\ rr_idempotency_key r1 = rr_idempotency_key r2 /\
  rr_target_resource_id r1 = rr_target_resource_id r2 /\ rr_lifecycle r1 = rr_lifecycle r2.
Proof.
  intros Ha Hb (role1 & _ & _ & _ & _ & _ & ->)%routing_Ok (role2 & _ & _ & _ & _ & _ & ->)%routing_Ok.
  destruct (normalize_received _ _ _ _ _ _ _ Ha Hb) as [-> _]. done.
Qed.

(** ** Deduplication keys *)
Lemma enum_text_nul_free :
  (forall s, contains_char "000"%char (event_source_value s) = false) /\
  (forall l, contains_char "000"%char (lifecycle_value l) = false).
Proof. by split; intros []. Qed.

Lemma isoformat_nul_free t : contains_char "000"%char (isoformat t) = false.
Proof. unfold isoformat. rewrite <- string_app_assoc, contains_char_app, isoformat_body_chars by done. done. Qed.

Lemma event_source_value_inj a b : event_source_value a = event_source_value b -> a = b.
Proof. by destruct a, b. Qed.

Lemma lifecycle_value_inj a b : lifecycle_value a = lifecycle_value b -> a = b.
Proof. by destruct a, b. Qed.

(** the deduplication text determines the event: two events with the same key
    have the same source, source id up to case, target, lifecycle and instant,
    unless SHA-256 collides on two different texts. *)
Theorem deduplication_key_identifies src1 sid1 id1 l1 t1 src2 sid2 id2 l2 t2 :
  contains_char "000"%char (lower sid1) = false -> contains_char "000"%char id1 = false ->
  contains_char "000"%char (lower sid2) = false -> contains_char "000"%char id2 = false ->
  representable t1 = true -> representable t2 = true ->
  let text1 := deduplication_text src1 sid1 id1 l1 t1 in
  let text2 := deduplication_text src2 sid2 id2 l2 t2 in
  sha256_hex text1 = sha256_hex text2 ->
  (src1 = src2 /\ lower sid1 = lower sid2 /\ id1 = id2 /\ l1 = l2 /\ t1 = t2) \/
  (text1 <> text2 /\ sha256_hex text1 = sha256_hex text2).
Proof.
  intros Hs1 Hi1 Hs2 Hi2 Ht1 Ht2 text1 text2 Hsha. destruct (decide (text1 = text2)) as [E|]; [left|by right].
  destruct enum_text_nul_free as [Hsrc Hl]. unfold text1, text2, deduplication_text, nul in E.
  apply (f_equal (split_on "000"%char)) in E. change (ascii_of_nat 0) with "000"%char in E.
  rewrite !split_on_join in E by (repeat constructor; auto using isoformat_nul_free).
  assert (Hnth : forall n, nth n _ "" = nth n _ "") by exact (fun n => f_equal (fun l => nth n l "") E).
  split_and!; [apply event_source_value_inj, (Hnth 0%nat)|exact (Hnth 1%nat)|exact (Hnth 2%nat)
    |apply lifecycle_value_inj, (Hnth 3%nat)|apply isoformat_inj; [done..|exact (Hnth 4%nat)]].
Qed.

(** ** What a normalized event satisfies *)
Lemma normalized_fields source kind source_id id type op l sev o t raw m :
  normalized source kind source_id id type op l sev o t raw = Ok m ->
  ne_source_system m = source /\ ne_signal_kind m = kind /\ ne_target_resource_type m = type /\
  ne_operation_name m = op /\ ne_lifecycle m = l /\ ne_observed_at m = o /\ ne_received_at m = t /\
  ne_target_resource_id m = id /\
  ne_deduplication_key m = sha256_hex (deduplication_text source source_id id l o) /\
  ne_event_id m = "evt-" +:+ string_take 12 (sha256_hexdigest (ne_deduplication_key m)).
Proof.
  unfold normalized. destruct (scope id) as [[a b]|]; [|done]. destruct (compute_semantic_digest raw); [|done].
  by intros [= <-].
Qed.

(** The ids of an event are digests of its source. *)
Definition ids_derived (e : NormalizedMonitorEvent) (id : string) : Prop :=
  (exists source_id, ne_deduplication_key e =
     sha256_hex (deduplication_text (ne_source_system e) source_id id (ne_lifecycle e) (ne_observed_at e))) /\
  ne_event_id e = "evt-" +:+ string_take 12 (sha256_hexdigest (ne_deduplication_key e)).

Lemma normalized_ids source kind source_id id type op l sev o t raw m :
  normalized source kind source_id id type op l sev o t raw = Ok m ->
  ids_derived m (ne_target_resource_id m) /\ ne_received_at m = t.
Proof.
  intros (Hs & _ & _ & _ & Hl & Ho & Hr & Hid & Hk & He)%normalized_fields.
  unfold ids_derived. rewrite Hs, Hl, Ho, Hid. split_and!; [|done..]. by exists source_id.
Qed.

(** The alert that targets a load balancer carries availability evidence. *)
Definition load_balancer_evidence (rules : list string) (e : NormalizedMonitorEvent) : Prop :=
  ne_source_system e = AzureMonitorCommonAlert -> ne_target_resource_type e = LoadBalancers ->
  ne_signal_kind e = ResourceHealth \/ casefold (ne_operation_name e) ∈ casefold <$> rules.

Lemma event_grid_evidence event t rules m : from_event_grid event t = Ok m ->
  load_balancer_evidence rules m /\ ids_derived m (ne_target_resource_id m) /\ ne_received_at m = t.
Proof.
  unfold from_event_grid. intros Hm. inv_ok.
  match goal with E : normalized _ _ _ _ _ _ _ _ _ t _ = Ok m |- _ =>
    split; [|by eapply normalized_ids]; apply normalized_fields in E as (Hs & _) end.
  unfold load_balancer_evidence. by rewrite Hs.
Qed.

Lemma common_alert_evidence event t rules m : from_common_alert event t rules = Ok m ->
  load_balancer_evidence rules m /\ ids_derived m (ne_target_resource_id m) /\ ne_received_at m = t.
Proof.
  unfold from_common_alert. intros Hm. inv_ok.
  match goal with E : normalized _ _ _ _ _ _ _ _ _ t _ = Ok m |- _ =>
    split; [|by eapply normalized_ids]; apply normalized_fields in E as (Hsrc & Hk & Hty & Hop & _) end.
  unfold load_balancer_evidence. rewrite Hsrc, Hk, Hty, Hop. intros _ ->.
  match goal with E : bool_decide (LoadBalancers = LoadBalancers) && _ = false |- _ =>
    rewrite bool_decide_eq_true_2 in E by done; cbn [andb] in E; apply negb_false_iff, bool_decide_eq_true in E end.
  match goal with E : (lower ?x =? "metric")%string && _ = false |- _ =>
    destruct (String.eqb_spec (lower x) "metric") as [Em|Em]; [right|left] end.
  - match goal with E : true && negb (bool_decide _) = false |- _ =>
      cbn [andb] in E; by apply negb_false_iff, bool_decide_eq_true in E end.
  - match goal with E : lower ?x ∈ _ |- _ => apply elem_of_cons in E as [E|E]; [done|]; apply list_elem_of_singleton in E; by rewrite E end.
Qed.

Lemma freshness_Ok e : validate_freshness_order e = Ok tt ->
  ne_observed_at e <= ne_received_at e <= ne_observed_at e + 600 * second.
Proof. unfold validate_freshness_order. intros He. inv_ok. lia. Qed.

(** a normalized event is fresh and bound to its source: it is at most ten minutes
    old, its ids are the digests of its source id, target, lifecycle and instant,
    and on a load balancer an alert is either resource health or an approved
    metric rule. *)
Theorem normalized_event_sound v received rules e :
  normalize_monitor_event v received rules = Ok e ->
  pt_offset received = Some 0 /\ ne_received_at e = pt_instant received /\
  ne_observed_at e <= ne_received_at e <= ne_observed_at e + 600 * second /\
  (exists id, ne_target_resource_id e = lower id /\ ids_derived e id) /\
  load_balancer_evidence rules e.
Proof.
  unfold normalize_monitor_event. intros ([] & Hutc%raise_if_Ok & (event & _ & (m & Hm & Hmk%reraise_Ok)%bind_Ok)%bind_Ok)%bind_Ok.
  unfold not_utc in Hutc. apply negb_false_iff, bool_decide_eq_true in Hutc.
  apply make_event_Ok in Hmk as (_ & _ & _ & Hf%freshness_Ok & ->).
  assert (Hev : load_balancer_evidence rules m /\ ids_derived m (ne_target_resource_id m) /\ ne_received_at m = pt_instant received).
  { repeat case_match; [by eapply event_grid_evidence|by eapply common_alert_evidence|done]. }
  destruct Hev as (Hlb & Hids & Hr). split_and!; [done|done|apply Hf|apply Hf| |done].
  by exists (ne_target_resource_id m).
Qed.
End eventing.
