(* ===== verification/SignalProps.v ===== *)
(** * SignalProps: approved resources and the requests built for them

    The ids of a configuration without whitespace are stable under
    canonicalization, approved roles validate to themselves, and every reading of
    an approved resource yields a request bound to that resource. *)
From S2P Require Import Prelude Text Sha256 Time Json Events Normalization Effects.
From S2P Require Export Detector EventingProps Text.
From Stdlib Require Import Ascii.
Local Open Scope Z_scope.

(** ** Segments *)
Lemma split_on_sep c a b : split_on c (a +:+ String c b) = split_on c a ++ split_on c b.
Proof.
  string_induction a; [by rewrite Ascii.eqb_refl|]. destruct (Ascii.eqb c c0); [by rewrite IH|].
  rewrite IH. destruct (split_on c a) as [|h t] eqn:E; [by apply split_on_not_nil in E|done].
Qed.

Lemma contains_spec sub s : contains sub s = true <-> exists a b, s = a +:+ sub +:+ b.
Proof.
  split.
  - induction s as [|c s IH]; cbn; rewrite orb_true_iff; intros [H|H]; try done.
    + apply starts_with_spec in H as [t ->]. by exists "", t.
    + apply starts_with_spec in H as [t E]. exists "", t. by rewrite string_app_nil_l.
    + apply IH in H as (a & b & ->). by exists (String c a), b.
  - intros (a & b & ->). induction a as [|c a IH].
    + rewrite string_app_nil_l. destruct (sub +:+ b) eqn:E; cbn; rewrite <- E, starts_with_app; done.
    + rewrite string_app_cons. cbn. by rewrite IH, orb_true_r.
Qed.

Lemma lower_fixed_segments s : map_string ascii_lower s = s -> Forall (fun t => map_string ascii_lower t = t) (split_on slash s).
Proof.
  intros Hs. pose proof (split_on_lower s) as H. rewrite Hs in H. revert H. generalize (split_on slash s). intros l.
  induction l as [|x l IH]; cbn; intros E; constructor; injection E as E1 E2; [done|by apply IH].
Qed.

Lemma all_chars_segments p s : all_chars p s = true -> Forall (fun t => all_chars p t = true) (split_on slash s).
Proof.
  induction s as [|c s IH]; cbn [all_chars split_on]; [by constructor|]. intros [Hc Hs]%andb_true_iff. specialize (IH Hs).
  destruct (Ascii.eqb slash c); [by constructor|]. destruct (split_on slash s) as [|h t]; [constructor|].
  inversion IH; subst. constructor; [|done]. cbn. by rewrite Hc.
Qed.

(** A typed path in an id appears as consecutive segments. *)
Lemma type_path_segments provider type id :
  contains_char slash provider = false -> contains_char slash type = false ->
  contains ("/providers/" +:+ provider +:+ "/" +:+ type +:+ "/") id = true ->
  exists before after, split_on slash id = before ++ ["providers"; provider; type] ++ after /\ before <> [] /\ after <> [].
Proof.
  intros Hp Ht (a & b & ->)%contains_spec. exists (split_on slash a), (split_on slash b).
  split_and!; [|apply split_on_not_nil..]. change "/providers/" with (String slash "providers" +:+ "/").
  rewrite !string_app_assoc, (string_app_cons slash), split_on_sep. f_equal.
  rewrite !(string_app_cons slash ""), !string_app_nil_l.
  by rewrite split_on_app, split_on_app, split_on_app.
Qed.

Lemma contains_type_path provider type before after :
  contains ("/providers/" +:+ provider +:+ "/" +:+ type +:+ "/")
    (before +:+ ("/providers/" +:+ provider +:+ "/" +:+ type +:+ "/") +:+ after) = true.
Proof. apply contains_spec. by exists before, after. Qed.

(** ** Canonical ids *)
Definition stable_id (k : string) : Prop :=
  all_chars is_plain k = true /\ map_string ascii_lower k = k /\ rstrip_slash k = k.

(** A canonical id: what [canonical_resource_id] has checked. *)
Record canonical_id (k : string) : Prop := {
  ci_stable : stable_id k;
  ci_prefix : starts_with "/subscriptions/" k = true;
  ci_length : (py_len k <= 2048)%nat;
  ci_chars : existsb (fun c => contains_char c k) ["\"; "%"; "?"; "#"]%char = false;
  ci_segments : exists first subscription group provider type name,
    split_on slash k = [first; "subscriptions"; subscription; "resourcegroups"; group; "providers"; provider; type; name] /\
    is_canonical_uuid subscription = true /\ group <> "";
}.

#[local] Opaque sha256_hexdigest.

Section signals.
Context `{PyTextAscii}.

Lemma stable_lower k : stable_id k -> lower k = k.
Proof. intros (Hp & Hl & _). by rewrite lower_of_ascii by by apply plain_ascii. Qed.

Lemma stable_resource_id k : stable_id k -> lower (rstrip_slash (strip k)) = k.
Proof. intros Hk. pose proof Hk as (Hp & _ & Hr). rewrite strip_plain, Hr by done. by apply stable_lower. Qed.

Lemma canonical_stable x : all_chars is_plain x = true -> stable_id (lower (rstrip_slash (strip x))).
Proof.
  intros Hx. rewrite strip_plain by done.
  assert (Hr : all_chars is_plain (rstrip_slash x) = true) by by apply all_chars_rstrip.
  rewrite lower_of_ascii by by apply plain_ascii.
  split_and!.
  - by rewrite all_chars_lower by apply ascii_lower_plain.
  - apply map_string_lower_idem.
  - unfold rstrip_slash. rewrite rstrip_by_lower by apply ascii_lower_slash. by rewrite rstrip_by_idem.
Qed.

Lemma canonical_resource_id_Ok k : canonical_id k -> canonical_resource_id k = Ok k.
Proof.
  intros [Hs Hp Hl Hc (f & g & rg & p & t & n & Hseg & Hu & Hrg)]. unfold canonical_resource_id.
  rewrite stable_resource_id by done. rewrite Hseg, Hp, Hc, Hu, (proj2 (Nat.leb_le _ _) Hl).
  by rewrite (proj2 (String.eqb_neq rg "") Hrg).
Qed.

Lemma canonical_resource_id_inv x k : all_chars is_plain x = true -> canonical_resource_id x = Ok k -> canonical_id k.
Proof.
  intros Hx. unfold canonical_resource_id. pose proof (canonical_stable x Hx) as Hst.
  set (c := lower (rstrip_slash (strip x))) in *. intros Hk.
  destruct (split_on slash c) as [|s0 [|s1 [|s2 [|s3 [|s4 [|s5 [|s6 [|s7 [|s8 [|? ?]]]]]]]]]] eqn:Hseg; try done.
  inv_ok. subst k. repeat match goal with E : String.eqb _ _ = true |- _ => apply String.eqb_eq in E; subst end.
  split; [done|done|by apply Nat.leb_le|done|]. exists s0, s2, s4, s6, s7, s8. split_and!; [done|done|].
  by apply String.eqb_neq.
Qed.

Lemma segment_of k (n : nat) s : split_on slash k !! n = Some s -> segment n k = s.
Proof. unfold segment. by intros ->. Qed.

(** ** Approved roles *)
Definition plain_roles (roles : list (string * WorkloadRole)) : Prop :=
  Forall (fun p => all_chars is_plain (fst p) = true) roles.

(** A validated binding. *)
Definition approved_binding (p : string * WorkloadRole) : Prop :=
  canonical_id (fst p) /\ segment 6 (fst p) = expected_provider (snd p) /\
  segment 7 (fst p) = expected_type (snd p) /\ segment 8 (fst p) <> "".

Lemma bind_role_Ok normalized k role : approved_binding (k, role) -> k ∉ fst <$> normalized ->
  bind_role normalized (k, role) = Ok (normalized ++ [(k, role)]).
Proof.
  intros (Hc & H6 & H7 & H8) Hn. cbn [fst snd] in *. unfold bind_role. rewrite (canonical_resource_id_Ok k) by done.
  unfold mbind, result_bind. rewrite H6, H7, !String.eqb_refl, bool_decide_eq_false_2 by done.
  by rewrite (proj2 (String.eqb_neq _ _) H8).
Qed.

Lemma bind_role_inv normalized x role l : all_chars is_plain x = true -> bind_role normalized (x, role) = Ok l ->
  exists k, l = normalized ++ [(k, role)] /\ approved_binding (k, role) /\ k ∉ fst <$> normalized.
Proof.
  intros Hx Hb. unfold bind_role in Hb. inv_ok. match goal with E : canonical_resource_id x = Ok ?k |- _ => exists k end.
  repeat match goal with E : String.eqb _ _ = true |- _ => apply String.eqb_eq in E end.
  split; [done|]. split; [|match goal with E : bool_decide _ = false |- _ => by apply bool_decide_eq_false in E end].
  split_and!; [by eapply canonical_resource_id_inv|done|done|].
  by apply String.eqb_neq.
Qed.

Lemma foldR_bind_role roles acc l : plain_roles roles -> Forall approved_binding acc -> NoDup (fst <$> acc) ->
  foldR bind_role acc roles = Ok l ->
  Forall approved_binding l /\ NoDup (fst <$> l) /\ length l = (length acc + length roles)%nat.
Proof.
  revert acc. induction roles as [|[x role] roles IH]; intros acc Hp Ha Hn Hf; cbn [foldR] in Hf.
  { inv_ok. subst. cbn. by rewrite Nat.add_0_r. }
  apply Forall_cons in Hp as [Hx Hp]. apply bind_Ok in Hf as (acc' & Hb & Hf).
  apply bind_role_inv in Hb as (k & -> & Hk & Hnk); [|done].
  apply IH in Hf as (H1 & H2 & H3); [|done| |].
  - split_and!; [done|done|]. rewrite H3, length_app. cbn. lia.
  - by apply Forall_app_2; [|constructor].
  - rewrite fmap_app. apply NoDup_app. split_and!; [done| |apply NoDup_singleton].
    cbn. intros y Hy ->%list_elem_of_singleton. done.
Qed.

Lemma foldR_bind_role_id l : Forall approved_binding l -> NoDup (fst <$> l) -> foldR bind_role [] l = Ok l.
Proof.
  intros Hl Hn. enough (forall post pre, l = pre ++ post -> foldR bind_role pre post = Ok l) as Hg by by apply (Hg l []).
  induction post as [|[k role] post IH]; intros pre E; cbn [foldR].
  { by rewrite E, app_nil_r. }
  rewrite bind_role_Ok.
  - unfold mbind, result_bind. apply IH. by rewrite <- app_assoc.
  - rewrite E in Hl. by apply Forall_app in Hl as [_ [? _]%Forall_cons].
  - rewrite E, fmap_app in Hn. apply NoDup_app in Hn as (_ & Hd & _). intros Hk. apply (Hd k Hk). cbn. left.
Qed.

(** Validation of a plain configuration returns bindings it would return again. *)
Lemma validate_roles_inv roles normalized : plain_roles roles -> validate_approved_resource_roles roles = Ok normalized ->
  Forall approved_binding normalized /\ NoDup (fst <$> normalized) /\
  validate_approved_resource_roles normalized = Ok normalized.
Proof.
  intros Hp Hv. unfold validate_approved_resource_roles in *.
  apply bind_Ok in Hv as ([] & Hg1 & (l & Hf & Hv)%bind_Ok). pose proof Hf as Hf'.
  apply foldR_bind_role in Hf' as (Ha & Hn & Hlen); [|done|constructor|constructor].
  assert (l = normalized) as -> by (inv_ok; done).
  split_and!; [done|done|]. cbn in Hlen. by rewrite Hlen, Hg1, foldR_bind_role_id.
Qed.
End signals.

(** ** Texts *)
Section texts.
Context `{PyTextAscii}.

Lemma lifecycle_texts : lifecycle "Resolved" = Resolved /\ lifecycle "Fired" = Activated.
Proof.
  split; unfold lifecycle, lifecycle_tokens; rewrite lower_of_ascii, strip_of_ascii, split_ws_of_ascii by reflexivity; reflexivity.
Qed.

Lemma bounded_text_plain s label : all_chars is_plain s = true -> s <> "" -> (String.length s <= 256)%nat ->
  bounded_text (JStr s) label = Ok s.
Proof.
  intros Hp Hne Hl. unfold bounded_text. rewrite strip_plain by done.
  rewrite (proj2 (String.eqb_neq _ _) Hne). pose proof (py_len_le s).
  by rewrite (proj2 (Nat.ltb_ge _ _)) by lia.
Qed.

Lemma resource_id_canonical k : canonical_id k -> resource_id (JStr k) = Ok k.
Proof.
  intros [Hs Hp Hl _ _]. unfold resource_id. rewrite stable_resource_id by done.
  by rewrite Hp, (proj2 (Nat.leb_le _ _) Hl).
Qed.

(** The resource type of a role. *)
Definition role_type (r : WorkloadRole) : TargetResourceType :=
  match r with LoadBalancer => LoadBalancers | _ => VirtualMachines end.

Lemma split_join_segments k l : split_on slash k = l -> k = join (String slash "") l.
Proof. intros <-. by rewrite join_split_on. Qed.

Definition type_segment (r : WorkloadRole) : string :=
  match r with LoadBalancer => lb_type_segment | _ => vm_type_segment end.

Lemma approved_type_path k role : approved_binding (k, role) -> contains (type_segment role) k = true.
Proof.
  intros ([_ _ _ _ (f & g & rg & p & t & n & Hseg & _)] & H6 & H7 & _). cbn [fst snd] in *.
  unfold segment in *. rewrite Hseg in H6, H7. cbn in H6, H7. subst p t.
  apply split_join_segments in Hseg. apply contains_spec.
  exists (join (String slash "") [f; "subscriptions"; g; "resourcegroups"; rg]), n. rewrite Hseg.
  unfold join. cbn [String.concat]. rewrite !string_app_assoc. cbn. by destruct role.
Qed.

Lemma uuid_not_providers : is_canonical_uuid "providers" = false.
Proof. reflexivity. Qed.

(** A load balancer's id has no virtual machine path. *)
Lemma load_balancer_not_vm k : approved_binding (k, LoadBalancer) -> contains vm_type_segment k = false.
Proof.
  intros ([_ _ _ _ (f & g & rg & p & t & n & Hseg & Hu & _)] & H6 & _). cbn [fst snd] in *.
  unfold segment in H6. rewrite Hseg in H6. cbn in H6. subst p. apply not_true_is_false. intros Hc.
  apply (type_path_segments "microsoft.compute" "virtualmachines") in Hc as (b & a & E & Hb & Ha); [|done..].
  rewrite Hseg in E. pose proof uuid_not_providers as Hnp.
  do 6 (destruct b as [|? b]; [try done; cbn in E; injection E as E; simplify_eq; try congruence|]); try done.
  all: cbn in E; injection E; intros; subst; repeat (destruct b as [|? b]; cbn in *; simplify_eq).
Qed.

Lemma resource_type_approved k role : approved_binding (k, role) -> resource_type k JNull = Ok (role_type role).
Proof.
  intros Ha. unfold resource_type. rewrite stable_lower by by apply Ha. pose proof (approved_type_path k role Ha) as Hc.
  destruct role; cbn [type_segment] in Hc; unfold vm_type_segment, lb_type_segment in Hc; [by rewrite Hc..|].
  pose proof (load_balancer_not_vm k Ha) as Hn. unfold vm_type_segment in Hn. by rewrite Hn, Hc.
Qed.
End texts.

(** ** The synthetic event *)
Section synthetic.
Context `{PyTextAscii, PyDatetimeIso, PyStr, Rfc8785}.

Lemma isoformat_of_utc t : isoformat_of (utc t) = isoformat t.
Proof. unfold isoformat_of, isoformat, utc. cbn [pt_offset pt_instant]. by rewrite !Z.mul_0_l, Z.add_0_r. Qed.

Lemma isoformat_of_z_utc t : isoformat_of_z (utc t) = isoformat_z t.
Proof. unfold isoformat_of_z, isoformat_z. by rewrite isoformat_of_utc. Qed.

(** The timestamp of a synthetic event reads back. *)
Lemma timestamp_isoformat t : representable t = true -> timestamp (JStr (isoformat_z t)) = Ok t.
Proof.
  intros Hr. unfold timestamp. pose proof (py_len_le (isoformat_z t)). pose proof (isoformat_z_length t).
  rewrite (proj2 (Nat.ltb_ge _ _)) by lia. cbn [raise_if]. unfold mbind, result_bind.
  rewrite isoformat_z_expand, parse_isoformat by done. by rewrite bool_decide_eq_true_2.
Qed.

Lemma signal_rule_plain role : all_chars is_plain (signal_rule_name role) = true /\ (String.length (signal_rule_name role) <= 64)%nat /\
  signal_rule_name role <> "" /\ contains_char "T"%char (signal_rule_name role) = false /\ length_between 1 256 (signal_rule_name role) = true.
Proof. destruct role; split_and!; (done || by apply Nat.leb_le). Qed.

Definition scheduled_id (k rule : string) (l : EventLifecycle) (t : Z) : string :=
  "scheduled-" +:+ string_take 24 (sha256_hexdigest (join nul [k; rule; lifecycle_value l; isoformat_z t])).

Lemma scheduled_id_plain k rule l t :
  all_chars is_plain (scheduled_id k rule l t) = true /\ String.length (scheduled_id k rule l t) = 34%nat /\
  contains_char "T"%char (scheduled_id k rule l t) = false.
Proof.
  unfold scheduled_id. set (d := join nul _). destruct (hexdigest_take 24 d ltac:(lia)) as [Hl Hc].
  rewrite all_chars_app, string_length_app, contains_char_app, Hl. split_and!; [|done|].
  - apply andb_true_iff. split; [done|]. eapply all_chars_impl; [|exact Hc]. intros c. by intros [? _]%hex_plain.
  - apply orb_false_iff. split; [done|]. apply (all_chars_contains (fun c => negb (Ascii.eqb "T" c))); [|done].
    eapply all_chars_impl; [|exact Hc]. intros c. by intros [_ ->]%hex_plain.
Qed.

Lemma stable_no_T k : stable_id k -> contains_char "T"%char k = false.
Proof.
  intros (_ & Hl & _). rewrite <- Hl. apply (all_chars_contains (fun c => negb (Ascii.eqb "T" c))); [|done].
  generalize k. intros s. induction s as [|c s IH]; [done|]. cbn [map_string all_chars]. rewrite IH, andb_true_r.
  by destruct c as [[] [] [] [] [] [] [] []].
Qed.

(** The event members of a reading of [k]. *)
Definition signal_members (k : string) (role : WorkloadRole) (healthy : bool) (t : Z) (group subscription digest : string)
    : NormalizedMonitorEvent :=
  let l := health_lifecycle healthy in
  let key := sha256_hex (deduplication_text AzureMonitorCommonAlert (scheduled_id k (signal_rule_name role) l t) k l t) in
  {| ne_event_id := "evt-" +:+ string_take 12 (sha256_hexdigest key); ne_deduplication_key := key;
     ne_source_system := AzureMonitorCommonAlert; ne_signal_kind := MetricAlert; ne_lifecycle := l;
     ne_severity := SeverityCritical; ne_subscription_id := subscription; ne_resource_group_name := group;
     ne_target_resource_id := k; ne_target_resource_type := role_type role; ne_operation_name := signal_rule_name role;
     ne_observed_at := t; ne_received_at := t; ne_source_digest := digest |}.

(** Values that canonicalize. *)
Lemma plain_json s : all_chars is_ascii s = true -> contains_char "T"%char s = false -> is_ok (normalize_json_value (JStr s)) = true.
Proof. intros Hs HT. by rewrite normalize_plain_text by (try exact nfc_of_ascii; done). Qed.

Lemma plain_members ms : forallb (fun k => all_chars is_ascii k) (fst <$> ms) = true -> unique (fst <$> ms) = true ->
  Forall (fun v => is_ok (normalize_json_value v) = true) (snd <$> ms) -> is_ok (normalize_json_value (JObj ms)) = true.
Proof. exact (normalize_JObj_ok nfc_of_ascii ms). Qed.

(** The digest of a synthetic event is defined. *)
Lemma synthetic_digest k role l t : stable_id k -> representable t = true ->
  exists d, compute_semantic_digest (JObj [("schemaId", JStr "azureMonitorCommonAlertSchema");
    ("data", JObj [("essentials", JObj [
       ("alertId", JStr (scheduled_id k (signal_rule_name role) l t)); ("signalType", JStr "Metric");
       ("monitorCondition", JStr (if bool_decide (l = Resolved) then "Resolved" else "Fired")); ("severity", JStr "Sev1");
       ("alertRule", JStr (signal_rule_name role)); ("alertTargetIDs", JArr [JStr k]);
       ("firedDateTime", JStr (isoformat_z t)); ("resolvedDateTime", JStr (isoformat_z t))])])]) = Ok d /\ is_digest d = true.
Proof.
  intros Hk Ht. unfold compute_semantic_digest, canonicalize_json.
  destruct (scheduled_id_plain k (signal_rule_name role) l t) as (Hp & _ & HT).
  destruct (signal_rule_plain role) as (Hrp & _ & _ & HrT & _).
  assert (Hpl : forall s, all_chars is_plain s = true -> contains_char "T"%char s = false ->
    is_ok (normalize_json_value (JStr s)) = true) by (intros s Hs%plain_ascii HsT; by apply plain_json).
  match goal with |- context [normalize_json_value ?v] => assert (Hv : is_ok (normalize_json_value v) = true) end.
  { apply plain_members; [done|done|]. repeat constructor; [by apply Hpl|]. cbn [snd fmap list_fmap].
    apply plain_members; [done|done|]. repeat constructor. cbn [snd]. apply plain_members; [done|done|]. cbn [fmap list_fmap snd].
    pose proof (normalize_isoformat_z nfc_of_ascii t Ht) as Hiso.
    repeat (constructor; [first [exact Hiso|by apply Hpl|idtac]|]); [| |constructor].
    - apply Hpl; by case_bool_decide.
    - apply normalize_JArr_ok. repeat constructor. apply Hpl; [by apply Hk|by apply stable_no_T]. }
  apply is_ok_spec in Hv as [w ->]. eexists. split; [done|]. apply sha256_hex_is_digest.
Qed.

Definition is_validation_error (e : exn) : bool := match e with ValidationError _ => true | _ => false end.

Lemma scope_canonical k : canonical_id k -> scope k = Ok (segment 2 k, segment 4 k).
Proof.
  intros [_ _ _ _ (f & g & rg & p & t & n & Hseg & _)]. unfold scope, segment. by rewrite Hseg.
Qed.

Lemma lower_texts : lower "Metric" = "metric" /\ lower "Resolved" = "resolved" /\ lower "Fired" = "fired" /\ lower "Sev1" = "sev1".
Proof. split_and!; by rewrite lower_of_ascii. Qed.

(** The path of an alert through its checks. *)
Lemma from_common_alert_intro event t rules data essentials target id type signal condition op source_id observed :
  record (get "data" event) "alert data" = Ok data ->
  record (get "essentials" data) "alert essentials" = Ok essentials ->
  get "alertTargetIDs" essentials = JArr [target] ->
  resource_id target = Ok id -> resource_type id JNull = Ok type ->
  bounded_text (get "signalType" essentials) "signal type" = Ok signal ->
  bounded_text (get "monitorCondition" essentials) "monitor condition" = Ok condition ->
  bounded_text (py_or (get "alertRule" essentials) (JStr signal)) "alert rule" = Ok op ->
  lower signal = "metric" -> casefold op ∈ casefold <$> rules ->
  bounded_text (get "alertId" essentials) "alert id" = Ok source_id ->
  timestamp (if String.eqb (lower condition) "resolved" then get "resolvedDateTime" essentials
             else get "firedDateTime" essentials) = Ok observed ->
  from_common_alert event t rules =
    normalized AzureMonitorCommonAlert MetricAlert source_id id type op (lifecycle condition)
      (severity (get "severity" essentials)) observed t
      (JObj [("schemaId", get "schemaId" event);
         ("data", JObj [("essentials", JObj (pick ["alertId"; "signalType"; "monitorCondition"; "severity"; "alertRule"]
                          essentials ++ [("alertTargetIDs", JArr [target])] ++ pick ["firedDateTime"; "resolvedDateTime"] essentials))])]).
Proof.
  intros E1 E2 E3 E4 E5 E6 E7 E8 E9 E10 E11 E12. unfold from_common_alert.
  rewrite E1. unfold mbind at 1, result_bind at 1. rewrite E2. unfold mbind at 1, result_bind at 1. rewrite E3.
  unfold mbind at 1, result_bind at 1. rewrite E4. unfold mbind at 1, result_bind at 1. rewrite E5.
  unfold mbind at 1, result_bind at 1. rewrite E6. unfold mbind at 1, result_bind at 1. rewrite E7.
  unfold mbind at 1, result_bind at 1. rewrite E8, E9. unfold mbind at 1, result_bind at 1.
  rewrite (bool_decide_eq_true_2 ("metric" ∈ _)) by (left; done). rewrite (bool_decide_eq_true_2 (casefold op ∈ _)) by done.
  rewrite !andb_false_r. cbn [raise_if]. unfold mbind at 1, result_bind at 1. unfold mbind at 1, result_bind at 1.
  rewrite E11. unfold mbind at 1, result_bind at 1. rewrite E12. reflexivity.
Qed.

(** Normalizing a synthetic event constructs the event of its members. *)
Lemma normalize_synthetic k role healthy t rules : approved_binding (k, role) -> representable t = true ->
  casefold (signal_rule_name role) ∈ casefold <$> rules ->
  exists digest, is_digest digest = true /\
  normalize_monitor_event (synthetic_monitor_event k (signal_rule_name role) (health_lifecycle healthy) (utc t)) (utc t) rules =
    reraise is_validation_error (EventNormalizationError "normalized event contract is invalid")
      (make_event (signal_members k role healthy t (segment 4 k) (segment 2 k) digest)).
Proof.
  intros Ha Ht Hrule. pose proof Ha as ([Hst _ _ _ _] & _). cbn [fst] in Hst.
  destruct (synthetic_digest k role (health_lifecycle healthy) t Hst Ht) as (digest & Hd & Hdig). exists digest. split; [done|].
  destruct (scheduled_id_plain k (signal_rule_name role) (health_lifecycle healthy) t) as (Hp & Hsl & _).
  destruct (signal_rule_plain role) as (Hrp & Hrl & Hrne & _). destruct lower_texts as (Hm & Hres & Hfir & Hsev).
  destruct lifecycle_texts as [Hlr Hlf].
  set (condition := if bool_decide (health_lifecycle healthy = Resolved) then "Resolved" else "Fired").
  set (source_id := scheduled_id k (signal_rule_name role) (health_lifecycle healthy) t) in *.
  set (essentials := [("alertId", JStr source_id); ("signalType", JStr "Metric"); ("monitorCondition", JStr condition);
    ("severity", JStr "Sev1"); ("alertRule", JStr (signal_rule_name role)); ("alertTargetIDs", JArr [JStr k]);
    ("firedDateTime", JStr (isoformat_z t)); ("resolvedDateTime", JStr (isoformat_z t))]).
  assert (Hc : all_chars is_plain condition = true /\ condition <> "" /\ (String.length condition <= 256)%nat /\
    lifecycle condition = health_lifecycle healthy).
  { unfold condition. destruct healthy; split_and!; (done || by apply Nat.leb_le). }
  destruct Hc as (Hcp & Hcn & Hcl & Hlc).
  assert (Hev : from_common_alert [("schemaId", JStr "azureMonitorCommonAlertSchema"); ("data", JObj [("essentials", JObj essentials)])]
    t rules = Ok (signal_members k role healthy t (segment 4 k) (segment 2 k) digest)).
  { rewrite (from_common_alert_intro _ _ _ [("essentials", JObj essentials)] essentials (JStr k) k (role_type role) "Metric" condition
      (signal_rule_name role) source_id t); [|done|done|done|apply resource_id_canonical, Ha|by apply resource_type_approved
      |by apply bounded_text_plain; [..|apply Nat.leb_le]|by apply bounded_text_plain| | | | |].
    - rewrite Hlc. unfold normalized. rewrite scope_canonical by apply Ha. unfold mbind at 1, result_bind at 1.
      change (get "severity" essentials) with (JStr "Sev1"). unfold severity, py_or. cbn [truthy String.eqb Ascii.eqb Bool.eqb negb py_str].
      rewrite Hsev. match goal with |- context [compute_semantic_digest ?v] => change v with (JObj [("schemaId", JStr "azureMonitorCommonAlertSchema"); ("data", JObj [("essentials", JObj essentials)])]) end.
      unfold essentials, condition. rewrite Hd. reflexivity.
    - change (get "alertRule" essentials) with (JStr (signal_rule_name role)). unfold py_or. cbn [truthy].
      rewrite (proj2 (String.eqb_neq _ _) Hrne). cbn [negb]. apply bounded_text_plain; [done|done|lia].
    - exact Hm.
    - exact Hrule.
    - apply bounded_text_plain; [done| |lia]. by destruct source_id.
    - change (get "resolvedDateTime" essentials) with (JStr (isoformat_z t)).
      change (get "firedDateTime" essentials) with (JStr (isoformat_z t)).
      destruct (String.eqb (lower condition) "resolved"); by apply timestamp_isoformat. }
  unfold normalize_monitor_event, synthetic_monitor_event. rewrite isoformat_of_z_utc.
  fold (scheduled_id k (signal_rule_name role) (health_lifecycle healthy) t). fold source_id condition essentials.
  change (not_utc (utc t)) with false. cbn [raise_if record]. unfold mbind at 1, result_bind at 1. unfold mbind at 1, result_bind at 1.
  change (has_key "eventType" _ && _) with false. cbn [assoc]. rewrite String.eqb_refl, bool_decide_eq_true_2 by done.
  cbn [pt_instant utc]. by rewrite Hev.
Qed.

(** ** The event and the request of a reading *)
Lemma matches_hexes n rest s : matches (Hexes n :: rest) s = true ->
  exists a b, s = a +:+ b /\ String.length a = n /\ all_chars is_lower_hex a = true /\ matches rest b = true.
Proof.
  cbn [matches]. intros [[Hn%Nat.leb_le Hh]%andb_true_iff Hr]%andb_true_iff.
  exists (string_take n s), (string_drop n s). split_and!; [|by apply length_string_take|done|done].
  clear. revert s. induction n as [|n IH]; intros s; [by destruct s|]. destruct s as [|c s]; [done|].
  cbn [string_take string_drop]. rewrite string_app_cons. by rewrite <- IH.
Qed.

Lemma matches_lit p rest s : matches (Lit p :: rest) s = true -> exists b, s = p +:+ b /\ matches rest b = true.
Proof.
  cbn [matches]. intros [(b & ->)%starts_with_spec Hr]%andb_true_iff. exists b. by rewrite string_drop_app in Hr.
Qed.

Lemma lower_hex_hex a : all_chars is_lower_hex a = true -> all_chars is_hex a = true.
Proof. apply all_chars_impl. intros c. unfold is_hex. by intros ->. Qed.

Lemma lower_hex_no_dash a : all_chars is_lower_hex a = true -> contains_char "-"%char a = false.
Proof. intros Ha. by apply (all_chars_contains is_lower_hex). Qed.

Lemma guid_of_uuid s : is_canonical_uuid s = true -> is_guid s = true.
Proof.
  unfold is_canonical_uuid. intros Hm.
  apply matches_hexes in Hm as (a & s1 & -> & Hla & Ha & (s2 & -> & Hm)%matches_lit).
  apply matches_hexes in Hm as (b & s3 & -> & Hlb & Hb & (s4 & -> & Hm)%matches_lit).
  apply matches_hexes in Hm as (c & s5 & -> & Hlc & Hc & (s6 & -> & Hm)%matches_lit).
  apply matches_hexes in Hm as (d & s7 & -> & Hld & Hd & (s8 & -> & Hm)%matches_lit).
  apply matches_hexes in Hm as (e & s9 & -> & Hle & He & Hm). cbn [matches] in Hm. apply String.eqb_eq in Hm. subst s9.
  rewrite string_app_nil_r. unfold is_guid. rewrite !(string_app_cons "-" ""), !string_app_nil_l.
  rewrite !split_on_app, split_on_single by by apply lower_hex_no_dash.
  rewrite Hla, Hlb, Hlc, Hld, Hle. cbn [forallb Nat.eqb andb]. by rewrite !lower_hex_hex.
Qed.

Lemma py_len_pos s : all_chars is_ascii s = true -> s <> "" -> (1 <= py_len s)%nat.
Proof.
  destruct s as [|c s]; [done|]. cbn [all_chars py_len]. intros [Hc _]%andb_true_iff _.
  unfold starts_code_point. unfold is_ascii in Hc. rewrite Hc. cbn. lia.
Qed.

(** The segments of a canonical id are lower-case. *)
Lemma canonical_segments k : canonical_id k ->
  Forall (fun s => lower s = s /\ all_chars is_ascii s = true) (split_on slash k).
Proof.
  intros [(Hp & Hl & _) _ _ _ _]. apply plain_ascii in Hp. pose proof (lower_fixed_segments k Hl) as H1'.
  pose proof (all_chars_segments _ k Hp) as H2'. rewrite !Forall_forall in *. intros s Hs.
  specialize (H1' s Hs). specialize (H2' s Hs). by rewrite lower_of_ascii.
Qed.

Lemma role_type_text role : casefold (expected_provider role +:+ "/" +:+ expected_type role) = casefold (resource_type_value (role_type role)).
Proof. by destruct role; cbn [role_type]; rewrite !casefold_of_ascii. Qed.

Lemma signal_members_valid k role healthy t digest : approved_binding (k, role) -> is_digest digest = true ->
  (py_len (segment 4 k) <= 90)%nat ->
  make_event (signal_members k role healthy t (segment 4 k) (segment 2 k) digest) =
    Ok (signal_members k role healthy t (segment 4 k) (segment 2 k) digest).
Proof.
  intros Ha Hd Hrg. pose proof Ha as ([Hst Hpre Hlen Hch (f & g & rg & p & y & n & Hseg & Hu & Hrgne)] & H6' & H7' & _).
  pose proof (canonical_segments k ltac:(apply Ha)) as Hlow. cbn [fst snd] in *.
  unfold segment in H6', H7', Hrg |- *. rewrite Hseg in H6', H7', Hrg, Hlow |- *. cbn in H6', H7', Hrg. subst p y.
  repeat match goal with E : Forall _ (_ :: _) |- _ => apply Forall_cons in E as [[? ?] E] end.
  destruct (signal_rule_plain role) as (_ & _ & _ & _ & Hop).
  set (m := signal_members k role healthy t _ _ digest).
  assert (Hf : validate_freshness_order m = Ok tt).
  { unfold validate_freshness_order. cbn [ne_received_at ne_observed_at ne_target_resource_id m signal_members].
    rewrite Z.ltb_irrefl, Z.sub_diag. cbn [raise_if]. unfold mbind at 1, result_bind at 1.
    change (600 * second <? 0) with false. cbn [raise_if]. unfold mbind at 1, result_bind at 1. rewrite Hseg.
    cbn [ne_subscription_id ne_resource_group_name ne_target_resource_type ne_event_id ne_deduplication_key m signal_members default].
    change (default "" ([f; "subscriptions"; g; "resourcegroups"; rg; "providers"; expected_provider role; expected_type role; n] !! 2%nat)) with g.
    change (default "" ([f; "subscriptions"; g; "resourcegroups"; rg; "providers"; expected_provider role; expected_type role; n] !! 4%nat)) with rg.
    repeat match goal with E : lower _ = _ |- _ => rewrite E end.
    by rewrite role_type_text, !String.eqb_refl. }
  apply orb_false_elim in Hch as [Hb Hch]. apply orb_false_elim in Hch as [Hpc _].
  apply make_event_intro; cbn [ne_event_id ne_deduplication_key ne_subscription_id ne_resource_group_name ne_target_resource_id
    ne_operation_name ne_source_digest m signal_members]; try done.
  - apply matches_hex_prefix; [|apply sha256_hexdigest_shape]. rewrite (proj1 (sha256_hexdigest_shape _)). lia.
  - apply sha256_hex_is_digest.
  - by apply guid_of_uuid.
  - unfold length_between. apply andb_true_iff. rewrite !Nat.leb_le. split; [|done]. by apply py_len_pos.
  - unfold length_between. apply andb_true_iff. rewrite !Nat.leb_le. split; [|done]. apply py_len_pos; [by apply plain_ascii, Hst|].
    by intros ->.
  - by apply stable_lower.
Qed.

Lemma role_type_scenario role : expected_role_and_scenario (role_type role) role = Some (scenario_of role).
Proof. by destruct role. Qed.

(** The request a reading of [k] leads to. *)
Definition signal_request (k : string) (role : WorkloadRole) (healthy : bool) (t : Z) (digest : string) : ReassessmentRequest :=
  request_of (signal_members k role healthy t (segment 4 k) (segment 2 k) digest) role.

Definition observation (k : string) (role : WorkloadRole) (healthy : bool) (t : Z) (evidence : list (string * json)) (summary : string)
    : ApprovedSignalObservation :=
  {| ao_resource_id := k; ao_workload_role := role; ao_healthy := healthy; ao_observed_at := utc t;
     ao_evidence := evidence; ao_summary := summary |}.

(** An approved rule stays approved when the rules are case-folded again. *)
Lemma rule_approved_again role (rules : list string) : casefold (signal_rule_name role) ∈ casefold <$> rules ->
  casefold (signal_rule_name role) ∈ casefold <$> (casefold <$> rules).
Proof.
  intros Hr. apply list_elem_of_fmap. exists (casefold (signal_rule_name role)). split; [|done].
  destruct role; by rewrite casefold_of_ascii, casefold_of_ascii.
Qed.

Section configuration.
Variables (roles : list (string * WorkloadRole)) (rules : list string).
Hypothesis Hroles : Forall approved_binding roles.
Hypothesis Hvalid : validate_approved_resource_roles roles = Ok roles.

Lemma approved_lookup k role : assoc k roles = Some role -> approved_binding (k, role).
Proof. intros Ha%assoc_elem. rewrite Forall_forall in Hroles. by apply (Hroles (k, role)). Qed.

(** A request that was built reports the reading, bound to the resource. *)
Lemma signal_request_built k role healthy t evidence summary r :
  assoc k roles = Some role -> representable t = true ->
  build_signal_reassessment_request (observation k role healthy t evidence summary) roles rules = Ok r ->
  exists digest, r = signal_request k role healthy t digest /\
    make_event (signal_members k role healthy t (segment 4 k) (segment 2 k) digest) =
      Ok (signal_members k role healthy t (segment 4 k) (segment 2 k) digest).
Proof.
  intros Hk Ht Hb. pose proof (approved_lookup k role Hk) as Ha. unfold build_signal_reassessment_request in Hb.
  rewrite Hvalid in Hb. unfold mbind at 1, result_bind at 1 in Hb. cbn [ao_resource_id ao_workload_role ao_healthy ao_observed_at observation] in Hb.
  rewrite stable_lower in Hb by apply Ha. rewrite (bool_decide_eq_true_2 (assoc k roles = _)) in Hb by done. cbn [guard_or] in Hb.
  unfold mbind at 1, result_bind at 1 in Hb. apply bind_Ok in Hb as ([] & Hr%guard_or_Ok%bool_decide_eq_true & Hb%reraise_Ok).
  apply bind_Ok in Hb as (e & He & Hb).
  destruct (normalize_synthetic k role healthy t (casefold <$> rules) Ha Ht (rule_approved_again role rules Hr)) as (digest & _ & Hn).
  unfold observation in He. cbn [ao_observed_at] in He. rewrite Hn in He. apply reraise_Ok in He. exists digest.
  assert (e = signal_members k role healthy t (segment 4 k) (segment 2 k) digest) as ->.
  { apply make_event_Ok in He as (_ & _ & _ & _ & ->). unfold signal_members. cbn [ne_event_id ne_deduplication_key
      ne_source_system ne_signal_kind ne_lifecycle ne_severity ne_subscription_id ne_resource_group_name ne_target_resource_id
      ne_target_resource_type ne_operation_name ne_observed_at ne_received_at ne_source_digest signal_members].
    by rewrite (stable_lower k) by apply Ha. }
  apply routing_Ok in Hb as (role' & Hk' & _ & _ & _ & _ & ->). cbn [ne_target_resource_id signal_members] in Hk'.
  rewrite Hk in Hk'. by injection Hk' as <-.
Qed.

(** A valid event of an approved resource is routed to its role. *)
Lemma signal_request_routed k role healthy t digest : assoc k roles = Some role ->
  make_event (signal_members k role healthy t (segment 4 k) (segment 2 k) digest) =
    Ok (signal_members k role healthy t (segment 4 k) (segment 2 k) digest) ->
  build_reassessment_request (signal_members k role healthy t (segment 4 k) (segment 2 k) digest) roles =
    Ok (signal_request k role healthy t digest).
Proof.
  clear Hvalid. intros Hk He. destruct (approved_lookup k role Hk) as ([(Hp & _) Hpre Hlen _ _] & _). cbn [fst] in *.
  unfold build_reassessment_request. cbn [ne_target_resource_id signal_members]. rewrite Hk. unfold mbind, result_bind.
  cbn [ne_target_resource_type ne_lifecycle signal_members].
  destruct (expected_role_consistent _ _ _ (role_type_scenario role)) as (_ & -> & ->). cbn [raise_if].
  rewrite bool_decide_eq_true_2 by (destruct healthy; cbn; set_solver). cbn [guard_or].
  apply make_event_Ok in He as (_ & Hid & Hdd & _ & _). apply request_of_valid; [done|done| |apply role_type_scenario].
  cbn [ne_target_resource_id signal_members]. unfold length_between. apply andb_true_iff. rewrite !Nat.leb_le.
  split; [|done]. apply py_len_pos; [by apply plain_ascii|by intros ->].
Qed.

(** Every reading of an approved resource builds its request. *)
Lemma signal_request_total k role healthy t evidence summary :
  assoc k roles = Some role -> representable t = true -> casefold (signal_rule_name role) ∈ casefold <$> rules ->
  (py_len (segment 4 k) <= 90)%nat ->
  exists r, build_signal_reassessment_request (observation k role healthy t evidence summary) roles rules = Ok r.
Proof.
  intros Hk Ht Hr Hrg. pose proof (approved_lookup k role Hk) as Ha. unfold build_signal_reassessment_request.
  rewrite Hvalid. unfold mbind at 1, result_bind at 1. cbn [ao_resource_id ao_workload_role ao_healthy ao_observed_at observation].
  rewrite stable_lower by apply Ha. rewrite (bool_decide_eq_true_2 (assoc k roles = _)) by done. cbn [guard_or].
  unfold mbind at 1, result_bind at 1. rewrite bool_decide_eq_true_2 by done. cbn [guard_or].
  unfold mbind at 1, result_bind at 1.
  destruct (normalize_synthetic k role healthy t (casefold <$> rules) Ha Ht (rule_approved_again role rules Hr)) as (digest & Hd & Hn).
  unfold observation. cbn [ao_observed_at]. rewrite Hn. rewrite signal_members_valid by done. cbn [reraise].
  unfold mbind, result_bind. eexists. apply reraise_Ok. apply signal_request_routed; [done|]. by apply signal_members_valid.
Qed.
End configuration.

End synthetic.
