(* ===== verification/DetectorProps.v ===== *)
(** * DetectorProps: detector runs over unreliable ports

    A run is verified against the promises of its ports, for every way their
    calls can fail: the deliveries of a resource, repetitions apart, alternate
    between activated and resolved and agree with the committed health. *)
From S2P Require Import Prelude Text Sha256 Time Json Events Normalization Effects.
From S2P Require Export SignalProps.
From Stdlib Require Import Ascii.
Local Open Scope Z_scope.

#[local] Opaque sha256_hexdigest.

(** ** Delivery histories *)
Definition for_resource (k : string) (l : list ReassessmentRequest) : list ReassessmentRequest :=
  select (fun r => String.eqb (rr_target_resource_id r) k) l.

Lemma for_resource_app k l1 l2 : for_resource k (l1 ++ l2) = for_resource k l1 ++ for_resource k l2.
Proof. apply List.filter_app. Qed.

Lemma for_resource_single k r :
  for_resource k [r] = if String.eqb (rr_target_resource_id r) k then [r] else [].
Proof. reflexivity. Qed.

(** The request [r] reports health [h]. *)
Definition reports (r : ReassessmentRequest) (h : bool) : Prop := rr_lifecycle r = health_lifecycle h.

Lemma reports_resolved r h : reports r h -> bool_decide (rr_lifecycle r = Resolved) = h.
Proof. unfold reports. intros ->. by destruct h. Qed.

(** The histories that lead to a committed health: transitions delivered once or
    more, each from the health the previous one reported. *)
Inductive settled : option bool -> list ReassessmentRequest -> Prop :=
  | settled_new : settled None []
  | settled_initial : settled (Some true) []
  | settled_delivered c l r h n :
      settled c l -> emits c h = true -> reports r h -> settled (Some h) (l ++ replicate (S n) r).

(** Adjacent repetitions removed. *)
Fixpoint dedup_adjacent (l : list ReassessmentRequest) : list ReassessmentRequest :=
  match l with
  | [] => []
  | r :: l' => match l' with
               | r' :: _ => if bool_decide (r = r') then dedup_adjacent l' else r :: dedup_adjacent l'
               | [] => [r]
               end
  end.

(** The lifecycles a resource reports, in turn, starting from an activation. *)
Definition turn (i : nat) : EventLifecycle := if Nat.even i then Activated else Resolved.
Definition alternates (l : list ReassessmentRequest) : Prop := forall i r, l !! i = Some r -> rr_lifecycle r = turn i.

(** The health the last of [l] reports. *)
Definition reported_health (l : list ReassessmentRequest) : option bool :=
  (fun r => bool_decide (rr_lifecycle r = Resolved)) <$> last l.

(** A committed health is the reported one; before any report it is unknown or healthy. *)
Definition agrees (c : option bool) (l : list ReassessmentRequest) : Prop :=
  match reported_health l with Some h => c = Some h | None => c = None \/ c = Some true end.

Lemma dedup_adjacent_snoc l r :
  dedup_adjacent (l ++ [r]) = if bool_decide (last l = Some r) then dedup_adjacent l else dedup_adjacent l ++ [r].
Proof.
  induction l as [|a l IH]; [done|]. destruct l as [|b l].
  - cbn. repeat case_bool_decide; congruence.
  - change ((a :: b :: l) ++ [r]) with (a :: (b :: l) ++ [r]).
    change (dedup_adjacent (a :: (b :: l) ++ [r])) with
      (if bool_decide (a = b) then dedup_adjacent ((b :: l) ++ [r]) else a :: dedup_adjacent ((b :: l) ++ [r])).
    change (dedup_adjacent (a :: b :: l)) with (if bool_decide (a = b) then dedup_adjacent (b :: l) else a :: dedup_adjacent (b :: l)).
    rewrite IH, last_cons_cons. case_bool_decide; case_bool_decide; done.
Qed.

Lemma dedup_adjacent_repeat l r n : last l <> Some r -> dedup_adjacent (l ++ replicate (S n) r) = dedup_adjacent l ++ [r].
Proof.
  intros Hl. induction n as [|n IH]; [cbn [replicate]; by rewrite dedup_adjacent_snoc, bool_decide_eq_false_2|].
  rewrite replicate_S_end, app_assoc, dedup_adjacent_snoc, bool_decide_eq_true_2; [done|].
  by rewrite replicate_S_end, app_assoc, last_snoc.
Qed.

Lemma last_dedup_adjacent l : last (dedup_adjacent l) = last l.
Proof.
  induction l as [|r l IH] using rev_ind; [done|]. rewrite dedup_adjacent_snoc, last_snoc.
  case_bool_decide as Hl; [by rewrite IH|]. by rewrite last_snoc.
Qed.

Lemma alternates_snoc l r : alternates l -> rr_lifecycle r = turn (length l) -> alternates (l ++ [r]).
Proof. intros Hl Hr i r' [Hi|[-> <-]]%lookup_snoc_Some; [by apply Hl; apply Hi|done]. Qed.

(** A settled history agrees with its health and alternates; its length has the
    parity of the last report. *)
Lemma settled_history c l : settled c l ->
  agrees c (dedup_adjacent l) /\ alternates (dedup_adjacent l) /\
  turn (length (dedup_adjacent l)) = (if bool_decide (c = Some false) then Resolved else Activated).
Proof.
  induction 1 as [| |c l r h n Hs (Ha & Hal & Ht) He Hr].
  - split_and!; [by left|by intros i r|done].
  - split_and!; [by right|by intros i r|done].
  - assert (Hlast : last l <> Some r).
    { intros Hl. unfold agrees, reported_health in Ha. rewrite last_dedup_adjacent, Hl in Ha. cbn in Ha.
      rewrite (reports_resolved _ _ Hr) in Ha. subst c. by destruct h. }
    rewrite dedup_adjacent_repeat by done.
    assert (Hturn : rr_lifecycle r = turn (length (dedup_adjacent l))).
    { rewrite Hr, Ht. destruct c as [[]|], h; done. }
    split_and!.
    + unfold agrees, reported_health. rewrite last_snoc. cbn. by rewrite (reports_resolved _ _ Hr).
    + by apply alternates_snoc.
    + rewrite length_app, Nat.add_comm. cbn [length plus]. unfold turn in *. rewrite Nat.even_succ, <- Nat.negb_even.
      rewrite Hr in Hturn. destruct (Nat.even _), h; done.
Qed.

(** ** The invariant of one resource *)
Definition with_pending (c : SignalCheckpoint) (r : ReassessmentRequest) (h : bool) : Prop :=
  sc_pending_healthy c = Some h /\ sc_pending_request c = Some r.

Section invariant.
Context `{PyTextAscii, PyDatetimeIso, PyStr, Rfc8785}.

(** A pending request was built for a reading of the resource. *)
Definition built_for (k : string) (r : ReassessmentRequest) (h : bool) : Prop :=
  exists role t digest, approved_binding (k, role) /\ representable t = true /\
    make_event (signal_members k role h t (segment 4 k) (segment 2 k) digest) =
      Ok (signal_members k role h t (segment 4 k) (segment 2 k) digest) /\
    r = signal_request k role h t digest.

Lemma built_for_reports k r h : built_for k r h -> reports r h /\ rr_target_resource_id r = k.
Proof. intros (role & t & d & _ & _ & _ & ->). done. Qed.

Inductive resource_ok (k : string) : SignalCheckpoint -> list ReassessmentRequest -> Prop :=
  | ok_settled c l : settled c l -> resource_ok k (committed_checkpoint c) l
  | ok_pending c l r h n :
      settled c l -> emits c h = true -> built_for k r h ->
      resource_ok k {| sc_committed_health := c; sc_pending_healthy := Some h; sc_pending_request := Some r |} (l ++ replicate n r).

Lemma resource_ok_none k c l : resource_ok k c l -> sc_pending_request c = None ->
  c = committed_checkpoint (sc_committed_health c) /\ settled (sc_committed_health c) l.
Proof. by destruct 1. Qed.

Lemma resource_ok_some k c l r : resource_ok k c l -> sc_pending_request c = Some r ->
  exists h, sc_pending_healthy c = Some h /\ built_for k r h /\ emits (sc_committed_health c) h = true /\
    resource_ok k c (l ++ [r]) /\ resource_ok k (committed_checkpoint (Some h)) (l ++ [r]).
Proof.
  destruct 1 as [|c l r' h n Hs He Hb]; [done|]. intros [= <-]. exists h. rewrite <- app_assoc, <- replicate_S_end.
  split_and!; [done|done|done|by apply ok_pending|]. apply ok_settled.
  destruct (built_for_reports _ _ _ Hb) as [Hr _]. by eapply settled_delivered.
Qed.
End invariant.

(** ** Calls on the ports *)
Section run.
Context `{PyTextAscii, PyDatetimeIso, PyStr, Rfc8785, PydanticJson}.
Context {St Q : Type} `{SignalStateStorePort St} {Hstore : SignalStateStoreLaws St} `{ReassessmentRequestSenderLaws Q}.

Abbreviation World := (St * Q)%type.
Abbreviation view := (string -> SignalCheckpoint).

(** The world shows the checkpoints [V] and the deliveries [D]. *)
Definition shows (V : view) (D : list ReassessmentRequest) (w : World) : Prop :=
  (forall k, checkpoint_of (fst w) k = V k) /\ delivered (snd w) = D.

Definition consistent (V : view) (D : list ReassessmentRequest) : Prop :=
  forall k, resource_ok k (V k) (for_resource k D).

Definition detector_invariant (w : World) : Prop := exists V D, shows V D w /\ consistent V D.

Definition set_checkpoint (V : view) (id : string) (c : SignalCheckpoint) : view :=
  fun k => if decide (k = id) then c else V k.

Lemma set_checkpoint_eq V id c : set_checkpoint V id c id = c.
Proof. unfold set_checkpoint. by rewrite decide_True. Qed.
Lemma set_checkpoint_ne V id c k : k <> id -> set_checkpoint V id c k = V k.
Proof. unfold set_checkpoint. intros. by rewrite decide_False. Qed.

(** [Live]: a situation in which no call of the run may fail. A triple with
    [failure Live] in the exceptional case says that the invariant survives, and
    that the run does not raise in that situation. *)
Definition failure (Live : Prop) (e : exn) (w : World) : Prop := detector_invariant w /\ ~ Live.

Lemma failure_intro Live V D e w : shows V D w -> consistent V D -> ~ Live -> failure Live e w.
Proof. intros Hs Hc Hl. split; [by exists V, D|done]. Qed.

Lemma lift_triple {A} Live (r : result A) (P : World -> Prop) :
  (forall w, P w -> detector_invariant w) -> (Live -> is_ok r = true) ->
  triple P (lift r) (fun a w => P w /\ r = Ok a) (failure Live).
Proof.
  intros HP HL. apply triple_lift; [done|]. intros e w -> Hw. split; [by apply HP|]. intros L. by specialize (HL L).
Qed.

Lemma consistent_set V D id c : consistent V D -> resource_ok id c (for_resource id D) -> consistent (set_checkpoint V id c) D.
Proof. intros Hc Hk k. destruct (decide (k = id)) as [->|Hn]; [by rewrite set_checkpoint_eq|by rewrite set_checkpoint_ne]. Qed.

(** What a delivery of the pending request does to the history. *)
Lemma consistent_deliver V D id r h : consistent V D -> with_pending (V id) r h ->
  rr_target_resource_id r = id /\ consistent V (D ++ [r]) /\
  consistent (set_checkpoint V id (committed_checkpoint (Some h))) (D ++ [r]).
Proof.
  intros Hc [Hh Hr]. destruct (resource_ok_some id _ _ r (Hc id) Hr) as (h' & Hh' & Hb & _ & Hk1 & Hk2).
  rewrite Hh in Hh'. injection Hh' as <-. destruct (built_for_reports _ _ _ Hb) as [_ Ht].
  assert (Hoth : forall k, k <> id -> for_resource k (D ++ [r]) = for_resource k D).
  { intros k Hk. rewrite for_resource_app, for_resource_single, Ht, (proj2 (String.eqb_neq id k)) by congruence. by rewrite app_nil_r. }
  assert (Hsame : for_resource id (D ++ [r]) = for_resource id D ++ [r]).
  { by rewrite for_resource_app, for_resource_single, Ht, String.eqb_refl. }
  assert (HcD : consistent V (D ++ [r])).
  { intros k. destruct (decide (k = id)) as [->|Hn]; [by rewrite Hsame|by rewrite Hoth by done]. }
  split_and!; [done|done|]. apply consistent_set; [done|]. by rewrite Hsame.
Qed.

Lemma load_triple Live V D id : consistent V D -> lower id = id -> (Live -> forall s : St, is_ok (fst (load_checkpoint id s)) = true) ->
  triple (shows V D) (on_store (load_checkpoint id)) (fun c w => shows V D w /\ c = V id) (failure Live).
Proof.
  intros Hc Hid HL [s q] [Hs Hq]. unfold on_store, zoom. cbn [fst snd] in *.
  pose proof (load_view id s) as Hv. pose proof (load_value id s) as Hval.
  assert (Hshow : shows V D (snd (load_checkpoint id s), q)).
  { split; [|done]. intros k. cbn. rewrite (Hv k). apply Hs. }
  destruct (load_checkpoint id s) as [[c|e] s'] eqn:E; cbn in *.
  - split; [done|]. by rewrite (Hval c eq_refl), Hid, Hs.
  - eapply failure_intro; [done..|]. intros L. specialize (HL L s). by rewrite E in HL.
Qed.

(** A write that has its effect or fails without it. *)
Lemma write_triple Live V D (m : stateful St unit) id c :
  consistent V D -> consistent (set_checkpoint V id c) D -> lower id = id ->
  (forall s, (forall k, checkpoint_of s k = V k) ->
     updated s (snd (m s)) id c \/ (unchanged s (snd (m s)) /\ is_ok (fst (m s)) = false)) ->
  (Live -> forall s, (forall k, checkpoint_of s k = V k) -> is_ok (fst (m s)) = true) ->
  triple (shows V D) (on_store m) (fun _ => shows (set_checkpoint V id c) D) (failure Live).
Proof.
  intros Hc Hc' Hid Hm HL [s q] [Hs Hq]. unfold on_store, zoom. cbn [fst snd] in *. specialize (Hm s Hs).
  assert (Hlive : is_ok (fst (m s)) = false -> ~ Live) by (intros Hr L; specialize (HL L s Hs); congruence).
  destruct (m s) as [r s']; cbn [fst snd] in *.
  assert (Hupd : updated s s' id c -> shows (set_checkpoint V id c) D (s', q)).
  { intros Hu. split; [|done]. intros k. cbn. rewrite (Hu k), Hid. unfold set_checkpoint. case_decide; [done|apply Hs]. }
  destruct Hm as [Hu|[Hu Hr]]; destruct r as [u|e]; try done.
  - by apply Hupd.
  - eapply failure_intro; [by apply Hupd|done|by apply Hlive].
  - eapply failure_intro; [|exact Hc|by apply Hlive]. split; [|done]. intros k. cbn. rewrite (Hu k). apply Hs.
Qed.

(** The store and the queue never fail without cause. *)
Definition ports_reliable : Prop := ReliableStore St /\ ReliableSender Q.

Lemma record_triple Live V D id t : consistent V D -> lower id = id -> V id = committed_checkpoint None -> (Live -> ports_reliable) ->
  triple (shows V D) (on_store (record_initial_health id t))
    (fun _ w => shows (set_checkpoint V id (committed_checkpoint (Some true))) D w /\
                consistent (set_checkpoint V id (committed_checkpoint (Some true))) D) (failure Live).
Proof.
  intros Hc Hid HV HL. assert (Hc' : consistent (set_checkpoint V id (committed_checkpoint (Some true))) D).
  { apply consistent_set; [done|]. specialize (Hc id). rewrite HV in Hc.
    destruct (resource_ok_none _ _ _ Hc eq_refl) as [_ Hset]. cbn in Hset. inversion Hset; subst.
    by apply ok_settled, settled_initial. }
  eapply triple_consequence; [apply (write_triple Live V D _ id (committed_checkpoint (Some true)))|..]; try done.
  - intros s _. apply record_view.
  - intros L s _. by destruct (HL L) as [[] _].
Qed.

Lemma stage_triple Live V D id h t r : consistent V D -> lower id = id -> sc_pending_request (V id) = None ->
  emits (sc_committed_health (V id)) h = true -> built_for id r h -> (Live -> ports_reliable) ->
  let c := {| sc_committed_health := sc_committed_health (V id); sc_pending_healthy := Some h; sc_pending_request := Some r |} in
  triple (shows V D) (on_store (stage_transition id h t r))
    (fun _ w => shows (set_checkpoint V id c) D w /\ consistent (set_checkpoint V id c) D) (failure Live).
Proof.
  intros Hc Hid HV He Hb HL c. assert (Hc' : consistent (set_checkpoint V id c) D).
  { apply consistent_set; [done|]. destruct (resource_ok_none _ _ _ (Hc id) HV) as [_ Hs].
    rewrite <- (app_nil_r (for_resource id D)). by apply (ok_pending id _ _ r h 0). }
  eapply triple_consequence; [apply (write_triple Live V D _ id c)|..]; try done.
  - intros s Hs. destruct (stage_view id h t r s) as [[_ Hu]|Hu]; [left|by right]. by rewrite Hid, Hs in Hu.
  - intros L s Hs. destruct (HL L) as [[_ _ Hst _] _]. apply Hst. by rewrite Hid, Hs.
Qed.

Lemma complete_triple Live V D id r h t : consistent V D -> consistent (set_checkpoint V id (committed_checkpoint (Some h))) D ->
  lower id = id -> with_pending (V id) r h -> (Live -> ports_reliable) ->
  triple (shows V D) (on_store (complete_transition id (rr_request_id r) t))
    (fun _ => shows (set_checkpoint V id (committed_checkpoint (Some h))) D) (failure Live).
Proof.
  intros Hc Hc' Hid [Hh Hr] HL. apply write_triple; try done.
  - intros s Hs. destruct (complete_view id (rr_request_id r) t s) as [(r' & h' & Hr' & Hh' & _ & Hu)|Hu]; [left|by right].
    rewrite Hid, Hs, Hh in Hh'. by injection Hh' as <-.
  - intros L s Hs. destruct (HL L) as [[_ _ _ Hcm] _]. apply (Hcm id t r h); by rewrite Hid, Hs.
Qed.

(** A delivery: the request reaches the queue, then the transition is committed. *)
Lemma deliver_triple Live V D id r h t : consistent V D -> lower id = id -> with_pending (V id) r h -> (Live -> ports_reliable) ->
  triple (shows V D) (deliver id t r)
    (fun _ w => shows (set_checkpoint V id (committed_checkpoint (Some h))) (D ++ [r]) w /\
                consistent (set_checkpoint V id (committed_checkpoint (Some h))) (D ++ [r])) (failure Live).
Proof.
  intros Hc Hid Hp HL. destruct (consistent_deliver V D id r h Hc Hp) as (_ & Hc1 & Hc2).
  unfold deliver. eapply (triple_bind _ _ _ (fun _ => shows V (D ++ [r]))).
  - intros [s q] [Hs Hq]. unfold on_sender, zoom. cbn [fst snd] in *.
    pose proof (send_view r (rr_idempotency_key r) (rr_incident_id r) q) as Hv.
    assert (Hlive : is_ok (fst (send r (rr_idempotency_key r) (rr_incident_id r) q)) = false -> ~ Live).
    { intros Hf L. destruct (HL L) as [_ Hsend]. by rewrite (Hsend r) in Hf. }
    destruct (send r _ _ q) as [res q']; cbn [fst snd] in *.
    assert (Hsent : delivered q' = delivered q ++ [r] -> shows V (D ++ [r]) (s, q')) by (intros E; split; [done|cbn; congruence]).
    destruct Hv as [Hv|[Hv Hf]]; destruct res as [u|e]; try done.
    + by apply Hsent.
    + eapply failure_intro; [by apply Hsent|done|by apply Hlive].
    + eapply failure_intro; [|exact Hc|by apply Hlive]. split; [done|]. cbn. congruence.
  - intros []. eapply triple_consequence; [apply (complete_triple Live V (D ++ [r]) id r h t)|..]; try done.
Qed.

(** ** The loops of a run *)
Lemma shows_ext V V' D w : (forall k, V k = V' k) -> shows V D w -> shows V' D w.
Proof. intros HV [Hs Hq]. split; [|done]. intros k. by rewrite Hs. Qed.

Lemma consistent_ext V V' D : (forall k, V k = V' k) -> consistent V D -> consistent V' D.
Proof. intros HV Hc k. by rewrite <- HV. Qed.

(** A checkpoint whose pending transition, if any, has been committed. *)
Definition settle (c : SignalCheckpoint) : SignalCheckpoint :=
  match sc_pending_healthy c with Some h => committed_checkpoint (Some h) | None => c end.

Definition settled_view (V : view) (ids : list string) : view := fun k => if decide (k ∈ ids) then settle (V k) else V k.

Definition pending_requests (V : view) (l : list (string * WorkloadRole)) : list ReassessmentRequest :=
  omap (fun p => sc_pending_request (V (fst p))) l.

(** The checkpoints the first loop remembers: those with nothing pending. *)
Definition remembers (V : view) (ids : list string) (cps : gmap string SignalCheckpoint) : Prop :=
  forall k, cps !! k = if decide (k ∈ ids) then match sc_pending_request (V k) with None => Some (V k) | Some _ => None end else None.

Section configured.
Variables (roles : list (string * WorkloadRole)) (rules : list string) (t : Z).
Hypothesis Hroles : Forall approved_binding roles.
Hypothesis Hkeys : NoDup (fst <$> roles).
Hypothesis Hvalid : validate_approved_resource_roles roles = Ok roles.
Hypothesis Ht : representable t = true.

Lemma approved_id k role : (k, role) ∈ roles -> lower k = k.
Proof. intros Hk. rewrite Forall_forall in Hroles. apply stable_lower. apply (Hroles (k, role) Hk). Qed.

Definition rules_cover : Prop := Forall (fun p => casefold (signal_rule_name (snd p)) ∈ rules) roles.
Definition pending_rechecks (V : view) : Prop :=
  Forall (fun p => forall r, sc_pending_request (V (fst p)) = Some r ->
    pending_bound roles (signal_rule_name (snd p)) (V (fst p)) r = Ok tt) roles.

Lemma settled_view_snoc V (pre : list (string * WorkloadRole)) k role j : k ∉ fst <$> pre ->
  settled_view V (fst <$> pre ++ [(k, role)]) j = set_checkpoint (settled_view V (fst <$> pre)) k (settle (V k)) j.
Proof.
  intros Hk. unfold settled_view, set_checkpoint. rewrite fmap_app. destruct (decide (j = k)) as [->|Hj].
  - by rewrite decide_True by (cbn; set_solver).
  - destruct (decide (j ∈ fst <$> pre)); [rewrite decide_True by set_solver|rewrite decide_False by (cbn; set_solver)]; done.
Qed.

Lemma remembers_snoc V (pre : list (string * WorkloadRole)) k role cps : k ∉ fst <$> pre -> remembers V (fst <$> pre) cps ->
  remembers V (fst <$> pre ++ [(k, role)]) (match sc_pending_request (V k) with None => <[k := V k]> cps | Some _ => cps end).
Proof.
  intros Hk Hcps j. rewrite fmap_app. destruct (decide (j = k)) as [->|Hj].
  - rewrite (decide_True (P := k ∈ (fst <$> pre) ++ (fst <$> [(k, role)]))) by (cbn; set_solver).
    destruct (sc_pending_request (V k)); [by rewrite Hcps, decide_False|by rewrite lookup_insert_eq].
  - assert (E : (match sc_pending_request (V k) with None => <[k := V k]> cps | Some _ => cps end) !! j = cps !! j)
      by (destruct (sc_pending_request (V k)); [done|by rewrite lookup_insert_ne]).
    rewrite E, Hcps. destruct (decide (j ∈ fst <$> pre)); [rewrite decide_True by set_solver|rewrite decide_False by (cbn; set_solver)]; done.
Qed.

Lemma pending_requests_snoc V pre k role :
  pending_requests V (pre ++ [(k, role)]) =
    pending_requests V pre ++ match sc_pending_request (V k) with None => [] | Some r => [r] end.
Proof. unfold pending_requests. rewrite omap_app. cbn. by destruct (sc_pending_request (V k)). Qed.

(** The state of the recovery loop after the bindings [pre]. *)
Definition recovered (V : view) (D : list ReassessmentRequest) (pre : list (string * WorkloadRole))
    (acc : gmap string SignalCheckpoint * list ReassessmentRequest) (w : World) : Prop :=
  remembers V (fst <$> pre) (fst acc) /\ snd acc = pending_requests V pre /\
  shows (settled_view V (fst <$> pre)) (D ++ snd acc) w /\ consistent (settled_view V (fst <$> pre)) (D ++ snd acc).

(** A checkpoint with nothing pending is remembered. *)
Lemma recovered_none V D pre k role cps sent w : k ∉ fst <$> pre -> sc_pending_request (V k) = None ->
  recovered V D pre (cps, sent) w -> recovered V D (pre ++ [(k, role)]) (<[k := V k]> cps, sent) w.
Proof.
  intros Hk Hr (Hcps & Hsent & Hs & Hc). cbn [fst snd] in *.
  assert (Hext : forall j, settled_view V (fst <$> pre) j = settled_view V (fst <$> pre ++ [(k, role)]) j).
  { intros j. rewrite settled_view_snoc by done. unfold set_checkpoint. case_decide as E; [subst j|done].
    assert (HVk : settled_view V (fst <$> pre) k = V k) by (unfold settled_view; by rewrite decide_False).
    specialize (Hc k). rewrite HVk in *. destruct (resource_ok_none _ _ _ Hc Hr) as [E _]. by rewrite E. }
  pose proof (remembers_snoc V pre k role cps Hk Hcps) as Hrem. rewrite Hr in Hrem.
  split_and!; cbn [fst snd]; [done| |by eapply shows_ext|by eapply consistent_ext].
  rewrite pending_requests_snoc, Hr. by rewrite app_nil_r.
Qed.

(** A pending transition that has been redelivered is committed. *)
Lemma recovered_some V D pre k role cps sent r h w : k ∉ fst <$> pre -> with_pending (V k) r h ->
  remembers V (fst <$> pre) cps -> sent = pending_requests V pre ->
  shows (set_checkpoint (settled_view V (fst <$> pre)) k (committed_checkpoint (Some h))) ((D ++ sent) ++ [r]) w ->
  consistent (set_checkpoint (settled_view V (fst <$> pre)) k (committed_checkpoint (Some h))) ((D ++ sent) ++ [r]) ->
  recovered V D (pre ++ [(k, role)]) (cps, sent ++ [r]) w.
Proof.
  intros Hk [Hh Hr] Hcps -> Hs Hc. rewrite <- app_assoc in Hs, Hc.
  assert (Hext : forall j, set_checkpoint (settled_view V (fst <$> pre)) k (committed_checkpoint (Some h)) j =
                           settled_view V (fst <$> pre ++ [(k, role)]) j).
  { intros j. rewrite settled_view_snoc by done. unfold settle. by rewrite Hh. }
  pose proof (remembers_snoc V pre k role cps Hk Hcps) as Hrem. rewrite Hr in Hrem.
  split_and!; cbn [fst snd]; [done| |by eapply shows_ext|by eapply consistent_ext].
  by rewrite pending_requests_snoc, Hr.
Qed.

Lemma recover_step Live V D pre k role cps sent : (k, role) ∈ roles -> k ∉ fst <$> pre ->
  (Live -> ports_reliable /\ rules_cover /\ pending_rechecks V) ->
  triple (recovered V D pre (cps, sent)) (recover_pending roles rules (utc t) (cps, sent) (k, role))
    (recovered V D (pre ++ [(k, role)])) (failure Live).
Proof.
  intros Hin Hk HL w Hrec. pose proof Hrec as (Hcps & Hsent & Hs & Hcons). cbn [fst snd] in *.
  pose proof (approved_id k role Hin) as Hid. set (V' := settled_view V (fst <$> pre)) in *.
  assert (HVk : V' k = V k) by (unfold V', settled_view; by rewrite decide_False).
  set (P := fun w => shows V' (D ++ sent) w). assert (HPw : P w) by done.
  assert (HP : forall w, P w -> detector_invariant w) by (intros w' Hw; by exists V', (D ++ sent)).
  assert (HPrec : forall w, P w -> recovered V D pre (cps, sent) w) by (intros w' Hw; by split_and!).
  revert w HPw Hrec Hs. cut (triple P (recover_pending roles rules (utc t) (cps, sent) (k, role))
    (recovered V D (pre ++ [(k, role)])) (failure Live)); [by intros Hcut w Hw _ _; apply Hcut|].
  unfold recover_pending. eapply triple_bind.
  { apply (lift_triple Live); [exact HP|]. intros (_ & Hru & _)%HL. unfold rules_cover in Hru. rewrite Forall_forall in Hru.
    rewrite bool_decide_eq_true_2; [done|]. by apply (Hru (k, role)). }
  intros []. eapply triple_bind.
  { eapply triple_consequence; [apply (load_triple Live V' (D ++ sent) k Hcons Hid)|by intros w [? _]|done|done].
    intros [[[Hl _ _ _] _] _]%HL. apply Hl. }
  intros c. apply triple_pure. intros ->. rewrite HVk.
  destruct (sc_pending_request (V k)) as [r|] eqn:Hr; [|apply triple_ret; intros w Hw; by apply recovered_none, HPrec].
  pose proof (Hcons k) as Hok. rewrite HVk in Hok. destruct (resource_ok_some _ _ _ _ Hok Hr) as (h & Hh & _ & _).
  eapply triple_bind.
  { apply (lift_triple Live); [exact HP|]. intros (_ & _ & Hre)%HL. unfold pending_rechecks in Hre. rewrite Forall_forall in Hre.
    specialize (Hre (k, role) Hin r Hr). cbn [fst snd] in Hre. by rewrite Hre. }
  intros []. eapply triple_bind.
  { eapply triple_pre; [by intros w [Hw _]|]. apply (deliver_triple Live V' _ k r h (utc t) Hcons Hid); [|by intros [? _]%HL].
    split; by rewrite HVk. }
  intros []. apply triple_ret. intros w [Hw Hcw]. by eapply recovered_some.
Qed.

Lemma recover_loop Live V D : consistent V D -> (Live -> ports_reliable /\ rules_cover /\ pending_rechecks V) ->
  triple (shows V D) (foldM (recover_pending roles rules (utc t)) (∅, []) roles) (recovered V D roles) (failure Live).
Proof.
  intros Hc HL. eapply triple_pre; [|apply (triple_foldM _ (recovered V D) (failure Live))].
  - intros w Hw. unfold recovered. cbn [fst snd fmap list_fmap]. rewrite app_nil_r.
    split_and!; [intros k; by rewrite lookup_empty|done|by eapply shows_ext; [|exact Hw]|by eapply consistent_ext; [|exact Hc]].
  - intros pre [k role] post [cps sent] Hsplit. apply recover_step; [rewrite Hsplit; set_solver| |done].
    rewrite Hsplit, fmap_app in Hkeys. apply NoDup_app in Hkeys as (_ & Hd & _). intros Hk. apply (Hd k Hk). cbn. left.
Qed.

(** *** Staging *)
Definition emitting (V : view) (o : ApprovedSignalObservation) : bool :=
  emits (sc_committed_health (V (ao_resource_id o))) (ao_healthy o).
Definition first_healthy (V : view) (o : ApprovedSignalObservation) : bool :=
  negb (emitting V o) && bool_decide (sc_committed_health (V (ao_resource_id o)) = None).

Definition staged_checkpoint (c : SignalCheckpoint) (r : ReassessmentRequest) : SignalCheckpoint :=
  {| sc_committed_health := sc_committed_health c; sc_pending_healthy := Some (bool_decide (rr_lifecycle r = Resolved));
     sc_pending_request := Some r |}.

Definition staged_view (V : view) (pending : list (string * ReassessmentRequest)) : view :=
  fun k => match assoc k pending with Some r => staged_checkpoint (V k) r | None => V k end.

(** The staged transitions are those of the emitting observations, in order. *)
Definition stages (V : view) (os : list ApprovedSignalObservation) (pending : list (string * ReassessmentRequest)) : Prop :=
  Forall2 (fun o p => fst p = ao_resource_id o /\ build_signal_reassessment_request o roles rules = Ok (snd p))
    (select (emitting V) os) pending.

(** An observation of an approved resource that has nothing pending. *)
Definition observed_here (V : view) (cps : gmap string SignalCheckpoint) (o : ApprovedSignalObservation) : Prop :=
  cps !! ao_resource_id o = Some (V (ao_resource_id o)) /\ sc_pending_request (V (ao_resource_id o)) = None /\
  exists k role h evidence summary, o = observation k role h t evidence summary /\ (k, role) ∈ roles.

Definition groups_short : Prop := Forall (fun p => (py_len (segment 4 (fst p)) <= 90)%nat) roles.

Lemma assoc_snoc {A} j (l : list (string * A)) k v : k ∉ fst <$> l ->
  assoc j (l ++ [(k, v)]) = if decide (j = k) then Some v else assoc j l.
Proof.
  intros Hk. induction l as [|[i w] l IH]; cbn.
  - destruct (String.eqb_spec j k), (decide (j = k)); congruence.
  - cbn in Hk. apply not_elem_of_cons in Hk as [Hki Hk]. rewrite IH by done.
    destruct (String.eqb_spec j i) as [->|]; [|done]. by rewrite decide_False.
Qed.

Lemma select_snoc {A} (p : A -> bool) l x : select p (l ++ [x]) = select p l ++ (if p x then [x] else []).
Proof. unfold select. by rewrite List.filter_app. Qed.

Lemma stages_keys V os pending : stages V os pending -> fst <$> pending = ao_resource_id <$> select (emitting V) os.
Proof. unfold stages. induction 1 as [|o p os' ps [E _] _ IH]; [done|]. cbn. by rewrite E, IH. Qed.

Hypothesis Hfolded : exists approved : list string, rules = casefold <$> approved.

Lemma assoc_role k role : (k, role) ∈ roles -> assoc k roles = Some role.
Proof. by apply assoc_NoDup. Qed.

Lemma built_request k role h ev sm r : (k, role) ∈ roles ->
  build_signal_reassessment_request (observation k role h t ev sm) roles rules = Ok r -> built_for k r h.
Proof.
  intros Hk Hb. destruct (signal_request_built roles rules Hroles Hvalid k role h t ev sm r (assoc_role k role Hk) Ht Hb) as (d & -> & Hm).
  exists role, t, d. split_and!; try done. rewrite Forall_forall in Hroles. by apply (Hroles (k, role)).
Qed.

Lemma build_live k role h ev sm : (k, role) ∈ roles -> rules_cover -> groups_short ->
  is_ok (build_signal_reassessment_request (observation k role h t ev sm) roles rules) = true.
Proof.
  intros Hk Hr Hg. unfold rules_cover in Hr. unfold groups_short in Hg. rewrite Forall_forall in Hr, Hg.
  destruct Hfolded as [approved ->].
  destruct (signal_request_total roles (casefold <$> approved) Hroles Hvalid k role h t ev sm (assoc_role k role Hk) Ht) as [r E].
  - by apply rule_approved_again, (Hr (k, role)).
  - by apply (Hg (k, role)).
  - by rewrite E.
Qed.

Lemma staged_view_snoc V pending k r j : k ∉ fst <$> pending ->
  staged_view V (pending ++ [(k, r)]) j = set_checkpoint (staged_view V pending) k (staged_checkpoint (V k) r) j.
Proof.
  intros Hk. unfold staged_view, set_checkpoint. rewrite assoc_snoc by done. by destruct (decide (j = k)) as [->|].
Qed.

Lemma staged_view_absent V pending k : k ∉ fst <$> pending -> staged_view V pending k = V k.
Proof. intros Hk. unfold staged_view. by rewrite (proj2 (assoc_None k pending) Hk). Qed.

(** One observation of the staging loop. *)
Lemma stage_step Live V D cps pre o init pending :
  observed_here V cps o -> ao_resource_id o ∉ ao_resource_id <$> pre -> stages V pre pending ->
  consistent (staged_view V pending) D -> (Live -> ports_reliable /\ rules_cover /\ groups_short) ->
  triple (shows (staged_view V pending) D) (stage_observation roles rules (utc t) cps (init, pending) o)
    (fun acc w => fst acc = init ++ (if first_healthy V o then [ao_resource_id o] else []) /\
       stages V (pre ++ [o]) (snd acc) /\
       shows (staged_view V (snd acc)) D w /\ consistent (staged_view V (snd acc)) D)
    (failure Live).
Proof.
  intros (Hcps & Hnone & k & role & h & ev & sm & -> & Hin) Hfresh Hst Hcons HL. cbn [ao_resource_id observation] in *.
  pose proof (approved_id k role Hin) as Hid.
  assert (Hk : k ∉ fst <$> pending).
  { rewrite (stages_keys _ _ _ Hst). intros (o' & E & Ho')%list_elem_of_fmap. apply elem_of_select in Ho' as [Ho' _].
    apply Hfresh. rewrite E. by apply list_elem_of_fmap_2. }
  assert (HlV : forall w, shows (staged_view V pending) D w -> detector_invariant w) by (intros w Hw; by exists (staged_view V pending), D).
  pose proof (staged_view_absent V pending k Hk) as HVk.
  unfold stage_observation. cbn [ao_resource_id ao_healthy observation]. rewrite Hcps. unfold lift at 1.
  eapply triple_bind; [by apply (triple_ret (V k) (shows (staged_view V pending) D) (fun c w => shows (staged_view V pending) D w /\ c = V k))|].
  intros c. apply triple_pure. intros ->. unfold stages in *.
  destruct (emits (sc_committed_health (V k)) h) eqn:Hem.
  - eapply triple_bind.
    { apply (lift_triple Live); [exact HlV|]. intros (_ & Hr & Hg)%HL. by apply (build_live k role). }
    intros r. apply triple_pure. intros Hb. pose proof (built_request k role h ev sm r Hin Hb) as Hbf.
    destruct (built_for_reports _ _ _ Hbf) as [Hrep _].
    assert (Hst' : staged_checkpoint (V k) r =
      {| sc_committed_health := sc_committed_health (V k); sc_pending_healthy := Some h; sc_pending_request := Some r |}).
    { unfold staged_checkpoint. by rewrite (reports_resolved _ _ Hrep). }
    eapply triple_bind.
    { apply (stage_triple Live (staged_view V pending) D k h (utc t) r Hcons Hid); rewrite ?HVk; try done. by intros [? _]%HL. }
    intros []. apply triple_ret. rewrite HVk, <- Hst'. intros w [Hw Hcw]. cbn [fst snd].
    assert (Hext : forall j, set_checkpoint (staged_view V pending) k (staged_checkpoint (V k) r) j = staged_view V (pending ++ [(k, r)]) j).
    { intros j. by rewrite staged_view_snoc. }
    split_and!; [| |by eapply shows_ext|by eapply consistent_ext].
    + unfold first_healthy, emitting. cbn. by rewrite Hem, app_nil_r.
    + rewrite select_snoc. unfold emitting at 2. cbn [ao_resource_id ao_healthy observation]. rewrite Hem.
      apply Forall2_app; [done|]. by constructor.
  - apply triple_ret. intros w Hw. cbn [fst snd]. split_and!; [| |done|done].
    + unfold first_healthy, emitting. cbn [ao_resource_id ao_healthy observation]. rewrite Hem. cbn [negb andb].
      case_bool_decide; [done|by rewrite app_nil_r].
    + rewrite select_snoc. unfold emitting at 2. cbn [ao_resource_id ao_healthy observation]. by rewrite Hem, app_nil_r.
Qed.

Lemma stage_loop Live V D cps os :
  Forall (observed_here V cps) os -> NoDup (ao_resource_id <$> os) -> consistent V D ->
  (Live -> ports_reliable /\ rules_cover /\ groups_short) ->
  triple (shows V D) (foldM (stage_observation roles rules (utc t) cps) ([], []) os)
    (fun acc w => fst acc = ao_resource_id <$> select (first_healthy V) os /\ stages V os (snd acc) /\
       shows (staged_view V (snd acc)) D w /\ consistent (staged_view V (snd acc)) D)
    (failure Live).
Proof.
  intros Ho Hn Hc HL. eapply triple_pre; [|apply (triple_foldM _ (fun pre acc w =>
      (fst acc = ao_resource_id <$> select (first_healthy V) pre /\ stages V pre (snd acc) /\
       shows (staged_view V (snd acc)) D w /\ consistent (staged_view V (snd acc)) D)) (failure Live))].
  { intros w Hw. cbn [fst snd]. split_and!; [done|constructor|by eapply shows_ext; [|exact Hw]|by eapply consistent_ext; [|exact Hc]]. }
  intros pre o post [init pending] Hsplit w (Hi & Hs & Hw & Hcons). cbn [fst snd] in *. revert w Hw.
  eapply triple_post; [apply (stage_step Live V D cps pre o init pending)|]; try done.
  - rewrite Hsplit in Ho. by apply Forall_app in Ho as [_ [? _]%Forall_cons].
  - rewrite Hsplit, fmap_app in Hn. apply NoDup_app in Hn as (_ & Hd & _). intros Hk. apply (Hd _ Hk). cbn. left.
  - intros acc w (Hf & ? & ? & ?). split_and!; try done. rewrite Hf, Hi, select_snoc, fmap_app. by destruct (first_healthy V o).
Qed.

(** *** First healthy readings, and deliveries *)
Definition healthy_view (V : view) (ids : list string) : view :=
  fun k => if decide (k ∈ ids) then committed_checkpoint (Some true) else V k.

Lemma initial_loop Live V D ids : NoDup ids -> Forall (fun id => lower id = id /\ V id = committed_checkpoint None) ids ->
  consistent V D -> (Live -> ports_reliable) ->
  triple (shows V D) (foldM (fun _ id => on_store (record_initial_health id (utc t))) tt ids)
    (fun _ w => shows (healthy_view V ids) D w /\ consistent (healthy_view V ids) D) (failure Live).
Proof.
  intros Hn Hids Hc HL. eapply triple_pre; [|apply (triple_foldM _ (fun pre _ w =>
    shows (healthy_view V pre) D w /\ consistent (healthy_view V pre) D) (failure Live))].
  { intros w Hw. split; [by eapply shows_ext; [|exact Hw]|by eapply consistent_ext; [|exact Hc]]. }
  intros pre id post [] Hsplit. apply triple_pure. intros Hcons. rewrite Hsplit in Hn, Hids.
  apply NoDup_app in Hn as (_ & Hd & _). apply Forall_app in Hids as [_ [[Hid HV] _]%Forall_cons].
  assert (Hpre : id ∉ pre) by (intros Hi; apply (Hd id Hi); left).
  eapply triple_post; [apply (record_triple Live (healthy_view V pre) D id (utc t)); try done|].
  - unfold healthy_view. by rewrite decide_False.
  - intros u w [Hw Hcw]. assert (Hext : forall j, set_checkpoint (healthy_view V pre) id (committed_checkpoint (Some true)) j = healthy_view V (pre ++ [id]) j).
    { intros j. unfold set_checkpoint, healthy_view. destruct (decide (j = id)) as [->|]; [by rewrite decide_True by set_solver|].
      destruct (decide (j ∈ pre)); [rewrite decide_True by set_solver|rewrite decide_False by set_solver]; done. }
    split; [by eapply shows_ext|by eapply consistent_ext].
Qed.

Definition delivered_view (V : view) (pending : list (string * ReassessmentRequest)) : view :=
  fun k => match assoc k pending with
           | Some r => committed_checkpoint (Some (bool_decide (rr_lifecycle r = Resolved)))
           | None => V k
           end.

Lemma deliver_loop Live V D pending : NoDup (fst <$> pending) ->
  Forall (fun p => lower (fst p) = fst p /\ with_pending (V (fst p)) (snd p) (bool_decide (rr_lifecycle (snd p) = Resolved))) pending ->
  consistent V D -> (Live -> ports_reliable) ->
  triple (shows V D) (foldM (fun _ '(id, r) => deliver id (utc t) r) tt pending)
    (fun _ w => shows (delivered_view V pending) (D ++ (snd <$> pending)) w /\
                consistent (delivered_view V pending) (D ++ (snd <$> pending))) (failure Live).
Proof.
  intros Hn Hp Hc HL. eapply triple_pre; [|apply (triple_foldM _ (fun pre _ w =>
    shows (delivered_view V pre) (D ++ (snd <$> pre)) w /\ consistent (delivered_view V pre) (D ++ (snd <$> pre))) (failure Live))].
  { intros w Hw. cbn. rewrite app_nil_r. split; [by eapply shows_ext; [|exact Hw]|by eapply consistent_ext; [|exact Hc]]. }
  intros pre [id r] post [] Hsplit. apply triple_pure. intros Hcons. rewrite Hsplit in Hn, Hp. rewrite fmap_app in Hn.
  apply NoDup_app in Hn as (_ & Hd & _). apply Forall_app in Hp as [_ [[Hid HV] _]%Forall_cons]. cbn [fst snd] in *.
  assert (Hpre : id ∉ fst <$> pre) by (intros Hi; apply (Hd id Hi); cbn; left).
  eapply triple_post; [apply (deliver_triple Live (delivered_view V pre) _ id r (bool_decide (rr_lifecycle r = Resolved)) (utc t)); try done|].
  - unfold delivered_view. by rewrite (proj2 (assoc_None id pre) Hpre).
  - intros u w [Hw Hcw]. rewrite fmap_app. cbn [fmap list_fmap snd]. rewrite app_assoc.
    assert (Hext : forall j, set_checkpoint (delivered_view V pre) id (committed_checkpoint (Some (bool_decide (rr_lifecycle r = Resolved)))) j =
                             delivered_view V (pre ++ [(id, r)]) j).
    { intros j. unfold set_checkpoint, delivered_view. rewrite assoc_snoc by done. by destruct (decide (j = id)). }
    split; [by eapply shows_ext|by eapply consistent_ext].
Qed.

(** *** The whole run *)
Variables (reader : ArmJsonReader) (minutes : Z).

Definition read_one (p : string * WorkloadRole) : result ApprovedSignalObservation :=
  read_approved_signal reader (fst p) (snd p) (utc t) minutes.

Lemma read_observation k role o : canonical_id k -> read_one (k, role) = Ok o ->
  exists h ev sm, o = observation k role h t ev sm.
Proof.
  intros Hk. unfold read_one, read_approved_signal. cbn [fst snd]. rewrite (canonical_resource_id_Ok k Hk).
  unfold mbind at 1, result_bind at 1. intros Ho.
  destruct role; inv_ok; try (subst o; by repeat eexists). 
  match goal with p : (_ * _)%type |- _ => destruct p as [vip dip] end. inv_ok. subst o. by repeat eexists.
Qed.

Lemma mapR_is_ok {A B} (f : A -> result B) l : Forall (fun x => is_ok (f x) = true) l -> is_ok (mapR f l) = true.
Proof.
  induction 1 as [|x l Hx _ IH]; [done|]. cbn [mapR]. apply is_ok_spec in Hx as [y ->]. by apply is_ok_spec in IH as [ys ->].
Qed.

(** The effect of a completed run on every checkpoint. *)
Definition run_result (V Vf : view) : Prop :=
  (forall k, k ∉ fst <$> roles -> Vf k = V k) /\
  (forall k role, (k, role) ∈ roles ->
     match sc_pending_request (V k) with
     | Some _ => Vf k = settle (V k)
     | None => exists o, read_one (k, role) = Ok o /\ Vf k = committed_checkpoint (Some (ao_healthy o))
     end).

(** The resources the second loop reads, and their observations. *)
Definition free_roles (V : view) : list (string * WorkloadRole) :=
  select (fun p => bool_decide (sc_pending_request (V (fst p)) = None)) roles.

Lemma remembers_free V cps : remembers V (fst <$> roles) cps ->
  select (fun p => bool_decide (is_Some (cps !! fst p))) roles = free_roles V.
Proof.
  intros Hr. unfold free_roles, select. apply List.filter_ext_in. intros p Hp. apply bool_decide_ext. rewrite Hr.
  rewrite decide_True by (apply list_elem_of_fmap_2; by apply list_elem_of_In).
  destruct (sc_pending_request (V (fst p))); unfold is_Some; naive_solver.
Qed.

Lemma settle_committed V D k : consistent V D -> sc_pending_request (V k) = None ->
  V k = committed_checkpoint (sc_committed_health (V k)) /\ settle (V k) = V k.
Proof. intros Hc Hn. destruct (resource_ok_none _ _ _ (Hc k) Hn) as [E _]. split; [done|]. by rewrite E. Qed.

Lemma observations_here V D cps os : consistent V D -> remembers V (fst <$> roles) cps ->
  Forall2 (fun p o => read_one p = Ok o) (free_roles V) os ->
  Forall (observed_here (settled_view V (fst <$> roles)) cps) os /\ ao_resource_id <$> os = fst <$> free_roles V.
Proof.
  intros Hc Hrem Hos. assert (Hsub : forall p, p ∈ free_roles V -> p ∈ roles /\ sc_pending_request (V (fst p)) = None).
  { intros p [Hp Hb%bool_decide_eq_true]%elem_of_select. done. }
  induction Hos as [|[k role] o l os Hread _ IH]; [done|].
  destruct (Hsub (k, role) ltac:(left)) as [Hin Hn]. cbn [fst] in *.
  destruct IH as [IH1 IH2]; [intros p Hp; apply Hsub; by right|].
  assert (Hk : k ∈ fst <$> roles) by (change k with (fst (k, role)); by apply list_elem_of_fmap_2).
  destruct (read_observation k role o) as (h & ev & sm & ->); [by apply (proj1 (Forall_forall _ _) Hroles (k, role))|done|].
  split; [|by cbn; rewrite IH2]. constructor; [|done]. destruct (settle_committed V D k Hc Hn) as [_ Hset].
  unfold observed_here, settled_view. cbn [ao_resource_id observation]. rewrite decide_True by done. rewrite Hset, Hrem.
  rewrite decide_True, Hn by done. split_and!; [done|done|]. by exists k, role, h, ev, sm.
Qed.

(** The pieces of the live situation. *)
Definition live_run (V : view) : Prop :=
  ports_reliable /\ rules_cover /\ groups_short /\ pending_rechecks V /\ Forall (fun p => is_ok (read_one p) = true) roles.

Lemma stages_emitting V os pending k r : stages V os pending -> (k, r) ∈ pending ->
  exists o, o ∈ os /\ ao_resource_id o = k /\ emitting V o = true /\ build_signal_reassessment_request o roles rules = Ok r.
Proof.
  intros Hst Hp. destruct (Forall2_elem_of_r _ _ _ _ Hst Hp) as (o & Ho & E & Hb). cbn in E, Hb.
  apply elem_of_select in Ho as [Ho He]. by exists o.
Qed.

(** What staging, first readings and deliveries make of an observed resource. *)
Lemma final_checkpoint V D cps os pending o :
  consistent V D -> Forall (observed_here V cps) os -> NoDup (ao_resource_id <$> os) -> stages V os pending -> o ∈ os ->
  delivered_view (healthy_view (staged_view V pending) (ao_resource_id <$> select (first_healthy V) os)) pending (ao_resource_id o) =
    committed_checkpoint (Some (ao_healthy o)).
Proof.
  intros Hc Hos Hn Hst Ho. rewrite Forall_forall in Hos. pose proof (Hos o Ho) as (_ & Hnone & k & role & h & ev & sm & -> & Hin).
  set (o := observation k role h t ev sm) in *. cbn [ao_resource_id ao_healthy o observation] in *.
  destruct (settle_committed V D k Hc Hnone) as [HVk _].
  assert (Huniq : forall o', o' ∈ os -> ao_resource_id o' = k -> o' = o).
  { intros o' Ho' E. by apply (NoDup_fmap_inj_on ao_resource_id os Hn). }
  unfold delivered_view. destruct (assoc k pending) as [r|] eqn:Hp.
  - apply assoc_elem in Hp. destruct (stages_emitting V os pending k r Hst Hp) as (o' & Ho' & E & _ & Hb).
    rewrite (Huniq o' Ho' E) in Hb. destruct (built_for_reports _ _ _ (built_request k role h ev sm r Hin Hb)) as [Hrep _].
    by rewrite (reports_resolved _ _ Hrep).
  - apply assoc_None in Hp. rewrite (stages_keys V os pending Hst) in Hp.
    assert (Hne : emitting V o = false).
    { apply not_true_is_false. intros He. apply Hp. change k with (ao_resource_id o). apply list_elem_of_fmap_2.
      by apply elem_of_select. }
    unfold healthy_view. assert (Hk : k ∉ fst <$> pending) by by rewrite (stages_keys V os pending Hst).
    unfold emitting in Hne. cbn [ao_resource_id ao_healthy o observation] in Hne.
    destruct (sc_committed_health (V k)) as [p|] eqn:Hcm; cbn in Hne.
    + rewrite decide_False.
      * rewrite (staged_view_absent V pending k Hk), HVk. f_equal. f_equal. apply negb_false_iff, eqb_prop in Hne. done.
      * intros (o' & E & [Ho' Hf]%elem_of_select)%list_elem_of_fmap. rewrite (Huniq o' Ho' (eq_sym E)) in Hf.
        unfold first_healthy in Hf. cbn [ao_resource_id o observation] in Hf. rewrite Hcm in Hf.
        rewrite bool_decide_eq_false_2 in Hf by done. by rewrite andb_false_r in Hf.
    + rewrite decide_True; [by apply negb_false_iff in Hne as ->|]. apply list_elem_of_fmap. exists o. split; [done|].
      apply elem_of_select. split; [done|]. unfold first_healthy, emitting. cbn [ao_resource_id ao_healthy o observation].
      rewrite Hcm. cbn. by rewrite Hne.
Qed.

(** What the deliveries of the staged transitions need. *)
Lemma staged_ready V D cps os pending : consistent V D -> Forall (observed_here V cps) os -> NoDup (ao_resource_id <$> os) ->
  stages V os pending ->
  let V3 := healthy_view (staged_view V pending) (ao_resource_id <$> select (first_healthy V) os) in
  NoDup (fst <$> pending) /\
  Forall (fun p => lower (fst p) = fst p /\ with_pending (V3 (fst p)) (snd p) (bool_decide (rr_lifecycle (snd p) = Resolved))) pending.
Proof.
  intros Hc Hos Hn Hst V3. assert (Hkn : NoDup (fst <$> pending)) by (rewrite (stages_keys V os pending Hst); by apply NoDup_fmap_select).
  split; [done|]. apply Forall_forall. intros [k r] Hp. cbn [fst snd].
  destruct (stages_emitting V os pending k r Hst Hp) as (o & Ho & Ek & He & _).
  rewrite Forall_forall in Hos. destruct (Hos o Ho) as (_ & _ & k' & role & h & ev & sm & -> & Hin). cbn [ao_resource_id observation] in *.
  subst k'. split; [by apply (approved_id k role)|]. unfold V3, healthy_view. rewrite decide_False.
  - unfold with_pending, staged_view. by rewrite (assoc_NoDup k r pending Hkn Hp).
  - intros (o' & E & [Ho' Hf]%elem_of_select)%list_elem_of_fmap.
    assert (o' = observation k role h t ev sm) as -> by (by apply (NoDup_fmap_inj_on ao_resource_id os Hn)).
    unfold first_healthy in Hf. by rewrite He in Hf.
Qed.

Lemma first_healthy_ready V D cps os pending : consistent V D -> Forall (observed_here V cps) os -> NoDup (ao_resource_id <$> os) ->
  stages V os pending ->
  Forall (fun id => lower id = id /\ staged_view V pending id = committed_checkpoint None) (ao_resource_id <$> select (first_healthy V) os).
Proof.
  intros Hc Hos Hn Hst. apply Forall_forall. intros id (o & -> & [Ho Hf]%elem_of_select)%list_elem_of_fmap.
  rewrite Forall_forall in Hos. destruct (Hos o Ho) as (_ & Hnone & k & role & h & ev & sm & -> & Hin). cbn [ao_resource_id observation] in *.
  split; [by apply (approved_id k role)|]. unfold first_healthy in Hf. apply andb_true_iff in Hf as [Hne%negb_true_iff Hcm%bool_decide_eq_true].
  rewrite staged_view_absent.
  - destruct (settle_committed V D k Hc Hnone) as [E _]. cbn [ao_resource_id observation] in Hcm. by rewrite E, Hcm.
  - intros ([k' r] & E & Hp)%list_elem_of_fmap. cbn in E. subst k'.
    destruct (stages_emitting V os pending k r Hst Hp) as (o' & Ho' & E & He & _).
    assert (o' = observation k role h t ev sm) as -> by (by apply (NoDup_fmap_inj_on ao_resource_id os Hn)). congruence.
Qed.

(** The three last loops leave alone what they did not observe. *)
Lemma unobserved_checkpoint V os pending k : stages V os pending -> k ∉ ao_resource_id <$> os ->
  delivered_view (healthy_view (staged_view V pending) (ao_resource_id <$> select (first_healthy V) os)) pending k = V k.
Proof.
  intros Hst Hk.
  assert (Hsub : forall f, k ∉ ao_resource_id <$> select f os).
  { intros f (o & -> & [Ho _]%elem_of_select)%list_elem_of_fmap. apply Hk. by apply list_elem_of_fmap_2. }
  assert (Hkp : k ∉ fst <$> pending) by (rewrite (stages_keys V os pending Hst); apply Hsub).
  unfold delivered_view, healthy_view. rewrite (proj2 (assoc_None k pending) Hkp), decide_False by apply Hsub.
  by apply staged_view_absent.
Qed.

Lemma final_run_result V D cps os pending : consistent (settled_view V (fst <$> roles)) D ->
  Forall (observed_here (settled_view V (fst <$> roles)) cps) os -> ao_resource_id <$> os = fst <$> free_roles V ->
  NoDup (ao_resource_id <$> os) -> stages (settled_view V (fst <$> roles)) os pending ->
  Forall2 (fun p o => read_one p = Ok o) (free_roles V) os ->
  run_result V (delivered_view (healthy_view (staged_view (settled_view V (fst <$> roles)) pending)
    (ao_resource_id <$> select (first_healthy (settled_view V (fst <$> roles))) os)) pending).
Proof.
  intros Hc Hhere Hids Hn Hst Hos. split.
  - intros k Hk. rewrite unobserved_checkpoint; [unfold settled_view; by rewrite decide_False|done|].
    rewrite Hids. intros (p & -> & [Hp _]%elem_of_select)%list_elem_of_fmap. apply Hk. by apply list_elem_of_fmap_2.
  - intros k role Hin. assert (Hk : k ∈ fst <$> roles) by (change k with (fst (k, role)); by apply list_elem_of_fmap_2).
    destruct (sc_pending_request (V k)) as [r|] eqn:Hr.
    + rewrite unobserved_checkpoint; [unfold settled_view; by rewrite decide_True|done|].
      rewrite Hids. intros (p & E & [_ Hp%bool_decide_eq_true]%elem_of_select)%list_elem_of_fmap. rewrite <- E in Hp. congruence.
    + assert (Hfree : (k, role) ∈ free_roles V) by (apply elem_of_select; split; [done|by apply bool_decide_eq_true]).
      apply list_elem_of_lookup in Hfree as [i Hi]. destruct (Forall2_lookup_l _ _ _ _ _ Hos Hi) as (o & Ho & Hread).
      exists o. split; [done|]. destruct (read_observation k role o) as (h & ev & sm & ->); [by apply (proj1 (Forall_forall _ _) Hroles (k, role))|done|].
      change k with (ao_resource_id (observation k role h t ev sm)). eapply (final_checkpoint _ D cps); try done.
      by eapply list_elem_of_lookup_2.
Qed.

(** The requests for the readings that are transitions, in the order of the roles. *)
Definition reported (V : view) (requests : list ReassessmentRequest) : Prop :=
  exists os, Forall2 (fun p o => read_one p = Ok o) (free_roles V) os /\
    Forall2 (fun o r => build_signal_reassessment_request o roles rules = Ok r) (select (emitting V) os) requests.

Lemma stages_reported V os pending : ao_resource_id <$> os = fst <$> free_roles V ->
  stages (settled_view V (fst <$> roles)) os pending -> (forall k, sc_pending_request (V k) = None -> settle (V k) = V k) ->
  Forall2 (fun o r => build_signal_reassessment_request o roles rules = Ok r) (select (emitting V) os) (snd <$> pending).
Proof.
  intros Hids Hst HV. assert (E : select (emitting (settled_view V (fst <$> roles))) os = select (emitting V) os).
  { unfold select. apply List.filter_ext_in. intros o Ho%list_elem_of_In. unfold emitting. do 2 f_equal.
    apply (list_elem_of_fmap_2 ao_resource_id) in Ho. rewrite Hids in Ho.
    apply list_elem_of_fmap in Ho as (p & -> & [_ Hp%bool_decide_eq_true]%elem_of_select).
    unfold settled_view. case_decide; [|done]. by rewrite HV. }
  rewrite <- E. apply Forall2_fmap_r. eapply Forall2_impl; [exact Hst|]. by intros o p [_ ?].
Qed.

(** The run after the first loop. *)
Lemma observe_stage_deliver Live V D cps sent : consistent V D -> remembers V (fst <$> roles) cps ->
  consistent (settled_view V (fst <$> roles)) (D ++ sent) -> (Live -> live_run V) ->
  triple (shows (settled_view V (fst <$> roles)) (D ++ sent))
    (observations ← lift (observe reader (utc t) minutes cps roles);
     '(initial_healthy, pending) ← foldM (stage_observation roles rules (utc t) cps) ([], []) observations;
     _ ← foldM (fun _ id => on_store (record_initial_health id (utc t))) tt initial_healthy;
     _ ← foldM (fun _ '(id, reassessment) => deliver id (utc t) reassessment) tt pending;
     mret (sent ++ (snd <$> pending)))
    (fun res w => exists Vf, run_result V Vf /\ shows Vf (D ++ res) w /\ consistent Vf (D ++ res) /\
       exists requests, res = sent ++ requests /\ reported V requests)
    (failure Live).
Proof.
  intros Hc Hrem Hc1 HL. set (V1 := settled_view V (fst <$> roles)) in *. unfold observe. rewrite (remembers_free V cps Hrem).
  eapply triple_bind.
  { apply (lift_triple Live); [by intros w Hw; exists V1, (D ++ sent)|]. intros (_ & _ & _ & _ & Hr)%HL. apply mapR_is_ok.
    rewrite Forall_forall in Hr |- *. intros [k role] [Hp _]%elem_of_select. apply (Hr (k, role) Hp). }
  intros os. apply triple_pure. intros Hos%mapR_Ok.
  assert (Hos' : Forall2 (fun p o => read_one p = Ok o) (free_roles V) os) by (eapply Forall2_impl; [exact Hos|by intros [k role] o]).
  destruct (observations_here V D cps os Hc Hrem Hos') as [Hhere Hids].
  assert (Hn : NoDup (ao_resource_id <$> os)) by (rewrite Hids; by apply NoDup_fmap_select).
  eapply triple_bind; [apply (stage_loop Live V1 (D ++ sent) cps os Hhere Hn Hc1); intros (? & ? & ? & _)%HL; done|].
  intros [init pending]. cbn [fst snd]. intros w (-> & Hst & Hw & Hc2). revert w Hw. eapply triple_bind.
  { apply (initial_loop Live (staged_view V1 pending)); [by apply NoDup_fmap_select|by eapply first_healthy_ready|done|by intros [? _]%HL]. }
  intros []. intros w [Hw Hc3]. revert w Hw.
  destruct (staged_ready V1 (D ++ sent) cps os pending Hc1 Hhere Hn Hst) as [Hkn Hready].
  eapply triple_bind; [apply (deliver_loop Live _ _ pending Hkn Hready Hc3); by intros [? _]%HL|].
  intros []. apply triple_ret. intros w [Hw Hc4]. eexists. split; [by apply (final_run_result V (D ++ sent) cps)|].
  rewrite app_assoc. split_and!; [done..|]. exists (snd <$> pending). split; [done|]. exists os.
  split; [done|]. apply stages_reported; [done..|]. intros k Hk. by apply (settle_committed V D).
Qed.
End configured.

(** A run under the lease, whatever its ports do. *)
Lemma detect_triple Live V D raw approved t reader minutes : plain_roles raw -> representable t = true -> consistent V D ->
  (Live -> exists roles, validate_approved_resource_roles raw = Ok roles /\
     live_run roles (casefold <$> approved) t reader minutes V) ->
  triple (shows V D) (detect_with_lease reader raw approved (utc t) minutes)
    (fun res w => exists roles Vf, validate_approved_resource_roles raw = Ok roles /\
       run_result roles t reader minutes V Vf /\ shows Vf (D ++ res) w /\ consistent Vf (D ++ res) /\
       exists requests, res = pending_requests V roles ++ requests /\
         reported roles (casefold <$> approved) t reader minutes V requests)
    (failure Live).
Proof.
  intros Hp Ht Hc HL. unfold detect_with_lease.
  eapply triple_bind.
  { apply (lift_triple Live); [by intros w Hw; exists V, D|]. by intros (roles & -> & _)%HL. }
  intros roles. apply triple_pure. intros Hv. destruct (validate_roles_inv raw roles Hp Hv) as (Hroles & Hkeys & Hvalid).
  assert (HL' : Live -> live_run roles (casefold <$> approved) t reader minutes V).
  { intros L. destruct (HL L) as (roles' & Hv' & Hl). congruence. }
  eapply triple_bind.
  { eapply (recover_loop roles (casefold <$> approved) t); [..|by intros (? & ? & _ & ? & _)%HL']; done. }
  intros [cps sent] w (Hrem & Hsent & Hw & Hc1). cbn [fst snd] in *. revert w Hw.
  eapply triple_post; [by eapply (observe_stage_deliver roles (casefold <$> approved) t); [..|exact HL']; eauto|].
  intros res w (Vf & ? & ? & ? & requests & -> & ?). exists roles, Vf. split_and!; try done. exists requests. by rewrite <- Hsent.
Qed.
End run.
