(* ===== verification/DetectorRuns.v ===== *)
(** * DetectorRuns: what scheduled detection guarantees

    Whole runs of [detect_signal_requests], lease included: the deliveries of a
    resource alternate whatever fails, a completed run reports exactly the
    transitions it read, and two runs over working ports settle every resource. *)
From S2P Require Import Prelude Text Sha256 Time Json Events Normalization Effects.
From S2P Require Export DetectorProps.
From Stdlib Require Import Ascii SpecFloat.
Local Open Scope Z_scope.

#[local] Opaque sha256_hexdigest.

(** The run lease of a store: one holder at a time, given back by [release]. *)
Class RunLease (S : Type) `{SignalStateStorePort S} := {
  lease_free : S -> bool;
  acquire_free t s : lease_free s = true -> fst (acquire_run_lease t s) = Ok true /\ lease_free (snd (acquire_run_lease t s)) = false;
  acquire_held t s : lease_free s = false -> acquire_run_lease t s = (Ok false, s);
  release_free s : fst (release_run_lease s) = Ok tt /\ lease_free (snd (release_run_lease s)) = true;
  load_lease id s : lease_free (snd (load_checkpoint id s)) = lease_free s;
  record_lease id t s : lease_free (snd (record_initial_health id t s)) = lease_free s;
  stage_lease id healthy t r s : lease_free (snd (stage_transition id healthy t r s)) = lease_free s;
  complete_lease id request_id t s : lease_free (snd (complete_transition id request_id t s)) = lease_free s;
}.

(** Pydantic renders a UTC [datetime] as [isoformat] with a [Z]. *)
Class PydanticJsonIso `{PydanticJson} : Prop :=
  json_datetime_iso : forall t, representable t = true -> json_datetime t = isoformat_z t.

Section memory.
Context `{PyText}.
#[global] Program Instance memory_lease : RunLease InMemorySignalStateStore := {| lease_free s := negb (ms_lease_held s) |}.
Next Obligation. intros t s Hf%negb_true_iff. cbn. unfold memory_acquire. by rewrite Hf. Qed.
Next Obligation. intros t s Hf%negb_false_iff. cbn. unfold memory_acquire. by rewrite Hf. Qed.
Next Obligation. done. Qed.
Next Obligation. done. Qed.
Next Obligation. done. Qed.
Next Obligation.
  intros id healthy t r s. cbn. unfold memory_stage. case_bool_decide; [done|]. by destruct (make_checkpoint _ _ _).
Qed.
Next Obligation. intros id request_id t s. cbn. unfold memory_complete. by repeat case_match. Qed.
End memory.

(** ** Pending requests are recognized *)
Section recheck.
Context `{PyTextAscii, PyDatetimeIso, PyStr, Rfc8785, PydanticJsonIso}.

Lemma json_time t : representable t = true -> is_ok (normalize_json_value (time_json t)) = true.
Proof. intros Ht. unfold time_json. rewrite json_datetime_iso by done. by apply normalize_isoformat_z; [exact nfc_of_ascii|]. Qed.

Lemma prefixed_json p s : all_chars is_ascii p = true -> contains_char "T"%char p = false -> all_chars is_lower_hex s = true ->
  is_ok (normalize_json_value (JStr (p +:+ s))) = true.
Proof.
  intros Hp HT [Hs HsT]%hex_json. apply plain_json; [by rewrite all_chars_app, Hp, Hs|by rewrite contains_char_app, HT, HsT].
Qed.

Lemma sha256_json s : is_ok (normalize_json_value (JStr (sha256_hex s))) = true.
Proof. apply prefixed_json; [done..|apply sha256_hexdigest_shape]. Qed.

Lemma plain_segment k s : canonical_id k -> s ∈ split_on slash k -> is_ok (normalize_json_value (JStr s)) = true.
Proof.
  intros Hk Hs. pose proof (canonical_segments k Hk) as Hseg. rewrite Forall_forall in Hseg. destruct (Hseg s Hs) as [_ Ha].
  apply plain_json; [done|]. pose proof (stable_no_T k ltac:(apply Hk)) as HT.
  apply (not_contains_all "T"%char) in HT. apply all_chars_segments in HT. rewrite Forall_forall in HT.
  apply (all_chars_contains (fun c => negb (Ascii.eqb "T" c))); [by apply HT|done].
Qed.

Lemma enum_json :
  (forall x, is_ok (normalize_json_value (JStr (event_source_value x))) = true) /\
  (forall x, is_ok (normalize_json_value (JStr (signal_kind_value x))) = true) /\
  (forall x, is_ok (normalize_json_value (JStr (lifecycle_value x))) = true) /\
  (forall x, is_ok (normalize_json_value (JStr (event_severity_value x))) = true) /\
  (forall x, is_ok (normalize_json_value (JStr (resource_type_value x))) = true) /\
  (forall x, is_ok (normalize_json_value (JStr (scenario_value x))) = true) /\
  (forall x, is_ok (normalize_json_value (JStr (workload_role_value x))) = true).
Proof. split_and!; intros x; apply plain_json; by destruct x. Qed.

Lemma is_digest_prefix d : is_digest d = true -> exists s, d = "sha256:" +:+ s.
Proof. unfold is_digest, prefixed_hex. intros [Hp _]%andb_true_iff. by apply starts_with_spec in Hp. Qed.

(** The members of the event of a reading canonicalize. *)
Lemma event_json k role h t digest : approved_binding (k, role) -> representable t = true -> is_digest digest = true ->
  is_ok (normalize_json_value (event_dump (signal_members k role h t (segment 4 k) (segment 2 k) digest))) = true.
Proof.
  intros Ha Ht Hd. destruct enum_json as (E1 & E2 & E3 & E4 & E5 & _ & _). pose proof (json_time t Ht) as Htime.
  pose proof (proj1 Ha) as Hk. destruct (signal_rule_plain role) as (Hr & _ & _ & HrT & _).
  destruct (sha256_hexdigest_shape (sha256_hex (deduplication_text AzureMonitorCommonAlert
    (scheduled_id k (signal_rule_name role) (health_lifecycle h) t) k (health_lifecycle h) t))) as [_ Hhex].
  assert (Hseg : forall n, is_ok (normalize_json_value (JStr (segment n k))) = true).
  { intros n. unfold segment. destruct (split_on slash k !! n) as [s|] eqn:E; [|by apply plain_json].
    eapply plain_segment; [exact Hk|]. by eapply list_elem_of_lookup_2. }
  assert (Hdig : is_ok (normalize_json_value (JStr digest)) = true).
  { pose proof (is_digest_hex _ Hd) as [_ Hs]. apply is_digest_prefix in Hd as (s & ->). by apply prefixed_json. }
  apply plain_members; [done|done|]. unfold signal_members. cbn [event_dump fmap list_fmap snd ne_event_id ne_deduplication_key
    ne_source_system ne_signal_kind ne_lifecycle ne_severity ne_subscription_id ne_resource_group_name ne_target_resource_id
    ne_target_resource_type ne_operation_name ne_observed_at ne_received_at ne_source_digest].
  repeat constructor; try first [done|by apply plain_json].
  - apply prefixed_json; [done..|by apply all_chars_take].
  - apply sha256_json.
  - apply plain_json; [apply plain_ascii, Hk|by apply stable_no_T, Hk].
  - apply plain_json; [by apply plain_ascii|done].
Qed.

Lemma request_json k role h t digest : approved_binding (k, role) -> representable t = true -> is_digest digest = true ->
  is_ok (canonical_bytes (request_dump (signal_request k role h t digest))) = true.
Proof.
  intros Ha Ht Hd. unfold canonical_bytes, canonicalize_json.
  match goal with |- context [normalize_json_value ?v] => assert (Hv : is_ok (normalize_json_value v) = true) end.
  { pose proof (event_json k role h t digest Ha Ht Hd) as He. unfold signal_request, request_of.
    set (m := signal_members k role h t _ _ digest) in *.
    destruct enum_json as (_ & _ & E3 & _ & _ & E6 & E7). pose proof (proj1 Ha) as Hk. cbn [fst] in Hk.
    assert (Hseed : all_chars is_lower_hex (removeprefix "sha256:" (ne_deduplication_key m)) = true)
      by apply is_digest_hex, sha256_hex_is_digest.
    apply plain_members; [done|done|]. cbn [request_dump fmap list_fmap snd rr_request_id rr_incident_id rr_trigger_event_id
      rr_trigger_event rr_scenario rr_workload_role rr_target_resource_id rr_lifecycle rr_idempotency_key].
    repeat constructor; try first [done|by apply plain_json].
    - by apply prefixed_json, all_chars_take.
    - apply prefixed_json; [done..|]. apply all_chars_take, sha256_hexdigest_shape.
    - apply prefixed_json; [done..|]. apply all_chars_take, sha256_hexdigest_shape.
    - apply plain_json; [apply plain_ascii, Hk|by apply stable_no_T, Hk].
    - by apply prefixed_json. }
  by apply is_ok_spec in Hv as [w ->].
Qed.

(** A pending request passes the check of its binding while its role stands. *)
Lemma pending_recheck roles k r h c : Forall approved_binding roles -> built_for k r h -> with_pending c r h ->
  assoc k roles = Some (rr_workload_role r) -> pending_bound roles (signal_rule_name (rr_workload_role r)) c r = Ok tt.
Proof.
  intros Hroles (role & t & d & Ha & Ht & Hm & ->) [Hh Hr] Hk. cbn [rr_workload_role signal_request request_of] in *.
  unfold pending_bound. cbn [rr_trigger_event signal_request request_of]. rewrite (signal_request_routed roles Hroles k role h t d Hk Hm).
  unfold mbind at 1, result_bind at 1. cbn [rr_lifecycle ne_lifecycle signal_members].
  rewrite Hh, bool_decide_eq_true_2 by by destruct h. cbn [guard_or]. unfold mbind at 1, result_bind at 1.
  assert (Hd : is_digest d = true).
  { unfold make_event, field in Hm. by inv_ok. }
  pose proof (request_json k role h t d Ha Ht Hd) as Hj. apply is_ok_spec in Hj as [b Hb]. unfold signal_request, request_of in Hb |- *.
  cbn [ne_operation_name signal_members] in *. rewrite Hb. unfold mbind, result_bind. by rewrite !String.eqb_refl.
Qed.
End recheck.

Section runs.
Context `{PyTextAscii, PyDatetimeIso, PyStr, Rfc8785, PydanticJson}.
Context {St Q : Type} `{SignalStateStorePort St} {Hstore : SignalStateStoreLaws St} {Hlease : RunLease St}
  `{ReassessmentRequestSenderLaws Q}.
Abbreviation World := (St * Q)%type.

(** ** The lease *)
Definition lease_is (b : bool) (w : World) : Prop := lease_free (fst w) = b.

Lemma on_store_lease {A} b (m : stateful St A) : (forall s, lease_free (snd (m s)) = lease_free s) -> keeps (lease_is b) (on_store m).
Proof.
  intros Hm [s q] Hw. unfold on_store, zoom, lease_is in *. cbn [fst snd] in *. specialize (Hm s).
  destruct (m s) as [[a|e] s']; cbn in *; congruence.
Qed.

Lemma on_sender_lease {A} b (m : stateful Q A) : keeps (lease_is b) (on_sender m).
Proof. intros [s q] Hw. unfold on_sender, zoom, lease_is in *. cbn [fst snd] in *. by destruct (m q) as [[a|e] q']. Qed.

Lemma deliver_lease b id t r : keeps (lease_is b) (deliver id t r).
Proof. apply keeps_bind; [apply on_sender_lease|intros; apply on_store_lease, complete_lease]. Qed.

Lemma detect_with_lease_lease b reader raw approved t minutes :
  keeps (lease_is b) (detect_with_lease reader raw approved t minutes).
Proof.
  unfold detect_with_lease. apply keeps_bind; [auto with athena|]. intros roles. apply keeps_bind.
  { apply keeps_foldM. intros [cps sent] [id role]. apply keeps_bind; [auto with athena|]. intros _.
    apply keeps_bind; [apply on_store_lease, load_lease|]. intros c.
    case_match; [|auto with athena]. apply keeps_bind; [auto with athena|]. intros _.
    apply keeps_bind; [apply deliver_lease|auto with athena]. }
  intros [cps sent]. apply keeps_bind; [auto with athena|]. intros os. apply keeps_bind.
  { apply keeps_foldM. intros [init pending] o. apply keeps_bind; [auto with athena|]. intros c. cbv zeta.
    case_match; [|auto with athena]. apply keeps_bind; [auto with athena|]. intros r. apply keeps_bind; [apply on_store_lease, stage_lease|auto with athena]. }
  intros [init pending]. apply keeps_bind; [apply keeps_foldM; intros; apply on_store_lease, record_lease|].
  intros _. apply keeps_bind; [|auto with athena]. apply keeps_foldM. intros _ [id r]. apply deliver_lease.
Qed.

(** ** A whole run *)
Definition admitted_window (minutes : Z) : Prop := 2 <= minutes <= 10.

(** What a completed run that held the lease has done. *)
Definition completed (V : string -> SignalCheckpoint) D raw approved t reader minutes (res : list ReassessmentRequest) (w : World) : Prop :=
  exists roles Vf, validate_approved_resource_roles raw = Ok roles /\
    run_result roles t reader minutes V Vf /\ shows Vf (D ++ res) w /\ consistent Vf (D ++ res) /\
    exists requests, res = pending_requests V roles ++ requests /\
      reported roles (casefold <$> approved) t reader minutes V requests.

(** The situation in which a run completes. *)
Definition workable (V : string -> SignalCheckpoint) raw approved t reader minutes : Prop :=
  admitted_window minutes /\ exists roles, validate_approved_resource_roles raw = Ok roles /\
    live_run roles (casefold <$> approved) t reader minutes V.

Lemma store_call_shows {A} V D (m : stateful St A) s q : (forall s, unchanged s (snd (m s))) -> shows V D (s, q) ->
  shows V D (snd (m s), q).
Proof. intros Hm [Hs Hq]. split; [|done]. intros k. cbn. by rewrite Hm, <- Hs. Qed.

(** The release gives the lease back and shows the same checkpoints. *)
Lemma release_triple V D : triple (shows V D) (on_store release_run_lease)
  (fun _ w => shows V D w /\ lease_is true w) (fun _ _ => False).
Proof.
  intros [s q] Hw. destruct (release_free s) as [Hr Hl]. pose proof (store_call_shows V D _ s q release_view Hw) as Hw'.
  unfold on_store, zoom. cbn [fst snd]. destruct (release_run_lease s) as [r s']. cbn [fst snd] in *. by subst r.
Qed.

Lemma acquire_triple V D t : triple (fun w => shows V D w /\ lease_is true w) (on_store (acquire_run_lease t))
  (fun acquired w => (shows V D w /\ lease_is false w) /\ acquired = true) (fun _ _ => False).
Proof.
  intros [s q] [Hw Hl]. destruct (acquire_free t s Hl) as [Ha Hl']. pose proof (store_call_shows V D _ s q (acquire_view t) Hw) as Hw'.
  unfold on_store, zoom. cbn [fst snd]. destruct (acquire_run_lease t s) as [r s']. cbn [fst snd] in *. by subst r.
Qed.

Lemma run_triple Live V D raw approved t reader minutes : plain_roles raw -> representable t = true -> consistent V D ->
  (Live -> workable V raw approved t reader minutes) ->
  triple (fun w => shows V D w /\ lease_is true w) (detect_signal_requests reader raw approved (utc t) minutes)
    (fun res w => completed V D raw approved t reader minutes res w /\ lease_is true w)
    (fun e w => failure Live e w /\ lease_is true w).
Proof.
  intros Hp Ht Hc HL. unfold detect_signal_requests, not_utc. cbn [pt_offset utc]. rewrite bool_decide_eq_true_2 by done.
  cbn [negb raise_if]. eapply (triple_bind _ _ _ (fun _ w => shows V D w /\ lease_is true w)).
  { apply triple_lift; [done|]. by intros e w. }
  intros _. eapply (triple_bind _ _ _ (fun _ w => shows V D w /\ lease_is true w)).
  { apply triple_lift; [done|]. intros e w Hm [Hw Hl]. split; [|done]. eapply failure_intro; [exact Hw|done|].
    intros ([Hm1 Hm2] & _)%HL. apply guard_or_Raise in Hm as [Hm _]. lia. }
  intros _. eapply triple_bind.
  { eapply triple_consequence; [apply (acquire_triple V D)|by intros w Hw|by intros a w Hw; exact Hw|by intros e w []]. }
  intros acquired. apply triple_pure. intros ->. eapply triple_finally.
  - apply triple_conj; [exact (detect_triple Live V D raw approved t reader minutes Hp Ht Hc (fun L => proj2 (HL L)))|].
    apply detect_with_lease_lease.
  - intros res w [(roles & Vf & Hv & Hres & Hsh & Hrest) _]. revert w Hsh.
    eapply triple_consequence; [apply (release_triple Vf (D ++ res))|done| |by intros e' w []]. intros _ w [Hw Hl]. split; [by exists roles, Vf|done].
  - intros e w [[(Vf & Df & Hsh & Hcf) HnL] _]. revert w Hsh.
    eapply triple_consequence; [apply (release_triple Vf Df)|done| |by intros e' w []]. intros _ w [Hw Hl]. split; [|done]. split; [by exists Vf, Df|done].
Qed.

(** ** Histories *)

(** One scheduled run, whatever its configuration, its clock, the readings and the
    failures of its ports. *)
Inductive detector_step : World -> World -> Prop :=
  | detector_step_intro reader raw approved observed_at minutes w r w' :
      plain_roles raw -> representable (pt_instant observed_at) = true ->
      detect_signal_requests reader raw approved observed_at minutes w = (r, w') -> detector_step w w'.

Definition fresh (w : World) : Prop :=
  (forall k, checkpoint_of (fst w) k = committed_checkpoint None) /\ delivered (snd w) = [].

Lemma on_store_keeps {A} (m : stateful St A) : (forall s, unchanged s (snd (m s))) -> keeps detector_invariant (on_store m).
Proof.
  intros Hm [s q] (V & D & Hw & Hc). pose proof (store_call_shows V D m s q Hm Hw) as Hw'. unfold on_store, zoom. cbn [fst snd].
  destruct (m s) as [[a|e] s']; by exists V, D.
Qed.

Lemma run_keeps reader raw approved observed_at minutes : plain_roles raw -> representable (pt_instant observed_at) = true ->
  keeps detector_invariant (detect_signal_requests reader raw approved observed_at minutes).
Proof.
  intros Hp Ht. unfold detect_signal_requests.
  eapply (triple_bind _ _ _ (fun _ w => detector_invariant w /\ not_utc observed_at = false)).
  { apply triple_lift; [|done]. intros [] w Hu%raise_if_Ok Hw. done. }
  intros _. apply triple_pure. intros Hutc%negb_false_iff%bool_decide_eq_true. destruct observed_at as [t o]. cbn [pt_offset pt_instant] in *.
  subst o. change {| pt_instant := t; pt_offset := Some 0 |} with (utc t).
  apply keeps_bind; [auto with athena|]. intros _. apply keeps_bind; [apply on_store_keeps, acquire_view|].
  intros []; [|apply keeps_ret]. eapply (triple_finally _ _ _ _ _ (fun _ => detector_invariant) (fun _ => detector_invariant));
    [|intros _; apply on_store_keeps, release_view..].
  intros w (V & D & Hw & Hc). pose proof (detect_triple False V D raw approved t reader minutes Hp Ht Hc ltac:(done) w Hw) as Htr.
  destruct (detect_with_lease _ _ _ _ _ w) as [[res|e] w']; [|by destruct Htr].
  destruct Htr as (roles & Vf & _ & _ & Hsh & Hcf & _). by exists Vf, (D ++ res).
Qed.

Lemma steps_keep w w' : rtc detector_step w w' -> detector_invariant w -> detector_invariant w'.
Proof.
  induction 1 as [|w1 w2 w3 Hs _ IH]; [done|]. intros Hi. apply IH. destruct Hs as [reader raw approved o m w1 r w2 Hp Ht E].
  by eapply (triple_run _ _ _ _ _ _ (run_keeps reader raw approved o m Hp Ht)).
Qed.

Lemma fresh_invariant w : fresh w -> detector_invariant w.
Proof.
  intros [Hc Hd]. exists (fun _ => committed_checkpoint None), []. split; [by split|]. intros k. by apply ok_settled, settled_new.
Qed.

Lemma resource_history k c l : resource_ok k c l ->
  alternates (dedup_adjacent l) /\
  match sc_pending_request c with
  | None => agrees (sc_committed_health c) (dedup_adjacent l)
  | Some r => exists h, sc_pending_healthy c = Some h /\ reports r h /\ rr_target_resource_id r = k /\
      emits (sc_committed_health c) h = true /\ (last l = Some r \/ agrees (sc_committed_health c) (dedup_adjacent l))
  end.
Proof.
  destruct 1 as [c l Hs|c l r h n Hs He Hb].
  - by destruct (settled_history c l Hs) as (Ha & Hal & _).
  - cbn [sc_pending_request sc_pending_healthy sc_committed_health]. destruct (built_for_reports _ _ _ Hb) as [Hr Ht].
    destruct n as [|n].
    + rewrite app_nil_r. destruct (settled_history c l Hs) as (Ha & Hal & _). split; [done|]. exists h. split_and!; try done. by right.
    + destruct (settled_history (Some h) (l ++ replicate (S n) r)) as (_ & Hal & _); [by eapply settled_delivered|].
      split; [done|]. exists h. split_and!; try done. left. by rewrite replicate_S_end, app_assoc, last_snoc.
Qed.

(** C28: whatever fails, the requests delivered for a resource alternate. In every
    world that scheduled runs over resources with plain ids reach from an empty store,
    repetitions apart, they are an activation, a resolution, an activation and so on;
    with nothing pending
    the last of them reports the committed health; a pending request reports a
    change of the committed health of its own resource, and it is the last one
    delivered or none has been delivered since the commit. *)
Theorem deliveries_alternate w0 w k : fresh w0 -> rtc detector_step w0 w ->
  let c := checkpoint_of (fst w) k in
  let history := for_resource k (delivered (snd w)) in
  alternates (dedup_adjacent history) /\
  match sc_pending_request c with
  | None => agrees (sc_committed_health c) (dedup_adjacent history)
  | Some r => exists h, sc_pending_healthy c = Some h /\ reports r h /\ rr_target_resource_id r = k /\
      emits (sc_committed_health c) h = true /\ (last history = Some r \/ agrees (sc_committed_health c) (dedup_adjacent history))
  end.
Proof.
  intros Hf Hs. destruct (steps_keep w0 w Hs (fresh_invariant w0 Hf)) as (V & D & [HV HD] & Hc).
  cbv zeta. rewrite HV, HD. by apply resource_history.
Qed.

(** ** Completed runs *)

(** a run that returns has reported exactly what it read. From a world that
    scheduled runs reach, under a free lease, it has delivered the requests it
    returns: those that were pending, then one for every reading that differs from
    the committed health; afterwards every resource that was read has the health
    read committed, every pending transition is committed, no other checkpoint has
    changed, and the lease is free again. *)
Theorem completed_run_reports w reader raw approved t minutes res w' :
  detector_invariant w -> lease_free (fst w) = true -> plain_roles raw -> representable t = true ->
  detect_signal_requests reader raw approved (utc t) minutes w = (Ok res, w') ->
  exists roles, validate_approved_resource_roles raw = Ok roles /\
    delivered (snd w') = delivered (snd w) ++ res /\ lease_free (fst w') = true /\
    run_result roles t reader minutes (checkpoint_of (fst w)) (checkpoint_of (fst w')) /\
    exists requests, res = pending_requests (checkpoint_of (fst w)) roles ++ requests /\
      reported roles (casefold <$> approved) t reader minutes (checkpoint_of (fst w)) requests.
Proof.
  intros (V & D & Hw & Hc) Hl Hp Ht E. set (V0 := checkpoint_of (fst w)).
  assert (Hw0 : shows V0 D w) by (split; [done|apply Hw]).
  assert (Hc0 : consistent V0 D) by (intros k; unfold V0; rewrite (proj1 Hw); apply Hc).
  pose proof (run_triple False V0 D raw approved t reader minutes Hp Ht Hc0 ltac:(done) w (conj Hw0 Hl)) as Htr. rewrite E in Htr.
  destruct Htr as [(roles & Vf & Hv & [Hr1 Hr2] & [Hs1 Hs2] & _ & Hreq) Hl']. exists roles. split_and!; try done.
  - rewrite Hs2. by rewrite (proj2 Hw).
  - split; [by intros k Hk; rewrite Hs1, Hr1|]. intros k role Hk. specialize (Hr2 k role Hk). rewrite Hs1. done.
Qed.

(** ** Progress *)
Section progress.
Context {Hiso : PydanticJsonIso}.
Variables (raw : list (string * WorkloadRole)) (approved : list string) (roles : list (string * WorkloadRole)).
Hypothesis Hplain : plain_roles raw.
Hypothesis Hvalid : validate_approved_resource_roles raw = Ok roles.

(** The configuration the detector was deployed with. *)
Definition configured : Prop := @ports_reliable _ St Q _ _ _ /\ rules_cover roles (casefold <$> approved) /\ groups_short roles.

(** Every approved resource can be read. *)
Definition readable (reader : ArmJsonReader) (t minutes : Z) : Prop :=
  Forall (fun p => is_ok (read_approved_signal reader (fst p) (snd p) (utc t) minutes) = true) roles.

(** No resource has changed its role since its pending request was built. *)
Definition roles_stand (w : World) : Prop :=
  Forall (fun p => forall r, sc_pending_request (checkpoint_of (fst w) (fst p)) = Some r -> rr_workload_role r = snd p) roles.

Lemma run_progress w reader t minutes : detector_invariant w -> lease_is true w -> representable t = true -> configured ->
  admitted_window minutes -> readable reader t minutes -> roles_stand w ->
  exists res w', detect_signal_requests reader raw approved (utc t) minutes w = (Ok res, w') /\
    detector_invariant w' /\ lease_is true w' /\ run_result roles t reader minutes (checkpoint_of (fst w)) (checkpoint_of (fst w')).
Proof.
  intros (V & D & Hw & Hc) Hl Ht (Hports & Hru & Hg) Hm Hr Hst. set (V0 := checkpoint_of (fst w)).
  assert (Hw0 : shows V0 D w) by (split; [done|apply Hw]).
  assert (Hc0 : consistent V0 D) by (intros k; unfold V0; rewrite (proj1 Hw); apply Hc).
  destruct (validate_roles_inv raw roles Hplain Hvalid) as (Hroles & Hkeys & _).
  assert (Hre : pending_rechecks roles V0).
  { unfold pending_rechecks. apply Forall_forall. intros [k role] Hk r Hpend. cbn [fst snd] in *.
    unfold roles_stand in Hst. rewrite Forall_forall in Hst. specialize (Hst (k, role) Hk r Hpend). cbn in Hst. subst role.
    destruct (resource_ok_some _ _ _ _ (Hc0 k) Hpend) as (h & Hh & Hb & _).
    apply (pending_recheck roles k r h); [done|done|by split|]. by apply assoc_NoDup. }
  pose proof (run_triple True V0 D raw approved t reader minutes Hplain Ht Hc0) as Htr.
  specialize (Htr ltac:(intros _; split; [done|]; exists roles; by split_and!) w (conj Hw0 Hl)).
  destruct (detect_signal_requests _ _ _ _ _ w) as [[res|e] w']; [|by destruct Htr as [[_ []] _]].
  destruct Htr as [(roles' & Vf & Hv & [Hr1 Hr2] & [Hs1 Hs2] & Hcf & _) Hl'].
  rewrite Hvalid in Hv. injection Hv as <-. exists res, w'. split; [done|]. split; [by exists Vf, (D ++ res)|].
  split; [done|]. split; [intros k Hk; by rewrite Hs1, Hr1|].
  intros k role Hk. specialize (Hr2 k role Hk). by rewrite Hs1.
Qed.

(** C29: detection converges, for approved resources with plain ids (ASCII, no blank
    ends) in groups with names of at most 90 characters, whose signal rules are
    approved and none of which changed its role while a request of it is pending. From
    any world that scheduled runs reach, however the earlier ones failed, once the
    lease is free and the ports work two runs complete, and the health they leave
    committed for every approved resource is the one the second run read, with nothing
    pending. *)
Theorem detection_converges w reader1 t1 minutes1 reader2 t2 minutes2 :
  detector_invariant w -> lease_is true w -> configured -> roles_stand w ->
  representable t1 = true -> admitted_window minutes1 -> readable reader1 t1 minutes1 ->
  representable t2 = true -> admitted_window minutes2 -> readable reader2 t2 minutes2 ->
  exists res1 w1 res2 w2,
    detect_signal_requests reader1 raw approved (utc t1) minutes1 w = (Ok res1, w1) /\
    detect_signal_requests reader2 raw approved (utc t2) minutes2 w1 = (Ok res2, w2) /\
    forall k role, (k, role) ∈ roles ->
      exists o, read_approved_signal reader2 k role (utc t2) minutes2 = Ok o /\
        checkpoint_of (fst w2) k = committed_checkpoint (Some (ao_healthy o)).
Proof.
  intros Hi Hl Hcfg Hst Ht1 Hm1 Hr1 Ht2 Hm2 Hr2.
  destruct (run_progress w reader1 t1 minutes1) as (res1 & w1 & E1 & Hi1 & Hl1 & _ & Hk1); try done.
  assert (Hnone : forall k role, (k, role) ∈ roles -> sc_pending_request (checkpoint_of (fst w1) k) = None).
  { intros k role Hk. specialize (Hk1 k role Hk). destruct (sc_pending_request (checkpoint_of (fst w) k)) as [r|] eqn:Hr.
    - destruct Hi as (V & D & [HV _] & Hc). specialize (Hc k). rewrite <- HV in Hc.
      destruct (resource_ok_some _ _ _ _ Hc Hr) as (h & Hh & _). rewrite Hk1. unfold settle. by rewrite Hh.
    - by destruct Hk1 as (o & _ & ->). }
  destruct (run_progress w1 reader2 t2 minutes2) as (res2 & w2 & E2 & _ & _ & _ & Hk2); try done.
  { apply Forall_forall. intros [k role] Hk r Hr. cbn in Hr. by rewrite (Hnone k role Hk) in Hr. }
  exists res1, w1, res2, w2. split_and!; [done..|]. intros k role Hk. specialize (Hk2 k role Hk). by rewrite (Hnone k role Hk) in Hk2.
Qed.
End progress.
End runs.

(** ** Synthetic events *)
Section synthetic_events.
Context `{PyTextAscii, PyDatetimeIso, PyStr, Rfc8785}.

End synthetic_events.

(** ** A deployment *)
Module DetectorDemo.
#[local] Existing Instance ascii_text.
#[local] Existing Instance ascii_text_ascii.
#[local] Existing Instance strict_datetime.
#[local] Existing Instance strict_datetime_iso.
#[local] Instance no_str : PyStr := fun _ => "".
#[local] Instance braces : Rfc8785 := fun _ => "{}".
#[local] Instance iso_json : PydanticJson := isoformat_z.
#[local] Instance iso_json_iso : PydanticJsonIso.
Proof. by intros t _. Qed.
#[local] Instance list_sender : ReassessmentRequestSenderPort (list ReassessmentRequest) := fun r _ _ q => (Ok tt, q ++ [r]).
#[local] Instance list_sender_laws : ReassessmentRequestSenderLaws (list ReassessmentRequest).
Proof. refine {| delivered q := q |}. intros r m s q. by left. Defined.
#[local] Instance list_sender_reliable : ReliableSender (list ReassessmentRequest).
Proof. by intros r m s q. Qed.

Definition prefix : string := "/subscriptions/00000000-0000-0000-0000-000000000001/resourcegroups/rg-app/providers/".
Definition db : string := prefix +:+ "microsoft.compute/virtualmachines/db1".
Definition web : string := prefix +:+ "microsoft.compute/virtualmachines/web1".
Definition lb : string := prefix +:+ "microsoft.network/loadbalancers/lb1".
Definition bindings : list (string * WorkloadRole) := [(db, DatabasePrimary); (web, Web); (lb, LoadBalancer)].
Definition approved : list string :=
  ["wc016-scheduled-database-primary-power-state"; "WC016-scheduled-web-power-state"; "wc016-scheduled-load-balancer-availability"].

(** Virtual machines are running; the load balancer answers [vip] percent of its probes. *)
Definition arm (vip : Z) : ArmJsonReader := fun id _ =>
  if ends_with "/instanceView" id then Ok [("statuses", JArr [JObj [("code", JStr "PowerState/running")]])]
  else Ok [("value", JArr [JObj [("name", JObj [("value", JStr "DipAvailability")]);
                                 ("timeseries", JArr [JObj [("data", JArr [JObj [("average", JInt 50)]])]])];
                           JObj [("name", JObj [("value", JStr "VipAvailability")]);
                                 ("timeseries", JArr [JObj [("data", JArr [JObj [("average", JInt vip)]; JObj []])]])]])].

Definition now : Z := 1700000040 * second.
Definition start : InMemorySignalStateStore * list ReassessmentRequest := (new_signal_store [], []).

Lemma plain : plain_roles bindings.
Proof. by repeat constructor. Qed.
Lemma valid : validate_approved_resource_roles bindings = Ok bindings.
Proof. vm_compute. reflexivity. Qed.
Lemma start_fresh : fresh start.
Proof. split; [intros k; cbn; by rewrite lookup_empty|done]. Qed.
Lemma start_configured : configured (St := InMemorySignalStateStore) (Q := list ReassessmentRequest) approved bindings.
Proof.
  split_and!; [split; apply _| |].
  - apply Forall_forall. intros p Hp. repeat (apply elem_of_cons in Hp as [->|Hp]; [cbn; set_solver|]). by apply elem_of_nil in Hp.
  - repeat constructor; vm_compute; lia.
Qed.
Lemma healthy_readable : readable bindings (arm 100) now 5.
Proof. repeat constructor; vm_compute; reflexivity. Qed.
Lemma degraded_readable : readable bindings (arm 40) now 5.
Proof. repeat constructor; vm_compute; reflexivity. Qed.
Lemma start_stands : roles_stand (Q := list ReassessmentRequest) bindings start.
Proof. apply Forall_forall. intros p _ r. cbn. by rewrite lookup_empty. Qed.

Lemma start_lease : lease_is true start.
Proof. reflexivity. Qed.
Lemma now_representable : representable now = true.
Proof. reflexivity. Qed.

Lemma first_run : exists res w', detect_signal_requests (arm 40) bindings approved (utc now) 5 start = (Ok res, w').
Proof.
  destruct (run_progress bindings approved bindings plain valid start (arm 40) now 5 (fresh_invariant start start_fresh)
    start_lease now_representable start_configured ltac:(split; lia) degraded_readable start_stands) as (res & w' & E & _).
  by exists res, w'.
Qed.

Lemma deliveries_alternate_witness : exists res w', detect_signal_requests (arm 40) bindings approved (utc now) 5 start = (Ok res, w') /\
  alternates (dedup_adjacent (for_resource lb (delivered (snd w')))).
Proof.
  destruct first_run as (res & w' & E). exists res, w'. split; [exact E|].
  destruct (deliveries_alternate start w' lb start_fresh) as [Ha _]; [|exact Ha].
  apply rtc_once, (detector_step_intro (arm 40) bindings approved (utc now) 5 start (Ok res) w'); [exact plain|reflexivity|exact E].
Defined.

Lemma completed_run_reports_witness : exists res w',
  detect_signal_requests (arm 40) bindings approved (utc now) 5 start = (Ok res, w') /\ delivered (snd w') = delivered (snd start) ++ res.
Proof.
  destruct first_run as (res & w' & E). exists res, w'. split; [exact E|].
  destruct (completed_run_reports start (arm 40) bindings approved now 5 res w' (fresh_invariant start start_fresh) start_lease plain now_representable E)
    as (roles & _ & Hd & _). exact Hd.
Defined.

Lemma detection_converges_witness : exists res1 w1 res2 w2,
  detect_signal_requests (arm 40) bindings approved (utc now) 5 start = (Ok res1, w1) /\
  detect_signal_requests (arm 100) bindings approved (utc now) 5 w1 = (Ok res2, w2).
Proof.
  destruct (detection_converges bindings approved bindings plain valid start (arm 40) now 5 (arm 100) now 5
    (fresh_invariant start start_fresh) start_lease start_configured start_stands now_representable ltac:(split; lia)
    degraded_readable now_representable ltac:(split; lia) healthy_readable) as (res1 & w1 & res2 & w2 & E1 & E2 & _).
  exists res1, w1, res2, w2. split; [exact E1|exact E2].
Defined.

(** Blanks before a trailing slash survive validation but not a second one: the
    detector validates ids twice, so it would look such a resource up under
    another key than the one it stored its checkpoint under. *)
Definition blank_id : string := db +:+ " /".
Example canonical_id_not_stable :
  canonical_resource_id blank_id = Ok (db +:+ " ") /\ canonical_resource_id (db +:+ " ") = Ok db.
Proof. split; vm_compute; reflexivity. Qed.

Lemma lb_approved : approved_binding (lb, LoadBalancer).
Proof.
  destruct (validate_roles_inv bindings bindings plain valid) as (Hb & _). rewrite Forall_forall in Hb.
  apply (Hb (lb, LoadBalancer)). by do 2 right; left.
Qed.

Lemma routing_exact_witness : exists event role, build_reassessment_request event bindings = Ok (request_of event role) /\
  assoc (ne_target_resource_id event) bindings = Some role.
Proof.
  pose proof (signal_members_valid lb LoadBalancer false now (sha256_hex "") lb_approved (sha256_hex_is_digest "")
    ltac:(vm_compute; lia)) as He.
  destruct (validate_roles_inv bindings bindings plain valid) as (Hb & _).
  pose proof (signal_request_routed bindings Hb lb LoadBalancer false now (sha256_hex "") eq_refl He) as Hr.
  destruct (proj1 (routing_exact _ _ bindings _ He) Hr) as (role & Ha & _ & _ & _ & _ & Eq).
  eexists _, role. split; [|exact Ha]. rewrite <- Eq. exact Hr.
Defined.

End DetectorDemo.
