(* ===== verification/Incidents.v ===== *)
(** * Incidents: signed incident states and their publication

    [presentation_assets.py] (the incident half), [eventing/incident_state.py]
    and [eventing/orchestrator.py]: the assets a publication consists of with
    their construction checks, the signed state, feed pointer and active-incident
    index built from a verified reassessment, and the two workflows that publish
    them. Instants handed to the builders are UTC, as the runtime passes them. *)
From S2P Require Import Prelude Text Sha256 Time Json Base64 Events Effects.
From Stdlib Require Import Ascii.
Local Open Scope Z_scope.

(** ** Assets *)
Record PresentationAsset := {
  pa_blob_name : string;
  pa_payload : string;
  pa_payload_sha256 : string;
  pa_maximum_bytes : Z;
}.

Definition MAX_PRESENTATION_ATTESTATION_BYTES : Z := 24 * 1024.
Definition MAX_INCIDENT_FEED_POINTER_BYTES : Z := 16 * 1024.
Definition MAX_INCIDENT_STATE_BYTES : Z := 64 * 1024.

(** PresentationAsset.__post_init__ *)
Definition make_asset (a : PresentationAsset) : result PresentationAsset :=
  let name := pa_blob_name a in
  _ ← raise_if (ValueError "blob_name must be one bounded relative presentation path")
        (String.eqb name "" || starts_with "/" name || ends_with "/" name || contains_char "\" name || contains_char "%" name ||
         existsb (fun segment => bool_decide (segment ∈ [""; "."; ".."])) (split_on slash name));
  _ ← raise_if (ValueError "payload must be non-empty immutable bytes") (String.eqb (pa_payload a) "");
  _ ← raise_if (ValueError "presentation asset exceeds its configured byte bound")
        ((pa_maximum_bytes a <? 1) || (pa_maximum_bytes a <? Z.of_nat (String.length (pa_payload a))));
  _ ← guard_or (ValueError "presentation asset digest does not match its bytes")
        (String.eqb (pa_payload_sha256 a) (sha256_hex (pa_payload a)));
  Ok a.

(** [PresentationAsset(blob_name=..., payload=..., payload_sha256=sha256_hex(payload), maximum_bytes=...)] *)
Definition asset (name payload : string) (maximum_bytes : Z) : result PresentationAsset :=
  make_asset {| pa_blob_name := name; pa_payload := payload; pa_payload_sha256 := sha256_hex payload; pa_maximum_bytes := maximum_bytes |}.

Record ActiveIncidentIndexSnapshot := {
  sx_index : ActiveIncidentIndex;
  sx_payload_sha256 : string;
}.

Record CurrentIncidentStateSnapshot := {
  cs_state : IncidentState;
  cs_pointer : IncidentFeedPointer;
  cs_pointer_sha256 : string;
  cs_occurrence : option IncidentOccurrenceReceipt;
}.

Record IncidentPublicationReceipt := {
  ir_incident_id : string;
  ir_pointer_sha256 : string;
  ir_active_index_sha256 : string;
  ir_occurrence : option IncidentOccurrenceReceipt;
}.

Record ActiveIncidentIndexPublicationRequest := {
  xp_active_index : ActiveIncidentIndex;
  xp_active_index_attestation : ActiveIncidentIndexAttestation;
  xp_active_index_asset : PresentationAsset;
  xp_active_index_attestation_asset : PresentationAsset;
  xp_previous_active_index_sha256 : option string;
}.

Record IncidentPublicationRequest := {
  ip_pointer : IncidentFeedPointer;
  ip_pointer_attestation : IncidentFeedAttestation;
  ip_pointer_asset : PresentationAsset;
  ip_current_pointer_asset : PresentationAsset;
  ip_pointer_attestation_asset : PresentationAsset;
  ip_state : PresentationAsset;
  ip_attestation : PresentationAsset;
  ip_index : ActiveIncidentIndexPublicationRequest;
}.

(** [next((entry for entry in entries if entry.incident_id == id), None)] *)
Definition entry_of (id : string) (entries : list ActiveIncidentEntry) : option ActiveIncidentEntry :=
  head (select (fun e => String.eqb (ae_incident_id e) id) entries).

(** The entries of an index that may be missing. *)
Definition snapshot_entries (snapshot : option ActiveIncidentIndexSnapshot) : list ActiveIncidentEntry :=
  match snapshot with Some s => ai_incidents (sx_index s) | None => [] end.

(** IncidentPublicationReceipt.__post_init__ *)
Definition make_publication_receipt (r : IncidentPublicationReceipt) : result IncidentPublicationReceipt :=
  _ ← raise_if (ValueError "incident publication receipt occurrence is invalid")
        match ir_occurrence r with
        | None => false
        | Some o => negb (String.eqb (io_incident_id o) (ir_incident_id r) &&
                          String.eqb (vp_content_digest (io_pointer_reference o)) (ir_pointer_sha256 r))
        end;
  Ok r.

(** [IncidentState.model_validate_json(payload)] *)
Class StateParser := parse_state : string -> result IncidentState.

(** [signer.sign_preimage(preimage)] *)
Class PresentationSigner := sign_preimage : string -> result string.

Section incidents.
Context `{PyText, Rfc8785, PydanticJson}.

(** ActiveIncidentIndexSnapshot.__post_init__ *)
Definition make_index_snapshot (s : ActiveIncidentIndexSnapshot) : result ActiveIncidentIndexSnapshot :=
  bytes ← canonical_bytes (index_dump (sx_index s));
  _ ← guard_or (ValueError "active incident index snapshot digest is invalid")
        (String.eqb (sx_payload_sha256 s) (sha256_hex bytes));
  Ok s.

(** CurrentIncidentStateSnapshot.__post_init__ *)
Definition make_state_snapshot (s : CurrentIncidentStateSnapshot) : result CurrentIncidentStateSnapshot :=
  let invalid := ValueError "current incident state snapshot binding is invalid" in
  _ ← guard_or invalid (String.eqb (fp_incident_id (cs_pointer s)) (is_incident_id (cs_state s)));
  state_bytes ← canonical_bytes (state_dump (cs_state s));
  _ ← guard_or invalid (String.eqb (fp_state_sha256 (cs_pointer s)) (sha256_hex state_bytes));
  pointer_bytes ← canonical_bytes (pointer_dump (cs_pointer s));
  _ ← guard_or invalid (String.eqb (cs_pointer_sha256 s) (sha256_hex pointer_bytes));
  _ ← guard_or invalid
        match cs_occurrence s with
        | None => true
        | Some o => String.eqb (io_incident_id o) (is_incident_id (cs_state s)) &&
                    String.eqb (io_transition_id o) (is_transition_id (cs_state s)) &&
                    String.eqb (vp_content_digest (io_pointer_reference o)) (cs_pointer_sha256 s)
        end;
  Ok s.

(** _validate_active_incident_index_assets *)
Definition validate_active_incident_index_assets (x : ActiveIncidentIndexPublicationRequest) : result unit :=
  let invalid := ValueError "active incident index assets are invalid" in
  index_bytes ← canonical_bytes (index_dump (xp_active_index x));
  let asset := xp_active_index_asset x in
  let attestation_asset := xp_active_index_attestation_asset x in
  _ ← guard_or invalid
        (String.eqb (pa_blob_name asset) "incidents/active.json" && String.eqb (pa_payload asset) index_bytes &&
         String.eqb (pa_payload_sha256 asset) (sha256_hex index_bytes) &&
         String.eqb (xa_index_digest (xp_active_index_attestation x)) (sha256_hex index_bytes) &&
         String.eqb (pa_blob_name attestation_asset) (removeprefix "./" (ai_index_attestation_path (xp_active_index x))));
  attestation_bytes ← canonical_bytes (index_attestation_dump (xp_active_index_attestation x));
  _ ← guard_or invalid (String.eqb (pa_payload attestation_asset) attestation_bytes);
  raise_if (ValueError "previous active incident index digest is invalid")
    match xp_previous_active_index_sha256 x with Some d => negb (starts_with "sha256:" d) | None => false end.

(** ActiveIncidentIndexPublicationRequest.__post_init__ *)
Definition make_index_publication (x : ActiveIncidentIndexPublicationRequest) : result ActiveIncidentIndexPublicationRequest :=
  _ ← validate_active_incident_index_assets x; Ok x.

(** The index of a publication agrees with its state. *)
Definition occurrence_indexed (state : IncidentState) (pointer_asset : PresentationAsset) (entries : list ActiveIncidentEntry)
    : result unit :=
  match is_lifecycle state, entry_of (is_incident_id state) entries with
  | IncidentActive, entry =>
      guard_or (ValueError "active incident index does not match the occurrence")
        match entry with
        | None => false
        | Some e => bool_decide (ae_scenario e = is_scenario state) && bool_decide (ae_workload_role e = is_workload_role state) &&
            String.eqb (ae_pointer_path e) ("./" +:+ pa_blob_name pointer_asset) &&
            String.eqb (ae_pointer_sha256 e) (pa_payload_sha256 pointer_asset) &&
            (ae_detected_at e =? is_detected_at state) && (ae_updated_at e =? is_updated_at state)
        end
  | _, Some _ => Raise (ValueError "resolved incident must not remain in the active index")
  | _, None => Ok tt
  end.

Context `{StateParser}.

(** IncidentPublicationRequest.__post_init__ *)
Definition make_publication (r : IncidentPublicationRequest) : result IncidentPublicationRequest :=
  let p := ip_pointer r in
  pointer_bytes ← canonical_bytes (pointer_dump p);
  _ ← guard_or (ValueError "incident pointer attestation does not bind the pointer")
        (String.eqb (fa_pointer_digest (ip_pointer_attestation r)) (sha256_hex pointer_bytes));
  _ ← guard_or (ValueError "incident pointer asset is invalid")
        (String.eqb (pa_blob_name (ip_pointer_asset r))
           (removeprefix "./" (removesuffix "/state.json" (fp_state_path p)) +:+ "/pointer.json") &&
         String.eqb (pa_payload (ip_pointer_asset r)) pointer_bytes &&
         String.eqb (pa_payload_sha256 (ip_pointer_asset r)) (sha256_hex pointer_bytes));
  _ ← guard_or (ValueError "current incident pointer asset is invalid")
        (String.eqb (pa_blob_name (ip_current_pointer_asset r)) ("incidents/" +:+ fp_incident_id p +:+ "/current.json") &&
         String.eqb (pa_payload (ip_current_pointer_asset r)) pointer_bytes &&
         String.eqb (pa_payload_sha256 (ip_current_pointer_asset r)) (sha256_hex pointer_bytes));
  _ ← guard_or (ValueError "incident pointer attestation asset is invalid")
        (String.eqb (pa_blob_name (ip_pointer_attestation_asset r)) (removeprefix "./" (fp_pointer_attestation_path p)));
  attestation_bytes ← canonical_bytes (feed_attestation_dump (ip_pointer_attestation r));
  _ ← guard_or (ValueError "incident pointer attestation asset is invalid")
        (String.eqb (pa_payload (ip_pointer_attestation_asset r)) attestation_bytes);
  _ ← guard_or (ValueError "incident assets do not exactly match their current pointer")
        (String.eqb (pa_blob_name (ip_state r)) (removeprefix "./" (fp_state_path p)) &&
         String.eqb (pa_payload_sha256 (ip_state r)) (fp_state_sha256 p) &&
         String.eqb (pa_blob_name (ip_attestation r)) (removeprefix "./" (fp_attestation_path p)) &&
         String.eqb (pa_payload_sha256 (ip_attestation r)) (fp_attestation_sha256 p));
  state ← parse_state (pa_payload (ip_state r));
  _ ← occurrence_indexed state (ip_pointer_asset r) (ai_incidents (xp_active_index (ip_index r)));
  _ ← validate_active_incident_index_assets (ip_index r);
  Ok r.

(** ** Signed states *)
Context `{PresentationSigner}.

(** _base64url_signature *)
Definition base64url_signature (value : string) : result string :=
  match b64decode value with
  | None => Raise (ValueError "incident signer returned invalid base64")
  | Some signature =>
      _ ← raise_if (ValueError "incident signer returned an empty signature") (String.eqb signature "");
      Ok (rstrip_by (Ascii.eqb equals) (urlsafe_b64encode signature))
  end.

(** [a or b] of an optional text and a text. *)
Definition text_or (a : option string) (b : string) : string :=
  match a with Some s => if String.eqb s "" then b else s | None => b end.

Definition ACTIVE_IMPACT (s : IncidentScenario) : Availability * BlastRadius * OperatorAttention :=
  match s with
  | SingletonDatabaseFailure => (AvailabilityCritical, WholeWorkload, AttentionUrgent)
  | WebServerFailure => (AvailabilityWarning, WebTier, AttentionRequired)
  | LoadBalancerFailure => (AvailabilityCritical, IngressEdge, AttentionUrgent)
  end.

(** build_signed_incident_state *)
Definition build_signed_incident_state (request : ReassessmentRequest) (detected_at updated_at : Z) (target_binding : string)
    (reassessment_verified_healthy : bool) (findings : list IncidentFinding) (reasoning : list string)
    (signing_key_id : string) (signing_key_vault_key_id : option string) : result (IncidentState * IncidentStateAttestation) :=
  _ ← raise_if (ValueError "verified findings and reasoning are required")
        (bool_decide (findings = []) || bool_decide (reasoning = []));
  let '(availability, blast_radius, attention) :=
    if reassessment_verified_healthy then (AvailabilityNormal, BlastNone, AttentionNormal) else ACTIVE_IMPACT (rr_scenario request) in
  let state result_digest :=
    {| is_incident_id := rr_incident_id request; is_transition_id := rr_idempotency_key request;
       is_scenario := rr_scenario request;
       is_lifecycle := if reassessment_verified_healthy then IncidentResolved else IncidentActive;
       is_workload_role := rr_workload_role request; is_detected_at := detected_at; is_updated_at := updated_at;
       is_target_binding := target_binding; is_availability := availability; is_blast_radius := blast_radius;
       is_operator_attention := attention; is_findings := findings; is_reasoning := reasoning;
       is_notification_status := PendingDispatch; is_result_digest := result_digest |} in
  preimage ← canonicalize_json (JObj (unsigned_state JTime (state "")));
  let result_digest := sha256_hex preimage in
  built ← make_state (state result_digest);
  signature ← sign_preimage preimage;
  detached_signature ← base64url_signature signature;
  attestation ← make_state_attestation {|
    sa_result_digest := result_digest; sa_key_vault_key_id := text_or signing_key_vault_key_id signing_key_id;
    sa_detached_signature := detached_signature |};
  Ok (built, attestation).

(** notification_message *)
Definition notification_message (state : IncidentState) (presentation_url : string) : option string :=
  if notifiable (is_lifecycle state) then
    Some (String.concat newline [
      "Athena incident " +:+ (if bool_decide (is_lifecycle state = IncidentActive) then "ACTIVE" else "RESOLVED") +:+ ": " +:+
        scenario_value (is_scenario state);
      "Role: " +:+ workload_role_value (is_workload_role state);
      "Availability: " +:+ availability_value (is_availability state);
      "Blast radius: " +:+ blast_radius_value (is_blast_radius state);
      "Operator attention: " +:+ operator_attention_value (is_operator_attention state);
      "Evidence: " +:+ default "" (if_summary <$> head (is_findings state));
      "Presentation: " +:+ presentation_url;
      "";
      "Athena did not perform remediation.";
      "";
      "Sent by Kanga, my AI sidekick 🦘"])
  else None.

(** ** Publications *)
Definition millisecond : Z := 1000.

(** The instant of the next index: past the previous one. *)
Definition next_published_at (published_at : Z) (previous : option ActiveIncidentIndex) : result Z :=
  match previous with
  | None => Ok published_at
  | Some p =>
      let at_least := Z.max published_at (ai_published_at p) in
      if at_least =? ai_published_at p
      then _ ← guard_or OverflowError (representable (at_least + millisecond)); Ok (at_least + millisecond)
      else Ok at_least
  end.

(** An index of entries at an instant, named by the digest of its content. *)
Definition new_index (ordered_entries : list ActiveIncidentEntry) (key_id key_fingerprint : string) (index_published_at : Z)
    : result ActiveIncidentIndex :=
  index_seed ← canonicalize_json (JObj [
    ("incidents", JArr (index_entry_dump <$> ordered_entries)); ("keyId", JStr key_id);
    ("keyFingerprint", JStr key_fingerprint); ("publishedAt", JTime index_published_at)]);
  let index_version := removeprefix "sha256:" (sha256_hex index_seed) in
  make_index {| ai_incidents := ordered_entries;
    ai_index_attestation_path := "./incidents/index-attestations/" +:+ index_version +:+ ".json";
    ai_key_id := key_id; ai_key_fingerprint := key_fingerprint; ai_published_at := index_published_at |}.

(** The previous index where nothing has changed, or a new one. *)
Definition next_index (ordered_entries : list ActiveIncidentEntry) (published_at : Z) (key_id key_fingerprint : string)
    (previous : option ActiveIncidentIndex) (reuse_unchanged : bool) : result ActiveIncidentIndex :=
  match previous with
  | Some p =>
      if reuse_unchanged && bool_decide (ordered_entries = ai_incidents p) && String.eqb (ai_key_id p) key_id &&
         String.eqb (ai_key_fingerprint p) key_fingerprint
      then Ok p
      else index_published_at ← next_published_at published_at previous;
           new_index ordered_entries key_id key_fingerprint index_published_at
  | None => new_index ordered_entries key_id key_fingerprint published_at
  end.

(** _build_active_incident_index_publication *)
Definition build_active_incident_index_publication (entries : list ActiveIncidentEntry) (published_at : Z)
    (key_id key_vault_key_id key_fingerprint : string) (snapshot : option ActiveIncidentIndexSnapshot) (reuse_unchanged : bool)
    : result ActiveIncidentIndexPublicationRequest :=
  let entries_by_id := dict_by ae_incident_id entries in
  _ ← guard_or (ValueError "active incident heartbeat entries must be unique") (size entries_by_id =? length entries)%nat;
  active_index ← next_index (sorted_values entries_by_id) published_at key_id key_fingerprint (sx_index <$> snapshot) reuse_unchanged;
  active_index_bytes ← canonical_bytes (index_dump active_index);
  signature ← sign_preimage active_index_bytes;
  detached_signature ← base64url_signature signature;
  active_index_attestation ← make_index_attestation {|
    xa_index_digest := sha256_hex active_index_bytes; xa_key_vault_key_id := key_vault_key_id;
    xa_detached_signature := detached_signature |};
  active_index_attestation_bytes ← canonical_bytes (index_attestation_dump active_index_attestation);
  index_asset ← asset "incidents/active.json" active_index_bytes MAX_INCIDENT_STATE_BYTES;
  attestation_asset ← asset (removeprefix "./" (ai_index_attestation_path active_index)) active_index_attestation_bytes
    MAX_PRESENTATION_ATTESTATION_BYTES;
  make_index_publication {|
    xp_active_index := active_index; xp_active_index_attestation := active_index_attestation;
    xp_active_index_asset := index_asset; xp_active_index_attestation_asset := attestation_asset;
    xp_previous_active_index_sha256 := sx_payload_sha256 <$> snapshot |}.

(** build_active_incident_index_heartbeat *)
Definition build_active_incident_index_heartbeat (published_at : Z) (key_id key_fingerprint : string)
    (snapshot : option ActiveIncidentIndexSnapshot) (key_vault_key_id : option string)
    : result ActiveIncidentIndexPublicationRequest :=
  build_active_incident_index_publication (snapshot_entries snapshot) published_at key_id (text_or key_vault_key_id key_id)
    key_fingerprint snapshot false.

(** The entries of the next index: the incident of the state, if active, and the others. *)
Definition next_entries (state : IncidentState) (pointer_name pointer_sha256 : string) (entries : list ActiveIncidentEntry)
    : result (list ActiveIncidentEntry) :=
  let by_id := dict_by ae_incident_id entries in
  if bool_decide (is_lifecycle state = IncidentActive) then
    entry ← make_entry_active {|
      ae_incident_id := is_incident_id state; ae_scenario := is_scenario state; ae_workload_role := is_workload_role state;
      ae_pointer_path := "./" +:+ pointer_name; ae_pointer_sha256 := pointer_sha256;
      ae_detected_at := is_detected_at state; ae_updated_at := is_updated_at state |};
    Ok (sorted_values (<[is_incident_id state := entry]> by_id))
  else Ok (sorted_values (delete (is_incident_id state) by_id)).

(** build_incident_publication *)
Definition build_incident_publication (state : IncidentState) (attestation : IncidentStateAttestation) (published_at : Z)
    (key_id key_fingerprint : string) (snapshot : option ActiveIncidentIndexSnapshot) (key_vault_key_id : option string)
    : result IncidentPublicationRequest :=
  let published_at := Z.max published_at (is_updated_at state) in
  let digest_suffix := removeprefix "sha256:" (is_result_digest state) in
  let prefix := "incidents/" +:+ is_incident_id state +:+ "/versions/" +:+ digest_suffix in
  state_bytes ← canonical_bytes (state_dump state);
  attestation_bytes ← canonical_bytes (state_attestation_dump attestation);
  state_asset ← asset (prefix +:+ "/state.json") state_bytes MAX_INCIDENT_STATE_BYTES;
  attestation_asset ← asset (prefix +:+ "/attestation.json") attestation_bytes MAX_PRESENTATION_ATTESTATION_BYTES;
  pointer ← make_pointer {|
    fp_incident_id := is_incident_id state;
    fp_state_path := "./" +:+ pa_blob_name state_asset; fp_state_sha256 := pa_payload_sha256 state_asset;
    fp_attestation_path := "./" +:+ pa_blob_name attestation_asset;
    fp_attestation_sha256 := pa_payload_sha256 attestation_asset;
    fp_pointer_attestation_path := "./" +:+ prefix +:+ "/pointer-attestation.json";
    fp_key_id := key_id; fp_key_fingerprint := key_fingerprint; fp_published_at := published_at |};
  pointer_bytes ← canonical_bytes (pointer_dump pointer);
  let pointer_sha256 := sha256_hex pointer_bytes in
  signature ← sign_preimage pointer_bytes;
  detached_signature ← base64url_signature signature;
  pointer_attestation ← make_feed_attestation {|
    fa_pointer_digest := sha256_hex pointer_bytes; fa_key_vault_key_id := text_or key_vault_key_id key_id;
    fa_detached_signature := detached_signature |};
  pointer_attestation_bytes ← canonical_bytes (feed_attestation_dump pointer_attestation);
  pointer_asset ← asset (prefix +:+ "/pointer.json") pointer_bytes MAX_INCIDENT_FEED_POINTER_BYTES;
  current_pointer_asset ← asset ("incidents/" +:+ is_incident_id state +:+ "/current.json") pointer_bytes
    MAX_INCIDENT_FEED_POINTER_BYTES;
  ordered_entries ← next_entries state (pa_blob_name pointer_asset) pointer_sha256 (snapshot_entries snapshot);
  index_publication ← build_active_incident_index_publication ordered_entries published_at key_id
    (text_or key_vault_key_id key_id) key_fingerprint snapshot true;
  pointer_attestation_asset ← asset (removeprefix "./" (fp_pointer_attestation_path pointer)) pointer_attestation_bytes
    MAX_PRESENTATION_ATTESTATION_BYTES;
  make_publication {|
    ip_pointer := pointer; ip_pointer_attestation := pointer_attestation; ip_pointer_asset := pointer_asset;
    ip_current_pointer_asset := current_pointer_asset; ip_pointer_attestation_asset := pointer_attestation_asset;
    ip_state := state_asset; ip_attestation := attestation_asset; ip_index := index_publication |}.
End incidents.

(** ** Ports of the workflows *)
Class IncidentAssetPublisherPort (P : Type) := {
  read_active_incident_index : stateful P (option ActiveIncidentIndexSnapshot);
  read_current_incident_state : string -> stateful P (option CurrentIncidentStateSnapshot);
  publish_incident : IncidentPublicationRequest -> stateful P IncidentPublicationReceipt;
  publish_active_incident_index : ActiveIncidentIndexPublicationRequest -> stateful P ActiveIncidentIndexSnapshot;
}.

(** [enqueue(incident_id, lifecycle, transition_id, message)] *)
Class NotificationOutboxPort (N : Type) := enqueue : string -> IncidentLifecycle -> string -> string -> stateful N unit.

(** The snapshot a publication leaves behind. *)
Definition published_snapshot (x : ActiveIncidentIndexPublicationRequest) : ActiveIncidentIndexSnapshot :=
  {| sx_index := xp_active_index x; sx_payload_sha256 := pa_payload_sha256 (xp_active_index_asset x) |}.

(** What a publisher promises: reads do not write, a state read is a checked snapshot
    of the incident asked for, and after a publication that returns the index is the
    published one, which it may have been before; one that raises has published the
    index or left it alone. *)
Class IncidentAssetPublisherLaws (P : Type) `{PyText, Rfc8785, PydanticJson, IncidentAssetPublisherPort P} := {
  index_of : P -> option ActiveIncidentIndexSnapshot;
  read_index_view s : index_of (snd (read_active_incident_index s)) = index_of s;
  read_index_value s x : fst (read_active_incident_index s) = Ok x -> x = index_of s;
  read_state_view id s : index_of (snd (read_current_incident_state id s)) = index_of s;
  read_state_value id s c :
    fst (read_current_incident_state id s) = Ok (Some c) -> is_incident_id (cs_state c) = id /\ make_state_snapshot c = Ok c;
  publish_incident_view r s :
    index_of (snd (publish_incident r s)) = Some (published_snapshot (ip_index r)) \/
    (index_of (snd (publish_incident r s)) = index_of s /\ is_ok (fst (publish_incident r s)) = false);
  publish_index_view x s :
    (index_of (snd (publish_active_incident_index x s)) = Some (published_snapshot x) /\
     (forall y, fst (publish_active_incident_index x s) = Ok y -> y = published_snapshot x)) \/
    (index_of (snd (publish_active_incident_index x s)) = index_of s /\ is_ok (fst (publish_active_incident_index x s)) = false);
}.

(** What an outbox promises: a message is enqueued, or the call raises. *)
Class NotificationOutboxLaws (N : Type) `{NotificationOutboxPort N} := {
  enqueued : N -> list (string * IncidentLifecycle * string * string);
  enqueue_view id l transition message s :
    enqueued (snd (enqueue id l transition message s)) = enqueued s ++ [(id, l, transition, message)] \/
    (enqueued (snd (enqueue id l transition message s)) = enqueued s /\ is_ok (fst (enqueue id l transition message s)) = false);
}.

Section workflows.
Context `{PyText, Rfc8785, PydanticJson, StateParser, PresentationSigner}.
Context {P N : Type} `{IncidentAssetPublisherPort P, NotificationOutboxPort N}.

Definition on_publisher {A} (m : stateful P A) : stateful (P * N) A := zoom fst (fun p w => (p, snd w)) m.
Definition on_outbox {A} (m : stateful N A) : stateful (P * N) A := zoom snd (fun n w => (fst w, n)) m.

(** ** The heartbeat of the index *)

(** _validate_active_index_health *)
Definition validate_active_index_health (snapshot : option ActiveIncidentIndexSnapshot) (observations : list ReassessmentRequest)
    : result unit :=
  let expected := dict_by rr_incident_id (select (fun r => bool_decide (rr_lifecycle r = Activated)) observations) in
  let actual := dict_by ae_incident_id (snapshot_entries snapshot) in
  _ ← guard_or (ValueError "active incident index does not match independently verified live health")
        (bool_decide (dom actual = dom expected));
  guard_or (ValueError "active incident index binding does not match verified live health")
    (forallb (fun '(incident_id, request) =>
       match actual !! incident_id with
       | Some e => bool_decide (ae_scenario e = rr_scenario request) && bool_decide (ae_workload_role e = rr_workload_role request)
       | None => false
       end) (map_to_list expected)).

(** The attempts of run_active_incident_index_heartbeat. *)
Fixpoint heartbeat_attempts (attempts : nat) (last_conflict : option exn) (observations : list ReassessmentRequest) (published_at : Z)
    (signing_key_id signing_key_fingerprint : string) (signing_key_vault_key_id : option string)
    : stateful P ActiveIncidentIndexSnapshot :=
  match attempts with
  | O => throw (default AssertionError last_conflict)
  | S attempts =>
      snapshot ← read_active_incident_index;
      _ ← lift (validate_active_index_health snapshot observations);
      publication ← lift (build_active_incident_index_heartbeat published_at signing_key_id signing_key_fingerprint snapshot
        (Some (text_or signing_key_vault_key_id signing_key_id)));
      catching (publish_active_incident_index publication) (fun e =>
        match e with
        | PresentationAssetAlreadyExistsError => Some (
            latest ← read_active_incident_index;
            _ ← lift (validate_active_index_health latest observations);
            match latest with
            | Some l =>
                if ai_published_at (xp_active_index publication) <=? ai_published_at (sx_index l) then mret l
                else heartbeat_attempts attempts (Some e) observations published_at signing_key_id signing_key_fingerprint
                       signing_key_vault_key_id
            | None => heartbeat_attempts attempts (Some e) observations published_at signing_key_id signing_key_fingerprint
                        signing_key_vault_key_id
            end)
        | _ => None
        end)
  end.

(** run_active_incident_index_heartbeat *)
Definition run_active_incident_index_heartbeat (observations : list ReassessmentRequest) (published_at : Z)
    (signing_key_id signing_key_fingerprint : string) (signing_key_vault_key_id : option string)
    : stateful P ActiveIncidentIndexSnapshot :=
  _ ← lift (raise_if (ValueError "incident feed heartbeat requires approved observations") (bool_decide (observations = [])));
  _ ← lift (guard_or (ValueError "incident feed heartbeat observations must be unique")
        (size (dict_by rr_target_resource_id observations) =? length observations)%nat);
  heartbeat_attempts 3 None observations published_at signing_key_id signing_key_fingerprint signing_key_vault_key_id.

(** ** The reassessment of an incident *)

(** The notification of a state, when an outbox is configured. *)
Definition notify (notifications : bool) (state : IncidentState) (presentation_url : string) : stateful (P * N) unit :=
  match notification_message state presentation_url with
  | Some message =>
      if notifications then on_outbox (enqueue (is_incident_id state) (is_lifecycle state) (is_transition_id state) message)
      else mret tt
  | None => mret tt
  end.

(** The entry of an active incident points at its current occurrence. *)
Definition entry_coherent (entry : ActiveIncidentEntry) (latest : CurrentIncidentStateSnapshot) : bool :=
  String.eqb (ae_pointer_sha256 entry) (cs_pointer_sha256 latest) &&
  String.eqb (ae_pointer_path entry)
    ("./" +:+ removeprefix "./" (removesuffix "/state.json" (fp_state_path (cs_pointer latest))) +:+ "/pointer.json") &&
  (ae_detected_at entry =? is_detected_at (cs_state latest)) && (ae_updated_at entry =? is_updated_at (cs_state latest)).

(** The branch of a reassessment that changes nothing: the transition may only be notified again. *)
Definition reconcile (request : ReassessmentRequest) (verified_healthy : bool) (snapshot : option ActiveIncidentIndexSnapshot)
    (active_entry : option ActiveIncidentEntry) (presentation_url : string) (notifications : bool)
    : stateful (P * N) (option (IncidentState * IncidentPublicationReceipt)) :=
  latest ← on_publisher (read_current_incident_state (rr_incident_id request));
  match latest with
  | None => mret None
  | Some latest =>
      let state := cs_state latest in
      if String.eqb (is_transition_id state) (rr_idempotency_key request) &&
         bool_decide (is_lifecycle state = if verified_healthy then IncidentResolved else IncidentActive) &&
         bool_decide (is_scenario state = rr_scenario request) && bool_decide (is_workload_role state = rr_workload_role request)
      then
        _ ← lift match verified_healthy, active_entry with
                 | false, None => Raise (RuntimeError "active incident index is not coherent with current occurrence")
                 | false, Some entry =>
                     guard_or (RuntimeError "active incident index is not coherent with current occurrence")
                       (entry_coherent entry latest)
                 | true, Some _ => Raise (RuntimeError "resolved occurrence remains in the active incident index")
                 | true, None => Ok tt
                 end;
        _ ← notify notifications state presentation_url;
        match cs_occurrence latest, snapshot with
        | Some occurrence, Some s =>
            receipt ← lift (make_publication_receipt {|
              ir_incident_id := is_incident_id state; ir_pointer_sha256 := cs_pointer_sha256 latest;
              ir_active_index_sha256 := sx_payload_sha256 s; ir_occurrence := Some occurrence |});
            mret (Some (state, receipt))
        | _, _ => mret None
        end
      else mret None
  end.

(** run_incident_reassessment *)
Definition run_incident_reassessment (reassess : ReassessmentRequest -> result VerifiedReassessmentResult)
    (request : ReassessmentRequest) (detected_at updated_at published_at : Z) (presentation_url : string)
    (signing_key_id signing_key_fingerprint : string) (signing_key_vault_key_id : option string) (notifications : bool)
    : stateful (P * N) (option (IncidentState * IncidentPublicationReceipt)) :=
  outcome ← lift (reassess request);
  _ ← lift (guard_or (ValueError "reassessment result does not match its request")
        (String.eqb (vr_request_id outcome) (rr_request_id request)));
  snapshot ← on_publisher read_active_incident_index;
  let active_entry := entry_of (rr_incident_id request) (snapshot_entries snapshot) in
  _ ← lift (guard_or (ValueError "active incident index binding does not match reassessment")
        match active_entry with
        | None => true
        | Some e => bool_decide (ae_scenario e = rr_scenario request) && bool_decide (ae_workload_role e = rr_workload_role request)
        end);
  if Bool.eqb (vr_verified_healthy outcome) (bool_decide (active_entry = None))
  then reconcile request (vr_verified_healthy outcome) snapshot active_entry presentation_url notifications
  else
    let incident_detected_at := match active_entry with Some e => ae_detected_at e | None => detected_at end in
    '(state, attestation) ← lift (build_signed_incident_state request incident_detected_at
      (Z.max updated_at (vr_observed_at outcome)) (vr_target_binding outcome) (vr_verified_healthy outcome)
      (vr_findings outcome) (vr_reasoning outcome) signing_key_id (Some (text_or signing_key_vault_key_id signing_key_id)));
    publication ← lift (build_incident_publication state attestation published_at signing_key_id signing_key_fingerprint snapshot
      (Some (text_or signing_key_vault_key_id signing_key_id)));
    receipt ← on_publisher (publish_incident publication);
    _ ← notify notifications state presentation_url;
    mret (Some (state, receipt)).
End workflows.
