(* ===== verification/IncidentsProps.v ===== *)
(** * IncidentsProps: the active-incident index and its workflows

    A publication holds the index of the entries it was asked for; a reassessment
    settles the entry of its own incident and no other, and notifies only what
    the index shows; the index never moves back. *)
From S2P Require Import Prelude Text Sha256 Time Json Base64 Events Effects.
From S2P Require Export Incidents.
From Stdlib Require Import Ascii.
Local Open Scope Z_scope.

#[local] Opaque sha256_hexdigest.

(** ** Entries *)
Abbreviation ids := (fmap ae_incident_id).

Definition keyed (d : gmap string ActiveIncidentEntry) : Prop := forall k e, d !! k = Some e -> ae_incident_id e = k.

(** The entries of an index are sorted by incident, one for each. *)
Definition indexed (entries : list ActiveIncidentEntry) : Prop :=
  ids entries = sort_strings (ids entries) /\ NoDup (ids entries).

Lemma entry_of_Some id l e : entry_of id l = Some e -> e ∈ l /\ ae_incident_id e = id.
Proof.
  unfold entry_of. intros He. assert (Hin : e ∈ select (fun e => String.eqb (ae_incident_id e) id) l).
  { destruct (select _ l); [done|]. injection He as ->. left. }
  apply elem_of_select in Hin as [Hin E%String.eqb_eq]. done.
Qed.

Lemma entry_of_elem l e : NoDup (ids l) -> e ∈ l -> entry_of (ae_incident_id e) l = Some e.
Proof.
  intros Hn He. destruct (entry_of (ae_incident_id e) l) as [e'|] eqn:E.
  - apply entry_of_Some in E as [He' E]. f_equal. by apply (NoDup_fmap_inj_on ae_incident_id l Hn).
  - unfold entry_of in E. assert (Hs : e ∈ select (fun e' => String.eqb (ae_incident_id e') (ae_incident_id e)) l)
      by (apply elem_of_select; split; [done|apply String.eqb_refl]).
    destruct (select _ l); [by apply elem_of_nil in Hs|done].
Qed.

Lemma entry_of_sorted d id : keyed d -> entry_of id (sorted_values d) = d !! id.
Proof.
  intros Hd. assert (Hn : NoDup (ids (sorted_values d))) by (rewrite sorted_values_keys by done; apply NoDup_sorted_keys).
  destruct (d !! id) as [e|] eqn:E.
  - rewrite <- (Hd id e E). apply entry_of_elem; [done|]. apply (elem_of_sorted_values ae_incident_id). by exists id.
  - destruct (entry_of id (sorted_values d)) as [e|] eqn:E'; [|done]. apply entry_of_Some in E' as [He <-].
    apply (elem_of_sorted_values ae_incident_id) in He as [k Hk]. pose proof (Hd k e Hk). congruence.
Qed.

Lemma dict_by_keyed l : keyed (dict_by ae_incident_id l).
Proof. intros k e. by intros [_ ?]%dict_by_lookup_Some. Qed.

Lemma dict_by_entry l id : NoDup (ids l) -> dict_by ae_incident_id l !! id = entry_of id l.
Proof.
  intros Hn. destruct (entry_of id l) as [e|] eqn:E.
  - apply entry_of_Some in E as [He <-]. apply dict_by_lookup_inj; [|done]. intros e' He' Ek. by apply (NoDup_fmap_inj_on ae_incident_id l Hn).
  - destruct (dict_by ae_incident_id l !! id) as [e|] eqn:E'; [|done]. apply dict_by_lookup_Some in E' as [He <-].
    by rewrite entry_of_elem in E.
Qed.

Lemma sorted_indexed d : keyed d -> indexed (sorted_values d).
Proof.
  intros Hd. unfold indexed. rewrite sorted_values_keys by done. split; [|apply NoDup_sorted_keys].
  unfold sorted_keys, sort_strings. symmetry. apply sort_by_id, sort_by_sorted.
Qed.

Lemma dict_by_sorted d : keyed d -> dict_by ae_incident_id (sorted_values d) = d.
Proof.
  intros Hd. apply map_eq. intros id. destruct (sorted_indexed d Hd) as [_ Hn]. by rewrite dict_by_entry, entry_of_sorted.
Qed.

(** Sorting an index again leaves it as it is. *)
Lemma indexed_sorted l : indexed l -> sorted_values (dict_by ae_incident_id l) = l.
Proof.
  intros [Hs Hn]. unfold sorted_values.
  assert (Hk : sorted_keys (dict_by ae_incident_id l) = ids l).
  { rewrite Hs. unfold sorted_keys, sort_strings. apply sort_by_permutation; [done|]. apply NoDup_Permutation; [apply NoDup_elements|done|].
    intros id. rewrite elem_of_elements, elem_of_dom, dict_by_entry by done. split.
    - intros [e [He <-]%entry_of_Some]. by apply list_elem_of_fmap_2.
    - intros (e & -> & He)%list_elem_of_fmap. exists e. by apply entry_of_elem. }
  rewrite Hk. assert (Hd : forall e, e ∈ l -> dict_by ae_incident_id l !! ae_incident_id e = Some e).
  { intros e He. rewrite dict_by_entry by done. by apply entry_of_elem. }
  revert Hd. generalize (dict_by ae_incident_id l). clear. intros d. induction l as [|e l IH]; intros Hd; [done|].
  cbn. rewrite (Hd e) by left. cbn. f_equal. apply IH. intros e' He'. apply Hd. by right.
Qed.

(** ** The index of a publication *)
Section publication.
Context `{PyText, Rfc8785, PydanticJson, StateParser, PresentationSigner}.

(** One index may follow another: the same, or of a later instant. *)
Definition later (before after : option ActiveIncidentIndexSnapshot) : Prop :=
  match before, after with
  | None, _ => True
  | Some b, Some a => sx_index a = sx_index b \/ ai_published_at (sx_index b) < ai_published_at (sx_index a)
  | Some _, None => False
  end.

Lemma later_refl X : later X X.
Proof. destruct X; [by left|done]. Qed.

Lemma later_trans X Y Z : later X Y -> later Y Z -> later X Z.
Proof.
  destruct X as [x|], Y as [y|], Z as [z|]; cbn; try done.
  intros [E1|L1] [E2|L2]; [left; congruence|right; by rewrite <- E1|right; by rewrite E2|right; lia].
Qed.

Lemma next_published_at_Ok published_at previous t : next_published_at published_at previous = Ok t ->
  published_at <= t /\ match previous with Some p => ai_published_at p < t | None => True end.
Proof.
  unfold next_published_at. destruct previous as [p|]; [|by intros [= <-]].
  destruct (Z.eqb_spec (Z.max published_at (ai_published_at p)) (ai_published_at p)) as [E|E]; intros Ht.
  - apply bind_Ok in Ht as (_ & _ & [= <-]). unfold millisecond. lia.
  - injection Ht as <-. lia.
Qed.

Lemma new_index_Ok entries key_id key_fingerprint t x : new_index entries key_id key_fingerprint t = Ok x ->
  ai_incidents x = entries /\ ai_published_at x = t /\ (length entries <= 64)%nat.
Proof. unfold new_index, make_index, field. intros Hx. inv_ok. subst. cbn in *. split_and!; [done|done|by apply Nat.leb_le]. Qed.

Lemma next_index_Ok entries published_at key_id key_fingerprint snapshot reuse x :
  next_index entries published_at key_id key_fingerprint (sx_index <$> snapshot) reuse = Ok x ->
  ai_incidents x = entries /\
  match snapshot with Some s => x = sx_index s \/ ai_published_at (sx_index s) < ai_published_at x | None => True end /\
  (reuse = false -> published_at <= ai_published_at x).
Proof.
  unfold next_index. destruct snapshot as [s|]; cbn [fmap option_fmap option_map].
  - destruct (reuse && _ && _ && _) eqn:Hr.
    + intros [= <-]. inv_ok. subst. split_and!; [|by left|done].
      match goal with E : bool_decide _ = true |- _ => by apply bool_decide_eq_true in E end.
    + intros (t & [Ht1 Ht2]%next_published_at_Ok & (Hi & Hp & _)%new_index_Ok)%bind_Ok. rewrite Hp. split_and!; [done|by right|done].
  - intros (Hi & Hp & _)%new_index_Ok. rewrite Hp. split_and!; [done|done|lia].
Qed.

Lemma asset_Ok name payload maximum a : asset name payload maximum = Ok a ->
  pa_blob_name a = name /\ pa_payload a = payload /\ pa_payload_sha256 a = sha256_hex payload /\ Z.of_nat (String.length payload) <= maximum.
Proof. unfold asset, make_asset. intros Ha. inv_ok. subst. cbn in *. split_and!; try done. lia. Qed.

(** What a publication of the index holds. *)
Lemma index_publication_Ok entries published_at key_id key_vault_key_id key_fingerprint snapshot reuse x :
  build_active_incident_index_publication entries published_at key_id key_vault_key_id key_fingerprint snapshot reuse = Ok x ->
  ai_incidents (xp_active_index x) = sorted_values (dict_by ae_incident_id entries) /\
  xp_previous_active_index_sha256 x = sx_payload_sha256 <$> snapshot /\
  later snapshot (Some (published_snapshot x)) /\
  (reuse = false -> published_at <= ai_published_at (xp_active_index x)) /\
  make_index_snapshot (published_snapshot x) = Ok (published_snapshot x).
Proof.
  unfold build_active_incident_index_publication, make_index_publication. intros Hx. inv_ok. subst x.
  match goal with E : next_index _ _ _ _ _ _ = Ok _ |- _ => apply next_index_Ok in E as (Hi & Hl & Hp) end.
  match goal with E : asset "incidents/active.json" _ _ = Ok _ |- _ => apply asset_Ok in E as (_ & _ & Hsha & _) end.
  split_and!; [done|done|by destruct snapshot|done|].
  unfold make_index_snapshot, published_snapshot. cbn [sx_index sx_payload_sha256 xp_active_index xp_active_index_asset].
  rewrite Hsha. match goal with E : canonical_bytes (index_dump _) = Ok _ |- _ => rewrite E end.
  unfold mbind, result_bind. by rewrite String.eqb_refl.
Qed.

(** The entry a state leaves in the index. *)
Definition entry_for (state : IncidentState) (pointer_name pointer_sha256 : string) (e : option ActiveIncidentEntry) : Prop :=
  match is_lifecycle state with
  | IncidentActive => e = Some {| ae_incident_id := is_incident_id state; ae_scenario := is_scenario state;
      ae_workload_role := is_workload_role state; ae_pointer_path := "./" +:+ pointer_name; ae_pointer_sha256 := pointer_sha256;
      ae_detected_at := is_detected_at state; ae_updated_at := is_updated_at state |}
  | _ => e = None
  end.

(** An entry points at a state: its digest is that of a pointer to the very bytes of
    the state, under the path of that pointer, with the instants of the state. *)
Definition points_at (e : ActiveIncidentEntry) (state : IncidentState) : Prop :=
  exists pointer pointer_bytes state_bytes,
    canonical_bytes (pointer_dump pointer) = Ok pointer_bytes /\ ae_pointer_sha256 e = sha256_hex pointer_bytes /\
    canonical_bytes (state_dump state) = Ok state_bytes /\ fp_state_sha256 pointer = sha256_hex state_bytes /\
    fp_incident_id pointer = is_incident_id state /\
    ae_pointer_path e = "./" +:+ removeprefix "./" (removesuffix "/state.json" (fp_state_path pointer)) +:+ "/pointer.json" /\
    ae_detected_at e = is_detected_at state /\ ae_updated_at e = is_updated_at state.

Lemma next_entries_Ok state name sha entries l : NoDup (ids entries) -> next_entries state name sha entries = Ok l ->
  indexed l /\ sorted_values (dict_by ae_incident_id l) = l /\ entry_for state name sha (entry_of (is_incident_id state) l) /\
  (forall id, id <> is_incident_id state -> entry_of id l = entry_of id entries).
Proof.
  intros Hn Hl. enough (exists d, l = sorted_values d /\ keyed d /\ entry_for state name sha (d !! is_incident_id state) /\
    (forall id, id <> is_incident_id state -> d !! id = entry_of id entries)) as (d & -> & Hd & He & Ho).
  { split_and!; [by apply sorted_indexed|by rewrite dict_by_sorted|by rewrite entry_of_sorted|].
    intros id Hid. rewrite entry_of_sorted by done. by apply Ho. }
  unfold next_entries in Hl. case_bool_decide as Hact.
  - apply bind_Ok in Hl as (e & He & [= <-]). unfold make_entry_active, field in He. inv_ok. subst e. eexists. split; [done|].
    split_and!.
    + intros k e. rewrite lookup_insert. case_decide as Ek; [by intros [= <-]|apply dict_by_keyed].
    + rewrite lookup_insert_eq. unfold entry_for. by rewrite Hact.
    + intros id Hid. rewrite lookup_insert_ne by done. by apply dict_by_entry.
  - injection Hl as <-. eexists. split; [done|]. split_and!.
    + intros k e. rewrite lookup_delete_Some. intros [_ ?]. by apply (dict_by_keyed entries).
    + rewrite lookup_delete_eq. unfold entry_for. by destruct (is_lifecycle state).
    + intros id Hid. rewrite lookup_delete_ne by done. by apply dict_by_entry.
Qed.

(** The pointer of a publication, its asset and its state. *)
Lemma make_publication_Ok r r' : make_publication r = Ok r' -> r' = r /\
  exists bytes, canonical_bytes (pointer_dump (ip_pointer r)) = Ok bytes /\ pa_payload_sha256 (ip_pointer_asset r) = sha256_hex bytes /\
    pa_blob_name (ip_pointer_asset r) =
      removeprefix "./" (removesuffix "/state.json" (fp_state_path (ip_pointer r))) +:+ "/pointer.json".
Proof.
  unfold make_publication. intros Hr. inv_ok. subst.
  repeat match goal with E : _ && _ = true |- _ => apply andb_true_iff in E as [??] end.
  repeat match goal with E : String.eqb _ _ = true |- _ => apply String.eqb_eq in E end.
  split; [done|]. eexists. split_and!; done.
Qed.

(** The index of the publication of a state. *)
Lemma incident_publication_Ok state attestation published_at key_id key_fingerprint snapshot key_vault_key_id r :
  NoDup (ids (snapshot_entries snapshot)) ->
  build_incident_publication state attestation published_at key_id key_fingerprint snapshot key_vault_key_id = Ok r ->
  let x := ip_index r in
  indexed (ai_incidents (xp_active_index x)) /\
  match is_lifecycle state with
  | IncidentActive => exists e, entry_of (is_incident_id state) (ai_incidents (xp_active_index x)) = Some e /\
      ae_scenario e = is_scenario state /\ ae_workload_role e = is_workload_role state /\ points_at e state
  | _ => entry_of (is_incident_id state) (ai_incidents (xp_active_index x)) = None
  end /\
  (forall id, id <> is_incident_id state -> entry_of id (ai_incidents (xp_active_index x)) = entry_of id (snapshot_entries snapshot)) /\
  xp_previous_active_index_sha256 x = sx_payload_sha256 <$> snapshot /\
  later snapshot (Some (published_snapshot x)).
Proof.
  intros Hn Hr. unfold build_incident_publication in Hr. inv_ok.
  match goal with E : make_publication _ = Ok _ |- _ => apply make_publication_Ok in E as (-> & bytes & Hb & Hsha & Hname) end.
  match goal with E : next_entries _ _ _ _ = Ok _ |- _ => apply (next_entries_Ok _ _ _ _ _ Hn) in E as (Hi & Hs & He & Ho) end.
  match goal with E : build_active_incident_index_publication _ _ _ _ _ _ _ = Ok _ |- _ => apply index_publication_Ok in E as (Hx & Hp & Hl & _) end.
  cbn [ip_index ip_pointer ip_pointer_asset] in *. rewrite Hx, Hs. split; [done|]. split; [|done].
  unfold entry_for in He. destruct (is_lifecycle state); try done. eexists. split; [exact He|]. split_and!; [done|done|].
  match goal with E : make_pointer _ = Ok ?p |- _ => exists p; unfold make_pointer in E end. inv_ok. subst.
  repeat match goal with E : asset _ _ _ = Ok _ |- _ => apply asset_Ok in E as (? & ? & ? & _) end.
  do 2 eexists. cbn in *. split_and!; try eassumption; try done; congruence.
Qed.
End publication.

(** ** Signed states *)
Section signing.
Context `{PyText, Rfc8785, PydanticJson, PresentationSigner}.

(** A signed state reports the verified health of the request's incident, and its
    attestation carries the digest of the members that were signed. *)
Lemma signed_state_Ok request detected_at updated_at target_binding healthy findings reasoning key_id key_vault_key_id state attestation :
  build_signed_incident_state request detected_at updated_at target_binding healthy findings reasoning key_id key_vault_key_id =
    Ok (state, attestation) ->
  make_state state = Ok state /\
  is_incident_id state = rr_incident_id request /\ is_transition_id state = rr_idempotency_key request /\
  is_lifecycle state = (if healthy then IncidentResolved else IncidentActive) /\
  is_scenario state = rr_scenario request /\ is_workload_role state = rr_workload_role request /\
  is_detected_at state = detected_at /\ is_updated_at state = updated_at /\
  sa_result_digest attestation = is_result_digest state /\
  exists preimage, canonicalize_json (JObj (unsigned_state JTime state)) = Ok preimage /\ is_result_digest state = sha256_hex preimage.
Proof.
  unfold build_signed_incident_state. intros Hs.
  destruct (if healthy then _ else _) as [[availability blast] attention]. apply bind_Ok in Hs as (_ & _ & Hs).
  apply bind_Ok in Hs as (preimage & Hp & Hs). apply bind_Ok in Hs as (built & Hb & Hs). inv_ok.
  assert (E : built = state) by congruence. assert (Hatt : sa_result_digest attestation = sha256_hex preimage).
  { unfold make_state_attestation in *. inv_ok. by subst. }
  subst built. pose proof Hb as Hb'. unfold make_state in Hb'. inv_ok. subst state. cbn. split_and!; try done. by exists preimage.
Qed.

(** An instant that is no whole number of milliseconds cannot be signed. *)
Lemma members_raise ms k v : (k, v) ∈ ms -> is_ok (normalize_json_value v) = false -> is_ok (normalize_json_value (JObj ms)) = false.
Proof.
  intros Hk Hv. rewrite normalize_JObj. enough (forall seen, is_ok (normalize_members seen ms) = false) as Hg.
  { specialize (Hg []). by destruct (normalize_members [] ms). }
  induction ms as [|[k' v'] ms IH]; intros seen; [by apply elem_of_nil in Hk|]. cbn [normalize_members].
  destruct (bool_decide _); [done|]. apply elem_of_cons in Hk as [[= -> ->]|Hk].
  - by destruct (normalize_json_value v').
  - destruct (normalize_json_value v') as [w|]; [|done]. unfold mbind, result_bind. specialize (IH Hk (normalize_nfc_text k' :: seen)).
    by destruct (normalize_members _ ms).
Qed.

Lemma unsigned_needs_milliseconds state : microsecond (is_detected_at state) mod 1000 <> 0 \/ microsecond (is_updated_at state) mod 1000 <> 0 ->
  is_ok (canonicalize_json (JObj (unsigned_state JTime state))) = false.
Proof.
  intros Ht. unfold canonicalize_json.
  assert (Hv : forall t, microsecond t mod 1000 <> 0 -> is_ok (normalize_json_value (JTime t)) = false).
  { intros t Hm. cbn. destruct (negb (representable t)); [done|]. by rewrite (proj2 (Z.eqb_neq _ _) Hm). }
  destruct (normalize_json_value (JObj (unsigned_state JTime state))) eqn:E; [|done].
  assert (Hf : is_ok (normalize_json_value (JObj (unsigned_state JTime state))) = false); [|by rewrite E in Hf].
  destruct Ht as [Ht|Ht].
  - apply (members_raise _ "detectedAt" (JTime (is_detected_at state))); [|by apply Hv]. do 6 right. left.
  - apply (members_raise _ "updatedAt" (JTime (is_updated_at state))); [|by apply Hv]. do 7 right. left.
Qed.

Lemma submillisecond_state_unsignable request detected_at updated_at target_binding healthy findings reasoning key_id key_vault_key_id :
  microsecond detected_at mod 1000 <> 0 ->
  is_ok (build_signed_incident_state request detected_at updated_at target_binding healthy findings reasoning key_id key_vault_key_id) = false.
Proof.
  intros Hm. destruct (build_signed_incident_state _ _ _ _ _ _ _ _ _) as [[state attestation]|e] eqn:E; [|done].
  apply signed_state_Ok in E as (_ & _ & _ & _ & _ & _ & <- & _ & _ & preimage & Hp & _).
  pose proof (unsigned_needs_milliseconds state (or_introl Hm)) as Hf. by rewrite Hp in Hf.
Qed.
End signing.

(** ** The workflows over unreliable ports *)
Section workflows.
Context `{PyText, Rfc8785, PydanticJson, StateParser, PresentationSigner}.
Context {P N : Type} `{IncidentAssetPublisherPort P} {Hpub : IncidentAssetPublisherLaws P} `{NotificationOutboxLaws N}.
Abbreviation World := (P * N)%type.
Abbreviation Snapshot := (option ActiveIncidentIndexSnapshot).
Abbreviation Messages := (list (string * IncidentLifecycle * string * string)).

(** The world shows the index [X] and the enqueued messages [L]. *)
Definition holds (X : Snapshot) (L : Messages) (w : World) : Prop := index_of (fst w) = X /\ enqueued (snd w) = L.

Lemma read_index_triple X L :
  triple (holds X L) (on_publisher read_active_incident_index) (fun x w => holds X L w /\ x = X) (fun _ => holds X L).
Proof.
  intros [p n] [Hx Hl]. unfold on_publisher, zoom. cbn [fst snd] in *. pose proof (read_index_view p) as Hv.
  pose proof (read_index_value p) as Hval. destruct (read_active_incident_index p) as [[x|e] p']; cbn [fst snd] in *.
  - split; [split; cbn; congruence|]. rewrite (Hval x eq_refl). done.
  - split; cbn; congruence.
Qed.

Lemma read_state_triple X L id :
  triple (holds X L) (on_publisher (read_current_incident_state id))
    (fun c w => holds X L w /\ (forall s, c = Some s -> is_incident_id (cs_state s) = id /\ make_state_snapshot s = Ok s))
    (fun _ => holds X L).
Proof.
  intros [p n] [Hx Hl]. unfold on_publisher, zoom. cbn [fst snd] in *. pose proof (read_state_view id p) as Hv.
  pose proof (read_state_value id p) as Hval.
  destruct (read_current_incident_state id p) as [[x|e] p']; cbn [fst snd] in *; [|split; cbn; congruence].
  split; [split; cbn; congruence|]. intros s ->. by apply Hval.
Qed.

(** A publication takes effect, or raises without. *)
Lemma publish_triple X L r :
  triple (holds X L) (on_publisher (publish_incident r)) (fun _ => holds (Some (published_snapshot (ip_index r))) L)
    (fun _ w => holds X L w \/ holds (Some (published_snapshot (ip_index r))) L w).
Proof.
  intros [p n] [Hx Hl]. unfold on_publisher, zoom. cbn [fst snd] in *. pose proof (publish_incident_view r p) as Hv.
  destruct (publish_incident r p) as [[x|e] p']; cbn [fst snd is_ok] in *.
  - destruct Hv as [Hv|[_ ?]]; [|done]. by split.
  - destruct Hv as [Hv|[Hv _]]; [right|left]; split; cbn; congruence.
Qed.

(** A state of the transition of [request] in the given health. *)
Definition state_of (request : ReassessmentRequest) (healthy : bool) (state : IncidentState) : Prop :=
  is_incident_id state = rr_incident_id request /\ is_transition_id state = rr_idempotency_key request /\
  is_lifecycle state = (if healthy then IncidentResolved else IncidentActive) /\
  is_scenario state = rr_scenario request /\ is_workload_role state = rr_workload_role request.

(** The index shows a state: no entry of a resolved incident, or one that points at
    the state. *)
Definition shows (X : Snapshot) (healthy : bool) (state : IncidentState) : Prop :=
  if healthy then entry_of (is_incident_id state) (snapshot_entries X) = None
  else exists e, entry_of (is_incident_id state) (snapshot_entries X) = Some e /\ points_at e state.

(** What an operator reads. *)
Definition announcement (request : ReassessmentRequest) (healthy : bool) (state : IncidentState) (url : string) : string :=
  String.concat newline [
    (if healthy then "Athena incident RESOLVED: " else "Athena incident ACTIVE: ") +:+ scenario_value (rr_scenario request);
    "Role: " +:+ workload_role_value (rr_workload_role request);
    "Availability: " +:+ availability_value (is_availability state);
    "Blast radius: " +:+ blast_radius_value (is_blast_radius state);
    "Operator attention: " +:+ operator_attention_value (is_operator_attention state);
    "Evidence: " +:+ default "" (if_summary <$> head (is_findings state));
    "Presentation: " +:+ url;
    "";
    "Athena did not perform remediation.";
    "";
    "Sent by Kanga, my AI sidekick 🦘"].

(** At most one message is enqueued, and it announces a state that the index shows. *)
Definition announced (request : ReassessmentRequest) (healthy : bool) (url : string) (X' : Snapshot) (L L' : Messages) : Prop :=
  L' = L \/ exists state, state_of request healthy state /\ shows X' healthy state /\
    L' = L ++ [(rr_incident_id request, if healthy then IncidentResolved else IncidentActive, rr_idempotency_key request,
                announcement request healthy state url)].

Lemma notification_announces request healthy state url : state_of request healthy state ->
  notification_message state url = Some (announcement request healthy state url).
Proof.
  intros (_ & _ & Hl & Hs & Hr). unfold notification_message, announcement. rewrite Hl, Hs, Hr. by destruct healthy.
Qed.

Lemma notify_triple X L request (healthy notifications : bool) state url :
  state_of request healthy state -> shows X healthy state ->
  triple (holds X L) (notify notifications state url)
    (fun _ w => exists L', holds X L' w /\ announced request healthy url X L L')
    (fun _ w => exists L', holds X L' w /\ announced request healthy url X L L').
Proof.
  intros Hst Hsh. unfold notify. rewrite (notification_announces request healthy) by done.
  destruct notifications; [|apply triple_ret; intros w Hw; exists L; split; [done|by left]].
  intros [p n] [Hx Hl]. unfold on_outbox, zoom. cbn [fst snd] in *.
  pose proof (enqueue_view (is_incident_id state) (is_lifecycle state) (is_transition_id state)
    (announcement request healthy state url) n) as Hv.
  destruct Hst as (Hid & Htr & Hlc & Hrest). rewrite Hid, Htr, Hlc in Hv |- *.
  destruct (enqueue _ _ _ _ n) as [r n']; cbn [fst snd is_ok] in *.
  assert (Hdone : exists L', holds X L' (p, n') /\ announced request healthy url X L L').
  { destruct Hv as [Hv|[Hv _]].
    - eexists. split; [split; [done|cbn; by rewrite Hv, Hl]|]. right. by exists state.
    - exists L. split; [split; [done|cbn; congruence]|by left]. }
  by destruct r.
Qed.

(** *** A reassessment *)
Section reassessment.
Variables (reassess : ReassessmentRequest -> result VerifiedReassessmentResult) (request : ReassessmentRequest)
  (outcome : VerifiedReassessmentResult) (detected_at updated_at published_at : Z) (url key_id key_fingerprint : string)
  (key_vault_key_id : option string) (notifications : bool).
Hypothesis Houtcome : reassess request = Ok outcome.

(** The incident's entry in the index [X] agrees with the verified health. *)
Definition settled_in (X : Snapshot) : Prop :=
  (entry_of (rr_incident_id request) (snapshot_entries X) = None <-> vr_verified_healthy outcome = true).

(** [X'] is the index that follows [X] when the incident is opened or closed. *)
Definition settles (X X' : Snapshot) : Prop :=
  settled_in X' /\ later X X' /\ indexed (snapshot_entries X') /\
  (forall id, id <> rr_incident_id request -> entry_of id (snapshot_entries X') = entry_of id (snapshot_entries X)) /\
  (forall e, entry_of (rr_incident_id request) (snapshot_entries X') = Some e ->
     ae_scenario e = rr_scenario request /\ ae_workload_role e = rr_workload_role request /\
     ae_detected_at e = (match entry_of (rr_incident_id request) (snapshot_entries X) with Some b => ae_detected_at b | None => detected_at end) /\
     ae_updated_at e = Z.max updated_at (vr_observed_at outcome)).

Definition run_post (X : Snapshot) (L : Messages) (w : World) : Prop :=
  exists X' L', holds X' L' w /\ (X' = X \/ settles X X') /\ announced request (vr_verified_healthy outcome) url X' L L' /\
    (L' <> L -> settled_in X').

(** A state that is returned is one that the index shows. *)
Definition returned_shown (r : option (IncidentState * IncidentPublicationReceipt)) (w : World) : Prop :=
  match r with
  | Some (state, _) => state_of request (vr_verified_healthy outcome) state /\
      shows (index_of (fst w)) (vr_verified_healthy outcome) state
  | None => True
  end.

Lemma run_post_same X L w : holds X L w -> run_post X L w.
Proof. intros Hw. exists X, L. split_and!; [done|by left|by left|done]. Qed.

(** A settled index may only be announced. *)
Lemma run_post_announced X L w : settled_in X ->
  (exists L', holds X L' w /\ announced request (vr_verified_healthy outcome) url X L L') -> run_post X L w.
Proof. intros Hin (L' & Hw & Ha). exists X, L'. split_and!; [done|by left|done|done]. Qed.

(** An entry that is coherent with a snapshot points at its state. *)
Lemma coherent_points_at entry latest : make_state_snapshot latest = Ok latest -> entry_coherent entry latest = true ->
  points_at entry (cs_state latest).
Proof.
  unfold make_state_snapshot, entry_coherent. intros Hm Hc. inv_ok.
  repeat match goal with E : _ && _ = true |- _ => apply andb_true_iff in E as [??] end.
  repeat match goal with
  | E : String.eqb _ _ = true |- _ => apply String.eqb_eq in E
  | E : (_ =? _) = true |- _ => apply Z.eqb_eq in E
  end.
  exists (cs_pointer latest). do 2 eexists. split_and!; try eassumption; congruence.
Qed.

Lemma reconcile_triple X L entry : entry = entry_of (rr_incident_id request) (snapshot_entries X) ->
  vr_verified_healthy outcome = bool_decide (entry = None) ->
  triple (holds X L) (reconcile request (vr_verified_healthy outcome) X entry url notifications)
    (fun r w => run_post X L w /\ index_of (fst w) = X /\ returned_shown r w) (fun _ => run_post X L).
Proof.
  intros He Hh. assert (Hin : settled_in X) by (unfold settled_in; rewrite <- He, Hh; by rewrite bool_decide_eq_true).
  assert (Hsame : forall w, holds X L w -> run_post X L w /\ index_of (fst w) = X /\ returned_shown None w).
  { intros w Hw. split_and!; [by apply run_post_same|apply Hw|done]. }
  unfold reconcile. eapply triple_bind.
  { eapply triple_consequence; [apply (read_state_triple X L)|done|by intros a w Hw; exact Hw|by intros e w ?%run_post_same]. }
  intros latest. apply triple_pure. intros Hid. destruct latest as [latest|]; [|by apply triple_ret].
  destruct (Hid latest eq_refl) as [Hi Hm].
  destruct (String.eqb _ _ && _ && _ && _) eqn:Hg; [|by apply triple_ret].
  apply andb_true_iff in Hg as [[[Ht%String.eqb_eq Hl%bool_decide_eq_true]%andb_true_iff Hs%bool_decide_eq_true]%andb_true_iff
    Hr%bool_decide_eq_true].
  set (healthy := vr_verified_healthy outcome) in *.
  assert (Hst : state_of request healthy (cs_state latest)) by by split_and!.
  eapply (triple_bind _ _ _ (fun _ w => holds X L w /\ shows X healthy (cs_state latest)));
    [apply triple_lift; [intros u w Hc Hw; split; [done|]|by intros e w _ ?%run_post_same]|].
  { unfold shows. rewrite Hi, <- He. destruct healthy, entry as [e|]; try done. exists e. split; [done|].
    apply coherent_points_at; [done|]. by inv_ok. }
  intros u0. apply triple_pure. intros Hsh. eapply triple_bind.
  { eapply triple_consequence; [apply (notify_triple X L request healthy notifications (cs_state latest) url Hst Hsh)|done|
      by intros a w Hw; exact Hw|by intros e w ?%run_post_announced]. }
  intros u. assert (Hdone : forall r w, (forall p, r = Some p -> fst p = cs_state latest) ->
    (exists L', holds X L' w /\ announced request healthy url X L L') -> run_post X L w /\ index_of (fst w) = X /\ returned_shown r w).
  { intros r w Hp Hw. split; [by apply run_post_announced|]. destruct Hw as (L' & [Hx _] & _). split; [done|].
    unfold returned_shown. destruct r as [[st rc]|]; [|done]. specialize (Hp _ eq_refl). cbn in Hp. subst st. by rewrite Hx. }
  destruct (cs_occurrence latest) as [o|]; [|apply triple_ret; intros w; by apply Hdone].
  destruct X as [s|] eqn:EX; [|apply triple_ret; intros w; by apply Hdone].
  eapply (triple_bind _ _ _ (fun _ w => exists L', holds (Some s) L' w /\ announced request healthy url (Some s) L L'));
    [apply triple_lift; [done|intros e w _ Hw; by apply run_post_announced]|].
  intros receipt. apply triple_ret. intros w. apply Hdone. by intros p [= <-].
Qed.

(** The index of the publication of a verified outcome settles the incident. *)
Lemma publication_settles X state attestation instant r :
  indexed (snapshot_entries X) ->
  build_signed_incident_state request
    (match entry_of (rr_incident_id request) (snapshot_entries X) with Some e => ae_detected_at e | None => detected_at end)
    (Z.max updated_at (vr_observed_at outcome)) (vr_target_binding outcome) (vr_verified_healthy outcome)
    (vr_findings outcome) (vr_reasoning outcome) key_id (Some (text_or key_vault_key_id key_id)) = Ok (state, attestation) ->
  build_incident_publication state attestation instant key_id key_fingerprint X (Some (text_or key_vault_key_id key_id)) = Ok r ->
  settles X (Some (published_snapshot (ip_index r))) /\
  shows (Some (published_snapshot (ip_index r))) (vr_verified_healthy outcome) state.
Proof.
  intros [_ Hn] (_ & Hid & _ & Hl & Hsc & Hro & Hdet & Hup & _)%signed_state_Ok Hr.
  destruct (incident_publication_Ok _ _ _ _ _ _ _ _ Hn Hr) as (Hi & He & Ho & _ & Hla).
  rewrite Hl in He. rewrite Hid in He, Ho. unfold settles, settled_in, shows. cbn [snapshot_entries published_snapshot sx_index] in *.
  rewrite Hid. destruct (vr_verified_healthy outcome).
  - rewrite He. by refine (conj (conj _ (conj Hla (conj Hi (conj Ho _)))) _).
  - destruct He as (x & -> & Hx1 & Hx2 & Hpt). refine (conj (conj _ (conj Hla (conj Hi (conj Ho _)))) _); [done| |by exists x].
    intros e [= <-]. destruct Hpt as (_ & _ & _ & _ & _ & _ & _ & _ & _ & Hx3 & Hx4). split_and!; congruence.
Qed.

Lemma reassessment_triple X L : indexed (snapshot_entries X) ->
  triple (holds X L)
    (run_incident_reassessment reassess request detected_at updated_at published_at url key_id key_fingerprint key_vault_key_id notifications)
    (fun r w => run_post X L w /\ settled_in (index_of (fst w)) /\ returned_shown r w) (fun _ => run_post X L).
Proof.
  intros Hi. unfold run_incident_reassessment. rewrite Houtcome.
  eapply (triple_bind _ _ _ (fun o w => holds X L w /\ o = outcome)); [apply triple_lift; [by intros o w [= <-]|done]|].
  intros o. apply triple_pure. intros ->.
  eapply (triple_bind _ _ _ (fun _ => holds X L)); [apply triple_lift; [done|by intros e w _ ?%run_post_same]|]. intros u1.
  eapply triple_bind; [eapply triple_consequence; [apply (read_index_triple X L)|done|by intros a w Hw; exact Hw|by intros e w ?%run_post_same]|].
  intros snapshot. apply triple_pure. intros ->. cbv zeta. set (entry := entry_of (rr_incident_id request) (snapshot_entries X)).
  eapply (triple_bind _ _ _ (fun _ => holds X L)); [apply triple_lift; [done|by intros e w _ ?%run_post_same]|]. intros u2.
  destruct (Bool.eqb _ _) eqn:Hnoop.
  - apply eqb_prop in Hnoop. eapply triple_post; [by apply (reconcile_triple X L entry)|].
    intros res w (Hpost & Hx & Hret). split_and!; [done| |done]. rewrite Hx. unfold settled_in. fold entry. rewrite Hnoop. by rewrite bool_decide_eq_true.
  - eapply (triple_bind _ _ _ (fun sa w => holds X L w /\ build_signed_incident_state request _ _ _ _ _ _ _ _ = Ok sa));
      [apply triple_lift; [by intros a w E Hw|by intros e w _ ?%run_post_same]|].
    intros [state attestation]. apply triple_pure. intros Hs.
    eapply (triple_bind _ _ _ (fun r w => holds X L w /\ build_incident_publication state attestation _ _ _ _ _ = Ok r));
      [apply triple_lift; [by intros a w E Hw|by intros e w _ ?%run_post_same]|].
    intros r. apply triple_pure. intros Hr. destruct (publication_settles X state attestation published_at r Hi Hs Hr) as [Hset Hsh].
    pose proof (signed_state_Ok _ _ _ _ _ _ _ _ _ _ _ Hs) as (_ & Hid & Htr & Hl & Hsc & Hro & _).
    assert (Hst : state_of request (vr_verified_healthy outcome) state) by by split_and!.
    set (X' := Some (published_snapshot (ip_index r))) in *.
    eapply triple_bind; [eapply triple_consequence; [apply (publish_triple X L r)|done|by intros a w Hw; exact Hw|]|].
    { intros e w [Hw|Hw]; [by apply run_post_same|]. exists X', L. split_and!; [done|by right|by left|done]. }
    intros receipt. assert (Hfinal : forall w, (exists L', holds X' L' w /\ announced request (vr_verified_healthy outcome) url X' L L') -> run_post X L w).
    { intros w (L' & Hw & Ha). exists X', L'. split_and!; [done|by right|done|]. intros _. apply Hset. }
    eapply triple_bind; [eapply triple_consequence; [apply (notify_triple X' L request (vr_verified_healthy outcome) notifications state url Hst Hsh)|done|
      by intros a w Hw; exact Hw|by intros e w ?%Hfinal]|].
    intros u3. apply triple_ret. intros w Hw. split; [by apply Hfinal|]. destruct Hw as (L' & [Hx _] & _).
    unfold returned_shown. rewrite Hx. split; [apply Hset|done].
Qed.

(** C30: a completed reassessment leaves the index in agreement with the verified
    health. Whatever else fails, a run leaves the entries of other incidents
    alone; if it returns, its incident has an entry exactly if it was found
    unhealthy, with the scenario and role of the request and the instant at which
    the incident was first detected. It enqueues at most one message, whose text
    announces, with the verified lifecycle, a state of this transition that the index
    shows: the incident has no entry if it is resolved, and otherwise its entry carries
    the digest of a pointer to the very bytes of that state; a state that is returned
    is shown in the same way. *)
Theorem reassessment_settles_index w res w' : indexed (snapshot_entries (index_of (fst w))) ->
  run_incident_reassessment reassess request detected_at updated_at published_at url key_id key_fingerprint key_vault_key_id
    notifications w = (res, w') ->
  let X := index_of (fst w) in let X' := index_of (fst w') in
  let L := enqueued (snd w) in let L' := enqueued (snd w') in
  (X' = X \/ settles X X') /\
  (forall r, res = Ok r -> settled_in X' /\ returned_shown r w') /\
  announced request (vr_verified_healthy outcome) url X' L L' /\ (L' <> L -> settled_in X').
Proof.
  intros Hi E. pose proof (reassessment_triple (index_of (fst w)) (enqueued (snd w)) Hi w (conj eq_refl eq_refl)) as Ht.
  rewrite E in Ht. cbv zeta. destruct res as [r|e].
  - destruct Ht as [(X' & L' & [<- <-] & Hx & Ha & Hn) Hs]. split_and!; try done. by intros r' [= <-].
  - destruct Ht as (X' & L' & [<- <-] & Hx & Ha & Hn). done.
Qed.

(** An event whose instant is no whole number of milliseconds never opens an incident. *)
Theorem submillisecond_event_never_opens X L w : X = index_of (fst w) -> L = enqueued (snd w) ->
  microsecond detected_at mod 1000 <> 0 -> vr_verified_healthy outcome = false ->
  entry_of (rr_incident_id request) (snapshot_entries X) = None ->
  is_ok (fst (run_incident_reassessment reassess request detected_at updated_at published_at url key_id key_fingerprint
    key_vault_key_id notifications w)) = false /\
  index_of (fst (snd (run_incident_reassessment reassess request detected_at updated_at published_at url key_id key_fingerprint
    key_vault_key_id notifications w))) = X.
Proof.
  intros HX HL Hm Hh Hn.
  enough (triple (holds X L) (run_incident_reassessment reassess request detected_at updated_at published_at url key_id
    key_fingerprint key_vault_key_id notifications) (fun _ _ => False) (fun _ => holds X L)) as Ht.
  { specialize (Ht w (conj (eq_sym HX) (eq_sym HL))). destruct (run_incident_reassessment _ _ _ _ _ _ _ _ _ _ _) as [[r|e] w']; [done|].
    by destruct Ht. }
  unfold run_incident_reassessment. rewrite Houtcome.
  eapply (triple_bind _ _ _ (fun o w => holds X L w /\ o = outcome)); [apply triple_lift; [by intros o w1 [= <-]|done]|].
  intros o. apply triple_pure. intros ->.
  eapply (triple_bind _ _ _ (fun _ => holds X L)); [by apply triple_lift|]. intros u1.
  eapply triple_bind; [eapply triple_consequence; [apply (read_index_triple X L)|done|by intros a w1 Hw; exact Hw|done]|].
  intros snapshot. apply triple_pure. intros ->. cbv zeta. rewrite Hn, Hh.
  eapply (triple_bind _ _ _ (fun _ => holds X L)); [by apply triple_lift|]. intros u2. rewrite (bool_decide_eq_true_2 (None = None)) by done.
  cbn [Bool.eqb]. eapply (triple_bind _ _ _ (fun _ _ => False)); [|by intros a w1 []].
  apply triple_lift; [|done]. intros sa w1 E. pose proof (submillisecond_state_unsignable request detected_at
    (Z.max updated_at (vr_observed_at outcome)) (vr_target_binding outcome) false (vr_findings outcome) (vr_reasoning outcome)
    key_id (Some (text_or key_vault_key_id key_id)) Hm) as Hf. by rewrite E in Hf.
Qed.
End reassessment.

(** *** The heartbeat *)

(** The index agrees with the verified health of every observation. *)
Definition agrees_with (observations : list ReassessmentRequest) (entries : list ActiveIncidentEntry) : Prop :=
  (forall r, r ∈ observations -> rr_lifecycle r = Activated -> is_Some (entry_of (rr_incident_id r) entries)) /\
  (forall id e, entry_of id entries = Some e ->
     exists r, r ∈ observations /\ rr_lifecycle r = Activated /\ rr_incident_id r = id /\
       ae_scenario e = rr_scenario r /\ ae_workload_role e = rr_workload_role r).

Lemma validate_health_Ok X observations : NoDup (ids (snapshot_entries X)) ->
  validate_active_index_health X observations = Ok tt -> agrees_with observations (snapshot_entries X).
Proof.
  intros Hn. unfold validate_active_index_health. intros Hv. inv_ok.
  match goal with E : bool_decide _ = true |- _ => apply bool_decide_eq_true in E as Hdom end.
  match goal with E : forallb _ _ = true |- _ => rewrite List.forallb_forall in E; rename E into Hall end.
  set (active := select _ observations) in *. set (expected := dict_by rr_incident_id active) in *.
  split.
  - intros r Hr Hl. assert (Ha : r ∈ active) by (apply elem_of_select; split; [done|by apply bool_decide_eq_true]).
    destruct (dict_by_is_Some rr_incident_id active r Ha) as [r' Hr']. rewrite <- dict_by_entry by done.
    apply elem_of_dom. rewrite Hdom. apply elem_of_dom. by exists r'.
  - intros id e He. assert (Hid : id ∈ dom expected).
    { rewrite <- Hdom. apply elem_of_dom. exists e. by rewrite dict_by_entry. }
    apply elem_of_dom in Hid as [r Hr]. specialize (Hall (id, r)). cbv beta iota in Hall. rewrite dict_by_entry, He in Hall by done.
    assert (Hin : (id, r) ∈ map_to_list expected) by by apply elem_of_map_to_list.
    apply list_elem_of_In in Hin. specialize (Hall Hin). apply andb_true_iff in Hall as [Hs%bool_decide_eq_true Hw%bool_decide_eq_true].
    apply dict_by_lookup_Some in Hr as [[Hr Hl%bool_decide_eq_true]%elem_of_select <-]. by exists r.
Qed.

Definition shows_index (X : Snapshot) (p : P) : Prop := index_of p = X.

Lemma read_publisher_triple X :
  triple (shows_index X) read_active_incident_index (fun x p => shows_index X p /\ x = X) (fun _ => shows_index X).
Proof.
  intros p Hx. unfold shows_index in *. pose proof (read_index_view p) as Hv. pose proof (read_index_value p) as Hval.
  destruct (read_active_incident_index p) as [[x|e] p']; cbn [fst snd] in *; [|congruence].
  split; [congruence|]. rewrite (Hval x eq_refl). done.
Qed.

Lemma publish_index_triple X x :
  triple (shows_index X) (publish_active_incident_index x)
    (fun y p => shows_index (Some (published_snapshot x)) p /\ y = published_snapshot x)
    (fun _ p => shows_index X p \/ shows_index (Some (published_snapshot x)) p).
Proof.
  intros p Hx. unfold shows_index in *. pose proof (publish_index_view x p) as Hv.
  destruct (publish_active_incident_index x p) as [[y|e] p']; cbn [fst snd is_ok] in *.
  - destruct Hv as [(Hv & Hy)|[_ ?]]; [|done]. split; [done|by apply Hy].
  - destruct Hv as [(Hv & _)|[Hv _]]; [right|left]; congruence.
Qed.

Section heartbeat.
Variables (observations : list ReassessmentRequest) (published_at : Z) (key_id key_fingerprint : string) (key_vault_key_id : option string).

(** A world whose index follows [X]. *)
Definition follows (X : Snapshot) (p : P) : Prop := later X (index_of p) /\ indexed (snapshot_entries (index_of p)).

Definition vouched (X : Snapshot) (y : ActiveIncidentIndexSnapshot) (p : P) : Prop :=
  follows X p /\ index_of p = Some y /\ agrees_with observations (ai_incidents (sx_index y)) /\
  published_at <= ai_published_at (sx_index y).

Lemma heartbeat_publication_Ok X x : indexed (snapshot_entries X) ->
  build_active_incident_index_heartbeat published_at key_id key_fingerprint X (Some (text_or key_vault_key_id key_id)) = Ok x ->
  snapshot_entries (Some (published_snapshot x)) = snapshot_entries X /\ later X (Some (published_snapshot x)) /\
  published_at <= ai_published_at (xp_active_index x).
Proof.
  intros Hi (Hx & _ & Hl & Hp & _)%index_publication_Ok. cbn [snapshot_entries published_snapshot sx_index].
  rewrite Hx, indexed_sorted by done. split_and!; [done|done|by apply Hp].
Qed.

Lemma follows_shown X Y p : shows_index Y p -> later X Y -> indexed (snapshot_entries Y) -> follows X p.
Proof. unfold shows_index, follows. by intros ->. Qed.

(** After a conflict: the index of another writer is taken if it is late enough. *)
Lemma latest_triple X t (retry : stateful P ActiveIncidentIndexSnapshot) : published_at <= t ->
  triple (follows X) retry (vouched X) (fun _ => follows X) ->
  triple (follows X)
    (latest ← read_active_incident_index;
     _ ← lift (validate_active_index_health latest observations);
     match latest with
     | Some l => if t <=? ai_published_at (sx_index l) then mret l else retry
     | None => retry
     end) (vouched X) (fun _ => follows X).
Proof.
  intros Ht Hretry. eapply (triple_pre _ _ (fun p => exists Y, shows_index Y p /\ (later X Y /\ indexed (snapshot_entries Y)))).
  { intros p Hp. exists (index_of p). by split. }
  apply triple_exists. intros Y. apply triple_pure. intros [HXY HY].
  assert (HE : forall p, shows_index Y p -> follows X p) by (intros p Hp; by apply (follows_shown X Y)).
  eapply triple_bind; [eapply triple_consequence; [apply (read_publisher_triple Y)|done|by intros a w Hw; exact Hw|by intros e w ?%HE]|].
  intros latest. apply triple_pure. intros ->.
  eapply (triple_bind _ _ _ (fun _ p => shows_index Y p /\ agrees_with observations (snapshot_entries Y)));
    [apply triple_lift; [intros [] w Hv Hw; split; [done|by apply validate_health_Ok; [apply HY|]]|by intros e w _ ?%HE]|].
  intros u. apply triple_pure. intros Hag. destruct Y as [l|]; [|by apply (triple_pre _ _ (follows X))].
  destruct (Z.leb_spec t (ai_published_at (sx_index l))); [|by apply (triple_pre _ _ (follows X))].
  apply triple_ret. intros p Hp. refine (conj (HE p Hp) (conj Hp (conj Hag _))). lia.
Qed.

Lemma attempts_triple X n conflict :
  triple (follows X) (heartbeat_attempts n conflict observations published_at key_id key_fingerprint key_vault_key_id)
    (vouched X) (fun _ => follows X).
Proof.
  revert conflict. induction n as [|n IH]; intros conflict; [by apply triple_lift|].
  cbn [heartbeat_attempts]. eapply (triple_pre _ _ (fun p => exists Y, shows_index Y p /\ (later X Y /\ indexed (snapshot_entries Y)))).
  { intros p Hp. exists (index_of p). by split. }
  apply triple_exists. intros Y. apply triple_pure. intros [HXY HY].
  assert (HE : forall p, shows_index Y p -> follows X p) by (intros p Hp; by apply (follows_shown X Y)).
  eapply triple_bind; [eapply triple_consequence; [apply (read_publisher_triple Y)|done|by intros a w Hw; exact Hw|by intros e w ?%HE]|].
  intros snapshot. apply triple_pure. intros ->.
  eapply (triple_bind _ _ _ (fun _ p => shows_index Y p /\ agrees_with observations (snapshot_entries Y)));
    [apply triple_lift; [intros [] w Hv Hw; split; [done|by apply validate_health_Ok; [apply HY|]]|by intros e w _ ?%HE]|].
  intros u. apply triple_pure. intros Hag.
  eapply (triple_bind _ _ _ (fun x p => shows_index Y p /\ build_active_incident_index_heartbeat published_at key_id key_fingerprint Y _ = Ok x));
    [apply triple_lift; [by intros x w Hv Hw|by intros e w _ ?%HE]|].
  intros x. apply triple_pure. intros (Hent & Hlat & Htime)%(heartbeat_publication_Ok Y x HY).
  set (Y' := Some (published_snapshot x)) in *.
  assert (HXY' : later X Y') by by eapply later_trans. assert (HY' : indexed (snapshot_entries Y')) by by rewrite Hent.
  assert (HE' : forall p, shows_index Y p \/ shows_index Y' p -> follows X p) by (intros p [?|?]; [by apply HE|by apply (follows_shown X Y')]).
  eapply (triple_catching _ _ _ _ _ (fun _ p => shows_index Y p \/ shows_index Y' p)); [|intros e k Hk|by intros e w _ ?%HE'].
  - eapply triple_post; [apply (publish_index_triple Y x)|]. intros y p [Hp ->].
    refine (conj (HE' p (or_intror Hp)) (conj Hp (conj _ Htime))). change (agrees_with observations (snapshot_entries Y')). by rewrite Hent.
  - destruct e; try discriminate Hk. injection Hk as <-. apply (triple_pre _ _ (follows X)); [exact HE'|]. by apply latest_triple.
Qed.

(** C32: a heartbeat vouches for the index it returns. From any publisher whose
    index is well formed, whatever other calls fail or conflict, an index is
    returned only if it is the current one, holds exactly the incidents of the
    activated observations with their scenarios and roles, and was published no
    earlier than asked. *)
Theorem heartbeat_vouches_for_health p y p' : indexed (snapshot_entries (index_of p)) ->
  run_active_incident_index_heartbeat observations published_at key_id key_fingerprint key_vault_key_id p = (Ok y, p') ->
  index_of p' = Some y /\ agrees_with observations (ai_incidents (sx_index y)) /\
  published_at <= ai_published_at (sx_index y) /\ later (index_of p) (index_of p').
Proof.
  intros Hi Hrun. assert (Hf : follows (index_of p) p) by (split; [apply later_refl|done]).
  unfold run_active_incident_index_heartbeat in Hrun. pose proof (attempts_triple (index_of p) 3 None p Hf) as Ht.
  destruct (raise_if _ _) as [|e]; [|done]. unfold mbind at 1, stateful_bind at 1 in Hrun. cbn [lift] in Hrun.
  destruct (guard_or _ _) as [|e]; [|done]. unfold mbind at 1, stateful_bind at 1 in Hrun. cbn [lift] in Hrun.
  rewrite Hrun in Ht. destruct Ht as ([Hl _] & Hy & Ha & Hp). done.
Qed.
End heartbeat.

(** *** Both workflows together *)
Inductive incident_step : World -> World -> Prop :=
  | reassessment_step reassess request detected_at updated_at published_at url key_id key_fingerprint key_vault_key_id notifications w r w' :
      run_incident_reassessment reassess request detected_at updated_at published_at url key_id key_fingerprint key_vault_key_id
        notifications w = (r, w') -> incident_step w w'
  | heartbeat_step observations published_at key_id key_fingerprint key_vault_key_id p n r p' :
      run_active_incident_index_heartbeat observations published_at key_id key_fingerprint key_vault_key_id p = (r, p') ->
      incident_step (p, n) (p', n).

Lemma step_follows w w' : indexed (snapshot_entries (index_of (fst w))) -> incident_step w w' ->
  later (index_of (fst w)) (index_of (fst w')) /\ indexed (snapshot_entries (index_of (fst w'))).
Proof.
  intros Hi Hs. destruct Hs as [reassess request detected_at updated_at published_at url key_id fp vault notifications w r w' E
    |observations published_at key_id fp vault p n r p' E].
  - destruct (reassess request) as [outcome|e] eqn:Ho.
    + assert (Hp : run_post request outcome detected_at updated_at url (index_of (fst w)) (enqueued (snd w)) w').
      { pose proof (reassessment_triple reassess request outcome detected_at updated_at published_at url key_id fp vault notifications
          Ho (index_of (fst w)) (enqueued (snd w)) Hi w (conj eq_refl eq_refl)) as Ht. rewrite E in Ht. by destruct r as [r|e]; [destruct Ht as [Ht _]|]. }
      destruct Hp as (X' & L' & [<- _] & [->|(_ & Hl & Hx & _)] & _); [|done]. split; [apply later_refl|done].
    + unfold run_incident_reassessment in E. rewrite Ho in E. injection E as <- <-. split; [apply later_refl|done].
  - cbn [fst] in *. assert (Hf : follows (index_of p) p) by (split; [apply later_refl|done]).
    assert (Ht : keeps (follows (index_of p)) (run_active_incident_index_heartbeat observations published_at key_id fp vault)).
    { unfold run_active_incident_index_heartbeat. apply keeps_bind; [apply keeps_lift|]. intros _. apply keeps_bind; [apply keeps_lift|].
      intros _. eapply triple_post; [apply attempts_triple|]. by intros y q [Hq _]. }
    exact (triple_run _ _ _ _ _ _ Ht Hf E).
Qed.

(** C31: the active-incident index never moves back. Over any sequence of
    reassessments and heartbeats, whatever they verify and however their ports fail,
    the index stays sorted with one entry for each incident, and it is either the one
    it was or one published at a strictly later instant. *)
Theorem active_index_moves_forward w w' : indexed (snapshot_entries (index_of (fst w))) -> rtc incident_step w w' ->
  later (index_of (fst w)) (index_of (fst w')) /\ indexed (snapshot_entries (index_of (fst w'))).
Proof.
  intros Hi Hs. revert Hi. induction Hs as [w|w1 w2 w3 Hs1 _ IH]; intros Hi; [split; [apply later_refl|done]|].
  destruct (step_follows w1 w2 Hi Hs1) as [Hl2 Hi2]. destruct (IH Hi2) as [Hl3 Hi3]. split; [by eapply later_trans|done].
Qed.
End workflows.

(** ** An in-memory deployment *)
Module IncidentDemo.
#[local] Existing Instance ascii_text.
#[local] Instance braces : Rfc8785 := fun _ => "{}".
#[local] Instance iso_json : PydanticJson := isoformat_z.
#[local] Instance signer : PresentationSigner := fun _ => Ok "QQ==".

(** The incident of a web server and its verified outcomes. *)
Definition trigger : NormalizedMonitorEvent :=
  {| ne_event_id := "evt-000000000000"; ne_deduplication_key := "sha256:00"; ne_source_system := AzureEventGrid;
     ne_signal_kind := ResourceHealth; ne_lifecycle := Activated; ne_severity := SeverityCritical; ne_subscription_id := "s";
     ne_resource_group_name := "rg"; ne_target_resource_id := "/subscriptions/s"; ne_target_resource_type := VirtualMachines;
     ne_operation_name := "op"; ne_observed_at := 0; ne_received_at := 0; ne_source_digest := "sha256:00" |}.
Definition zeros : string := "0000000000000000000000000000000000000000000000000000000000000000".
Definition fingerprint : string := "sha256:" +:+ zeros.
Definition now : Z := 1700000040 * second.
Definition request : ReassessmentRequest :=
  {| rr_request_id := "reassess-000000000000"; rr_incident_id := "inc-000000000000"; rr_trigger_event_id := "evt-000000000000";
     rr_trigger_event := trigger; rr_scenario := WebServerFailure; rr_workload_role := Web;
     rr_target_resource_id := "/subscriptions/s"; rr_lifecycle := Activated; rr_idempotency_key := "wc016-" +:+ zeros |}.
Definition finding : IncidentFinding :=
  {| if_clause_id := "web"; if_verdict := FindingFail; if_summary := "The web server is stopped."; if_evidence_refs := [] |}.
Definition unhealthy : VerifiedReassessmentResult :=
  {| vr_request_id := "reassess-000000000000"; vr_snapshot_id := "s"; vr_observed_at := now; vr_target_binding := fingerprint;
     vr_verified_healthy := false; vr_findings := [finding]; vr_reasoning := ["No health probe answered."] |}.

(** The parser reads the state of that outcome back. *)
Definition signed : result (IncidentState * IncidentStateAttestation) :=
  build_signed_incident_state request now now fingerprint false (vr_findings unhealthy) (vr_reasoning unhealthy) "key" None.
#[local] Instance one_state : StateParser := fun _ => fst <$> signed.

(** A publisher that keeps the index, compared by digest, and the last published state. *)
Record Publisher := { kept_index : option ActiveIncidentIndexSnapshot; kept_state : option CurrentIncidentStateSnapshot }.

Definition replace_index (x : ActiveIncidentIndexPublicationRequest) (p : Publisher) : option Publisher :=
  if bool_decide (xp_previous_active_index_sha256 x = sx_payload_sha256 <$> kept_index p)
  then Some {| kept_index := Some (published_snapshot x); kept_state := kept_state p |} else None.

(** The snapshot kept of a publication. *)
Definition keep_state (r : IncidentPublicationRequest) (p : Publisher) : Publisher :=
  {| kept_index := kept_index p;
     kept_state := match parse_state (pa_payload (ip_state r)) with
                   | Ok state => Some {| cs_state := state; cs_pointer := ip_pointer r;
                       cs_pointer_sha256 := pa_payload_sha256 (ip_pointer_asset r); cs_occurrence := None |}
                   | Raise _ => kept_state p
                   end |}.

(** The kept state of an incident, checked. *)
Definition read_kept (id : string) (p : Publisher) : result (option CurrentIncidentStateSnapshot) :=
  match kept_state p with
  | Some c => if String.eqb (is_incident_id (cs_state c)) id then Some <$> make_state_snapshot c else Ok None
  | None => Ok None
  end.

#[local] Instance publisher : IncidentAssetPublisherPort Publisher := {|
  read_active_incident_index := fun p => (Ok (kept_index p), p);
  read_current_incident_state := fun id p => (read_kept id p, p);
  publish_incident := fun r p =>
    match replace_index (ip_index r) p with
    | Some p' => (Ok {| ir_incident_id := fp_incident_id (ip_pointer r); ir_pointer_sha256 := pa_payload_sha256 (ip_pointer_asset r);
                        ir_active_index_sha256 := pa_payload_sha256 (xp_active_index_asset (ip_index r)); ir_occurrence := None |},
                  keep_state r p')
    | None => (Raise PresentationAssetAlreadyExistsError, p)
    end;
  publish_active_incident_index := fun x p =>
    match replace_index x p with
    | Some p' => (Ok (published_snapshot x), p')
    | None => (Raise PresentationAssetAlreadyExistsError, p)
    end |}.

Lemma make_state_snapshot_id c c' : make_state_snapshot c = Ok c' -> c' = c.
Proof. unfold make_state_snapshot. intros Hc. inv_ok. done. Qed.

#[local] Program Instance publisher_laws : IncidentAssetPublisherLaws Publisher := {| index_of := kept_index |}.
Next Obligation. done. Qed.
Next Obligation. intros s x E. by injection E as <-. Qed.
Next Obligation. done. Qed.
Next Obligation.
  intros id s c. cbn. unfold read_kept. destruct (kept_state s) as [c'|]; [|done]. destruct (String.eqb_spec (is_incident_id (cs_state c')) id) as [E|]; [|done].
  destruct (make_state_snapshot c') as [c''|] eqn:Em; [|done]. cbn. intros [= <-].
  pose proof (make_state_snapshot_id c' c'' Em) as ->. done.
Qed.
Next Obligation.
  intros r s. cbn. unfold replace_index. case_bool_decide; [by left|by right].
Qed.
Next Obligation.
  intros x s. cbn. unfold replace_index. case_bool_decide; [left|by right]. split; [done|by intros y [= <-]].
Qed.

Definition Outbox : Type := list (string * IncidentLifecycle * string * string).
#[local] Instance outbox : NotificationOutboxPort Outbox := fun id l t m n => (Ok tt, n ++ [(id, l, t, m)]).
#[local] Instance outbox_laws : NotificationOutboxLaws Outbox.
Proof. refine {| enqueued n := n |}. intros id l t m n. by left. Defined.

Definition empty : Publisher := {| kept_index := None; kept_state := None |}.

(** An observation of a healthy server. *)
Definition quiet : ReassessmentRequest :=
  {| rr_request_id := "reassess-000000000000"; rr_incident_id := "inc-000000000000"; rr_trigger_event_id := "evt-000000000000";
     rr_trigger_event := trigger; rr_scenario := WebServerFailure; rr_workload_role := Web;
     rr_target_resource_id := "/subscriptions/s"; rr_lifecycle := Resolved; rr_idempotency_key := "wc016-" +:+ zeros |}.

(** The index the first heartbeat publishes. *)
Abbreviation first_beat := (run_active_incident_index_heartbeat [quiet] now "key" fingerprint None empty).

Lemma first_beat_Ok : exists y p', first_beat = (Ok y, p').
Proof. do 2 eexists. vm_compute. reflexivity. Qed.

Lemma empty_indexed : indexed (snapshot_entries (index_of empty)).
Proof. split; [reflexivity|apply NoDup_nil_2]. Qed.

Lemma heartbeat_vouches_for_health_witness : exists y p', first_beat = (Ok y, p') /\ now <= ai_published_at (sx_index y).
Proof.
  destruct first_beat_Ok as (y & p' & E). exists y, p'. split; [exact E|].
  destruct (heartbeat_vouches_for_health [quiet] now "key" fingerprint None empty y p' empty_indexed E) as (_ & _ & Ht & _). exact Ht.
Defined.

Definition start : Publisher * Outbox := (empty, []).

(** The run that opens the incident, and its retry by a second delivery. *)
Abbreviation reassessed w :=
  (run_incident_reassessment (fun _ => Ok unhealthy) request now now now "url" "key" fingerprint None true w).

Definition opening : string * IncidentLifecycle * string * string :=
  ("inc-000000000000", IncidentActive, "wc016-" +:+ zeros, String.concat newline [
    "Athena incident ACTIVE: webServerFailure"; "Role: web"; "Availability: warning"; "Blast radius: web-tier";
    "Operator attention: required"; "Evidence: The web server is stopped."; "Presentation: url"; "";
    "Athena did not perform remediation."; ""; "Sent by Kanga, my AI sidekick 🦘"]).

(** The first run opens the incident, the second finds it open; both announce it. *)
Lemma opening_runs : exists r w1 w2,
  reassessed start = (Ok (Some r), w1) /\ snd w1 = [opening] /\ reassessed w1 = (Ok None, w2) /\ snd w2 = [opening; opening].
Proof.
  assert (Hrun : match reassessed start with
    | (Ok (Some _), w1) => match reassessed w1 with
                           | (Ok None, w2) => bool_decide (snd w1 = [opening]) && bool_decide (snd w2 = [opening; opening])
                           | _ => false
                           end
    | _ => false
    end = true) by vm_cast_no_check (eq_refl true).
  destruct (reassessed start) as [[[r|]|] w1]; try done. exists r, w1.
  destruct (reassessed w1) as [[[r2|]|] w2]; try done. exists w2.
  apply andb_true_iff in Hrun as [H1%bool_decide_eq_true H2%bool_decide_eq_true]. done.
Qed.

Lemma reassessment_settles_index_witness : exists r w1 w2,
  reassessed start = (Ok (Some r), w1) /\ reassessed w1 = (Ok None, w2) /\ snd w2 = [opening; opening] /\
  shows (index_of (fst w1)) false (fst r) /\ settled_in request unhealthy (index_of (fst w2)).
Proof.
  destruct opening_runs as ([state receipt] & w1 & w2 & E1 & _ & E2 & L2). exists (state, receipt), w1, w2.
  destruct (reassessment_settles_index (fun _ => Ok unhealthy) request unhealthy now now now "url" "key" fingerprint None true eq_refl
    start _ w1 empty_indexed E1) as (Hx & Hr & _).
  assert (Hi : indexed (snapshot_entries (index_of (fst w1)))) by (destruct Hx as [->|(_ & _ & Hi & _)]; [exact empty_indexed|exact Hi]).
  destruct (reassessment_settles_index (fun _ => Ok unhealthy) request unhealthy now now now "url" "key" fingerprint None true eq_refl
    w1 _ w2 Hi E2) as (_ & Hr2 & _).
  split; [exact E1|]. split; [exact E2|]. split; [exact L2|]. split; [exact (proj2 (proj2 (Hr _ eq_refl)))|exact (proj1 (Hr2 _ eq_refl))].
Defined.

Lemma active_index_moves_forward_witness : exists y p', first_beat = (Ok y, p') /\
  rtc incident_step start (p', []) /\ indexed (snapshot_entries (index_of p')).
Proof.
  destruct first_beat_Ok as (y & p' & E). exists y, p'. split; [exact E|].
  assert (Hs : rtc incident_step start (p', [])) by (apply rtc_once; exact (heartbeat_step _ _ _ _ _ _ _ _ _ E)).
  split; [exact Hs|]. exact (proj2 (active_index_moves_forward start (p', []) empty_indexed Hs)).
Defined.
End IncidentDemo.
