(* ===== verification/Selectors.v ===== *)
(** * Selectors: narrowing, overlap and identity of selectors

    The selector part of profile resolution in contracts/manifest.py: when a
    selector is provably narrower than the one it replaces, when two selectors
    may bind one resource, the semantic fingerprint, and the check that no two
    roles of a resolved profile share a selector. Composite selectors hold atomic
    children only, so each Python recursion is a function on atomic selectors
    and one on the union. *)
From S2P Require Import Prelude Text Json.
From S2P Require Export Manifest.
Local Open Scope Z_scope.

Definition atomic_max_matches (s : AtomicSelector) : Z :=
  match s with
  | ResourceIdListSelector _ _ n | TagPredicateSelector _ _ n | NamePredicateSelector _ _ _ n
  | ResourceTypeSelector _ _ _ _ n | VmssSelector _ _ _ n | LoadBalancerBackendSelector _ _ _ n
  | SubnetSelector _ _ n | ImageSelector _ _ _ _ _ n | ProvenanceSelector _ _ _ _ n => n
  end.

Definition selector_max_matches (s : ManifestSelector) : Z :=
  match s with
  | Atomic s => atomic_max_matches s
  | CompositeAllSelector _ _ n | CompositeAnySelector _ _ n => n
  end.

(** _selector_tree: the ids and types of the yielded selectors are read only. *)
Definition selector_tree (s : ManifestSelector) : list ManifestSelector := s :: (Atomic <$> selector_children s).

Definition is_composite_all (s : ManifestSelector) : bool :=
  match s with CompositeAllSelector _ _ _ => true | _ => false end.

(** [resource_id.rsplit("/", 1)[-1]] *)
Definition last_segment (s : string) : string := default "" (last (split_on slash s)).

Section selectors.
Context `{PyText}.

(** [{_normalized_id(value) for value in values}] *)
Definition normalized_set (values : list string) : gset string := list_to_set (normalized_id <$> values).

(** [{_normalized_id(item.key): f(item.value) for item in predicates}] *)
Definition predicate_values (f : string -> string) (predicates : list TagEquals) : gmap string string :=
  foldl (fun d p => <[normalized_id (te_key p) := f (te_value p)]> d) ∅ predicates.

(** [{_normalized_id(child.selector_id): child for child in children}] *)
Definition children_by_id (children : list AtomicSelector) : gmap string AtomicSelector :=
  dict_by (fun c => normalized_id (atomic_selector_id c)) children.

(** ** Narrowing *)

(** _normalized_filter_is_narrower *)
Definition normalized_filter_is_narrower (previous current : list string) : bool :=
  let previous_values := normalized_set previous in
  let current_values := normalized_set current in
  if bool_decide (previous_values = ∅) then true
  else negb (bool_decide (current_values = ∅)) && bool_decide (current_values ⊆ previous_values).

(** [previous is None or (current is not None and test(previous, current))] *)
Definition option_narrower (test : string -> string -> bool) (previous current : option string) : bool :=
  match previous, current with
  | None, _ => true
  | Some p, Some c => test p c
  | Some _, None => false
  end.

(** _selector_override_is_narrower, on two atomic selectors *)
Definition atomic_override_is_narrower (previous current : AtomicSelector) : bool :=
  negb (atomic_max_matches previous <? atomic_max_matches current) &&
  match previous, current with
  | ResourceIdListSelector _ p _, ResourceIdListSelector _ c _ =>
      bool_decide (normalized_set c ⊆ normalized_set p)
  | TagPredicateSelector _ p _, TagPredicateSelector _ c _ =>
      let current_predicates := predicate_values normalize_nfc_text c in
      forallb (fun item => bool_decide (current_predicates !! fst item = Some (snd item)))
        (map_to_list (predicate_values normalize_nfc_text p))
  | NamePredicateSelector _ p_prefix p_suffix _, NamePredicateSelector _ c_prefix c_suffix _ =>
      option_narrower (fun p c => starts_with (normalize_nfc_text p) (normalize_nfc_text c)) p_prefix c_prefix &&
      option_narrower (fun p c => ends_with (normalize_nfc_text p) (normalize_nfc_text c)) p_suffix c_suffix
  | ResourceTypeSelector _ p_type p_locations p_groups _, ResourceTypeSelector _ c_type c_locations c_groups _ =>
      same_id p_type c_type && normalized_filter_is_narrower p_locations c_locations &&
      normalized_filter_is_narrower p_groups c_groups
  | VmssSelector _ p_set p_instances _, VmssSelector _ c_set c_instances _ =>
      same_id p_set c_set && normalized_filter_is_narrower p_instances c_instances
  | LoadBalancerBackendSelector _ p_lb p_pool _, LoadBalancerBackendSelector _ c_lb c_pool _ =>
      same_id p_lb c_lb && same_id p_pool c_pool
  | SubnetSelector _ p_subnet _, SubnetSelector _ c_subnet _ => same_id p_subnet c_subnet
  | ImageSelector _ p_publisher p_offer p_sku p_version _, ImageSelector _ c_publisher c_offer c_sku c_version _ =>
      same_id p_publisher c_publisher && same_id p_offer c_offer && same_id p_sku c_sku &&
      option_narrower same_id p_version c_version
  | ProvenanceSelector _ p_tool p_version p_ref _, ProvenanceSelector _ c_tool c_version c_ref _ =>
      same_id p_tool c_tool && String.eqb p_version c_version && same_id p_ref c_ref
  | _, _ => false
  end.

(** _selector_override_is_narrower *)
Definition selector_override_is_narrower (previous current : ManifestSelector) : bool :=
  if selector_max_matches previous <? selector_max_matches current then false
  else
    match current, previous with
    | CompositeAllSelector _ current_children _, CompositeAllSelector _ previous_children _ =>
        forallb (fun p => existsb (atomic_override_is_narrower p) current_children) previous_children
    | CompositeAllSelector _ current_children _, CompositeAnySelector _ previous_children _ =>
        existsb (fun p => existsb (atomic_override_is_narrower p) current_children) previous_children
    | CompositeAllSelector _ current_children _, Atomic p => existsb (atomic_override_is_narrower p) current_children
    | Atomic c, Atomic p => atomic_override_is_narrower p c
    | CompositeAnySelector _ current_children _, CompositeAnySelector _ previous_children _ =>
        let previous_children := children_by_id previous_children in
        let current_children := children_by_id current_children in
        bool_decide (dom previous_children = dom current_children) &&
        forallb (fun item =>
          match current_children !! fst item with
          | Some c => atomic_override_is_narrower (snd item) c
          | None => false
          end) (map_to_list previous_children)
    | _, _ => false
    end.

(** [sum(selector.max_matches for selector in selectors)] *)
Definition total_max_matches (selectors : list ManifestSelector) : Z :=
  foldl (fun total s => total + selector_max_matches s) 0 selectors.

(** is_guarded_selector_replacement_narrower *)
Definition is_guarded_selector_replacement_narrower (previous current : list ManifestSelector) : bool :=
  negb (bool_decide (previous = [])) && negb (bool_decide (current = [])) &&
  forallb is_composite_all current &&
  (total_max_matches current <=? total_max_matches previous) &&
  forallb (fun replacement =>
    existsb (fun inherited => selector_override_is_narrower inherited replacement) previous) current.

(** ** Overlap *)

(** _normalized_filters_overlap *)
Definition normalized_filters_overlap (left right : list string) : bool :=
  if bool_decide (left = []) || bool_decide (right = []) then true
  else negb (bool_decide (normalized_set left ∩ normalized_set right = ∅)).

(** [affix is None or test(affix, name)] *)
Definition optional_affix (test : string -> string -> bool) (affix : option string) (name : string) : bool :=
  match affix with
  | None => true
  | Some a => test (normalized_id a) name
  end.

(** _resource_ids_may_match_name *)
Definition resource_ids_may_match_name (resource_ids : list string) (prefix suffix : option string) : bool :=
  existsb (fun resource_id =>
    let name := normalized_id (last_segment resource_id) in
    optional_affix starts_with prefix name && optional_affix ends_with suffix name) resource_ids.

(** [left is None or right is None or test(left, right) or test(right, left)] *)
Definition affixes_overlap (test : string -> string -> bool) (left right : option string) : bool :=
  match left, right with
  | Some l, Some r => test (normalized_id r) (normalized_id l) || test (normalized_id l) (normalized_id r)
  | _, _ => true
  end.

(** _selectors_may_overlap, on two atomic selectors; two selectors of different
    types that no case covers may overlap. *)
Definition atomic_may_overlap (left right : AtomicSelector) : bool :=
  match left, right with
  | ResourceIdListSelector _ l _, ResourceIdListSelector _ r _ =>
      negb (bool_decide (normalized_set l ∩ normalized_set r = ∅))
  | ResourceIdListSelector _ l _, NamePredicateSelector _ prefix suffix _ =>
      resource_ids_may_match_name l prefix suffix
  | NamePredicateSelector _ prefix suffix _, ResourceIdListSelector _ r _ =>
      resource_ids_may_match_name r prefix suffix
  | TagPredicateSelector _ l _, TagPredicateSelector _ r _ =>
      let right_predicates := predicate_values normalized_id r in
      negb (existsb (fun item =>
        match right_predicates !! fst item with
        | Some v => negb (String.eqb v (snd item))
        | None => false
        end) (map_to_list (predicate_values normalized_id l)))
  | NamePredicateSelector _ l_prefix l_suffix _, NamePredicateSelector _ r_prefix r_suffix _ =>
      affixes_overlap starts_with l_prefix r_prefix && affixes_overlap ends_with l_suffix r_suffix
  | ResourceTypeSelector _ l_type l_locations l_groups _, ResourceTypeSelector _ r_type r_locations r_groups _ =>
      same_id l_type r_type && normalized_filters_overlap l_locations r_locations &&
      normalized_filters_overlap l_groups r_groups
  | VmssSelector _ l_set l_instances _, VmssSelector _ r_set r_instances _ =>
      same_id l_set r_set && normalized_filters_overlap l_instances r_instances
  | LoadBalancerBackendSelector _ l_lb l_pool _, LoadBalancerBackendSelector _ r_lb r_pool _ =>
      same_id l_lb r_lb && same_id l_pool r_pool
  | SubnetSelector _ l_subnet _, SubnetSelector _ r_subnet _ => same_id l_subnet r_subnet
  | ImageSelector _ l_publisher l_offer l_sku l_version _, ImageSelector _ r_publisher r_offer r_sku r_version _ =>
      same_id l_publisher r_publisher && same_id l_offer r_offer && same_id l_sku r_sku &&
      match l_version, r_version with
      | Some l, Some r => same_id l r
      | _, _ => true
      end
  | ProvenanceSelector _ l_tool l_version l_ref _, ProvenanceSelector _ r_tool r_version r_ref _ =>
      same_id l_tool r_tool && same_id l_version r_version && same_id l_ref r_ref
  | _, _ => true
  end.

(** _selectors_may_overlap, for an atomic left side *)
Definition atomic_overlaps (left : AtomicSelector) (right : ManifestSelector) : bool :=
  match right with
  | CompositeAnySelector _ children _ => existsb (atomic_may_overlap left) children
  | CompositeAllSelector _ children _ => forallb (atomic_may_overlap left) children
  | Atomic r => atomic_may_overlap left r
  end.

(** _selectors_may_overlap *)
Definition selectors_may_overlap (left right : ManifestSelector) : bool :=
  match left, right with
  | CompositeAnySelector _ children _, _ => existsb (fun child => atomic_overlaps child right) children
  | CompositeAllSelector _ children _, CompositeAnySelector _ right_children _ =>
      existsb (fun right_child => forallb (fun child => atomic_may_overlap child right_child) children) right_children
  | CompositeAllSelector _ children _, _ => forallb (fun child => atomic_overlaps child right) children
  | Atomic l, _ => atomic_overlaps l right
  end.

(** ** Fingerprints *)

(** [items.sort(key=lambda item: _normalized_id(str(item)))] *)
Definition sorted_texts (items : list string) : json := JArr (JStr <$> sort_by normalized_id items).

(** _selector_semantic_payload of an atomic selector: the rendering without
    [selectorId] and [maxMatches], its lists in normalised order. *)
Definition atomic_semantic_payload (s : AtomicSelector) : json :=
  let type := ("selectorType", JStr (selector_type (Atomic s))) in
  match s with
  | ResourceIdListSelector _ resource_ids _ => JObj [type; ("resourceIds", sorted_texts resource_ids)]
  | TagPredicateSelector _ predicates _ =>
      JObj [type; ("predicates", JArr ((fun p => JObj [("key", JStr (te_key p)); ("value", JStr (te_value p))]) <$>
                                       sort_by (fun p => normalized_id (te_key p)) predicates))]
  | NamePredicateSelector _ prefix suffix _ =>
      JObj ([type] ++ opt_member "prefix" (JStr <$> prefix) ++ opt_member "suffix" (JStr <$> suffix))
  | ResourceTypeSelector _ resource_type locations resource_groups _ =>
      JObj [type; ("resourceType", JStr resource_type); ("locations", sorted_texts locations);
            ("resourceGroups", sorted_texts resource_groups)]
  | VmssSelector _ scale_set_resource_id instance_ids _ =>
      JObj [type; ("scaleSetResourceId", JStr scale_set_resource_id); ("instanceIds", sorted_texts instance_ids)]
  | LoadBalancerBackendSelector _ load_balancer_resource_id backend_pool_name _ =>
      JObj [type; ("loadBalancerResourceId", JStr load_balancer_resource_id);
            ("backendPoolName", JStr backend_pool_name)]
  | SubnetSelector _ subnet_resource_id _ => JObj [type; ("subnetResourceId", JStr subnet_resource_id)]
  | ImageSelector _ publisher offer sku version _ =>
      JObj ([type; ("publisher", JStr publisher); ("offer", JStr offer); ("sku", JStr sku)] ++
            opt_member "version" (JStr <$> version))
  | ProvenanceSelector _ collector_tool_name collector_tool_version identity_evidence_ref _ =>
      JObj [type; ("collectorToolName", JStr collector_tool_name);
            ("collectorToolVersion", JStr collector_tool_version);
            ("identityEvidenceRef", JStr identity_evidence_ref)]
  end.

Context `{Rfc8785}.

(** [children.sort(key=compute_artifact_digest)] *)
Definition sort_by_digest (values : list json) : result (list json) :=
  keyed ← mapR (fun v => d ← compute_artifact_digest v; Ok (d, v)) values;
  Ok (snd <$> sort_by fst keyed).

(** _selector_semantic_payload *)
Definition selector_semantic_payload (s : ManifestSelector) : result json :=
  match s with
  | Atomic s => Ok (atomic_semantic_payload s)
  | CompositeAllSelector _ children _ | CompositeAnySelector _ children _ =>
      children ← sort_by_digest (atomic_semantic_payload <$> children);
      Ok (JObj [("selectorType", JStr (selector_type s)); ("children", JArr children)])
  end.

(** _selector_fingerprint *)
Definition selector_fingerprint (s : ManifestSelector) : result string :=
  payload ← selector_semantic_payload s; compute_artifact_digest payload.

(** ** The selectors of a resolved profile *)

(** The state of the loop of [_validate_resolved_selectors]: the keys of the two
    dicts, and the selectors seen with their role. *)
Record SelectorScan := {
  sc_selector_ids : gset string;
  sc_selector_fingerprints : gset string;
  sc_selectors : list (string * ManifestSelector);
}.

(** [for nested in _selector_tree(selector)] *)
Definition claim_selector_ids (seen : gset string) (s : ManifestSelector) : result (gset string) :=
  foldR (fun seen nested =>
    let id := normalized_id (selector_id nested) in
    _ ← raise_if (AthenaValidationError "selector refs must resolve exactly once") (bool_decide (id ∈ seen));
    Ok ({[id]} ∪ seen)) seen (selector_tree s).

(** The body of the loops of [_validate_resolved_selectors] *)
Definition scan_selector (role_id : string) (scan : SelectorScan) (s : ManifestSelector) : result SelectorScan :=
  ids ← claim_selector_ids (sc_selector_ids scan) s;
  fingerprint ← selector_fingerprint s;
  _ ← raise_if (AthenaValidationError "ambiguous selectors have identical semantics for roles")
        (bool_decide (fingerprint ∈ sc_selector_fingerprints scan));
  _ ← raise_if (AthenaValidationError "ambiguous selectors may bind one resource to multiple roles")
        (existsb (fun previous => negb (same_id (fst previous) role_id) && selectors_may_overlap (snd previous) s)
           (sc_selectors scan));
  Ok {| sc_selector_ids := ids; sc_selector_fingerprints := {[fingerprint]} ∪ sc_selector_fingerprints scan;
        sc_selectors := sc_selectors scan ++ [(role_id, s)] |}.

(** _validate_resolved_selectors *)
Definition validate_resolved_selectors (roles : list ManifestRole) : result unit :=
  _ ← foldR (fun scan role => foldR (scan_selector (mr_role_id role)) scan (mr_selectors role))
        {| sc_selector_ids := ∅; sc_selector_fingerprints := ∅; sc_selectors := [] |} roles;
  Ok tt.
End selectors.
