(* ===== verification/Evidence.v ===== *)
(** * Evidence: resource evidence records

    The records of contracts/models.py that the binding components read: the
    approved tags, the provenance and the resource evidence of a snapshot. *)
From S2P Require Import Prelude Text Json.
Local Open Scope Z_scope.

Record ApprovedResourceTags := {
  at_environment : option string;
  at_workload_role : option string;
  at_application : option string;
  at_component : option string;
  at_managed_by : option string;
}.

Record EvidenceRecordProvenance := {
  ep_collector_attempt_id : string;
  ep_collector_identity_evidence_ref : string;
  ep_tool_name : string;
  ep_tool_version : string;
  ep_source_response_digest : option string;
  ep_source_response_pointer : option string;
  ep_failure_payload_digest : option string;
  ep_failure_payload_pointer : option string;
}.

Record ResourceEvidenceRecord := {
  re_resource_id : string;
  re_resource_type : string;
  re_location : string;
  re_availability_zone : option string;
  re_tags : ApprovedResourceTags;
  re_state : string;
  re_provenance : EvidenceRecordProvenance;
  re_item_digest : string;
  re_collector_attempt_digest : string;
  re_collector_identity_evidence_ref : string;
}.

#[export] Instance ApprovedResourceTags_eq_dec : EqDecision ApprovedResourceTags.
Proof. solve_decision. Defined.
#[export] Instance EvidenceRecordProvenance_eq_dec : EqDecision EvidenceRecordProvenance.
Proof. solve_decision. Defined.
#[export] Instance ResourceEvidenceRecord_eq_dec : EqDecision ResourceEvidenceRecord.
Proof. solve_decision. Defined.

(** [tags.model_dump(mode="json", by_alias=True, exclude_none=True).items()] *)
Definition tag_items (t : ApprovedResourceTags) : list (string * string) :=
  omap (fun '(k, v) => (fun v => (k, v)) <$> v)
    [("environment", at_environment t); ("workloadRole", at_workload_role t); ("application", at_application t);
     ("component", at_component t); ("managedBy", at_managed_by t)].

(** ApprovedResourceTags.require_approved_tag *)
Definition require_approved_tag (t : ApprovedResourceTags) : result unit :=
  raise_if (AthenaValidationError "resource tags must contain at least one approved public-safe tag")
    (bool_decide (tag_items t = [])).
