(* ===== verification/Binding.v ===== *)
(** * Binding: evaluating selectors on collected resources

    binding/normalization.py and binding/selectors.py: the comparison form of an
    Azure resource id, the resources a selector matches, and the evaluation of a
    selector with its nested [maxMatches] bounds. The [dict] of resources is an
    association list in insertion order; a [set] of ids is a [gset]. *)
From S2P Require Import Prelude Text Json.
From S2P Require Export Selectors Evidence.
From Stdlib Require Import Ascii.
Local Open Scope Z_scope.

(** [^[A-Za-z0-9._()-]+$] *)
Definition is_component (s : string) : bool :=
  negb (String.eqb s "") &&
  all_chars (fun c => is_alnum c || existsb (Ascii.eqb c) ["."; "_"; "("; ")"; "-"]%char) s.

(** [dict[str, ResourceEvidenceRecord]] *)
Abbreviation resource_dict := (list (string * ResourceEvidenceRecord)).

Section normalization.
Context `{PyText}.

(** The loops over the provider path: [complete] holds when a provider segment
    may start here, at the first one and after a resource type and name. *)
Fixpoint provider_path (complete : bool) (parts : list string) : result unit :=
  match parts with
  | [] => guard_or (AthenaValidationError "Azure resource ID provider has no resource type/name") complete
  | part :: rest =>
      if String.eqb (casefold part) "providers" then
        if complete then
          match rest with
          | namespace :: ((_ :: _ :: _) as path) =>
              _ ← guard_or (AthenaValidationError "Azure resource ID provider namespace is invalid")
                    (is_component namespace);
              provider_path false path
          | _ => Raise (AthenaValidationError "Azure resource ID provider path is malformed")
          end
        else Raise (AthenaValidationError "Azure resource ID provider has no resource type/name")
      else
        match rest with
        | name :: rest =>
            _ ← guard_or (AthenaValidationError "Azure resource ID type/name path is incomplete")
                  (is_component part && is_component name);
            provider_path true rest
        | [] => Raise (AthenaValidationError "Azure resource ID type/name path is incomplete")
        end
  end.

(** The optional [resourceGroups] segment *)
Definition after_resource_group (parts : list string) : result (list string) :=
  match parts with
  | part :: rest =>
      if String.eqb (casefold part) "resourcegroups" then
        match rest with
        | group :: rest =>
            _ ← guard_or (AthenaValidationError "Azure resource ID resourceGroups segment is invalid")
                  (is_component group);
            Ok rest
        | [] => Raise (AthenaValidationError "Azure resource ID resourceGroups segment is invalid")
        end
      else Ok parts
  | [] => Ok []
  end.

(** The checks of [normalize_resource_id] on the parts after the first slash *)
Definition check_resource_path (parts : list string) : result unit :=
  match parts with
  | subscriptions :: guid :: rest =>
      _ ← guard_or (AthenaValidationError "Azure resource ID must begin with /subscriptions/{guid}")
            (String.eqb (casefold subscriptions) "subscriptions" && is_guid guid);
      rest ← after_resource_group rest;
      _ ← guard_or (AthenaValidationError "Azure resource ID must contain a provider path")
            (match rest with part :: _ => String.eqb (casefold part) "providers" | [] => false end);
      provider_path true rest
  | _ => Raise (AthenaValidationError "Azure resource ID must be an absolute component path")
  end.

(** normalize_resource_id *)
Definition normalize_resource_id (value : string) : result string :=
  let normalized := normalize_nfc_text value in
  _ ← raise_if (AthenaValidationError "Azure resource ID contains invalid characters")
        (negb (String.eqb normalized (strip normalized)) ||
         existsb (fun c => contains_char c normalized) ["\"; "*"; "?"]%char);
  match split_on slash normalized with
  | root :: parts =>
      _ ← raise_if (AthenaValidationError "Azure resource ID must be an absolute component path")
            ((length parts <? 4)%nat || negb (String.eqb root "") || existsb (String.eqb "") parts);
      _ ← check_resource_path parts;
      Ok (casefold normalized)
  | [] => Raise (AthenaValidationError "Azure resource ID must be an absolute component path")
  end.

(** ** What an atomic selector matches *)

(** _resource_group, on the parts of the id *)
Fixpoint resource_group_in (parts : list string) : option string :=
  match parts with
  | part :: ((group :: _) as rest) =>
      if String.eqb (casefold part) "resourcegroups" then Some group else resource_group_in rest
  | _ => None
  end.

(** _resource_group *)
Definition resource_group (resource_id : string) : option string := resource_group_in (split_on slash resource_id).

(** [normalized_tags] of [_tag_matches] *)
Definition normalized_tags (t : ApprovedResourceTags) : gmap string string :=
  foldl (fun d item => <[normalized_id (fst item) := normalized_id (snd item)]> d) ∅ (tag_items t).

(** _tag_matches *)
Definition tag_matches (predicates : list TagEquals) (resource : ResourceEvidenceRecord) : bool :=
  forallb (fun p => bool_decide (normalized_tags (re_tags resource) !! normalized_id (te_key p) =
                                 Some (normalized_id (te_value p)))) predicates.

(** The five lowered parts that name an instance of a scale set *)
Definition names_scale_set (part0 part1 part2 part4 : string) : bool :=
  String.eqb (casefold part0) "providers" && String.eqb (casefold part1) "microsoft.compute" &&
  String.eqb (casefold part2) "virtualmachinescalesets" && String.eqb (casefold part4) "virtualmachines".

(** The loop of [_vmss_membership]; [before] holds the parts already passed. *)
Fixpoint vmss_membership_in (before parts : list string) : result (option (string * string)) :=
  match parts with
  | part0 :: ((part1 :: part2 :: part3 :: part4 :: after) as rest) =>
      match names_scale_set part0 part1 part2 part4, after with
      | true, instance :: _ =>
          scale_set ← normalize_resource_id (join "/" (before ++ [part0; part1; part2; part3]));
          Ok (Some (scale_set, normalized_id instance))
      | _, _ => vmss_membership_in (before ++ [part0]) rest
      end
  | _ => Ok None
  end.

(** _vmss_membership *)
Definition vmss_membership (resource_id : string) : result (option (string * string)) :=
  vmss_membership_in [] (split_on slash resource_id).

(** [not values or _comparison_text(value) in {_comparison_text(item) for item in values}] *)
Definition filter_accepts (values : list string) (value : string) : bool :=
  bool_decide (values = []) || bool_decide (normalized_id value ∈ normalized_set values).

(** The test of [_atomic_matches] on one resource *)
Definition atomic_match (s : AtomicSelector) (resource_id : string) (resource : ResourceEvidenceRecord)
    : result bool :=
  match s with
  | ResourceIdListSelector _ resource_ids _ => Ok (bool_decide (resource_id ∈ normalized_set resource_ids))
  | TagPredicateSelector _ predicates _ => Ok (tag_matches predicates resource)
  | NamePredicateSelector _ prefix suffix _ =>
      let name := normalized_id (last_segment resource_id) in
      Ok (optional_affix starts_with prefix name && optional_affix ends_with suffix name)
  | ResourceTypeSelector _ resource_type locations resource_groups _ =>
      Ok (same_id (re_resource_type resource) resource_type && filter_accepts locations (re_location resource) &&
          (bool_decide (resource_groups = []) ||
           match resource_group (re_resource_id resource) with
           | Some group => bool_decide (normalized_id group ∈ normalized_set resource_groups)
           | None => false
           end))
  | VmssSelector _ scale_set_resource_id instance_ids _ =>
      match normalize_resource_id scale_set_resource_id with
      | Raise _ => Ok false
      | Ok expected_scale_set =>
          membership ← vmss_membership resource_id;
          Ok (match membership with
              | Some (scale_set, instance) =>
                  String.eqb scale_set expected_scale_set &&
                  (bool_decide (instance_ids = []) || bool_decide (instance ∈ normalized_set instance_ids))
              | None => false
              end)
      end
  | LoadBalancerBackendSelector _ _ _ _ | SubnetSelector _ _ _ | ImageSelector _ _ _ _ _ _ => Ok false
  | ProvenanceSelector _ collector_tool_name collector_tool_version identity_evidence_ref _ =>
      Ok (same_id (ep_tool_name (re_provenance resource)) collector_tool_name &&
          same_id (ep_tool_version (re_provenance resource)) collector_tool_version &&
          same_id (re_collector_identity_evidence_ref resource) identity_evidence_ref)
  end.

(** _atomic_matches *)
Definition atomic_matches (s : AtomicSelector) (resources : resource_dict) : result (gset string) :=
  matched ← filterR (fun item => atomic_match s (fst item) (snd item)) resources;
  Ok (list_to_set (fst <$> matched)).

(** ** Evaluation *)

(** [if len(matches) > current.max_matches: violations.append(current.selector_id)] *)
Definition max_violations (matches : gset string) (max_matches : Z) (selector_id : string) : list string :=
  if max_matches <? Z.of_nat (size matches) then [selector_id] else [].

(** [evaluate], on an atomic selector *)
Definition evaluate_atomic (resources : resource_dict) (s : AtomicSelector) : result (gset string * list string) :=
  matches ← atomic_matches s resources;
  Ok (matches, max_violations matches (atomic_max_matches s) (atomic_selector_id s)).

(** The intersection of the child sets, [set()] when there is none *)
Definition intersection_of (sets : list (gset string)) : gset string :=
  match sets with
  | [] => ∅
  | first :: rest => foldl (∩) first rest
  end.

(** [evaluate] of evaluate_selector *)
Definition evaluate (resources : resource_dict) (s : ManifestSelector) : result (gset string * list string) :=
  match s with
  | Atomic s => evaluate_atomic resources s
  | CompositeAllSelector id children n =>
      child_results ← mapR (evaluate_atomic resources) children;
      let matches := intersection_of (fst <$> child_results) in
      Ok (matches, concat (snd <$> child_results) ++ max_violations matches n id)
  | CompositeAnySelector id children n =>
      child_results ← mapR (evaluate_atomic resources) children;
      let matches := ⋃ (fst <$> child_results) in
      Ok (matches, concat (snd <$> child_results) ++ max_violations matches n id)
  end.

(** One turn of the loop that fills [resources_by_id] *)
Definition add_resource (by_id : resource_dict) (resource : ResourceEvidenceRecord) : result resource_dict :=
  normalized_id ← normalize_resource_id (re_resource_id resource);
  _ ← raise_if (AthenaValidationError "selector input contains duplicate normalized Azure resource IDs")
        (bool_decide (normalized_id ∈ fst <$> by_id));
  Ok (by_id ++ [(normalized_id, resource)]).

Definition resources_by_id (resources : list ResourceEvidenceRecord) : result resource_dict :=
  foldR add_resource [] resources.

Inductive SelectorStatus := SelMatched | SelNoMatches | SelOverMaxMatches.
#[export] Instance SelectorStatus_eq_dec : EqDecision SelectorStatus.
Proof. solve_decision. Defined.

Record SelectorEvaluation := {
  sv_selector : ManifestSelector;
  sv_status : SelectorStatus;
  sv_matched_resource_ids : list string;
  sv_rejected_resource_ids : list string;
  sv_max_matches : Z;
  sv_max_match_violations : list string;
  sv_selector_result_digest : string;
}.
#[export] Instance SelectorEvaluation_eq_dec : EqDecision SelectorEvaluation.
Proof. solve_decision. Defined.

(** The length and value bounds of the fields of [SelectorEvaluation] *)
Definition validate_evaluation (e : SelectorEvaluation) : result unit :=
  guard_or (ValidationError "SelectorEvaluation")
    ((Z.of_nat (length (sv_matched_resource_ids e)) <=? 30000) &&
     (Z.of_nat (length (sv_rejected_resource_ids e)) <=? 30000) &&
     (Z.of_nat (length (sv_max_match_violations e)) <=? 100) &&
     (1 <=? sv_max_matches e) && (sv_max_matches e <=? 1000)).

(** [sorted(set(violations), key=str.casefold)], the set in order of first occurrence *)
Definition unique_violations (violations : list string) : list string :=
  sort_by casefold (rev (remove_dups (rev violations))).

Definition text_array (l : list string) : json := JArr (JStr <$> l).

Context `{Rfc8785} `{ModelDump ManifestSelector}.

(** evaluate_selector *)
Definition evaluate_selector (s : ManifestSelector) (resources : list ResourceEvidenceRecord)
    : result SelectorEvaluation :=
  by_id ← resources_by_id resources;
  '(matched, violations) ← evaluate by_id s;
  let matched_ids := sort_strings (elements matched) in
  let rejected_ids := sort_strings (elements (list_to_set (fst <$> by_id) ∖ matched)) in
  let violations := unique_violations violations in
  let status := match violations, matched_ids with
                | _ :: _, _ => SelOverMaxMatches
                | [], _ :: _ => SelMatched
                | [], [] => SelNoMatches
                end in
  digest ← compute_artifact_digest (JObj [("selector", model_dump s); ("matchedResourceIds", text_array matched_ids);
                                          ("maxMatchViolations", text_array violations)]);
  let e := {| sv_selector := s; sv_status := status; sv_matched_resource_ids := matched_ids;
              sv_rejected_resource_ids := rejected_ids; sv_max_matches := selector_max_matches s;
              sv_max_match_violations := violations; sv_selector_result_digest := digest |} in
  _ ← validate_evaluation e;
  Ok e.
End normalization.
