(* ===== verification/SelectorProps.v ===== *)
(** * SelectorProps: what narrowing and overlap mean for resources

    The contract decides on selectors alone ([Selectors]); the binding runtime
    decides on resources ([Binding]). [selects] is the set of resources a selector
    denotes, and the two sides agree: a narrower selector denotes fewer resources,
    and selectors that share a resource may overlap. *)
From S2P Require Import Prelude Text Json.
From S2P Require Export Text Binding.
From Stdlib Require Import Ascii.
Local Open Scope Z_scope.

(** ** Denotation *)
Section denotation.
Context `{PyText}.
Implicit Types (dict : resource_dict) (a : AtomicSelector) (s : ManifestSelector) (x : string).

(** The resource [x] of [dict] matches [a]. *)
Definition atom_selects dict a x : Prop := exists r, (x, r) ∈ dict /\ atomic_match a x r = Ok true.

Definition selects dict s x : Prop :=
  match s with
  | Atomic a => atom_selects dict a x
  | CompositeAllSelector _ children _ => children <> [] /\ forall a, a ∈ children -> atom_selects dict a x
  | CompositeAnySelector _ children _ => exists a, a ∈ children /\ atom_selects dict a x
  end.

Lemma atomic_matches_selects dict a m x : atomic_matches a dict = Ok m -> x ∈ m <-> atom_selects dict a x.
Proof.
  unfold atomic_matches. intros Hm. inv_ok. subst m. rewrite elem_of_list_to_set, list_elem_of_fmap. split.
  - intros ([y r] & -> & Hin). apply (elem_of_filterR _ _ _ _ ltac:(eassumption)) in Hin as [? ?]. by exists r.
  - intros (r & Hin & Hr). exists (x, r). split; [done|]. by apply (elem_of_filterR _ _ _ _ ltac:(eassumption)).
Qed.

Lemma evaluate_atomic_selects dict a m v x : evaluate_atomic dict a = Ok (m, v) -> x ∈ m <-> atom_selects dict a x.
Proof.
  unfold evaluate_atomic. intros Hm. inv_ok. simplify_eq. by apply atomic_matches_selects.
Qed.

Lemma children_select dict children rs x : mapR (evaluate_atomic dict) children = Ok rs ->
  Forall2 (fun a m => x ∈ m <-> atom_selects dict a x) children (fst <$> rs).
Proof.
  intros Hm%mapR_Ok. apply Forall2_fmap_r. eapply Forall2_impl; [done|]. intros a [m v]. apply evaluate_atomic_selects.
Qed.

Lemma elem_of_foldl_intersection (sets : list (gset string)) (first : gset string) x :
  x ∈ foldl (∩) first sets <-> x ∈ first /\ forall m, m ∈ sets -> x ∈ m.
Proof. revert first. induction sets as [|m sets IH]; intros first; cbn; [set_solver|]. rewrite IH. set_solver. Qed.

Lemma elem_of_intersection_of (sets : list (gset string)) x :
  x ∈ intersection_of sets <-> sets <> [] /\ forall m, m ∈ sets -> x ∈ m.
Proof.
  destruct sets as [|m sets]; cbn; [set_solver|]. rewrite elem_of_foldl_intersection. setoid_rewrite elem_of_cons.
  naive_solver.
Qed.

(** The evaluation of a selector computes its denotation. *)
Lemma evaluate_selects dict s m v x : evaluate dict s = Ok (m, v) -> x ∈ m <-> selects dict s x.
Proof.
  destruct s as [a|id children n|id children n]; cbn [evaluate selects]; [apply evaluate_atomic_selects| |];
    intros Hm; inv_ok; simplify_eq.
  - pose proof (children_select _ _ _ x ltac:(eassumption)) as Hc. rewrite elem_of_intersection_of.
    assert (Hn : fst <$> x0 = [] <-> children = []) by (destruct Hc; naive_solver).
    split; intros [Hne Hall]; (split; [by rewrite Hn in * || rewrite <- Hn in *|]).
    + intros a Ha. destruct (list_elem_of_lookup_1 _ _ Ha) as [i Hi].
      destruct (Forall2_lookup_l _ _ _ _ _ Hc Hi) as (m & Hm & E). apply E, Hall. by eapply list_elem_of_lookup_2.
    + intros m Hm. destruct (Forall2_elem_of_r _ _ _ _ Hc Hm) as (a & Ha & E). apply E. by apply Hall.
  - pose proof (children_select _ _ _ x ltac:(eassumption)) as Hc. rewrite elem_of_union_list. split.
    + intros (m & Hm & Hx). destruct (Forall2_elem_of_r _ _ _ _ Hc Hm) as (a & Ha & E). exists a. split; [done|]. by apply E.
    + intros (a & Ha & Hx). destruct (list_elem_of_lookup_1 _ _ Ha) as [i Hi].
      destruct (Forall2_lookup_l _ _ _ _ _ Hc Hi) as (m & Hm & E). exists m. split; [by eapply list_elem_of_lookup_2|].
      by apply E.
Qed.
End denotation.

(** ** Resource ids up to case *)
Section resource_ids.
Context `{PyTextAscii}.

Lemma casefold_lower s : all_chars is_ascii s = true -> casefold (map_string ascii_lower s) = casefold s.
Proof.
  intros Hs. rewrite !casefold_of_ascii by (rewrite ?all_chars_lower by apply ascii_lower_ascii; done).
  apply map_string_lower_idem.
Qed.

Lemma is_component_lower s : is_component (map_string ascii_lower s) = is_component s.
Proof.
  unfold is_component. rewrite all_chars_lower; [by destruct s|]. intros c. by destruct c as [[] [] [] [] [] [] [] []].
Qed.

Abbreviation ascii_parts := (Forall (fun part => all_chars is_ascii part = true)).
Abbreviation lower_parts := (fmap (M := list) (map_string ascii_lower)).

Lemma provider_path_lower parts : ascii_parts parts ->
  forall complete, provider_path complete (lower_parts parts) = provider_path complete parts.
Proof.
  remember (length parts) as n eqn:Hn. assert (Hle : (length parts <= n)%nat) by lia. clear Hn. revert parts Hle.
  induction n as [|n IH]; intros [|part rest] Hle Ha complete; cbn in Hle; try done; try lia.
  apply Forall_cons in Ha as [Hp Ha]. cbn [fmap list_fmap provider_path]. rewrite casefold_lower by done.
  destruct rest as [|name rest]; [done|]. pose proof Ha as Ha'. apply Forall_cons in Ha as [_ Ha]. cbn in Hle.
  cbn [fmap list_fmap]. rewrite !is_component_lower. destruct (String.eqb (casefold part) "providers").
  - destruct complete; [|done]. destruct rest as [|a [|b rest]]; [done..|]. cbn [fmap list_fmap].
    destruct (is_component name); [|done]. cbn [guard_or mbind result_bind].
    apply (IH (a :: b :: rest)); [cbn in *; lia|done].
  - destruct (is_component part && is_component name); [|done]. cbn [guard_or mbind result_bind].
    apply IH; [lia|done].
Qed.

Lemma check_resource_path_lower parts : ascii_parts parts ->
  check_resource_path (lower_parts parts) = check_resource_path parts.
Proof.
  intros Ha. destruct parts as [|subs [|guid rest]]; [done..|]. cbn [fmap list_fmap check_resource_path].
  apply Forall_cons in Ha as [Hs [Hg Ha]%Forall_cons]. rewrite casefold_lower, is_guid_lower by done.
  destruct (String.eqb (casefold subs) "subscriptions" && is_guid guid); [|done]. cbn [guard_or mbind result_bind].
  assert (Hgroup : after_resource_group (lower_parts rest) = lower_parts <$> after_resource_group rest).
  { destruct rest as [|part rest]; [done|]. apply Forall_cons in Ha as [Hp Ha].
    cbn [fmap list_fmap after_resource_group]. rewrite casefold_lower by done.
    destruct (String.eqb (casefold part) "resourcegroups"); [|done]. destruct rest as [|group rest]; [done|].
    cbn [fmap list_fmap]. rewrite is_component_lower. by destruct (is_component group). }
  rewrite Hgroup. destruct (after_resource_group rest) as [after|e] eqn:Hr; [|done].
  assert (Hafter : ascii_parts after).
  { unfold after_resource_group in Hr. destruct rest as [|part rest]; [by simplify_eq|].
    destruct (String.eqb (casefold part) "resourcegroups"); [|by simplify_eq].
    destruct rest as [|group rest]; [done|]. apply Forall_cons in Ha as [_ [_ Ha]%Forall_cons].
    destruct (is_component group); [|done]. cbn in Hr. by simplify_eq. }
  cbn [fmap result_fmap mbind result_bind]. rewrite provider_path_lower by done.
  destruct after as [|part after]; [done|]. cbn [fmap list_fmap]. apply Forall_cons in Hafter as [Hp _].
  by rewrite casefold_lower.
Qed.

Lemma existsb_empty_lower parts : existsb (String.eqb "") (lower_parts parts) = existsb (String.eqb "") parts.
Proof. induction parts as [|part parts IH]; [done|]. cbn [fmap list_fmap existsb]. rewrite IH. by destruct part. Qed.

(** The comparison form of an ASCII resource id, and whether it is valid, do not
    depend on its case. *)
Lemma normalize_resource_id_lower s : all_chars is_ascii s = true ->
  normalize_resource_id (map_string ascii_lower s) = normalize_resource_id s.
Proof.
  intros Hs. assert (Hl : all_chars is_ascii (map_string ascii_lower s) = true)
    by by rewrite all_chars_lower by apply ascii_lower_ascii.
  unfold normalize_resource_id, normalize_nfc_text. rewrite !nfc_of_ascii, !strip_of_ascii by done.
  rewrite strip_by_lower_eqb by apply ascii_space_lower. cbn [existsb].
  rewrite !contains_char_lower by (intros d; by destruct d as [[] [] [] [] [] [] [] []]).
  destruct (raise_if _ _) as [u|e]; [|done]. cbn [mbind result_bind]. rewrite split_on_lower.
  pose proof (split_on_all is_ascii slash s Hs) as Hall. destruct (split_on slash s) as [|root parts]; [done|].
  apply Forall_cons in Hall as [_ Hall]. cbn [fmap list_fmap].
  rewrite length_fmap, existsb_empty_lower, check_resource_path_lower, casefold_lower by done.
  by destruct root.
Qed.

(** Two ASCII ids with the same normal form are both valid or both invalid. *)
Lemma normalize_same_id s t : all_chars is_ascii s = true -> all_chars is_ascii t = true -> same_id s t = true ->
  normalize_resource_id s = normalize_resource_id t.
Proof.
  unfold same_id, normalized_id. intros Hs Ht E%String.eqb_eq. rewrite !nfc_of_ascii, !casefold_of_ascii in E by done.
  rewrite <- (normalize_resource_id_lower s), <- (normalize_resource_id_lower t), E by done. done.
Qed.



End resource_ids.

(** ** Normalised sets and dicts *)
Section normal_sets.
Context `{PyText}.

Lemma elem_of_normalized_set l k : k ∈ normalized_set l <-> exists v, v ∈ l /\ k = normalized_id v.
Proof. unfold normalized_set. rewrite elem_of_list_to_set, list_elem_of_fmap. naive_solver. Qed.

Lemma normalized_set_empty l : normalized_set l = ∅ <-> l = [].
Proof.
  split; [|by intros ->]. destruct l as [|v l]; [done|]. intros E. exfalso.
  assert (Hv : normalized_id v ∈ normalized_set (v :: l)) by (apply elem_of_normalized_set; exists v; split; [left|done]).
  rewrite E in Hv. by apply elem_of_empty in Hv.
Qed.

Lemma predicate_values_dict f l :
  predicate_values f l = (fun p => f (te_value p)) <$> dict_by (fun p => normalized_id (te_key p)) l.
Proof.
  unfold predicate_values. induction l as [|p l IH] using rev_ind; [symmetry; apply fmap_empty|].
  by rewrite dict_by_snoc, fmap_insert, <- IH, foldl_app.
Qed.

Lemma predicate_values_Some f l k v :
  predicate_values f l !! k = Some v -> exists p, p ∈ l /\ normalized_id (te_key p) = k /\ f (te_value p) = v.
Proof.
  rewrite predicate_values_dict, lookup_fmap. intros (p & Hp & ->)%fmap_Some.
  apply dict_by_lookup_Some in Hp as [? ?]. by exists p.
Qed.

Lemma predicate_values_unique f l p : NoDup ((fun q => normalized_id (te_key q)) <$> l) -> p ∈ l ->
  predicate_values f l !! normalized_id (te_key p) = Some (f (te_value p)).
Proof.
  intros Hn Hp. rewrite predicate_values_dict, lookup_fmap.
  rewrite (dict_by_lookup_inj (fun q => normalized_id (te_key q)) l p); [done| |done].
  intros q Hq E. by eapply (NoDup_fmap_inj_on (fun q => normalized_id (te_key q))).
Qed.

Lemma require_unique_text_NoDup l label u : require_unique_text l label = Ok u <-> NoDup (normalized_id <$> l).
Proof. unfold require_unique_text. by rewrite guard_or_Ok, unique_NoDup. Qed.

Lemma same_id_eq s t : same_id s t = true <-> normalized_id s = normalized_id t.
Proof. apply String.eqb_eq. Qed.

Lemma normalize_resource_id_value s r : normalize_resource_id s = Ok r -> r = normalized_id s.
Proof.
  unfold normalize_resource_id. intros Hr. inv_ok. destruct (split_on slash _) as [|root parts]; [done|]. inv_ok. by subst.
Qed.

(** [option_narrower] is a preorder when its test is. *)
Lemma option_narrower_refl test o : (forall s, test s s = true) -> option_narrower test o o = true.
Proof. intros Ht. by destruct o; cbn. Qed.
Lemma option_narrower_trans test o1 o2 o3 : (forall a b c, test a b = true -> test b c = true -> test a c = true) ->
  option_narrower test o1 o2 = true -> option_narrower test o2 o3 = true -> option_narrower test o1 o3 = true.
Proof. intros Ht. destruct o1, o2, o3; cbn; eauto. done. Qed.

Lemma filter_narrower_iff p c :
  normalized_filter_is_narrower p c = true <-> p = [] \/ (c <> [] /\ normalized_set c ⊆ normalized_set p).
Proof.
  unfold normalized_filter_is_narrower. rewrite <- (normalized_set_empty p), <- (normalized_set_empty c).
  case_bool_decide; [naive_solver|]. rewrite andb_true_iff, negb_true_iff, bool_decide_eq_false, bool_decide_eq_true.
  naive_solver.
Qed.

(** A narrower filter accepts fewer values. *)
Lemma filter_narrower_sound p c k : normalized_filter_is_narrower p c = true ->
  bool_decide (c = []) || bool_decide (k ∈ normalized_set c) = true ->
  bool_decide (p = []) || bool_decide (k ∈ normalized_set p) = true.
Proof.
  intros [->|[Hne Hsub]]%filter_narrower_iff; [done|]. rewrite bool_decide_eq_false_2 by done. cbn [orb].
  intros Hk%bool_decide_eq_true. apply orb_true_iff. right. apply bool_decide_eq_true. by apply Hsub.
Qed.
End normal_sets.

(** ** Narrowing is a preorder *)
Section narrower_order.
Context `{PyText}.

Lemma atomic_narrower_refl a : atomic_override_is_narrower a a = true.
Proof.
  unfold atomic_override_is_narrower. rewrite Z.ltb_irrefl. cbn [negb andb].
  assert (Hsame : forall s, same_id s s = true) by (intros s; apply String.eqb_refl).
  assert (Hfilter : forall l, normalized_filter_is_narrower l l = true).
  { intros [|v l]; [by apply filter_narrower_iff; left|]. apply filter_narrower_iff. by right. }
  destruct a; rewrite ?Hsame, ?Hfilter, ?String.eqb_refl; try done.
  - by apply bool_decide_eq_true.
  - apply forallb_forall. intros [k v] Hkv. apply bool_decide_eq_true. apply list_elem_of_In in Hkv.
    by apply elem_of_map_to_list in Hkv.
  - rewrite !option_narrower_refl; [done|intros; apply ends_with_refl|intros; apply starts_with_refl].
  - rewrite option_narrower_refl; done.
Qed.

Lemma same_id_trans a b c : same_id a b = true -> same_id b c = true -> same_id a c = true.
Proof. rewrite !same_id_eq. congruence. Qed.

Lemma filter_narrower_trans a b c : normalized_filter_is_narrower a b = true ->
  normalized_filter_is_narrower b c = true -> normalized_filter_is_narrower a c = true.
Proof. rewrite !filter_narrower_iff. intros [->|[? ?]] [->|[? ?]]; [by left..|done|right; set_solver]. Qed.

Ltac split_bool := repeat match goal with
  | H : _ && _ = true |- _ => apply andb_true_iff in H as [? ?]
  | |- _ && _ = true => apply andb_true_iff; split
  end.

Lemma atomic_narrower_trans a b c : atomic_override_is_narrower a b = true ->
  atomic_override_is_narrower b c = true -> atomic_override_is_narrower a c = true.
Proof.
  unfold atomic_override_is_narrower. intros [Hab1 Hab]%andb_true_iff [Hbc1 Hbc]%andb_true_iff.
  apply andb_true_iff. split; [rewrite negb_true_iff, Z.ltb_ge in *; lia|]. clear Hab1 Hbc1.
  destruct a, b; try done; destruct c; try done; split_bool; eauto using same_id_trans, filter_narrower_trans.
  - apply bool_decide_eq_true in Hab, Hbc. apply bool_decide_eq_true. by etrans.
  - rewrite forallb_forall in *. intros [k v] Hkv. specialize (Hab _ Hkv). apply bool_decide_eq_true in Hab. cbn in Hab.
    apply (Hbc (k, v)). apply list_elem_of_In. by apply elem_of_map_to_list.
  - eapply option_narrower_trans; [|done..]. intros x y z. apply starts_with_trans.
  - eapply option_narrower_trans; [|done..]. intros x y z. apply ends_with_trans.
  - eapply option_narrower_trans; [|done..]. intros x y z. apply same_id_trans.
  - rewrite String.eqb_eq in *. congruence.
Qed.

(** What the narrowing of two [compositeAny] selectors compares. *)
Lemma any_narrower_iff (p c : gmap string AtomicSelector) :
  bool_decide (dom p = dom c) &&
  forallb (fun item => match c !! fst item with
                       | Some a => atomic_override_is_narrower (snd item) a
                       | None => false
                       end) (map_to_list p) = true <->
  dom p = dom c /\ forall id a b, p !! id = Some a -> c !! id = Some b -> atomic_override_is_narrower a b = true.
Proof.
  rewrite andb_true_iff, bool_decide_eq_true, forallb_elem. split; intros [Hd Hall]; (split; [done|]).
  - intros id a b Ha Hb. specialize (Hall (id, a)). cbn in Hall. rewrite Hb in Hall. apply Hall.
    by apply elem_of_map_to_list.
  - intros [id a] Ha%elem_of_map_to_list. cbn. destruct (c !! id) as [b|] eqn:Hb; [by eapply Hall|].
    apply elem_of_dom_2 in Ha. rewrite Hd in Ha. by apply not_elem_of_dom in Hb.
Qed.

(** [narrower previous current] holds when [current] may override [previous]. *)
Definition narrower (previous current : ManifestSelector) : Prop :=
  selector_override_is_narrower previous current = true.

(** The cases of [narrower], without the test of [max_matches]. *)
Definition narrower_cases (previous current : ManifestSelector) : Prop :=
  match current, previous with
  | CompositeAllSelector _ cs _, CompositeAllSelector _ ps _ =>
      forall p, p ∈ ps -> exists c, c ∈ cs /\ atomic_override_is_narrower p c = true
  | CompositeAllSelector _ cs _, CompositeAnySelector _ ps _ =>
      exists p, p ∈ ps /\ exists c, c ∈ cs /\ atomic_override_is_narrower p c = true
  | CompositeAllSelector _ cs _, Atomic p => exists c, c ∈ cs /\ atomic_override_is_narrower p c = true
  | Atomic c, Atomic p => atomic_override_is_narrower p c = true
  | CompositeAnySelector _ cs _, CompositeAnySelector _ ps _ =>
      dom (children_by_id ps) = dom (children_by_id cs) /\
      forall id a b, children_by_id ps !! id = Some a -> children_by_id cs !! id = Some b ->
                     atomic_override_is_narrower a b = true
  | _, _ => False
  end.

Lemma narrower_iff p c : narrower p c <-> selector_max_matches c <= selector_max_matches p /\ narrower_cases p c.
Proof.
  unfold narrower, selector_override_is_narrower. destruct (Z.ltb_spec (selector_max_matches p) (selector_max_matches c)).
  { split; [done|]. lia. }
  destruct c as [c|? cs ?|? cs ?], p as [p|? ps ?|? ps ?]; cbn [narrower_cases];
    rewrite ?any_narrower_iff, ?forallb_elem, ?existsb_elem; setoid_rewrite existsb_elem || idtac; naive_solver.
Qed.

Lemma narrower_refl s : narrower s s.
Proof.
  apply narrower_iff. split; [done|].
  destruct s; cbn; [apply atomic_narrower_refl|eauto using atomic_narrower_refl|].
  split; [done|]. intros id a b Ha Hb. simplify_eq. apply atomic_narrower_refl.
Qed.

(** The children a validated composite selector finds under their ids. *)
Lemma children_by_id_lookup s : validate_children s = Ok tt -> forall c, c ∈ selector_children s ->
  children_by_id (selector_children s) !! normalized_id (atomic_selector_id c) = Some c.
Proof.
  intros Hv c Hc. assert (Hn : NoDup ((fun c => normalized_id (atomic_selector_id c)) <$> selector_children s)).
  { destruct s as [a|id children n|id children n]; cbn in *; [constructor|..]; inv_ok;
      match goal with H : require_unique_text _ _ = _ |- _ => apply require_unique_text_NoDup in H; by rewrite <- list_fmap_compose in H end. }
  apply (dict_by_lookup_inj (fun c => normalized_id (atomic_selector_id c))); [|done].
  intros y Hy E. by eapply (NoDup_fmap_inj_on (fun c => normalized_id (atomic_selector_id c))).
Qed.

Lemma children_by_id_elem l id c : children_by_id l !! id = Some c -> c ∈ l.
Proof. by intros [? _]%dict_by_lookup_Some. Qed.

Lemma narrower_trans a b c : validate_children b = Ok tt -> narrower a b -> narrower b c -> narrower a c.
Proof.
  rewrite !narrower_iff. intros Hv [? Hab] [? Hbc]. split; [lia|]. pose proof (children_by_id_lookup b Hv) as Hb. clear Hv.
  destruct a as [a|? l1 ?|? l1 ?], b as [b|? l2 ?|? l2 ?]; try done; destruct c as [c|? l3 ?|? l3 ?]; try done; cbn in *.
  - by eapply atomic_narrower_trans.
  - destruct Hbc as (y & ? & ?). exists y. eauto using atomic_narrower_trans.
  - destruct Hab as (y & Hy & ?). destruct (Hbc y) as (z & ? & ?); [done|]. exists z. eauto using atomic_narrower_trans.
  - intros p Hp. destruct (Hab p) as (y & Hy & ?); [done|]. destruct (Hbc y) as (z & ? & ?); [done|]. exists z. eauto using atomic_narrower_trans.
  - destruct Hab as (p & Hp & y & Hy & ?). destruct (Hbc y) as (z & ? & ?); [done|].
    exists p. split; [done|]. exists z. eauto using atomic_narrower_trans.
  - destruct Hbc as (y & Hy & z & Hz & ?). destruct Hab as [Hd Hall]. specialize (Hb y Hy).
    assert (normalized_id (atomic_selector_id y) ∈ dom (children_by_id l1)) as [p Hp]%elem_of_dom
      by (rewrite Hd; by eapply elem_of_dom_2).
    exists p. split; [by eapply children_by_id_elem|]. exists z. eauto using atomic_narrower_trans.
  - destruct Hbc as [Hd2 N2]. destruct Hab as [Hd1 N1]. split; [congruence|]. intros id x z Hx Hz.
    assert (id ∈ dom (children_by_id l2)) as [y Hy]%elem_of_dom by (rewrite <- Hd1; by eapply elem_of_dom_2).
    by eapply atomic_narrower_trans; [eapply N1|eapply N2].
Qed.
End narrower_order.

(** ** Narrowing and overlap on resources *)
Section soundness.
Context `{PyTextAscii} `{!PyTextFold}.
Implicit Types (dict : resource_dict) (a : AtomicSelector) (s : ManifestSelector) (x : string).


Definition atoms_of (s : ManifestSelector) : list AtomicSelector :=
  match s with Atomic a => [a] | _ => selector_children s end.

(** A validated selector, with the [min_length=1] of its children; it is sound when
    the scale sets it names are Azure resource ids to the code's own parser. *)
Definition composed (s : ManifestSelector) : Prop := validate_children s = Ok tt /\ atoms_of s <> [].
Definition valid_scale_set (a : AtomicSelector) : bool :=
  match a with VmssSelector _ scale_set_resource_id _ _ => is_ok (normalize_resource_id scale_set_resource_id) | _ => true end.
Definition sound_selector (s : ManifestSelector) : Prop := composed s /\ forall a, a ∈ atoms_of s -> valid_scale_set a = true.

Lemma composed_atom s a : composed s -> a ∈ atoms_of s -> validate_atomic_selector a = Ok tt.
Proof.
  intros [Hv _] Ha. destruct s as [b|? cs ?|? cs ?]; cbn in *; [by apply list_elem_of_singleton in Ha as ->|..];
    inv_ok; by eapply mapR_unit_elem.
Qed.



(** The comparison text of an affix is an affix of the comparison text. *)
Lemma affix_narrower_sound test p c name :
  (forall q r t, test q r = true -> test r t = true -> test q t = true) ->
  (forall q r, test q r = true -> test (casefold q) (casefold r) = true) ->
  option_narrower (fun p c => test (normalize_nfc_text p) (normalize_nfc_text c)) p c = true ->
  optional_affix test c name = true -> optional_affix test p name = true.
Proof.
  intros Ht Hf. destruct p as [p|], c as [c|]; try done. cbn. intros Hpc%Hf Hc. by eapply Ht.
Qed.

(** A resource a narrower atomic selector matches, the inherited one matches. *)
Lemma atomic_narrower_sound p c x r : validate_atomic_selector p = Ok tt -> valid_scale_set p = true ->
  atomic_override_is_narrower p c = true -> atomic_match c x r = Ok true -> atomic_match p x r = Ok true.
Proof.
  unfold atomic_override_is_narrower. intros Hv Hp [_ Hn]%andb_true_iff Hm.
  destruct p, c; try done; cbn in *; inv_ok.
  - f_equal. apply bool_decide_eq_true in Hn, Hm. apply bool_decide_eq_true. by apply Hn.
  - f_equal. unfold tag_matches in *. rewrite forallb_elem in Hn. rewrite forallb_elem in Hm. apply forallb_elem. intros q Hq. apply require_unique_text_NoDup in Hv.
    rewrite <- list_fmap_compose in Hv.
    assert (Hq' : predicate_values normalize_nfc_text predicates !! normalized_id (te_key q) =
                  Some (normalize_nfc_text (te_value q))) by by apply predicate_values_unique.
    specialize (Hn (normalized_id (te_key q), normalize_nfc_text (te_value q))).
    rewrite bool_decide_eq_true in Hn. cbn in Hn. apply elem_of_map_to_list, Hn, predicate_values_Some in Hq' as (q' & Hin & Hk & Hval).
    specialize (Hm q' Hin). rewrite bool_decide_eq_true in *. rewrite <- Hk, Hm. f_equal. unfold normalized_id.
    by apply (f_equal casefold) in Hval.
  - f_equal. apply andb_true_iff. split.
    + eapply affix_narrower_sound; [apply starts_with_trans|apply casefold_starts_with|done..].
    + eapply affix_narrower_sound; [apply ends_with_trans|apply casefold_ends_with|done..].
  - f_equal. rewrite !andb_true_iff. split_and!.
    + rewrite same_id_eq in *. congruence.
    + by eapply filter_narrower_sound.
    + destruct (resource_group (re_resource_id r)) as [g|]; [by eapply filter_narrower_sound|].
      rewrite orb_false_r in *. rename select (normalized_filter_is_narrower resource_groups _ = true) into Hg.
      apply filter_narrower_iff in Hg as [->|[? _]]; [done|]. rewrite bool_decide_eq_true in *. done.
  - rename select (same_id scale_set_resource_id _ = true) into Hs.
    apply is_ok_spec in Hp as [e Hp]. rewrite Hp.
    destruct (normalize_resource_id scale_set_resource_id0) as [e0|] eqn:He0; [|done].
    apply normalize_resource_id_value in Hp as Ee, He0 as Ee0. rewrite same_id_eq in Hs.
    assert (e = e0) as -> by congruence. clear Hp He0 Ee Ee0.
    destruct (vmss_membership x) as [[[set instance]|]|]; cbn in *; inv_ok; simplify_eq. f_equal.
    apply andb_true_iff. split; [done|]. by eapply filter_narrower_sound.
  - f_equal. rewrite !andb_true_iff, ?same_id_eq in *.
    rename select (String.eqb _ _ = true) into Hs. apply String.eqb_eq in Hs. subst. intuition congruence.
Qed.

(** A narrower selector denotes fewer resources. *)
Lemma narrower_selects dict p c x : sound_selector p -> composed c -> narrower p c ->
  selects dict c x -> selects dict p x.
Proof.
  intros Hp Hc [_ Hn]%narrower_iff.
  assert (Hatom : forall a b, a ∈ atoms_of p -> b ∈ atoms_of c -> atomic_override_is_narrower a b = true ->
            atom_selects dict b x -> atom_selects dict a x).
  { intros a b Ha Hb Hab (r & Hin & Hr). exists r. split; [done|].
    destruct Hp as [Hp Hval]. pose proof (composed_atom _ _ Hp Ha). eapply atomic_narrower_sound; [done|by apply Hval|done..]. }
  destruct Hp as ((Hvp & Hnp) & _), Hc as (Hvc & Hnc).
  destruct p as [p|? ps ?|? ps ?], c as [c|? cs ?|? cs ?]; try done; cbn [selects atoms_of selector_children narrower_cases] in *.
  - apply Hatom; [by apply list_elem_of_singleton..|done].
  - destruct Hn as (c & Hc & Hpc). intros [_ Hall]. eapply Hatom; [by apply list_elem_of_singleton|done|done|]. by apply Hall.
  - intros [_ Hall]. split; [done|]. intros a Ha. destruct (Hn a Ha) as (c & Hc & Hac). eapply Hatom; [done..|]. by apply Hall.
  - destruct Hn as (a & Ha & c & Hc & Hac). intros [_ Hall]. exists a. split; [done|]. eapply Hatom; [done..|]. by apply Hall.
  - destruct Hn as [Hd Hn]. intros (c & Hc & Hx). pose proof (children_by_id_lookup _ Hvc c Hc) as Hl. cbn [selector_children] in Hl.
    assert (normalized_id (atomic_selector_id c) ∈ dom (children_by_id ps)) as [a Ha]%elem_of_dom
      by (rewrite Hd; by eapply elem_of_dom_2).
    exists a. pose proof (children_by_id_elem _ _ _ Ha). split; [done|]. eapply Hatom; [done..|by eapply Hn|done].
Qed.



(** ** The evaluation record *)
Context `{Rfc8785} `{ModelDump ManifestSelector}.



(** The matched ids of an evaluation are the denotation of its selector. *)
Lemma evaluate_selector_selects s resources e : evaluate_selector s resources = Ok e ->
  exists dict, resources_by_id resources = Ok dict /\ forall x, x ∈ sv_matched_resource_ids e <-> selects dict s x.
Proof.
  unfold evaluate_selector. intros He. inv_ok. destruct x0 as [m v]. inv_ok. subst e. cbn.
  eexists. split; [done|]. intros y. unfold sort_strings. rewrite elem_of_sort_by, elem_of_elements.
  by eapply evaluate_selects.
Qed.

(** ** The selectors of a resolved profile *)









(** C13: narrowing is sound for evidence: whatever resources are collected, every
    resource a narrower replacement of a selector matches, the replaced selector
    matches too, if the scale sets the replaced one names are resource ids the
    evaluation can parse. *)
Theorem narrowing_sound resources previous current ep ec :
  sound_selector previous -> composed current -> selector_override_is_narrower previous current = true ->
  evaluate_selector previous resources = Ok ep -> evaluate_selector current resources = Ok ec ->
  sv_matched_resource_ids ec ⊆ sv_matched_resource_ids ep.
Proof.
  intros Hp Hc Hn (dict & Hd & Hep)%evaluate_selector_selects (dict' & Hd' & Hec)%evaluate_selector_selects x Hx.
  same_ok. apply Hep, (narrower_selects _ _ current); [done..|]. by apply Hec.
Qed.


(** A guarded replacement of the selectors of a role denotes fewer resources. *)
Lemma guarded_replacement_selects dict previous current x :
  Forall sound_selector previous -> Forall sound_selector current ->
  is_guarded_selector_replacement_narrower previous current = true ->
  (exists s, s ∈ current /\ selects dict s x) -> exists s, s ∈ previous /\ selects dict s x.
Proof.
  unfold is_guarded_selector_replacement_narrower. rewrite !Forall_forall. intros Hp Hc Hg (s & Hs & Hx). inv_ok.
  rename select (forallb (fun replacement => _) _ = true) into Hn. rewrite forallb_elem in Hn.
  specialize (Hn s Hs). apply existsb_elem in Hn as (p & Hin & Hn). exists p. split; [done|].
  eapply narrower_selects; [by apply Hp|by apply Hc|done|done].
Qed.
End soundness.
