(* ===== verification/ManifestDump.v ===== *)
(** * ManifestDump: the JSON rendering of manifest models

    [model.model_dump(mode="json", by_alias=True, exclude_none=True)] of the models
    of contracts/manifest.py and contracts/models.py: the fields in the order of
    the class, under their aliases, timestamps as [_serialize_utc_datetime] writes
    them. *)
From S2P Require Import Prelude Text Time Json.
From S2P Require Export Workload.
Local Open Scope Z_scope.

(** ** Literals *)
Definition constraint_type_text (t : ConstraintType) : string :=
  match t with
  | CtCardinality => "cardinality"
  | CtZoneColocation => "zoneColocation"
  | CtZoneDistribution => "zoneDistribution"
  | CtRoleOperationalState => "roleOperationalState"
  | CtDependencyRequired => "dependencyRequired"
  | CtDependencyProhibited => "dependencyProhibited"
  | CtSupportedSingleton => "supportedSingleton"
  | CtObjectiveRequired => "objectiveRequired"
  | CtEvidenceFreshness => "evidenceFreshness"
  | CtControlRequired => "controlRequired"
  end.

Definition finding_kind_text (k : ManifestFindingKind) : string :=
  match k with
  | FkArchitectureConstraint => "architectureConstraint"
  | FkTechnologyConstraint => "technologyConstraint"
  | FkActualSpof => "actualSpof"
  | FkControlHealth => "controlHealth"
  | FkRiskAcceptance => "riskAcceptance"
  | FkObjective => "objective"
  | FkRelationshipConflict => "relationshipConflict"
  | FkEvidenceGap => "evidenceGap"
  | FkOperationalState => "operationalState"
  end.

Definition failure_verdict_text (v : FailureVerdict) : string :=
  match v with FvViolation => "violation" | FvUnknown => "unknown" | FvConflicting => "conflicting" end.
Definition success_verdict_text (v : SuccessVerdict) : string :=
  match v with SvPass => "pass" | SvExpectedConstraint => "expectedConstraint" | SvObservation => "observation" end.
Definition resource_state_text (s : ResourceState) : string :=
  match s with
  | RsRunning => "running" | RsStopped => "stopped" | RsDeallocated => "deallocated" | RsUnknown => "unknown"
  end.
Definition control_health_text (h : ControlHealth) : string :=
  match h with
  | ChEffective => "effective" | ChDegraded => "degraded" | ChMissing => "missing" | ChUnknown => "unknown"
  | ChExpired => "expired"
  end.
Definition comparison_text (c : Comparison) : string :=
  match c with CmpLt => "lt" | CmpLte => "lte" | CmpGt => "gt" | CmpGte => "gte" | CmpEq => "eq" end.
Definition approval_status_text (s : ApprovalStatus) : string :=
  match s with
  | AsApproved => "approved" | AsExpired => "expired" | AsRevoked => "revoked" | AsSuperseded => "superseded"
  end.
Definition role_status_text (s : RoleStatus) : string :=
  match s with RoleApproved => "approved" | RoleDeprecated => "deprecated" end.

(** _serialize_utc_datetime *)
Definition utc_json (t : Z) : json := JStr (canonical_timestamp t).
Definition texts_json (l : list string) : json := JArr (JStr <$> l).

(** ** Roles and selectors *)
Definition tag_equals_json (p : TagEquals) : json :=
  JObj [("key", JStr (te_key p)); ("value", JStr (te_value p))].

Definition atomic_selector_json (s : AtomicSelector) : json :=
  let head := [("selectorType", JStr (selector_type (Atomic s))); ("selectorId", JStr (atomic_selector_id s))] in
  JObj (head ++
    match s with
    | ResourceIdListSelector _ resource_ids n => [("resourceIds", texts_json resource_ids); ("maxMatches", JInt n)]
    | TagPredicateSelector _ predicates n =>
        [("predicates", JArr (tag_equals_json <$> predicates)); ("maxMatches", JInt n)]
    | NamePredicateSelector _ prefix suffix n =>
        opt_member "prefix" (JStr <$> prefix) ++ opt_member "suffix" (JStr <$> suffix) ++ [("maxMatches", JInt n)]
    | ResourceTypeSelector _ resource_type locations resource_groups n =>
        [("resourceType", JStr resource_type); ("locations", texts_json locations);
         ("resourceGroups", texts_json resource_groups); ("maxMatches", JInt n)]
    | VmssSelector _ scale_set_resource_id instance_ids n =>
        [("scaleSetResourceId", JStr scale_set_resource_id); ("instanceIds", texts_json instance_ids);
         ("maxMatches", JInt n)]
    | LoadBalancerBackendSelector _ load_balancer_resource_id backend_pool_name n =>
        [("loadBalancerResourceId", JStr load_balancer_resource_id); ("backendPoolName", JStr backend_pool_name);
         ("maxMatches", JInt n)]
    | SubnetSelector _ subnet_resource_id n => [("subnetResourceId", JStr subnet_resource_id); ("maxMatches", JInt n)]
    | ImageSelector _ publisher offer sku version n =>
        [("publisher", JStr publisher); ("offer", JStr offer); ("sku", JStr sku)] ++
        opt_member "version" (JStr <$> version) ++ [("maxMatches", JInt n)]
    | ProvenanceSelector _ collector_tool_name collector_tool_version identity_evidence_ref n =>
        [("collectorToolName", JStr collector_tool_name); ("collectorToolVersion", JStr collector_tool_version);
         ("identityEvidenceRef", JStr identity_evidence_ref); ("maxMatches", JInt n)]
    end).

Definition selector_json (s : ManifestSelector) : json :=
  match s with
  | Atomic s => atomic_selector_json s
  | CompositeAllSelector id children n | CompositeAnySelector id children n =>
      JObj [("selectorType", JStr (selector_type s)); ("selectorId", JStr id);
            ("children", JArr (atomic_selector_json <$> children)); ("maxMatches", JInt n)]
  end.

Definition cardinality_kind (c : ManifestCardinality) : string :=
  match c with
  | ExactlyOneCardinality => "exactlyOne"
  | OneOrMoreCardinality => "oneOrMore"
  | ZeroOrMoreCardinality => "zeroOrMore"
  | BoundedCardinality _ _ => "boundedRange"
  end.

Definition cardinality_json (c : ManifestCardinality) : json :=
  JObj ([("cardinalityKind", JStr (cardinality_kind c))] ++
        match c with
        | BoundedCardinality minimum maximum => [("minimum", JInt minimum); ("maximum", JInt maximum)]
        | _ => []
        end).

Definition role_json (r : ManifestRole) : json :=
  JObj [("roleId", JStr (mr_role_id r)); ("kind", JStr (mr_kind r)); ("cardinality", cardinality_json (mr_cardinality r));
        ("selectors", JArr (selector_json <$> mr_selectors r)); ("ownerRef", JStr (mr_owner_ref r));
        ("status", JStr (role_status_text (mr_status r)))].

Definition owner_json (o : ManifestOwner) : json :=
  JObj [("ownerRef", JStr (mo_owner_ref o)); ("ownerRole", JStr (mo_owner_role o));
        ("authorityRef", JStr (mo_authority_ref o))].

(** ** Clauses *)
Definition endpoint_json (e : ManifestEndpoint) : json :=
  match e with
  | RoleEndpoint role_ref => JObj [("endpointType", JStr "role"); ("roleRef", JStr role_ref)]
  | ExternalEndpoint external_ref => JObj [("endpointType", JStr "external"); ("externalRef", JStr external_ref)]
  end.

Definition clause_scope_json (s : ClauseScope) : json :=
  JObj [("governanceScopeType", JStr "clause"); ("manifestId", JStr (cs_manifest_id s));
        ("profileId", JStr (cs_profile_id s)); ("clausePath", JStr (cs_clause_path s));
        ("ownerRef", JStr (cs_owner_ref s))].

Definition relationship_json (r : ManifestRelationship) : json :=
  match r with
  | Declared d =>
      JObj [("relationshipClass", JStr "declared"); ("relationshipId", JStr (dr_relationship_id d));
            ("kind", JStr (dr_kind d)); ("source", endpoint_json (dr_source d)); ("target", endpoint_json (dr_target d));
            ("ownerRef", JStr (dr_owner_ref d)); ("profiles", texts_json (dr_profiles d));
            ("sourceClause", JStr (dr_source_clause d))]
  | Exception x =>
      JObj ([("relationshipClass", JStr "exception"); ("exceptionId", JStr (xr_exception_id x))] ++
            opt_member "appliesToRelationshipRef" (JStr <$> xr_applies_to_relationship_ref x) ++
            opt_member "appliesToClauseRef" (JStr <$> xr_applies_to_clause_ref x) ++
            [("riskAcceptanceRef", JStr (xr_risk_acceptance_ref x));
             ("governanceScope", clause_scope_json (xr_governance_scope x)); ("ownerRef", JStr (xr_owner_ref x));
             ("rationale", JStr (xr_rationale x)); ("expiresAt", utc_json (xr_expires_at x))])
  end.

Definition proof_kind (p : ManifestProof) : string :=
  match p with
  | CardinalityProof _ _ => "cardinalityProof"
  | ZoneColocationProof _ _ => "zoneColocationProof"
  | ZoneDistributionProof _ _ => "zoneDistributionProof"
  | RoleOperationalState _ => "roleOperationalStateProof"
  | RelationshipPresenceProof _ => "relationshipPresenceProof"
  | EvidenceFreshnessProof _ => "evidenceFreshnessProof"
  | ControlHealthProof _ _ => "controlHealthProof"
  | ObjectiveThresholdProof _ _ _ => "objectiveThresholdProof"
  end.

Definition proof_json (p : ManifestProof) : json :=
  JObj ([("proofKind", JStr (proof_kind p))] ++
    match p with
    | CardinalityProof role_ref expected => [("roleRef", JStr role_ref); ("expected", cardinality_json expected)]
    | ZoneColocationProof subject anchor => [("subjectRoleRef", JStr subject); ("anchorRoleRef", JStr anchor)]
    | ZoneDistributionProof role_ref n => [("roleRef", JStr role_ref); ("minimumDistinctZones", JInt n)]
    | RoleOperationalState p =>
        [("roleRef", JStr (osp_role_ref p)); ("healthyStates", texts_json (resource_state_text <$> osp_healthy_states p));
         ("failureStates", texts_json (resource_state_text <$> osp_failure_states p));
         ("minimumHealthy", JInt (osp_minimum_healthy p))]
    | RelationshipPresenceProof ref => [("declaredRelationshipRef", JStr ref)]
    | EvidenceFreshnessProof n => [("maximumAgeSeconds", JInt n)]
    | ControlHealthProof ref h => [("controlRef", JStr ref); ("requiredHealth", JStr (control_health_text h))]
    | ObjectiveThresholdProof ref c x =>
        [("objectiveRef", JStr ref); ("comparison", JStr (comparison_text c)); ("threshold", JFloat x)]
    end).

Definition constraint_json (c : ManifestConstraint) : json :=
  JObj ([("constraintId", JStr (mc_constraint_id c)); ("constraintType", JStr (constraint_type_text (mc_constraint_type c)));
         ("findingKind", JStr (finding_kind_text (mc_finding_kind c)));
         ("governanceScope", clause_scope_json (mc_governance_scope c)); ("ownerRef", JStr (mc_owner_ref c));
         ("profiles", texts_json (mc_profiles c)); ("proofRequirement", proof_json (mc_proof_requirement c));
         ("failureVerdict", JStr (failure_verdict_text (mc_failure_verdict c)));
         ("successVerdict", JStr (success_verdict_text (mc_success_verdict c)))] ++
        opt_member "riskAcceptanceRef" (JStr <$> mc_risk_acceptance_ref c) ++
        opt_member "riskAcceptanceClauseRef" (JStr <$> mc_risk_acceptance_clause_ref c) ++
        [("protected", JBool (mc_protected c))]).

(** ** Controls *)
Definition control_kind (c : ManifestControl) : string :=
  match c with
  | BackupControl _ _ _ _ => "backup"
  | RestoreTestControl _ _ _ _ _ => "restoreTest"
  | ManualFailoverRunbookControl _ _ _ => "manualFailoverRunbook"
  | MonitoringAlertControl _ _ _ _ _ => "monitoringAlert"
  | CapacityReviewControl _ _ _ _ => "capacityReview"
  | AccessReviewControl _ _ _ _ => "accessReview"
  | ChangeApprovalControl _ _ _ => "changeApproval"
  | VendorSupportControl _ _ _ _ => "vendorSupport"
  end.

(** _control_variant_payload: the fields of a control class beyond the common
    ones, [None] rendered as [null]. *)
Definition control_variant_payload (c : ManifestControl) : list (string * json) :=
  match c with
  | BackupControl _ policy at_ refs =>
      [("backupPolicyRef", JStr policy); ("lastSuccessfulBackupAt", utc_json at_); ("evidenceRefs", texts_json refs)]
  | RestoreTestControl _ at_ outcome rto refs =>
      [("lastTestedAt", utc_json at_); ("testOutcome", JStr outcome); ("rtoObservedSeconds", JInt rto);
       ("evidenceRefs", texts_json refs)]
  | ManualFailoverRunbookControl _ runbook at_ => [("runbookRef", JStr runbook); ("lastReviewedAt", utc_json at_)]
  | MonitoringAlertControl _ rule enabled at_ refs =>
      [("alertRuleRef", JStr rule); ("enabledState", JStr enabled);
       ("lastFiredAt", from_option utc_json JNull at_); ("evidenceRefs", texts_json refs)]
  | CapacityReviewControl _ cadence at_ due =>
      [("cadence", JStr cadence); ("lastReviewedAt", utc_json at_); ("nextReviewDueAt", utc_json due)]
  | AccessReviewControl _ cadence at_ system =>
      [("cadence", JStr cadence); ("lastCompletedAt", utc_json at_); ("reviewSystemRef", JStr system)]
  | ChangeApprovalControl _ system kinds =>
      [("approvalSystemRef", JStr system); ("requiredForChangeKinds", texts_json kinds)]
  | VendorSupportControl _ plan hours at_ =>
      [("supportPlanRef", JStr plan); ("coverageHours", JStr hours); ("expiresAt", utc_json at_)]
  end.

Definition control_json (c : ManifestControl) : json :=
  let b := control_base c in
  JObj ([("controlId", JStr (cb_control_id b)); ("governanceScope", clause_scope_json (cb_governance_scope b));
         ("ownerRef", JStr (cb_owner_ref b)); ("profiles", texts_json (cb_profiles b)); ("health", JStr (cb_health b));
         ("controlKind", JStr (control_kind c))] ++
        select (fun m => negb (bool_decide (snd m = JNull))) (control_variant_payload c)).

(** ** Risk acceptances, objectives, settings *)
Definition resource_binding_json (b : AcceptedResourceBinding) : json :=
  JObj [("roleRef", JStr (arb_role_ref b)); ("resourceId", JStr (arb_resource_id b))].

Definition risk_json (a : ManifestRiskAcceptance) : json :=
  JObj [("riskAcceptanceId", JStr (ra_risk_acceptance_id a)); ("governanceScope", clause_scope_json (ra_governance_scope a));
        ("riskKind", JStr (ra_risk_kind a)); ("riskRating", JStr (ra_risk_rating a));
        ("residualRiskStatement", JStr (ra_residual_risk_statement a)); ("rationaleRef", JStr (ra_rationale_ref a));
        ("acceptedBy", JStr (ra_accepted_by a)); ("ownedBy", JStr (ra_owned_by a));
        ("acceptedAt", utc_json (ra_accepted_at a)); ("expiresAt", utc_json (ra_expires_at a));
        ("linkedControlRefs", texts_json (ra_linked_control_refs a));
        ("acceptedResourceBindings", JArr (resource_binding_json <$> ra_accepted_resource_bindings a));
        ("profiles", texts_json (ra_profiles a)); ("status", JStr (approval_status_text (ra_status a)))].

Definition objective_json (o : ManifestObjective) : json :=
  JObj [("objectiveId", JStr (ob_objective_id o)); ("objectiveType", JStr (ob_objective_type o));
        ("ownerRef", JStr (ob_owner_ref o)); ("target", JFloat (ob_target o))].

Definition settings_json (s : ManifestProfileSettings) : json :=
  JObj [("continuity", JObj [("zoneLossContinuityRequired",
                              JBool (cn_zone_loss_continuity_required (st_continuity s)))])].

(** ** Scopes and compatibility (contracts/models.py) *)
Definition evidence_scope_json (s : EvidenceScope) : json :=
  match s with
  | SubscriptionScope tenant subscription =>
      JObj [("scopeType", JStr "subscription"); ("tenantId", JStr tenant); ("subscriptionId", JStr subscription)]
  | ResourceGroupScope tenant subscription group =>
      JObj [("scopeType", JStr "resourceGroup"); ("tenantId", JStr tenant); ("subscriptionId", JStr subscription);
            ("resourceGroupName", JStr group)]
  | ResourceIdScope id => JObj [("scopeType", JStr "resourceId"); ("resourceId", JStr id)]
  | LogAnalyticsWorkspaceScope tenant subscription group workspace =>
      JObj [("scopeType", JStr "logAnalyticsWorkspace"); ("tenantId", JStr tenant); ("subscriptionId", JStr subscription);
            ("resourceGroupName", JStr group); ("workspaceName", JStr workspace)]
  | ServiceHealthRegionScope cloud region =>
      JObj [("scopeType", JStr "serviceHealthRegion"); ("cloud", JStr cloud); ("region", JStr region)]
  end.

Definition capability_json (c : CapabilityRequirement) : json :=
  JObj [("capabilityId", JStr (cq_capability_id c)); ("minimumVersion", JStr (cq_minimum_version c));
        ("requiredFor", JStr (cq_required_for c))].

Definition compatibility_json (c : CompatibilityMetadata) : list (string * json) :=
  [("artifactKind", JStr (cm_artifact_kind c)); ("schemaVersion", JStr (cm_schema_version c));
   ("semanticContractVersion", JStr (cm_semantic_contract_version c));
   ("policyContractVersion", JStr (cm_policy_contract_version c));
   ("minimumReaderVersion", JStr (cm_minimum_reader_version c));
   ("requiresCapabilities", JArr (capability_json <$> cm_requires_capabilities c));
   ("producedBy", JObj [("producerId", JStr (cm_producer_id c)); ("version", JStr (cm_producer_version c))]);
   ("extensionPolicy", JStr (cm_extension_policy c)); ("artifactDigest", JStr (cm_artifact_digest c));
   ("semanticDigest", JStr (cm_semantic_digest c))].

(** ** The resolved profile *)
Definition resolved_profile_json (p : ResolvedManifestProfile) : list (string * json) :=
  [("manifestId", JStr (rp_manifest_id p)); ("manifestVersion", JStr (rp_manifest_version p));
   ("profileId", JStr (rp_profile_id p)); ("profileType", JStr (rp_profile_type p));
   ("allowedEvidenceScopes", JArr (evidence_scope_json <$> rp_allowed_evidence_scopes p));
   ("compatibility", JObj (compatibility_json (rp_compatibility p)));
   ("inheritanceChain", texts_json (rp_inheritance_chain p)); ("settings", settings_json (rp_settings p));
   ("roles", JArr (role_json <$> rp_roles p)); ("relationships", JArr (relationship_json <$> rp_relationships p));
   ("constraints", JArr (constraint_json <$> rp_constraints p)); ("controls", JArr (control_json <$> rp_controls p));
   ("riskAcceptances", JArr (risk_json <$> rp_risk_acceptances p));
   ("objectives", JArr (objective_json <$> rp_objectives p)); ("ownership", JArr (owner_json <$> rp_ownership p));
   ("resolvedProfileDigest", JStr (rp_resolved_profile_digest p))].
