(* ===== verification/ManifestJson.v ===== *)
(** * ManifestJson: the canonical form of a manifest payload

    contracts/manifest.py before validation: a payload is a JSON object;
    canonicalization spells out the defaults, sorts the keyed collections and
    stamps the digests. [deepcopy] is the identity on values; a [dict] keeps its
    members in insertion order. *)
From S2P Require Import Prelude Text Json.
From Stdlib Require Import Ascii.
Local Open Scope Z_scope.

Abbreviation members := (list (string * json)).

(** [d.setdefault(k, v)] *)
Definition set_default (k : string) (v : json) (d : members) : members :=
  if has_key k d then d else d ++ [(k, v)].

(** [d[k] = f(d[k])] for a key that is present *)
Definition update_member (k : string) (f : json -> json) (d : members) : members :=
  (fun m => if String.eqb (fst m) k then (fst m, f (snd m)) else m) <$> d.

(** [if isinstance(v, list): for item in v: ...] and [if isinstance(v, dict): ...] *)
Definition map_list (f : json -> json) (v : json) : json :=
  match v with JArr l => JArr (f <$> l) | _ => v end.
Definition map_dict (f : members -> members) (v : json) : json :=
  match v with JObj d => JObj (f d) | _ => v end.

(** [d.pop(k, None)] *)
Definition remove_member (k : string) (d : members) : members :=
  select (fun m => negb (String.eqb (fst m) k)) d.

(** [d[k] = v] *)
Definition put_member (k : string) (v : json) (d : members) : members :=
  if has_key k d then update_member k (fun _ => v) d else d ++ [(k, v)].

(** ** _materialize_manifest_defaults *)

(** The defaults of a selector variant *)
Definition selector_defaults (d : members) : members :=
  match get "selectorType" d with
  | JStr t =>
      if String.eqb t "resourceType" then set_default "resourceGroups" (JArr []) (set_default "locations" (JArr []) d)
      else if String.eqb t "vmScaleSet" then set_default "instanceIds" (JArr []) d
      else d
  | _ => d
  end.

(** _materialize_selector_defaults *)
Fixpoint materialize_selector_defaults (selector : json) : json :=
  match selector with
  | JObj d =>
      JObj (selector_defaults
        (List.map (fun m => match m with
                            | (k, JArr children) =>
                                if String.eqb k "children" then (k, JArr (List.map materialize_selector_defaults children))
                                else m
                            | _ => m
                            end) d))
  | _ => selector
  end.

(** The body of the loop over [roles] *)
Definition materialize_role (role : members) : members :=
  update_member "selectors" (map_list materialize_selector_defaults) (set_default "status" (JStr "approved") role).

(** materialize_collections *)
Definition materialize_collections (container : members) : members :=
  update_member "riskAcceptances"
    (map_list (map_dict (fun risk => set_default "acceptedResourceBindings" (JArr [])
                                       (set_default "linkedControlRefs" (JArr []) risk))))
    (update_member "constraints" (map_list (map_dict (set_default "protected" (JBool false))))
      (update_member "roles" (map_list (map_dict materialize_role)) container)).

(** [for field_name in names: d.setdefault(field_name, [])] *)
Definition set_default_lists (names : list string) (d : members) : members :=
  foldl (fun d k => set_default k (JArr []) d) d names.

Definition materialize_profile (profile : members) : members :=
  materialize_collections
    (set_default_lists ["roles"; "relationships"; "constraints"; "controls"; "riskAcceptances"; "objectives";
                        "ownership"; "weakeningOverrides"; "disabledRefs"] profile).

(** _materialize_manifest_defaults *)
Definition materialize_manifest_defaults (canonical : members) : members :=
  update_member "profiles" (map_dict (fun profiles => (fun m => (fst m, map_dict materialize_profile (snd m))) <$> profiles))
    (materialize_collections
      (set_default_lists ["relationships"; "constraints"; "controls"; "riskAcceptances"; "objectives"] canonical)).

Section sorting.
Context `{PyText} `{PyStr}.

(** [_normalized_id(str(item.get(k, "")))] *)
Definition text_key (k : string) (d : members) : string :=
  normalized_id (py_str (default (JStr "") (assoc k d))).

(** [tuple(_normalized_id(str(item.get(key, ""))) for key in candidate_keys)], [("",)]
    for an item that is no object *)
Definition item_key (candidate_keys : list string) (item : json) : list string :=
  match item with
  | JObj d => (fun k => text_key k d) <$> candidate_keys
  | _ => [""]
  end.

(** The sort key of a relationship *)
Definition relationship_item_key (item : json) : string :=
  match item with
  | JObj d => normalized_id (py_str (py_or (get "relationshipId" d) (py_or (get "exceptionId" d) (JStr ""))))
  | _ => ""
  end.

(** The sort key of a selector *)
Definition selector_item_key (item : json) : string :=
  match item with JObj d => text_key "selectorId" d | _ => "" end.

(** _sort_selector_children; a child keeps its sort key when its own children are
    sorted, so they may be sorted first. *)
Fixpoint sort_selector_children (selector : json) : json :=
  match selector with
  | JObj d =>
      JObj (List.map (fun m => match m with
                               | (k, JArr children) =>
                                   if String.eqb k "children"
                                   then (k, JArr (sort_by selector_item_key (List.map sort_selector_children children)))
                                   else m
                               | _ => m
                               end) d)
  | _ => selector
  end.

(** [selectors.sort(...)] and the children of each *)
Definition sort_selectors (v : json) : json :=
  match v with
  | JArr l => JArr (sort_selector_children <$> sort_by selector_item_key l)
  | _ => v
  end.

(** [items.sort(key=...)] *)
Definition sort_items {K} `{SortKey K} (key : json -> K) (v : json) : json :=
  match v with JArr l => JArr (sort_by key l) | _ => v end.

(** [key_fields] *)
Definition key_fields : list (string * list string) :=
  [("roles", ["roleId"]); ("constraints", ["constraintId"]); ("controls", ["controlId"]);
   ("riskAcceptances", ["riskAcceptanceId"]); ("objectives", ["objectiveId"]); ("ownership", ["ownerRef"]);
   ("weakeningOverrides", ["overrideId"]); ("disabledRefs", ["targetKind"; "targetRef"])].

(** One collection of [key_fields] *)
Definition sort_collection (container : members) (field : string * list string) : members :=
  update_member (fst field) (fun items =>
    let items := sort_items (item_key (snd field)) items in
    if String.eqb (fst field) "roles"
    then map_list (map_dict (update_member "selectors" sort_selectors)) items
    else items) container.

(** sort_collections *)
Definition sort_collections (container : members) : members :=
  foldl sort_collection (update_member "relationships" (sort_items relationship_item_key) container) key_fields.

(** _sort_manifest_keyed_collections *)
Definition sort_manifest_keyed_collections (payload : members) : members :=
  update_member "profiles" (map_dict (fun profiles =>
      (fun m => (fst m, map_dict sort_collections (snd m))) <$> sort_by (fun m => normalized_id (fst m)) profiles))
    (sort_collections payload).

(** _manifest_digest_payload, from a JSON object *)
Definition manifest_digest_payload (value : members) (semantic : bool) : result json :=
  let payload := sort_manifest_keyed_collections (materialize_manifest_defaults value) in
  match get "compatibility" payload with
  | JObj _ =>
      let payload := update_member "compatibility"
        (map_dict (fun c => remove_member "semanticDigest" (remove_member "artifactDigest" c))) payload in
      Ok (JObj (if semantic
                then update_member "compatibility" (map_dict (remove_member "schemaVersion"))
                       (update_member "workload" (map_dict (remove_member "displayName")) payload)
                else payload))
  | _ => Raise (AthenaValidationError "manifest compatibility object is required")
  end.

Context `{Rfc8785}.

(** canonicalize_manifest_payload *)
Definition canonicalize_manifest_payload (payload : members) : result members :=
  let canonical := sort_manifest_keyed_collections (materialize_manifest_defaults payload) in
  match get "compatibility" canonical with
  | JObj _ =>
      artifact_payload ← manifest_digest_payload canonical false;
      artifact_digest ← compute_artifact_digest artifact_payload;
      let canonical := update_member "compatibility" (map_dict (put_member "artifactDigest" (JStr artifact_digest))) canonical in
      semantic_payload ← manifest_digest_payload canonical true;
      semantic_digest ← compute_artifact_digest semantic_payload;
      Ok (update_member "compatibility" (map_dict (put_member "semanticDigest" (JStr semantic_digest))) canonical)
  | _ => Raise (AthenaValidationError "manifest compatibility object is required")
  end.
End sorting.
