(* ===== verification/Inheritance.v ===== *)
(** * Inheritance: merging a profile into what it inherits

    The steps of profile resolution in contracts/manifest.py that compare a
    profile with its inherited clauses: the keyed merge, the governed weakening
    overrides, the immutability of inherited semantics, the protected constraints,
    and the disabled references. Every [for] loop of checks is a [mapR]; the
    iteration order of a Python [set] is that of [elements]. *)
From S2P Require Import Prelude Text Json.
From S2P Require Export Policy Selectors ManifestDump.

(** * Merging a profile into what it inherits

    The steps of profile resolution in contracts/manifest.py that compare a
    profile with its inherited clauses: the keyed merge, the governed weakening
    overrides, the immutability of inherited semantics, the protected
    constraints, and the disabled references. Every [for] loop of checks is a
    [mapR]; the iteration order of a Python [set] is that of [elements]. *)
Local Open Scope Z_scope.

(** [if b: m] *)
Definition when (b : bool) (m : result unit) : result unit := if b then m else Ok tt.

(** [for x in l: f(x)] *)
Definition each {A} (f : A -> result unit) (l : list A) : result unit := _ ← mapR f l; Ok tt.

(** [model.model_dump(...) != model.model_dump(...)] *)
Definition dumps_differ (previous current : json) : bool := negb (py_eq previous current).

(** The authority of a cohort decision for one manifest, version and profile *)
Abbreviation role_authority := (option (ManifestRole -> ManifestRole -> result bool)).

Section weakening.
Context `{PyText} `{PyStr}.

(** [_PROTECTED_REFS] *)
Definition protected_refs : list string :=
  ["db-singleton-supported"; "db-zone-loss-spof"; "db-zone-loss-acceptance"; "worker-db-zone-colocation";
   "web-zone-distribution"].
Definition is_protected_ref (ref : string) : bool := bool_decide (normalized_id ref ∈ protected_refs).

(** [previous.protected or _normalized_id(previous.constraint_id) in _PROTECTED_REFS] *)
Definition is_protected (c : ManifestConstraint) : bool := mc_protected c || is_protected_ref (mc_constraint_id c).

(** ** _variant *)
Definition role_variant (r : ManifestRole) : list string := [mr_kind r; cardinality_kind (mr_cardinality r)].
Definition relationship_variant (r : ManifestRelationship) : list string :=
  match r with Declared d => [dr_kind d; "declared"] | Exception _ => ["exception"] end.
Definition constraint_variant (c : ManifestConstraint) : list string :=
  [constraint_type_text (mc_constraint_type c); proof_kind (mc_proof_requirement c)].
Definition control_variant (c : ManifestControl) : list string := [control_kind c].
Definition risk_variant (a : ManifestRiskAcceptance) : list string := [ra_risk_kind a].
Definition objective_variant (o : ManifestObjective) : list string := [ob_objective_type o].
Definition owner_variant (o : ManifestOwner) : list string := [].
Definition selector_variant (s : ManifestSelector) : list string :=
  selector_type s ::
  ((fun child => normalized_id (atomic_selector_id child) +:+ ":" +:+ selector_type (Atomic child)) <$>
   sort_by (fun child => normalized_id (atomic_selector_id child)) (selector_children s)).

(** ** _merge_keyed *)

(** The loop: [override previous item] is the item that replaces [previous]. *)
Definition merge_keyed {A} (key : A -> string) (override : A -> A -> result A) (current additions : list A)
    : result (list A) :=
  merged ← foldR (fun merged item =>
      let k := normalized_id (key item) in
      item ← match merged !! k with
             | Some previous => override previous item
             | None => Ok item
             end;
      Ok (<[k := item]> merged)) (dict_by (fun item => normalized_id (key item)) current) additions;
  Ok (sorted_values merged).

(** The discriminator test of every kind of item *)
Definition same_variant {A} (variant : A -> list string) (previous item : A) : result A :=
  _ ← guard_or (AthenaValidationError "illegal discriminator or type change for inherited ref")
        (bool_decide (variant previous = variant item));
  Ok item.

Definition override_constraint (previous item : ManifestConstraint) : result ManifestConstraint :=
  _ ← same_variant constraint_variant previous item;
  _ ← raise_if (AthenaValidationError "protected constraint cannot be unprotected")
        (is_protected previous && negb (mc_protected item));
  Ok item.

(** [ManifestRole.model_validate(payload)] with other selectors *)
Definition with_selectors (r : ManifestRole) (selectors : list ManifestSelector) : result ManifestRole :=
  let r := {| mr_role_id := mr_role_id r; mr_kind := mr_kind r; mr_cardinality := mr_cardinality r;
              mr_selectors := selectors; mr_owner_ref := mr_owner_ref r; mr_status := mr_status r |} in
  _ ← guard_or (ValidationError "selectors") ((1 <=? length selectors)%nat && (length selectors <=? 20)%nat);
  _ ← validate_selectors r;
  Ok r.

(** [{_normalized_id(selector.selector_id) for selector in selectors}] *)
Definition selector_ids (selectors : list ManifestSelector) : gset string := normalized_set (selector_id <$> selectors).

Definition override_role (permits : role_authority) (previous item : ManifestRole) : result ManifestRole :=
  _ ← same_variant role_variant previous item;
  if bool_decide (selector_ids (mr_selectors previous) ## selector_ids (mr_selectors item)) then
    permitted ← match permits with Some p => p previous item | None => Ok false end;
    _ ← guard_or (AthenaValidationError "inherited selector identities are immutable outside an exact cohort decision")
          permitted;
    with_selectors item (mr_selectors item)
  else
    selectors ← merge_keyed selector_id (same_variant selector_variant) (mr_selectors previous) (mr_selectors item);
    with_selectors item selectors.

Definition merge_roles (permits : role_authority) := merge_keyed mr_role_id (override_role permits).
Definition merge_relationships := merge_keyed relationship_key (same_variant relationship_variant).
Definition merge_constraints := merge_keyed mc_constraint_id override_constraint.
Definition merge_controls := merge_keyed (fun c => cb_control_id (control_base c)) (same_variant control_variant).
Definition merge_risks := merge_keyed ra_risk_acceptance_id (same_variant risk_variant).
Definition merge_objectives := merge_keyed ob_objective_id (same_variant objective_variant).
Definition merge_owners := merge_keyed mo_owner_ref (same_variant owner_variant).

(** [{_normalized_id(item.key): item for item in items}.get(_normalized_id(ref))] *)
Definition find_by {A} (key : A -> string) (items : list A) (ref : string) : option A :=
  dict_by (fun item => normalized_id (key item)) items !! normalized_id ref.

(** ** Governed overrides *)
Section child.
Variables (child : ManifestProfile) (as_of : Z).

(** [f"/resolvedProfiles/{child.profile_id}/..."] *)
Definition resolved_path (tail : string) : string := "/resolvedProfiles/" +:+ mp_profile_id child +:+ "/" +:+ tail.

(** _find_override, with [child.weakening_overrides] and [child.profile_id]; the
    override it returns is not used. *)
Definition find_override (target_path target_ref reason : string) : result unit :=
  guard_or (AthenaValidationError "weakening requires exactly one active governed override")
    (length (select (fun o => authorizes_override o as_of (mp_profile_id child) target_path target_ref reason)
       (mp_weakening_overrides child)) =? 1)%nat.

Definition constraint_path (c : ManifestConstraint) (tail : string) : string :=
  resolved_path ("constraints/" +:+ mc_constraint_id c +:+ "/" +:+ tail).

(** [current_min < previous_min or current_max > previous_max] *)
Definition bounds_widened (previous current : ManifestCardinality) : bool :=
  let (previous_min, previous_max) := cardinality_bounds previous in
  let (current_min, current_max) := cardinality_bounds current in
  (current_min <? previous_min) || (previous_max <? current_max).

(** The body of the loop of _validate_role_requirement_weakening *)
Definition check_role_weakening (inherited : list ManifestRole) (role : ManifestRole) : result unit :=
  match find_by mr_role_id inherited (mr_role_id role) with
  | None => Ok tt
  | Some previous =>
      when (bounds_widened (mr_cardinality previous) (mr_cardinality role))
        (find_override (resolved_path ("roles/" +:+ mr_role_id role +:+ "/cardinality")) (mr_role_id role)
           "cardinalityRelaxation")
  end.

(** _validate_role_requirement_weakening *)
Definition validate_role_requirement_weakening (inherited resolved : list ManifestRole) : result unit :=
  each (check_role_weakening inherited) resolved.

(** [constraint_type], [finding_kind], [failure_verdict] or [success_verdict] changed *)
Definition semantics_changed (previous current : ManifestConstraint) : bool :=
  negb (bool_decide (mc_constraint_type current = mc_constraint_type previous)) ||
  negb (bool_decide (mc_finding_kind current = mc_finding_kind previous)) ||
  negb (bool_decide (mc_failure_verdict current = mc_failure_verdict previous)) ||
  negb (bool_decide (mc_success_verdict current = mc_success_verdict previous)).

Definition zone_override (c : ManifestConstraint) : result unit :=
  find_override (constraint_path c "proofRequirement/minimumDistinctZones") (mc_constraint_id c)
    "zoneRequirementRelaxation".
Definition constraint_override (c : ManifestConstraint) (tail : string) : result unit :=
  find_override (constraint_path c tail) (mc_constraint_id c) "constraintRequirementRelaxation".

(** The body of the loop of _validate_protected_constraint_overrides *)
Definition check_protected_override (inherited : list ManifestConstraint) (constraint : ManifestConstraint)
    : result unit :=
  match find_by mc_constraint_id inherited (mc_constraint_id constraint) with
  | None => Ok tt
  | Some previous =>
      _ ← guard_or (AthenaValidationError "findingKind requires a new constraint id")
            (bool_decide (mc_finding_kind previous = mc_finding_kind constraint));
      when (is_protected previous)
        (_ ← raise_if (AthenaValidationError "protected constraint semantics are invariant")
               (negb (mc_protected constraint) || semantics_changed previous constraint);
         match mc_proof_requirement previous, mc_proof_requirement constraint with
         | ZoneDistributionProof previous_role previous_zones, ZoneDistributionProof current_role current_zones =>
             _ ← guard_or (AthenaValidationError "protected constraint proof is invariant")
                   (String.eqb previous_role current_role);
             when (current_zones <? previous_zones) (zone_override constraint)
         | previous_proof, current_proof =>
             raise_if (AthenaValidationError "protected constraint proof is invariant")
               (dumps_differ (proof_json previous_proof) (proof_json current_proof))
         end)
  end.

(** _validate_protected_constraint_overrides *)
Definition validate_protected_constraint_overrides (inherited resolved : list ManifestConstraint) : result unit :=
  each (check_protected_override inherited) resolved.

(** [_normalized_id(previous.role_ref) != ... or set(...) != set(...)] *)
Definition operational_states_changed (previous current : RoleOperationalStateProof) : bool :=
  negb (same_id (osp_role_ref previous) (osp_role_ref current)) ||
  negb (bool_decide (osp_healthy_states previous ⊆ osp_healthy_states current) &&
        bool_decide (osp_healthy_states current ⊆ osp_healthy_states previous)) ||
  negb (bool_decide (osp_failure_states previous ⊆ osp_failure_states current) &&
        bool_decide (osp_failure_states current ⊆ osp_failure_states previous)).

(** The [RoleOperationalStateProof] case *)
Definition check_operational_weakening (constraint : ManifestConstraint) (previous current : RoleOperationalStateProof)
    : result unit :=
  _ ← raise_if (AthenaValidationError "proof semantics require a new constraint id")
        (operational_states_changed previous current);
  when (osp_minimum_healthy current <? osp_minimum_healthy previous)
    (constraint_override constraint "proofRequirement/minimumHealthy").

(** The checks of the verdicts, shared by both weakening validators *)
Definition check_verdict_weakening (previous constraint : ManifestConstraint) : result unit :=
  _ ← when (bool_decide (mc_failure_verdict previous = FvViolation) &&
            negb (bool_decide (mc_failure_verdict constraint = FvViolation)))
        (constraint_override constraint "failureVerdict");
  when (negb (bool_decide (mc_success_verdict previous = mc_success_verdict constraint)))
    (constraint_override constraint "successVerdict").

(** The checks of the proof requirement in _validate_constraint_requirement_weakening *)
Definition check_proof_weakening (constraint : ManifestConstraint) (previous_proof current_proof : ManifestProof)
    : result unit :=
  match previous_proof, current_proof with
  | CardinalityProof previous_role previous_expected, CardinalityProof current_role current_expected =>
      _ ← guard_or (AthenaValidationError "proof target requires a new constraint id")
            (String.eqb previous_role current_role);
      _ ← guard_or (AthenaValidationError "illegal nested proof discriminator change")
            (String.eqb (cardinality_kind previous_expected) (cardinality_kind current_expected));
      when (bounds_widened previous_expected current_expected)
        (constraint_override constraint "proofRequirement/expected")
  | ZoneDistributionProof previous_role previous_zones, ZoneDistributionProof current_role current_zones =>
      _ ← guard_or (AthenaValidationError "proof target requires a new constraint id")
            (String.eqb previous_role current_role);
      when (current_zones <? previous_zones) (zone_override constraint)
  | RoleOperationalState previous, RoleOperationalState current => check_operational_weakening constraint previous current
  | EvidenceFreshnessProof previous_age, EvidenceFreshnessProof current_age =>
      when (previous_age <? current_age) (constraint_override constraint "proofRequirement/maximumAgeSeconds")
  | ZoneColocationProof _ _, _ | RelationshipPresenceProof _, _ | ControlHealthProof _ _, _
  | ObjectiveThresholdProof _ _ _, _ =>
      raise_if (AthenaValidationError "proof semantics require a new constraint id")
        (dumps_differ (proof_json previous_proof) (proof_json current_proof))
  | _, _ => Ok tt
  end.

(** The body of the loop of _validate_constraint_requirement_weakening *)
Definition check_constraint_weakening (inherited : list ManifestConstraint) (constraint : ManifestConstraint)
    : result unit :=
  match find_by mc_constraint_id inherited (mc_constraint_id constraint) with
  | None => Ok tt
  | Some previous =>
      _ ← check_verdict_weakening previous constraint;
      check_proof_weakening constraint (mc_proof_requirement previous) (mc_proof_requirement constraint)
  end.

(** _validate_constraint_requirement_weakening *)
Definition validate_constraint_requirement_weakening (inherited resolved : list ManifestConstraint) : result unit :=
  each (check_constraint_weakening inherited) resolved.
End child.
End weakening.

(** * What a profile may change of its parent

    The second half of the per-profile checks of contracts/manifest.py: inherited
    semantics, weakening of the resolved parent, the owners of the overrides, and
    the disabled references. *)

(** The seven keyed collections of a profile in resolution *)
Record Collections := {
  co_roles : list ManifestRole;
  co_relationships : list ManifestRelationship;
  co_constraints : list ManifestConstraint;
  co_controls : list ManifestControl;
  co_risks : list ManifestRiskAcceptance;
  co_objectives : list ManifestObjective;
  co_owners : list ManifestOwner;
}.

Section inheritance.
Context `{PyText} `{PyStr}.

Definition control_id (c : ManifestControl) : string := cb_control_id (control_base c).

(** [{_normalized_id(item) for item in profiles}] contains the profile *)
Definition applies_to (profile_id : string) (profiles : list string) : bool :=
  bool_decide (normalized_id profile_id ∈ normalized_id <$> profiles).

(** [control_health_strength] *)
Definition control_health_strength (health : string) : result Z :=
  match assoc health [("effective", 5); ("degraded", 4); ("unknown", 3); ("missing", 2); ("expired", 2);
                      ("notApplicable", 1)] with
  | Some strength => Ok strength
  | None => Raise (KeyError health)
  end.

(** _normalized_optional_ref_list *)
Definition normalized_optional_ref_list (value : json) : result (option (list string)) :=
  match value with
  | JNull => Ok None
  | JArr l => Ok (Some (sort_strings ((fun item => normalized_id (py_str item)) <$> l)))
  | _ => Raise (AthenaValidationError "control evidenceRefs must be a list")
  end.

Section child.
Variables (child : ManifestProfile) (as_of : Z) (permits : role_authority).

(** ** _validate_inherited_semantics *)

(** [{_normalized_id(item.selector_id): item for item in role.selectors}] *)
Definition selectors_by_id (r : ManifestRole) : gmap string ManifestSelector :=
  dict_by (fun s => normalized_id (selector_id s)) (mr_selectors r).

(** The body of the loop over the roles the child declares again *)
Definition check_inherited_role (previous current : ManifestRole) : result unit :=
  let previous_selectors := selectors_by_id previous in
  let current_selectors := selectors_by_id current in
  if negb (bool_decide (dom current_selectors ⊆ dom previous_selectors)) then
    permitted ← match permits with
                | Some p => if bool_decide (dom previous_selectors ## dom current_selectors)
                            then p previous current else Ok false
                | None => Ok false
                end;
    guard_or (AthenaValidationError "inherited selector identities are immutable outside an exact cohort decision")
      permitted
  else
    each (fun item =>
      match previous_selectors !! fst item with
      | None => Raise (KeyError (fst item))
      | Some previous_selector =>
          raise_if (AthenaValidationError "direct selector weakening or ambiguous selector override")
            (dumps_differ (selector_json previous_selector) (selector_json (snd item)) &&
             negb (selector_override_is_narrower previous_selector (snd item)))
      end) (map_to_list current_selectors).

(** [child_role_ids & inherited_roles_by_id.keys()] *)
Definition validate_inherited_roles (inherited_roles roles : list ManifestRole) : result unit :=
  each (fun role_id =>
    match dict_by (fun r => normalized_id (mr_role_id r)) inherited_roles !! role_id,
          dict_by (fun r => normalized_id (mr_role_id r)) roles !! role_id with
    | Some previous, Some current => check_inherited_role previous current
    | Some _, None => Raise (KeyError role_id)
    | None, _ => Ok tt
    end) (elements (normalized_set (mr_role_id <$> mp_roles child))).

(** reject_applicability_removal; [profiles] is the attribute of that name *)
Definition reject_applicability_removal {A} (key : A -> string) (profiles : A -> option (list string))
    (inherited resolved : list A) : result unit :=
  each (fun item =>
    match find_by key inherited (key item) with
    | None => Ok tt
    | Some previous =>
        match profiles previous, profiles item with
        | Some previous_profiles, Some current_profiles =>
            raise_if (AthenaValidationError "direct applicability weakening requires an explicit disabledRef")
              (applies_to (mp_profile_id child) previous_profiles &&
               negb (applies_to (mp_profile_id child) current_profiles))
        | _, _ => Ok tt
        end
    end) resolved.

Definition relationship_profiles (r : ManifestRelationship) : option (list string) :=
  match r with Declared d => Some (dr_profiles d) | Exception _ => None end.

(** [_find_override(...)] on a field of a control *)
Definition control_override (control : ManifestControl) (field : string) : result unit :=
  find_override child as_of (resolved_path child ("controls/" +:+ control_id control +:+ "/" +:+ field))
    (control_id control) "controlRequirementRelaxation".

(** The variant fields of a control that differ *)
Definition check_control_variant (previous control : ManifestControl) : result unit :=
  let previous_variant := control_variant_payload previous in
  let current_variant := control_variant_payload control in
  previous_refs ← normalized_optional_ref_list (get "evidenceRefs" previous_variant);
  current_refs ← normalized_optional_ref_list (get "evidenceRefs" current_variant);
  _ ← guard_or (AthenaValidationError "inherited control evidenceRefs are immutable; use a new controlId")
        (bool_decide (previous_refs = current_refs));
  let keys := remove_dups ((fst <$> previous_variant) ++ (fst <$> current_variant)) in
  each (fun field =>
    when (negb (String.eqb field "evidenceRefs") && negb (py_eq (get field previous_variant) (get field current_variant)))
      (control_override control field)) (sort_strings keys).

(** The body of the loop over [controls] *)
Definition check_inherited_control (inherited_controls : list ManifestControl) (control : ManifestControl) : result unit :=
  match find_by control_id inherited_controls (control_id control) with
  | None => Ok tt
  | Some previous =>
      current_strength ← control_health_strength (cb_health (control_base control));
      previous_strength ← control_health_strength (cb_health (control_base previous));
      _ ← when (current_strength <? previous_strength) (control_override control "health");
      _ ← guard_or (AthenaValidationError "inherited control ownerRef is immutable; use a new controlId")
            (same_id (cb_owner_ref (control_base previous)) (cb_owner_ref (control_base control)));
      _ ← raise_if (AthenaValidationError "inherited control governanceScope is immutable; use a new controlId")
            (dumps_differ (clause_scope_json (cb_governance_scope (control_base previous)))
                          (clause_scope_json (cb_governance_scope (control_base control))));
      check_control_variant previous control
  end.

(** The body of the loop over [child.risk_acceptances] *)
Definition check_inherited_risk (inherited_risks : list ManifestRiskAcceptance) (risk : ManifestRiskAcceptance) : result unit :=
  match find_by ra_risk_acceptance_id inherited_risks (ra_risk_acceptance_id risk) with
  | None => Ok tt
  | Some previous =>
      raise_if (AthenaValidationError "inherited risk acceptances are immutable; use a new riskAcceptanceId")
        (dumps_differ (risk_json previous) (risk_json risk))
  end.

(** _validate_inherited_semantics *)
Definition validate_inherited_semantics (inherited current : Collections) : result unit :=
  _ ← validate_inherited_roles (co_roles inherited) (co_roles current);
  _ ← reject_applicability_removal relationship_key relationship_profiles (co_relationships inherited)
        (co_relationships current);
  _ ← reject_applicability_removal mc_constraint_id (fun c => Some (mc_profiles c)) (co_constraints inherited)
        (co_constraints current);
  _ ← reject_applicability_removal control_id (fun c => Some (cb_profiles (control_base c))) (co_controls inherited)
        (co_controls current);
  _ ← reject_applicability_removal ra_risk_acceptance_id (fun a => Some (ra_profiles a)) (co_risks inherited)
        (co_risks current);
  _ ← each (check_inherited_control (co_controls inherited)) (co_controls current);
  each (check_inherited_risk (co_risks inherited)) (mp_risk_acceptances child).

(** ** _validate_weakening *)

(** The body of its loop over [roles] is the one of
    [_validate_role_requirement_weakening]; this is the one over [constraints]. *)
Definition check_parent_constraint (parent : list ManifestConstraint) (constraint : ManifestConstraint) : result unit :=
  match find_by mc_constraint_id parent (mc_constraint_id constraint) with
  | None => Ok tt
  | Some previous =>
      let previous_proof := mc_proof_requirement previous in
      let current_proof := mc_proof_requirement constraint in
      _ ← check_verdict_weakening child as_of previous constraint;
      _ ← raise_if (AthenaValidationError "protected constraint cannot be unprotected")
            (is_protected previous && negb (mc_protected constraint));
      _ ← raise_if (AthenaValidationError "protected constraint semantics are invariant")
            (is_protected previous && semantics_changed previous constraint);
      _ ← when (is_protected previous)
            match previous_proof, current_proof with
            | ZoneDistributionProof previous_role _, ZoneDistributionProof current_role _ =>
                guard_or (AthenaValidationError "protected constraint proof is invariant")
                  (String.eqb previous_role current_role)
            | _, _ => raise_if (AthenaValidationError "protected constraint proof is invariant")
                        (dumps_differ (proof_json previous_proof) (proof_json current_proof))
            end;
      match previous_proof, current_proof with
      | ZoneDistributionProof _ previous_zones, ZoneDistributionProof _ current_zones =>
          when (current_zones <? previous_zones) (zone_override child as_of constraint)
      | RoleOperationalState previous, RoleOperationalState current =>
          check_operational_weakening child as_of constraint previous current
      | _, _ => Ok tt
      end
  end.

(** [parent.settings.continuity... and not child.settings.continuity...] *)
Definition continuity_relaxed (parent_settings : ManifestProfileSettings) : bool :=
  cn_zone_loss_continuity_required (st_continuity parent_settings) &&
  negb (cn_zone_loss_continuity_required (st_continuity (mp_settings child))).

Definition continuity_path : string := resolved_path child "settings/continuity/zoneLossContinuityRequired".

(** _validate_weakening *)
Definition validate_weakening (parent : ResolvedManifestProfile) (roles : list ManifestRole)
    (constraints : list ManifestConstraint) : result unit :=
  _ ← when (continuity_relaxed (rp_settings parent))
        (find_override child as_of continuity_path "zoneLossContinuityRequired" "continuityRelaxation");
  _ ← each (check_role_weakening child as_of (rp_roles parent)) roles;
  each (check_parent_constraint (rp_constraints parent)) constraints.

(** ** _validate_override_owners *)

(** [[owner(item) for item in items if _normalized_id(key(item)) == target]] *)
Definition owners_of {A} (key owner : A -> string) (items : list A) (target : string) : list string :=
  owner <$> select (fun item => String.eqb (normalized_id (key item)) target) items.

Definition relationship_owner (r : ManifestRelationship) : string :=
  match r with Declared d => dr_owner_ref d | Exception x => xr_owner_ref x end.

(** [f"/{kind}/" in path or f"/{kind}s/" in path] *)
Definition path_names (singular plural path : string) : bool :=
  contains ("/" +:+ singular +:+ "/") path || contains ("/" +:+ plural +:+ "/") path.

(** The [if]/[elif] chain that selects [target_owners] *)
Definition override_target_owners (c : Collections) (path target : string) : list string :=
  if path_names "role" "roles" path then owners_of mr_role_id mr_owner_ref (co_roles c) target
  else if path_names "constraint" "constraints" path then owners_of mc_constraint_id mc_owner_ref (co_constraints c) target
  else if path_names "relationship" "relationships" path
       then owners_of relationship_key relationship_owner (co_relationships c) target
  else if path_names "control" "controls" path
       then owners_of control_id (fun x => cb_owner_ref (control_base x)) (co_controls c) target
  else if path_names "riskAcceptance" "riskAcceptances" path
       then owners_of ra_risk_acceptance_id ra_owned_by (co_risks c) target
  else if path_names "objective" "objectives" path then owners_of ob_objective_id ob_owner_ref (co_objectives c) target
  else [].

(** The body of the loop over [profile.weakening_overrides] *)
Definition check_override_owner (c : Collections) (o : GovernedWeakeningOverride) : result unit :=
  _ ← guard_or (AthenaValidationError "unresolved governed override ownerRef")
        (bool_decide (normalized_id (wo_owner_ref o) ∈ normalized_set (mo_owner_ref <$> co_owners c)));
  let target_owners := override_target_owners c (wo_target_path o) (normalized_id (wo_target_ref o)) in
  match target_owners with
  | [] => guard_or (AthenaValidationError "unresolved governed override targetRef")
            (String.eqb (wo_target_path o) continuity_path &&
             String.eqb (wo_target_ref o) "zoneLossContinuityRequired")
  | [owner] => guard_or (AthenaValidationError "governed override owner must match the governed target owner")
                 (same_id owner (wo_owner_ref o))
  | _ => Raise (AthenaValidationError "governed override target is ambiguous")
  end.

(** _validate_override_owners *)
Definition validate_override_owners (c : Collections) : result unit :=
  each (check_override_owner c) (mp_weakening_overrides child).

(** ** _apply_disabled_refs *)

(** [[item for item in items if _normalized_id(key(item)) != _normalized_id(ref)]],
    which must drop something *)
Definition drop_ref {A} (key : A -> string) (ref : string) (items : list A) : result (list A) :=
  let kept := select (fun item => negb (same_id (key item) ref)) items in
  _ ← raise_if (AthenaValidationError "disabled ref must resolve exactly once") (length kept =? length items)%nat;
  Ok kept.

(** [collections[disabled.target_kind] = ...] *)
Definition drop_from (c : Collections) (kind ref : string) : result Collections :=
  let '(Build_Collections roles relationships constraints controls risks objectives owners) := c in
  if String.eqb kind "role" then
    roles ← drop_ref mr_role_id ref roles;
    Ok (Build_Collections roles relationships constraints controls risks objectives owners)
  else if String.eqb kind "relationship" then
    relationships ← drop_ref relationship_key ref relationships;
    Ok (Build_Collections roles relationships constraints controls risks objectives owners)
  else if String.eqb kind "constraint" then
    constraints ← drop_ref mc_constraint_id ref constraints;
    Ok (Build_Collections roles relationships constraints controls risks objectives owners)
  else if String.eqb kind "control" then
    controls ← drop_ref control_id ref controls;
    Ok (Build_Collections roles relationships constraints controls risks objectives owners)
  else if String.eqb kind "riskAcceptance" then
    risks ← drop_ref ra_risk_acceptance_id ref risks;
    Ok (Build_Collections roles relationships constraints controls risks objectives owners)
  else if String.eqb kind "objective" then
    objectives ← drop_ref ob_objective_id ref objectives;
    Ok (Build_Collections roles relationships constraints controls risks objectives owners)
  else if String.eqb kind "owner" then
    owners ← drop_ref mo_owner_ref ref owners;
    Ok (Build_Collections roles relationships constraints controls risks objectives owners)
  else Raise (KeyError kind).

(** [next((item for item in overrides if same id), None)] *)
Definition named_override (ref : string) : option GovernedWeakeningOverride :=
  head (select (fun o => same_id (wo_override_id o) ref) (mp_weakening_overrides child)).

(** One disabled reference *)
Definition apply_disabled_ref (c : Collections) (d : DisabledManifestRef) : result Collections :=
  _ ← raise_if (AthenaValidationError "protected canonical proof refs cannot be disabled")
        (is_protected_ref (dm_target_ref d));
  let target_path := resolved_path child (dm_target_kind d +:+ "/" +:+ dm_target_ref d) in
  let reason := if String.eqb (dm_target_kind d) "control" then "controlRequirementRelaxation" else "disableInheritedItem" in
  _ ← guard_or (AthenaValidationError "disabled ref requires its exact active governed override")
        match named_override (dm_governance_override_ref d) with
        | None => false
        | Some o => authorizes_override o as_of (mp_profile_id child) target_path (dm_target_ref d) reason
        end;
  drop_from c (dm_target_kind d) (dm_target_ref d).

(** _apply_disabled_refs *)
Definition apply_disabled_refs (c : Collections) : result Collections :=
  foldR apply_disabled_ref c (mp_disabled_refs child).
End child.
End inheritance.
