(* ===== verification/CrossRefs.v ===== *)
(** * CrossRefs: the reference graph of a resolved profile

    The validation of a complete resolved profile in contracts/manifest.py: every
    reference resolves, governance scopes match exactly, the requirements do not
    contradict each other, and the five canonical protected constraints are
    present with their fixed meaning. *)
From S2P Require Import Prelude Text Json.
From S2P Require Export Inheritance.
From Stdlib Require Import SpecFloat.
Local Open Scope Z_scope.

Section cross_references.
Context `{PyText} `{PyStr} `{Rfc8785}.

(** ** _validate_contradictory_requirements *)

(** [cardinality_bounds], keyed by normalised role id *)
Definition role_bounds (roles : list ManifestRole) : gmap string (Z * Z) :=
  (fun r => cardinality_bounds (mr_cardinality r)) <$> dict_by (fun r => normalized_id (mr_role_id r)) roles.

(** The bounds an objective's thresholds leave: lower, whether it is included,
    upper, whether it is included *)
Definition ObjectiveBounds : Type := option spec_float * bool * option spec_float * bool.
Definition unbounded : ObjectiveBounds := (None, true, None, true).

Definition is_lower (c : Comparison) : bool := bool_decide (c ∈ [CmpGt; CmpGte; CmpEq]).
Definition is_upper (c : Comparison) : bool := bool_decide (c ∈ [CmpLt; CmpLte; CmpEq]).

(** The tightening of the lower bound *)
Definition tighten_lower (c : Comparison) (threshold : spec_float) (bound : option spec_float * bool)
    : option spec_float * bool :=
  if is_lower c then
    let included := bool_decide (c ∈ [CmpGte; CmpEq]) in
    match fst bound with
    | None => (Some threshold, included)
    | Some lower =>
        if SFltb lower threshold then (Some threshold, included)
        else if SFeqb threshold lower then (fst bound, snd bound && included)
        else bound
    end
  else bound.

(** The tightening of the upper bound *)
Definition tighten_upper (c : Comparison) (threshold : spec_float) (bound : option spec_float * bool)
    : option spec_float * bool :=
  if is_upper c then
    let included := bool_decide (c ∈ [CmpLte; CmpEq]) in
    match fst bound with
    | None => (Some threshold, included)
    | Some upper =>
        if SFltb threshold upper then (Some threshold, included)
        else if SFeqb threshold upper then (fst bound, snd bound && included)
        else bound
    end
  else bound.

(** The bounds exclude every value. *)
Definition bounds_empty (lower : option spec_float) (lower_included : bool) (upper : option spec_float)
    (upper_included : bool) : bool :=
  match lower, upper with
  | Some l, Some u => SFltb u l || (SFeqb l u && negb (lower_included && upper_included))
  | _, _ => false
  end.

(** The three dicts of the loop *)
Record Requirements := {
  rq_cardinality_bounds : gmap string (Z * Z);
  rq_relationship_requirements : gmap string (gset string);
  rq_objective_bounds : gmap string ObjectiveBounds;
}.

(** The declared relationships, keyed by normalised id *)
Definition declared_relationships (relationships : list ManifestRelationship)
    : gmap string DeclaredManifestRelationship :=
  dict_by (fun d => normalized_id (dr_relationship_id d))
    (omap (fun r => match r with Declared d => Some d | Exception _ => None end) relationships).

(** The [CardinalityProof] case *)
Definition require_cardinality (rq : Requirements) (role_ref : string) (expected : ManifestCardinality)
    : result Requirements :=
  let role_id := normalized_id role_ref in
  match rq_cardinality_bounds rq !! role_id with
  | None => Raise (KeyError role_id)
  | Some (current_minimum, current_maximum) =>
      let (required_minimum, required_maximum) := cardinality_bounds expected in
      let lower := Z.max current_minimum required_minimum in
      let upper := Z.min current_maximum required_maximum in
      _ ← raise_if (AthenaValidationError "contradictory cardinality requirements for role") (upper <? lower);
      Ok {| rq_cardinality_bounds := <[role_id := (lower, upper)]> (rq_cardinality_bounds rq);
            rq_relationship_requirements := rq_relationship_requirements rq;
            rq_objective_bounds := rq_objective_bounds rq |}
  end.

(** The [RelationshipPresenceProof] case *)
Definition require_relationship (declared : gmap string DeclaredManifestRelationship) (rq : Requirements)
    (constraint_type : ConstraintType) (ref : string) : result Requirements :=
  let relationship_id := normalized_id ref in
  let required := default ∅ (rq_relationship_requirements rq !! relationship_id) in
  match declared !! relationship_id with
  | None => Raise (KeyError relationship_id)
  | Some d =>
      _ ← raise_if (AthenaValidationError "relationship kind contradicts its presence requirement")
            ((bool_decide (constraint_type = CtDependencyRequired) && String.eqb (dr_kind d) "prohibited") ||
             (bool_decide (constraint_type = CtDependencyProhibited) && negb (String.eqb (dr_kind d) "prohibited")));
      Ok {| rq_cardinality_bounds := rq_cardinality_bounds rq;
            rq_relationship_requirements :=
              <[relationship_id := {[constraint_type_text constraint_type]} ∪ required]> (rq_relationship_requirements rq);
            rq_objective_bounds := rq_objective_bounds rq |}
  end.

(** The [ObjectiveThresholdProof] case *)
Definition require_objective (rq : Requirements) (ref : string) (c : Comparison) (threshold : spec_float)
    : result Requirements :=
  let objective_id := normalized_id ref in
  let '(lower, lower_included, upper, upper_included) := default unbounded (rq_objective_bounds rq !! objective_id) in
  let '(lower, lower_included) := tighten_lower c threshold (lower, lower_included) in
  let '(upper, upper_included) := tighten_upper c threshold (upper, upper_included) in
  _ ← raise_if (AthenaValidationError "contradictory objective requirements")
        (bounds_empty lower lower_included upper upper_included);
  Ok {| rq_cardinality_bounds := rq_cardinality_bounds rq;
        rq_relationship_requirements := rq_relationship_requirements rq;
        rq_objective_bounds := <[objective_id := (lower, lower_included, upper, upper_included)]> (rq_objective_bounds rq) |}.

(** The body of the loop over the constraints *)
Definition require_constraint (declared : gmap string DeclaredManifestRelationship) (rq : Requirements)
    (constraint : ManifestConstraint) : result Requirements :=
  match mc_proof_requirement constraint with
  | CardinalityProof role_ref expected => require_cardinality rq role_ref expected
  | RelationshipPresenceProof ref => require_relationship declared rq (mc_constraint_type constraint) ref
  | ObjectiveThresholdProof ref c threshold => require_objective rq ref c threshold
  | _ => Ok rq
  end.

(** endpoint_key *)
Definition endpoint_key (e : ManifestEndpoint) : string :=
  match e with
  | RoleEndpoint role_ref => "role:" +:+ normalized_id role_ref
  | ExternalEndpoint external_ref => "external:" +:+ normalized_id external_ref
  end.

(** The edges of the declared relationships of the kinds that [kind] accepts *)
Definition edges (kind : string -> bool) (relationships : list ManifestRelationship) : gset (string * string) :=
  list_to_set (omap (fun r => match r with
                              | Declared d => if kind (dr_kind d) then Some (endpoint_key (dr_source d), endpoint_key (dr_target d))
                                              else None
                              | Exception _ => None
                              end) relationships).

Definition is_prohibited (kind : string) : bool := String.eqb kind "prohibited".

(** _validate_contradictory_requirements *)
Definition validate_contradictory_requirements (profile : ResolvedManifestProfile) : result unit :=
  rq ← foldR (require_constraint (declared_relationships (rp_relationships profile)))
        {| rq_cardinality_bounds := role_bounds (rp_roles profile); rq_relationship_requirements := ∅;
           rq_objective_bounds := ∅ |} (rp_constraints profile);
  _ ← raise_if (AthenaValidationError "contradictory required and prohibited relationship requirements")
        (existsb (fun item => bool_decide ("dependencyRequired" ∈ snd item) && bool_decide ("dependencyProhibited" ∈ snd item))
           (map_to_list (rq_relationship_requirements rq)));
  raise_if (AthenaValidationError "contradictory declared and prohibited relationship requirements")
    (negb (bool_decide (edges (fun kind => negb (is_prohibited kind)) (rp_relationships profile) ∩
                        edges is_prohibited (rp_relationships profile) = ∅))).

(** ** _resolve_cross_references *)
Section profile.
Variables (profile : ResolvedManifestProfile) (as_of : Z) (require_active_governance : bool).

(** [_normalized_id(ref) in {_normalized_id(key(item)) for item in items}] *)
Definition resolves {A} (key : A -> string) (items : list A) (ref : string) : bool :=
  bool_decide (normalized_id ref ∈ normalized_set (key <$> items)).

Definition declared_items (relationships : list ManifestRelationship) : list DeclaredManifestRelationship :=
  omap (fun r => match r with Declared d => Some d | Exception _ => None end) relationships.

Definition owner_resolves : string -> bool := resolves mo_owner_ref (rp_ownership profile).
Definition role_resolves : string -> bool := resolves mr_role_id (rp_roles profile).
Definition relationship_resolves : string -> bool :=
  resolves dr_relationship_id (declared_items (rp_relationships profile)).
Definition constraint_resolves : string -> bool := resolves mc_constraint_id (rp_constraints profile).
Definition control_resolves : string -> bool := resolves control_id (rp_controls profile).
Definition risk_resolves : string -> bool := resolves ra_risk_acceptance_id (rp_risk_acceptances profile).
Definition objective_resolves : string -> bool := resolves ob_objective_id (rp_objectives profile).

(** [clause_paths] *)
Definition is_clause_path (path : string) : bool :=
  existsb (fun c => String.eqb path ("/constraints/" +:+ mc_constraint_id c)) (rp_constraints profile).

(** require_owner *)
Definition require_owner (owner_ref : string) : result unit :=
  guard_or (AthenaValidationError "unresolved ownerRef") (owner_resolves owner_ref).

(** [ref is None or ref resolves], else the error *)
Definition require_ref (test : string -> bool) (message : string) (ref : option string) : result unit :=
  match ref with
  | Some ref => guard_or (AthenaValidationError message) (test ref)
  | None => Ok tt
  end.

(** The scope names this manifest and profile, the clause and the owner. *)
Definition scope_matches (scope : ClauseScope) (clause_path owner_ref : string) : bool :=
  String.eqb (cs_manifest_id scope) (rp_manifest_id profile) &&
  same_id (cs_profile_id scope) (rp_profile_id profile) &&
  String.eqb (cs_clause_path scope) clause_path && String.eqb (cs_owner_ref scope) owner_ref.

(** The declared branch of the loop over the relationships *)
Definition check_declared (d : DeclaredManifestRelationship) : result unit :=
  _ ← guard_or (AthenaValidationError "declared relationship profile applicability mismatch")
        (applies_to (rp_profile_id profile) (dr_profiles d));
  _ ← each (fun e => match e with
                     | RoleEndpoint role_ref =>
                         guard_or (AthenaValidationError "unresolved relationship roleRef") (role_resolves role_ref)
                     | ExternalEndpoint _ => Ok tt
                     end) [dr_source d; dr_target d];
  guard_or (AthenaValidationError "unresolved relationship sourceClause") (is_clause_path (dr_source_clause d)).

(** [next(item for item in items if same id)], and with a default *)
Definition find_first {A} (key : A -> string) (items : list A) (ref : string) : option A :=
  head (select (fun item => same_id (key item) ref) items).

(** [expected_clause_path] *)
Definition expected_clause_path (x : ExceptionManifestRelationship) : result string :=
  match xr_applies_to_clause_ref x with
  | Some clause => Ok ("/constraints/" +:+ clause)
  | None =>
      match find_first dr_relationship_id (declared_items (rp_relationships profile))
              (default "" (xr_applies_to_relationship_ref x)) with
      | Some d => Ok (dr_source_clause d)
      | None => Raise StopIteration
      end
  end.

(** The exception branch of the loop over the relationships *)
Definition check_exception (x : ExceptionManifestRelationship) : result unit :=
  _ ← raise_if (AthenaValidationError "exception relationship is expired")
        (require_active_governance && (xr_expires_at x <=? as_of));
  _ ← require_ref relationship_resolves "exception relationship target is unresolved" (xr_applies_to_relationship_ref x);
  _ ← require_ref constraint_resolves "exception clause target is unresolved" (xr_applies_to_clause_ref x);
  path ← expected_clause_path x;
  _ ← guard_or (AthenaValidationError "exception governance scope does not match its exact target")
        (scope_matches (xr_governance_scope x) path (xr_owner_ref x));
  match find_first ra_risk_acceptance_id (rp_risk_acceptances profile) (xr_risk_acceptance_ref x) with
  | None => Raise (AthenaValidationError "exception requires a matching scoped risk acceptance")
  | Some acceptance =>
      raise_if (AthenaValidationError "exception requires a matching active scoped risk acceptance")
        (require_active_governance &&
         negb (is_active acceptance as_of (rp_manifest_id profile) (rp_profile_id profile)
                 (cs_clause_path (xr_governance_scope x)) (xr_owner_ref x)))
  end.

Definition check_relationship (r : ManifestRelationship) : result unit :=
  _ ← require_owner (relationship_owner r);
  match r with
  | Declared d => check_declared d
  | Exception x => check_exception x
  end.

(** [getattr(proof, "role_ref", None)], ["subject_role_ref"], ["anchor_role_ref"] *)
Definition constraint_role_refs (p : ManifestProof) : list string :=
  match p with
  | CardinalityProof r _ | ZoneDistributionProof r _ => [r]
  | ZoneColocationProof s a => [s; a]
  | RoleOperationalState p => [osp_role_ref p]
  | _ => []
  end.
Definition proof_relationship_ref (p : ManifestProof) : option string :=
  match p with RelationshipPresenceProof r => Some r | _ => None end.
Definition proof_control_ref (p : ManifestProof) : option string :=
  match p with ControlHealthProof r _ => Some r | _ => None end.
Definition proof_objective_ref (p : ManifestProof) : option string :=
  match p with ObjectiveThresholdProof r _ _ => Some r | _ => None end.

(** The risk acceptance a constraint cites is scoped to its clause and owner. *)
Definition check_risk_reference (c : ManifestConstraint) (ref : string) : result unit :=
  match find_first ra_risk_acceptance_id (rp_risk_acceptances profile) ref with
  | None => Raise StopIteration
  | Some acceptance =>
      let clause := match mc_risk_acceptance_clause_ref c with
                    | Some clause => if String.eqb clause "" then mc_constraint_id c else clause
                    | None => mc_constraint_id c
                    end in
      guard_or (AthenaValidationError "risk acceptance scope mismatch for referenced constraint")
        (scope_matches (ra_governance_scope acceptance) ("/constraints/" +:+ clause) (mc_owner_ref c) &&
         String.eqb (ra_owned_by acceptance) (mc_owner_ref c))
  end.

(** The body of the loop over the constraints *)
Definition check_constraint_references (c : ManifestConstraint) : result unit :=
  let proof := mc_proof_requirement c in
  _ ← require_owner (mc_owner_ref c);
  _ ← raise_if (AthenaValidationError "canonical protected constraint must remain protected")
        (is_protected_ref (mc_constraint_id c) && negb (mc_protected c));
  _ ← each (fun ref => guard_or (AthenaValidationError "unresolved constraint roleRef") (role_resolves ref))
        (constraint_role_refs proof);
  _ ← require_ref relationship_resolves "unresolved declared relationship proof ref" (proof_relationship_ref proof);
  _ ← require_ref control_resolves "unresolved control proof ref" (proof_control_ref proof);
  _ ← require_ref objective_resolves "unresolved objective proof ref" (proof_objective_ref proof);
  _ ← require_ref risk_resolves "unresolved constraint riskAcceptanceRef" (mc_risk_acceptance_ref c);
  _ ← require_ref constraint_resolves "unresolved riskAcceptanceClauseRef" (mc_risk_acceptance_clause_ref c);
  _ ← match mc_risk_acceptance_ref c with
      | Some ref => check_risk_reference c ref
      | None => Ok tt
      end;
  guard_or (AthenaValidationError "constraint governance scope does not exactly match clause")
    (applies_to (rp_profile_id profile) (mc_profiles c) &&
     scope_matches (mc_governance_scope c) ("/constraints/" +:+ mc_constraint_id c) (mc_owner_ref c)).

(** [scope.manifest_id], [profile_id], [owner_ref] match and the clause exists *)
Definition scope_names_clause (scope : ClauseScope) (owner_ref : string) : bool :=
  String.eqb (cs_manifest_id scope) (rp_manifest_id profile) &&
  same_id (cs_profile_id scope) (rp_profile_id profile) &&
  is_clause_path (cs_clause_path scope) && String.eqb (cs_owner_ref scope) owner_ref.

(** The body of the loop over the controls *)
Definition check_control_references (control : ManifestControl) : result unit :=
  let base := control_base control in
  _ ← require_owner (cb_owner_ref base);
  guard_or (AthenaValidationError "control manifest, profile, clause, or owner scope mismatch")
    (applies_to (rp_profile_id profile) (cb_profiles base) && scope_names_clause (cb_governance_scope base) (cb_owner_ref base)).

(** The body of the loop over the risk acceptances *)
Definition check_risk_references (risk : ManifestRiskAcceptance) : result unit :=
  _ ← require_owner (ra_owned_by risk);
  _ ← each (fun b => guard_or (AthenaValidationError "risk acceptance resource binding role is unresolved")
                       (role_resolves (arb_role_ref b))) (ra_accepted_resource_bindings risk);
  _ ← each (fun ref => guard_or (AthenaValidationError "unresolved linked control ref") (control_resolves ref))
        (ra_linked_control_refs risk);
  guard_or (AthenaValidationError "risk acceptance manifest, profile, clause, or owner scope mismatch")
    (scope_names_clause (ra_governance_scope risk) (ra_owned_by risk)).

(** _resolve_cross_references *)
Definition resolve_cross_references : result unit :=
  _ ← validate_resolved_selectors (rp_roles profile);
  _ ← each (fun r => require_owner (mr_owner_ref r)) (rp_roles profile);
  _ ← each check_relationship (rp_relationships profile);
  _ ← each check_constraint_references (rp_constraints profile);
  _ ← each check_control_references (rp_controls profile);
  _ ← each check_risk_references (rp_risk_acceptances profile);
  _ ← each (fun o => require_owner (ob_owner_ref o)) (rp_objectives profile);
  validate_contradictory_requirements profile.
End profile.

(** ** _validate_canonical_protected_constraints *)

(** [expected_semantics], as [(type, finding kind, success verdict)] *)
Definition expected_semantics : list (string * (ConstraintType * ManifestFindingKind * SuccessVerdict)) :=
  [("db-singleton-supported", (CtSupportedSingleton, FkTechnologyConstraint, SvExpectedConstraint));
   ("db-zone-loss-spof", (CtSupportedSingleton, FkActualSpof, SvObservation));
   ("db-zone-loss-acceptance", (CtSupportedSingleton, FkRiskAcceptance, SvObservation));
   ("worker-db-zone-colocation", (CtZoneColocation, FkArchitectureConstraint, SvPass));
   ("web-zone-distribution", (CtZoneDistribution, FkArchitectureConstraint, SvPass))].

(** The test of the proof: its class, its roles and its expectation *)
Definition canonical_proof (constraint_id : string) (p : ManifestProof) : bool :=
  if bool_decide (constraint_id ∈ ["db-singleton-supported"; "db-zone-loss-spof"; "db-zone-loss-acceptance"]) then
    match p with
    | CardinalityProof role_ref ExactlyOneCardinality => String.eqb (normalized_id role_ref) "database-primary"
    | _ => false
    end
  else if String.eqb constraint_id "worker-db-zone-colocation" then
    match p with
    | ZoneColocationProof subject anchor =>
        String.eqb (normalized_id subject) "worker" && String.eqb (normalized_id anchor) "database-primary"
    | _ => false
    end
  else
    match p with
    | ZoneDistributionProof role_ref _ => String.eqb (normalized_id role_ref) "web"
    | _ => false
    end.

(** [valid] *)
Definition canonical_constraint (constraint_id : string) (expected : ConstraintType * ManifestFindingKind * SuccessVerdict)
    (c : ManifestConstraint) : bool :=
  let '(constraint_type, finding_kind, success_verdict) := expected in
  mc_protected c && bool_decide (mc_constraint_type c = constraint_type) &&
  bool_decide (mc_finding_kind c = finding_kind) && bool_decide (mc_failure_verdict c = FvViolation) &&
  bool_decide (mc_success_verdict c = success_verdict) && canonical_proof constraint_id (mc_proof_requirement c) &&
  (negb (String.eqb constraint_id "db-singleton-supported") ||
   (bool_decide (mc_risk_acceptance_ref c = None) && bool_decide (mc_risk_acceptance_clause_ref c = None))).

(** _validate_canonical_protected_constraints *)
Definition validate_canonical_protected_constraints (profile : ResolvedManifestProfile) : result unit :=
  let present := normalized_set (mc_constraint_id <$> rp_constraints profile) in
  _ ← guard_or (AthenaValidationError "resolved profile is missing mandatory protected canonical constraints")
        (forallb (fun item => bool_decide (fst item ∈ present)) expected_semantics);
  each (fun c =>
    match assoc (normalized_id (mc_constraint_id c)) expected_semantics with
    | None => Ok tt
    | Some expected =>
        guard_or (AthenaValidationError "protected canonical constraint semantics are invalid")
          (canonical_constraint (normalized_id (mc_constraint_id c)) expected c)
    end) (rp_constraints profile).

(** ** validate_resolved_manifest_profile *)

(** _digest_payload of a resolved profile *)
Definition resolved_digest_payload (p : ResolvedManifestProfile) (semantic : bool) : json :=
  let drop names (d : list (string * json)) := select (fun m => negb (bool_decide (fst m ∈ names))) d in
  JObj ((fun m => match m with
                  | ("compatibility", JObj c) =>
                      ("compatibility",
                       JObj (drop (if semantic then ["artifactDigest"; "semanticDigest"; "schemaVersion"]
                                   else ["artifactDigest"; "semanticDigest"]) c))
                  | _ => m
                  end) <$> drop ["resolvedProfileDigest"] (resolved_profile_json p)).

(** The comparison of the declared digests with the recomputed ones *)
Definition check_resolved_digests (message : string) (p : ResolvedManifestProfile) : result unit :=
  artifact ← compute_artifact_digest (resolved_digest_payload p false);
  semantic ← compute_artifact_digest (resolved_digest_payload p true);
  guard_or (AthenaValidationError message)
    (String.eqb (cm_artifact_digest (rp_compatibility p)) artifact &&
     String.eqb (cm_semantic_digest (rp_compatibility p)) semantic &&
     String.eqb (rp_resolved_profile_digest p) semantic).

(** ResolvedManifestProfile.validate_digest *)
Definition validate_resolved_digest (p : ResolvedManifestProfile) : result unit :=
  _ ← check_resolved_digests "resolvedProfileDigest does not match resolved profile" p;
  require_supported_compatibility (rp_compatibility p) "resolvedProfile".

(** validate_resolved_manifest_profile *)
Definition validate_resolved_manifest_profile (p : ResolvedManifestProfile) (as_of : Z)
    (require_active_governance : bool) : result unit :=
  _ ← check_resolved_digests "resolved profile changed after digest validation" p;
  _ ← require_supported_compatibility (rp_compatibility p) "resolvedProfile";
  _ ← validate_keyed_collections (rp_roles p) (rp_relationships p) (rp_constraints p) (rp_controls p)
        (rp_risk_acceptances p) (rp_objectives p) (rp_ownership p);
  _ ← resolve_cross_references p as_of require_active_governance;
  validate_canonical_protected_constraints p.
End cross_references.
