(* ===== verification/Resolution.v ===== *)
(** * Resolution: resolving a manifest profile

    [_resolve_manifest_profile] of contracts/manifest.py: the lineage of a profile
    from its root, the merge of each profile of the lineage into what it inherits,
    the resolved profile with its digests, and its final validation. The two
    selector identity validators of a whole manifest are at the end. *)
From S2P Require Import Prelude Text Json.
From S2P Require Export ManifestJson CrossRefs.
Local Open Scope Z_scope.

(** [manifest.model_dump(mode="json", by_alias=True, exclude_unset=True)]: which
    fields were set is known to pydantic only. *)
Class ManifestSetDump := dump_set_fields : CanonicalWorkloadManifest -> list (string * json).

(** [permits_selector_identity_replacement(manifest_id, manifest_version, profile_id,
    inherited_role, replacement_role)] of a selector capability *)
Abbreviation selector_capability := (option (string -> string -> string -> ManifestRole -> ManifestRole -> result bool)).

Section resolution.
Context `{PyText} `{PyStr} `{Rfc8785} `{ManifestSetDump}.

(** CanonicalWorkloadManifest.compute_artifact_digest_value, compute_semantic_digest_value *)
Definition manifest_digest_value (m : CanonicalWorkloadManifest) (semantic : bool) : result string :=
  payload ← manifest_digest_payload (dump_set_fields m) semantic; compute_artifact_digest payload.

(** The digests a manifest declares are the ones of its content. *)
Definition check_manifest_digests (m : CanonicalWorkloadManifest) : result unit :=
  artifact ← manifest_digest_value m false;
  semantic ← manifest_digest_value m true;
  guard_or (AthenaValidationError "manifest changed after digest validation")
    (String.eqb (cm_artifact_digest (wm_compatibility m)) artifact &&
     String.eqb (cm_semantic_digest (wm_compatibility m)) semantic).

(** ** The lineage *)

(** [normalized_profiles] *)
Definition normalized_profiles (m : CanonicalWorkloadManifest) : gmap string ManifestProfile :=
  snd <$> dict_by (fun item => normalized_id (fst item)) (wm_profiles m).

(** The [while True] loop; the result lists the requested profile last. [None] is
    exhausted fuel. *)
Fixpoint lineage_loop (fuel : nat) (profiles : gmap string ManifestProfile) (visiting : gset string)
    (current : ManifestProfile) (lineage : list ManifestProfile) : option (result (list ManifestProfile)) :=
  match fuel with
  | O => None
  | S fuel =>
      let current_id := normalized_id (mp_profile_id current) in
      if bool_decide (current_id ∈ visiting)
      then Some (Raise (AthenaValidationError "profile inheritance cycle detected"))
      else
        match mp_extends current with
        | None => Some (Ok (current :: lineage))
        | Some parent =>
            match profiles !! normalized_id parent with
            | None => Some (Raise (AthenaValidationError "missing parent profile"))
            | Some parent => lineage_loop fuel profiles ({[current_id]} ∪ visiting) parent (current :: lineage)
            end
        end
  end.

(** Every turn visits another profile of the manifest; the last turn ends the loop. *)
Definition profile_lineage_fuel (m : CanonicalWorkloadManifest) : nat := S (S (length (wm_profiles m))).

(** [lineage], root first *)
Definition profile_lineage (m : CanonicalWorkloadManifest) (profile_id : string) : result (list ManifestProfile) :=
  match normalized_profiles m !! normalized_id profile_id with
  | None => Raise (AthenaValidationError "missing profile")
  | Some requested =>
      match lineage_loop (profile_lineage_fuel m) (normalized_profiles m) ∅ requested [] with
      | Some r => r
      | None => Raise (RuntimeError "unreachable")
      end
  end.

(** ** One profile of the lineage *)

(** The seven [_merge_keyed] calls, with the two checks of weakened requirements
    between them *)
Definition merge_profile (permits : role_authority) (as_of : Z) (inherited : Collections) (profile : ManifestProfile)
    : result Collections :=
  roles ← merge_roles permits (co_roles inherited) (mp_roles profile);
  _ ← validate_role_requirement_weakening profile as_of (co_roles inherited) roles;
  relationships ← merge_relationships (co_relationships inherited) (mp_relationships profile);
  constraints ← merge_constraints (co_constraints inherited) (mp_constraints profile);
  _ ← validate_protected_constraint_overrides profile as_of (co_constraints inherited) constraints;
  _ ← validate_constraint_requirement_weakening profile as_of (co_constraints inherited) constraints;
  controls ← merge_controls (co_controls inherited) (mp_controls profile);
  risks ← merge_risks (co_risks inherited) (mp_risk_acceptances profile);
  objectives ← merge_objectives (co_objectives inherited) (mp_objectives profile);
  owners ← merge_owners (co_owners inherited) (mp_ownership profile);
  Ok {| co_roles := roles; co_relationships := relationships; co_constraints := constraints; co_controls := controls;
        co_risks := risks; co_objectives := objectives; co_owners := owners |}.

(** [resolved_relationships] *)
Definition relationship_applies (profile_id : string) (r : ManifestRelationship) : bool :=
  match r with
  | Declared d => applies_to profile_id (dr_profiles d)
  | Exception x => same_id (cs_profile_id (xr_governance_scope x)) profile_id
  end.

(** [resolved_compatibility] *)
Definition resolved_compatibility (c : CompatibilityMetadata) (artifact semantic : string) : CompatibilityMetadata :=
  {| cm_artifact_kind := "resolvedProfile"; cm_schema_version := cm_schema_version c;
     cm_semantic_contract_version := cm_semantic_contract_version c;
     cm_policy_contract_version := cm_policy_contract_version c;
     cm_minimum_reader_version := cm_minimum_reader_version c;
     cm_requires_capabilities := cm_requires_capabilities c; cm_producer_id := cm_producer_id c;
     cm_producer_version := cm_producer_version c; cm_extension_policy := cm_extension_policy c;
     cm_artifact_digest := artifact; cm_semantic_digest := semantic |}.

(** [payload], with the given digests *)
Definition resolved_record (m : CanonicalWorkloadManifest) (profile : ManifestProfile) (chain : list string)
    (c : Collections) (artifact semantic : string) : ResolvedManifestProfile :=
  let pid := mp_profile_id profile in
  {| rp_manifest_id := wm_manifest_id m; rp_manifest_version := wm_manifest_version m; rp_profile_id := pid;
     rp_profile_type := mp_profile_type profile; rp_allowed_evidence_scopes := wi_allowed_evidence_scopes (wm_workload m);
     rp_compatibility := resolved_compatibility (wm_compatibility m) artifact semantic;
     rp_inheritance_chain := chain; rp_settings := mp_settings profile; rp_roles := co_roles c;
     rp_relationships := select (relationship_applies pid) (co_relationships c);
     rp_constraints := select (fun x => applies_to pid (mc_profiles x)) (co_constraints c);
     rp_controls := select (fun x => applies_to pid (cb_profiles (control_base x))) (co_controls c);
     rp_risk_acceptances := select (fun x => applies_to pid (ra_profiles x)) (co_risks c);
     rp_objectives := co_objectives c; rp_ownership := co_owners c; rp_resolved_profile_digest := semantic |}.

(** [artifact_payload] and [semantic_payload] *)
Definition resolution_payload (p : ResolvedManifestProfile) (semantic : bool) : json :=
  let payload := sort_manifest_keyed_collections (remove_member "resolvedProfileDigest" (resolved_profile_json p)) in
  let payload := update_member "compatibility"
    (map_dict (fun c => remove_member "semanticDigest" (remove_member "artifactDigest" c))) payload in
  JObj (if semantic then update_member "compatibility" (map_dict (remove_member "schemaVersion")) payload else payload).

(** [ResolvedManifestProfile.model_validate(...)] *)
Definition make_resolved_profile (p : ResolvedManifestProfile) : result ResolvedManifestProfile :=
  let scopes := length (rp_allowed_evidence_scopes p) in
  let chain := length (rp_inheritance_chain p) in
  _ ← guard_or (ValidationError "ResolvedManifestProfile")
        ((1 <=? scopes)%nat && (scopes <=? 100)%nat && (1 <=? chain)%nat && (chain <=? 25)%nat);
  _ ← validate_resolved_digest p;
  Ok p.

(** The state of the loop over the lineage *)
Record ResolutionState := {
  rs_collections : Collections;
  rs_parent : option ResolvedManifestProfile;
  rs_chain : list string;
}.

(** The collections a profile passes on: what it merges, checked against what it
    inherits, less its disabled references *)
Definition inherit (permits : role_authority) (as_of : Z) (parent : option ResolvedManifestProfile)
    (inherited : Collections) (profile : ManifestProfile) : result Collections :=
  merged ← merge_profile permits as_of inherited profile;
  _ ← validate_inherited_semantics profile as_of permits inherited merged;
  _ ← validate_override_owners profile merged;
  _ ← match parent with
      | Some parent => validate_weakening profile as_of parent (co_roles merged) (co_constraints merged)
      | None => Ok tt
      end;
  apply_disabled_refs profile as_of merged.

(** The body of the loop over the lineage *)
Definition resolve_step (m : CanonicalWorkloadManifest) (capability : selector_capability) (as_of : Z)
    (st : ResolutionState) (profile : ManifestProfile) : result ResolutionState :=
  let permits := (fun c => c (wm_manifest_id m) (wm_manifest_version m) (mp_profile_id profile)) <$> capability in
  collections ← inherit permits as_of (rs_parent st) (rs_collections st) profile;
  let chain := rs_chain st ++ [mp_profile_id profile] in
  let unsigned := resolved_record m profile chain collections "" "" in
  artifact ← compute_artifact_digest (resolution_payload unsigned false);
  semantic ← compute_artifact_digest (resolution_payload unsigned true);
  resolved ← make_resolved_profile (resolved_record m profile chain collections artifact semantic);
  Ok {| rs_collections := collections; rs_parent := Some resolved; rs_chain := chain |}.

(** The collections every lineage starts from *)
Definition manifest_collections (m : CanonicalWorkloadManifest) : Collections :=
  {| co_roles := wm_roles m; co_relationships := wm_relationships m; co_constraints := wm_constraints m;
     co_controls := wm_controls m; co_risks := wm_risk_acceptances m; co_objectives := wm_objectives m;
     co_owners := wm_ownership m |}.

(** The loop over the lineage *)
Definition resolve_lineage (m : CanonicalWorkloadManifest) (capability : selector_capability) (as_of : Z)
    (lineage : list ManifestProfile) : result ResolutionState :=
  foldR (resolve_step m capability as_of)
    {| rs_collections := manifest_collections m; rs_parent := None; rs_chain := [] |} lineage.

(** _resolve_manifest_profile with [validate_complete_graph=False] *)
Definition resolve_one_profile (m : CanonicalWorkloadManifest) (profile_id : string) (as_of : Z)
    (capability : selector_capability) : result ResolvedManifestProfile :=
  _ ← check_manifest_digests m;
  lineage ← profile_lineage m profile_id;
  st ← resolve_lineage m capability as_of lineage;
  match rs_parent st with
  | None => Raise (AthenaValidationError "profile resolution produced no profile")
  | Some p => _ ← validate_resolved_manifest_profile p as_of true; Ok p
  end.

(** _resolve_manifest_profile with [validate_complete_graph=True]: every profile
    of the manifest resolves. *)
Definition resolve_complete_graph (m : CanonicalWorkloadManifest) (profile_id : string) (as_of : Z)
    (capability : selector_capability) : result ResolvedManifestProfile :=
  _ ← check_manifest_digests m;
  resolved ← mapR (fun candidate =>
      p ← resolve_one_profile m (mp_profile_id candidate) as_of capability;
      Ok (normalized_id (mp_profile_id candidate), p)) (snd <$> wm_profiles m);
  match dict_by fst resolved !! normalized_id profile_id with
  | Some (_, p) => Ok p
  | None => Raise (AthenaValidationError "missing profile")
  end.

(** ** Selector identity of a whole manifest *)

(** The check of a role a profile declares again *)
Definition check_role_identity (previous role : ManifestRole) : result unit :=
  let previous_selectors := selectors_by_id previous in
  let current_selectors := selectors_by_id role in
  _ ← guard_or (AthenaValidationError "inherited selector identities are immutable outside an exact cohort decision")
        (bool_decide (dom current_selectors ⊆ dom previous_selectors));
  each (fun item =>
    match previous_selectors !! fst item with
    | None => Raise (KeyError (fst item))
    | Some previous_selector =>
        raise_if (AthenaValidationError "direct selector weakening or ambiguous selector override")
          (negb (bool_decide (snd item = previous_selector)) &&
           negb (selector_override_is_narrower previous_selector (snd item)))
    end) (map_to_list current_selectors).

(** The roles [roles_for] resolves for a profile, from the inherited ones *)
Definition resolve_roles (inherited : list ManifestRole) (profile : ManifestProfile) : result (list ManifestRole) :=
  _ ← each (fun role =>
        match find_by mr_role_id inherited (mr_role_id role) with
        | None => Ok tt
        | Some previous => check_role_identity previous role
        end) (mp_roles profile);
  merge_roles None inherited (mp_roles profile).

(** roles_for; the cache only avoids repeated work. [None] is exhausted fuel. *)
Fixpoint roles_for (fuel : nat) (m : CanonicalWorkloadManifest) (profile : ManifestProfile)
    : option (result (list ManifestRole)) :=
  match fuel with
  | O => None
  | S fuel =>
      match mp_extends profile with
      | None => Some (resolve_roles (wm_roles m) profile)
      | Some parent =>
          match profiles_by_id m !! normalized_id parent with
          | None => Some (Raise (KeyError parent))
          | Some parent =>
              inherited ← roles_for fuel m parent;
              Some (inherited ← inherited; resolve_roles inherited profile)
          end
      end
  end.

(** validate_manifest_selector_identity_inheritance; the profiles of a validated
    manifest have distinct normalised ids. *)
Definition validate_selector_identity_inheritance (m : CanonicalWorkloadManifest) : result unit :=
  each (fun profile =>
    match roles_for (profile_lineage_fuel m) m profile with
    | Some r => _ ← r; Ok tt
    | None => Raise (RuntimeError "maximum recursion depth exceeded")
    end) (snd <$> wm_profiles m).

(** The two dicts of [inventory] *)
Record SelectorInventory := {
  iv_by_role : gmap string (gset string);
  iv_by_location : gmap (string * string) (gset string);
}.

(** One role of [add_roles] *)
Definition add_role (location : string) (iv : SelectorInventory) (role : ManifestRole) : SelectorInventory :=
  let role_id := normalized_id (mr_role_id role) in
  let ids := normalized_set (concat ((fun s => selector_id <$> selector_tree s) <$> mr_selectors role)) in
  {| iv_by_role := <[role_id := default ∅ (iv_by_role iv !! role_id) ∪ ids]> (iv_by_role iv);
     iv_by_location := <[(location, role_id) := ids]> (iv_by_location iv) |}.

(** inventory *)
Definition inventory (m : CanonicalWorkloadManifest) : SelectorInventory :=
  foldl (fun iv profile => foldl (add_role ("profile:" +:+ normalized_id (mp_profile_id profile))) iv (mp_roles profile))
    (foldl (add_role "global") {| iv_by_role := ∅; iv_by_location := ∅ |} (wm_roles m)) (snd <$> wm_profiles m).

(** The keys both dicts have carry the same value. *)
Definition agree_on_common {K V} `{Countable K, EqDecision V} (current replacement : gmap K V) : bool :=
  forallb (fun item => match replacement !! fst item with
                       | Some v => bool_decide (snd item = v)
                       | None => true
                       end) (map_to_list current).

(** validate_manifest_selector_identity_transition *)
Definition validate_selector_identity_transition (current replacement : CanonicalWorkloadManifest) : result unit :=
  let message := AthenaValidationError "selector identities for an existing role are immutable" in
  _ ← guard_or message (agree_on_common (iv_by_role (inventory current)) (iv_by_role (inventory replacement)));
  guard_or message (agree_on_common (iv_by_location (inventory current)) (iv_by_location (inventory replacement))).
End resolution.
