(* ===== verification/Capability.v ===== *)
(** * Capability: the selector authority of applied cohort decisions

    What a cohort decision permits profile resolution to do: replace the selectors
    of one role of one profile, for the exact roles the decision recorded
    ([_selector_binding_permits] of api/cohort_decision_domain.py), and the two
    objects that offer it as a capability: the validator of a candidate decision
    (api/cohort_decision_service.py) and the authority derived from the applied
    decisions (api/selector_authority.py). *)
From S2P Require Import Prelude Text Json.
From S2P Require Export Authority Resolution.

Section capability.
Context `{PyText} `{Rfc8785}.

(** [compute_artifact_digest(role.model_dump(mode="json", by_alias=True, exclude_none=True))] *)
Definition role_digest (r : ManifestRole) : result string := compute_artifact_digest (role_json r).

(** [exact_candidate] *)
Definition exact_candidate (binding : CohortDecisionApplyBinding) (profile_id : string)
    (inherited_role replacement_role : ManifestRole) (inherited_digest replacement_digest : string) : bool :=
  bool_decide (cb_decision binding ∈ [DecisionSplit; DecisionMerge]) &&
  same_id profile_id (cb_profile_id binding) &&
  same_id (mr_role_id inherited_role) (cb_target_role_id binding) &&
  same_id (mr_role_id replacement_role) (cb_target_role_id binding) &&
  String.eqb inherited_digest (cb_inherited_role_digest binding) &&
  String.eqb replacement_digest (cb_replacement_role_digest binding).

(** [retained_from_current_draft] *)
Definition retained_from_current_draft (binding : CohortDecisionApplyBinding) (profile_id : string)
    (replacement_role : ManifestRole) (replacement_digest : string) : bool :=
  bool_decide ((normalized_id profile_id, normalized_id (mr_role_id replacement_role), replacement_digest)
               ∈ cb_retained_replacement_role_digests binding).

(** _selector_binding_permits *)
Definition selector_binding_permits (binding : CohortDecisionApplyBinding)
    (manifest_id manifest_version profile_id : string) (inherited_role replacement_role : ManifestRole) : result bool :=
  inherited_digest ← role_digest inherited_role;
  replacement_digest ← role_digest replacement_role;
  Ok (bool_decide (cb_decision binding ∈ [DecisionApprove; DecisionSplit; DecisionMerge]) &&
      same_id manifest_id (cb_manifest_id binding) &&
      String.eqb manifest_version (cb_manifest_version binding) &&
      (exact_candidate binding profile_id inherited_role replacement_role inherited_digest replacement_digest ||
       retained_from_current_draft binding profile_id replacement_role replacement_digest) &&
      is_guarded_selector_replacement_narrower (mr_selectors inherited_role) (mr_selectors replacement_role)).

(** PersistedSelectorAuthority.permits_selector_identity_replacement *)
Definition permits_selector_identity_replacement (authority : PersistedSelectorAuthority)
    (manifest_id manifest_version profile_id : string) (inherited_role replacement_role : ManifestRole) : result bool :=
  if negb (String.eqb manifest_version (sa_effective_manifest_version authority)) then Ok false
  else anyR (fun binding => selector_binding_permits binding manifest_id (cb_manifest_version binding) profile_id
                              inherited_role replacement_role) (sa_bindings authority).

(** A capability permits guarded replacements only. *)
Definition guarded_authority (permits : role_authority) : Prop :=
  forall p previous current, permits = Some p -> p previous current = Ok true ->
    is_guarded_selector_replacement_narrower (mr_selectors previous) (mr_selectors current) = true.
Definition guarded_capability (capability : selector_capability) : Prop :=
  forall manifest_id manifest_version profile_id,
    guarded_authority ((fun c => c manifest_id manifest_version profile_id) <$> capability).

Lemma selector_binding_guarded binding manifest_id manifest_version profile_id previous current :
  selector_binding_permits binding manifest_id manifest_version profile_id previous current = Ok true ->
  is_guarded_selector_replacement_narrower (mr_selectors previous) (mr_selectors current) = true.
Proof. unfold selector_binding_permits. intros Hp. by inv_ok. Qed.

(** The capabilities the program passes: none, the validator of a candidate
    decision ([_CandidateSelectorValidator]), and the persisted authority *)
Inductive PassedCapability :=
  | NoCapability
  | CandidateValidator (binding : CohortDecisionApplyBinding)
  | PersistedAuthority (authority : PersistedSelectorAuthority).

Definition capability_of (c : PassedCapability) : selector_capability :=
  match c with
  | NoCapability => None
  | CandidateValidator binding => Some (selector_binding_permits binding)
  | PersistedAuthority authority => Some (permits_selector_identity_replacement authority)
  end.

Lemma capability_of_guarded c : guarded_capability (capability_of c).
Proof.
  intros ??? p previous current Hp. destruct c as [|binding|authority]; [done|..]; injection Hp as <-.
  - apply selector_binding_guarded.
  - unfold permits_selector_identity_replacement. case_match; [done|]. intros (b & _ & Hb)%anyR_true.
    by eapply selector_binding_guarded.
Qed.
End capability.
