(* ===== verification/MergeProps.v ===== *)
(** * MergeProps: what a keyed merge keeps, and what dumps distinguish

    Profile resolution compares selectors and proofs by their JSON dumps: dumps
    that Python finds equal come from equal models. [merge_keyed] rebuilds a
    collection as a dict on normalised ids; an inherited item stays, changed only
    by the override of its kind. *)
From S2P Require Import Prelude Json.
From S2P Require Export Text ManifestDump Inheritance.

(** * Comparing dumps is comparing models

    Profile resolution compares selectors and proofs by their JSON dumps. Dumps
    that Python finds equal come from equal models. *)
Local Open Scope Z_scope.

(** A rendering whose values Python tells apart. *)
Class DumpInj {A} (render : A -> json) := dump_inj : forall x y, py_eq (render x) (render y) = true -> x = y.

#[export] Instance JStr_inj : DumpInj JStr.
Proof. intros x y. apply py_eq_JStr. Qed.
#[export] Instance JInt_inj : DumpInj JInt.
Proof. intros x y. apply py_eq_JInt. Qed.

#[export] Instance JArr_inj {A} (render : A -> json) `{!DumpInj render} : DumpInj (fun l => JArr (render <$> l)).
Proof.
  intros x y. rewrite py_eq_JArr, Forall2_fmap. intros Hl. apply list_eq_Forall2, (Forall2_impl _ _ _ _ Hl). intros ??. apply dump_inj.
Qed.

#[export] Instance texts_json_inj : DumpInj texts_json.
Proof. apply (JArr_inj JStr). Qed.

(** Two objects of constant keys compare member by member. *)
Ltac inv_dump :=
  repeat match goal with
  | H : py_eq (JObj _) (JObj _) = true |- _ => rewrite py_eq_JObj in H; cbn -[py_eq texts_json] in H
  | H : _ && _ = true |- _ => apply andb_true_iff in H as [? H]
  | H : py_eq _ _ = true |- _ => first [discriminate H | apply (dump_inj (render := JStr)) in H
      | apply (dump_inj (render := JInt)) in H | apply (dump_inj (render := texts_json)) in H]; subst
  end.

#[export] Instance tag_equals_json_inj : DumpInj tag_equals_json.
Proof. intros [k v] [k' v'] H. unfold tag_equals_json in H. by inv_dump. Qed.

#[export] Instance atomic_selector_json_inj : DumpInj atomic_selector_json.
Proof.
  intros x y H.
  destruct x as [| |? [] [] ?| | | | |? ? ? ? [] ?|]; destruct y as [| |? [] [] ?| | | | |? ? ? ? [] ?|];
    unfold atomic_selector_json in H; inv_dump; try done.
  rename select (py_eq (JArr _) _ = true) into Hp. by apply (JArr_inj tag_equals_json) in Hp as ->.
Qed.

#[export] Instance selector_json_inj : DumpInj selector_json.
Proof.
  intros x y H. destruct x as [a|id cs n|id cs n], y as [b|id' ds m|id' ds m]; cbn [selector_json] in H;
    [f_equal; by apply dump_inj in H|..];
    try (unfold atomic_selector_json in H; destruct a || destruct b; by inv_dump).
  all: inv_dump; try done; rename select (py_eq (JArr _) _ = true) into Hp; by apply (JArr_inj atomic_selector_json) in Hp as ->.
Qed.

#[export] Instance clause_scope_json_inj : DumpInj clause_scope_json.
Proof. intros [????] [????] H. unfold clause_scope_json in H. by inv_dump. Qed.

(** [previous.model_dump(...) != current.model_dump(...)] is false for equal
    models only. *)
Lemma dumps_agree {A} (render : A -> json) `{!DumpInj render} x y : negb (py_eq (render x) (render y)) = false -> x = y.
Proof. rewrite negb_false_iff. apply dump_inj. Qed.

(** * What a keyed merge keeps

    [merge_keyed] rebuilds a collection as a dict on normalised ids. These lemmas
    say what the merged collection holds under an id: an inherited item stays,
    changed only by the override of its kind. *)

Section merge.
Context `{PyText} {A : Type} (key : A -> string) (override : A -> A -> result A).
Implicit Types (l current additions : list A) (d : gmap string A).

Abbreviation nkey := (fun item => normalized_id (key item)).

(** Every item of [d] is under its own id. *)
Definition keyed d : Prop := forall k y, d !! k = Some y -> nkey y = k.

Lemma keyed_dict_by l : keyed (dict_by nkey l).
Proof. by intros k y [_ ?]%dict_by_lookup_Some. Qed.

Lemma find_by_Some l ref y : find_by key l ref = Some y -> y ∈ l /\ same_id (key y) ref = true.
Proof. intros [? ?]%dict_by_lookup_Some. split; [done|]. by apply String.eqb_eq. Qed.

Lemma find_by_same l a b : same_id a b = true -> find_by key l a = find_by key l b.
Proof. intros E%String.eqb_eq. unfold find_by. by rewrite E. Qed.

Lemma find_by_is_Some l y : y ∈ l -> is_Some (find_by key l (key y)).
Proof. apply (dict_by_is_Some nkey). Qed.

(** Items with distinct ids are found under their own. *)
Lemma find_by_unique l y : NoDup (nkey <$> l) -> y ∈ l -> find_by key l (key y) = Some y.
Proof.
  intros Hn Hy. apply (dict_by_lookup_inj nkey); [|done]. intros z Hz E. by eapply (NoDup_fmap_inj_on nkey).
Qed.

Lemma find_by_sorted_values d ref : keyed d -> find_by key (sorted_values d) ref = d !! normalized_id ref.
Proof.
  intros Hd. unfold find_by. destruct (dict_by nkey (sorted_values d) !! normalized_id ref) as [y|] eqn:E.
  - apply dict_by_lookup_Some in E as [(k & Hk)%(elem_of_sorted_values key) E]. specialize (Hd k y Hk) as E'. cbv beta in E, E'. congruence.
  - destruct (d !! normalized_id ref) as [y|] eqn:Hy; [|done]. exfalso.
    assert (Hin : y ∈ sorted_values d) by (apply (elem_of_sorted_values key); by eexists).
    apply (dict_by_is_Some nkey) in Hin as [z Hz]. specialize (Hd _ _ Hy) as E'. cbv beta in E', Hz. congruence.
Qed.

Lemma sorted_values_unique d : keyed d -> NoDup (nkey <$> sorted_values d).
Proof.
  intros Hd. enough (E : nkey <$> sorted_values d = sorted_keys d) by (rewrite E; apply NoDup_sorted_keys).
  unfold sorted_values. assert (Hk : forall k, k ∈ sorted_keys d -> is_Some (d !! k)) by (intros k; by apply elem_of_sorted_keys).
  induction (sorted_keys d) as [|k ks IH]; [done|]. cbn [omap list_omap]. destruct (Hk k) as [y Hy]; [left|].
  rewrite Hy. cbn [fmap list_fmap]. f_equal; [by apply Hd|]. apply IH. intros j Hj. apply Hk. by right.
Qed.

(** ** The loop *)
Hypothesis override_key : forall p i y, override p i = Ok y -> key y = key i.

(** The item the loop puts under the id of [item] *)
Definition merged_item d (item : A) : result A :=
  match d !! nkey item with Some previous => override previous item | None => Ok item end.

Lemma merged_item_key d item y : merged_item d item = Ok y -> key y = key item.
Proof. unfold merged_item. destruct (d !! _); [apply override_key|]. by intros [= ->]. Qed.

(** A property of dicts every turn of the loop keeps holds of the merge. *)
Lemma merge_keyed_invariant (P : gmap string A -> Prop) current additions l :
  P (dict_by nkey current) ->
  (forall d item y, keyed d -> P d -> item ∈ additions -> merged_item d item = Ok y -> P (<[nkey item := y]> d)) ->
  merge_keyed key override current additions = Ok l -> exists d, l = sorted_values d /\ keyed d /\ P d.
Proof.
  intros Hinit Hstep Hm. unfold merge_keyed in Hm. apply bind_Ok in Hm as (d' & Hm & [= <-]). exists d'. split; [done|].
  revert Hinit Hstep Hm. generalize (keyed_dict_by current). generalize (dict_by nkey current).
  induction additions as [|item additions IH]; intros d Hk Hp Hstep Hf; cbn [foldR] in Hf; [by injection Hf as <-|].
  apply bind_Ok in Hf as (d1 & Hy & Hf). cbv zeta in Hy. apply bind_Ok in Hy as (y & Hy & [= <-]). fold (merged_item d item) in Hy.
  eapply IH; [| |intros; eapply Hstep; [done|done|by right|done]|done].
  - intros k z. rewrite lookup_insert. case_decide as E; [|apply Hk]. intros [= ->]. cbn in *. by rewrite (merged_item_key _ _ _ Hy).
  - eapply Hstep; [done|done|left|done].
Qed.

(** The ids of a merged collection are distinct. *)
Lemma merge_keyed_unique current additions l : merge_keyed key override current additions = Ok l -> NoDup (nkey <$> l).
Proof.
  intros Hm. destruct (merge_keyed_invariant (fun _ => True) _ _ _ I (fun _ _ _ _ _ _ _ => I) Hm) as (d & -> & Hk & _).
  by apply sorted_values_unique.
Qed.

(** What the inherited items, the additions and the overrides satisfy, the merged
    items satisfy. *)
Lemma merge_keyed_Forall (P : A -> Prop) current additions l :
  Forall P current -> Forall P additions -> (forall p i y, P p -> P i -> override p i = Ok y -> P y) ->
  merge_keyed key override current additions = Ok l -> Forall P l.
Proof.
  rewrite !Forall_forall. intros Hc Ha Ho Hm.
  destruct (merge_keyed_invariant (map_Forall (fun _ => P)) current additions l) as (d & -> & _ & Hp); [| |exact Hm|].
  - intros k y [Hy _]%dict_by_lookup_Some. by apply Hc.
  - intros d item y _ Hd Hin Hy. apply map_Forall_insert_2; [|done]. unfold merged_item in Hy.
    destruct (d !! _) as [p|] eqn:E; [|by injection Hy as <-; apply Ha]. eapply Ho; [by eapply Hd|by apply Ha|done].
  - intros y (k & Hk)%(elem_of_sorted_values key). by eapply Hp.
Qed.

(** An inherited item stays, related to what it was as the override relates items. *)
Lemma merge_keyed_related (R : A -> A -> Prop) `{!PreOrder R} current additions l ref p :
  (forall p i y, override p i = Ok y -> R p y) ->
  merge_keyed key override current additions = Ok l -> find_by key current ref = Some p ->
  exists y, find_by key l ref = Some y /\ R p y.
Proof.
  intros Ho Hm Hp.
  destruct (merge_keyed_invariant (fun d => exists y, d !! normalized_id ref = Some y /\ R p y) current additions l)
    as (d & -> & Hk & y & Hy & HR); [| |exact Hm|].
  - by exists p.
  - intros d item y _ (z & Hz & HR) _ Hy. rewrite lookup_insert. case_decide as E; [|by exists z]. exists y. split; [done|].
    unfold merged_item in Hy. rewrite E, Hz in Hy. apply Ho in Hy. by etrans.
  - exists y. by rewrite find_by_sorted_values.
Qed.

(** An item no addition names is the inherited one. *)
Lemma merge_keyed_untouched current additions l ref :
  merge_keyed key override current additions = Ok l -> normalized_id ref ∉ nkey <$> additions ->
  find_by key l ref = find_by key current ref.
Proof.
  intros Hm Href.
  destruct (merge_keyed_invariant (fun d => d !! normalized_id ref = find_by key current ref) current additions l)
    as (d & -> & Hk & Hd); [done| |exact Hm|by rewrite find_by_sorted_values].
  intros d item y _ Hd Hin _. rewrite lookup_insert_ne; [done|]. intros E. apply Href. rewrite <- E. by apply (list_elem_of_fmap_2 nkey).
Qed.
End merge.
