(* ===== verification/ResolutionProps.v ===== *)
(** * ResolutionProps: lineages, and the roles of a resolved profile

    What a profile may do to an inherited role, the ancestors of a profile, and
    what a lineage leaves of a role. *)
From S2P Require Import Prelude Text Json.
From S2P Require Export SelectorProps Resolution Capability MergeProps.

(** * What a profile may do to an inherited role

    A profile that declares an inherited role again can only narrow it: every
    resource the role of the profile selects, the inherited role selects. A
    disabled role is gone, and nothing else removes one. *)
Local Open Scope Z_scope.

Section narrowing.
Context `{PyTextAscii} `{!PyTextFold} `{PyStr}.
Implicit Types (dict : resource_dict) (r : ManifestRole) (s : ManifestSelector) (ref : string).

(** The resources of a role: what one of its selectors denotes *)
Definition role_selects dict r (x : string) : Prop := exists s, s ∈ mr_selectors r /\ selects dict s x.

(** [current] selects nothing [previous] does not. *)
Definition role_within (previous current : ManifestRole) : Prop :=
  forall dict x, role_selects dict current x -> role_selects dict previous x.

#[export] Instance role_within_preorder : PreOrder role_within.
Proof. split; [by intros r dict x|]. intros p q r Hpq Hqr dict x Hx. by apply Hpq, Hqr. Qed.

(** A role whose selectors pass their validators and name scale sets the evaluation
    can parse *)
Definition sound_role r : Prop := validate_selectors r = Ok tt /\ Forall sound_selector (mr_selectors r).

Lemma with_selectors_Ok r selectors r' : with_selectors r selectors = Ok r' ->
  mr_role_id r' = mr_role_id r /\ mr_selectors r' = selectors /\ validate_selectors r' = Ok tt.
Proof.
  unfold with_selectors. intros Hw. inv_ok. subst r'. split_and!; [done|done|].
  rename select (validate_selectors _ = _) into Hv. by destruct x0.
Qed.

Lemma override_role_id permits p i r : override_role permits p i = Ok r -> mr_role_id r = mr_role_id i.
Proof.
  unfold override_role. intros Ho. inv_ok. case_bool_decide; inv_ok; by edestruct with_selectors_Ok as (? & ? & ?).
Qed.

Lemma same_variant_Ok {A} (variant : A -> list string) p i y : same_variant variant p i = Ok y -> y = i /\ variant p = variant i.
Proof. unfold same_variant. intros Hs. inv_ok. subst. by rename select (bool_decide _ = true) into Hb; apply bool_decide_eq_true in Hb. Qed.

Lemma override_role_sound permits p i r : sound_role p -> sound_role i -> override_role permits p i = Ok r -> sound_role r.
Proof.
  unfold override_role. intros [_ Hp] [_ Hi] Ho. inv_ok. case_bool_decide; inv_ok;
    (edestruct with_selectors_Ok as (_ & Hs & Hv); [done|]); split; [done| |done|]; rewrite Hs; [done|].
  eapply merge_keyed_Forall; [..|done]; [|done|done|].
  - by intros ??? [-> _]%same_variant_Ok.
  - by intros ??? _ ? [-> _]%same_variant_Ok.
Qed.

Lemma selectors_by_id_elem r k s : selectors_by_id r !! k = Some s -> s ∈ mr_selectors r.
Proof. by intros [? _]%dict_by_lookup_Some. Qed.

Lemma selectors_by_id_own r s : sound_role r -> s ∈ mr_selectors r -> selectors_by_id r !! normalized_id (selector_id s) = Some s.
Proof.
  intros [Hv _] Hs. apply require_unique_text_NoDup in Hv. rewrite <- list_fmap_compose in Hv.
  apply (dict_by_lookup_inj (fun s => normalized_id (selector_id s))); [|done].
  intros y Hy E. by eapply (NoDup_fmap_inj_on (fun s => normalized_id (selector_id s))).
Qed.

(** The check of a role a profile declares again *)
Lemma check_inherited_role_within permits previous current : guarded_authority permits -> sound_role previous ->
  sound_role current -> check_inherited_role permits previous current = Ok tt -> role_within previous current.
Proof.
  intros Hg Hp Hc Hcheck dict x. unfold check_inherited_role in Hcheck. cbv zeta in Hcheck.
  case_bool_decide as Hdom; cbn [negb] in Hcheck.
  - apply bind_Ok in Hcheck as (us & Hcheck & _). intros (s & Hs & Hx). pose proof (selectors_by_id_own _ _ Hc Hs) as Hk.
    apply (mapR_unit_elem _ _ _ (normalized_id (selector_id s), s)) in Hcheck; [|by apply elem_of_map_to_list]. cbn [fst snd] in Hcheck.
    destruct (selectors_by_id previous !! normalized_id (selector_id s)) as [p|] eqn:E; [|done]. apply selectors_by_id_elem in E.
    exists p. split; [done|]. apply raise_if_Ok, andb_false_iff in Hcheck as [Hd|Hd].
    + by apply (dumps_agree selector_json) in Hd as ->.
    + apply negb_false_iff in Hd. destruct Hp as [_ Hp], Hc as [_ Hc]. rewrite Forall_forall in Hp, Hc.
      by eapply narrower_selects; [apply Hp|apply Hc|..].
  - apply bind_Ok in Hcheck as (b & Hb & ->%guard_or_Ok). destruct permits as [p|]; [|done].
    case_bool_decide; [|done]. apply (guarded_replacement_selects dict); [apply Hp|apply Hc|]. by eapply Hg.
Qed.

(** ** The roles of a merged profile *)
Section merged.
Variables (permits : role_authority) (profile : ManifestProfile) (inherited roles : list ManifestRole).
Hypothesis Hauthority : guarded_authority permits.
Hypothesis Hinherited : Forall sound_role inherited.
Hypothesis Hdeclared : Forall sound_role (mp_roles profile).
Hypothesis Hmerge : merge_roles permits inherited (mp_roles profile) = Ok roles.

Lemma merged_roles_sound : Forall sound_role roles.
Proof using Hinherited Hdeclared Hmerge.
  eapply merge_keyed_Forall; [apply override_role_id|exact Hinherited|exact Hdeclared|apply override_role_sound|exact Hmerge].
Qed.

Lemma merged_roles_unique : NoDup ((fun r => normalized_id (mr_role_id r)) <$> roles).
Proof using Hmerge. eapply merge_keyed_unique; [apply override_role_id|exact Hmerge]. Qed.

Lemma merged_role_within ref previous : validate_inherited_roles profile permits inherited roles = Ok tt ->
  find_by mr_role_id inherited ref = Some previous ->
  exists current, find_by mr_role_id roles ref = Some current /\ role_within previous current.
Proof using All.
  intros Hv Hp. unfold validate_inherited_roles in Hv. apply bind_Ok in Hv as (us & Hv & _).
  destruct (decide (normalized_id ref ∈ normalized_set (mr_role_id <$> mp_roles profile))) as [Hin|Hout].
  - apply (mapR_unit_elem _ _ _ (normalized_id ref)) in Hv; [|by apply elem_of_elements]. unfold find_by in *. rewrite Hp in Hv.
    destruct (dict_by _ roles !! normalized_id ref) as [current|] eqn:Hc; [|done]. exists current. split; [done|].
    eapply check_inherited_role_within; [done| | |done].
    + apply dict_by_lookup_Some in Hp as [Hp _]. rewrite Forall_forall in Hinherited. by apply Hinherited.
    + apply dict_by_lookup_Some in Hc as [Hc _]. pose proof merged_roles_sound as Hs. rewrite Forall_forall in Hs. by apply Hs.
  - exists previous. split; [|done]. rewrite <- Hp. eapply merge_keyed_untouched; [apply override_role_id|exact Hmerge|].
    intros (r & E & Hr)%list_elem_of_fmap. apply Hout, elem_of_normalized_set. exists (mr_role_id r).
    split; [by apply list_elem_of_fmap_2|done].
Qed.
End merged.
End narrowing.

(** * The ancestors of a profile

    The lineage loop of profile resolution always ends, and for a validated
    manifest it succeeds: a profile's lineage is its chain of [extends], root
    first. *)

Section lineage.
Context `{PyText}.
Implicit Types (profiles : gmap string ManifestProfile) (p q : ManifestProfile) (m : CanonicalWorkloadManifest).

Abbreviation pid := (fun p => normalized_id (mp_profile_id p)).

(** The ancestors of a profile, root first *)
Inductive ancestry profiles : ManifestProfile -> list ManifestProfile -> Prop :=
  | ancestry_root p : mp_extends p = None -> ancestry profiles p []
  | ancestry_child p parent q up :
      mp_extends p = Some parent -> profiles !! normalized_id parent = Some q -> ancestry profiles q up ->
      ancestry profiles p (up ++ [q]).

(** The loop never exhausts its fuel: every turn adds a profile to [visiting]. *)
Lemma lineage_loop_total fuel profiles visiting p acc :
  keyed mp_profile_id profiles -> profiles !! pid p = Some p -> visiting ⊆ dom profiles ->
  (size profiles < fuel + size visiting)%nat -> is_Some (lineage_loop fuel profiles visiting p acc).
Proof.
  revert visiting p acc. induction fuel as [|fuel IH]; intros visiting p acc Hk Hp Hsub Hlt.
  { apply subseteq_size in Hsub. rewrite size_dom in Hsub. lia. }
  cbn [lineage_loop]. case_bool_decide; [done|]. destruct (mp_extends p) as [parent|]; [|done].
  destruct (profiles !! normalized_id parent) as [q|] eqn:Hq; [|done]. apply IH; [done| | |].
  - pose proof (Hk _ _ Hq) as E. cbv beta in E. by rewrite E.
  - apply elem_of_dom_2 in Hp. set_solver.
  - rewrite size_union by set_solver. rewrite size_singleton. lia.
Qed.

(** On a rooted profile the loop lists the ancestors. *)
Lemma lineage_loop_rooted fuel profiles visiting p acc n r :
  keyed mp_profile_id profiles -> profiles !! pid p = Some p -> rooted profiles (pid p) n ->
  (forall y, y ∈ visiting -> exists k, rooted profiles y k /\ (n < k)%nat) ->
  lineage_loop fuel profiles visiting p acc = Some r ->
  exists up, r = Ok (up ++ p :: acc) /\ ancestry profiles p up.
Proof.
  revert visiting p acc n. induction fuel as [|fuel IH]; intros visiting p acc n Hk Hp Hr Hv Hl; [done|].
  cbn [lineage_loop] in Hl. case_bool_decide as Hin.
  { destruct (Hv _ Hin) as (k & Hk' & Hlt). pose proof (rooted_unique _ _ _ _ Hr Hk'). lia. }
  inversion Hr as [id q Hq He|id q parent j Hq He Hj]; subst id; rewrite Hp in Hq; injection Hq as <-; rewrite He in Hl.
  { injection Hl as <-. exists []. split; [done|by apply ancestry_root]. }
  destruct (profiles !! normalized_id parent) as [q|] eqn:Hq; [|inversion Hj; simplify_eq].
  pose proof (Hk _ _ Hq) as E. cbv beta in E. rewrite <- E in Hj. apply IH with (n := j) in Hl as (up & -> & Hup); [|done| |done|].
  - exists (up ++ [q]). rewrite <- app_assoc. split; [done|]. by eapply ancestry_child.
  - by rewrite E.
  - intros y [->%elem_of_singleton|Hy]%elem_of_union; [exists n; split; [done|]; subst; lia|].
    destruct (Hv y Hy) as (k & ? & ?). exists k. split; [done|]. subst. lia.
Qed.

(** Every profile of a lineage is one of the dict's. *)
Lemma ancestry_elem profiles p up q : ancestry profiles p up -> q ∈ up -> exists k, profiles !! k = Some q.
Proof.
  induction 1 as [|p parent q' up He Hq _ IH]; [by intros ?%elem_of_nil|].
  intros [Hin| ->%list_elem_of_singleton]%elem_of_app; [by apply IH|by eexists].
Qed.

Lemma size_dict_by {A} (key : A -> string) l : (size (dict_by key l) <= length l)%nat.
Proof.
  induction l as [|y l IH] using rev_ind; [done|]. rewrite dict_by_snoc, length_app. cbn.
  destruct (dict_by key l !! key y) as [z|] eqn:E; [rewrite map_size_insert_Some by by eexists|rewrite map_size_insert_None by done]; lia.
Qed.

(** ** Validated manifests *)

(** The dict the resolver reads profiles from is keyed by their ids. *)
Lemma validated_profiles m : validate_manifest_ids m = Ok tt ->
  NoDup (pid <$> (snd <$> wm_profiles m)) /\ Forall (fun e => normalized_id (fst e) = pid (snd e)) (wm_profiles m).
Proof.
  unfold validate_manifest_ids. intros Hv. do 2 apply bind_Ok in Hv as (? & _ & Hv). apply bind_Ok in Hv as (seen & Hv & _).
  enough (Hg : forall l seen0 seen, foldR (fun (seen : gset string) '(key, profile) =>
      let normalized := normalized_id key in
      _ ← raise_if (AthenaValidationError "duplicate normalized profile id") (bool_decide (normalized ∈ seen));
      _ ← guard_or (AthenaValidationError "profile map key must match profileId")
            (String.eqb normalized (normalized_id (mp_profile_id profile)));
      Ok ({[normalized]} ∪ seen)) seen0 l = Ok seen ->
    NoDup (pid <$> (snd <$> l)) /\ Forall (fun e => normalized_id (fst e) = pid (snd e)) l /\
    (forall y, y ∈ pid <$> (snd <$> l) -> y ∉ seen0)).
  { by destruct (Hg _ _ _ Hv) as (? & ? & _). }
  clear. induction l as [|[k p] l IH]; intros seen0 seen Hf; cbn [foldR] in Hf.
  - split_and!; [constructor|constructor|by intros y ?%elem_of_nil].
  - apply bind_Ok in Hf as (seen1 & H1 & Hf). cbv zeta in H1.
    apply bind_Ok in H1 as (? & Hd%raise_if_Ok & H1). apply bind_Ok in H1 as (? & He%guard_or_Ok & [= <-]).
    apply bool_decide_eq_false in Hd. apply String.eqb_eq in He. destruct (IH _ _ Hf) as (Hn & Ha & Hs). cbn [fmap list_fmap fst snd].
    split_and!; [constructor; [|done]|by constructor|].
    + intros Hin. specialize (Hs _ Hin). set_solver.
    + intros y [->|Hy]%elem_of_cons; [by rewrite <- He|]. specialize (Hs _ Hy). set_solver.
Qed.

Lemma validated_normalized_profiles m : validate_manifest_ids m = Ok tt -> normalized_profiles m = profiles_by_id m.
Proof.
  intros [_ Hk]%validated_profiles. unfold normalized_profiles, profiles_by_id.
  induction (wm_profiles m) as [|e l IH] using rev_ind; [apply fmap_empty|].
  apply Forall_app in Hk as [Hk [He _]%Forall_cons]. rewrite fmap_app. cbn [fmap list_fmap].
  rewrite !dict_by_snoc, fmap_insert, IH by done. by rewrite He.
Qed.

Lemma validated_rooted m p : validate_manifest_ids m = Ok tt -> p ∈ snd <$> wm_profiles m ->
  exists n, rooted (profiles_by_id m) (pid p) n.
Proof.
  unfold validate_manifest_ids. intros Hv Hp. do 5 apply bind_Ok in Hv as (? & _ & Hv).
  apply bind_Ok in Hv as (completed & Hv & _). unfold visit_all in Hv. eapply visit_all_sound; [|exact Hv|].
  - by intros y ?%elem_of_empty.
  - by apply (list_elem_of_fmap_2 pid).
Qed.

Lemma validated_profile m p : validate_manifest_ids m = Ok tt -> p ∈ snd <$> wm_profiles m -> profiles_by_id m !! pid p = Some p.
Proof. intros [Hn _]%validated_profiles Hp. by apply (find_by_unique mp_profile_id). Qed.

(** C40: resolving a profile of a validated manifest always has a lineage to
    resolve: the [while True] loop ends, with neither a cycle nor a missing
    parent, and yields the ancestors of the profile, root first, and the profile. *)
Theorem lineage_resolves m p : validate_manifest_ids m = Ok tt -> p ∈ snd <$> wm_profiles m ->
  exists up, profile_lineage m (mp_profile_id p) = Ok (up ++ [p]) /\ ancestry (profiles_by_id m) p up.
Proof.
  intros Hv Hp. unfold profile_lineage. rewrite (validated_normalized_profiles m Hv).
  pose proof (validated_profile m p Hv Hp) as Hl. cbv beta in Hl. rewrite Hl.
  destruct (lineage_loop_total (profile_lineage_fuel m) (profiles_by_id m) ∅ p []) as [r Hr].
  - apply keyed_dict_by.
  - done.
  - set_solver.
  - rewrite size_empty. unfold profile_lineage_fuel, profiles_by_id.
    pose proof (size_dict_by (fun p => normalized_id (mp_profile_id p)) (snd <$> wm_profiles m)) as Hs. rewrite length_fmap in Hs. lia.
  - rewrite Hr. destruct (validated_rooted m p Hv Hp) as [n Hn].
    apply lineage_loop_rooted with (n := n) in Hr as (up & -> & Hup); [by exists up|apply keyed_dict_by|done..|].
    by intros y ?%elem_of_empty.
Qed.
End lineage.

(** * The roles of a resolved profile

    The lineage of a profile always ends, and over a lineage an inherited role
    stays and only narrows. *)

(** ** Disabled references *)
Section disabled.
Context `{PyText} `{PyStr}.

Lemma drop_ref_Ok {A} (key : A -> string) t items kept : drop_ref key t items = Ok kept ->
  kept = select (fun item => negb (same_id (key item) t)) items.
Proof. unfold drop_ref. intros Hd. by inv_ok. Qed.

(** Dropping another id changes nothing under [ref]. *)
Lemma find_by_drop {A} (key : A -> string) t items kept ref : drop_ref key t items = Ok kept ->
  same_id t ref = false -> find_by key kept ref = find_by key items ref.
Proof.
  intros ->%drop_ref_Ok Hne. unfold find_by. induction items as [|y items IH] using rev_ind; [done|].
  rewrite select_app, dict_by_snoc. unfold select at 2. cbn [List.filter]. unfold same_id in *.
  destruct (String.eqb_spec (normalized_id (key y)) (normalized_id t)) as [E|E]; cbn [negb].
  - rewrite app_nil_r, lookup_insert_ne, IH; [done|]. rewrite E. by apply String.eqb_neq.
  - rewrite dict_by_snoc, !lookup_insert. by case_decide.
Qed.

(** The kind a reference drops an item of *)
Ltac drop_cases Hd :=
  repeat match type of Hd with (if String.eqb ?a ?b then _ else _) = _ => destruct (String.eqb_spec a b) as [->|_] end;
  inv_ok; subst; cbn in *.

Lemma drop_from_roles c kind t c' : drop_from c kind t = Ok c' ->
  co_roles c' = co_roles c \/ kind = "role" /\ drop_ref mr_role_id t (co_roles c) = Ok (co_roles c').
Proof.
  destruct c. unfold drop_from. intros Hd.
  drop_cases Hd; auto.
Qed.

Lemma drop_from_constraints c kind t c' : drop_from c kind t = Ok c' ->
  co_constraints c' = co_constraints c \/
  kind = "constraint" /\ drop_ref mc_constraint_id t (co_constraints c) = Ok (co_constraints c').
Proof.
  destruct c. unfold drop_from. intros Hd.
  drop_cases Hd; auto.
Qed.

(** [profile] disables the item [ref] of a kind. *)
Definition disables (profile : ManifestProfile) (kind ref : string) : bool :=
  existsb (fun d => String.eqb (dm_target_kind d) kind && same_id (dm_target_ref d) ref) (mp_disabled_refs profile).

Variables (profile : ManifestProfile) (as_of : Z).

(** What every disabled reference of the profile keeps *)
Lemma apply_disabled_refs_invariant (P : Collections -> Prop) c c' : P c ->
  (forall c d c', P c -> d ∈ mp_disabled_refs profile -> is_protected_ref (dm_target_ref d) = false ->
     drop_from c (dm_target_kind d) (dm_target_ref d) = Ok c' -> P c') ->
  apply_disabled_refs profile as_of c = Ok c' -> P c'.
Proof.
  intros Hc Hstep. apply foldR_invariant_elem; [|done]. intros c1 d c2 H1 Hin Hd. unfold apply_disabled_ref in Hd.
  apply bind_Ok in Hd as (u & Hp%raise_if_Ok & Hd). apply bind_Ok in Hd as (v & _ & Hd). by eapply Hstep.
Qed.

Lemma disables_false kind ref d : disables profile kind ref = false -> d ∈ mp_disabled_refs profile ->
  dm_target_kind d = kind -> same_id (dm_target_ref d) ref = false.
Proof.
  intros Hd Hin Hk. apply not_true_is_false. intros Hs. apply not_true_iff_false in Hd. apply Hd, existsb_elem.
  exists d. split; [done|]. by rewrite Hk, String.eqb_refl.
Qed.

Lemma disabled_role_kept c c' ref : apply_disabled_refs profile as_of c = Ok c' -> disables profile "role" ref = false ->
  find_by mr_role_id (co_roles c') ref = find_by mr_role_id (co_roles c) ref.
Proof.
  intros Ha Hd. eapply (apply_disabled_refs_invariant
    (fun c1 => find_by mr_role_id (co_roles c1) ref = find_by mr_role_id (co_roles c) ref)); [done| |done].
  intros c1 d c2 <- Hin _ [->|[Hk Hdrop]]%drop_from_roles; [done|].
  eapply find_by_drop; [done|]. by eapply disables_false.
Qed.

Lemma disabled_constraint_kept c c' ref : apply_disabled_refs profile as_of c = Ok c' ->
  disables profile "constraint" ref = false ->
  find_by mc_constraint_id (co_constraints c') ref = find_by mc_constraint_id (co_constraints c) ref.
Proof.
  intros Ha Hd. eapply (apply_disabled_refs_invariant
    (fun c1 => find_by mc_constraint_id (co_constraints c1) ref = find_by mc_constraint_id (co_constraints c) ref)); [done| |done].
  intros c1 d c2 <- Hin _ [->|[Hk Hdrop]]%drop_from_constraints; [done|].
  eapply find_by_drop; [done|]. by eapply disables_false.
Qed.

Lemma disabled_roles_Forall (P : ManifestRole -> Prop) c c' : apply_disabled_refs profile as_of c = Ok c' ->
  Forall P (co_roles c) -> Forall P (co_roles c').
Proof.
  intros Ha Hp. eapply (apply_disabled_refs_invariant (fun c1 => Forall P (co_roles c1))); [done| |done].
  intros c1 d c2 Hc _ _ [->|[_ ->%drop_ref_Ok]]%drop_from_roles; [done|].
  rewrite Forall_forall in *. intros r [Hr _]%elem_of_select. by apply Hc.
Qed.

Lemma disabled_constraints_Forall (P : ManifestConstraint -> Prop) c c' : apply_disabled_refs profile as_of c = Ok c' ->
  Forall P (co_constraints c) -> Forall P (co_constraints c').
Proof.
  intros Ha Hp. eapply (apply_disabled_refs_invariant (fun c1 => Forall P (co_constraints c1))); [done| |done].
  intros c1 d c2 Hc _ _ [->|[_ ->%drop_ref_Ok]]%drop_from_constraints; [done|].
  rewrite Forall_forall in *. intros r [Hr _]%elem_of_select. by apply Hc.
Qed.
End disabled.

(** ** One profile of the lineage *)
Section inherited_roles.
Context `{PyTextAscii} `{!PyTextFold} `{PyStr}.

Lemma inherit_roles permits as_of parent inherited profile c : inherit permits as_of parent inherited profile = Ok c ->
  exists merged, merge_roles permits (co_roles inherited) (mp_roles profile) = Ok (co_roles merged) /\
    validate_inherited_roles profile permits (co_roles inherited) (co_roles merged) = Ok tt /\
    apply_disabled_refs profile as_of merged = Ok c.
Proof.
  unfold inherit. intros (merged & Hm & Hi)%bind_Ok. exists merged. unfold merge_profile in Hm.
  apply bind_Ok in Hm as (roles & Hr & Hm). unfold validate_inherited_semantics in Hi.
  apply bind_Ok in Hi as (? & Hs & Hi). inv_ok. subst merged. cbn in *. split_and!; [done| |done].
  by repeat match goal with u : unit |- _ => destruct u end.
Qed.

(** An inherited role the profile does not disable stays, and narrows. *)
Lemma inherit_role_within permits as_of parent inherited profile c ref previous :
  guarded_authority permits -> Forall sound_role (co_roles inherited) -> Forall sound_role (mp_roles profile) ->
  inherit permits as_of parent inherited profile = Ok c -> disables profile "role" ref = false ->
  find_by mr_role_id (co_roles inherited) ref = Some previous ->
  exists current, find_by mr_role_id (co_roles c) ref = Some current /\ role_within previous current.
Proof.
  intros Hg Hi Hd (merged & Hm & Hv & Ha)%inherit_roles Hdis Hp.
  rewrite (disabled_role_kept _ _ _ _ _ Ha Hdis). exact (merged_role_within _ _ _ _ Hg Hi Hd Hm _ _ Hv Hp).
Qed.

Lemma inherit_roles_sound permits as_of parent inherited profile c :
  Forall sound_role (co_roles inherited) -> Forall sound_role (mp_roles profile) ->
  inherit permits as_of parent inherited profile = Ok c -> Forall sound_role (co_roles c).
Proof.
  intros Hi Hd (merged & Hm & Hv & Ha)%inherit_roles. eapply disabled_roles_Forall; [done|].
  exact (merged_roles_sound _ _ _ _ Hi Hd Hm).
Qed.
End inherited_roles.

(** ** The roles of a resolved profile *)
Section resolved_roles.
Context `{PyTextAscii} `{!PyTextFold} `{PyStr} `{Rfc8785} `{ManifestSetDump} `{ModelDump ManifestSelector}.
Implicit Types (m : CanonicalWorkloadManifest) (capability : selector_capability).

(** What every profile of a lineage keeps, the resolution of the lineage keeps. *)
Lemma resolve_lineage_invariant (P : Collections -> Prop) m capability as_of lineage st :
  P (manifest_collections m) ->
  (forall parent c c' profile, P c -> profile ∈ lineage ->
     inherit ((fun f => f (wm_manifest_id m) (wm_manifest_version m) (mp_profile_id profile)) <$> capability) as_of
       parent c profile = Ok c' -> P c') ->
  resolve_lineage m capability as_of lineage = Ok st -> P (rs_collections st).
Proof.
  intros H0' Hstep. unfold resolve_lineage. apply (foldR_invariant_elem (fun st => P (rs_collections st))); [|done].
  intros st1 profile st2 H1' Hin Hs. unfold resolve_step in Hs. apply bind_Ok in Hs as (c & Hi & Hs). inv_ok. subst st2. cbn.
  by eapply Hstep.
Qed.

(** The collections of the resolved profile are the ones of the last step. *)
Lemma resolve_lineage_resolved m capability as_of lineage st p :
  resolve_lineage m capability as_of lineage = Ok st -> rs_parent st = Some p ->
  exists profile chain artifact semantic, profile ∈ lineage /\ p = resolved_record m profile chain (rs_collections st) artifact semantic.
Proof.
  unfold resolve_lineage. intros Hr. revert p.
  eapply (foldR_invariant_elem (fun st => forall p, rs_parent st = Some p ->
    exists (profile : ManifestProfile) chain artifact semantic,
    profile ∈ lineage /\ p = resolved_record m profile chain (rs_collections st) artifact semantic)); [| |done]; [|done].
  intros st1 profile st2 _ Hin Hs p Hp. unfold resolve_step in Hs. inv_ok. subst st2. cbn in *. injection Hp as <-.
  rename select (make_resolved_profile _ = _) into Hm. unfold make_resolved_profile in Hm. inv_ok. subst.
  by repeat eexists.
Qed.

Lemma resolve_one_profile_lineage m pid as_of capability p : resolve_one_profile m pid as_of capability = Ok p ->
  exists lineage st, profile_lineage m pid = Ok lineage /\ resolve_lineage m capability as_of lineage = Ok st /\ rs_parent st = Some p.
Proof.
  unfold resolve_one_profile. intros Hr. inv_ok. eexists _, _. split_and!; [done|done|].
  destruct (rs_parent _); [|done]. inv_ok. by subst.
Qed.

(** C10: a profile can only narrow a role of the manifest whose selectors, and those
    of the profiles, name scale sets the evaluation can parse. Whatever profiles the
    lineage runs through and whichever cohort decisions apply, a manifest role
    that no profile of the lineage disables is a role of the resolved profile,
    and every resource the resolved role matches in collected evidence, a
    selector of the manifest role matches too. *)
Theorem inherited_roles_only_narrow m (passed : PassedCapability) pid as_of p lineage g :
  Forall sound_role (wm_roles m) -> Forall (fun q => Forall sound_role (mp_roles q)) lineage ->
  NoDup ((fun r => normalized_id (mr_role_id r)) <$> wm_roles m) ->
  resolve_one_profile m pid as_of (capability_of passed) = Ok p -> profile_lineage m pid = Ok lineage ->
  g ∈ wm_roles m -> Forall (fun q => disables q "role" (mr_role_id g) = false) lineage ->
  exists r, r ∈ rp_roles p /\ same_id (mr_role_id r) (mr_role_id g) = true /\
    forall resources s e x, s ∈ mr_selectors r -> evaluate_selector s resources = Ok e -> x ∈ sv_matched_resource_ids e ->
      exists s', s' ∈ mr_selectors g /\
        forall e', evaluate_selector s' resources = Ok e' -> x ∈ sv_matched_resource_ids e'.
Proof.
  rewrite !(Forall_forall _ lineage). intros Hm Hq Hn (lineage' & st & Hl' & Hr & Hp)%resolve_one_profile_lineage Hl Hg Hd.
  same_ok. destruct (resolve_lineage_invariant (fun c => Forall sound_role (co_roles c) /\
    exists r, find_by mr_role_id (co_roles c) (mr_role_id g) = Some r /\ role_within g r) m (capability_of passed) as_of lineage st)
    as (_ & r & Hf & Hw); [| |exact Hr|].
  - split; [done|]. exists g. split; [|done]. by apply (find_by_unique mr_role_id).
  - intros parent c c' profile [Hs (r & Hf & Hw)] Hin Hi. pose proof (capability_of_guarded passed) as Hc.
    split; [eapply inherit_roles_sound; [exact Hs|by apply Hq|exact Hi]|].
    destruct (inherit_role_within _ _ _ _ _ _ _ _ (Hc _ _ _) Hs (Hq _ Hin) Hi (Hd _ Hin) Hf) as (r' & Hf' & Hw').
    exists r'. split; [done|]. by etrans.
  - apply (find_by_Some mr_role_id) in Hf as [Hin Hid]. exists r.
    destruct (resolve_lineage_resolved _ _ _ _ _ _ Hr Hp) as (profile & chain & artifact & semantic & _ & ->).
    split_and!; [done|done|]. intros resources s e x Hs (dict & Hdict & He)%evaluate_selector_selects Hx.
    destruct (Hw dict x) as (s' & Hs' & Hx'); [exists s; split; [done|by apply He]|]. exists s'. split; [done|].
    intros e' (dict' & Hdict' & He')%evaluate_selector_selects. same_ok. by apply He'.
Qed.
End resolved_roles.
