(* ===== verification/ConstraintProps.v ===== *)
(** * ConstraintProps: the constraints of a profile and of its lineage

    What a profile may do to an inherited constraint, and the constraints of a
    resolved profile. *)
From S2P Require Import Prelude Text Json PolicyProps.
From S2P Require Export Resolution MergeProps ResolutionProps.
From Stdlib Require Import SpecFloat.

(** * What a profile may do to an inherited constraint

    A constraint a profile inherits and no governed override targets keeps its
    force: evidence that satisfies the profile's constraint satisfies the
    inherited one. *)
Local Open Scope Z_scope.

(** ** Thresholds *)

(** A Python [float] is a binary64 value. *)
Definition binary64 (x : spec_float) : bool := valid_binary 53 1024 x.

Lemma digits2_pos_log2 m : Z.pos (digits2_pos m) = Z.log2 (Z.pos m) + 1.
Proof.
  induction m as [m IH|m IH|]; [| |done]; cbn [digits2_pos]; rewrite Pos2Z.inj_succ, IH.
  - rewrite Pos2Z.inj_xI, Z.log2_succ_double by lia. lia.
  - rewrite Pos2Z.inj_xO, Z.log2_double by lia. lia.
Qed.

(** A canonical mantissa and exponent are determined by the value. *)
Lemma canonical_unique m e n k : canonical_mantissa 53 1024 m e = true -> canonical_mantissa 53 1024 n k = true ->
  Z.pos m * 2 ^ (e - Z.min e k) = Z.pos n * 2 ^ (k - Z.min e k) -> m = n /\ e = k.
Proof.
  unfold canonical_mantissa. rewrite !Z.eqb_eq, !digits2_pos_log2. intros Hm Hn E.
  assert (Hlog : Z.log2 (Z.pos m) + e = Z.log2 (Z.pos n) + k).
  { apply (f_equal Z.log2) in E. rewrite !Z.log2_mul_pow2 in E by lia. lia. }
  assert (e = k) as -> by (etrans; [symmetry; exact Hm|]; etrans; [|exact Hn]; f_equal; lia).
  rewrite Z.min_id, Z.sub_diag in E. split; [lia|done].
Qed.

(** Floats Python finds equal compare alike. *)
Lemma py_eq_float x y : binary64 x = true -> binary64 y = true -> py_eq (JFloat x) (JFloat y) = true ->
  isfinite x = isfinite y /\ forall a c, comparison_matches a c x = comparison_matches a c y.
Proof.
  assert (Hpow : forall j i, 0 < 2 ^ (j - Z.min j i) /\ 0 < 2 ^ (i - Z.min j i)) by (intros; split; apply Z.pow_pos_nonneg; lia).
  destruct x as [s|[]| |s m e], y as [s'|[]| |s' n k]; try done; intros Hx Hy E;
    cbn [py_eq scalar_eq finite_number] in E; unfold number_eq in E; cbn [fst snd] in E; apply Z.eqb_eq in E.
  - specialize (Hpow 0 k) as []. destruct s'; nia.
  - specialize (Hpow e 0) as []. destruct s; nia.
  - cbn in Hx, Hy. unfold bounded in Hx, Hy. apply andb_true_iff in Hx as [Hx _], Hy as [Hy _].
    assert (s = s') as <- by (specialize (Hpow e k) as []; destruct s, s'; [done|nia|nia|done]).
    destruct (canonical_unique m e n k) as [-> ->]; [done|done| |done]. destruct s; lia.
Qed.

(** ** Force of a constraint *)
Section force.
Context `{PyText} `{!CanonicalJson EvidenceReference}.
Implicit Types (previous current : ManifestConstraint) (d : PolicyDecision).

(** The verdicts of a satisfied proof *)
Definition favourable (v : FindingVerdict) : bool := bool_decide (v ∈ [VPass; VExpectedConstraint; VObservation]).

(** Evidence that satisfies the proof of [current] decides [previous] alike. *)
Definition entails current previous : Prop :=
  forall profile evidence as_of d, evaluate_proof profile evidence current as_of = Ok d ->
    favourable (pd_verdict d) = true -> evaluate_proof profile evidence previous as_of = Ok d.

#[export] Instance entails_preorder : PreOrder entails.
Proof. split; [by intros c p e a d|]. intros a b c Hab Hbc p e t d Hd Hf. by apply Hbc; [apply Hab|]. Qed.

Lemma failure_not_favourable v : favourable (failure_verdict_value v) = false.
Proof. by destruct v. Qed.

(** What the evaluation reads of a constraint besides its proof *)
Definition same_semantics previous current : Prop :=
  mc_constraint_type previous = mc_constraint_type current /\ mc_finding_kind previous = mc_finding_kind current /\
  mc_success_verdict previous = mc_success_verdict current.

Variables (previous current : ManifestConstraint).
Hypothesis Hsame : same_semantics previous current.

(** A conclusion of success or failure that favours [current] favours [previous],
    whose test is implied. *)
Lemma conclusion_within (b b' : bool) refs : (b = true -> b' = true) ->
  favourable (pd_verdict (decide_with (if b then success_verdict_value (mc_success_verdict current)
                                       else failure_verdict_value (mc_failure_verdict current)) refs)) = true ->
  decide_with (if b' then success_verdict_value (mc_success_verdict previous)
               else failure_verdict_value (mc_failure_verdict previous)) refs =
  decide_with (if b then success_verdict_value (mc_success_verdict current)
               else failure_verdict_value (mc_failure_verdict current)) refs.
Proof using Hsame.
  destruct Hsame as (_ & _ & E). intros Hb. destruct b; cbn; [by rewrite Hb, E by done|]. by rewrite failure_not_favourable.
Qed.

Lemma cardinality_within profile evidence role before after : bounds_widened before after = false ->
  favourable (pd_verdict (evaluate_cardinality profile evidence current role after)) = true ->
  evaluate_cardinality profile evidence previous role before = evaluate_cardinality profile evidence current role after.
Proof using Hsame.
  pose proof Hsame as (Et & Ek & _). unfold bounds_widened, evaluate_cardinality. rewrite Et, Ek. cbv zeta.
  destruct (cardinality_bounds before) as [lo hi], (cardinality_bounds after) as [lo' hi'].
  rewrite orb_false_iff, !Z.ltb_ge. intros [Hlo Hhi]. destruct (merge_gates _); [done|]. case_match; [done|].
  destruct (bool_decide (mc_finding_kind current ∈ [FkActualSpof; FkRiskAcceptance])) in |- *.
  - case_match; [|done]. cbn. by rewrite failure_not_favourable.
  - apply conclusion_within. rewrite !andb_true_iff, !Z.leb_le. lia.
Qed.

Lemma distribution_within evidence role before after : before <= after ->
  favourable (pd_verdict (evaluate_zone_distribution evidence current role after)) = true ->
  evaluate_zone_distribution evidence previous role before = evaluate_zone_distribution evidence current role after.
Proof using Hsame.
  unfold evaluate_zone_distribution. cbv zeta. intros Hle. destruct (merge_gates _); [done|]. case_match; [done|].
  apply conclusion_within. rewrite !Z.leb_le. lia.
Qed.

Lemma freshness_within evidence as_of before after : after <= before ->
  favourable (pd_verdict (evaluate_freshness evidence current after as_of)) = true ->
  evaluate_freshness evidence previous before as_of = evaluate_freshness evidence current after as_of.
Proof using Hsame.
  unfold evaluate_freshness. cbv zeta. intros Hle. case_match; [done|]. case_match; [done|].
  apply conclusion_within. rewrite !Z.leb_le. lia.
Qed.

Lemma bound_role_same evidence a b : same_id a b = true -> bound_role_resources evidence a = bound_role_resources evidence b.
Proof. intros E%String.eqb_eq. unfold bound_role_resources, same_id. by rewrite E. Qed.

Lemma operational_within evidence before after : operational_states_changed before after = false ->
  osp_minimum_healthy before <= osp_minimum_healthy after ->
  favourable (pd_verdict (evaluate_role_operational_state evidence current after)) = true ->
  evaluate_role_operational_state evidence previous before = evaluate_role_operational_state evidence current after.
Proof using Hsame.
  unfold operational_states_changed. rewrite !orb_false_iff, !negb_false_iff, !andb_true_iff, !bool_decide_eq_true.
  intros [[Hr [Hh Hh']] [Hf Hf']] Hle.
  assert (Ext : forall (l k : list ResourceState) s, l ⊆ k -> k ⊆ l -> bool_decide (s ∈ l) = bool_decide (s ∈ k)).
  { intros l k s Hl Hk. apply bool_decide_ext. split; [apply Hl|apply Hk]. }
  pose proof (fun s => Ext _ _ s Hh Hh') as Eh. pose proof (fun s => Ext _ _ s Hf Hf') as Ef. clear Ext Hh Hh' Hf Hf'.
  unfold evaluate_role_operational_state. rewrite (bound_role_same evidence _ _ Hr). cbv zeta.
  set (states := rf_operational_state <$> _). destruct (merge_gates _); [done|].
  rewrite (existsb_ext_elem
    (fun s => bool_decide (s = RsUnknown) ||
       negb (bool_decide (s ∈ osp_healthy_states before) || bool_decide (s ∈ osp_failure_states before)))
    (fun s => bool_decide (s = RsUnknown) ||
       negb (bool_decide (s ∈ osp_healthy_states after) || bool_decide (s ∈ osp_failure_states after))) states states)
    by (done || (intros s _; by rewrite Eh, Ef)).
  rewrite (existsb_ext_elem (fun s => bool_decide (s ∈ osp_failure_states before)) _ states states (fun _ => iff_refl _)
    (fun s _ => Ef s)).
  unfold select. rewrite (List.filter_ext _ _ Eh). case_match; [done|].
  destruct (Z.ltb_spec (Z.of_nat (length (List.filter (fun s => bool_decide (s ∈ osp_healthy_states after)) states)))
    (osp_minimum_healthy after)); [cbn; by rewrite failure_not_favourable|].
  rewrite (proj2 (Z.ltb_ge _ _)) by lia. destruct Hsame as (_ & _ & E). by rewrite E.
Qed.

(** A proof that is the same, up to what its evaluation reads *)
Lemma same_proof_within profile evidence as_of d : mc_proof_requirement previous = mc_proof_requirement current ->
  evaluate_proof profile evidence current as_of = Ok d -> favourable (pd_verdict d) = true ->
  evaluate_proof profile evidence previous as_of = Ok d.
Proof using Hsame.
  pose proof Hsame as (Et & Ek & Es). unfold evaluate_proof. intros ->.
  destruct (mc_proof_requirement current) as [role ex|subject anchor|role n|o|ref|n|ref h|ref cmp t]; 
    [intros [= <-] Hf; f_equal|intros [= <-] Hf; f_equal|intros [= <-] Hf; f_equal|intros [= <-] Hf; f_equal|idtac|intros [= <-] Hf; f_equal|intros [= <-] Hf; f_equal|intros [= <-] Hf; f_equal].
  - apply cardinality_within; [|done]. unfold bounds_widened. destruct (cardinality_bounds ex). by rewrite !Z.ltb_irrefl.
  - revert Hf. unfold evaluate_zone_colocation. cbv zeta. destruct (merge_gates _); [done|]. case_match; [done|].
    by apply conclusion_within.
  - by apply distribution_within.
  - apply operational_within; [|done|done]. unfold operational_states_changed, same_id.
    by rewrite String.eqb_refl, !bool_decide_eq_true_2.
  - unfold evaluate_relationship. intros (gate & Hg & Hd)%bind_Ok Hf. rewrite Hg. cbn [mbind result_bind]. revert Hd.
    destruct gate as [gate refs]. case_match; [done|]. destruct gate; [done|].
    destruct (sort_by _ _) as [|fact [|]]; [done| |done]. case_match; [done|]. rewrite Et. cbv zeta.
    intros [= <-]. f_equal. revert Hf.
    destruct (bool_decide (mc_constraint_type current = CtDependencyProhibited)); [|by apply conclusion_within].
    destruct (bool_decide (lf_presence fact = PrPresent)); [cbn; by rewrite failure_not_favourable|by rewrite Es].
  - by apply freshness_within.
  - revert Hf. unfold evaluate_control. cbv zeta. case_match; [done|]. destruct (select _ _) as [|fact [|]]; [done| |done].
    case_match; [done|]. by apply conclusion_within.
  - revert Hf. unfold evaluate_objective. cbv zeta. case_match; [done|]. destruct (select _ _) as [|fact [|]]; [done| |done].
    case_match; [done|]. case_match; [done|]. by apply conclusion_within.
Qed.
End force.

(** ** The checks of a profile *)
Section checks.
Context `{PyText} `{!CanonicalJson EvidenceReference}.
Implicit Types (child : ManifestProfile) (as_of : Z) (previous current : ManifestConstraint) (ref : string).

(** No override of the profile targets [ref]. *)
Definition ungoverned child ref : Prop := forall o, o ∈ mp_weakening_overrides child -> same_id (wo_target_ref o) ref = false.

Definition valid_threshold (c : ManifestConstraint) : bool :=
  match mc_proof_requirement c with ObjectiveThresholdProof _ _ x => binary64 x | _ => true end.

Lemma ungoverned_override child as_of path ref reason : ungoverned child ref -> find_override child as_of path ref reason <> Ok tt.
Proof.
  unfold find_override, ungoverned. intros Hu Hf%guard_or_Ok. revert Hu Hf.
  induction (mp_weakening_overrides child) as [|o l IH]; intros Hu; [done|]. unfold select in *. cbn [List.filter].
  assert (Ho : authorizes_override o as_of (mp_profile_id child) path ref reason = false).
  { apply not_true_is_false. intros Ho. unfold authorizes_override in Ho. inv_ok. specialize (Hu o ltac:(left)).
    unfold same_id in Hu. congruence. }
  rewrite Ho. apply IH. intros o' Hin. apply Hu. by right.
Qed.

(** A relaxation that needs an override did not happen. *)
Lemma ungoverned_when child as_of b path ref reason u : ungoverned child ref ->
  when b (find_override child as_of path ref reason) = Ok u -> b = false.
Proof. intros Hu. destruct b, u; [|done]. cbn. intros Hf. by apply (ungoverned_override child as_of path ref reason) in Hu. Qed.

Lemma constraint_type_text_inj a b : constraint_type_text a = constraint_type_text b -> a = b.
Proof. by destruct a, b. Qed.
Lemma control_health_text_inj a b : control_health_text a = control_health_text b -> a = b.
Proof. by destruct a, b. Qed.
Lemma comparison_text_inj a b : comparison_text a = comparison_text b -> a = b.
Proof. by destruct a, b. Qed.

(** Proofs whose dumps agree, up to the sign of a zero threshold *)
Lemma proof_dumps_agree p q : proof_kind p = proof_kind q -> dumps_differ (proof_json p) (proof_json q) = false ->
  match p, q with
  | ZoneColocationProof _ _, _ | RelationshipPresenceProof _, _ | ControlHealthProof _ _, _ => p = q
  | ObjectiveThresholdProof ref c x, ObjectiveThresholdProof ref' c' y =>
      ref = ref' /\ c = c' /\ py_eq (JFloat x) (JFloat y) = true
  | _, _ => True
  end.
Proof.
  unfold dumps_differ. rewrite negb_false_iff. destruct p, q; try done; intros _ Hd; unfold proof_json in Hd; cbn [app] in Hd.
  - by inv_dump.
  - by inv_dump.
  - inv_dump. f_equal. by apply control_health_text_inj.
  - rewrite py_eq_JObj in Hd. cbn -[py_eq] in Hd. rewrite !andb_true_iff in Hd. destruct Hd as (_ & _ & Hr & Hc & Hx & _).
    apply py_eq_JStr in Hr, Hc. by apply comparison_text_inj in Hc as ->.
Qed.

(** The verdicts of an ungoverned constraint *)
Lemma check_verdicts child as_of previous current u : ungoverned child (mc_constraint_id current) ->
  check_verdict_weakening child as_of previous current = Ok u -> mc_success_verdict previous = mc_success_verdict current.
Proof.
  intros Hu. unfold check_verdict_weakening, constraint_override. intros Hv. inv_ok.
  rename select (when _ _ = Ok u) into Hs. apply ungoverned_when in Hs; [|done].
  by apply negb_false_iff, bool_decide_eq_true in Hs.
Qed.

Lemma check_proofs child as_of previous current u profile evidence t d :
  ungoverned child (mc_constraint_id current) -> same_semantics previous current ->
  proof_kind (mc_proof_requirement previous) = proof_kind (mc_proof_requirement current) ->
  valid_threshold previous = true -> valid_threshold current = true ->
  check_proof_weakening child as_of current (mc_proof_requirement previous) (mc_proof_requirement current) = Ok u ->
  evaluate_proof profile evidence current t = Ok d -> favourable (pd_verdict d) = true ->
  evaluate_proof profile evidence previous t = Ok d.
Proof.
  intros Hu Hs Hk Hp Hc Hw. pose proof (same_proof_within previous current Hs profile evidence t d) as Hsame.
  unfold valid_threshold in Hp, Hc. unfold evaluate_proof in *.
  unfold check_proof_weakening, zone_override, constraint_override, check_operational_weakening in Hw.
  destruct (mc_proof_requirement previous) as [role ex|sub anc|role n|o|ref|n|ref h|ref cmp x] eqn:Ep,
    (mc_proof_requirement current) as [role' ex'|sub' anc'|role' n'|o'|ref'|n'|ref' h'|ref' cmp' x'] eqn:Ec; try discriminate Hk;
    clear Hk; inv_ok.
  all: repeat match goal with
    | E : String.eqb _ _ = true |- _ => apply String.eqb_eq in E; subst
    | E : when _ _ = Ok _ |- _ => apply ungoverned_when in E; [|done]
    | E : raise_if _ _ = Ok _ |- _ => apply raise_if_Ok in E
    end.
  - intros [= <-] Hf. f_equal. by apply cardinality_within.
  - match goal with E : dumps_differ _ _ = false |- _ => apply proof_dumps_agree in E as [= -> ->]; [|done] end. by apply Hsame.
  - intros [= <-] Hf. f_equal. apply distribution_within; [done| |done]. by apply Z.ltb_ge.
  - intros [= <-] Hf. f_equal. apply operational_within; [done|done| |done]. by apply Z.ltb_ge.
  - match goal with E : dumps_differ _ _ = false |- _ => apply proof_dumps_agree in E as [= ->]; [|done] end. by apply Hsame.
  - intros [= <-] Hf. f_equal. apply freshness_within; [done| |done]. by apply Z.ltb_ge.
  - match goal with E : dumps_differ _ _ = false |- _ => apply proof_dumps_agree in E as [= -> ->]; [|done] end. by apply Hsame.
  - match goal with E : dumps_differ _ _ = false |- _ => apply proof_dumps_agree in E as (-> & -> & E); [|done] end.
    match goal with E : py_eq _ _ = true |- _ => destruct (py_eq_float _ _ Hp Hc E) as [Hfin Hcmp] end.
    revert Hsame. clear -Hs Hfin Hcmp. intros _. intros [= <-] Hf. f_equal. revert Hf. unfold evaluate_objective. cbv zeta.
    case_match; [done|]. destruct (select _ _) as [|fact [|]]; [done| |done]. case_match; [done|]. rewrite Hfin, Hcmp.
    case_match; [done|]. by apply conclusion_within.
Qed.

(** A declared constraint the checks accept without an override *)
Lemma checked_entails child as_of inherited previous current u v :
  find_by mc_constraint_id inherited (mc_constraint_id current) = Some previous ->
  constraint_variant previous = constraint_variant current ->
  check_protected_override child as_of inherited current = Ok u ->
  check_constraint_weakening child as_of inherited current = Ok v -> ungoverned child (mc_constraint_id current) ->
  valid_threshold previous = true -> valid_threshold current = true -> entails current previous.
Proof.
  unfold check_protected_override, check_constraint_weakening. intros -> Hvar Hk Hw Hu Hp Hc.
  injection Hvar as Ht%constraint_type_text_inj Hkind.
  apply bind_Ok in Hk as (? & Hk%guard_or_Ok%bool_decide_eq_true & _). apply bind_Ok in Hw as (? & Hv & Hw).
  apply check_verdicts in Hv; [|done]. intros profile evidence t d Hd Hf.
  eapply check_proofs; [exact Hu|by split_and!|done|done|done|exact Hw|done|done].
Qed.
End checks.

(** * The constraints of a resolved profile

    Over a lineage, a constraint no override targets stays and keeps its force;
    the canonical protected constraints are there in every resolved profile. *)

Section constraints.
Context `{PyText} `{PyStr}.
Implicit Types (child : ManifestProfile) (ref : string).

Lemma ungoverned_same child a b : same_id a b = true -> ungoverned child a -> ungoverned child b.
Proof.
  intros E%String.eqb_eq Hu o Ho. specialize (Hu o Ho). unfold same_id in *. by rewrite <- E.
Qed.

(** Disabling takes an override that names the disabled item. *)
Lemma ungoverned_disables child as_of c c' ref kind : apply_disabled_refs child as_of c = Ok c' -> ungoverned child ref ->
  disables child kind ref = false.
Proof.
  intros Ha Hu. apply not_true_is_false. intros (d & Hd & [_ Hs]%andb_true_iff)%existsb_elem.
  destruct (foldR_elem _ _ _ _ _ Ha Hd) as (c1 & c2 & H1). unfold apply_disabled_ref in H1.
  apply bind_Ok in H1 as (? & _ & H1). apply bind_Ok in H1 as (? & Ho%guard_or_Ok & _).
  destruct (named_override child (dm_governance_override_ref d)) as [o|] eqn:En; [|done].
  assert (Hin : o ∈ mp_weakening_overrides child).
  { unfold named_override in En. destruct (select _ _) as [|o' l] eqn:Es; [done|]. injection En as ->.
    assert (Hin : o ∈ o :: l) by left. rewrite <- Es in Hin. by apply elem_of_select in Hin as [? _]. }
  unfold authorizes_override in Ho. inv_ok. specialize (Hu o Hin). unfold same_id in *.
  repeat match goal with E : String.eqb _ _ = true |- _ => apply String.eqb_eq in E end.
  apply String.eqb_neq in Hu. congruence.
Qed.

Lemma override_constraint_Ok p i y : override_constraint p i = Ok y -> y = i /\ constraint_variant p = constraint_variant i.
Proof.
  unfold override_constraint. intros Ho. inv_ok. subst y. split; [done|].
  by rename select (same_variant _ _ _ = _) into Hs; apply same_variant_Ok in Hs as [_ ?].
Qed.

Lemma override_constraint_id p i y : override_constraint p i = Ok y -> mc_constraint_id y = mc_constraint_id i.
Proof. by intros [-> _]%override_constraint_Ok. Qed.

Lemma inherit_constraints permits as_of parent inherited profile c :
  inherit permits as_of parent inherited profile = Ok c ->
  exists merged, merge_constraints (co_constraints inherited) (mp_constraints profile) = Ok (co_constraints merged) /\
    validate_protected_constraint_overrides profile as_of (co_constraints inherited) (co_constraints merged) = Ok tt /\
    validate_constraint_requirement_weakening profile as_of (co_constraints inherited) (co_constraints merged) = Ok tt /\
    apply_disabled_refs profile as_of merged = Ok c.
Proof.
  unfold inherit. intros (merged & Hm & Hi)%bind_Ok. exists merged. unfold merge_profile in Hm. inv_ok. subst merged. cbn in *.
  repeat match goal with u : unit |- _ => destruct u end. by split_and!.
Qed.

#[local] Instance variant_preorder : PreOrder (fun p y => constraint_variant p = constraint_variant y).
Proof. split; [done|]. by intros x y z -> . Qed.

(** What the collections of a profile satisfy on the way through a lineage *)
Record constraints_hold (g : ManifestConstraint) `{!CanonicalJson EvidenceReference} (constraints : list ManifestConstraint)
    : Prop := {
  ch_valid : Forall (fun c => valid_threshold c = true) constraints;
  ch_unique : NoDup ((fun c => normalized_id (mc_constraint_id c)) <$> constraints);
  ch_force : exists c, find_by mc_constraint_id constraints (mc_constraint_id g) = Some c /\ entails c g;
}.

Lemma inherit_constraints_hold `{!CanonicalJson EvidenceReference} permits as_of parent inherited profile c g :
  constraints_hold g (co_constraints inherited) -> Forall (fun k => valid_threshold k = true) (mp_constraints profile) ->
  ungoverned profile (mc_constraint_id g) -> inherit permits as_of parent inherited profile = Ok c ->
  constraints_hold g (co_constraints c).
Proof.
  intros [Hv Hn (prev & Hprev & He)] Hd Hu (merged & Hm & Hk & Hw & Ha)%inherit_constraints.
  assert (Hvalid : Forall (fun k => valid_threshold k = true) (co_constraints merged)).
  { eapply merge_keyed_Forall; [apply override_constraint_id|exact Hv|exact Hd| |exact Hm].
    by intros ? i ? _ ? [-> _]%override_constraint_Ok. }
  split.
  - by eapply disabled_constraints_Forall.
  - eapply (apply_disabled_refs_invariant profile as_of
      (fun c1 => NoDup ((fun k => normalized_id (mc_constraint_id k)) <$> co_constraints c1))); [| |exact Ha].
    + eapply merge_keyed_unique; [apply override_constraint_id|exact Hm].
    + intros c1 d c2 H1 _ _ [->|[_ ->%drop_ref_Ok]]%drop_from_constraints; [done|]. by apply NoDup_fmap_select.
  - assert (Hex : exists y, find_by mc_constraint_id (co_constraints merged) (mc_constraint_id g) = Some y /\
              constraint_variant prev = constraint_variant y).
    { eapply (merge_keyed_related mc_constraint_id override_constraint override_constraint_id
        (fun p y => constraint_variant p = constraint_variant y)); [|exact Hm|exact Hprev].
      by intros ??? [-> ?]%override_constraint_Ok. }
    destruct Hex as (y & Hy & Hvar). exists y. split.
    { rewrite (disabled_constraint_kept _ _ _ _ _ Ha); [done|]. by eapply ungoverned_disables. }
    pose proof (find_by_Some _ _ _ _ Hy) as [Hin Hid]. trans prev; [|done].
    unfold validate_protected_constraint_overrides, validate_constraint_requirement_weakening, each in Hk, Hw.
    apply bind_Ok in Hk as (us & Hk & _), Hw as (vs & Hw & _).
    apply (mapR_unit_elem _ _ _ y) in Hk; [|done]. apply (mapR_unit_elem _ _ _ y) in Hw; [|done].
    rewrite Forall_forall in Hv, Hvalid.
    eapply checked_entails; [|exact Hvar|exact Hk|exact Hw| |by apply Hv, (find_by_Some _ _ _ _ Hprev)|by apply Hvalid].
    + by rewrite (find_by_same _ _ _ _ Hid).
    + eapply ungoverned_same; [|exact Hu]. unfold same_id in *. by rewrite String.eqb_sym.
Qed.
End constraints.

(** ** The constraints of a resolved profile *)
Section resolved_constraints.
Context `{PyTextAscii} `{PyStr} `{Rfc8785} `{ManifestSetDump} `{!CanonicalJson EvidenceReference}.
Implicit Types (m : CanonicalWorkloadManifest) (capability : selector_capability).

(** C11: without a governed override that targets it, a manifest constraint that the
    resolved profile still carries is no weaker there, however long the lineage: every
    evaluation that satisfies the constraint of the resolved profile satisfies the one
    the manifest states, with the same verdict and references. (A profile of the
    lineage may drop the constraint for its descendants:
    [ResolutionGaps.ancestor_drops_applicability].) *)
Theorem ungoverned_constraints_keep_force m capability pid as_of p lineage g c profile evidence t d :
  NoDup ((fun k => normalized_id (mc_constraint_id k)) <$> wm_constraints m) ->
  Forall (fun k => valid_threshold k = true) (wm_constraints m) ->
  Forall (fun q => Forall (fun k => valid_threshold k = true) (mp_constraints q)) lineage ->
  resolve_one_profile m pid as_of capability = Ok p -> profile_lineage m pid = Ok lineage ->
  g ∈ wm_constraints m -> Forall (fun q => ungoverned q (mc_constraint_id g)) lineage ->
  c ∈ rp_constraints p -> same_id (mc_constraint_id c) (mc_constraint_id g) = true ->
  evaluate_proof profile evidence c t = Ok d -> favourable (pd_verdict d) = true ->
  evaluate_proof profile evidence g t = Ok d.
Proof.
  rewrite !(Forall_forall _ lineage). intros Hn Hv Hq (lineage' & st & Hl' & Hr & Hp)%resolve_one_profile_lineage Hl Hg Hu Hc Hid.
  same_ok. destruct (resolve_lineage_invariant (fun c => constraints_hold g (co_constraints c)) m capability as_of lineage st)
    as [_ Hn' (c' & Hf & He)]; [| |exact Hr|].
  - split; [done|done|]. exists g. split; [|done]. by apply (find_by_unique mc_constraint_id).
  - intros parent k k' q Hk Hin Hi. eapply inherit_constraints_hold; [exact Hk|by apply Hq|by apply Hu|exact Hi].
  - destruct (resolve_lineage_resolved _ _ _ _ _ _ Hr Hp) as (q & chain & artifact & semantic & _ & ->).
    apply elem_of_select in Hc as [Hc _]. rewrite (find_by_same _ _ _ _ Hid) in Hf || rewrite <- (find_by_same _ _ _ _ Hid) in Hf.
    rewrite (find_by_unique mc_constraint_id) in Hf; [|done|done]. injection Hf as <-. by apply He.
Qed.

Lemma resolved_profile_validated m capability pid as_of p : resolve_one_profile m pid as_of capability = Ok p ->
  validate_canonical_protected_constraints p = Ok tt /\ NoDup (mc_constraint_id <$> rp_constraints p).
Proof.
  unfold resolve_one_profile. intros Hr. inv_ok. destruct (rs_parent _); [|done]. inv_ok. subst.
  rename select (validate_resolved_manifest_profile _ _ _ = _) into Hv. unfold validate_resolved_manifest_profile in Hv.
  inv_ok. repeat match goal with u : unit |- _ => destruct u end. split; [done|].
  rename select (validate_keyed_collections _ _ _ _ _ _ _ = _) into Hk. unfold validate_keyed_collections in Hk. inv_ok.
  match goal with E : require_unique_text (mc_constraint_id <$> _) _ = _ |- _ => apply require_unique_text_NoDup in E; by eapply NoDup_fmap_1 end.
Qed.

(** At most 1,000 references are never cut. *)
Lemma few_references rs : (length rs <= 1000)%nat -> (ordered_bounded_references rs).2 = false.
Proof.
  intros Hl. unfold ordered_bounded_references. cbn [snd]. apply Z.ltb_ge.
  pose proof (size_dict_by canonical_json rs) as Hs.
  assert (He : length (sorted_values (dict_by canonical_json rs)) = size (dict_by canonical_json rs)).
  { rewrite <- (length_fmap canonical_json), dict_by_values_keys. unfold sorted_keys, sort_strings.
    rewrite (Permutation_length (sort_by_perm _ _)). exact (size_dom _). }
  lia.
Qed.

(** A violation is reported as such, or accepted by an active acceptance. *)
Lemma violation_reported p evidence c t d0 d : evaluate_proof p evidence c t = Ok d0 -> pd_verdict d0 = VViolation ->
  (length (pd_evidence_refs d0) <= 1000)%nat -> evaluate_constraint p evidence c t = Ok d ->
  pd_verdict d = VViolation \/
  pd_verdict d = VAcceptedResidualRisk /\ exists a, a ∈ rp_risk_acceptances p /\
    pd_risk_acceptance_ref d = Some (ra_risk_acceptance_id a) /\ ra_status a = AsApproved /\ ra_accepted_at a <= t < ra_expires_at a.
Proof.
  intros Hd0 Hv Hl%few_references (d1 & refs & over & v & acceptance & E & Hr & -> & Ha & ->)%evaluate_constraint_Ok.
  rewrite Hd0 in E. injection E as <-. rewrite Hr in Hl. cbn in Hl. subst over. cbn [andb pd_verdict pd_risk_acceptance_ref] in *.
  destruct acceptance as [a|]; [right|by left]. split; [done|].
  destruct (acceptance_eligible _ _); [|done]. apply matching_acceptance_sound in Ha as (Ha & Hact & _).
  exists a. unfold is_active in Hact. inv_ok.
  repeat match goal with E : bool_decide _ = true |- _ => apply bool_decide_eq_true in E end. split_and!; try done; lia.
Qed.

(** The canonical protected constraint of an id *)
Lemma canonical_present p id expected : validate_canonical_protected_constraints p = Ok tt -> (id, expected) ∈ expected_semantics ->
  exists c, c ∈ rp_constraints p /\ normalized_id (mc_constraint_id c) = id /\ canonical_constraint id expected c = true.
Proof.
  unfold validate_canonical_protected_constraints. intros Hv Hin. apply bind_Ok in Hv as (? & Hall%guard_or_Ok & Hv).
  rewrite forallb_elem in Hall. specialize (Hall _ Hin). apply bool_decide_eq_true, elem_of_normalized_set in Hall as (v & Hv' & E).
  apply list_elem_of_fmap in Hv' as (c & -> & Hc). cbn in E. exists c. split_and!; [done|done|].
  apply bind_Ok in Hv as (us & Hv & _). apply (mapR_unit_elem _ _ _ c) in Hv; [|done]. cbv beta in Hv. rewrite <- E in Hv.
  assert (Ha : assoc id expected_semantics = Some expected).
  { revert Hin. clear. unfold expected_semantics. rewrite !elem_of_cons. intros [[= -> ->]|[[= -> ->]|[[= -> ->]|[[= -> ->]|[[= -> ->]|?%elem_of_nil]]]]]; done. }
  rewrite Ha in Hv. by apply guard_or_Ok in Hv.
Qed.

(** C12: no resolution hides a single point of failure. Every resolved profile carries
    the protected constraint on the zone loss of the database; where the profile
    requires zone loss continuity and complete evidence shows a single database in a
    single zone, the evaluation of the profile reports a violation under that clause,
    or the residual risk as accepted, citing an approved acceptance of the profile that
    is active at that instant. *)
Theorem single_database_is_reported m capability pid as_of p evidence t findings :
  resolve_one_profile m pid as_of capability = Ok p ->
  rp_zone_loss_continuity_required p = true ->
  let database := bound_role_resources evidence "database-primary" in
  merge_gates [br_gate database; resource_gate (br_resources database)] = None ->
  has_unknown_zone (br_resources database) = false ->
  length (br_resources database) = 1%nat -> size (zones (br_resources database)) = 1%nat ->
  (length (references_for_resources [br_resources database]) <= 1000)%nat ->
  evaluate_verified_profile p evidence t = Ok findings ->
  exists id f, normalized_id id = "db-zone-loss-spof" /\ findings !! id = Some f /\
    (mf_verdict f = VViolation \/
     mf_verdict f = VAcceptedResidualRisk /\ exists a, a ∈ rp_risk_acceptances p /\
       mf_risk_acceptance_ref f = Some (ra_risk_acceptance_id a) /\ ra_status a = AsApproved /\ ra_accepted_at a <= t < ra_expires_at a).
Proof.
  intros [Hr Hn]%resolved_profile_validated Hreq database Hgate Hzone Hlen Hsize Hrefs Hf.
  destruct (canonical_present p "db-zone-loss-spof" (CtSupportedSingleton, FkActualSpof, SvObservation) Hr) as (c & Hc & Hid & Hcan);
    [apply list_elem_of_In; cbn; auto|].
  destruct (verified_profile_findings p evidence t findings Hf Hn) as [_ Hall]. destruct (Hall c Hc) as (d & Hd & Hfind & _).
  exists (mc_constraint_id c), (finding_of p c d). split; [done|]. split; [done|]. cbn [finding_of mf_verdict mf_risk_acceptance_ref].
  unfold canonical_constraint in Hcan. inv_ok. repeat match goal with E : bool_decide _ = true |- _ => apply bool_decide_eq_true in E end.
  rename select (canonical_proof _ _ = true) into Hproof. cbn in Hproof.
  destruct (mc_proof_requirement c) as [role []| | | | | | |] eqn:Ep; try discriminate Hproof.
  apply String.eqb_eq in Hproof.
  assert (Hrole : bound_role_resources evidence role = database).
  { apply bound_role_same. unfold same_id. rewrite Hproof. unfold normalized_id. by rewrite nfc_of_ascii, casefold_of_ascii. }
  eapply (violation_reported p evidence c t (decide_with VViolation (references_for_resources [br_resources database]))); [|done|done|exact Hd].
  unfold evaluate_proof. rewrite Ep. f_equal. unfold evaluate_cardinality. cbv zeta.
  rewrite Hrole, Hgate, Hzone, Hlen, Hsize, Hreq, andb_false_r. repeat match goal with E : mc_finding_kind c = _ |- _ => rewrite E end. done.
Qed.
End resolved_constraints.
