(* ===== verification/ResolutionDemo.v ===== *)
(** * ResolutionDemo: a manifest with a narrowing profile

    A three tier workload: [development] is the root profile and [production]
    extends it, narrowing the selector of the web role and asking for a third
    zone. The theorems on selectors and on resolution are applied to it. *)
From stdpp Require Import pretty.
From S2P Require Import Prelude Text Json Concrete PolicyProps Demo.
From S2P Require Import SelectorProps ResolutionProps ConstraintProps.
From Stdlib Require Import Ascii.
Local Open Scope Z_scope.

Module ResolutionDemo.
#[export] Existing Instance ascii_text.
#[export] Existing Instance PolicyProps.Demo.demo_json.
(** A short text for a JSON value *)
#[export] Instance short_json : Rfc8785 | 0 := fun v => pretty (LifecycleDemo.mix_json 0 v).
#[export] Instance short_str : PyStr := fun v => pretty (LifecycleDemo.mix_json 1 v).
#[export] Instance selector_dump : ModelDump ManifestSelector := selector_json.

Definition group : string := "/subscriptions/00000000-0000-0000-0000-000000000001/resourceGroups/shop/providers/Microsoft.Compute/virtualMachines/".

(** ** Roles *)
Definition ids (selector : string) (names : list string) : ManifestSelector :=
  Atomic (ResourceIdListSelector selector ((fun n => group +:+ n) <$> names) 5).
Definition role (id : string) (cardinality : ManifestCardinality) (selectors : list ManifestSelector) : ManifestRole := {|
  mr_role_id := id; mr_kind := "compute"; mr_cardinality := cardinality; mr_selectors := selectors;
  mr_owner_ref := "ops"; mr_status := RoleApproved |}.

Definition web := role "web" OneOrMoreCardinality [ids "web-ids" ["web-1"; "web-2"; "web-3"]].
Definition web_in_production := role "web" OneOrMoreCardinality [ids "web-ids" ["web-1"; "WEB-2"]].
Definition database := role "database-primary" ExactlyOneCardinality [ids "db-ids" ["db"]].
Definition worker := role "worker" OneOrMoreCardinality [ids "worker-ids" ["worker-1"]].

(** ** The canonical protected constraints *)
Definition constraint (id : string) (t : ConstraintType) (kind : ManifestFindingKind) (success : SuccessVerdict)
    (proof : ManifestProof) : ManifestConstraint := {|
  mc_constraint_id := id; mc_constraint_type := t; mc_finding_kind := kind;
  mc_governance_scope := {| cs_manifest_id := "shop"; cs_profile_id := "production";
    cs_clause_path := "/constraints/" +:+ id; cs_owner_ref := "ops" |};
  mc_owner_ref := "ops"; mc_profiles := ["production"]; mc_proof_requirement := proof; mc_failure_verdict := FvViolation;
  mc_success_verdict := success; mc_risk_acceptance_ref := None; mc_risk_acceptance_clause_ref := None;
  mc_protected := true |}.

Definition singleton := constraint "db-singleton-supported" CtSupportedSingleton FkTechnologyConstraint SvExpectedConstraint
  (CardinalityProof "database-primary" ExactlyOneCardinality).
Definition zone_loss := constraint "db-zone-loss-spof" CtSupportedSingleton FkActualSpof SvObservation
  (CardinalityProof "database-primary" ExactlyOneCardinality).
Definition zone_acceptance := constraint "db-zone-loss-acceptance" CtSupportedSingleton FkRiskAcceptance SvObservation
  (CardinalityProof "database-primary" ExactlyOneCardinality).
Definition colocation := constraint "worker-db-zone-colocation" CtZoneColocation FkArchitectureConstraint SvPass
  (ZoneColocationProof "worker" "database-primary").
Definition web_zones (zones : Z) := constraint "web-zone-distribution" CtZoneDistribution FkArchitectureConstraint SvPass
  (ZoneDistributionProof "web" zones).

(** ** The manifest *)
Definition profile (id : string) (parent : option string) (roles : list ManifestRole) (constraints : list ManifestConstraint)
    : ManifestProfile := {|
  mp_profile_id := id; mp_profile_type := id; mp_extends := parent;
  mp_settings := {| st_continuity := {| cn_zone_loss_continuity_required := true |} |}; mp_roles := roles;
  mp_relationships := []; mp_constraints := constraints; mp_controls := []; mp_risk_acceptances := [];
  mp_objectives := []; mp_ownership := []; mp_weakening_overrides := []; mp_disabled_refs := [] |}.

Definition development := profile "development" None [] [].
Definition production := profile "production" (Some "Development") [web_in_production] [web_zones 3].

Definition manifest (artifact semantic : string) : CanonicalWorkloadManifest := {|
  wm_manifest_id := "shop"; wm_manifest_version := "1.0.0"; wm_cloud := "AzureCloud";
  wm_workload := {| wi_display_name := "Shop"; wi_environments := ["production"];
    wi_allowed_evidence_scopes := [SubscriptionScope "t" "u"] |};
  wm_profiles := [("production", production); ("development", development); ("training", profile "training" None [] [])];
  wm_roles := [web; database; worker]; wm_relationships := [];
  wm_constraints := [singleton; zone_loss; zone_acceptance; colocation; web_zones 2];
  wm_controls := []; wm_risk_acceptances := []; wm_objectives := [];
  wm_ownership := [ {| mo_owner_ref := "ops"; mo_owner_role := "operations"; mo_authority_ref := "cto" |} ];
  wm_compatibility := {|
    cm_artifact_kind := "workloadManifest"; cm_schema_version := "1.0.0"; cm_semantic_contract_version := "1.0.0";
    cm_policy_contract_version := "1.0.0"; cm_minimum_reader_version := "1.0.0"; cm_requires_capabilities := [];
    cm_producer_id := "athena"; cm_producer_version := "1.0.0"; cm_extension_policy := "rejectUnknownDecisionFields";
    cm_artifact_digest := artifact; cm_semantic_digest := semantic |};
  wm_audit := {| ma_published_by := "athena"; ma_published_at := 0; ma_approval_status := "approved" |} |}.

(** The fields the manifest sets *)
#[export] Instance set_fields : ManifestSetDump := fun m =>
  [("manifestId", JStr (wm_manifest_id m)); ("manifestVersion", JStr (wm_manifest_version m));
   ("profiles", JObj ((fun e => (fst e, JObj [("profileId", JStr (mp_profile_id (snd e)));
      ("roles", JArr (role_json <$> mp_roles (snd e))); ("constraints", JArr (constraint_json <$> mp_constraints (snd e)))]))
      <$> wm_profiles m));
   ("roles", JArr (role_json <$> wm_roles m)); ("constraints", JArr (constraint_json <$> wm_constraints m));
   ("ownership", JArr (owner_json <$> wm_ownership m)); ("compatibility", JObj (compatibility_json (wm_compatibility m)))].

Definition digest_of (semantic : bool) : string :=
  match manifest_digest_value (manifest "" "") semantic with Ok d => d | Raise _ => "" end.
Definition artifact_digest : string := Eval vm_compute in digest_of false.
Definition semantic_digest : string := Eval vm_compute in digest_of true.
Definition shop := manifest artifact_digest semantic_digest.

Definition resolved_result := resolve_one_profile shop "Production" 100 (capability_of NoCapability).
Definition resolved : ResolvedManifestProfile :=
  Eval vm_compute in match resolved_result with Ok p => p | Raise _ => PolicyProps.Demo.profile true end.

Lemma shop_resolves : resolve_one_profile shop "Production" 100 (capability_of NoCapability) = Ok resolved.
Proof. vm_compute. reflexivity. Qed.

Lemma shop_lineage : profile_lineage shop "Production" = Ok [development; production].
Proof. vm_compute. reflexivity. Qed.


Definition sound_selector_test (s : ManifestSelector) : bool :=
  is_ok (validate_children s) && negb (bool_decide (atoms_of s = [])) && forallb valid_scale_set (atoms_of s).
Lemma sound_selector_tested s : sound_selector_test s = true -> sound_selector s.
Proof.
  unfold sound_selector_test. rewrite !andb_true_iff, negb_true_iff, bool_decide_eq_false, forallb_elem.
  intros [[([] & ?)%is_ok_spec ?] ?]. by split_and!.
Qed.

Definition sound_test (r : ManifestRole) : bool :=
  is_ok (validate_selectors r) && forallb sound_selector_test (mr_selectors r).
Lemma sound_tested l : forallb sound_test l = true -> Forall sound_role l.
Proof.
  rewrite forallb_elem, Forall_forall. intros Hl r Hr. specialize (Hl r Hr). unfold sound_test in Hl.
  rewrite andb_true_iff, forallb_elem in Hl. destruct Hl as [([] & Hv)%is_ok_spec Hs]. split; [done|].
  apply Forall_forall. intros s Hin. by apply sound_selector_tested, Hs.
Qed.

Lemma tested {A} (P : A -> Prop) (test : A -> bool) l : (forall x, test x = true -> P x) -> forallb test l = true -> Forall P l.
Proof. rewrite forallb_elem, Forall_forall. eauto. Qed.

(** ** Evidence *)
Definition machine (name : string) : ResourceEvidenceRecord := {|
  re_resource_id := group +:+ name; re_resource_type := "Microsoft.Compute/virtualMachines"; re_location := "westeurope";
  re_availability_zone := Some "1";
  re_tags := {| at_environment := None; at_workload_role := None; at_application := None; at_component := None;
                at_managed_by := None |};
  re_state := "running";
  re_provenance := {| ep_collector_attempt_id := "attempt-1"; ep_collector_identity_evidence_ref := "identity-1";
    ep_tool_name := "azure.resourceInventory.read"; ep_tool_version := "1.0.0"; ep_source_response_digest := None;
    ep_source_response_pointer := None; ep_failure_payload_digest := None; ep_failure_payload_pointer := None |};
  re_item_digest := "d"; re_collector_attempt_digest := "d"; re_collector_identity_evidence_ref := "identity-1" |}.
Definition machines := machine <$> ["web-1"; "Web-2"; "web-3"; "db"].

Definition evaluation_or (s : ManifestSelector) : SelectorEvaluation :=
  match evaluate_selector s machines with
  | Ok e => e
  | Raise _ => {| sv_selector := s; sv_status := SelNoMatches; sv_matched_resource_ids := []; sv_rejected_resource_ids := [];
                  sv_max_matches := 0; sv_max_match_violations := []; sv_selector_result_digest := "" |}
  end.
Definition web_ids := ids "web-ids" ["web-1"; "web-2"; "web-3"].
Definition web_ids_in_production := ids "web-ids" ["web-1"; "WEB-2"].
Definition web_evaluation : SelectorEvaluation := Eval vm_compute in evaluation_or web_ids.
Definition production_evaluation : SelectorEvaluation := Eval vm_compute in evaluation_or web_ids_in_production.

Lemma web_evaluated : evaluate_selector web_ids machines = Ok web_evaluation.
Proof. vm_compute. reflexivity. Qed.
Lemma production_evaluated : evaluate_selector web_ids_in_production machines = Ok production_evaluation.
Proof. vm_compute. reflexivity. Qed.

(** The production selector matches two of the three web servers. *)
Example production_matches : length (sv_matched_resource_ids production_evaluation) = 2%nat /\
  length (sv_matched_resource_ids web_evaluation) = 3%nat.
Proof. by split. Qed.


(** ** Policy evidence: one database, two web servers in two zones *)
Definition evidence := PolicyProps.Demo.context
  [PolicyProps.Demo.vm "/db" "Database-Primary" Zone1 "1"; PolicyProps.Demo.vm "/web-1" "web" Zone1 "2";
   PolicyProps.Demo.vm "/web-2" "web" Zone2 "3"; PolicyProps.Demo.vm "/web-3" "web" Zone3 "4"]
  [PolicyProps.Demo.bind_role "database-primary" ["/db"]; PolicyProps.Demo.bind_role "web" ["/web-1"; "/web-2"; "/web-3"]].
Definition web_decision : PolicyDecision :=
  Eval vm_compute in match evaluate_proof resolved evidence (web_zones 3) 100 with
                     | Ok d => d
                     | Raise _ => decide_with VUnknown []
                     end.

Definition resolved_findings : gmap string ManifestFinding :=
  match evaluate_verified_profile resolved evidence 100 with Ok findings => findings | Raise _ => ∅ end.
Lemma resolved_evaluates : evaluate_verified_profile resolved evidence 100 = Ok resolved_findings.
Proof.
  unfold resolved_findings. assert (He : is_ok (evaluate_verified_profile resolved evidence 100) = true) by (vm_compute; reflexivity).
  by destruct (evaluate_verified_profile resolved evidence 100).
Qed.
End ResolutionDemo.

Module ResolutionWitnesses.
Import ResolutionDemo.

Lemma lineage_resolves_witness : validate_manifest_ids shop = Ok tt /\
  exists up, profile_lineage shop "production" = Ok (up ++ [production]) /\ ancestry (profiles_by_id shop) production up.
Proof.
  assert (Hv : validate_manifest_ids shop = Ok tt) by (vm_compute; reflexivity).
  split; [exact Hv|]. apply (lineage_resolves shop production Hv). left.
Defined.

Lemma narrowing_sound_witness :
  sv_matched_resource_ids production_evaluation ⊆ sv_matched_resource_ids web_evaluation.
Proof.
  apply (narrowing_sound machines web_ids web_ids_in_production).
  - apply sound_selector_tested. vm_compute. reflexivity.
  - apply sound_selector_tested. vm_compute. reflexivity.
  - vm_compute. reflexivity.
  - exact web_evaluated.
  - exact production_evaluated.
Defined.


Lemma inherited_roles_only_narrow_witness :
  exists r, r ∈ rp_roles resolved /\ same_id (mr_role_id r) (mr_role_id web) = true /\
    forall resources s e x, s ∈ mr_selectors r -> evaluate_selector s resources = Ok e -> x ∈ sv_matched_resource_ids e ->
      exists s', s' ∈ mr_selectors web /\
        forall e', evaluate_selector s' resources = Ok e' -> x ∈ sv_matched_resource_ids e'.
Proof.
  apply (inherited_roles_only_narrow shop NoCapability "Production" 100 resolved [development; production] web).
  - apply sound_tested. vm_compute. reflexivity.
  - apply (tested _ (fun q => forallb sound_test (mp_roles q))); [intros q; apply sound_tested|vm_compute; reflexivity].
  - apply unique_NoDup. vm_compute. reflexivity.
  - exact shop_resolves.
  - exact shop_lineage.
  - left.
  - apply (tested _ (fun q => negb (disables q "role" (mr_role_id web)))); [intros q; apply negb_true_iff|vm_compute; reflexivity].
Defined.

Lemma ungoverned_constraints_keep_force_witness : favourable (pd_verdict web_decision) = true /\
  evaluate_proof resolved evidence (web_zones 2) 100 = Ok web_decision.
Proof.
  split; [vm_compute; reflexivity|].
  apply (ungoverned_constraints_keep_force shop (capability_of NoCapability) "Production" 100 resolved [development; production] (web_zones 2) (web_zones 3)).
  - apply unique_NoDup. vm_compute. reflexivity.
  - apply (tested _ valid_threshold); [done|vm_compute; reflexivity].
  - apply (tested _ (fun q => forallb valid_threshold (mp_constraints q))); [|vm_compute; reflexivity].
    intros q. apply (tested _ valid_threshold). done.
  - exact shop_resolves.
  - exact shop_lineage.
  - do 4 right. left.
  - repeat constructor; by intros o ?%elem_of_nil.
  - vm_compute. do 3 right. left.
  - vm_compute. reflexivity.
  - vm_compute. reflexivity.
  - vm_compute. reflexivity.
Defined.

Lemma single_database_is_reported_witness : exists id f,
  normalized_id id = "db-zone-loss-spof" /\ resolved_findings !! id = Some f /\
  (mf_verdict f = VViolation \/
   mf_verdict f = VAcceptedResidualRisk /\ exists a, a ∈ rp_risk_acceptances resolved /\
     mf_risk_acceptance_ref f = Some (ra_risk_acceptance_id a) /\ ra_status a = AsApproved /\ ra_accepted_at a <= 100 < ra_expires_at a).
Proof.
  apply (single_database_is_reported shop (capability_of NoCapability) "Production" 100 resolved evidence 100 resolved_findings).
  - exact shop_resolves.
  - vm_compute. reflexivity.
  - vm_compute. reflexivity.
  - vm_compute. reflexivity.
  - vm_compute. reflexivity.
  - vm_compute. reflexivity.
  - apply Nat.leb_le. vm_compute. reflexivity.
  - exact resolved_evaluates.
Defined.
End ResolutionWitnesses.

(** ** Two gaps of the governance of inheritance *)
Module ResolutionGaps.
Import ResolutionDemo.

Definition freshness (profiles : list string) : ManifestConstraint := {|
  mc_constraint_id := "inventory-freshness"; mc_constraint_type := CtEvidenceFreshness; mc_finding_kind := FkEvidenceGap;
  mc_governance_scope := {| cs_manifest_id := "shop"; cs_profile_id := "production";
    cs_clause_path := "/constraints/inventory-freshness"; cs_owner_ref := "ops" |};
  mc_owner_ref := "ops"; mc_profiles := profiles; mc_proof_requirement := EvidenceFreshnessProof 3600;
  mc_failure_verdict := FvUnknown; mc_success_verdict := SvPass; mc_risk_acceptance_ref := None;
  mc_risk_acceptance_clause_ref := None; mc_protected := false |}.

Definition collections (constraints : list ManifestConstraint) (owners : list ManifestOwner) : Collections := {|
  co_roles := [web]; co_relationships := []; co_constraints := constraints; co_controls := []; co_risks := [];
  co_objectives := []; co_owners := owners |}.
Definition owner (ref : string) : ManifestOwner := {| mo_owner_ref := ref; mo_owner_role := "operations"; mo_authority_ref := "cto" |}.

(** A profile may drop the applicability of an inherited constraint to its own
    descendants without an override: only its own applicability is guarded. *)
Example ancestor_drops_applicability :
  (inherited ← inherit None 100 None (collections [freshness ["development"; "production"]] [owner "ops"])
                 (profile "development" None [] [freshness ["development"]]);
   inherited ← inherit None 100 None inherited (profile "production" (Some "development") [] []);
   Ok (applies_to "production" <$> (mc_profiles <$> co_constraints inherited))) = Ok [false].
Proof. vm_compute. reflexivity. Qed.

(** An owner reference cannot be disabled: the override it needs has no target
    owner. *)
Definition disables_owner : ManifestProfile := {|
  mp_profile_id := "production"; mp_profile_type := "production"; mp_extends := None;
  mp_settings := {| st_continuity := {| cn_zone_loss_continuity_required := true |} |}; mp_roles := [];
  mp_relationships := []; mp_constraints := []; mp_controls := []; mp_risk_acceptances := []; mp_objectives := [];
  mp_ownership := [];
  mp_weakening_overrides := [ {| wo_override_id := "retire-spare"; wo_reason := "disableInheritedItem";
    wo_target_path := "/resolvedProfiles/production/owner/spare"; wo_target_ref := "spare"; wo_owner_ref := "ops";
    wo_rationale := "retired"; wo_approved_by := "cto"; wo_status := AsApproved; wo_accepted_at := 0; wo_expires_at := 1000;
    wo_profiles := ["production"] |} ];
  mp_disabled_refs := [ {| dm_target_kind := "owner"; dm_target_ref := "spare"; dm_governance_override_ref := "retire-spare" |} ] |}.

Example owner_cannot_be_disabled :
  inherit None 100 None (collections [] [owner "ops"; owner "spare"]) disables_owner =
  Raise (AthenaValidationError "unresolved governed override targetRef").
Proof. vm_compute. reflexivity. Qed.
(** The narrowing test compares the ids of scale sets as folded texts, which equates
    a long s with an s; the evaluation parses them and matches nothing by an id with
    a long s. An override that corrects one is accepted as narrower and matches more. *)
Fixpoint fold_long_s (s : string) : string :=
  match s with
  | String c ((String d t) as rest) =>
      if Ascii.eqb c (ascii_of_nat 197) && Ascii.eqb d (ascii_of_nat 191) then String "s" (fold_long_s t)
      else String c (fold_long_s rest)
  | _ => s
  end.
Definition long_s_text : PyText :=
  {| nfc s := s; casefold s := fold_long_s (map_string ascii_lower s); lower := map_string ascii_lower;
     strip := strip_by ascii_space; split_ws := split_runs ascii_space |}.
Definition long_s : string := String (ascii_of_nat 197) (String (ascii_of_nat 191) EmptyString).

Definition scale_set (name : string) : ManifestSelector := Atomic (VmssSelector "web-set"
  ("/subscriptions/00000000-0000-0000-0000-000000000001/resourceGroups/shop/providers/Microsoft.Compute/virtualMachineScaleSets/" +:+ name) [] 10).
Definition instance : ResourceEvidenceRecord :=
  let m := machine "0" in
  {| re_resource_id := "/subscriptions/00000000-0000-0000-0000-000000000001/resourceGroups/shop/providers/Microsoft.Compute/virtualMachineScaleSets/webset/virtualMachines/0";
     re_resource_type := re_resource_type m; re_location := re_location m; re_availability_zone := re_availability_zone m;
     re_tags := re_tags m; re_state := re_state m; re_provenance := re_provenance m; re_item_digest := re_item_digest m;
     re_collector_attempt_digest := re_collector_attempt_digest m;
     re_collector_identity_evidence_ref := re_collector_identity_evidence_ref m |}.
Definition matched (s : ManifestSelector) : nat :=
  match @evaluate_selector long_s_text _ _ s [instance] with Ok e => length (sv_matched_resource_ids e) | Raise _ => 0%nat end.

Example unparsed_scale_set_widens :
  (@selector_override_is_narrower long_s_text (scale_set ("web" +:+ long_s +:+ "et")) (scale_set "webset"),
   matched (scale_set ("web" +:+ long_s +:+ "et")), matched (scale_set "webset")) = (true, 0%nat, 1%nat).
Proof. vm_compute. reflexivity. Qed.
End ResolutionGaps.
