(* ===== verification/Snapshot.v ===== *)
(** * Snapshot: the evidence snapshot and its proofs of origin

    The models of contracts/models.py an evidence snapshot is made of: collector
    attempts, the identity evidence of the collector, the evidence records, the
    attestation of the publisher, and the trusted keys they are checked against.
    An instant is an integer, as in [Time]. The five classes of collector attempt
    share their fields but for the outcome; a field with a single literal value is
    left to the rendering unless the code reads it. *)
From S2P Require Import Prelude Text Json.
From S2P Require Export Manifest Evidence.
From Stdlib Require Import SpecFloat.
Local Open Scope Z_scope.

(** ** Collector attempts *)
Inductive AttemptType :=
  | AtSuccessResponse | AtFailedResponse | AtTimeoutNoResponse | AtAuthorizationFailure | AtToolUnavailable.

Inductive AttemptOutcome :=
  | SuccessResponse (response_digest : string) (response_received_at : Z)
  | FailedResponse (failure_code failure_status failure_digest : string) (response_received_at : Z)
  | TimeoutNoResponse (deadline_at timed_out_at : Z)
  | AuthorizationFailure (authorization_status : string) (observed_at : Z)
  | ToolUnavailable (unavailable_reason : string) (observed_at : Z).

Record CollectorAttempt := {
  ca_attempt_id : string;
  ca_attempt_started_at : Z;
  ca_tool_name : string;
  ca_tool_version : string;
  ca_request_digest : string;
  ca_outcome : AttemptOutcome;
  ca_collector_identity_evidence_ref : string;
  ca_attempt_digest : string;
}.

Definition ca_attempt_type (a : CollectorAttempt) : AttemptType :=
  match ca_outcome a with
  | SuccessResponse _ _ => AtSuccessResponse
  | FailedResponse _ _ _ _ => AtFailedResponse
  | TimeoutNoResponse _ _ => AtTimeoutNoResponse
  | AuthorizationFailure _ _ => AtAuthorizationFailure
  | ToolUnavailable _ _ => AtToolUnavailable
  end.

(** _attempt_observation_time, on a collector attempt *)
Definition attempt_observation_time (a : CollectorAttempt) : Z :=
  match ca_outcome a with
  | SuccessResponse _ t | FailedResponse _ _ _ t | TimeoutNoResponse _ t
  | AuthorizationFailure _ t | ToolUnavailable _ t => t
  end.

(** ** Identity evidence *)
Record JwtHeader := {
  jh_alg : string;
  jh_kid : string;
}.

Record VerifiedTokenClaims := {
  vt_issuer : string;
  vt_audience : string;
  vt_tenant_id : string;
  vt_managed_identity_object_id : string;
  vt_managed_identity_client_id : string;
  vt_subject : string;
  vt_jti_digest : string;
  vt_issued_at : Z;
  vt_not_before : Z;
  vt_expires_at : Z;
}.

Record TokenVerification := {
  tv_status : string;
  tv_verified_at : Z;
  tv_key_id : string;
  tv_verified_claims : VerifiedTokenClaims;
  tv_verified_claims_digest : string;
  tv_jti_digest : string;
  tv_token_verification_digest : string;
}.

Record AttemptBinding := {
  bn_attempt_id : string;
  bn_attempt_type : AttemptType;
  bn_attempt_digest : string;
  bn_tool_name : string;
  bn_tool_version : string;
  bn_request_digest : string;
  bn_response_digest : option string;
  bn_failure_digest : option string;
  bn_attempt_started_at : Z;
  bn_response_received_at : option Z;
  bn_deadline_at : option Z;
  bn_timed_out_at : option Z;
  bn_observed_at : option Z;
}.

Record IngestionDerivation := {
  id_derivation_preimage_version : string;
  id_schema_version : string;
  id_semantic_contract_version : string;
  id_policy_contract_version : string;
  id_identity_evidence_id : string;
  id_token_hash : string;
  id_token_verification_status : string;
  id_token_verification_digest : string;
  id_verified_claims_digest : string;
  id_jti_digest : string;
  id_mcp_host_id : string;
  id_mcp_host_tenant_id : string;
  id_mcp_host_managed_identity_object_id : string;
  id_mcp_host_managed_identity_client_id : string;
  id_ingestion_service_id : string;
  id_ingestion_audience : string;
  id_tool_allowlist_digest : string;
  id_derived_collector_identity_ref : string;
  id_attempt_binding : AttemptBinding;
  id_derived_at : Z;
  id_derivation_digest : string;
}.

Record IngestionSignature := {
  is_signature_algorithm : string;
  is_key_vault_key_id : string;
  is_key_name : string;
  is_key_version : string;
  is_signed_preimage_digest : string;
  is_signature : string;
  is_signed_at : Z;
  is_trust_anchor_ref : string;
}.

Record CollectorIdentityEvidence := {
  ie_identity_evidence_id : string;
  ie_token_hash : string;
  ie_jwt_header : JwtHeader;
  ie_trust_anchor_ref : string;
  ie_verified_claims : VerifiedTokenClaims;
  ie_token_verification : TokenVerification;
  ie_ingestion_derivation : IngestionDerivation;
  ie_ingestion_signature : IngestionSignature;
  ie_identity_evidence_digest : string;
}.

(** ** Evidence records *)
Inductive EvidenceRelationshipEndpoint :=
  | EvidenceRoleRef (role_id : string)
  | EvidenceResourceRef (resource_id : string)
  | EvidenceExternalRef (external_id : string).

Record ObservedRelationship := {
  ov_relationship_id : string;
  ov_kind : string;
  ov_source : EvidenceRelationshipEndpoint;
  ov_target : EvidenceRelationshipEndpoint;
  ov_evidence_item_ref : string;
  ov_observed_at : Z;
}.

Record ObservedRelationshipEvidenceRecord := {
  oe_relationship : ObservedRelationship;
  oe_provenance : EvidenceRecordProvenance;
  oe_item_digest : string;
  oe_collector_attempt_digest : string;
  oe_collector_identity_evidence_ref : string;
}.

Record MetricAggregateEvidenceRecord := {
  me_resource_id : string;
  me_metric_name : string;
  me_aggregation : string;
  me_window_start : Z;
  me_window_end : Z;
  me_value : spec_float;
  me_unit : string;
  me_provenance : EvidenceRecordProvenance;
  me_item_digest : string;
  me_collector_attempt_digest : string;
  me_collector_identity_evidence_ref : string;
}.

Record HealthEventEvidenceRecord := {
  he_evidence_scope : EvidenceScope;
  he_health_kind : string;
  he_status : string;
  he_started_at : Z;
  he_ended_at : Z;
  he_summary_code : string;
  he_provenance : EvidenceRecordProvenance;
  he_item_digest : string;
  he_collector_attempt_digest : string;
  he_collector_identity_evidence_ref : string;
}.

Record ActivitySummaryEvidenceRecord := {
  ae_evidence_scope : EvidenceScope;
  ae_operation_name : string;
  ae_status : string;
  ae_count : Z;
  ae_window_start : Z;
  ae_window_end : Z;
  ae_provenance : EvidenceRecordProvenance;
  ae_item_digest : string;
  ae_collector_attempt_digest : string;
  ae_collector_identity_evidence_ref : string;
}.

Record AdvisorRecommendationEvidenceRecord := {
  ar_resource_id : string;
  ar_category : string;
  ar_impact : string;
  ar_recommendation_code : string;
  ar_provenance : EvidenceRecordProvenance;
  ar_item_digest : string;
  ar_collector_attempt_digest : string;
  ar_collector_identity_evidence_ref : string;
}.

Record EvidenceGapRecord := {
  ge_gap_id : string;
  ge_evidence_scope : EvidenceScope;
  ge_gap_reason : string;
  ge_expected_record_type : string;
  ge_collector_attempt_id : string;
  ge_collector_attempt_digest : string;
  ge_observed_at : Z;
  ge_collector_identity_evidence_ref : string;
  ge_failure_payload_digest : option string;
  ge_failure_payload_pointer : option string;
  ge_item_digest : string;
}.

Inductive EvidenceRecord :=
  | ResourceRecord (r : ResourceEvidenceRecord)
  | ObservedRelationshipRecord (r : ObservedRelationshipEvidenceRecord)
  | MetricAggregateRecord (r : MetricAggregateEvidenceRecord)
  | HealthEventRecord (r : HealthEventEvidenceRecord)
  | ActivitySummaryRecord (r : ActivitySummaryEvidenceRecord)
  | AdvisorRecommendationRecord (r : AdvisorRecommendationEvidenceRecord)
  | GapRecord (r : EvidenceGapRecord).

(** [record.record_type] *)
Definition er_record_type (r : EvidenceRecord) : string :=
  match r with
  | ResourceRecord _ => "resource"
  | ObservedRelationshipRecord _ => "observedRelationship"
  | MetricAggregateRecord _ => "metricAggregate"
  | HealthEventRecord _ => "healthEvent"
  | ActivitySummaryRecord _ => "activitySummary"
  | AdvisorRecommendationRecord _ => "advisorRecommendation"
  | GapRecord _ => "evidenceGap"
  end.

Definition er_item_digest (r : EvidenceRecord) : string :=
  match r with
  | ResourceRecord r => re_item_digest r
  | ObservedRelationshipRecord r => oe_item_digest r
  | MetricAggregateRecord r => me_item_digest r
  | HealthEventRecord r => he_item_digest r
  | ActivitySummaryRecord r => ae_item_digest r
  | AdvisorRecommendationRecord r => ar_item_digest r
  | GapRecord r => ge_item_digest r
  end.

Definition er_collector_attempt_digest (r : EvidenceRecord) : string :=
  match r with
  | ResourceRecord r => re_collector_attempt_digest r
  | ObservedRelationshipRecord r => oe_collector_attempt_digest r
  | MetricAggregateRecord r => me_collector_attempt_digest r
  | HealthEventRecord r => he_collector_attempt_digest r
  | ActivitySummaryRecord r => ae_collector_attempt_digest r
  | AdvisorRecommendationRecord r => ar_collector_attempt_digest r
  | GapRecord r => ge_collector_attempt_digest r
  end.

Definition er_collector_identity_evidence_ref (r : EvidenceRecord) : string :=
  match r with
  | ResourceRecord r => re_collector_identity_evidence_ref r
  | ObservedRelationshipRecord r => oe_collector_identity_evidence_ref r
  | MetricAggregateRecord r => me_collector_identity_evidence_ref r
  | HealthEventRecord r => he_collector_identity_evidence_ref r
  | ActivitySummaryRecord r => ae_collector_identity_evidence_ref r
  | AdvisorRecommendationRecord r => ar_collector_identity_evidence_ref r
  | GapRecord r => ge_collector_identity_evidence_ref r
  end.

(** The attributes only some classes have *)
Definition er_provenance (r : EvidenceRecord) : option EvidenceRecordProvenance :=
  match r with
  | ResourceRecord r => Some (re_provenance r)
  | ObservedRelationshipRecord r => Some (oe_provenance r)
  | MetricAggregateRecord r => Some (me_provenance r)
  | HealthEventRecord r => Some (he_provenance r)
  | ActivitySummaryRecord r => Some (ae_provenance r)
  | AdvisorRecommendationRecord r => Some (ar_provenance r)
  | GapRecord _ => None
  end.

Definition er_evidence_scope (r : EvidenceRecord) : option EvidenceScope :=
  match r with
  | HealthEventRecord r => Some (he_evidence_scope r)
  | ActivitySummaryRecord r => Some (ae_evidence_scope r)
  | GapRecord r => Some (ge_evidence_scope r)
  | _ => None
  end.

Definition er_resource_id (r : EvidenceRecord) : option string :=
  match r with
  | ResourceRecord r => Some (re_resource_id r)
  | MetricAggregateRecord r => Some (me_resource_id r)
  | AdvisorRecommendationRecord r => Some (ar_resource_id r)
  | _ => None
  end.

(** The instants [validate_for_evaluation] reads: [observed_at], [window_start],
    [window_end], [started_at] and [ended_at], where the record has them *)
Definition er_instants (r : EvidenceRecord) : list Z :=
  match r with
  | GapRecord r => [ge_observed_at r]
  | MetricAggregateRecord r => [me_window_start r; me_window_end r]
  | ActivitySummaryRecord r => [ae_window_start r; ae_window_end r]
  | HealthEventRecord r => [he_started_at r; he_ended_at r]
  | ResourceRecord _ | ObservedRelationshipRecord _ | AdvisorRecommendationRecord _ => []
  end.

(** ** The snapshot *)
Record SnapshotCollector := {
  sc_collector_identity_evidence_ref : string;
  sc_mcp_host_id : string;
  sc_tenant_id : string;
  sc_trust_anchor_ref : string;
  sc_ingestion_service_id : string;
  sc_ingestion_audience : string;
  sc_tool_allowlist_digest : string;
}.

Record SnapshotAttestation := {
  sn_artifact_kind : string;
  sn_schema_version : string;
  sn_semantic_contract_version : string;
  sn_policy_contract_version : string;
  sn_snapshot_id : string;
  sn_artifact_digest : string;
  sn_semantic_digest : string;
  sn_identity_evidence_digests : list string;
  sn_identity_evidence_set_digest : string;
  sn_collected_at : Z;
  sn_expires_at : Z;
  sn_authorized_scopes_digest : string;
  sn_collector_attempt_set_digest : string;
  sn_evidence_record_set_digest : string;
  sn_evidence_reference_set_digest : string;
  sn_attested_at : Z;
  sn_key_vault_key_id : string;
  sn_key_name : string;
  sn_key_version : string;
  sn_trust_anchor_ref : string;
  sn_signed_preimage_digest : string;
  sn_signature : string;
}.

Record EvidenceSnapshot := {
  es_snapshot_id : string;
  es_compatibility : CompatibilityMetadata;
  es_authorized_scopes : list EvidenceScope;
  es_collected_at : Z;
  es_expires_at : Z;
  es_collector : SnapshotCollector;
  es_collector_attempts : list CollectorAttempt;
  es_evidence_records : list EvidenceRecord;
  es_evidence_refs : list EvidenceReference;
  es_identity_evidence : list CollectorIdentityEvidence;
  es_snapshot_attestation : SnapshotAttestation;
}.

#[export] Instance AttemptType_eq_dec : EqDecision AttemptType.
Proof. solve_decision. Defined.
#[export] Instance AttemptOutcome_eq_dec : EqDecision AttemptOutcome.
Proof. solve_decision. Defined.
#[export] Instance CollectorAttempt_eq_dec : EqDecision CollectorAttempt.
Proof. solve_decision. Defined.
#[export] Instance VerifiedTokenClaims_eq_dec : EqDecision VerifiedTokenClaims.
Proof. solve_decision. Defined.
#[export] Instance EvidenceRelationshipEndpoint_eq_dec : EqDecision EvidenceRelationshipEndpoint.
Proof. solve_decision. Defined.
#[export] Instance ObservedRelationship_eq_dec : EqDecision ObservedRelationship.
Proof. solve_decision. Defined.
#[export] Instance ObservedRelationshipEvidenceRecord_eq_dec : EqDecision ObservedRelationshipEvidenceRecord.
Proof. solve_decision. Defined.
#[export] Instance MetricAggregateEvidenceRecord_eq_dec : EqDecision MetricAggregateEvidenceRecord.
Proof. solve_decision. Defined.
#[export] Instance HealthEventEvidenceRecord_eq_dec : EqDecision HealthEventEvidenceRecord.
Proof. solve_decision. Defined.
#[export] Instance ActivitySummaryEvidenceRecord_eq_dec : EqDecision ActivitySummaryEvidenceRecord.
Proof. solve_decision. Defined.
#[export] Instance AdvisorRecommendationEvidenceRecord_eq_dec : EqDecision AdvisorRecommendationEvidenceRecord.
Proof. solve_decision. Defined.
#[export] Instance EvidenceGapRecord_eq_dec : EqDecision EvidenceGapRecord.
Proof. solve_decision. Defined.
#[export] Instance EvidenceRecord_eq_dec : EqDecision EvidenceRecord.
Proof. solve_decision. Defined.

(** ** Trusted keys and publications *)

(** [public_key: Any] is PEM bytes or a key object of the cryptography package. *)
Inductive PublicKey (K : Type) := PemKey (pem : string) | KeyObject (key : K).
Arguments PemKey {K} pem.
Arguments KeyObject {K} key.

Record TrustedKeyAnchor := {
  ka_key_vault_key_id : string;
  ka_key_name : string;
  ka_key_version : string;
  ka_public_key_fingerprint : string;
}.
#[export] Instance TrustedKeyAnchor_eq_dec : EqDecision TrustedKeyAnchor.
Proof. solve_decision. Defined.

Record TrustedKeyRecord (K : Type) := {
  kr_anchor : TrustedKeyAnchor;
  kr_public_key : PublicKey K;
  kr_enabled : bool;
  kr_activated_at : Z;
  kr_retired_at : option Z;
  kr_expires_at : option Z;
}.
Arguments kr_anchor {K} _.
Arguments kr_public_key {K} _.
Arguments kr_enabled {K} _.
Arguments kr_activated_at {K} _.
Arguments kr_retired_at {K} _.
Arguments kr_expires_at {K} _.

Record SnapshotPublicationRecord := {
  pr_snapshot_id : string;
  pr_artifact_digest : string;
  pr_semantic_digest : string;
  pr_schema_version : string;
  pr_semantic_contract_version : string;
  pr_published_at : Z;
}.
