(* ===== verification/SnapshotDump.v ===== *)
(** * SnapshotDump: rendering and digesting evidence snapshots

    [model.model_dump(mode="json", by_alias=True, exclude_none=True)] of the models
    of [Snapshot], fields in the order of the class, and the digests of
    contracts/models.py computed from it. *)
From S2P Require Import Prelude Text Time Json.
From S2P Require Export Snapshot ManifestDump.
Local Open Scope Z_scope.

(** ** Renderings *)
Definition attempt_type_text (t : AttemptType) : string :=
  match t with
  | AtSuccessResponse => "successResponse"
  | AtFailedResponse => "failedResponse"
  | AtTimeoutNoResponse => "timeoutNoResponse"
  | AtAuthorizationFailure => "authorizationFailure"
  | AtToolUnavailable => "toolUnavailable"
  end.

(** The members of the outcome of an attempt, in the order of its class *)
Definition outcome_members (o : AttemptOutcome) : list (string * json) :=
  match o with
  | SuccessResponse response_digest response_received_at =>
      [("responseDigest", JStr response_digest); ("responseReceivedAt", utc_json response_received_at)]
  | FailedResponse failure_code failure_status failure_digest response_received_at =>
      [("failureCode", JStr failure_code); ("failureStatus", JStr failure_status);
       ("failureDigest", JStr failure_digest); ("responseReceivedAt", utc_json response_received_at)]
  | TimeoutNoResponse deadline_at timed_out_at =>
      [("deadlineAt", utc_json deadline_at); ("timedOutAt", utc_json timed_out_at)]
  | AuthorizationFailure authorization_status observed_at =>
      [("authorizationStatus", JStr authorization_status); ("observedAt", utc_json observed_at)]
  | ToolUnavailable unavailable_reason observed_at =>
      [("unavailableReason", JStr unavailable_reason); ("observedAt", utc_json observed_at)]
  end.

Definition attempt_members (a : CollectorAttempt) : list (string * json) :=
  [("attemptType", JStr (attempt_type_text (ca_attempt_type a))); ("attemptId", JStr (ca_attempt_id a));
   ("attemptStartedAt", utc_json (ca_attempt_started_at a)); ("toolName", JStr (ca_tool_name a));
   ("toolVersion", JStr (ca_tool_version a)); ("requestDigest", JStr (ca_request_digest a))] ++
  outcome_members (ca_outcome a) ++
  [("collectorIdentityEvidenceRef", JStr (ca_collector_identity_evidence_ref a));
   ("attemptDigest", JStr (ca_attempt_digest a))].

Definition claims_json (c : VerifiedTokenClaims) : json :=
  JObj [("issuer", JStr (vt_issuer c)); ("audience", JStr (vt_audience c)); ("tenantId", JStr (vt_tenant_id c));
        ("managedIdentityObjectId", JStr (vt_managed_identity_object_id c));
        ("managedIdentityClientId", JStr (vt_managed_identity_client_id c)); ("subject", JStr (vt_subject c));
        ("jtiDigest", JStr (vt_jti_digest c)); ("issuedAt", utc_json (vt_issued_at c));
        ("notBefore", utc_json (vt_not_before c)); ("expiresAt", utc_json (vt_expires_at c))].

Definition token_verification_members (t : TokenVerification) : list (string * json) :=
  [("status", JStr (tv_status t)); ("verifiedAt", utc_json (tv_verified_at t)); ("keyId", JStr (tv_key_id t));
   ("verifiedClaims", claims_json (tv_verified_claims t));
   ("verifiedClaimsDigest", JStr (tv_verified_claims_digest t)); ("jtiDigest", JStr (tv_jti_digest t));
   ("tokenVerificationDigest", JStr (tv_token_verification_digest t))].

(** The members of [AttemptBinding]; [instant] renders its timestamps, as text
    with [mode="json"] and as [datetime]s with [mode="python"]. *)
Definition binding_members (instant : Z -> json) (b : AttemptBinding) : list (string * json) :=
  [("attemptId", JStr (bn_attempt_id b)); ("attemptType", JStr (attempt_type_text (bn_attempt_type b)));
   ("attemptDigest", JStr (bn_attempt_digest b)); ("toolName", JStr (bn_tool_name b));
   ("toolVersion", JStr (bn_tool_version b)); ("requestDigest", JStr (bn_request_digest b))] ++
  opt_member "responseDigest" (JStr <$> bn_response_digest b) ++
  opt_member "failureDigest" (JStr <$> bn_failure_digest b) ++
  [("attemptStartedAt", instant (bn_attempt_started_at b))] ++
  opt_member "responseReceivedAt" (instant <$> bn_response_received_at b) ++
  opt_member "deadlineAt" (instant <$> bn_deadline_at b) ++
  opt_member "timedOutAt" (instant <$> bn_timed_out_at b) ++
  opt_member "observedAt" (instant <$> bn_observed_at b).

Definition derivation_members (d : IngestionDerivation) : list (string * json) :=
  [("derivationPreimageType", JStr "athena.mcpCollectorAttemptDerivation");
   ("derivationPreimageVersion", JStr (id_derivation_preimage_version d));
   ("schemaVersion", JStr (id_schema_version d));
   ("semanticContractVersion", JStr (id_semantic_contract_version d));
   ("policyContractVersion", JStr (id_policy_contract_version d));
   ("identityEvidenceId", JStr (id_identity_evidence_id d)); ("tokenHash", JStr (id_token_hash d));
   ("tokenVerificationStatus", JStr (id_token_verification_status d));
   ("tokenVerificationDigest", JStr (id_token_verification_digest d));
   ("verifiedClaimsDigest", JStr (id_verified_claims_digest d)); ("jtiDigest", JStr (id_jti_digest d));
   ("mcpHostId", JStr (id_mcp_host_id d)); ("mcpHostTenantId", JStr (id_mcp_host_tenant_id d));
   ("mcpHostManagedIdentityObjectId", JStr (id_mcp_host_managed_identity_object_id d));
   ("mcpHostManagedIdentityClientId", JStr (id_mcp_host_managed_identity_client_id d));
   ("ingestionServiceId", JStr (id_ingestion_service_id d));
   ("ingestionAudience", JStr (id_ingestion_audience d));
   ("toolAllowlistDigest", JStr (id_tool_allowlist_digest d));
   ("derivedCollectorIdentityRef", JStr (id_derived_collector_identity_ref d));
   ("attemptBinding", JObj (binding_members utc_json (id_attempt_binding d)));
   ("derivedAt", utc_json (id_derived_at d)); ("derivationDigest", JStr (id_derivation_digest d))].

Definition ingestion_signature_json (s : IngestionSignature) : json :=
  JObj [("signatureAlgorithm", JStr (is_signature_algorithm s)); ("keyVaultKeyId", JStr (is_key_vault_key_id s));
        ("keyName", JStr (is_key_name s)); ("keyVersion", JStr (is_key_version s));
        ("signedPreimageDigest", JStr (is_signed_preimage_digest s)); ("signature", JStr (is_signature s));
        ("signedAt", utc_json (is_signed_at s)); ("trustAnchorRef", JStr (is_trust_anchor_ref s))].

Definition identity_members (i : CollectorIdentityEvidence) : list (string * json) :=
  [("identityEvidenceId", JStr (ie_identity_evidence_id i)); ("identityEvidenceType", JStr "entraJwtTokenEvidence");
   ("tokenHash", JStr (ie_token_hash i));
   ("jwtHeader", JObj [("alg", JStr (jh_alg (ie_jwt_header i))); ("kid", JStr (jh_kid (ie_jwt_header i)));
                       ("typ", JStr "JWT")]);
   ("trustAnchorRef", JStr (ie_trust_anchor_ref i)); ("verifiedClaims", claims_json (ie_verified_claims i));
   ("tokenVerification", JObj (token_verification_members (ie_token_verification i)));
   ("ingestionDerivation", JObj (derivation_members (ie_ingestion_derivation i)));
   ("ingestionSignature", ingestion_signature_json (ie_ingestion_signature i));
   ("identityEvidenceDigest", JStr (ie_identity_evidence_digest i))].

(** ** Records *)
Definition provenance_json (p : EvidenceRecordProvenance) : json :=
  JObj ([("collectorAttemptId", JStr (ep_collector_attempt_id p));
         ("collectorIdentityEvidenceRef", JStr (ep_collector_identity_evidence_ref p));
         ("toolName", JStr (ep_tool_name p)); ("toolVersion", JStr (ep_tool_version p))] ++
        opt_member "sourceResponseDigest" (JStr <$> ep_source_response_digest p) ++
        opt_member "sourceResponsePointer" (JStr <$> ep_source_response_pointer p) ++
        opt_member "failurePayloadDigest" (JStr <$> ep_failure_payload_digest p) ++
        opt_member "failurePayloadPointer" (JStr <$> ep_failure_payload_pointer p)).

(** The fields every concrete record ends with *)
Definition proof_members (p : EvidenceRecordProvenance) (item_digest attempt_digest identity_ref : string)
    : list (string * json) :=
  [("provenance", provenance_json p); ("itemDigest", JStr item_digest);
   ("collectorAttemptDigest", JStr attempt_digest); ("collectorIdentityEvidenceRef", JStr identity_ref)].

Definition relationship_endpoint_json (e : EvidenceRelationshipEndpoint) : json :=
  match e with
  | EvidenceRoleRef role_id => JObj [("refKind", JStr "roleRef"); ("roleId", JStr role_id)]
  | EvidenceResourceRef resource_id => JObj [("refKind", JStr "resourceRef"); ("resourceId", JStr resource_id)]
  | EvidenceExternalRef external_id => JObj [("refKind", JStr "externalRef"); ("externalId", JStr external_id)]
  end.

Definition observed_relationship_json (r : ObservedRelationship) : json :=
  JObj [("relationshipClass", JStr "observed"); ("relationshipId", JStr (ov_relationship_id r));
        ("kind", JStr (ov_kind r)); ("source", relationship_endpoint_json (ov_source r));
        ("target", relationship_endpoint_json (ov_target r)); ("evidenceItemRef", JStr (ov_evidence_item_ref r));
        ("observedAt", utc_json (ov_observed_at r))].

(** The members that describe the observation *)
Definition observation_members (r : EvidenceRecord) : list (string * json) :=
  match r with
  | ResourceRecord r =>
      [("resourceId", JStr (re_resource_id r)); ("resourceType", JStr (re_resource_type r));
       ("location", JStr (re_location r))] ++
      opt_member "availabilityZone" (JStr <$> re_availability_zone r) ++
      [("tags", JObj ((fun t => (fst t, JStr (snd t))) <$> tag_items (re_tags r))); ("state", JStr (re_state r))]
  | ObservedRelationshipRecord r => [("relationship", observed_relationship_json (oe_relationship r))]
  | MetricAggregateRecord r =>
      [("resourceId", JStr (me_resource_id r)); ("metricName", JStr (me_metric_name r));
       ("aggregation", JStr (me_aggregation r)); ("windowStart", utc_json (me_window_start r));
       ("windowEnd", utc_json (me_window_end r)); ("value", JFloat (me_value r)); ("unit", JStr (me_unit r))]
  | HealthEventRecord r =>
      [("evidenceScope", evidence_scope_json (he_evidence_scope r)); ("healthKind", JStr (he_health_kind r));
       ("status", JStr (he_status r)); ("startedAt", utc_json (he_started_at r));
       ("endedAt", utc_json (he_ended_at r)); ("summaryCode", JStr (he_summary_code r))]
  | ActivitySummaryRecord r =>
      [("evidenceScope", evidence_scope_json (ae_evidence_scope r)); ("operationName", JStr (ae_operation_name r));
       ("status", JStr (ae_status r)); ("count", JInt (ae_count r)); ("windowStart", utc_json (ae_window_start r));
       ("windowEnd", utc_json (ae_window_end r))]
  | AdvisorRecommendationRecord r =>
      [("resourceId", JStr (ar_resource_id r)); ("category", JStr (ar_category r)); ("impact", JStr (ar_impact r));
       ("recommendationCode", JStr (ar_recommendation_code r))]
  | GapRecord r =>
      [("gapId", JStr (ge_gap_id r)); ("evidenceScope", evidence_scope_json (ge_evidence_scope r));
       ("gapReason", JStr (ge_gap_reason r)); ("expectedRecordType", JStr (ge_expected_record_type r));
       ("collectorAttemptId", JStr (ge_collector_attempt_id r));
       ("collectorAttemptDigest", JStr (ge_collector_attempt_digest r));
       ("observedAt", utc_json (ge_observed_at r));
       ("collectorIdentityEvidenceRef", JStr (ge_collector_identity_evidence_ref r))] ++
      opt_member "failurePayloadDigest" (JStr <$> ge_failure_payload_digest r) ++
      opt_member "failurePayloadPointer" (JStr <$> ge_failure_payload_pointer r) ++
      [("itemDigest", JStr (ge_item_digest r))]
  end.

Definition record_members (r : EvidenceRecord) : list (string * json) :=
  [("recordType", JStr (er_record_type r))] ++ observation_members r ++
  match er_provenance r with
  | Some p => proof_members p (er_item_digest r) (er_collector_attempt_digest r) (er_collector_identity_evidence_ref r)
  | None => []
  end.

Definition item_ref_json (r : EvidenceItemRef) : json :=
  JObj [("refType", JStr "evidenceItem"); ("snapshotId", JStr (ir_snapshot_id r));
        ("snapshotArtifactDigest", JStr (ir_snapshot_artifact_digest r));
        ("snapshotSemanticDigest", JStr (ir_snapshot_semantic_digest r)); ("itemDigest", JStr (ir_item_digest r));
        ("collectorAttemptId", JStr (ir_collector_attempt_id r));
        ("collectorAttemptDigest", JStr (ir_collector_attempt_digest r));
        ("collectorToolName", JStr (ir_collector_tool_name r));
        ("collectorToolVersion", JStr (ir_collector_tool_version r));
        ("collectorAttemptAt", utc_json (ir_collector_attempt_at r));
        ("collectorIdentityEvidenceRef", JStr (ir_collector_identity_evidence_ref r));
        ("sourceResponseDigest", JStr (ir_source_response_digest r));
        ("sourceResponsePointer", JStr (ir_source_response_pointer r))].

Definition gap_ref_json (r : EvidenceGapRef) : json :=
  JObj ([("refType", JStr "evidenceGap"); ("snapshotId", JStr (gr_snapshot_id r));
         ("snapshotArtifactDigest", JStr (gr_snapshot_artifact_digest r));
         ("snapshotSemanticDigest", JStr (gr_snapshot_semantic_digest r)); ("gapId", JStr (gr_gap_id r));
         ("gapRecordDigest", JStr (gr_gap_record_digest r));
         ("evidenceScope", evidence_scope_json (gr_evidence_scope r));
         ("expectedRecordType", JStr (gr_expected_record_type r));
         ("collectorAttemptId", JStr (gr_collector_attempt_id r));
         ("collectorAttemptDigest", JStr (gr_collector_attempt_digest r));
         ("collectorToolName", JStr (gr_collector_tool_name r));
         ("collectorToolVersion", JStr (gr_collector_tool_version r));
         ("collectorAttemptAt", utc_json (gr_collector_attempt_at r));
         ("collectorIdentityEvidenceRef", JStr (gr_collector_identity_evidence_ref r));
         ("gapReason", JStr (gr_gap_reason r))] ++
        opt_member "failurePayloadDigest" (JStr <$> gr_failure_payload_digest r) ++
        opt_member "failurePayloadPointer" (JStr <$> gr_failure_payload_pointer r)).

Definition evidence_reference_json (r : EvidenceReference) : json :=
  match r with ItemRef r => item_ref_json r | GapRef r => gap_ref_json r end.

(** ** The snapshot *)
Definition collector_json (c : SnapshotCollector) : json :=
  JObj [("collectorType", JStr "azureMcpHost");
        ("collectorIdentityEvidenceRef", JStr (sc_collector_identity_evidence_ref c));
        ("mcpHostId", JStr (sc_mcp_host_id c)); ("tenantId", JStr (sc_tenant_id c));
        ("trustAnchorRef", JStr (sc_trust_anchor_ref c)); ("ingestionServiceId", JStr (sc_ingestion_service_id c));
        ("ingestionAudience", JStr (sc_ingestion_audience c));
        ("toolAllowlistDigest", JStr (sc_tool_allowlist_digest c))].

Definition attestation_members (a : SnapshotAttestation) : list (string * json) :=
  [("attestationType", JStr "trustedSnapshotPublication"); ("attestationVersion", JStr "1.0.0");
   ("artifactKind", JStr (sn_artifact_kind a)); ("schemaVersion", JStr (sn_schema_version a));
   ("semanticContractVersion", JStr (sn_semantic_contract_version a));
   ("policyContractVersion", JStr (sn_policy_contract_version a)); ("snapshotId", JStr (sn_snapshot_id a));
   ("artifactDigest", JStr (sn_artifact_digest a)); ("semanticDigest", JStr (sn_semantic_digest a));
   ("identityEvidenceDigests", texts_json (sn_identity_evidence_digests a));
   ("identityEvidenceSetDigest", JStr (sn_identity_evidence_set_digest a));
   ("collectedAt", utc_json (sn_collected_at a)); ("expiresAt", utc_json (sn_expires_at a));
   ("authorizedScopesDigest", JStr (sn_authorized_scopes_digest a));
   ("collectorAttemptSetDigest", JStr (sn_collector_attempt_set_digest a));
   ("evidenceRecordSetDigest", JStr (sn_evidence_record_set_digest a));
   ("evidenceReferenceSetDigest", JStr (sn_evidence_reference_set_digest a));
   ("attestedAt", utc_json (sn_attested_at a)); ("signatureAlgorithm", JStr "RS256");
   ("keyVaultKeyId", JStr (sn_key_vault_key_id a)); ("keyName", JStr (sn_key_name a));
   ("keyVersion", JStr (sn_key_version a)); ("trustAnchorRef", JStr (sn_trust_anchor_ref a));
   ("signedPreimageDigest", JStr (sn_signed_preimage_digest a)); ("signature", JStr (sn_signature a))].

Definition snapshot_members (s : EvidenceSnapshot) : list (string * json) :=
  [("snapshotId", JStr (es_snapshot_id s)); ("compatibility", JObj (compatibility_json (es_compatibility s)));
   ("authorizedScopes", JArr (evidence_scope_json <$> es_authorized_scopes s));
   ("collectedAt", utc_json (es_collected_at s)); ("expiresAt", utc_json (es_expires_at s));
   ("collector", collector_json (es_collector s));
   ("collectorAttempts", JArr ((fun a => JObj (attempt_members a)) <$> es_collector_attempts s));
   ("evidenceRecords", JArr ((fun r => JObj (record_members r)) <$> es_evidence_records s));
   ("evidenceRefs", JArr (evidence_reference_json <$> es_evidence_refs s));
   ("identityEvidence", JArr ((fun i => JObj (identity_members i)) <$> es_identity_evidence s));
   ("snapshotAttestation", JObj (attestation_members (es_snapshot_attestation s)))].

(** ** Digest preimages *)

(** [{key: item for key, item in payload.items() if key not in excluded}] *)
Definition without_fields (excluded : list string) (members : list (string * json)) : list (string * json) :=
  select (fun m => negb (bool_decide (fst m ∈ excluded))) members.

Section digests.
Context `{PyText} `{Rfc8785}.

(** [values.sort(key=canonicalize_json)] *)
Definition sort_canonical (values : list json) : result (list json) :=
  keyed ← mapR (fun v => k ← canonicalize_json v; Ok (k, v)) values;
  Ok (snd <$> sort_by fst keyed).

(** _canonical_set_digest, on rendered values *)
Definition canonical_set_digest (values : list json) : result string :=
  payloads ← sort_canonical values;
  compute_artifact_digest (JArr payloads).

(** compute_authorized_scopes_digest, compute_collector_attempt_set_digest,
    compute_evidence_record_set_digest and compute_evidence_reference_set_digest *)
Definition compute_authorized_scopes_digest (s : EvidenceSnapshot) : result string :=
  canonical_set_digest (evidence_scope_json <$> es_authorized_scopes s).
Definition compute_collector_attempt_set_digest (s : EvidenceSnapshot) : result string :=
  canonical_set_digest ((fun a => JObj (attempt_members a)) <$> es_collector_attempts s).
Definition compute_evidence_record_set_digest (s : EvidenceSnapshot) : result string :=
  canonical_set_digest ((fun r => JObj (record_members r)) <$> es_evidence_records s).
Definition compute_evidence_reference_set_digest (s : EvidenceSnapshot) : result string :=
  canonical_set_digest (evidence_reference_json <$> es_evidence_refs s).

(** The loop over the four record lists of [_snapshot_digest_preimage] *)
Definition sort_field (payload : list (string * json)) (field_name : string) : result (list (string * json)) :=
  match assoc field_name payload with
  | Some (JArr values) => values ← sort_canonical values; Ok (set_member field_name (JArr values) payload)
  | Some _ => Ok payload
  | None => Ok (set_member field_name (JArr []) payload)
  end.

(** One turn of the loop over the references *)
Definition sanitized_ref (evidence_ref : json) : result json :=
  match evidence_ref with
  | JObj members => Ok (JObj (without_fields ["snapshotArtifactDigest"; "snapshotSemanticDigest"] members))
  | _ => Raise (AthenaValidationError "snapshot evidenceRefs must contain JSON objects")
  end.

(** _snapshot_digest_preimage, on the rendered snapshot *)
Definition snapshot_digest_preimage (payload : list (string * json)) : result json :=
  let payload := without_fields ["snapshotAttestation"] payload in
  compatibility ← match assoc "compatibility" payload with
                  | Some (JObj compatibility) => Ok compatibility
                  | _ => Raise (AthenaValidationError "snapshot digest preimage requires compatibility metadata")
                  end;
  let payload := set_member "compatibility" (JObj (without_fields ["artifactDigest"; "semanticDigest"] compatibility))
                   payload in
  payload ← foldR sort_field payload ["authorizedScopes"; "collectorAttempts"; "evidenceRecords"; "identityEvidence"];
  evidence_refs ← match default (JArr []) (assoc "evidenceRefs" payload) with
                  | JArr evidence_refs => Ok evidence_refs
                  | _ => Raise (AthenaValidationError "snapshot digest preimage requires an evidenceRefs array")
                  end;
  sanitized_refs ← mapR sanitized_ref evidence_refs;
  sanitized_refs ← sort_canonical sanitized_refs;
  Ok (JObj (set_member "evidenceRefs" (JArr sanitized_refs) payload)).

(** compute_evidence_snapshot_artifact_digest *)
Definition compute_evidence_snapshot_artifact_digest (s : EvidenceSnapshot) : result string :=
  preimage ← snapshot_digest_preimage (snapshot_members s); compute_artifact_digest preimage.

(** compute_evidence_snapshot_semantic_digest *)
Definition compute_evidence_snapshot_semantic_digest (s : EvidenceSnapshot) : result string :=
  preimage ← snapshot_digest_preimage (snapshot_members s); compute_semantic_digest preimage.

(** compute_evidence_record_digest *)
Definition compute_evidence_record_digest (r : EvidenceRecord) : result string :=
  compute_artifact_digest (JObj (without_fields ["itemDigest"] (record_members r))).

(** compute_token_verification_digest: no field of the model is optional. *)
Definition compute_token_verification_digest (t : TokenVerification) : result string :=
  compute_artifact_digest (JObj (without_fields ["tokenVerificationDigest"] (token_verification_members t))).

(** compute_verified_claims_digest *)
Definition compute_verified_claims_digest (c : VerifiedTokenClaims) : result string :=
  compute_artifact_digest (claims_json c).

(** compute_collector_identity_evidence_digest *)
Definition compute_collector_identity_evidence_digest (i : CollectorIdentityEvidence) : result string :=
  compute_artifact_digest (JObj (without_fields ["identityEvidenceDigest"] (identity_members i))).

(** _CollectorAttemptDigestBound.validate_attempt_digest: the payload without its
    own digest *)
Definition compute_attempt_digest (a : CollectorAttempt) : result string :=
  compute_artifact_digest (JObj (without_fields ["attemptDigest"] (attempt_members a))).

(** snapshot_attestation_preimage *)
Definition snapshot_attestation_preimage (a : SnapshotAttestation) : json :=
  JObj (set_member "identityEvidenceDigests" (texts_json (sort_strings (sn_identity_evidence_digests a)))
          (without_fields ["signedPreimageDigest"; "signature"] (attestation_members a))).

(** compute_snapshot_attestation_preimage_digest *)
Definition compute_snapshot_attestation_preimage_digest (a : SnapshotAttestation) : result string :=
  compute_artifact_digest (snapshot_attestation_preimage a).

(** _attempt_binding_payload: [datetime] values are not rendered. *)
Definition attempt_binding_payload (a : CollectorAttempt) : json :=
  JObj ([("attemptId", JStr (ca_attempt_id a)); ("attemptType", JStr (attempt_type_text (ca_attempt_type a)));
         ("attemptDigest", JStr (ca_attempt_digest a)); ("toolName", JStr (ca_tool_name a));
         ("toolVersion", JStr (ca_tool_version a)); ("requestDigest", JStr (ca_request_digest a));
         ("attemptStartedAt", JTime (ca_attempt_started_at a))] ++
        match ca_outcome a with
        | SuccessResponse response_digest t => [("responseDigest", JStr response_digest); ("responseReceivedAt", JTime t)]
        | FailedResponse _ _ failure_digest t => [("failureDigest", JStr failure_digest); ("responseReceivedAt", JTime t)]
        | TimeoutNoResponse deadline_at timed_out_at => [("deadlineAt", JTime deadline_at); ("timedOutAt", JTime timed_out_at)]
        | AuthorizationFailure _ t | ToolUnavailable _ t => [("observedAt", JTime t)]
        end).

(** _evidence_source_projection *)
Definition evidence_source_projection (r : EvidenceRecord) : json :=
  JObj (without_fields ["provenance"; "itemDigest"; "collectorAttemptDigest"; "collectorIdentityEvidenceRef"]
          (record_members r)).

(** _TRANSPORT_ONLY_ENVELOPE_FIELDS *)
Definition transport_only_envelope_fields : list string :=
  ["requestId"; "correlationId"; "retryCount"; "transportLatencyMs"; "receivedAt"; "rawTransportHeaders"; "bearerToken";
   "rawBearerToken"].

(** _without_root_fields_preserving_nulls, on an envelope *)
Definition envelope_without (excluded : list string) (envelope : json) : result json :=
  match envelope with
  | JObj members => Ok (JObj (without_fields excluded members))
  | _ => Raise (AthenaValidationError "digest preimage must be a JSON object")
  end.

(** _response_envelope_digest_preimage and _failure_envelope_digest_preimage *)
Definition response_envelope_digest_preimage : json -> result json :=
  envelope_without (transport_only_envelope_fields ++ ["responseDigest"]).
Definition failure_envelope_digest_preimage : json -> result json :=
  envelope_without (transport_only_envelope_fields ++ ["failureDigest"]).

(** compute_response_envelope_digest and compute_failure_envelope_digest *)
Definition compute_response_envelope_digest (envelope : json) : result string :=
  preimage ← response_envelope_digest_preimage envelope; compute_artifact_digest preimage.
Definition compute_failure_envelope_digest (envelope : json) : result string :=
  preimage ← failure_envelope_digest_preimage envelope; compute_artifact_digest preimage.
End digests.
