(* ===== verification/SnapshotRules.v ===== *)
(** * SnapshotRules: the validators of evidence snapshots

    The field and model validators of the evidence models of contracts/models.py,
    up to EvidenceSnapshot.validate_snapshot, which ties every record to one
    collector attempt, one reference and the authorized scopes, and the whole to
    its digests and its attestation. *)
From S2P Require Import Prelude Text Time Json.
From S2P Require Export SnapshotDump.
From Stdlib Require Import Ascii.
Local Open Scope Z_scope.

(** ** Identifiers and pointers *)

(** _is_sha256_digest: [^sha256:[a-fA-F0-9]{64}$] *)
Definition is_sha256_digest (value : string) : bool :=
  starts_with "sha256:" value &&
  let rest := string_drop 7 value in (String.length rest =? 64)%nat && all_chars is_hex rest.
Definition optional_sha256_digest (value : option string) : bool :=
  match value with Some v => is_sha256_digest v | None => true end.

(** The escapes of one reference token of _is_valid_json_pointer *)
Fixpoint valid_pointer_token (token : string) : bool :=
  match token with
  | EmptyString => true
  | String "~" (String c rest) => (Ascii.eqb c "0" || Ascii.eqb c "1") && valid_pointer_token rest
  | String "~" EmptyString => false
  | String _ rest => valid_pointer_token rest
  end.

(** _is_valid_json_pointer *)
Definition is_valid_json_pointer (value : string) : bool :=
  String.eqb value "" ||
  starts_with "/" value && forallb valid_pointer_token (tail (split_on slash value)).

(** [0|[1-9][0-9]{0,5}] *)
Definition is_item_index (s : string) : bool :=
  String.eqb s "0" ||
  match s with
  | String c rest => is_digit c && negb (Ascii.eqb c "0") && all_chars is_digit rest && (String.length rest <=? 5)%nat
  | EmptyString => false
  end.

(** [/(?:items|value)/(?:0|[1-9][0-9]{0,5})], split at the slashes *)
Definition is_item_path (parts : list string) : bool :=
  match parts with
  | [root; collection; index] =>
      String.eqb root "" && (String.eqb collection "items" || String.eqb collection "value") && is_item_index index
  | _ => false
  end.

(** _is_allowed_evidence_pointer, of a response and of a failure envelope *)
Definition is_response_pointer (value : string) : bool :=
  is_valid_json_pointer value && (String.eqb value "" || is_item_path (split_on slash value)).
Definition is_failure_pointer (value : string) : bool :=
  is_valid_json_pointer value &&
  (bool_decide (value ∈ [""; "/error"; "/error/code"; "/error/status"]) || is_item_path (split_on slash value)).
Definition optional_pointer (allowed : string -> bool) (value : option string) : bool :=
  match value with Some v => allowed v | None => true end.

(** [not ((a is None) != (b is None))] *)
Definition appear_together {A B} (a : option A) (b : option B) : bool := Bool.eqb (present a) (present b).

(** [[A-Za-z0-9._()-]+] *)
Definition is_path_char (c : ascii) : bool := is_alnum c || existsb (Ascii.eqb c) ["."; "_"; "("; ")"; "-"]%char.
Definition is_path_name (s : string) : bool := negb (String.eqb s "") && all_chars is_path_char s.

(** [[A-Za-z0-9._()-]{0,89}[A-Za-z0-9_()-]] *)
Definition is_group_name (s : string) : bool :=
  is_path_name s && (String.length s <=? 90)%nat && negb (ends_with "." s).

(** [(?:/[A-Za-z0-9._()-]+/[A-Za-z0-9._()-]+)+] *)
Fixpoint type_name_pairs (parts : list string) : bool :=
  match parts with
  | [type_part; name] => is_path_name type_part && is_path_name name
  | type_part :: name :: rest => is_path_name type_part && is_path_name name && type_name_pairs rest
  | _ => false
  end.

(** The pattern of AzureResourceIdentifier, after the subscription *)
Definition provider_pattern (parts : list string) : bool :=
  match parts with
  | providers :: namespace :: path =>
      String.eqb providers "providers" && negb (String.eqb namespace "") &&
      all_chars (fun c => is_alnum c || Ascii.eqb c ".") namespace && type_name_pairs path
  | _ => false
  end.

(** AzureResourceIdentifier *)
Definition azure_resource_identifier (value : string) : bool :=
  match split_on slash value with
  | root :: subscriptions :: guid :: rest =>
      String.eqb root "" && String.eqb subscriptions "subscriptions" &&
      is_guid guid && all_chars (fun c => is_lower_hex c || Ascii.eqb c "-") guid &&
      (provider_pattern rest ||
       match rest with
       | resource_groups :: group :: rest =>
           String.eqb resource_groups "resourceGroups" && is_group_name group && provider_pattern rest
       | _ => false
       end)
  | _ => false
  end.

Section rules.
Context `{PyText} `{Rfc8785}.

(** ** Resource ids and scopes *)

(** The loops of _parse_azure_resource_id over the provider path: [complete]
    holds once the current provider has a type and a name. *)
Fixpoint azure_provider_path (complete : bool) (parts : list string) : result unit :=
  match parts with
  | [] => guard_or (AthenaValidationError "Azure resource ID provider has no resource type/name") complete
  | part :: rest =>
      if String.eqb part "providers" then
        if complete then
          match rest with
          | _ :: ((_ :: _ :: _) as path) => azure_provider_path false path
          | _ => Raise (AthenaValidationError "Azure resource ID provider path is malformed")
          end
        else Raise (AthenaValidationError "Azure resource ID provider has no resource type/name")
      else
        match rest with
        | _ :: rest => azure_provider_path true rest
        | [] => Raise (AthenaValidationError "Azure resource ID type/name path is incomplete")
        end
  end.

(** The part of _parse_azure_resource_id after the subscription *)
Definition azure_scope_path (parts : list string) : result unit :=
  rest ← match parts with
         | part :: rest =>
             if String.eqb part "resourcegroups" then
               match rest with
               | _ :: rest => Ok rest
               | [] => Raise (AthenaValidationError "Azure resource ID resourceGroups segment is incomplete")
               end
             else Ok parts
         | [] => Ok []
         end;
  match rest with
  | [] => Ok tt
  | part :: _ =>
      _ ← guard_or (AthenaValidationError "Azure resource ID provider path is malformed") (String.eqb part "providers");
      azure_provider_path true rest
  end.

(** _parse_azure_resource_id *)
Definition parse_azure_resource_id (value : string) : result (list string) :=
  _ ← raise_if (AthenaValidationError "Azure resource ID contains invalid characters")
        (negb (String.eqb value (strip value)) || existsb (fun c => contains_char c value) ["\"; "*"; "?"]%char);
  match split_on slash value with
  | root :: ((_ :: _ :: _) as raw_parts) =>
      _ ← raise_if (AthenaValidationError "Azure resource ID must be an absolute component path")
            (negb (String.eqb root "") || existsb (String.eqb "") raw_parts);
      let parts := casefold <$> raw_parts in
      match parts with
      | subscriptions :: guid :: rest =>
          _ ← guard_or (AthenaValidationError "Azure resource ID must begin with /subscriptions/{guid}")
                (String.eqb subscriptions "subscriptions" && is_guid guid);
          _ ← azure_scope_path rest;
          Ok parts
      | _ => Raise (AthenaValidationError "Azure resource ID must begin with /subscriptions/{guid}")
      end
  | _ => Raise (AthenaValidationError "Azure resource ID must be an absolute component path")
  end.

(** The components of a scope that is not a resource id *)
Definition scope_components (scope : EvidenceScope) : option (list string) :=
  match scope with
  | SubscriptionScope _ subscription_id => Some ["subscriptions"; casefold subscription_id]
  | ResourceGroupScope _ subscription_id resource_group_name =>
      Some ["subscriptions"; casefold subscription_id; "resourcegroups"; casefold resource_group_name]
  | LogAnalyticsWorkspaceScope _ subscription_id resource_group_name workspace_name =>
      Some ["subscriptions"; casefold subscription_id; "resourcegroups"; casefold resource_group_name; "providers";
            "microsoft.operationalinsights"; "workspaces"; casefold workspace_name]
  | ResourceIdScope _ | ServiceHealthRegionScope _ _ => None
  end.

(** _resource_id_parts_from_scope *)
Definition resource_id_parts_from_scope (scope : EvidenceScope) : result (option (list string)) :=
  match scope with
  | ResourceIdScope resource_id => Some <$> parse_azure_resource_id resource_id
  | _ => Ok (scope_components scope)
  end.

(** _components_contain *)
Definition components_contain (container candidate : list string) : bool :=
  (length container <=? length candidate)%nat && bool_decide (take (length container) candidate = container).

(** [getattr(scope, "tenant_id", None)] *)
Definition scope_tenant_id (scope : EvidenceScope) : option string :=
  match scope with
  | SubscriptionScope tenant_id _ | ResourceGroupScope tenant_id _ _ | LogAnalyticsWorkspaceScope tenant_id _ _ _ =>
      Some tenant_id
  | ResourceIdScope _ | ServiceHealthRegionScope _ _ => None
  end.

(** [a.__class__ is b.__class__] *)
Definition same_scope_class (a b : EvidenceScope) : bool :=
  match a, b with
  | SubscriptionScope _ _, SubscriptionScope _ _ | ResourceGroupScope _ _ _, ResourceGroupScope _ _ _
  | ResourceIdScope _, ResourceIdScope _ | LogAnalyticsWorkspaceScope _ _ _ _, LogAnalyticsWorkspaceScope _ _ _ _
  | ServiceHealthRegionScope _ _, ServiceHealthRegionScope _ _ => true
  | _, _ => false
  end.

(** _scope_contains *)
Definition scope_contains_scope (container candidate : EvidenceScope) : result bool :=
  if same_scope_class container candidate then
    a ← canonicalize_json (evidence_scope_json container);
    b ← canonicalize_json (evidence_scope_json candidate);
    Ok (String.eqb a b)
  else
    match container, candidate with
    | SubscriptionScope tenant_id subscription_id, ResourceGroupScope tenant_id' subscription_id' _
    | SubscriptionScope tenant_id subscription_id, LogAnalyticsWorkspaceScope tenant_id' subscription_id' _ _ =>
        Ok (String.eqb tenant_id' tenant_id && String.eqb subscription_id' subscription_id)
    | (SubscriptionScope _ _ | ResourceGroupScope _ _ _ | LogAnalyticsWorkspaceScope _ _ _ _), ResourceIdScope resource_id =>
        parts ← parse_azure_resource_id resource_id;
        Ok (components_contain (default [] (scope_components container)) parts)
    | _, _ => Ok false
    end.

(** ** Attempts *)

(** AttemptIdentifier and GapIdentifier *)
Definition is_attempt_id : string -> bool := prefixed_hex "attempt-" 12.
Definition is_gap_id : string -> bool := prefixed_hex "gap-" 12.

(** The model validators of the five collector attempts *)
Definition validate_attempt_outcome (a : CollectorAttempt) : result unit :=
  _ ← guard_or (ValidationError "attemptId") (is_attempt_id (ca_attempt_id a));
  _ ← guard_or (AthenaValidationError "requestDigest must be a sha256 digest") (is_sha256_digest (ca_request_digest a));
  match ca_outcome a with
  | SuccessResponse response_digest response_received_at =>
      _ ← guard_or (AthenaValidationError "responseDigest must be a sha256 digest") (is_sha256_digest response_digest);
      raise_if (AthenaValidationError "responseReceivedAt must not precede attemptStartedAt")
        (response_received_at <? ca_attempt_started_at a)
  | FailedResponse _ _ failure_digest response_received_at =>
      _ ← guard_or (AthenaValidationError "failureDigest must be a sha256 digest") (is_sha256_digest failure_digest);
      raise_if (AthenaValidationError "responseReceivedAt must not precede attemptStartedAt")
        (response_received_at <? ca_attempt_started_at a)
  | TimeoutNoResponse deadline_at timed_out_at =>
      _ ← raise_if (AthenaValidationError "deadlineAt must not precede attemptStartedAt")
            (deadline_at <? ca_attempt_started_at a);
      raise_if (AthenaValidationError "timedOutAt must be after deadlineAt") (timed_out_at <=? deadline_at)
  | AuthorizationFailure _ observed_at | ToolUnavailable _ observed_at =>
      raise_if (AthenaValidationError "observedAt must not precede attemptStartedAt")
        (observed_at <? ca_attempt_started_at a)
  end.

Definition validate_attempt (a : CollectorAttempt) : result unit :=
  _ ← validate_attempt_outcome a;
  expected ← compute_attempt_digest a;
  guard_or (AthenaValidationError "attemptDigest mismatched the canonical attempt payload")
    (String.eqb (ca_attempt_digest a) expected).

(** ** Records *)

(** EvidenceRecordProvenance.validate_record_provenance *)
Definition validate_record_provenance (p : EvidenceRecordProvenance) : result unit :=
  _ ← guard_or (AthenaValidationError "sourceResponseDigest must be a sha256 digest")
        (optional_sha256_digest (ep_source_response_digest p));
  _ ← guard_or (AthenaValidationError "failurePayloadDigest must be a sha256 digest")
        (optional_sha256_digest (ep_failure_payload_digest p));
  _ ← guard_or (AthenaValidationError "sourceResponsePointer must be an approved response envelope path")
        (optional_pointer is_response_pointer (ep_source_response_pointer p));
  _ ← guard_or (AthenaValidationError "failurePayloadPointer must be an approved failure envelope path")
        (optional_pointer is_failure_pointer (ep_failure_payload_pointer p));
  _ ← guard_or (AthenaValidationError "source response digest and pointer must appear together")
        (appear_together (ep_source_response_digest p) (ep_source_response_pointer p));
  _ ← guard_or (AthenaValidationError "failure payload digest and pointer must appear together")
        (appear_together (ep_failure_payload_digest p) (ep_failure_payload_pointer p));
  raise_if (AthenaValidationError "record provenance cannot contain both response and failure payload fields")
    (present (ep_source_response_digest p) && present (ep_failure_payload_digest p)).

(** _validate_evidence_record_digest *)
Definition validate_evidence_record_digest (r : EvidenceRecord) : result unit :=
  _ ← guard_or (AthenaValidationError "evidence record itemDigest must be a sha256 digest")
        (is_sha256_digest (er_item_digest r));
  expected ← compute_evidence_record_digest r;
  guard_or (AthenaValidationError "evidence record itemDigest mismatched the canonical record")
    (String.eqb (er_item_digest r) expected).

(** A field of type AzureResourceIdentifier and its [validate_resource_id] *)
Definition validate_resource_id_field (value : string) : result unit :=
  _ ← guard_or (ValidationError "resourceId") (azure_resource_identifier value);
  _ ← parse_azure_resource_id value;
  Ok tt.

Definition validate_endpoint (e : EvidenceRelationshipEndpoint) : result unit :=
  match e with EvidenceResourceRef resource_id => validate_resource_id_field resource_id | _ => Ok tt end.

(** The field validators of a record, then its model validator *)
Definition validate_record_fields (r : EvidenceRecord) : result unit :=
  match r with
  | ResourceRecord r =>
      _ ← require_approved_tag (re_tags r); validate_resource_id_field (re_resource_id r)
  | ObservedRelationshipRecord r =>
      _ ← validate_endpoint (ov_source (oe_relationship r)); validate_endpoint (ov_target (oe_relationship r))
  | MetricAggregateRecord r =>
      _ ← validate_resource_id_field (me_resource_id r);
      raise_if (AthenaValidationError "metric windowStart must not be after windowEnd") (me_window_end r <? me_window_start r)
  | HealthEventRecord r =>
      raise_if (AthenaValidationError "health event startedAt must not be after endedAt") (he_ended_at r <? he_started_at r)
  | ActivitySummaryRecord r =>
      raise_if (AthenaValidationError "activity windowStart must not be after windowEnd") (ae_window_end r <? ae_window_start r)
  | AdvisorRecommendationRecord r => validate_resource_id_field (ar_resource_id r)
  | GapRecord r =>
      _ ← guard_or (AthenaValidationError "evidence gap failurePayloadDigest must be a sha256 digest")
            (optional_sha256_digest (ge_failure_payload_digest r));
      _ ← guard_or (AthenaValidationError "evidence gap failure payload digest and pointer must appear together")
            (appear_together (ge_failure_payload_digest r) (ge_failure_payload_pointer r));
      guard_or (AthenaValidationError "evidence gap failurePayloadPointer is not an approved envelope path")
        (optional_pointer is_failure_pointer (ge_failure_payload_pointer r))
  end.

Definition validate_evidence_record (r : EvidenceRecord) : result unit :=
  _ ← match er_provenance r with Some p => validate_record_provenance p | None => Ok tt end;
  _ ← validate_record_fields r;
  validate_evidence_record_digest r.

(** ** Identity evidence *)

(** VerifiedTokenClaims.validate_claims *)
Definition validate_claims (c : VerifiedTokenClaims) : result unit :=
  _ ← raise_if (AthenaValidationError "issuer must be an Entra issuer URL")
        (negb (contains (vt_tenant_id c) (vt_issuer c)) && negb (contains (vt_tenant_id c) (vt_audience c)) &&
         negb (starts_with "https://login.microsoftonline.com/" (vt_issuer c) ||
               starts_with "https://sts.windows.net/" (vt_issuer c)));
  _ ← raise_if (AthenaValidationError "issuer must contain the tenantId for the MCP host token")
        (starts_with "https://login.microsoftonline.com/" (vt_issuer c) && negb (contains (vt_tenant_id c) (vt_issuer c)));
  _ ← guard_or (AthenaValidationError "verified token times must satisfy issuedAt <= notBefore < expiresAt")
        ((vt_issued_at c <=? vt_not_before c) && (vt_not_before c <? vt_expires_at c));
  guard_or (AthenaValidationError "subject must match the managed identity object or client id")
    (bool_decide (vt_subject c ∈ [vt_managed_identity_object_id c; vt_managed_identity_client_id c])).

(** TokenVerification.validate_digest *)
Definition validate_token_verification (t : TokenVerification) : result unit :=
  _ ← validate_claims (tv_verified_claims t);
  expected_claims_digest ← compute_verified_claims_digest (tv_verified_claims t);
  _ ← guard_or (AthenaValidationError "TokenVerification.jtiDigest must equal verifiedClaims.jtiDigest")
        (String.eqb (tv_jti_digest t) (vt_jti_digest (tv_verified_claims t)));
  _ ← guard_or (AthenaValidationError "TokenVerification.verifiedClaimsDigest mismatched the complete verified claims")
        (String.eqb (tv_verified_claims_digest t) expected_claims_digest);
  _ ← guard_or (AthenaValidationError "TokenVerification.tokenVerificationDigest must be a sha256 digest")
        (is_sha256_digest (tv_token_verification_digest t));
  expected ← compute_token_verification_digest t;
  guard_or (AthenaValidationError "TokenVerification.tokenVerificationDigest mismatched its canonical preimage")
    (String.eqb (tv_token_verification_digest t) expected).

(** AttemptBinding.validate_attempt_binding *)
Definition validate_attempt_binding (b : AttemptBinding) : result unit :=
  _ ← guard_or (AthenaValidationError "attempt binding digests must be sha256 digests")
        (is_sha256_digest (bn_attempt_digest b) && is_sha256_digest (bn_request_digest b) &&
         optional_sha256_digest (bn_response_digest b) && optional_sha256_digest (bn_failure_digest b));
  match bn_attempt_type b with
  | AtSuccessResponse | AtFailedResponse =>
      _ ← match bn_attempt_type b with
          | AtSuccessResponse =>
              raise_if (AthenaValidationError "successResponse attempts require responseDigest and no failureDigest")
                (negb (present (bn_response_digest b)) || present (bn_failure_digest b))
          | _ =>
              raise_if (AthenaValidationError "failedResponse attempts require failureDigest and no responseDigest")
                (negb (present (bn_failure_digest b)) || present (bn_response_digest b))
          end;
      _ ← match bn_response_received_at b with
          | Some t => raise_if (AthenaValidationError "responseReceivedAt must not precede attemptStartedAt")
                        (t <? bn_attempt_started_at b)
          | None => Raise (AthenaValidationError "response attempts require responseReceivedAt")
          end;
      raise_if (AthenaValidationError "attempt binding contains fields from another variant")
        (present (bn_deadline_at b) || present (bn_timed_out_at b) || present (bn_observed_at b))
  | AtTimeoutNoResponse =>
      match bn_deadline_at b, bn_timed_out_at b with
      | Some deadline_at, Some timed_out_at =>
          _ ← raise_if (AthenaValidationError "timeoutNoResponse attempts must omit responseDigest and failureDigest")
                (present (bn_response_digest b) || present (bn_failure_digest b));
          _ ← raise_if (AthenaValidationError "deadlineAt must not precede attemptStartedAt")
                (deadline_at <? bn_attempt_started_at b);
          _ ← raise_if (AthenaValidationError "timedOutAt must be after deadlineAt") (timed_out_at <=? deadline_at);
          raise_if (AthenaValidationError "attempt binding contains fields from another variant")
            (present (bn_response_received_at b) || present (bn_observed_at b))
      | _, _ => Raise (AthenaValidationError "timeoutNoResponse attempts require deadlineAt and timedOutAt")
      end
  | AtAuthorizationFailure | AtToolUnavailable =>
      match bn_observed_at b with
      | Some observed_at =>
          _ ← raise_if (AthenaValidationError "attempts must omit responseDigest and failureDigest")
                (present (bn_response_digest b) || present (bn_failure_digest b));
          _ ← raise_if (AthenaValidationError "observedAt must not precede attemptStartedAt")
                (observed_at <? bn_attempt_started_at b);
          raise_if (AthenaValidationError "attempt binding contains fields from another variant")
            (present (bn_response_received_at b) || present (bn_deadline_at b) || present (bn_timed_out_at b))
      | None => Raise (AthenaValidationError "attempts require observedAt")
      end
  end.

(** IngestionDerivation.validate_derivation *)
Definition validate_derivation (d : IngestionDerivation) : result unit :=
  _ ← validate_attempt_binding (id_attempt_binding d);
  _ ← guard_or (AthenaValidationError "IngestionDerivation digests must be sha256 digests")
        (forallb is_sha256_digest [id_token_hash d; id_token_verification_digest d; id_verified_claims_digest d;
                                   id_tool_allowlist_digest d; id_derivation_digest d]);
  expected ← compute_artifact_digest (JObj (without_fields ["derivationDigest"] (derivation_members d)));
  guard_or (AthenaValidationError "IngestionDerivation.derivationDigest mismatched the canonical preimage")
    (String.eqb (id_derivation_digest d) expected).

(** The last two parts of [key_vault_key_id.split("/")] *)
Definition key_id_parts (key_vault_key_id : string) : string * string :=
  match rev (split_on slash key_vault_key_id) with
  | version :: name :: _ => (name, version)
  | _ => ("", "")
  end.

(** [^https://[A-Za-z0-9-]+\.vault\.azure\.net/keys/[A-Za-z0-9-]{1,127}/[A-Fa-f0-9]{32}$] *)
Definition is_valid_key_vault_key_id (value : string) : bool :=
  match split_on slash value with
  | [scheme; empty; host; keys; name; version] =>
      let dashed := all_chars (fun c => is_alnum c || Ascii.eqb c "-") in
      String.eqb scheme "https:" && String.eqb empty "" && String.eqb keys "keys" &&
      ends_with ".vault.azure.net" host &&
      (let vault := removesuffix ".vault.azure.net" host in negb (String.eqb vault "") && dashed vault) &&
      negb (String.eqb name "") && (String.length name <=? 127)%nat && dashed name &&
      (String.length version =? 32)%nat && all_chars is_hex version
  | _ => false
  end.

(** IngestionSignature.validate_signature *)
Definition validate_signature (s : IngestionSignature) : result unit :=
  _ ← guard_or (AthenaValidationError "keyVaultKeyId does not match the Azure Key Vault key pattern")
        (is_valid_key_vault_key_id (is_key_vault_key_id s));
  _ ← guard_or (AthenaValidationError "ingestionSignature.trustAnchorRef must equal keyVaultKeyId")
        (String.eqb (is_trust_anchor_ref s) (is_key_vault_key_id s));
  _ ← guard_or (AthenaValidationError "ingestion signature key name/version must exactly match keyVaultKeyId")
        (bool_decide ((is_key_name s, is_key_version s) = key_id_parts (is_key_vault_key_id s)));
  _ ← guard_or (AthenaValidationError "IngestionSignature.signedPreimageDigest must be a sha256 digest")
        (is_sha256_digest (is_signed_preimage_digest s));
  raise_if (AthenaValidationError "Key Vault signature must not be empty or use alg none")
    (bool_decide (is_signature s ∈ ["none"; ""; "alg:none"])).

(** CollectorIdentityEvidence.validate_identity_evidence *)
Definition check_identity_evidence (i : CollectorIdentityEvidence) : result unit :=
  let claims := ie_verified_claims i in
  let verification := ie_token_verification i in
  let derivation := ie_ingestion_derivation i in
  let signature := ie_ingestion_signature i in
  _ ← guard_or (AthenaValidationError "JWT alg must be RS256") (String.eqb (jh_alg (ie_jwt_header i)) "RS256");
  _ ← guard_or (AthenaValidationError "jwtHeader.kid must match tokenVerification.keyId")
        (String.eqb (jh_kid (ie_jwt_header i)) (tv_key_id verification));
  _ ← guard_or (AthenaValidationError "trustAnchorRef must match ingestionSignature.trustAnchorRef")
        (String.eqb (ie_trust_anchor_ref i) (is_trust_anchor_ref signature));
  _ ← guard_or (AthenaValidationError "tokenHash must match ingestionDerivation.tokenHash")
        (String.eqb (ie_token_hash i) (id_token_hash derivation));
  _ ← guard_or (AthenaValidationError "tokenVerification.status must equal ingestionDerivation.tokenVerificationStatus")
        (String.eqb (tv_status verification) (id_token_verification_status derivation));
  _ ← guard_or (AthenaValidationError "tokenVerificationDigest must equal ingestionDerivation.tokenVerificationDigest")
        (String.eqb (tv_token_verification_digest verification) (id_token_verification_digest derivation));
  expected_claims_digest ← compute_verified_claims_digest claims;
  _ ← guard_or (AthenaValidationError "tokenVerification.verifiedClaims must equal identityEvidence.verifiedClaims")
        (bool_decide (tv_verified_claims verification = claims));
  _ ← guard_or (AthenaValidationError "complete verified claims digest must match")
        (String.eqb (tv_verified_claims_digest verification) expected_claims_digest &&
         String.eqb (id_verified_claims_digest derivation) expected_claims_digest);
  _ ← guard_or (AthenaValidationError "jtiDigest values must equal verifiedClaims.jtiDigest")
        (String.eqb (tv_jti_digest verification) (vt_jti_digest claims) &&
         String.eqb (id_jti_digest derivation) (vt_jti_digest claims));
  _ ← guard_or (AthenaValidationError "verifiedClaims.audience must equal ingestionDerivation.ingestionAudience")
        (String.eqb (vt_audience claims) (id_ingestion_audience derivation));
  _ ← guard_or (AthenaValidationError "tokenVerification.verifiedAt must fall inside the verified token lifetime")
        ((vt_not_before claims <=? tv_verified_at verification) && (tv_verified_at verification <? vt_expires_at claims));
  _ ← guard_or (AthenaValidationError "tokenVerification.status must be valid for persisted collector identity evidence")
        (String.eqb (tv_status verification) "valid");
  _ ← raise_if (AthenaValidationError "ingestionSignature.signedAt must not precede ingestionDerivation.derivedAt")
        (is_signed_at signature <? id_derived_at derivation);
  expected_identity_digest ← compute_collector_identity_evidence_digest i;
  _ ← guard_or (AthenaValidationError "identityEvidenceDigest mismatched the canonical record without its own digest")
        (String.eqb (ie_identity_evidence_digest i) expected_identity_digest);
  _ ← guard_or (AthenaValidationError "verifiedClaims.tenantId must equal ingestionDerivation.mcpHostTenantId")
        (String.eqb (vt_tenant_id claims) (id_mcp_host_tenant_id derivation));
  _ ← guard_or (AthenaValidationError "verifiedClaims.managedIdentityObjectId must equal the derivation's")
        (String.eqb (vt_managed_identity_object_id claims) (id_mcp_host_managed_identity_object_id derivation));
  _ ← guard_or (AthenaValidationError "verifiedClaims.managedIdentityClientId must equal the derivation's")
        (String.eqb (vt_managed_identity_client_id claims) (id_mcp_host_managed_identity_client_id derivation));
  guard_or (AthenaValidationError "identityEvidenceId must equal ingestionDerivation.identityEvidenceId")
    (String.eqb (ie_identity_evidence_id i) (id_identity_evidence_id derivation)).

Definition validate_identity_evidence (i : CollectorIdentityEvidence) : result unit :=
  _ ← validate_claims (ie_verified_claims i);
  _ ← validate_token_verification (ie_token_verification i);
  _ ← validate_derivation (ie_ingestion_derivation i);
  _ ← validate_signature (ie_ingestion_signature i);
  check_identity_evidence i.

(** ** The attestation *)

(** SnapshotAttestation.validate_attestation *)
Definition validate_attestation (a : SnapshotAttestation) : result unit :=
  _ ← guard_or (AthenaValidationError "snapshot attestation identityEvidenceDigests must be unique and sorted")
        (bool_decide (sn_identity_evidence_digests a = sort_strings (remove_dups (sn_identity_evidence_digests a))));
  _ ← raise_if (AthenaValidationError "snapshot attestation collectedAt must precede expiresAt")
        (sn_expires_at a <=? sn_collected_at a);
  _ ← raise_if (AthenaValidationError "snapshot attestation attestedAt must be inside the snapshot lifetime")
        ((sn_attested_at a <? sn_collected_at a) || (sn_expires_at a <=? sn_attested_at a));
  _ ← guard_or (AthenaValidationError "snapshot attestation key identity must exactly match its trust anchor")
        (String.eqb (sn_trust_anchor_ref a) (sn_key_vault_key_id a) &&
         bool_decide ((sn_key_name a, sn_key_version a) = key_id_parts (sn_key_vault_key_id a)));
  expected ← compute_snapshot_attestation_preimage_digest a;
  guard_or (AthenaValidationError "snapshot attestation signedPreimageDigest mismatched its canonical preimage")
    (String.eqb (sn_signed_preimage_digest a) expected).

(** The digest comparisons of [_snapshot_attestation_matches_components] stop at
    the first that differs. *)
Definition digest_matches (expected : string) (actual : result string) : result bool :=
  actual ← actual; Ok (String.eqb expected actual).

(** _snapshot_attestation_matches_components *)
Definition snapshot_attestation_matches_components (s : EvidenceSnapshot) (artifact_digest semantic_digest : string)
    : result bool :=
  let a := es_snapshot_attestation s in
  let c := es_compatibility s in
  let identity_digests := ie_identity_evidence_digest <$> es_identity_evidence s in
  allR [Ok (String.eqb (sn_artifact_kind a) (cm_artifact_kind c)); Ok (String.eqb (sn_schema_version a) (cm_schema_version c));
        Ok (String.eqb (sn_semantic_contract_version a) (cm_semantic_contract_version c));
        Ok (String.eqb (sn_policy_contract_version a) (cm_policy_contract_version c));
        Ok (String.eqb (sn_snapshot_id a) (es_snapshot_id s)); Ok (String.eqb (sn_artifact_digest a) artifact_digest);
        Ok (String.eqb (sn_semantic_digest a) semantic_digest);
        Ok (forallb (fun d => bool_decide (d ∈ sn_identity_evidence_digests a)) identity_digests);
        digest_matches (sn_identity_evidence_set_digest a)
          (compute_artifact_digest (texts_json (sn_identity_evidence_digests a)));
        Ok (sn_collected_at a =? es_collected_at s); Ok (sn_expires_at a =? es_expires_at s);
        digest_matches (sn_authorized_scopes_digest a) (compute_authorized_scopes_digest s);
        digest_matches (sn_collector_attempt_set_digest a) (compute_collector_attempt_set_digest s);
        digest_matches (sn_evidence_record_set_digest a) (compute_evidence_record_set_digest s);
        digest_matches (sn_evidence_reference_set_digest a) (compute_evidence_reference_set_digest s)].
End rules.
