(* ===== verification/SnapshotValidation.v ===== *)
(** * SnapshotValidation: EvidenceSnapshot.validate_snapshot

    The model validator of contracts/models.py, a definition per loop and per
    branch, and the construction of a snapshot: the validators of its parts, then
    its own. The dicts of attempts are [gmap]s, the sets of seen keys [gset]s. *)
From S2P Require Import Prelude Text Time Json.
From S2P Require Export SnapshotRules.
Local Open Scope Z_scope.

(** [attempt_lookup_by_id] and [attempt_lookup_by_digest] *)
Record AttemptLookup := {
  al_by_id : gmap string CollectorAttempt;
  al_by_digest : gmap string CollectorAttempt;
}.

Section validation.
Context `{PyText} `{Rfc8785}.

(** ** Scopes *)

(** A subscription or resource group of the collector's tenant that contains a
    resource id *)
Definition is_bound_parent (tenant_id : string) (resource_id : string) (parent : EvidenceScope) : result bool :=
  match parent with
  | SubscriptionScope tenant_id' _ | ResourceGroupScope tenant_id' _ _ =>
      if String.eqb tenant_id' tenant_id then
        parts ← parse_azure_resource_id resource_id;
        Ok (components_contain (default [] (scope_components parent)) parts)
      else Ok false
  | _ => Ok false
  end.

(** One turn of the loop over the authorized scopes *)
Definition check_authorized_scope (s : EvidenceSnapshot) (scope : EvidenceScope) : result unit :=
  _ ← guard_or (AthenaValidationError "authorized scope tenantId must match the snapshot collector tenantId")
        (match scope_tenant_id scope with
         | Some tenant_id => String.eqb tenant_id (sc_tenant_id (es_collector s))
         | None => true
         end);
  match scope with
  | ResourceIdScope resource_id =>
      _ ← parse_azure_resource_id resource_id;
      bound ← anyR (is_bound_parent (sc_tenant_id (es_collector s)) resource_id) (es_authorized_scopes s);
      guard_or (AthenaValidationError "resourceId authorized scopes require a matching tenant-bound parent scope") bound
  | _ => Ok tt
  end.

Definition check_authorized_scopes (s : EvidenceSnapshot) : result unit :=
  texts ← mapR (fun scope => canonicalize_json (evidence_scope_json scope)) (es_authorized_scopes s);
  _ ← guard_or (AthenaValidationError "authorizedScopes must not contain duplicates") (unique texts);
  _ ← mapR (check_authorized_scope s) (es_authorized_scopes s);
  Ok tt.

(** [resource_id_is_authorized] *)
Definition resource_id_is_authorized (s : EvidenceSnapshot) (resource_id : string) : result bool :=
  candidate_parts ← parse_azure_resource_id resource_id;
  anyR (fun scope =>
          container_parts ← resource_id_parts_from_scope scope;
          Ok (match container_parts with Some parts => components_contain parts candidate_parts | None => false end))
    (es_authorized_scopes s).

(** [any(_scope_contains(auth_scope, candidate) for auth_scope in self.authorized_scopes)] *)
Definition scope_is_authorized (s : EvidenceSnapshot) (candidate : EvidenceScope) : result bool :=
  anyR (fun auth_scope => scope_contains_scope auth_scope candidate) (es_authorized_scopes s).

(** ** Identities and attempts *)
Definition check_identity_refs (s : EvidenceSnapshot) : result unit :=
  match es_identity_evidence s with
  | [] => Ok tt
  | identities =>
      let ids := ie_identity_evidence_id <$> identities in
      _ ← guard_or (AthenaValidationError "identityEvidence must contain unique identityEvidenceId values") (unique ids);
      _ ← guard_or (AthenaValidationError "collectorAttempts must resolve to a trusted identityEvidence record")
            (forallb (fun a => bool_decide (ca_collector_identity_evidence_ref a ∈ ids)) (es_collector_attempts s));
      guard_or (AthenaValidationError "evidence records must resolve to a trusted identityEvidence record")
        (forallb (fun r => bool_decide (er_collector_identity_evidence_ref r ∈ ids)) (es_evidence_records s))
  end.

(** One turn of the loop over the attempts *)
Definition add_attempt (s : EvidenceSnapshot) (lookup : AttemptLookup) (a : CollectorAttempt) : result AttemptLookup :=
  _ ← guard_or (AthenaValidationError "collectorAttempts must reference the snapshot collectorIdentityEvidenceRef")
        (String.eqb (ca_collector_identity_evidence_ref a) (sc_collector_identity_evidence_ref (es_collector s)));
  _ ← raise_if (AthenaValidationError "collectorAttempts must have unique attemptId values")
        (bool_decide (is_Some (al_by_id lookup !! ca_attempt_id a)));
  _ ← raise_if (AthenaValidationError "collectorAttempts must have unique attemptDigest values")
        (bool_decide (is_Some (al_by_digest lookup !! ca_attempt_digest a)));
  Ok {| al_by_id := <[ca_attempt_id a := a]> (al_by_id lookup);
        al_by_digest := <[ca_attempt_digest a := a]> (al_by_digest lookup) |}.

Definition attempt_lookup (s : EvidenceSnapshot) : result AttemptLookup :=
  foldR (add_attempt s) {| al_by_id := ∅; al_by_digest := ∅ |} (es_collector_attempts s).

(** ** Records *)

(** The checks of a record that has a provenance against its attempt *)
Definition check_record_provenance (s : EvidenceSnapshot) (a : CollectorAttempt) (p : EvidenceRecordProvenance)
    : result unit :=
  _ ← guard_or (AthenaValidationError "record provenance attemptId must match the selected collector attempt")
        (String.eqb (ep_collector_attempt_id p) (ca_attempt_id a));
  _ ← guard_or (AthenaValidationError "record provenance toolName must match the selected collector attempt")
        (String.eqb (ep_tool_name p) (ca_tool_name a));
  _ ← guard_or (AthenaValidationError "record provenance toolVersion must match the selected collector attempt")
        (String.eqb (ep_tool_version p) (ca_tool_version a));
  _ ← guard_or (AthenaValidationError "record provenance identityEvidenceRef must match the snapshot collector evidence ref")
        (String.eqb (ep_collector_identity_evidence_ref p) (sc_collector_identity_evidence_ref (es_collector s)));
  match ca_outcome a with
  | SuccessResponse response_digest _ =>
      _ ← guard_or (AthenaValidationError "record provenance sourceResponseDigest must match the selected successful attempt")
            (bool_decide (ep_source_response_digest p = Some response_digest));
      _ ← guard_or (AthenaValidationError "successResponse provenance requires a sourceResponsePointer")
            (present (ep_source_response_pointer p));
      raise_if (AthenaValidationError "successful concrete evidence must not carry failure payload fields")
        (present (ep_failure_payload_digest p))
  | _ => Ok tt
  end.

(** The branch of the loop for an [evidenceGap] *)
Definition check_gap_record (s : EvidenceSnapshot) (a : CollectorAttempt) (r : EvidenceGapRecord) : result unit :=
  _ ← guard_or (AthenaValidationError "evidenceGap observedAt must equal the selected attempt observation time")
        (ge_observed_at r =? attempt_observation_time a);
  contained ← (if bool_decide (ge_evidence_scope r ∈ es_authorized_scopes s) then Ok true
               else scope_is_authorized s (ge_evidence_scope r));
  _ ← guard_or (AthenaValidationError "evidenceGap record scope must be contained by the snapshot authorized scopes") contained;
  match ca_outcome a with
  | FailedResponse _ _ failure_digest _ =>
      guard_or (AthenaValidationError "failedResponse gaps require the exact failure digest and pointer")
        (bool_decide (ge_failure_payload_digest r = Some failure_digest) && present (ge_failure_payload_pointer r))
  | SuccessResponse response_digest _ =>
      _ ← guard_or (AthenaValidationError "successResponse gap reason is not allowed by the closed variant")
            (bool_decide (ge_gap_reason r ∈ ["filtered"; "malformed"; "stale"; "scopeMismatch"; "responseOversized"]));
      guard_or (AthenaValidationError "successResponse gaps require the exact response digest and offending-item pointer")
        (bool_decide (ge_failure_payload_digest r = Some response_digest) && present (ge_failure_payload_pointer r))
  | _ =>
      raise_if (AthenaValidationError "no-response gaps must not fabricate failure payload fields")
        (present (ge_failure_payload_digest r) || present (ge_failure_payload_pointer r))
  end.

(** The check of one relationship endpoint *)
Definition check_endpoint_authorized (s : EvidenceSnapshot) (e : EvidenceRelationshipEndpoint) : result unit :=
  match e with
  | EvidenceResourceRef resource_id =>
      authorized ← resource_id_is_authorized s resource_id;
      guard_or (AthenaValidationError "relationship resource endpoint is outside the snapshot authorized scopes") authorized
  | _ => Ok tt
  end.

(** The branch of the loop for the other records *)
Definition check_concrete_record (s : EvidenceSnapshot) (a : CollectorAttempt) (r : EvidenceRecord) : result unit :=
  _ ← guard_or (AthenaValidationError "concrete evidence records must reference a successResponse collector attempt only")
        (bool_decide (ca_attempt_type a = AtSuccessResponse));
  _ ← match er_evidence_scope r with
      | Some scope =>
          contained ← scope_is_authorized s scope;
          guard_or (AthenaValidationError "concrete evidence record scope must be contained by the snapshot authorized scopes")
            contained
      | None => Ok tt
      end;
  _ ← match er_resource_id r with
      | Some resource_id =>
          authorized ← resource_id_is_authorized s resource_id;
          guard_or (AthenaValidationError "evidence record resourceId is outside the snapshot authorized scopes") authorized
      | None => Ok tt
      end;
  match r with
  | ObservedRelationshipRecord r =>
      _ ← check_endpoint_authorized s (ov_source (oe_relationship r));
      check_endpoint_authorized s (ov_target (oe_relationship r))
  | _ => Ok tt
  end.

(** [record_key] *)
Definition record_key (r : EvidenceRecord) : string :=
  match r with GapRecord r => ge_gap_id r | _ => er_item_digest r end.

(** One turn of the loop over the records; the set is [seen_record_ids]. *)
Definition check_record (s : EvidenceSnapshot) (lookup : AttemptLookup) (seen : gset string) (r : EvidenceRecord)
    : result (gset string) :=
  _ ← guard_or (AthenaValidationError "evidence records must reference the snapshot collectorIdentityEvidenceRef")
        (String.eqb (er_collector_identity_evidence_ref r) (sc_collector_identity_evidence_ref (es_collector s)));
  match al_by_digest lookup !! er_collector_attempt_digest r with
  | None => Raise (AthenaValidationError "evidence record references an unknown collector attempt")
  | Some a =>
      _ ← match r with
          | GapRecord g =>
              _ ← guard_or (AthenaValidationError "evidence record attemptId does not match its collector attempt")
                    (String.eqb (ca_attempt_id a) (ge_collector_attempt_id g));
              check_gap_record s a g
          | _ =>
              _ ← match er_provenance r with Some p => check_record_provenance s a p | None => Ok tt end;
              check_concrete_record s a r
          end;
      _ ← raise_if (AthenaValidationError "evidence records must have unique itemDigest/gapId values")
            (bool_decide (record_key r ∈ seen));
      Ok ({[record_key r]} ∪ seen)
  end.

(** ** References *)

(** The first checks of a reference *)
Definition check_snapshot_binding (s : EvidenceSnapshot) (ref : EvidenceReference) : result unit :=
  _ ← guard_or (AthenaValidationError "snapshotId must match the current snapshot")
        (String.eqb (ref_snapshot_id ref) (es_snapshot_id s));
  _ ← guard_or (AthenaValidationError "snapshotArtifactDigest must match the current snapshot artifact digest")
        (String.eqb (ref_snapshot_artifact_digest ref) (cm_artifact_digest (es_compatibility s)));
  guard_or (AthenaValidationError "snapshotSemanticDigest must match the current snapshot semantic digest")
    (String.eqb (ref_snapshot_semantic_digest ref) (cm_semantic_digest (es_compatibility s))).

(** The test that selects [matched_records] *)
Definition item_matches_record (ref : EvidenceItemRef) (r : EvidenceRecord) : bool :=
  match er_provenance r with
  | Some p =>
      String.eqb (er_item_digest r) (ir_item_digest ref) &&
      String.eqb (er_collector_attempt_digest r) (ir_collector_attempt_digest ref) &&
      String.eqb (er_collector_identity_evidence_ref r) (ir_collector_identity_evidence_ref ref) &&
      String.eqb (ep_collector_attempt_id p) (ir_collector_attempt_id ref) &&
      bool_decide (ep_source_response_digest p = Some (ir_source_response_digest ref)) &&
      bool_decide (ep_source_response_pointer p = Some (ir_source_response_pointer ref))
  | None => false
  end.

(** The test that selects [matched_gaps] *)
Definition gap_matches_record (ref : EvidenceGapRef) (r : EvidenceRecord) : bool :=
  match r with
  | GapRecord r =>
      String.eqb (ge_gap_id r) (gr_gap_id ref) && String.eqb (ge_item_digest r) (gr_gap_record_digest ref) &&
      String.eqb (ge_collector_attempt_id r) (gr_collector_attempt_id ref) &&
      String.eqb (ge_collector_attempt_digest r) (gr_collector_attempt_digest ref)
  | _ => false
  end.

(** The checks against the attempt a reference names *)
Definition check_reference_attempt (lookup : AttemptLookup) (attempt_id tool_name tool_version : string) (attempt_at : Z)
    : result unit :=
  match al_by_id lookup !! attempt_id with
  | None => Raise (AthenaValidationError "reference must resolve to a current snapshot collector attempt")
  | Some a =>
      _ ← guard_or (AthenaValidationError "collectorToolName must match the selected attempt")
            (String.eqb tool_name (ca_tool_name a));
      _ ← guard_or (AthenaValidationError "collectorToolVersion must match the selected attempt")
            (String.eqb tool_version (ca_tool_version a));
      guard_or (AthenaValidationError "collectorAttemptAt must equal the selected attempt observation time")
        (attempt_at =? attempt_observation_time a)
  end.

Definition check_item_ref (s : EvidenceSnapshot) (lookup : AttemptLookup) (ref : EvidenceItemRef) : result unit :=
  _ ← guard_or (AthenaValidationError "EvidenceItemRef must resolve exactly once to an item in the current snapshot")
        (length (select (item_matches_record ref) (es_evidence_records s)) =? 1)%nat;
  check_reference_attempt lookup (ir_collector_attempt_id ref) (ir_collector_tool_name ref)
    (ir_collector_tool_version ref) (ir_collector_attempt_at ref).

Definition check_gap_ref (s : EvidenceSnapshot) (lookup : AttemptLookup) (ref : EvidenceGapRef) : result unit :=
  match select (gap_matches_record ref) (es_evidence_records s) with
  | [GapRecord gap] =>
      _ ← check_reference_attempt lookup (gr_collector_attempt_id ref) (gr_collector_tool_name ref)
            (gr_collector_tool_version ref) (gr_collector_attempt_at ref);
      _ ← guard_or (AthenaValidationError "EvidenceGapRef.evidenceScope must match the resolved gap scope")
            (bool_decide (ge_evidence_scope gap = gr_evidence_scope ref));
      _ ← guard_or (AthenaValidationError "EvidenceGapRef.expectedRecordType must match the resolved gap")
            (String.eqb (ge_expected_record_type gap) (gr_expected_record_type ref));
      _ ← guard_or (AthenaValidationError "EvidenceGapRef.gapReason must match the resolved gap")
            (String.eqb (ge_gap_reason gap) (gr_gap_reason ref));
      _ ← guard_or (AthenaValidationError "EvidenceGapRef.collectorIdentityEvidenceRef must match the resolved gap")
            (String.eqb (ge_collector_identity_evidence_ref gap) (gr_collector_identity_evidence_ref ref));
      guard_or (AthenaValidationError "EvidenceGapRef failure payload fields must match the resolved gap")
        (bool_decide (ge_failure_payload_digest gap = gr_failure_payload_digest ref) &&
         bool_decide (ge_failure_payload_pointer gap = gr_failure_payload_pointer ref))
  | _ => Raise (AthenaValidationError "EvidenceGapRef must resolve exactly once to a gap in the current snapshot")
  end.

(** The last component of [key], which is also what joins [referenced_records];
    the class of the reference is the first. *)
Definition reference_target (ref : EvidenceReference) : string :=
  match ref with ItemRef ref => ir_item_digest ref | GapRef ref => gr_gap_id ref end.
Definition reference_key (ref : EvidenceReference) : bool * string * string :=
  (match ref with ItemRef _ => true | GapRef _ => false end, ref_snapshot_id ref, reference_target ref).

(** One turn of the loop over the references; the sets are [seen_refs] and
    [referenced_records]. *)
Definition check_reference (s : EvidenceSnapshot) (lookup : AttemptLookup)
    (state : gset (bool * string * string) * gset string) (ref : EvidenceReference)
    : result (gset (bool * string * string) * gset string) :=
  _ ← check_snapshot_binding s ref;
  _ ← match ref with ItemRef ref => check_item_ref s lookup ref | GapRef ref => check_gap_ref s lookup ref end;
  _ ← raise_if (AthenaValidationError "EvidenceSnapshot.evidenceRefs must contain each reference exactly once")
        (bool_decide (reference_key ref ∈ state.1));
  Ok ({[reference_key ref]} ∪ state.1, {[reference_target ref]} ∪ state.2).

(** ** The whole validator *)

(** [max(...)] of a sequence that has a first element *)
Definition latest (default : Z) (instants : list Z) : Z :=
  match instants with [] => default | t :: ts => foldl Z.max t ts end.

Definition check_snapshot_digests (s : EvidenceSnapshot) : result unit :=
  expected_artifact_digest ← compute_evidence_snapshot_artifact_digest s;
  _ ← guard_or (AthenaValidationError "EvidenceSnapshot compatibility.artifactDigest mismatched the canonical snapshot preimage")
        (String.eqb (cm_artifact_digest (es_compatibility s)) expected_artifact_digest);
  expected_semantic_digest ← compute_evidence_snapshot_semantic_digest s;
  _ ← guard_or (AthenaValidationError "EvidenceSnapshot compatibility.semanticDigest mismatched the semantic preimage")
        (String.eqb (cm_semantic_digest (es_compatibility s)) expected_semantic_digest);
  matches ← snapshot_attestation_matches_components s expected_artifact_digest expected_semantic_digest;
  guard_or (AthenaValidationError "SnapshotAttestation must exactly match all recomputed snapshot components") matches.

(** The last check: signed attempts and identities precede the attestation. *)
Definition check_attested_at (s : EvidenceSnapshot) : result unit :=
  _ ← raise_if (ValueError "max() iterable argument is empty") (bool_decide (es_collector_attempts s = []));
  let latest_attempt_time := latest 0 (attempt_observation_time <$> es_collector_attempts s) in
  let latest_identity_signature :=
    latest (es_collected_at s) ((fun i => is_signed_at (ie_ingestion_signature i)) <$> es_identity_evidence s) in
  raise_if (AthenaValidationError "SnapshotAttestation.attestedAt must follow all signed attempts and identities")
    (sn_attested_at (es_snapshot_attestation s) <? Z.max latest_attempt_time latest_identity_signature).

(** EvidenceSnapshot.validate_snapshot *)
Definition validate_snapshot (s : EvidenceSnapshot) : result unit :=
  _ ← guard_or (AthenaValidationError "EvidenceSnapshot compatibility.artifactKind must be evidenceSnapshot")
        (String.eqb (cm_artifact_kind (es_compatibility s)) "evidenceSnapshot");
  _ ← guard_or (AthenaValidationError "EvidenceSnapshot compatibility digests must be sha256 digests")
        (is_sha256_digest (cm_artifact_digest (es_compatibility s)) &&
         is_sha256_digest (cm_semantic_digest (es_compatibility s)));
  _ ← guard_or (AthenaValidationError "EvidenceSnapshot.collectedAt must be before expiresAt")
        (es_collected_at s <? es_expires_at s);
  _ ← check_authorized_scopes s;
  _ ← check_identity_refs s;
  lookup ← attempt_lookup s;
  seen_record_ids ← foldR (check_record s lookup) ∅ (es_evidence_records s);
  refs ← foldR (check_reference s lookup) (∅, ∅) (es_evidence_refs s);
  _ ← guard_or (AthenaValidationError "every evidence record must have exactly one matching evidence reference")
        (bool_decide (refs.2 = seen_record_ids));
  _ ← check_snapshot_digests s;
  check_attested_at s.

(** The list bounds of the fields of [EvidenceSnapshot] *)
Definition snapshot_bounds (s : EvidenceSnapshot) : bool :=
  let bounded (lo hi : Z) (n : nat) := (lo <=? Z.of_nat n) && (Z.of_nat n <=? hi) in
  bounded 1 100 (length (es_authorized_scopes s)) && bounded 1 500 (length (es_collector_attempts s)) &&
  bounded 0 30000 (length (es_evidence_records s)) && bounded 0 30000 (length (es_evidence_refs s)) &&
  bounded 0 500 (length (es_identity_evidence s)).

(** Constructing a snapshot: the fields in order, then the model validator. pydantic
    turns the [ValueError]s of validators into its [ValidationError]. *)
Definition construct_snapshot (s : EvidenceSnapshot) : result unit :=
  reraise is_value_error (ValidationError "EvidenceSnapshot") (
  _ ← guard_or (ValidationError "EvidenceSnapshot") (snapshot_bounds s);
  _ ← mapR validate_attempt (es_collector_attempts s);
  _ ← mapR validate_evidence_record (es_evidence_records s);
  _ ← mapR validate_identity_evidence (es_identity_evidence s);
  _ ← validate_attestation (es_snapshot_attestation s);
  validate_snapshot s).
End validation.
