(* ===== verification/SnapshotEvaluation.v ===== *)
(** * SnapshotEvaluation: EvidenceSnapshot.validate_for_evaluation

    The trust decision of contracts/models.py: signatures by a trusted key, and
    the check that a snapshot is published, fresh, signed, and that every record
    is the item of a response envelope its signed attempt digests. The caches of
    envelopes and pointers are explicit state. The cryptography package is the
    class [Cryptography].

    Then the snapshot capability of cohort proposals (binding/verification.py). *)
From S2P Require Import Prelude Text Sha256 Time Json Base64.
From S2P Require Export SnapshotValidation.
From Stdlib Require Import Ascii.
Local Open Scope Z_scope.

(** What the code uses of the cryptography package on a key [K]: [None] and
    [false] stand for the exceptions the code catches. *)
Class Cryptography (K : Type) := {
  load_pem_public_key : string -> option K;
  public_bytes : K -> option string;
  verify_pkcs1v15_sha256 : K -> string -> string -> bool;
}.

(** _require_utc_millisecond_datetime *)
Definition require_utc_millisecond_datetime (value : Z) : result unit :=
  raise_if (AthenaValidationError "precision must be exactly representable in milliseconds")
    (negb (microsecond value mod 1000 =? 0)).
Definition is_utc_millisecond (value : Z) : bool := microsecond value mod 1000 =? 0.

(** ** Signatures *)
Section signatures.
Context `{PyText} `{Rfc8785} {K : Type} `{Cryptography K}.

Definition load_public_key (public_key : PublicKey K) : option K :=
  match public_key with PemKey pem => load_pem_public_key pem | KeyObject key => Some key end.

(** _public_key_fingerprint *)
Definition public_key_fingerprint (public_key : PublicKey K) : result string :=
  match load_public_key public_key with
  | None => Raise (AthenaValidationError "trusted public key is not valid PEM")
  | Some key =>
      match public_bytes key with
      | None => Raise (AthenaValidationError "trusted public key cannot be fingerprinted")
      | Some encoded => Ok (sha256_hex encoded)
      end
  end.

(** TrustedKeyRecord.__post_init__ *)
Definition construct_trusted_key (r : TrustedKeyRecord K) : result unit :=
  _ ← mapR require_utc_millisecond_datetime
        ([kr_activated_at r] ++ option_list (kr_retired_at r) ++ option_list (kr_expires_at r));
  _ ← guard_or (AthenaValidationError "trusted key retirement must follow activation")
        (match kr_retired_at r with Some t => kr_activated_at r <? t | None => true end);
  _ ← guard_or (AthenaValidationError "trusted key expiry must follow activation")
        (match kr_expires_at r with Some t => kr_activated_at r <? t | None => true end);
  fingerprint ← public_key_fingerprint (kr_public_key r);
  guard_or (AthenaValidationError "trusted key record public key does not match the configured anchor fingerprint")
    (String.eqb fingerprint (ka_public_key_fingerprint (kr_anchor r))).

(** verify_key_vault_signature *)
Definition verify_key_vault_signature (raw_signature preimage : string) (public_key : PublicKey K) (algorithm : string)
    : bool :=
  String.eqb algorithm "RS256" && negb (bool_decide (raw_signature ∈ [""; "none"; "alg:none"])) &&
  match b64decode raw_signature with
  | None | Some EmptyString => false
  | Some signature_bytes =>
      match load_public_key public_key with
      | Some key => verify_pkcs1v15_sha256 key signature_bytes preimage
      | None => false
      end
  end.

(** [t is not None and (signed_at >= t or as_of >= t)] *)
Definition key_ended (t : option Z) (signed_at as_of : Z) : bool :=
  match t with Some t => (t <=? signed_at) || (t <=? as_of) | None => false end.

(** _resolve_valid_trusted_key *)
Definition resolve_valid_trusted_key (key_resolver : TrustedKeyAnchor -> result (option (TrustedKeyRecord K)))
    (anchor : TrustedKeyAnchor) (key_vault_key_id key_name key_version : string) (signed_at as_of : Z)
    : option (TrustedKeyRecord K) :=
  if negb (String.eqb key_vault_key_id (ka_key_vault_key_id anchor)) || negb (String.eqb key_name (ka_key_name anchor)) ||
     negb (String.eqb key_version (ka_key_version anchor)) || (as_of <? signed_at)
  then None
  else
    match key_resolver anchor with
    | Raise _ | Ok None => None
    | Ok (Some trusted_key) =>
        if bool_decide (kr_anchor trusted_key <> anchor) || negb (kr_enabled trusted_key) ||
           (signed_at <? kr_activated_at trusted_key) || key_ended (kr_retired_at trusted_key) signed_at as_of ||
           key_ended (kr_expires_at trusted_key) signed_at as_of
        then None else Some trusted_key
    end.

(** verify_snapshot_attestation_signature *)
Definition verify_snapshot_attestation_signature (a : SnapshotAttestation)
    (key_resolver : TrustedKeyAnchor -> result (option (TrustedKeyRecord K))) (anchor : TrustedKeyAnchor) (as_of : Z)
    : result bool :=
  if negb (is_utc_millisecond as_of) || negb (String.eqb (sn_trust_anchor_ref a) (sn_key_vault_key_id a)) ||
     (as_of <? sn_attested_at a)
  then Ok false
  else
    expected ← compute_snapshot_attestation_preimage_digest a;
    if negb (String.eqb (sn_signed_preimage_digest a) expected) then Ok false
    else
      match resolve_valid_trusted_key key_resolver anchor (sn_key_vault_key_id a) (sn_key_name a) (sn_key_version a)
              (sn_attested_at a) as_of with
      | None => Ok false
      | Some trusted_key =>
          preimage ← canonicalize_json (snapshot_attestation_preimage a);
          Ok (verify_key_vault_signature (sn_signature a) preimage (kr_public_key trusted_key) "RS256")
      end.

(** _attempt_observation_time, on an attempt binding: an instant that is [None]
    does not compare. *)
Definition binding_observation_time (b : AttemptBinding) : result Z :=
  match match bn_attempt_type b with
        | AtSuccessResponse | AtFailedResponse => bn_response_received_at b
        | AtTimeoutNoResponse => bn_timed_out_at b
        | AtAuthorizationFailure | AtToolUnavailable => bn_observed_at b
        end with
  | Some t => Ok t
  | None => Raise (TypeError "'>' not supported between instances of 'NoneType' and 'datetime'")
  end.

(** [signature_preimage] of [verify_trusted_ingestion_signature] *)
Definition derivation_payload (d : IngestionDerivation) : json :=
  JObj (without_fields ["derivationDigest"] (derivation_members d)).
Definition signature_preimage (s : IngestionSignature) (derivation : json) : json :=
  JObj [("signaturePreimageType", JStr "athena.trustedIngestionSignature"); ("signaturePreimageVersion", JStr "1.0.0");
        ("signatureAlgorithm", JStr (is_signature_algorithm s)); ("keyVaultKeyId", JStr (is_key_vault_key_id s));
        ("keyName", JStr (is_key_name s)); ("keyVersion", JStr (is_key_version s)); ("signedAt", JTime (is_signed_at s));
        ("trustAnchorRef", JStr (is_trust_anchor_ref s)); ("derivation", derivation)].

(** The comparisons of [verify_trusted_ingestion_signature] before its digests *)
Definition identity_consistent (i : CollectorIdentityEvidence) (anchor : TrustedKeyAnchor) : bool :=
  let claims := ie_verified_claims i in
  let derivation := ie_ingestion_derivation i in
  let signature := ie_ingestion_signature i in
  String.eqb (ie_trust_anchor_ref i) (is_trust_anchor_ref signature) &&
  String.eqb (ie_trust_anchor_ref i) (is_key_vault_key_id signature) &&
  String.eqb (ie_trust_anchor_ref i) (ka_key_vault_key_id anchor) &&
  String.eqb (is_key_version signature) (ka_key_version anchor) &&
  String.eqb (is_key_name signature) (ka_key_name anchor) &&
  String.eqb (tv_status (ie_token_verification i)) "valid" &&
  String.eqb (ie_identity_evidence_id i) (id_identity_evidence_id derivation) &&
  String.eqb (vt_tenant_id claims) (id_mcp_host_tenant_id derivation) &&
  String.eqb (vt_managed_identity_object_id claims) (id_mcp_host_managed_identity_object_id derivation) &&
  String.eqb (vt_managed_identity_client_id claims) (id_mcp_host_managed_identity_client_id derivation) &&
  bool_decide (vt_subject claims ∈ [vt_managed_identity_object_id claims; vt_managed_identity_client_id claims]) &&
  String.eqb (id_derived_collector_identity_ref derivation) (ie_identity_evidence_id i).

(** The digests of the claims and of the token verification *)
Definition identity_digests_match (i : CollectorIdentityEvidence) : result bool :=
  let claims := ie_verified_claims i in
  let verification := ie_token_verification i in
  let derivation := ie_ingestion_derivation i in
  expected_claims_digest ← compute_verified_claims_digest claims;
  if bool_decide (tv_verified_claims verification = claims) &&
     String.eqb (tv_verified_claims_digest verification) expected_claims_digest &&
     String.eqb (id_verified_claims_digest derivation) expected_claims_digest &&
     String.eqb (tv_jti_digest verification) (vt_jti_digest claims) &&
     String.eqb (id_jti_digest derivation) (vt_jti_digest claims)
  then digest_matches (tv_token_verification_digest verification) (compute_token_verification_digest verification)
  else Ok false.

(** [attempt is None or canonicalize_json(binding_payload) == canonicalize_json(...)] *)
Definition binding_matches (b : AttemptBinding) (attempt : option CollectorAttempt) : result bool :=
  match attempt with
  | None => Ok true
  | Some a =>
      left_text ← canonicalize_json (JObj (binding_members JTime b));
      right_text ← canonicalize_json (attempt_binding_payload a);
      Ok (String.eqb left_text right_text)
  end.

(** The last part of [verify_trusted_ingestion_signature]: the signed preimage and
    its signature *)
Definition signature_valid (i : CollectorIdentityEvidence)
    (key_resolver : TrustedKeyAnchor -> result (option (TrustedKeyRecord K))) (anchor : TrustedKeyAnchor) (as_of : Z)
    : result bool :=
  let signature := ie_ingestion_signature i in
  let preimage := signature_preimage signature (derivation_payload (ie_ingestion_derivation i)) in
  expected_signed_digest ← compute_artifact_digest preimage;
  if negb (String.eqb (is_signed_preimage_digest signature) expected_signed_digest) then Ok false
  else
    match resolve_valid_trusted_key key_resolver anchor (is_key_vault_key_id signature) (is_key_name signature)
            (is_key_version signature) (is_signed_at signature) as_of with
    | None => Ok false
    | Some trusted_key =>
        canonical ← canonicalize_json preimage;
        Ok (verify_key_vault_signature (is_signature signature) canonical (kr_public_key trusted_key)
              (is_signature_algorithm signature))
    end.

(** verify_trusted_ingestion_signature *)
Definition verify_trusted_ingestion_signature (i : CollectorIdentityEvidence)
    (key_resolver : TrustedKeyAnchor -> result (option (TrustedKeyRecord K))) (anchor : TrustedKeyAnchor) (as_of : Z)
    (attempt : option CollectorAttempt) : result bool :=
  let derivation := ie_ingestion_derivation i in
  let signature := ie_ingestion_signature i in
  allR [Ok (is_utc_millisecond as_of && identity_consistent i anchor);
        identity_digests_match i;
        observed_at ← binding_observation_time (id_attempt_binding derivation); Ok (observed_at <=? id_derived_at derivation);
        binding_matches (id_attempt_binding derivation) attempt;
        Ok ((tv_verified_at (ie_token_verification i) <=? id_derived_at derivation) &&
            (id_derived_at derivation <=? is_signed_at signature) && (is_signed_at signature <=? as_of));
        digest_matches (id_derivation_digest derivation) (compute_artifact_digest (derivation_payload derivation));
        signature_valid i key_resolver anchor as_of].
End signatures.

(** ** Envelopes *)

(** [0|[1-9][0-9]*] *)
Definition is_array_token (s : string) : bool :=
  String.eqb s "0" ||
  match s with
  | String c rest => is_digit c && negb (Ascii.eqb c "0") && all_chars is_digit rest
  | EmptyString => false
  end.

(** One step of the loop of [_resolve_json_pointer] *)
Definition pointer_step (current : json) (raw_token : string) : result json :=
  let token := replace "~0" "~" (replace "~1" "/" raw_token) in
  match current with
  | JObj members =>
      match assoc token members with
      | Some v => Ok v
      | None => Raise (AthenaValidationError "envelope pointer does not resolve")
      end
  | JArr l =>
      if is_array_token token then
        match l !! Z.to_nat (int_of_text token) with
        | Some v => Ok v
        | None => Raise (AthenaValidationError "envelope pointer does not resolve")
        end
      else Raise (AthenaValidationError "envelope array pointer token is invalid")
  | _ => Raise (AthenaValidationError "envelope pointer traverses a scalar value")
  end.

(** _resolve_json_pointer *)
Definition resolve_json_pointer (envelope : json) (pointer : string) : result json :=
  _ ← guard_or (AthenaValidationError "envelope pointer is not valid RFC 6901 syntax") (is_valid_json_pointer pointer);
  if String.eqb pointer "" then Ok envelope
  else foldR pointer_step envelope (tail (split_on slash pointer)).

Inductive EnvelopeKind := ResponseEnvelope | FailureEnvelope.
#[export] Instance EnvelopeKind_eq_dec : EqDecision EnvelopeKind.
Proof. solve_decision. Defined.
#[export] Instance EnvelopeKind_countable : Countable EnvelopeKind.
Proof.
  refine (inj_countable' (fun k => match k with ResponseEnvelope => true | FailureEnvelope => false end)
    (fun b => if b : bool then ResponseEnvelope else FailureEnvelope) _).
  by intros [].
Defined.

(** [envelope_cache] and [pointer_cache] *)
Record EnvelopeCaches := {
  ec_envelopes : gmap (string * EnvelopeKind * string) json;
  ec_pointers : gmap (string * EnvelopeKind * string * string) json;
}.

Section envelopes.
Context `{PyText} `{Rfc8785}.
Variable envelope_resolver : option (string -> EnvelopeKind -> string -> result (option json)).

Definition envelope_digest (kind : EnvelopeKind) : json -> result string :=
  match kind with
  | ResponseEnvelope => compute_response_envelope_digest
  | FailureEnvelope => compute_failure_envelope_digest
  end.
Definition envelope_preimage (kind : EnvelopeKind) : json -> result json :=
  match kind with
  | ResponseEnvelope => response_envelope_digest_preimage
  | FailureEnvelope => failure_envelope_digest_preimage
  end.

(** What [envelope_cache] stores: the digest-covered part of the envelope *)
Definition fetch_envelope (attempt_id : string) (kind : EnvelopeKind) (digest : string) : result json :=
  match envelope_resolver with
  | None => Raise (AthenaValidationError "snapshot evaluation requires an explicit trusted envelope_resolver")
  | Some resolver =>
      envelope ← resolver attempt_id kind digest;
      match envelope with
      | None => Raise (AthenaValidationError "trusted envelope resolver returned no digest-covered envelope")
      | Some envelope =>
          computed_digest ← envelope_digest kind envelope;
          _ ← guard_or (AthenaValidationError "trusted envelope resolver returned an envelope with a mismatched digest")
                (String.eqb computed_digest digest);
          envelope_preimage kind envelope
      end
  end.

(** [resolve_envelope_pointer_once] *)
Definition resolve_envelope_pointer_once (caches : EnvelopeCaches) (attempt_id : string) (kind : EnvelopeKind)
    (digest pointer : string) : result (json * EnvelopeCaches) :=
  _ ← guard_or (AthenaValidationError "snapshot evaluation requires an explicit trusted envelope_resolver")
        (present envelope_resolver);
  match ec_pointers caches !! (attempt_id, kind, digest, pointer) with
  | Some resolved => Ok (resolved, caches)
  | None =>
      envelope ← match ec_envelopes caches !! (attempt_id, kind, digest) with
                 | Some envelope => Ok envelope
                 | None => fetch_envelope attempt_id kind digest
                 end;
      resolved ← resolve_json_pointer envelope pointer;
      Ok (resolved, {| ec_envelopes := <[(attempt_id, kind, digest) := envelope]> (ec_envelopes caches);
                       ec_pointers := <[(attempt_id, kind, digest, pointer) := resolved]> (ec_pointers caches) |})
  end.
End envelopes.

(** ** validate_for_evaluation *)

(** The arguments of [validate_for_evaluation]; the resolvers may raise. *)
Record EvaluationContext (K : Type) := {
  ev_as_of : Z;
  ev_expected_artifact_digest : string;
  ev_publication_resolver : string -> result (option SnapshotPublicationRecord);
  ev_identity_evidence : list CollectorIdentityEvidence;
  ev_identity_resolver : option (string -> result (option CollectorIdentityEvidence));
  ev_key_resolver : option (TrustedKeyAnchor -> result (option (TrustedKeyRecord K)));
  ev_trusted_key_anchor : option TrustedKeyAnchor;
  ev_envelope_resolver : option (string -> EnvelopeKind -> string -> result (option json));
}.
Arguments ev_as_of {K} _.
Arguments ev_expected_artifact_digest {K} _.
Arguments ev_publication_resolver {K} _.
Arguments ev_identity_evidence {K} _.
Arguments ev_identity_resolver {K} _.
Arguments ev_key_resolver {K} _.
Arguments ev_trusted_key_anchor {K} _.
Arguments ev_envelope_resolver {K} _.

(** [resolved_identity_lookup], in insertion order *)
Abbreviation identity_dict := (list (string * CollectorIdentityEvidence)).

Section evaluation.
Context `{PyText} `{Rfc8785} {K : Type} `{Cryptography K}.

(** The digests, the publication record and the freshness of the snapshot *)
Definition check_publication (s : EvidenceSnapshot) (c : EvaluationContext K) : result unit :=
  artifact_digest ← compute_evidence_snapshot_artifact_digest s;
  semantic_digest ← compute_evidence_snapshot_semantic_digest s;
  _ ← guard_or (AthenaValidationError "snapshot artifact digest must be valid at evaluation time")
        (String.eqb (cm_artifact_digest (es_compatibility s)) artifact_digest);
  _ ← guard_or (AthenaValidationError "snapshot semantic digest must be valid at evaluation time")
        (String.eqb (cm_semantic_digest (es_compatibility s)) semantic_digest);
  _ ← guard_or (AthenaValidationError "trusted expected_artifact_digest must equal the recomputed snapshot digest")
        (String.eqb (ev_expected_artifact_digest c) artifact_digest);
  publication ← ev_publication_resolver c (es_snapshot_id s);
  _ ← match publication with
      | None => Raise (AthenaValidationError "snapshot is missing from the trusted publication registry")
      | Some p =>
          guard_or (AthenaValidationError "trusted snapshot publication record does not match the evaluated snapshot")
            (String.eqb (pr_snapshot_id p) (es_snapshot_id s) &&
             String.eqb (pr_artifact_digest p) (ev_expected_artifact_digest c) &&
             String.eqb (pr_semantic_digest p) semantic_digest &&
             String.eqb (pr_schema_version p) (cm_schema_version (es_compatibility s)) &&
             String.eqb (pr_semantic_contract_version p) (cm_semantic_contract_version (es_compatibility s)) &&
             (sn_attested_at (es_snapshot_attestation s) <=? pr_published_at p) && (pr_published_at p <=? ev_as_of c))
      end;
  matches ← snapshot_attestation_matches_components s artifact_digest semantic_digest;
  _ ← guard_or (AthenaValidationError "snapshot attestation component digests do not match recomputed snapshot data") matches;
  raise_if (AthenaValidationError "snapshot must be fresh and not expired at the evaluation as_of")
    ((ev_as_of c <? es_collected_at s) || (es_expires_at s <=? ev_as_of c)).

(** ** Identities *)

(** [referenced_identity_ids] *)
Definition referenced_identity_ids (s : EvidenceSnapshot) : gset string :=
  {[sc_collector_identity_evidence_ref (es_collector s)]} ∪
  list_to_set (ca_collector_identity_evidence_ref <$> es_collector_attempts s) ∪
  list_to_set (er_collector_identity_evidence_ref <$> es_evidence_records s).

(** One turn of the loop over [resolution_source] *)
Definition add_identity (referenced : gset string) (lookup : identity_dict) (i : CollectorIdentityEvidence)
    : result identity_dict :=
  _ ← guard_or (AthenaValidationError "identityEvidence must not contain unreferenced identity proofs")
        (bool_decide (ie_identity_evidence_id i ∈ referenced));
  _ ← raise_if (AthenaValidationError "identityEvidence must contain unique identityEvidenceId values")
        (bool_decide (ie_identity_evidence_id i ∈ fst <$> lookup));
  Ok (lookup ++ [(ie_identity_evidence_id i, i)]).

(** One turn of the loop over the ids left to the resolver *)
Definition resolve_identity (resolver : string -> result (option CollectorIdentityEvidence)) (lookup : identity_dict)
    (identity_ref : string) : result identity_dict :=
  if bool_decide (identity_ref ∈ fst <$> lookup) then Ok lookup
  else
    resolved ← resolver identity_ref;
    match resolved with
    | None => Raise (AthenaValidationError "snapshot identityEvidenceRef is missing from the trusted resolver")
    | Some i =>
        _ ← guard_or (AthenaValidationError "trusted identity resolver must return the exact identityEvidenceId mapping")
              (String.eqb (ie_identity_evidence_id i) identity_ref);
        Ok (lookup ++ [(identity_ref, i)])
    end.

Definition resolved_identities (s : EvidenceSnapshot) (c : EvaluationContext K) : result identity_dict :=
  _ ← raise_if (AthenaValidationError "snapshot evaluation requires identityEvidence or a trusted identity resolver")
        (bool_decide (es_identity_evidence s = []) && negb (present (ev_identity_resolver c)) &&
         bool_decide (ev_identity_evidence c = []));
  let referenced := referenced_identity_ids s in
  let source := match ev_identity_evidence c with [] => es_identity_evidence s | given => given end in
  lookup ← foldR (add_identity referenced) [] source;
  lookup ← match ev_identity_resolver c with
           | Some resolver => foldR (resolve_identity resolver) lookup (elements referenced)
           | None => Ok lookup
           end;
  _ ← guard_or (AthenaValidationError "every referenced snapshot identity must resolve exactly once")
        (bool_decide (list_to_set (fst <$> lookup) = referenced));
  Ok lookup.

(** The digests and the instants of the resolved identities *)
Definition check_identities (s : EvidenceSnapshot) (lookup : identity_dict) : result unit :=
  let a := es_snapshot_attestation s in
  _ ← mapR (fun item =>
        expected ← compute_collector_identity_evidence_digest (snd item);
        guard_or (AthenaValidationError "resolved identityEvidenceDigest mismatched the canonical identity proof")
          (String.eqb (ie_identity_evidence_digest (snd item)) expected)) lookup;
  let digests := sort_strings ((fun item => ie_identity_evidence_digest (snd item)) <$> lookup) in
  _ ← guard_or (AthenaValidationError "resolved identity evidence digest set must exactly match the snapshot attestation")
        (bool_decide (digests = sn_identity_evidence_digests a));
  set_digest ← compute_artifact_digest (texts_json digests);
  _ ← guard_or (AthenaValidationError "resolved identity evidence digest set must exactly match the snapshot attestation")
        (String.eqb set_digest (sn_identity_evidence_set_digest a));
  raise_if (AthenaValidationError "resolved identity signatures must not postdate snapshot attestation")
    (existsb (fun item => sn_attested_at a <? is_signed_at (ie_ingestion_signature (snd item))) lookup).

(** [identity.verify_signature(...)] *)
Definition require_signature (resolver : TrustedKeyAnchor -> result (option (TrustedKeyRecord K)))
    (anchor : TrustedKeyAnchor) (as_of : Z) (i : CollectorIdentityEvidence) (attempt : option CollectorAttempt)
    : result unit :=
  verified ← verify_trusted_ingestion_signature i resolver anchor as_of attempt;
  guard_or (AthenaValidationError "identity evidence cryptographic verification failed") verified.

(** ** Attempts *)

(** The instants of an attempt that must fall inside the collection window *)
Definition attempt_instants (a : CollectorAttempt) : list Z :=
  ca_attempt_started_at a ::
  match ca_outcome a with
  | TimeoutNoResponse deadline_at timed_out_at => [timed_out_at; deadline_at]
  | _ => [attempt_observation_time a]
  end.

Definition inside_window (s : EvidenceSnapshot) (as_of t : Z) : bool := (es_collected_at s <=? t) && (t <=? as_of).

(** The comparison of a signed derivation with the collector and the metadata *)
Definition derivation_matches (s : EvidenceSnapshot) (i : CollectorIdentityEvidence) : bool :=
  let d := ie_ingestion_derivation i in
  let c := es_collector s in
  let m := es_compatibility s in
  String.eqb (id_mcp_host_id d) (sc_mcp_host_id c) && String.eqb (id_mcp_host_tenant_id d) (sc_tenant_id c) &&
  String.eqb (id_ingestion_service_id d) (sc_ingestion_service_id c) &&
  String.eqb (id_ingestion_audience d) (sc_ingestion_audience c) &&
  String.eqb (id_tool_allowlist_digest d) (sc_tool_allowlist_digest c) &&
  String.eqb (ie_trust_anchor_ref i) (sc_trust_anchor_ref c) &&
  String.eqb (id_schema_version d) (cm_schema_version m) &&
  String.eqb (id_semantic_contract_version d) (cm_semantic_contract_version m) &&
  String.eqb (id_policy_contract_version d) (cm_policy_contract_version m).

(** One turn of the loop over the attempts *)
Definition evaluate_attempt (s : EvidenceSnapshot) (resolver : TrustedKeyAnchor -> result (option (TrustedKeyRecord K)))
    (anchor : TrustedKeyAnchor) (as_of : Z) (identities : identity_dict) (lookup : AttemptLookup) (a : CollectorAttempt)
    : result AttemptLookup :=
  match assoc (ca_collector_identity_evidence_ref a) identities with
  | None => Raise (AthenaValidationError "collector attempt identity evidence was not resolved")
  | Some i =>
      _ ← require_signature resolver anchor as_of i (Some a);
      _ ← guard_or (AthenaValidationError "signed ingestion derivation must exactly match snapshot collector")
            (derivation_matches s i);
      _ ← guard_or (AthenaValidationError "collector token must be valid at snapshot collectedAt")
            ((vt_not_before (ie_verified_claims i) <=? es_collected_at s) &&
             (es_collected_at s <? vt_expires_at (ie_verified_claims i)));
      _ ← guard_or (AthenaValidationError "collector attempt timestamps must fall inside the snapshot collection window")
            (forallb (inside_window s as_of) (attempt_instants a));
      Ok {| al_by_id := <[ca_attempt_id a := a]> (al_by_id lookup);
            al_by_digest := <[ca_attempt_digest a := a]> (al_by_digest lookup) |}
  end.

(** ** Records *)

(** [attempt_for_record] *)
Definition attempt_for_record (lookup : AttemptLookup) (r : EvidenceRecord) : result CollectorAttempt :=
  let by_digest := al_by_digest lookup !! er_collector_attempt_digest r in
  _ ← match r with
      | GapRecord g =>
          guard_or (AthenaValidationError "evidence record attemptId and collectorAttemptDigest must resolve to the same attempt")
            (bool_decide (al_by_id lookup !! ge_collector_attempt_id g = by_digest))
      | _ => Ok tt
      end;
  match by_digest with
  | Some a => Ok a
  | None => Raise (AthenaValidationError "evidence record must resolve to an attempt in the current snapshot")
  end.

(** The pointer checks of a concrete record *)
Definition check_record_pointers (p : EvidenceRecordProvenance) : result unit :=
  _ ← raise_if (AthenaValidationError "sourceResponsePointer is required when sourceResponseDigest is present")
        (present (ep_source_response_digest p) && negb (present (ep_source_response_pointer p)));
  _ ← guard_or (AthenaValidationError "failurePayloadPointer must be a valid RFC 6901 JSON Pointer")
        (optional_pointer is_valid_json_pointer (ep_failure_payload_pointer p));
  guard_or (AthenaValidationError "sourceResponsePointer must be a valid RFC 6901 JSON Pointer")
    (optional_pointer is_valid_json_pointer (ep_source_response_pointer p)).

(** The envelope item a gap record points at, and the one a concrete record was
    read from *)
Definition resolve_gap_source (envelope_resolver : option (string -> EnvelopeKind -> string -> result (option json)))
    (a : CollectorAttempt) (g : EvidenceGapRecord) (caches : EnvelopeCaches) : result EnvelopeCaches :=
  match ge_failure_payload_digest g, ge_failure_payload_pointer g with
  | Some digest, Some pointer =>
      let kind := if bool_decide (ca_attempt_type a = AtSuccessResponse) then ResponseEnvelope else FailureEnvelope in
      snd <$> resolve_envelope_pointer_once envelope_resolver caches (ca_attempt_id a) kind digest pointer
  | _, _ => Ok caches
  end.

Definition check_record_source (envelope_resolver : option (string -> EnvelopeKind -> string -> result (option json)))
    (a : CollectorAttempt) (p : EvidenceRecordProvenance) (r : EvidenceRecord) (caches : EnvelopeCaches)
    : result EnvelopeCaches :=
  match ep_source_response_digest p, ep_source_response_pointer p with
  | Some digest, Some pointer =>
      '(resolved_source, caches) ←
        resolve_envelope_pointer_once envelope_resolver caches (ca_attempt_id a) ResponseEnvelope digest pointer;
      source_text ← canonicalize_json resolved_source;
      projection_text ← canonicalize_json (evidence_source_projection r);
      _ ← guard_or (AthenaValidationError "resolved response item does not match the evidence record projection")
            (String.eqb source_text projection_text);
      Ok caches
  | _, _ => Raise (AthenaValidationError "concrete evidence requires response digest and pointer provenance")
  end.

(** One turn of the loop over the records *)
Definition evaluate_record (s : EvidenceSnapshot) (resolver : TrustedKeyAnchor -> result (option (TrustedKeyRecord K)))
    (anchor : TrustedKeyAnchor) (c : EvaluationContext K) (identities : identity_dict) (lookup : AttemptLookup)
    (caches : EnvelopeCaches) (r : EvidenceRecord) : result EnvelopeCaches :=
  let as_of := ev_as_of c in
  _ ← guard_or (AthenaValidationError "evidence record instants must fall inside the snapshot collection window")
        (forallb (inside_window s as_of)
           (er_instants r ++ match r with ObservedRelationshipRecord r => [ov_observed_at (oe_relationship r)] | _ => [] end));
  _ ← match er_provenance r with Some p => check_record_pointers p | None => Ok tt end;
  match assoc (er_collector_identity_evidence_ref r) identities with
  | None => Raise (AthenaValidationError "evidence record must resolve to a trusted identityEvidence record")
  | Some proof_identity =>
      a ← attempt_for_record lookup r;
      _ ← require_signature resolver anchor as_of proof_identity (Some a);
      match r, er_provenance r with
      | GapRecord g, _ => resolve_gap_source (ev_envelope_resolver c) a g caches
      | _, Some p => check_record_source (ev_envelope_resolver c) a p r caches
      | _, None => Raise (AttributeError "provenance")
      end
  end.

(** ** The whole evaluation *)

(** _require_supported_evaluation_compatibility *)
Definition require_supported_evaluation_compatibility (m : CompatibilityMetadata) : result unit :=
  guard_or (AthenaValidationError "artifact compatibility negotiation outcome is not supported")
    ((fst (fst (version_key (cm_schema_version m))) =? 1) &&
     String.eqb (cm_semantic_contract_version m) "1.0.0" && String.eqb (cm_policy_contract_version m) "1.0.0" &&
     negb (key_lt (1, 0, 0) (version_key (cm_minimum_reader_version m))) &&
     bool_decide (cm_requires_capabilities m = [])).

(** EvidenceSnapshot.validate_for_evaluation *)
Definition validate_for_evaluation (s : EvidenceSnapshot) (c : EvaluationContext K) : result EvidenceSnapshot :=
  _ ← require_utc_millisecond_datetime (ev_as_of c);
  _ ← require_supported_evaluation_compatibility (es_compatibility s);
  _ ← check_publication s c;
  identities ← resolved_identities s c;
  _ ← check_identities s identities;
  match ev_key_resolver c, ev_trusted_key_anchor c with
  | Some resolver, Some anchor =>
      verified ← verify_snapshot_attestation_signature (es_snapshot_attestation s) resolver anchor (ev_as_of c);
      _ ← guard_or (AthenaValidationError "snapshot attestation cryptographic verification failed") verified;
      _ ← mapR (fun item => require_signature resolver anchor (ev_as_of c) (snd item) None) identities;
      lookup ← foldR (evaluate_attempt s resolver anchor (ev_as_of c) identities)
                 {| al_by_id := ∅; al_by_digest := ∅ |} (es_collector_attempts s);
      _ ← foldR (evaluate_record s resolver anchor c identities lookup)
            {| ec_envelopes := ∅; ec_pointers := ∅ |} (es_evidence_records s);
      Ok s
  | _, _ => Raise (AthenaValidationError "snapshot evaluation requires an explicit configured trusted key anchor")
  end.
End evaluation.

(** * The snapshot capability of cohort proposals

    binding/verification.py. A snapshot is a shared mutable object: the verifier
    may return the object it was given, as it left it, or another one, and the
    capability holds the object in its present state. *)

(** What the trusted verifier returns: the object it was given, in the state
    after the call, or some other object *)
Inductive VerifierReturn :=
  | SameObject (after : EvidenceSnapshot)
  | OtherObject.

(** VerifiedCohortSnapshot; [vs_marked] is [_verification_marker is
    _VERIFIED_SNAPSHOT_MARKER]. *)
Record VerifiedCohortSnapshot := {
  vs_snapshot : EvidenceSnapshot;
  vs_verified_at : Z;
  vs_artifact_digest : string;
  vs_semantic_digest : string;
  vs_marked : bool;
}.

Section verification.
Context `{PyText} `{Rfc8785}.

(** _require_utc_milliseconds *)
Definition require_utc_milliseconds (value : Z) : result unit :=
  raise_if (AthenaValidationError "snapshot verification time must be UTC with millisecond precision")
    (negb (microsecond value mod 1000 =? 0)).

(** The comparisons of the attestation, in order *)
Definition attestation_differs (s : EvidenceSnapshot) (artifact_digest semantic_digest : string) : result bool :=
  let a := es_snapshot_attestation s in
  let c := es_compatibility s in
  let identity_digests := sort_strings (ie_identity_evidence_digest <$> es_identity_evidence s) in
  same ← allR
    [Ok (String.eqb (sn_artifact_kind a) (cm_artifact_kind c)); Ok (String.eqb (sn_schema_version a) (cm_schema_version c));
     Ok (String.eqb (sn_semantic_contract_version a) (cm_semantic_contract_version c));
     Ok (String.eqb (sn_policy_contract_version a) (cm_policy_contract_version c));
     Ok (String.eqb (sn_snapshot_id a) (es_snapshot_id s)); Ok (String.eqb (sn_artifact_digest a) artifact_digest);
     Ok (String.eqb (sn_semantic_digest a) semantic_digest);
     Ok (sn_collected_at a =? es_collected_at s); Ok (sn_expires_at a =? es_expires_at s);
     Ok (bool_decide (sn_identity_evidence_digests a = identity_digests));
     digest_matches (sn_identity_evidence_set_digest a) (compute_artifact_digest (texts_json identity_digests));
     digest_matches (sn_authorized_scopes_digest a) (compute_authorized_scopes_digest s);
     digest_matches (sn_collector_attempt_set_digest a) (compute_collector_attempt_set_digest s);
     digest_matches (sn_evidence_record_set_digest a) (compute_evidence_record_set_digest s);
     digest_matches (sn_evidence_reference_set_digest a) (compute_evidence_reference_set_digest s);
     digest_matches (sn_signed_preimage_digest a) (compute_snapshot_attestation_preimage_digest a)];
  Ok (negb same).

(** _validate_snapshot_components *)
Definition validate_snapshot_components (s : EvidenceSnapshot) : result unit :=
  artifact_digest ← compute_evidence_snapshot_artifact_digest s;
  semantic_digest ← compute_evidence_snapshot_semantic_digest s;
  _ ← guard_or (AthenaValidationError "snapshot canonical digests do not match its records")
        (String.eqb (cm_artifact_digest (es_compatibility s)) artifact_digest &&
         String.eqb (cm_semantic_digest (es_compatibility s)) semantic_digest);
  differs ← attestation_differs s artifact_digest semantic_digest;
  raise_if (AthenaValidationError "snapshot attestation does not match the recomputed snapshot components") differs.

(** verify_cohort_snapshot *)
Definition verify_cohort_snapshot (s : EvidenceSnapshot) (as_of : Z)
    (verifier : EvidenceSnapshot -> Z -> result VerifierReturn) : result VerifiedCohortSnapshot :=
  _ ← require_utc_milliseconds as_of;
  _ ← validate_snapshot_components s;
  verified ← verifier s as_of;
  match verified with
  | OtherObject => Raise (AthenaValidationError "trusted verifier must return the exact supplied snapshot")
  | SameObject s =>
      _ ← validate_snapshot_components s;
      _ ← raise_if (AthenaValidationError "verified snapshot is stale at as_of")
            ((as_of <? es_collected_at s) || (es_expires_at s <=? as_of));
      Ok {| vs_snapshot := s; vs_verified_at := as_of; vs_artifact_digest := cm_artifact_digest (es_compatibility s);
            vs_semantic_digest := cm_semantic_digest (es_compatibility s); vs_marked := true |}
  end.

(** require_current_verified_snapshot *)
Definition require_current_verified_snapshot (v : VerifiedCohortSnapshot) (as_of : Z) : result EvidenceSnapshot :=
  _ ← require_utc_milliseconds as_of;
  _ ← guard_or (AthenaValidationError "propose_cohorts requires a VerifiedCohortSnapshot capability") (vs_marked v);
  _ ← guard_or (AthenaValidationError "verified snapshot is bound to a different as_of") (vs_verified_at v =? as_of);
  let s := vs_snapshot v in
  _ ← validate_snapshot_components s;
  _ ← guard_or (AthenaValidationError "snapshot changed after trusted verification")
        (String.eqb (vs_artifact_digest v) (cm_artifact_digest (es_compatibility s)) &&
         String.eqb (vs_semantic_digest v) (cm_semantic_digest (es_compatibility s)));
  Ok s.
End verification.
