(* ===== verification/SnapshotProps.v ===== *)
(** * SnapshotProps: what a validated and an evaluated snapshot guarantee

    The loops of validate_snapshot as facts about lists and the correspondence of
    records and references; then the trust decision: every evaluated record is the
    item of a response envelope that an attempt digests and a trusted key signed. *)
From S2P Require Import Prelude Text Sha256 Time Json.
From S2P Require Export SnapshotEvaluation.
From Stdlib Require Import Ascii.

(** * What a validated snapshot guarantees

    The loops of validate_snapshot as facts about lists, and the correspondence of
    the records and references of a validated snapshot. *)
Local Open Scope Z_scope.

Section validated.
Context `{PyText} `{Rfc8785}.
Implicit Types (s : EvidenceSnapshot) (r : EvidenceRecord) (ref : EvidenceReference) (a : CollectorAttempt).

(** ** Attempts *)

(** A lookup that holds exactly the attempts of a list under their unique keys *)
Record lookup_of (attempts : list CollectorAttempt) (lookup : AttemptLookup) : Prop := {
  lookup_ids : NoDup (ca_attempt_id <$> attempts);
  lookup_digests : NoDup (ca_attempt_digest <$> attempts);
  lookup_by_id k a : al_by_id lookup !! k = Some a <-> a ∈ attempts /\ ca_attempt_id a = k;
  lookup_by_digest k a : al_by_digest lookup !! k = Some a <-> a ∈ attempts /\ ca_attempt_digest a = k;
}.

(** Inserting an attempt with fresh keys *)
Lemma insert_attempt attempts lookup a : lookup_of attempts lookup ->
  ca_attempt_id a ∉ ca_attempt_id <$> attempts -> ca_attempt_digest a ∉ ca_attempt_digest <$> attempts ->
  lookup_of (attempts ++ [a])
    {| al_by_id := <[ca_attempt_id a := a]> (al_by_id lookup);
       al_by_digest := <[ca_attempt_digest a := a]> (al_by_digest lookup) |}.
Proof.
  intros [Hi Hd Hbi Hbd] Hid Hdg. split; cbn [al_by_id al_by_digest].
  1, 2: rewrite fmap_app; apply NoDup_app; split_and!; [done|set_solver|apply NoDup_singleton].
  all: intros k b; rewrite elem_of_app, list_elem_of_singleton, lookup_insert;
    case_decide as E; [subst k|rewrite ?Hbi, ?Hbd; naive_solver].
  all: split; [intros [= ->]; naive_solver|]; intros [[Hb| ->] Hk]; [|done]; exfalso.
  - apply Hid. rewrite <- Hk. by apply list_elem_of_fmap_2.
  - apply Hdg. rewrite <- Hk. by apply list_elem_of_fmap_2.
Qed.

Lemma add_attempt_Ok s attempts lookup a lookup' :
  lookup_of attempts lookup -> add_attempt s lookup a = Ok lookup' -> lookup_of (attempts ++ [a]) lookup'.
Proof.
  intros Hl. unfold add_attempt.
  intros (? & _ & (? & H1%raise_if_Ok & (? & H2%raise_if_Ok & E)%bind_Ok)%bind_Ok)%bind_Ok.
  injection E as <-. apply bool_decide_eq_false, eq_None_not_Some in H1, H2. apply insert_attempt; [done|..].
  - intros (b & Hb & Hin)%list_elem_of_fmap. pose proof (lookup_by_id _ _ Hl (ca_attempt_id a) b). naive_solver congruence.
  - intros (b & Hb & Hin)%list_elem_of_fmap. pose proof (lookup_by_digest _ _ Hl (ca_attempt_digest a) b).
    naive_solver congruence.
Qed.

Lemma empty_lookup : lookup_of [] {| al_by_id := ∅; al_by_digest := ∅ |}.
Proof. split; [constructor|constructor| |]; cbn; intros k a; rewrite lookup_empty; set_solver. Qed.

Lemma add_attempts_Ok s done todo lookup lookup' :
  lookup_of done lookup -> foldR (add_attempt s) lookup todo = Ok lookup' -> lookup_of (done ++ todo) lookup'.
Proof.
  revert done lookup. induction todo as [|a todo IH]; intros done0 lookup Hl; cbn [foldR].
  - intros E. injection E as <-. by rewrite app_nil_r.
  - intros (l1 & H1 & H2)%bind_Ok. rewrite (app_assoc _ [a] todo). eapply IH; [|done]. by eapply add_attempt_Ok.
Qed.

Lemma attempt_lookup_Ok s lookup : attempt_lookup s = Ok lookup -> lookup_of (es_collector_attempts s) lookup.
Proof.
  apply (add_attempts_Ok s []), empty_lookup.
Qed.

Lemma attempt_lookup_identity s lookup a : attempt_lookup s = Ok lookup -> a ∈ es_collector_attempts s ->
  ca_collector_identity_evidence_ref a = sc_collector_identity_evidence_ref (es_collector s).
Proof.
  intros Hl Ha. destruct (foldR_elem _ _ _ _ _ Hl Ha) as (l1 & l2 & H12). unfold add_attempt in H12.
  by apply bind_Ok in H12 as (? & E%guard_or_Ok%String.eqb_eq & _).
Qed.

(** ** Records *)
Definition record_checked s lookup r : Prop :=
  exists a, al_by_digest lookup !! er_collector_attempt_digest r = Some a /\
    er_collector_identity_evidence_ref r = sc_collector_identity_evidence_ref (es_collector s) /\
    match r with
    | GapRecord g => ca_attempt_id a = ge_collector_attempt_id g /\ check_gap_record s a g = Ok tt
    | _ => (forall p, er_provenance r = Some p -> check_record_provenance s a p = Ok tt) /\
           check_concrete_record s a r = Ok tt
    end.

Lemma check_record_Ok s lookup seen r seen' : check_record s lookup seen r = Ok seen' ->
  record_checked s lookup r /\ record_key r ∉ seen /\ seen' = {[record_key r]} ∪ seen.
Proof.
  unfold check_record. intros (? & Hid%guard_or_Ok & Hr)%bind_Ok. apply String.eqb_eq in Hid.
  destruct (al_by_digest lookup !! er_collector_attempt_digest r) as [a|] eqn:Ha; [|done].
  apply bind_Ok in Hr as ([] & Hc & ([] & Hk%raise_if_Ok & E)%bind_Ok). injection E as <-.
  apply bool_decide_eq_false in Hk. split; [|done]. exists a. split_and!; [done|done|].
  destruct r as [| | | | | |g];
    [..|by apply bind_Ok in Hc as ([] & He%guard_or_Ok%String.eqb_eq & Hg)];
    apply bind_Ok in Hc as ([] & Hp & Hc); (split; [|done]); cbn [er_provenance] in *; intros p E; injection E as <-; exact Hp.
Qed.

(** ** References *)

(** [ref] names [r]: the test of [matched_records] or [matched_gaps] *)
Definition reference_resolves ref r : bool :=
  match ref with ItemRef i => item_matches_record i r | GapRef g => gap_matches_record g r end.

Definition reference_checked s lookup ref : Prop :=
  check_snapshot_binding s ref = Ok tt /\ length (select (reference_resolves ref) (es_evidence_records s)) = 1%nat /\
  match ref with ItemRef i => check_item_ref s lookup i = Ok tt | GapRef g => check_gap_ref s lookup g = Ok tt end.

Lemma check_reference_Ok s lookup st ref st' : check_reference s lookup st ref = Ok st' ->
  reference_checked s lookup ref /\ reference_key ref ∉ st.1 /\
  st' = ({[reference_key ref]} ∪ st.1, {[reference_target ref]} ∪ st.2).
Proof.
  unfold check_reference. intros ([] & Hb & ([] & Hr & ([] & Hk%raise_if_Ok & E)%bind_Ok)%bind_Ok)%bind_Ok.
  injection E as <-. apply bool_decide_eq_false in Hk. split_and!; [|done|done]. split_and!; [done| |by destruct ref].
  destruct ref as [i|g]; cbn [reference_resolves].
  - unfold check_item_ref in Hr. by apply bind_Ok in Hr as (? & ?%guard_or_Ok%Nat.eqb_eq & _).
  - unfold check_gap_ref in Hr. change (reference_resolves (GapRef g)) with (gap_matches_record g).
    destruct (select (gap_matches_record g) (es_evidence_records s)) as [|? [|? ?]]; [done|done|]. by destruct e.
Qed.

Lemma check_references_Ok s lookup refs st st' : foldR (check_reference s lookup) st refs = Ok st' ->
  Forall (reference_checked s lookup) refs /\ NoDup (reference_key <$> refs) /\
  (forall ref, ref ∈ refs -> reference_key ref ∉ st.1) /\
  st'.2 = list_to_set (reference_target <$> refs) ∪ st.2.
Proof.
  revert st. induction refs as [|ref refs IH]; intros st; cbn [foldR].
  - intros E. injection E as <-. split_and!; [constructor|constructor|by intros ? ?%elem_of_nil|set_solver].
  - intros (s1 & (Hr & Hn & ->)%check_reference_Ok & (Hl & Hd & Hs & ->)%IH)%bind_Ok. cbn in Hs.
    split_and!; [by constructor| | |cbn; set_solver].
    + cbn. constructor; [|done]. intros (y & Hy & Hin)%list_elem_of_fmap. apply (Hs y Hin). rewrite Hy. set_solver.
    + intros y [->|Hy]%elem_of_cons; [done|]. specialize (Hs y Hy). set_solver.
Qed.

(** What [validate_snapshot] establishes about attempts, records and references *)
Record snapshot_bound s (lookup : AttemptLookup) : Prop := {
  sb_lookup : lookup_of (es_collector_attempts s) lookup;
  sb_attempt_identity a : a ∈ es_collector_attempts s ->
    ca_collector_identity_evidence_ref a = sc_collector_identity_evidence_ref (es_collector s);
  sb_keys : NoDup (record_key <$> es_evidence_records s);
  sb_records r : r ∈ es_evidence_records s -> record_checked s lookup r;
  sb_references ref : ref ∈ es_evidence_refs s -> reference_checked s lookup ref;
  sb_reference_keys : NoDup (reference_key <$> es_evidence_refs s);
  sb_covered k : k ∈ reference_target <$> es_evidence_refs s <-> k ∈ record_key <$> es_evidence_records s;
  sb_attested : check_attested_at s = Ok tt;
}.

Lemma validate_snapshot_bound s : validate_snapshot s = Ok tt -> exists lookup, snapshot_bound s lookup.
Proof.
  unfold validate_snapshot.
  intros (? & _ & (? & _ & (? & _ & (? & _ & (? & _ & (lookup & Hl & (seen & Hr & (refs & Hf & (? & He%guard_or_Ok &
    (? & _ & Ha)%bind_Ok)%bind_Ok)%bind_Ok)%bind_Ok)%bind_Ok)%bind_Ok)%bind_Ok)%bind_Ok)%bind_Ok)%bind_Ok.
  exists lookup. apply bool_decide_eq_true in He.
  apply (foldR_seen record_key (record_checked s lookup)) in Hr as (Hr & Hk & _ & ->);
    [|intros ???; apply check_record_Ok].
  apply check_references_Ok in Hf as (Hf & Hfk & _ & Hc). rewrite Forall_forall in Hr. rewrite Forall_forall in Hf.
  split; [by apply attempt_lookup_Ok|intros a; by eapply attempt_lookup_identity|done|done|done|done| |done].
  intros k. rewrite Hc in He. cbn in He. set_solver.
Qed.

(** What a reference names has its target as key. *)
Lemma resolves_key ref r : reference_resolves ref r = true -> record_key r = reference_target ref.
Proof.
  destruct ref as [i|g]; cbn.
  - unfold item_matches_record. destruct r; cbn; rewrite ?andb_true_iff, ?String.eqb_eq; naive_solver.
  - unfold gap_matches_record. destruct r; cbn; rewrite ?andb_true_iff, ?String.eqb_eq; naive_solver.
Qed.

(** The class of a reference is that of the record. *)
Lemma resolves_class ref r : reference_resolves ref r = true ->
  match ref with ItemRef _ => is_Some (er_provenance r) | GapRef _ => er_provenance r = None end.
Proof. destruct ref, r; cbn; try done; by eexists. Qed.

Lemma resolved_record s lookup ref : snapshot_bound s lookup -> ref ∈ es_evidence_refs s ->
  exists r, r ∈ es_evidence_records s /\ reference_resolves ref r = true.
Proof.
  intros Hb Hin. destruct (sb_references _ _ Hb _ Hin) as (_ & Hl & _).
  destruct (select (reference_resolves ref) (es_evidence_records s)) as [|r l] eqn:E; [done|]. exists r.
  apply elem_of_select. rewrite E. left.
Qed.

Lemma resolving_reference s lookup r : snapshot_bound s lookup -> r ∈ es_evidence_records s ->
  exists ref, ref ∈ es_evidence_refs s /\ reference_resolves ref r = true.
Proof.
  intros Hb Hin. assert (Hk : record_key r ∈ reference_target <$> es_evidence_refs s)
    by (apply (sb_covered _ _ Hb); by apply list_elem_of_fmap_2).
  apply list_elem_of_fmap in Hk as (ref & Hk & Href). exists ref. split; [done|].
  destruct (resolved_record _ _ _ Hb Href) as (r' & Hin' & Hr'). enough (r' = r) as -> by done.
  apply (NoDup_fmap_inj_on record_key _ (sb_keys _ _ Hb)); [done|done|]. by rewrite (resolves_key _ _ Hr').
Qed.

Lemma resolving_unique s lookup ref1 ref2 r : snapshot_bound s lookup -> ref1 ∈ es_evidence_refs s ->
  ref2 ∈ es_evidence_refs s -> reference_resolves ref1 r = true -> reference_resolves ref2 r = true -> ref1 = ref2.
Proof.
  intros Hb H1 H2 R1 R2. apply (NoDup_fmap_inj_on reference_key _ (sb_reference_keys _ _ Hb)); [done|done|].
  destruct (sb_references _ _ Hb _ H1) as (B1 & _), (sb_references _ _ Hb _ H2) as (B2 & _).
  unfold check_snapshot_binding in B1, B2. inv_ok. repeat match goal with E : String.eqb _ _ = true |- _ => apply String.eqb_eq in E end.
  unfold reference_key. f_equal; [f_equal|].
  - apply resolves_class in R1, R2. destruct ref1, ref2; [done| | |done]; [destruct R1|destruct R2]; congruence.
  - congruence.
  - by rewrite <- (resolves_key _ _ R1), (resolves_key _ _ R2).
Qed.

(** C17: In a validated evidence snapshot records and references correspond one to
    one: each reference names exactly one record, each record is named by exactly
    one reference, and the reference carries the digests of this snapshot. *)
Theorem references_resolve_records s : validate_snapshot s = Ok tt ->
  (forall ref, ref ∈ es_evidence_refs s ->
     length (select (reference_resolves ref) (es_evidence_records s)) = 1%nat /\
     ref_snapshot_artifact_digest ref = cm_artifact_digest (es_compatibility s) /\
     ref_snapshot_semantic_digest ref = cm_semantic_digest (es_compatibility s)) /\
  (forall r, r ∈ es_evidence_records s ->
     length (select (fun ref => reference_resolves ref r) (es_evidence_refs s)) = 1%nat).
Proof.
  intros (lookup & Hb)%validate_snapshot_bound. split.
  - intros ref Hin. destruct (sb_references _ _ Hb _ Hin) as (B & Hl & _). split; [done|].
    unfold check_snapshot_binding in B. inv_ok. by repeat match goal with E : String.eqb _ _ = true |- _ => apply String.eqb_eq in E end.
  - intros r Hin. apply select_unique_length.
    + by eapply NoDup_fmap_1, sb_reference_keys.
    + by eapply resolving_reference.
    + intros ref1 ref2 ????. by eapply resolving_unique.
Qed.
End validated.

(** * What a snapshot accepted for evaluation guarantees

    The caches of envelopes and pointers change nothing; every record is the item
    of a response envelope that an attempt digests and a trusted key signed; and
    the binding of an identity to one attempt leaves room for one attempt only. *)

(** ** The envelope caches *)
Section caches.
Context `{PyText} `{Rfc8785}.
Variable resolver : option (string -> EnvelopeKind -> string -> result (option json)).

(** What [resolve_envelope_pointer_once] computes without its caches *)
Definition resolve_envelope_pointer (attempt_id : string) (kind : EnvelopeKind) (digest pointer : string) : result json :=
  envelope ← fetch_envelope resolver attempt_id kind digest;
  resolve_json_pointer envelope pointer.

(** Caches that hold what resolving again would give *)
Record caches_sound (caches : EnvelopeCaches) : Prop := {
  cached_envelope id kind digest envelope :
    ec_envelopes caches !! (id, kind, digest) = Some envelope -> fetch_envelope resolver id kind digest = Ok envelope;
  cached_pointer id kind digest pointer resolved :
    ec_pointers caches !! (id, kind, digest, pointer) = Some resolved ->
    resolve_envelope_pointer id kind digest pointer = Ok resolved;
}.

Lemma empty_caches_sound : caches_sound {| ec_envelopes := ∅; ec_pointers := ∅ |}.
Proof. by split. Qed.

Lemma fetch_without_resolver id kind digest : present resolver = false ->
  fetch_envelope resolver id kind digest =
  Raise (AthenaValidationError "snapshot evaluation requires an explicit trusted envelope_resolver").
Proof. unfold fetch_envelope. by case_match. Qed.

Lemma resolve_once_fresh caches id kind digest pointer : caches_sound caches ->
  fst <$> resolve_envelope_pointer_once resolver caches id kind digest pointer =
    resolve_envelope_pointer id kind digest pointer /\
  (forall resolved caches', resolve_envelope_pointer_once resolver caches id kind digest pointer = Ok (resolved, caches') ->
     caches_sound caches').
Proof.
  intros Hc. unfold resolve_envelope_pointer_once, resolve_envelope_pointer.
  destruct (present resolver) eqn:Er; [|by rewrite fetch_without_resolver]. cbn [guard_or mbind result_bind].
  destruct (ec_pointers caches !! (id, kind, digest, pointer)) as [v|] eqn:Ep.
  { apply (cached_pointer _ Hc) in Ep as Hv. unfold resolve_envelope_pointer in Hv. rewrite Hv. split; [done|].
    intros ? ? E. by injection E as <- <-. }
  assert (He : match ec_envelopes caches !! (id, kind, digest) with
               | Some envelope => Ok envelope | None => fetch_envelope resolver id kind digest
               end = fetch_envelope resolver id kind digest).
  { destruct (ec_envelopes caches !! (id, kind, digest)) as [e|] eqn:E; [|done].
    by apply (cached_envelope _ Hc) in E as ->. }
  rewrite He. destruct (fetch_envelope resolver id kind digest) as [e|x] eqn:Hf; cbn; [|done].
  destruct (resolve_json_pointer e pointer) as [v|x] eqn:Hv; cbn; [|done]. split; [done|].
  intros ? ? E. injection E as <- <-. split; cbn.
  - intros id' k' d' e'. rewrite lookup_insert. case_decide as E; [|by apply (cached_envelope _ Hc)].
    injection E as <- <- <-. intros [= <-]. done.
  - intros id' k' d' p' v'. rewrite lookup_insert. case_decide as E; [|by apply (cached_pointer _ Hc)].
    injection E as <- <- <- <-. intros [= <-]. unfold resolve_envelope_pointer. rewrite Hf. exact Hv.
Qed.

(** Resolving an envelope pointer through the caches gives what resolving it
    afresh gives, value or error, and leaves the caches sound. *)
Theorem resolve_once_transparent caches id kind digest pointer : caches_sound caches ->
  fst <$> resolve_envelope_pointer_once resolver caches id kind digest pointer =
    resolve_envelope_pointer id kind digest pointer /\
  (forall resolved caches', resolve_envelope_pointer_once resolver caches id kind digest pointer = Ok (resolved, caches') ->
     caches_sound caches').
Proof. apply resolve_once_fresh. Qed.

Lemma resolve_once_Ok caches id kind digest pointer resolved caches' : caches_sound caches ->
  resolve_envelope_pointer_once resolver caches id kind digest pointer = Ok (resolved, caches') ->
  resolve_envelope_pointer id kind digest pointer = Ok resolved /\ caches_sound caches'.
Proof.
  intros Hc E. destruct (resolve_once_fresh _ id kind digest pointer Hc) as [Hf Hs]. split; [|by eapply Hs].
  rewrite <- Hf, E. done.
Qed.
End caches.

(** ** The evaluation loops *)
Section evaluated.
Context `{PyText} `{Rfc8785} {K : Type} `{Cryptography K}.
Implicit Types (s : EvidenceSnapshot) (r : EvidenceRecord) (a : CollectorAttempt) (c : EvaluationContext K)
  (i : CollectorIdentityEvidence).

(** A resolver and an anchor as [_resolve_valid_trusted_key] accepts them for a
    signature made at [signed_at] *)
Definition trusted_key_for (resolver : TrustedKeyAnchor -> result (option (TrustedKeyRecord K))) (anchor : TrustedKeyAnchor)
    (signed_at as_of : Z) (key : TrustedKeyRecord K) : Prop :=
  resolver anchor = Ok (Some key) /\ kr_anchor key = anchor /\ kr_enabled key = true /\
  kr_activated_at key <= signed_at <= as_of /\
  (forall t, kr_retired_at key = Some t \/ kr_expires_at key = Some t -> as_of < t).

Lemma key_ended_false t signed_at as_of : key_ended t signed_at as_of = false -> forall t', t = Some t' -> as_of < t'.
Proof. intros Hk t' ->. cbn in Hk. apply orb_false_iff in Hk as [? ?%Z.leb_gt]. done. Qed.

Lemma resolve_valid_trusted_key_Some resolver anchor key_id name version signed_at as_of key :
  resolve_valid_trusted_key resolver anchor key_id name version signed_at as_of = Some key ->
  trusted_key_for resolver anchor signed_at as_of key.
Proof.
  unfold resolve_valid_trusted_key, trusted_key_for. case_match eqn:Hg; [done|].
  destruct (resolver anchor) as [[k|]|]; [|done|done]. case_match eqn:Hk; [done|]. intros [= ->].
  rewrite !orb_false_iff in Hg. rewrite !orb_false_iff in Hk. destruct Hg as (_ & Hs%Z.ltb_ge).
  destruct Hk as ((((Ha%bool_decide_eq_false & He%negb_false_iff) & Hact%Z.ltb_ge) & Hr) & Hx).
  split_and!; [done|by apply dec_stable|done|lia|done|]. intros t [Ht|Ht]; [exact (key_ended_false _ _ _ Hr t Ht)|exact (key_ended_false _ _ _ Hx t Ht)].
Qed.

(** An identity whose derivation a trusted key signed, for this attempt and this
    collector *)
Definition signed_attempt s c i a : Prop :=
  exists resolver anchor key preimage,
    ev_key_resolver c = Some resolver /\ ev_trusted_key_anchor c = Some anchor /\
    trusted_key_for resolver anchor (is_signed_at (ie_ingestion_signature i)) (ev_as_of c) key /\
    canonicalize_json (signature_preimage (ie_ingestion_signature i) (derivation_payload (ie_ingestion_derivation i))) =
      Ok preimage /\
    verify_key_vault_signature (is_signature (ie_ingestion_signature i)) preimage (kr_public_key key)
      (is_signature_algorithm (ie_ingestion_signature i)) = true /\
    binding_matches (id_attempt_binding (ie_ingestion_derivation i)) (Some a) = Ok true /\
    derivation_matches s i = true.

Lemma signature_valid_true i resolver anchor as_of : signature_valid i resolver anchor as_of = Ok true ->
  exists key preimage, trusted_key_for resolver anchor (is_signed_at (ie_ingestion_signature i)) as_of key /\
    canonicalize_json (signature_preimage (ie_ingestion_signature i) (derivation_payload (ie_ingestion_derivation i))) =
      Ok preimage /\
    verify_key_vault_signature (is_signature (ie_ingestion_signature i)) preimage (kr_public_key key)
      (is_signature_algorithm (ie_ingestion_signature i)) = true.
Proof.
  unfold signature_valid. intros (digest & _ & Hs)%bind_Ok. case_match; [done|].
  destruct (resolve_valid_trusted_key _ _ _ _ _ _ _) as [key|] eqn:Hk; [|done].
  apply bind_Ok in Hs as (preimage & Hp & E). injection E as E. exists key, preimage.
  split_and!; [by eapply resolve_valid_trusted_key_Some|done|done].
Qed.

Lemma require_signature_Ok resolver anchor as_of i attempt : require_signature resolver anchor as_of i attempt = Ok tt ->
  signature_valid i resolver anchor as_of = Ok true /\
  binding_matches (id_attempt_binding (ie_ingestion_derivation i)) attempt = Ok true.
Proof.
  unfold require_signature. intros (b & Hv & ->%guard_or_Ok)%bind_Ok. unfold verify_trusted_ingestion_signature in Hv.
  apply allR_true in Hv. by repeat (apply Forall_cons in Hv as [? Hv]).
Qed.

(** What one turn of the loop over the attempts establishes *)
Definition attempt_evaluated s c (resolver : TrustedKeyAnchor -> result (option (TrustedKeyRecord K)))
    (anchor : TrustedKeyAnchor) (identities : identity_dict) a : Prop :=
  exists i, assoc (ca_collector_identity_evidence_ref a) identities = Some i /\
    require_signature resolver anchor (ev_as_of c) i (Some a) = Ok tt /\ derivation_matches s i = true /\
    forallb (inside_window s (ev_as_of c)) (attempt_instants a) = true.

Lemma evaluate_attempt_Ok s c resolver anchor identities lookup a lookup' :
  evaluate_attempt s resolver anchor (ev_as_of c) identities lookup a = Ok lookup' ->
  attempt_evaluated s c resolver anchor identities a /\
  lookup' = {| al_by_id := <[ca_attempt_id a := a]> (al_by_id lookup);
               al_by_digest := <[ca_attempt_digest a := a]> (al_by_digest lookup) |}.
Proof.
  unfold evaluate_attempt. destruct (assoc _ identities) as [i|] eqn:Hi; [|done].
  intros ([] & Hs & ([] & Hd%guard_or_Ok & ([] & _ & ([] & Hw%guard_or_Ok & E)%bind_Ok)%bind_Ok)%bind_Ok)%bind_Ok.
  injection E as <-. split; [|done]. by exists i.
Qed.

Lemma evaluate_attempts_Ok s c resolver anchor identities l1 l2 lookup lookup' :
  NoDup (ca_attempt_id <$> l1 ++ l2) -> NoDup (ca_attempt_digest <$> l1 ++ l2) -> lookup_of l1 lookup ->
  foldR (evaluate_attempt s resolver anchor (ev_as_of c) identities) lookup l2 = Ok lookup' ->
  Forall (attempt_evaluated s c resolver anchor identities) l2 /\ lookup_of (l1 ++ l2) lookup'.
Proof.
  revert l1 lookup. induction l2 as [|a l2 IH]; intros l1 lookup Hi Hd Hl; cbn [foldR].
  - intros E. injection E as <-. rewrite app_nil_r. by split; [constructor|].
  - intros (l3 & (Ha & ->)%evaluate_attempt_Ok & Hr)%bind_Ok. replace (l1 ++ a :: l2) with ((l1 ++ [a]) ++ l2) in * by (by rewrite <- app_assoc).
    apply (IH (l1 ++ [a])) in Hr as [Hr Hl']; [by split; [constructor|]|done|done|].
    rewrite !fmap_app in Hi, Hd. apply NoDup_app in Hi as (Hi & _), Hd as (Hd & _).
    apply NoDup_app in Hi as (_ & Hi & _), Hd as (_ & Hd & _). apply insert_attempt; [done|..].
    + intros Hin. apply (Hi _ Hin). cbn. left.
    + intros Hin. apply (Hd _ Hin). cbn. left.
Qed.
(** What one turn of the loop over the records establishes of a concrete record *)
Definition record_sourced c a r (p : EvidenceRecordProvenance) : Prop :=
  exists digest pointer item text,
    ep_source_response_digest p = Some digest /\ ep_source_response_pointer p = Some pointer /\
    resolve_envelope_pointer (ev_envelope_resolver c) (ca_attempt_id a) ResponseEnvelope digest pointer = Ok item /\
    canonicalize_json item = Ok text /\ canonicalize_json (evidence_source_projection r) = Ok text.

Definition record_evaluated s c resolver anchor (identities : identity_dict) (lookup : AttemptLookup) r : Prop :=
  exists i a, assoc (er_collector_identity_evidence_ref r) identities = Some i /\
    al_by_digest lookup !! er_collector_attempt_digest r = Some a /\
    require_signature resolver anchor (ev_as_of c) i (Some a) = Ok tt /\
    forallb (inside_window s (ev_as_of c)) (er_instants r) = true /\
    (forall p, er_provenance r = Some p -> record_sourced c a r p).

Lemma check_record_source_Ok c a p r caches caches' : caches_sound (ev_envelope_resolver c) caches ->
  check_record_source (ev_envelope_resolver c) a p r caches = Ok caches' ->
  caches_sound (ev_envelope_resolver c) caches' /\ record_sourced c a r p.
Proof.
  intros Hc. unfold check_record_source, record_sourced.
  destruct (ep_source_response_digest p) as [d|]; [|done]. destruct (ep_source_response_pointer p) as [q|]; [|done].
  intros ([item caches1] & (Hi & Hs)%resolve_once_Ok & (text & Ht & (text' & Hp & ([] & He%guard_or_Ok & E)%bind_Ok)%bind_Ok)%bind_Ok)%bind_Ok;
    [|done]. injection E as <-. apply String.eqb_eq in He as ->. split; [done|]. by exists d, q, item, text'.
Qed.

Lemma resolve_gap_source_Ok c a g caches caches' : caches_sound (ev_envelope_resolver c) caches ->
  resolve_gap_source (ev_envelope_resolver c) a g caches = Ok caches' -> caches_sound (ev_envelope_resolver c) caches'.
Proof.
  intros Hc. unfold resolve_gap_source. repeat (case_match; [|by intros [= <-]]).
  destruct (resolve_envelope_pointer_once _ _ _ _ _ _) as [[v caches1]|] eqn:E; [|done]. intros [= <-].
  by apply resolve_once_Ok in E as [_ E].
Qed.

Lemma evaluate_record_Ok s c resolver anchor identities lookup caches r caches' :
  caches_sound (ev_envelope_resolver c) caches ->
  evaluate_record s resolver anchor c identities lookup caches r = Ok caches' ->
  caches_sound (ev_envelope_resolver c) caches' /\ record_evaluated s c resolver anchor identities lookup r.
Proof.
  intros Hc. unfold evaluate_record, record_evaluated. rewrite forallb_app.
  intros ([] & (Hw & _)%guard_or_Ok%andb_true_iff & ([] & _ & Hr)%bind_Ok)%bind_Ok.
  destruct (assoc _ identities) as [i|]; [|done]. apply bind_Ok in Hr as (a & Ha & ([] & Hs & Hr)%bind_Ok).
  unfold attempt_for_record in Ha. apply bind_Ok in Ha as (? & _ & Ha).
  destruct (al_by_digest lookup !! _) as [a'|]; [|done]. injection Ha as ->.
  enough (caches_sound (ev_envelope_resolver c) caches' /\ (forall p, er_provenance r = Some p -> record_sourced c a r p))
    as [? ?] by (split; [done|]; by exists i, a).
  destruct r; cbn [er_provenance] in *;
    [apply check_record_source_Ok in Hr as [? ?]; [split; [done|]; by intros p [= <-]|done]..|].
  split; [by eapply resolve_gap_source_Ok|done].
Qed.

Lemma evaluate_records_Ok s c resolver anchor identities lookup l caches caches' :
  caches_sound (ev_envelope_resolver c) caches ->
  foldR (evaluate_record s resolver anchor c identities lookup) caches l = Ok caches' ->
  Forall (record_evaluated s c resolver anchor identities lookup) l.
Proof.
  revert caches. induction l as [|r l IH]; intros caches Hc; cbn [foldR]; [constructor|].
  intros (caches1 & (Hc1 & Hr)%evaluate_record_Ok & Hl)%bind_Ok; [|done]. constructor; [done|by eapply IH].
Qed.

(** What the whole evaluation establishes *)
Record evaluation_holds s c resolver anchor (identities : identity_dict) (lookup : AttemptLookup) : Prop := {
  eh_resolver : ev_key_resolver c = Some resolver;
  eh_anchor : ev_trusted_key_anchor c = Some anchor;
  eh_fresh : es_collected_at s <= ev_as_of c < es_expires_at s;
  eh_attestation : verify_snapshot_attestation_signature (es_snapshot_attestation s) resolver anchor (ev_as_of c) = Ok true;
  eh_lookup : lookup_of (es_collector_attempts s) lookup;
  eh_attempts a : a ∈ es_collector_attempts s -> attempt_evaluated s c resolver anchor identities a;
  eh_records r : r ∈ es_evidence_records s -> record_evaluated s c resolver anchor identities lookup r;
}.

Lemma validate_for_evaluation_Ok s c s' lookup : snapshot_bound s lookup -> validate_for_evaluation s c = Ok s' ->
  s' = s /\ exists resolver anchor identities lookup', evaluation_holds s c resolver anchor identities lookup'.
Proof.
  intros Hb. unfold validate_for_evaluation.
  intros (? & _ & (? & _ & (? & Hp & (identities & _ & (? & _ & Hv)%bind_Ok)%bind_Ok)%bind_Ok)%bind_Ok)%bind_Ok.
  destruct (ev_key_resolver c) as [resolver|] eqn:Hr; [|done].
  destruct (ev_trusted_key_anchor c) as [anchor|] eqn:Ha; [|done].
  apply bind_Ok in Hv as (verified & Hs & (? & ->%guard_or_Ok & (? & _ & (lookup' & Hl & (caches & Hc & E)%bind_Ok)%bind_Ok)%bind_Ok)%bind_Ok).
  injection E as <-. split; [done|]. exists resolver, anchor, identities, lookup'.
  destruct (sb_lookup _ _ Hb) as [Hi Hd _ _].
  apply (evaluate_attempts_Ok _ _ _ _ _ [] _ _ _ Hi Hd empty_lookup) in Hl as [Hat Hl].
  apply evaluate_records_Ok in Hc; [|apply empty_caches_sound]. rewrite Forall_forall in Hat. rewrite Forall_forall in Hc.
  split; try done. unfold check_publication in Hp. inv_ok.
  repeat match goal with E : (_ <? _) = false |- _ => apply Z.ltb_ge in E | E : (_ <=? _) = false |- _ => apply Z.leb_gt in E end.
  lia.
Qed.

(** The response envelope an item was read from *)
Lemma sourced_envelope c a r p : record_sourced c a r p ->
  exists fetch envelope preimage digest pointer item text,
    ev_envelope_resolver c = Some fetch /\ fetch (ca_attempt_id a) ResponseEnvelope digest = Ok (Some envelope) /\
    compute_response_envelope_digest envelope = Ok digest /\ response_envelope_digest_preimage envelope = Ok preimage /\
    ep_source_response_digest p = Some digest /\ ep_source_response_pointer p = Some pointer /\
    resolve_json_pointer preimage pointer = Ok item /\
    canonicalize_json item = Ok text /\ canonicalize_json (evidence_source_projection r) = Ok text.
Proof.
  intros (digest & pointer & item & text & Hd & Hp & Hi & Ht & Hr).
  apply bind_Ok in Hi as (preimage & Hf & Hi). unfold fetch_envelope in Hf.
  destruct (ev_envelope_resolver c) as [fetch|]; [|done]. apply bind_Ok in Hf as ([envelope|] & He & Hf); [|done].
  apply bind_Ok in Hf as (digest' & Hd' & (? & ->%guard_or_Ok%String.eqb_eq & Hf)%bind_Ok).
  by exists fetch, envelope, preimage, digest, pointer, item, text.
Qed.

(** The attempt of a concrete record in a validated snapshot *)
Lemma record_attempt_success s lookup r p a : snapshot_bound s lookup -> r ∈ es_evidence_records s ->
  er_provenance r = Some p -> a ∈ es_collector_attempts s -> ca_attempt_digest a = er_collector_attempt_digest r ->
  exists digest received_at, ep_source_response_digest p = Some digest /\
    ca_outcome a = SuccessResponse digest received_at.
Proof.
  intros Hb Hin Hp Ha Hd. destruct (sb_records _ _ Hb _ Hin) as (a' & Hl & _ & Hr).
  apply (lookup_by_digest _ _ (sb_lookup _ _ Hb)) in Hl as [Ha' Hd'].
  assert (a' = a) as -> by (apply (NoDup_fmap_inj_on ca_attempt_digest _ (lookup_digests _ _ (sb_lookup _ _ Hb))); congruence).
  assert (Hc : check_record_provenance s a p = Ok tt /\ check_concrete_record s a r = Ok tt)
    by (destruct r; destruct Hr as [Hr ?]; try done; by split; [apply Hr|]).
  destruct Hc as [Hc Hk]. unfold check_concrete_record in Hk. apply bind_Ok in Hk as (? & Ht%guard_or_Ok & _).
  apply bool_decide_eq_true in Ht. unfold ca_attempt_type in Ht. unfold check_record_provenance in Hc.
  destruct (ca_outcome a) as [digest received_at| | | |]; try done. exists digest, received_at. inv_ok.
  split; [|done]. by repeat match goal with E : bool_decide (_ = Some _) = true |- _ => apply bool_decide_eq_true in E end.
Qed.

(** The identity a record is checked with is that of its attempt. *)
Lemma record_identity s lookup c resolver anchor identities lookup' r i a : snapshot_bound s lookup ->
  evaluation_holds s c resolver anchor identities lookup' -> r ∈ es_evidence_records s ->
  assoc (er_collector_identity_evidence_ref r) identities = Some i -> a ∈ es_collector_attempts s ->
  derivation_matches s i = true.
Proof.
  intros Hb He Hin Hi Ha. destruct (eh_attempts _ _ _ _ _ _ He a Ha) as (i' & Hi' & _ & Hd & _).
  destruct (sb_records _ _ Hb _ Hin) as (_ & _ & Hr & _). enough (Some i = Some i') as [= ->] by done.
  rewrite <- Hi, <- Hi', Hr. by rewrite (sb_attempt_identity _ _ Hb _ Ha).
Qed.

(** C16: A snapshot that is validated and accepted for evaluation is fresh, and
    every concrete record in it is exactly the item its source pointer selects in
    a response envelope whose digest is the response digest of the record's
    attempt, and that attempt is the one a trusted key signed for the collector
    of the snapshot. *)
Theorem evaluated_records_from_signed_responses s c s' : validate_snapshot s = Ok tt ->
  validate_for_evaluation s c = Ok s' ->
  s' = s /\ es_collected_at s <= ev_as_of c < es_expires_at s /\
  forall r p, r ∈ es_evidence_records s -> er_provenance r = Some p ->
  exists a i fetch envelope preimage digest received_at pointer item text,
    (a ∈ es_collector_attempts s /\ ca_attempt_digest a = er_collector_attempt_digest r /\
     ca_outcome a = SuccessResponse digest received_at /\ signed_attempt s c i a) /\
    ev_envelope_resolver c = Some fetch /\ fetch (ca_attempt_id a) ResponseEnvelope digest = Ok (Some envelope) /\
    compute_response_envelope_digest envelope = Ok digest /\ response_envelope_digest_preimage envelope = Ok preimage /\
    ep_source_response_pointer p = Some pointer /\ resolve_json_pointer preimage pointer = Ok item /\
    canonicalize_json item = Ok text /\ canonicalize_json (evidence_source_projection r) = Ok text.
Proof.
  intros (lookup & Hb)%validate_snapshot_bound Hv.
  destruct (validate_for_evaluation_Ok _ _ _ _ Hb Hv) as (-> & resolver & anchor & identities & lookup' & He).
  split_and!; [done|apply He|apply He|]. intros r p Hin Hp.
  destruct (eh_records _ _ _ _ _ _ He r Hin) as (i & a & Hi & Hl & Hs & _ & Hsrc).
  apply (lookup_by_digest _ _ (eh_lookup _ _ _ _ _ _ He)) in Hl as [Ha Hd].
  destruct (sourced_envelope _ _ _ _ (Hsrc p Hp)) as
    (fetch & envelope & preimage & digest & pointer & item & text & E1 & E2 & E3 & E4 & E5 & E6 & E7 & E8 & E9).
  destruct (record_attempt_success s lookup r p a Hb Hin Hp Ha Hd) as (digest' & received_at & Ed & Ho).
  rewrite E5 in Ed. injection Ed as <-.
  pose proof (record_identity _ _ _ _ _ _ _ _ _ _ Hb He Hin Hi Ha) as Hdm.
  exists a, i, fetch, envelope, preimage, digest, received_at, pointer, item, text.
  split_and!; try done. destruct (require_signature_Ok _ _ _ _ _ Hs) as [Hsv Hbm].
  destruct (signature_valid_true _ _ _ _ Hsv) as (key & text' & Hk & Hc & Hver).
  exists resolver, anchor, key, text'. split_and!; try done; apply He.
Qed.
End evaluated.

(** ** One attempt *)

(** What RFC 8785 documents: the canonical text of an object can be read back, so
    it determines the text members of the object. *)
Class Rfc8785Reads `{PyText} `{Rfc8785} : Prop := {
  dumps_text_member v1 v2 m1 m2 k x :
    normalize_json_value v1 = Ok (JObj m1) -> normalize_json_value v2 = Ok (JObj m2) ->
    rfc8785_dumps (JObj m1) = rfc8785_dumps (JObj m2) -> assoc k m1 = Some (JStr x) -> assoc k m2 = Some (JStr x);
}.

Section one_attempt.
Context `{PyTextAscii} `{Rfc8785} `{!Rfc8785Reads} {K : Type} `{Cryptography K}.
Implicit Types (s : EvidenceSnapshot) (a : CollectorAttempt).

Lemma attempt_id_text (id : string) : is_attempt_id id = true -> all_chars is_ascii id = true /\ contains_char "T"%char id = false.
Proof.
  unfold is_attempt_id, prefixed_hex. intros [Hp [_ Hh]%andb_true_iff]%andb_true_iff.
  apply starts_with_spec in Hp as [rest ->]. change (String.length "attempt-") with 8%nat in Hh.
  rewrite (string_drop_app "attempt-") in Hh. apply hex_json in Hh as [Ha HT].
  by rewrite all_chars_app, contains_char_app, Ha, HT.
Qed.

(** Normalization keeps the first member of an object first. *)
Lemma normalize_first_member k v ms w : normalize_json_value (JObj ((k, v) :: ms)) = Ok w ->
  exists v' ms', w = JObj ms' /\ normalize_json_value v = Ok v' /\ assoc (nfc k) ms' = Some v'.
Proof.
  rewrite normalize_JObj. cbn [normalize_members]. case_bool_decide; [done|].
  destruct (normalize_json_value v) as [v'|]; [|done]. unfold mbind, result_bind.
  destruct (normalize_members _ ms) as [ms'|]; [|done]. cbn. intros [= <-]. eexists v', _. split_and!; [done|done|]. cbn. by rewrite String.eqb_refl.
Qed.

(** The payload of an attempt starts with its id, which normalizes to itself. *)
Lemma payload_attempt_id a v : is_attempt_id (ca_attempt_id a) = true ->
  normalize_json_value (attempt_binding_payload a) = Ok v ->
  exists ms, v = JObj ms /\ assoc "attemptId" ms = Some (JStr (ca_attempt_id a)).
Proof.
  intros [Ha HT]%attempt_id_text Hv. unfold attempt_binding_payload in Hv. cbn [app] in Hv.
  apply normalize_first_member in Hv as (v' & ms & -> & Hv & Hms). exists ms. split; [done|].
  rewrite (normalize_plain_text nfc_of_ascii _ Ha HT) in Hv. injection Hv as <-. by rewrite nfc_of_ascii in Hms by done.
Qed.

Lemma binding_matches_id b a1 a2 : is_attempt_id (ca_attempt_id a1) = true -> is_attempt_id (ca_attempt_id a2) = true ->
  binding_matches b (Some a1) = Ok true -> binding_matches b (Some a2) = Ok true -> ca_attempt_id a1 = ca_attempt_id a2.
Proof.
  intros I1 I2. unfold binding_matches.
  intros (t1 & B1 & (p1 & P1 & E1)%bind_Ok)%bind_Ok (t2 & B2 & (p2 & P2 & E2)%bind_Ok)%bind_Ok.
  injection E1 as ->%String.eqb_eq. injection E2 as ->%String.eqb_eq. same_ok.
  unfold canonicalize_json in P1, P2.
  destruct (normalize_json_value (attempt_binding_payload a1)) as [v1|] eqn:N1; [|done].
  destruct (normalize_json_value (attempt_binding_payload a2)) as [v2|] eqn:N2; [|done].
  destruct (payload_attempt_id _ _ I1 N1) as (m1 & -> & A1), (payload_attempt_id _ _ I2 N2) as (m2 & -> & A2).
  injection P1 as P1. injection P2 as P2.
  assert (A : assoc "attemptId" m2 = Some (JStr (ca_attempt_id a1))) by (eapply dumps_text_member; [exact N1|exact N2|congruence|done]).
  congruence.
Qed.

(** An evidence snapshot that is constructed and then accepted for evaluation
    has exactly one collector attempt: all attempts name the collector's identity
    evidence, whose signed derivation binds a single attempt. *)
Theorem evaluated_snapshot_has_one_attempt s (c : EvaluationContext K) s' : construct_snapshot s = Ok tt ->
  validate_for_evaluation s c = Ok s' -> length (es_collector_attempts s) = 1%nat.
Proof.
  unfold construct_snapshot. rewrite reraise_Ok.
  intros (? & _ & (ats & Hat & (? & _ & (? & _ & (? & _ & Hs)%bind_Ok)%bind_Ok)%bind_Ok)%bind_Ok)%bind_Ok Hv.
  apply validate_snapshot_bound in Hs as (lookup & Hb).
  destruct (validate_for_evaluation_Ok _ _ _ _ Hb Hv) as (_ & resolver & anchor & identities & lookup' & He).
  assert (Hsame : forall a1 a2, a1 ∈ es_collector_attempts s -> a2 ∈ es_collector_attempts s -> a1 = a2).
  { intros a1 a2 In1 In2. apply (NoDup_fmap_inj_on ca_attempt_id _ (lookup_ids _ _ (sb_lookup _ _ Hb))); [done|done|].
    destruct (eh_attempts _ _ _ _ _ _ He _ In1) as (i & I1 & S1 & _), (eh_attempts _ _ _ _ _ _ He _ In2) as (i' & I2 & S2 & _).
    rewrite (sb_attempt_identity _ _ Hb _ In1) in I1. rewrite (sb_attempt_identity _ _ Hb _ In2), I1 in I2. injection I2 as <-.
    apply require_signature_Ok in S1 as [_ B1], S2 as [_ B2].
    assert (Hid : forall a, a ∈ es_collector_attempts s -> is_attempt_id (ca_attempt_id a) = true).
    { intros a Ha. apply (mapR_unit_elem _ _ _ _ Hat) in Ha. unfold validate_attempt, validate_attempt_outcome in Ha.
      by apply bind_Ok in Ha as (? & (? & ?%guard_or_Ok & _)%bind_Ok & _). }
    eapply binding_matches_id; [by apply Hid|by apply Hid|exact B1|exact B2]. }
  pose proof (sb_attested _ _ Hb) as Hn. unfold check_attested_at in Hn. apply bind_Ok in Hn as (? & Hn%raise_if_Ok & _).
  apply bool_decide_eq_false in Hn. pose proof (lookup_ids _ _ (sb_lookup _ _ Hb)) as Hd.
  destruct (es_collector_attempts s) as [|a1 [|a2 l]]; [done|done|]. exfalso.
  rewrite (Hsame a1 a2) in Hd by set_solver. cbn in Hd. apply NoDup_cons in Hd as [Hd _]. set_solver.
Qed.
End one_attempt.
