(* ===== verification/Proposals.v ===== *)
(** * Proposals: the records of cohort proposals

    The models of binding/domain.py with their validators. A confidence is a
    binary64 number, as in the code; its literals are written out. A proposal's
    snapshot is the record [Cohorts] has of it. *)
From S2P Require Import Prelude Text Json.
From S2P Require Export Cohorts Binding SnapshotDump.
From Stdlib Require Import SpecFloat.
Local Open Scope Z_scope.

(** ** Confidence *)
Definition double (m : positive) (e : Z) : spec_float := S754_finite false m e.
Definition float_0 : spec_float := S754_zero false.
Definition float_0_2 : spec_float := double 7205759403792794 (-55).
Definition float_0_45 : spec_float := double 8106479329266893 (-54).
Definition float_0_59 : spec_float := double 5314247560297185 (-53).
Definition float_0_6 : spec_float := double 5404319552844595 (-53).
Definition float_0_65 : spec_float := double 5854679515581645 (-53).
Definition float_0_8 : spec_float := double 7205759403792794 (-53).
Definition float_0_82 : spec_float := double 7385903388887613 (-53).
Definition float_0_9 : spec_float := double 8106479329266893 (-53).
Definition float_1 : spec_float := double 4503599627370496 (-52).

(** [a < b] and [a <= b] *)
Definition float_lt : spec_float -> spec_float -> bool := SFltb.
Definition float_le : spec_float -> spec_float -> bool := SFleb.

Inductive ConfidenceBand := BandHigh | BandMedium | BandLow | BandConflicting.
#[export] Instance ConfidenceBand_eq_dec : EqDecision ConfidenceBand.
Proof. solve_decision. Defined.

Definition band_text (b : ConfidenceBand) : string :=
  match b with BandHigh => "high" | BandMedium => "medium" | BandLow => "low" | BandConflicting => "conflicting" end.

(** ** The parts of a proposal *)
Record SelectorPreview := {
  pv_selector : ManifestSelector;
  pv_matched_resource_ids : list string;
  pv_selector_result_digest : string;
  pv_max_matches : Z;
}.

Record ProposalScope := {
  pq_manifest_id : string;
  pq_manifest_version : string;
  pq_profile_id : string;
  pq_profile_type : string;
  pq_resolved_profile_digest : string;
}.

Record SupportingEvidence := {
  su_signal_type : string;
  su_signal_value : string;
  su_member_resource_ids : list string;
  su_evidence_refs : list EvidenceReference;
}.

Record DissentingEvidence := {
  di_resource_id : string;
  di_signal_type : string;
  di_expected_value : string;
  di_observed_value : option string;
  di_reason : string;
  di_evidence_refs : list EvidenceReference;
}.

Record RejectedCandidate := {
  rj_resource_id : string;
  rj_reasons : list string;
  rj_evidence_refs : list EvidenceReference;
}.

Record ProposalConflict := {
  pc_code : string;
  pc_detail : string;
  pc_resource_ids : list string;
  pc_role_refs : list string;
}.

Record CohortProposal := {
  cp_proposal_id : string;
  cp_scope : ProposalScope;
  cp_role : ManifestRole;
  cp_members : list string;
  cp_confidence : spec_float;
  cp_confidence_band : ConfidenceBand;
  cp_supporting_evidence : list SupportingEvidence;
  cp_dissent : list DissentingEvidence;
  cp_rejected_candidates : list RejectedCandidate;
  cp_conflicts : list ProposalConflict;
  cp_selector_preview : option SelectorPreview;
  cp_snapshot : ProposalSnapshot;
  cp_disposition : string;
  cp_requires_human_review : bool;
  cp_bulk_review_eligible : bool;
  cp_publication_allowed : bool;
  cp_manifest_mutated : bool;
}.

Record CohortProposalBatch := {
  ct_scope : ProposalScope;
  ct_snapshot : ProposalSnapshot;
  ct_evaluated_at : Z;
  ct_input_digest : string;
  ct_proposal_set_digest : string;
  ct_proposals : list CohortProposal;
  ct_conflicts : list ProposalConflict;
  ct_requires_human_review : bool;
  ct_publication_allowed : bool;
  ct_manifest_mutated : bool;
}.

Definition construct_supporting (e : SupportingEvidence) : result SupportingEvidence :=
  _ ← guard_or (ValidationError "SupportingEvidence")
        (text_between 1 2000 (su_signal_value e) && list_between 1 30000 (su_member_resource_ids e) &&
         list_between 1 30000 (su_evidence_refs e));
  Ok e.

Definition construct_dissent (e : DissentingEvidence) : result DissentingEvidence :=
  _ ← guard_or (ValidationError "DissentingEvidence")
        (text_between 1 2048 (di_resource_id e) && text_between 1 2000 (di_expected_value e) &&
         match di_observed_value e with Some v => text_between 1 2000 v | None => true end &&
         text_between 1 500 (di_reason e) && list_between 0 100 (di_evidence_refs e));
  Ok e.

Definition construct_rejected (e : RejectedCandidate) : result RejectedCandidate :=
  _ ← guard_or (ValidationError "RejectedCandidate")
        (text_between 1 2048 (rj_resource_id e) && list_between 1 20 (rj_reasons e) &&
         list_between 0 100 (rj_evidence_refs e));
  Ok e.

Definition construct_conflict (e : ProposalConflict) : result ProposalConflict :=
  _ ← guard_or (ValidationError "ProposalConflict")
        (text_between 1 1000 (pc_detail e) && list_between 0 30000 (pc_resource_ids e) &&
         list_between 0 200 (pc_role_refs e));
  Ok e.

Definition construct_preview (p : SelectorPreview) : result SelectorPreview :=
  _ ← guard_or (ValidationError "SelectorPreview")
        (list_between 0 1000 (pv_matched_resource_ids p) && is_digest (pv_selector_result_digest p) &&
         (1 <=? pv_max_matches p) && (pv_max_matches p <=? 1000));
  Ok p.

Section proposals.
Context `{PyText}.

(** ** CohortProposal *)

(** CohortProposal.validate_members *)
Definition validate_members (values : list string) : result unit :=
  let normalized := (fun value => casefold (normalize_nfc_text value)) <$> values in
  guard_or (AthenaValidationError "proposal members must be unique normalized resource IDs in sorted order")
    (bool_decide (values = sort_strings normalized) && unique normalized).

(** [0.6 <= confidence < 0.8] and the other ranges of a band *)
Definition confidence_in_band (band : ConfidenceBand) (confidence : spec_float) : bool :=
  match band with
  | BandHigh => negb (float_lt confidence float_0_8)
  | BandMedium => float_le float_0_6 confidence && float_lt confidence float_0_8
  | BandLow | BandConflicting => negb (float_le float_0_6 confidence)
  end.

(** CohortProposal.validate_review_invariants *)
Definition validate_review_invariants (p : CohortProposal) : result unit :=
  let high := bool_decide (cp_confidence_band p = BandHigh) in
  _ ← guard_or (AthenaValidationError "only high-confidence proposals are bulk-review eligible")
        (Bool.eqb (cp_bulk_review_eligible p) high);
  _ ← guard_or (AthenaValidationError "proposal disposition does not match confidence band")
        (String.eqb (cp_disposition p) (if high then "bulkHumanReview" else "humanResolution"));
  _ ← raise_if (AthenaValidationError "high-confidence proposals require a bounded preview without dissent or conflicts")
        (high && (negb (bool_decide (length (cp_conflicts p) = 0%nat)) || negb (bool_decide (length (cp_dissent p) = 0%nat)) ||
                  negb (present (cp_selector_preview p))));
  _ ← guard_or (AthenaValidationError "proposal confidence does not match its confidence band")
        (confidence_in_band (cp_confidence_band p) (cp_confidence p));
  _ ← match cp_selector_preview p with
      | Some preview =>
          _ ← guard_or (AthenaValidationError "selector preview must resolve to exactly the cohort")
                (bool_decide (pv_matched_resource_ids preview = cp_members p));
          guard_or (AthenaValidationError "selector preview maxMatches values must agree")
            (pv_max_matches preview =? selector_max_matches (pv_selector preview))
      | None => Ok tt
      end;
  _ ← guard_or (AthenaValidationError "supporting evidence must cite the complete proposed cohort")
        (forallb (fun e => bool_decide (su_member_resource_ids e = cp_members p)) (cp_supporting_evidence p));
  _ ← guard_or (AthenaValidationError "dissent must identify a proposed cohort member")
        (forallb (fun e => bool_decide (di_resource_id e ∈ cp_members p)) (cp_dissent p));
  _ ← raise_if (AthenaValidationError "a cohort member cannot also be a rejected candidate")
        (existsb (fun e => bool_decide (rj_resource_id e ∈ cp_members p)) (cp_rejected_candidates p));
  raise_if (AthenaValidationError "proposal role must be present") (String.eqb (casefold (mr_role_id (cp_role p))) "").

Definition construct_proposal (p : CohortProposal) : result CohortProposal :=
  _ ← guard_or (ValidationError "CohortProposal")
        (prefixed_hex "proposal-" 16 (cp_proposal_id p) && list_between 0 1000 (cp_members p) &&
         float_le float_0 (cp_confidence p) && float_le (cp_confidence p) float_1 &&
         list_between 0 100 (cp_supporting_evidence p) && list_between 0 30000 (cp_dissent p) &&
         list_between 0 30000 (cp_rejected_candidates p) && list_between 0 1000 (cp_conflicts p) &&
         cp_requires_human_review p && negb (cp_publication_allowed p) && negb (cp_manifest_mutated p));
  _ ← reraise is_value_error (ValidationError "CohortProposal")
        (_ ← validate_members (cp_members p); validate_review_invariants p);
  Ok p.

(** ** CohortProposalBatch *)

(** One turn of the inner loop of [validate_exclusive_membership] *)
Definition claim_member (proposal_id : string) (memberships : gmap string string) (resource_id : string)
    : result (gmap string string) :=
  _ ← raise_if (AthenaValidationError "a normalized resource ID cannot belong to multiple cohort proposals")
        (bool_decide (is_Some (memberships !! resource_id)));
  Ok (<[resource_id := proposal_id]> memberships).

(** CohortProposalBatch.validate_exclusive_membership *)
Definition validate_exclusive_membership (proposals : list CohortProposal) : result unit :=
  _ ← foldR (fun memberships p => foldR (claim_member (cp_proposal_id p)) memberships (cp_members p)) ∅ proposals;
  Ok tt.

Definition construct_batch (b : CohortProposalBatch) : result CohortProposalBatch :=
  _ ← guard_or (ValidationError "CohortProposalBatch")
        (is_digest (ct_input_digest b) && is_digest (ct_proposal_set_digest b) && list_between 0 30000 (ct_proposals b) &&
         list_between 0 1000 (ct_conflicts b) && ct_requires_human_review b && negb (ct_publication_allowed b) &&
         negb (ct_manifest_mutated b));
  _ ← reraise is_value_error (ValidationError "CohortProposalBatch") (validate_exclusive_membership (ct_proposals b));
  Ok b.
End proposals.

(** ** Renderings *)
Definition preview_json (p : SelectorPreview) : json :=
  JObj [("selector", selector_json (pv_selector p)); ("matchedResourceIds", texts_json (pv_matched_resource_ids p));
        ("selectorResultDigest", JStr (pv_selector_result_digest p)); ("maxMatches", JInt (pv_max_matches p))].

Definition proposal_scope_json (s : ProposalScope) : json :=
  JObj [("manifestId", JStr (pq_manifest_id s)); ("manifestVersion", JStr (pq_manifest_version s));
        ("profileId", JStr (pq_profile_id s)); ("profileType", JStr (pq_profile_type s));
        ("resolvedProfileDigest", JStr (pq_resolved_profile_digest s))].

Definition proposal_snapshot_json (s : ProposalSnapshot) : json :=
  JObj [("snapshotId", JStr (ps_snapshot_id s)); ("artifactDigest", JStr (ps_artifact_digest s));
        ("semanticDigest", JStr (ps_semantic_digest s)); ("collectedAt", utc_json (ps_collected_at s));
        ("expiresAt", utc_json (ps_expires_at s))].

Definition conflict_json (c : ProposalConflict) : json :=
  JObj [("code", JStr (pc_code c)); ("detail", JStr (pc_detail c)); ("resourceIds", texts_json (pc_resource_ids c));
        ("roleRefs", texts_json (pc_role_refs c))].

Definition supporting_json (e : SupportingEvidence) : json :=
  JObj [("signalType", JStr (su_signal_type e)); ("signalValue", JStr (su_signal_value e));
        ("memberResourceIds", texts_json (su_member_resource_ids e));
        ("evidenceRefs", JArr (evidence_reference_json <$> su_evidence_refs e))].

Definition dissent_json (e : DissentingEvidence) : json :=
  JObj ([("resourceId", JStr (di_resource_id e)); ("signalType", JStr (di_signal_type e));
         ("expectedValue", JStr (di_expected_value e))] ++
        opt_member "observedValue" (JStr <$> di_observed_value e) ++
        [("reason", JStr (di_reason e)); ("evidenceRefs", JArr (evidence_reference_json <$> di_evidence_refs e))]).

Definition rejected_json (e : RejectedCandidate) : json :=
  JObj [("resourceId", JStr (rj_resource_id e)); ("reasons", texts_json (rj_reasons e));
        ("evidenceRefs", JArr (evidence_reference_json <$> rj_evidence_refs e))].

Definition proposal_json (p : CohortProposal) : json :=
  JObj ([("proposalId", JStr (cp_proposal_id p)); ("scope", proposal_scope_json (cp_scope p)); ("role", role_json (cp_role p));
         ("members", texts_json (cp_members p)); ("confidence", JFloat (cp_confidence p));
         ("confidenceBand", JStr (band_text (cp_confidence_band p)));
         ("supportingEvidence", JArr (supporting_json <$> cp_supporting_evidence p));
         ("dissent", JArr (dissent_json <$> cp_dissent p));
         ("rejectedCandidates", JArr (rejected_json <$> cp_rejected_candidates p));
         ("conflicts", JArr (conflict_json <$> cp_conflicts p))] ++
        opt_member "selectorPreview" (preview_json <$> cp_selector_preview p) ++
        [("snapshot", proposal_snapshot_json (cp_snapshot p)); ("disposition", JStr (cp_disposition p));
         ("requiresHumanReview", JBool (cp_requires_human_review p));
         ("bulkReviewEligible", JBool (cp_bulk_review_eligible p));
         ("publicationAllowed", JBool (cp_publication_allowed p)); ("manifestMutated", JBool (cp_manifest_mutated p))]).
