(* ===== verification/EvidenceIndex.v ===== *)
(** * EvidenceIndex: what the proposal engine reads from a snapshot

    The first part of binding/engine.py: scopes as path prefixes, references bound
    to their records, and [_build_evidence_index], which sorts the records of a
    snapshot into resources, references, communications, rejection reasons and
    conflicts. A [dict] the code iterates over is an association list in insertion
    order; one it only looks up is a [gmap]. *)
From S2P Require Import Prelude Text Time Json.
From S2P Require Export Proposals SnapshotRules.
Local Open Scope Z_scope.

(** _EvidenceIndex; [all_resources] are the values of [resources]. *)
Record EvidenceIndex := {
  ei_resources : resource_dict;
  ei_resource_refs : gmap string EvidenceItemRef;
  ei_communications : gmap string (list (string * EvidenceItemRef));
  ei_rejection_reasons : gmap string (gset string);
  ei_conflicts : list ProposalConflict;
}.

Definition ei_all_resources (index : EvidenceIndex) : list ResourceEvidenceRecord := snd <$> ei_resources index.

(** [d.get(key, [])] and [d[key].add(value)] of a [defaultdict(set)] *)
Definition get_list {A} (d : gmap string (list A)) (key : string) : list A := default [] (d !! key).
Definition get_set (d : gmap string (gset string)) (key : string) : gset string := default ∅ (d !! key).
Definition add_to (d : gmap string (gset string)) (key value : string) : gmap string (gset string) :=
  <[key := {[value]} ∪ get_set d key]> d.
Definition append_to {A} (d : gmap string (list A)) (key : string) (value : A) : gmap string (list A) :=
  <[key := get_list d key ++ [value]]> d.

(** [groups[key].append(value)] of a [defaultdict(list)] that keeps its order *)
Fixpoint group_append {A} (groups : list (string * list A)) (key : string) (value : A) : list (string * list A) :=
  match groups with
  | [] => [(key, [value])]
  | (k, values) :: groups =>
      if String.eqb k key then (k, values ++ [value]) :: groups else (k, values) :: group_append groups key value
  end.

Section index.
Context `{PyText} `{Rfc8785}.

(** ** Scopes *)

(** [tuple(part.casefold() for part in resource_id.split("/") if part)] *)
Definition folded_parts (resource_id : string) : list string :=
  casefold <$> select (fun part => negb (String.eqb part "")) (split_on slash resource_id).

(** _scope_prefix *)
Definition scope_prefix (tenant_id : string) (scope : EvidenceScope) : option (list string) :=
  match scope_tenant_id scope with
  | Some scope_tenant => if String.eqb (casefold scope_tenant) (casefold tenant_id) then scope_components scope else None
  | None => match scope with ResourceIdScope resource_id => Some (folded_parts resource_id) | _ => None end
  end.

Definition is_resource_scope (scope : EvidenceScope) : bool :=
  match scope with ResourceIdScope _ => true | _ => false end.

(** [tenant_bound_prefixes] *)
Definition tenant_bound_prefixes (tenant_id : string) (scopes : list EvidenceScope) : list (list string) :=
  omap (scope_prefix tenant_id) (select (fun scope => negb (is_resource_scope scope)) scopes).

(** _resource_in_scopes *)
Definition resource_in_scopes (resource_id : string) (scopes : list EvidenceScope) (tenant_id : string) : bool :=
  let parts := folded_parts resource_id in
  existsb (fun scope =>
    match scope_prefix tenant_id scope with
    | Some prefix =>
        components_contain prefix parts &&
        (negb (is_resource_scope scope) ||
         existsb (fun parent => components_contain parent prefix) (tenant_bound_prefixes tenant_id scopes))
    | None => false
    end) scopes.

(** _scopes_overlap *)
Definition scopes_overlap (left_scope right_scope : EvidenceScope) (tenant_id : string) : bool :=
  match scope_prefix tenant_id left_scope, scope_prefix tenant_id right_scope with
  | Some left_prefix, Some right_prefix =>
      negb (is_resource_scope left_scope && is_resource_scope right_scope) &&
      let shortest := Nat.min (length left_prefix) (length right_prefix) in
      bool_decide (take shortest left_prefix = take shortest right_prefix)
  | _, _ => false
  end.

(** _expected_environment *)
Definition expected_environment (profile_type : string) : string :=
  if String.eqb profile_type "disasterRecovery" then "disaster-recovery" else profile_type.

(** ** References and conflicts *)

(** _unique_refs; [_detached_item_ref] copies a reference. *)
Definition unique_refs (refs : list EvidenceItemRef) : result (list EvidenceReference) :=
  keyed ← mapR (fun ref => text ← canonicalize_json (item_ref_json ref); Ok (text, ref)) refs;
  Ok ((fun item => ItemRef (snd item)) <$> sorted_values (dict_by fst keyed)).

(** _conflict; the iteration order of the set of roles is that of [elements]. *)
Definition conflict (code detail : string) (resource_ids role_refs : gset string) : result ProposalConflict :=
  construct_conflict {| pc_code := code; pc_detail := detail; pc_resource_ids := sort_strings (elements resource_ids);
                        pc_role_refs := sort_by casefold (elements role_refs) |}.

(** _reference_matches_snapshot *)
Definition reference_matches_snapshot (ref : EvidenceItemRef) (s : EvidenceSnapshot) : bool :=
  String.eqb (ir_snapshot_id ref) (es_snapshot_id s) &&
  String.eqb (ir_snapshot_artifact_digest ref) (cm_artifact_digest (es_compatibility s)) &&
  String.eqb (ir_snapshot_semantic_digest ref) (cm_semantic_digest (es_compatibility s)) &&
  (es_collected_at s <=? ir_collector_attempt_at ref) && (ir_collector_attempt_at ref <? es_expires_at s).

(** _reference_matches_record, on the fields of a resource or relationship record *)
Definition reference_matches_record (ref : EvidenceItemRef) (item_digest attempt_digest identity_ref : string)
    (p : EvidenceRecordProvenance) (s : EvidenceSnapshot) : bool :=
  reference_matches_snapshot ref s && String.eqb (ir_item_digest ref) item_digest &&
  String.eqb (ir_collector_attempt_id ref) (ep_collector_attempt_id p) &&
  String.eqb (ir_collector_attempt_digest ref) attempt_digest &&
  String.eqb (ir_collector_tool_name ref) (ep_tool_name p) &&
  String.eqb (ir_collector_tool_version ref) (ep_tool_version p) &&
  String.eqb (ir_collector_identity_evidence_ref ref) identity_ref &&
  bool_decide (Some (ir_source_response_digest ref) = ep_source_response_digest p) &&
  bool_decide (Some (ir_source_response_pointer ref) = ep_source_response_pointer p).

(** [item_refs_by_digest.get(digest, [])] *)
Definition item_refs_by_digest (s : EvidenceSnapshot) (digest : string) : list EvidenceItemRef :=
  select (fun ref => String.eqb (ir_item_digest ref) digest)
    (omap (fun ref => match ref with ItemRef ref => Some ref | GapRef _ => None end) (es_evidence_refs s)).

Definition resource_record_refs (s : EvidenceSnapshot) (r : ResourceEvidenceRecord) : list EvidenceItemRef :=
  select (fun ref => reference_matches_record ref (re_item_digest r) (re_collector_attempt_digest r)
                       (re_collector_identity_evidence_ref r) (re_provenance r) s) (item_refs_by_digest s (re_item_digest r)).
Definition relationship_record_refs (s : EvidenceSnapshot) (r : ObservedRelationshipEvidenceRecord) : list EvidenceItemRef :=
  select (fun ref => reference_matches_record ref (oe_item_digest r) (oe_collector_attempt_digest r)
                       (oe_collector_identity_evidence_ref r) (oe_provenance r) s) (item_refs_by_digest s (oe_item_digest r)).

(** ** Communications *)

(** The id an endpoint contributes to a signature *)
Definition endpoint_id (e : EvidenceRelationshipEndpoint) : result string :=
  match e with
  | EvidenceResourceRef resource_id => normalize_resource_id resource_id
  | _ => canonicalize_json (relationship_endpoint_json e)
  end.

(** _relationship_resources, without the direction the code discards *)
Definition relationship_resources (r : ObservedRelationship) : result (list string) :=
  let endpoint e := match e with
                    | EvidenceResourceRef resource_id => (fun id => [id]) <$> normalize_resource_id resource_id
                    | _ => Ok []
                    end in
  source ← endpoint (ov_source r); target ← endpoint (ov_target r); Ok (source ++ target).

(** _communication_signature *)
Definition communication_signature (r : ObservedRelationship) (resource_id : string) : result string :=
  source_id ← endpoint_id (ov_source r);
  target_id ← endpoint_id (ov_target r);
  Ok (if String.eqb source_id resource_id then "out:" +:+ ov_kind r +:+ ":" +:+ target_id
      else "in:" +:+ ov_kind r +:+ ":" +:+ source_id).

(** ** Building the index *)

(** The first loop of [_build_evidence_index]: [records_by_id], [relationships]
    and [relevant_gap] *)
Record RecordSort := {
  so_records_by_id : list (string * list ResourceEvidenceRecord);
  so_relationships : list ObservedRelationshipEvidenceRecord;
  so_relevant_gap : bool;
}.

Definition sort_record (p : ResolvedManifestProfile) (s : EvidenceSnapshot) (sorted : RecordSort) (r : EvidenceRecord)
    : result RecordSort :=
  match r with
  | ResourceRecord r =>
      resource_id ← normalize_resource_id (re_resource_id r);
      Ok {| so_records_by_id := group_append (so_records_by_id sorted) resource_id r;
            so_relationships := so_relationships sorted; so_relevant_gap := so_relevant_gap sorted |}
  | ObservedRelationshipRecord r =>
      Ok {| so_records_by_id := so_records_by_id sorted; so_relationships := so_relationships sorted ++ [r];
            so_relevant_gap := so_relevant_gap sorted |}
  | GapRecord g =>
      let overlaps := existsb (fun scope => scopes_overlap (ge_evidence_scope g) scope (sc_tenant_id (es_collector s)))
                        (rp_allowed_evidence_scopes p) in
      Ok {| so_records_by_id := so_records_by_id sorted; so_relationships := so_relationships sorted;
            so_relevant_gap := so_relevant_gap sorted || overlaps |}
  | _ => Ok sorted
  end.

Definition sort_records (p : ResolvedManifestProfile) (s : EvidenceSnapshot) : result RecordSort :=
  foldR (sort_record p s) {| so_records_by_id := []; so_relationships := []; so_relevant_gap := false |}
    (es_evidence_records s).

(** One turn of the loop over [records_by_id] *)
Definition index_resource (index : EvidenceIndex) (group : string * list ResourceEvidenceRecord) : result EvidenceIndex :=
  let '(resource_id, records) := group in
  match records with
  | [record] =>
      Ok {| ei_resources := ei_resources index ++ [(resource_id, record)]; ei_resource_refs := ei_resource_refs index;
            ei_communications := ei_communications index; ei_rejection_reasons := ei_rejection_reasons index;
            ei_conflicts := ei_conflicts index |}
  | _ =>
      c ← conflict "duplicateResourceId" "multiple records normalize to the same Azure resource ID" {[resource_id]} ∅;
      Ok {| ei_resources := ei_resources index; ei_resource_refs := ei_resource_refs index;
            ei_communications := ei_communications index;
            ei_rejection_reasons := add_to (ei_rejection_reasons index) resource_id "duplicateResourceId";
            ei_conflicts := ei_conflicts index ++ [c] |}
  end.

(** The reasons of the loop over [resources] that do not concern references *)
Definition scope_reasons (p : ResolvedManifestProfile) (s : EvidenceSnapshot) (resource_id : string)
    (record : ResourceEvidenceRecord) : list string :=
  let tenant_id := sc_tenant_id (es_collector s) in
  (if resource_in_scopes resource_id (rp_allowed_evidence_scopes p) tenant_id then [] else ["outOfProfileScope"]) ++
  (if resource_in_scopes resource_id (es_authorized_scopes s) tenant_id then [] else ["outOfSnapshotScope"]) ++
  match at_environment (re_tags record) with
  | None => ["missingEnvironment"]
  | Some environment =>
      if String.eqb (casefold environment) (casefold (expected_environment (rp_profile_type p))) then []
      else ["crossEnvironment"]
  end.

(** One turn of the loop over [resources] *)
Definition check_resource (p : ResolvedManifestProfile) (s : EvidenceSnapshot) (index : EvidenceIndex)
    (item : string * ResourceEvidenceRecord) : result EvidenceIndex :=
  let '(resource_id, record) := item in
  '(refs, reasons, conflicts) ←
    match resource_record_refs s record with
    | [ref] => Ok (<[resource_id := ref]> (ei_resource_refs index), ei_rejection_reasons index, ei_conflicts index)
    | _ =>
        c ← conflict "invalidEvidenceReference" "resource record does not resolve to exactly one bound EvidenceItemRef"
              {[resource_id]} ∅;
        Ok (ei_resource_refs index, add_to (ei_rejection_reasons index) resource_id "invalidEvidenceReference",
            ei_conflicts index ++ [c])
    end;
  Ok {| ei_resources := ei_resources index; ei_resource_refs := refs; ei_communications := ei_communications index;
        ei_rejection_reasons := foldl (fun d reason => add_to d resource_id reason) reasons
                                  (scope_reasons p s resource_id record);
        ei_conflicts := conflicts |}.

(** The inner loop over the resources of a relationship *)
Definition add_communications (r : ObservedRelationship) (ref : EvidenceItemRef) (index : EvidenceIndex) : result EvidenceIndex :=
  ids ← relationship_resources r;
  communications ← foldR (fun d resource_id =>
    if bool_decide (resource_id ∈ fst <$> ei_resources index) then
      signature ← communication_signature r resource_id;
      Ok (append_to d resource_id (signature, ref))
    else Ok d) (ei_communications index) ids;
  Ok {| ei_resources := ei_resources index; ei_resource_refs := ei_resource_refs index; ei_communications := communications;
        ei_rejection_reasons := ei_rejection_reasons index; ei_conflicts := ei_conflicts index |}.

(** One turn of the loop over [relationships] *)
Definition index_relationship (s : EvidenceSnapshot) (as_of : Z) (index : EvidenceIndex)
    (record : ObservedRelationshipEvidenceRecord) : result EvidenceIndex :=
  let observed_at := ov_observed_at (oe_relationship record) in
  match relationship_record_refs s record with
  | [ref] =>
      if (as_of <? observed_at) || negb ((es_collected_at s <=? observed_at) && (observed_at <? es_expires_at s))
      then Ok index
      else add_communications (oe_relationship record) ref index
  | _ => Ok index
  end.

(** _build_evidence_index *)
Definition build_evidence_index (p : ResolvedManifestProfile) (s : EvidenceSnapshot) (as_of : Z) : result EvidenceIndex :=
  sorted ← sort_records p s;
  gap_conflicts ← (if so_relevant_gap sorted then
                     c ← conflict "evidenceGap" "the snapshot contains a resource evidence gap overlapping the profile scope" ∅ ∅;
                     Ok [c]
                   else Ok []);
  index ← foldR index_resource
            {| ei_resources := []; ei_resource_refs := ∅; ei_communications := ∅; ei_rejection_reasons := ∅;
               ei_conflicts := gap_conflicts |} (so_records_by_id sorted);
  index ← foldR (check_resource p s) index (ei_resources index);
  foldR (index_relationship s as_of) index (so_relationships sorted).
End index.
