(* ===== verification/Preview.v ===== *)
(** * Preview: the selector a proposal offers for its cohort

    The selector preview of binding/engine.py: the anchors and groups of candidate
    members, the candidate selectors that cover a cohort, and
    [_build_selector_preview], which narrows all resources down to the cohort with
    at most ten candidates, or lists the members. A candidate is always atomic:
    the children of a composite selector are. *)
From S2P Require Import Prelude Text Time Json.
From S2P Require Export EvidenceIndex.
From Stdlib Require Import Ascii.
Local Open Scope Z_scope.

(** The renderings of selectors the engine digests are those of the contract. *)
#[export] Instance manifest_selector_dump : ModelDump ManifestSelector | 100 := selector_json.

(** ** Selector fields *)

(** [^[A-Za-z0-9.]+/[A-Za-z0-9]+(?:/[A-Za-z0-9]+)*$] *)
Definition is_selector_resource_type (s : string) : bool :=
  match split_on slash s with
  | namespace :: (_ :: _) as types =>
      let alnum extra part := negb (String.eqb part "") && all_chars (fun c => is_alnum c || extra c) part in
      alnum (Ascii.eqb ".") namespace && forallb (alnum (fun _ => false)) (tail types)
  | _ => false
  end.

(** The pattern of [collectorToolVersion]: three numbers without leading zeros *)
Definition is_plain_version (s : string) : bool :=
  let number part := String.eqb part "0" ||
    match part with
    | String c rest => is_digit c && negb (Ascii.eqb c "0") && all_chars is_digit rest
    | EmptyString => false
    end in
  match split_on "." s with
  | [major; minor; patch] => number major && number minor && number patch
  | _ => false
  end.

Definition optional_between (lo hi : nat) (s : option string) : bool :=
  match s with Some s => text_between lo hi s | None => true end.

(** The field constraints of the atomic selectors *)
Definition atomic_fields (s : AtomicSelector) : bool :=
  text_between 1 128 (atomic_selector_id s) && (1 <=? atomic_max_matches s) && (atomic_max_matches s <=? 1000) &&
  match s with
  | ResourceIdListSelector _ resource_ids _ => list_between 1 200 resource_ids
  | TagPredicateSelector _ predicates _ =>
      list_between 1 20 predicates &&
      forallb (fun p => text_between 1 128 (te_key p) && text_between 1 256 (te_value p)) predicates
  | NamePredicateSelector _ prefix suffix _ => optional_between 1 128 prefix && optional_between 1 128 suffix
  | ResourceTypeSelector _ resource_type locations resource_groups _ =>
      text_between 3 200 resource_type && is_selector_resource_type resource_type &&
      list_between 0 20 locations && list_between 0 20 resource_groups
  | VmssSelector _ scale_set_resource_id instance_ids _ =>
      text_between 1 2048 scale_set_resource_id && list_between 0 200 instance_ids
  | LoadBalancerBackendSelector _ load_balancer_resource_id backend_pool_name _ =>
      text_between 1 2048 load_balancer_resource_id && text_between 1 128 backend_pool_name
  | SubnetSelector _ subnet_resource_id _ => text_between 1 2048 subnet_resource_id
  | ImageSelector _ publisher offer sku version _ =>
      text_between 1 128 publisher && text_between 1 128 offer && text_between 1 128 sku && optional_between 1 64 version
  | ProvenanceSelector _ tool_name tool_version identity_ref _ =>
      text_between 1 128 tool_name && is_plain_version tool_version && text_between 1 128 identity_ref
  end.

(** The members of a rendering but [selectorId] and [maxMatches] *)
Definition without_identity (v : json) : json :=
  match v with
  | JObj members => JObj (select (fun m => negb (String.eqb (fst m) "selectorId") && negb (String.eqb (fst m) "maxMatches")) members)
  | v => v
  end.

(** [payload["selectorId"] = selector_id; payload["maxMatches"] = max_matches] *)
Definition with_identity (selector_id : string) (n : Z) (s : AtomicSelector) : AtomicSelector :=
  match s with
  | ResourceIdListSelector _ resource_ids _ => ResourceIdListSelector selector_id resource_ids n
  | TagPredicateSelector _ predicates _ => TagPredicateSelector selector_id predicates n
  | NamePredicateSelector _ prefix suffix _ => NamePredicateSelector selector_id prefix suffix n
  | ResourceTypeSelector _ resource_type locations groups _ => ResourceTypeSelector selector_id resource_type locations groups n
  | VmssSelector _ scale_set instance_ids _ => VmssSelector selector_id scale_set instance_ids n
  | LoadBalancerBackendSelector _ load_balancer pool _ => LoadBalancerBackendSelector selector_id load_balancer pool n
  | SubnetSelector _ subnet _ => SubnetSelector selector_id subnet n
  | ImageSelector _ publisher offer sku version _ => ImageSelector selector_id publisher offer sku version n
  | ProvenanceSelector _ tool_name tool_version identity_ref _ => ProvenanceSelector selector_id tool_name tool_version identity_ref n
  end.

(** [set(a).issubset(b)] *)
Definition subset_of (a b : list string) : bool := forallb (fun x => bool_decide (x ∈ b)) a.

(** The decimal text of an int from 0 on *)
Fixpoint decimal_with (fuel : nat) (n : Z) (rest : string) : string :=
  match fuel with
  | O => rest
  | S fuel =>
      let text := String (ascii_of_N (Z.to_N (48 + n mod 10))) rest in
      if n <? 10 then text else decimal_with fuel (n / 10) text
  end.
Definition decimal (n : nat) : string := decimal_with (S n) (Z.of_nat n) "".

Section preview.
Context `{PyText} `{Rfc8785}.

(** The construction of an atomic and of a composite selector *)
Definition construct_atomic (s : AtomicSelector) : result AtomicSelector :=
  _ ← guard_or (ValidationError "AtomicSelector") (atomic_fields s);
  _ ← reraise is_value_error (ValidationError "AtomicSelector") (validate_atomic_selector s);
  Ok s.

Definition construct_composite (s : ManifestSelector) : result ManifestSelector :=
  _ ← guard_or (ValidationError "CompositeAllSelector")
        (text_between 1 128 (selector_id s) && list_between 1 10 (selector_children s) &&
         (1 <=? selector_max_matches s) && (selector_max_matches s <=? 1000));
  _ ← reraise is_value_error (ValidationError "CompositeAllSelector") (validate_children s);
  Ok s.

(** [selector.canonical_json()] *)
Definition selector_canonical_json (s : ManifestSelector) : result string := canonicalize_json (selector_json s).

(** ** Groups of candidate members *)

(** The loop of [_vmss_anchor]; [before] holds the parts already passed. *)
Fixpoint vmss_anchor_in (before parts : list string) : result (option string) :=
  match parts with
  | part0 :: ((part1 :: part2 :: part3 :: part4 :: _) as rest) =>
      if names_scale_set part0 part1 part2 part4 then
        Some <$> normalize_resource_id (join "/" (before ++ [part0; part1; part2; part3]))
      else vmss_anchor_in (before ++ [part0]) rest
  | _ => Ok None
  end.

(** _vmss_anchor *)
Definition vmss_anchor (resource_id : string) : result (option string) := vmss_anchor_in [] (split_on slash resource_id).

(** [groups[anchor].append(resource_id)], over the anchored candidates *)
Definition anchored_groups (anchored : list (string * option string)) : list (string * list string) :=
  foldl (fun groups item => match snd item with Some anchor => group_append groups anchor (fst item) | None => groups end)
    [] anchored.

(** _candidate_groups; the candidates are distinct, the keys of a [dict]. *)
Definition candidate_groups (candidates : list string) : result (list (string * list string)) :=
  match candidates with
  | [] => Ok [("none", [])]
  | _ =>
      anchored ← mapR (fun id => anchor ← vmss_anchor id; Ok (id, anchor)) candidates;
      Ok (if forallb (fun item => present (snd item)) anchored then
            (fun group => (fst group, sort_strings (snd group))) <$> sort_by fst (anchored_groups anchored)
          else [("unanchored", sort_strings candidates)])
  end.

(** The anchor all members share: [len(anchors) == 1 and None not in anchors] *)
Definition common_anchor (members : list string) : result (option string) :=
  anchors ← mapR vmss_anchor members;
  Ok (match remove_dups anchors with [Some anchor] => Some anchor | _ => None end).

(** ** Candidate selectors *)

(** _selector_atoms *)
Definition selector_atoms (s : ManifestSelector) : list AtomicSelector :=
  match s with
  | CompositeAllSelector _ children _ | CompositeAnySelector _ children _ => children
  | Atomic s => [s]
  end.

(** _clone_atomic *)
Definition clone_atomic (s : AtomicSelector) (selector_id : string) (max_matches : Z) : result AtomicSelector :=
  construct_atomic (with_identity selector_id max_matches s).

(** [index.resources[item]] *)
Definition resource_of (index : EvidenceIndex) (resource_id : string) : result ResourceEvidenceRecord :=
  match List.find (fun item => String.eqb (fst item) resource_id) (ei_resources index) with
  | Some item => Ok (snd item)
  | None => Raise (KeyError "resources")
  end.

(** _expected_workload_role *)
Definition expected_workload_role (r : ManifestRole) : result string :=
  match List.find (fun item => String.eqb (fst item) (mr_kind r))
    [("singletonDatabase", "database"); ("databaseReplica", "database"); ("worker", "worker"); ("webService", "web-service");
     ("loadBalancer", "load-balancer"); ("integrationEndpoint", "integration"); ("storage", "storage"); ("network", "network");
     ("identity", "identity"); ("observability", "observability"); ("externalDependency", "external-dependency")] with
  | Some item => Ok (snd item)
  | None => Raise (KeyError "role.kind")
  end.

(** _resource_group_name *)
Definition resource_group_name (resource_id : string) : option string := casefold <$> resource_group resource_id.

(** The tags of a record are those the role expects. *)
Definition tags_corroborate (environment role : string) (record : ResourceEvidenceRecord) : bool :=
  bool_decide (at_environment (re_tags record) = Some environment) &&
  bool_decide (at_workload_role (re_tags record) = Some role).

(** [total_bound] *)
Definition total_bound (index : EvidenceIndex) : Z := Z.max 1 (Z.min 1000 (Z.of_nat (length (ei_resources index)))).

(** [f"preview-{sequence}"], [sequence] being one more than the candidates so far *)
Definition preview_id (candidates : list AtomicSelector) : string := "preview-" +:+ decimal (S (length candidates)).

(** The first loop: the atoms of the role's selectors that cover the members *)
Definition add_role_atom (members : list string) (index : EvidenceIndex) (candidates : list AtomicSelector)
    (atom : AtomicSelector) : result (list AtomicSelector) :=
  evaluation ← evaluate_selector (Atomic atom) (ei_all_resources index);
  if subset_of members (sv_matched_resource_ids evaluation) then
    clone ← clone_atomic atom (preview_id candidates) (total_bound index); Ok (candidates ++ [clone])
  else Ok candidates.

(** [candidates.append(X(...))] when the condition gives the selector's fields *)
Definition add_candidate (candidates : list AtomicSelector) (candidate : option (string -> AtomicSelector))
    : result (list AtomicSelector) :=
  match candidate with
  | Some candidate => s ← construct_atomic (candidate (preview_id candidates)); Ok (candidates ++ [s])
  | None => Ok candidates
  end.

(** [next(iter(s))] of a set with one element, given as the list of its values *)
Definition single {A} `{EqDecision A} (values : list A) : option A :=
  match remove_dups values with [value] => Some value | _ => None end.

(** The four candidates drawn from the members themselves *)
Definition vmss_candidate (n : Z) (anchor : option string) : option (string -> AtomicSelector) :=
  (fun anchor id => VmssSelector id anchor [] n) <$> anchor.

Definition tag_candidate (n : Z) (environment role : string) (records : list ResourceEvidenceRecord)
    : option (string -> AtomicSelector) :=
  if forallb (tags_corroborate environment role) records then
    Some (fun id => TagPredicateSelector id [{| te_key := "environment"; te_value := environment |};
                                             {| te_key := "workloadRole"; te_value := role |}] n)
  else None.

Definition type_candidate (n : Z) (records : list ResourceEvidenceRecord) : option (string -> AtomicSelector) :=
  match single (re_resource_type <$> records), single (re_location <$> records),
        single (resource_group_name ∘ re_resource_id <$> records) with
  | Some resource_type, Some location, Some (Some group) =>
      Some (fun id => ResourceTypeSelector id resource_type [location] [group] n)
  | _, _, _ => None
  end.

Definition provenance_candidate (n : Z) (records : list ResourceEvidenceRecord) : option (string -> AtomicSelector) :=
  (fun '(tool, version, identity) id => ProvenanceSelector id tool version identity n) <$>
  single ((fun r => (ep_tool_name (re_provenance r), ep_tool_version (re_provenance r), re_collector_identity_evidence_ref r))
          <$> records).

(** The last loop: [unique.setdefault(canonicalize_json(fingerprint), candidate)] *)
Definition dedupe_candidates (candidates : list AtomicSelector) : result (list AtomicSelector) :=
  keyed ← mapR (fun c => fingerprint ← canonicalize_json (without_identity (atomic_selector_json c)); Ok (fingerprint, c)) candidates;
  Ok (snd <$> foldl (fun unique item => if bool_decide (fst item ∈ fst <$> unique) then unique else unique ++ [item])
                [] keyed).

(** _preview_candidates *)
Definition preview_candidates (r : ManifestRole) (p : ResolvedManifestProfile) (members : list string)
    (index : EvidenceIndex) : result (list AtomicSelector) :=
  let n := total_bound index in
  candidates ← foldR (add_role_atom members index) [] (concat (selector_atoms <$> mr_selectors r));
  anchor ← common_anchor members;
  candidates ← add_candidate candidates (vmss_candidate n anchor);
  role ← expected_workload_role r;
  records ← mapR (resource_of index) members;
  candidates ← add_candidate candidates (tag_candidate n (expected_environment (rp_profile_type p)) role records);
  candidates ← add_candidate candidates (type_candidate n records);
  candidates ← add_candidate candidates (provenance_candidate n records);
  dedupe_candidates candidates.

(** ** The preview *)

(** One turn of the first loop of [_build_selector_preview] *)
Definition cover_members (members : list string) (index : EvidenceIndex)
    (evaluated : list (AtomicSelector * gset string)) (candidate : AtomicSelector)
    : result (list (AtomicSelector * gset string)) :=
  e ← evaluate_selector (Atomic candidate) (ei_all_resources index);
  Ok (if bool_decide (sv_max_match_violations e = []) && subset_of members (sv_matched_resource_ids e)
      then evaluated ++ [(candidate, list_to_set (sv_matched_resource_ids e))]
      else evaluated).

(** [evaluated.sort(key=...)] *)
Definition sort_evaluated (evaluated : list (AtomicSelector * gset string)) : result (list (AtomicSelector * gset string)) :=
  keyed ← mapR (fun item => text ← selector_canonical_json (Atomic (fst item));
                  Ok (Z.of_nat (size (snd item)), (selector_type (Atomic (fst item)), text), item)) evaluated;
  Ok (snd <$> sort_by fst keyed).

(** The loop that narrows the intersection *)
Fixpoint narrow (member_set : gset string) (chosen : list AtomicSelector) (intersection : gset string)
    (evaluated : list (AtomicSelector * gset string)) : list AtomicSelector * gset string :=
  match evaluated with
  | [] => (chosen, intersection)
  | (candidate, matched) :: evaluated =>
      let narrowed := intersection ∩ matched in
      if bool_decide (narrowed = intersection) then narrow member_set chosen intersection evaluated
      else
        let chosen := chosen ++ [candidate] in
        if bool_decide (narrowed = member_set) || (length chosen =? 10)%nat then (chosen, narrowed)
        else narrow member_set chosen narrowed evaluated
  end.

(** What the sorted candidates choose, with the intersection they leave *)
Definition choose_candidates (member_set all_ids : gset string) (evaluated : list (AtomicSelector * gset string))
    : list AtomicSelector * gset string :=
  match bool_decide (all_ids = member_set), evaluated with
  | true, (candidate, _) :: _ => ([candidate], all_ids)
  | _, _ => narrow member_set [] all_ids evaluated
  end.

(** [f"preview-child-{index_value + 1}"] *)
Definition clone_child (index : EvidenceIndex) (child : nat * AtomicSelector) : result AtomicSelector :=
  clone_atomic (snd child) ("preview-child-" +:+ decimal (S (fst child))) (total_bound index).

(** The selector of the preview *)
Definition preview_selector (members : list string) (index : EvidenceIndex) (chosen : list AtomicSelector) (exact : bool)
    : result (option ManifestSelector) :=
  let count := Z.of_nat (length members) in
  if negb exact && (count <=? 200) then
    s ← construct_atomic (ResourceIdListSelector "preview-resource-ids" members count); Ok (Some (Atomic s))
  else
    match exact, chosen with
    | true, [candidate] => s ← clone_atomic candidate "preview-cohort" count; Ok (Some (Atomic s))
    | true, _ :: _ :: _ =>
        if (length chosen <=? 10)%nat then
          children ← mapR (clone_child index) (imap pair chosen);
          s ← construct_composite (CompositeAllSelector "preview-cohort" children count);
          Ok (Some s)
        else Ok None
    | _, _ => Ok None
    end.

(** The check that the selector resolves to exactly the members *)
Definition check_preview (members : list string) (index : EvidenceIndex) (s : ManifestSelector)
    : result (option SelectorPreview) :=
  e ← evaluate_selector s (ei_all_resources index);
  if negb (bool_decide (sv_status e = SelMatched)) || negb (bool_decide (sv_matched_resource_ids e = members)) then Ok None
  else
    p ← construct_preview {| pv_selector := s; pv_matched_resource_ids := sv_matched_resource_ids e;
                             pv_selector_result_digest := sv_selector_result_digest e;
                             pv_max_matches := selector_max_matches s |};
    Ok (Some p).

(** _build_selector_preview *)
Definition build_selector_preview (r : ManifestRole) (p : ResolvedManifestProfile) (members : list string)
    (index : EvidenceIndex) : result (option SelectorPreview) :=
  if bool_decide (members = []) || (1000 <? Z.of_nat (length members)) then Ok None
  else
    let member_set := list_to_set members in
    candidates ← preview_candidates r p members index;
    evaluated ← foldR (cover_members members index) [] candidates;
    evaluated ← sort_evaluated evaluated;
    all_ids ← mapR (normalize_resource_id ∘ re_resource_id) (ei_all_resources index);
    let '(chosen, intersection) := choose_candidates member_set (list_to_set all_ids) evaluated in
    selector ← preview_selector members index chosen (bool_decide (intersection = member_set));
    match selector with
    | Some s => check_preview members index s
    | None => Ok None
    end.
End preview.
