(* ===== verification/Propose.v ===== *)
(** * Propose: cohort proposals from verified evidence

    The rest of binding/engine.py: supporting and dissenting evidence, confidence,
    the decision which role a resource can play, and [propose_cohorts], which turns
    a resolved profile and a verified snapshot into a batch of review-only
    proposals. *)
From S2P Require Import Prelude Text Time Json.
From S2P Require Export Preview SnapshotEvaluation CrossRefs.
From Stdlib Require Import SpecFloat.
Local Open Scope Z_scope.

Definition selector_signal_type (s : ManifestSelector) : string :=
  match s with
  | Atomic (NamePredicateSelector _ _ _ _) => "namePredicate"
  | Atomic (ResourceTypeSelector _ _ _ _ _) => "resourceType"
  | Atomic (VmssSelector _ _ _ _) => "vmScaleSet"
  | Atomic (LoadBalancerBackendSelector _ _ _ _) => "loadBalancerBackend"
  | Atomic (SubnetSelector _ _ _) => "subnet"
  | Atomic (ImageSelector _ _ _ _ _ _) => "image"
  | Atomic (ProvenanceSelector _ _ _ _ _) => "provenance"
  | Atomic (TagPredicateSelector _ _ _) => "approvedTags"
  | _ => "resourceType"
  end.

(** [f"{value}"] of a tag that may be [None] *)
Definition optional_text (value : option string) : string := default "None" value.
Definition tags_text (environment role : string) : string := "environment=" +:+ environment +:+ ";workloadRole=" +:+ role.

(** ** What one resource can be *)

(** The outcome of the loop over [index.resources] for one resource *)
Inductive RoleDecision :=
  | Undecided (reason : string)
  | Excluded
  | CandidateFor (role_key : string).
#[export] Instance RoleDecision_eq_dec : EqDecision RoleDecision.
Proof. solve_decision. Defined.

(** [possible_roles], or the conflict of the two kinds of role evidence *)
Definition possible_roles (selector_roles tagged_roles : gset string) : option (gset string) :=
  if bool_decide (selector_roles = ∅) then Some tagged_roles
  else if bool_decide (tagged_roles = ∅) then Some selector_roles
  else if bool_decide (selector_roles ∩ tagged_roles = ∅) then None
  else Some (selector_roles ∩ tagged_roles).

Definition decide_role (selector_roles tagged_roles : gset string) (over_max : string -> bool) (rejected : bool) : RoleDecision :=
  match possible_roles selector_roles tagged_roles with
  | None => Undecided "conflictingRoleEvidence"
  | Some roles =>
      match elements roles with
      | [] => Undecided "missingRoleEvidence"
      | [role_key] =>
          if over_max role_key then Undecided "overMaxMatches"
          else if rejected then Excluded else CandidateFor role_key
      | _ => Undecided "ambiguousRole"
      end
  end.

(** The first loop of [propose_cohorts], over the approved roles *)
Record RoleScan := {
  ro_selector_results : gmap string (list SelectorEvaluation);
  ro_roles_by_resource : gmap string (gset string);
  ro_over_max : gmap string (list string);
}.

(** The second loop, over the resources *)
Record Decisions := {
  dn_candidates_by_role : gmap string (list string);
  dn_related_roles : gmap string (gset string);
  dn_reasons : gmap string (gset string);
}.

Section propose.
Context `{PyText} `{Rfc8785}.

Definition role_key (r : ManifestRole) : string := casefold (mr_role_id r).

(** [sorted(set(...))] *)
Definition sorted_set (values : list string) : list string := sort_strings (elements (list_to_set (C := gset string) values)).

Definition scan_role (index : EvidenceIndex) (scan : RoleScan) (r : ManifestRole) : result RoleScan :=
  results ← mapR (fun s => evaluate_selector s (ei_all_resources index)) (mr_selectors r);
  let violations := sorted_set (concat (sv_max_match_violations <$> results)) in
  Ok {| ro_selector_results := <[role_key r := results]> (ro_selector_results scan);
        ro_roles_by_resource := foldl (fun d id => add_to d id (role_key r)) (ro_roles_by_resource scan)
                                  (concat (sv_matched_resource_ids <$> results));
        ro_over_max := if bool_decide (violations = []) then ro_over_max scan
                       else <[role_key r := violations]> (ro_over_max scan) |}.

Definition scan_roles (index : EvidenceIndex) (roles : list ManifestRole) : result RoleScan :=
  foldR (scan_role index) {| ro_selector_results := ∅; ro_roles_by_resource := ∅; ro_over_max := ∅ |} roles.

Definition is_over_max (scan : RoleScan) (key : string) : bool := bool_decide (is_Some (ro_over_max scan !! key)).

(** [tagged_roles] *)
Definition tagged_roles (roles : list ManifestRole) (record : ResourceEvidenceRecord) : result (gset string) :=
  tagged ← filterR (fun r => role ← expected_workload_role r; Ok (bool_decide (at_workload_role (re_tags record) = Some role))) roles;
  Ok (list_to_set (role_key <$> tagged)).

Definition decide_resource (index : EvidenceIndex) (roles : list ManifestRole) (scan : RoleScan) (d : Decisions)
    (item : string * ResourceEvidenceRecord) : result Decisions :=
  let '(resource_id, record) := item in
  let selector_roles := get_set (ro_roles_by_resource scan) resource_id in
  tagged ← tagged_roles roles record;
  let related := <[resource_id := get_set (dn_related_roles d) resource_id ∪ (selector_roles ∪ tagged)]> (dn_related_roles d) in
  Ok (match decide_role selector_roles tagged (is_over_max scan)
              (negb (bool_decide (get_set (ei_rejection_reasons index) resource_id = ∅))) with
      | Undecided reason =>
          {| dn_candidates_by_role := dn_candidates_by_role d; dn_related_roles := related;
             dn_reasons := add_to (dn_reasons d) resource_id reason |}
      | Excluded =>
          {| dn_candidates_by_role := dn_candidates_by_role d; dn_related_roles := related; dn_reasons := dn_reasons d |}
      | CandidateFor key =>
          {| dn_candidates_by_role := append_to (dn_candidates_by_role d) key resource_id; dn_related_roles := related;
             dn_reasons := dn_reasons d |}
      end).

Definition decide_resources (index : EvidenceIndex) (roles : list ManifestRole) (scan : RoleScan) : result Decisions :=
  foldR (decide_resource index roles scan) {| dn_candidates_by_role := ∅; dn_related_roles := ∅; dn_reasons := ∅ |}
    (ei_resources index).

(** The resources with one of the reasons, in order *)
Definition resources_with (reasons : list string) (d : Decisions) : list string :=
  select (fun id => existsb (fun reason => bool_decide (reason ∈ get_set (dn_reasons d) id)) reasons) (sorted_keys (dn_reasons d)).

(** ** Supporting and dissenting evidence *)

(** [index.resource_refs[item]] *)
Definition ref_of (index : EvidenceIndex) (resource_id : string) : result EvidenceItemRef :=
  match ei_resource_refs index !! resource_id with
  | Some ref => Ok ref
  | None => Raise (KeyError "resource_refs")
  end.

Definition support (signal_type signal_value : string) (members : list string) (refs : list EvidenceReference)
    : result SupportingEvidence :=
  construct_supporting {| su_signal_type := signal_type; su_signal_value := signal_value;
                          su_member_resource_ids := members; su_evidence_refs := refs |}.

(** The loop over the role's selectors and their results *)
Definition selector_support (members : list string) (member_refs : list EvidenceReference)
    (item : ManifestSelector * SelectorEvaluation) : result (list SupportingEvidence) :=
  let '(s, e) := item in
  if bool_decide (sv_status e = SelMatched) && subset_of members (sv_matched_resource_ids e) then
    text ← selector_canonical_json s;
    evidence ← support (selector_signal_type s) text members member_refs;
    Ok [evidence]
  else Ok [].

(** The dissent of a member whose tags are not the expected ones *)
Definition tag_dissent (index : EvidenceIndex) (environment role : string) (item : string * ResourceEvidenceRecord)
    : result (list DissentingEvidence) :=
  let '(resource_id, record) := item in
  if tags_corroborate environment role record then Ok []
  else
    ref ← ref_of index resource_id;
    evidence ← construct_dissent
      {| di_resource_id := resource_id; di_signal_type := "approvedTags"; di_expected_value := tags_text environment role;
         di_observed_value := Some (tags_text (optional_text (at_environment (re_tags record)))
                                              (optional_text (at_workload_role (re_tags record))));
         di_reason := "approved tags do not fully corroborate the proposed role"; di_evidence_refs := [ItemRef ref] |};
    Ok [evidence].

Definition communications_of (index : EvidenceIndex) (resource_id : string) : list (string * EvidenceItemRef) :=
  get_list (ei_communications index) resource_id.

(** The dissent of a member when no signature is shared *)
Definition behaviour_dissent (index : EvidenceIndex) (resource_id : string) : result DissentingEvidence :=
  observed ← canonicalize_json (texts_json (sort_strings (fst <$> communications_of index resource_id)));
  refs ← unique_refs (snd <$> communications_of index resource_id);
  construct_dissent
    {| di_resource_id := resource_id; di_signal_type := "observedCommunication";
       di_expected_value := "a communication signature shared by the cohort"; di_observed_value := Some observed;
       di_reason := "observed communication behavior differs across cohort members"; di_evidence_refs := refs |}.

(** The dissent of a member without communications *)
Definition missing_communication (item : string * gset string) : result (list DissentingEvidence) :=
  let '(resource_id, signatures) := item in
  if bool_decide (signatures = ∅) then
    evidence ← construct_dissent
      {| di_resource_id := resource_id; di_signal_type := "observedCommunication";
         di_expected_value := "canonical observed communication evidence"; di_observed_value := None;
         di_reason := "communication evidence is missing for this cohort member"; di_evidence_refs := [] |};
    Ok [evidence]
  else Ok [].

(** The last part of [_support_and_dissent] *)
Definition communication_evidence (members : list string) (index : EvidenceIndex)
    : result (list SupportingEvidence * list DissentingEvidence) :=
  let sets := (fun id => list_to_set (C := gset string) (fst <$> communications_of index id)) <$> members in
  let full s := negb (bool_decide (s = ∅)) in
  if negb (bool_decide (sets = [])) && forallb full sets then
    let common := intersection_of sets in
    if full common then
      let refs := snd <$> select (fun c => bool_decide (fst c ∈ common)) (concat (communications_of index <$> members)) in
      text ← canonicalize_json (texts_json (sort_strings (elements common)));
      refs ← unique_refs refs;
      evidence ← support "observedCommunication" text members refs;
      Ok ([evidence], [])
    else dissent ← mapR (behaviour_dissent index) members; Ok ([], dissent)
  else if existsb full sets then
    dissent ← mapR missing_communication (zip members sets); Ok ([], concat dissent)
  else Ok ([], []).

(** _support_and_dissent *)
Definition support_and_dissent (r : ManifestRole) (p : ResolvedManifestProfile) (members : list string)
    (index : EvidenceIndex) (results : list SelectorEvaluation) : result (list SupportingEvidence * list DissentingEvidence) :=
  refs ← mapR (ref_of index) members;
  member_refs ← unique_refs refs;
  by_selector ← mapR (selector_support members member_refs) (zip (mr_selectors r) results);
  anchor ← common_anchor members;
  by_anchor ← (match anchor with
               | Some anchor => (fun e => [e]) <$> support "vmScaleSet" anchor members member_refs
               | None => Ok []
               end);
  let environment := expected_environment (rp_profile_type p) in
  role ← expected_workload_role r;
  records ← mapR (resource_of index) members;
  '(by_tags, tag_dissents) ←
    (if forallb (tags_corroborate environment role) records then
       e ← support "approvedTags" (tags_text environment role) members member_refs; Ok ([e], [])
     else dissent ← mapR (tag_dissent index environment role) (zip members records); Ok ([], concat dissent));
  '(by_communication, communication_dissents) ← communication_evidence members index;
  Ok (sort_by (fun e => (su_signal_type e, su_signal_value e)) (concat by_selector ++ by_anchor ++ by_tags ++ by_communication),
      sort_by (fun e => (di_resource_id e, (di_signal_type e, di_reason e))) (tag_dissents ++ communication_dissents)).

(** ** Confidence *)

(** The digests of the items an evidence cites *)
Definition source_set (e : SupportingEvidence) : gset string :=
  list_to_set (omap (fun ref => match ref with ItemRef ref => Some (ir_item_digest ref) | GapRef _ => None end)
                 (su_evidence_refs e)).

(** One turn of the loop that collects [independent_source_sets] *)
Definition add_source_set (sets : list (gset string)) (e : SupportingEvidence) : list (gset string) :=
  let sources := source_set e in
  if negb (bool_decide (sources = ∅)) && negb (existsb (fun existing => negb (bool_decide (sources ∩ existing = ∅))) sets)
  then sets ++ [sources] else sets.

Definition independent_sources (supporting : list SupportingEvidence) : nat := length (foldl add_source_set [] supporting).

Definition source_score (n : nat) : spec_float :=
  match Nat.min n 4 with
  | 0%nat => float_0_2
  | 1%nat => float_0_45
  | 2%nat => float_0_65
  | 3%nat => float_0_82
  | _ => float_0_9
  end.

(** _confidence *)
Definition confidence (supporting : list SupportingEvidence) (dissent : list DissentingEvidence)
    (conflicts : list ProposalConflict) (members : list string) (preview : option SelectorPreview)
    : spec_float * ConfidenceBand :=
  if bool_decide (members = []) then (float_0, BandLow)
  else
    let score := source_score (independent_sources supporting) in
    if negb (bool_decide (length dissent = 0%nat)) || negb (bool_decide (length conflicts = 0%nat)) || negb (present preview)
    then (if float_lt float_0_59 score then float_0_59 else score, BandConflicting)
    else if float_le float_0_8 score then (score, BandHigh)
    else if float_le float_0_6 score then (score, BandMedium)
    else (score, BandLow).

(** ** Digests and identifiers *)

(** _proposal_id *)
Definition proposal_id (p : ResolvedManifestProfile) (s : EvidenceSnapshot) (r : ManifestRole) (members : list string)
    (anchor : string) : result string :=
  digest ← compute_artifact_digest
    (JObj [("profileDigest", JStr (rp_resolved_profile_digest p));
           ("snapshotSemanticDigest", JStr (cm_semantic_digest (es_compatibility s))); ("roleRef", JStr (role_key r));
           ("members", texts_json members); ("anchor", JStr anchor)]);
  Ok ("proposal-" +:+ string_take 16 (removeprefix "sha256:" digest)).

(** _request_digest *)
Definition request_digest (p : ResolvedManifestProfile) (s : EvidenceSnapshot) (as_of : Z) : result string :=
  refs ← mapR (fun ref => canonicalize_json (evidence_reference_json ref)) (es_evidence_refs s);
  compute_artifact_digest
    (JObj [("profileDigest", JStr (rp_resolved_profile_digest p)); ("snapshotId", JStr (es_snapshot_id s));
           ("snapshotArtifactDigest", JStr (cm_artifact_digest (es_compatibility s)));
           ("snapshotSemanticDigest", JStr (cm_semantic_digest (es_compatibility s))); ("evaluatedAt", JTime as_of);
           ("evidenceRecords", JArr (texts_json <$> sort_by id ((fun r => [er_record_type r; er_item_digest r]) <$> es_evidence_records s)));
           ("evidenceRefs", texts_json (sort_strings refs))]).

(** _snapshot_details *)
Definition snapshot_details (s : EvidenceSnapshot) : ProposalSnapshot :=
  {| ps_snapshot_id := es_snapshot_id s; ps_artifact_digest := cm_artifact_digest (es_compatibility s);
     ps_semantic_digest := cm_semantic_digest (es_compatibility s); ps_collected_at := es_collected_at s;
     ps_expires_at := es_expires_at s |}.

(** _proposal_scope *)
Definition proposal_scope (p : ResolvedManifestProfile) : ProposalScope :=
  {| pq_manifest_id := rp_manifest_id p; pq_manifest_version := rp_manifest_version p; pq_profile_id := rp_profile_id p;
     pq_profile_type := rp_profile_type p; pq_resolved_profile_digest := rp_resolved_profile_digest p |}.

(** _detached_role: the role validated again *)
Definition detached_role (r : ManifestRole) : result ManifestRole :=
  _ ← reraise is_value_error (ValidationError "ManifestRole")
        (_ ← mapR validate_children (mr_selectors r); _ ← validate_cardinality (mr_cardinality r); validate_selectors r);
  Ok r.

(** The key of the conflicts of a proposal and of a batch *)
Definition sort_conflicts (conflicts : list ProposalConflict) : result (list ProposalConflict) :=
  keyed ← mapR (fun c => text ← canonicalize_json (texts_json (pc_resource_ids c));
                  Ok ((pc_code c, (pc_detail c, text)), c)) conflicts;
  Ok (snd <$> sort_by fst keyed).

(** ** One proposal *)

(** [if condition: conflicts.append(_conflict(...))] *)
Definition conflict_if (condition : bool) (code detail : string) (resource_ids role_refs : gset string)
    : result (list ProposalConflict) :=
  if condition then c ← conflict code detail resource_ids role_refs; Ok [c] else Ok [].

Definition set_of (values : list string) : gset string := list_to_set values.

(** The reasons one resource is rejected for a role *)
Definition rejection_reasons (index : EvidenceIndex) (scan : RoleScan) (d : Decisions) (key : string) (members : list string)
    (resource_id : string) : gset string :=
  if bool_decide (key ∈ get_set (dn_related_roles d) resource_id) then
    get_set (ei_rejection_reasons index) resource_id ∪ get_set (dn_reasons d) resource_id ∪
    (if bool_decide (resource_id ∈ get_list (dn_candidates_by_role d) key) && negb (bool_decide (resource_id ∈ members))
     then {["differentCohortSignal"]} else ∅) ∪
    (if is_over_max scan key then {["overMaxMatches"]} else ∅)
  else ∅.

Definition rejected_candidate (index : EvidenceIndex) (reasons_of : string -> gset string) (resource_id : string)
    : result (list RejectedCandidate) :=
  let reasons := reasons_of resource_id in
  if bool_decide (reasons = ∅) then Ok []
  else
    r ← construct_rejected
      {| rj_resource_id := resource_id; rj_reasons := sort_strings (elements reasons);
         rj_evidence_refs := match ei_resource_refs index !! resource_id with Some ref => [ItemRef ref] | None => [] end |};
    Ok [r].

(** The conflict of the rejected candidates that have one of [reasons] *)
Definition rejection_conflict (rejected : list RejectedCandidate) (reasons : list string) (code detail role_ref : string)
    : result (list ProposalConflict) :=
  let concerned := select (fun r => existsb (fun reason => bool_decide (reason ∈ rj_reasons r)) reasons) rejected in
  conflict_if (negb (bool_decide (length concerned = 0%nat))) code detail (set_of (rj_resource_id <$> concerned)) {[role_ref]}.

Definition rejection_conflicts (rejected : list RejectedCandidate) (role_ref : string) : result (list ProposalConflict) :=
  conflicts ← mapR (fun '(reasons, code, detail) => rejection_conflict rejected reasons code detail role_ref)
    [(["crossEnvironment"], "crossEnvironment", "a role candidate carries a different environment tag");
     (["outOfProfileScope"; "outOfSnapshotScope"], "outOfScope",
      "a role candidate is outside the profile or authorized snapshot scope");
     (["missingEnvironment"], "missingEvidence", "a role candidate has no approved environment tag");
     (["ambiguousRole"; "conflictingRoleEvidence"], "ambiguousRole",
      "a role candidate has ambiguous or conflicting exact-role evidence")];
  Ok (concat conflicts).

(** The body of the loop over the groups of a role *)
Definition build_proposal (p : ResolvedManifestProfile) (s : EvidenceSnapshot) (index : EvidenceIndex) (scan : RoleScan)
    (d : Decisions) (r : ManifestRole) (group : string * list string) : result CohortProposal :=
  let '(anchor, members) := group in
  let key := role_key r in
  let unbound := resources_with ["missingRoleEvidence"] d in
  unbound_conflict ← conflict_if (negb (bool_decide (unbound = []))) "missingEvidence"
    "the scoped estate contains resources with no exact role evidence" (set_of unbound) ∅;
  over_max ← conflict_if (is_over_max scan key) "overMaxMatches" "an approved role selector exceeded maxMatches" ∅ {[mr_role_id r]};
  '(supporting, dissent) ←
    (if bool_decide (members = []) then Ok ([], [])
     else support_and_dissent r p members index (get_list (ro_selector_results scan) key));
  dissent_conflict ← conflict_if (negb (bool_decide (length dissent = 0%nat))) "conflictingSignal"
    "cohort evidence contains missing or dissenting signals" (set_of (di_resource_id <$> dissent)) {[mr_role_id r]};
  empty_conflict ← conflict_if (bool_decide (members = [])) "noEligibleMembers"
    "no resources have exclusive, in-scope evidence for this role" ∅ {[mr_role_id r]};
  preview ← build_selector_preview r p members index;
  preview_conflict ← conflict_if (negb (bool_decide (members = [])) && negb (present preview)) "selectorPreviewMismatch"
    "no bounded ManifestSelector preview resolves to exactly this cohort" (set_of members) {[mr_role_id r]};
  rejected ← mapR (rejected_candidate index (rejection_reasons index scan d key members)) (sort_strings (fst <$> ei_resources index));
  let rejected := concat rejected in
  rejected_conflicts ← rejection_conflicts rejected (mr_role_id r);
  let conflicts := ei_conflicts index ++ unbound_conflict ++ over_max ++ dissent_conflict ++ empty_conflict ++
                   preview_conflict ++ rejected_conflicts in
  let '(score, band) := confidence supporting dissent conflicts members preview in
  let high := bool_decide (band = BandHigh) in
  id ← proposal_id p s r members anchor;
  role ← detached_role r;
  conflicts ← sort_conflicts conflicts;
  construct_proposal
    {| cp_proposal_id := id; cp_scope := proposal_scope p; cp_role := role; cp_members := members; cp_confidence := score;
       cp_confidence_band := band; cp_supporting_evidence := supporting; cp_dissent := dissent;
       cp_rejected_candidates := rejected; cp_conflicts := conflicts; cp_selector_preview := preview;
       cp_snapshot := snapshot_details s; cp_disposition := if high then "bulkHumanReview" else "humanResolution";
       cp_requires_human_review := true; cp_bulk_review_eligible := high; cp_publication_allowed := false;
       cp_manifest_mutated := false |}.

(** The loop over the roles *)
Definition role_proposals (p : ResolvedManifestProfile) (s : EvidenceSnapshot) (index : EvidenceIndex) (scan : RoleScan)
    (d : Decisions) (r : ManifestRole) : result (list CohortProposal) :=
  groups ← candidate_groups (sort_strings (get_list (dn_candidates_by_role d) (role_key r)));
  mapR (build_proposal p s index scan d r) groups.

(** ** The batch *)

Definition batch_conflicts (index : EvidenceIndex) (d : Decisions) : result (list ProposalConflict) :=
  let unbound := resources_with ["missingRoleEvidence"] d in
  let ambiguous := resources_with ["ambiguousRole"; "conflictingRoleEvidence"] d in
  unbound_conflict ← conflict_if (negb (bool_decide (unbound = []))) "missingEvidence"
    "one or more in-scope resources have no exact role evidence" (set_of unbound) ∅;
  ambiguous_conflict ← conflict_if (negb (bool_decide (ambiguous = []))) "ambiguousRole"
    "one or more resources have ambiguous or conflicting exact-role evidence" (set_of ambiguous)
    (⋃ (get_set (dn_related_roles d) <$> ambiguous));
  Ok (ei_conflicts index ++ unbound_conflict ++ ambiguous_conflict).

(** The approved roles in the order of their normalised ids *)
Definition approved_roles (p : ResolvedManifestProfile) : list ManifestRole :=
  sort_by role_key (select (fun r => bool_decide (mr_status r = RoleApproved)) (rp_roles p)).

(** [propose_cohorts] after its guards: what it computes from the index *)
Definition propose_from_index (p : ResolvedManifestProfile) (s : EvidenceSnapshot) (as_of : Z) (roles : list ManifestRole)
    (index : EvidenceIndex) : result CohortProposalBatch :=
  scan ← scan_roles index roles;
  d ← decide_resources index roles scan;
  conflicts ← batch_conflicts index d;
  proposals ← mapR (role_proposals p s index scan d) roles;
  let proposals := sort_by (fun c => (role_key (cp_role c), cp_proposal_id c)) (concat proposals) in
  input_digest ← request_digest p s as_of;
  proposal_set_digest ← compute_artifact_digest (JArr (proposal_json <$> proposals));
  conflicts ← sort_conflicts conflicts;
  construct_batch
    {| ct_scope := proposal_scope p; ct_snapshot := snapshot_details s; ct_evaluated_at := as_of;
       ct_input_digest := input_digest; ct_proposal_set_digest := proposal_set_digest; ct_proposals := proposals;
       ct_conflicts := conflicts; ct_requires_human_review := true; ct_publication_allowed := false;
       ct_manifest_mutated := false |}.

(** propose_cohorts *)
Definition propose_cohorts (p : ResolvedManifestProfile) (verified_snapshot : VerifiedCohortSnapshot) (as_of : Z)
    : result CohortProposalBatch :=
  _ ← raise_if (AthenaValidationError "as_of must be timezone-aware and exactly representable in milliseconds")
        (negb (microsecond as_of mod 1000 =? 0));
  _ ← validate_resolved_manifest_profile p as_of false;
  s ← require_current_verified_snapshot verified_snapshot as_of;
  let roles := approved_roles p in
  _ ← guard_or (AthenaValidationError "resolved profile contains duplicate normalized role IDs") (unique (role_key <$> roles));
  index ← build_evidence_index p s as_of;
  propose_from_index p s as_of roles index.
End propose.
