(* ===== verification/CohortDomain.v ===== *)
(** * CohortDomain: the records of cohort review

    api/cohort_domain.py and the request of api/cohort_decision_domain.py: the
    bindings, requests, candidates and receipts of cohort review, with their
    validators. *)
From S2P Require Import Prelude Text Json.
From S2P Require Export Cohorts Propose.
Local Open Scope Z_scope.

(** ** Bindings *)
Record CohortProposalQuery := {
  qy_manifest_id : string;
  qy_manifest_version : string;
  qy_profile_id : string;
  qy_draft_id : string;
  qy_expected_revision : Z;
  qy_expected_digest : string;
}.

Record CohortEvidenceBinding := {
  eb_manifest_id : string;
  eb_manifest_version : string;
  eb_profile_id : string;
  eb_profile_type : string;
  eb_resolved_profile_digest : string;
  eb_draft_id : string;
  eb_draft_revision : Z;
  eb_draft_digest : string;
}.
#[export] Instance CohortEvidenceBinding_eq_dec : EqDecision CohortEvidenceBinding.
Proof. solve_decision. Defined.

Record StoredEvidenceSnapshot := {
  sg_binding : CohortEvidenceBinding;
  sg_snapshot : EvidenceSnapshot;
}.

Record CohortBatchCacheKey := {
  ck_evidence_binding : CohortEvidenceBinding;
  ck_snapshot_artifact_digest : string;
}.

(** CohortProposalBatchResponse extends CohortProposalBatch. *)
Record CohortProposalBatchResponse := {
  bp_batch : CohortProposalBatch;
  bp_source_draft : CohortDraftBinding;
}.

(** ** Review *)

(** CohortReviewAction; a CohortPreviewAction is a split or a merge. *)
Inductive CohortReviewAction := ReviewApprove | ReviewSplit | ReviewMerge.
#[export] Instance CohortReviewAction_eq_dec : EqDecision CohortReviewAction.
Proof. solve_decision. Defined.

Definition review_action_value (a : CohortReviewAction) : string :=
  match a with ReviewApprove => "approve" | ReviewSplit => "split" | ReviewMerge => "merge" end.

Record CohortReviewPreviewRequest := {
  vq_action : CohortReviewAction;
  vq_manifest_id : string;
  vq_manifest_version : string;
  vq_profile_id : string;
  vq_draft_id : string;
  vq_expected_revision : Z;
  vq_expected_digest : string;
  vq_proposal_ids : list string;
  vq_source_role_refs : list string;
  vq_proposal_set_digest : string;
  vq_snapshot_artifact_digest : string;
  vq_resolution : string;
}.

Record CohortRoleUpdate := {
  cu_role : ManifestRole;
  cu_selector_previews : list SelectorPreview;
  cu_member_count : Z;
}.

Record CohortReviewCandidate := {
  cx_candidate_id : string;
  cx_action : CohortReviewAction;
  cx_source_draft : CohortDraftBinding;
  cx_scope : ProposalScope;
  cx_source_proposal_ids : list string;
  cx_proposal_set_digest : string;
  cx_snapshot : ProposalSnapshot;
  cx_role_updates : list CohortRoleUpdate;
  cx_replace_role_refs : list string;
  cx_resolution : string;
  cx_generated_at : Z;
  cx_expires_at : Z;
  cx_requires_human_review : bool;
  cx_publication_allowed : bool;
  cx_manifest_mutated : bool;
}.

Record CohortPreviewReceipt := {
  kw_actor_id : string;
  kw_idempotency_key : string;
  kw_request_digest : string;
  kw_evidence_binding : CohortEvidenceBinding;
  kw_candidate : CohortReviewCandidate;
}.

(** CohortDecisionRequest of api/cohort_decision_domain.py *)
Record CohortDecisionRequest := {
  dq_action : CohortDecisionKind;
  dq_manifest_id : string;
  dq_manifest_version : string;
  dq_profile_id : string;
  dq_draft_id : string;
  dq_expected_revision : Z;
  dq_expected_digest : string;
  dq_scope : ProposalScope;
  dq_proposal_set_digest : string;
  dq_proposal_ids : list string;
  dq_snapshot_artifact_digest : string;
  dq_candidate : option CohortReviewCandidate;
  dq_rationale : string;
}.

(** Python's [==] on these models is structural. *)
#[export] Instance ProposalScope_eq_dec : EqDecision ProposalScope.
Proof. solve_decision. Defined.
#[export] Instance SelectorPreview_eq_dec : EqDecision SelectorPreview.
Proof. solve_decision. Defined.
#[export] Instance CohortRoleUpdate_eq_dec : EqDecision CohortRoleUpdate.
Proof. solve_decision. Defined.
#[export] Instance CohortReviewCandidate_eq_dec : EqDecision CohortReviewCandidate.
Proof. solve_decision. Defined.

Definition decision_action (k : CohortDecisionKind) : option CohortReviewAction :=
  match k with
  | DecisionApprove => Some ReviewApprove
  | DecisionReject => None
  | DecisionSplit => Some ReviewSplit
  | DecisionMerge => Some ReviewMerge
  end.
Definition decision_value (k : CohortDecisionKind) : string :=
  match decision_action k with Some a => review_action_value a | None => "reject" end.

(** CohortReviewPreviewRequest.proposal_query *)
Definition proposal_query (r : CohortReviewPreviewRequest) : CohortProposalQuery := {|
  qy_manifest_id := vq_manifest_id r; qy_manifest_version := vq_manifest_version r; qy_profile_id := vq_profile_id r;
  qy_draft_id := vq_draft_id r; qy_expected_revision := vq_expected_revision r;
  qy_expected_digest := vq_expected_digest r |}.

(** The binding of a query under a resolved profile *)
Definition evidence_binding (q : CohortProposalQuery) (profile_type resolved_profile_digest : string)
    : CohortEvidenceBinding := {|
  eb_manifest_id := qy_manifest_id q; eb_manifest_version := qy_manifest_version q; eb_profile_id := qy_profile_id q;
  eb_profile_type := profile_type; eb_resolved_profile_digest := resolved_profile_digest;
  eb_draft_id := qy_draft_id q; eb_draft_revision := qy_expected_revision q; eb_draft_digest := qy_expected_digest q |}.

Section validators.
Context `{PyText}.

(** ** Validators *)

(** The validators of CohortReviewPreviewRequest; a request stores the canonical
    order of its proposal ids. *)
Definition validate_preview_request (r : CohortReviewPreviewRequest) : result unit :=
  canonical ← canonical_proposal_ids (vq_proposal_ids r);
  _ ← guard_or (ValidationError "proposal_ids") (list_between 1 200 canonical && bool_decide (vq_proposal_ids r = canonical));
  _ ← guard_or (ValueError "source_role_refs contains an invalid role reference")
        (list_between 1 200 (vq_source_role_refs r) && forallb (text_between 1 128) (vq_source_role_refs r));
  _ ← guard_or (ValueError "source_role_refs must be unique after normalization")
        (unique (normalized_id <$> vq_source_role_refs r));
  _ ← guard_or (ValueError "resolution must not contain surrounding whitespace")
        (text_between 12 2000 (vq_resolution r) && String.eqb (vq_resolution r) (strip (vq_resolution r)));
  match vq_action r with
  | ReviewSplit => guard_or (ValueError "split requires exactly one proposal_id") (length canonical =? 1)%nat
  | ReviewMerge => guard_or (ValueError "merge requires at least two proposal_ids") (2 <=? length canonical)%nat
  | ReviewApprove => Raise (ValidationError "action")
  end.

(** CohortRoleUpdate.validate_selectors *)
Definition validate_role_update (u : CohortRoleUpdate) : result unit :=
  _ ← guard_or (ValueError "role selectors must exactly match selector previews")
        (bool_decide (mr_selectors (cu_role u) = pv_selector <$> cu_selector_previews u));
  guard_or (ValueError "selector maxMatches must exactly equal its member count")
    (forallb (fun p => (pv_max_matches p =? Z.of_nat (length (pv_matched_resource_ids p))) &&
                       (selector_max_matches (pv_selector p) =? pv_max_matches p)) (cu_selector_previews u)).

Definition construct_role_update (u : CohortRoleUpdate) : result CohortRoleUpdate :=
  _ ← guard_or (ValidationError "CohortRoleUpdate")
        (list_between 1 20 (cu_selector_previews u) && (1 <=? cu_member_count u) && (cu_member_count u <=? 1000));
  _ ← reraise is_value_error (ValidationError "CohortRoleUpdate") (validate_role_update u);
  Ok u.

(** The fields of CohortReviewCandidate; [source_proposal_ids] is stored in
    canonical order. *)
Definition construct_candidate (c : CohortReviewCandidate) : result CohortReviewCandidate :=
  _ ← guard_or (ValidationError "CohortReviewCandidate")
        (is_id (cx_candidate_id c) && list_between 1 200 (cx_source_proposal_ids c) && is_digest (cx_proposal_set_digest c) &&
         list_between 1 200 (cx_role_updates c) && list_between 1 200 (cx_replace_role_refs c) &&
         text_between 1 2000 (cx_resolution c) && cx_requires_human_review c && negb (cx_publication_allowed c) &&
         negb (cx_manifest_mutated c));
  ids ← reraise is_value_error (ValidationError "CohortReviewCandidate") (canonical_proposal_ids (cx_source_proposal_ids c));
  Ok {| cx_candidate_id := cx_candidate_id c; cx_action := cx_action c; cx_source_draft := cx_source_draft c;
        cx_scope := cx_scope c; cx_source_proposal_ids := ids; cx_proposal_set_digest := cx_proposal_set_digest c;
        cx_snapshot := cx_snapshot c; cx_role_updates := cx_role_updates c; cx_replace_role_refs := cx_replace_role_refs c;
        cx_resolution := cx_resolution c; cx_generated_at := cx_generated_at c; cx_expires_at := cx_expires_at c;
        cx_requires_human_review := cx_requires_human_review c; cx_publication_allowed := cx_publication_allowed c;
        cx_manifest_mutated := cx_manifest_mutated c |}.

(** CohortDecisionRequest.validate_action_binding, after its field validators *)
Definition validate_decision_request (r : CohortDecisionRequest) : result unit :=
  canonical ← canonical_proposal_ids (dq_proposal_ids r);
  _ ← guard_or (ValidationError "proposal_ids") (list_between 1 200 canonical && bool_decide (dq_proposal_ids r = canonical));
  _ ← guard_or (ValueError "rationale must be NFC-normalized without surrounding whitespace")
        (text_between 1 2000 (dq_rationale r) && String.eqb (normalize_nfc_text (dq_rationale r)) (dq_rationale r) &&
         String.eqb (dq_rationale r) (strip (dq_rationale r)));
  _ ← guard_or (ValueError "scope must exactly match the requested workload and profile")
        (String.eqb (pq_manifest_id (dq_scope r)) (dq_manifest_id r) &&
         String.eqb (pq_manifest_version (dq_scope r)) (dq_manifest_version r) &&
         String.eqb (pq_profile_id (dq_scope r)) (dq_profile_id r));
  _ ← match decision_action (dq_action r), dq_candidate r with
      | None, None => Ok tt
      | None, Some _ => Raise (ValueError "reject must not claim an apply candidate")
      | Some _, None => Raise (ValueError "approve, split, and merge require an exact candidate")
      | Some action, Some candidate =>
          guard_or (ValueError "candidate action must exactly match the decision action")
            (bool_decide (cx_action candidate = action))
      end;
  match dq_action r with
  | DecisionApprove | DecisionSplit => guard_or (ValueError "action requires exactly one proposal_id") (length canonical =? 1)%nat
  | DecisionMerge => guard_or (ValueError "merge requires at least two proposal_ids") (2 <=? length canonical)%nat
  | DecisionReject => Ok tt
  end.
End validators.
