(* ===== verification/CohortReview.v ===== *)
(** * CohortReview: building and checking review candidates

    The static methods of CohortProposalService (api/cohort_service.py): exact
    previews of selectors, the partition of a split, the selectors of a merge,
    their guards, and the checks of batches and candidates. *)
From S2P Require Import Prelude Text Json.
From S2P Require Export CohortDomain.
Local Open Scope Z_scope.

Definition MAX_RESPONSE_BYTES : Z := 8 * 1024 * 1024.
Definition MAX_PROPOSALS : Z := 200.
Definition MAX_CONFLICTS : Z := 1000.
Definition MAX_EVIDENCE_RECORDS : Z := 2000.
Definition MAX_EVIDENCE_REFS : Z := 2000.
Definition MAX_IDENTITY_EVIDENCE : Z := 100.
Definition MAX_COLLECTOR_ATTEMPTS : Z := 100.

(** [len(l) > n] *)
Definition exceeds {A} (n : Z) (l : list A) : bool := n <? Z.of_nat (length l).

(** [model_dump_json(by_alias=True, exclude_none=True)] *)
Class CohortText := {
  batch_text : CohortProposalBatchResponse -> string;
  candidate_text : CohortReviewCandidate -> string;
  cache_key_text : CohortBatchCacheKey -> string;
  binding_text : CohortEvidenceBinding -> string;
}.

(** [except (AthenaValidationError, ValidationError)] *)
Definition is_contract_error (e : exn) : bool :=
  is_athena_error e || match e with ValidationError _ => true | _ => false end.

(** _resource_records *)
Definition resource_records (s : EvidenceSnapshot) : list ResourceEvidenceRecord :=
  omap (fun r => match r with ResourceRecord r => Some r | _ => None end) (es_evidence_records s).

Section review.
Context `{PyText} `{Rfc8785}.

(** _authority_projection: the cardinality is compared by its rendering, which
    shows all of it. *)
Definition authority_projection (r : ManifestRole) : string * string * ManifestCardinality * string * RoleStatus :=
  (normalized_id (mr_role_id r), mr_kind r, mr_cardinality r, mr_owner_ref r, mr_status r).
Definition same_authority (a b : ManifestRole) : bool := bool_decide (authority_projection a = authority_projection b).

(** [{normalize_resource_id(x) for x in ids}] *)
Definition normalized_members (ids : list string) : result (gset string) := list_to_set <$> mapR normalize_resource_id ids.

(** [payload["selectorId"] = selector_id], and validation of the result *)
Definition renamed_atomic (selector_id : string) (s : AtomicSelector) : result AtomicSelector :=
  construct_atomic (with_identity selector_id (atomic_max_matches s) s).
Definition renamed (selector_id : string) (s : ManifestSelector) : result ManifestSelector :=
  match s with
  | Atomic s => s ← renamed_atomic selector_id s; Ok (Atomic s)
  | CompositeAllSelector _ children n => construct_composite (CompositeAllSelector selector_id children n)
  | CompositeAnySelector _ children n => construct_composite (CompositeAnySelector selector_id children n)
  end.

(** _evaluate_exact_preview *)
Definition evaluate_exact_preview (s : ManifestSelector) (resources : list ResourceEvidenceRecord) : result SelectorPreview :=
  e ← reraise is_athena_error (CohortContractError "candidate selector could not be evaluated against the exact snapshot")
        (evaluate_selector s resources);
  _ ← guard_or (CohortContractError "candidate selector result is empty, inexact, or over maxMatches")
        (bool_decide (sv_status e = SelMatched) && bool_decide (sv_max_match_violations e = []) &&
         (Z.of_nat (length (sv_matched_resource_ids e)) =? selector_max_matches s));
  construct_preview {| pv_selector := s; pv_matched_resource_ids := sv_matched_resource_ids e;
                       pv_selector_result_digest := sv_selector_result_digest e; pv_max_matches := selector_max_matches s |}.

(** ** Selector ids of direct review *)

(** One turn of the loop over [proposal.role.selectors] *)
Definition is_direct_match (resources : list ResourceEvidenceRecord) (preview_type : string) (expected_members : gset string)
    (s : ManifestSelector) : result bool :=
  if negb (String.eqb (selector_type s) preview_type) then Ok false
  else
    match evaluate_selector s resources with
    | Raise e => if is_athena_error e then Ok false else Raise e
    | Ok e => members ← normalized_members (sv_matched_resource_ids e); Ok (bool_decide (members = expected_members))
    end.

(** The proposal with its final preview *)
Definition with_preview (p : CohortProposal) (preview : SelectorPreview) : CohortProposal := {|
  cp_proposal_id := cp_proposal_id p; cp_scope := cp_scope p; cp_role := cp_role p; cp_members := cp_members p;
  cp_confidence := cp_confidence p; cp_confidence_band := cp_confidence_band p;
  cp_supporting_evidence := cp_supporting_evidence p; cp_dissent := cp_dissent p;
  cp_rejected_candidates := cp_rejected_candidates p; cp_conflicts := cp_conflicts p;
  cp_selector_preview := Some preview; cp_snapshot := cp_snapshot p; cp_disposition := cp_disposition p;
  cp_requires_human_review := cp_requires_human_review p; cp_bulk_review_eligible := cp_bulk_review_eligible p;
  cp_publication_allowed := cp_publication_allowed p; cp_manifest_mutated := cp_manifest_mutated p |}.

(** One turn of the loop of _bind_direct_review_selector_ids, with whether it
    changed the proposal *)
Definition bind_direct_review (resources : list ResourceEvidenceRecord) (p : CohortProposal) : result (CohortProposal * bool) :=
  match cp_selector_preview p with
  | None => Ok (p, false)
  | Some preview =>
      expected_members ← normalized_members (pv_matched_resource_ids preview);
      matches ← filterR (is_direct_match resources (selector_type (pv_selector preview)) expected_members) (mr_selectors (cp_role p));
      match matches with
      | [matching] =>
          final_preview ← reraise is_contract_error (CohortContractError "direct review selector cannot be finalized before approval")
            (s ← renamed (selector_id matching) (pv_selector preview); evaluate_exact_preview s resources);
          _ ← guard_or (CohortContractError "final direct review selector changed the proposed cohort")
                (bool_decide (pv_matched_resource_ids final_preview = pv_matched_resource_ids preview));
          Ok (with_preview p final_preview, negb (bool_decide (final_preview = preview)))
      | _ => Ok (p, false)
      end
  end.

Definition proposal_set_digest (proposals : list CohortProposal) : result string :=
  compute_artifact_digest (JArr (proposal_json <$> proposals)).

(** The batch with other proposals, validated again *)
Definition with_proposals (b : CohortProposalBatchResponse) (proposals : list CohortProposal) (digest : string)
    : result CohortProposalBatchResponse :=
  let c := bp_batch b in
  c ← construct_batch {|
    ct_scope := ct_scope c; ct_snapshot := ct_snapshot c; ct_evaluated_at := ct_evaluated_at c;
    ct_input_digest := ct_input_digest c; ct_proposal_set_digest := digest; ct_proposals := proposals;
    ct_conflicts := ct_conflicts c; ct_requires_human_review := ct_requires_human_review c;
    ct_publication_allowed := ct_publication_allowed c; ct_manifest_mutated := ct_manifest_mutated c |};
  Ok {| bp_batch := c; bp_source_draft := bp_source_draft b |}.

(** _bind_direct_review_selector_ids *)
Definition bind_direct_review_selector_ids (b : CohortProposalBatchResponse) (resources : list ResourceEvidenceRecord)
    : result CohortProposalBatchResponse :=
  bound ← mapR (bind_direct_review resources) (ct_proposals (bp_batch b));
  if existsb snd bound then
    digest ← proposal_set_digest (fst <$> bound);
    with_proposals b (fst <$> bound) digest
  else Ok b.

(** ** Checks of a batch *)

(** _validate_proposal_set_digest *)
Definition validate_proposal_set_digest (b : CohortProposalBatchResponse) : result unit :=
  expected ← proposal_set_digest (ct_proposals (bp_batch b));
  guard_or (CohortContractError "cohort proposal batch digest does not match its proposals")
    (String.eqb (ct_proposal_set_digest (bp_batch b)) expected).

(** The comparisons of _validate_batch_binding and _validate_decision_batch_binding:
    all fields of the source draft, the scope and the snapshot *)
Definition check_batch (message : string) (b : CohortProposalBatchResponse) (source : CohortDraftBinding) (scope : ProposalScope)
    (s : EvidenceSnapshot) : result unit :=
  _ ← guard_or (EvidenceSnapshotMismatchError message)
        (bool_decide (bp_source_draft b = source) && bool_decide (ct_scope (bp_batch b) = scope) &&
         bool_decide (ct_snapshot (bp_batch b) = snapshot_details s));
  _ ← guard_or (CohortContractError "cohort proposal batch contains a cross-profile or cross-snapshot result")
        (forallb (fun p => bool_decide (cp_scope p = ct_scope (bp_batch b)) &&
                           bool_decide (cp_snapshot p = ct_snapshot (bp_batch b))) (ct_proposals (bp_batch b)));
  validate_proposal_set_digest b.

(** The source draft and the scope of an evidence binding *)
Definition binding_draft (binding : CohortEvidenceBinding) : CohortDraftBinding := {|
  cdb_draft_id := eb_draft_id binding; cdb_revision := eb_draft_revision binding;
  cdb_manifest_digest := eb_draft_digest binding |}.
Definition binding_scope (binding : CohortEvidenceBinding) : ProposalScope := {|
  pq_manifest_id := eb_manifest_id binding; pq_manifest_version := eb_manifest_version binding;
  pq_profile_id := eb_profile_id binding; pq_profile_type := eb_profile_type binding;
  pq_resolved_profile_digest := eb_resolved_profile_digest binding |}.

(** _validate_decision_batch_binding *)
Definition validate_decision_batch_binding (b : CohortProposalBatchResponse) (binding : CohortEvidenceBinding)
    (s : EvidenceSnapshot) : result unit :=
  check_batch "cohort proposal batch escaped its immutable decision binding" b (binding_draft binding) (binding_scope binding) s.

(** _enforce_snapshot_bounds *)
Definition enforce_snapshot_bounds (s : EvidenceSnapshot) : result unit :=
  raise_if (CohortBoundaryError "trusted evidence snapshot exceeds cohort API bounds")
    (exceeds MAX_EVIDENCE_RECORDS (es_evidence_records s) || exceeds MAX_EVIDENCE_REFS (es_evidence_refs s) ||
     exceeds MAX_IDENTITY_EVIDENCE (es_identity_evidence s) || exceeds MAX_COLLECTOR_ATTEMPTS (es_collector_attempts s)).

(** The bounds of one proposal *)
Definition proposal_exceeds (p : CohortProposal) : bool :=
  exceeds 1000 (cp_members p) || exceeds 1000 (cp_dissent p) || exceeds 1000 (cp_rejected_candidates p) ||
  exceeds MAX_CONFLICTS (cp_conflicts p) ||
  existsb (fun e => exceeds 1000 (su_evidence_refs e)) (cp_supporting_evidence p) ||
  existsb (fun e => exceeds 1000 (di_evidence_refs e)) (cp_dissent p) ||
  existsb (fun e => exceeds 1000 (rj_evidence_refs e)) (cp_rejected_candidates p).

Context `{CohortText}.

(** _enforce_batch_bounds *)
Definition enforce_batch_bounds (b : CohortProposalBatchResponse) : result unit :=
  let c := bp_batch b in
  let all_conflicts := ct_conflicts c ++ concat (cp_conflicts <$> ct_proposals c) in
  _ ← raise_if (CohortBoundaryError "cohort proposal response exceeds adapter bounds")
        (exceeds MAX_PROPOSALS (ct_proposals c) || exceeds MAX_CONFLICTS (ct_conflicts c));
  _ ← raise_if (CohortBoundaryError "cohort proposal evidence exceeds adapter bounds")
        (existsb proposal_exceeds (ct_proposals c));
  _ ← raise_if (CohortBoundaryError "cohort conflict response exceeds adapter bounds")
        (existsb (fun k => exceeds 1000 (pc_resource_ids k) || exceeds 200 (pc_role_refs k)) all_conflicts);
  _ ← raise_if (CohortContractError "a cohort selector exceeded maxMatches")
        (existsb (fun k => String.eqb (pc_code k) "overMaxMatches") all_conflicts);
  raise_if (CohortBoundaryError "cohort proposal response exceeds 8 MiB")
    (MAX_RESPONSE_BYTES <? Z.of_nat (String.length (batch_text b))).

(** _enforce_candidate_bounds *)
Definition enforce_candidate_bounds (c : CohortReviewCandidate) : result unit :=
  raise_if (CohortBoundaryError "cohort preview response exceeds 8 MiB")
    (MAX_RESPONSE_BYTES <? Z.of_nat (String.length (candidate_text c))).

(** ** The proposals of a preview *)

(** [[by_id[proposal_id] for proposal_id in ids]] *)
Definition proposals_by_id (message : string) (b : CohortProposalBatchResponse) (ids : list string) : result (list CohortProposal) :=
  let by_id := dict_by cp_proposal_id (ct_proposals (bp_batch b)) in
  mapR (fun id => match by_id !! id with Some p => Ok p | None => Raise (CohortContractError message) end) ids.

Definition role_refs (proposals : list CohortProposal) : gset string :=
  list_to_set ((fun p => normalized_id (mr_role_id (cp_role p))) <$> proposals).

(** [proposals[0]] *)
Definition first_proposal (proposals : list CohortProposal) : result CohortProposal :=
  match proposals with p :: _ => Ok p | [] => Raise (IndexError "list index out of range") end.

(** _select_proposals *)
Definition select_proposals (b : CohortProposalBatchResponse) (r : CohortReviewPreviewRequest) : result (list CohortProposal) :=
  proposals ← proposals_by_id "preview references a proposal outside the exact cached batch" b (vq_proposal_ids r);
  _ ← guard_or (CohortContractError "source_role_refs do not exactly match the selected proposals")
        (bool_decide (role_refs proposals = list_to_set (normalized_id <$> vq_source_role_refs r)));
  _ ← guard_or (CohortContractError "split and merge require one exact source role") (size (role_refs proposals) =? 1)%nat;
  _ ← raise_if (CohortBoundaryError "merge exceeds the maximum of 20 bounded selectors")
        (bool_decide (vq_action r = ReviewMerge) && exceeds 20 proposals);
  baseline ← first_proposal proposals;
  _ ← guard_or (CohortContractError "selected proposals disagree on immutable role authority metadata")
        (forallb (fun p => same_authority (cp_role p) (cp_role baseline)) proposals);
  _ ← raise_if (CohortContractError "split requires at least two source members")
        (bool_decide (vq_action r = ReviewSplit) && (length (cp_members baseline) <? 2)%nat);
  Ok proposals.

(** One turn of the inner loop of _source_union *)
Definition add_member (members : gset string) (member : string) : result (gset string) :=
  normalized ← reraise is_athena_error (CohortContractError "selected proposal contains an invalid Azure resource ID")
                 (normalize_resource_id member);
  _ ← raise_if (CohortContractError "selected proposals contain overlapping normalized members")
        (bool_decide (normalized ∈ members));
  Ok ({[normalized]} ∪ members).
Definition member_set (proposals : list CohortProposal) : result (gset string) :=
  foldR add_member ∅ (concat (cp_members <$> proposals)).

(** _source_union: the normalized members in order *)
Definition source_union (proposals : list CohortProposal) : result (list string) :=
  members ← member_set proposals; Ok (sort_strings (elements members)).

(** ** Split *)

(** [max(2, ceil(n / 200))] *)
Definition partition_count (n : nat) : nat := Nat.max 2 ((n + 199) / 200).

(** The sizes of the partitions, in order *)
Definition partition_sizes (n : nat) : list nat :=
  let count := partition_count n in
  (fun index => (n / count + if (index <? n mod count) then 1 else 0)%nat) <$> seq 0 count.

Fixpoint take_partitions (sizes : list nat) (members : list string) : result (list (list string)) :=
  match sizes with
  | [] => Ok []
  | size :: sizes =>
      let partition := take size members in
      _ ← raise_if (CohortBoundaryError "split cannot be represented by bounded selectors")
            (bool_decide (partition = []) || exceeds 200 partition);
      rest ← take_partitions sizes (drop size members);
      Ok (partition :: rest)
  end.

(** The loop of _split_previews over [range(partition_count)] *)
Definition split_partitions (members : list string) : result (list (list string)) :=
  take_partitions (partition_sizes (length members)) members.

(** [digest[from:to]] *)
Definition digest_slice (from to : nat) (digest : string) : string := String.substring from (to - from) digest.

(** [f"preview-split-{index}-{seed}"] *)
Definition indexed_id (prefix : string) (index : nat) (seed : string) : string :=
  prefix +:+ decimal index +:+ "-" +:+ seed.

(** _split_previews *)
Definition split_previews (members : list string) (r : CohortReviewPreviewRequest) (resources : list ResourceEvidenceRecord)
    : result (list SelectorPreview) :=
  partitions ← split_partitions members;
  digest ← compute_artifact_digest
    (JObj [("proposalSetDigest", JStr (vq_proposal_set_digest r)); ("proposalIds", texts_json (vq_proposal_ids r));
           ("members", texts_json members)]);
  mapR (fun item =>
      s ← construct_atomic (ResourceIdListSelector (indexed_id "preview-split-" (S (fst item)) (digest_slice 7 23 digest))
                              (snd item) (Z.of_nat (length (snd item))));
      evaluate_exact_preview (Atomic s) resources) (imap pair partitions).

(** ** Merge *)

(** One turn of the loop of _merge_previews *)
Definition merge_preview (seed : string) (resources : list ResourceEvidenceRecord) (item : nat * CohortProposal)
    : result SelectorPreview :=
  match cp_selector_preview (snd item) with
  | None => Raise (CohortContractError "merge requires bounded selector previews for every source proposal")
  | Some source =>
      s ← renamed (indexed_id "preview-merge-" (S (fst item)) seed) (pv_selector source);
      preview ← evaluate_exact_preview s resources;
      _ ← guard_or (CohortContractError "merge selector no longer resolves to its exact source proposal")
            (bool_decide (pv_matched_resource_ids preview = cp_members (snd item)));
      Ok preview
  end.

(** _merge_previews *)
Definition merge_previews (proposals : list CohortProposal) (r : CohortReviewPreviewRequest)
    (resources : list ResourceEvidenceRecord) : result (list SelectorPreview) :=
  digest ← compute_artifact_digest
    (JObj [("proposalSetDigest", JStr (vq_proposal_set_digest r)); ("proposalIds", texts_json (vq_proposal_ids r))]);
  mapR (merge_preview (digest_slice 7 23 digest) resources) (imap pair proposals).

(** ** Guards *)

(** The loop that collects [inherited_results] *)
Definition inherited_result (resources : list ResourceEvidenceRecord) (s : ManifestSelector)
    : result (option (ManifestSelector * gset string)) :=
  match evaluate_selector s resources with
  | Raise e => if is_athena_error e then Ok None else Raise e
  | Ok e =>
      if bool_decide (sv_status e = SelMatched) && bool_decide (sv_max_match_violations e = []) then
        members ← normalized_members (sv_matched_resource_ids e); Ok (Some (s, members))
      else Ok None
  end.
Definition inherited_results (baseline : ManifestRole) (resources : list ResourceEvidenceRecord)
    : result (list (ManifestSelector * gset string)) :=
  results ← mapR (inherited_result resources) (mr_selectors baseline); Ok (omap (M := list) id results).

(** One turn of the loop over the children of a CompositeAnySelector *)
Definition covers_members (resources : list ResourceEvidenceRecord) (members : gset string) (child : AtomicSelector) : result bool :=
  match evaluate_selector (Atomic child) resources with
  | Raise e => if is_athena_error e then Ok false else Raise e
  | Ok e =>
      child_members ← normalized_members (sv_matched_resource_ids e);
      Ok (bool_decide (sv_max_match_violations e = []) && bool_decide (members ⊆ child_members))
  end.

(** [guard_atoms] *)
Definition guard_atoms (resources : list ResourceEvidenceRecord) (members : gset string) (guard : ManifestSelector)
    : result (list AtomicSelector) :=
  match guard with
  | CompositeAllSelector _ children _ => Ok children
  | CompositeAnySelector _ children _ =>
      matching ← filterR (covers_members resources members) children;
      _ ← guard_or (CohortContractError "cohort replacement is not bound to exactly one inherited composite alternative")
            (length matching =? 1)%nat;
      Ok matching
  | Atomic s => Ok [s]
  end.

(** [f"{index:02d}"] *)
Definition two_digits (n : nat) : string := (if (n <? 10)%nat then "0" else "") +:+ decimal n.

(** The children of a guarded selector: the exact selector and its guards, in
    the order of their ids *)
Definition guarded_children (seed : string) (exact_selector : AtomicSelector) (atoms : list AtomicSelector)
    : result (list AtomicSelector) :=
  guards ← mapR (fun item => renamed_atomic ("cohort-guard-" +:+ two_digits (S (fst item)) +:+ "-" +:+ seed) (snd item))
             (imap pair atoms);
  exact_child ← renamed_atomic ("cohort-exact-" +:+ seed) exact_selector;
  Ok (sort_by (fun child => casefold (atomic_selector_id child)) (exact_child :: guards)).

(** One turn of the loop over [previews] *)
Definition guard_preview (inherited : list (ManifestSelector * gset string)) (resources : list ResourceEvidenceRecord)
    (preview : SelectorPreview) : result SelectorPreview :=
  match pv_selector preview with
  | CompositeAllSelector _ _ _ | CompositeAnySelector _ _ _ =>
      Raise (CohortContractError "cohort replacement requires an exact atomic selector")
  | Atomic exact_selector =>
      members ← normalized_members (pv_matched_resource_ids preview);
      match select (fun item => bool_decide (members ⊆ snd item)) inherited with
      | [(guard, _)] =>
          atoms ← guard_atoms resources members guard;
          _ ← raise_if (CohortContractError "cohort replacement exceeds the guarded selector child bound") (10 <=? length atoms)%nat;
          digest ← compute_artifact_digest
            (JObj [("replacementSelectorId", JStr (selector_id (pv_selector preview))); ("guardSelectorId", JStr (selector_id guard));
                   ("members", texts_json (sort_strings (elements members)))]);
          children ← guarded_children (digest_slice 7 31 digest) exact_selector atoms;
          guarded_selector ← construct_composite
            (CompositeAllSelector (selector_id (pv_selector preview)) children (pv_max_matches preview));
          guarded ← evaluate_exact_preview guarded_selector resources;
          _ ← guard_or (CohortContractError "guarded cohort selector changed the exact reviewed membership")
                (bool_decide (pv_matched_resource_ids guarded = pv_matched_resource_ids preview));
          Ok guarded
      | _ => Raise (CohortContractError "cohort replacement is not bound to exactly one inherited selector")
      end
  end.

(** _guard_selector_replacements *)
Definition guard_selector_replacements (previews : list SelectorPreview) (baseline : ManifestRole)
    (resources : list ResourceEvidenceRecord) : result (list SelectorPreview) :=
  inherited ← inherited_results baseline resources;
  guarded ← mapR (guard_preview inherited resources) previews;
  _ ← guard_or (CohortContractError "cohort replacement is not a provably narrower guarded selector set")
        (is_guarded_selector_replacement_narrower (mr_selectors baseline) (pv_selector <$> guarded));
  Ok guarded.

(** ** Candidates *)

(** A role with other selectors *)
Definition role_with_selectors (r : ManifestRole) (selectors : list ManifestSelector) : ManifestRole := {|
  mr_role_id := mr_role_id r; mr_kind := mr_kind r; mr_cardinality := mr_cardinality r; mr_selectors := selectors;
  mr_owner_ref := mr_owner_ref r; mr_status := mr_status r |}.

(** [ManifestRole.model_validate(payload)] of a role whose other fields are valid *)
Definition validated_role (r : ManifestRole) : result ManifestRole :=
  _ ← guard_or (ValidationError "ManifestRole") (list_between 1 20 (mr_selectors r));
  detached_role r.

(** _build_candidate *)
Definition build_candidate (actor_id : string) (r : CohortReviewPreviewRequest) (b : CohortProposalBatchResponse)
    (proposals : list CohortProposal) (s : EvidenceSnapshot) (as_of : Z) : result CohortReviewCandidate :=
  source_members ← source_union proposals;
  _ ← raise_if (CohortBoundaryError "preview source union exceeds 1,000 members") (exceeds 1000 source_members);
  let resources := resource_records s in
  baseline ← cp_role <$> first_proposal proposals;
  previews ← match vq_action r with
             | ReviewSplit => split_previews source_members r resources
             | _ => merge_previews proposals r resources
             end;
  previews ← guard_selector_replacements previews baseline resources;
  role ← reraise is_contract_error (CohortContractError "candidate selectors cannot form one bounded role update")
           (validated_role (role_with_selectors baseline (pv_selector <$> previews)));
  update ← construct_role_update
    {| cu_role := role; cu_selector_previews := previews; cu_member_count := Z.of_nat (length source_members) |};
  candidate_seed ← compute_artifact_digest
    (JObj [("actorId", JStr actor_id); ("action", JStr (review_action_value (vq_action r))); ("draftId", JStr (vq_draft_id r));
           ("draftRevision", JInt (vq_expected_revision r)); ("proposalSetDigest", JStr (vq_proposal_set_digest r));
           ("snapshotArtifactDigest", JStr (vq_snapshot_artifact_digest r)); ("proposalIds", texts_json (vq_proposal_ids r));
           ("sourceRoleRefs", texts_json (vq_source_role_refs r)); ("resolution", JStr (vq_resolution r))]);
  construct_candidate {|
    cx_candidate_id := "candidate-" +:+ review_action_value (vq_action r) +:+ "-" +:+ digest_slice 7 31 candidate_seed;
    cx_action := vq_action r;
    cx_source_draft := {| cdb_draft_id := vq_draft_id r; cdb_revision := vq_expected_revision r;
                          cdb_manifest_digest := vq_expected_digest r |};
    cx_scope := ct_scope (bp_batch b); cx_source_proposal_ids := vq_proposal_ids r;
    cx_proposal_set_digest := vq_proposal_set_digest r; cx_snapshot := ct_snapshot (bp_batch b);
    cx_role_updates := [update]; cx_replace_role_refs := [mr_role_id baseline]; cx_resolution := vq_resolution r;
    cx_generated_at := as_of; cx_expires_at := es_expires_at s;
    cx_requires_human_review := true; cx_publication_allowed := false; cx_manifest_mutated := false |}.

(** One turn of the inner loop of _validate_candidate: the unions of the update
    and of all updates, extended by one preview *)
Definition add_preview (unions : gset string * gset string) (preview : SelectorPreview) : result (gset string * gset string) :=
  members ← normalized_members (pv_matched_resource_ids preview);
  let count := Z.of_nat (size members) in
  _ ← raise_if (CohortContractError "candidate selectors overlap or have inexact maxMatches")
        (negb (bool_decide (unions.1 ∩ members = ∅)) || negb (bool_decide (unions.2 ∩ members = ∅)) ||
         negb (pv_max_matches preview =? count) || negb (selector_max_matches (pv_selector preview) =? count));
  Ok (unions.1 ∪ members, unions.2 ∪ members).

(** One turn of the outer loop *)
Definition check_update (baseline : ManifestRole) (preview_union : gset string) (u : CohortRoleUpdate) : result (gset string) :=
  _ ← guard_or (CohortContractError "preview attempted to alter role kind, cardinality, owner, or status")
        (same_authority (cu_role u) baseline);
  _ ← guard_or (CohortContractError "preview selector replacement is not canonically guarded")
        (is_guarded_selector_replacement_narrower (mr_selectors baseline) (mr_selectors (cu_role u)));
  unions ← foldR add_preview (∅, preview_union) (cu_selector_previews u);
  _ ← guard_or (CohortContractError "candidate memberCount is not exact") (cu_member_count u =? Z.of_nat (size unions.1));
  Ok unions.2.

(** What the candidate replaces, compared with the baseline's role *)
Definition replaces_exactly (c : CohortReviewCandidate) (baseline : ManifestRole) : bool :=
  let expected : gset string := {[normalized_id (mr_role_id baseline)]} in
  bool_decide (list_to_set (normalized_id <$> cx_replace_role_refs c) = expected) &&
  bool_decide (list_to_set ((fun u => normalized_id (mr_role_id (cu_role u))) <$> cx_role_updates c) = expected) &&
  (length (cx_role_updates c) =? 1)%nat && (length (cx_replace_role_refs c) =? 1)%nat.

(** _validate_candidate *)
Definition validate_candidate (c : CohortReviewCandidate) (r : CohortReviewPreviewRequest) (b : CohortProposalBatchResponse)
    (proposals : list CohortProposal) : result unit :=
  source ← list_to_set <$> source_union proposals;
  baseline ← cp_role <$> first_proposal proposals;
  preview_union ← foldR (check_update baseline) ∅ (cx_role_updates c);
  guard_or (CohortContractError "candidate is not exactly bound or attempted to acquire authority")
    (bool_decide (cx_action c = vq_action r) && bool_decide (cx_source_proposal_ids c = vq_proposal_ids r) &&
     String.eqb (cx_proposal_set_digest c) (ct_proposal_set_digest (bp_batch b)) &&
     bool_decide (cx_snapshot c = ct_snapshot (bp_batch b)) && bool_decide (cx_scope c = ct_scope (bp_batch b)) &&
     String.eqb (cx_resolution c) (vq_resolution r) && replaces_exactly c baseline &&
     bool_decide (preview_union = source :> gset string) && cx_requires_human_review c &&
     negb (cx_publication_allowed c) && negb (cx_manifest_mutated c)).
End review.
