(* ===== verification/CohortService.v ===== *)
(** * CohortService: proposals and previews for one draft

    api/cohort_service.py over the persistence of api/cohort_memory.py: the batch
    of cohort proposals of a draft on verified evidence, computed once and cached,
    and the review candidates (split, merge) of a human actor. The two reads of
    the draft store, and the reads and writes of the cohort persistence, take
    the state at their own instants: other requests may run in between. *)
From S2P Require Import Prelude Text Time Json Authorization.
From S2P Require Export CohortReview Lifecycle.
Local Open Scope Z_scope.

(** ** Ports *)

(** ExplicitWorkloadAuthorizationPort *)
Class ExplicitAuthorizationPort := authorize_explicit : Actor -> Permission -> string -> result unit.

(** EvidenceSnapshotRepositoryPort and TrustedEvidenceSnapshotVerifierPort *)
Record EvidencePorts := {
  eo_get_snapshot : CohortEvidenceBinding -> result (option StoredEvidenceSnapshot);
  eo_verify : EvidenceSnapshot -> Z -> result VerifierReturn;
}.

(** ** Persistence *)

(** InMemoryCohortPersistence *)
Record CohortPersistence := {
  kp_batches : gmap string CohortProposalBatchResponse;
  kp_receipts : gmap (string * string) CohortPreviewReceipt;
  kp_candidates : gmap (string * string) CohortPreviewReceipt;
}.
Definition new_persistence : CohortPersistence := {| kp_batches := ∅; kp_receipts := ∅; kp_candidates := ∅ |}.

Section persistence.
Context `{CohortText}.

Definition get_batch (key : CohortBatchCacheKey) (p : CohortPersistence) : option CohortProposalBatchResponse :=
  kp_batches p !! cache_key_text key.

Definition put_batch_if_absent (key : CohortBatchCacheKey) (batch : CohortProposalBatchResponse) (p : CohortPersistence)
    : CohortProposalBatchResponse * CohortPersistence :=
  match kp_batches p !! cache_key_text key with
  | Some existing => (existing, p)
  | None => (batch, {| kp_batches := <[cache_key_text key := batch]> (kp_batches p);
                       kp_receipts := kp_receipts p; kp_candidates := kp_candidates p |})
  end.

Definition get_preview_receipt (actor_id idempotency_key : string) (p : CohortPersistence) : option CohortPreviewReceipt :=
  kp_receipts p !! (actor_id, idempotency_key).

(** The receipt of a candidate id was stored for this candidate and binding. *)
Definition same_candidate (existing receipt : CohortPreviewReceipt) : bool :=
  bool_decide (kw_candidate existing = kw_candidate receipt) &&
  bool_decide (kw_evidence_binding existing = kw_evidence_binding receipt).

Definition put_preview_receipt_if_absent (receipt : CohortPreviewReceipt) (p : CohortPersistence)
    : result (CohortPreviewReceipt * CohortPersistence) :=
  let key := (kw_actor_id receipt, kw_idempotency_key receipt) in
  let candidate_key := (kw_actor_id receipt, cx_candidate_id (kw_candidate receipt)) in
  match kp_receipts p !! key with
  | Some existing => Ok (existing, p)
  | None =>
      _ ← guard_or (PersistenceConflictError "an immutable cohort candidate identifier already exists")
            (match kp_candidates p !! candidate_key with Some existing => same_candidate existing receipt | None => true end);
      Ok (receipt, {| kp_batches := kp_batches p; kp_receipts := <[key := receipt]> (kp_receipts p);
                      kp_candidates := match kp_candidates p !! candidate_key with
                                       | Some _ => kp_candidates p
                                       | None => <[candidate_key := receipt]> (kp_candidates p) end |})
  end.

Definition get_candidate (actor_id candidate_id : string) (p : CohortPersistence) : option CohortPreviewReceipt :=
  kp_candidates p !! (actor_id, candidate_id).
End persistence.

(** Python's [==] on snapshots is structural. *)
#[export] Instance JwtHeader_eq_dec : EqDecision JwtHeader.
Proof. solve_decision. Defined.
#[export] Instance TokenVerification_eq_dec : EqDecision TokenVerification.
Proof. solve_decision. Defined.
#[export] Instance AttemptBinding_eq_dec : EqDecision AttemptBinding.
Proof. solve_decision. Defined.
#[export] Instance IngestionDerivation_eq_dec : EqDecision IngestionDerivation.
Proof. solve_decision. Defined.
#[export] Instance IngestionSignature_eq_dec : EqDecision IngestionSignature.
Proof. solve_decision. Defined.
#[export] Instance CollectorIdentityEvidence_eq_dec : EqDecision CollectorIdentityEvidence.
Proof. solve_decision. Defined.
#[export] Instance SnapshotCollector_eq_dec : EqDecision SnapshotCollector.
Proof. solve_decision. Defined.
#[export] Instance SnapshotAttestation_eq_dec : EqDecision SnapshotAttestation.
Proof. solve_decision. Defined.
#[export] Instance EvidenceSnapshot_eq_dec : EqDecision EvidenceSnapshot.
Proof. solve_decision. Defined.

(** InMemoryEvidenceSnapshotRepository: [_snapshots] *)
Definition put_snapshot `{CohortText} (binding : CohortEvidenceBinding) (snapshot : EvidenceSnapshot)
    (snapshots : gmap string StoredEvidenceSnapshot) : result (gmap string StoredEvidenceSnapshot) :=
  match snapshots !! binding_text binding with
  | Some existing =>
      _ ← raise_if (PersistenceConflictError "an immutable cohort snapshot binding already exists")
            (negb (bool_decide (sg_binding existing = binding) && bool_decide (sg_snapshot existing = snapshot)));
      Ok snapshots
  | None => Ok (<[binding_text binding := {| sg_binding := binding; sg_snapshot := snapshot |}]> snapshots)
  end.
Definition get_snapshot `{CohortText} (binding : CohortEvidenceBinding) (snapshots : gmap string StoredEvidenceSnapshot)
    : option StoredEvidenceSnapshot := snapshots !! binding_text binding.

(** ** The service *)
Section service.
Context `{PyText} `{Rfc8785} `{PydanticJson} `{ResponseCodec} `{!ManifestContract} `{!ExplicitAuthorizationPort} `{!CohortText}
  `{ModelDump CohortReviewPreviewRequest}.

(** _ResolvedCohortContext *)
Record ResolvedCohortContext := {
  rx_draft : DraftRecord;
  rx_profile : ResolvedManifestProfile;
  rx_evidence_binding : CohortEvidenceBinding;
  rx_verified_snapshot : VerifiedCohortSnapshot;
  rx_as_of : Z;
}.
Definition rx_snapshot (c : ResolvedCohortContext) : EvidenceSnapshot := vs_snapshot (rx_verified_snapshot c).

(** _ResolvedCohortContext.cache_key *)
Definition cache_key (binding : CohortEvidenceBinding) (s : EvidenceSnapshot) : CohortBatchCacheKey := {|
  ck_evidence_binding := binding; ck_snapshot_artifact_digest := cm_artifact_digest (es_compatibility s) |}.
Definition rx_cache_key (c : ResolvedCohortContext) : CohortBatchCacheKey := cache_key (rx_evidence_binding c) (rx_snapshot c).

(** ResolvedCohortReview *)
Record ResolvedCohortReview := {
  rw_evidence_binding : CohortEvidenceBinding;
  rw_snapshot : EvidenceSnapshot;
  rw_batch : CohortProposalBatchResponse;
  rw_as_of : Z;
}.

(** _ensure_query_matches_draft *)
Definition ensure_query_matches_draft (q : CohortProposalQuery) (d : DraftRecord) : result unit :=
  _ ← guard_or (VersionMismatchError "draft belongs to a different workload") (String.eqb (dr_manifest_id d) (qy_manifest_id q));
  _ ← guard_or (StaleRevisionError "expected draft revision") (dr_revision d =? qy_expected_revision q);
  _ ← guard_or (VersionMismatchError "expected manifest version does not match the draft")
        (String.eqb (wm_manifest_version (dr_manifest d)) (qy_manifest_version q));
  guard_or (DigestMismatchError "expected manifest digest does not match the draft")
    (String.eqb (dr_manifest_digest d) (qy_expected_digest q)).

(** _ensure_current_draft, on the store as it is when it runs *)
Definition ensure_current_draft (q : CohortProposalQuery) (store : ContextStore) : result unit :=
  current ← fst (transaction (get_draft (qy_draft_id q)) store);
  match current with
  | None => Raise (ResourceNotFoundError "draft was not found")
  | Some current =>
      _ ← ensure_query_matches_draft q current;
      guard_or (InvalidTransitionError "cohort proposal source draft is no longer active")
        (bool_decide (dr_state current = StateDraft))
  end.

(** [except (RuntimeError, ValueError)] *)
Definition is_verifier_error (e : exn) : bool :=
  is_value_error e || match e with RuntimeError _ => true | _ => false end.

(** The [except] clauses of _resolve_verified_snapshot *)
Definition verification_error (s : EvidenceSnapshot) (as_of : Z) (e : exn) : exn :=
  if is_athena_error e then
    if es_expires_at s <=? as_of then StaleEvidenceSnapshotError "the trusted evidence snapshot has expired"
    else EvidenceSnapshotMismatchError "trusted evidence snapshot cryptographic verification failed"
  else if is_verifier_error e then EvidenceSnapshotMismatchError "trusted evidence snapshot cryptographic verification failed"
  else e.

(** _resolve_verified_snapshot *)
Definition resolve_verified_snapshot (ports : EvidencePorts) (binding : CohortEvidenceBinding) (as_of : Z)
    : result VerifiedCohortSnapshot :=
  stored ← eo_get_snapshot ports binding;
  match stored with
  | None => Raise (ResourceNotFoundError "no trusted evidence snapshot exists for the exact draft and profile binding")
  | Some stored =>
      _ ← guard_or (EvidenceSnapshotMismatchError "snapshot repository returned a cross-binding result")
            (bool_decide (sg_binding stored = binding));
      _ ← enforce_snapshot_bounds (sg_snapshot stored);
      match verify_cohort_snapshot (sg_snapshot stored) as_of (eo_verify ports) with
      | Raise e => Raise (verification_error (sg_snapshot stored) as_of e)
      | Ok verified =>
          let s := vs_snapshot verified in
          _ ← raise_if (StaleEvidenceSnapshotError "the trusted evidence snapshot is stale")
                ((as_of <? es_collected_at s) || (es_expires_at s <=? as_of));
          Ok verified
      end
  end.

(** [{scope.canonical_json() for scope in scopes}] *)
Definition scope_texts (scopes : list EvidenceScope) : result (gset string) :=
  list_to_set <$> mapR (fun scope => canonicalize_json (evidence_scope_json scope)) scopes.

(** The draft and its selector authority, read in one transaction *)
Definition read_draft (draft_id : string) : txM (option (DraftRecord * option PersistedSelectorAuthority)) :=
  draft ← get_draft draft_id;
  match draft with
  | None => mret None
  | Some draft => authority ← persisted_selector_authority_for_draft draft; mret (Some (draft, authority))
  end.

(** The profile a draft resolves, with its applied cohort decisions *)
Definition resolve_draft_profile (m : CanonicalWorkloadManifest) (profile_id : string) (as_of : Z)
    (authority : option PersistedSelectorAuthority) : result ResolvedManifestProfile :=
  reraise is_athena_error (CohortProfileMismatchError "the requested profile does not resolve from the exact draft")
    (match authority with
     | None => resolve_manifest_profile m profile_id as_of
     | Some authority => resolve_manifest_profile_for_cohort_decision m profile_id as_of authority
     end).

(** _resolve_context *)
Definition resolve_context (ports : EvidencePorts) (actor : Actor) (q : CohortProposalQuery) (clock : Z) (store : ContextStore)
    : result ResolvedCohortContext :=
  _ ← guard_or (AuthorizationError "cohort proposal APIs require a verified human actor") (bool_decide (ac_kind actor = ActorHuman));
  _ ← authorize_explicit actor PermRead (qy_manifest_id q);
  as_of ← ensure_timestamp clock;
  read ← fst (transaction (read_draft (qy_draft_id q)) store);
  match read with
  | None => Raise (ResourceNotFoundError "draft was not found")
  | Some (draft, authority) =>
      _ ← ensure_query_matches_draft q draft;
      _ ← guard_or (InvalidTransitionError "cohort proposals require an active draft state")
            (bool_decide (dr_state draft = StateDraft));
      let artifact_digest := cm_artifact_digest (wm_compatibility (dr_manifest draft)) in
      computed ← compute_artifact_digest_value (dr_manifest draft);
      _ ← guard_or (DigestMismatchError "draft manifest digest is not canonical")
            (String.eqb artifact_digest computed && String.eqb (dr_manifest_digest draft) artifact_digest);
      profile ← resolve_draft_profile (dr_manifest draft) (qy_profile_id q) as_of authority;
      _ ← guard_or (CohortProfileMismatchError "the resolved profile does not exactly match the request binding")
            (String.eqb (rp_profile_id profile) (qy_profile_id q) && String.eqb (rp_manifest_id profile) (qy_manifest_id q) &&
             String.eqb (rp_manifest_version profile) (qy_manifest_version q));
      let binding := evidence_binding q (rp_profile_type profile) (rp_resolved_profile_digest profile) in
      verified ← resolve_verified_snapshot ports binding as_of;
      profile_scopes ← scope_texts (rp_allowed_evidence_scopes profile);
      snapshot_scopes ← scope_texts (es_authorized_scopes (vs_snapshot verified));
      _ ← guard_or (EvidenceSnapshotMismatchError "snapshot authorization scopes do not exactly match the resolved profile")
            (bool_decide (profile_scopes = snapshot_scopes));
      Ok {| rx_draft := draft; rx_profile := profile; rx_evidence_binding := binding; rx_verified_snapshot := verified;
            rx_as_of := as_of |}
  end.

(** The source binding of a draft *)
Definition draft_binding (d : DraftRecord) : CohortDraftBinding := {|
  cdb_draft_id := dr_draft_id d; cdb_revision := dr_revision d; cdb_manifest_digest := dr_manifest_digest d |}.

(** _validate_batch_binding *)
Definition validate_batch_binding (b : CohortProposalBatchResponse) (c : ResolvedCohortContext) : result unit :=
  check_batch "cohort proposal batch escaped its draft, profile, or snapshot binding" b (draft_binding (rx_draft c))
    (proposal_scope (rx_profile c)) (rx_snapshot c).
Definition validate_batch (b : CohortProposalBatchResponse) (c : ResolvedCohortContext) : result unit :=
  _ ← validate_batch_binding b c; enforce_batch_bounds b.

(** The batch get_proposals computes when none is cached *)
Definition compute_batch (c : ResolvedCohortContext) : result CohortProposalBatchResponse :=
  batch ← reraise is_athena_error
            (EvidenceSnapshotMismatchError "the verified snapshot could not produce an exact cohort proposal batch")
            (propose_cohorts (rx_profile c) (rx_verified_snapshot c) (rx_as_of c));
  bind_direct_review_selector_ids {| bp_batch := batch; bp_source_draft := draft_binding (rx_draft c) |}
    (resource_records (rx_snapshot c)).

(** get_proposals: [store] and [persistence] as they are when the request starts,
    [store'] and [persistence'] when it re-checks the draft and caches its batch *)
Definition get_proposals (ports : EvidencePorts) (actor : Actor) (q : CohortProposalQuery) (clock : Z)
    (store store' : ContextStore) (persistence persistence' : CohortPersistence)
    : result CohortProposalBatchResponse * CohortPersistence :=
  match resolve_context ports actor q clock store with
  | Raise e => (Raise e, persistence')
  | Ok c =>
      match get_batch (rx_cache_key c) persistence with
      | Some cached => (_ ← validate_batch cached c; _ ← ensure_current_draft q store'; Ok cached, persistence')
      | None =>
          match (response ← compute_batch c; _ ← validate_batch response c; _ ← ensure_current_draft q store'; Ok response) with
          | Raise e => (Raise e, persistence')
          | Ok response =>
              let '(stored, persistence') := put_batch_if_absent (rx_cache_key c) response persistence' in
              (_ ← validate_batch stored c; Ok stored, persistence')
          end
      end
  end.

(** The digest of a preview request of an actor *)
Definition preview_request_digest (actor : Actor) (r : CohortReviewPreviewRequest) : result string :=
  compute_artifact_digest
    (JObj [("operation", JStr "cohort_preview"); ("actorId", JStr (ac_actor_id actor)); ("command", model_dump r)]).

(** _require_matching_receipt *)
Definition require_matching_receipt (receipt : CohortPreviewReceipt) (request_digest : string) (binding : CohortEvidenceBinding)
    : result unit :=
  guard_or (IdempotencyConflictError "idempotency key was used for a different cohort environment or request")
    (String.eqb (kw_request_digest receipt) request_digest && bool_decide (kw_evidence_binding receipt = binding)).

(** What [preview] requires of a stored receipt before it returns its candidate *)
Definition receipt_candidate (receipt : CohortPreviewReceipt) (request_digest : string) (binding : CohortEvidenceBinding)
    (r : CohortReviewPreviewRequest) (b : CohortProposalBatchResponse) (proposals : list CohortProposal)
    : result CohortReviewCandidate :=
  _ ← require_matching_receipt receipt request_digest binding;
  _ ← validate_candidate (kw_candidate receipt) r b proposals;
  _ ← enforce_candidate_bounds (kw_candidate receipt);
  Ok (kw_candidate receipt).

(** The batch a preview is made from *)
Definition preview_batch (c : ResolvedCohortContext) (r : CohortReviewPreviewRequest) (persistence : CohortPersistence)
    : result CohortProposalBatchResponse :=
  match get_batch (rx_cache_key c) persistence with
  | None => Raise (CohortContractError "the exact proposal batch must be loaded before requesting a preview")
  | Some batch =>
      _ ← validate_batch batch c;
      _ ← guard_or (EvidenceSnapshotMismatchError "preview bindings do not match the exact proposal batch and snapshot")
            (String.eqb (vq_proposal_set_digest r) (ct_proposal_set_digest (bp_batch batch)) &&
             String.eqb (vq_snapshot_artifact_digest r) (cm_artifact_digest (es_compatibility (rx_snapshot c))));
      Ok batch
  end.

(** A new candidate, checked before it is stored *)
Definition new_candidate (c : ResolvedCohortContext) (actor : Actor) (r : CohortReviewPreviewRequest)
    (batch : CohortProposalBatchResponse) (proposals : list CohortProposal) (store' : ContextStore)
    : result CohortReviewCandidate :=
  candidate ← build_candidate (ac_actor_id actor) r batch proposals (rx_snapshot c) (rx_as_of c);
  _ ← validate_candidate candidate r batch proposals;
  _ ← enforce_candidate_bounds candidate;
  _ ← ensure_current_draft (proposal_query r) store';
  Ok candidate.

(** preview, with the same instants as [get_proposals] *)
Definition preview (ports : EvidencePorts) (actor : Actor) (idempotency_key : string) (r : CohortReviewPreviewRequest) (clock : Z)
    (store store' : ContextStore) (persistence persistence' : CohortPersistence)
    : result CohortReviewCandidate * CohortPersistence :=
  match (c ← resolve_context ports actor (proposal_query r) clock store;
         batch ← preview_batch c r persistence;
         request_digest ← preview_request_digest actor r;
         Ok (c, batch, request_digest)) with
  | Raise e => (Raise e, persistence')
  | Ok (c, batch, request_digest) =>
      match get_preview_receipt (ac_actor_id actor) idempotency_key persistence with
      | Some existing =>
          (_ ← require_matching_receipt existing request_digest (rx_evidence_binding c);
           proposals ← select_proposals batch r;
           receipt_candidate existing request_digest (rx_evidence_binding c) r batch proposals, persistence')
      | None =>
          match (proposals ← select_proposals batch r;
                 candidate ← new_candidate c actor r batch proposals store';
                 '(stored, persistence'') ← put_preview_receipt_if_absent
                   {| kw_actor_id := ac_actor_id actor; kw_idempotency_key := idempotency_key;
                      kw_request_digest := request_digest; kw_evidence_binding := rx_evidence_binding c;
                      kw_candidate := candidate |} persistence';
                 Ok (proposals, stored, persistence'')) with
          | Raise e => (Raise e, persistence')
          | Ok (proposals, stored, persistence'') =>
              (receipt_candidate stored request_digest (rx_evidence_binding c) r batch proposals, persistence'')
          end
      end
  end.

(** resolve_for_decision at [as_of] *)
Definition resolve_for_decision (ports : EvidencePorts) (actor : Actor) (q : CohortProposalQuery) (scope : ProposalScope)
    (as_of : Z) (persistence : CohortPersistence) : result ResolvedCohortReview :=
  _ ← guard_or (AuthorizationError "cohort proposal APIs require a verified human actor") (bool_decide (ac_kind actor = ActorHuman));
  _ ← authorize_explicit actor PermRead (qy_manifest_id q);
  _ ← guard_or (CohortProfileMismatchError "the immutable decision scope does not match its source draft binding")
        (String.eqb (pq_manifest_id scope) (qy_manifest_id q) && String.eqb (pq_manifest_version scope) (qy_manifest_version q) &&
         String.eqb (pq_profile_id scope) (qy_profile_id q));
  decision_time ← ensure_timestamp as_of;
  let binding := evidence_binding q (pq_profile_type scope) (pq_resolved_profile_digest scope) in
  verified ← resolve_verified_snapshot ports binding decision_time;
  let s := vs_snapshot verified in
  match get_batch (cache_key binding s) persistence with
  | None => Raise (CohortContractError "the exact proposal batch must be loaded before recording a decision")
  | Some batch =>
      _ ← validate_decision_batch_binding batch binding s;
      _ ← enforce_batch_bounds batch;
      Ok {| rw_evidence_binding := binding; rw_snapshot := s; rw_batch := batch; rw_as_of := decision_time |}
  end.
End service.
