(* ===== verification/CohortDecision.v ===== *)
(** * CohortDecision: recording and applying cohort decisions

    api/cohort_decision_service.py: a human decision on cohort proposals is
    checked against the exact batch, snapshot and draft, and recorded, audited and
    applied to the draft in one transaction of the context store. The candidate
    validator it resolves profiles with is [CandidateValidator] of [Capability]. *)
From S2P Require Import Prelude Text Time Json Authorization.
From S2P Require Contract.
From S2P Require Export CohortService Capability.
Local Open Scope Z_scope.

(** ** Rejection authorities *)
Section fingerprints.
Context `{PyText} `{Rfc8785}.

(** [sorted(values, key=compute_artifact_digest)] *)
Definition sort_by_digest (values : list json) : result (list json) :=
  keyed ← mapR (fun v => digest ← compute_artifact_digest v; Ok (digest, v)) values;
  Ok (snd <$> sort_by fst keyed).

(** _stable_selector_payload of an atomic selector: its id is normalized, and the
    resource ids of a list are normalized and sorted. *)
Definition stable_atomic_payload (s : AtomicSelector) : result json :=
  let members := match atomic_selector_json (with_identity (normalized_id (atomic_selector_id s)) (atomic_max_matches s) s) with
                 | JObj members => members | _ => [] end in
  match s with
  | ResourceIdListSelector _ resource_ids _ =>
      ids ← mapR normalize_resource_id resource_ids;
      Ok (JObj ((fun m => if String.eqb (fst m) "resourceIds" then (fst m, texts_json (sort_strings ids)) else m) <$> members))
  | _ => Ok (JObj members)
  end.

(** _stable_selector_payload of a selector: children are ordered by their digests. *)
Definition stable_selector_payload (s : ManifestSelector) : result json :=
  let composite children :=
    payloads ← mapR stable_atomic_payload children;
    sorted ← sort_by_digest payloads;
    Ok (JObj [("selectorType", JStr (selector_type s)); ("selectorId", JStr (normalized_id (selector_id s)));
              ("children", JArr sorted); ("maxMatches", JInt (selector_max_matches s))]) in
  match s with
  | Atomic s => stable_atomic_payload s
  | CompositeAllSelector _ children _ | CompositeAnySelector _ children _ => composite children
  end.

(** _selector_role_rejection_fingerprint *)
Definition selector_role_rejection_fingerprint (manifest_id profile_id : string) (p : CohortProposal) : result string :=
  selectors ← mapR stable_selector_payload (mr_selectors (cp_role p));
  sorted ← sort_by_digest selectors;
  compute_artifact_digest
    (JObj [("operation", JStr "cohort_rejection_authority"); ("manifestId", JStr (normalized_id manifest_id));
           ("profileId", JStr (normalized_id profile_id)); ("roleRef", JStr (normalized_id (mr_role_id (cp_role p))));
           ("selectors", JArr sorted)]).

(** _member_rejection_fingerprint *)
Definition member_rejection_fingerprint (member : string) : result string :=
  id ← normalize_resource_id member;
  compute_artifact_digest (JObj [("operation", JStr "cohort_rejection_member"); ("resourceId", JStr id)]).

(** CohortDecisionService._source_union *)
Definition decision_source_union (proposals : list CohortProposal) (allow_empty : bool) : result (gset string) :=
  members ← member_set proposals;
  _ ← raise_if (CohortBoundaryError "decision source union must contain between 1 and 1,000 members")
        ((bool_decide (members = ∅) && negb allow_empty) || (1000 <? Z.of_nat (size members)));
  Ok members.

(** One turn of the loop of _rejection_authorities *)
Definition group_fingerprints (manifest_id profile_id : string) (grouped : gmap string (gset string)) (p : CohortProposal)
    : result (gmap string (gset string)) :=
  fingerprint ← selector_role_rejection_fingerprint manifest_id profile_id p;
  members ← mapR member_rejection_fingerprint (cp_members p);
  Ok (<[fingerprint := default ∅ (grouped !! fingerprint) ∪ list_to_set members]> grouped).

(** The construction of a CohortRejectionAuthority *)
Definition construct_rejection_authority (fingerprint : string) (members : gset string) : result CohortRejectionAuthority :=
  let sorted := sort_strings (elements members) in
  _ ← guard_or (ValidationError "CohortRejectionAuthority")
        (is_digest fingerprint && list_between 1 1000 sorted && validate_member_fingerprints sorted);
  Ok {| cr_selector_role_fingerprint := fingerprint; cr_member_fingerprints := sorted |}.

(** _rejection_authorities *)
Definition rejection_authorities (r : CohortDecisionRequest) (proposals : list CohortProposal)
    : result (list CohortRejectionAuthority) :=
  _ ← decision_source_union proposals (bool_decide (dq_action r = DecisionReject));
  grouped ← foldR (group_fingerprints (dq_manifest_id r) (dq_profile_id r)) ∅ proposals;
  mapR (fun item => construct_rejection_authority (fst item) (snd item))
    (select (fun item => negb (bool_decide (snd item = ∅))) (sort_by fst (map_to_list grouped))).

(** _proposal_set_version *)
Definition request_set_version (r : CohortDecisionRequest) (authorities : list CohortRejectionAuthority)
    : CohortProposalSetVersion := {|
  cv_manifest_id := dq_manifest_id r; cv_manifest_version := dq_manifest_version r; cv_profile_id := dq_profile_id r;
  cv_resolved_profile_digest := pq_resolved_profile_digest (dq_scope r);
  cv_source_draft := {| cdb_draft_id := dq_draft_id r; cdb_revision := dq_expected_revision r;
                        cdb_manifest_digest := dq_expected_digest r |};
  cv_proposal_set_digest := dq_proposal_set_digest r; cv_snapshot_artifact_digest := dq_snapshot_artifact_digest r;
  cv_source_proposal_ids := dq_proposal_ids r; cv_source_rejection_authorities := authorities |}.

(** _arbitrate_overlap *)
Definition arbitrate_overlap (r : CohortDecisionRequest) (existing : list CohortDecisionRecord) : result unit :=
  match existing with
  | [] => Ok tt
  | _ =>
      if negb (bool_decide (dq_action r = DecisionReject)) &&
         existsb (fun d => bool_decide (cd_decision d = DecisionReject)) existing
      then Raise (RejectedProposalSetError "a durable reject permanently blocks apply for an overlapping selected proposal")
      else Raise (CohortDecisionConflictError "an overlapping selected proposal already has an authoritative decision")
  end.
End fingerprints.

(** The construction of a CohortProposalSetVersion *)
Definition construct_set_version `{PyText} (v : CohortProposalSetVersion) : result CohortProposalSetVersion :=
  canonical ← reraise is_value_error (ValidationError "CohortProposalSetVersion") (canonical_proposal_ids (cv_source_proposal_ids v));
  let fingerprints := cr_selector_role_fingerprint <$> cv_source_rejection_authorities v in
  let members := members_of (cv_source_rejection_authorities v) in
  _ ← guard_or (ValidationError "CohortProposalSetVersion")
        (bool_decide (cv_source_proposal_ids v = canonical) && list_between 0 200 fingerprints &&
         bool_decide (fingerprints = sort_strings fingerprints) && unique fingerprints &&
         list_between 0 1000 members && unique members);
  Ok v.

(** ** Candidates *)
Section candidates.
Context `{PyText} `{Rfc8785}.

(** _validate_request_binding *)
Definition validate_request_binding (r : CohortDecisionRequest) (w : ResolvedCohortReview) : result (list CohortProposal) :=
  let batch := bp_batch (rw_batch w) in
  _ ← guard_or (CohortContractError "decision bindings do not match the exact batch, profile, snapshot, or source draft")
        (bool_decide (dq_scope r = ct_scope batch) && String.eqb (dq_proposal_set_digest r) (ct_proposal_set_digest batch) &&
         String.eqb (dq_snapshot_artifact_digest r) (ps_artifact_digest (ct_snapshot batch)) &&
         bool_decide (bp_source_draft (rw_batch w) =
           {| cdb_draft_id := dq_draft_id r; cdb_revision := dq_expected_revision r;
              cdb_manifest_digest := dq_expected_digest r |}));
  proposals ← proposals_by_id "decision references a proposal outside the exact batch" (rw_batch w) (dq_proposal_ids r);
  _ ← guard_or (CohortContractError "approve, split, and merge require one exact source role")
        (bool_decide (dq_action r = DecisionReject) || (size (role_refs proposals) =? 1)%nat);
  Ok proposals.

(** The candidate an approval has to submit *)
Definition direct_candidate (r : CohortDecisionRequest) (w : ResolvedCohortReview) (p : CohortProposal) (preview : SelectorPreview)
    : result CohortReviewCandidate :=
  let batch := bp_batch (rw_batch w) in
  update ← construct_role_update
    {| cu_role := role_with_selectors (cp_role p) [pv_selector preview]; cu_selector_previews := [preview];
       cu_member_count := Z.of_nat (length (cp_members p)) |};
  construct_candidate {|
    cx_candidate_id := "review-" +:+ cp_proposal_id p; cx_action := ReviewApprove; cx_source_draft := bp_source_draft (rw_batch w);
    cx_scope := ct_scope batch; cx_source_proposal_ids := dq_proposal_ids r; cx_proposal_set_digest := dq_proposal_set_digest r;
    cx_snapshot := ct_snapshot batch; cx_role_updates := [update]; cx_replace_role_refs := [mr_role_id (cp_role p)];
    cx_resolution := dq_rationale r; cx_generated_at := ct_evaluated_at batch; cx_expires_at := es_expires_at (rw_snapshot w);
    cx_requires_human_review := true; cx_publication_allowed := false; cx_manifest_mutated := false |}.

(** _resolve_candidate *)
Definition resolve_candidate (actor : Actor) (r : CohortDecisionRequest) (w : ResolvedCohortReview)
    (proposals : list CohortProposal) (decided_at : Z) (persistence : CohortPersistence)
    : result (option CohortReviewCandidate) :=
  match dq_action r, dq_candidate r with
  | DecisionReject, _ => Ok None
  | _, None => Raise (CohortContractError "apply decision is missing its candidate")
  | DecisionApprove, Some submitted =>
      p ← first_proposal proposals;
      match cp_selector_preview p with
      | Some preview =>
          _ ← guard_or (CohortContractError "approve requires the exact WC-012 direct review candidate")
                (String.eqb (cx_candidate_id submitted) ("review-" +:+ cp_proposal_id p));
          expected ← direct_candidate r w p preview;
          _ ← guard_or (CohortContractError "approve candidate does not match the exact WC-012 proposal")
                (bool_decide (submitted = expected));
          Ok (Some submitted)
      | None => Raise (CohortContractError "approve requires the exact WC-012 direct review candidate")
      end
  | _, Some submitted =>
      match get_candidate (ac_actor_id actor) (cx_candidate_id submitted) persistence with
      | Some stored =>
          _ ← guard_or (CohortContractError "decision candidate was not generated for the exact evidence binding")
                (String.eqb (kw_actor_id stored) (ac_actor_id actor) &&
                 bool_decide (kw_evidence_binding stored = rw_evidence_binding w) && bool_decide (kw_candidate stored = submitted));
          _ ← raise_if (CohortContractError "decision candidate was generated in the future")
                (decided_at <? cx_generated_at (kw_candidate stored));
          Ok (Some (kw_candidate stored))
      | None => Raise (CohortContractError "decision candidate was not generated for the exact evidence binding")
      end
  end.

(** _revalidate_preview *)
Definition revalidate_preview (preview : SelectorPreview) (resources : list ResourceEvidenceRecord) : result (gset string) :=
  '(evaluated, members, evaluated_members) ←
    reraise is_athena_error (CohortContractError "candidate selector cannot be re-evaluated against the exact snapshot")
      (evaluated ← evaluate_selector (pv_selector preview) resources;
       members ← normalized_members (pv_matched_resource_ids preview);
       evaluated_members ← normalized_members (sv_matched_resource_ids evaluated);
       Ok (evaluated, members, evaluated_members));
  let count := Z.of_nat (size members) in
  _ ← guard_or (CohortContractError "candidate selector union, count, digest, or maxMatches is inexact")
        (negb (bool_decide (members = ∅)) && (count <=? 1000) && (count =? Z.of_nat (length (pv_matched_resource_ids preview))) &&
         (pv_max_matches preview =? count) && (selector_max_matches (pv_selector preview) =? count) &&
         bool_decide (sv_status evaluated = SelMatched) && bool_decide (sv_max_match_violations evaluated = []) &&
         bool_decide (evaluated_members = members) &&
         String.eqb (sv_selector_result_digest evaluated) (pv_selector_result_digest preview));
  Ok members.

(** One turn of the inner loop of _validate_candidate *)
Definition add_revalidated (resources : list ResourceEvidenceRecord) (unions : gset string * gset string) (preview : SelectorPreview)
    : result (gset string * gset string) :=
  members ← revalidate_preview preview resources;
  _ ← guard_or (CohortContractError "candidate selector memberships are not a disjoint union")
        (bool_decide (unions.1 ∩ members = ∅) && bool_decide (unions.2 ∩ members = ∅));
  Ok (unions.1 ∪ members, unions.2 ∪ members).

(** One turn of the outer loop *)
Definition check_decision_update (r : CohortDecisionRequest) (baseline : ManifestRole) (resources : list ResourceEvidenceRecord)
    (candidate_union : gset string) (u : CohortRoleUpdate) : result (gset string) :=
  _ ← guard_or (CohortContractError "candidate attempted to alter role kind, cardinality, owner, or status")
        (same_authority (cu_role u) baseline);
  _ ← raise_if (CohortContractError "split or merge candidate is not a guarded exact selector replacement")
        (bool_decide (dq_action r ∈ [DecisionSplit; DecisionMerge]) &&
         negb (is_guarded_selector_replacement_narrower (mr_selectors baseline) (mr_selectors (cu_role u))));
  unions ← foldR (add_revalidated resources) (∅, candidate_union) (cu_selector_previews u);
  _ ← guard_or (CohortContractError "candidate memberCount is not exact") (cu_member_count u =? Z.of_nat (size unions.1));
  Ok unions.2.

(** CohortDecisionService._validate_candidate *)
Definition validate_decision_candidate (r : CohortDecisionRequest) (w : ResolvedCohortReview) (proposals : list CohortProposal)
    (candidate : option CohortReviewCandidate) (decided_at : Z) : result unit :=
  source ← decision_source_union proposals (bool_decide (dq_action r = DecisionReject));
  match candidate with
  | None => guard_or (CohortContractError "apply decision has no exact candidate") (bool_decide (dq_action r = DecisionReject))
  | Some c =>
      let batch := rw_batch w in
      baseline ← cp_role <$> first_proposal proposals;
      candidate_union ← foldR (check_decision_update r baseline (resource_records (rw_snapshot w))) ∅ (cx_role_updates c);
      guard_or (CohortContractError "candidate is not exactly bound to the selected proposal union")
        (bool_decide (Some (cx_action c) = decision_action (dq_action r)) && bool_decide (dq_candidate r = Some c) &&
         bool_decide (cx_source_draft c = bp_source_draft batch) && bool_decide (cx_scope c = ct_scope (bp_batch batch)) &&
         bool_decide (cx_source_proposal_ids c = dq_proposal_ids r) &&
         String.eqb (cx_proposal_set_digest c) (dq_proposal_set_digest r) &&
         bool_decide (cx_snapshot c = ct_snapshot (bp_batch batch)) && String.eqb (cx_resolution c) (dq_rationale r) &&
         (cx_expires_at c =? es_expires_at (rw_snapshot w)) && (decided_at <? cx_expires_at c) && replaces_exactly c baseline &&
         bool_decide (candidate_union = source) && cx_requires_human_review c && negb (cx_publication_allowed c) &&
         negb (cx_manifest_mutated c))
  end.
End candidates.

(** ** The draft a decision applies to *)
Section current_draft.
Context `{PyText} `{Rfc8785} `{PydanticJson} `{ResponseCodec} `{!ManifestContract}.

(** The rendering of a version without its proposals and authorities shows
    exactly these fields. *)
Definition version_binding (v : CohortProposalSetVersion) : list string * CohortDraftBinding :=
  ([cv_manifest_id v; cv_manifest_version v; cv_profile_id v; cv_resolved_profile_digest v; cv_proposal_set_digest v;
    cv_snapshot_artifact_digest v], cv_source_draft v).

(** One turn of the loop that collects [applied_by_revision] *)
Definition add_applied (version : CohortProposalSetVersion) (applied_by_revision : gmap Z CohortDraftBinding)
    (d : CohortDecisionRecord) : result (gmap Z CohortDraftBinding) :=
  match cd_applied_draft d with
  | Some applied =>
      if bool_decide (version_binding (proposal_set_version d) = version_binding version) then
        _ ← raise_if (StaleRevisionError "cohort decision apply history is not a valid revision chain")
              (negb (String.eqb (cdb_draft_id applied) (cdb_draft_id (cv_source_draft version))) ||
               (cdb_revision applied <=? cdb_revision (cv_source_draft version)) ||
               bool_decide (is_Some (applied_by_revision !! cdb_revision applied)));
        Ok (<[cdb_revision applied := applied]> applied_by_revision)
      else Ok applied_by_revision
  | None => Ok applied_by_revision
  end.

(** One turn of the loop over the sorted revisions *)
Definition follow_applied (draft : DraftRecord) (expected : Z * string) (applied : CohortDraftBinding) : result (Z * string) :=
  _ ← guard_or (StaleRevisionError "draft advanced outside this immutable cohort decision batch")
        ((cdb_revision applied =? fst expected) && (cdb_revision applied <=? dr_revision draft));
  Ok (fst expected + 1, cdb_manifest_digest applied).

(** The draft is where the applied decisions of this batch left it. *)
Definition check_apply_chain (draft : DraftRecord) (version : CohortProposalSetVersion) (decisions : list CohortDecisionRecord)
    : result unit :=
  let source := cv_source_draft version in
  applied ← foldR (add_applied version) ∅ decisions;
  last ← foldR (follow_applied draft) (cdb_revision source + 1, cdb_manifest_digest source)
           (snd <$> sort_by fst (map_to_list applied));
  guard_or (StaleRevisionError "draft digest does not match the atomic cohort decision apply chain")
    ((fst last =? dr_revision draft + 1) && String.eqb (dr_manifest_digest draft) (snd last)).

(** _require_current_draft *)
Definition require_current_draft (r : CohortDecisionRequest) (version : CohortProposalSetVersion) : txM DraftRecord :=
  draft ← get_draft (dq_draft_id r);
  match draft with
  | None => throw (ResourceNotFoundError "draft was not found")
  | Some draft =>
      _ ← check (VersionMismatchError "draft belongs to a different workload") (String.eqb (dr_manifest_id draft) (dq_manifest_id r));
      _ ← check (VersionMismatchError "expected manifest version does not match the draft")
            (String.eqb (wm_manifest_version (dr_manifest draft)) (dq_manifest_version r));
      _ ← check (InvalidTransitionError "cohort decisions require an active draft state") (bool_decide (dr_state draft = StateDraft));
      computed ← liftR (compute_artifact_digest_value (dr_manifest draft));
      _ ← check (DigestMismatchError "draft manifest digest is not canonical") (String.eqb computed (dr_manifest_digest draft));
      let source := cv_source_draft version in
      if dr_revision draft =? cdb_revision source then
        _ ← check (DigestMismatchError "expected manifest digest does not match the draft")
              (String.eqb (dr_manifest_digest draft) (cdb_manifest_digest source));
        mret draft
      else
        _ ← check (StaleRevisionError "expected draft revision") (cdb_revision source <? dr_revision draft);
        decisions ← list_cohort_decisions (dq_manifest_id r) (Some (dq_profile_id r)) (Some (dq_draft_id r))
                      (Some (dq_proposal_set_digest r));
        _ ← liftR (check_apply_chain draft version decisions);
        mret draft
  end.
End current_draft.

(** ** The selector-only replacement *)
#[export] Instance ResolvedManifestProfile_eq_dec : EqDecision ResolvedManifestProfile.
Proof. solve_decision. Defined.

Section replacement.
Context `{PyText} `{PyStr} `{Rfc8785} `{PydanticJson} `{ResponseCodec} `{!ManifestContract} `{!ManifestSetDump}
  `{ModelDump CohortDecisionApplyBinding} `{ModelDump ReplaceDraftCommand} `{ModelDump CohortReviewCandidate}.

(** One turn of the loop that extends [existing_selectors] *)
Definition add_selector (existing : list (string * ManifestSelector)) (s : ManifestSelector)
    : result (list (string * ManifestSelector)) :=
  let id := normalized_id (selector_id s) in
  match assoc id existing with
  | Some other =>
      _ ← guard_or (CohortContractError "same-role disjoint apply attempted to replace an existing selector identity")
            (bool_decide (other = s));
      Ok existing
  | None => Ok (existing ++ [(id, s)])
  end.

(** [applied_role]: the candidate's role, joined with the selectors an earlier
    decision of this batch applied to the role *)
Definition materialize_role (current_role source_role candidate_role : ManifestRole) : result ManifestRole :=
  if bool_decide (current_role = source_role) then Ok candidate_role
  else
    selectors ← foldR add_selector ((fun s => (normalized_id (selector_id s), s)) <$> mr_selectors current_role)
                  (mr_selectors candidate_role);
    validated_role (role_with_selectors current_role (snd <$> selectors)).

(** [isinstance(role, dict) and normalized_identifier(str(role.get("roleId", ""))) != target] *)
Definition is_other_role (target : string) (role : json) : bool :=
  match role with
  | JObj members => negb (String.eqb (normalized_id (py_str (default (JStr "") (assoc "roleId" members)))) target)
  | _ => false
  end.

(** [payload] with the role replaced in the roles of one profile *)
Definition replace_role (payload : json) (profile_key target : string) (role : ManifestRole) : result json :=
  match payload with
  | JObj members =>
      match assoc "profiles" members with
      | Some (JObj profiles) =>
          match assoc profile_key profiles with
          | Some (JObj profile_members) =>
              match assoc "roles" profile_members with
              | Some (JArr local_roles) =>
                  let roles := JArr (select (is_other_role target) local_roles ++ [role_json role]) in
                  Ok (JObj (set_member "profiles" (JObj (set_member profile_key (JObj (set_member "roles" roles profile_members))
                                                     profiles)) members))
              | _ => Raise (CohortContractError "requested profile roles are invalid")
              end
          | _ => Raise (CohortContractError "requested profile payload is invalid")
          end
      | Some _ => Raise (AttributeError "get")
      | None => Raise (KeyError "profiles")
      end
  | _ => Raise (TypeError "payload is not subscriptable")
  end.

(** [retained_replacement_role_digests] *)
Definition retained_role_digests (m : CanonicalWorkloadManifest) : result (list (string * string * string)) :=
  digests ← mapR (fun item => digest ← role_digest (snd item);
                              Ok (normalized_id (mp_profile_id (fst item)), normalized_id (mr_role_id (snd item)), digest))
              (concat ((fun p => (fun role => (p, role)) <$> mp_roles p) <$> (snd <$> wm_profiles m)));
  Ok (sort_by id digests).

(** _resolve_all_profiles with the candidate validator *)
Definition resolve_all_profiles (m : CanonicalWorkloadManifest) (as_of : Z) (binding : CohortDecisionApplyBinding)
    : result (gmap string ResolvedManifestProfile) :=
  resolved ← mapR (fun p => q ← resolve_complete_graph m (mp_profile_id p) as_of (capability_of (CandidateValidator binding));
                            Ok (normalized_id (mp_profile_id p), q)) (snd <$> wm_profiles m);
  Ok (foldl (fun d item => <[fst item := snd item]> d) ∅ resolved).

(** The construction of a CohortDecisionApplyBinding *)
Definition construct_apply_binding (b : CohortDecisionApplyBinding) : result CohortDecisionApplyBinding :=
  canonical ← canonical_proposal_ids (cb_proposal_ids b);
  _ ← guard_or (ValueError "apply proposal_ids must use canonical proposal order") (bool_decide (cb_proposal_ids b = canonical));
  _ ← guard_or (ValidationError "replacement_selector_provenance_digest") (is_digest (cb_replacement_selector_provenance_digest b));
  Ok b.

(** The roles of a profile by normalized id *)
Definition roles_by_id (p : ResolvedManifestProfile) : gmap string ManifestRole :=
  dict_by (fun r => normalized_id (mr_role_id r)) (rp_roles p).

(** The rendering of a profile but its roles, compatibility and digest *)
Definition profile_metadata (p : ResolvedManifestProfile) : json :=
  JObj (without_fields ["roles"; "compatibility"; "resolvedProfileDigest"] (resolved_profile_json p)).

(** The checks of the profiles before and after the replacement *)
Definition check_profiles (requested_profile target : string) (applied_role : ManifestRole)
    (before after : gmap string ResolvedManifestProfile) : result unit :=
  _ ← guard_or (CohortContractError "profile-scoped decision changed the resolved profile set") (bool_decide (dom before = dom after));
  _ ← guard_or (CohortContractError "local selector override changed a non-target profile")
        (forallb (fun item => String.eqb (fst item) requested_profile || bool_decide (after !! fst item = Some (snd item)))
           (map_to_list before));
  match before !! requested_profile, after !! requested_profile with
  | Some target_before, Some target_after =>
      let before_roles := roles_by_id target_before in
      let after_roles := roles_by_id target_after in
      _ ← guard_or (CohortContractError "candidate attempted an update outside the exact role selectors")
            (bool_decide (dom before_roles = dom after_roles) && bool_decide (after_roles !! target = Some applied_role) &&
             forallb (fun item => String.eqb (fst item) target || bool_decide (after_roles !! fst item = Some (snd item)))
               (map_to_list before_roles));
      guard_or (CohortContractError "candidate attempted to mutate non-role profile metadata")
        (py_eq (profile_metadata target_before) (profile_metadata target_after))
  | _, _ => Raise (KeyError "requested profile")
  end.

(** [next((role for role in roles if ...), None)] *)
Definition role_with_id (target : string) (roles : list ManifestRole) : option ManifestRole :=
  List.find (fun r => String.eqb (normalized_id (mr_role_id r)) target) roles.

(** The binding of the decision, on the draft it replaces *)
Definition apply_binding (current : DraftRecord) (r : CohortDecisionRequest) (candidate : CohortReviewCandidate) (actor : Actor)
    (decision_id candidate_digest : string) (decided_at : Z) (source_role applied_role : ManifestRole) (target_role_id : string)
    (replacement : CanonicalWorkloadManifest) : result CohortDecisionApplyBinding :=
  inherited_digest ← role_digest source_role;
  replacement_digest ← role_digest applied_role;
  provenance_digest ← role_selector_provenance_digest applied_role (dq_profile_id r);
  retained ← retained_role_digests (dr_manifest current);
  let manifest_digest := cm_artifact_digest (wm_compatibility replacement) in
  construct_apply_binding {|
    cb_decision_id := decision_id; cb_decision := dq_action r; cb_decided_at := decided_at; cb_actor := actor;
    cb_candidate_id := cx_candidate_id candidate; cb_candidate_digest := candidate_digest; cb_manifest_id := dq_manifest_id r;
    cb_manifest_version := dq_manifest_version r; cb_profile_id := dq_profile_id r;
    cb_resolved_profile_digest := pq_resolved_profile_digest (dq_scope r);
    cb_source_draft := {| cdb_draft_id := dq_draft_id r; cdb_revision := dq_expected_revision r;
                          cdb_manifest_digest := dq_expected_digest r |};
    cb_current_draft := draft_binding current;
    cb_resulting_draft := {| cdb_draft_id := dr_draft_id current; cdb_revision := dr_revision current + 1;
                             cdb_manifest_digest := manifest_digest |};
    cb_proposal_ids := dq_proposal_ids r; cb_proposal_set_digest := dq_proposal_set_digest r;
    cb_snapshot_artifact_digest := dq_snapshot_artifact_digest r; cb_target_role_id := target_role_id;
    cb_inherited_role_digest := inherited_digest; cb_replacement_role_digest := replacement_digest;
    cb_replacement_selector_provenance_digest := provenance_digest; cb_retained_replacement_role_digests := retained;
    cb_replacement_manifest_digest := manifest_digest |}.

(** The [try] block of _selector_only_replacement: the command, its authorization
    and the profiles on both sides *)
Definition materialize (current : DraftRecord) (r : CohortDecisionRequest) (candidate : CohortReviewCandidate) (actor : Actor)
    (decision_id candidate_digest reason : string) (decided_at : Z) (source_role current_role applied_role : ManifestRole)
    (target_role_id : string) (payload : json)
    : result (ReplaceDraftCommand * CohortDecisionApplyAuthorization * gmap string ResolvedManifestProfile *
              gmap string ResolvedManifestProfile) :=
  let requested_profile := normalized_id (dq_profile_id r) in
  let target := normalized_id target_role_id in
  canonical ← Contract.canonicalize_manifest_payload payload;
  replacement ← model_validate canonical;
  let command := {|
    rc_expected_revision := dr_revision current; rc_expected_manifest_version := dq_manifest_version r;
    rc_expected_digest := dr_manifest_digest current; rc_replacement_manifest := replacement;
    rc_replacement_digest := cm_artifact_digest (wm_compatibility replacement); rc_reason := reason |} in
  _ ← validate_replace_command command;
  binding ← apply_binding current r candidate actor decision_id candidate_digest decided_at source_role applied_role target_role_id
              replacement;
  authorization ← issue_apply_authorization binding command;
  before ← resolve_all_profiles (dr_manifest current) decided_at binding;
  target_before ← match before !! requested_profile with
                  | Some p => Ok p
                  | None => Raise (CohortContractError "requested profile changed before selector materialization")
                  end;
  _ ← guard_or (CohortContractError "requested role changed outside this disjoint decision apply chain")
        (bool_decide (role_with_id target (rp_roles target_before) = Some current_role));
  after ← resolve_all_profiles replacement decided_at binding;
  Ok (command, authorization, before, after).

(** _selector_only_replacement, with _materialize_local_role_override inlined:
    the role it materializes is the role of the candidate's first update. *)
Definition selector_only_replacement (current : DraftRecord) (r : CohortDecisionRequest) (candidate : CohortReviewCandidate)
    (proposals : list CohortProposal) (actor : Actor) (decision_id candidate_digest reason : string) (decided_at : Z)
    : result (ReplaceDraftCommand * CohortDecisionApplyAuthorization) :=
  let m := dr_manifest current in
  let requested_profile := normalized_id (dq_profile_id r) in
  match List.find (fun item => String.eqb (normalized_id (mp_profile_id (snd item))) requested_profile) (wm_profiles m) with
  | None => Raise (CohortContractError "candidate profile is not present in the exact draft")
  | Some (profile_key, profile) =>
      match cx_role_updates candidate with
      | [] => Raise (IndexError "list index out of range")
      | update :: _ =>
          let target_role_id := mr_role_id (cu_role update) in
          let target := normalized_id target_role_id in
          source_role ← cp_role <$> first_proposal proposals;
          let current_role := default source_role (role_with_id target (mp_roles profile)) in
          _ ← guard_or (CohortContractError "local override attempted to change role authority metadata")
                (same_authority source_role (cu_role update));
          _ ← guard_or (CohortContractError "requested role authority changed outside the verified apply chain")
                (same_authority current_role source_role);
          applied_role ← materialize_role current_role source_role (cu_role update);
          payload ← replace_role (dump_json_exclude_none m) profile_key target applied_role;
          '(command, authorization, before, after) ←
            reraise is_value_error (CohortContractError "local selector override violates canonical or weakening governance rules")
              (materialize current r candidate actor decision_id candidate_digest reason decided_at source_role current_role
                 applied_role target_role_id payload);
          _ ← guard_or (CohortContractError "profile-scoped decision attempted to mutate global roles")
                (bool_decide (wm_roles (rc_replacement_manifest command) = wm_roles m));
          _ ← check_profiles requested_profile target applied_role before after;
          Ok (command, authorization)
      end
  end.
End replacement.
