(* ===== verification/Decide.v ===== *)
(** * Decide: the operations of CohortDecisionService

    api/cohort_decision_service.py: [decide] replays a recorded request, makes
    sure the draft has its selector baseline, and then records, audits and
    applies the decision in one transaction; [get_decision] and [list_decisions]
    read the records. *)
From S2P Require Import Prelude Text Time Json Authorization.
From S2P Require Export CohortDecision.
Local Open Scope Z_scope.

(** [list(dict.fromkeys(values))]: the first occurrence of each value *)
Definition first_occurrences (values : list string) : list string := rev (remove_dups (rev values)).

(** ** The record of a decision *)
Section record.
Context `{PyText}.

(** What a decision applies: its candidate, the candidate's digest, the
    replacement and its authorization *)
Record CohortApply := {
  ap_candidate : CohortReviewCandidate;
  ap_candidate_digest : string;
  ap_command : ReplaceDraftCommand;
  ap_authorization : CohortDecisionApplyAuthorization;
}.
(** [applied_binding]: the draft the apply results in *)
Definition resulting_binding (apply : option CohortApply) : option CohortDraftBinding :=
  (fun a => cb_resulting_draft (ca_binding (ap_authorization a))) <$> apply.

(** _record *)
Definition decision_record (actor : Actor) (r : CohortDecisionRequest) (w : ResolvedCohortReview) (decision_id : string)
    (decided_at : Z) (apply : option CohortApply) (authorities : list CohortRejectionAuthority) (audit_id : string)
    : result CohortDecisionRecord :=
  let batch := bp_batch (rw_batch w) in
  let applied := resulting_binding apply in
  audit ← construct_decision_audit {|
    cau_audit_id := audit_id; cau_decision_id := decision_id; cau_actor := actor; cau_occurred_at := decided_at;
    cau_source_revision := dq_expected_revision r; cau_source_proposal_ids := dq_proposal_ids r;
    cau_resulting_revision := cdb_revision <$> applied; cau_draft_mutated := bool_decide (is_Some applied) |};
  construct_decision_record {|
    cd_decision_id := decision_id; cd_decision := dq_action r; cd_manifest_id := dq_manifest_id r;
    cd_manifest_version := dq_manifest_version r; cd_profile_id := dq_profile_id r;
    cd_profile_type := pq_profile_type (ct_scope batch);
    cd_resolved_profile_digest := pq_resolved_profile_digest (dq_scope r);
    cd_source_draft := bp_source_draft (rw_batch w); cd_applied_draft := applied;
    cd_batch_input_digest := ct_input_digest batch; cd_proposal_set_digest := dq_proposal_set_digest r;
    cd_source_proposal_ids := dq_proposal_ids r;
    cd_source_role_refs := first_occurrences ((fun p => mr_role_id (cp_role p)) <$>
      select (fun p => bool_decide (cp_proposal_id p ∈ dq_proposal_ids r)) (ct_proposals batch));
    cd_source_rejection_authorities := authorities; cd_snapshot := ct_snapshot batch;
    cd_candidate_id := (fun a => cx_candidate_id (ap_candidate a)) <$> apply;
    cd_candidate_digest := ap_candidate_digest <$> apply; cd_apply_authorization := ap_authorization <$> apply;
    cd_rationale := dq_rationale r; cd_decided_by := actor; cd_decided_at := decided_at; cd_audit := audit |}.
End record.

(** ** decide *)
Section decide.
Context `{PyText} `{PyStr} `{Rfc8785} `{PydanticJson} `{ResponseCodec} `{!ManifestContract} `{!ManifestSetDump} `{!CohortText}
  `{!AuthorizationPort} `{!ExplicitAuthorizationPort}
  `{ModelDump CohortDecisionApplyBinding} `{ModelDump ReplaceDraftCommand} `{ModelDump CohortReviewCandidate}
  `{ModelDump CohortDecisionRequest} `{ModelDump CohortDecisionRecord}.

(** _require_human *)
Definition require_human (actor : Actor) : result unit :=
  guard_or (AuthorizationError "cohort decision APIs require a verified human actor") (bool_decide (ac_kind actor = ActorHuman)).

(** [request_digest] *)
Definition decision_request_digest (actor : Actor) (r : CohortDecisionRequest) : result string :=
  compute_artifact_digest
    (JObj [("operation", JStr "cohort_decision"); ("actorId", JStr (ac_actor_id actor)); ("command", model_dump r)]).

(** [decision_id]: [removeprefix] and 32 characters of the digest *)
Definition decision_id_of (request_digest : string) : string := "cohort-decision-" +:+ digest_slice 7 39 request_digest.

(** _replay_from_receipt *)
Definition replay_from_receipt (receipt : CohortDecisionReceipt) (decision : option CohortDecisionRecord)
    (request_digest manifest_id : string) : result CohortDecisionRecord :=
  let conflict := PersistenceConflictError "stored cohort decision receipt does not resolve exactly" in
  _ ← guard_or (IdempotencyConflictError "idempotency key was used for a different cohort decision")
        (String.eqb (cdr_request_digest receipt) request_digest);
  _ ← guard_or conflict (String.eqb (cdr_manifest_id receipt) manifest_id);
  match decision with
  | Some decision =>
      _ ← guard_or conflict (String.eqb (cd_manifest_id decision) (cdr_manifest_id receipt) &&
                             String.eqb (cd_decision_id decision) (cdr_decision_id receipt));
      digest ← compute_artifact_digest (model_dump decision);
      _ ← guard_or conflict (String.eqb digest (cdr_decision_digest receipt));
      Ok decision
  | None => Raise conflict
  end.

(** The replay each transaction of [decide] starts with; _get_replay is this in
    its own transaction. *)
Definition replay (actor : Actor) (idempotency_key request_digest manifest_id : string) : txM (option CohortDecisionRecord) :=
  receipt ← get_cohort_decision_receipt (ac_actor_id actor) idempotency_key;
  match receipt with
  | None => mret None
  | Some receipt =>
      decision ← get_cohort_decision (cdr_manifest_id receipt) (cdr_decision_id receipt);
      decision ← liftR (replay_from_receipt receipt decision request_digest manifest_id);
      mret (Some decision)
  end.

(** The query of the request *)
Definition decision_query (r : CohortDecisionRequest) : CohortProposalQuery := {|
  qy_manifest_id := dq_manifest_id r; qy_manifest_version := dq_manifest_version r; qy_profile_id := dq_profile_id r;
  qy_draft_id := dq_draft_id r; qy_expected_revision := dq_expected_revision r; qy_expected_digest := dq_expected_digest r |}.

(** The reason of the replacement *)
Definition apply_reason (r : CohortDecisionRequest) (decision_id : string) : string :=
  "Applied cohort " +:+ decision_value (dq_action r) +:+ " decision " +:+ decision_id +:+
  "; selector-only draft update. Full rationale retained in decision.".

(** [model_copy(update={"decided_at": decided_at})] *)
Definition with_decided_at (decided_at : Z) (b : CohortDecisionApplyBinding) : CohortDecisionApplyBinding := {|
  cb_decision_id := cb_decision_id b; cb_decision := cb_decision b; cb_decided_at := decided_at; cb_actor := cb_actor b;
  cb_candidate_id := cb_candidate_id b; cb_candidate_digest := cb_candidate_digest b; cb_manifest_id := cb_manifest_id b;
  cb_manifest_version := cb_manifest_version b; cb_profile_id := cb_profile_id b;
  cb_resolved_profile_digest := cb_resolved_profile_digest b; cb_source_draft := cb_source_draft b;
  cb_current_draft := cb_current_draft b; cb_resulting_draft := cb_resulting_draft b; cb_proposal_ids := cb_proposal_ids b;
  cb_proposal_set_digest := cb_proposal_set_digest b; cb_snapshot_artifact_digest := cb_snapshot_artifact_digest b;
  cb_target_role_id := cb_target_role_id b; cb_inherited_role_digest := cb_inherited_role_digest b;
  cb_replacement_role_digest := cb_replacement_role_digest b;
  cb_replacement_selector_provenance_digest := cb_replacement_selector_provenance_digest b;
  cb_retained_replacement_role_digests := cb_retained_replacement_role_digests b;
  cb_replacement_manifest_digest := cb_replacement_manifest_digest b |}.

(** The apply of a candidate, authorized at the time it was validated *)
Definition prepare_apply (actor : Actor) (r : CohortDecisionRequest) (current : DraftRecord) (proposals : list CohortProposal)
    (decision_id : string) (validation_time : Z) (candidate : option CohortReviewCandidate) : result (option CohortApply) :=
  match candidate with
  | None => Ok None
  | Some candidate =>
      candidate_digest ← compute_artifact_digest (model_dump candidate);
      '(command, authorization) ← selector_only_replacement current r candidate proposals actor decision_id candidate_digest
                                    (apply_reason r decision_id) validation_time;
      Ok (Some {| ap_candidate := candidate; ap_candidate_digest := candidate_digest; ap_command := command;
                  ap_authorization := authorization |})
  end.

(** The evidence is unexpired when the decision is persisted. *)
Definition unexpired (w : ResolvedCohortReview) (apply : option CohortApply) (validation_time decided_at : Z) : bool :=
  (validation_time <=? decided_at) && (decided_at <? es_expires_at (rw_snapshot w)) &&
  match apply with Some a => decided_at <? cx_expires_at (ap_candidate a) | None => true end.

(** The authorization issued again for [decided_at] *)
Definition authorize_apply (decided_at : Z) (apply : option CohortApply) : result (option CohortApply) :=
  match apply with
  | None => Ok None
  | Some a =>
      authorization ← issue_apply_authorization (with_decided_at decided_at (ca_binding (ap_authorization a))) (ap_command a);
      Ok (Some {| ap_candidate := ap_candidate a; ap_candidate_digest := ap_candidate_digest a; ap_command := ap_command a;
                  ap_authorization := authorization |})
  end.

(** The audit event of the decision *)
Definition decision_event (actor : Actor) (r : CohortDecisionRequest) (current : DraftRecord) (decision_id : string)
    (decided_at : Z) (applied : option CohortDraftBinding) : PendingAuditEvent := {|
  pa_occurred_at := decided_at; pa_actor := actor; pa_action := CohortDecisionRecorded; pa_manifest_id := dq_manifest_id r;
  pa_draft_id := Some (dq_draft_id r);
  pa_revision := Some (from_option cdb_revision (dr_revision current) applied);
  pa_previous_revision := if applied is Some _ then Some (dr_revision current) else None;
  pa_manifest_version := Some (dq_manifest_version r); pa_previous_version := dr_previous_version current;
  pa_replacement_version := None; pa_publication_actor := None; pa_publication_timestamp := None;
  pa_manifest_digest := from_option cdb_manifest_digest (dr_manifest_digest current) applied;
  pa_reason := "Recorded cohort " +:+ decision_value (dq_action r) +:+ " decision " +:+ decision_id +:+
               "; full rationale retained in decision record." |}.

(** The receipt of the decision *)
Definition decision_receipt (actor : Actor) (idempotency_key request_digest : string) (record : CohortDecisionRecord)
    : result CohortDecisionReceipt :=
  decision_digest ← compute_artifact_digest (model_dump record);
  _ ← guard_or (ValidationError "CohortDecisionReceipt") (is_id (ac_actor_id actor) && is_id idempotency_key);
  Ok {| cdr_actor_id := ac_actor_id actor; cdr_idempotency_key := idempotency_key; cdr_request_digest := request_digest;
        cdr_manifest_id := cd_manifest_id record; cdr_decision_id := cd_decision_id record;
        cdr_decision_digest := decision_digest |}.

(** The draft update of the decision, in its transaction *)
Definition apply_draft (actor : Actor) (r : CohortDecisionRequest) (decision_id : string) (decided_at final_clock : Z)
    (apply : option CohortApply) : txM unit :=
  match apply with
  | None => mret tt
  | Some a =>
      applied ← replace_draft_in_transaction actor (dq_draft_id r) (ap_command a) (Some decided_at) (Some decision_id)
                  final_clock final_clock;
      check (PersistenceConflictError "atomic cohort decision result differs from its persisted apply authorization")
        (bool_decide (Some (draft_binding applied) = resulting_binding (Some a)))
  end.

(** What the transaction decides: the draft, the apply and the rejection
    authorities, computed on the store's decisions and drafts. [clocks] are the
    readings of the clock: when validating, when persisting and when applying. *)
Record DecisionPlan := {
  pn_review : ResolvedCohortReview;
  pn_authorities : list CohortRejectionAuthority;
  pn_current : DraftRecord;
  pn_apply : option CohortApply;
  pn_decided_at : Z;
}.

Definition plan_decision (ports : EvidencePorts) (persistence : CohortPersistence) (actor : Actor) (r : CohortDecisionRequest)
    (decision_id : string) (clock decision_clock : Z) : txM DecisionPlan :=
  validation_time ← liftR (ensure_timestamp clock);
  w ← liftR (resolve_for_decision ports actor (decision_query r) (dq_scope r) validation_time persistence);
  proposals ← liftR (validate_request_binding r w);
  authorities ← liftR (rejection_authorities r proposals);
  version ← liftR (construct_set_version (request_set_version r authorities));
  overlapping ← list_overlapping_cohort_decisions version;
  _ ← liftR (arbitrate_overlap r overlapping);
  _ ← check (StaleEvidenceSnapshotError "the exact decision snapshot expired before atomic apply")
        (validation_time <? es_expires_at (rw_snapshot w));
  candidate ← liftR (resolve_candidate actor r w proposals validation_time persistence);
  current ← require_current_draft r version;
  _ ← liftR (validate_decision_candidate r w proposals candidate validation_time);
  apply ← liftR (prepare_apply actor r current proposals decision_id validation_time candidate);
  decided_at ← liftR (ensure_timestamp decision_clock);
  _ ← check (StaleEvidenceSnapshotError "the exact decision evidence expired before atomic persistence")
        (unexpired w apply validation_time decided_at);
  apply ← liftR (authorize_apply decided_at apply);
  mret {| pn_review := w; pn_authorities := authorities; pn_current := current; pn_apply := apply; pn_decided_at := decided_at |}.

(** The writes of the transaction *)
Definition record_decision (actor : Actor) (idempotency_key request_digest : string) (r : CohortDecisionRequest)
    (decision_id : string) (final_clock : Z) (plan : DecisionPlan) : txM CohortDecisionRecord :=
  event ← append_audit (decision_event actor r (pn_current plan) decision_id (pn_decided_at plan) (resulting_binding (pn_apply plan)));
  record ← liftR (decision_record actor r (pn_review plan) decision_id (pn_decided_at plan) (pn_apply plan) (pn_authorities plan)
                    (ae_event_id event));
  _ ← put_cohort_decision record;
  _ ← apply_draft actor r decision_id (pn_decided_at plan) final_clock (pn_apply plan);
  receipt ← liftR (decision_receipt actor idempotency_key request_digest record);
  _ ← put_cohort_decision_receipt receipt;
  mret record.

(** The last transaction of [decide] *)
Definition decide_body (ports : EvidencePorts) (persistence : CohortPersistence) (actor : Actor)
    (idempotency_key request_digest : string) (r : CohortDecisionRequest) (clock decision_clock final_clock : Z)
    : txM CohortDecisionRecord :=
  replayed ← replay actor idempotency_key request_digest (dq_manifest_id r);
  match replayed with
  | Some decision => mret decision
  | None =>
      let decision_id := decision_id_of request_digest in
      plan ← plan_decision ports persistence actor r decision_id clock decision_clock;
      record_decision actor idempotency_key request_digest r decision_id final_clock plan
  end.

(** What [decide] checks before its first transaction: the actor, its grant and
    the digest of the request *)
Definition enter_decide (actor : Actor) (r : CohortDecisionRequest) : result string :=
  _ ← require_human actor;
  _ ← authorize_explicit actor PermUpdateDraft (dq_manifest_id r);
  decision_request_digest actor r.

(** decide: four transactions of the store, which other requests change in
    between: [interleave n] is what they make of the store before transaction
    [n]. *)
Definition decide (ports : EvidencePorts) (persistence : CohortPersistence) (interleave : nat -> ContextStore -> ContextStore)
    (actor : Actor) (idempotency_key : string) (r : CohortDecisionRequest) (clock decision_clock final_clock : Z)
    (store : ContextStore) : result CohortDecisionRecord * ContextStore :=
  match enter_decide actor r with
  | Raise e => (Raise e, store)
  | Ok request_digest =>
      let replaying := replay actor idempotency_key request_digest (dq_manifest_id r) in
      match transaction replaying (interleave 0%nat store) with
      | (Raise e, store) => (Raise e, store)
      | (Ok (Some decision), store) => (Ok decision, store)
      | (Ok None, store) =>
          match ensure_selector_baseline_for_decision actor (dq_draft_id r) (dq_expected_revision r) (dq_manifest_version r)
                  (dq_expected_digest r) (interleave 1%nat store) with
          | (Raise e, store) => (Raise e, store)
          | (Ok _, store) =>
              match transaction replaying (interleave 2%nat store) with
              | (Raise e, store) => (Raise e, store)
              | (Ok (Some decision), store) => (Ok decision, store)
              | (Ok None, store) =>
                  transaction (decide_body ports persistence actor idempotency_key request_digest r clock decision_clock
                                 final_clock) (interleave 3%nat store)
              end
          end
      end
  end.

(** ** Reads *)

(** get *)
Definition get_decision (actor : Actor) (manifest_id decision_id : string) (store : ContextStore) : result CohortDecisionRecord :=
  _ ← require_human actor;
  _ ← authorize_explicit actor PermRead manifest_id;
  decision ← fst (transaction (get_cohort_decision manifest_id decision_id) store);
  match decision with
  | Some decision => Ok decision
  | None => Raise (ResourceNotFoundError "cohort decision was not found in this workload")
  end.

(** The filter of list_decisions *)
Definition decision_listed (scope : ProposalScope) (source_draft : CohortDraftBinding) (proposal_ids : list string)
    (snapshot_artifact_digest : string) (d : CohortDecisionRecord) : bool :=
  String.eqb (cd_manifest_version d) (pq_manifest_version scope) && String.eqb (cd_profile_type d) (pq_profile_type scope) &&
  String.eqb (cd_resolved_profile_digest d) (pq_resolved_profile_digest scope) &&
  bool_decide (cd_source_draft d = source_draft) &&
  String.eqb (ps_artifact_digest (cd_snapshot d)) snapshot_artifact_digest &&
  existsb (fun id => bool_decide (id ∈ proposal_ids)) (cd_source_proposal_ids d).

Definition MAX_DECISIONS : nat := 200.

(** list_decisions with its default limit *)
Definition list_decisions (actor : Actor) (manifest_id : string) (scope : ProposalScope) (source_draft : CohortDraftBinding)
    (proposal_ids : list string) (proposal_set_digest snapshot_artifact_digest : string) (store : ContextStore)
    : result (list CohortDecisionRecord) :=
  _ ← require_human actor;
  _ ← guard_or (CohortContractError "decision list scope does not match the authorized workload")
        (String.eqb (pq_manifest_id scope) manifest_id);
  _ ← authorize_explicit actor PermList manifest_id;
  decisions ← fst (transaction (list_cohort_decisions manifest_id (Some (pq_profile_id scope)) (Some (cdb_draft_id source_draft))
                                  (Some proposal_set_digest)) store);
  Ok (take MAX_DECISIONS (select (decision_listed scope source_draft proposal_ids snapshot_artifact_digest) decisions)).
End decide.
