(* ===== verification/PreviewProps.v ===== *)
(** * PreviewProps: the evidence index and the preview of a cohort

    What the evidence index holds; a preview resolves to exactly its cohort, and
    small cohorts have one. *)
From S2P Require Import Prelude Text Time Json.
From S2P Require Export SelectorProps EvidenceIndex Preview.

(** * What the evidence index holds

    The resources of an index are the resource records of the snapshot whose
    normalised id no other record has; one without rejection reasons is in scope,
    of the profile's environment, and cited by exactly one reference. *)
Local Open Scope Z_scope.

(** ** Dictionaries of sets and lists *)
Lemma get_set_add_to d k v key : get_set (add_to d k v) key = (if decide (k = key) then {[v]} else ∅) ∪ get_set d key.
Proof.
  unfold add_to, get_set at 1. rewrite lookup_insert. case_decide; [by subst|]. by rewrite (left_id_L ∅ (∪)).
Qed.

Lemma get_list_append_to {A} (d : gmap string (list A)) k v key :
  get_list (append_to d k v) key = get_list d key ++ (if decide (k = key) then [v] else []).
Proof.
  unfold append_to, get_list at 1. rewrite lookup_insert. case_decide; [by subst|]. by rewrite app_nil_r.
Qed.

Lemma elem_of_foldl_add_to ids v d key x :
  x ∈ get_set (foldl (fun d id => add_to d id v) d ids) key <-> x ∈ get_set d key \/ key ∈ ids /\ x = v.
Proof.
  revert d. induction ids as [|id ids IH]; intros d; cbn; [set_solver|]. rewrite IH, get_set_add_to.
  case_decide; set_solver.
Qed.

(** ** Groups *)
Lemma group_append_elem {A} (groups : list (string * list A)) key value x :
  x ∈ concat (snd <$> group_append groups key value) <-> x = value \/ x ∈ concat (snd <$> groups).
Proof.
  induction groups as [|[k values] groups IH]; cbn; [set_solver|].
  destruct (String.eqb k key); cbn; rewrite !elem_of_app; [set_solver|]. rewrite IH. set_solver.
Qed.

Lemma group_append_keys {A} (groups : list (string * list A)) key value :
  NoDup (fst <$> groups) -> NoDup (fst <$> group_append groups key value) /\
  forall k, k ∈ fst <$> group_append groups key value <-> k = key \/ k ∈ fst <$> groups.
Proof.
  induction groups as [|[k values] groups IH]; cbn; [intros _; split; [by repeat constructor; set_solver|set_solver]|].
  intros [Hk Hn]%NoDup_cons. destruct (String.eqb_spec k key) as [->|Hne]; cbn.
  - split; [by constructor|set_solver].
  - destruct (IH Hn) as [Hd He]. split; [constructor; [rewrite He; set_solver|done]|]. intros j. rewrite !elem_of_cons, He. set_solver.
Qed.

(** The values grouped under a key *)
Definition group_members {A} (groups : list (string * list A)) (key : string) : list A :=
  concat (snd <$> select (fun g => String.eqb (fst g) key) groups).

Lemma group_members_append {A} (groups : list (string * list A)) key value k x :
  x ∈ group_members (group_append groups key value) k <-> key = k /\ x = value \/ x ∈ group_members groups k.
Proof.
  unfold group_members. induction groups as [|[k' values] groups IH]; cbn.
  - destruct (String.eqb_spec key k); cbn; set_solver.
  - destruct (String.eqb_spec k' key) as [->|Hne]; cbn.
    + destruct (String.eqb_spec key k) as [->|]; cbn; rewrite ?elem_of_app; set_solver.
    + destruct (String.eqb_spec k' k) as [->|]; cbn; rewrite ?elem_of_app, IH; set_solver.
Qed.

Lemma group_members_elem {A} (groups : list (string * list A)) k values x : NoDup (fst <$> groups) -> (k, values) ∈ groups ->
  x ∈ group_members groups k <-> x ∈ values.
Proof.
  unfold group_members. induction groups as [|[k' values'] groups IH]; [set_solver|]. cbn. intros [Hk Hn]%NoDup_cons Hg.
  assert (Hnone : k' ∉ fst <$> groups -> select (fun g : string * list A => String.eqb (fst g) k') groups = []).
  { clear. induction groups as [|[k2 v2] groups IH]; [done|]. cbn. intros Hk. destruct (String.eqb_spec k2 k') as [->|]; [set_solver|].
    apply IH. set_solver. }
  apply elem_of_cons in Hg as [Hg|Hg].
  - injection Hg as <- <-. rewrite String.eqb_refl. cbn. unfold select in Hnone. rewrite Hnone by done. cbn. by rewrite app_nil_r.
  - destruct (String.eqb_spec k' k) as [->|]; [|by apply IH]. exfalso. apply Hk. by apply (list_elem_of_fmap_2 fst _ (k, values)).
Qed.

Section index_props.
Context `{PyText} `{Rfc8785}.

(** The record's id normalises to [id]. *)
Definition normalizes_to (record : ResourceEvidenceRecord) (id : string) : Prop := normalize_resource_id (re_resource_id record) = Ok id.

Lemma sort_records_groups p s sorted : sort_records p s = Ok sorted ->
  NoDup (fst <$> so_records_by_id sorted) /\
  forall id r, r ∈ group_members (so_records_by_id sorted) id <-> ResourceRecord r ∈ es_evidence_records s /\ normalizes_to r id.
Proof.
  apply (foldR_prefix (fun passed sorted => NoDup (fst <$> so_records_by_id sorted) /\
    forall id r, r ∈ group_members (so_records_by_id sorted) id <-> ResourceRecord r ∈ passed /\ normalizes_to r id)).
  - intros passed record st st' [Hn He] _ Hs.
    assert (Hother : (forall r, record <> ResourceRecord r) -> so_records_by_id st' = so_records_by_id st ->
      NoDup (fst <$> so_records_by_id st') /\
      forall id r, r ∈ group_members (so_records_by_id st') id <-> ResourceRecord r ∈ passed ++ [record] /\ normalizes_to r id).
    { intros Hr ->. split; [done|]. intros id r. rewrite He, elem_of_app, list_elem_of_singleton. split; [naive_solver|].
      intros [[?| <-] ?]; [done|]. by destruct (Hr r). }
    destruct record; cbn [sort_record] in Hs; try (injection Hs as <-; by apply Hother). inv_ok. subst. cbn [so_records_by_id]. split.
    + by apply group_append_keys.
    + intros id' r'. rewrite group_members_append, He, elem_of_app, list_elem_of_singleton. split.
      * intros [[-> ->]|[? ?]]; auto.
      * intros [[?|E] Hx]; [auto|]. injection E as ->. left. unfold normalizes_to in Hx. same_ok. done.
  - split; [constructor|]. intros id r. cbn. set_solver.
Qed.

(** The groups with one record *)
Definition single_groups (groups : list (string * list ResourceEvidenceRecord)) : resource_dict :=
  omap (fun g => match snd g with [record] => Some (fst g, record) | _ => None end) groups.

Lemma elem_of_single_groups groups id r : (id, r) ∈ single_groups groups <-> (id, [r]) ∈ groups.
Proof.
  unfold single_groups. rewrite list_elem_of_omap. split.
  - intros ([k [|r' [|]]] & Hg & E); try done. cbn in E. by injection E as <- <-.
  - intros Hg. by exists (id, [r]).
Qed.

Lemma single_groups_keys groups : sublist (fst <$> single_groups groups) (fst <$> groups).
Proof. induction groups as [|[k [|r [|]]] groups IH]; cbn; by constructor. Qed.

Lemma index_resources_single groups index index' : ei_resources index = [] ->
  foldR index_resource index groups = Ok index' -> ei_resources index' = single_groups groups.
Proof.
  intros He. apply (foldR_prefix (fun passed index => ei_resources index = single_groups passed)); [|done].
  intros passed [id records] ix ix' Hi _ Hs. unfold single_groups in *. rewrite omap_app, <- Hi. cbn.
  destruct records as [|r [|r' records]]; cbn [index_resource] in Hs; inv_ok; subst; cbn; by rewrite ?app_nil_r.
Qed.

(** ** What a resource without rejection reasons satisfies *)
Definition in_scope (p : ResolvedManifestProfile) (s : EvidenceSnapshot) (id : string) (r : ResourceEvidenceRecord) : Prop :=
  scope_reasons p s id r = [] /\ exists ref, resource_record_refs s r = [ref].

Lemma get_set_foldl_add d id reasons key :
  get_set (foldl (fun d reason => add_to d id reason) d reasons) key =
  (if decide (id = key) then list_to_set reasons else ∅) ∪ get_set d key.
Proof.
  revert d. induction reasons as [|r reasons IH]; intros d; cbn; [case_decide; set_solver|].
  rewrite IH, get_set_add_to. case_decide; set_solver.
Qed.

Lemma check_resources_in_scope p s items index index' :
  foldR (check_resource p s) index items = Ok index' ->
  ei_resources index' = ei_resources index /\
  forall id r, (id, r) ∈ items -> get_set (ei_rejection_reasons index') id = ∅ -> in_scope p s id r /\ is_Some (ei_resource_refs index' !! id).
Proof.
  intros Hf. enough (ei_resources index' = ei_resources index /\ forall id r, (id, r) ∈ items ->
    get_set (ei_rejection_reasons index') id = ∅ -> in_scope p s id r /\ is_Some (ei_resource_refs index' !! id)) by done.
  revert Hf. apply (foldR_prefix (fun passed ix => ei_resources ix = ei_resources index /\ forall id r, (id, r) ∈ passed ->
    get_set (ei_rejection_reasons ix) id = ∅ -> in_scope p s id r /\ is_Some (ei_resource_refs ix !! id))); [|set_solver].
  intros passed [id record] ix ix' [Hr Hp] _ (x & Hx & E)%bind_Ok. destruct x as [[refs reasons] conflicts]. injection E as <-. cbn.
  split; [done|]. intros id' r'. rewrite get_set_foldl_add, elem_of_app, list_elem_of_singleton.
  assert (Hm : (refs = ei_resource_refs ix \/ exists ref, refs = <[id:=ref]> (ei_resource_refs ix)) /\
    (forall k, get_set reasons k = ∅ -> get_set (ei_rejection_reasons ix) k = ∅) /\
    (get_set reasons id = ∅ -> is_Some (refs !! id) /\ exists ref, resource_record_refs s record = [ref])).
  { destruct (resource_record_refs s record) as [|ref [|]]; [apply bind_Ok in Hx as (c & _ & Hx)| |apply bind_Ok in Hx as (c & _ & Hx)].
    - injection Hx as <- <- <-. split_and!; [by left| |]; intros *; rewrite get_set_add_to; [case_decide; set_solver|].
      rewrite decide_True by done. set_solver.
    - injection Hx as <- <- <-. split_and!; [right; by eexists|done|]. intros _. rewrite lookup_insert_eq. split; [done|by eexists].
    - injection Hx as <- <- <-. split_and!; [by left| |]; intros *; rewrite get_set_add_to; [case_decide; set_solver|].
      rewrite decide_True by done. set_solver. }
  destruct Hm as (Hrefs & Hreasons & Hid). intros Hi Hset.
  assert (Hset' : get_set reasons id' = ∅) by set_solver. destruct Hi as [Hi|Hi].
  - destruct (Hp _ _ Hi (Hreasons _ Hset')) as [? Hs']. split; [done|]. destruct Hrefs as [->|[ref ->]]; [done|].
    rewrite lookup_insert. by case_decide.
  - injection Hi as -> ->. destruct (Hid Hset') as [? ?]. split; [|done]. split; [|done].
    rewrite decide_True in Hset by done. destruct (scope_reasons p s id record) as [|reason l]; [done|]. set_solver.
Qed.

Lemma index_relationships_keep s as_of records index index' : foldR (index_relationship s as_of) index records = Ok index' ->
  ei_resources index' = ei_resources index /\ ei_resource_refs index' = ei_resource_refs index /\
  ei_rejection_reasons index' = ei_rejection_reasons index /\ ei_conflicts index' = ei_conflicts index.
Proof.
  apply (foldR_invariant (fun ix => ei_resources ix = ei_resources index /\ ei_resource_refs ix = ei_resource_refs index /\
    ei_rejection_reasons ix = ei_rejection_reasons index /\ ei_conflicts ix = ei_conflicts index)); [|done].
  intros ix record ix' Hi. unfold index_relationship. destruct (relationship_record_refs s record) as [|ref [|]];
    [by intros [= <-]| |by intros [= <-]].
  case_match; [by intros [= <-]|]. unfold add_communications. intros Hs. inv_ok. by subst.
Qed.

(** The resources of an index *)
Lemma build_evidence_index_resources p s as_of index : build_evidence_index p s as_of = Ok index ->
  NoDup (fst <$> ei_resources index) /\
  forall id r, (id, r) ∈ ei_resources index ->
    ResourceRecord r ∈ es_evidence_records s /\ normalizes_to r id /\
    (forall r', ResourceRecord r' ∈ es_evidence_records s -> normalizes_to r' id -> r' = r) /\
    (get_set (ei_rejection_reasons index) id = ∅ -> in_scope p s id r /\ is_Some (ei_resource_refs index !! id)).
Proof.
  unfold build_evidence_index. intros (sorted & Hs & (gaps & _ & (ix & Hi & (ix2 & Hc & Hr)%bind_Ok)%bind_Ok)%bind_Ok)%bind_Ok.
  apply sort_records_groups in Hs as [Hn He]. apply index_resources_single in Hi; [|done].
  apply check_resources_in_scope in Hc as [Hc1 Hc2]. apply index_relationships_keep in Hr as (Hr1 & Hr2 & Hr3 & _).
  rewrite Hr1, Hr2, Hr3, Hc1. rewrite Hi in *. split; [by eapply sublist_NoDup, single_groups_keys|].
  intros id r Hx. pose proof (Hc2 id r Hx) as Hsc. apply elem_of_single_groups in Hx.
  pose proof (fun y => group_members_elem _ id [r] y Hn Hx) as Hg. split_and!; [| | |done].
  - apply (He id r), Hg. left.
  - apply (He id r), Hg. left.
  - intros r' Hr' Hid. apply list_elem_of_singleton, Hg, He. done.
Qed.

Lemma in_scope_spec p s id r : in_scope p s id r ->
  let tenant_id := sc_tenant_id (es_collector s) in
  resource_in_scopes id (rp_allowed_evidence_scopes p) tenant_id = true /\
  resource_in_scopes id (es_authorized_scopes s) tenant_id = true /\
  (exists environment, at_environment (re_tags r) = Some environment /\
     casefold environment = casefold (expected_environment (rp_profile_type p))) /\
  exists ref, resource_record_refs s r = [ref].
Proof.
  unfold in_scope, scope_reasons. intros [Hs Hr]. apply app_eq_nil in Hs as [H1 H2]. apply app_eq_nil in H2 as [H2 H3]. split_and!; [| | |done].
  - by destruct (resource_in_scopes id (rp_allowed_evidence_scopes p) _).
  - by destruct (resource_in_scopes id (es_authorized_scopes s) _).
  - destruct (at_environment (re_tags r)) as [e|]; [|done]. exists e. split; [done|].
    by destruct (String.eqb_spec (casefold e) (casefold (expected_environment (rp_profile_type p)))).
Qed.
End index_props.

(** * The preview of a cohort is exact, and small cohorts have one

    A preview resolves to exactly the cohort. The only cohort of at most 200
    members without one is the whole index when no candidate covers it. *)

(** ** Evaluations *)
Section evaluations.
Context `{PyText} `{Rfc8785} `{ModelDump ManifestSelector}.

Lemma unique_violations_nil v : unique_violations v = [] <-> v = [].
Proof.
  unfold unique_violations. split; [|by intros ->]. intros E. destruct v as [|x v]; [done|]. exfalso.
  apply (not_elem_of_nil x). rewrite <- E. apply elem_of_sort_by, list_elem_of_In.
  apply -> in_rev. apply list_elem_of_In, elem_of_remove_dups, list_elem_of_In. apply -> in_rev. by left.
Qed.

(** What an evaluation that succeeds reports *)
Lemma evaluate_selector_spec s resources e : evaluate_selector s resources = Ok e ->
  exists dict m v, resources_by_id resources = Ok dict /\ evaluate dict s = Ok (m, v) /\
    sv_matched_resource_ids e = sort_strings (elements m) /\ (sv_max_match_violations e = [] <-> v = []) /\
    (sv_status e = SelMatched <-> v = [] /\ m <> ∅).
Proof.
  unfold evaluate_selector. intros (dict & Hd & ([m v] & He & Hr)%bind_Ok)%bind_Ok. inv_ok. subst. cbn.
  exists dict, m, v. split_and!; [done..|apply unique_violations_nil|].
  pose proof (unique_violations_nil v) as Hv. destruct (unique_violations v) as [|viol l]; [|naive_solver].
  assert (Hm : sort_strings (elements m) = [] <-> m = ∅).
  { split; [|intros ->; by rewrite elements_empty]. intros E. apply elem_of_equiv_empty_L. intros y Hy.
    apply (not_elem_of_nil y). rewrite <- E. apply elem_of_sort_by. by apply elem_of_elements. }
  destruct (sort_strings (elements m)); naive_solver.
Qed.

(** The evaluation of the records of a dict is over that dict. *)
Lemma resources_by_id_values dict dict' : Forall (fun item => normalizes_to (snd item) (fst item)) dict ->
  resources_by_id (snd <$> dict) = Ok dict' -> dict' = dict.
Proof.
  unfold resources_by_id. enough (forall acc, Forall (fun item => normalizes_to (snd item) (fst item)) dict ->
    foldR add_resource acc (snd <$> dict) = Ok dict' -> dict' = acc ++ dict) as He by (by apply (He [])).
  induction dict as [|[id r] dict IH]; intros acc; cbn [fmap list_fmap foldR]; [intros _ E; injection E as <-; by rewrite app_nil_r|].
  intros [Hr Hf]%Forall_cons (acc' & Ha & Hd)%bind_Ok. apply IH in Hd; [|done]. unfold add_resource, normalizes_to in *. cbn in *.
  rewrite Hr in Ha. inv_ok. subst. by rewrite <- app_assoc.
Qed.
End evaluations.

Lemma with_identity_max id n s : atomic_max_matches (with_identity id n s) = n.
Proof. by destruct s. Qed.
Lemma with_identity_id id n s : atomic_selector_id (with_identity id n s) = id.
Proof. by destruct s. Qed.

Section clones.
Context `{PyText} `{Rfc8785}.

Lemma with_identity_match id n s x r : atomic_match (with_identity id n s) x r = atomic_match s x r.
Proof. by destruct s. Qed.

Lemma clone_atomic_value s id n s' : clone_atomic s id n = Ok s' -> s' = with_identity id n s.
Proof. unfold clone_atomic, construct_atomic. intros Hc. by inv_ok. Qed.

Lemma filterR_ext {A} (p q : A -> result bool) l : (forall x, p x = q x) -> filterR p l = filterR q l.
Proof. intros E. induction l as [|x l IH]; cbn; [done|]. by rewrite E, IH. Qed.

(** A clone matches what the candidate matches, within the bound it is given. *)
Lemma evaluate_clone dict s id n m v : evaluate_atomic dict s = Ok (m, v) -> Z.of_nat (size m) <= n ->
  evaluate_atomic dict (with_identity id n s) = Ok (m, []).
Proof.
  unfold evaluate_atomic, atomic_matches. intros He Hn.
  rewrite (filterR_ext _ (fun item => atomic_match s (fst item) (snd item))) by (intros; apply with_identity_match).
  destruct (filterR _ dict) as [matched|]; [|done]. cbn in *. injection He as <- <-. rewrite with_identity_max, with_identity_id.
  unfold max_violations. by rewrite (proj2 (Z.ltb_ge _ _) Hn).
Qed.

(** Every candidate has the total bound. *)
Definition bounded_by (n : Z) (l : list AtomicSelector) : Prop := Forall (fun s => atomic_max_matches s = n) l.

Lemma add_role_atoms_bounded members index atoms l l' : bounded_by (total_bound index) l ->
  foldR (add_role_atom members index) l atoms = Ok l' -> bounded_by (total_bound index) l'.
Proof.
  apply foldR_invariant. intros l1 atom l2 Hl Ha. unfold add_role_atom in Ha. inv_ok. case_match; inv_ok; [|by subst]. subst.
  apply Forall_app. split; [done|]. rename select (clone_atomic _ _ _ = _) into Hc. apply clone_atomic_value in Hc as ->.
  constructor; [apply with_identity_max|constructor].
Qed.

Lemma add_candidate_bounded n l candidate l' : bounded_by n l ->
  (forall f, candidate = Some f -> forall id, atomic_max_matches (f id) = n) -> add_candidate l candidate = Ok l' -> bounded_by n l'.
Proof.
  unfold add_candidate. intros Hl Hc. destruct candidate as [f|]; [|by intros [= <-]]. unfold construct_atomic. intros Ha. inv_ok. subst.
  apply Forall_app. split; [done|]. constructor; [by apply Hc|constructor].
Qed.

Lemma dedupe_subset l l' c : dedupe_candidates l = Ok l' -> c ∈ l' -> c ∈ l.
Proof.
  unfold dedupe_candidates. intros (keyed & Hk & E)%bind_Ok. injection E as <-. intros (item & -> & Hi)%list_elem_of_fmap.
  assert (Hs : item ∈ keyed).
  { revert Hi. enough (forall acc, item ∈ foldl (fun unique item => if bool_decide (fst item ∈ fst <$> unique) then unique else unique ++ [item]) acc keyed ->
      item ∈ acc \/ item ∈ keyed) as He by (intros Hi; destruct (He [] Hi); set_solver).
    clear. induction keyed as [|k keyed IH]; intros acc; cbn; [auto|]. intros [Hi|Hi]%IH; [|set_solver]. case_match; set_solver. }
  apply mapR_Ok in Hk. destruct (Forall2_elem_of_r _ _ _ _ Hk Hs) as (c & Hc & E). inv_ok. by subst.
Qed.

Lemma preview_candidates_bounded r p members index l : preview_candidates r p members index = Ok l ->
  bounded_by (total_bound index) l.
Proof.
  unfold preview_candidates. intros Hp. inv_ok. apply Forall_forall. intros c Hc. eapply dedupe_subset in Hc; [|done].
  revert c Hc. apply Forall_forall. repeat (eapply add_candidate_bounded; [| |eassumption]).
  - eapply add_role_atoms_bounded; [constructor|done].
  - unfold vmss_candidate. destruct x0; cbn; naive_solver.
  - unfold tag_candidate. case_match; naive_solver.
  - unfold type_candidate. repeat case_match; naive_solver.
  - unfold provenance_candidate. destruct (single _) as [[[] ]|]; cbn; naive_solver.
Qed.
End clones.

(** ** A cohort of an index *)
Section cohort.
Context `{PyText} `{!PyTextAscii} `{Rfc8785}.
Context (index : EvidenceIndex) (members : list string).

(** The ids of the index are those of its records, which are ASCII text. *)
Definition indexed : Prop :=
  NoDup (fst <$> ei_resources index) /\
  Forall (fun item => normalizes_to (snd item) (fst item) /\ all_chars is_ascii (re_resource_id (snd item)) = true)
    (ei_resources index).

(** The members are distinct ids of the index, in order. *)
Definition cohort : Prop :=
  members <> [] /\ NoDup members /\ sort_strings members = members /\ forall id, id ∈ members -> id ∈ fst <$> ei_resources index.

Hypothesis is_indexed : indexed.
Hypothesis is_cohort : cohort.

Let dict : resource_dict := ei_resources index.
Let keys : gset string := list_to_set (fst <$> dict).
Let member_set : gset string := list_to_set members.

Lemma evaluate_index s e : evaluate_selector s (ei_all_resources index) = Ok e ->
  exists m v, evaluate dict s = Ok (m, v) /\ sv_matched_resource_ids e = sort_strings (elements m) /\
    (sv_max_match_violations e = [] <-> v = []) /\ (sv_status e = SelMatched <-> v = [] /\ m <> ∅).
Proof.
  intros (d & m & v & Hd & He & Hm & Hv & Hs)%evaluate_selector_spec. apply resources_by_id_values in Hd as ->; [by exists m, v|].
  destruct is_indexed as [_ Hi]. eapply Forall_impl; [done|]. naive_solver.
Qed.

Lemma normalized_key id : id ∈ fst <$> dict -> normalized_id id = id.
Proof.
  intros (item & -> & Hi)%list_elem_of_fmap. destruct is_indexed as [_ Hf]. rewrite Forall_forall in Hf.
  destruct (Hf item Hi) as [->%normalize_resource_id_value Ha]. unfold normalized_id.
  rewrite (nfc_of_ascii (re_resource_id (snd item))), (casefold_of_ascii (re_resource_id (snd item))) by done.
  assert (all_chars is_ascii (map_string ascii_lower (re_resource_id (snd item))) = true) by
    (rewrite all_chars_lower; [done|apply ascii_lower_ascii]).
  rewrite nfc_of_ascii, casefold_of_ascii by done. apply map_string_lower_idem.
Qed.

Lemma atomic_matches_keys c m : atomic_matches c dict = Ok m -> m ⊆ keys.
Proof.
  intros Hm x (r & Hr & _)%(atomic_matches_selects _ _ _ _ Hm). apply elem_of_list_to_set. by apply (list_elem_of_fmap_2 fst _ (x, r)).
Qed.

Lemma member_keys : member_set ⊆ keys.
Proof.
  destruct is_cohort as (_ & _ & _ & Hk). intros id Hid%elem_of_list_to_set. by apply elem_of_list_to_set, Hk.
Qed.

Lemma size_members : Z.of_nat (size member_set) = Z.of_nat (length members).
Proof. destruct is_cohort as (_ & Hn & _). unfold member_set. by rewrite size_list_to_set. Qed.

(** A selector that evaluates to the cohort without violations passes the check. *)
Lemma check_preview_exact s preview : evaluate dict s = Ok (member_set, []) -> check_preview members index s = Ok preview ->
  exists q, preview = Some q /\ pv_selector q = s /\ pv_matched_resource_ids q = members.
Proof.
  intros He. unfold check_preview. intros (e & Hs & Hc)%bind_Ok. destruct (evaluate_index _ _ Hs) as (m & v & He' & Hm & _ & Hst).
  rewrite He in He'. injection He' as <- <-. destruct is_cohort as (Hne & Hn & Hso & _).
  assert (Hms : sort_strings (elements member_set) = members).
  { etrans; [|exact Hso]. apply sort_by_permutation; [done|]. unfold member_set. by rewrite elements_list_to_set. }
  rewrite Hms in Hm. assert (Hmatched : sv_status e = SelMatched).
  { apply Hst. split; [done|]. intros E. destruct members as [|x l]; [done|]. apply (not_elem_of_empty (C := gset string) x).
    rewrite <- E. apply elem_of_list_to_set. left. }
  rewrite Hmatched, Hm, !bool_decide_true in Hc by done. cbn in Hc. apply bind_Ok in Hc as (q & Hq & E). injection E as <-.
  unfold construct_preview in Hq. inv_ok. subst q. by eexists.
Qed.

(** The list of the members matches exactly the members. *)
Lemma members_list_exact id n : Z.of_nat (length members) <= n ->
  evaluate dict (Atomic (ResourceIdListSelector id members n)) = Ok (member_set, []).
Proof.
  intros Hn. assert (Hm : atomic_matches (ResourceIdListSelector id members n) dict = Ok member_set).
  { destruct (atomic_matches (ResourceIdListSelector id members n) dict) as [m|err] eqn:E.
    - f_equal. apply leibniz_equiv. intros x. rewrite (atomic_matches_selects _ _ _ _ E). unfold member_set. rewrite elem_of_list_to_set.
      destruct is_cohort as (_ & _ & _ & Hk). split.
      + intros (r & Hr & Hx). cbn in Hx. injection Hx as (y & Hy & Ey)%bool_decide_eq_true%elem_of_normalized_set.
        rewrite (normalized_key y) in Ey by auto. by subst.
      + intros Hx. destruct (proj1 (list_elem_of_fmap _ _ _) (Hk _ Hx)) as ([x' r] & -> & Hr). exists r. split; [done|]. cbn. f_equal.
        apply bool_decide_eq_true, elem_of_normalized_set. exists x'. split; [done|]. symmetry. apply normalized_key. by apply Hk.
    - exfalso. revert E. unfold atomic_matches. clear.
      enough (exists l, filterR (fun item => atomic_match (ResourceIdListSelector id members n) (fst item) (snd item)) dict = Ok l) as [l ->] by done.
      induction dict as [|item d IH]; [by exists []|]. cbn in *. destruct IH as [l ->]. by eexists. }
  cbn. unfold evaluate_atomic. rewrite Hm. cbn. unfold max_violations.
  by rewrite (proj2 (Z.ltb_ge _ _)) by (rewrite size_members; done).
Qed.

(** ** The candidates that cover the cohort *)
Definition covers (c : AtomicSelector) (m : gset string) : Prop := evaluate_atomic dict c = Ok (m, []) /\ member_set ⊆ m.

Lemma covers_keys c m : covers c m -> m ⊆ keys.
Proof. intros [He _]. unfold evaluate_atomic in He. inv_ok. simplify_eq. by eapply atomic_matches_keys. Qed.

Lemma covers_size c m : covers c m -> Z.of_nat (size m) <= atomic_max_matches c.
Proof.
  intros [He _]. unfold evaluate_atomic, max_violations in He. inv_ok. simplify_eq.
  destruct (Z.ltb_spec (atomic_max_matches c) (Z.of_nat (size m))); [done|lia].
Qed.

Lemma subset_of_spec (l : list string) m : subset_of l (sort_strings (elements m)) = true <-> (list_to_set l : gset string) ⊆ m.
Proof.
  unfold subset_of. rewrite forallb_elem. setoid_rewrite bool_decide_eq_true. unfold sort_strings. setoid_rewrite elem_of_sort_by. setoid_rewrite elem_of_elements.
  split; [intros Hl x Hx%elem_of_list_to_set; by apply Hl|intros Hl x Hx; by apply Hl, elem_of_list_to_set].
Qed.

Lemma cover_members_covers candidates evaluated : foldR (cover_members members index) [] candidates = Ok evaluated ->
  Forall (fun item => fst item ∈ candidates /\ covers (fst item) (snd item)) evaluated /\
  forall c m, c ∈ candidates -> covers c m -> c ∈ fst <$> evaluated.
Proof.
  apply (foldR_prefix (fun passed evaluated => Forall (fun item => fst item ∈ passed /\ covers (fst item) (snd item)) evaluated /\
    forall c m, c ∈ passed -> covers c m -> c ∈ fst <$> evaluated)); [|by split; [constructor|set_solver]].
  intros passed c ev ev' [Hf Hc] _ (e & He & E)%bind_Ok. injection E as <-.
  destruct (evaluate_index _ _ He) as (m & v & Hev & Hm & Hv & _). cbn [evaluate] in Hev.
  assert (Hf' : Forall (fun item => fst item ∈ passed ++ [c] /\ covers (fst item) (snd item)) ev).
  { eapply Forall_impl; [done|]. intros item [? ?]. split; [set_solver|done]. }
  rewrite Hm. destruct (bool_decide (sv_max_match_violations e = []) && subset_of members (sort_strings (elements m))) eqn:Hb.
  - apply andb_true_iff in Hb as [->%bool_decide_eq_true%Hv Hsub%subset_of_spec]. split.
    + apply Forall_app. split; [done|]. constructor; [|constructor]. cbn. split; [set_solver|].
      assert (list_to_set (sort_strings (elements m)) = m) as ->; [|by split].
      apply leibniz_equiv. intros x. unfold sort_strings. rewrite elem_of_list_to_set, elem_of_sort_by. apply elem_of_elements.
    + intros c' m' Hc' Hcov. rewrite fmap_app, elem_of_app. apply elem_of_app in Hc' as [Hc'| ->%list_elem_of_singleton]; [left; by eapply Hc|].
      right. left.
  - split; [done|]. intros c' m' [Hc'| ->%list_elem_of_singleton]%elem_of_app [Hcov Hsub]; [by eapply Hc|]. exfalso.
    rewrite Hev in Hcov. injection Hcov as -> ->. rewrite (bool_decide_eq_true_2 _ (proj2 Hv eq_refl)) in Hb. cbn in Hb.
    by rewrite (proj2 (subset_of_spec _ _) Hsub) in Hb.
Qed.

Lemma sort_evaluated_perm l l' : sort_evaluated l = Ok l' -> l' ≡ₚ l.
Proof.
  unfold sort_evaluated. intros (keyed & Hk & E)%bind_Ok. injection E as <-. rewrite sort_by_perm. apply mapR_Ok in Hk.
  assert (snd <$> keyed = l) as ->; [|done]. induction Hk as [|item k l keyed Hi _ IH]; [done|]. inv_ok. subst. cbn. by f_equal.
Qed.

(** ** Narrowing to the cohort *)

(** A covering candidate has the total bound. *)
Definition fits (c : AtomicSelector) (m : gset string) : Prop := covers c m /\ atomic_max_matches c = total_bound index.

(** The chosen candidates fit and leave [intersection]. *)
Definition leaves (chosen : list AtomicSelector) (intersection : gset string) : Prop :=
  exists sets, Forall2 fits chosen sets /\ intersection = foldl (∩) keys sets.

Lemma narrow_leaves evaluated chosen intersection chosen' intersection' :
  Forall (fun item => fits (fst item) (snd item)) evaluated -> leaves chosen intersection -> (length chosen < 10)%nat ->
  narrow member_set chosen intersection evaluated = (chosen', intersection') ->
  leaves chosen' intersection' /\ (length chosen' <= 10)%nat.
Proof.
  revert chosen intersection. induction evaluated as [|[c m] evaluated IH]; intros chosen intersection; cbn [narrow].
  { intros _ Hl Hlen [= <- <-]. split; [done|lia]. }
  intros [Hc Hf]%Forall_cons Hl Hlen. case_bool_decide; [by apply IH|].
  assert (Hl' : leaves (chosen ++ [c]) (intersection ∩ m)).
  { destruct Hl as (sets & Hs & ->). exists (sets ++ [m]). split; [|by rewrite foldl_app].
    apply Forall2_app; [done|]. constructor; [done|constructor]. }
  destruct (bool_decide _ || _) eqn:Hb.
  - intros [= <- <-]. split; [done|rewrite length_app; cbn; lia].
  - apply orb_false_iff in Hb as [_ Hb%Nat.eqb_neq]. apply IH; [done..|]. rewrite length_app in *. cbn in *. lia.
Qed.

Lemma choose_leaves evaluated chosen intersection :
  Forall (fun item => fits (fst item) (snd item)) evaluated ->
  choose_candidates member_set keys evaluated = (chosen, intersection) ->
  leaves chosen intersection /\ (length chosen <= 10)%nat /\ (intersection = member_set -> chosen = [] -> evaluated = [] /\ keys = member_set).
Proof.
  intros Hf. unfold choose_candidates. case_bool_decide as Hk.
  - destruct evaluated as [|[c m] evaluated].
    + cbn. intros [= <- <-]. split_and!; [by exists []|cbn; lia|done].
    + intros [= <- <-]. apply Forall_cons in Hf as [Hc _]. split_and!; [|cbn; lia|done]. exists [m]. split; [constructor; [done|constructor]|].
      cbn. pose proof member_keys as Hm. destruct Hc as [Hc _]. pose proof (covers_keys _ _ Hc). destruct Hc as [_ Hc]. cbn in Hc. set_solver.
  - intros Hn. apply narrow_leaves in Hn as (Hl & Hlen); [|done|by exists []|cbn; lia]. split_and!; [done..|].
    intros -> ->. destruct Hl as (sets & Hs & Hi). inversion Hs. subst. done.
Qed.

(** The clones of the chosen candidates select the same resources. *)
Lemma clone_children_exact chosen sets children k : Forall2 fits chosen sets ->
  mapR (clone_child index) (imap (fun i c => (i + k, c)%nat) chosen) = Ok children ->
  mapR (evaluate_atomic dict) children = Ok ((fun m => (m, [])) <$> sets).
Proof.
  intros Hs. revert children k. induction Hs as [|c m chosen sets Hc _ IH]; intros children k; [by intros [= <-]|].
  destruct Hc as [Hc Hbc]. cbn. intros (s & Hs & (rest & Hr & E)%bind_Ok)%bind_Ok. injection E as <-.
  unfold clone_child in Hs. apply clone_atomic_value in Hs as ->. cbn.
  rewrite (evaluate_clone _ _ _ (total_bound index) m []); [cbn|apply Hc|rewrite <- Hbc; by eapply covers_size].
  rewrite (IH rest (S k)); [done|]. rewrite <- Hr. f_equal. apply imap_ext. intros i ? _. cbn. f_equal. lia.
Qed.

(** A selector built from an exact choice evaluates to the cohort. *)
Lemma exact_choice chosen selector : leaves chosen member_set -> chosen <> [] -> (length chosen <= 10)%nat ->
  preview_selector members index chosen true = Ok selector ->
  exists s, selector = Some s /\ evaluate dict s = Ok (member_set, []).
Proof.
  intros (sets & Hs & Hm) Hne Hlen. unfold preview_selector. cbn [negb andb].
  destruct Hs as [|c m [|c' chosen'] sets [Hc Hbc] Hs]; [done| |].
  - inversion Hs. subst. cbn in Hm. intros (s1 & ->%clone_atomic_value & E)%bind_Ok. injection E as <-. eexists. split; [done|]. cbn.
    assert (m = member_set) as -> by (pose proof (covers_keys _ _ Hc); set_solver).
    apply (evaluate_clone _ _ _ _ _ []); [apply Hc|]. by rewrite size_members.
  - rewrite (proj2 (Nat.leb_le _ _) Hlen). intros (children & Hch & (s1 & Hco & E)%bind_Ok)%bind_Ok. injection E as <-.
    eexists. split; [done|]. unfold construct_composite in Hco. inv_ok. subst s1. cbn [evaluate].
    rewrite (clone_children_exact (c :: c' :: chosen') (m :: sets) children 0); [|by constructor|].
    2: { rewrite <- Hch. f_equal. apply imap_ext. intros i ? _. cbn. f_equal. lia. }
    assert (Hfst : fst <$> ((fun m => (m, @nil string)) <$> m :: sets) = m :: sets) by (clear; by induction (m :: sets); cbn; f_equal).
    assert (Hsnd : concat (snd <$> ((fun m => (m, @nil string)) <$> m :: sets)) = []) by (clear; by induction (m :: sets)).
    cbn [mbind result_bind]. rewrite Hfst, Hsnd. cbn [intersection_of app].
    assert (foldl (∩) m sets = member_set) as ->.
    { apply leibniz_equiv. intros id. rewrite Hm. cbn. rewrite !elem_of_foldl_intersection. pose proof (covers_keys _ _ Hc). set_solver. }
    unfold max_violations. by rewrite (proj2 (Z.ltb_ge _ _)) by (rewrite size_members; lia).
Qed.

(** A small cohort has an exact preview, unless it is the whole index and no
    candidate covers it. *)
Lemma preview_exact_or_uncovered r p preview : (length members <= 200)%nat -> build_selector_preview r p members index = Ok preview ->
  (exists q, preview = Some q /\ evaluate dict (pv_selector q) = Ok (member_set, []) /\ pv_matched_resource_ids q = members) \/
  (keys = member_set /\ exists candidates, preview_candidates r p members index = Ok candidates /\
     forall c m, c ∈ candidates -> ~ covers c m).
Proof.
  intros Hlen. unfold build_selector_preview. destruct is_cohort as (Hne & _).
  rewrite bool_decide_false, (proj2 (Z.ltb_ge 1000 _)) by (done || lia). cbn [orb].
  intros (candidates & Hcand & (evaluated & Hev & (sorted & Hsort & (all_ids & Hids & Hb)%bind_Ok)%bind_Ok)%bind_Ok)%bind_Ok.
  assert (Hkeys : list_to_set all_ids = keys).
  { assert (all_ids = fst <$> dict) as ->; [|done]. apply mapR_Ok in Hids. destruct is_indexed as [_ Hf]. unfold ei_all_resources in Hids.
    fold dict in Hf, Hids. clear -Hf Hids. revert all_ids Hids. induction dict as [|[id x] d IH]; intros ids Hids; inversion Hids; [done|].
    apply Forall_cons in Hf as [[Hn _] Hf]. unfold normalizes_to in Hn. cbn in *. subst. f_equal; [congruence|by apply IH]. }
  rewrite Hkeys in Hb. apply cover_members_covers in Hev as [Hcov Hall]. apply sort_evaluated_perm in Hsort.
  destruct (choose_candidates _ _ _) as [chosen intersection] eqn:Hch.
  pose proof (preview_candidates_bounded _ _ _ _ _ Hcand) as Hbound. unfold bounded_by in Hbound. rewrite Forall_forall in Hbound.
  apply choose_leaves in Hch as (Hl & Hten & Hnil).
  2: { rewrite Hsort. eapply Forall_impl; [done|]. intros item [Hi Hc]. split; [done|by apply Hbound]. }
  apply bind_Ok in Hb as (selector & Hs & Hb). destruct (decide (intersection = member_set)) as [Hexact|Hexact].
  - rewrite (bool_decide_eq_true_2 _ Hexact) in Hs. subst intersection. destruct chosen as [|c chosen].
    + right. destruct (Hnil eq_refl eq_refl) as [-> Hk]. split; [done|]. exists candidates. split; [done|]. intros c m Hc Hcm.
      apply Permutation_nil_l in Hsort. subst evaluated. by apply (Hall c m), elem_of_nil in Hc.
    + left. destruct (exact_choice _ _ Hl ltac:(done) Hten Hs) as (s & -> & He).
      destruct (check_preview_exact _ _ He Hb) as (q & -> & <- & Hq). by exists q.
  - rewrite (bool_decide_eq_false_2 _ Hexact) in Hs. unfold preview_selector in Hs. cbn [negb andb] in Hs.
    rewrite (proj2 (Z.leb_le _ _)) in Hs by lia. apply bind_Ok in Hs as (s & Hs & E). injection E as <-.
    unfold construct_atomic in Hs. inv_ok. subst s. left.
    destruct (check_preview_exact _ _ (members_list_exact _ _ (Z.le_refl _)) Hb) as (q & -> & Hq & Hm).
    exists q. split_and!; [done| |done]. rewrite Hq. by apply members_list_exact.
Qed.
End cohort.

(** ** Indexes of constructed snapshots *)
Lemma all_chars_join p sep l : all_chars p sep = true -> Forall (fun s => all_chars p s = true) l -> all_chars p (join sep l) = true.
Proof.
  intros Hsep. induction 1 as [|s l Hs Hl IH]; [done|]. destruct l as [|t l]; [done|].
  rewrite join_cons, !all_chars_app, Hs, Hsep. apply IH.
Qed.

Lemma path_name_ascii s : is_path_name s = true -> all_chars is_ascii s = true.
Proof.
  unfold is_path_name. intros [_ Hs]%andb_true_iff. eapply all_chars_impl; [|done]. intros c. unfold is_path_char.
  destruct c as [[] [] [] [] [] [] [] []]; done.
Qed.

Lemma type_name_pairs_ascii parts : type_name_pairs parts = true -> Forall (fun s => all_chars is_ascii s = true) parts.
Proof.
  enough (forall n parts, (length parts <= n)%nat -> type_name_pairs parts = true -> Forall (fun s => all_chars is_ascii s = true) parts)
    by (by eapply (H (length parts))).
  clear parts. induction n as [|n IH]; intros [|a [|b [|c parts]]]; cbn; try done; try lia.
  - intros _ [Ha Hb]%andb_true_iff. repeat constructor; by apply path_name_ascii.
  - intros Hlen [[Ha Hb]%andb_true_iff Hc]%andb_true_iff. do 2 (constructor; [by apply path_name_ascii|]). apply IH; [cbn; lia|done].
Qed.

Lemma provider_pattern_ascii parts : provider_pattern parts = true -> Forall (fun s => all_chars is_ascii s = true) parts.
Proof.
  destruct parts as [|providers [|namespace path]]; try done. cbn. intros Hp. repeat apply andb_true_iff in Hp as [Hp ?].
  apply String.eqb_eq in Hp as ->. constructor; [done|]. constructor; [|by apply type_name_pairs_ascii].
  eapply all_chars_impl; [|done]. intros c. destruct c as [[] [] [] [] [] [] [] []]; done.
Qed.

Lemma azure_identifier_ascii value : azure_resource_identifier value = true -> all_chars is_ascii value = true.
Proof.
  unfold azure_resource_identifier. intros Hv. rewrite <- (join_split_on slash value). apply all_chars_join; [done|].
  destruct (split_on slash value) as [|root [|subs [|guid rest]]]; try done. repeat apply andb_true_iff in Hv as [Hv ?].
  apply String.eqb_eq in Hv as ->. rename select ((_ =? _)%string = true) into Hsubs. apply String.eqb_eq in Hsubs as ->.
  do 2 (constructor; [done|]). constructor.
  { eapply all_chars_impl; [|eassumption]. intros c. destruct c as [[] [] [] [] [] [] [] []]; done. }
  rename select (_ || _ = true) into Hr. apply orb_true_iff in Hr as [Hr|Hr]; [by apply provider_pattern_ascii|].
  destruct rest as [|groups [|group rest]]; try done. repeat apply andb_true_iff in Hr as [Hr ?]. apply String.eqb_eq in Hr as ->.
  constructor; [done|]. constructor; [|by apply provider_pattern_ascii].
  apply path_name_ascii. rename select (is_group_name _ = true) into Hg. unfold is_group_name in Hg. by apply andb_true_iff in Hg as [[Hg _]%andb_true_iff _].
Qed.

Lemma built_index_indexed `{PyText} `{Rfc8785} p s as_of us index : mapR validate_evidence_record (es_evidence_records s) = Ok us ->
  build_evidence_index p s as_of = Ok index -> indexed index.
Proof.
  intros Hv (Hn & Hr)%build_evidence_index_resources. split; [done|]. apply Forall_forall. intros [id r] Hi.
  destruct (Hr id r Hi) as (Hrec & Hid & _). split; [done|]. cbn.
  pose proof (mapR_unit_elem _ _ _ _ Hv Hrec) as Hval. unfold validate_evidence_record in Hval. inv_ok.
  cbn [validate_record_fields] in *. inv_ok. rename select (validate_resource_id_field _ = _) into Hf. unfold validate_resource_id_field in Hf.
  inv_ok. by apply azure_identifier_ascii.
Qed.
