(* ===== verification/ProposeProps.v ===== *)
(** * ProposeProps: which resources the engine proposes

    The proposals of a batch partition the eligible resources: those with exclusive
    role evidence, no rejection reason, and a role within its bounds. *)
From S2P Require Import Prelude Text Time Json.
From S2P Require Export Propose PreviewProps.
Local Open Scope Z_scope.

Section groups.
Context `{PyText}.

Lemma anchored_groups_elem anchored x : Forall (fun item => present (snd item) = true) anchored ->
  x ∈ concat (snd <$> anchored_groups anchored) <-> x ∈ fst <$> anchored.
Proof.
  unfold anchored_groups. enough (forall groups, Forall (fun item => present (snd item) = true) anchored ->
    x ∈ concat (snd <$> foldl (fun groups item => match snd item with Some anchor => group_append groups anchor (fst item) | None => groups end)
                          groups anchored) <-> x ∈ concat (snd <$> groups) \/ x ∈ fst <$> anchored) as He.
  { intros Ha. rewrite He by done. cbn. set_solver. }
  induction anchored as [|[id [a|]] anchored IH]; intros groups; cbn; [set_solver| |by intros [? _]%Forall_cons].
  intros [_ Ha]%Forall_cons. rewrite IH by done. rewrite group_append_elem. set_solver.
Qed.

(** The groups of the candidates cover exactly the candidates. *)
Lemma candidate_groups_elem candidates groups x : candidate_groups candidates = Ok groups ->
  x ∈ concat (snd <$> groups) <-> x ∈ candidates.
Proof.
  unfold candidate_groups. destruct candidates as [|c cs]; [intros [= <-]; by cbn|]. remember (c :: cs) as candidates.
  intros (anchored & Ha & Hg)%bind_Ok. injection Hg as <-.
  assert (Hf : fst <$> anchored = candidates).
  { clear Heqcandidates. revert anchored Ha. induction candidates as [|y ys IH]; intros anchored; cbn [mapR]; intros Ha; inv_ok; subst; [done|].
    cbn. f_equal. by apply IH. }
  destruct (forallb _ anchored) eqn:Hall.
  - rewrite <- Hf, <- anchored_groups_elem by (apply Forall_forall; intros y Hy; by apply (proj1 (forallb_elem _ anchored) Hall)).
    transitivity (x ∈ concat ((fun group => sort_strings (snd group)) <$> sort_by fst (anchored_groups anchored))).
    { by rewrite <- list_fmap_compose. }
    rewrite !list_elem_of_In, !in_concat. setoid_rewrite <- list_elem_of_In. split.
    + intros (l & (g & -> & Hg)%list_elem_of_fmap & Hx). apply elem_of_sort_by in Hx, Hg. exists (snd g). split; [by apply list_elem_of_fmap_2|done].
    + intros (l & (g & -> & Hg)%list_elem_of_fmap & Hx). exists (sort_strings (snd g)). split; [|by apply elem_of_sort_by].
      apply list_elem_of_fmap. exists g. split; [done|by apply elem_of_sort_by].
  - cbn. rewrite app_nil_r. apply elem_of_sort_by.
Qed.
End groups.

Section decisions.
Context `{PyText} `{Rfc8785}.
Context (index : EvidenceIndex) (roles : list ManifestRole).

(** A selector of the role matches the resource. *)
Definition supported_by_selector (r : ManifestRole) (resource_id : string) : Prop :=
  exists s e, s ∈ mr_selectors r /\ evaluate_selector s (ei_all_resources index) = Ok e /\ resource_id ∈ sv_matched_resource_ids e.

(** The resource carries the tag of the role. *)
Definition supported_by_tag (r : ManifestRole) (record : ResourceEvidenceRecord) : Prop :=
  exists tag, expected_workload_role r = Ok tag /\ at_workload_role (re_tags record) = Some tag.

(** A selector of the role exceeds its bound. *)
Definition exceeds_bound (r : ManifestRole) : Prop :=
  exists s e, s ∈ mr_selectors r /\ evaluate_selector s (ei_all_resources index) = Ok e /\ sv_max_match_violations e <> [].

(** The two kinds of role evidence, each that exists, point at the role. *)
Definition possible_for (r : ManifestRole) (resource_id : string) (record : ResourceEvidenceRecord) : Prop :=
  (supported_by_selector r resource_id \/ forall q, q ∈ roles -> ~ supported_by_selector q resource_id) /\
  (supported_by_tag r record \/ forall q, q ∈ roles -> ~ supported_by_tag q record) /\
  (supported_by_selector r resource_id \/ supported_by_tag r record).

(** The resource may join a cohort of the role, and of no other. *)
Definition eligible (r : ManifestRole) (resource_id : string) : Prop :=
  exists record, (resource_id, record) ∈ ei_resources index /\ get_set (ei_rejection_reasons index) resource_id = ∅ /\
    possible_for r resource_id record /\ (forall q, q ∈ roles -> possible_for q resource_id record -> q = r) /\
    ~ exceeds_bound r.

Lemma unique_key r q : NoDup (role_key <$> roles) -> r ∈ roles -> q ∈ roles -> role_key r = role_key q -> r = q.
Proof. intros Hn. by apply NoDup_fmap_inj_on. Qed.

(** ** The scan of the roles *)
Definition scanned_roles (passed : list ManifestRole) (scan : RoleScan) : Prop :=
  (forall k id, k ∈ get_set (ro_roles_by_resource scan) id <-> exists r, r ∈ passed /\ role_key r = k /\ supported_by_selector r id) /\
  (forall k, is_over_max scan k = true <-> exists r, r ∈ passed /\ role_key r = k /\ exceeds_bound r) /\
  (forall r, r ∈ passed -> exists results, mapR (fun s => evaluate_selector s (ei_all_resources index)) (mr_selectors r) = Ok results /\
     (NoDup (role_key <$> passed) -> ro_selector_results scan !! role_key r = Some results)).

Lemma elem_of_results {B} (g : SelectorEvaluation -> list B) r results x :
  mapR (fun s => evaluate_selector s (ei_all_resources index)) (mr_selectors r) = Ok results ->
  x ∈ concat (g <$> results) <->
  exists s e, s ∈ mr_selectors r /\ evaluate_selector s (ei_all_resources index) = Ok e /\ x ∈ g e.
Proof.
  intros Hm%mapR_Ok. rewrite list_elem_of_In, in_concat. setoid_rewrite <- list_elem_of_In. split.
  - intros (l & (e & -> & He)%list_elem_of_fmap & Hx). destruct (Forall2_elem_of_r _ _ _ _ Hm He) as (s & ? & ?). eauto 6.
  - intros (s & e & Hs & He & Hx). exists (g e). split; [|done]. apply list_elem_of_fmap_2.
    destruct (list_elem_of_lookup_1 _ _ Hs) as [i Hi]. destruct (Forall2_lookup_l _ _ _ _ _ Hm Hi) as (e' & He' & E).
    rewrite He in E. injection E as <-. by eapply list_elem_of_lookup_2.
Qed.

Lemma sorted_set_empty l : sorted_set l = [] <-> l = [].
Proof.
  unfold sorted_set. split; [|by intros ->]. intros E. destruct l as [|x l]; [done|]. exfalso.
  apply (not_elem_of_nil x). rewrite <- E. apply elem_of_sort_by. rewrite elem_of_elements, elem_of_list_to_set. left.
Qed.

Lemma concat_not_nil {B} (l : list (list B)) : concat l <> [] <-> exists k, k ∈ l /\ k <> [].
Proof.
  induction l as [|k l IH]; cbn; [set_solver|]. destruct k as [|y k]; cbn.
  - rewrite IH. split; intros (j & Hj & ?); exists j; set_solver.
  - split; [intros _; exists (y :: k); split; [left|done]|done].
Qed.

Lemma scan_role_scanned passed scan r scan' : scanned_roles passed scan -> scan_role index scan r = Ok scan' ->
  scanned_roles (passed ++ [r]) scan'.
Proof.
  intros (Hs & Ho & Hr) (results & Hm & E)%bind_Ok. injection E as <-. split_and!; cbn.
  - intros k id. rewrite elem_of_foldl_add_to, (Hs k id), (elem_of_results _ r) by done.
    fold (supported_by_selector r id). setoid_rewrite elem_of_app. setoid_rewrite list_elem_of_singleton. split.
    + intros [(q & ? & ? & ?)|[? ->]]; [exists q|exists r]; auto.
    + intros (q & [Hq| ->] & <- & ?); [left; by exists q|by right].
  - intros k. assert (Hv : sorted_set (concat (sv_max_match_violations <$> results)) <> [] <-> exceeds_bound r).
    { rewrite sorted_set_empty, concat_not_nil. setoid_rewrite list_elem_of_fmap. apply mapR_Ok in Hm as Hf. split.
      - intros (l & (e & -> & He) & Hl). destruct (Forall2_elem_of_r _ _ _ _ Hf He) as (s & ? & ?). by exists s, e.
      - intros (s & e & Hi & He & Hl). exists (sv_max_match_violations e). split; [|done]. exists e. split; [done|].
        destruct (list_elem_of_lookup_1 _ _ Hi) as [i Hl']. destruct (Forall2_lookup_l _ _ _ _ _ Hf Hl') as (e' & He' & E).
        rewrite He in E. injection E as <-. by eapply list_elem_of_lookup_2. }
    setoid_rewrite elem_of_app. setoid_rewrite list_elem_of_singleton. specialize (Ho k). unfold is_over_max in *. cbn.
    destruct (decide (sorted_set (concat (sv_max_match_violations <$> results)) = [])) as [Hb|Hb];
      [rewrite (bool_decide_eq_true_2 _ Hb)|rewrite (bool_decide_eq_false_2 _ Hb)].
    + rewrite Ho. split; [intros (q & ? & ? & ?); exists q; auto|]. intros (q & [Hq| ->] & Hk & Hx); [by exists q|]. by apply Hv in Hx.
    + apply Hv in Hb. rewrite bool_decide_eq_true, lookup_insert in *. case_decide; subst.
      * split; [|by eexists]. intros _. exists r. auto.
      * rewrite Ho. split; [intros (q & ? & ? & ?); exists q; auto|]. intros (q & [Hq| ->] & ? & ?); [by exists q|done].
  - intros q [Hq| ->%list_elem_of_singleton]%elem_of_app.
    + destruct (Hr q Hq) as (res & ? & Hl). exists res. split; [done|]. rewrite fmap_app. intros (Hn & Hd & _)%NoDup_app.
      rewrite lookup_insert_ne; [by apply Hl|]. intros E. apply (Hd (role_key q)); [by apply list_elem_of_fmap_2|]. rewrite <- E. left.
    + exists results. split; [done|]. intros _. by rewrite lookup_insert_eq.
Qed.

Lemma scan_roles_scanned scan : scan_roles index roles = Ok scan -> scanned_roles roles scan.
Proof.
  apply foldR_prefix; [by intros; eapply scan_role_scanned|]. split_and!.
  - intros key id. unfold get_set. cbn. rewrite lookup_empty. set_solver.
  - intros key. unfold is_over_max. cbn. rewrite bool_decide_eq_true, lookup_empty. split; [by intros []|set_solver].
  - set_solver.
Qed.

(** ** The decision for one resource *)
Lemma possible_roles_elem S T k : (k ∈ S \/ S = ∅) /\ (k ∈ T \/ T = ∅) /\ (k ∈ S \/ k ∈ T) <->
  exists possible, possible_roles S T = Some possible /\ k ∈ possible.
Proof.
  unfold possible_roles. destruct (decide (S = ∅)) as [HS|HS]; [rewrite (bool_decide_eq_true_2 _ HS)|rewrite (bool_decide_eq_false_2 _ HS)].
  { subst. split; [intros (_ & _ & [?|?]); [set_solver|by exists T]|intros (? & [= <-] & ?); auto]. }
  destruct (decide (T = ∅)) as [HT|HT]; [rewrite (bool_decide_eq_true_2 _ HT)|rewrite (bool_decide_eq_false_2 _ HT)].
  { subst. split; [intros (_ & _ & [?|?]); [by exists S|set_solver]|intros (? & [= <-] & ?); auto]. }
  case_bool_decide as HI.
  - split; [intros ([?|?] & [?|?] & _); set_solver|intros (? & ? & _); done].
  - split; [intros ([?|?] & [?|?] & _); [exists (S ∩ T); set_solver|done..]|intros (? & [= <-] & ?); set_solver].
Qed.

Lemma decide_role_candidate S T over rejected key : decide_role S T over rejected = CandidateFor key <->
  over key = false /\ rejected = false /\ forall k, (k ∈ S \/ S = ∅) /\ (k ∈ T \/ T = ∅) /\ (k ∈ S \/ k ∈ T) <-> k = key.
Proof.
  setoid_rewrite possible_roles_elem. unfold decide_role. destruct (possible_roles S T) as [P|].
  2: { split; [done|]. intros (_ & _ & He). by destruct (proj2 (He key) eq_refl) as (? & ? & ?). }
  assert (Hk : forall k, (exists possible, Some P = Some possible /\ k ∈ possible) <-> k ∈ elements P).
  { intros k. rewrite elem_of_elements. naive_solver. }
  setoid_rewrite Hk. destruct (elements P) as [|k [|k' ks]] eqn:E.
  - split; [done|]. intros (_ & _ & He). exfalso. by apply (not_elem_of_nil key), He.
  - setoid_rewrite list_elem_of_singleton. destruct (over k) eqn:Ho.
    { split; [done|]. intros (Ho' & _ & He). assert (k = key) as <- by by apply He. congruence. }
    destruct rejected; [split; [done|naive_solver]|]. split.
    + intros [= <-]. done.
    + intros (_ & _ & He). f_equal. by apply He.
  - split; [done|]. intros (_ & _ & He). exfalso. assert (Hn : NoDup (k :: k' :: ks)) by (rewrite <- E; apply NoDup_elements).
    assert (k = k') as ->; [|inversion Hn; set_solver].
    transitivity key; [apply He; left|symmetry; apply He; right; left].
Qed.

Lemma elem_of_tagged_roles record tagged k : tagged_roles roles record = Ok tagged ->
  k ∈ tagged <-> exists r, r ∈ roles /\ role_key r = k /\ supported_by_tag r record.
Proof.
  unfold tagged_roles. intros (l & Hl & E)%bind_Ok. injection E as <-. rewrite elem_of_list_to_set, list_elem_of_fmap.
  setoid_rewrite (elem_of_filterR _ _ _ _ Hl). unfold supported_by_tag. split.
  - intros (r & -> & Hr & (tag & Ht & Hb)%bind_Ok). injection Hb as Hb. apply bool_decide_eq_true in Hb. eauto 6.
  - intros (r & Hr & <- & tag & Ht & Hb). exists r. split_and!; [done..|]. rewrite Ht. cbn. by rewrite Hb, bool_decide_true.
Qed.

(** ** Candidates are the eligible resources *)
Context (scan : RoleScan) (d : Decisions).
Hypothesis keys_unique : NoDup (role_key <$> roles).
Hypothesis scan_ok : scan_roles index roles = Ok scan.
Hypothesis decided : decide_resources index roles scan = Ok d.

Definition decision_of (resource_id : string) (tagged : gset string) : RoleDecision :=
  decide_role (get_set (ro_roles_by_resource scan) resource_id) tagged (is_over_max scan)
    (negb (bool_decide (get_set (ei_rejection_reasons index) resource_id = ∅))).

Lemma decided_candidates key id : id ∈ get_list (dn_candidates_by_role d) key <->
  exists record tagged, (id, record) ∈ ei_resources index /\ tagged_roles roles record = Ok tagged /\
    decision_of id tagged = CandidateFor key.
Proof.
  revert decided. unfold decide_resources.
  apply (foldR_prefix (fun passed d => id ∈ get_list (dn_candidates_by_role d) key <->
    exists record tagged, (id, record) ∈ passed /\ tagged_roles roles record = Ok tagged /\ decision_of id tagged = CandidateFor key));
    [|unfold get_list; cbn; rewrite lookup_empty; cbn; set_solver].
  intros passed [id' record] d1 d2 IH _ (tagged & Ht & E)%bind_Ok. injection E as <-.
  assert (Hs : (exists record0 tagged0, (id, record0) ∈ passed ++ [(id', record)] /\ tagged_roles roles record0 = Ok tagged0 /\
                 decision_of id tagged0 = CandidateFor key) <->
               id ∈ get_list (dn_candidates_by_role d1) key \/ id = id' /\ decision_of id tagged = CandidateFor key).
  { rewrite IH. setoid_rewrite elem_of_app. setoid_rewrite list_elem_of_singleton. split.
    - intros (r0 & t0 & [Hp|Hp] & Ht0 & Hd); [left; eauto|]. injection Hp as -> ->. same_ok. by right.
    - intros [(r0 & t0 & ? & ? & ?)|[-> ?]]; [exists r0, t0; auto|exists record, tagged; auto]. }
  rewrite Hs. fold (decision_of id' tagged). destruct (decision_of id' tagged) as [reason| |k] eqn:Hd; cbn.
  - split; [auto|]. intros [?|[-> ?]]; congruence.
  - split; [auto|]. intros [?|[-> ?]]; congruence.
  - rewrite get_list_append_to, elem_of_app. case_decide as Hk.
    + subst. rewrite list_elem_of_singleton. split; intros [?|Hi]; auto; [by subst; auto|]. naive_solver.
    + split; [intros [?|?%elem_of_nil]; auto; done|]. intros [?|[-> ?]]; auto. congruence.
Qed.

(** The scan and the tags tell, for a role, which of its keys are possible. *)
Lemma possible_key q id record tagged : q ∈ roles -> tagged_roles roles record = Ok tagged ->
  let S := get_set (ro_roles_by_resource scan) id in
  ((role_key q ∈ S \/ S = ∅) /\ (role_key q ∈ tagged \/ tagged = ∅) /\ (role_key q ∈ S \/ role_key q ∈ tagged)) <->
  possible_for q id record.
Proof.
  intros Hq Ht S. pose proof (scan_roles_scanned _ scan_ok) as (Hs & _).
  assert (HS : role_key q ∈ S <-> supported_by_selector q id).
  { unfold S. rewrite Hs. split; [|by exists q]. intros (r & Hr & Hk & ?). by rewrite <- (unique_key r q). }
  assert (HT : role_key q ∈ tagged <-> supported_by_tag q record).
  { rewrite (elem_of_tagged_roles record) by done. split; [|by exists q]. intros (r & Hr & Hk & ?). by rewrite <- (unique_key r q). }
  assert (HS0 : S = ∅ <-> forall r, r ∈ roles -> ~ supported_by_selector r id).
  { split; [intros E r Hr Hx|intros Hn; apply elem_of_equiv_empty_L; intros k (r & Hr & _ & Hx)%Hs; by apply (Hn r)].
    apply (not_elem_of_empty (C := gset string) (role_key r)). rewrite <- E. apply Hs. by exists r. }
  assert (HT0 : tagged = ∅ <-> forall r, r ∈ roles -> ~ supported_by_tag r record).
  { split; [intros E r Hr Hx|intros Hn; apply elem_of_equiv_empty_L; intros k (r & Hr & _ & Hx)%(elem_of_tagged_roles record _ _ Ht); by apply (Hn r)].
    apply (not_elem_of_empty (C := gset string) (role_key r)). rewrite <- E. apply (elem_of_tagged_roles record _ _ Ht). by exists r. }
  unfold possible_for. by rewrite HS, HT, HS0, HT0.
Qed.

Lemma tagged_Ok id record : (id, record) ∈ ei_resources index -> exists tagged, tagged_roles roles record = Ok tagged.
Proof.
  intros Hi. destruct (foldR_elem _ _ _ _ _ decided Hi) as (d1 & d2 & (tagged & Ht & _)%bind_Ok). by exists tagged.
Qed.

Lemma candidates_eligible r id : r ∈ roles -> id ∈ get_list (dn_candidates_by_role d) (role_key r) <-> eligible r id.
Proof.
  intros Hr. rewrite decided_candidates. unfold eligible, decision_of. pose proof (scan_roles_scanned _ scan_ok) as (Hs & Ho & _).
  assert (Hb : is_over_max scan (role_key r) = false <-> ~ exceeds_bound r).
  { rewrite <- not_true_iff_false, Ho. apply not_iff_compat. split; [|by exists r].
    intros (q & Hq & Hk & ?). by rewrite <- (unique_key q r). }
  setoid_rewrite decide_role_candidate. setoid_rewrite Hb. split.
  - intros (record & tagged & Hi & Ht & Hx & Hrej%negb_false_iff%bool_decide_eq_true & He). exists record. split_and!; [done..| | |done].
    + by eapply possible_key; [..|apply He].
    + intros q Hq Hp. apply unique_key; [done..|]. apply He. by apply (possible_key q id record tagged).
  - intros (record & Hi & Hrej & Hp & Hu & Hx). destruct (tagged_Ok _ _ Hi) as [tagged Ht]. exists record, tagged.
    split_and!; [done..|by rewrite bool_decide_true|]. intros k. split; [|intros ->; by apply (possible_key r id record tagged)].
    intros Hk. assert (exists q, q ∈ roles /\ role_key q = k) as (q & Hq & <-).
    { destruct Hk as (_ & _ & [(q & ? & ? & _)%Hs|(q & ? & ? & _)%(elem_of_tagged_roles record _ _ Ht)]); by exists q. }
    f_equal. apply Hu; [done|]. by apply (possible_key q id record tagged).
Qed.
End decisions.

(** ** From candidates to proposals *)
Section batch.
Context `{PyText} `{Rfc8785}.

Lemma claim_members_NoDup proposal_id ids m m' : foldR (claim_member proposal_id) m ids = Ok m' ->
  NoDup ids /\ (forall id, id ∈ ids -> m !! id = None) /\ (forall id, is_Some (m' !! id) <-> id ∈ ids \/ is_Some (m !! id)).
Proof.
  revert m. induction ids as [|id ids IH]; intros m; cbn [foldR]; intros Hf.
  - injection Hf as <-. split_and!; [constructor|set_solver|set_solver].
  - apply bind_Ok in Hf as (m1 & (u & Hn%raise_if_Ok%bool_decide_eq_false & E)%bind_Ok & Hf). injection E as <-.
    destruct (IH _ Hf) as (Hd & Hm & He). apply eq_None_not_Some in Hn. split_and!.
    + constructor; [|done]. intros Hin. specialize (Hm id Hin). by rewrite lookup_insert_eq in Hm.
    + intros i [->|Hi]%elem_of_cons; [done|]. specialize (Hm i Hi). rewrite lookup_insert in Hm. by case_decide.
    + intros i. rewrite He, elem_of_cons, lookup_insert. case_decide; [subst|]; naive_solver.
Qed.

Lemma exclusive_membership proposals u : validate_exclusive_membership proposals = Ok u -> NoDup (concat (cp_members <$> proposals)).
Proof.
  unfold validate_exclusive_membership. intros (m & Hf & _)%bind_Ok.
  enough (NoDup (concat (cp_members <$> proposals)) /\ forall id, is_Some (m !! id) <-> id ∈ concat (cp_members <$> proposals)) by naive_solver.
  revert Hf. apply (foldR_prefix (fun passed m => NoDup (concat (cp_members <$> passed)) /\
    forall id, is_Some (m !! id) <-> id ∈ concat (cp_members <$> passed))).
  - intros passed c m1 m2 [Hn He] _ (Hd & Hm & He2)%claim_members_NoDup. rewrite fmap_app, concat_app. cbn. rewrite app_nil_r. split.
    + apply NoDup_app. split_and!; [done| |done]. intros id [y Hy]%He Hc. by rewrite (Hm id Hc) in Hy.
    + intros id. rewrite He2, He, elem_of_app. naive_solver.
  - split; [constructor|]. intros id. rewrite lookup_empty. cbn. split; [by intros []|set_solver].
Qed.

Lemma build_proposal_role_members p s index scan d r group c : build_proposal p s index scan d r group = Ok c ->
  cp_role c = r /\ cp_members c = snd group /\ build_selector_preview r p (snd group) index = Ok (cp_selector_preview c).
Proof.
  destruct group as [anchor members]. unfold build_proposal. intros Hb. inv_ok.
  repeat match goal with
  | H : match ?e with (_, _) => _ end = Ok _ |- _ => destruct e
  | H : (_ ≫= _) = Ok _ |- _ => apply bind_Ok in H as (? & ? & ?)
  end.
  rename select (construct_proposal _ = _) into Hc. unfold construct_proposal in Hc. inv_ok. subst. cbn.
  rename select (detached_role _ = _) into Hr. unfold detached_role in Hr. inv_ok. by subst.
Qed.

Lemma elem_of_role_proposals p s index scan d r proposals id : role_proposals p s index scan d r = Ok proposals ->
  (forall c, c ∈ proposals -> cp_role c = r) /\
  ((exists c, c ∈ proposals /\ id ∈ cp_members c) <-> id ∈ get_list (dn_candidates_by_role d) (role_key r)).
Proof.
  unfold role_proposals. intros (groups & Hg & Hm%mapR_Ok)%bind_Ok. split.
  - intros c Hc. destruct (Forall2_elem_of_r _ _ _ _ Hm Hc) as (g & _ & Hb). by apply build_proposal_role_members in Hb as [? _].
  - transitivity (id ∈ concat (snd <$> groups)).
    2: { rewrite (candidate_groups_elem _ _ _ Hg). apply elem_of_sort_by. }
    rewrite list_elem_of_In, in_concat. setoid_rewrite <- list_elem_of_In. split.
    + intros (c & Hc & Hi). destruct (Forall2_elem_of_r _ _ _ _ Hm Hc) as (g & Hg' & Hb).
      apply build_proposal_role_members in Hb as (_ & E & _). rewrite E in Hi. exists (snd g). split; [by apply list_elem_of_fmap_2|done].
    + intros (l & (g & -> & Hg')%list_elem_of_fmap & Hi). destruct (list_elem_of_lookup_1 _ _ Hg') as [i Hl].
      destruct (Forall2_lookup_l _ _ _ _ _ Hm Hl) as (c & Hc & Hb). exists c. split; [by eapply list_elem_of_lookup_2|].
      by apply build_proposal_role_members in Hb as (_ & -> & _).
Qed.

Lemma propose_from_index_members p s as_of roles index b : NoDup (role_key <$> roles) ->
  propose_from_index p s as_of roles index = Ok b ->
  NoDup (concat (cp_members <$> ct_proposals b)) /\
  forall r id, (exists c, c ∈ ct_proposals b /\ cp_role c = r /\ id ∈ cp_members c) <-> r ∈ roles /\ eligible index roles r id.
Proof.
  intros Hn. unfold propose_from_index. intros (scan & Hscan & (d & Hd & (conflicts & _ & (proposals & Hp & Hb)%bind_Ok)%bind_Ok)%bind_Ok)%bind_Ok.
  cbn beta zeta in Hb. inv_ok. rename select (construct_batch _ = _) into Hb. unfold construct_batch in Hb. inv_ok.
  rename select (reraise _ _ _ = _) into Hv. apply reraise_Ok in Hv. subst. split; [by eapply exclusive_membership|]. cbn. intros r id.
  setoid_rewrite elem_of_sort_by. apply mapR_Ok in Hp. setoid_rewrite list_elem_of_In. setoid_rewrite in_concat.
  repeat setoid_rewrite <- list_elem_of_In. split.
  - intros (c & (l & Hl & Hc) & Er & Hi). destruct (Forall2_elem_of_r _ _ _ _ Hp Hl) as (q & Hq & Hq').
    destruct (elem_of_role_proposals _ _ _ _ _ _ _ id Hq') as [Hr He]. assert (q = r) as -> by (by rewrite <- Er, (Hr c)).
    split; [done|]. apply (candidates_eligible _ _ _ _ Hn Hscan Hd); [done|]. apply He. by exists c.
  - intros [Hr Hel]. destruct (list_elem_of_lookup_1 _ _ Hr) as [i Hi]. destruct (Forall2_lookup_l _ _ _ _ _ Hp Hi) as (l & Hl & Hq).
    destruct (elem_of_role_proposals _ _ _ _ _ _ _ id Hq) as [Hrole He].
    apply (candidates_eligible _ _ _ _ Hn Hscan Hd), He in Hel as (c & Hc & Hm); [|done].
    exists c. split_and!; [|by apply Hrole|done]. exists l. split; [by eapply list_elem_of_lookup_2|done].
Qed.

(** ** The sources of supporting evidence *)

(** Pairwise disjoint, non-empty sets among two candidates are at most two. *)
Lemma two_sources l A B : (forall e, e ∈ l -> source_set e = A \/ source_set e = B) -> (independent_sources l <= 2)%nat.
Proof.
  intros Hl. unfold independent_sources.
  enough (forall sets, NoDup sets -> sets ⊆ [A; B] -> let sets' := foldl add_source_set sets l in NoDup sets' /\ sets' ⊆ [A; B]) as He.
  { destruct (He []) as [Hn Hs]; [constructor|set_solver|]. apply (submseteq_length _ [A; B]). by apply NoDup_submseteq. }
  clear -Hl. induction l as [|e l IH]; intros sets Hn Hs; cbn; [done|]. apply IH; [set_solver| |].
  - unfold add_source_set. destruct (negb _ && _) eqn:Hb; [|done]. apply andb_true_iff in Hb as [Hne Hd].
    apply negb_true_iff, bool_decide_eq_false in Hne. apply negb_true_iff in Hd. apply NoDup_app. split_and!; [done| |apply NoDup_singleton].
    intros y Hy ->%list_elem_of_singleton. apply not_true_iff_false in Hd. apply Hd, existsb_elem. exists (source_set e). split; [done|].
    apply negb_true_iff, bool_decide_eq_false. by rewrite (idemp_L (∩)).
  - unfold add_source_set. case_match; [|done]. intros y [Hy| ->%list_elem_of_singleton]%elem_of_app; [by apply Hs|].
    destruct (Hl e) as [->| ->]; set_solver.
Qed.

Lemma supported_refs type value members refs e : support type value members refs = Ok e -> su_evidence_refs e = refs.
Proof. unfold support, construct_supporting. intros Hs. inv_ok. by subst. Qed.

(** All support cites the members' records, but that from communications. *)
Lemma support_sources r p members index results supporting dissent :
  support_and_dissent r p members index results = Ok (supporting, dissent) -> (independent_sources supporting <= 2)%nat.
Proof.
  unfold support_and_dissent. intros (refs & _ & (member_refs & _ & (by_selector & Hsel & (anchor & _ & (by_anchor & Hanc & Hr)%bind_Ok)%bind_Ok)%bind_Ok)%bind_Ok)%bind_Ok.
  apply bind_Ok in Hr as (role & _ & (records & _ & ([by_tags tag_dissents] & Htags & ([by_comm comm] & Hcomm & E)%bind_Ok)%bind_Ok)%bind_Ok).
  injection E as <- <-.
  apply (two_sources _ (list_to_set (omap (fun ref => match ref with ItemRef ref => Some (ir_item_digest ref) | GapRef _ => None end) member_refs))
           (match by_comm with [e] => source_set e | _ => ∅ end)).
  intros e He. apply elem_of_sort_by in He. rewrite !elem_of_app in He. unfold source_set at 1. destruct He as [He|[He|[He|He]]].
  - left. apply list_elem_of_In, in_concat in He as (l & Hl%list_elem_of_In & He%list_elem_of_In). apply mapR_Ok in Hsel.
    destruct (Forall2_elem_of_r _ _ _ _ Hsel Hl) as ([s ev] & _ & Hs). unfold selector_support in Hs. case_match; inv_ok; [|subst; set_solver].
    subst l. apply list_elem_of_singleton in He as ->. by erewrite supported_refs.
  - left. destruct anchor as [a|]; [|injection Hanc as <-; set_solver]. destruct (support _ _ _ _) as [e'|] eqn:Hs; [|done].
    injection Hanc as <-. apply list_elem_of_singleton in He as ->. by erewrite supported_refs.
  - left. case_match; inv_ok; simplify_eq; [|set_solver]. apply list_elem_of_singleton in He as ->. by erewrite supported_refs.
  - right. assert (by_comm = [e]) as ->; [|done]. clear -Hcomm He. unfold communication_evidence in Hcomm.
    repeat case_match; inv_ok; simplify_eq; try set_solver.
Qed.

(** Two sources are too few for high confidence. *)
Lemma confidence_not_high supporting dissent conflicts members preview : (independent_sources supporting <= 2)%nat ->
  snd (confidence supporting dissent conflicts members preview) <> BandHigh.
Proof.
  intros Hn. unfold confidence. case_bool_decide; [done|]. case_match; [done|].
  destruct (independent_sources supporting) as [|[|[|n]]]; [by vm_compute..|lia].
Qed.

Lemma build_proposal_band p s index scan d r group c : build_proposal p s index scan d r group = Ok c ->
  cp_confidence_band c <> BandHigh /\ cp_disposition c = "humanResolution" /\ cp_bulk_review_eligible c = false.
Proof.
  destruct group as [anchor members]. unfold build_proposal.
  intros (u1 & _ & (u2 & _ & ([supporting dissent] & Hsup & Hb)%bind_Ok)%bind_Ok)%bind_Ok. cbn beta zeta in Hb.
  assert (Hn : (independent_sources supporting <= 2)%nat).
  { case_bool_decide; [injection Hsup as <- <-; cbn; lia|by eapply support_sources]. }
  inv_ok. destruct (confidence _ _ _ _ _) as [score band] eqn:Hc. inv_ok.
  assert (Hband : band <> BandHigh) by (change band with (snd (score, band)); rewrite <- Hc; by apply confidence_not_high).
  rename select (construct_proposal _ = _) into Hp. unfold construct_proposal in Hp. inv_ok. subst. cbn.
  by rewrite bool_decide_false.
Qed.

(** ** What [propose_cohorts] guarantees *)
Lemma propose_cohorts_index p v as_of b : propose_cohorts p v as_of = Ok b ->
  exists index, require_current_verified_snapshot v as_of = Ok (vs_snapshot v) /\
    build_evidence_index p (vs_snapshot v) as_of = Ok index /\ NoDup (role_key <$> approved_roles p) /\
    propose_from_index p (vs_snapshot v) as_of (approved_roles p) index = Ok b.
Proof.
  unfold propose_cohorts. intros Hp. inv_ok. rename select (require_current_verified_snapshot _ _ = _) into Hr.
  assert (x1 = vs_snapshot v) as ->.
  { clear -Hr. unfold require_current_verified_snapshot in Hr. by inv_ok. }
  eexists. split_and!; [done..|by apply unique_NoDup|done].
Qed.

(** The groups of candidates are in order. *)
Lemma candidate_groups_sorted candidates groups g : candidate_groups candidates = Ok groups -> g ∈ groups ->
  sort_strings (snd g) = snd g.
Proof.
  assert (Hs : forall l, sort_strings (sort_strings l) = sort_strings l) by (intros l; apply sort_by_id, sort_by_sorted).
  unfold candidate_groups. destruct candidates as [|c cs]; [by intros [= <-] ->%list_elem_of_singleton|].
  intros (anchored & _ & Hg)%bind_Ok. injection Hg as <-. case_match.
  - intros (g' & -> & _)%list_elem_of_fmap. apply Hs.
  - intros ->%list_elem_of_singleton. exact (Hs (c :: cs)).
Qed.

(** A proposal of a batch is built from a group of its role. *)
Lemma batch_proposal_built p s as_of roles index b c : propose_from_index p s as_of roles index = Ok b -> c ∈ ct_proposals b ->
  exists scan d r g, scan_roles index roles = Ok scan /\ r ∈ roles /\ sort_strings (snd g) = snd g /\
    build_proposal p s index scan d r g = Ok c.
Proof.
  unfold propose_from_index. intros (scan & Hscan & (d & _ & (conflicts & _ & (proposals & Hp & Hb)%bind_Ok)%bind_Ok)%bind_Ok)%bind_Ok.
  cbn beta zeta in Hb. inv_ok. rename select (construct_batch _ = _) into Hb. unfold construct_batch in Hb. inv_ok. subst. cbn.
  intros Hc. apply elem_of_sort_by, list_elem_of_In, in_concat in Hc as (l & Hl%list_elem_of_In & Hc%list_elem_of_In).
  apply mapR_Ok in Hp. destruct (Forall2_elem_of_r _ _ _ _ Hp Hl) as (r & Hr & (groups & Hg & Hm%mapR_Ok)%bind_Ok).
  destruct (Forall2_elem_of_r _ _ _ _ Hm Hc) as (g & Hg' & Hbuilt). exists scan, d, r, g. split_and!; [done..| |done].
  by eapply candidate_groups_sorted.
Qed.

(** C15: the proposals partition the eligible resources: no resource is proposed
    twice, and a resource is proposed for an approved role exactly when the two
    kinds of role evidence (selectors and tags) that exist for it single out this
    role, it has no rejection reason, and no selector of the role exceeds its
    bound. *)
Theorem proposals_partition_eligible_resources p v as_of b : propose_cohorts p v as_of = Ok b ->
  exists index, build_evidence_index p (vs_snapshot v) as_of = Ok index /\ NoDup (concat (cp_members <$> ct_proposals b)) /\
    forall r id, (exists c, c ∈ ct_proposals b /\ cp_role c = r /\ id ∈ cp_members c) <->
                 r ∈ approved_roles p /\ eligible index (approved_roles p) r id.
Proof.
  intros (index & _ & Hi & Hn & Hb)%propose_cohorts_index. exists index. split; [done|]. by eapply propose_from_index_members.
Qed.

(** C18: a proposed member is in scope: it is the id of a resource record of the
    verified snapshot that no other record shares, inside the evidence scopes of
    the profile and the authorized scopes of the snapshot, tagged with the
    environment of the profile, and cited by exactly one reference that matches
    the record's provenance. *)
Theorem proposed_members_in_scope p v as_of b c id : propose_cohorts p v as_of = Ok b -> c ∈ ct_proposals b -> id ∈ cp_members c ->
  exists record environment ref, ResourceRecord record ∈ es_evidence_records (vs_snapshot v) /\ normalizes_to record id /\
    (forall other, ResourceRecord other ∈ es_evidence_records (vs_snapshot v) -> normalizes_to other id -> other = record) /\
    resource_in_scopes id (rp_allowed_evidence_scopes p) (sc_tenant_id (es_collector (vs_snapshot v))) = true /\
    resource_in_scopes id (es_authorized_scopes (vs_snapshot v)) (sc_tenant_id (es_collector (vs_snapshot v))) = true /\
    at_environment (re_tags record) = Some environment /\
    casefold environment = casefold (expected_environment (rp_profile_type p)) /\
    resource_record_refs (vs_snapshot v) record = [ref].
Proof.
  intros (index & _ & Hi & Hn & Hb)%propose_cohorts_index Hc Hid.
  apply propose_from_index_members in Hb as [_ He]; [|done].
  destruct (proj1 (He (cp_role c) id)) as [_ (record & Hin & Hrej & _)]; [by exists c|].
  apply build_evidence_index_resources in Hi as [_ Hr]. destruct (Hr id record Hin) as (Hrec & Hnorm & Huniq & Hsc).
  destruct (Hsc Hrej) as [(H1 & H2 & (env & ? & ?) & (ref & ?))%in_scope_spec _].
  exists record, env, ref. done.
Qed.

(** C19: a cohort of at most 200 members has a preview: a selector that evaluates
    on all resources of the index to exactly the cohort, within its bounds. The
    one exception is a cohort that is the whole index, when no candidate selector
    covers it. *)
Theorem small_cohorts_have_exact_previews `{!PyTextAscii} p v as_of b c : construct_snapshot (vs_snapshot v) = Ok tt ->
  propose_cohorts p v as_of = Ok b -> c ∈ ct_proposals b -> cp_members c <> [] -> (length (cp_members c) <= 200)%nat ->
  exists index, build_evidence_index p (vs_snapshot v) as_of = Ok index /\
  ((exists q, cp_selector_preview c = Some q /\
     evaluate (ei_resources index) (pv_selector q) = Ok (list_to_set (cp_members c), []) /\ pv_matched_resource_ids q = cp_members c) \/
   ((forall id, id ∈ cp_members c <-> id ∈ fst <$> ei_resources index) /\
    exists candidates, preview_candidates (cp_role c) p (cp_members c) index = Ok candidates /\
      forall a m, a ∈ candidates -> ~ covers index (cp_members c) a m)).
Proof.
  intros Hs (index & _ & Hi & Hn & Hb)%propose_cohorts_index Hc Hne Hlen. exists index. split; [done|].
  destruct (batch_proposal_built _ _ _ _ _ _ _ Hb Hc) as (scan & d & r & g & _ & _ & Hsort & (Hr & Hm & Hprev)%build_proposal_role_members).
  subst r. rewrite <- Hm in Hsort, Hprev.
  apply propose_from_index_members in Hb as [Hnd He]; [|done].
  unfold construct_snapshot in Hs. apply reraise_Ok in Hs. inv_ok. assert (Hx : indexed index) by (by eapply built_index_indexed).
  assert (Hcohort : cohort index (cp_members c)).
  { split_and!; [done| |done|].
    - apply list_elem_of_lookup_1 in Hc as [i Hci]. clear -Hnd Hci. revert i Hci. induction (ct_proposals b) as [|q l IH]; [done|].
      cbn in Hnd. apply NoDup_app in Hnd as (Hq & _ & Hl). intros [|i]; cbn; [by intros [= ->]|]. by apply IH.
    - intros id Hid. destruct (proj1 (He (cp_role c) id)) as [_ (record & Hin & _)]; [by exists c|].
      by apply (list_elem_of_fmap_2 fst _ (id, record)). }
  destruct (preview_exact_or_uncovered index (cp_members c) Hx Hcohort _ _ _ Hlen Hprev) as [Hq|[Hk Hcand]]; [by left|right].
  split; [|done]. intros id. rewrite <- (elem_of_list_to_set (C := gset string)), <- Hk. apply elem_of_list_to_set.
Qed.

(** C20: no proposal is ever offered for bulk review: a batch holds no
    high-confidence proposal, since all supporting evidence but the observed
    communications cites the same records, and two independent sources are too
    few. Every proposal goes to human resolution. *)
Theorem bulk_review_unreachable p v as_of b c : propose_cohorts p v as_of = Ok b -> c ∈ ct_proposals b ->
  cp_confidence_band c <> BandHigh /\ cp_disposition c = "humanResolution" /\ cp_bulk_review_eligible c = false.
Proof.
  intros (index & _ & Hi & Hn & Hb)%propose_cohorts_index Hc.
  destruct (batch_proposal_built _ _ _ _ _ _ _ Hb Hc) as (scan & d & r & g & _ & _ & _ & Hbuilt). by eapply build_proposal_band.
Qed.

(** A selector that matches the whole cohort is quoted in full. *)
Lemma support_quotes_selectors r p members index results sd s e :
  support_and_dissent r p members index results = Ok sd -> (s, e) ∈ zip (mr_selectors r) results ->
  sv_status e = SelMatched -> members ⊆ sv_matched_resource_ids e ->
  exists text, selector_canonical_json s = Ok text /\ (py_len text <= 2000)%nat.
Proof.
  unfold support_and_dissent. intros (refs & _ & (member_refs & _ & (by_selector & Hsel%mapR_Ok & _)%bind_Ok)%bind_Ok)%bind_Ok Hz Hst Hsub.
  destruct (list_elem_of_lookup_1 _ _ Hz) as [i Hi]. destruct (Forall2_lookup_l _ _ _ _ _ Hsel Hi) as (l & _ & Hl).
  unfold selector_support, subset_of in Hl. rewrite bool_decide_true in Hl by done.
  rewrite (proj2 (forallb_elem _ _)) in Hl by (intros x Hx; by apply bool_decide_eq_true, Hsub). cbn [andb] in Hl.
  apply bind_Ok in Hl as (text & Ht & (ev & Hev & _)%bind_Ok). exists text. split; [done|].
  unfold support, construct_supporting in Hev. inv_ok. rename select (text_between _ _ _ = true) into Hb. cbn in Hb.
  unfold text_between in Hb. apply andb_true_iff in Hb as [_ Hb%Nat.leb_le]. done.
Qed.

(** a role whose selector matches the whole cohort is proposed only if the
    selector's canonical JSON has at most 2,000 characters, the bound of
    [signalValue]: a longer one, such as a list of twenty resource ids, makes
    [propose_cohorts] raise. *)
Theorem covering_selectors_are_short p v as_of b c index s e : propose_cohorts p v as_of = Ok b ->
  build_evidence_index p (vs_snapshot v) as_of = Ok index -> c ∈ ct_proposals b -> cp_members c <> [] -> s ∈ mr_selectors (cp_role c) ->
  evaluate_selector s (ei_all_resources index) = Ok e -> sv_status e = SelMatched -> cp_members c ⊆ sv_matched_resource_ids e ->
  exists text, selector_canonical_json s = Ok text /\ (py_len text <= 2000)%nat.
Proof.
  intros (index' & _ & Hi & Hn & Hb)%propose_cohorts_index Hi' Hc Hne Hs He Hst Hsub. same_ok.
  destruct (batch_proposal_built _ _ _ _ _ _ _ Hb Hc) as (scan & d & r & [anchor members] & Hscan & Hr & _ & Hbuilt).
  pose proof (build_proposal_role_members _ _ _ _ _ _ _ _ Hbuilt) as (Er & Em & _). cbn in Em. rewrite Er in Hs. rewrite Em in Hsub, Hne.
  pose proof (scan_roles_scanned _ _ _ Hscan) as (_ & _ & Hres). destruct (Hres r Hr) as (results & Hm & Hl). specialize (Hl Hn).
  unfold build_proposal in Hbuilt. apply bind_Ok in Hbuilt as (u1 & _ & (u2 & _ & (sd & Hsd & _)%bind_Ok)%bind_Ok).
  rewrite bool_decide_false in Hsd by done. eapply support_quotes_selectors; [exact Hsd| |done..].
  unfold get_list. rewrite Hl. cbn [default]. apply mapR_Ok in Hm. clear -Hm Hs He. induction Hm as [|s' e' l k Hse _ IH]; [by apply elem_of_nil in Hs|].
  cbn. apply elem_of_cons in Hs as [->|Hs]; [rewrite He in Hse; injection Hse as ->; left|right; by apply IH].
Qed.

(** ** The verified snapshot *)

(** The capability after its snapshot object was changed to [s] *)
Definition mutated (v : VerifiedCohortSnapshot) (s : EvidenceSnapshot) : VerifiedCohortSnapshot := {|
  vs_snapshot := s; vs_verified_at := vs_verified_at v; vs_artifact_digest := vs_artifact_digest v;
  vs_semantic_digest := vs_semantic_digest v; vs_marked := vs_marked v |}.

Lemma components_digests s u : validate_snapshot_components s = Ok u ->
  compute_evidence_snapshot_artifact_digest s = Ok (cm_artifact_digest (es_compatibility s)) /\
  compute_evidence_snapshot_semantic_digest s = Ok (cm_semantic_digest (es_compatibility s)).
Proof.
  unfold validate_snapshot_components. intros Hv. inv_ok.
  repeat match goal with E : String.eqb _ _ = true |- _ => apply String.eqb_eq in E end. by split; congruence.
Qed.

(** C21: a snapshot that changed after its verification yields no proposals: when
    [propose_cohorts] returns a batch for a capability, at the instant it was
    verified for and inside the lifetime the snapshot had then, the snapshot it
    reads has the digests of the snapshot that was verified, however the shared
    object was changed in between. *)
Theorem proposals_read_verified_content s t verifier v s' p as_of b :
  verify_cohort_snapshot s t verifier = Ok v -> propose_cohorts p (mutated v s') as_of = Ok b ->
  as_of = t /\ es_collected_at (vs_snapshot v) <= as_of < es_expires_at (vs_snapshot v) /\
  compute_evidence_snapshot_artifact_digest s' = compute_evidence_snapshot_artifact_digest (vs_snapshot v) /\
  compute_evidence_snapshot_semantic_digest s' = compute_evidence_snapshot_semantic_digest (vs_snapshot v).
Proof.
  intros Hv (index & Hr & _)%propose_cohorts_index. unfold verify_cohort_snapshot in Hv.
  apply bind_Ok in Hv as ([] & _ & ([] & _ & ([after|] & _ & Hv)%bind_Ok)%bind_Ok); [|done]. inv_ok. subst v.
  unfold require_current_verified_snapshot in Hr. inv_ok. cbn [mutated vs_snapshot vs_verified_at vs_artifact_digest vs_semantic_digest] in *.
  repeat match goal with E : validate_snapshot_components _ = Ok _ |- _ => apply components_digests in E as [-> ->] end.
  repeat match goal with E : String.eqb _ _ = true |- _ => apply String.eqb_eq in E as -> end.
  rename select ((_ =? _) = true) into Et. apply Z.eqb_eq in Et as ->.
  rename select ((_ <? _) = false) into Hc. rename select ((_ <=? _) = false) into He. by split_and!; try lia.
Qed.
End batch.
