(* ===== verification/SnapshotDemo.v ===== *)
(** * SnapshotDemo: a collected, attested and evaluated snapshot

    Two web servers read by one collector attempt, with the identity evidence, the
    references and the attestation the contract asks for, and a profile whose web
    role they play. The theorems on snapshots, on their evaluation and on the
    proposal engine are applied to them. [compact_json] is a canonical rendering
    that can be read back. *)
From stdpp Require Import pretty.
From S2P Require Import Prelude Text Sha256 Time Json Concrete ResolutionDemo.
From S2P Require Import StoreProps SnapshotProps SnapshotEvaluation ProposeProps.
From Stdlib Require Import Ascii SpecFloat.
Local Open Scope Z_scope.

(** ** A canonical rendering *)
Definition quote_char : ascii := Eval vm_compute in ascii_of_nat 34.
Definition needs_escape (c : ascii) : bool := Ascii.eqb c quote_char || Ascii.eqb c "\".

(** A quoted text, followed by [rest] *)
Fixpoint quoted_body (s rest : string) : string :=
  match s with
  | EmptyString => String quote_char rest
  | String c s => if needs_escape c then String "\" (String c (quoted_body s rest)) else String c (quoted_body s rest)
  end.
Definition quoted (s rest : string) : string := String quote_char (quoted_body s rest).

Fixpoint write_json (v : json) (rest : string) : string :=
  match v with
  | JNull => String "n" rest
  | JBool true => String "t" rest
  | JBool false => String "f" rest
  | JStr s => quoted s rest
  | JInt z => String "i" (quoted (pretty z) rest)
  | JTime t => String "T" (quoted (pretty t) rest)
  | JFloat x => String "d" (quoted (pos_text (encode x)) rest)
  | JArr l => String "[" (foldr write_json (String "]" rest) l)
  | JObj members => String "{" (foldr (fun m rest => quoted (fst m) (write_json (snd m) rest)) (String "}" rest) members)
  end.

Lemma quoted_body_inj s t r1 r2 : quoted_body s r1 = quoted_body t r2 -> s = t /\ r1 = r2.
Proof.
  revert t. induction s as [|c s IH]; intros [|d t]; cbn [quoted_body].
  - intros E. injection E as ->. done.
  - destruct (needs_escape d) eqn:Hd; intros E; injection E as E _; [done|]. subst d. by vm_compute in Hd.
  - destruct (needs_escape c) eqn:Hc; intros E; injection E as E _; [done|]. subst c. by vm_compute in Hc.
  - destruct (needs_escape c) eqn:Hc, (needs_escape d) eqn:Hd; intros E.
    + injection E as -> E. destruct (IH _ E) as [-> ->]. done.
    + injection E as E _. subst d. by vm_compute in Hd.
    + injection E as E _. subst c. by vm_compute in Hc.
    + injection E as -> E. destruct (IH _ E) as [-> ->]. done.
Qed.

Lemma quoted_inj s t r1 r2 : quoted s r1 = quoted t r2 -> s = t /\ r1 = r2.
Proof. unfold quoted. intros E. injection E as E. by apply quoted_body_inj. Qed.

(** No rendering starts with a closing bracket. *)
Lemma write_json_open v r : exists c t, write_json v r = String c t /\ c <> "]"%char.
Proof. destruct v as [|[]| | | | | |]; cbn; by eexists _, _. Qed.

(** A rendering can be read back, whatever follows it. *)
Lemma write_json_inj v w r1 r2 : write_json v r1 = write_json w r2 -> v = w /\ r1 = r2.
Proof.
  revert w r1 r2. induction v as [|b|z|x|s|t|l IH|ms IH] using json_nested_ind; intros w r1 r2; cbn.
  - destruct w as [|[]| | | | | |]; cbn; intros E; (discriminate E || by injection E as ->).
  - destruct b, w as [|[]| | | | | |]; cbn; intros E; (discriminate E || by injection E as ->).
  - destruct w as [|[]| | | | | |]; cbn; intros E; try discriminate E. injection E as E.
    apply quoted_body_inj in E as [->%(inj pretty) ->]. done.
  - destruct w as [|[]| | | | | |]; cbn; intros E; try discriminate E. injection E as E.
    apply quoted_body_inj in E as [->%pos_text_inj%(inj encode) ->]. done.
  - destruct w as [|[]| | | | | |]; cbn; intros E; try discriminate E. injection E as E.
    apply quoted_body_inj in E as [-> ->]. done.
  - destruct w as [|[]| | | | | |]; cbn; intros E; try discriminate E. injection E as E.
    apply quoted_body_inj in E as [->%(inj pretty) ->]. done.
  - destruct w as [|[]| | | | |l' |]; cbn; intros E; try discriminate E. injection E as E.
    enough (l = l' /\ r1 = r2) as [-> ->] by done.
    revert l' E. induction IH as [|v l Hv _ IHl]; intros [|v' l']; cbn; intros E.
    + by injection E as ->.
    + destruct (write_json_open v' (foldr write_json (String "]" r2) l')) as (c & t & Hw & Hc). rewrite Hw in E. injection E as E _. congruence.
    + destruct (write_json_open v (foldr write_json (String "]" r1) l)) as (c & t & Hw & Hc). rewrite Hw in E. injection E as E _. congruence.
    + apply Hv in E as [-> E]. apply IHl in E as [-> ->]. done.
  - destruct w as [|[]| | | | | |ms']; cbn; intros E; try discriminate E. injection E as E.
    enough (ms = ms' /\ r1 = r2) as [-> ->] by done.
    revert ms' E. induction IH as [|[k v] ms Hv _ IHms]; intros [|[k' v'] ms']; cbn [foldr fst snd]; intros E.
    + by injection E as ->.
    + discriminate E.
    + discriminate E.
    + cbn in Hv. apply quoted_inj in E as [-> E]. apply Hv in E as [-> E]. apply IHms in E as [E ->]. split; [|done]. by f_equal.
Qed.

(** Objects with their members in key order *)
Fixpoint ordered (v : json) : json :=
  match v with
  | JArr l => JArr (ordered <$> l)
  | JObj members => JObj (sort_by fst ((fun m => (fst m, ordered (snd m))) <$> members))
  | v => v
  end.

#[export] Instance compact_json : Rfc8785 | 0 := fun v => write_json (ordered v) "".

(** A normalised object has each key once. *)
Lemma normalize_members_unique seen members ms : normalize_members seen members = Ok ms ->
  NoDup (fst <$> ms) /\ forall k, k ∈ fst <$> ms -> k ∉ seen.
Proof.
  revert seen ms. induction members as [|[k v] members IH]; intros seen ms; cbn [normalize_members].
  - intros E. injection E as <-. split; [constructor|set_solver].
  - case_bool_decide as Hk; [done|]. intros (v' & _ & (rest & Hr & E)%bind_Ok)%bind_Ok. injection E as <-.
    destruct (IH _ _ Hr) as [Hn Hs]. cbn. split.
    + constructor; [|done]. intros Hin. apply (Hs _ Hin). left.
    + intros k' [->|Hk']%elem_of_cons; [done|]. specialize (Hs _ Hk'). set_solver.
Qed.

Lemma normalized_object_unique v ms : normalize_json_value v = Ok (JObj ms) -> NoDup (fst <$> ms).
Proof.
  destruct v as [|b|z|x|s|t|l|members]; try (cbn; repeat case_match; intros E; discriminate E).
  - cbn. case_match; [by destruct (normalize_datetime_string _)|done].
  - rewrite normalize_JArr. by destruct (mapR _ _).
  - rewrite normalize_JObj. destruct (normalize_members [] members) as [ms'|] eqn:E; [|done]. intros E'. injection E' as <-.
    by apply normalize_members_unique in E as [? _].
Qed.

#[export] Instance compact_json_reads : @Rfc8785Reads ascii_text compact_json.
Proof.
  split. intros v1 v2 m1 m2 k x _ N2 E A. apply write_json_inj in E as [E _]. injection E as E.
  assert (Hx : (k, JStr x) ∈ sort_by fst ((fun m => (fst m, ordered (snd m))) <$> m1)).
  { apply elem_of_sort_by, list_elem_of_fmap. exists (k, JStr x). split; [done|by apply assoc_elem]. }
  rewrite E in Hx. apply elem_of_sort_by, list_elem_of_fmap in Hx as ([k' v] & Hv & Hin). cbn in Hv. injection Hv as -> Hv.
  apply assoc_NoDup; [by eapply normalized_object_unique|]. destruct v; try done. by injection Hv as ->.
Qed.

#[export] Instance compact_json_members : @Rfc8785Members ascii_text compact_json.
Proof.
  split.
  - intros v1 v2 m1 m2 k x _ N2 E A. apply write_json_inj in E as [E _]. injection E as E.
    assert (Hx : (k, ordered x) ∈ sort_by fst ((fun m => (fst m, ordered (snd m))) <$> m1)).
    { apply elem_of_sort_by, list_elem_of_fmap. exists (k, x). split; [done|by apply assoc_elem]. }
    rewrite E in Hx. apply elem_of_sort_by, list_elem_of_fmap in Hx as ([k' v] & Hv & Hin). cbn in Hv. injection Hv as -> Hv.
    exists v. split; [apply assoc_NoDup; [by eapply normalized_object_unique|done]|]. unfold rfc8785_dumps, compact_json. by rewrite Hv.
  - intros v x t _ E. apply write_json_inj in E as [E _]. destruct x; try done.
Qed.

(** ** Sealing a snapshot
    The demo snapshot under any canonical rendering: each digest is computed once
    and kept by name, in the order the contract's preimages need them. *)
Module SnapshotBuilder.
#[export] Existing Instance ascii_text.

(** A toy scheme: a key is its text, and one signature is valid. *)
#[export] Instance toy_keys : Cryptography string := {|
  load_pem_public_key := fun pem => Some pem;
  public_bytes := fun key => Some key;
  verify_pkcs1v15_sha256 := fun key signature _ => String.eqb key "key" && String.eqb signature "signed";
|}.

(** The seconds since the collection started, in microseconds since 1970 *)
Definition at_second (n : Z) : Z := 1700000000000000 + n * 1000000.

Definition digest_or (r : result string) : string := match r with Ok d => d | Raise _ => "" end.

Section seal.
Context `{Rfc8785} (digests : list (string * string)).

(** The digest kept under a name *)
Definition sealed (name : string) : string := from_option id "" (assoc name digests).
Definition zero_digest : string := sealed "zero".

Definition tenant : string := "00000000-0000-0000-0000-0000000000aa".
Definition subscription : string := "00000000-0000-0000-0000-000000000001".
Definition identity_ref : string := "identity-0123456789ab".
Definition key_version : string := "0123456789abcdef0123456789abcdef".
Definition key_id : string := "https://shop.vault.azure.net/keys/ingest/" +:+ key_version.
Definition tool : string := "azure.resourceInventory.read".
Definition attempt_id : string := "attempt-0123456789ab".

(** ** Two web servers, from one response *)
Definition provenance (response_digest pointer : string) : EvidenceRecordProvenance := {|
  ep_collector_attempt_id := attempt_id; ep_collector_identity_evidence_ref := identity_ref; ep_tool_name := tool;
  ep_tool_version := "1.0.0"; ep_source_response_digest := Some response_digest;
  ep_source_response_pointer := Some pointer; ep_failure_payload_digest := None; ep_failure_payload_pointer := None |}.

Definition server (name response_digest pointer item_digest attempt_digest : string) : ResourceEvidenceRecord := {|
  re_resource_id := ResolutionDemo.group +:+ name; re_resource_type := "Microsoft.Compute/virtualMachines";
  re_location := "westeurope"; re_availability_zone := Some "1";
  re_tags := {| at_environment := Some "production"; at_workload_role := Some "web-service"; at_application := None;
                at_component := None; at_managed_by := None |};
  re_state := "running"; re_provenance := provenance response_digest pointer; re_item_digest := item_digest;
  re_collector_attempt_digest := attempt_digest; re_collector_identity_evidence_ref := identity_ref |}.

Definition envelope : json :=
  JObj [("items", JArr [evidence_source_projection (ResourceRecord (server "web-1" "" "" "" ""));
                                           evidence_source_projection (ResourceRecord (server "web-2" "" "" "" ""))])].
Definition response_digest : string := sealed "response".

(** ** The attempt *)
Definition attempt_with (digest : string) : CollectorAttempt := {|
  ca_attempt_id := attempt_id; ca_attempt_started_at := at_second 1; ca_tool_name := tool; ca_tool_version := "1.0.0";
  ca_request_digest := zero_digest; ca_outcome := SuccessResponse response_digest (at_second 2);
  ca_collector_identity_evidence_ref := identity_ref; ca_attempt_digest := digest |}.
Definition attempt_digest : string := sealed "attempt".
Definition attempt : CollectorAttempt := attempt_with attempt_digest.

Definition web_1_digest : string := sealed "web_1".
Definition web_2_digest : string := sealed "web_2".
Definition web_1 : ResourceEvidenceRecord := server "web-1" response_digest "/items/0" web_1_digest attempt_digest.
Definition web_2 : ResourceEvidenceRecord := server "web-2" response_digest "/items/1" web_2_digest attempt_digest.

(** ** The collector's identity *)
Definition claims : VerifiedTokenClaims := {|
  vt_issuer := "https://login.microsoftonline.com/" +:+ tenant; vt_audience := "api://athena-ingestion"; vt_tenant_id := tenant;
  vt_managed_identity_object_id := "object"; vt_managed_identity_client_id := "client"; vt_subject := "object";
  vt_jti_digest := zero_digest; vt_issued_at := at_second (-60); vt_not_before := at_second (-60); vt_expires_at := at_second 3600 |}.
Definition claims_digest : string := sealed "claims".
Definition verification_with (digest : string) : TokenVerification := {|
  tv_status := "valid"; tv_verified_at := at_second (-30); tv_key_id := "kid"; tv_verified_claims := claims;
  tv_verified_claims_digest := claims_digest; tv_jti_digest := zero_digest; tv_token_verification_digest := digest |}.
Definition verification_digest : string := sealed "verification".
Definition verification : TokenVerification := verification_with verification_digest.

Definition attempt_binding : AttemptBinding := {|
  bn_attempt_id := attempt_id; bn_attempt_type := AtSuccessResponse; bn_attempt_digest := attempt_digest; bn_tool_name := tool;
  bn_tool_version := "1.0.0"; bn_request_digest := zero_digest; bn_response_digest := Some response_digest;
  bn_failure_digest := None; bn_attempt_started_at := at_second 1; bn_response_received_at := Some (at_second 2);
  bn_deadline_at := None; bn_timed_out_at := None; bn_observed_at := None |}.
Definition derivation_with (digest : string) : IngestionDerivation := {|
  id_derivation_preimage_version := "1.0.0"; id_schema_version := "1.0.0"; id_semantic_contract_version := "1.0.0";
  id_policy_contract_version := "1.0.0"; id_identity_evidence_id := identity_ref; id_token_hash := zero_digest;
  id_token_verification_status := "valid"; id_token_verification_digest := verification_digest;
  id_verified_claims_digest := claims_digest; id_jti_digest := zero_digest; id_mcp_host_id := "host";
  id_mcp_host_tenant_id := tenant; id_mcp_host_managed_identity_object_id := "object";
  id_mcp_host_managed_identity_client_id := "client"; id_ingestion_service_id := "ingestion";
  id_ingestion_audience := "api://athena-ingestion"; id_tool_allowlist_digest := zero_digest;
  id_derived_collector_identity_ref := identity_ref; id_attempt_binding := attempt_binding; id_derived_at := at_second 3;
  id_derivation_digest := digest |}.
Definition derivation_digest : string := sealed "derivation".
Definition derivation : IngestionDerivation := derivation_with derivation_digest.

Definition ingestion_signature_with (digest : string) : IngestionSignature := {|
  is_signature_algorithm := "RS256"; is_key_vault_key_id := key_id; is_key_name := "ingest"; is_key_version := key_version;
  is_signed_preimage_digest := digest; is_signature := "c2lnbmVk"; is_signed_at := at_second 4; is_trust_anchor_ref := key_id |}.
Definition ingestion_signature : IngestionSignature := ingestion_signature_with (sealed "signature").

Definition identity_with (digest : string) : CollectorIdentityEvidence := {|
  ie_identity_evidence_id := identity_ref; ie_token_hash := zero_digest; ie_jwt_header := {| jh_alg := "RS256"; jh_kid := "kid" |};
  ie_trust_anchor_ref := key_id; ie_verified_claims := claims; ie_token_verification := verification;
  ie_ingestion_derivation := derivation; ie_ingestion_signature := ingestion_signature; ie_identity_evidence_digest := digest |}.
Definition identity_digest : string := sealed "identity".
Definition identity : CollectorIdentityEvidence := identity_with identity_digest.

(** ** The snapshot *)
Definition reference (artifact semantic : string) (r : ResourceEvidenceRecord) (pointer : string) : EvidenceReference := ItemRef {|
  ir_snapshot_id := "snapshot-1"; ir_snapshot_artifact_digest := artifact; ir_snapshot_semantic_digest := semantic;
  ir_item_digest := re_item_digest r; ir_collector_attempt_id := attempt_id; ir_collector_attempt_digest := attempt_digest;
  ir_collector_tool_name := tool; ir_collector_tool_version := "1.0.0"; ir_collector_attempt_at := at_second 2;
  ir_collector_identity_evidence_ref := identity_ref; ir_source_response_digest := response_digest;
  ir_source_response_pointer := pointer |}.

Definition blank_attestation : SnapshotAttestation := {|
  sn_artifact_kind := "evidenceSnapshot"; sn_schema_version := "1.0.0"; sn_semantic_contract_version := "1.0.0";
  sn_policy_contract_version := "1.0.0"; sn_snapshot_id := "snapshot-1"; sn_artifact_digest := ""; sn_semantic_digest := "";
  sn_identity_evidence_digests := [identity_digest]; sn_identity_evidence_set_digest := ""; sn_collected_at := at_second 0;
  sn_expires_at := at_second 3600; sn_authorized_scopes_digest := ""; sn_collector_attempt_set_digest := "";
  sn_evidence_record_set_digest := ""; sn_evidence_reference_set_digest := ""; sn_attested_at := at_second 5;
  sn_key_vault_key_id := key_id; sn_key_name := "ingest"; sn_key_version := key_version; sn_trust_anchor_ref := key_id;
  sn_signed_preimage_digest := ""; sn_signature := "c2lnbmVk" |}.

Definition snapshot_with (artifact semantic : string) (attestation : SnapshotAttestation) : EvidenceSnapshot := {|
  es_snapshot_id := "snapshot-1";
  es_compatibility := {|
    cm_artifact_kind := "evidenceSnapshot"; cm_schema_version := "1.0.0"; cm_semantic_contract_version := "1.0.0";
    cm_policy_contract_version := "1.0.0"; cm_minimum_reader_version := "1.0.0"; cm_requires_capabilities := [];
    cm_producer_id := "athena"; cm_producer_version := "1.0.0"; cm_extension_policy := "rejectUnknownDecisionFields";
    cm_artifact_digest := artifact; cm_semantic_digest := semantic |};
  es_authorized_scopes := [SubscriptionScope tenant subscription]; es_collected_at := at_second 0; es_expires_at := at_second 3600;
  es_collector := {| sc_collector_identity_evidence_ref := identity_ref; sc_mcp_host_id := "host"; sc_tenant_id := tenant;
    sc_trust_anchor_ref := key_id; sc_ingestion_service_id := "ingestion"; sc_ingestion_audience := "api://athena-ingestion";
    sc_tool_allowlist_digest := zero_digest |};
  es_collector_attempts := [attempt]; es_evidence_records := [ResourceRecord web_1; ResourceRecord web_2];
  es_evidence_refs := [reference artifact semantic web_1 "/items/0"; reference artifact semantic web_2 "/items/1"];
  es_identity_evidence := [identity]; es_snapshot_attestation := attestation |}.

Definition artifact_digest : string := sealed "artifact".
Definition semantic_digest : string := sealed "semantic".
Definition unattested : EvidenceSnapshot := snapshot_with artifact_digest semantic_digest blank_attestation.

Definition attestation_with (preimage_digest : string) : SnapshotAttestation := {|
  sn_artifact_kind := "evidenceSnapshot"; sn_schema_version := "1.0.0"; sn_semantic_contract_version := "1.0.0";
  sn_policy_contract_version := "1.0.0"; sn_snapshot_id := "snapshot-1"; sn_artifact_digest := artifact_digest;
  sn_semantic_digest := semantic_digest; sn_identity_evidence_digests := [identity_digest];
  sn_identity_evidence_set_digest := sealed "identities";
  sn_collected_at := at_second 0; sn_expires_at := at_second 3600;
  sn_authorized_scopes_digest := sealed "scopes";
  sn_collector_attempt_set_digest := sealed "attempts";
  sn_evidence_record_set_digest := sealed "records";
  sn_evidence_reference_set_digest := sealed "references";
  sn_attested_at := at_second 5; sn_key_vault_key_id := key_id; sn_key_name := "ingest"; sn_key_version := key_version;
  sn_trust_anchor_ref := key_id; sn_signed_preimage_digest := preimage_digest; sn_signature := "c2lnbmVk" |}.
Definition attestation : SnapshotAttestation := attestation_with (sealed "attestation").
Definition snapshot : EvidenceSnapshot := snapshot_with artifact_digest semantic_digest attestation.

(** Each digest with what computes it, once the ones before it are kept *)
Definition preimages : list (string * (unit -> result string)) := [
  ("zero", fun _ => compute_artifact_digest JNull);
  ("response", fun _ => compute_response_envelope_digest envelope);
  ("attempt", fun _ => compute_attempt_digest (attempt_with ""));
  ("web_1", fun _ => compute_evidence_record_digest (ResourceRecord (server "web-1" response_digest "/items/0" "" attempt_digest)));
  ("web_2", fun _ => compute_evidence_record_digest (ResourceRecord (server "web-2" response_digest "/items/1" "" attempt_digest)));
  ("claims", fun _ => compute_verified_claims_digest claims);
  ("verification", fun _ => compute_token_verification_digest (verification_with ""));
  ("derivation", fun _ => compute_artifact_digest (derivation_payload (derivation_with "")));
  ("signature", fun _ => compute_artifact_digest (signature_preimage (ingestion_signature_with "") (derivation_payload derivation)));
  ("identity", fun _ => compute_collector_identity_evidence_digest (identity_with ""));
  ("artifact", fun _ => compute_evidence_snapshot_artifact_digest (snapshot_with "" "" blank_attestation));
  ("semantic", fun _ => compute_evidence_snapshot_semantic_digest (snapshot_with "" "" blank_attestation));
  ("identities", fun _ => compute_artifact_digest (texts_json [identity_digest]));
  ("scopes", fun _ => compute_authorized_scopes_digest unattested);
  ("attempts", fun _ => compute_collector_attempt_set_digest unattested);
  ("records", fun _ => compute_evidence_record_set_digest unattested);
  ("references", fun _ => compute_evidence_reference_set_digest unattested);
  ("attestation", fun _ => compute_snapshot_attestation_preimage_digest (attestation_with ""))].

(** ** Its evaluation *)
Definition anchor : TrustedKeyAnchor := {|
  ka_key_vault_key_id := key_id; ka_key_name := "ingest"; ka_key_version := key_version;
  ka_public_key_fingerprint := sha256_hex "key" |}.
Definition trusted_key : TrustedKeyRecord string := {|
  kr_anchor := anchor; kr_public_key := KeyObject "key"; kr_enabled := true; kr_activated_at := at_second (-1000);
  kr_retired_at := None; kr_expires_at := None |}.
Definition publication : SnapshotPublicationRecord := {|
  pr_snapshot_id := "snapshot-1"; pr_artifact_digest := artifact_digest; pr_semantic_digest := semantic_digest;
  pr_schema_version := "1.0.0"; pr_semantic_contract_version := "1.0.0"; pr_published_at := at_second 6 |}.
Definition as_of : Z := at_second 10.
Definition fetch (attempt_id : string) (kind : EnvelopeKind) (digest : string) : result (option json) := Ok (Some envelope).
Definition evaluation : EvaluationContext string := {|
  ev_as_of := as_of; ev_expected_artifact_digest := artifact_digest;
  ev_publication_resolver := fun _ => Ok (Some publication); ev_identity_evidence := []; ev_identity_resolver := None;
  ev_key_resolver := Some (fun _ => Ok (Some trusted_key)); ev_trusted_key_anchor := Some anchor;
  ev_envelope_resolver := Some fetch |}.
End seal.

Fixpoint seal `{Rfc8785} (fuel : nat) (digests : list (string * string)) : list (string * string) :=
  match fuel, preimages digests !! length digests with
  | S fuel, Some (name, compute) => seal fuel (digests ++ [(name, digest_or (compute tt))])
  | _, _ => digests
  end.
End SnapshotBuilder.

Module SnapshotDemo.
#[export] Existing Instance ascii_text.
#[export] Existing Instance compact_json.
Export SnapshotBuilder.
Definition digests : list (string * string) := Eval vm_compute in seal 20 [].
Definition snapshot : EvidenceSnapshot := Eval vm_compute in SnapshotBuilder.snapshot digests.
Definition evaluation : EvaluationContext string := SnapshotBuilder.evaluation digests.
Definition web_1 : ResourceEvidenceRecord := SnapshotBuilder.web_1 digests.
Definition web_2 : ResourceEvidenceRecord := SnapshotBuilder.web_2 digests.

Lemma snapshot_validated : validate_snapshot snapshot = Ok tt.
Proof. vm_cast_no_check (eq_refl (@Ok unit tt)). Qed.
Lemma snapshot_evaluated : validate_for_evaluation snapshot evaluation = Ok snapshot.
Proof. vm_cast_no_check (eq_refl (Ok snapshot)). Qed.
End SnapshotDemo.

Module SnapshotWitnesses.
Import SnapshotDemo.

Definition first_ref : EvidenceReference :=
  reference digests (artifact_digest digests) (semantic_digest digests) web_1 "/items/0".

Lemma references_resolve_records_witness :
  length (select (reference_resolves first_ref) (es_evidence_records snapshot)) = 1%nat /\
  length (select (fun ref => reference_resolves ref (ResourceRecord web_2)) (es_evidence_refs snapshot)) = 1%nat.
Proof.
  destruct (references_resolve_records snapshot snapshot_validated) as [Hrefs Hrecords]. split.
  - apply Hrefs. left.
  - apply Hrecords. right. left.
Defined.

Lemma evaluated_records_from_signed_responses_witness :
  exists a i, a ∈ es_collector_attempts snapshot /\ signed_attempt snapshot evaluation i a.
Proof.
  destruct (evaluated_records_from_signed_responses snapshot evaluation snapshot snapshot_validated snapshot_evaluated)
    as (_ & _ & Hr).
  destruct (Hr (ResourceRecord web_1) (re_provenance web_1)) as (a & i & _ & _ & _ & _ & _ & _ & _ & _ & (Ha & _ & _ & Hs) & _).
  - left.
  - reflexivity.
  - exists a, i. split; [exact Ha|exact Hs].
Defined.

End SnapshotWitnesses.

(** ** Two audit histories
    They differ in the offset that the timestamp of a reason is written with, which
    the canonical form of the reason does not keep. *)
Module AuditWitness.
#[export] Existing Instance ascii_text.
#[export] Instance audit_datetime : PydanticJson := canonical_timestamp.

Definition recorded_event (reason : string) : PendingAuditEvent := {|
  pa_occurred_at := 1700000000000000; pa_actor := {| ac_actor_id := "ann"; ac_kind := ActorHuman |}; pa_action := DraftCreated;
  pa_manifest_id := "shop"; pa_draft_id := Some "d1"; pa_revision := Some 1; pa_previous_revision := None;
  pa_manifest_version := Some "1.0.0"; pa_previous_version := None; pa_replacement_version := None; pa_publication_actor := None;
  pa_publication_timestamp := None; pa_manifest_digest := "digest"; pa_reason := reason |}.
Definition stored_event (reason digest : string) : AuditEvent :=
  {| ae_event := recorded_event reason; ae_sequence := 1; ae_event_id := "audit-00000001"; ae_previous_event_digest := None;
     ae_event_digest := digest |}.
Definition reason : string := "2026-07-01T00:00:00Z".
Definition reason' : string := "2026-07-01T02:00:00+02:00".
Definition digest : string := Eval vm_compute in
  match audit_event_digest (recorded_event reason) 1 "audit-00000001" None with Ok d => d | Raise _ => "" end.

Lemma history_verifies : verify_audit_chain [stored_event reason digest] = Ok tt.
Proof. vm_cast_no_check (eq_refl (@Ok unit tt)). Qed.
Lemma history_verifies' : verify_audit_chain [stored_event reason' digest] = Ok tt.
Proof. vm_cast_no_check (eq_refl (@Ok unit tt)). Qed.

Lemma tamper_evident_witness :
  Forall2 same_event [stored_event reason digest] [stored_event reason' digest] \/
  exists e1 e2, e1 ∈ [stored_event reason digest] /\ e2 ∈ [stored_event reason' digest] /\ collision e1 e2.
Proof.
  exact (audit_history_tamper_evident ascii_nfc_ascii ascii_nfc_idem _ _ history_verifies history_verifies' eq_refl).
Defined.
End AuditWitness.
