(* ===== verification/ProposeDemo.v ===== *)
(** * ProposeDemo: proposing the web servers of the demo snapshot

    A resolved profile with a web role, the snapshot of [SnapshotBuilder] sealed
    under a short rendering, verified, and the batch of proposals the engine
    builds from them; the theorems of the proposal engine are applied to it. *)
From stdpp Require Import pretty.
From S2P Require Import Prelude Text Time Json Concrete Demo ResolutionDemo SnapshotDemo.
From S2P Require Import SnapshotEvaluation ProposeProps.
Local Open Scope Z_scope.

Module ProposeDemo.
#[export] Existing Instance ascii_text.
(** The members of an object count in key order, as in RFC 8785. *)
#[export] Instance brief_json : Rfc8785 | 0 := fun v => pretty (LifecycleDemo.mix_json 0 (ordered v)).
Export SnapshotBuilder.
Definition digests : list (string * string) := Eval vm_compute in seal 20 [].
Definition snapshot : EvidenceSnapshot := Eval vm_compute in SnapshotBuilder.snapshot digests.
Definition evaluation : EvaluationContext string := SnapshotBuilder.evaluation digests.

(** The normalised id of a server *)
Definition server_id (name : string) : string :=
  "/subscriptions/00000000-0000-0000-0000-000000000001/resourcegroups/shop/providers/microsoft.compute/virtualmachines/" +:+ name.

(** ** The profile *)
Definition role (id kind : string) (cardinality : ManifestCardinality) (selectors : list ManifestSelector) : ManifestRole := {|
  mr_role_id := id; mr_kind := kind; mr_cardinality := cardinality; mr_selectors := selectors; mr_owner_ref := "ops";
  mr_status := RoleApproved |}.
Definition web_names : ManifestSelector := Atomic (NamePredicateSelector "web-names" (Some "web-") None 5).
Definition web : ManifestRole := role "web" "webService" OneOrMoreCardinality [web_names].
Definition database : ManifestRole := role "database-primary" "singletonDatabase" ExactlyOneCardinality
  [Atomic (NamePredicateSelector "db-names" (Some "db") None 1)].
Definition worker : ManifestRole := role "worker" "worker" OneOrMoreCardinality
  [Atomic (NamePredicateSelector "worker-names" (Some "worker-") None 5)].

Definition profile_with (artifact semantic : string) : ResolvedManifestProfile := {|
  rp_manifest_id := "shop"; rp_manifest_version := "1.0.0"; rp_profile_id := "production"; rp_profile_type := "production";
  rp_allowed_evidence_scopes := [SubscriptionScope tenant subscription];
  rp_compatibility := {|
    cm_artifact_kind := "resolvedProfile"; cm_schema_version := "1.0.0"; cm_semantic_contract_version := "1.0.0";
    cm_policy_contract_version := "1.0.0"; cm_minimum_reader_version := "1.0.0"; cm_requires_capabilities := [];
    cm_producer_id := "athena"; cm_producer_version := "1.0.0"; cm_extension_policy := "rejectUnknownDecisionFields";
    cm_artifact_digest := artifact; cm_semantic_digest := semantic |};
  rp_inheritance_chain := ["production"];
  rp_settings := {| st_continuity := {| cn_zone_loss_continuity_required := true |} |};
  rp_roles := [web; database; worker]; rp_relationships := [];
  rp_constraints := [ResolutionDemo.singleton; ResolutionDemo.zone_loss; ResolutionDemo.zone_acceptance;
                     ResolutionDemo.colocation; ResolutionDemo.web_zones 2];
  rp_controls := []; rp_risk_acceptances := []; rp_objectives := [];
  rp_ownership := [ {| mo_owner_ref := "ops"; mo_owner_role := "operations"; mo_authority_ref := "cto" |} ];
  rp_resolved_profile_digest := semantic |}.
Definition profile : ResolvedManifestProfile :=
  Eval vm_compute in profile_with (digest_or (compute_artifact_digest (resolved_digest_payload (profile_with "" "") false)))
                       (digest_or (compute_artifact_digest (resolved_digest_payload (profile_with "" "") true))).

(** ** The verified snapshot and the batch *)
Definition verifier (s : EvidenceSnapshot) (as_of : Z) : result VerifierReturn :=
  s ← validate_for_evaluation s evaluation; Ok (SameObject s).
Definition verified : VerifiedCohortSnapshot := {|
  vs_snapshot := snapshot; vs_verified_at := as_of; vs_artifact_digest := artifact_digest digests;
  vs_semantic_digest := semantic_digest digests; vs_marked := true |}.

Lemma snapshot_constructed : construct_snapshot snapshot = Ok tt.
Proof. vm_cast_no_check (eq_refl (@Ok unit tt)). Qed.
Lemma snapshot_verified : verify_cohort_snapshot snapshot as_of verifier = Ok verified.
Proof. vm_cast_no_check (eq_refl (Ok verified)). Qed.

Definition batch_or (r : result CohortProposalBatch) : CohortProposalBatch :=
  match r with
  | Ok b => b
  | Raise _ => {| ct_scope := proposal_scope profile; ct_snapshot := snapshot_details snapshot; ct_evaluated_at := 0;
                  ct_input_digest := ""; ct_proposal_set_digest := ""; ct_proposals := []; ct_conflicts := [];
                  ct_requires_human_review := true; ct_publication_allowed := false; ct_manifest_mutated := false |}
  end.
Definition batch : CohortProposalBatch := Eval vm_compute in batch_or (propose_cohorts profile verified as_of).
Lemma batch_proposed : propose_cohorts profile verified as_of = Ok batch.
Proof. vm_cast_no_check (eq_refl (Ok batch)). Qed.

Definition index_or (r : result EvidenceIndex) : EvidenceIndex :=
  match r with
  | Ok index => index
  | Raise _ => {| ei_resources := []; ei_resource_refs := ∅; ei_communications := ∅; ei_rejection_reasons := ∅; ei_conflicts := [] |}
  end.
Definition index : EvidenceIndex := Eval vm_compute in index_or (build_evidence_index profile snapshot as_of).
Lemma index_built : build_evidence_index profile snapshot as_of = Ok index.
Proof. vm_cast_no_check (eq_refl (Ok index)). Qed.

(** The proposal of the web role is the second of the batch. *)
Definition web_proposal : CohortProposal :=
  Eval vm_compute in match ct_proposals batch with
                     | _ :: p :: _ => p
                     | _ => {| cp_proposal_id := ""; cp_scope := proposal_scope profile; cp_role := web; cp_members := [];
                               cp_confidence := float_0; cp_confidence_band := BandLow; cp_supporting_evidence := []; cp_dissent := [];
                               cp_rejected_candidates := []; cp_conflicts := []; cp_selector_preview := None;
                               cp_snapshot := snapshot_details snapshot; cp_disposition := ""; cp_requires_human_review := true;
                               cp_bulk_review_eligible := false; cp_publication_allowed := false; cp_manifest_mutated := false |}
                     end.
Lemma web_proposed : web_proposal ∈ ct_proposals batch.
Proof. vm_compute. right. left. Qed.

Definition names_evaluation : SelectorEvaluation :=
  Eval vm_compute in match evaluate_selector web_names (ei_all_resources index) with
                     | Ok e => e
                     | Raise _ => {| sv_selector := web_names; sv_status := SelNoMatches; sv_matched_resource_ids := [];
                                     sv_rejected_resource_ids := []; sv_max_matches := 0; sv_max_match_violations := [];
                                     sv_selector_result_digest := "" |}
                     end.
Lemma names_evaluated : evaluate_selector web_names (ei_all_resources index) = Ok names_evaluation.
Proof. vm_cast_no_check (eq_refl (Ok names_evaluation)). Qed.

(** Both servers are proposed for the web role, with a preview. *)
Example web_cohort : length (cp_members web_proposal) = 2%nat /\ present (cp_selector_preview web_proposal) = true.
Proof. by split. Qed.
End ProposeDemo.

Module ProposeWitnesses.
Import ProposeDemo.

Lemma proposals_partition_eligible_resources_witness :
  exists i, build_evidence_index profile snapshot as_of = Ok i /\ NoDup (concat (cp_members <$> ct_proposals batch)) /\
    eligible i (approved_roles profile) web (server_id "web-1").
Proof.
  destruct (proposals_partition_eligible_resources profile verified as_of batch batch_proposed) as (i & Hi & Hn & He).
  exists i. split_and!; [exact Hi|exact Hn|]. apply (He web (server_id "web-1")).
  exists web_proposal. split_and!; [exact web_proposed|reflexivity|vm_compute; left].
Defined.

Lemma proposed_members_in_scope_witness :
  exists record environment ref, ResourceRecord record ∈ es_evidence_records snapshot /\
    at_environment (re_tags record) = Some environment /\ resource_record_refs snapshot record = [ref].
Proof.
  destruct (proposed_members_in_scope profile verified as_of batch web_proposal (server_id "web-2"))
    as (record & environment & ref & Hr & _ & _ & _ & _ & He & _ & Href).
  - exact batch_proposed.
  - exact web_proposed.
  - vm_compute. right. left.
  - exists record, environment, ref. split_and!; [exact Hr|exact He|exact Href].
Defined.

Lemma small_cohorts_have_exact_previews_witness :
  exists i, build_evidence_index profile snapshot as_of = Ok i /\
  ((exists q, cp_selector_preview web_proposal = Some q /\
     evaluate (ei_resources i) (pv_selector q) = Ok (list_to_set (cp_members web_proposal), []) /\
     pv_matched_resource_ids q = cp_members web_proposal) \/
   ((forall id, id ∈ cp_members web_proposal <-> id ∈ fst <$> ei_resources i) /\
    exists candidates, preview_candidates (cp_role web_proposal) profile (cp_members web_proposal) i = Ok candidates /\
      forall a m, a ∈ candidates -> ~ covers i (cp_members web_proposal) a m)).
Proof.
  apply (small_cohorts_have_exact_previews profile verified as_of batch web_proposal).
  - exact snapshot_constructed.
  - exact batch_proposed.
  - exact web_proposed.
  - vm_compute. discriminate.
  - vm_compute. lia.
Defined.

Lemma bulk_review_unreachable_witness :
  cp_confidence_band web_proposal <> BandHigh /\ cp_disposition web_proposal = "humanResolution" /\
  cp_bulk_review_eligible web_proposal = false.
Proof. exact (bulk_review_unreachable profile verified as_of batch web_proposal batch_proposed web_proposed). Defined.

Lemma proposals_read_verified_content_witness :
  as_of = as_of /\ es_collected_at snapshot <= as_of < es_expires_at snapshot /\
  compute_evidence_snapshot_artifact_digest snapshot = compute_evidence_snapshot_artifact_digest snapshot /\
  compute_evidence_snapshot_semantic_digest snapshot = compute_evidence_snapshot_semantic_digest snapshot.
Proof.
  exact (proposals_read_verified_content snapshot as_of verifier verified snapshot profile as_of batch snapshot_verified batch_proposed).
Defined.
End ProposeWitnesses.
