(* ===== verification/DecideProps.v ===== *)
(** * DecideProps: what recorded cohort decisions guarantee

    The decision service on the store: its transactions are steps of the
    service's history, a retried request returns its record, and no two
    decisions ever overlap. *)
From S2P Require Import Prelude Text Sha256 Time Json Authorization.
From S2P Require Export LifecycleProps Decide.
Local Open Scope Z_scope.

(** ** Running computations *)
Section running.
Context `{ResponseCodec}.

Lemma tx_bind_run {A B} (m : txM A) (k : A -> txM B) tx a tx1 : m tx = Ok (a, tx1) -> (m ≫= k) tx = k a tx1.
Proof. intros E. unfold mbind, txM_bind. by rewrite E. Qed.

(** The store after a transaction depends on the working copy alone. *)
Lemma transaction_same {A B} (body : txM A) (body' : txM B) store a b tx :
  body (enter store) = Ok (a, tx) -> body' (enter store) = Ok (b, tx) ->
  snd (transaction body store) = snd (transaction body' store).
Proof. intros E E'. by rewrite !transaction_spec, E, E'. Qed.

Lemma transaction_Ok {A} (body : txM A) store a store' :
  transaction body store = (Ok a, store') -> exists tx, body (enter store) = Ok (a, tx) /\
    (store' = store \/ cs_data store' = tx_data tx).
Proof.
  rewrite transaction_spec. destruct (body (enter store)) as [[a' tx]|e]; [|done]. intros [= -> <-].
  exists tx. split; [done|]. destruct (tx_dirty tx); [by right|by left].
Qed.
End running.

Lemma construct_decision_record_Ok `{PyText} d d' : construct_decision_record d = Ok d' -> d' = d.
Proof. unfold construct_decision_record. intros Hc. by inv_ok. Qed.

Section history.
Context `{PyText} `{PyStr} `{Rfc8785} `{PydanticJson} `{ResponseCodec} `{!ManifestContract} `{!ManifestSetDump} `{!CohortText}
  `{!AuthorizationPort} `{!ExplicitAuthorizationPort}
  `{ModelDump CohortDecisionApplyBinding} `{ModelDump ReplaceDraftCommand} `{ModelDump CohortReviewCandidate}
  `{ModelDump CohortDecisionRequest} `{ModelDump CohortDecisionRecord}
  `{ModelDump CreateDraftCommand} `{ModelDump TransitionCommand} `{ModelDump ReviewCommand} `{ModelDump ApproveCommand}
  `{ModelDump PublishCommand} `{ModelDump SupersedeCommand} `{ModelDump IssueOperationalContextReceiptCommand}.
Context (publisher : Actor).

(** ** Reads *)
Lemma replay_read_only actor key digest m : read_only (replay actor key digest m).
Proof. unfold read_only, replay. tx_frame. Qed.

Lemma current_draft_read_only r v : read_only (require_current_draft r v).
Proof. unfold read_only, require_current_draft. tx_frame. Qed.

Lemma plan_read_only ports persistence actor r id clock decision_clock :
  read_only (plan_decision ports persistence actor r id clock decision_clock).
Proof. unfold read_only, plan_decision. tx_frame. apply current_draft_read_only. Qed.

(** ** Transactions are steps *)
Lemma cohort_actions_cons a l tx tx1 u tx2 :
  cohort_action a tx = Ok (tt, tx1) -> cohort_actions l tx1 = Ok (u, tx2) -> cohort_actions (a :: l) tx = Ok (u, tx2).
Proof. intros Ha Hl. cbn [cohort_actions]. by rewrite (tx_bind_run _ _ _ _ _ Ha). Qed.

(** The writes of a decision are four actions of the cohort services. *)
Lemma record_decision_actions actor key digest r id final_clock plan record tx tx' :
  record_decision actor key digest r id final_clock plan tx = Ok (record, tx') ->
  exists actions, cohort_actions actions tx = Ok (tt, tx').
Proof.
  unfold record_decision. intros Hr. inv_tx.
  match goal with H : decision_record _ _ _ _ _ _ _ _ = Ok ?d |- _ =>
    assert (Hd : construct_decision_record d = Ok d);
      [unfold decision_record in H; inv_ok; match goal with C : construct_decision_record _ = Ok _ |- _ =>
         pose proof (construct_decision_record_Ok _ _ C) as ->; exact C end|] end.
  match goal with H : append_audit ?e _ = Ok _, P : put_cohort_decision ?d _ = Ok (?u, _), D : apply_draft _ _ _ _ _ _ _ = Ok _,
    R : put_cohort_decision_receipt ?x _ = Ok (?v, _) |- _ =>
    destruct u, v; exists (ActAppendAudit e :: ActPutDecision d ::
      (match pn_apply plan with
       | Some a => [ActReplaceDraft actor (dq_draft_id r) (ap_command a) (pn_decided_at plan) id final_clock] | None => [] end)
      ++ [ActPutDecisionReceipt x]) end.
  eapply cohort_actions_cons; [cbn [cohort_action]; erewrite tx_bind_run by eassumption; reflexivity|].
  eapply cohort_actions_cons; [cbn [cohort_action]; rewrite (tx_bind_run _ _ _ _ _ (f_equal (fun x => match x with Ok a => Ok (a, _) | Raise e => Raise e end) Hd)) || (unfold liftR; rewrite Hd; cbn); eassumption|].
  unfold apply_draft in *. destruct (pn_apply plan) as [a|]; inv_tx; cbn [app].
  - eapply cohort_actions_cons; [cbn [cohort_action]; erewrite tx_bind_run by eassumption; reflexivity|].
    eapply cohort_actions_cons; [cbn [cohort_action]; eassumption|done].
  - eapply cohort_actions_cons; [cbn [cohort_action]; eassumption|done].
Qed.

Lemma decide_body_step ports persistence actor key digest r clock dc fc store :
  step publisher store (snd (transaction (decide_body ports persistence actor key digest r clock dc fc) store)).
Proof.
  destruct (decide_body ports persistence actor key digest r clock dc fc (enter store)) as [[record tx]|e] eqn:E.
  - assert (exists actions, cohort_actions actions (enter store) = Ok (tt, tx)) as [actions Ha].
    { unfold decide_body in E. apply tx_bind_Ok in E as (replayed & tx1 & Hr & E).
      apply replay_read_only in Hr as <-. destruct replayed as [decision|]; [inv_tx; by exists []|].
      apply tx_bind_Ok in E as (plan & tx2 & Hp & E). apply plan_read_only in Hp as <-.
      by eapply record_decision_actions. }
    eapply (step_cohort _ _ _ actions). by eapply transaction_same.
  - eapply (step_cohort _ _ _ []). by rewrite !transaction_spec, E.
Qed.

Lemma ensure_baseline_step actor id revision version digest store :
  step publisher store (snd (ensure_selector_baseline_for_decision actor id revision version digest store)).
Proof.
  unfold ensure_selector_baseline_for_decision.
  match goal with |- context [transaction ?b store] => destruct (b (enter store)) as [[bl tx]|e] eqn:E end.
  - assert (exists d, cohort_actions [ActEnsureBaseline d] (enter store) = Ok (tt, tx)) as [d Ha].
    { inv_tx. match goal with R : require_selector_baseline ?d _ = Ok (_, _) |- _ => exists d end.
      assert (x6 = enter store) as -> by (destruct (sd_draft_selector_baselines _ !! id); inv_tx; done).
      eapply cohort_actions_cons; [|done]. cbn [cohort_action]. by erewrite tx_bind_run by eassumption. }
    eapply (step_cohort _ _ _ [_]). by eapply transaction_same.
  - eapply (step_cohort _ _ _ []). by rewrite !transaction_spec, E.
Qed.

Lemma decide_history ports persistence interleave actor key r clock dc fc store :
  (forall n s, rtc (step publisher) s (interleave n s)) ->
  rtc (step publisher) store (snd (decide ports persistence interleave actor key r clock dc fc store)).
Proof.
  intros Hi. unfold decide. destruct (enter_decide actor r) as [digest|e]; [|done].
  assert (Hp : forall s, snd (transaction (replay actor key digest (dq_manifest_id r)) s) = s)
    by (intros s; apply read_only_transaction, replay_read_only).
  pose proof (Hp (interleave 0%nat store)) as Hs0. destruct (transaction _ (interleave 0%nat store)) as [[[d|]|e] s0];
    cbn in Hs0; subst s0; cbn [snd]; [apply Hi| |apply Hi].
  pose proof (ensure_baseline_step actor (dq_draft_id r) (dq_expected_revision r) (dq_manifest_version r)
                (dq_expected_digest r) (interleave 1%nat (interleave 0%nat store))) as Hs1.
  set (base := interleave 1%nat _) in *.
  assert (Hb : rtc (step publisher) store base) by (etrans; apply Hi).
  destruct (ensure_selector_baseline_for_decision _ _ _ _ _ base) as [[b|e] s1]; cbn [snd] in Hs1 |- *;
    [|by eapply rtc_r].
  assert (Hs2 : rtc (step publisher) store (interleave 2%nat s1)) by (etrans; [by eapply rtc_r|apply Hi]).
  pose proof (Hp (interleave 2%nat s1)) as Hs3.
  destruct (transaction _ (interleave 2%nat s1)) as [[[d|]|e] s3]; cbn in Hs3; subst s3; cbn [snd]; [done| |done].
  eapply rtc_r; [|apply decide_body_step]. etrans; [exact Hs2|apply Hi].
Qed.

(** ** Retries *)

(** What a completed decision leaves in the store: the receipt of its key and
    the record the receipt names. *)
Definition recorded (actor : Actor) (key digest : string) (r : CohortDecisionRequest) (record : CohortDecisionRecord)
    (s : StoreData) : Prop :=
  exists receipt, sd_cohort_decision_receipts s !! (ac_actor_id actor, key) = Some receipt /\
    sd_cohort_decisions s !! (cdr_manifest_id receipt, cdr_decision_id receipt) = Some record /\
    replay_from_receipt receipt (Some record) digest (dq_manifest_id r) = Ok record.

Lemma recorded_grows actor key digest r record s s' :
  grows s s' -> recorded actor key digest r record s -> recorded actor key digest r record s'.
Proof.
  intros Hg (receipt & Hr & Hd & Hp). exists receipt. split_and!; [|by eapply lookup_weaken, Hg|done].
  eapply lookup_weaken; [done|]. apply (gr_decision_receipts _ _ Hg).
Qed.

Lemma replay_recorded actor key digest r record s tx :
  recorded actor key digest r record s -> tx_data tx = s ->
  replay actor key digest (dq_manifest_id r) tx = Ok (Some record, tx).
Proof.
  intros (receipt & Hr & Hd & Hp) <-. unfold replay.
  erewrite tx_bind_run; [|unfold get_cohort_decision_receipt, reads; rewrite Hr; reflexivity]. cbn beta iota.
  erewrite tx_bind_run; [|unfold get_cohort_decision, reads; rewrite Hd; reflexivity].
  erewrite tx_bind_run; [|unfold liftR; rewrite Hp; reflexivity]. done.
Qed.

Lemma replay_Some actor key digest r record tx tx' :
  replay actor key digest (dq_manifest_id r) tx = Ok (Some record, tx') -> recorded actor key digest r record (tx_data tx).
Proof.
  unfold replay. intros (o & tx1 & [-> ->]%reads_Ok & Hr)%tx_bind_Ok.
  destruct (sd_cohort_decision_receipts _ !! _) as [receipt|] eqn:E; [|by apply tx_ret_Ok in Hr as [[=] _]].
  apply tx_bind_Ok in Hr as (d & tx2 & [-> ->]%reads_Ok & Hr). apply tx_bind_Ok in Hr as (d & tx2 & [Hp ->]%liftR_Ok & Hr).
  apply tx_ret_Ok in Hr as [[= <-] _]. exists receipt. split; [done|].
  assert (Hd : sd_cohort_decisions (tx_data tx) !! (cdr_manifest_id receipt, cdr_decision_id receipt) = Some record).
  { unfold replay_from_receipt in Hp. destruct (sd_cohort_decisions _ !! _); inv_ok; by subst. }
  by rewrite Hd in Hp.
Qed.

Lemma put_decision_receipt_Ok x u tx tx' : put_cohort_decision_receipt x tx = Ok (u, tx') ->
  sd_cohort_decision_receipts (tx_data tx) !! (cdr_actor_id x, cdr_idempotency_key x) = None /\
  sd_cohort_decision_receipts (tx_data tx') =
    <[(cdr_actor_id x, cdr_idempotency_key x) := x]> (sd_cohort_decision_receipts (tx_data tx)) /\
  sd_cohort_decisions (tx_data tx') = sd_cohort_decisions (tx_data tx) /\ tx_dirty tx' = true /\
  sd_drafts (tx_data tx') = sd_drafts (tx_data tx).
Proof.
  unfold put_cohort_decision_receipt. intros Hp. inv_tx. split_and!; try done.
  match goal with E : bool_decide _ = false |- _ => by apply bool_decide_eq_false, eq_None_not_Some in E end.
Qed.

Lemma put_decision_Ok d u tx tx' : put_cohort_decision d tx = Ok (u, tx') ->
  sd_cohort_decisions (tx_data tx) !! (cd_manifest_id d, cd_decision_id d) = None /\
  overlapping_decisions (proposal_set_version d) (tx_data tx) = [] /\
  sd_cohort_decisions (tx_data tx') = <[(cd_manifest_id d, cd_decision_id d) := d]> (sd_cohort_decisions (tx_data tx)) /\
  sd_cohort_decision_receipts (tx_data tx') = sd_cohort_decision_receipts (tx_data tx) /\
  sd_drafts (tx_data tx') = sd_drafts (tx_data tx).
Proof.
  unfold put_cohort_decision. intros Hp. inv_tx. split_and!; try done.
  - match goal with E : bool_decide (is_Some (sd_cohort_decisions _ !! _)) = false |- _ =>
      by apply bool_decide_eq_false, eq_None_not_Some in E end.
  - match goal with E : negb _ = false |- _ => by apply negb_false_iff, bool_decide_eq_true in E end.
Qed.

Lemma apply_draft_grows actor r id t fc a : preserves tx_grows (apply_draft actor r id t fc a).
Proof. unfold apply_draft. tx_frame. apply replace_grows. Qed.

Lemma decision_record_fields actor r w id t a authorities audit_id record :
  decision_record actor r w id t a authorities audit_id = Ok record ->
  construct_decision_record record = Ok record /\ cd_manifest_id record = dq_manifest_id r /\ cd_decision_id record = id.
Proof.
  unfold decision_record. intros Hr. inv_ok. match goal with C : construct_decision_record _ = Ok _ |- _ =>
    pose proof (construct_decision_record_Ok _ _ C) as ->; by split end.
Qed.

(** A fresh decision is recorded under its key. *)
Lemma record_decision_recorded actor key digest r id final_clock plan record tx tx' :
  record_decision actor key digest r id final_clock plan tx = Ok (record, tx') ->
  recorded actor key digest r record (tx_data tx') /\ tx_dirty tx' = true.
Proof.
  unfold record_decision. intros Hr. inv_tx.
  match goal with D : decision_record _ _ _ _ _ _ _ _ = Ok _, P : put_cohort_decision _ _ = _, A : apply_draft _ _ _ _ _ _ _ = _,
    Q : put_cohort_decision_receipt _ _ = _, R : decision_receipt _ _ _ _ = _ |- _ =>
    apply decision_record_fields in D as (_ & Dm & Di); apply put_decision_Ok in P as (_ & _ & Pd & _ & _);
    apply apply_draft_grows in A; rename A into HA; apply put_decision_receipt_Ok in Q as (_ & Qr & Qd & Qt & _);
    unfold decision_receipt in R end.
  split; [|done]. inv_ok. match goal with E : {| cdr_actor_id := _ |} = ?x |- _ => subst x end.
  eexists. rewrite Qr. cbn [cdr_actor_id cdr_idempotency_key]. rewrite lookup_insert, decide_True by done. split; [done|].
  cbn [cdr_manifest_id cdr_decision_id]. split.
  - rewrite Qd. eapply lookup_weaken; [|apply (gr_decisions _ _ HA)]. rewrite Pd. by rewrite lookup_insert, decide_True by done.
  - unfold replay_from_receipt. cbn [cdr_request_digest cdr_manifest_id cdr_decision_id cdr_decision_digest].
    rewrite Dm, !String.eqb_refl. cbn. match goal with E : compute_artifact_digest _ = Ok _ |- _ => rewrite E end. cbn.
    by rewrite String.eqb_refl.
Qed.

Lemma decide_body_recorded ports persistence actor key digest r clock dc fc record store store' :
  transaction (decide_body ports persistence actor key digest r clock dc fc) store = (Ok record, store') ->
  recorded actor key digest r record (cs_data store').
Proof.
  rewrite transaction_spec. destruct (decide_body _ _ _ _ _ _ _ _ _ _) as [[record' tx]|e] eqn:E; [|done].
  intros [= -> <-]. unfold decide_body in E. apply tx_bind_Ok in E as (replayed & tx1 & Hr & E).
  pose proof (replay_read_only _ _ _ _ _ _ _ Hr) as <-. destruct replayed as [decision|].
  - apply tx_ret_Ok in E as [-> ->]. by apply replay_Some in Hr.
  - apply tx_bind_Ok in E as (plan & tx2 & Hp & E). apply plan_read_only in Hp as <-.
    apply record_decision_recorded in E as [Hd Ht]. by rewrite Ht.
Qed.

Lemma replay_transaction actor key digest r store o store' :
  transaction (replay actor key digest (dq_manifest_id r)) store = (Ok o, store') ->
  store' = store /\ forall record, o = Some record -> recorded actor key digest r record (cs_data store).
Proof.
  intros Ht. pose proof (read_only_transaction _ store (replay_read_only actor key digest (dq_manifest_id r))) as Hs.
  rewrite Ht in Hs. cbn in Hs. split; [done|]. intros record ->.
  apply transaction_Ok in Ht as (tx & Hr & _). by apply replay_Some in Hr.
Qed.

Lemma decide_recorded ports persistence interleave actor key r clock dc fc store record store' :
  decide ports persistence interleave actor key r clock dc fc store = (Ok record, store') ->
  exists digest, enter_decide actor r = Ok digest /\ recorded actor key digest r record (cs_data store').
Proof.
  unfold decide. destruct (enter_decide actor r) as [digest|e]; [|done]. intros Hd. exists digest. split; [done|].
  destruct (transaction _ (interleave 0%nat store)) as [[[d|]|e] s0] eqn:E0; [| |done].
  { injection Hd as -> ->. apply replay_transaction in E0 as [-> Hr]. by apply Hr. }
  destruct (ensure_selector_baseline_for_decision _ _ _ _ _ _) as [[b|e] s1]; [|done].
  destruct (transaction _ (interleave 2%nat s1)) as [[[d|]|e] s3] eqn:E2; [| |done].
  { injection Hd as -> ->. apply replay_transaction in E2 as [-> Hr]. by apply Hr. }
  by eapply decide_body_recorded.
Qed.

(** C25: Retrying a completed decision, at any later time, on whatever evidence and
    batches exist then and whatever happened in between, returns the recorded
    decision and changes nothing. *)
Theorem decision_retry_is_idempotent ports persistence interleave actor key r clock dc fc store record store1 store2
    ports' persistence' interleave' clock' dc' fc' :
  decide ports persistence interleave actor key r clock dc fc store = (Ok record, store1) ->
  rtc (step publisher) store1 store2 -> (forall s, rtc (step publisher) s (interleave' 0%nat s)) ->
  decide ports' persistence' interleave' actor key r clock' dc' fc' store2 = (Ok record, interleave' 0%nat store2).
Proof.
  intros Hd Hs Hi. apply decide_recorded in Hd as (digest & He & Hr). unfold decide. rewrite He.
  assert (Hr' : recorded actor key digest r record (cs_data (interleave' 0%nat store2))).
  { eapply recorded_grows, Hr. eapply steps_grow. by etrans. }
  rewrite transaction_spec. by erewrite replay_recorded by done.
Qed.
End history.

(** * Recorded decisions never overlap

    Whatever the services do, the store only holds well-formed cohort decisions,
    and two of them never decide the same member of the same role selectors, or
    the same proposal of the same batch. *)

(** ** Overlap *)
Section overlap.
Context `{PyText}.

(** Two decisions authorize or reject a common member under common selectors. *)
Definition shares_authority (a b : list CohortRejectionAuthority) : Prop :=
  exists x y m, x ∈ a /\ y ∈ b /\ cr_selector_role_fingerprint x = cr_selector_role_fingerprint y /\
    m ∈ cr_member_fingerprints x /\ m ∈ cr_member_fingerprints y.

Lemma shares_authority_sym a b : shares_authority a b -> shares_authority b a.
Proof. intros (x & y & m & ? & ? & ? & ? & ?). by exists y, x, m. Qed.

Lemma authorities_overlap_spec a b : NoDup (cr_selector_role_fingerprint <$> b) ->
  rejection_authorities_overlap a b = true <-> shares_authority a b.
Proof.
  intros Hn. unfold rejection_authorities_overlap. rewrite existsb_exists. setoid_rewrite <- list_elem_of_In. split.
  - intros (x & Hx & Ho). destruct (dict_by _ b !! _) as [y|] eqn:E; [|done].
    apply dict_by_lookup_Some in E as [Hy Hk]. apply existsb_exists in Ho as (m & Hm%list_elem_of_In & Hb%bool_decide_eq_true).
    exists x, y, m. by split_and!.
  - intros (x & y & m & Hx & Hy & Hk & Hm & Hm'). exists x. split; [done|].
    rewrite Hk, (dict_by_lookup_inj _ b y); [|by intros z Hz; apply (NoDup_fmap_inj_on cr_selector_role_fingerprint b Hn z y Hz Hy)|done].
    apply existsb_exists. exists m. by rewrite bool_decide_eq_true, <- list_elem_of_In.
Qed.

(** A constructed record has unique fingerprints. *)
Lemma record_fingerprints_unique d d' :
  construct_decision_record d = Ok d' -> NoDup (cr_selector_role_fingerprint <$> cd_source_rejection_authorities d).
Proof. unfold construct_decision_record. intros Hc. inv_ok. by apply unique_NoDup. Qed.

Definition shares_proposal (a b : CohortDecisionRecord) : Prop :=
  exists p, p ∈ cd_source_proposal_ids a /\ p ∈ cd_source_proposal_ids b.

(** What [decision_overlaps] decides, for well-formed records *)
Definition overlap (a b : CohortDecisionRecord) : Prop :=
  (authority_overlap_identity (proposal_set_version a) = authority_overlap_identity (proposal_set_version b) /\
   shares_authority (cd_source_rejection_authorities a) (cd_source_rejection_authorities b)) \/
  (batch_overlap_identity (proposal_set_version a) = batch_overlap_identity (proposal_set_version b) /\ shares_proposal a b).

Lemma overlap_sym a b : overlap a b -> overlap b a.
Proof. intros [[? ?%shares_authority_sym]|[? (p & ? & ?)]]; [by left|right]. split; [done|by exists p]. Qed.

Lemma decision_overlaps_spec a b : NoDup (cr_selector_role_fingerprint <$> cd_source_rejection_authorities b) ->
  decision_overlaps (proposal_set_version a) b = true <-> overlap a b.
Proof.
  intros Hn. unfold decision_overlaps, overlap. cbn [proposal_set_version cv_source_rejection_authorities cv_source_proposal_ids].
  rewrite orb_true_iff, !andb_true_iff, !bool_decide_eq_true, authorities_overlap_spec by done.
  assert (Hp : existsb (fun p => bool_decide (p ∈ cd_source_proposal_ids b)) (cd_source_proposal_ids a) = true <-> shares_proposal a b).
  { rewrite existsb_exists. unfold shares_proposal. by setoid_rewrite bool_decide_eq_true; setoid_rewrite <- list_elem_of_In. }
  rewrite Hp. split; (intros [[E ?]|[E ?]]; [left|right]; by rewrite E).
Qed.
End overlap.

(** ** The invariant *)
Section history.
Context `{PyText} `{Rfc8785} `{PydanticJson} `{ResponseCodec} `{!ManifestContract} `{!AuthorizationPort}
  `{ModelDump ManifestSelector} `{ModelDump CohortDecisionApplyBinding} `{ModelDump ReplaceDraftCommand}
  `{ModelDump CreateDraftCommand} `{ModelDump TransitionCommand} `{ModelDump ReviewCommand} `{ModelDump ApproveCommand}
  `{ModelDump PublishCommand} `{ModelDump SupersedeCommand} `{ModelDump IssueOperationalContextReceiptCommand}.
Context (publisher : Actor).

Record decisions_disjoint (s : StoreData) : Prop := {
  dd_valid : forall k d, sd_cohort_decisions s !! k = Some d -> construct_decision_record d = Ok d;
  dd_disjoint : forall k1 k2 d1 d2, sd_cohort_decisions s !! k1 = Some d1 -> sd_cohort_decisions s !! k2 = Some d2 ->
    k1 <> k2 -> ~ overlap d1 d2;
}.

(** Operations that leave the decisions alone *)
Definition keeps_decisions (tx tx' : Transaction) : Prop :=
  sd_cohort_decisions (tx_data tx') = sd_cohort_decisions (tx_data tx).
#[local] Instance keeps_decisions_preorder : PreOrder keeps_decisions.
Proof. split; [by intros tx|]. intros a b c. unfold keeps_decisions. by intros ->. Qed.

Lemma read_only_keeps {A} (m : txM A) : read_only m -> preserves keeps_decisions m.
Proof. intros Hm tx a tx' E. by rewrite (Hm _ _ _ E). Qed.
Lemma baselines_grow_keeps {A} (m : txM A) : preserves baselines_grow m -> preserves keeps_decisions m.
Proof. intros Hm tx a tx' E. unfold keeps_decisions. by destruct (Hm _ _ _ E) as (b & -> & _). Qed.
Lemma put_draft_keeps d e : preserves keeps_decisions (put_draft d e).
Proof. by intros tx u tx' [_ ->]%put_draft_Ok. Qed.
Lemma put_published_keeps p : preserves keeps_decisions (put_published p).
Proof. by intros tx u tx' [_ ->]%put_published_Ok. Qed.
Lemma put_supersession_keeps r : preserves keeps_decisions (put_supersession r).
Proof. by intros tx u tx' [_ ->]%put_supersession_Ok. Qed.
Lemma put_receipt_keeps r : preserves keeps_decisions (put_receipt r).
Proof. by intros tx u tx' [_ ->]%put_receipt_Ok. Qed.
Lemma put_operational_keeps r : preserves keeps_decisions (put_operational_context_receipt r).
Proof. by intros tx u tx' [_ ->]%put_operational_receipt_Ok. Qed.
Lemma append_audit_keeps e : preserves keeps_decisions (append_audit e).
Proof. by intros tx u tx' (_ & _ & ->)%append_audit_Ok. Qed.
Lemma put_decision_receipt_keeps r : preserves keeps_decisions (put_cohort_decision_receipt r).
Proof. by intros tx u tx' (_ & _ & E & _)%put_decision_receipt_Ok. Qed.
#[local] Hint Resolve put_draft_keeps put_published_keeps put_supersession_keeps put_receipt_keeps put_operational_keeps
  append_audit_keeps put_decision_receipt_keeps : tx.
#[local] Hint Extern 2 (preserves keeps_decisions _) => apply baselines_grow_keeps;
  first [apply require_baseline_grow|apply put_baseline_grow|apply lifecycle_manifest_grow] : tx.
#[local] Hint Extern 3 (preserves keeps_decisions _) => apply read_only_keeps;
  first [apply require_draft_read_only|apply require_published_read_only|apply ensure_lineage_read_only
        |apply check_rollback_read_only|apply selector_reference_read_only|apply new_baseline_read_only
        |apply draft_authority_read_only|apply lifecycle_authority_read_only|apply cohort_apply_read_only
        |apply operational_receipt_read_only] : tx.

Lemma replace_keeps actor id command t decision c1 c2 :
  preserves keeps_decisions (replace_draft_in_transaction actor id command t decision c1 c2).
Proof. unfold replace_draft_in_transaction, store_transition. tx_frame. Qed.
#[local] Hint Resolve replace_keeps : tx.

Lemma call_body_keeps actor call clock : preserves keeps_decisions (call_body publisher actor call clock).
Proof.
  destruct call; cbn [call_body];
    unfold create_body, validate_body, issue_body, submit_body, review_body, approve_body, publish_body, supersede_body,
      store_transition; tx_frame.
Qed.

Lemma apply_call_keeps actor key call clock store :
  sd_cohort_decisions (cs_data (snd (apply_call publisher actor key call clock store))) = sd_cohort_decisions (cs_data store).
Proof.
  unfold apply_call. destruct (call_target call) as [target|]; [|done]. unfold mutate.
  destruct (mutation_request_digest _ _ _ _) as [digest|]; [|done].
  match goal with |- context [transaction ?b _] => destruct (transaction_data b store) as [->|(a & tx & E & _ & ->)] end; [done|].
  assert (Hk : forall m, preserves keeps_decisions m -> forall o t d x, preserves keeps_decisions (mutate_body actor key o t d x m))
    by (intros m Hm o t d x; unfold mutate_body; tx_frame).
  exact (Hk _ (call_body_keeps actor call clock) _ _ _ _ _ _ _ E).
Qed.

Lemma disjoint_same s s' : sd_cohort_decisions s' = sd_cohort_decisions s -> decisions_disjoint s -> decisions_disjoint s'.
Proof. intros E [Hv Hd]. split; rewrite E; eauto. Qed.

Lemma put_decision_disjoint d u tx tx' : construct_decision_record d = Ok d ->
  put_cohort_decision d tx = Ok (u, tx') -> decisions_disjoint (tx_data tx) -> decisions_disjoint (tx_data tx').
Proof.
  intros Hc (Hnone & Hov & Hs & _ & _)%put_decision_Ok [Hv Hd].
  assert (Hfree : forall k d', sd_cohort_decisions (tx_data tx) !! k = Some d' -> ~ overlap d d').
  { intros k d' Hk Ho. apply decision_overlaps_spec in Ho; [|by eapply record_fingerprints_unique, Hv].
    assert (Hin : d' ∈ overlapping_decisions (proposal_set_version d) (tx_data tx)); [|by rewrite Hov in Hin; apply elem_of_nil in Hin].
    unfold overlapping_decisions. rewrite elem_of_sort_by, elem_of_select. split; [|done].
    rewrite list_elem_of_fmap. exists (k, d'). split; [done|]. by apply elem_of_map_to_list. }
  split; rewrite Hs.
  - intros k d'. rewrite lookup_insert. case_decide; [by intros [= <-]|apply Hv].
  - intros k1 k2 d1 d2. rewrite !lookup_insert. do 2 case_decide; subst.
    + done.
    + intros [= <-] L2 _. by eapply Hfree.
    + intros L1 [= <-] _ Ho%overlap_sym. by eapply Hfree.
    + apply Hd.
Qed.

Lemma cohort_action_disjoint a u tx tx' :
  cohort_action a tx = Ok (u, tx') -> decisions_disjoint (tx_data tx) -> decisions_disjoint (tx_data tx').
Proof.
  intros Ha. destruct a as [d|d|e|actor id command t decision c|x]; cbn [cohort_action] in Ha.
  - apply disjoint_same. revert Ha. apply (preserves_bind keeps_decisions); intros; tx_frame.
  - apply tx_bind_Ok in Ha as (d' & tx1 & [Hc ->]%liftR_Ok & Hp). pose proof (construct_decision_record_Ok _ _ Hc) as ->.
    by eapply put_decision_disjoint.
  - apply disjoint_same. revert Ha. apply (preserves_bind keeps_decisions); intros; tx_frame.
  - apply disjoint_same. revert Ha. apply (preserves_bind keeps_decisions); intros; tx_frame.
  - apply disjoint_same. by apply put_decision_receipt_keeps in Ha.
Qed.

Lemma step_disjoint store store' :
  step publisher store store' -> decisions_disjoint (cs_data store) -> decisions_disjoint (cs_data store').
Proof.
  intros [actor key call clock earlier _ <-|actions <-]; [apply disjoint_same, apply_call_keeps|].
  destruct (transaction_data (cohort_actions actions) store) as [->|(u & tx & Hb & _ & ->)]; [done|].
  change (cs_data store) with (tx_data (enter store)). generalize (enter store) Hb. clear Hb.
  induction actions as [|a actions IH]; intros tx0; cbn [cohort_actions]; [by intros [_ ->]%tx_ret_Ok|].
  intros (u0 & tx1 & Ha & Hl)%tx_bind_Ok Hi. eapply IH; [exact Hl|]. by eapply cohort_action_disjoint.
Qed.

Lemma reachable_disjoint store : reachable publisher store -> decisions_disjoint (cs_data store).
Proof.
  assert (Hs : forall s s', rtc (step publisher) s s' -> decisions_disjoint (cs_data s) -> decisions_disjoint (cs_data s')).
  { induction 1 as [|x y z Hs _ IH]; [done|]. intros Hi. apply IH. by eapply step_disjoint. }
  intros Hr. apply (Hs _ _ Hr). by split.
Qed.

(** C24: In every reachable store, two recorded cohort decisions of one workload and
    profile never share a member under the same role selectors, and two decisions
    of one batch never share a proposal. *)
Theorem recorded_decisions_disjoint store k1 k2 d1 d2 :
  reachable publisher store -> sd_cohort_decisions (cs_data store) !! k1 = Some d1 ->
  sd_cohort_decisions (cs_data store) !! k2 = Some d2 -> k1 <> k2 ->
  (authority_overlap_identity (proposal_set_version d1) = authority_overlap_identity (proposal_set_version d2) ->
   ~ shares_authority (cd_source_rejection_authorities d1) (cd_source_rejection_authorities d2)) /\
  (batch_overlap_identity (proposal_set_version d1) = batch_overlap_identity (proposal_set_version d2) ->
   forall p, p ∈ cd_source_proposal_ids d1 -> p ∉ cd_source_proposal_ids d2).
Proof.
  intros Hr%reachable_disjoint L1 L2 Hk. pose proof (dd_disjoint _ Hr _ _ _ _ L1 L2 Hk) as Ho. split.
  - intros E Hs. apply Ho. by left.
  - intros E p Hp1 Hp2. apply Ho. right. split; [done|by exists p].
Qed.
End history.
