(* ===== verification/ReviewProps.v ===== *)
(** * ReviewProps: review candidates are exact

    The partition of a split, and what a review candidate selects: exactly the
    reviewed members on the snapshot, and never more than the role it replaces on
    any evidence. *)
From S2P Require Import Prelude Text Json.
From S2P Require Export CohortService ProposeProps.
Local Open Scope Z_scope.

(** ** Splits *)
Lemma take_partitions_Ok sizes members :
  Forall (fun size => 1 <= size <= 200)%nat sizes -> sum_list sizes = length members ->
  exists parts, take_partitions sizes members = Ok parts /\ concat parts = members /\ length <$> parts = sizes.
Proof.
  revert members. induction sizes as [|size sizes IH]; intros members Hs Hn.
  - destruct members; [|done]. by exists [].
  - apply Forall_cons in Hs as [Hsize Hs]. change (size + sum_list sizes = length members)%nat in Hn.
    destruct (IH (drop size members) Hs) as (parts & E & Hc & Hl); [rewrite length_drop; lia|].
    assert (Hlen : length (take size members) = size) by (rewrite length_take; lia).
    exists (take size members :: parts). cbn [take_partitions]. rewrite E.
    assert (Hb : (bool_decide (take size members = []) || exceeds 200 (take size members)) = false).
    { apply orb_false_iff. unfold exceeds. rewrite Hlen. split; [|lia]. apply bool_decide_eq_false. intros E0.
      rewrite E0 in Hlen. cbn in Hlen. lia. }
    rewrite Hb. cbn. split_and!; [done| |by rewrite Hlen, Hl]. by rewrite Hc, take_drop.
Qed.

Lemma sum_sizes_below (q rem k : nat) :
  sum_list ((fun i => q + if (i <? rem)%nat then 1 else 0)%nat <$> seq 0 k) = (q * k + Nat.min k rem)%nat.
Proof.
  induction k as [|k IH]; [cbn; lia|]. rewrite seq_S, fmap_app, sum_list_with_app, IH. cbn [fmap list_fmap sum_list_with].
  change (0 + k)%nat with k. unfold id.
  destruct (Nat.ltb_spec k rem); lia.
Qed.

Lemma partition_count_bounds n : (2 <= n)%nat ->
  (2 <= partition_count n)%nat /\ (partition_count n <= n)%nat /\ (n <= 200 * partition_count n)%nat.
Proof.
  intros Hn. unfold partition_count. pose proof (Nat.div_mod_eq (n + 199) 200). pose proof (Nat.mod_upper_bound (n + 199) 200).
  assert ((n + 199) / 200 <= n)%nat by (apply Nat.Div0.div_le_upper_bound; lia). lia.
Qed.

Lemma partition_sizes_bounds n size : (2 <= n)%nat -> size ∈ partition_sizes n ->
  (1 <= size <= 200)%nat /\ (n / partition_count n <= size <= n / partition_count n + 1)%nat.
Proof.
  intros Hn. destruct (partition_count_bounds n Hn) as (H2 & Hle & H200). unfold partition_sizes.
  rewrite list_elem_of_fmap. intros (i & -> & Hi). pose proof (Nat.div_mod_eq n (partition_count n)) as Hd.
  pose proof (Nat.mod_upper_bound n (partition_count n) ltac:(lia)) as Hm.
  assert (1 <= n / partition_count n)%nat by (apply Nat.div_le_lower_bound; lia).
  destruct (Nat.ltb_spec i (n mod partition_count n)); nia.
Qed.

(** C27: A split of at least two members always succeeds: it cuts them, in order,
    into at least two partitions of at most 200 members whose sizes differ by at
    most one. *)
Theorem split_partitions_exact members : (2 <= length members)%nat ->
  exists parts, split_partitions members = Ok parts /\ concat parts = members /\ (2 <= length parts)%nat /\
    forall p q, p ∈ parts -> q ∈ parts -> (1 <= length p <= 200)%nat /\ (length p <= length q + 1)%nat.
Proof.
  intros Hn. destruct (take_partitions_Ok (partition_sizes (length members)) members) as (parts & E & Hc & Hl).
  - apply Forall_forall. intros size Hs. by apply (partition_sizes_bounds _ _ Hn).
  - unfold partition_sizes. rewrite sum_sizes_below. destruct (partition_count_bounds _ Hn) as (H2 & _).
    pose proof (Nat.div_mod_eq (length members) (partition_count (length members))).
    pose proof (Nat.mod_upper_bound (length members) (partition_count (length members))). lia.
  - exists parts. split_and!; [done..| |].
    + destruct (partition_count_bounds _ Hn) as (H2 & _).
      rewrite <- (length_fmap length), Hl. unfold partition_sizes. by rewrite length_fmap, length_seq.
    + intros p q Hp Hq. assert (Hin : forall x, x ∈ parts -> length x ∈ partition_sizes (length members))
        by (intros x Hx; rewrite <- Hl; by apply list_elem_of_fmap_2).
      destruct (partition_sizes_bounds _ _ Hn (Hin p Hp)), (partition_sizes_bounds _ _ Hn (Hin q Hq)). lia.
Qed.

(** ** Members *)
Section members.
Context `{PyText} `{Rfc8785}.
Implicit Types (dict : resource_dict) (k x : string).

(** The normalized identities of a list of resource ids *)
Definition id_set (ids : list string) : gset string := list_to_set (normalized_id <$> ids).
Lemma elem_of_id_set ids k : k ∈ id_set ids <-> exists id, id ∈ ids /\ normalized_id id = k.
Proof. unfold id_set. rewrite elem_of_list_to_set, list_elem_of_fmap. naive_solver. Qed.

Lemma normalize_ids ids l : mapR normalize_resource_id ids = Ok l -> l = normalized_id <$> ids.
Proof.
  intros Hm%mapR_Ok. induction Hm as [|id k ids l Hk _ IH]; [done|]. cbn. by rewrite (normalize_resource_id_value _ _ Hk), IH.
Qed.
Lemma normalized_members_set ids m : normalized_members ids = Ok m -> m = id_set ids.
Proof.
  unfold normalized_members. destruct (mapR _ ids) as [l|] eqn:E; [|done]. intros [= <-]. by rewrite (normalize_ids _ _ E).
Qed.

(** The members of the reviewed proposals *)
Definition reviewed (proposals : list CohortProposal) : gset string := id_set (concat (cp_members <$> proposals)).

Lemma add_members_set members acc m : foldR add_member acc members = Ok m -> m = acc ∪ id_set members.
Proof.
  revert acc. induction members as [|id members IH]; intros acc; cbn [foldR]; intros Hf; inv_ok; [subst; set_solver|].
  match goal with F : foldR _ _ _ = Ok _ |- _ => apply IH in F end. subst. unfold add_member in *. inv_ok. subst.
  match goal with N : reraise _ _ (normalize_resource_id id) = Ok _ |- _ =>
    apply reraise_Ok, normalize_resource_id_value in N as -> end.
  unfold id_set. cbn. set_solver.
Qed.
Lemma member_set_reviewed proposals m : member_set proposals = Ok m -> m = reviewed proposals.
Proof. intros Hm%add_members_set. by rewrite union_empty_l_L in Hm. Qed.
Lemma source_union_reviewed proposals l : source_union proposals = Ok l -> list_to_set l = reviewed proposals.
Proof.
  unfold source_union. intros (m & Hm & [= <-])%bind_Ok. apply member_set_reviewed in Hm as <-.
  apply set_eq. intros k. unfold sort_strings. by rewrite elem_of_list_to_set, elem_of_sort_by, elem_of_elements.
Qed.

(** ** Disjoint unions *)

(** A loop that extends two unions by the set [f] of each element, which has to
    be disjoint from both *)
Lemma disjoint_fold {A} (f : A -> gset string) (step : gset string * gset string -> A -> result (gset string * gset string)) l :
  (forall u p u', p ∈ l -> step u p = Ok u' -> u'.1 = u.1 ∪ f p /\ u'.2 = u.2 ∪ f p /\ u.1 ∩ f p = ∅) ->
  forall u u', foldR step u l = Ok u' ->
    (forall k, k ∈ u'.1 <-> k ∈ u.1 \/ exists p, p ∈ l /\ k ∈ f p) /\
    (forall k, k ∈ u'.2 <-> k ∈ u.2 \/ exists p, p ∈ l /\ k ∈ f p) /\
    (forall i p k, l !! i = Some p -> k ∈ f p -> k ∉ u.1) /\
    forall i j p q k, l !! i = Some p -> l !! j = Some q -> k ∈ f p -> k ∈ f q -> i = j.
Proof.
  induction l as [|a l IH]; intros Hstep u u'; cbn [foldR].
  - intros [= <-]. split_and!; [set_solver|set_solver|by intros|by intros].
  - intros (u1 & Ha & Hf)%bind_Ok. destruct (Hstep _ _ _ (list_elem_of_here _ _) Ha) as (E1 & E2 & Hd).
    destruct (IH ltac:(intros; eapply Hstep; [by right|done]) _ _ Hf) as (I1 & I2 & I3 & I4).
    rewrite E1 in I1, I3. rewrite E2 in I2. setoid_rewrite elem_of_cons. split_and!.
    + intros k. rewrite I1. set_solver.
    + intros k. rewrite I2. set_solver.
    + intros [|i] p k; cbn; [intros [= ->]; set_solver|]. intros Hi Hk Hu. eapply I3; [done..|]. set_solver.
    + intros [|i] [|j] p q k; cbn; intros Hp Hq Hkp Hkq; [done| | |f_equal; by eapply I4].
      * injection Hp as ->. exfalso. eapply I3; [done..|]. set_solver.
      * injection Hq as ->. exfalso. eapply I3; [done..|]. set_solver.
Qed.

(** ** Previews *)

(** The normalized ids of a preview are those of what its selector selects. *)
Definition exact_members dict (pv : SelectorPreview) : Prop :=
  forall k, k ∈ id_set (pv_matched_resource_ids pv) <-> exists x, selects dict (pv_selector pv) x /\ normalized_id x = k.

(** A preview on [dict]: its ids are what its selector selects. *)
Definition exact_preview dict (pv : SelectorPreview) : Prop :=
  forall x, x ∈ pv_matched_resource_ids pv <-> selects dict (pv_selector pv) x.

Lemma exact_preview_members dict pv : exact_preview dict pv -> exact_members dict pv.
Proof. intros He k. rewrite elem_of_id_set. split; intros (x & Hx & E); exists x; by rewrite (He x) in *. Qed.

Lemma evaluation_selects s resources e dict : evaluate_selector s resources = Ok e -> resources_by_id resources = Ok dict ->
  forall x, x ∈ sv_matched_resource_ids e <-> selects dict s x.
Proof. intros (dict' & Hd & He)%evaluate_selector_selects Hd'. same_ok. exact He. Qed.

Lemma exact_preview_Ok s resources pv dict : evaluate_exact_preview s resources = Ok pv -> resources_by_id resources = Ok dict ->
  pv_selector pv = s /\ exact_preview dict pv.
Proof.
  unfold evaluate_exact_preview. intros Hp Hd. inv_ok.
  match goal with E : reraise _ _ _ = Ok _ |- _ => apply reraise_Ok in E end.
  match goal with E : construct_preview _ = Ok _ |- _ => unfold construct_preview in E; inv_ok; subst end.
  split; [done|]. intros id. by eapply evaluation_selects.
Qed.

(** What a role selects *)
Definition role_selects dict (selectors : list ManifestSelector) x : Prop := exists s, s ∈ selectors /\ selects dict s x.

(** The selectors select exactly the reviewed members, each by one selector. *)
Definition selects_exactly dict (selectors : list ManifestSelector) (proposals : list CohortProposal) : Prop :=
  (forall k, (exists x, role_selects dict selectors x /\ normalized_id x = k) <-> k ∈ reviewed proposals) /\
  forall i j s t x y, selectors !! i = Some s -> selectors !! j = Some t -> selects dict s x -> selects dict t y ->
    normalized_id x = normalized_id y -> i = j.

(** Exact previews whose disjoint union is the reviewed members *)
Lemma previews_select_exactly dict previews proposals :
  Forall (exact_members dict) previews ->
  (forall k, (exists p, p ∈ previews /\ k ∈ id_set (pv_matched_resource_ids p)) <-> k ∈ reviewed proposals) ->
  (forall i j p q k, previews !! i = Some p -> previews !! j = Some q -> k ∈ id_set (pv_matched_resource_ids p) ->
     k ∈ id_set (pv_matched_resource_ids q) -> i = j) ->
  selects_exactly dict (pv_selector <$> previews) proposals.
Proof.
  rewrite Forall_forall. intros He Hu Hd. split.
  - intros k. rewrite <- Hu. split.
    + intros (x & (s & (p & -> & Hp)%list_elem_of_fmap & Hx) & <-). exists p. split; [done|]. apply (He p Hp). by exists x.
    + intros (p & Hp & Hk). apply (He p Hp) in Hk as (x & Hx & <-). exists x. split; [|done]. exists (pv_selector p).
      split; [by apply list_elem_of_fmap_2|done].
  - intros i j s t x y. rewrite !list_lookup_fmap_Some. intros (p & -> & Hp) (q & -> & Hq) Hx Hy E.
    eapply (Hd i j p q (normalized_id x)); [done..| |].
    + apply (He p); [by eapply list_elem_of_lookup_2|]. by exists x.
    + apply (He q); [by eapply list_elem_of_lookup_2|]. by exists y.
Qed.
End members.

(** ** Guards *)
Section guards.
Context `{PyText} `{Rfc8785}.
Implicit Types (dict : resource_dict) (x : string).

Lemma renamed_atomic_selects dict id a a' x : renamed_atomic id a = Ok a' -> atom_selects dict a' x <-> atom_selects dict a x.
Proof.
  unfold renamed_atomic, construct_atomic. intros Hr. inv_ok. subst. unfold atom_selects. by setoid_rewrite with_identity_match.
Qed.

Lemma mapR_elem {A B} (f : A -> result B) l ys a : mapR f l = Ok ys -> a ∈ l -> exists y, y ∈ ys /\ f a = Ok y.
Proof.
  intros Hm%mapR_Ok Ha. apply list_elem_of_lookup in Ha as [i Hi]. destruct (Forall2_lookup_l _ _ _ _ _ Hm Hi) as (y & Hy & E).
  exists y. split; [by eapply list_elem_of_lookup_2|done].
Qed.
Lemma mapR_elem_back {A B} (f : A -> result B) l ys y : mapR f l = Ok ys -> y ∈ ys -> exists a, a ∈ l /\ f a = Ok y.
Proof.
  intros Hm%mapR_Ok Hy. apply list_elem_of_lookup in Hy as [i Hi]. destruct (Forall2_lookup_r _ _ _ _ _ Hm Hi) as (a & Ha & E).
  exists a. split; [by eapply list_elem_of_lookup_2|done].
Qed.

Lemma elem_of_imap_pair {A} (l : list A) a : a ∈ l -> exists i, (i, a) ∈ imap pair l.
Proof.
  intros [i Hi]%list_elem_of_lookup. exists i. apply list_elem_of_lookup. exists i. by rewrite list_lookup_imap, Hi.
Qed.

(** Every guard restricts the children like the atom it was cloned from. *)
Lemma guarded_children_select seed exact atoms children dict x : guarded_children seed exact atoms = Ok children ->
  (forall c, c ∈ children -> atom_selects dict c x) -> forall a, a ∈ atoms -> atom_selects dict a x.
Proof.
  unfold guarded_children. intros Hg Hc a [i Hi]%elem_of_imap_pair. inv_ok. subst.
  match goal with G : mapR _ (imap pair atoms) = Ok ?guards |- _ => destruct (mapR_elem _ _ _ _ G Hi) as (g & Hin & Hr) end.
  cbn in Hr. apply (renamed_atomic_selects _ _ _ _ _ Hr). apply Hc.
  match goal with |- _ ∈ insert_by ?key ?c (sort_by _ ?l) => change (g ∈ sort_by key (c :: l)) end.
  rewrite elem_of_sort_by. by right.
Qed.

(** A resource that all guard atoms select, the guard selects. *)
Lemma guard_atoms_select resources members g atoms dict x :
  guard_atoms resources members g = Ok atoms -> atoms_of g <> [] -> (forall a, a ∈ atoms -> atom_selects dict a x) ->
  selects dict g x.
Proof.
  unfold guard_atoms. intros Hg Hn Ha. destruct g as [a|id children n|id children n]; cbn [atoms_of selector_children selects] in *.
  - injection Hg as <-. by apply Ha, list_elem_of_here.
  - injection Hg as <-. by split.
  - inv_ok. subst. match goal with L : (length ?m =? 1)%nat = true, F : filterR _ _ = Ok ?m |- _ => rename F into Hf; destruct m as [|a [|]] eqn:E; [done| |done] end.
    exists a. split; [|by apply Ha, list_elem_of_here]. by apply (elem_of_filterR _ _ _ _ Hf), list_elem_of_here.
Qed.

Lemma inherited_guard resources baseline inherited g m dict : inherited_results baseline resources = Ok inherited ->
  resources_by_id resources = Ok dict -> (g, m) ∈ inherited -> g ∈ mr_selectors baseline /\ atoms_of g <> [].
Proof.
  unfold inherited_results. intros Hi Hd Hin. inv_ok. subst. apply list_elem_of_omap in Hin as (o & Ho & Eo). cbn in Eo. subst o.
  match goal with M : mapR _ _ = Ok _ |- _ => destruct (mapR_elem_back _ _ _ _ M Ho) as (s & Hs & E) end.
  unfold inherited_result in E. destruct (evaluate_selector s resources) as [e|err] eqn:Ee; [|by case_match].
  destruct (bool_decide (sv_status e = SelMatched) && _) eqn:Eb; [|done]. apply andb_true_iff in Eb as [Em%bool_decide_eq_true _].
  apply bind_Ok in E as (ms & _ & [= -> _]). split; [done|]. intros Hn.
  destruct (evaluate_selector_spec _ _ _ Ee) as (dict' & m' & v & Hd' & Hev & _ & _ & Hst).
  apply Hst in Em as [_ Hne].
  apply set_choose_L in Hne as [y Hy]. apply (evaluate_selects _ _ _ _ _ Hev) in Hy.
  destruct g as [a|id children n|id children n]; cbn in Hn, Hy; [done|by destruct Hy|]. subst. by destruct Hy as (a & Ha%elem_of_nil & _).
Qed.

(** A guarded selector selects what it replaces did, and on any evidence no more
    than one selector of the baseline. *)
Lemma guard_preview_Ok inherited baseline resources dict pv pv' : inherited_results baseline resources = Ok inherited ->
  resources_by_id resources = Ok dict -> guard_preview inherited resources pv = Ok pv' ->
  exact_preview dict pv' /\ pv_matched_resource_ids pv' = pv_matched_resource_ids pv /\
  exists g, g ∈ mr_selectors baseline /\ forall any x, selects any (pv_selector pv') x -> selects any g x.
Proof.
  intros Hi Hd. unfold guard_preview. destruct (pv_selector pv) as [exact| |] eqn:Es; [|done..].
  intros (members & Hm & Hg)%bind_Ok. destruct (select _ inherited) as [|[g m] [|]] eqn:El; [done| |done].
  assert (Hin : (g, m) ∈ inherited) by (eapply (elem_of_select _ (g, m)); rewrite El; apply list_elem_of_here).
  destruct (inherited_guard _ _ _ _ _ _ Hi Hd Hin) as [Hgb Hne]. inv_ok. subst.
  match goal with P : evaluate_exact_preview _ _ = Ok _ |- _ => destruct (exact_preview_Ok _ _ _ _ P Hd) as [Hsel Hex] end.
  split; [done|]. match goal with B : bool_decide (pv_matched_resource_ids _ = _) = true |- _ => apply bool_decide_eq_true in B; split; [done|] end.
  exists g. split; [done|]. intros any id. rewrite Hsel.
  match goal with C : construct_composite _ = Ok _ |- _ => unfold construct_composite in C; inv_ok; subst end.
  cbn [selects]. intros [_ Hall]. eapply guard_atoms_select; [eassumption|done|].
  by eapply guarded_children_select.
Qed.

Lemma guarded_previews resources baseline dict pvs pvs' : guard_selector_replacements pvs baseline resources = Ok pvs' ->
  resources_by_id resources = Ok dict ->
  Forall (exact_preview dict) pvs' /\
  forall any x, role_selects any (pv_selector <$> pvs') x -> role_selects any (mr_selectors baseline) x.
Proof.
  unfold guard_selector_replacements. intros Hg Hd. inv_ok. subst.
  match goal with I : inherited_results _ _ = Ok _, M : mapR _ _ = Ok _ |- _ =>
    assert (Hp : forall pv', pv' ∈ pvs' -> exact_preview dict pv' /\ exists g, g ∈ mr_selectors baseline /\
      forall any x, selects any (pv_selector pv') x -> selects any g x);
    [intros pv' (pv & _ & Hp)%(mapR_elem_back _ _ _ _ M); by destruct (guard_preview_Ok _ _ _ _ _ _ I Hd Hp) as (? & _ & ?)|] end.
  split; [apply Forall_forall; intros pv' Hin; by apply Hp|].
  intros any id (s & (pv' & -> & Hin)%list_elem_of_fmap & Hx). destruct (Hp pv' Hin) as (_ & g & Hb & Hs). exists g. auto.
Qed.

Lemma guarded_dict resources baseline pvs pvs' : guard_selector_replacements pvs baseline resources = Ok pvs' -> pvs' <> [] ->
  exists dict, resources_by_id resources = Ok dict.
Proof.
  unfold guard_selector_replacements. intros Hg Hn. inv_ok. subst. destruct pvs' as [|pv' pvs']; [done|].
  match goal with M : mapR (guard_preview _ _) _ = Ok _ |- _ =>
    destruct (mapR_elem_back _ _ _ _ M (list_elem_of_here _ _)) as (pv & _ & Hp) end.
  unfold guard_preview in Hp. destruct (pv_selector pv); [|done..]. apply bind_Ok in Hp as (members & _ & Hp).
  destruct (select _ _) as [|[g m] [|]]; [done| |done]. inv_ok.
  match goal with E : evaluate_exact_preview _ _ = Ok _ |- _ => unfold evaluate_exact_preview in E; inv_ok end.
  match goal with E : reraise _ _ (evaluate_selector _ _) = Ok _ |- _ => apply reraise_Ok in E; unfold evaluate_selector in E;
    apply bind_Ok in E as (dict & Hd & _) end. by exists dict.
Qed.
End guards.

(** ** Candidates *)
Section candidates.
Context `{PyText} `{Rfc8785}.
Implicit Types (dict : resource_dict) (c : CohortReviewCandidate).

(** The checked union of a candidate's previews *)
Lemma add_preview_Ok u pv u' : add_preview u pv = Ok u' ->
  u'.1 = u.1 ∪ id_set (pv_matched_resource_ids pv) /\ u'.2 = u.2 ∪ id_set (pv_matched_resource_ids pv) /\
  u.1 ∩ id_set (pv_matched_resource_ids pv) = ∅.
Proof.
  unfold add_preview. intros (m & Hm & Hk)%bind_Ok. apply normalized_members_set in Hm as ->. inv_ok. subst.
  match goal with B : bool_decide (u.1 ∩ _ = ∅) = true |- _ => by apply bool_decide_eq_true in B end.
Qed.

Lemma validated_union c r b proposals u : validate_candidate c r b proposals = Ok tt -> cx_role_updates c = [u] ->
  (exists p, first_proposal proposals = Ok p /\ same_authority (cu_role u) (cp_role p) = true) /\
  (forall k, (exists pv, pv ∈ cu_selector_previews u /\ k ∈ id_set (pv_matched_resource_ids pv)) <-> k ∈ reviewed proposals) /\
  forall i j p q k, cu_selector_previews u !! i = Some p -> cu_selector_previews u !! j = Some q ->
    k ∈ id_set (pv_matched_resource_ids p) -> k ∈ id_set (pv_matched_resource_ids q) -> i = j.
Proof.
  unfold validate_candidate. intros (source & Hsrc & (base & Hb & (pu & Hf & Hg)%bind_Ok)%bind_Ok)%bind_Ok Hu.
  rewrite Hu in Hf. cbn [foldR] in Hf. apply bind_Ok in Hf as (pu' & Hc & [= ->]).
  unfold check_update in Hc. inv_ok. subst.
  match goal with F : foldR add_preview _ _ = Ok _ |- _ =>
    destruct (disjoint_fold (fun pv => id_set (pv_matched_resource_ids pv)) add_preview _
      ltac:(intros; by apply add_preview_Ok) _ _ F) as (_ & Hin & _ & Hd) end.
  destruct (source_union proposals) as [l|] eqn:El; [|done]. injection Hsrc as <-.
  destruct (first_proposal proposals) as [p|] eqn:Ep; [|done]. injection Hb as <-.
  split_and!; [by exists p| |exact Hd]. intros k. rewrite <- (source_union_reviewed _ _ El).
  match goal with B : bool_decide (_ = (list_to_set l : gset string)) = true |- _ => apply bool_decide_eq_true in B; rewrite <- B end.
  cbn in Hin. rewrite Hin. set_solver.
Qed.

Lemma build_candidate_Ok actor_id r b proposals s as_of c :
  build_candidate actor_id r b proposals s as_of = Ok c ->
  exists u p dict, resources_by_id (resource_records s) = Ok dict /\ cx_role_updates c = [u] /\ first_proposal proposals = Ok p /\
    mr_selectors (cu_role u) = pv_selector <$> cu_selector_previews u /\ Forall (exact_preview dict) (cu_selector_previews u) /\
    forall any x, role_selects any (mr_selectors (cu_role u)) x -> role_selects any (mr_selectors (cp_role p)) x.
Proof.
  unfold build_candidate. intros (l & _ & Hb)%bind_Ok. apply bind_Ok in Hb as (_ & _ & Hb).
  apply bind_Ok in Hb as (base & Hbase & Hb). apply bind_Ok in Hb as (pvs0 & _ & Hb). apply bind_Ok in Hb as (pvs & Hg & Hb).
  apply bind_Ok in Hb as (role & Hr & Hb). apply bind_Ok in Hb as (u & Hu & Hb). apply bind_Ok in Hb as (seed & _ & Hb).
  destruct (first_proposal proposals) as [p|] eqn:Ep; [|done]. injection Hbase as <-.
  apply reraise_Ok in Hr. unfold validated_role, detached_role in Hr. inv_ok. subst role.
  unfold construct_role_update in Hu. inv_ok. subst u. unfold construct_candidate in Hb. inv_ok. subst c.
  destruct (guarded_dict _ _ _ _ Hg) as [dict Hd]; [by intros ->|].
  destruct (guarded_previews _ _ _ _ _ Hg Hd) as [He Hn]. by exists {| cu_role := role_with_selectors (cp_role p) (pv_selector <$> pvs);
    cu_selector_previews := pvs; cu_member_count := Z.of_nat (length l) |}, p, dict.
Qed.
End candidates.

Section preview.
Context `{PyText} `{Rfc8785} `{PydanticJson} `{ResponseCodec} `{!ManifestContract} `{!ExplicitAuthorizationPort} `{!CohortText}
  `{ModelDump CohortReviewPreviewRequest}.

(** C26: A new review candidate replaces one role, keeps its authority, and is exact:
    on the verified snapshot its selectors select exactly the reviewed members, each
    by one selector; and on any evidence, whenever collected, it selects no more than
    the role it replaces. *)
Theorem preview_candidate_exact ports actor key r clock store store' persistence persistence' c persistence'' :
  preview ports actor key r clock store store' persistence persistence' = (Ok c, persistence'') ->
  get_preview_receipt (ac_actor_id actor) key persistence = None ->
  get_preview_receipt (ac_actor_id actor) key persistence' = None ->
  exists context batch proposals p u dict,
    resolve_context ports actor (proposal_query r) clock store = Ok context /\
    get_batch (rx_cache_key context) persistence = Some batch /\ select_proposals batch r = Ok proposals /\
    first_proposal proposals = Ok p /\ cx_role_updates c = [u] /\ same_authority (cu_role u) (cp_role p) = true /\
    resources_by_id (resource_records (rx_snapshot context)) = Ok dict /\
    selects_exactly dict (mr_selectors (cu_role u)) proposals /\
    forall any x, role_selects any (mr_selectors (cu_role u)) x -> role_selects any (mr_selectors (cp_role p)) x.
Proof.
  unfold preview. intros Hp Hn Hn'.
  destruct (resolve_context _ _ _ _ _) as [context|e] eqn:Ec; [|done]. cbn [mbind result_bind] in Hp.
  destruct (preview_batch context r persistence) as [batch|e] eqn:Eb; [|done]. cbn [mbind result_bind] in Hp.
  destruct (preview_request_digest actor r) as [digest|e]; [|done]. cbn [mbind result_bind] in Hp. rewrite Hn in Hp.
  destruct (select_proposals batch r) as [proposals|e] eqn:Es; [|done]. cbn [mbind result_bind] in Hp.
  destruct (new_candidate context actor r batch proposals store') as [c'|e] eqn:En; [|done]. cbn [mbind result_bind] in Hp.
  unfold put_preview_receipt_if_absent in Hp. cbn [kw_actor_id kw_idempotency_key] in Hp.
  unfold get_preview_receipt in Hn'. rewrite Hn' in Hp.
  destruct (guard_or _ _) as [[]|e]; [|done]. cbn [mbind result_bind] in Hp. injection Hp as Hr _.
  unfold receipt_candidate in Hr. inv_ok. cbn [kw_candidate] in *. subst c'.
  unfold new_candidate in En. apply bind_Ok in En as (c' & Hc & En). inv_ok. subst c'.
  match goal with V : validate_candidate c r batch proposals = Ok ?t |- _ => destruct t; rename V into Hv end.
  assert (Hb : get_batch (rx_cache_key context) persistence = Some batch).
  { unfold preview_batch in Eb. destruct (get_batch _ _); [|done]. inv_ok. by subst. }
  destruct (build_candidate_Ok _ _ _ _ _ _ _ Hc) as (u & p & dict & Hdict & Hu & Hp & Hsel & He & Hsub).
  destruct (validated_union _ _ _ _ _ Hv Hu) as ((p' & Hfp & Ha) & Hin & Hd). same_ok.
  exists context, batch, proposals, p', u, dict. split_and!; try done. rewrite Hsel. apply previews_select_exactly; [|done..].
  eapply Forall_impl; [exact He|]. intros pv. apply exact_preview_members.
Qed.
End preview.
