(* ===== verification/DecisionProps.v ===== *)
(** * DecisionProps: what a decision applies

    A recorded approval, split or merge rests on evidence that was verified and
    unexpired, its selectors select exactly the members of the decided proposals,
    and the draft it stores differs from the one it found in the selectors of one
    role of one profile. *)
From S2P Require Import Prelude Text Sha256 Time Json Authorization.
From S2P Require Export DecideProps ReviewProps.
Local Open Scope Z_scope.

Section candidates.
Context `{PyText} `{Rfc8785}.
Implicit Types (dict : resource_dict).

(** A re-evaluated preview *)
Lemma revalidate_preview_Ok pv resources m : revalidate_preview pv resources = Ok m ->
  m = id_set (pv_matched_resource_ids pv) /\ exists dict, resources_by_id resources = Ok dict /\ exact_members dict pv.
Proof.
  unfold revalidate_preview. intros Hr. apply bind_Ok in Hr as ([[e ms] ems] & He & Hr). apply reraise_Ok in He. inv_ok.
  subst.
  repeat match goal with N : normalized_members _ = Ok _ |- _ => apply normalized_members_set in N; subst end.
  split; [done|]. match goal with E : evaluate_selector _ _ = Ok _ |- _ => destruct (evaluate_selector_selects _ _ _ E) as (dict & Hd & Hs) end.
  exists dict. split; [done|]. intros k.
  match goal with B : bool_decide (id_set (sv_matched_resource_ids _) = _) = true |- _ => apply bool_decide_eq_true in B; rewrite <- B end.
  rewrite elem_of_id_set. by setoid_rewrite Hs.
Qed.

Lemma add_revalidated_Ok resources u pv u' : add_revalidated resources u pv = Ok u' ->
  u'.1 = u.1 ∪ id_set (pv_matched_resource_ids pv) /\ u'.2 = u.2 ∪ id_set (pv_matched_resource_ids pv) /\
  u.1 ∩ id_set (pv_matched_resource_ids pv) = ∅.
Proof.
  unfold add_revalidated. intros Ha. inv_ok. subst.
  match goal with R : revalidate_preview _ _ = Ok _ |- _ => apply revalidate_preview_Ok in R as [-> _] end.
  match goal with B : bool_decide (u.1 ∩ _ = ∅) = true |- _ => by apply bool_decide_eq_true in B end.
Qed.

(** A decision other than a rejection has the submitted candidate. *)
Lemma decision_candidate_submitted r w proposals o t :
  validate_decision_candidate r w proposals o t = Ok tt -> dq_action r <> DecisionReject ->
  exists c, o = Some c /\ dq_candidate r = Some c.
Proof.
  unfold validate_decision_candidate. intros Hv Ha. destruct o as [c|]; inv_ok;
    [|match goal with B : bool_decide _ = true |- _ => by apply bool_decide_eq_true in B end].
  exists c. split; [done|]. by match goal with B : bool_decide (dq_candidate r = _) = true |- _ => apply bool_decide_eq_true in B end.
Qed.

(** The candidate of an accepted decision *)
Lemma decision_candidate_exact r w proposals c t :
  validate_decision_candidate r w proposals (Some c) t = Ok tt -> dq_action r <> DecisionReject ->
  (forall u, u ∈ cx_role_updates c -> validate_role_update u = Ok tt) ->
  exists u p dict, dq_candidate r = Some c /\ cx_role_updates c = [u] /\ first_proposal proposals = Ok p /\
    same_authority (cu_role u) (cp_role p) = true /\ resources_by_id (resource_records (rw_snapshot w)) = Ok dict /\
    selects_exactly dict (mr_selectors (cu_role u)) proposals.
Proof.
  unfold validate_decision_candidate. intros (source & Hsrc & (base & Hb & (cu & Hf & Hg)%bind_Ok)%bind_Ok)%bind_Ok Ha Hv.
  destruct (first_proposal proposals) as [p|] eqn:Ep; [|done]. injection Hb as <-.
  unfold decision_source_union in Hsrc. apply bind_Ok in Hsrc as (ms & Hms & Hsrc). apply member_set_reviewed in Hms as ->.
  inv_ok. subst source. unfold replaces_exactly in *.
  repeat match goal with B : _ && _ = true |- _ => apply andb_true_iff in B as [? ?] end.
  destruct (cx_role_updates c) as [|u [|]] eqn:Eu; [done| |done]. cbn [foldR] in Hf. apply bind_Ok in Hf as (cu' & Hc & [= ->]).
  unfold check_decision_update in Hc. inv_ok. subst.
  match goal with F : foldR (add_revalidated _) _ _ = Ok _ |- _ => rename F into Hfold end.
  destruct (disjoint_fold (fun pv => id_set (pv_matched_resource_ids pv)) (add_revalidated (resource_records (rw_snapshot w)))
    (cu_selector_previews u) ltac:(intros; by eapply add_revalidated_Ok) _ _ Hfold) as (_ & Hin & _ & Hd).
  match goal with B : bool_decide (_ = reviewed proposals) = true |- _ => apply bool_decide_eq_true in B; rename B into Hunion end.
  cbn in Hin. assert (Hin' : forall k, (exists q, q ∈ cu_selector_previews u /\ k ∈ id_set (pv_matched_resource_ids q)) <->
    k ∈ reviewed proposals) by (intros k; rewrite <- Hunion, Hin; set_solver).
  assert (Hex : forall q, q ∈ cu_selector_previews u -> exists dict, resources_by_id (resource_records (rw_snapshot w)) = Ok dict /\
    exact_members dict q).
  { intros q Hq. destruct (foldR_elem _ _ _ _ _ Hfold Hq) as (s1 & s2 & Hs). unfold add_revalidated in Hs.
    apply bind_Ok in Hs as (m & Hm & _). by apply revalidate_preview_Ok in Hm as [_ ?]. }
  assert (exists dict, resources_by_id (resource_records (rw_snapshot w)) = Ok dict) as [dict Hdict].
  { destruct (cu_selector_previews u) as [|q l]; [|destruct (Hex q (list_elem_of_here _ _)) as (dict & ? & _); by exists dict].
    exfalso. assert (Hne : reviewed proposals = ∅) by (apply elem_of_equiv_empty_L; intros k (q & Hq%elem_of_nil & _)%Hin'; done).
    match goal with B : (_ && _) = false |- _ => apply andb_false_iff in B as [B|B];
      [by apply bool_decide_eq_false in B|by apply negb_false_iff, bool_decide_eq_true in B] end. }
  exists u, p, dict. split_and!; try done.
  - by match goal with B : bool_decide (dq_candidate r = _) = true |- _ => apply bool_decide_eq_true in B end.
  - specialize (Hv u (list_elem_of_here _ _)). unfold validate_role_update in Hv. inv_ok.
    match goal with B : bool_decide (mr_selectors _ = _) = true |- _ => apply bool_decide_eq_true in B; rewrite B end.
    apply previews_select_exactly; [|done..]. apply Forall_forall. intros q Hq.
    destruct (Hex q Hq) as (dict' & Hdict' & He). same_ok. done.
Qed.
End candidates.

Section decisions.
Context `{PyText} `{PyStr} `{Rfc8785} `{PydanticJson} `{ResponseCodec} `{!ManifestContract} `{!ManifestSetDump} `{!CohortText}
  `{!AuthorizationPort} `{!ExplicitAuthorizationPort}
  `{ModelDump CohortDecisionApplyBinding} `{ModelDump ReplaceDraftCommand} `{ModelDump CohortReviewCandidate}
  `{ModelDump CohortDecisionRequest} `{ModelDump CohortDecisionRecord}.

(** A decision without a receipt is planned and recorded. *)
Lemma fresh_decision ports persistence actor key digest r clock dc fc tx record tx' :
  decide_body ports persistence actor key digest r clock dc fc tx = Ok (record, tx') ->
  sd_cohort_decision_receipts (tx_data tx) !! (ac_actor_id actor, key) = None ->
  exists plan, plan_decision ports persistence actor r (decision_id_of digest) clock dc tx = Ok (plan, tx) /\
    record_decision actor key digest r (decision_id_of digest) fc plan tx = Ok (record, tx').
Proof.
  unfold decide_body. intros (o & tx1 & Hr & Hd)%tx_bind_Ok Hn. pose proof (replay_read_only _ _ _ _ _ _ _ Hr) as <-.
  unfold replay in Hr. apply tx_bind_Ok in Hr as (x & tx2 & [-> ->]%reads_Ok & Hr). rewrite Hn in Hr.
  apply tx_ret_Ok in Hr as [-> _]. apply tx_bind_Ok in Hd as (plan & tx3 & Hp & Hd).
  pose proof (plan_read_only _ _ _ _ _ _ _ _ _ _ Hp) as <-. by exists plan.
Qed.

(** What a plan was computed from *)
Record planned (ports : EvidencePorts) (persistence : CohortPersistence) (actor : Actor) (r : CohortDecisionRequest)
    (decision_id : string) (clock : Z) (s : StoreData) (plan : DecisionPlan) (t : Z) (proposals : list CohortProposal)
    (candidate : option CohortReviewCandidate) (apply : option CohortApply) : Prop := {
  pl_time : ensure_timestamp clock = Ok t;
  pl_review : resolve_for_decision ports actor (decision_query r) (dq_scope r) t persistence = Ok (pn_review plan);
  pl_proposals : validate_request_binding r (pn_review plan) = Ok proposals;
  pl_candidate : validate_decision_candidate r (pn_review plan) proposals candidate t = Ok tt;
  pl_current : sd_drafts s !! dq_draft_id r = Some (pn_current plan);
  pl_prepare : prepare_apply actor r (pn_current plan) proposals decision_id t candidate = Ok apply;
  pl_unexpired : unexpired (pn_review plan) apply t (pn_decided_at plan) = true;
  pl_authorize : authorize_apply (pn_decided_at plan) apply = Ok (pn_apply plan);
}.

Lemma require_current_draft_Ok r v d tx tx' : require_current_draft r v tx = Ok (d, tx') ->
  sd_drafts (tx_data tx) !! dq_draft_id r = Some d.
Proof.
  unfold require_current_draft. intros (o & tx1 & [-> ->]%reads_Ok & Hk)%tx_bind_Ok.
  destruct (sd_drafts _ !! _) as [d'|]; [|by apply throw_Ok in Hk]. f_equal. inv_tx.
  destruct (dr_revision d' =? _); inv_tx; done.
Qed.

Lemma plan_decision_Ok ports persistence actor r id clock dc tx plan tx' :
  plan_decision ports persistence actor r id clock dc tx = Ok (plan, tx') ->
  exists t proposals candidate apply, planned ports persistence actor r id clock (tx_data tx) plan t proposals candidate apply.
Proof.
  unfold plan_decision. intros Hp.
  apply tx_bind_Ok in Hp as (t & tx0 & [Ht ->]%liftR_Ok & Hp). apply tx_bind_Ok in Hp as (w & tx0 & [Hw ->]%liftR_Ok & Hp).
  apply tx_bind_Ok in Hp as (ps & tx0 & [Hps ->]%liftR_Ok & Hp). apply tx_bind_Ok in Hp as (au & tx0 & [Hau ->]%liftR_Ok & Hp).
  apply tx_bind_Ok in Hp as (v & tx0 & [Hv ->]%liftR_Ok & Hp). apply tx_bind_Ok in Hp as (ov & tx0 & [-> ->]%reads_Ok & Hp).
  apply tx_bind_Ok in Hp as (u & tx0 & [Hu ->]%liftR_Ok & Hp). apply tx_bind_Ok in Hp as (u0 & tx0 & [Hu0 ->]%check_Ok & Hp).
  apply tx_bind_Ok in Hp as (c & tx0 & [Hc ->]%liftR_Ok & Hp). apply tx_bind_Ok in Hp as (d & tx0 & Hd & Hp).
  pose proof (current_draft_read_only _ _ _ _ _ Hd) as <-. apply require_current_draft_Ok in Hd.
  apply tx_bind_Ok in Hp as ([] & tx0 & [Hval ->]%liftR_Ok & Hp). apply tx_bind_Ok in Hp as (a & tx0 & [Ha ->]%liftR_Ok & Hp).
  apply tx_bind_Ok in Hp as (t' & tx0 & [Ht' ->]%liftR_Ok & Hp). apply tx_bind_Ok in Hp as (u1 & tx0 & [Hu1 ->]%check_Ok & Hp).
  apply tx_bind_Ok in Hp as (a' & tx0 & [Ha' ->]%liftR_Ok & Hp). apply tx_ret_Ok in Hp as [-> ->].
  exists t, ps, c, a. by split.
Qed.

(** The fields of the record that tell when and what was decided *)
Lemma decision_record_times actor r w id t a authorities audit_id record :
  decision_record actor r w id t a authorities audit_id = Ok record ->
  cd_decided_at record = t /\ cd_applied_draft record = resulting_binding a.
Proof.
  unfold decision_record. intros Hr. inv_ok. match goal with C : construct_decision_record _ = Ok _ |- _ =>
    pose proof (construct_decision_record_Ok _ _ C) as ->; by split end.
Qed.

Lemma request_proposals r w proposals : validate_request_binding r w = Ok proposals ->
  proposals_by_id "decision references a proposal outside the exact batch" (rw_batch w) (dq_proposal_ids r) = Ok proposals.
Proof. unfold validate_request_binding. intros Hv. inv_ok. by subst. Qed.

(** C22: An approval, split or merge is only recorded on a cached batch and a verified
    snapshot that has not expired when the decision is made; its candidate updates
    one role, keeps its authority, and re-evaluated on that snapshot its selectors
    select exactly the members of the decided proposals, each by one selector. *)
Theorem decided_members_exact ports persistence actor key digest r clock dc fc tx record tx' :
  decide_body ports persistence actor key digest r clock dc fc tx = Ok (record, tx') ->
  sd_cohort_decision_receipts (tx_data tx) !! (ac_actor_id actor, key) = None -> dq_action r <> DecisionReject ->
  (forall c u, dq_candidate r = Some c -> u ∈ cx_role_updates c -> validate_role_update u = Ok tt) ->
  exists t w proposals c u p dict,
    resolve_for_decision ports actor (decision_query r) (dq_scope r) t persistence = Ok w /\
    proposals_by_id "decision references a proposal outside the exact batch" (rw_batch w) (dq_proposal_ids r) = Ok proposals /\
    first_proposal proposals = Ok p /\ dq_candidate r = Some c /\ cx_role_updates c = [u] /\
    same_authority (cu_role u) (cp_role p) = true /\
    t <= cd_decided_at record < es_expires_at (rw_snapshot w) /\
    resources_by_id (resource_records (rw_snapshot w)) = Ok dict /\ selects_exactly dict (mr_selectors (cu_role u)) proposals.
Proof.
  intros Hd Hn Ha Hv. destruct (fresh_decision _ _ _ _ _ _ _ _ _ _ _ _ Hd Hn) as (plan & Hp & Hr).
  apply plan_decision_Ok in Hp as (t & proposals & candidate & a & []).
  destruct (decision_candidate_submitted _ _ _ _ _ pl_candidate0 Ha) as (c & -> & Hc).
  destruct (decision_candidate_exact _ _ _ _ _ pl_candidate0 Ha ltac:(intros u; by apply Hv)) as (u & p & dict & _ & Hu & Hfp & Hau & Hdict & Hex).
  exists t, (pn_review plan), proposals, c, u, p, dict. split_and!; try done.
  - by apply request_proposals.
  - unfold record_decision in Hr. inv_tx. match goal with D : decision_record _ _ _ _ _ _ _ _ = Ok _ |- _ =>
      apply decision_record_times in D as [-> _] end. unfold unexpired in pl_unexpired0. lia.
  - unfold record_decision in Hr. inv_tx. match goal with D : decision_record _ _ _ _ _ _ _ _ = Ok _ |- _ =>
      apply decision_record_times in D as [-> _] end. unfold unexpired in pl_unexpired0.
    repeat match goal with B : _ && _ = true |- _ => apply andb_true_iff in B as [? ?] end. lia.
Qed.

(** ** The draft *)

(** The payload of one manifest is that of another with one role of one profile
    replaced: all its members agree but [profiles], all profiles but one, all
    members of that one but [roles], and there the roles but those of the target. *)
Definition members_agree_off {A} (k : string) (a b : list (string * A)) : Prop := forall i, i <> k -> assoc i b = assoc i a.
Definition one_role_payload (payload payload' : json) (profile_key target : string) (role : ManifestRole) : Prop :=
  exists ms ms' ps ps' pm pm' local_roles,
    payload = JObj ms /\ payload' = JObj ms' /\ members_agree_off "profiles" ms ms' /\
    assoc "profiles" ms = Some (JObj ps) /\ assoc "profiles" ms' = Some (JObj ps') /\ members_agree_off profile_key ps ps' /\
    assoc profile_key ps = Some (JObj pm) /\ assoc profile_key ps' = Some (JObj pm') /\ members_agree_off "roles" pm pm' /\
    assoc "roles" pm = Some (JArr local_roles) /\
    assoc "roles" pm' = Some (JArr (select (is_other_role target) local_roles ++ [role_json role])).

Lemma assoc_set_member k (v : json) ms i : assoc i (set_member k v ms) = if String.eqb i k then Some v else assoc i ms.
Proof.
  induction ms as [|[k' w] ms IH]; cbn; [done|]. destruct (String.eqb_spec k k') as [<-|Hk]; cbn.
  - by destruct (String.eqb_spec i k).
  - rewrite IH. destruct (String.eqb_spec i k') as [->|]; [|done]. by destruct (String.eqb_spec k' k).
Qed.

Lemma replace_role_payload payload key target role payload' :
  replace_role payload key target role = Ok payload' -> one_role_payload payload payload' key target role.
Proof.
  assert (Hoff : forall k v (ms : list (string * json)), members_agree_off k ms (set_member k v ms)).
  { intros k v ms i Hi. rewrite assoc_set_member. by destruct (String.eqb_spec i k). }
  assert (Hat : forall k v (ms : list (string * json)), assoc k (set_member k v ms) = Some v).
  { intros k v ms. by rewrite assoc_set_member, String.eqb_refl. }
  unfold replace_role. intros Hr. repeat (case_match; try done). injection Hr as <-.
  do 7 eexists. by split_and!.
Qed.

(** Between two manifests, one role of one profile gets other selectors: the new one
    is the canonical form of the old payload with that role replaced, and the
    profiles either resolves, at one instant and under one capability, agree on all
    else. *)
Definition one_role_replaced (m m' : CanonicalWorkloadManifest) (profile target : string) (t : Z)
    (binding : CohortDecisionApplyBinding) : Prop :=
  wm_roles m' = wm_roles m /\
  exists key payload canonical applied before after p p' old,
    one_role_payload (dump_json_exclude_none m) payload key target applied /\
    Contract.canonicalize_manifest_payload payload = Ok canonical /\ model_validate canonical = Ok m' /\
    resolve_all_profiles m t binding = Ok before /\ resolve_all_profiles m' t binding = Ok after /\
    (forall k, k <> profile -> after !! k = before !! k) /\
    before !! profile = Some p /\ after !! profile = Some p' /\
    py_eq (profile_metadata p) (profile_metadata p') = true /\
    (forall id, id <> target -> roles_by_id p' !! id = roles_by_id p !! id) /\
    role_with_id target (rp_roles p) = Some old /\ roles_by_id p' !! target = Some applied /\ same_authority applied old = true.

(** The binding that authorizes the replacement: of this decision of this actor, from
    the draft to its next revision, on this candidate and role *)
Definition binding_of (b : CohortDecisionApplyBinding) (r : CohortDecisionRequest) (actor : Actor) (decision_id : string) (t : Z)
    (current : DraftRecord) (c : CohortReviewCandidate) (u : CohortRoleUpdate) : Prop :=
  cb_decision_id b = decision_id /\ cb_decision b = dq_action r /\ cb_decided_at b = t /\ cb_actor b = actor /\
  cb_candidate_id b = cx_candidate_id c /\ cb_current_draft b = draft_binding current /\
  cdb_draft_id (cb_resulting_draft b) = dr_draft_id current /\ cdb_revision (cb_resulting_draft b) = dr_revision current + 1 /\
  cb_proposal_ids b = dq_proposal_ids r /\ cb_target_role_id b = mr_role_id (cu_role u).

Lemma apply_binding_of current r c actor id cdig t source applied u m b :
  apply_binding current r c actor id cdig t source applied (mr_role_id (cu_role u)) m = Ok b -> binding_of b r actor id t current c u.
Proof. unfold apply_binding, construct_apply_binding. intros Hb. inv_ok. by subst b. Qed.

Lemma agree_off {A} `{EqDecision A} (k : string) (a b : gmap string A) : dom a = dom b ->
  forallb (fun item => String.eqb (fst item) k || bool_decide (b !! fst item = Some (snd item))) (map_to_list a) = true ->
  forall i, i <> k -> b !! i = a !! i.
Proof.
  intros Hd Hf i Hi. rewrite forallb_elem in Hf. destruct (a !! i) as [x|] eqn:E.
  - specialize (Hf (i, x) ltac:(by apply elem_of_map_to_list)). cbn in Hf. apply orb_true_iff in Hf as [Hf|Hf];
      [by apply String.eqb_eq in Hf|by apply bool_decide_eq_true in Hf].
  - apply not_elem_of_dom. rewrite <- Hd. by apply not_elem_of_dom.
Qed.

Lemma same_authority_iff a b : same_authority a b = true <-> authority_projection a = authority_projection b.
Proof. apply bool_decide_eq_true. Qed.

Lemma materialized_authority current source role applied : materialize_role current source role = Ok applied ->
  same_authority current source = true -> same_authority source role = true -> same_authority applied current = true.
Proof.
  unfold materialize_role. rewrite !same_authority_iff. intros Hm Hc Hs. case_bool_decide; [inv_ok; congruence|].
  unfold validated_role, detached_role in Hm. inv_ok. by subst applied.
Qed.

Lemma replacement_one_role current r c proposals actor id digest reason t command authorization :
  selector_only_replacement current r c proposals actor id digest reason t = Ok (command, authorization) ->
  exists u rest binding, cx_role_updates c = u :: rest /\ binding_of binding r actor id t current c u /\
    one_role_replaced (dr_manifest current) (rc_replacement_manifest command) (normalized_id (dq_profile_id r))
      (normalized_id (mr_role_id (cu_role u))) t binding.
Proof.
  unfold selector_only_replacement. destruct (List.find _ _) as [[key profile]|]; [|done].
  destruct (cx_role_updates c) as [|u rest]; [done|]. intros Hs.
  apply bind_Ok in Hs as (source & _ & Hs). apply bind_Ok in Hs as (u1 & Ha1%guard_or_Ok & Hs).
  apply bind_Ok in Hs as (u2 & Ha2%guard_or_Ok & Hs). apply bind_Ok in Hs as (applied & Hmat & Hs).
  apply bind_Ok in Hs as (payload & Hpay%replace_role_payload & Hs). apply bind_Ok in Hs as ([[[cmd au] before] after] & Hm & Hs).
  apply reraise_Ok in Hm. apply bind_Ok in Hs as (u3 & Hroles%guard_or_Ok & Hs). apply bind_Ok in Hs as (u4 & Hc & Hs).
  injection Hs as -> ->. unfold materialize in Hm. cbn zeta in Hm.
  repeat (let x := fresh "v" in let E := fresh "E" in apply bind_Ok in Hm as (x & E & Hm)). inv_ok. subst.
  match goal with B : bool_decide (role_with_id _ _ = Some _) = true |- _ => apply bool_decide_eq_true in B; rename B into Hold end.
  match goal with B : resolve_all_profiles (dr_manifest current) t ?b = Ok before |- _ => exists u, rest, b; rename B into Hb end.
  match goal with B : resolve_all_profiles _ t _ = Ok after |- _ => rename B into Haf end.
  match goal with B : apply_binding _ _ _ _ _ _ _ _ _ _ _ = Ok _ |- _ => apply apply_binding_of in B as Hbind end.
  split; [done|]. split; [done|]. split; [by apply bool_decide_eq_true in Hroles|].
  unfold check_profiles in Hc. apply bind_Ok in Hc as (w1 & Hdom%guard_or_Ok & Hc). apply bind_Ok in Hc as (w2 & Hoff%guard_or_Ok & Hc).
  apply bool_decide_eq_true in Hdom.
  destruct (before !! normalized_id (dq_profile_id r)) as [p|] eqn:Ep; [|done].
  destruct (after !! normalized_id (dq_profile_id r)) as [p'|] eqn:Ep'; [|done].
  apply bind_Ok in Hc as (w3 & Hin%guard_or_Ok & Hmeta%guard_or_Ok).
  repeat match goal with B : _ && _ = true |- _ => apply andb_true_iff in B as [? ?] end.
  repeat match goal with B : bool_decide _ = true |- _ => apply bool_decide_eq_true in B end. inv_ok. subst.
  do 9 eexists. split_and!; [exact Hpay|eassumption|eassumption|exact Hb|exact Haf|by apply agree_off|exact Ep|exact Ep'|exact Hmeta|by apply agree_off|exact Hold|eassumption|].
  by eapply materialized_authority.
Qed.

Lemma put_decision_drafts actor r id t fc a event tx tx1 record tx2 tx3 u :
  append_audit event tx = Ok (record, tx1) -> put_cohort_decision u tx1 = Ok (tt, tx2) -> apply_draft actor r id t fc (Some a) tx2 = Ok (tt, tx3) ->
  exists d d', sd_drafts (tx_data tx) !! dq_draft_id r = Some d /\ dr_state d' = StateDraft /\ dr_revision d' = dr_revision d + 1 /\
    dr_manifest d' = rc_replacement_manifest (ap_command a) /\ dr_draft_id d' = dr_draft_id d /\
    sd_drafts (tx_data tx3) = <[dr_draft_id d := d']> (sd_drafts (tx_data tx)) /\
    Some (draft_binding d') = resulting_binding (Some a).
Proof.
  intros (_ & _ & ->)%append_audit_Ok (_ & _ & _ & _ & Hd)%put_decision_Ok Ha. cbn [tx_data sd_drafts set_audit] in Hd.
  unfold apply_draft in Ha. apply tx_bind_Ok in Ha as (d' & tx4 & Hrep & [Hb ->]%check_Ok). apply bool_decide_eq_true in Hb.
  apply replace_body_effect in Hrep as (d & now & Hf & Hst & _ & _ & _ & He & Hdr & _). rewrite Hd in Hf, Hdr.
  exists d, d'. split_and!; [done|by rewrite He..|done|done].
Qed.

(** C23: A recorded approval, split or merge changes one draft, to its next revision,
    and in its manifest only one role: the new manifest is the canonical form of the
    old one's payload with that role of that profile replaced. At the validated
    instant of the decision and under its own authorization, every profile but the
    decision's, and every other role and all metadata of that one, resolve as before,
    and the role keeps its kind, cardinality, owner and status. *)
Theorem decision_replaces_one_role ports persistence actor key digest r clock dc fc tx record tx' :
  decide_body ports persistence actor key digest r clock dc fc tx = Ok (record, tx') ->
  sd_cohort_decision_receipts (tx_data tx) !! (ac_actor_id actor, key) = None -> dq_action r <> DecisionReject ->
  well_keyed (tx_data tx) ->
  exists d d' c u rest t binding, ensure_timestamp clock = Ok t /\
    binding_of binding r actor (decision_id_of digest) t d c u /\
    sd_drafts (tx_data tx) !! dq_draft_id r = Some d /\ sd_drafts (tx_data tx') = <[dq_draft_id r := d']> (sd_drafts (tx_data tx)) /\
    dr_state d' = StateDraft /\ dr_revision d' = dr_revision d + 1 /\ cd_applied_draft record = Some (draft_binding d') /\
    dq_candidate r = Some c /\ cx_role_updates c = u :: rest /\
    one_role_replaced (dr_manifest d) (dr_manifest d') (normalized_id (dq_profile_id r))
      (normalized_id (mr_role_id (cu_role u))) t binding.
Proof.
  intros Hd Hn Ha Hk. destruct (fresh_decision _ _ _ _ _ _ _ _ _ _ _ _ Hd Hn) as (plan & Hp & Hr).
  apply plan_decision_Ok in Hp as (t & proposals & candidate & a & []).
  destruct (decision_candidate_submitted _ _ _ _ _ pl_candidate0 Ha) as (c & -> & Hc).
  unfold prepare_apply in pl_prepare0. apply bind_Ok in pl_prepare0 as (cdig & _ & Hprep).
  apply bind_Ok in Hprep as ([command authorization] & Hsel & [= <-]).
  unfold authorize_apply in pl_authorize0. apply bind_Ok in pl_authorize0 as (au' & _ & [= Happly]).
  apply replacement_one_role in Hsel as (u & rest & b & Hu & Hbo & Hone).
  unfold record_decision in Hr. rewrite <- Happly in Hr. inv_tx.
  match goal with A : append_audit _ _ = Ok _, P : put_cohort_decision _ _ = Ok (?u1, _), D : apply_draft _ _ _ _ _ _ _ = Ok (?u2, _),
    Q : put_cohort_decision_receipt _ _ = Ok _, R : decision_record _ _ _ _ _ _ _ _ = Ok _ |- _ =>
    destruct u1, u2; destruct (put_decision_drafts _ _ _ _ _ _ _ _ _ _ _ _ _ A P D) as (d & d' & Hfd & Hst & Hrev & Hman & Hid & Hins & Hbind);
    apply put_decision_receipt_Ok in Q as (_ & _ & _ & _ & Hq); apply decision_record_times in R as [_ Happ] end.
  rewrite pl_current0 in Hfd. injection Hfd as <-. cbn [ap_command] in Hman.
  exists (pn_current plan), d', c, u, rest, t, b. split_and!; try done.
  - rewrite Hq, Hins. by rewrite (proj1 Hk _ _ pl_current0).
  - by rewrite Happ, Hbind.
  - by rewrite Hman.
Qed.
End decisions.
