(* ===== verification/CohortDemo.v ===== *)
(** * CohortDemo: one cohort from proposal to applied decision

    A human asks for the cohorts of a draft of the demo workload, rejects the
    empty database cohort and approves the web servers; the service's theorems
    are applied to the store, the batch and the decisions of this run. The
    contract is the one [Resolution] models; its parser is a table of the demo's
    roles. *)
From S2P Require Import Prelude Text Time Json Concrete Authorization ResolutionDemo SnapshotDemo ProposeDemo.
From S2P Require Import SnapshotEvaluation ReviewProps DecideProps DecisionProps.
From S2P Require Contract ManifestJson.
Local Open Scope Z_scope.

Module CohortDemo.
Export ProposeDemo.
#[export] Existing Instance ascii_text.
#[export] Existing Instance brief_json.
#[export] Existing Instance ResolutionDemo.set_fields.
#[export] Existing Instance ResolutionDemo.short_str.

(** ** The manifest *)
Definition demo_profile (id : string) (roles : list ManifestRole) : ManifestProfile := {|
  mp_profile_id := id; mp_profile_type := id; mp_extends := None;
  mp_settings := {| st_continuity := {| cn_zone_loss_continuity_required := true |} |}; mp_roles := roles;
  mp_relationships := []; mp_constraints := []; mp_controls := []; mp_risk_acceptances := [];
  mp_objectives := []; mp_ownership := []; mp_weakening_overrides := []; mp_disabled_refs := [] |}.

Definition manifest (roles : list ManifestRole) (artifact semantic : string) : CanonicalWorkloadManifest := {|
  wm_manifest_id := "shop"; wm_manifest_version := "1.0.0"; wm_cloud := "AzureCloud";
  wm_workload := {| wi_display_name := "Shop"; wi_environments := ["production"];
    wi_allowed_evidence_scopes := [SubscriptionScope tenant subscription] |};
  wm_profiles := [("production", demo_profile "production" roles)];
  wm_roles := [web; database; worker]; wm_relationships := [];
  wm_constraints := [ResolutionDemo.singleton; ResolutionDemo.zone_loss; ResolutionDemo.zone_acceptance;
                     ResolutionDemo.colocation; ResolutionDemo.web_zones 2];
  wm_controls := []; wm_risk_acceptances := []; wm_objectives := [];
  wm_ownership := [ {| mo_owner_ref := "ops"; mo_owner_role := "operations"; mo_authority_ref := "cto" |} ];
  wm_compatibility := {|
    cm_artifact_kind := "workloadManifest"; cm_schema_version := "1.0.0"; cm_semantic_contract_version := "1.0.0";
    cm_policy_contract_version := "1.0.0"; cm_minimum_reader_version := "1.0.0"; cm_requires_capabilities := [];
    cm_producer_id := "athena"; cm_producer_version := "1.0.0"; cm_extension_policy := "rejectUnknownDecisionFields";
    cm_artifact_digest := artifact; cm_semantic_digest := semantic |};
  wm_audit := {| ma_published_by := "athena"; ma_published_at := 0; ma_approval_status := "approved" |} |}.
Definition sealed (roles : list ManifestRole) : CanonicalWorkloadManifest :=
  match manifest_digest_value (manifest roles "" "") false, manifest_digest_value (manifest roles "" "") true with
  | Ok artifact, Ok semantic => manifest roles artifact semantic
  | _, _ => manifest roles "" ""
  end.
Definition shop : CanonicalWorkloadManifest := Eval vm_compute in sealed [].

(** The web role with the selector of its cohort *)
Definition approved_web : ManifestRole :=
  role "web" "webService" OneOrMoreCardinality [Atomic (NamePredicateSelector "web-names" (Some "web-") None 2)].
Definition approved_shop : CanonicalWorkloadManifest := Eval vm_compute in sealed [approved_web].

(** ** The contract *)
Definition dump (m : CanonicalWorkloadManifest) : json := JObj (dump_set_fields m).
Definition payload_digest (payload : json) : option json :=
  match payload with JObj ms => match assoc "compatibility" ms with Some (JObj c) => assoc "artifactDigest" c | _ => None end
                | _ => None end.
Definition parse (payload : json) : result CanonicalWorkloadManifest :=
  match List.find (fun m => bool_decide (payload_digest payload = Some (JStr (cm_artifact_digest (wm_compatibility m)))))
          [shop; approved_shop] with
  | Some m => Ok m
  | None => Raise (ValidationError "CanonicalWorkloadManifest")
  end.
#[export] Instance demo_contract : ManifestContract := {|
  dump_json := dump; dump_json_exclude_none := dump; dump_python := dump; model_validate := parse;
  Contract.canonicalize_manifest_payload := fun payload =>
    match payload with
    | JObj ms => ms ← ManifestJson.canonicalize_manifest_payload ms; Ok (JObj ms)
    | _ => Raise (AttributeError "get")
    end;
  compute_artifact_digest_value := fun m => manifest_digest_value m false;
  validate_manifest_selector_identity_inheritance := validate_selector_identity_inheritance;
  validate_manifest_selector_identity_transition := validate_selector_identity_transition;
  resolve_manifest_profile := fun m profile_id t => resolve_complete_graph m profile_id t (capability_of NoCapability);
  resolve_manifest_profile_for_cohort_decision := fun m profile_id t authority =>
    resolve_complete_graph m profile_id t (capability_of (PersistedAuthority authority));
|}.

(** ** The other parameters *)
#[export] Instance demo_datetime : PydanticJson := canonical_timestamp.
#[export] Instance demo_codec : ResponseCodec :=
  {| response_text := ApiResponse; model_dump_json := fun r => r; model_validate_json := fun _ r => Ok r |}.
Definition human (id : string) : Actor := {| ac_actor_id := id; ac_kind := ActorHuman |}.
Definition publisher : Actor := {| ac_actor_id := "athena"; ac_kind := ActorService |}.
Definition ann : Actor := human "ann".
#[export] Instance demo_port : AuthorizationPort := role_based_port (new_authorization
  [ {| rg_actor_id := "ann"; rg_role := RoleProposer; rg_scope := AllWorkloadsGrantScope |} ]).
#[export] Instance explicit_port : ExplicitAuthorizationPort := fun actor permission manifest_id =>
  require actor permission (Some manifest_id).
Definition binding_key (b : CohortEvidenceBinding) : string :=
  join "/" [eb_manifest_id b; eb_manifest_version b; eb_profile_id b; eb_resolved_profile_digest b; eb_draft_id b;
            decimal (Z.to_nat (eb_draft_revision b)); eb_draft_digest b].
#[export] Instance demo_text : CohortText := {|
  batch_text := fun b => ct_proposal_set_digest (bp_batch b); candidate_text := cx_candidate_id;
  cache_key_text := fun k => binding_key (ck_evidence_binding k) +:+ "/" +:+ ck_snapshot_artifact_digest k;
  binding_text := binding_key |}.
#[export] Instance dump_binding : ModelDump CohortDecisionApplyBinding := fun b => JStr (cb_decision_id b).
#[export] Instance dump_create : ModelDump CreateDraftCommand := fun c => JStr (cc_draft_id c).
#[export] Instance dump_replace : ModelDump ReplaceDraftCommand := fun c => JStr (rc_replacement_digest c).
#[export] Instance dump_transition : ModelDump TransitionCommand := fun c => JStr (tc_reason c).
#[export] Instance dump_review : ModelDump ReviewCommand := fun c => JStr (vc_comments c).
#[export] Instance dump_approve : ModelDump ApproveCommand := fun c => JStr (apc_operational_context_receipt_id c).
#[export] Instance dump_publish : ModelDump PublishCommand := fun c => JStr (puc_approval_id c).
#[export] Instance dump_supersede : ModelDump SupersedeCommand := fun c => JInt (suc_expected_revision c).
#[export] Instance dump_issue : ModelDump IssueOperationalContextReceiptCommand := fun c => JStr (ic_binding_digest c).
#[export] Instance dump_preview : ModelDump CohortReviewPreviewRequest := fun r => texts_json (vq_proposal_ids r).
#[export] Instance dump_candidate : ModelDump CohortReviewCandidate := fun c => JStr (cx_candidate_id c).
#[export] Instance dump_request : ModelDump CohortDecisionRequest := fun r => texts_json (dq_proposal_ids r).
#[export] Instance dump_record : ModelDump CohortDecisionRecord := fun d => JStr (cd_decision_id d).

Definition ports : EvidencePorts := {|
  eo_get_snapshot := fun binding => Ok (Some {| sg_binding := binding; sg_snapshot := snapshot |}); eo_verify := fun s _ => Ok (SameObject s) |}.

(** ** The draft *)
Definition create_call : Call := CallCreate {|
  cc_draft_id := "d1"; cc_manifest := shop; cc_manifest_digest := cm_artifact_digest (wm_compatibility shop);
  cc_previous_version := None; cc_rollback_source_version := None; cc_reason := "a first draft" |}.
Definition created := apply_call publisher ann "create" create_call as_of new_store.
Definition draft_store : ContextStore := Eval vm_compute in snd created.
Lemma draft_created : snd created = draft_store.
Proof. vm_cast_no_check (eq_refl draft_store). Qed.

(** ** The proposals *)
Definition shop_digest : string := Eval vm_compute in cm_artifact_digest (wm_compatibility shop).
Definition query : CohortProposalQuery := {|
  qy_manifest_id := "shop"; qy_manifest_version := "1.0.0"; qy_profile_id := "production"; qy_draft_id := "d1";
  qy_expected_revision := 1; qy_expected_digest := shop_digest |}.
Definition proposed := get_proposals ports ann query as_of draft_store draft_store new_persistence new_persistence.
Definition batch_persistence : CohortPersistence := Eval vm_compute in snd proposed.
Definition response_or (p : CohortPersistence) : CohortProposalBatchResponse :=
  match map_to_list (kp_batches p) with
  | (_, b) :: _ => b
  | [] => {| bp_batch := ProposeDemo.batch; bp_source_draft := {| cdb_draft_id := ""; cdb_revision := 0; cdb_manifest_digest := "" |} |}
  end.
Definition response : CohortProposalBatchResponse := Eval vm_compute in response_or batch_persistence.
Definition batch : CohortProposalBatch := Eval vm_compute in bp_batch response.
Definition proposal_id (n : nat) : string := from_option cp_proposal_id "" (ct_proposals batch !! n).

(** ** A split preview of the web servers *)
Definition split_request : CohortReviewPreviewRequest := {|
  vq_action := ReviewSplit; vq_manifest_id := "shop"; vq_manifest_version := "1.0.0"; vq_profile_id := "production";
  vq_draft_id := "d1"; vq_expected_revision := 1; vq_expected_digest := shop_digest; vq_proposal_ids := [proposal_id 1];
  vq_source_role_refs := ["web"]; vq_proposal_set_digest := ct_proposal_set_digest batch;
  vq_snapshot_artifact_digest := ps_artifact_digest (ct_snapshot batch); vq_resolution := "one server per zone" |}.
Definition previewed := preview ports ann "split" split_request as_of draft_store draft_store batch_persistence batch_persistence.

(** ** Decisions *)
Definition decision (action : CohortDecisionKind) (n : nat) (candidate : option CohortReviewCandidate) : CohortDecisionRequest := {|
  dq_action := action; dq_manifest_id := "shop"; dq_manifest_version := "1.0.0"; dq_profile_id := "production";
  dq_draft_id := "d1"; dq_expected_revision := 1; dq_expected_digest := shop_digest; dq_scope := ct_scope batch;
  dq_proposal_set_digest := ct_proposal_set_digest batch; dq_proposal_ids := [proposal_id n];
  dq_snapshot_artifact_digest := ps_artifact_digest (ct_snapshot batch); dq_candidate := candidate;
  dq_rationale := "the servers of the shop" |}.
Definition alone : nat -> ContextStore -> ContextStore := fun _ s => s.
Definition rejection (n : nat) : CohortDecisionRequest := decision DecisionReject n None.
Definition first_rejected := decide ports batch_persistence alone ann "first" (rejection 0) as_of as_of as_of draft_store.
Definition second_rejected := decide ports batch_persistence alone ann "second" (rejection 2) as_of as_of as_of (snd first_rejected).
Definition rejection_key (n : nat) : string * string :=
  ("shop", decision_id_of (digest_or (decision_request_digest ann (rejection n)))).

(** The candidate an approval of the web servers submits *)
Definition web_update : option CohortRoleUpdate :=
  p ← ct_proposals batch !! 1%nat; preview ← cp_selector_preview p;
  Some {| cu_role := role_with_selectors (cp_role p) [pv_selector preview]; cu_selector_previews := [preview];
          cu_member_count := 2 |}.
Definition approval_candidate : CohortReviewCandidate := {|
  cx_candidate_id := "review-" +:+ proposal_id 1; cx_action := ReviewApprove; cx_source_draft := bp_source_draft response;
  cx_scope := ct_scope batch; cx_source_proposal_ids := [proposal_id 1];
  cx_proposal_set_digest := ct_proposal_set_digest batch; cx_snapshot := ct_snapshot batch;
  cx_role_updates := from_option (fun u => [u]) [] web_update; cx_replace_role_refs := ["web"];
  cx_resolution := "the servers of the shop"; cx_generated_at := ct_evaluated_at batch;
  cx_expires_at := es_expires_at snapshot; cx_requires_human_review := true; cx_publication_allowed := false;
  cx_manifest_mutated := false |}.
Definition approval : CohortDecisionRequest := Eval vm_compute in decision DecisionApprove 1 (Some approval_candidate).
Definition approved := decide_body ports batch_persistence ann "approve" "digest" approval as_of as_of as_of (enter draft_store).
End CohortDemo.

Module CohortWitnesses.
Import CohortDemo.

Lemma alone_steps : forall n s, rtc (step publisher) s (alone n s).
Proof. intros. apply rtc_refl. Qed.

Lemma draft_reachable : reachable publisher draft_store.
Proof.
  eapply rtc_r; [apply rtc_refl|].
  eapply (step_call _ _ _ ann "create" create_call as_of new_store); [vm_compute; reflexivity|exact draft_created].
Qed.

(** The first rejection, retried on the store after both *)
Lemma rejections_run :
  is_ok (fst first_rejected) &&
  (present (sd_cohort_decisions (cs_data (snd second_rejected)) !! rejection_key 0) &&
   present (sd_cohort_decisions (cs_data (snd second_rejected)) !! rejection_key 2)) = true.
Proof. vm_cast_no_check (eq_refl true). Qed.
Lemma first_rejected_Ok : exists record, first_rejected = (Ok record, snd first_rejected).
Proof.
  destruct (andb_prop _ _ rejections_run) as [H _]. apply is_ok_spec in H as [record Hr]. exists record.
  destruct first_rejected as [r store]. cbn in Hr |- *. by rewrite Hr.
Qed.

Lemma rejections_reachable : reachable publisher (snd second_rejected).
Proof.
  unfold reachable. trans (snd first_rejected).
  - trans draft_store; [exact draft_reachable|]. by apply decide_history, alone_steps.
  - by apply decide_history, alone_steps.
Qed.

Lemma decision_retry_is_idempotent_witness : exists record,
  decide ports batch_persistence alone ann "first" (rejection 0) (as_of + 1) as_of as_of (snd first_rejected)
    = (Ok record, snd first_rejected).
Proof.
  destruct first_rejected_Ok as [record Hr]. exists record.
  exact (decision_retry_is_idempotent publisher ports batch_persistence alone ann "first" (rejection 0) as_of as_of as_of
    draft_store record (snd first_rejected) (snd first_rejected) ports batch_persistence alone (as_of + 1) as_of as_of
    Hr (rtc_refl _ _) (alone_steps 0)).
Defined.

Lemma recorded_decisions_disjoint_witness : exists d1 d2,
  sd_cohort_decisions (cs_data (snd second_rejected)) !! rejection_key 0 = Some d1 /\
  sd_cohort_decisions (cs_data (snd second_rejected)) !! rejection_key 2 = Some d2 /\
  (batch_overlap_identity (proposal_set_version d1) = batch_overlap_identity (proposal_set_version d2) ->
   forall p, p ∈ cd_source_proposal_ids d1 -> p ∉ cd_source_proposal_ids d2).
Proof.
  destruct (andb_prop _ _ rejections_run) as [_ H]. destruct (andb_prop _ _ H) as [H1 H2].
  destruct (sd_cohort_decisions _ !! rejection_key 0) as [d1|] eqn:E1; [|discriminate H1].
  destruct (sd_cohort_decisions _ !! rejection_key 2) as [d2|] eqn:E2; [|discriminate H2].
  exists d1, d2. split; [reflexivity|]. split; [reflexivity|].
  apply (recorded_decisions_disjoint publisher (snd second_rejected) (rejection_key 0) (rejection_key 2) d1 d2
    rejections_reachable E1 E2). vm_compute. discriminate.
Defined.

Lemma split_partitions_exact_witness : exists parts, split_partitions ["a"; "b"; "c"] = Ok parts /\ (2 <= length parts)%nat.
Proof.
  destruct (split_partitions_exact ["a"; "b"; "c"]) as (parts & Hp & _ & Hl & _); [apply le_S, le_n|].
  exists parts. exact (conj Hp Hl).
Defined.

Lemma preview_run : is_ok (fst previewed) = true.
Proof. vm_cast_no_check (eq_refl true). Qed.

Lemma preview_candidate_exact_witness : exists c u dict batch proposals,
  fst previewed = Ok c /\ cx_role_updates c = [u] /\ select_proposals batch split_request = Ok proposals /\
  selects_exactly dict (mr_selectors (cu_role u)) proposals.
Proof.
  destruct previewed as [[c|e] persistence''] eqn:E; [|pose proof preview_run as H; rewrite E in H; discriminate H].
  destruct (preview_candidate_exact ports ann "split" split_request as_of draft_store draft_store batch_persistence
    batch_persistence c persistence'' E) as (context & b & proposals & p & u & dict & _ & _ & Hs & _ & Hu & _ & _ & Hx & _).
  - vm_compute. reflexivity.
  - vm_compute. reflexivity.
  - exists c, u, dict, b, proposals. exact (conj eq_refl (conj Hu (conj Hs Hx))).
Defined.

Lemma approval_ran : is_ok approved = true.
Proof. vm_cast_no_check (eq_refl true). Qed.

Lemma approved_Ok : exists record tx, approved = Ok (record, tx).
Proof. pose proof approval_ran as H. apply is_ok_spec in H as [[record tx] H]. by exists record, tx. Qed.

Lemma no_receipt : sd_cohort_decision_receipts (tx_data (enter draft_store)) !! (ac_actor_id ann, "approve") = None.
Proof. reflexivity. Qed.

Lemma not_rejection : dq_action approval <> DecisionReject.
Proof. discriminate. Qed.

Lemma updates_valid c u : dq_candidate approval = Some c -> u ∈ cx_role_updates c -> validate_role_update u = Ok tt.
Proof.
  intros Hc Hu. injection Hc as <-. cbn in Hu. apply list_elem_of_singleton in Hu as ->. vm_compute. reflexivity.
Qed.

Lemma decided_members_exact_witness : exists record tx u dict proposals,
  approved = Ok (record, tx) /\ selects_exactly dict (mr_selectors (cu_role u)) proposals.
Proof.
  destruct approved_Ok as (record & tx & E).
  destruct (decided_members_exact ports batch_persistence ann "approve" "digest" approval as_of as_of as_of (enter draft_store)
    record tx E no_receipt not_rejection updates_valid)
    as (t & w & proposals & c & u & p & dict & _ & _ & _ & _ & _ & _ & _ & _ & Hx).
  exists record, tx, u, dict, proposals. exact (conj E Hx).
Defined.

Lemma decision_replaces_one_role_witness : exists record tx d d',
  approved = Ok (record, tx) /\ sd_drafts (tx_data (enter draft_store)) !! "d1" = Some d /\
  dr_revision d' = dr_revision d + 1 /\ sd_drafts (tx_data tx) !! "d1" = Some d'.
Proof.
  destruct approved_Ok as (record & tx & E).
  destruct (decision_replaces_one_role ports batch_persistence ann "approve" "digest" approval as_of as_of as_of (enter draft_store)
    record tx E no_receipt not_rejection (reachable_keyed publisher draft_store draft_reachable))
    as (d & d' & c & u & rest & t & binding & _ & _ & Hd & Hd' & _ & Hr & _).
  exists record, tx, d, d'. split; [exact E|]. split; [exact Hd|]. split; [exact Hr|].
  exact (eq_trans (f_equal (fun m => m !! "d1") Hd') (lookup_insert_eq (sd_drafts (tx_data (enter draft_store))) "d1" d')).
Defined.
End CohortWitnesses.
