(* ===== verification/CorrelationContract.v ===== *)
(** * CorrelationContract: the evidence a correlation request carries

    [contracts/correlation.py] up to CorrelationRequest, and the change evidence
    of [contracts/change_ingestion.py] it embeds: each model as a record with its
    rendering and [make_X], the validators pydantic runs when one is built. A
    [UtcDateTime] is an instant in microseconds. [ipaddress.ip_address] and
    [uuid.UUID] parse text: the classes [IpAddress] and [PyUuid]. *)
From S2P Require Import Prelude Text Sha256 Time Json Base64 Events.
From Stdlib Require Import Ascii SpecFloat.
Local Open Scope Z_scope.

(** ** Literals *)
Inductive ConfidenceLevel := CfUnknown | CfLow | CfMedium | CfHigh | CfConfirmed.
Inductive EvidenceFamily :=
  FamGuest | FamNetworkFlow | FamConnectionMonitor | FamEndpointHealth | FamPlatformHealth | FamResourceChange | FamDeclaredContext.
Inductive HealthState := HsHealthy | HsDegraded | HsUnhealthy | HsUnavailable | HsRecovered | HsUnknown.
Inductive GuestSignal :=
  HeartbeatLoss | DiskCapacityPressure | InodePressure | DiskLatency | MemoryPressure | CpuSaturation | NicErrors | ServiceFailure.
Inductive FlowDecision := FlowAllowed | FlowDenied | FlowUnknown.
Inductive FlowDirection := Inbound | Outbound.
Inductive NetworkProtocol := Tcp | Udp | Icmp | AnyProtocol.
Inductive NetworkAttributionMethod := IpFlowVerify | EffectiveRuleEvaluation.
Inductive NetworkRuleCausalEffect := IntroducedDenyForTuple.
Inductive ConnectionMonitorStatus := MonitorSucceeded | MonitorFailed | MonitorDegraded | MonitorUnknown.
Inductive PlatformHealthKind := PkResourceHealth | PkServiceHealth | PkLoadBalancerBackend.
Inductive CoverageStatus := CovComplete | CovPartial | CovUnavailable | CovTruncated.
Inductive PathClass := PathDeclared | PathObserved | PathInferred | PathException.
Inductive ChangeEvidenceSource := ChangeEventGrid | ChangeResourceGraph.
Inductive ChangeOperation := OpCreate | OpUpdate | OpCreateOrUpdate | OpDelete | OpAction.
Inductive ChangeResult := ChangeSucceeded | ChangeFailedResult | ChangeUnknown.
Inductive ChangeActorKind := ActorUser | ActorApplication | ActorManagedIdentity | ActorSystem | ActorUnknown.
Inductive DeploymentSourceKind := SourceAzurePortal | SourceAutomation | SourceResourceManager | SourcePolicy | SourceUnknown.
Inductive PolicyEnforcementMode := EnforceDefault | DoNotEnforce | EnforceUnknown.

#[export] Instance ConfidenceLevel_eq_dec : EqDecision ConfidenceLevel. Proof. solve_decision. Defined.
#[export] Instance EvidenceFamily_eq_dec : EqDecision EvidenceFamily. Proof. solve_decision. Defined.
#[export] Instance HealthState_eq_dec : EqDecision HealthState. Proof. solve_decision. Defined.
#[export] Instance GuestSignal_eq_dec : EqDecision GuestSignal. Proof. solve_decision. Defined.
#[export] Instance FlowDecision_eq_dec : EqDecision FlowDecision. Proof. solve_decision. Defined.
#[export] Instance FlowDirection_eq_dec : EqDecision FlowDirection. Proof. solve_decision. Defined.
#[export] Instance NetworkProtocol_eq_dec : EqDecision NetworkProtocol. Proof. solve_decision. Defined.
#[export] Instance NetworkAttributionMethod_eq_dec : EqDecision NetworkAttributionMethod. Proof. solve_decision. Defined.
#[export] Instance NetworkRuleCausalEffect_eq_dec : EqDecision NetworkRuleCausalEffect. Proof. solve_decision. Defined.
#[export] Instance ConnectionMonitorStatus_eq_dec : EqDecision ConnectionMonitorStatus. Proof. solve_decision. Defined.
#[export] Instance PlatformHealthKind_eq_dec : EqDecision PlatformHealthKind. Proof. solve_decision. Defined.
#[export] Instance CoverageStatus_eq_dec : EqDecision CoverageStatus. Proof. solve_decision. Defined.
#[export] Instance PathClass_eq_dec : EqDecision PathClass. Proof. solve_decision. Defined.
#[export] Instance ChangeEvidenceSource_eq_dec : EqDecision ChangeEvidenceSource. Proof. solve_decision. Defined.
#[export] Instance ChangeOperation_eq_dec : EqDecision ChangeOperation. Proof. solve_decision. Defined.
#[export] Instance ChangeResult_eq_dec : EqDecision ChangeResult. Proof. solve_decision. Defined.
#[export] Instance ChangeActorKind_eq_dec : EqDecision ChangeActorKind. Proof. solve_decision. Defined.
#[export] Instance DeploymentSourceKind_eq_dec : EqDecision DeploymentSourceKind. Proof. solve_decision. Defined.
#[export] Instance PolicyEnforcementMode_eq_dec : EqDecision PolicyEnforcementMode. Proof. solve_decision. Defined.

Definition confidence_text (c : ConfidenceLevel) : string :=
  match c with CfUnknown => "Unknown" | CfLow => "Low" | CfMedium => "Medium" | CfHigh => "High" | CfConfirmed => "Confirmed" end.

Definition family_text (f : EvidenceFamily) : string :=
  match f with
  | FamGuest => "guest" | FamNetworkFlow => "networkFlow" | FamConnectionMonitor => "connectionMonitor"
  | FamEndpointHealth => "endpointHealth" | FamPlatformHealth => "platformHealth"
  | FamResourceChange => "resourceChange" | FamDeclaredContext => "declaredContext"
  end.

Definition health_text (s : HealthState) : string :=
  match s with
  | HsHealthy => "healthy" | HsDegraded => "degraded" | HsUnhealthy => "unhealthy"
  | HsUnavailable => "unavailable" | HsRecovered => "recovered" | HsUnknown => "unknown"
  end.

Definition guest_signal_text (s : GuestSignal) : string :=
  match s with
  | HeartbeatLoss => "heartbeatLoss" | DiskCapacityPressure => "diskCapacityPressure" | InodePressure => "inodePressure"
  | DiskLatency => "diskLatency" | MemoryPressure => "memoryPressure" | CpuSaturation => "cpuSaturation"
  | NicErrors => "nicErrors" | ServiceFailure => "serviceFailure"
  end.

Definition decision_text (d : FlowDecision) : string :=
  match d with FlowAllowed => "allowed" | FlowDenied => "denied" | FlowUnknown => "unknown" end.
Definition direction_text (d : FlowDirection) : string := match d with Inbound => "inbound" | Outbound => "outbound" end.
Definition protocol_text (p : NetworkProtocol) : string :=
  match p with Tcp => "Tcp" | Udp => "Udp" | Icmp => "Icmp" | AnyProtocol => "Any" end.
Definition attribution_method_text (m : NetworkAttributionMethod) : string :=
  match m with IpFlowVerify => "ipFlowVerify" | EffectiveRuleEvaluation => "effectiveRuleEvaluation" end.
Definition causal_effect_text (e : NetworkRuleCausalEffect) : string := match e with IntroducedDenyForTuple => "introducedDenyForTuple" end.
Definition monitor_status_text (s : ConnectionMonitorStatus) : string :=
  match s with MonitorSucceeded => "succeeded" | MonitorFailed => "failed" | MonitorDegraded => "degraded" | MonitorUnknown => "unknown" end.
Definition platform_kind_text (k : PlatformHealthKind) : string :=
  match k with PkResourceHealth => "resourceHealth" | PkServiceHealth => "serviceHealth" | PkLoadBalancerBackend => "loadBalancerBackend" end.
Definition coverage_status_text (s : CoverageStatus) : string :=
  match s with CovComplete => "complete" | CovPartial => "partial" | CovUnavailable => "unavailable" | CovTruncated => "truncated" end.
Definition path_class_text (c : PathClass) : string :=
  match c with PathDeclared => "declared" | PathObserved => "observed" | PathInferred => "inferred" | PathException => "exception" end.
Definition change_source_text (s : ChangeEvidenceSource) : string :=
  match s with ChangeEventGrid => "azureEventGrid" | ChangeResourceGraph => "azureResourceGraphChangeHistory" end.
Definition operation_text (o : ChangeOperation) : string :=
  match o with
  | OpCreate => "create" | OpUpdate => "update" | OpCreateOrUpdate => "createOrUpdate" | OpDelete => "delete" | OpAction => "action"
  end.
Definition change_result_text (r : ChangeResult) : string :=
  match r with ChangeSucceeded => "succeeded" | ChangeFailedResult => "failed" | ChangeUnknown => "unknown" end.
Definition change_actor_text (k : ChangeActorKind) : string :=
  match k with
  | ActorUser => "user" | ActorApplication => "application" | ActorManagedIdentity => "managedIdentity"
  | ActorSystem => "system" | ActorUnknown => "unknown"
  end.
Definition deployment_source_text (k : DeploymentSourceKind) : string :=
  match k with
  | SourceAzurePortal => "azurePortal" | SourceAutomation => "automation" | SourceResourceManager => "resourceManager"
  | SourcePolicy => "policy" | SourceUnknown => "unknown"
  end.
Definition enforcement_text (m : PolicyEnforcementMode) : string :=
  match m with EnforceDefault => "default" | DoNotEnforce => "doNotEnforce" | EnforceUnknown => "unknown" end.

(** _CONFIDENCE_RANK *)
Definition confidence_rank (c : ConfidenceLevel) : Z :=
  match c with CfUnknown => 0 | CfLow => 1 | CfMedium => 2 | CfHigh => 3 | CfConfirmed => 4 end.

(** ** Models *)
Record CorrelationEvidenceCitation := {
  ci_evidence_id : string;
  ci_family : EvidenceFamily;
  ci_provenance_root_digest : string;
  ci_evidence_digest : string;
  ci_source_reference : VersionPinnedBlobReference;
  ci_observed_start : Z;
  ci_observed_end : Z;
  ci_source_root_reference : string;
  ci_resource_ids : list string;
  ci_summary_code : string;
}.

Record MonitoringControlProvenance := {
  mc_control_id : string;
  mc_control_digest : string;
  mc_source_clause_path : string;
}.

Record MonitoringIntentEvidenceReference := {
  mi_intent_id : string;
  mi_intent_digest : string;
  mi_asset_reference_id : string;
  mi_asset_reference_digest : string;
  mi_intent_reference : VersionPinnedBlobReference;
  mi_attestation_reference : VersionPinnedBlobReference;
}.

(** The fields every observation declares, of [_MonitoringObservation]. *)
Record ObservationBase := {
  mo_observation_id : string;
  mo_subject_resource_id : string;
  mo_observed_start : Z;
  mo_observed_end : Z;
  mo_provenance_root_digest : string;
  mo_source_root_reference : string;
  mo_source_record_reference : string;
  mo_summary_code : string;
  mo_control_provenance : option MonitoringControlProvenance;
  mo_query_execution_digest : option string;
  mo_observation_digest : string;
}.

Record GuestSignalObservation := {
  gs_base : ObservationBase;
  gs_signal : GuestSignal;
  gs_state : HealthState;
  gs_value : option spec_float;
  gs_unit : option string;
  gs_threshold_digest : option string;
  gs_service_reference : option string;
}.

(** The network tuple that [NetworkFlowObservation] and
    [ConnectionMonitorObservation] declare field by field. *)
Record NetworkTuple := {
  nt_path_id : string;
  nt_direction : FlowDirection;
  nt_protocol : NetworkProtocol;
  nt_source_resource_id : string;
  nt_destination_resource_id : string;
  nt_source_address : string;
  nt_destination_address : string;
  nt_source_port : option Z;
  nt_destination_port : option Z;
  nt_five_tuple_digest : string;
}.

Record NetworkFlowObservation := {
  fl_base : ObservationBase;
  fl_tuple : NetworkTuple;
  fl_decision : FlowDecision;
  fl_enforcement_resource_id : string;
  fl_rule_resource_id : option string;
  fl_effective_rule_attribution : bool;
  fl_attribution_method : option NetworkAttributionMethod;
  fl_causal_effect : option NetworkRuleCausalEffect;
  fl_attribution_proof_digest : option string;
  fl_matched_change_key : option string;
  fl_matched_change_evidence_id : option string;
  fl_matched_change_artifact_digest : option string;
  fl_matched_property_paths : list string;
}.

Record ConnectionMonitorObservation := {
  cm_base : ObservationBase;
  cm_tuple : NetworkTuple;
  cm_monitor_resource_id : string;
  cm_status : ConnectionMonitorStatus;
  cm_test_configuration_reference : string;
  cm_test_configuration_digest : string;
}.

Record EndpointHealthObservation := {
  eh_base : ObservationBase;
  eh_path_id : string;
  eh_status : HealthState;
  eh_backend_resource_ids : list string;
}.

Record PlatformHealthObservation := {
  ph_base : ObservationBase;
  ph_health_kind : PlatformHealthKind;
  ph_status : HealthState;
  ph_event_reference : string;
}.

Inductive MonitoringObservation :=
  | GuestObs (g : GuestSignalObservation)
  | FlowObs (f : NetworkFlowObservation)
  | MonitorObs (m : ConnectionMonitorObservation)
  | EndpointObs (e : EndpointHealthObservation)
  | PlatformObs (p : PlatformHealthObservation).

Record EvidenceCoverageScope := {
  es_scope_id : string;
  es_resource_ids : list string;
  es_path_id : option string;
  es_direction : option FlowDirection;
  es_five_tuple_digest : option string;
  es_endpoint_test_reference : option string;
  es_endpoint_test_digest : option string;
  es_query_scope_digest : string;
  es_scope_digest : string;
}.

Record EvidenceCoverage := {
  co_coverage_id : string;
  co_family : EvidenceFamily;
  co_scope : EvidenceCoverageScope;
  co_provenance_root_digest : string;
  co_source_root_reference : string;
  co_source_record_reference : string;
  co_coverage_start : Z;
  co_coverage_end : Z;
  co_control_provenance : option MonitoringControlProvenance;
  co_query_execution_digests : option (list string);
  co_status : CoverageStatus;
  co_detail : option string;
  co_coverage_digest : string;
}.

(** The two schema versions of a bundle: wc026 v1 and wc028 v2. *)
Inductive BundleSchema := LegacyBundle | SignedBundle.

Record MonitoringEvidenceBundle := {
  mb_schema_version : BundleSchema;
  mb_workload_id : string;
  mb_monitoring_contract_digest : string;
  mb_monitoring_intent_reference : option MonitoringIntentEvidenceReference;
  mb_collected_at : option Z;
  mb_observed_start : Z;
  mb_observed_end : Z;
  mb_observations : list MonitoringObservation;
  mb_coverage : list EvidenceCoverage;
  mb_expected_coverage_scope_digests : list string;
}.

Record DependencyPath := {
  dp_path_id : string;
  dp_path_class : PathClass;
  dp_source_role_ref : string;
  dp_target_role_ref : string;
  dp_relationship_ids : list string;
  dp_resource_ids : list string;
  dp_path_digest : string;
}.

Record PublishedContextAuthority := {
  pa_authority_id : string;
  pa_workload_id : string;
  pa_manifest_id : string;
  pa_manifest_version : string;
  pa_manifest_digest : string;
  pa_profile_id : string;
  pa_resolved_profile_digest : string;
  pa_dependency_graph_digest : string;
  pa_context_binding_payload_digest : string;
  pa_publication_record_digest : string;
  pa_audit_head_digest : string;
  pa_published_at : Z;
  pa_authority_digest : string;
}.

Record ContextBindingBase := {
  cb_workload_id : string;
  cb_manifest_id : string;
  cb_manifest_version : string;
  cb_manifest_digest : string;
  cb_profile_id : string;
  cb_resolved_profile_digest : string;
  cb_dependency_graph_digest : string;
  cb_dependency_paths : list DependencyPath;
  cb_required_coverage_scope_digests : list string;
  cb_binding_digest : string;
}.

(** [PublishedRuntimeContextBinding] and [DraftPreviewContextBinding] *)
Inductive CorrelationContextBinding :=
  | PublishedRuntime (base : ContextBindingBase) (publication_authority : PublishedContextAuthority)
      (publication_authority_reference : VersionPinnedBlobReference)
  | DraftPreview (base : ContextBindingBase) (draft_id : string) (draft_revision : Z).

Record IncidentHealthTransition := {
  it_transition_id : string;
  it_affected_resource_id : string;
  it_previous_state : HealthState;
  it_current_state : HealthState;
  it_observed_start : Z;
  it_observed_end : Z;
  it_previous_state_evidence : list CorrelationEvidenceCitation;
  it_current_state_evidence : list CorrelationEvidenceCitation;
  it_transition_digest : string;
}.

Record CorrelationEvidenceInventory := {
  iv_rule_catalog_digest : string;
  iv_context_binding_digest : string;
  iv_incident_transition_digest : string;
  iv_monitoring_handoff_digest : string;
  iv_monitoring_bundle_digest : string;
  iv_change_artifact_digests : list string;
  iv_evidence_index_digest : string;
  iv_monitoring_intent_asset_reference_digest : option string;
  iv_monitoring_control_provenance_digest : option string;
  iv_source_references : list VersionPinnedBlobReference;
  iv_inventory_digest : string;
}.

(** MonitoringEvidenceAttestation, MonitoringEvidenceHandoff (contracts/monitoring.py) *)
Record MonitoringEvidenceHandoff := {
  mh_collector_contract_digest : string;
  mh_collection_id : string;
  mh_observed_at : Z;
  mh_evidence : VersionPinnedBlobReference;
  mh_trust_anchor_ref : string;
  mh_signed_preimage_digest : string;
  mh_signature : string;
}.

Record ChangedProperty := {
  cp_path : string;
  cp_before_evidence_reference : option string;
  cp_after_evidence_reference : option string;
  cp_is_truncated : bool;
}.

Record NormalizedChangeEvidence := {
  ch_evidence_id : string;
  ch_deduplication_key : string;
  ch_change_key : string;
  ch_source_system : ChangeEvidenceSource;
  ch_source_record_reference : string;
  ch_source_digest : string;
  ch_target_resource_id : string;
  ch_target_resource_type : string;
  ch_operation : ChangeOperation;
  ch_operation_name : string;
  ch_result : ChangeResult;
  ch_changed_properties : list ChangedProperty;
  ch_actor_kind : ChangeActorKind;
  ch_actor_reference : string;
  ch_occurred_at : Z;
  ch_received_at : Z;
  ch_correlation_id : string;
  ch_deployment_source_kind : DeploymentSourceKind;
  ch_deployment_source_reference : string;
  ch_policy_assignment_reference : option string;
  ch_policy_definition_reference : option string;
  ch_policy_enforcement_mode : PolicyEnforcementMode;
  ch_before_evidence_reference : option string;
  ch_after_evidence_reference : option string;
}.

Record ChangeEvidenceAttestation := {
  ct_key_vault_key_id : string;
  ct_signed_preimage_digest : string;
  ct_signature : string;
}.

Record ChangeEvidenceArtifact := {
  art_evidence : NormalizedChangeEvidence;
  art_attestation : ChangeEvidenceAttestation;
}.

Record ChangeEvidencePersistenceHandoff := {
  cph_evidence_id : string;
  cph_deduplication_key : string;
  cph_change_key : string;
  cph_artifact : VersionPinnedBlobReference;
}.

(** The two schema versions of a request: wc026 v2 and wc028 v3. *)
Inductive RequestSchema := LegacyRequest | SignedRequest.

Record CorrelationRequest := {
  rq_schema_version : RequestSchema;
  rq_request_id : string;
  rq_rule_catalog_digest : string;
  rq_incident_revision : Z;
  rq_issued_at : Z;
  rq_trusted_as_of : Z;
  rq_expires_at : Z;
  rq_context_binding : CorrelationContextBinding;
  rq_incident_anchor : IncidentHealthTransition;
  rq_monitoring_handoff : MonitoringEvidenceHandoff;
  rq_monitoring_bundle : MonitoringEvidenceBundle;
  rq_change_artifacts : list ChangeEvidenceArtifact;
  rq_change_handoffs : list ChangeEvidencePersistenceHandoff;
  rq_evidence_index : list CorrelationEvidenceCitation;
  rq_evidence_inventory : CorrelationEvidenceInventory;
  rq_request_digest : string;
}.

#[export] Instance Citation_eq_dec : EqDecision CorrelationEvidenceCitation. Proof. solve_decision. Defined.
#[export] Instance ControlProvenance_eq_dec : EqDecision MonitoringControlProvenance. Proof. solve_decision. Defined.
#[export] Instance ObservationBase_eq_dec : EqDecision ObservationBase. Proof. solve_decision. Defined.
#[export] Instance GuestSignalObservation_eq_dec : EqDecision GuestSignalObservation. Proof. solve_decision. Defined.
#[export] Instance NetworkTuple_eq_dec : EqDecision NetworkTuple. Proof. solve_decision. Defined.
#[export] Instance NetworkFlowObservation_eq_dec : EqDecision NetworkFlowObservation. Proof. solve_decision. Defined.
#[export] Instance ConnectionMonitorObservation_eq_dec : EqDecision ConnectionMonitorObservation. Proof. solve_decision. Defined.
#[export] Instance EndpointHealthObservation_eq_dec : EqDecision EndpointHealthObservation. Proof. solve_decision. Defined.
#[export] Instance PlatformHealthObservation_eq_dec : EqDecision PlatformHealthObservation. Proof. solve_decision. Defined.
#[export] Instance MonitoringObservation_eq_dec : EqDecision MonitoringObservation. Proof. solve_decision. Defined.
#[export] Instance EvidenceCoverageScope_eq_dec : EqDecision EvidenceCoverageScope. Proof. solve_decision. Defined.
#[export] Instance EvidenceCoverage_eq_dec : EqDecision EvidenceCoverage. Proof. solve_decision. Defined.
#[export] Instance BundleSchema_eq_dec : EqDecision BundleSchema. Proof. solve_decision. Defined.
#[export] Instance RequestSchema_eq_dec : EqDecision RequestSchema. Proof. solve_decision. Defined.

(** ** The common fields of an observation and of a context binding *)
Definition ob_base (o : MonitoringObservation) : ObservationBase :=
  match o with
  | GuestObs g => gs_base g | FlowObs f => fl_base f | MonitorObs m => cm_base m | EndpointObs e => eh_base e | PlatformObs p => ph_base p
  end.
Definition ob_id (o : MonitoringObservation) : string := mo_observation_id (ob_base o).
Definition ob_start (o : MonitoringObservation) : Z := mo_observed_start (ob_base o).
Definition ob_end (o : MonitoringObservation) : Z := mo_observed_end (ob_base o).

Definition binding_base (b : CorrelationContextBinding) : ContextBindingBase :=
  match b with PublishedRuntime base _ _ | DraftPreview base _ _ => base end.
Definition dependency_paths (r : CorrelationRequest) : list DependencyPath := cb_dependency_paths (binding_base (rq_context_binding r)).
Definition observations (r : CorrelationRequest) : list MonitoringObservation := mb_observations (rq_monitoring_bundle r).

(** [observation.path_id] of the observations of a path *)
Definition ob_path_id (o : MonitoringObservation) : option string :=
  match o with
  | FlowObs f => Some (nt_path_id (fl_tuple f))
  | MonitorObs m => Some (nt_path_id (cm_tuple m))
  | EndpointObs e => Some (eh_path_id e)
  | GuestObs _ | PlatformObs _ => None
  end.

(** ** Field patterns *)
Definition token_rest (p : ascii -> bool) (n : nat) (s : string) : bool :=
  match s with
  | EmptyString => false
  | String c r => ascii_in "a" "z" c && (String.length r <=? n)%nat && all_chars p r
  end.
Definition is_low_alnum (c : ascii) : bool := ascii_in "a" "z" c || is_digit c.
Definition dot_or_dash (c : ascii) : bool := Ascii.eqb c "." || Ascii.eqb c "-".

(** [^[a-z][a-z0-9.-]{0,127}$] and [^[a-z][A-Za-z0-9.-]{0,127}$] *)
Definition is_token : string -> bool := token_rest (fun c => is_low_alnum c || dot_or_dash c) 127.
Definition is_summary_code : string -> bool := token_rest (fun c => is_alnum c || dot_or_dash c) 127.

(** _SOURCE_RECORD_REF_PATTERN: [^[a-z][a-z0-9-]{0,31}:sha256:[a-f0-9]{64}$] *)
Definition is_source_reference (s : string) : bool :=
  match split_on ":" s with
  | [p; "sha256"; h] =>
      token_rest (fun c => is_low_alnum c || Ascii.eqb c "-") 31 p && (String.length h =? 64)%nat && all_chars is_lower_hex h
  | _ => false
  end.

(** [^/[A-Za-z0-9._~/-]{1,511}$] *)
Definition is_clause_path (s : string) : bool :=
  match s with
  | String c r =>
      Ascii.eqb c slash && (1 <=? String.length r)%nat && (String.length r <=? 511)%nat &&
      all_chars (fun d => is_relative_char d || Ascii.eqb d "~") r
  | EmptyString => false
  end.

(** _PROPERTY_PATH_PATTERN: [^[A-Za-z][A-Za-z0-9_.\[\]-]{0,511}$] *)
Definition is_property_path (s : string) : bool :=
  match s with
  | String c r =>
      (ascii_in "a" "z" c || ascii_in "A" "Z" c) && (String.length r <=? 511)%nat &&
      all_chars (fun d => is_alnum d || dot_or_dash d || existsb (Ascii.eqb d) ["_"; "["; "]"]%char) r
  | EmptyString => false
  end.

(** [(?:/type/name)+] at the end of a resource id *)
Fixpoint type_name_segments (type_ok name_ok : string -> bool) (l : list string) : bool :=
  match l with
  | [t; n] => type_ok t && name_ok n
  | t :: n :: l => type_ok t && name_ok n && type_name_segments type_ok name_ok l
  | _ => false
  end.

Definition sized (lo hi : nat) (p : ascii -> bool) (s : string) : bool :=
  (lo <=? String.length s)%nat && (String.length s <=? hi)%nat && all_chars p s.

(** An Azure resource id in lower case, its provider and type path tested by the arguments *)
Definition azure_resource_id (provider_ok type_ok name_ok : string -> bool) (s : string) : bool :=
  match split_on slash s with
  | "" :: "subscriptions" :: subscription :: "resourcegroups" :: group :: "providers" :: provider :: rest =>
      is_guid subscription && all_chars (fun c => is_lower_hex c || Ascii.eqb c "-") subscription &&
      sized 1 90 (fun c => is_low_alnum c || dot_or_dash c || existsb (Ascii.eqb c) ["_"; "("; ")"]%char) group &&
      provider_ok provider && type_name_segments type_ok name_ok rest
  | _ => false
  end.

Definition provider_char (c : ascii) : bool := is_low_alnum c || Ascii.eqb c ".".
Definition segment_ok (s : string) : bool :=
  negb (String.eqb s "") &&
  all_chars (fun c => is_low_alnum c || dot_or_dash c || existsb (Ascii.eqb c) ["_"; "("; ")"]%char) s.

(** _RESOURCE_ID_PATTERN *)
Definition is_resource_id : string -> bool :=
  azure_resource_id (fun s => negb (String.eqb s "") && all_chars provider_char s) segment_ok segment_ok.

(** _AZURE_RESOURCE_ID_PATTERN (contracts/change_ingestion.py) *)
Definition is_azure_resource_id : string -> bool :=
  azure_resource_id (sized 1 128 provider_char) (sized 1 128 provider_char)
    (sized 1 260 (fun c => is_low_alnum c || dot_or_dash c || Ascii.eqb c "_")).

(** [ipaddress.ip_address(value).compressed] and [str(uuid.UUID(value)).lower()],
    [None] when the text does not parse. *)
Class IpAddress := ip_compressed : string -> option string.
Class PyUuid := uuid_text : string -> option string.

(** _NSG_CAUSAL_PROPERTY_PREFIXES *)
Definition NSG_CAUSAL_PROPERTY_PREFIXES : list string := [
  "properties.access"; "properties.direction"; "properties.priority"; "properties.protocol";
  "properties.sourceaddressprefix"; "properties.sourceaddressprefixes"; "properties.sourceportrange";
  "properties.sourceportranges"; "properties.destinationaddressprefix"; "properties.destinationaddressprefixes";
  "properties.destinationportrange"; "properties.destinationportranges"].

(** The NSG rule type, in lower case *)
Definition nsg_rule_type : string := "microsoft.network/networksecuritygroups/securityrules".

(** [allowed] followed by digits in brackets *)
Definition indexed_property (digit : ascii -> bool) (allowed normalized : string) : bool :=
  starts_with (allowed +:+ "[") normalized && ends_with "]" normalized &&
  let n := String.length normalized in
  let k := S (String.length allowed) in
  let inner := string_take (n - 1 - k) (string_drop k normalized) in
  negb (String.eqb inner "") && all_chars digit inner.

Section contract.
Context `{PyText, Rfc8785, PydanticJson, IpAddress, PyUuid}.

Definition value_error (msg : string) : exn := ValueError msg.

(** pydantic reports a [ValueError] of a validator as a [ValidationError]. *)
Definition validated {A} (m : result A) : result A := reraise is_value_error (ValidationError "model") m.

(** _canonical_resource_id *)
Definition canonical_resource_id (value : string) : result string :=
  _ ← guard_or (value_error "resource ID must be one bounded canonical Azure resource ID")
        (String.eqb value (strip value) && (py_len value <=? 2048)%nat &&
         negb (contains_char (ascii_of_nat 92) value) && negb (contains_char "%" value));
  let normalized := rstrip_slash (lower value) in
  _ ← guard_or (value_error "resource ID must be one bounded canonical Azure resource ID") (is_resource_id normalized);
  Ok normalized.

(** _canonical_azure_resource_id (contracts/change_ingestion.py) *)
Definition canonical_azure_resource_id (value : string) : result string :=
  _ ← guard_or (value_error "resource ID must be a bounded canonical Azure resource ID")
        (String.eqb value (strip value) && (py_len value <=? 2048)%nat &&
         negb (contains_char (ascii_of_nat 92) value) && negb (contains_char "%" value));
  let normalized := rstrip_slash (lower value) in
  _ ← guard_or (value_error "resource ID must be one exact Azure resource ID") (is_azure_resource_id normalized);
  Ok normalized.

(** _require_interval, _intervals_overlap *)
Definition require_interval (start stop : Z) : result unit :=
  raise_if (value_error "observation start must not be after observation end") (stop <? start).
Definition intervals_overlap (first_start first_end second_start second_end : Z) : bool :=
  (first_start <? second_end) && (second_start <? first_end).

(** [values == tuple(sorted(values))] without repetition *)
Definition sorted_unique (values : list string) : bool := bool_decide (values = sort_strings values) && unique values.

(** _require_sorted_unique *)
Definition require_sorted_unique (values : list string) (field_name : string) : result (list string) :=
  _ ← guard_or (value_error field_name) (sorted_unique values); Ok values.

(** normalize_resource_ids, normalize_backend_resource_ids *)
Definition normalize_resource_ids (field_name : string) (values : list string) : result (list string) :=
  normalized ← mapR canonical_resource_id values; require_sorted_unique normalized field_name.

(** _is_nsg_causal_property *)
Definition is_nsg_causal_property (path : string) : bool :=
  let normalized := casefold path in
  existsb (fun allowed => String.eqb normalized allowed || indexed_property is_digit allowed normalized) NSG_CAUSAL_PROPERTY_PREFIXES.

(** [model_dump(..., exclude=keys)] *)
Definition exclude (keys : list string) (members : list (string * json)) : json :=
  JObj (select (fun m => negb (bool_decide (m.1 ∈ keys))) members).

(** _expected_digest *)
Definition expected_digest (members : list (string * json)) (excluded_fields : list string) : result string :=
  compute_artifact_digest (exclude excluded_fields members).

(** [f"{kind}-{digest.removeprefix('sha256:')[:32]}"] *)
Definition digest_bound_id (prefix digest : string) : string := prefix +:+ "-" +:+ string_take 32 (removeprefix "sha256:" digest).

(** _require_bound_identifier *)
Definition require_bound_identifier (identifier prefix digest : string) : result unit :=
  _ ← guard_or (value_error "identifier is invalid") (prefixed_hex (prefix +:+ "-") 32 identifier);
  guard_or (value_error "identifier is not digest-bound") (String.eqb identifier (digest_bound_id prefix digest)).

(** [AthenaBaseModel.validate_timezone_aware_datetimes] *)
Definition check_instants (l : list Z) : result unit :=
  field "timestamp" (forallb (fun t => microsecond t mod 1000 =? 0) l).

(** [_StrictCorrelationModel.canonical_bytes] and its digest *)
Definition bytes_digest (dump : json) : result string := sha256_hex <$> canonical_bytes dump.

(** ** Renderings: [model_dump(mode="json", by_alias=True, exclude_none=True)] *)
Definition instant_json (t : Z) : json := JStr (canonical_timestamp t).
Definition texts (l : list string) : json := JArr (JStr <$> l).
Definition opt_text (k : string) (v : option string) : list (string * json) := opt_member k (JStr <$> v).

Definition citation_dump (c : CorrelationEvidenceCitation) : json := JObj [
  ("evidenceId", JStr (ci_evidence_id c));
  ("family", JStr (family_text (ci_family c)));
  ("provenanceRootDigest", JStr (ci_provenance_root_digest c));
  ("evidenceDigest", JStr (ci_evidence_digest c));
  ("sourceReference", blob_reference_dump (ci_source_reference c));
  ("observedStart", instant_json (ci_observed_start c));
  ("observedEnd", instant_json (ci_observed_end c));
  ("sourceRootReference", JStr (ci_source_root_reference c));
  ("resourceIds", texts (ci_resource_ids c));
  ("summaryCode", JStr (ci_summary_code c))].

Definition control_dump (p : MonitoringControlProvenance) : json := JObj [
  ("controlId", JStr (mc_control_id p));
  ("controlDigest", JStr (mc_control_digest p));
  ("sourceClausePath", JStr (mc_source_clause_path p))].

Definition intent_reference_dump (i : MonitoringIntentEvidenceReference) : json := JObj [
  ("intentId", JStr (mi_intent_id i));
  ("intentDigest", JStr (mi_intent_digest i));
  ("assetReferenceId", JStr (mi_asset_reference_id i));
  ("assetReferenceDigest", JStr (mi_asset_reference_digest i));
  ("intentReference", blob_reference_dump (mi_intent_reference i));
  ("attestationReference", blob_reference_dump (mi_attestation_reference i))].

Definition observation_base_members (b : ObservationBase) : list (string * json) :=
  [("observationId", JStr (mo_observation_id b));
   ("subjectResourceId", JStr (mo_subject_resource_id b));
   ("observedStart", instant_json (mo_observed_start b));
   ("observedEnd", instant_json (mo_observed_end b));
   ("provenanceRootDigest", JStr (mo_provenance_root_digest b));
   ("sourceRootReference", JStr (mo_source_root_reference b));
   ("sourceRecordReference", JStr (mo_source_record_reference b));
   ("summaryCode", JStr (mo_summary_code b))] ++
  opt_member "controlProvenance" (control_dump <$> mo_control_provenance b) ++
  opt_text "queryExecutionDigest" (mo_query_execution_digest b) ++
  [("observationDigest", JStr (mo_observation_digest b))].

Definition tuple_members (t : NetworkTuple) : list (string * json) :=
  [("pathId", JStr (nt_path_id t));
   ("direction", JStr (direction_text (nt_direction t)));
   ("protocol", JStr (protocol_text (nt_protocol t)));
   ("sourceResourceId", JStr (nt_source_resource_id t));
   ("destinationResourceId", JStr (nt_destination_resource_id t));
   ("sourceAddress", JStr (nt_source_address t));
   ("destinationAddress", JStr (nt_destination_address t))] ++
  opt_member "sourcePort" (JInt <$> nt_source_port t) ++
  opt_member "destinationPort" (JInt <$> nt_destination_port t) ++
  [("fiveTupleDigest", JStr (nt_five_tuple_digest t))].

Definition guest_members (g : GuestSignalObservation) : list (string * json) :=
  observation_base_members (gs_base g) ++
  [("observationKind", JStr "guestSignal");
   ("signal", JStr (guest_signal_text (gs_signal g)));
   ("state", JStr (health_text (gs_state g)))] ++
  opt_member "value" (JFloat <$> gs_value g) ++
  opt_text "unit" (gs_unit g) ++
  opt_text "thresholdDigest" (gs_threshold_digest g) ++
  opt_text "serviceReference" (gs_service_reference g).

Definition flow_members (f : NetworkFlowObservation) : list (string * json) :=
  observation_base_members (fl_base f) ++
  [("observationKind", JStr "networkFlow")] ++ tuple_members (fl_tuple f) ++
  [("decision", JStr (decision_text (fl_decision f)));
   ("enforcementResourceId", JStr (fl_enforcement_resource_id f))] ++
  opt_text "ruleResourceId" (fl_rule_resource_id f) ++
  [("effectiveRuleAttribution", JBool (fl_effective_rule_attribution f))] ++
  opt_text "attributionMethod" (attribution_method_text <$> fl_attribution_method f) ++
  opt_text "causalEffect" (causal_effect_text <$> fl_causal_effect f) ++
  opt_text "attributionProofDigest" (fl_attribution_proof_digest f) ++
  opt_text "matchedChangeKey" (fl_matched_change_key f) ++
  opt_text "matchedChangeEvidenceId" (fl_matched_change_evidence_id f) ++
  opt_text "matchedChangeArtifactDigest" (fl_matched_change_artifact_digest f) ++
  [("matchedPropertyPaths", texts (fl_matched_property_paths f))].

Definition monitor_members (m : ConnectionMonitorObservation) : list (string * json) :=
  observation_base_members (cm_base m) ++
  [("observationKind", JStr "connectionMonitor");
   ("monitorResourceId", JStr (cm_monitor_resource_id m))] ++ tuple_members (cm_tuple m) ++
  [("status", JStr (monitor_status_text (cm_status m)));
   ("testConfigurationReference", JStr (cm_test_configuration_reference m));
   ("testConfigurationDigest", JStr (cm_test_configuration_digest m))].

Definition endpoint_members (e : EndpointHealthObservation) : list (string * json) :=
  observation_base_members (eh_base e) ++
  [("observationKind", JStr "endpointHealth");
   ("pathId", JStr (eh_path_id e));
   ("status", JStr (health_text (eh_status e)));
   ("backendResourceIds", texts (eh_backend_resource_ids e))].

Definition platform_members (p : PlatformHealthObservation) : list (string * json) :=
  observation_base_members (ph_base p) ++
  [("observationKind", JStr "platformHealth");
   ("healthKind", JStr (platform_kind_text (ph_health_kind p)));
   ("status", JStr (health_text (ph_status p)));
   ("eventReference", JStr (ph_event_reference p))].

Definition observation_members (o : MonitoringObservation) : list (string * json) :=
  match o with
  | GuestObs g => guest_members g | FlowObs f => flow_members f | MonitorObs m => monitor_members m
  | EndpointObs e => endpoint_members e | PlatformObs p => platform_members p
  end.

Definition scope_members (s : EvidenceCoverageScope) : list (string * json) :=
  [("scopeId", JStr (es_scope_id s)); ("resourceIds", texts (es_resource_ids s))] ++
  opt_text "pathId" (es_path_id s) ++
  opt_text "direction" (direction_text <$> es_direction s) ++
  opt_text "fiveTupleDigest" (es_five_tuple_digest s) ++
  opt_text "endpointTestReference" (es_endpoint_test_reference s) ++
  opt_text "endpointTestDigest" (es_endpoint_test_digest s) ++
  [("queryScopeDigest", JStr (es_query_scope_digest s)); ("scopeDigest", JStr (es_scope_digest s))].

Definition coverage_members (c : EvidenceCoverage) : list (string * json) :=
  [("coverageId", JStr (co_coverage_id c));
   ("family", JStr (family_text (co_family c)));
   ("scope", JObj (scope_members (co_scope c)));
   ("provenanceRootDigest", JStr (co_provenance_root_digest c));
   ("sourceRootReference", JStr (co_source_root_reference c));
   ("sourceRecordReference", JStr (co_source_record_reference c));
   ("coverageStart", instant_json (co_coverage_start c));
   ("coverageEnd", instant_json (co_coverage_end c))] ++
  opt_member "controlProvenance" (control_dump <$> co_control_provenance c) ++
  opt_member "queryExecutionDigests" (texts <$> co_query_execution_digests c) ++
  [("status", JStr (coverage_status_text (co_status c)))] ++
  opt_text "detail" (co_detail c) ++
  [("coverageDigest", JStr (co_coverage_digest c))].

Definition bundle_schema_text (s : BundleSchema) : string :=
  match s with LegacyBundle => "athena.wc026MonitoringEvidenceBundle.v1" | SignedBundle => "athena.wc028MonitoringEvidenceBundle.v2" end.

Definition bundle_dump (b : MonitoringEvidenceBundle) : json := JObj (
  [("schemaVersion", JStr (bundle_schema_text (mb_schema_version b)));
   ("workloadId", JStr (mb_workload_id b));
   ("monitoringContractDigest", JStr (mb_monitoring_contract_digest b))] ++
  opt_member "monitoringIntentReference" (intent_reference_dump <$> mb_monitoring_intent_reference b) ++
  opt_member "collectedAt" (instant_json <$> mb_collected_at b) ++
  [("observedStart", instant_json (mb_observed_start b));
   ("observedEnd", instant_json (mb_observed_end b));
   ("observations", JArr ((fun o => JObj (observation_members o)) <$> mb_observations b));
   ("coverage", JArr ((fun c => JObj (coverage_members c)) <$> mb_coverage b));
   ("expectedCoverageScopeDigests", texts (mb_expected_coverage_scope_digests b))]).

Definition path_members (p : DependencyPath) : list (string * json) := [
  ("pathId", JStr (dp_path_id p));
  ("pathClass", JStr (path_class_text (dp_path_class p)));
  ("sourceRoleRef", JStr (dp_source_role_ref p));
  ("targetRoleRef", JStr (dp_target_role_ref p));
  ("relationshipIds", texts (dp_relationship_ids p));
  ("resourceIds", texts (dp_resource_ids p));
  ("pathDigest", JStr (dp_path_digest p))].

Definition authority_members (a : PublishedContextAuthority) : list (string * json) := [
  ("authorityId", JStr (pa_authority_id a));
  ("workloadId", JStr (pa_workload_id a));
  ("manifestId", JStr (pa_manifest_id a));
  ("manifestVersion", JStr (pa_manifest_version a));
  ("manifestDigest", JStr (pa_manifest_digest a));
  ("profileId", JStr (pa_profile_id a));
  ("resolvedProfileDigest", JStr (pa_resolved_profile_digest a));
  ("dependencyGraphDigest", JStr (pa_dependency_graph_digest a));
  ("contextBindingPayloadDigest", JStr (pa_context_binding_payload_digest a));
  ("publicationRecordDigest", JStr (pa_publication_record_digest a));
  ("auditHeadDigest", JStr (pa_audit_head_digest a));
  ("publishedAt", instant_json (pa_published_at a));
  ("authorityDigest", JStr (pa_authority_digest a))].

(** The members a publication authority signs for, of [validate_publication_authority] *)
Definition context_payload (b : ContextBindingBase) : list (string * json) := [
  ("workloadId", JStr (cb_workload_id b));
  ("manifestId", JStr (cb_manifest_id b));
  ("manifestVersion", JStr (cb_manifest_version b));
  ("manifestDigest", JStr (cb_manifest_digest b));
  ("profileId", JStr (cb_profile_id b));
  ("resolvedProfileDigest", JStr (cb_resolved_profile_digest b));
  ("dependencyGraphDigest", JStr (cb_dependency_graph_digest b));
  ("dependencyPaths", JArr ((fun p => JObj (path_members p)) <$> cb_dependency_paths b));
  ("requiredCoverageScopeDigests", texts (cb_required_coverage_scope_digests b))].

Definition binding_members (c : CorrelationContextBinding) : list (string * json) :=
  context_payload (binding_base c) ++ [("bindingDigest", JStr (cb_binding_digest (binding_base c)))] ++
  match c with
  | PublishedRuntime _ authority reference =>
      [("bindingMode", JStr "publishedRuntime");
       ("publicationAuthority", JObj (authority_members authority));
       ("publicationAuthorityReference", blob_reference_dump reference);
       ("previewOnly", JBool false)]
  | DraftPreview _ draft_id draft_revision =>
      [("bindingMode", JStr "draftPreview"); ("draftId", JStr draft_id); ("draftRevision", JInt draft_revision);
       ("previewOnly", JBool true)]
  end.

Definition transition_members (t : IncidentHealthTransition) : list (string * json) := [
  ("transitionId", JStr (it_transition_id t));
  ("affectedResourceId", JStr (it_affected_resource_id t));
  ("previousState", JStr (health_text (it_previous_state t)));
  ("currentState", JStr (health_text (it_current_state t)));
  ("observedStart", instant_json (it_observed_start t));
  ("observedEnd", instant_json (it_observed_end t));
  ("previousStateEvidence", JArr (citation_dump <$> it_previous_state_evidence t));
  ("currentStateEvidence", JArr (citation_dump <$> it_current_state_evidence t));
  ("transitionDigest", JStr (it_transition_digest t))].

Definition inventory_members (i : CorrelationEvidenceInventory) : list (string * json) :=
  [("ruleCatalogDigest", JStr (iv_rule_catalog_digest i));
   ("contextBindingDigest", JStr (iv_context_binding_digest i));
   ("incidentTransitionDigest", JStr (iv_incident_transition_digest i));
   ("monitoringHandoffDigest", JStr (iv_monitoring_handoff_digest i));
   ("monitoringBundleDigest", JStr (iv_monitoring_bundle_digest i));
   ("changeArtifactDigests", texts (iv_change_artifact_digests i));
   ("evidenceIndexDigest", JStr (iv_evidence_index_digest i))] ++
  opt_text "monitoringIntentAssetReferenceDigest" (iv_monitoring_intent_asset_reference_digest i) ++
  opt_text "monitoringControlProvenanceDigest" (iv_monitoring_control_provenance_digest i) ++
  [("sourceReferences", JArr (blob_reference_dump <$> iv_source_references i));
   ("inventoryDigest", JStr (iv_inventory_digest i))].

Definition monitoring_handoff_members (h : MonitoringEvidenceHandoff) : list (string * json) := [
  ("schemaVersion", JStr "athena.wc024MonitoringEvidenceHandoff.v1");
  ("collectorContractDigest", JStr (mh_collector_contract_digest h));
  ("collectionId", JStr (mh_collection_id h));
  ("observedAt", instant_json (mh_observed_at h));
  ("evidence", blob_reference_dump (mh_evidence h));
  ("collectorAttestation", JObj [
    ("signatureAlgorithm", JStr "RS256"); ("trustAnchorRef", JStr (mh_trust_anchor_ref h));
    ("signedPreimageDigest", JStr (mh_signed_preimage_digest h)); ("signature", JStr (mh_signature h))])].

Definition changed_property_dump (p : ChangedProperty) : json := JObj (
  [("path", JStr (cp_path p))] ++
  opt_text "beforeEvidenceReference" (cp_before_evidence_reference p) ++
  opt_text "afterEvidenceReference" (cp_after_evidence_reference p) ++
  [("isTruncated", JBool (cp_is_truncated p))]).

Definition change_dump (c : NormalizedChangeEvidence) : json := JObj (
  [("schemaVersion", JStr "athena.changeEvidence.normalized.v1");
   ("evidenceId", JStr (ch_evidence_id c));
   ("deduplicationKey", JStr (ch_deduplication_key c));
   ("changeKey", JStr (ch_change_key c));
   ("sourceSystem", JStr (change_source_text (ch_source_system c)));
   ("sourceRecordReference", JStr (ch_source_record_reference c));
   ("sourceDigest", JStr (ch_source_digest c));
   ("targetResourceId", JStr (ch_target_resource_id c));
   ("targetResourceType", JStr (ch_target_resource_type c));
   ("operation", JStr (operation_text (ch_operation c)));
   ("operationName", JStr (ch_operation_name c));
   ("result", JStr (change_result_text (ch_result c)));
   ("changedProperties", JArr (changed_property_dump <$> ch_changed_properties c));
   ("actor", JObj [("kind", JStr (change_actor_text (ch_actor_kind c))); ("reference", JStr (ch_actor_reference c))]);
   ("occurredAt", time_json (ch_occurred_at c));
   ("receivedAt", time_json (ch_received_at c));
   ("correlationId", JStr (ch_correlation_id c));
   ("deploymentSource", JObj [("kind", JStr (deployment_source_text (ch_deployment_source_kind c)));
                              ("reference", JStr (ch_deployment_source_reference c))]);
   ("policyContext", JObj (
     opt_text "assignmentReference" (ch_policy_assignment_reference c) ++
     opt_text "definitionReference" (ch_policy_definition_reference c) ++
     [("enforcementMode", JStr (enforcement_text (ch_policy_enforcement_mode c)))]))] ++
  opt_text "beforeEvidenceReference" (ch_before_evidence_reference c) ++
  opt_text "afterEvidenceReference" (ch_after_evidence_reference c)).

Definition artifact_dump (a : ChangeEvidenceArtifact) : json := JObj [
  ("schemaVersion", JStr "athena.changeEvidenceArtifact.v1");
  ("evidence", change_dump (art_evidence a));
  ("attestation", JObj [
    ("schemaVersion", JStr "athena.changeEvidenceAttestation.v1");
    ("signatureAlgorithm", JStr "RS256");
    ("keyVaultKeyId", JStr (ct_key_vault_key_id (art_attestation a)));
    ("signedPreimageDigest", JStr (ct_signed_preimage_digest (art_attestation a)));
    ("signature", JStr (ct_signature (art_attestation a)))])].

(** [sha256_hex(artifact.canonical_bytes())] *)
Definition artifact_digest (a : ChangeEvidenceArtifact) : result string := bytes_digest (artifact_dump a).

Definition change_handoff_dump (h : ChangeEvidencePersistenceHandoff) : json := JObj [
  ("schemaVersion", JStr "athena.changeEvidencePersistenceHandoff.v1");
  ("evidenceId", JStr (cph_evidence_id h));
  ("deduplicationKey", JStr (cph_deduplication_key h));
  ("changeKey", JStr (cph_change_key h));
  ("artifact", blob_reference_dump (cph_artifact h))].

Definition request_schema_text (s : RequestSchema) : string :=
  match s with LegacyRequest => "athena.wc026CorrelationRequest.v2" | SignedRequest => "athena.wc028CorrelationRequest.v3" end.

Definition correlation_algorithm_id : string := "athena.wc026.correlation.v1".

Definition correlation_request_members (r : CorrelationRequest) : list (string * json) := [
  ("schemaVersion", JStr (request_schema_text (rq_schema_version r)));
  ("requestId", JStr (rq_request_id r));
  ("algorithmId", JStr correlation_algorithm_id);
  ("ruleCatalogDigest", JStr (rq_rule_catalog_digest r));
  ("incidentRevision", JInt (rq_incident_revision r));
  ("issuedAt", instant_json (rq_issued_at r));
  ("trustedAsOf", instant_json (rq_trusted_as_of r));
  ("expiresAt", instant_json (rq_expires_at r));
  ("contextBinding", JObj (binding_members (rq_context_binding r)));
  ("incidentAnchor", JObj (transition_members (rq_incident_anchor r)));
  ("monitoringHandoff", JObj (monitoring_handoff_members (rq_monitoring_handoff r)));
  ("monitoringBundle", bundle_dump (rq_monitoring_bundle r));
  ("changeArtifacts", JArr (artifact_dump <$> rq_change_artifacts r));
  ("changeHandoffs", JArr (change_handoff_dump <$> rq_change_handoffs r));
  ("evidenceIndex", JArr (citation_dump <$> rq_evidence_index r));
  ("evidenceInventory", JObj (inventory_members (rq_evidence_inventory r)));
  ("requestDigest", JStr (rq_request_digest r))].

(** ** Validators of citations and observations *)

(** CorrelationEvidenceCitation *)
Definition make_citation (c : CorrelationEvidenceCitation) : result CorrelationEvidenceCitation := validated (
  _ ← field "evidenceId" (is_token (ci_evidence_id c));
  _ ← field "provenanceRootDigest" (is_digest (ci_provenance_root_digest c));
  _ ← field "evidenceDigest" (is_digest (ci_evidence_digest c));
  _ ← make_blob_reference (ci_source_reference c);
  _ ← field "sourceRootReference" (is_source_reference (ci_source_root_reference c));
  _ ← field "resourceIds" (list_between 1 128 (ci_resource_ids c));
  resource_ids ← normalize_resource_ids "resourceIds" (ci_resource_ids c);
  _ ← field "summaryCode" (is_summary_code (ci_summary_code c));
  _ ← check_instants [ci_observed_start c; ci_observed_end c];
  _ ← require_interval (ci_observed_start c) (ci_observed_end c);
  _ ← guard_or (value_error "citation provenance root must derive from sourceRootReference")
        (String.eqb (ci_provenance_root_digest c) (sha256_hex (ci_source_root_reference c)));
  Ok {| ci_evidence_id := ci_evidence_id c; ci_family := ci_family c; ci_provenance_root_digest := ci_provenance_root_digest c;
        ci_evidence_digest := ci_evidence_digest c; ci_source_reference := ci_source_reference c;
        ci_observed_start := ci_observed_start c; ci_observed_end := ci_observed_end c;
        ci_source_root_reference := ci_source_root_reference c; ci_resource_ids := resource_ids;
        ci_summary_code := ci_summary_code c |}).

(** MonitoringControlProvenance *)
Definition make_control_provenance (p : MonitoringControlProvenance) : result unit := validated (
  _ ← field "controlId" (prefixed_hex "monitoring-control-" 32 (mc_control_id p));
  _ ← field "controlDigest" (is_digest (mc_control_digest p));
  field "sourceClausePath" (is_clause_path (mc_source_clause_path p))).

(** MonitoringIntentEvidenceReference.validate_reference *)
Definition make_intent_reference (i : MonitoringIntentEvidenceReference) : result unit := validated (
  _ ← field "intentId" (prefixed_hex "monitoring-intent-" 32 (mi_intent_id i));
  _ ← field "intentDigest" (is_digest (mi_intent_digest i));
  _ ← field "assetReferenceId" (prefixed_hex "monitoring-intent-asset-" 32 (mi_asset_reference_id i));
  _ ← field "assetReferenceDigest" (is_digest (mi_asset_reference_digest i));
  _ ← make_blob_reference (mi_intent_reference i);
  _ ← make_blob_reference (mi_attestation_reference i);
  let prefix := "monitoring-intent/" +:+ mi_intent_id i in
  _ ← guard_or (value_error "monitoring intent evidence asset paths are invalid")
        (String.eqb (vp_name (mi_intent_reference i)) (prefix +:+ "/intent.json") &&
         String.eqb (vp_name (mi_attestation_reference i)) (prefix +:+ "/attestation.json"));
  expected ← compute_artifact_digest (JObj [
    ("schemaVersion", JStr "athena.wc028PublishedMonitoringIntentAssetReference.v1");
    ("intentId", JStr (mi_intent_id i)); ("intentDigest", JStr (mi_intent_digest i));
    ("intentReference", blob_reference_dump (mi_intent_reference i));
    ("attestationReference", blob_reference_dump (mi_attestation_reference i))]);
  _ ← guard_or (value_error "assetReferenceDigest does not bind monitoring intent evidence")
        (String.eqb (mi_asset_reference_digest i) expected);
  guard_or (value_error "assetReferenceId is not digest-bound")
    (String.eqb (mi_asset_reference_id i) (digest_bound_id "monitoring-intent-asset" expected))).

(** [check] on a field that may be [None] *)
Definition when_present {A B} (check : A -> result B) (v : option A) : result unit :=
  match v with Some a => _ ← check a; Ok tt | None => Ok tt end.
Definition optional_field (name : string) (test : string -> bool) (v : option string) : result unit :=
  when_present (fun s => field name (test s)) v.

(** The fields of _MonitoringObservation, with normalize_subject_resource_id *)
Definition make_observation_base (b : ObservationBase) : result ObservationBase :=
  _ ← field "subjectResourceId" (length_between 1 2048 (mo_subject_resource_id b));
  subject ← canonical_resource_id (mo_subject_resource_id b);
  _ ← field "provenanceRootDigest" (is_digest (mo_provenance_root_digest b));
  _ ← field "sourceRootReference" (is_source_reference (mo_source_root_reference b));
  _ ← field "sourceRecordReference" (is_source_reference (mo_source_record_reference b));
  _ ← field "summaryCode" (is_summary_code (mo_summary_code b));
  _ ← when_present make_control_provenance (mo_control_provenance b);
  _ ← optional_field "queryExecutionDigest" is_digest (mo_query_execution_digest b);
  _ ← field "observationDigest" (is_digest (mo_observation_digest b));
  _ ← check_instants [mo_observed_start b; mo_observed_end b];
  Ok {| mo_observation_id := mo_observation_id b; mo_subject_resource_id := subject;
        mo_observed_start := mo_observed_start b; mo_observed_end := mo_observed_end b;
        mo_provenance_root_digest := mo_provenance_root_digest b; mo_source_root_reference := mo_source_root_reference b;
        mo_source_record_reference := mo_source_record_reference b; mo_summary_code := mo_summary_code b;
        mo_control_provenance := mo_control_provenance b; mo_query_execution_digest := mo_query_execution_digest b;
        mo_observation_digest := mo_observation_digest b |}.

(** _MonitoringObservation.validate_common_observation *)
Definition validate_common_observation (o : MonitoringObservation) : result unit :=
  let b := ob_base o in
  _ ← require_interval (mo_observed_start b) (mo_observed_end b);
  _ ← guard_or (value_error "provenanceRootDigest must derive from sourceRootReference")
        (String.eqb (mo_provenance_root_digest b) (sha256_hex (mo_source_root_reference b)));
  expected ← expected_digest (observation_members o) ["observationId"; "observationDigest"];
  _ ← guard_or (value_error "observationDigest does not bind the observation") (String.eqb (mo_observation_digest b) expected);
  require_bound_identifier (mo_observation_id b) "obs" expected.

(** normalize_ip_address *)
Definition normalize_ip_address (value : string) : result string :=
  match ip_compressed value with
  | Some address => Ok address
  | None => Raise (value_error "network address must be one canonical IP address")
  end.

Definition port_ok (p : option Z) : bool := match p with Some p => (0 <=? p) && (p <=? 65535) | None => true end.

(** The tuple fields of the two network observations, normalized *)
Definition make_tuple (t : NetworkTuple) : result NetworkTuple :=
  _ ← field "pathId" (prefixed_hex "path-" 32 (nt_path_id t));
  _ ← field "sourceResourceId" (length_between 1 2048 (nt_source_resource_id t));
  _ ← field "destinationResourceId" (length_between 1 2048 (nt_destination_resource_id t));
  source ← canonical_resource_id (nt_source_resource_id t);
  destination ← canonical_resource_id (nt_destination_resource_id t);
  _ ← field "sourceAddress" (length_between 2 45 (nt_source_address t));
  _ ← field "destinationAddress" (length_between 2 45 (nt_destination_address t));
  source_address ← normalize_ip_address (nt_source_address t);
  destination_address ← normalize_ip_address (nt_destination_address t);
  _ ← field "sourcePort" (port_ok (nt_source_port t));
  _ ← field "destinationPort" (port_ok (nt_destination_port t));
  _ ← field "fiveTupleDigest" (is_digest (nt_five_tuple_digest t));
  Ok {| nt_path_id := nt_path_id t; nt_direction := nt_direction t; nt_protocol := nt_protocol t;
        nt_source_resource_id := source; nt_destination_resource_id := destination;
        nt_source_address := source_address; nt_destination_address := destination_address;
        nt_source_port := nt_source_port t; nt_destination_port := nt_destination_port t;
        nt_five_tuple_digest := nt_five_tuple_digest t |}.

(** The tuple checks of validate_attribution and of validate_test_tuple *)
Definition validate_tuple (t : NetworkTuple) : result unit :=
  let port p := match p with Some p => JInt p | None => JNull end in
  _ ← raise_if (value_error "TCP and UDP observations require both ports")
        (bool_decide (nt_protocol t ∈ [Tcp; Udp]) && (negb (present (nt_source_port t)) || negb (present (nt_destination_port t))));
  digest ← compute_artifact_digest (JObj [
    ("direction", JStr (direction_text (nt_direction t))); ("protocol", JStr (protocol_text (nt_protocol t)));
    ("sourceResourceId", JStr (nt_source_resource_id t)); ("destinationResourceId", JStr (nt_destination_resource_id t));
    ("sourceAddress", JStr (nt_source_address t)); ("destinationAddress", JStr (nt_destination_address t));
    ("sourcePort", port (nt_source_port t)); ("destinationPort", port (nt_destination_port t))]);
  guard_or (value_error "fiveTupleDigest does not bind the exact tuple") (String.eqb (nt_five_tuple_digest t) digest).

(** The segments of a rule are those of its network security group and two more. *)
Definition rule_of_group (rule enforcement : string) : bool :=
  let e := split_on slash enforcement in
  let r := split_on slash rule in
  let at_ (l : list string) i s := bool_decide (l !! i = Some s) in
  bool_decide (length e = 9%nat) && at_ e 1%nat "subscriptions" && at_ e 3%nat "resourcegroups" && at_ e 5%nat "providers" &&
  at_ e 6%nat "microsoft.network" && at_ e 7%nat "networksecuritygroups" &&
  bool_decide (length r = 11%nat) && bool_decide (take 9 r = e) && at_ r 9%nat "securityrules".

(** NetworkFlowObservation.validate_attribution *)
Definition validate_attribution (f : NetworkFlowObservation) : result unit :=
  _ ← validate_tuple (fl_tuple f);
  _ ← when_present (fun rule => guard_or (value_error "ruleResourceId must belong to enforcementResourceId")
        (rule_of_group rule (fl_enforcement_resource_id f))) (fl_rule_resource_id f);
  _ ← raise_if (value_error "effective rule attribution requires direct proof and change binding")
        (fl_effective_rule_attribution f &&
         negb (present (fl_rule_resource_id f) && present (fl_attribution_method f) && present (fl_causal_effect f) &&
               present (fl_attribution_proof_digest f) && present (fl_matched_change_key f) &&
               present (fl_matched_change_evidence_id f) && present (fl_matched_change_artifact_digest f) &&
               negb (bool_decide (fl_matched_property_paths f = []))));
  _ ← raise_if (value_error "non-attributed flow must not carry causal attribution fields")
        (negb (fl_effective_rule_attribution f) &&
         (present (fl_attribution_method f) || present (fl_causal_effect f) || present (fl_attribution_proof_digest f) ||
          present (fl_matched_change_key f) || present (fl_matched_change_evidence_id f) ||
          present (fl_matched_change_artifact_digest f)));
  _ ← raise_if (value_error "non-attributed flow must not carry matched property paths")
        (negb (fl_effective_rule_attribution f) && negb (bool_decide (fl_matched_property_paths f = [])));
  _ ← guard_or (value_error "matchedPropertyPaths must be unique deterministic paths") (sorted_unique (fl_matched_property_paths f));
  guard_or (value_error "matchedPropertyPaths must use causal NSG rule fields")
    (forallb is_nsg_causal_property (fl_matched_property_paths f)).

(** [^chg-[a-f0-9]{12}$] *)
Definition is_change_id : string -> bool := prefixed_hex "chg-" 12.

(** GuestSignalObservation, NetworkFlowObservation, ConnectionMonitorObservation,
    EndpointHealthObservation, PlatformHealthObservation *)
Definition make_observation (o : MonitoringObservation) : result MonitoringObservation := validated (
  o ← match o with
      | GuestObs g =>
          b ← make_observation_base (gs_base g);
          _ ← optional_field "unit" (length_between 1 64) (gs_unit g);
          _ ← optional_field "thresholdDigest" is_digest (gs_threshold_digest g);
          _ ← optional_field "serviceReference" is_token (gs_service_reference g);
          _ ← field "value" (match gs_value g with Some (S754_infinity _) | Some S754_nan => false | _ => true end);
          Ok (GuestObs {| gs_base := b; gs_signal := gs_signal g; gs_state := gs_state g; gs_value := gs_value g;
                          gs_unit := gs_unit g; gs_threshold_digest := gs_threshold_digest g;
                          gs_service_reference := gs_service_reference g |})
      | FlowObs f =>
          b ← make_observation_base (fl_base f);
          t ← make_tuple (fl_tuple f);
          _ ← field "enforcementResourceId" (length_between 1 2048 (fl_enforcement_resource_id f));
          enforcement ← canonical_resource_id (fl_enforcement_resource_id f);
          _ ← optional_field "ruleResourceId" (length_between 1 2048) (fl_rule_resource_id f);
          rule ← match fl_rule_resource_id f with
                 | Some r => Some <$> canonical_resource_id r | None => Ok None end;
          _ ← optional_field "attributionProofDigest" is_digest (fl_attribution_proof_digest f);
          _ ← optional_field "matchedChangeKey" is_digest (fl_matched_change_key f);
          _ ← optional_field "matchedChangeEvidenceId" is_change_id (fl_matched_change_evidence_id f);
          _ ← optional_field "matchedChangeArtifactDigest" is_digest (fl_matched_change_artifact_digest f);
          _ ← field "matchedPropertyPaths" (list_between 0 32 (fl_matched_property_paths f));
          Ok (FlowObs {| fl_base := b; fl_tuple := t; fl_decision := fl_decision f;
                         fl_enforcement_resource_id := enforcement; fl_rule_resource_id := rule;
                         fl_effective_rule_attribution := fl_effective_rule_attribution f;
                         fl_attribution_method := fl_attribution_method f; fl_causal_effect := fl_causal_effect f;
                         fl_attribution_proof_digest := fl_attribution_proof_digest f;
                         fl_matched_change_key := fl_matched_change_key f;
                         fl_matched_change_evidence_id := fl_matched_change_evidence_id f;
                         fl_matched_change_artifact_digest := fl_matched_change_artifact_digest f;
                         fl_matched_property_paths := fl_matched_property_paths f |})
      | MonitorObs m =>
          b ← make_observation_base (cm_base m);
          t ← make_tuple (cm_tuple m);
          _ ← field "monitorResourceId" (length_between 1 2048 (cm_monitor_resource_id m));
          monitor ← canonical_resource_id (cm_monitor_resource_id m);
          _ ← field "testConfigurationReference" (is_token (cm_test_configuration_reference m));
          _ ← field "testConfigurationDigest" (is_digest (cm_test_configuration_digest m));
          Ok (MonitorObs {| cm_base := b; cm_tuple := t; cm_monitor_resource_id := monitor; cm_status := cm_status m;
                            cm_test_configuration_reference := cm_test_configuration_reference m;
                            cm_test_configuration_digest := cm_test_configuration_digest m |})
      | EndpointObs e =>
          b ← make_observation_base (eh_base e);
          _ ← field "pathId" (prefixed_hex "path-" 32 (eh_path_id e));
          _ ← field "backendResourceIds" (list_between 0 128 (eh_backend_resource_ids e));
          backends ← normalize_resource_ids "backendResourceIds" (eh_backend_resource_ids e);
          Ok (EndpointObs {| eh_base := b; eh_path_id := eh_path_id e; eh_status := eh_status e; eh_backend_resource_ids := backends |})
      | PlatformObs p =>
          b ← make_observation_base (ph_base p);
          _ ← field "eventReference" (is_token (ph_event_reference p));
          Ok (PlatformObs {| ph_base := b; ph_health_kind := ph_health_kind p; ph_status := ph_status p;
                             ph_event_reference := ph_event_reference p |})
      end;
  _ ← validate_common_observation o;
  _ ← match o with
      | FlowObs f => validate_attribution f
      | MonitorObs m => validate_tuple (cm_tuple m)
      | _ => Ok tt
      end;
  Ok o).

(** ** Coverage and the evidence bundle *)

(** EvidenceCoverageScope.validate_scope *)
Definition make_scope (s : EvidenceCoverageScope) : result EvidenceCoverageScope := validated (
  _ ← field "scopeId" (prefixed_hex "coverage-scope-" 32 (es_scope_id s));
  _ ← field "resourceIds" (list_between 1 128 (es_resource_ids s));
  resource_ids ← normalize_resource_ids "resourceIds" (es_resource_ids s);
  _ ← optional_field "pathId" (prefixed_hex "path-" 32) (es_path_id s);
  _ ← optional_field "fiveTupleDigest" is_digest (es_five_tuple_digest s);
  _ ← optional_field "endpointTestReference" is_token (es_endpoint_test_reference s);
  _ ← optional_field "endpointTestDigest" is_digest (es_endpoint_test_digest s);
  _ ← field "queryScopeDigest" (is_digest (es_query_scope_digest s));
  _ ← field "scopeDigest" (is_digest (es_scope_digest s));
  let s := {| es_scope_id := es_scope_id s; es_resource_ids := resource_ids; es_path_id := es_path_id s;
              es_direction := es_direction s; es_five_tuple_digest := es_five_tuple_digest s;
              es_endpoint_test_reference := es_endpoint_test_reference s; es_endpoint_test_digest := es_endpoint_test_digest s;
              es_query_scope_digest := es_query_scope_digest s; es_scope_digest := es_scope_digest s |} in
  expected ← expected_digest (scope_members s) ["scopeId"; "scopeDigest"];
  _ ← guard_or (value_error "scopeDigest does not bind the coverage scope") (String.eqb (es_scope_digest s) expected);
  _ ← guard_or (value_error "scopeId is not digest-bound") (String.eqb (es_scope_id s) (digest_bound_id "coverage-scope" expected));
  Ok s).

Definition is_monitoring_family (f : EvidenceFamily) : bool :=
  match f with FamResourceChange | FamDeclaredContext => false | _ => true end.

(** EvidenceCoverage.validate_coverage *)
Definition validate_coverage (c : EvidenceCoverage) : result unit :=
  let scope := co_scope c in
  let complete := bool_decide (co_status c = CovComplete) in
  _ ← require_interval (co_coverage_start c) (co_coverage_end c);
  _ ← when_present (fun l => require_sorted_unique l "queryExecutionDigests") (co_query_execution_digests c);
  let queried := match co_query_execution_digests c with Some (_ :: _) => true | _ => false end in
  _ ← raise_if (value_error "query-derived coverage requires resolvable control provenance")
        (queried && negb (present (co_control_provenance c)));
  _ ← guard_or (value_error "provenanceRootDigest must derive from sourceRootReference")
        (String.eqb (co_provenance_root_digest c) (sha256_hex (co_source_root_reference c)));
  _ ← raise_if (value_error "incomplete coverage requires detail") (negb complete && negb (present (co_detail c)));
  _ ← raise_if (value_error "complete network-flow coverage requires path, direction, and five-tuple")
        (bool_decide (co_family c = FamNetworkFlow) && complete &&
         negb (present (es_path_id scope) && present (es_direction scope) && present (es_five_tuple_digest scope)));
  _ ← raise_if (value_error "complete Connection Monitor coverage requires path and endpoint test")
        (bool_decide (co_family c = FamConnectionMonitor) && complete &&
         negb (present (es_path_id scope) && present (es_endpoint_test_reference scope) && present (es_endpoint_test_digest scope) &&
               present (es_direction scope) && present (es_five_tuple_digest scope)));
  expected ← expected_digest (coverage_members c)
               (["coverageId"; "coverageDigest"] ++ if queried then [] else ["queryExecutionDigests"]);
  _ ← guard_or (value_error "coverageDigest does not bind the coverage record") (String.eqb (co_coverage_digest c) expected);
  guard_or (value_error "coverageId is not digest-bound") (String.eqb (co_coverage_id c) (digest_bound_id "coverage" expected)).

(** EvidenceCoverage *)
Definition make_coverage (c : EvidenceCoverage) : result EvidenceCoverage := validated (
  _ ← field "coverageId" (prefixed_hex "coverage-" 32 (co_coverage_id c));
  _ ← field "family" (is_monitoring_family (co_family c));
  scope ← make_scope (co_scope c);
  _ ← field "provenanceRootDigest" (is_digest (co_provenance_root_digest c));
  _ ← field "sourceRootReference" (is_source_reference (co_source_root_reference c));
  _ ← field "sourceRecordReference" (is_source_reference (co_source_record_reference c));
  _ ← when_present make_control_provenance (co_control_provenance c);
  _ ← when_present (fun l => field "queryExecutionDigests" (list_between 0 1440 l && forallb is_digest l))
        (co_query_execution_digests c);
  _ ← optional_field "detail" (length_between 1 500) (co_detail c);
  _ ← field "coverageDigest" (is_digest (co_coverage_digest c));
  _ ← check_instants [co_coverage_start c; co_coverage_end c];
  let c := {| co_coverage_id := co_coverage_id c; co_family := co_family c; co_scope := scope;
              co_provenance_root_digest := co_provenance_root_digest c; co_source_root_reference := co_source_root_reference c;
              co_source_record_reference := co_source_record_reference c; co_coverage_start := co_coverage_start c;
              co_coverage_end := co_coverage_end c; co_control_provenance := co_control_provenance c;
              co_query_execution_digests := co_query_execution_digests c; co_status := co_status c; co_detail := co_detail c;
              co_coverage_digest := co_coverage_digest c |} in
  _ ← validate_coverage c; Ok c).

(** _observation_family *)
Definition observation_family (o : MonitoringObservation) : EvidenceFamily :=
  match o with
  | GuestObs _ => FamGuest | FlowObs _ => FamNetworkFlow | MonitorObs _ => FamConnectionMonitor
  | EndpointObs _ => FamEndpointHealth | PlatformObs _ => FamPlatformHealth
  end.

(** [tuple(sorted(set(l)))] *)
Definition sorted_set (l : list string) : list string := sort_strings (remove_dups l).

(** _observation_resource_ids *)
Definition observation_resource_ids (o : MonitoringObservation) : list string :=
  sorted_set (mo_subject_resource_id (ob_base o) ::
    match o with
    | FlowObs f =>
        [fl_enforcement_resource_id f; nt_source_resource_id (fl_tuple f); nt_destination_resource_id (fl_tuple f)] ++
        option_list (fl_rule_resource_id f)
    | MonitorObs m =>
        [cm_monitor_resource_id m; nt_source_resource_id (cm_tuple m); nt_destination_resource_id (cm_tuple m)]
    | EndpointObs e => eh_backend_resource_ids e
    | GuestObs _ | PlatformObs _ => []
    end).

(** _observation_coverage_resource_ids *)
Definition observation_coverage_resource_ids (o : MonitoringObservation) : list string :=
  match o with
  | MonitorObs m => select (fun r => negb (String.eqb r (cm_monitor_resource_id m))) (observation_resource_ids o)
  | _ => observation_resource_ids o
  end.

(** [set(l) <= set(k)] *)
Definition subset (l k : list string) : bool := forallb (fun x => bool_decide (x ∈ k)) l.

Definition is_platform (o : MonitoringObservation) : bool := match o with PlatformObs _ => true | _ => false end.

(** The query observations of a bundle and the execution digests they carry *)
Definition query_observations (b : MonitoringEvidenceBundle) : list MonitoringObservation :=
  select (fun o => negb (is_platform o)) (mb_observations b).
Definition execution_digest (o : MonitoringObservation) : option string := mo_query_execution_digest (ob_base o).

(** [coverage_by_execution[digest]] *)
Definition covering (b : MonitoringEvidenceBundle) (digest : string) : list EvidenceCoverage :=
  mjoin ((fun c => (fun _ => c) <$> select (String.eqb digest) (default [] (co_query_execution_digests c))) <$> mb_coverage b).

(** Every query observation is covered by one record of its scope and control. *)
Definition check_execution (b : MonitoringEvidenceBundle) (o : MonitoringObservation) : result unit :=
  match execution_digest o with
  | None => Ok tt
  | Some digest =>
      match covering b digest with
      | [c] =>
          _ ← guard_or (value_error "query observation coverage is incompatible with its scope or control")
                (present (mo_control_provenance (ob_base o)) &&
                 bool_decide (co_control_provenance c = mo_control_provenance (ob_base o)) &&
                 bool_decide (co_family c = observation_family o) &&
                 (co_coverage_start c <=? ob_start o) && (ob_end o <=? co_coverage_end c) &&
                 subset (observation_coverage_resource_ids o) (es_resource_ids (co_scope c)));
          _ ← raise_if (value_error "query observation coverage is incompatible with its path")
                (present (ob_path_id o) && negb (bool_decide (es_path_id (co_scope c) = ob_path_id o)));
          match o with
          | FlowObs {| fl_tuple := t |} | MonitorObs {| cm_tuple := t |} =>
              guard_or (value_error "query observation coverage is incompatible with its network tuple")
                (bool_decide (es_direction (co_scope c) = Some (nt_direction t)) &&
                 bool_decide (es_five_tuple_digest (co_scope c) = Some (nt_five_tuple_digest t)))
          | _ => Ok tt
          end
      | _ => Raise (value_error "every query observation must be covered exactly once")
      end
  end.

(** The texts the coverage order compares *)
Definition coverage_key (c : EvidenceCoverage) : string * (string * (string * string)) :=
  (family_text (co_family c), (isoformat (co_coverage_start c), (isoformat (co_coverage_end c), es_scope_digest (co_scope c)))).

(** The fields of wc028 are absent from a legacy bundle and present in a signed one. *)
Definition check_bundle_provenance (b : MonitoringEvidenceBundle) : result unit :=
  match mb_schema_version b with
  | LegacyBundle =>
      raise_if (value_error "legacy monitoring bundle cannot contain WC028 provenance fields")
        (present (mb_monitoring_intent_reference b) || present (mb_collected_at b) ||
         existsb (fun o => present (mo_control_provenance (ob_base o)) || present (execution_digest o)) (mb_observations b) ||
         existsb (fun c => present (co_control_provenance c) || present (co_query_execution_digests c)) (mb_coverage b))
  | SignedBundle =>
      let queries := query_observations b in
      let executions := omap execution_digest queries in
      let covered := mjoin ((fun c => default [] (co_query_execution_digests c)) <$> mb_coverage b) in
      _ ← guard_or (value_error "WC028 monitoring bundle requires signed intent references and collectedAt")
            (present (mb_monitoring_intent_reference b) && present (mb_collected_at b));
      _ ← guard_or (value_error "signed monitoring evidence requires resolvable control provenance")
            (forallb (fun o => present (mo_control_provenance (ob_base o))) (mb_observations b) &&
             forallb (fun c => present (co_control_provenance c)) (mb_coverage b));
      _ ← guard_or (value_error "query-derived observations require exact execution digests")
            (forallb (fun o => present (execution_digest o)) queries);
      _ ← guard_or (value_error "query-derived observation execution digests must be unique") (unique executions);
      _ ← guard_or (value_error "every query observation must be covered exactly once")
            (subset covered executions && subset executions covered && unique covered);
      _ ← mapR (check_execution b) queries; Ok tt
  end.

(** MonitoringEvidenceBundle.validate_bundle *)
Definition validate_bundle (b : MonitoringEvidenceBundle) : result unit :=
  let keys := coverage_key <$> mb_coverage b in
  _ ← require_interval (mb_observed_start b) (mb_observed_end b);
  _ ← guard_or (value_error "observations must be deterministically ordered")
        (bool_decide (ob_id <$> mb_observations b = sort_strings (ob_id <$> mb_observations b)));
  _ ← guard_or (value_error "duplicate observation IDs are not permitted") (unique (ob_id <$> mb_observations b));
  _ ← guard_or (value_error "coverage records must be deterministically ordered")
        (bool_decide (keys = sort_by id keys) && unique keys);
  _ ← raise_if (value_error "observations must be contained by the bundle interval")
        (existsb (fun o => (ob_start o <? mb_observed_start b) || (mb_observed_end b <? ob_end o)) (mb_observations b));
  _ ← raise_if (value_error "coverage must be contained by the bundle interval")
        (existsb (fun c => (co_coverage_start c <? mb_observed_start b) || (mb_observed_end b <? co_coverage_end c)) (mb_coverage b));
  _ ← require_sorted_unique (mb_expected_coverage_scope_digests b) "expectedCoverageScopeDigests";
  _ ← guard_or (value_error "coverage must account for every expected monitoring query scope")
        (bool_decide (sorted_set ((fun c => es_scope_digest (co_scope c)) <$> mb_coverage b) = mb_expected_coverage_scope_digests b));
  check_bundle_provenance b.

(** MonitoringEvidenceBundle *)
Definition make_bundle (b : MonitoringEvidenceBundle) : result MonitoringEvidenceBundle := validated (
  _ ← field "workloadId" (is_id (mb_workload_id b));
  _ ← field "monitoringContractDigest" (is_digest (mb_monitoring_contract_digest b));
  _ ← when_present make_intent_reference (mb_monitoring_intent_reference b);
  _ ← field "observations" (list_between 0 1000 (mb_observations b));
  observations ← mapR make_observation (mb_observations b);
  _ ← field "coverage" (list_between 1 100 (mb_coverage b));
  coverage ← mapR make_coverage (mb_coverage b);
  _ ← field "expectedCoverageScopeDigests" (list_between 1 100 (mb_expected_coverage_scope_digests b) &&
        forallb is_digest (mb_expected_coverage_scope_digests b));
  _ ← check_instants (option_list (mb_collected_at b) ++ [mb_observed_start b; mb_observed_end b]);
  let b := {| mb_schema_version := mb_schema_version b; mb_workload_id := mb_workload_id b;
              mb_monitoring_contract_digest := mb_monitoring_contract_digest b;
              mb_monitoring_intent_reference := mb_monitoring_intent_reference b; mb_collected_at := mb_collected_at b;
              mb_observed_start := mb_observed_start b; mb_observed_end := mb_observed_end b;
              mb_observations := observations; mb_coverage := coverage;
              mb_expected_coverage_scope_digests := mb_expected_coverage_scope_digests b |} in
  _ ← validate_bundle b; Ok b).

(** ** The governed context *)

(** DependencyPath.validate_path_digest *)
Definition make_path (p : DependencyPath) : result DependencyPath := validated (
  _ ← field "pathId" (prefixed_hex "path-" 32 (dp_path_id p));
  _ ← field "sourceRoleRef" (length_between 1 128 (dp_source_role_ref p));
  _ ← field "targetRoleRef" (length_between 1 128 (dp_target_role_ref p));
  _ ← field "relationshipIds" (list_between 1 32 (dp_relationship_ids p));
  _ ← require_sorted_unique (dp_relationship_ids p) "relationshipIds";
  _ ← field "resourceIds" (list_between 1 128 (dp_resource_ids p));
  resource_ids ← normalize_resource_ids "resourceIds" (dp_resource_ids p);
  _ ← field "pathDigest" (is_digest (dp_path_digest p));
  let p := {| dp_path_id := dp_path_id p; dp_path_class := dp_path_class p; dp_source_role_ref := dp_source_role_ref p;
              dp_target_role_ref := dp_target_role_ref p; dp_relationship_ids := dp_relationship_ids p;
              dp_resource_ids := resource_ids; dp_path_digest := dp_path_digest p |} in
  expected ← expected_digest (path_members p) ["pathId"; "pathDigest"];
  _ ← guard_or (value_error "pathDigest does not bind the dependency path") (String.eqb (dp_path_digest p) expected);
  _ ← guard_or (value_error "pathId is not digest-bound") (String.eqb (dp_path_id p) (digest_bound_id "path" expected));
  Ok p).

(** PublishedContextAuthority.validate_authority *)
Definition make_authority (a : PublishedContextAuthority) : result unit := validated (
  _ ← field "authorityId" (prefixed_hex "publication-authority-" 32 (pa_authority_id a));
  _ ← field "workloadId" (is_id (pa_workload_id a));
  _ ← field "texts" (forallb (length_between 1 128) [pa_manifest_id a; pa_manifest_version a; pa_profile_id a]);
  _ ← field "digests" (forallb is_digest [pa_manifest_digest a; pa_resolved_profile_digest a; pa_dependency_graph_digest a;
        pa_context_binding_payload_digest a; pa_publication_record_digest a; pa_audit_head_digest a; pa_authority_digest a]);
  _ ← check_instants [pa_published_at a];
  expected ← expected_digest (authority_members a) ["authorityId"; "authorityDigest"];
  _ ← guard_or (value_error "authorityDigest does not bind publication authority") (String.eqb (pa_authority_digest a) expected);
  guard_or (value_error "authorityId is not digest-bound")
    (String.eqb (pa_authority_id a) (digest_bound_id "publication-authority" expected))).

(** PublishedRuntimeContextBinding.validate_publication_authority *)
Definition validate_publication_authority (b : ContextBindingBase) (a : PublishedContextAuthority)
    (reference : VersionPinnedBlobReference) : result unit :=
  context_payload_digest ← compute_artifact_digest (JObj (context_payload b));
  authority_digest ← bytes_digest (JObj (authority_members a));
  guard_or (value_error "publication authority does not bind the exact runtime context")
    (String.eqb (pa_workload_id a) (cb_workload_id b) && String.eqb (pa_manifest_id a) (cb_manifest_id b) &&
     String.eqb (pa_manifest_version a) (cb_manifest_version b) && String.eqb (pa_manifest_digest a) (cb_manifest_digest b) &&
     String.eqb (pa_profile_id a) (cb_profile_id b) && String.eqb (pa_resolved_profile_digest a) (cb_resolved_profile_digest b) &&
     String.eqb (pa_dependency_graph_digest a) (cb_dependency_graph_digest b) &&
     String.eqb (pa_context_binding_payload_digest a) context_payload_digest &&
     String.eqb (vp_name reference) ("context-authority/" +:+ pa_authority_id a +:+ "/authority.json") &&
     String.eqb (vp_content_digest reference) authority_digest).

(** The fields of _CorrelationContextBindingBase *)
Definition make_binding_base (b : ContextBindingBase) : result ContextBindingBase :=
  _ ← field "workloadId" (is_id (cb_workload_id b));
  _ ← field "texts" (forallb (length_between 1 128) [cb_manifest_id b; cb_manifest_version b; cb_profile_id b]);
  _ ← field "digests" (forallb is_digest [cb_manifest_digest b; cb_resolved_profile_digest b; cb_dependency_graph_digest b; cb_binding_digest b]);
  _ ← field "dependencyPaths" (list_between 1 256 (cb_dependency_paths b));
  paths ← mapR make_path (cb_dependency_paths b);
  _ ← field "requiredCoverageScopeDigests" (list_between 1 100 (cb_required_coverage_scope_digests b) &&
        forallb is_digest (cb_required_coverage_scope_digests b));
  Ok {| cb_workload_id := cb_workload_id b; cb_manifest_id := cb_manifest_id b; cb_manifest_version := cb_manifest_version b;
        cb_manifest_digest := cb_manifest_digest b; cb_profile_id := cb_profile_id b;
        cb_resolved_profile_digest := cb_resolved_profile_digest b; cb_dependency_graph_digest := cb_dependency_graph_digest b;
        cb_dependency_paths := paths; cb_required_coverage_scope_digests := cb_required_coverage_scope_digests b;
        cb_binding_digest := cb_binding_digest b |}.

(** _CorrelationContextBindingBase.validate_common_binding *)
Definition validate_common_binding (c : CorrelationContextBinding) : result unit :=
  let b := binding_base c in
  _ ← guard_or (value_error "dependencyPaths must have unique deterministic path IDs")
        (sorted_unique (dp_path_id <$> cb_dependency_paths b));
  _ ← require_sorted_unique (cb_required_coverage_scope_digests b) "requiredCoverageScopeDigests";
  expected ← expected_digest (binding_members c) ["bindingDigest"];
  guard_or (value_error "bindingDigest does not bind the correlation context") (String.eqb (cb_binding_digest b) expected).

(** CorrelationContextBinding *)
Definition make_binding (c : CorrelationContextBinding) : result CorrelationContextBinding := validated (
  base ← make_binding_base (binding_base c);
  match c with
  | PublishedRuntime _ authority reference =>
      _ ← make_authority authority;
      _ ← make_blob_reference reference;
      let c := PublishedRuntime base authority reference in
      _ ← validate_common_binding c;
      _ ← validate_publication_authority base authority reference; Ok c
  | DraftPreview _ draft_id draft_revision =>
      _ ← field "draftId" (length_between 1 128 draft_id);
      _ ← field "draftRevision" (1 <=? draft_revision);
      let c := DraftPreview base draft_id draft_revision in
      _ ← validate_common_binding c; Ok c
  end).

(** ** The incident transition *)

Definition minimum (d : Z) (l : list Z) : Z := match l with [] => d | x :: l => foldl Z.min x l end.
Definition maximum (d : Z) (l : list Z) : Z := match l with [] => d | x :: l => foldl Z.max x l end.

(** IncidentHealthTransition.validate_transition *)
Definition validate_transition (t : IncidentHealthTransition) : result unit :=
  let previous := it_previous_state_evidence t in
  let current := it_current_state_evidence t in
  let previous_refs := ci_evidence_id <$> previous in
  let current_refs := ci_evidence_id <$> current in
  _ ← require_interval (it_observed_start t) (it_observed_end t);
  _ ← raise_if (value_error "health transition must change state") (bool_decide (it_previous_state t = it_current_state t));
  _ ← guard_or (value_error "transition evidence must have unique deterministic evidence IDs")
        (sorted_unique previous_refs && sorted_unique current_refs &&
         negb (existsb (fun r => bool_decide (r ∈ current_refs)) previous_refs));
  _ ← guard_or (value_error "transition interval must be derived from current-state evidence")
        ((it_observed_start t =? minimum 0 (ci_observed_start <$> current)) && (it_observed_end t =? maximum 0 (ci_observed_end <$> current)));
  _ ← raise_if (value_error "previous-state evidence must not overlap the current-state onset")
        (existsb (fun c => it_observed_start t <? ci_observed_end c) previous);
  _ ← guard_or (value_error "transition evidence must reference the affected resource")
        (forallb (fun c => bool_decide (it_affected_resource_id t ∈ ci_resource_ids c)) (previous ++ current));
  expected ← expected_digest (transition_members t) ["transitionId"; "transitionDigest"];
  _ ← guard_or (value_error "transitionDigest does not bind the health transition") (String.eqb (it_transition_digest t) expected);
  require_bound_identifier (it_transition_id t) "transition" expected.

(** IncidentHealthTransition *)
Definition make_transition (t : IncidentHealthTransition) : result IncidentHealthTransition := validated (
  _ ← field "affectedResourceId" (length_between 1 2048 (it_affected_resource_id t));
  affected ← canonical_resource_id (it_affected_resource_id t);
  _ ← field "previousStateEvidence" (list_between 1 32 (it_previous_state_evidence t));
  previous ← mapR make_citation (it_previous_state_evidence t);
  _ ← field "currentStateEvidence" (list_between 1 32 (it_current_state_evidence t));
  current ← mapR make_citation (it_current_state_evidence t);
  _ ← field "transitionDigest" (is_digest (it_transition_digest t));
  _ ← check_instants [it_observed_start t; it_observed_end t];
  let t := {| it_transition_id := it_transition_id t; it_affected_resource_id := affected;
              it_previous_state := it_previous_state t; it_current_state := it_current_state t;
              it_observed_start := it_observed_start t; it_observed_end := it_observed_end t;
              it_previous_state_evidence := previous; it_current_state_evidence := current;
              it_transition_digest := it_transition_digest t |} in
  _ ← validate_transition t; Ok t).

(** CorrelationEvidenceInventory.validate_inventory *)
Definition blob_key (r : VersionPinnedBlobReference) : string * (string * string) := (vp_name r, (vp_version r, vp_content_digest r)).

Definition make_inventory (i : CorrelationEvidenceInventory) : result unit := validated (
  _ ← field "digests" (forallb is_digest ([iv_rule_catalog_digest i; iv_context_binding_digest i; iv_incident_transition_digest i;
        iv_monitoring_handoff_digest i; iv_monitoring_bundle_digest i; iv_evidence_index_digest i; iv_inventory_digest i] ++
        iv_change_artifact_digests i ++ option_list (iv_monitoring_intent_asset_reference_digest i) ++
        option_list (iv_monitoring_control_provenance_digest i)));
  _ ← field "changeArtifactDigests" (list_between 0 256 (iv_change_artifact_digests i));
  _ ← field "sourceReferences" (list_between 1 512 (iv_source_references i));
  _ ← mapR make_blob_reference (iv_source_references i);
  _ ← require_sorted_unique (iv_change_artifact_digests i) "changeArtifactDigests";
  _ ← guard_or (value_error "sourceReferences must be unique deterministic immutable references")
        (bool_decide (blob_key <$> iv_source_references i = sort_by id (blob_key <$> iv_source_references i)) &&
         unique ((fun r => (vp_name r, vp_version r)) <$> iv_source_references i));
  expected ← expected_digest (inventory_members i) ["inventoryDigest"];
  guard_or (value_error "inventoryDigest does not bind the evidence inventory") (String.eqb (iv_inventory_digest i) expected)).

(** MonitoringEvidenceHandoff.bind_exact_evidence_and_attestation *)
Definition make_monitoring_handoff (h : MonitoringEvidenceHandoff) : result unit := validated (
  _ ← field "collectorContractDigest" (is_digest (mh_collector_contract_digest h));
  _ ← field "collectionId" (prefixed_hex "wc024-" 12 (mh_collection_id h));
  _ ← make_blob_reference (mh_evidence h);
  _ ← field "trustAnchorRef" (length_between 1 2048 (mh_trust_anchor_ref h));
  _ ← field "signedPreimageDigest" (is_digest (mh_signed_preimage_digest h));
  _ ← field "signature" (length_between 1 8192 (mh_signature h));
  _ ← guard_or (value_error "monitoring handoff signature must be standard base64")
        (match b64decode (mh_signature h) with Some s => negb (String.eqb s "") | None => false end);
  _ ← check_instants [mh_observed_at h];
  _ ← guard_or (value_error "monitoring evidence reference name is not deterministic")
        (String.eqb (vp_name (mh_evidence h)) ("wc024-monitoring/" +:+ mh_collection_id h +:+ "/evidence.json"));
  digest ← compute_artifact_digest (JObj [
    ("domain", JStr "athena.wc024MonitoringEvidenceHandoff.v1");
    ("handoff", exclude ["collectorAttestation"] (monitoring_handoff_members h))]);
  guard_or (value_error "monitoring handoff attestation does not bind the exact evidence reference")
    (String.eqb (mh_signed_preimage_digest h) digest)).

(** ** Change evidence (contracts/change_ingestion.py) *)
Definition nul : string := String (ascii_of_nat 0) "".

(** [hashlib.sha256(text).hexdigest()[:12]] *)
Definition short_hash (text : string) : string := string_take 12 (removeprefix "sha256:" (sha256_hex text)).

(** _resource_type_from_azure_resource_id *)
Fixpoint every_other {A} (l : list A) : list A := match l with x :: _ :: l => x :: every_other l | _ => l end.
Definition resource_type_of_id (resource_id : string) : string :=
  let segments := split_on slash resource_id in
  nth 6 segments "" +:+ "/" +:+ join "/" (every_other (drop 7 segments)).

(** _delivery_key, _change_key *)
Definition delivery_key (source : ChangeEvidenceSource) (source_record_ref : string) : string :=
  sha256_hex (change_source_text source +:+ nul +:+ source_record_ref).
Definition change_key (target_resource_id : string) (operation : ChangeOperation) (r : ChangeResult) (correlation_id : string) : string :=
  let operation_family := match operation with OpCreate | OpUpdate | OpCreateOrUpdate => "write" | o => operation_text o end in
  sha256_hex (join nul [target_resource_id; operation_family; change_result_text r; lower correlation_id]).

(** [re.IGNORECASE] also matches the four letters whose other case is ASCII. *)
Definition ignore_case_letters (s : string) : string :=
  replace "ſ" "s" (replace "K" "k" (replace "İ" "i" (replace "ı" "i" s))).

(** [Microsoft\.[A-Za-z0-9.]+/[A-Za-z0-9.]+(?:/[A-Za-z0-9.]+)*], ignoring case *)
Definition is_resource_type (s : string) : bool :=
  match split_on slash (map_string ascii_lower (ignore_case_letters s)) with
  | provider :: (_ :: _) as types =>
      starts_with "microsoft." provider && negb (String.eqb provider "microsoft.") &&
      forallb (fun t => negb (String.eqb t "") && all_chars provider_char t) types
  | _ => false
  end.

(** ChangedProperty.validate_evidence_reference *)
Definition make_changed_property (p : ChangedProperty) : result unit := validated (
  _ ← field "path" (is_property_path (cp_path p));
  _ ← optional_field "beforeEvidenceReference" is_source_reference (cp_before_evidence_reference p);
  _ ← optional_field "afterEvidenceReference" is_source_reference (cp_after_evidence_reference p);
  guard_or (value_error "changed property must reference before or after evidence")
    (present (cp_before_evidence_reference p) || present (cp_after_evidence_reference p))).

(** NormalizedChangeEvidence.validate_deterministic_binding *)
Definition validate_change_binding (c : NormalizedChangeEvidence) : result unit :=
  let paths := cp_path <$> ch_changed_properties c in
  let deduplication_key := delivery_key (ch_source_system c) (ch_source_record_reference c) in
  _ ← guard_or (value_error "targetResourceType does not match targetResourceId")
        (String.eqb (casefold (resource_type_of_id (ch_target_resource_id c))) (casefold (ch_target_resource_type c)));
  _ ← raise_if (value_error "receivedAt must not precede occurredAt") (ch_received_at c <? ch_occurred_at c);
  _ ← guard_or (value_error "changedProperties must have uniquely sorted paths") (sorted_unique paths);
  _ ← guard_or (value_error "changedProperties must be unique case-insensitive paths") (unique (casefold <$> paths));
  guard_or (value_error "change evidence is not deterministically bound")
    (String.eqb (ch_deduplication_key c) deduplication_key &&
     String.eqb (ch_change_key c)
       (change_key (ch_target_resource_id c) (ch_operation c) (ch_result c) (ch_correlation_id c)) &&
     String.eqb (ch_evidence_id c) ("chg-" +:+ short_hash deduplication_key)).

(** NormalizedChangeEvidence *)
Definition make_change (c : NormalizedChangeEvidence) : result NormalizedChangeEvidence := validated (
  _ ← field "evidenceId" (is_change_id (ch_evidence_id c));
  _ ← field "digests" (forallb is_digest [ch_deduplication_key c; ch_change_key c; ch_source_digest c]);
  _ ← field "references" (forallb is_source_reference [ch_source_record_reference c; ch_actor_reference c; ch_deployment_source_reference c]);
  _ ← field "targetResourceId" (length_between 1 2048 (ch_target_resource_id c));
  target ← canonical_azure_resource_id (ch_target_resource_id c);
  _ ← field "targetResourceType" (length_between 1 256 (ch_target_resource_type c));
  _ ← guard_or (value_error "targetResourceType is invalid")
        (String.eqb (ch_target_resource_type c) (strip (ch_target_resource_type c)) && is_resource_type (ch_target_resource_type c));
  _ ← field "operationName" (length_between 1 256 (ch_operation_name c));
  _ ← guard_or (value_error "operationName is invalid") (String.eqb (ch_operation_name c) (strip (ch_operation_name c)));
  _ ← field "changedProperties" (list_between 0 64 (ch_changed_properties c));
  _ ← mapR make_changed_property (ch_changed_properties c);
  _ ← check_instants [ch_occurred_at c; ch_received_at c];
  correlation_id ← match uuid_text (ch_correlation_id c) with
                   | Some u => Ok u | None => Raise (value_error "correlationId must be a UUID") end;
  _ ← mapR (optional_field "reference" is_source_reference)
        [ch_policy_assignment_reference c; ch_policy_definition_reference c; ch_before_evidence_reference c; ch_after_evidence_reference c];
  let c := {| ch_evidence_id := ch_evidence_id c; ch_deduplication_key := ch_deduplication_key c; ch_change_key := ch_change_key c;
              ch_source_system := ch_source_system c; ch_source_record_reference := ch_source_record_reference c;
              ch_source_digest := ch_source_digest c; ch_target_resource_id := target;
              ch_target_resource_type := ch_target_resource_type c; ch_operation := ch_operation c;
              ch_operation_name := lower (ch_operation_name c); ch_result := ch_result c;
              ch_changed_properties := ch_changed_properties c; ch_actor_kind := ch_actor_kind c;
              ch_actor_reference := ch_actor_reference c; ch_occurred_at := ch_occurred_at c; ch_received_at := ch_received_at c;
              ch_correlation_id := correlation_id; ch_deployment_source_kind := ch_deployment_source_kind c;
              ch_deployment_source_reference := ch_deployment_source_reference c;
              ch_policy_assignment_reference := ch_policy_assignment_reference c;
              ch_policy_definition_reference := ch_policy_definition_reference c;
              ch_policy_enforcement_mode := ch_policy_enforcement_mode c;
              ch_before_evidence_reference := ch_before_evidence_reference c;
              ch_after_evidence_reference := ch_after_evidence_reference c |} in
  _ ← validate_change_binding c; Ok c).

(** ChangeEvidenceArtifact.validate_attestation_binding, with change_evidence_attestation_preimage *)
Definition make_artifact (a : ChangeEvidenceArtifact) : result ChangeEvidenceArtifact := validated (
  evidence ← make_change (art_evidence a);
  _ ← field "keyVaultKeyId" (length_between 1 512 (ct_key_vault_key_id (art_attestation a)));
  _ ← field "signedPreimageDigest" (is_digest (ct_signed_preimage_digest (art_attestation a)));
  _ ← field "signature" (length_between 1 8192 (ct_signature (art_attestation a)));
  preimage ← canonicalize_json (JObj [("domain", JStr "athena.changeEvidenceArtifact.v1"); ("evidence", change_dump evidence)]);
  _ ← guard_or (value_error "change evidence attestation does not bind the artifact")
        (String.eqb (ct_signed_preimage_digest (art_attestation a)) (sha256_hex preimage));
  Ok {| art_evidence := evidence; art_attestation := art_attestation a |}).

(** ChangeEvidencePersistenceHandoff.validate_artifact_reference *)
Definition make_change_handoff (h : ChangeEvidencePersistenceHandoff) : result unit := validated (
  _ ← field "evidenceId" (is_change_id (cph_evidence_id h));
  _ ← field "digests" (forallb is_digest [cph_deduplication_key h; cph_change_key h]);
  _ ← make_blob_reference (cph_artifact h);
  guard_or (value_error "change evidence handoff is not deterministically bound")
    (String.eqb (vp_name (cph_artifact h))
       ("change-evidence/" +:+ removeprefix "sha256:" (cph_deduplication_key h) +:+ "/evidence.json") &&
     String.eqb (cph_evidence_id h) ("chg-" +:+ short_hash (cph_deduplication_key h)))).

(** ** CorrelationRequest.validate_request *)

(** _monitoring_evidence_index *)
Definition observation_citation (source : VersionPinnedBlobReference) (o : MonitoringObservation) : CorrelationEvidenceCitation :=
  let b := ob_base o in
  {| ci_evidence_id := ob_id o; ci_family := observation_family o; ci_provenance_root_digest := mo_provenance_root_digest b;
     ci_evidence_digest := mo_observation_digest b; ci_source_reference := source; ci_observed_start := ob_start o;
     ci_observed_end := ob_end o; ci_source_root_reference := mo_source_root_reference b;
     ci_resource_ids := observation_resource_ids o; ci_summary_code := mo_summary_code b |}.

Definition coverage_citation (source : VersionPinnedBlobReference) (c : EvidenceCoverage) : CorrelationEvidenceCitation :=
  {| ci_evidence_id := co_coverage_id c; ci_family := co_family c; ci_provenance_root_digest := co_provenance_root_digest c;
     ci_evidence_digest := co_coverage_digest c; ci_source_reference := source; ci_observed_start := co_coverage_start c;
     ci_observed_end := co_coverage_end c; ci_source_root_reference := co_source_root_reference c;
     ci_resource_ids := es_resource_ids (co_scope c);
     ci_summary_code := "coverage." +:+ family_text (co_family c) +:+ "." +:+ coverage_status_text (co_status c) |}.

Definition monitoring_evidence_index (b : MonitoringEvidenceBundle) (source : VersionPinnedBlobReference)
    : result (list CorrelationEvidenceCitation) :=
  mapR make_citation ((observation_citation source <$> mb_observations b) ++ (coverage_citation source <$> mb_coverage b)).

(** The citation of a change artifact *)
Definition change_citation (a : ChangeEvidenceArtifact) (h : ChangeEvidencePersistenceHandoff) (digest : string)
    : CorrelationEvidenceCitation :=
  let e := art_evidence a in
  {| ci_evidence_id := ch_evidence_id e; ci_family := FamResourceChange;
     ci_provenance_root_digest := sha256_hex (ch_source_record_reference e); ci_evidence_digest := digest;
     ci_source_reference := cph_artifact h; ci_observed_start := ch_occurred_at e; ci_observed_end := ch_occurred_at e;
     ci_source_root_reference := ch_source_record_reference e; ci_resource_ids := [ch_target_resource_id e];
     ci_summary_code := "change." +:+ operation_text (ch_operation e) +:+ "." +:+ change_result_text (ch_result e) |}.

(** The change artifacts with their handoffs and digests, [zip(..., strict=True)] *)
Fixpoint zip3 {A B C} (l : list A) (k : list B) (m : list C) : list (A * B * C) :=
  match l, k, m with a :: l, b :: k, c :: m => (a, b, c) :: zip3 l k m | _, _, _ => [] end.

(** The schema versions of the request, its bundle and its inventory agree. *)
Definition check_request_schema (r : CorrelationRequest) : result unit :=
  let i := rq_evidence_inventory r in
  match rq_schema_version r with
  | LegacyRequest =>
      raise_if (value_error "legacy correlation request cannot contain WC028 provenance fields")
        (negb (bool_decide (mb_schema_version (rq_monitoring_bundle r) = LegacyBundle)) ||
         present (iv_monitoring_intent_asset_reference_digest i) || present (iv_monitoring_control_provenance_digest i))
  | SignedRequest =>
      guard_or (value_error "WC028 correlation request requires the WC028 evidence bundle and inventory")
        (bool_decide (mb_schema_version (rq_monitoring_bundle r) = SignedBundle) &&
         present (iv_monitoring_intent_asset_reference_digest i) && present (iv_monitoring_control_provenance_digest i))
  end.

(** [timedelta(minutes=15)] in microseconds *)
Definition request_window : Z := 15 * 60 * second.

(** The window of the request, and that no evidence is newer than trustedAsOf *)
Definition check_request_times (r : CorrelationRequest) : result unit :=
  let as_of := rq_trusted_as_of r in
  let b := rq_monitoring_bundle r in
  _ ← guard_or (value_error "request issuance, trustedAsOf, and expiry must form one bounded window")
        ((rq_issued_at r <=? as_of) && (as_of <=? rq_expires_at r) && (rq_expires_at r - rq_issued_at r <=? request_window));
  _ ← raise_if (value_error "incident evidence must not be newer than trustedAsOf") (as_of <? it_observed_end (rq_incident_anchor r));
  _ ← raise_if (value_error "monitoring evidence must not be newer than trustedAsOf") (as_of <? mb_observed_end b);
  _ ← raise_if (value_error "monitoring handoff must not be newer than trustedAsOf") (as_of <? mh_observed_at (rq_monitoring_handoff r));
  _ ← raise_if (value_error "monitoring bundle must not end after its handoff") (mh_observed_at (rq_monitoring_handoff r) <? mb_observed_end b);
  _ ← guard_or (value_error "context and monitoring bundle workload IDs must match")
        (String.eqb (cb_workload_id (binding_base (rq_context_binding r))) (mb_workload_id b));
  _ ← guard_or (value_error "monitoring coverage scopes must match the governed context")
        (bool_decide (cb_required_coverage_scope_digests (binding_base (rq_context_binding r)) = mb_expected_coverage_scope_digests b));
  _ ← raise_if (value_error "evidenceIndex contains evidence newer than trustedAsOf")
        (existsb (fun c => as_of <? ci_observed_end c) (rq_evidence_index r));
  match rq_context_binding r with
  | PublishedRuntime _ authority _ =>
      raise_if (value_error "publication authority must not be newer than trustedAsOf") (as_of <? pa_published_at authority)
  | DraftPreview _ _ _ => Ok tt
  end.

(** The change artifacts are ordered by digest, in time, and bound to their handoffs. *)
Definition check_changes (r : CorrelationRequest) (change_digests : list string) : result unit :=
  let as_of := rq_trusted_as_of r in
  _ ← guard_or (value_error "changeArtifacts must have unique deterministic artifact digests") (sorted_unique change_digests);
  _ ← raise_if (value_error "change evidence must not be newer than trustedAsOf")
        (existsb (fun a => (as_of <? ch_occurred_at (art_evidence a)) || (as_of <? ch_received_at (art_evidence a))) (rq_change_artifacts r));
  _ ← guard_or (value_error "each change artifact requires one immutable handoff")
        (bool_decide (length (rq_change_handoffs r) = length (rq_change_artifacts r)));
  guard_or (value_error "change handoff does not bind the exact change artifact")
    (forallb (fun '(a, h, digest) =>
       String.eqb (cph_evidence_id h) (ch_evidence_id (art_evidence a)) &&
       String.eqb (cph_deduplication_key h) (ch_deduplication_key (art_evidence a)) &&
       String.eqb (cph_change_key h) (ch_change_key (art_evidence a)) &&
       String.eqb (vp_content_digest (cph_artifact h)) digest)
     (zip3 (rq_change_artifacts r) (rq_change_handoffs r) change_digests)).

(** [{artifact.evidence.evidence_id: (artifact, digest)}] *)
Definition change_by_id (r : CorrelationRequest) (change_digests : list string) : gmap string (ChangeEvidenceArtifact * string) :=
  dict_by (fun p => ch_evidence_id (art_evidence p.1)) (zip (rq_change_artifacts r) change_digests).

(** An attributed flow binds the exact change of a network security rule. *)
Definition check_flow_attribution (changes : gmap string (ChangeEvidenceArtifact * string)) (o : MonitoringObservation) : result unit :=
  match o with
  | FlowObs f =>
      if fl_effective_rule_attribution f then
        match fl_matched_change_evidence_id f ≫= (changes !!.) with
        | Some (a, digest) =>
            let change := art_evidence a in
            guard_or (value_error "effective flow attribution does not bind the exact NSG change")
              (bool_decide (fl_matched_change_artifact_digest f = Some digest) &&
               bool_decide (fl_matched_change_key f = Some (ch_change_key change)) &&
               bool_decide (fl_rule_resource_id f = Some (ch_target_resource_id change)) &&
               String.eqb (casefold (ch_target_resource_type change)) nsg_rule_type &&
               subset (fl_matched_property_paths f) (cp_path <$> ch_changed_properties change))
        | None => Raise (value_error "effective flow attribution references unknown change evidence")
        end
      else Ok tt
  | _ => Ok tt
  end.

(** The immutable references every citation must come from *)
Definition expected_source_references (r : CorrelationRequest) : list VersionPinnedBlobReference :=
  sort_by blob_key (
    mh_evidence (rq_monitoring_handoff r) ::
    match mb_monitoring_intent_reference (rq_monitoring_bundle r) with
    | Some i => [mi_intent_reference i; mi_attestation_reference i] | None => [] end ++
    match rq_context_binding r with PublishedRuntime _ _ reference => [reference] | DraftPreview _ _ _ => [] end ++
    (cph_artifact <$> rq_change_handoffs r)).

(** The evidence index is derived exactly from the supplied evidence. *)
Definition check_evidence_index (r : CorrelationRequest) (change_digests : list string) : result unit :=
  monitoring ← monitoring_evidence_index (rq_monitoring_bundle r) (mh_evidence (rq_monitoring_handoff r));
  changes ← mapR (fun '(a, h, digest) => make_citation (change_citation a h digest))
              (zip3 (rq_change_artifacts r) (rq_change_handoffs r) change_digests);
  _ ← guard_or (value_error "evidenceIndex must be derived exactly from the supplied evidence")
        (bool_decide (rq_evidence_index r = sort_by ci_evidence_id (monitoring ++ changes)));
  _ ← guard_or (value_error "evidenceIndex must have unique deterministic evidence IDs")
        (sorted_unique (ci_evidence_id <$> rq_evidence_index r));
  _ ← guard_or (value_error "sourceRootReference cannot bind multiple provenance roots")
        (forallb (fun c => forallb (fun d =>
           negb (String.eqb (ci_source_root_reference c) (ci_source_root_reference d)) ||
           String.eqb (ci_provenance_root_digest c) (ci_provenance_root_digest d)) (rq_evidence_index r)) (rq_evidence_index r));
  guard_or (value_error "evidenceIndex contains a source outside the immutable inventory")
    (forallb (fun c => bool_decide (ci_source_reference c ∈ expected_source_references r)) (rq_evidence_index r)).

(** matches_health_state *)
Definition matches_health_state (r : CorrelationRequest) (state : HealthState) (c : CorrelationEvidenceCitation) : bool :=
  let affected := it_affected_resource_id (rq_incident_anchor r) in
  match dict_by ob_id (observations r) !! ci_evidence_id c with
  | Some (GuestObs g) => String.eqb (mo_subject_resource_id (gs_base g)) affected && bool_decide (gs_state g = state)
  | Some (EndpointObs e) => String.eqb (mo_subject_resource_id (eh_base e)) affected && bool_decide (eh_status e = state)
  | Some (PlatformObs p) => String.eqb (mo_subject_resource_id (ph_base p)) affected && bool_decide (ph_status p = state)
  | _ => false
  end.

(** The incident's evidence is in the index and shows its two states. *)
Definition check_incident_evidence (r : CorrelationRequest) : result unit :=
  let t := rq_incident_anchor r in
  let by_id := dict_by ci_evidence_id (rq_evidence_index r) in
  _ ← guard_or (value_error "incident evidence must resolve exactly in the evidence index")
        (forallb (fun c => bool_decide (by_id !! ci_evidence_id c = Some c)) (it_previous_state_evidence t ++ it_current_state_evidence t));
  guard_or (value_error "incident transition requires matching previous and current health evidence")
    (forallb (matches_health_state r (it_previous_state t)) (it_previous_state_evidence t) &&
     forallb (matches_health_state r (it_current_state t)) (it_current_state_evidence t)).

(** The resources of an observation that the governed path must contain *)
Definition path_bound_resources (o : MonitoringObservation) : list string :=
  match o with
  | FlowObs f =>
      [mo_subject_resource_id (fl_base f); nt_source_resource_id (fl_tuple f); nt_destination_resource_id (fl_tuple f);
       fl_enforcement_resource_id f] ++ option_list (fl_rule_resource_id f)
  | MonitorObs m =>
      [mo_subject_resource_id (cm_base m); nt_source_resource_id (cm_tuple m); nt_destination_resource_id (cm_tuple m)]
  | EndpointObs e => mo_subject_resource_id (eh_base e) :: eh_backend_resource_ids e
  | GuestObs _ | PlatformObs _ => []
  end.

(** Observations and coverage refer to declared paths and to resources on them. *)
Definition check_paths (r : CorrelationRequest) : result unit :=
  let paths := dict_by dp_path_id (dependency_paths r) in
  let coverage := mb_coverage (rq_monitoring_bundle r) in
  let known p := match p with Some id => present (paths !! id) | None => true end in
  let inside p resources :=
    match p ≫= (paths !!.) with Some path => subset resources (dp_resource_ids path) | None => true end in
  _ ← mapR (fun o =>
        _ ← guard_or (value_error "monitoring observation references an undeclared dependency path") (known (ob_path_id o));
        guard_or (value_error "monitoring observation resources are outside the governed path")
          (inside (ob_path_id o) (path_bound_resources o))) (observations r);
  _ ← guard_or (value_error "monitoring coverage references an undeclared dependency path")
        (forallb (fun c => known (es_path_id (co_scope c))) coverage);
  guard_or (value_error "monitoring coverage resources are outside the governed path")
    (forallb (fun c => inside (es_path_id (co_scope c)) (es_resource_ids (co_scope c))) coverage).

(** The digest of the controls the evidence names, [None] when it names none *)
Definition control_provenance_digest (b : MonitoringEvidenceBundle) : result (option string) :=
  let controls := omap (fun o => mo_control_provenance (ob_base o)) (mb_observations b) ++ omap co_control_provenance (mb_coverage b) in
  let key p := (mc_control_id p, (mc_control_digest p, mc_source_clause_path p)) in
  match controls with
  | [] => Ok None
  | _ => Some <$> compute_artifact_digest (JArr (control_dump <$> sort_by key (remove_dups controls)))
  end.

(** The inventory records the exact inputs of the request. *)
Definition check_inventory (r : CorrelationRequest) (change_digests : list string) (handoff_digest bundle_digest : string) : result unit :=
  let i := rq_evidence_inventory r in
  evidence_index_digest ← compute_artifact_digest (JArr (citation_dump <$> rq_evidence_index r));
  control_digest ← control_provenance_digest (rq_monitoring_bundle r);
  guard_or (value_error "evidenceInventory does not match the exact request inputs")
    (String.eqb (iv_rule_catalog_digest i) (rq_rule_catalog_digest r) &&
     String.eqb (iv_context_binding_digest i) (cb_binding_digest (binding_base (rq_context_binding r))) &&
     String.eqb (iv_incident_transition_digest i) (it_transition_digest (rq_incident_anchor r)) &&
     String.eqb (iv_monitoring_handoff_digest i) handoff_digest && String.eqb (iv_monitoring_bundle_digest i) bundle_digest &&
     bool_decide (iv_change_artifact_digests i = change_digests) && String.eqb (iv_evidence_index_digest i) evidence_index_digest &&
     bool_decide (iv_monitoring_intent_asset_reference_digest i =
                  mi_asset_reference_digest <$> mb_monitoring_intent_reference (rq_monitoring_bundle r)) &&
     bool_decide (iv_monitoring_control_provenance_digest i = control_digest) &&
     bool_decide (iv_source_references i = expected_source_references r)).

(** CorrelationRequest.validate_request *)
Definition validate_correlation_request (r : CorrelationRequest) : result unit :=
  _ ← check_request_schema r;
  _ ← check_request_times r;
  handoff_digest ← compute_artifact_digest (JObj (monitoring_handoff_members (rq_monitoring_handoff r)));
  bundle_digest ← bytes_digest (bundle_dump (rq_monitoring_bundle r));
  _ ← guard_or (value_error "monitoring bundle is not bound to the exact handoff")
        (String.eqb (vp_content_digest (mh_evidence (rq_monitoring_handoff r))) bundle_digest &&
         String.eqb (mb_monitoring_contract_digest (rq_monitoring_bundle r)) (mh_collector_contract_digest (rq_monitoring_handoff r)));
  change_digests ← mapR artifact_digest (rq_change_artifacts r);
  _ ← check_changes r change_digests;
  _ ← mapR (check_flow_attribution (change_by_id r change_digests)) (observations r);
  _ ← check_evidence_index r change_digests;
  _ ← check_incident_evidence r;
  _ ← check_paths r;
  _ ← check_inventory r change_digests handoff_digest bundle_digest;
  expected ← expected_digest (correlation_request_members r) ["requestId"; "requestDigest"];
  _ ← guard_or (value_error "requestDigest does not bind the correlation request") (String.eqb (rq_request_digest r) expected);
  require_bound_identifier (rq_request_id r) "request" expected.

(** CorrelationRequest *)
Definition make_correlation_request (r : CorrelationRequest) : result CorrelationRequest := validated (
  _ ← field "ruleCatalogDigest" (is_digest (rq_rule_catalog_digest r));
  _ ← field "incidentRevision" (1 <=? rq_incident_revision r);
  binding ← make_binding (rq_context_binding r);
  anchor ← make_transition (rq_incident_anchor r);
  _ ← make_monitoring_handoff (rq_monitoring_handoff r);
  bundle ← make_bundle (rq_monitoring_bundle r);
  _ ← field "changeArtifacts" (list_between 0 256 (rq_change_artifacts r));
  artifacts ← mapR make_artifact (rq_change_artifacts r);
  _ ← field "changeHandoffs" (list_between 0 256 (rq_change_handoffs r));
  _ ← mapR make_change_handoff (rq_change_handoffs r);
  _ ← field "evidenceIndex" (list_between 1 2048 (rq_evidence_index r));
  evidence_index ← mapR make_citation (rq_evidence_index r);
  _ ← make_inventory (rq_evidence_inventory r);
  _ ← field "requestDigest" (is_digest (rq_request_digest r));
  _ ← check_instants [rq_issued_at r; rq_trusted_as_of r; rq_expires_at r];
  let r := {| rq_schema_version := rq_schema_version r; rq_request_id := rq_request_id r;
              rq_rule_catalog_digest := rq_rule_catalog_digest r; rq_incident_revision := rq_incident_revision r;
              rq_issued_at := rq_issued_at r; rq_trusted_as_of := rq_trusted_as_of r; rq_expires_at := rq_expires_at r;
              rq_context_binding := binding; rq_incident_anchor := anchor; rq_monitoring_handoff := rq_monitoring_handoff r;
              rq_monitoring_bundle := bundle; rq_change_artifacts := artifacts; rq_change_handoffs := rq_change_handoffs r;
              rq_evidence_index := evidence_index; rq_evidence_inventory := rq_evidence_inventory r;
              rq_request_digest := rq_request_digest r |} in
  _ ← validate_correlation_request r; Ok r).
End contract.
