(* ===== verification/CorrelationReport.v ===== *)
(** * CorrelationReport: ranked root causes and their binding to a request

    [contracts/correlation.py] from CorrelationScoreComponents to the end:
    hypotheses, reports, their validators, and validate_correlation_report_binding,
    which checks a report against the request it answers. *)
From S2P Require Import Prelude Text Sha256 Time Json Events.
From S2P Require Export CorrelationContract.
Local Open Scope Z_scope.

(** ** Literals *)
Inductive RootCauseCategory :=
  RcNetworkSecurityChange | RcRoutingChange | RcGuestResourcePressure | RcGuestServiceFailure | RcPlatformHealth | RcBackendHealth
  | RcDeploymentChange | RcDependencyFailure | RcUnknown.
Inductive CorrelationGateCode :=
  GateSuccessfulChange | GateAffectedPath | GateSemanticMatch | GateEffectiveRuleAttribution | GateMatchingDeniedFlow
  | GateConnectionMonitorFailure | GateEndpointDegradation | GateIndependentCorroboration | GateCorrectChronology
  | GateRecoveryEvidence | GateNoHardConflict.
Inductive ConfidenceCapCode :=
  CapRecentChangeOnly | CapMissingAffectedPath | CapMissingIndependentSupport | CapMissingDirectAttribution | CapAmbiguousObservationWindow.
Inductive ContradictionCode :=
  ContraChangeFailed | ContraChangeAfterDegradation | ContraCompleteAllowedFlow | ContraCompleteHealthyConnectionMonitor
  | ContraRecoveryBeforeCorrection | ContraCompetingCause.
Inductive MissingEvidenceCode :=
  MissEffectiveRuleAttribution | MissDeniedFlow | MissConnectionMonitorResult | MissEndpointHealth | MissAffectedPath
  | MissCompleteObservationWindow | MissRecoveryObservation | MissChangeDetails | MissOmittedCandidates.

#[export] Instance RootCauseCategory_eq_dec : EqDecision RootCauseCategory. Proof. solve_decision. Defined.
#[export] Instance CorrelationGateCode_eq_dec : EqDecision CorrelationGateCode. Proof. solve_decision. Defined.
#[export] Instance ConfidenceCapCode_eq_dec : EqDecision ConfidenceCapCode. Proof. solve_decision. Defined.
#[export] Instance ContradictionCode_eq_dec : EqDecision ContradictionCode. Proof. solve_decision. Defined.
#[export] Instance MissingEvidenceCode_eq_dec : EqDecision MissingEvidenceCode. Proof. solve_decision. Defined.

Definition category_text (c : RootCauseCategory) : string :=
  match c with
  | RcNetworkSecurityChange => "networkSecurityChange" | RcRoutingChange => "routingChange"
  | RcGuestResourcePressure => "guestResourcePressure" | RcGuestServiceFailure => "guestServiceFailure"
  | RcPlatformHealth => "platformHealth" | RcBackendHealth => "backendHealth" | RcDeploymentChange => "deploymentChange"
  | RcDependencyFailure => "dependencyFailure" | RcUnknown => "unknown"
  end.
Definition gate_text (g : CorrelationGateCode) : string :=
  match g with
  | GateSuccessfulChange => "successfulChange" | GateAffectedPath => "affectedPath" | GateSemanticMatch => "semanticMatch"
  | GateEffectiveRuleAttribution => "effectiveRuleAttribution" | GateMatchingDeniedFlow => "matchingDeniedFlow"
  | GateConnectionMonitorFailure => "connectionMonitorFailure" | GateEndpointDegradation => "endpointDegradation"
  | GateIndependentCorroboration => "independentCorroboration" | GateCorrectChronology => "correctChronology"
  | GateRecoveryEvidence => "recoveryEvidence" | GateNoHardConflict => "noHardConflict"
  end.
Definition cap_text (c : ConfidenceCapCode) : string :=
  match c with
  | CapRecentChangeOnly => "recentChangeOnly" | CapMissingAffectedPath => "missingAffectedPath"
  | CapMissingIndependentSupport => "missingIndependentSupport" | CapMissingDirectAttribution => "missingDirectAttribution"
  | CapAmbiguousObservationWindow => "ambiguousObservationWindow"
  end.
Definition contradiction_text (c : ContradictionCode) : string :=
  match c with
  | ContraChangeFailed => "changeFailed" | ContraChangeAfterDegradation => "changeAfterDegradation"
  | ContraCompleteAllowedFlow => "completeAllowedFlow" | ContraCompleteHealthyConnectionMonitor => "completeHealthyConnectionMonitor"
  | ContraRecoveryBeforeCorrection => "recoveryBeforeCorrection" | ContraCompetingCause => "competingCause"
  end.
Definition missing_text (m : MissingEvidenceCode) : string :=
  match m with
  | MissEffectiveRuleAttribution => "effectiveRuleAttribution" | MissDeniedFlow => "deniedFlow"
  | MissConnectionMonitorResult => "connectionMonitorResult" | MissEndpointHealth => "endpointHealth"
  | MissAffectedPath => "affectedPath" | MissCompleteObservationWindow => "completeObservationWindow"
  | MissRecoveryObservation => "recoveryObservation" | MissChangeDetails => "changeDetails" | MissOmittedCandidates => "omittedCandidates"
  end.

(** CORRELATION_CONFIDENCE_THRESHOLDS *)
Definition confidence_threshold (c : ConfidenceLevel) : Z :=
  match c with CfUnknown => 0 | CfLow => 30 | CfMedium => 55 | CfHigh => 75 | CfConfirmed => 90 end.

(** CORRELATION_REQUIRED_CAPS *)
Definition required_cap (c : ConfidenceCapCode) : ConfidenceLevel :=
  match c with
  | CapRecentChangeOnly | CapMissingAffectedPath => CfLow
  | CapMissingIndependentSupport | CapAmbiguousObservationWindow => CfMedium
  | CapMissingDirectAttribution => CfHigh
  end.

(** _NETWORK_SECURITY_CONFIRMED_GATES *)
Definition NETWORK_SECURITY_CONFIRMED_GATES : list CorrelationGateCode := [
  GateSuccessfulChange; GateAffectedPath; GateSemanticMatch; GateEffectiveRuleAttribution; GateMatchingDeniedFlow;
  GateConnectionMonitorFailure; GateEndpointDegradation; GateIndependentCorroboration; GateCorrectChronology; GateNoHardConflict].

(** _HARD_CONTRADICTION_CODES *)
Definition is_hard_contradiction (c : ContradictionCode) : bool := match c with ContraCompetingCause => false | _ => true end.

Definition CORRELATION_MAX_HYPOTHESES : Z := 64.
Definition CORRELATION_MAX_CANDIDATE_HYPOTHESES : Z := 4096.
Definition CORRELATION_MAX_CANONICAL_BYTES : Z := 8 * 1024 * 1024.

(** ** Models *)
Record CorrelationScoreComponents := {
  sc_topology : Z;
  sc_temporal : Z;
  sc_semantic : Z;
  sc_corroboration : Z;
  sc_recovery : Z;
  sc_raw_score : Z;
}.

Record CorrelationGate := {
  ga_code : CorrelationGateCode;
  ga_satisfied : bool;
  ga_evidence_ids : list string;
}.

Record ConfidenceCap := {
  cc_code : ConfidenceCapCode;
  cc_maximum_confidence : ConfidenceLevel;
}.

Record CorrelationContradiction := {
  cn_code : ContradictionCode;
  cn_detail : string;
  cn_evidence_ids : list string;
  cn_hard_conflict : bool;
}.

Record MissingCorrelationEvidence := {
  me_code : MissingEvidenceCode;
  me_family : EvidenceFamily;
  me_detail : string;
  me_required_for_confidence : ConfidenceLevel;
}.

Record RootCauseHypothesis := {
  hy_hypothesis_id : string;
  hy_rank : Z;
  hy_category : RootCauseCategory;
  hy_cause_resource_id : option string;
  hy_affected_path_id : option string;
  hy_candidate_causal_at : option Z;
  hy_score : CorrelationScoreComponents;
  hy_confidence : ConfidenceLevel;
  hy_supporting_evidence : list CorrelationEvidenceCitation;
  hy_contradictions : list CorrelationContradiction;
  hy_missing_evidence : list MissingCorrelationEvidence;
  hy_omitted_candidate_count : option Z;
  hy_omitted_candidate_digest : option string;
  hy_gates : list CorrelationGate;
  hy_caps : list ConfidenceCap;
  hy_hypothesis_digest : string;
}.

Record CorrelationReport := {
  rp_report_id : string;
  rp_rule_catalog_digest : string;
  rp_as_of : Z;
  rp_published_runtime : bool;
  rp_context_binding_digest : string;
  rp_input_inventory_digest : string;
  rp_request_digest : string;
  rp_transition_digest : string;
  rp_incident_anchor_observed_start : Z;
  rp_incident_anchor_observed_end : Z;
  rp_hypotheses : list RootCauseHypothesis;
  rp_preview_only : bool;
  rp_report_digest : string;
}.

#[export] Instance CorrelationGate_eq_dec : EqDecision CorrelationGate. Proof. solve_decision. Defined.
#[export] Instance ConfidenceCap_eq_dec : EqDecision ConfidenceCap. Proof. solve_decision. Defined.
#[export] Instance CorrelationContradiction_eq_dec : EqDecision CorrelationContradiction. Proof. solve_decision. Defined.
#[export] Instance MissingCorrelationEvidence_eq_dec : EqDecision MissingCorrelationEvidence. Proof. solve_decision. Defined.
#[export] Instance CorrelationScoreComponents_eq_dec : EqDecision CorrelationScoreComponents. Proof. solve_decision. Defined.
#[export] Instance RootCauseHypothesis_eq_dec : EqDecision RootCauseHypothesis. Proof. solve_decision. Defined.

Section report.
Context `{PyText, Rfc8785, PydanticJson, IpAddress, PyUuid}.

(** ** Renderings *)
Definition score_dump (s : CorrelationScoreComponents) : json := JObj [
  ("topology", JInt (sc_topology s)); ("temporal", JInt (sc_temporal s)); ("semantic", JInt (sc_semantic s));
  ("corroboration", JInt (sc_corroboration s)); ("recovery", JInt (sc_recovery s)); ("rawScore", JInt (sc_raw_score s))].

Definition gate_dump (g : CorrelationGate) : json := JObj [
  ("code", JStr (gate_text (ga_code g))); ("satisfied", JBool (ga_satisfied g)); ("evidenceIds", texts (ga_evidence_ids g))].

Definition cap_dump (c : ConfidenceCap) : json := JObj [
  ("code", JStr (cap_text (cc_code c))); ("maximumConfidence", JStr (confidence_text (cc_maximum_confidence c)))].

Definition contradiction_dump (c : CorrelationContradiction) : json := JObj [
  ("code", JStr (contradiction_text (cn_code c))); ("detail", JStr (cn_detail c));
  ("evidenceIds", texts (cn_evidence_ids c)); ("hardConflict", JBool (cn_hard_conflict c))].

Definition missing_dump (m : MissingCorrelationEvidence) : json := JObj [
  ("code", JStr (missing_text (me_code m))); ("family", JStr (family_text (me_family m))); ("detail", JStr (me_detail m));
  ("requiredForConfidence", JStr (confidence_text (me_required_for_confidence m)))].

Definition hypothesis_members (h : RootCauseHypothesis) : list (string * json) :=
  [("hypothesisId", JStr (hy_hypothesis_id h)); ("rank", JInt (hy_rank h)); ("category", JStr (category_text (hy_category h)))] ++
  opt_text "causeResourceId" (hy_cause_resource_id h) ++
  opt_text "affectedPathId" (hy_affected_path_id h) ++
  opt_member "candidateCausalAt" (instant_json <$> hy_candidate_causal_at h) ++
  [("score", score_dump (hy_score h)); ("confidence", JStr (confidence_text (hy_confidence h)));
   ("supportingEvidence", JArr (citation_dump <$> hy_supporting_evidence h));
   ("contradictions", JArr (contradiction_dump <$> hy_contradictions h));
   ("missingEvidence", JArr (missing_dump <$> hy_missing_evidence h))] ++
  opt_member "omittedCandidateCount" (JInt <$> hy_omitted_candidate_count h) ++
  opt_text "omittedCandidateDigest" (hy_omitted_candidate_digest h) ++
  [("gates", JArr (gate_dump <$> hy_gates h)); ("caps", JArr (cap_dump <$> hy_caps h));
   ("hypothesisDigest", JStr (hy_hypothesis_digest h))].
Definition hypothesis_dump (h : RootCauseHypothesis) : json := JObj (hypothesis_members h).

Definition report_members (r : CorrelationReport) : list (string * json) := [
  ("schemaVersion", JStr "athena.wc026CorrelationReport.v1");
  ("reportId", JStr (rp_report_id r));
  ("algorithmId", JStr correlation_algorithm_id);
  ("ruleCatalogDigest", JStr (rp_rule_catalog_digest r));
  ("asOf", instant_json (rp_as_of r));
  ("bindingMode", JStr (if rp_published_runtime r then "publishedRuntime" else "draftPreview"));
  ("contextBindingDigest", JStr (rp_context_binding_digest r));
  ("inputInventoryDigest", JStr (rp_input_inventory_digest r));
  ("requestDigest", JStr (rp_request_digest r));
  ("transitionDigest", JStr (rp_transition_digest r));
  ("incidentAnchorObservedStart", instant_json (rp_incident_anchor_observed_start r));
  ("incidentAnchorObservedEnd", instant_json (rp_incident_anchor_observed_end r));
  ("hypotheses", JArr (hypothesis_dump <$> rp_hypotheses r));
  ("previewOnly", JBool (rp_preview_only r));
  ("noAutoRemediation", JBool true);
  ("reportDigest", JStr (rp_report_digest r))].

(** ** Validators *)

(** CorrelationScoreComponents.validate_sum *)
Definition make_score (s : CorrelationScoreComponents) : result CorrelationScoreComponents := validated (
  let within hi x := (0 <=? x) && (x <=? hi) in
  _ ← field "score" (within 25 (sc_topology s) && within 20 (sc_temporal s) && within 20 (sc_semantic s) &&
        within 25 (sc_corroboration s) && within 10 (sc_recovery s) && within 100 (sc_raw_score s));
  _ ← guard_or (value_error "rawScore must equal the component score sum")
        (sc_raw_score s =? sc_topology s + sc_temporal s + sc_semantic s + sc_corroboration s + sc_recovery s);
  Ok s).

(** CorrelationGate.validate_evidence_ids *)
Definition make_gate (g : CorrelationGate) : result CorrelationGate := validated (
  _ ← field "evidenceIds" (list_between 0 64 (ga_evidence_ids g));
  _ ← require_sorted_unique (ga_evidence_ids g) "evidenceIds"; Ok g).

(** CorrelationContradiction.validate_evidence_ids, validate_hard_conflict *)
Definition make_contradiction (c : CorrelationContradiction) : result CorrelationContradiction := validated (
  _ ← field "detail" (length_between 1 1000 (cn_detail c));
  _ ← field "evidenceIds" (list_between 1 64 (cn_evidence_ids c));
  _ ← require_sorted_unique (cn_evidence_ids c) "evidenceIds";
  _ ← guard_or (value_error "hardConflict must be derived from contradiction code")
        (Bool.eqb (cn_hard_conflict c) (is_hard_contradiction (cn_code c)));
  Ok c).

(** MissingCorrelationEvidence *)
Definition make_missing (m : MissingCorrelationEvidence) : result MissingCorrelationEvidence := validated (
  _ ← field "detail" (length_between 1 1000 (me_detail m)); Ok m).

(** The keys by which contradictions and missing evidence are ordered; [False] comes before [True]. *)
Definition contradiction_key (c : CorrelationContradiction) : string * (list string * (string * Z)) :=
  (contradiction_text (cn_code c), (cn_evidence_ids c, (cn_detail c, if cn_hard_conflict c then 1 else 0))).
Definition missing_key (m : MissingCorrelationEvidence) : string * (string * (string * string)) :=
  (missing_text (me_code m), (family_text (me_family m), (me_detail m, confidence_text (me_required_for_confidence m)))).

(** [keys == tuple(sorted(keys))] without repetition *)
Definition ordered_keys {K} `{SortKey K, EqDecision K} (keys : list K) : bool :=
  bool_decide (keys = sort_by id keys) && unique keys.

(** An omission record is one unknown hypothesis without evidence. *)
Definition check_omission (h : RootCauseHypothesis) : result unit :=
  let has_omission := present (hy_omitted_candidate_count h) in
  let omitted := existsb (fun m => bool_decide (me_code m = MissOmittedCandidates)) (hy_missing_evidence h) in
  _ ← guard_or (value_error "omitted candidate count and digest must be supplied together")
        (Bool.eqb has_omission (present (hy_omitted_candidate_digest h)));
  _ ← raise_if (value_error "omitted candidates require one bounded unknown hypothesis")
        (has_omission &&
         negb (bool_decide (hy_category h = RcUnknown) && bool_decide (hy_confidence h = CfUnknown) &&
               negb (present (hy_cause_resource_id h)) && negb (present (hy_affected_path_id h)) &&
               negb (present (hy_candidate_causal_at h)) && bool_decide (hy_supporting_evidence h = []) && omitted));
  raise_if (value_error "omittedCandidates requires structural count and digest") (negb has_omission && omitted).

(** [min(_CONFIDENCE_RANK[...] for item in caps)] *)
Definition strongest_cap (d : Z) (caps : list ConfidenceCap) : Z :=
  minimum d ((fun c => confidence_rank (cc_maximum_confidence c)) <$> caps).

(** The confidence is supported by the score, allowed by the caps and free of hard conflicts. *)
Definition check_confidence (h : RootCauseHypothesis) : result unit :=
  let confirmed := bool_decide (hy_confidence h = CfConfirmed) in
  _ ← raise_if (value_error "hard conflicts require Unknown confidence")
        (existsb cn_hard_conflict (hy_contradictions h) && negb (bool_decide (hy_confidence h = CfUnknown)));
  _ ← raise_if (value_error "rawScore is below the declared confidence threshold")
        (sc_raw_score (hy_score h) <? confidence_threshold (hy_confidence h));
  _ ← raise_if (value_error "confidence exceeds a declared cap")
        (negb (bool_decide (hy_caps h = [])) && (strongest_cap 0 (hy_caps h) <? confidence_rank (hy_confidence h)));
  _ ← raise_if (value_error "Confirmed confidence requires every declared gate")
        (confirmed && negb (negb (bool_decide (hy_gates h = [])) && forallb ga_satisfied (hy_gates h)));
  _ ← raise_if (value_error "Confirmed confidence requires supporting evidence")
        (confirmed && bool_decide (hy_supporting_evidence h = []));
  raise_if (value_error "Confirmed network security cause requires the complete gate set")
    (confirmed && bool_decide (hy_category h = RcNetworkSecurityChange) &&
     negb (forallb (fun c => bool_decide (c ∈ NETWORK_SECURITY_CONFIRMED_GATES)) (ga_code <$> hy_gates h) &&
           forallb (fun c => bool_decide (c ∈ ga_code <$> hy_gates h)) NETWORK_SECURITY_CONFIRMED_GATES)).

(** RootCauseHypothesis.validate_hypothesis *)
Definition validate_hypothesis (h : RootCauseHypothesis) : result unit :=
  _ ← check_omission h;
  _ ← guard_or (value_error "supportingEvidence must have unique deterministic evidence IDs")
        (sorted_unique (ci_evidence_id <$> hy_supporting_evidence h));
  _ ← guard_or (value_error "gates must have unique deterministic codes") (sorted_unique ((fun g => gate_text (ga_code g)) <$> hy_gates h));
  _ ← guard_or (value_error "caps must have unique deterministic codes") (sorted_unique ((fun c => cap_text (cc_code c)) <$> hy_caps h));
  _ ← guard_or (value_error "contradictions must be deterministically ordered") (ordered_keys (contradiction_key <$> hy_contradictions h));
  _ ← guard_or (value_error "missingEvidence must be deterministically ordered") (ordered_keys (missing_key <$> hy_missing_evidence h));
  _ ← check_confidence h;
  expected ← expected_digest (hypothesis_members h) ["rank"; "hypothesisId"; "hypothesisDigest"];
  _ ← guard_or (value_error "hypothesisDigest does not bind the hypothesis") (String.eqb (hy_hypothesis_digest h) expected);
  require_bound_identifier (hy_hypothesis_id h) "hyp" expected.

(** RootCauseHypothesis: the fields, whose models are already validated, and the validator *)
Definition make_hypothesis_model (h : RootCauseHypothesis) : result RootCauseHypothesis := validated (
  _ ← field "rank" ((1 <=? hy_rank h) && (hy_rank h <=? CORRELATION_MAX_HYPOTHESES));
  _ ← optional_field "causeResourceId" (length_between 1 2048) (hy_cause_resource_id h);
  cause ← match hy_cause_resource_id h with Some c => Some <$> canonical_resource_id c | None => Ok None end;
  _ ← optional_field "affectedPathId" (length_between 1 128) (hy_affected_path_id h);
  _ ← field "supportingEvidence" (list_between 0 128 (hy_supporting_evidence h));
  _ ← field "contradictions" (list_between 0 64 (hy_contradictions h));
  _ ← field "missingEvidence" (list_between 0 64 (hy_missing_evidence h));
  _ ← when_present (fun n => field "omittedCandidateCount" ((1 <=? n) && (n <=? CORRELATION_MAX_CANDIDATE_HYPOTHESES)))
        (hy_omitted_candidate_count h);
  _ ← optional_field "omittedCandidateDigest" is_digest (hy_omitted_candidate_digest h);
  _ ← field "gates" (list_between 0 32 (hy_gates h));
  _ ← field "caps" (list_between 0 16 (hy_caps h));
  _ ← field "hypothesisDigest" (is_digest (hy_hypothesis_digest h));
  _ ← check_instants (option_list (hy_candidate_causal_at h));
  let h := {| hy_hypothesis_id := hy_hypothesis_id h; hy_rank := hy_rank h; hy_category := hy_category h; hy_cause_resource_id := cause;
              hy_affected_path_id := hy_affected_path_id h; hy_candidate_causal_at := hy_candidate_causal_at h; hy_score := hy_score h;
              hy_confidence := hy_confidence h; hy_supporting_evidence := hy_supporting_evidence h;
              hy_contradictions := hy_contradictions h; hy_missing_evidence := hy_missing_evidence h;
              hy_omitted_candidate_count := hy_omitted_candidate_count h; hy_omitted_candidate_digest := hy_omitted_candidate_digest h;
              hy_gates := hy_gates h; hy_caps := hy_caps h; hy_hypothesis_digest := hy_hypothesis_digest h |} in
  _ ← validate_hypothesis h; Ok h).

(** CorrelationReport.validate_report; the report's hypotheses are already validated *)
Definition validate_report (r : CorrelationReport) : result unit :=
  let hs := rp_hypotheses r in
  let omissions := select (fun h => present (hy_omitted_candidate_count h)) hs in
  _ ← require_interval (rp_incident_anchor_observed_start r) (rp_incident_anchor_observed_end r);
  _ ← guard_or (value_error "previewOnly must match the report binding mode")
        (Bool.eqb (rp_preview_only r) (negb (rp_published_runtime r)));
  _ ← guard_or (value_error "hypotheses must use contiguous deterministic ranks")
        (bool_decide (hy_rank <$> hs = seqZ 1 (Z.of_nat (length hs))));
  _ ← guard_or (value_error "duplicate hypothesis IDs are not permitted") (unique (hy_hypothesis_id <$> hs));
  _ ← guard_or (value_error "one omission hypothesis is permitted only at the final rank")
        (match omissions with
         | [] => true
         | [o] => (2 <=? Z.of_nat (length hs)) && (hy_rank o =? Z.of_nat (length hs))
         | _ => false
         end);
  _ ← raise_if (value_error "candidate causal time must not follow the incident degradation")
        (existsb (fun h => match hy_candidate_causal_at h with
                           | Some t => rp_incident_anchor_observed_start r <? t | None => false end) hs);
  expected ← expected_digest (report_members r) ["reportId"; "reportDigest"];
  _ ← guard_or (value_error "reportDigest does not bind the correlation report") (String.eqb (rp_report_digest r) expected);
  _ ← require_bound_identifier (rp_report_id r) "report" expected;
  bytes ← canonical_bytes (JObj (report_members r));
  raise_if (value_error "correlation report exceeds its canonical byte budget")
    (CORRELATION_MAX_CANONICAL_BYTES <? Z.of_nat (String.length bytes)).

(** CorrelationReport *)
Definition make_report (r : CorrelationReport) : result CorrelationReport := validated (
  _ ← field "digests" (forallb is_digest [rp_rule_catalog_digest r; rp_context_binding_digest r; rp_input_inventory_digest r;
        rp_request_digest r; rp_transition_digest r; rp_report_digest r]);
  _ ← field "hypotheses" (list_between 1 CORRELATION_MAX_HYPOTHESES (rp_hypotheses r));
  _ ← check_instants [rp_as_of r; rp_incident_anchor_observed_start r; rp_incident_anchor_observed_end r];
  _ ← validate_report r; Ok r).

(** ** The binding of a report to its request *)

(** _flow_coverage_matches *)
Definition flow_coverage_matches (c : EvidenceCoverage) (f : NetworkFlowObservation) (affected_path_id : option string)
    (incident_start incident_end : Z) : bool :=
  let scope := co_scope c in
  let t := fl_tuple f in
  let b := fl_base f in
  bool_decide (co_family c = FamNetworkFlow) && bool_decide (co_status c = CovComplete) &&
  bool_decide (affected_path_id = es_path_id scope) && bool_decide (es_path_id scope = Some (nt_path_id t)) &&
  bool_decide (es_direction scope = Some (nt_direction t)) && bool_decide (es_five_tuple_digest scope = Some (nt_five_tuple_digest t)) &&
  subset (observation_resource_ids (FlowObs f)) (es_resource_ids scope) &&
  (co_coverage_start c <=? incident_start) && (incident_end <=? co_coverage_end c) &&
  (co_coverage_start c <=? mo_observed_start b) && (mo_observed_end b <=? co_coverage_end c) &&
  intervals_overlap (mo_observed_start b) (mo_observed_end b) incident_start incident_end.

(** _monitor_coverage_matches *)
Definition monitor_coverage_matches (c : EvidenceCoverage) (m : ConnectionMonitorObservation) (affected_path_id : option string)
    (incident_start incident_end : Z) : bool :=
  let scope := co_scope c in
  let t := cm_tuple m in
  let b := cm_base m in
  bool_decide (co_family c = FamConnectionMonitor) && bool_decide (co_status c = CovComplete) &&
  bool_decide (affected_path_id = es_path_id scope) && bool_decide (es_path_id scope = Some (nt_path_id t)) &&
  bool_decide (es_endpoint_test_reference scope = Some (cm_test_configuration_reference m)) &&
  bool_decide (es_endpoint_test_digest scope = Some (cm_test_configuration_digest m)) &&
  bool_decide (es_direction scope = Some (nt_direction t)) && bool_decide (es_five_tuple_digest scope = Some (nt_five_tuple_digest t)) &&
  subset [mo_subject_resource_id b; nt_source_resource_id t; nt_destination_resource_id t] (es_resource_ids scope) &&
  (co_coverage_start c <=? incident_start) && (incident_end <=? co_coverage_end c) &&
  (co_coverage_start c <=? mo_observed_start b) && (mo_observed_end b <=? co_coverage_end c) &&
  intervals_overlap (mo_observed_start b) (mo_observed_end b) incident_start incident_end.

(** The ten fields of the network tuple that _same_flow and _same_monitor compare *)
Definition same_tuple (first second : NetworkTuple) : bool :=
  String.eqb (nt_path_id first) (nt_path_id second) &&
  bool_decide (nt_direction first = nt_direction second) &&
  String.eqb (nt_five_tuple_digest first) (nt_five_tuple_digest second) &&
  String.eqb (nt_source_resource_id first) (nt_source_resource_id second) &&
  String.eqb (nt_destination_resource_id first) (nt_destination_resource_id second) &&
  String.eqb (nt_source_address first) (nt_source_address second) &&
  String.eqb (nt_destination_address first) (nt_destination_address second) &&
  bool_decide (nt_protocol first = nt_protocol second) &&
  bool_decide (nt_source_port first = nt_source_port second) &&
  bool_decide (nt_destination_port first = nt_destination_port second).

(** _same_flow *)
Definition same_flow (first second : NetworkFlowObservation) : bool :=
  same_tuple (fl_tuple first) (fl_tuple second) &&
  String.eqb (fl_enforcement_resource_id first) (fl_enforcement_resource_id second) &&
  bool_decide (fl_rule_resource_id first = fl_rule_resource_id second).

(** _same_monitor *)
Definition same_monitor (first second : ConnectionMonitorObservation) : bool :=
  same_tuple (cm_tuple first) (cm_tuple second) &&
  String.eqb (cm_test_configuration_reference first) (cm_test_configuration_reference second) &&
  String.eqb (cm_test_configuration_digest first) (cm_test_configuration_digest second).

(** The indices of the request by evidence id and by path id *)
Definition evidence_by_id (r : CorrelationRequest) : gmap string CorrelationEvidenceCitation := dict_by ci_evidence_id (rq_evidence_index r).
Definition observation_by_id (r : CorrelationRequest) : gmap string MonitoringObservation := dict_by ob_id (observations r).
Definition coverage_by_id (r : CorrelationRequest) : gmap string EvidenceCoverage := dict_by co_coverage_id (mb_coverage (rq_monitoring_bundle r)).
Definition artifact_by_id (r : CorrelationRequest) : gmap string ChangeEvidenceArtifact :=
  dict_by (fun a => ch_evidence_id (art_evidence a)) (rq_change_artifacts r).
Definition path_by_id (r : CorrelationRequest) : gmap string DependencyPath := dict_by dp_path_id (dependency_paths r).

Definition incident_start (r : CorrelationRequest) : Z := it_observed_start (rq_incident_anchor r).
Definition incident_end (r : CorrelationRequest) : Z := it_observed_end (rq_incident_anchor r).
Definition affected_resource (r : CorrelationRequest) : string := it_affected_resource_id (rq_incident_anchor r).

(** [_intervals_overlap] with the incident *)
Definition during_incident (r : CorrelationRequest) (start stop : Z) : bool :=
  intervals_overlap start stop (incident_start r) (incident_end r).
Definition observed_during (r : CorrelationRequest) (b : ObservationBase) : bool :=
  during_incident r (mo_observed_start b) (mo_observed_end b).

(** [{"degraded", "unhealthy", "unavailable"}] *)
Definition is_degraded (s : HealthState) : bool := bool_decide (s ∈ [HsDegraded; HsUnhealthy; HsUnavailable]).

(** [{item.code: item for item in gates}.get(code)], and when it is satisfied *)
Definition find_gate (h : RootCauseHypothesis) (code : CorrelationGateCode) : option CorrelationGate :=
  List.find (fun g => bool_decide (ga_code g = code)) (rev (hy_gates h)).
Definition satisfied_gate (h : RootCauseHypothesis) (code : CorrelationGateCode) : option CorrelationGate :=
  match find_gate h code with Some g => if ga_satisfied g then Some g else None | None => None end.
Definition gate_ids (h : RootCauseHypothesis) (code : CorrelationGateCode) : list string :=
  match satisfied_gate h code with Some g => ga_evidence_ids g | None => [] end.

Definition observations_of (r : CorrelationRequest) (ids : list string) : list MonitoringObservation :=
  omap (fun i => observation_by_id r !! i) ids.
Definition flows_of (r : CorrelationRequest) (ids : list string) : list NetworkFlowObservation :=
  omap (fun o => match o with FlowObs f => Some f | _ => None end) (observations_of r ids).
Definition monitors_of (r : CorrelationRequest) (ids : list string) : list ConnectionMonitorObservation :=
  omap (fun o => match o with MonitorObs m => Some m | _ => None end) (observations_of r ids).
Definition endpoints_of (r : CorrelationRequest) (ids : list string) : list EndpointHealthObservation :=
  omap (fun o => match o with EndpointObs e => Some e | _ => None end) (observations_of r ids).
Definition changes_of (r : CorrelationRequest) (ids : list string) : list NormalizedChangeEvidence :=
  omap (fun i => art_evidence <$> artifact_by_id r !! i) ids.

(** [cause is None or change.target_resource_id == cause] *)
Definition matches_cause (h : RootCauseHypothesis) (c : NormalizedChangeEvidence) : bool :=
  match hy_cause_resource_id h with Some cause => String.eqb (ch_target_resource_id c) cause | None => true end.

Definition on_affected_path (h : RootCauseHypothesis) (path_id : string) : bool :=
  bool_decide (hy_affected_path_id h = Some path_id).

(** A denied flow that is attributed to the cause on the affected path during the incident *)
Definition attributed_flow (r : CorrelationRequest) (h : RootCauseHypothesis) (f : NetworkFlowObservation) : bool :=
  fl_effective_rule_attribution f && present (fl_rule_resource_id f) && bool_decide (fl_rule_resource_id f = hy_cause_resource_id h) &&
  on_affected_path h (nt_path_id (fl_tuple f)) && observed_during r (fl_base f).
Definition exact_matching_flow (r : CorrelationRequest) (h : RootCauseHypothesis) (f : NetworkFlowObservation) : bool :=
  fl_effective_rule_attribution f && bool_decide (fl_decision f = FlowDenied) &&
  bool_decide (fl_rule_resource_id f = hy_cause_resource_id h) &&
  on_affected_path h (nt_path_id (fl_tuple f)) && observed_during r (fl_base f).

(** Monitoring evidence that cannot corroborate the hypothesis *)
Definition irrelevant_corroboration (r : CorrelationRequest) (h : RootCauseHypothesis) (path : DependencyPath)
    (c : CorrelationEvidenceCitation) : bool :=
  match artifact_by_id r !! ci_evidence_id c, observation_by_id r !! ci_evidence_id c with
  | Some a, _ =>
      negb (bool_decide (hy_cause_resource_id h = Some (ch_target_resource_id (art_evidence a)))) ||
      (incident_start r <? ch_occurred_at (art_evidence a))
  | None, Some o =>
      (bool_decide (hy_category h = RcNetworkSecurityChange) &&
       match o with
       | FlowObs f => negb (bool_decide (fl_decision f = FlowDenied))
       | MonitorObs m => negb (bool_decide (cm_status m ∈ [MonitorFailed; MonitorDegraded]))
       | EndpointObs e => negb (is_degraded (eh_status e))
       | GuestObs _ | PlatformObs _ => true
       end) ||
      negb (existsb (fun i => bool_decide (i ∈ dp_resource_ids path)) (ci_resource_ids c)) ||
      negb (during_incident r (ci_observed_start c) (ci_observed_end c)) ||
      match ob_path_id o with Some p => negb (on_affected_path h p) | None => false end
  | None, None => false
  end.

(** [len({...}) >= n] *)
Definition distinct_at_least {A} `{EqDecision A} (n : nat) (l : list A) : bool := (n <=? length (remove_dups l))%nat.

(** What the evidence of a satisfied gate must show *)
Definition gate_evidenced (r : CorrelationRequest) (h : RootCauseHypothesis) (path : option DependencyPath) (g : CorrelationGate) : bool :=
  let ids := ga_evidence_ids g in
  let citations := omap (fun i => evidence_by_id r !! i) ids in
  let changes := changes_of r ids in
  match ga_code g with
  | GateAffectedPath =>
      match path with
      | Some p =>
          let path_ids := omap ob_path_id (observations_of r ids) in
          negb (bool_decide (citations = [])) && negb (bool_decide (path_ids = [])) && forallb (on_affected_path h) path_ids &&
          existsb (fun c => subset (ci_resource_ids c) (dp_resource_ids p)) citations
      | None => false
      end
  | GateSuccessfulChange =>
      negb (match changes with [] => true | _ => false end) &&
      forallb (fun c => bool_decide (ch_result c = ChangeSucceeded) && matches_cause h c) changes
  | GateSemanticMatch =>
      negb (match changes with [] => true | _ => false end) &&
      forallb (fun c => negb (match ch_changed_properties c with [] => true | _ => false end)) changes &&
      (negb (bool_decide (hy_category h = RcNetworkSecurityChange)) ||
       forallb (fun c => existsb (fun p => is_nsg_causal_property (cp_path p)) (ch_changed_properties c)) changes)
  | GateEffectiveRuleAttribution => existsb (attributed_flow r h) (flows_of r ids)
  | GateMatchingDeniedFlow =>
      existsb (fun f => bool_decide (fl_decision f = FlowDenied) && on_affected_path h (nt_path_id (fl_tuple f)) &&
                        observed_during r (fl_base f)) (flows_of r ids)
  | GateConnectionMonitorFailure =>
      existsb (fun m => bool_decide (cm_status m = MonitorFailed) && on_affected_path h (nt_path_id (cm_tuple m)) &&
                        observed_during r (cm_base m)) (monitors_of r ids)
  | GateEndpointDegradation =>
      existsb (fun e => is_degraded (eh_status e) && on_affected_path h (eh_path_id e) && observed_during r (eh_base e))
        (endpoints_of r ids)
  | GateIndependentCorroboration =>
      match path with
      | Some p =>
          let monitoring := select (fun c => negb (present (coverage_by_id r !! ci_evidence_id c)) &&
                                             negb (bool_decide (ci_family c = FamResourceChange))) citations in
          distinct_at_least 2 (ci_family <$> monitoring) && distinct_at_least 2 (ci_provenance_root_digest <$> monitoring) &&
          negb (existsb (irrelevant_corroboration r h p) monitoring)
      | None => false
      end
  | GateCorrectChronology =>
      match ids, changes, hy_candidate_causal_at h with
      | [_], [c], Some t => (ch_occurred_at c <=? incident_start r) && (ch_occurred_at c =? t) && matches_cause h c
      | _, _, _ => false
      end
  | GateRecoveryEvidence =>
      existsb (fun o => match o with
        | GuestObs g => bool_decide (gs_state g = HsRecovered)
        | EndpointObs e => bool_decide (eh_status e = HsRecovered)
        | _ => false
        end) (observations_of r ids)
  | GateNoHardConflict => true
  end.

(** The path, citations and gates of a hypothesis refer to the request. *)
Definition check_references (r : CorrelationRequest) (h : RootCauseHypothesis) : result unit :=
  _ ← raise_if (ValueError "correlation report references an unknown dependency path")
        (match hy_affected_path_id h with Some p => negb (present (path_by_id r !! p)) | None => false end);
  _ ← guard_or (ValueError "correlation report cites evidence outside the verified request")
        (forallb (fun c => bool_decide (evidence_by_id r !! ci_evidence_id c = Some c)) (hy_supporting_evidence h));
  _ ← guard_or (ValueError "correlation report references unknown gate or contradiction evidence")
        (forallb (fun i => present (evidence_by_id r !! i))
          (mjoin (ga_evidence_ids <$> hy_gates h) ++ mjoin (cn_evidence_ids <$> hy_contradictions h)));
  _ ← raise_if (ValueError "noHardConflict gate contradicts the reported hard conflicts")
        (present (satisfied_gate h GateNoHardConflict) && existsb cn_hard_conflict (hy_contradictions h));
  raise_if (ValueError "satisfied causal gates require cited evidence")
    (existsb (fun g => ga_satisfied g && negb (bool_decide (ga_code g = GateNoHardConflict)) && bool_decide (ga_evidence_ids g = []))
      (hy_gates h)).

(** The affected path contains the incident's resource and every satisfied gate is evidenced. *)
Definition check_gates (r : CorrelationRequest) (h : RootCauseHypothesis) : result unit :=
  let path := hy_affected_path_id h ≫= (path_by_id r !!.) in
  _ ← raise_if (ValueError "affected path does not contain the incident resource")
        (match path with Some p => negb (bool_decide (affected_resource r ∈ dp_resource_ids p)) | None => false end);
  _ ← guard_or (ValueError "a satisfied gate requires its evidence")
        (forallb (gate_evidenced r h path) (select ga_satisfied (hy_gates h)));
  _ ← raise_if (ValueError "network security attribution and denial must use one exact flow")
        (bool_decide (hy_category h = RcNetworkSecurityChange) &&
         present (satisfied_gate h GateEffectiveRuleAttribution) && present (satisfied_gate h GateMatchingDeniedFlow) &&
         negb (existsb (exact_matching_flow r h)
                 (flows_of r (select (fun i => bool_decide (i ∈ gate_ids h GateMatchingDeniedFlow)) (gate_ids h GateEffectiveRuleAttribution)))));
  raise_if (ValueError "missing evidence blocks the declared confidence")
    (existsb (fun m => confidence_rank (me_required_for_confidence m) <=? confidence_rank (hy_confidence h)) (hy_missing_evidence h)).

(** require_cap *)
Definition require_cap (h : RootCauseHypothesis) (code : ConfidenceCapCode) : result unit :=
  guard_or (ValueError "correlation hypothesis requires a confidence cap")
    (match List.find (fun c => bool_decide (cc_code c = code)) (rev (hy_caps h)) with
     | Some c => confidence_rank (cc_maximum_confidence c) <=? confidence_rank (required_cap code)
     | None => false
     end).
Definition require_cap_if (b : bool) (h : RootCauseHypothesis) (code : ConfidenceCapCode) : result unit :=
  if b then require_cap h code else Ok tt.

(** What is missing must be capped. *)
Definition check_required_caps (r : CorrelationRequest) (h : RootCauseHypothesis) : result unit :=
  let substantive := select (fun c => negb (present (coverage_by_id r !! ci_evidence_id c))) (hy_supporting_evidence h) in
  _ ← require_cap_if (negb (bool_decide (substantive = [])) && forallb (fun c => bool_decide (ci_family c = FamResourceChange)) substantive)
        h CapRecentChangeOnly;
  _ ← require_cap_if (negb (present (hy_affected_path_id h)) || negb (present (satisfied_gate h GateAffectedPath))) h CapMissingAffectedPath;
  _ ← require_cap_if (negb (present (satisfied_gate h GateIndependentCorroboration))) h CapMissingIndependentSupport;
  require_cap_if (bool_decide (hy_category h = RcNetworkSecurityChange) && negb (present (satisfied_gate h GateEffectiveRuleAttribution)))
    h CapMissingDirectAttribution.

(** The one change that the change gates of a network security hypothesis cite *)
Definition cited_change (r : CorrelationRequest) (h : RootCauseHypothesis) : option ChangeEvidenceArtifact :=
  match gate_ids h GateSuccessfulChange with
  | [i] =>
      if bool_decide ([i] = gate_ids h GateSemanticMatch) && bool_decide ([i] = gate_ids h GateCorrectChronology)
      then artifact_by_id r !! i else None
  | _ => None
  end.

(** The change is a successful, causal change of the cause before the incident. *)
Definition causal_change (r : CorrelationRequest) (h : RootCauseHypothesis) (c : NormalizedChangeEvidence) : bool :=
  bool_decide (ch_result c = ChangeSucceeded) && bool_decide (hy_cause_resource_id h = Some (ch_target_resource_id c)) &&
  String.eqb (casefold (ch_target_resource_type c)) nsg_rule_type &&
  existsb (fun p => is_nsg_causal_property (cp_path p)) (ch_changed_properties c) &&
  bool_decide (hy_candidate_causal_at h = Some (ch_occurred_at c)) && (ch_occurred_at c <=? incident_start r).

(** The flow names the change, its artifact and properties it changed. *)
Definition flow_names_change (f : NetworkFlowObservation) (c : NormalizedChangeEvidence) (digest : string) : bool :=
  bool_decide (fl_matched_change_evidence_id f = Some (ch_evidence_id c)) &&
  bool_decide (fl_matched_change_key f = Some (ch_change_key c)) &&
  bool_decide (fl_matched_change_artifact_digest f = Some digest) &&
  subset (fl_matched_property_paths f) (cp_path <$> ch_changed_properties c).

(** The flows both the attribution gate and the denied-flow gate cite *)
Definition attributed_denied_flows (r : CorrelationRequest) (h : RootCauseHypothesis) : list NetworkFlowObservation :=
  flows_of r (select (fun i => bool_decide (i ∈ gate_ids h GateMatchingDeniedFlow)) (gate_ids h GateEffectiveRuleAttribution)).

(** High confidence in a network security change requires its gates and one causal change. *)
Definition check_high_network_security (r : CorrelationRequest) (h : RootCauseHypothesis) : result unit :=
  if bool_decide (hy_category h = RcNetworkSecurityChange) && (confidence_rank CfHigh <=? confidence_rank (hy_confidence h)) then
    _ ← guard_or (ValueError "High network security confidence requires its gates")
          (forallb (fun code => present (satisfied_gate h code))
            [GateAffectedPath; GateMatchingDeniedFlow; GateIndependentCorroboration; GateSuccessfulChange; GateSemanticMatch; GateCorrectChronology]);
    match cited_change r h with
    | None => Raise (ValueError "High network security confidence requires one exact change artifact")
    | Some a =>
        digest ← artifact_digest a;
        _ ← guard_or (ValueError "High network security confidence requires one causal pre-incident change")
              (causal_change r h (art_evidence a));
        guard_or (ValueError "High network security attribution must bind the selected change")
          (negb (present (satisfied_gate h GateEffectiveRuleAttribution)) ||
           existsb (fun f => exact_matching_flow r h f && flow_names_change f (art_evidence a) digest) (attributed_denied_flows r h))
    end
  else Ok tt.

(** Observations cited before the causal change make the window ambiguous. *)
Definition check_chronology_window (r : CorrelationRequest) (h : RootCauseHypothesis) : result unit :=
  match changes_of r (gate_ids h GateCorrectChronology) with
  | c :: _ =>
      require_cap_if
        (existsb (fun o => ob_start o <? ch_occurred_at c)
          (observations_of r (mjoin (ga_evidence_ids <$> select ga_satisfied (hy_gates h)))))
        h CapAmbiguousObservationWindow
  | [] => Ok tt
  end.

(** claimed_flows, claimed_failed_tests *)
Definition claimed_flows (r : CorrelationRequest) (h : RootCauseHypothesis) : list NetworkFlowObservation :=
  select (fun f => observed_during r (fl_base f)) (flows_of r (gate_ids h GateMatchingDeniedFlow)).
Definition claimed_failed_tests (r : CorrelationRequest) (h : RootCauseHypothesis) : list ConnectionMonitorObservation :=
  select (fun m => bool_decide (cm_status m = MonitorFailed) && on_affected_path h (nt_path_id (cm_tuple m)) && observed_during r (cm_base m))
    (monitors_of r (gate_ids h GateConnectionMonitorFailure)).

(** The changes the hypothesis rests on *)
Definition candidate_changes (r : CorrelationRequest) (h : RootCauseHypothesis) : list NormalizedChangeEvidence :=
  select (matches_cause h)
    (changes_of r (ci_evidence_id <$> select (fun c => bool_decide (ci_family c = FamResourceChange)) (hy_supporting_evidence h))) ++
  changes_of r (omap fl_matched_change_evidence_id (claimed_flows r h)).

Definition flow_covered (r : CorrelationRequest) (h : RootCauseHypothesis) (f : NetworkFlowObservation) (c : EvidenceCoverage) : bool :=
  flow_coverage_matches c f (hy_affected_path_id h) (incident_start r) (incident_end r).
Definition monitor_covered (r : CorrelationRequest) (h : RootCauseHypothesis) (m : ConnectionMonitorObservation) (c : EvidenceCoverage) : bool :=
  monitor_coverage_matches c m (hy_affected_path_id h) (incident_start r) (incident_end r).

(** An allowed flow, or a healthy test, of what the hypothesis claims failed *)
Definition refuting_flow (r : CorrelationRequest) (h : RootCauseHypothesis) (f : NetworkFlowObservation) : bool :=
  bool_decide (fl_decision f = FlowAllowed) && existsb (same_flow f) (claimed_flows r h).
Definition refuting_test (r : CorrelationRequest) (h : RootCauseHypothesis) (m : ConnectionMonitorObservation) : bool :=
  bool_decide (cm_status m = MonitorSucceeded) && existsb (same_monitor m) (claimed_failed_tests r h).

(** mandatory_hard_conflicts *)
Definition mandatory_hard_conflicts (r : CorrelationRequest) (h : RootCauseHypothesis) : list ContradictionCode :=
  let coverage := mb_coverage (rq_monitoring_bundle r) in
  let changes := candidate_changes r h in
  let code c (b : bool) := if b then [c] else [] in
  code ContraChangeFailed (existsb (fun c => bool_decide (ch_result c = ChangeFailedResult)) changes) ++
  code ContraChangeAfterDegradation (existsb (fun c => incident_start r <? ch_occurred_at c) changes) ++
  code ContraCompleteAllowedFlow (existsb (fun o => match o with
    | FlowObs f => refuting_flow r h f && existsb (flow_covered r h f) coverage | _ => false end) (observations r)) ++
  code ContraCompleteHealthyConnectionMonitor (existsb (fun o => match o with
    | MonitorObs m => refuting_test r h m && existsb (monitor_covered r h m) coverage | _ => false end) (observations r)).

(** What the evidence of a contradiction must show *)
Definition contradiction_evidenced (r : CorrelationRequest) (h : RootCauseHypothesis) (c : CorrelationContradiction) : bool :=
  let ids := cn_evidence_ids c in
  let changes := changes_of r ids in
  let coverage := omap (fun i => coverage_by_id r !! i) ids in
  match cn_code c with
  | ContraChangeFailed =>
      negb (match changes with [] => true | _ => false end) &&
      forallb (fun x => bool_decide (ch_result x = ChangeFailedResult) && matches_cause h x) changes
  | ContraChangeAfterDegradation =>
      negb (match changes with [] => true | _ => false end) &&
      forallb (fun x => (incident_start r <? ch_occurred_at x) && matches_cause h x) changes
  | ContraCompleteAllowedFlow =>
      existsb (fun cov => existsb (fun f => refuting_flow r h f && flow_covered r h f cov) (flows_of r ids)) coverage
  | ContraCompleteHealthyConnectionMonitor =>
      existsb (fun cov => existsb (fun m => refuting_test r h m && monitor_covered r h m cov) (monitors_of r ids)) coverage
  | ContraRecoveryBeforeCorrection =>
      let succeeded := select (fun x => bool_decide (ch_result x = ChangeSucceeded)) changes in
      existsb (fun o => match o with
        | GuestObs g => bool_decide (gs_state g = HsRecovered)
        | EndpointObs e => bool_decide (eh_status e = HsRecovered)
        | _ => false
        end && existsb (fun x => ob_end o <? ch_occurred_at x) succeeded) (observations_of r ids)
  | ContraCompetingCause => true
  end.

(** Hard conflicts the evidence shows are declared, and declared ones are evidenced. *)
Definition check_hard_conflicts (r : CorrelationRequest) (h : RootCauseHypothesis) : result unit :=
  let mandatory := mandatory_hard_conflicts r h in
  _ ← guard_or (ValueError "correlation hypothesis omits mandatory hard-conflict evidence")
        (forallb (fun code => bool_decide (code ∈ cn_code <$> hy_contradictions h)) mandatory);
  _ ← raise_if (ValueError "noHardConflict gate contradicts derived hard-conflict evidence")
        (present (satisfied_gate h GateNoHardConflict) && negb (bool_decide (mandatory = [])));
  guard_or (ValueError "a contradiction requires its evidence") (forallb (contradiction_evidenced r h) (hy_contradictions h)).

(** The flows, tests and endpoints that support a confirmed cause *)
Definition confirming_flow (r : CorrelationRequest) (h : RootCauseHypothesis) (path : DependencyPath) (c : NormalizedChangeEvidence)
    (digest : string) (f : NetworkFlowObservation) : bool :=
  let t := fl_tuple f in
  exact_matching_flow r h f && flow_names_change f c digest &&
  subset [nt_source_resource_id t; nt_destination_resource_id t; fl_enforcement_resource_id f] (dp_resource_ids path) &&
  (ch_occurred_at c <=? mo_observed_start (fl_base f)) &&
  existsb (flow_covered r h f) (mb_coverage (rq_monitoring_bundle r)).
Definition confirming_test (r : CorrelationRequest) (h : RootCauseHypothesis) (path : DependencyPath) (c : NormalizedChangeEvidence)
    (flows : list NetworkFlowObservation) (m : ConnectionMonitorObservation) : bool :=
  let t := cm_tuple m in
  bool_decide (cm_status m = MonitorFailed) && on_affected_path h (nt_path_id t) &&
  subset [nt_source_resource_id t; nt_destination_resource_id t] (dp_resource_ids path) &&
  (ch_occurred_at c <=? mo_observed_start (cm_base m)) && observed_during r (cm_base m) &&
  existsb (fun f => same_tuple (fl_tuple f) t) flows &&
  existsb (monitor_covered r h m) (mb_coverage (rq_monitoring_bundle r)).
Definition confirming_endpoint (r : CorrelationRequest) (h : RootCauseHypothesis) (path : DependencyPath) (c : NormalizedChangeEvidence)
    (e : EndpointHealthObservation) : bool :=
  let b := eh_base e in
  is_degraded (eh_status e) && on_affected_path h (eh_path_id e) && bool_decide (mo_subject_resource_id b ∈ dp_resource_ids path) &&
  (ch_occurred_at c <=? mo_observed_start b) && observed_during r b &&
  existsb (fun v => bool_decide (co_family v = FamEndpointHealth) && bool_decide (co_status v = CovComplete) &&
                    bool_decide (es_path_id (co_scope v) = Some (eh_path_id e)) &&
                    bool_decide (mo_subject_resource_id b ∈ es_resource_ids (co_scope v)) &&
                    (co_coverage_start v <=? incident_start r) && (incident_end r <=? co_coverage_end v))
    (mb_coverage (rq_monitoring_bundle r)).

(** A confirmed cause is a network security change that one flow, one test and one endpoint confirm independently. *)
Definition check_confirmed (r : CorrelationRequest) (h : RootCauseHypothesis) : result unit :=
  if negb (bool_decide (hy_confidence h = CfConfirmed)) then Ok tt
  else if negb (bool_decide (hy_category h = RcNetworkSecurityChange))
  then Raise (ValueError "Confirmed confidence is not defined for this cause category")
  else
    match cited_change r h with
    | None => Raise (ValueError "Confirmed network security cause requires one exact change artifact")
    | Some a =>
        digest ← artifact_digest a;
        let c := art_evidence a in
        _ ← guard_or (ValueError "Confirmed network security cause requires an exact successful rule change") (causal_change r h c);
        match hy_affected_path_id h ≫= (path_by_id r !!.) with
        | None => Raise (ValueError "Confirmed network security cause requires one exact attributed denied flow")
        | Some path =>
            let flows := select (confirming_flow r h path c digest) (attributed_denied_flows r h) in
            let tests := select (confirming_test r h path c flows) (monitors_of r (gate_ids h GateConnectionMonitorFailure)) in
            let endpoints := select (confirming_endpoint r h path c) (endpoints_of r (gate_ids h GateEndpointDegradation)) in
            let flow_ids := (fun f => mo_observation_id (fl_base f)) <$> flows in
            let test_ids := (fun m => mo_observation_id (cm_base m)) <$> tests in
            let endpoint_ids := (fun e => mo_observation_id (eh_base e)) <$> endpoints in
            let corroboration := gate_ids h GateIndependentCorroboration in
            let causal := select (fun x => bool_decide (ci_evidence_id x ∈ flow_ids ++ test_ids ++ endpoint_ids) &&
                                           negb (present (coverage_by_id r !! ci_evidence_id x)))
                            (omap (fun i => evidence_by_id r !! i) corroboration) in
            let cites ids := existsb (fun i => bool_decide (i ∈ corroboration)) ids in
            _ ← raise_if (ValueError "Confirmed network security cause requires one exact attributed denied flow") (bool_decide (flow_ids = []));
            _ ← raise_if (ValueError "Confirmed Connection Monitor failure must match the affected path") (bool_decide (test_ids = []));
            _ ← raise_if (ValueError "Confirmed network security cause requires endpoint degradation") (bool_decide (endpoint_ids = []));
            guard_or (ValueError "Confirmed network security cause requires independent corroboration")
              (distinct_at_least 3 (ci_family <$> causal) && distinct_at_least 3 (ci_provenance_root_digest <$> causal) &&
               cites flow_ids && cites test_ids && cites endpoint_ids)
        end
    end.

(** What validate_correlation_report_binding requires of one hypothesis *)
Definition check_hypothesis_binding (r : CorrelationRequest) (h : RootCauseHypothesis) : result unit :=
  _ ← check_references r h;
  _ ← check_gates r h;
  _ ← check_required_caps r h;
  _ ← check_high_network_security r h;
  _ ← check_chronology_window r h;
  _ ← check_hard_conflicts r h;
  check_confirmed r h.

Definition is_published_runtime (c : CorrelationContextBinding) : bool := match c with PublishedRuntime _ _ _ => true | _ => false end.

(** validate_correlation_report_binding *)
Definition validate_correlation_report_binding (report : CorrelationReport) (r : CorrelationRequest) : result unit :=
  let published := is_published_runtime (rq_context_binding r) in
  _ ← guard_or (ValueError "correlation report does not bind the exact request")
        (String.eqb (rp_request_digest report) (rq_request_digest r) &&
         String.eqb (rp_transition_digest report) (it_transition_digest (rq_incident_anchor r)) &&
         String.eqb (rp_context_binding_digest report) (cb_binding_digest (binding_base (rq_context_binding r))) &&
         String.eqb (rp_input_inventory_digest report) (iv_inventory_digest (rq_evidence_inventory r)) &&
         String.eqb (rp_rule_catalog_digest report) (rq_rule_catalog_digest r) && (rp_as_of report =? rq_trusted_as_of r) &&
         Bool.eqb (rp_published_runtime report) published && Bool.eqb (rp_preview_only report) (negb published) &&
         (rp_incident_anchor_observed_start report =? incident_start r) && (rp_incident_anchor_observed_end report =? incident_end r));
  _ ← mapR (check_hypothesis_binding r) (rp_hypotheses report); Ok tt.

(** validate_runtime_correlation_report *)
Definition validate_runtime_correlation_report (report : CorrelationReport) (r : CorrelationRequest) (evaluated_at : Z) : result unit :=
  _ ← validate_correlation_report_binding report r;
  bytes ← canonical_bytes (JObj (report_members report));
  _ ← raise_if (ValueError "correlation report exceeds its canonical byte budget")
        (CORRELATION_MAX_CANONICAL_BYTES <? Z.of_nat (String.length bytes));
  _ ← raise_if (ValueError "runtime correlation request is outside its validity window")
        ((evaluated_at <? rq_issued_at r) || (rq_expires_at r <? evaluated_at));
  guard_or (ValueError "runtime correlation requires published context authority")
    (is_published_runtime (rq_context_binding r) && rp_published_runtime report && negb (rp_preview_only report)).
End report.
