(* ===== verification/Correlate.v ===== *)
(** * Correlate: the correlation engine

    [correlation/rules.py], [correlation/engine.py] and the report construction
    of [correlation/verification.py]: change evidence and monitoring observations
    of a verified request become ranked root-cause hypotheses, and a bounded
    report. A lookup [citations[id]] is [cite], which raises [KeyError]. Durations
    are compared in microseconds. [str.isdigit] is applied to property paths, which
    the contract restricts to ASCII. *)
From stdpp Require Import pretty.
From S2P Require Import Prelude Text Sha256 Time Json Events.
From S2P Require Export CorrelationReport.
Local Open Scope Z_scope.

(** ** The rule catalog (correlation/rules.py) *)
Record CorrelationRuleCatalog := {
  rc_schema_version : string;
  rc_algorithm_id : string;
  rc_confidence_thresholds : list (ConfidenceLevel * Z);
  rc_category_order : list RootCauseCategory;
  rc_nsg_property_paths : list string;
  rc_routing_property_paths : list string;
  rc_nsg_confirmed_gates : list CorrelationGateCode;
  rc_temporal_score_windows : list (Z * Z);
  rc_score_weights : list (string * Z);
  rc_confidence_caps : list (ConfidenceCapCode * ConfidenceLevel);
  rc_generic_max_confidence : ConfidenceLevel;
  rc_unattributed_nsg_max_confidence : ConfidenceLevel;
  rc_maximum_hypotheses : Z;
  rc_maximum_candidate_hypotheses : Z;
  rc_maximum_evaluation_work_units : Z;
  rc_maximum_supporting_evidence : Z;
  rc_maximum_contradictions : Z;
  rc_maximum_missing_evidence : Z;
  rc_maximum_gates : Z;
  rc_maximum_caps : Z;
  rc_maximum_gate_evidence_ids : Z;
  rc_maximum_contradiction_evidence_ids : Z;
  rc_maximum_report_canonical_bytes : Z;
}.

Definition CORRELATION_RULE_CATALOG : CorrelationRuleCatalog := {|
  rc_schema_version := "athena.wc026CorrelationRuleCatalog.v1";
  rc_algorithm_id := "athena.wc026.correlation.v1";
  rc_confidence_thresholds := [(CfLow, 30); (CfMedium, 55); (CfHigh, 75); (CfConfirmed, 90)];
  rc_category_order := [RcNetworkSecurityChange; RcRoutingChange; RcGuestServiceFailure; RcGuestResourcePressure; RcPlatformHealth;
    RcBackendHealth; RcDependencyFailure; RcDeploymentChange; RcUnknown];
  rc_nsg_property_paths := ["properties.access"; "properties.direction"; "properties.priority"; "properties.protocol";
    "properties.sourceaddressprefix"; "properties.sourceaddressprefixes"; "properties.sourceportrange";
    "properties.sourceportranges"; "properties.destinationaddressprefix"; "properties.destinationaddressprefixes";
    "properties.destinationportrange"; "properties.destinationportranges"];
  rc_routing_property_paths := ["properties.addressprefix"; "properties.nexthoptype"; "properties.nexthopipaddress"];
  rc_nsg_confirmed_gates := [GateSuccessfulChange; GateAffectedPath; GateSemanticMatch; GateEffectiveRuleAttribution; GateMatchingDeniedFlow;
    GateConnectionMonitorFailure; GateEndpointDegradation; GateIndependentCorroboration; GateCorrectChronology; GateNoHardConflict];
  rc_temporal_score_windows := [(300, 20); (900, 15); (1800, 10); (3600, 5)];
  rc_score_weights := [("topologyExactPath", 25); ("topologyAffectedPath", 18); ("topologyDeclaredPath", 10); ("nsgDirectSemantic", 20);
    ("nsgCausalSemantic", 14); ("routingChangeSemantic", 20); ("genericChangeSemantic", 8); ("observationSemantic", 20);
    ("flowCorroboration", 10); ("monitorCorroboration", 8); ("endpointCorroboration", 7); ("independentCorroboration", 8);
    ("correctiveRecovery", 10); ("observedRecovery", 4); ("maximumComponent", 25)];
  rc_confidence_caps := [(CapRecentChangeOnly, CfLow); (CapMissingAffectedPath, CfLow); (CapMissingIndependentSupport, CfMedium);
    (CapAmbiguousObservationWindow, CfMedium)];
  rc_generic_max_confidence := CfMedium;
  rc_unattributed_nsg_max_confidence := CfHigh;
  rc_maximum_hypotheses := 64;
  rc_maximum_candidate_hypotheses := 4096;
  rc_maximum_evaluation_work_units := 65536;
  rc_maximum_supporting_evidence := 128;
  rc_maximum_contradictions := 64;
  rc_maximum_missing_evidence := 64;
  rc_maximum_gates := 32;
  rc_maximum_caps := 16;
  rc_maximum_gate_evidence_ids := 64;
  rc_maximum_contradiction_evidence_ids := 64;
  rc_maximum_report_canonical_bytes := 8 * 1024 * 1024
|}.

(** CorrelationRuleCatalog.canonical_payload *)
Definition catalog_payload (c : CorrelationRuleCatalog) : json := JObj [
  ("schemaVersion", JStr (rc_schema_version c));
  ("algorithmId", JStr (rc_algorithm_id c));
  ("confidenceThresholds", JArr ((fun '(confidence, minimum) =>
     JObj [("confidence", JStr (confidence_text confidence)); ("minimumScore", JInt minimum)]) <$> rc_confidence_thresholds c));
  ("categoryOrder", texts (category_text <$> rc_category_order c));
  ("nsgPropertyPaths", texts (rc_nsg_property_paths c));
  ("routingPropertyPaths", texts (rc_routing_property_paths c));
  ("nsgConfirmedGates", texts (gate_text <$> rc_nsg_confirmed_gates c));
  ("temporalScoreWindows", JArr ((fun '(maximum, score) =>
     JObj [("maximumSeconds", JInt maximum); ("score", JInt score)]) <$> rc_temporal_score_windows c));
  ("scoreWeights", JArr ((fun '(name, value) => JObj [("name", JStr name); ("value", JInt value)]) <$> rc_score_weights c));
  ("confidenceCaps", JArr ((fun '(code, maximum) =>
     JObj [("code", JStr (cap_text code)); ("maximumConfidence", JStr (confidence_text maximum))]) <$> rc_confidence_caps c));
  ("genericMaxConfidence", JStr (confidence_text (rc_generic_max_confidence c)));
  ("unattributedNsgMaxConfidence", JStr (confidence_text (rc_unattributed_nsg_max_confidence c)));
  ("maximumHypotheses", JInt (rc_maximum_hypotheses c));
  ("maximumCandidateHypotheses", JInt (rc_maximum_candidate_hypotheses c));
  ("maximumEvaluationWorkUnits", JInt (rc_maximum_evaluation_work_units c));
  ("maximumSupportingEvidence", JInt (rc_maximum_supporting_evidence c));
  ("maximumContradictions", JInt (rc_maximum_contradictions c));
  ("maximumMissingEvidence", JInt (rc_maximum_missing_evidence c));
  ("maximumGates", JInt (rc_maximum_gates c));
  ("maximumCaps", JInt (rc_maximum_caps c));
  ("maximumGateEvidenceIds", JInt (rc_maximum_gate_evidence_ids c));
  ("maximumContradictionEvidenceIds", JInt (rc_maximum_contradiction_evidence_ids c));
  ("maximumReportCanonicalBytes", JInt (rc_maximum_report_canonical_bytes c))].

(** [_SCORE_WEIGHTS[name]] *)
Definition weight (name : string) : Z := default 0 (assoc name (rc_score_weights CORRELATION_RULE_CATALOG)).

(** The position of a value in a list, as [_CATEGORY_ORDER] numbers the categories *)
Fixpoint index_of {A} `{EqDecision A} (x : A) (l : list A) : Z :=
  match l with [] => 0 | y :: l => if bool_decide (x = y) then 0 else 1 + index_of x l end.
Definition category_order (c : RootCauseCategory) : Z := index_of c (rc_category_order CORRELATION_RULE_CATALOG).

(** _CAP_LEVELS; the code of a cap without a level is always given one *)
Definition cap_level (code : ConfidenceCapCode) : ConfidenceLevel :=
  match List.find (fun p => bool_decide (p.1 = code)) (rc_confidence_caps CORRELATION_RULE_CATALOG) with
  | Some (_, level) => level
  | None => rc_unattributed_nsg_max_confidence CORRELATION_RULE_CATALOG
  end.

(** assert_contract_compatibility *)
Definition contract_compatible (c : CorrelationRuleCatalog) : bool :=
  let cap code := snd <$> List.find (fun p => bool_decide (p.1 = code)) (rc_confidence_caps c) in
  String.eqb (rc_algorithm_id c) correlation_algorithm_id &&
  bool_decide ((fun l => snd <$> List.find (fun p => bool_decide (p.1 = l)) ((CfUnknown, 0) :: rc_confidence_thresholds c)) <$>
                 [CfUnknown; CfLow; CfMedium; CfHigh; CfConfirmed] =
               (fun l => Some (confidence_threshold l)) <$> [CfUnknown; CfLow; CfMedium; CfHigh; CfConfirmed]) &&
  bool_decide (NSG_CAUSAL_PROPERTY_PREFIXES = rc_nsg_property_paths c) &&
  forallb (fun g => bool_decide (g ∈ rc_nsg_confirmed_gates c)) NETWORK_SECURITY_CONFIRMED_GATES &&
  forallb (fun g => bool_decide (g ∈ NETWORK_SECURITY_CONFIRMED_GATES)) (rc_nsg_confirmed_gates c) &&
  forallb (fun code => bool_decide (cap code = Some (required_cap code)))
    [CapRecentChangeOnly; CapMissingAffectedPath; CapMissingIndependentSupport; CapAmbiguousObservationWindow] &&
  bool_decide (required_cap CapMissingDirectAttribution = rc_unattributed_nsg_max_confidence c) &&
  (rc_maximum_hypotheses c =? CORRELATION_MAX_HYPOTHESES) &&
  (rc_maximum_candidate_hypotheses c =? CORRELATION_MAX_CANDIDATE_HYPOTHESES) && (rc_maximum_supporting_evidence c =? 128) &&
  (rc_maximum_contradictions c =? 64) && (rc_maximum_missing_evidence c =? 64) && (rc_maximum_gates c =? 32) &&
  (rc_maximum_caps c =? 16) && (rc_maximum_gate_evidence_ids c =? 64) && (rc_maximum_contradiction_evidence_ids c =? 64) &&
  (rc_maximum_report_canonical_bytes c =? CORRELATION_MAX_CANONICAL_BYTES).

(** ** Confidence *)
Definition confidence_of_rank (rank : Z) : ConfidenceLevel :=
  if rank =? 0 then CfUnknown else if rank =? 1 then CfLow else if rank =? 2 then CfMedium else if rank =? 3 then CfHigh else CfConfirmed.

(** classify_confidence *)
Definition classify_confidence (raw_score : Z) (caps : list ConfidenceCap) (hard_conflict confirmed : bool) : ConfidenceLevel :=
  if hard_conflict || (raw_score <? confidence_threshold CfLow) then CfUnknown
  else
    let level :=
      if confirmed && (confidence_threshold CfConfirmed <=? raw_score) then CfConfirmed
      else if confidence_threshold CfHigh <=? raw_score then CfHigh
      else if confidence_threshold CfMedium <=? raw_score then CfMedium else CfLow in
    confidence_of_rank (Z.min (confidence_rank level) (strongest_cap (confidence_rank CfConfirmed) caps)).

(** ** Keys and comparisons *)
Definition port_text (p : option Z) : string := match p with None => "" | Some p => pretty p end.

(** _network_tuple_key, _nsg_chain_key *)
Definition network_tuple_key (t : NetworkTuple) : list string := [
  nt_path_id t; direction_text (nt_direction t); nt_five_tuple_digest t; nt_source_resource_id t; nt_destination_resource_id t;
  nt_source_address t; nt_destination_address t; protocol_text (nt_protocol t); port_text (nt_source_port t);
  port_text (nt_destination_port t)].
Definition nsg_chain_key (f : NetworkFlowObservation) : list string :=
  network_tuple_key (fl_tuple f) ++ [fl_enforcement_resource_id f; default "" (fl_rule_resource_id f)].

(** _same_flow and _same_monitor of correlation/engine.py *)
Definition engine_same_flow (first second : NetworkFlowObservation) : bool :=
  same_tuple (fl_tuple first) (fl_tuple second) &&
  String.eqb (fl_enforcement_resource_id first) (fl_enforcement_resource_id second) &&
  bool_decide (fl_rule_resource_id first = fl_rule_resource_id second).
Definition engine_same_monitor (first second : ConnectionMonitorObservation) : bool :=
  same_tuple (cm_tuple first) (cm_tuple second) &&
  String.eqb (cm_test_configuration_reference first) (cm_test_configuration_reference second) &&
  String.eqb (cm_test_configuration_digest first) (cm_test_configuration_digest second).

(** _strict_overlap, _overlaps_incident *)
Definition strict_overlap (start stop incident_start incident_end : Z) : bool := (start <? incident_end) && (incident_start <? stop).
Definition overlaps_incident (o : ObservationBase) (r : CorrelationRequest) : bool :=
  strict_overlap (mo_observed_start o) (mo_observed_end o) (incident_start r) (incident_end r).

(** _flow_resource_ids *)
Definition flow_resource_ids (f : NetworkFlowObservation) : list string :=
  sorted_set ([mo_subject_resource_id (fl_base f); nt_source_resource_id (fl_tuple f); nt_destination_resource_id (fl_tuple f);
               fl_enforcement_resource_id f] ++ option_list (fl_rule_resource_id f)).

(** _is_adverse_observation, _adverse_observation_ids *)
Definition is_adverse_observation (o : MonitoringObservation) : bool :=
  match o with
  | GuestObs g => is_degraded (gs_state g)
  | FlowObs f => bool_decide (fl_decision f = FlowDenied)
  | MonitorObs m => bool_decide (cm_status m ∈ [MonitorFailed; MonitorDegraded])
  | EndpointObs e => is_degraded (eh_status e)
  | PlatformObs p => is_degraded (ph_status p)
  end.
Definition adverse_observation_ids (r : CorrelationRequest) : gset string :=
  list_to_set (ob_id <$> select is_adverse_observation (observations r)).

(** The observations of one kind *)
Definition all_flows (r : CorrelationRequest) : list NetworkFlowObservation :=
  omap (fun o => match o with FlowObs f => Some f | _ => None end) (observations r).
Definition all_monitors (r : CorrelationRequest) : list ConnectionMonitorObservation :=
  omap (fun o => match o with MonitorObs m => Some m | _ => None end) (observations r).
Definition all_endpoints (r : CorrelationRequest) : list EndpointHealthObservation :=
  omap (fun o => match o with EndpointObs e => Some e | _ => None end) (observations r).

(** [{key(x): x for x in l}.values()]: first insertion decides the place, the last one the value *)
Fixpoint odict_insert {K A} `{EqDecision K} (k : K) (x : A) (d : list (K * A)) : list (K * A) :=
  match d with
  | [] => [(k, x)]
  | (k', y) :: d => if bool_decide (k = k') then (k, x) :: d else (k', y) :: odict_insert k x d
  end.

(** [d.setdefault(key(x), x)] for every [x]: the first of each key *)
Fixpoint first_by {K A} `{EqDecision K} (key : A -> K) (seen : list K) (l : list A) : list A :=
  match l with
  | [] => []
  | x :: l => if bool_decide (key x ∈ seen) then first_by key seen l else x :: first_by key (key x :: seen) l
  end.

Section engine.
Context `{PyText, Rfc8785, PydanticJson, IpAddress, PyUuid}.

(** CORRELATION_RULE_CATALOG_DIGEST *)
Definition rule_catalog_digest : result string := compute_artifact_digest (catalog_payload CORRELATION_RULE_CATALOG).

(** [citations[evidence_id]] *)
Definition cite (r : CorrelationRequest) (evidence_id : string) : result CorrelationEvidenceCitation :=
  match evidence_by_id r !! evidence_id with Some c => Ok c | None => Raise (KeyError evidence_id) end.
Definition cite_all (r : CorrelationRequest) (ids : list string) : result (list CorrelationEvidenceCitation) := mapR (cite r) ids.

Definition flow_id (f : NetworkFlowObservation) : string := mo_observation_id (fl_base f).
Definition monitor_id (m : ConnectionMonitorObservation) : string := mo_observation_id (cm_base m).
Definition endpoint_id (e : EndpointHealthObservation) : string := mo_observation_id (eh_base e).

(** [item.observed_start <= incident_start and _overlaps_incident(item, request)] *)
Definition before_and_during (r : CorrelationRequest) (b : ObservationBase) : bool :=
  (mo_observed_start b <=? incident_start r) && overlaps_incident b r.

(** _parent_nsg_id: what comes before the last "/securityrules/" *)
Fixpoint rpartition (marker s : string) : option string :=
  match s with
  | EmptyString => if String.eqb marker "" then Some "" else None
  | String c t =>
      match rpartition marker t with
      | Some prefix => Some (String c prefix)
      | None => if starts_with marker s then Some "" else None
      end
  end.
Definition parent_nsg_id (rule_resource_id : string) : result string :=
  match rpartition "/securityrules/" rule_resource_id with
  | Some (String c p) => Ok (String c p)
  | _ => Raise (ValueError "NSG rule resource ID does not contain a parent NSG")
  end.

(** _is_nsg_property *)
Definition is_nsg_property (path : string) : bool :=
  let normalized := casefold path in
  bool_decide (normalized ∈ rc_nsg_property_paths CORRELATION_RULE_CATALOG) ||
  existsb (fun allowed => indexed_property is_digit allowed normalized) (rc_nsg_property_paths CORRELATION_RULE_CATALOG).

(** _flow_binds_change *)
Definition flow_binds_change (f : NetworkFlowObservation) (a : ChangeEvidenceArtifact) (artifact_digest : string) : result bool :=
  let change := art_evidence a in
  if fl_effective_rule_attribution f && bool_decide (fl_decision f = FlowDenied) &&
     bool_decide (fl_rule_resource_id f = Some (ch_target_resource_id change))
  then
    parent ← parent_nsg_id (ch_target_resource_id change);
    Ok (String.eqb (fl_enforcement_resource_id f) parent &&
        bool_decide (fl_matched_change_evidence_id f = Some (ch_evidence_id change)) &&
        bool_decide (fl_matched_change_key f = Some (ch_change_key change)) &&
        bool_decide (fl_matched_change_artifact_digest f = Some artifact_digest) &&
        subset (fl_matched_property_paths f) (cp_path <$> ch_changed_properties change))
  else Ok false.

(** _flow_matches_changed_nsg *)
Definition flow_matches_changed_nsg (f : NetworkFlowObservation) (a : ChangeEvidenceArtifact) : result bool :=
  let changed_rule_id := ch_target_resource_id (art_evidence a) in
  parent ← parent_nsg_id changed_rule_id;
  Ok (match fl_rule_resource_id f with
      | Some rule => String.eqb rule changed_rule_id && String.eqb (fl_enforcement_resource_id f) parent
      | None => String.eqb (fl_enforcement_resource_id f) parent
      end).

(** A denied flow of the incident that binds the change, or touches the changed group without attribution *)
Definition candidate_flow (r : CorrelationRequest) (a : ChangeEvidenceArtifact) (digest : string) (f : NetworkFlowObservation) : result bool :=
  if bool_decide (fl_decision f = FlowDenied) && before_and_during r (fl_base f) then
    binds ← flow_binds_change f a digest;
    if binds : bool then Ok true
    else if fl_effective_rule_attribution f then Ok false else flow_matches_changed_nsg f a
  else Ok false.

(** ** Coverage *)

(** _coverage_binds_query_observation *)
Definition coverage_binds_query_observation (r : CorrelationRequest) (c : EvidenceCoverage) (o : MonitoringObservation) : bool :=
  bool_decide (mb_schema_version (rq_monitoring_bundle r) = LegacyBundle) || is_platform o ||
  match execution_digest o, co_query_execution_digests c with
  | Some d, Some l => bool_decide (d ∈ l)
  | _, _ => false
  end.

(** The coverage spans the incident, and the observation *)
Definition spans_incident (r : CorrelationRequest) (c : EvidenceCoverage) : bool :=
  (co_coverage_start c <=? incident_start r) && (incident_end r <=? co_coverage_end c).
Definition spans (c : EvidenceCoverage) (b : ObservationBase) : bool :=
  (co_coverage_start c <=? mo_observed_start b) && (mo_observed_end b <=? co_coverage_end c).

(** The first coverage record, by id, that a test accepts *)
Definition first_coverage (r : CorrelationRequest) (test : EvidenceCoverage -> bool) : option EvidenceCoverage :=
  head (sort_by co_coverage_id (select test (mb_coverage (rq_monitoring_bundle r)))).

(** _matching_flow_coverage *)
Definition covers_flow (r : CorrelationRequest) (f : NetworkFlowObservation) (c : EvidenceCoverage) : bool :=
  let scope := co_scope c in
  bool_decide (co_family c = FamNetworkFlow) && bool_decide (co_status c = CovComplete) &&
  coverage_binds_query_observation r c (FlowObs f) &&
  bool_decide (es_path_id scope = Some (nt_path_id (fl_tuple f))) && bool_decide (es_direction scope = Some (nt_direction (fl_tuple f))) &&
  bool_decide (es_five_tuple_digest scope = Some (nt_five_tuple_digest (fl_tuple f))) &&
  subset (flow_resource_ids f) (es_resource_ids scope) && spans_incident r c && spans c (fl_base f).
Definition matching_flow_coverage (r : CorrelationRequest) (f : NetworkFlowObservation) : option EvidenceCoverage :=
  first_coverage r (covers_flow r f).

(** _matching_monitor_coverage *)
Definition covers_monitor (r : CorrelationRequest) (m : ConnectionMonitorObservation) (c : EvidenceCoverage) : bool :=
  let scope := co_scope c in
  let t := cm_tuple m in
  bool_decide (co_family c = FamConnectionMonitor) && bool_decide (co_status c = CovComplete) &&
  coverage_binds_query_observation r c (MonitorObs m) &&
  bool_decide (es_path_id scope = Some (nt_path_id t)) && bool_decide (es_direction scope = Some (nt_direction t)) &&
  bool_decide (es_five_tuple_digest scope = Some (nt_five_tuple_digest t)) &&
  bool_decide (es_endpoint_test_reference scope = Some (cm_test_configuration_reference m)) &&
  bool_decide (es_endpoint_test_digest scope = Some (cm_test_configuration_digest m)) &&
  subset [mo_subject_resource_id (cm_base m); nt_source_resource_id t; nt_destination_resource_id t] (es_resource_ids scope) &&
  spans_incident r c && spans c (cm_base m).
Definition matching_monitor_coverage (r : CorrelationRequest) (m : ConnectionMonitorObservation) : option EvidenceCoverage :=
  first_coverage r (covers_monitor r m).

(** _matching_endpoint_coverage *)
Definition covers_endpoint (r : CorrelationRequest) (e : EndpointHealthObservation) (c : EvidenceCoverage) : bool :=
  bool_decide (co_family c = FamEndpointHealth) && bool_decide (co_status c = CovComplete) &&
  coverage_binds_query_observation r c (EndpointObs e) &&
  bool_decide (es_path_id (co_scope c) = Some (eh_path_id e)) &&
  subset (mo_subject_resource_id (eh_base e) :: eh_backend_resource_ids e) (es_resource_ids (co_scope c)) &&
  spans_incident r c && spans c (eh_base e).
Definition matching_endpoint_coverage (r : CorrelationRequest) (e : EndpointHealthObservation) : option EvidenceCoverage :=
  first_coverage r (covers_endpoint r e).

(** _has_complete_nsg_coverage *)
Definition has_complete_nsg_coverage (r : CorrelationRequest) (f : option NetworkFlowObservation) (m : option ConnectionMonitorObservation)
    (e : option EndpointHealthObservation) (path : option DependencyPath) : bool :=
  match f, m, e, path with
  | Some f, Some m, Some e, Some _ =>
      present (matching_flow_coverage r f) && present (matching_monitor_coverage r m) && present (matching_endpoint_coverage r e)
  | _, _, _, _ => false
  end.

(** _has_complete_coverage *)
Definition has_complete_coverage (r : CorrelationRequest) (o : MonitoringObservation) (path : option DependencyPath) : bool :=
  existsb (fun c =>
    bool_decide (co_family c = observation_family o) && bool_decide (co_status c = CovComplete) &&
    coverage_binds_query_observation r c o && bool_decide (mo_subject_resource_id (ob_base o) ∈ es_resource_ids (co_scope c)) &&
    match path, es_path_id (co_scope c) with
    | Some p, Some id => String.eqb id (dp_path_id p)
    | _, _ => true
    end && spans_incident r c) (mb_coverage (rq_monitoring_bundle r)).

(** ** Matching observations *)

(** _matching_failed_monitors *)
Definition matching_failed_monitors (r : CorrelationRequest) (f : NetworkFlowObservation) : list ConnectionMonitorObservation :=
  sort_by monitor_id (select (fun m =>
    bool_decide (cm_status m = MonitorFailed) && same_tuple (cm_tuple m) (fl_tuple f) && before_and_during r (cm_base m)) (all_monitors r)).

(** _matching_degraded_endpoints *)
Definition matching_degraded_endpoints (r : CorrelationRequest) (destination : string) (path : DependencyPath) : list EndpointHealthObservation :=
  sort_by endpoint_id (select (fun e =>
    let subject := mo_subject_resource_id (eh_base e) in
    String.eqb (eh_path_id e) (dp_path_id path) && String.eqb subject (affected_resource r) &&
    (String.eqb subject destination || bool_decide (destination ∈ eh_backend_resource_ids e)) &&
    is_degraded (eh_status e) && before_and_during r (eh_base e)) (all_endpoints r)).

(** [int(b)] and the keys that prefer covered and recent observations *)
Definition int_of (b : bool) : Z := if b then 1 else 0.
Definition recency (r : CorrelationRequest) (b : ObservationBase) : Z := incident_start r - mo_observed_start b.

(** _best_dependency_endpoint *)
Definition best_dependency_endpoint (r : CorrelationRequest) (destination : string) (path : DependencyPath) : option EndpointHealthObservation :=
  head (sort_by (fun e => (int_of (negb (present (matching_endpoint_coverage r e))), (recency r (eh_base e), endpoint_id e)))
          (matching_degraded_endpoints r destination path)).

(** _chain_has_hard_conflict *)
Definition chain_has_hard_conflict (r : CorrelationRequest) (f : NetworkFlowObservation) (m : option ConnectionMonitorObservation) : bool :=
  existsb (fun g => bool_decide (fl_decision g = FlowAllowed) && engine_same_flow g f && overlaps_incident (fl_base g) r &&
                    present (matching_flow_coverage r g)) (all_flows r) ||
  match m with
  | Some m =>
      existsb (fun n => bool_decide (cm_status n = MonitorSucceeded) && engine_same_monitor n m && overlaps_incident (cm_base n) r &&
                        present (matching_monitor_coverage r n)) (all_monitors r)
  | None => false
  end.

(** _path_for_resources *)
Definition path_for_resources (r : CorrelationRequest) (resource_ids : list string) : option DependencyPath :=
  head (sort_by dp_path_id (select (fun p => subset resource_ids (dp_resource_ids p)) (sorted_values (path_by_id r)))).

(** _citation_matches_path *)
Definition citation_matches_path (r : CorrelationRequest) (c : CorrelationEvidenceCitation) (path : DependencyPath) : bool :=
  existsb (fun i => bool_decide (i ∈ dp_resource_ids path)) (ci_resource_ids c) &&
  match observation_by_id r !! ci_evidence_id c ≫= ob_path_id with
  | Some id => String.eqb id (dp_path_id path)
  | None => true
  end.

(** _citation_relevant *)
Definition citation_relevant (r : CorrelationRequest) (path : option DependencyPath) (c : CorrelationEvidenceCitation) : bool :=
  (ci_observed_start c <=? incident_start r) &&
  strict_overlap (ci_observed_start c) (ci_observed_end c) (incident_start r) (incident_end r) &&
  match path with
  | None => bool_decide (affected_resource r ∈ ci_resource_ids c)
  | Some p => citation_matches_path r c p
  end.

(** _path_gate_citation *)
Fixpoint first_inside (r : CorrelationRequest) (p : DependencyPath) (ids : list string) : result (option CorrelationEvidenceCitation) :=
  match ids with
  | [] => Ok None
  | i :: ids =>
      c ← cite r i;
      if subset (ci_resource_ids c) (dp_resource_ids p) then Ok (Some c) else first_inside r p ids
  end.
Definition path_gate_citation (r : CorrelationRequest) (path : option DependencyPath) (f : option NetworkFlowObservation)
    (e : option EndpointHealthObservation) : result (option CorrelationEvidenceCitation) :=
  match path with
  | None => Ok None
  | Some p => first_inside r p (option_list (flow_id <$> f) ++ option_list (endpoint_id <$> e))
  end.

Definition is_coverage_citation (c : CorrelationEvidenceCitation) : bool := starts_with "coverage." (ci_summary_code c).

(** _first_path_citation *)
Definition first_path_citation (r : CorrelationRequest) (citations : list CorrelationEvidenceCitation) (path : option DependencyPath)
    : option CorrelationEvidenceCitation :=
  match path with
  | None => None
  | Some p =>
      head (sort_by ci_evidence_id (select (fun c =>
        bool_decide (ci_family c ∈ [FamNetworkFlow; FamConnectionMonitor; FamEndpointHealth]) && negb (is_coverage_citation c) &&
        subset (ci_resource_ids c) (dp_resource_ids p) && citation_matches_path r c p) citations))
  end.

(** _independent_citations: one citation per family and provenance root *)
Fixpoint independent_from (families : list EvidenceFamily) (roots : list string) (l : list CorrelationEvidenceCitation)
    : list CorrelationEvidenceCitation :=
  match l with
  | [] => []
  | c :: l =>
      if is_coverage_citation c || bool_decide (ci_family c ∈ families) || bool_decide (ci_provenance_root_digest c ∈ roots)
      then independent_from families roots l
      else c :: independent_from (ci_family c :: families) (ci_provenance_root_digest c :: roots) l
  end.
Definition independent_citations (l : list CorrelationEvidenceCitation) : list CorrelationEvidenceCitation :=
  independent_from [] [] (sort_by ci_evidence_id l).

(** ** Scores *)

(** _temporal_score *)
Definition temporal_score (candidate degradation : Z) : Z :=
  let elapsed := degradation - candidate in
  if elapsed <? 0 then 0
  else default 0 (snd <$> List.find (fun w => elapsed <=? w.1 * second) (rc_temporal_score_windows CORRELATION_RULE_CATALOG)).

(** _topology_score *)
Definition topology_score (path : option DependencyPath) (cause_resource_id affected_resource_id : string) : Z :=
  match path with
  | None => 0
  | Some p =>
      if bool_decide (cause_resource_id ∈ dp_resource_ids p) && bool_decide (affected_resource_id ∈ dp_resource_ids p)
      then weight "topologyExactPath"
      else if bool_decide (affected_resource_id ∈ dp_resource_ids p) then weight "topologyAffectedPath" else weight "topologyDeclaredPath"
  end.

(** _change_semantic_score *)
Definition change_semantic_score (a : ChangeEvidenceArtifact) (category : RootCauseCategory) : Z :=
  let paths := casefold ∘ cp_path <$> ch_changed_properties (art_evidence a) in
  if bool_decide (category = RcRoutingChange)
  then if existsb (fun p => bool_decide (p ∈ rc_routing_property_paths CORRELATION_RULE_CATALOG)) paths then weight "routingChangeSemantic" else 0
  else if existsb (fun p => negb (starts_with "tags." p) && negb (String.eqb p "tags")) paths then weight "genericChangeSemantic" else 0.

(** [min(maximumComponent, independentCorroboration * n)] *)
Definition corroboration_score (n : Z) : Z := Z.min (weight "maximumComponent") (weight "independentCorroboration" * n).

(** _score *)
Definition score_of (topology temporal semantic corroboration recovery : Z) : result CorrelationScoreComponents :=
  make_score {| sc_topology := topology; sc_temporal := temporal; sc_semantic := semantic; sc_corroboration := corroboration;
                sc_recovery := recovery; sc_raw_score := topology + temporal + semantic + corroboration + recovery |}.

(** _nsg_corroboration *)
Fixpoint corroborate (used_roots : list string) (l : list (CorrelationEvidenceCitation * Z)) : Z :=
  match l with
  | [] => 0
  | (c, value) :: l =>
      if bool_decide (ci_provenance_root_digest c ∈ used_roots) then corroborate used_roots l
      else value + corroborate (ci_provenance_root_digest c :: used_roots) l
  end.
Definition nsg_corroboration (r : CorrelationRequest) (f : option NetworkFlowObservation) (m : option ConnectionMonitorObservation)
    (e : option EndpointHealthObservation) : result (Z * list CorrelationEvidenceCitation) :=
  let chosen := option_list (flow_id <$> f) ++ option_list (monitor_id <$> m) ++ option_list (endpoint_id <$> e) in
  let values := option_list ((fun _ => weight "flowCorroboration") <$> f) ++ option_list ((fun _ => weight "monitorCorroboration") <$> m) ++
                option_list ((fun _ => weight "endpointCorroboration") <$> e) in
  support ← cite_all r chosen;
  Ok (Z.min (weight "maximumComponent") (corroborate [] (zip support values)), support).

(** ** Recovery *)

(** _is_exact_corrective_change. Property paths are unique up to case, so sorting
    by the folded path decides the order of Python's tuples. *)
Definition is_exact_corrective_change (candidate corrective : ChangeEvidenceArtifact) : bool :=
  let properties a := sort_by fst ((fun p => (casefold (cp_path p), p)) <$> ch_changed_properties (art_evidence a)) in
  let candidates := properties candidate in
  let correctives := properties corrective in
  negb (match candidates with [] => true | _ => false end) && unique (fst <$> candidates) && unique (fst <$> correctives) &&
  bool_decide (fst <$> candidates = fst <$> correctives) &&
  forallb (fun '((_, p), (_, q)) =>
    negb (cp_is_truncated p) && negb (cp_is_truncated q) &&
    present (cp_before_evidence_reference p) && present (cp_after_evidence_reference p) &&
    bool_decide (cp_before_evidence_reference q = cp_after_evidence_reference p) &&
    bool_decide (cp_after_evidence_reference q = cp_before_evidence_reference p)) (zip candidates correctives).

(** The observation shows the recovery of what the candidate observed. *)
Definition is_recovery_of (candidate o : MonitoringObservation) : bool :=
  let same_subject := String.eqb (mo_subject_resource_id (ob_base o)) (mo_subject_resource_id (ob_base candidate)) in
  match candidate, o with
  | GuestObs g, GuestObs h =>
      bool_decide (gs_state h = HsRecovered) && same_subject && bool_decide (gs_signal h = gs_signal g) &&
      bool_decide (gs_service_reference h = gs_service_reference g)
  | EndpointObs e, EndpointObs f =>
      bool_decide (eh_status f = HsRecovered) && same_subject && String.eqb (eh_path_id f) (eh_path_id e) &&
      bool_decide (eh_backend_resource_ids f = eh_backend_resource_ids e)
  | _, _ => false
  end.

(** _recovery_assessment: the score, the citations and the evidence ids of a recovery *)
Definition recovery_assessment (r : CorrelationRequest) (cause_resource_id : string) (candidate_artifact : option ChangeEvidenceArtifact)
    (candidate_observation : option MonitoringObservation) : result (Z * list CorrelationEvidenceCitation * list string) :=
  match candidate_observation with
  | None => Ok (0, [], [])
  | Some candidate =>
      let recoveries := sort_by (fun o => (ob_start o, ob_id o)) (select (fun o =>
        is_recovery_of candidate o && (incident_end r <=? ob_start o) && (ob_end candidate <=? ob_start o)) (observations r)) in
      match recoveries with
      | [] => Ok (0, [], [])
      | recovery :: _ =>
          recovery_citation ← cite r (ob_id recovery);
          let corrective := sort_by (fun a => (ch_occurred_at (art_evidence a), ch_evidence_id (art_evidence a))) (select (fun a =>
            let change := art_evidence a in
            String.eqb (ch_target_resource_id change) cause_resource_id && bool_decide (ch_result change = ChangeSucceeded) &&
            (incident_start r <? ch_occurred_at change) && (ch_occurred_at change <=? ob_start recovery) &&
            match candidate_artifact with Some c => is_exact_corrective_change c a | None => false end) (rq_change_artifacts r)) in
          match corrective with
          | a :: _ =>
              Ok (weight "correctiveRecovery", [recovery_citation],
                  sort_strings [ch_evidence_id (art_evidence a); ci_evidence_id recovery_citation])
          | [] => Ok (weight "observedRecovery", [recovery_citation], [ci_evidence_id recovery_citation])
          end
      end
  end.

(** ** Building a hypothesis *)

(** _gate, and a gate over several citations *)
Definition gate (code : CorrelationGateCode) (ids : list string) : CorrelationGate :=
  {| ga_code := code; ga_satisfied := true; ga_evidence_ids := ids |}.
Definition gate_of (code : CorrelationGateCode) (c : CorrelationEvidenceCitation) : CorrelationGate := gate code [ci_evidence_id c].

(** [if b: l.append(x)] *)
Definition when_ {A} (b : bool) (x : A) : list A := if b then [x] else [].

(** _cap *)
Definition cap (code : ConfidenceCapCode) (maximum : option ConfidenceLevel) : ConfidenceCap :=
  {| cc_code := code; cc_maximum_confidence := default (cap_level code) maximum |}.

(** _missing *)
Definition missing (code : MissingEvidenceCode) (family : EvidenceFamily) (detail : string) (required : ConfidenceLevel)
    : MissingCorrelationEvidence :=
  {| me_code := code; me_family := family; me_detail := detail; me_required_for_confidence := required |}.

(** _contradiction *)
Definition contradiction (code : ContradictionCode) (detail : string) (citations : list CorrelationEvidenceCitation)
    : CorrelationContradiction :=
  {| cn_code := code; cn_detail := detail; cn_evidence_ids := sort_strings (ci_evidence_id <$> citations);
     cn_hard_conflict := is_hard_contradiction code |}.

(** What a builder passes to _make_hypothesis *)
Record HypothesisParts := {
  pt_category : RootCauseCategory;
  pt_cause_resource_id : option string;
  pt_path_id : option string;
  pt_candidate_causal_at : option Z;
  pt_score : CorrelationScoreComponents;
  pt_confidence : ConfidenceLevel;
  pt_support : list CorrelationEvidenceCitation;
  pt_contradictions : list CorrelationContradiction;
  pt_missing : list MissingCorrelationEvidence;
  pt_gates : list CorrelationGate;
  pt_caps : list ConfidenceCap;
  pt_omitted_candidate_count : option Z;
  pt_omitted_candidate_digest : option string;
}.

(** The strongest cap of each code *)
Definition add_cap (d : gmap string ConfidenceCap) (c : ConfidenceCap) : gmap string ConfidenceCap :=
  match d !! cap_text (cc_code c) with
  | Some current =>
      if confidence_rank (cc_maximum_confidence c) <? confidence_rank (cc_maximum_confidence current)
      then <[cap_text (cc_code c) := c]> d else d
  | None => <[cap_text (cc_code c) := c]> d
  end.
Definition cap_by_code (caps : list ConfidenceCap) : gmap string ConfidenceCap := foldl add_cap ∅ caps.

(** digest_payload of _make_hypothesis; the causal time is a [datetime] *)
Definition hypothesis_digest_payload (p : HypothesisParts) (support : list CorrelationEvidenceCitation)
    (contradictions : list CorrelationContradiction) (missing : list MissingCorrelationEvidence) (gates : list CorrelationGate)
    (caps : list ConfidenceCap) : json := JObj (
  [("category", JStr (category_text (pt_category p)))] ++
  opt_text "causeResourceId" (pt_cause_resource_id p) ++
  opt_text "affectedPathId" (pt_path_id p) ++
  opt_member "candidateCausalAt" (JTime <$> pt_candidate_causal_at p) ++
  [("score", score_dump (pt_score p)); ("confidence", JStr (confidence_text (pt_confidence p)));
   ("supportingEvidence", JArr (citation_dump <$> support)); ("contradictions", JArr (contradiction_dump <$> contradictions));
   ("missingEvidence", JArr (missing_dump <$> missing))] ++
  opt_member "omittedCandidateCount" (JInt <$> pt_omitted_candidate_count p) ++
  opt_text "omittedCandidateDigest" (pt_omitted_candidate_digest p) ++
  [("gates", JArr (gate_dump <$> gates)); ("caps", JArr (cap_dump <$> caps))]).

(** _make_hypothesis: the parts are models, validated when they were built *)
Definition make_hypothesis (p : HypothesisParts) : result RootCauseHypothesis :=
  _ ← mapR make_contradiction (pt_contradictions p);
  _ ← mapR make_missing (pt_missing p);
  _ ← mapR make_gate (pt_gates p);
  let support := sorted_values (dict_by ci_evidence_id (pt_support p)) in
  let contradictions := sort_by contradiction_key (pt_contradictions p) in
  let missing := sort_by missing_key (pt_missing p) in
  let gates := sorted_values (dict_by (fun g => gate_text (ga_code g)) (pt_gates p)) in
  let caps := sorted_values (cap_by_code (pt_caps p)) in
  digest ← compute_artifact_digest (hypothesis_digest_payload p support contradictions missing gates caps);
  make_hypothesis_model {|
    hy_hypothesis_id := digest_bound_id "hyp" digest; hy_rank := 1; hy_category := pt_category p;
    hy_cause_resource_id := pt_cause_resource_id p; hy_affected_path_id := pt_path_id p;
    hy_candidate_causal_at := pt_candidate_causal_at p; hy_score := pt_score p; hy_confidence := pt_confidence p;
    hy_supporting_evidence := support; hy_contradictions := contradictions; hy_missing_evidence := missing;
    hy_omitted_candidate_count := pt_omitted_candidate_count p; hy_omitted_candidate_digest := pt_omitted_candidate_digest p;
    hy_gates := gates; hy_caps := caps; hy_hypothesis_digest := digest |}.

(** ** Contradictions *)

(** One contradiction for the covered observations that refute the claim *)
Definition refutation (r : CorrelationRequest) (code : ContradictionCode) (prefix suffix : string) (pairs : list (EvidenceCoverage * string))
    : result (list CorrelationContradiction) :=
  match sort_by (fun p => (p.2, co_coverage_id p.1)) pairs with
  | [] => Ok []
  | (coverage, observation) :: _ as matches =>
      omitted_digest ← compute_artifact_digest (JArr ((fun p => texts [co_coverage_id p.1; p.2]) <$> matches));
      coverage_citation ← cite r (co_coverage_id coverage);
      observation_citation ← cite r observation;
      Ok [contradiction code (prefix +:+ pretty (Z.of_nat (length matches)) +:+ suffix +:+ omitted_digest +:+ ".")
            [coverage_citation; observation_citation]]
  end.

(** _network_observation_contradictions *)
Definition network_observation_contradictions (r : CorrelationRequest) (denied_flows : list NetworkFlowObservation)
    (failed_monitors : list ConnectionMonitorObservation) : result (list CorrelationContradiction) :=
  allowed ← refutation r ContraCompleteAllowedFlow "Complete incident-window evidence contains "
    " exact allowed flow record(s); evidence-set digest "
    (omap (fun f =>
      if bool_decide (fl_decision f = FlowAllowed) && existsb (fun d => bool_decide (nsg_chain_key f = nsg_chain_key d)) denied_flows &&
         overlaps_incident (fl_base f) r
      then (fun c => (c, flow_id f)) <$> matching_flow_coverage r f else None) (all_flows r));
  healthy ← refutation r ContraCompleteHealthyConnectionMonitor "Complete incident-window monitoring contains "
    " exact healthy test record(s); evidence-set digest "
    (omap (fun m =>
      if bool_decide (cm_status m = MonitorSucceeded) && existsb (engine_same_monitor m) failed_monitors && overlaps_incident (cm_base m) r
      then (fun c => (c, monitor_id m)) <$> matching_monitor_coverage r m else None) (all_monitors r));
  Ok (allowed ++ healthy).

(** The contradictions of a change with its result and with chronology *)
Definition change_contradictions (r : CorrelationRequest) (failed after : string) (change : NormalizedChangeEvidence)
    (change_citation : CorrelationEvidenceCitation) : list CorrelationContradiction :=
  when_ (bool_decide (ch_result change = ChangeFailedResult)) (contradiction ContraChangeFailed failed [change_citation]) ++
  when_ (incident_start r <? ch_occurred_at change) (contradiction ContraChangeAfterDegradation after [change_citation]).

(** _network_contradictions *)
Definition network_contradictions (r : CorrelationRequest) (change : NormalizedChangeEvidence) (change_citation : CorrelationEvidenceCitation)
    (denied_flows : list NetworkFlowObservation) (failed_monitor : option ConnectionMonitorObservation)
    : result (list CorrelationContradiction) :=
  observed ← network_observation_contradictions r denied_flows (option_list failed_monitor);
  Ok (change_contradictions r "The candidate NSG change did not succeed."
        "The candidate NSG change occurred after degradation began." change change_citation ++ observed).

(** ** Network security changes *)

Record NsgChain := {
  nc_flow : option NetworkFlowObservation;
  nc_monitor : option ConnectionMonitorObservation;
  nc_endpoint : option EndpointHealthObservation;
  nc_path : option DependencyPath;
}.

(** [rank_key], which Python compares lexicographically *)
Definition chain_rank : Type := list Z * (string * (string * string)).

Definition text_of {A} (id : A -> string) (o : option A) : string := match o with Some x => id x | None => "" end.

(** The best monitor of each provenance root: without a hard conflict, after the change, covered, recent *)
Definition monitor_options (r : CorrelationRequest) (a : ChangeEvidenceArtifact) (f : NetworkFlowObservation)
    : list (option ConnectionMonitorObservation) :=
  let ordered := sort_by (fun m =>
    ([int_of (chain_has_hard_conflict r f (Some m)); int_of (mo_observed_start (cm_base m) <? ch_occurred_at (art_evidence a));
      int_of (negb (present (matching_monitor_coverage r m))); recency r (cm_base m)], monitor_id m)) (matching_failed_monitors r f) in
  match first_by (fun m => mo_provenance_root_digest (cm_base m)) [] ordered with
  | [] => [None]
  | best => Some <$> best
  end.

(** The best endpoint of each provenance root *)
Definition endpoint_roots (r : CorrelationRequest) (a : ChangeEvidenceArtifact) (f : NetworkFlowObservation) (path : option DependencyPath)
    : list EndpointHealthObservation :=
  let endpoints :=
    match path with Some p => matching_degraded_endpoints r (nt_destination_resource_id (fl_tuple f)) p | None => [] end in
  first_by (fun e => mo_provenance_root_digest (eh_base e)) [] (sort_by (fun e =>
    ([int_of (mo_observed_start (eh_base e) <? ch_occurred_at (art_evidence a));
      int_of (negb (present (matching_endpoint_coverage r e))); recency r (eh_base e)], endpoint_id e)) endpoints).

(** endpoint_options: no endpoint, the best one, those that share a root, and the first that does not *)
Definition endpoint_options (roots : list EndpointHealthObservation) (excluded_roots : list string) : list (option EndpointHealthObservation) :=
  let start := odict_insert "" None [] in
  let start := match roots with e :: _ => odict_insert (endpoint_id e) (Some e) start | [] => start end in
  snd <$> foldl (fun options e =>
    if bool_decide (mo_provenance_root_digest (eh_base e) ∈ excluded_roots) then odict_insert (endpoint_id e) (Some e) options
    else if existsb (fun p => String.eqb p.1 "independent") options then options
    else odict_insert "independent" (Some e) options) start roots.

(** The citations of the observations of a chain *)
Definition chain_ids (f : option NetworkFlowObservation) (m : option ConnectionMonitorObservation) (e : option EndpointHealthObservation)
    : list string :=
  option_list (flow_id <$> f) ++ option_list (monitor_id <$> m) ++ option_list (endpoint_id <$> e).
Definition chain_starts (f : option NetworkFlowObservation) (m : option ConnectionMonitorObservation) (e : option EndpointHealthObservation)
    : list Z :=
  mo_observed_start <$> (option_list (fl_base <$> f) ++ option_list (cm_base <$> m) ++ option_list (eh_base <$> e)).

(** A candidate chain and its rank *)
Definition rank_chain (r : CorrelationRequest) (a : ChangeEvidenceArtifact) (digest : string) (f : NetworkFlowObservation)
    (m : option ConnectionMonitorObservation) (e : option EndpointHealthObservation) (path : option DependencyPath)
    : result (chain_rank * NsgChain) :=
  citations ← cite_all r (chain_ids (Some f) m e);
  binds ← flow_binds_change f a digest;
  Ok (([- int_of (negb (chain_has_hard_conflict r f m));
        - int_of (forallb (fun t => ch_occurred_at (art_evidence a) <=? t) (chain_starts (Some f) m e));
        - int_of (has_complete_nsg_coverage r (Some f) m e path);
        - int_of (present m && present e);
        - Z.of_nat (length (independent_citations citations));
        - int_of binds],
       (flow_id f, (text_of monitor_id m, text_of endpoint_id e))),
      {| nc_flow := Some f; nc_monitor := m; nc_endpoint := e; nc_path := path |}).

(** The chains the loops of _select_nsg_chain try, in their order *)
Definition chain_candidates (r : CorrelationRequest) (a : ChangeEvidenceArtifact) (digest : string) (candidate_flows : list NetworkFlowObservation)
    : result (list (chain_rank * NsgChain)) :=
  mapR (fun '(f, m, e) => rank_chain r a digest f m e (path_by_id r !! nt_path_id (fl_tuple f)))
    (f ← sort_by flow_id candidate_flows;
     m ← monitor_options r a f;
     e ← endpoint_options (endpoint_roots r a f (path_by_id r !! nt_path_id (fl_tuple f)))
           (mo_provenance_root_digest (fl_base f) :: option_list ((fun m => mo_provenance_root_digest (cm_base m)) <$> m));
     [(f, m, e)]).

(** [candidate[0] < best[0]] *)
Definition better {A} (best : option (chain_rank * A)) (candidate : chain_rank * A) : option (chain_rank * A) :=
  match best with
  | Some b => if key_leb b.1 candidate.1 then Some b else Some candidate
  | None => Some candidate
  end.

(** _select_nsg_chain *)
Definition select_nsg_chain (r : CorrelationRequest) (a : ChangeEvidenceArtifact) (digest : string) (candidate_flows : list NetworkFlowObservation)
    : result NsgChain :=
  candidates ← chain_candidates r a digest candidate_flows;
  Ok (match foldl better None candidates with
      | Some (_, chain) => chain
      | None =>
          {| nc_flow := None; nc_monitor := None; nc_endpoint := None;
             nc_path := path_for_resources r [affected_resource r; ch_target_resource_id (art_evidence a)] |}
      end).

(** claimed_flows_by_id: the chosen flow and the attributed flows of its chain, at most sixty-four *)
Definition claim_flow (claimed : list NetworkFlowObservation) (f : NetworkFlowObservation) : list NetworkFlowObservation :=
  if (rc_maximum_gate_evidence_ids CORRELATION_RULE_CATALOG <=? Z.of_nat (length claimed)) ||
     bool_decide (flow_id f ∈ flow_id <$> claimed)
  then claimed else claimed ++ [f].
Definition claimed_chain_flows (r : CorrelationRequest) (a : ChangeEvidenceArtifact) (digest : string) (denied_flow : option NetworkFlowObservation)
    : result (list NetworkFlowObservation) :=
  attributed ← filterR (fun f =>
    if before_and_during r (fl_base f) then
      binds ← flow_binds_change f a digest;
      Ok (binds && bool_decide (Some (nsg_chain_key f) = nsg_chain_key <$> denied_flow))
    else Ok false) (all_flows r);
  Ok (foldl claim_flow (option_list denied_flow)
        (sort_by (fun f => (- int_of (chain_has_hard_conflict r f None), flow_id f)) attributed)).

(** Three gates that several builders share *)
Definition corroboration_gate (independent : list CorrelationEvidenceCitation) (evidenced : bool) : list CorrelationGate :=
  when_ ((2 <=? Z.of_nat (length independent)) && evidenced) (gate GateIndependentCorroboration (ci_evidence_id <$> independent)).
Definition recovery_gate (ids : list string) : list CorrelationGate := when_ (negb (bool_decide (ids = []))) (gate GateRecoveryEvidence ids).
Definition conflict_gate (hard_conflict : bool) : list CorrelationGate := when_ (negb hard_conflict) (gate GateNoHardConflict []).

Definition cite_option (r : CorrelationRequest) (id : option string) : result (option CorrelationEvidenceCitation) :=
  match id with Some i => Some <$> cite r i | None => Ok None end.

(** What a network security hypothesis rests on: the chain, its claimed flows and
    citations, the scores and the recovery of the endpoint *)
Record NsgEvidence := {
  ne_chain : NsgChain;
  ne_claimed : list NetworkFlowObservation;
  ne_attributed : bool;
  ne_semantic_match : bool;
  ne_path_citation : option CorrelationEvidenceCitation;
  ne_support : list CorrelationEvidenceCitation;
  ne_corroboration_support : list CorrelationEvidenceCitation;
  ne_contradictions : list CorrelationContradiction;
}.

(** The gates of _network_security_hypothesis before the confidence is known *)
Definition nsg_gates (r : CorrelationRequest) (change : NormalizedChangeEvidence) (change_citation : CorrelationEvidenceCitation)
    (n : NsgEvidence) : list CorrelationGate :=
  let c := ne_chain n in
  let succeeded := bool_decide (ch_result change = ChangeSucceeded) in
  let independent := independent_citations (ne_corroboration_support n) in
  when_ succeeded (gate_of GateSuccessfulChange change_citation) ++
  option_list (gate_of GateAffectedPath <$> ne_path_citation n) ++
  when_ (ne_semantic_match n) (gate_of GateSemanticMatch change_citation) ++
  when_ (negb (match ne_claimed n with [] => true | _ => false end))
    (gate GateMatchingDeniedFlow (sort_strings (flow_id <$> ne_claimed n))) ++
  (if ne_attributed n then option_list (gate GateEffectiveRuleAttribution ∘ (fun f => [flow_id f]) <$> nc_flow c) else []) ++
  option_list (gate GateConnectionMonitorFailure ∘ (fun m => [monitor_id m]) <$> nc_monitor c) ++
  option_list (gate GateEndpointDegradation ∘ (fun e => [endpoint_id e]) <$> nc_endpoint c) ++
  corroboration_gate independent (present (ne_path_citation n)) ++
  when_ (succeeded && (ch_occurred_at change <=? incident_start r)) (gate_of GateCorrectChronology change_citation) ++
  conflict_gate (existsb cn_hard_conflict (ne_contradictions n)).

(** Its missing evidence and confidence caps *)
Definition nsg_missing (r : CorrelationRequest) (n : NsgEvidence) : list MissingCorrelationEvidence :=
  let c := ne_chain n in
  when_ (negb (present (ne_path_citation n))) (missing MissAffectedPath FamDeclaredContext
    "No governed dependency path binds the change to the incident resource." CfMedium) ++
  when_ (negb (ne_attributed n)) (missing MissEffectiveRuleAttribution FamNetworkFlow
    "No direct effective-rule or IP Flow Verify attribution is available." CfConfirmed) ++
  when_ (negb (present (nc_flow c))) (missing MissDeniedFlow FamNetworkFlow
    "No incident-overlapping denied flow matches the changed rule." CfHigh) ++
  when_ (negb (present (nc_monitor c))) (missing MissConnectionMonitorResult FamConnectionMonitor
    "No matching failed Connection Monitor result is available." CfConfirmed) ++
  when_ (negb (present (nc_endpoint c))) (missing MissEndpointHealth FamEndpointHealth
    "No matching endpoint degradation is available." CfConfirmed) ++
  when_ (negb (has_complete_nsg_coverage r (nc_flow c) (nc_monitor c) (nc_endpoint c) (nc_path c)))
    (missing MissCompleteObservationWindow FamNetworkFlow
      "Complete path and test coverage is not available for the incident interval." CfConfirmed).

Definition nsg_caps (change : NormalizedChangeEvidence) (n : NsgEvidence) : list ConfidenceCap :=
  let monitoring := select (fun c => negb (bool_decide (ci_family c = FamResourceChange))) (ne_support n) in
  let independent := independent_citations (ne_corroboration_support n) in
  when_ (match monitoring with [] => true | _ => false end) (cap CapRecentChangeOnly None) ++
  when_ (negb (present (ne_path_citation n))) (cap CapMissingAffectedPath None) ++
  when_ ((Z.of_nat (length independent) <? 2) || negb (present (ne_path_citation n))) (cap CapMissingIndependentSupport None) ++
  when_ (negb (ne_attributed n))
    (cap CapMissingDirectAttribution (Some (rc_unattributed_nsg_max_confidence CORRELATION_RULE_CATALOG))) ++
  when_ (existsb (fun c => ci_observed_start c <? ch_occurred_at change) monitoring) (cap CapAmbiguousObservationWindow None).

(** confirmed *)
Definition nsg_confirmed (r : CorrelationRequest) (change : NormalizedChangeEvidence) (n : NsgEvidence) (raw_without_recovery : Z) : bool :=
  let c := ne_chain n in
  (confidence_threshold CfConfirmed <=? raw_without_recovery) && bool_decide (ch_result change = ChangeSucceeded) &&
  ne_semantic_match n && present (nc_path c) &&
  match nc_flow c with Some f => fl_effective_rule_attribution f | None => false end &&
  present (nc_monitor c) && present (nc_endpoint c) &&
  (3 <=? Z.of_nat (length (independent_citations (ne_corroboration_support n)))) &&
  negb (existsb cn_hard_conflict (ne_contradictions n)) &&
  negb (existsb (fun m => bool_decide (me_required_for_confidence m = CfConfirmed)) (nsg_missing r n)).

(** [degraded_endpoint or denied_flow or failed_monitor], when there is a path *)
Definition path_observation (c : NsgChain) : option string :=
  match nc_path c with
  | None => None
  | Some _ =>
      match nc_endpoint c, nc_flow c, nc_monitor c with
      | Some e, _, _ => Some (endpoint_id e)
      | None, Some f, _ => Some (flow_id f)
      | None, None, m => monitor_id <$> m
      end
  end.

(** _network_security_hypothesis *)
Definition network_security_hypothesis (r : CorrelationRequest) (a : ChangeEvidenceArtifact) (digest : string)
    (candidate_flows : list NetworkFlowObservation) : result RootCauseHypothesis :=
  let change := art_evidence a in
  change_citation ← cite r (ch_evidence_id change);
  chain ← select_nsg_chain r a digest candidate_flows;
  claimed ← claimed_chain_flows r a digest (nc_flow chain);
  attributed ← match nc_flow chain with Some f => flow_binds_change f a digest | None => Ok false end;
  observed ← cite_all r ((flow_id <$> claimed) ++ option_list (monitor_id <$> nc_monitor chain) ++
                         option_list (endpoint_id <$> nc_endpoint chain));
  let semantic_match := existsb (fun p => is_nsg_property (cp_path p)) (ch_changed_properties change) in
  let topology := topology_score (nc_path chain) (ch_target_resource_id change) (affected_resource r) in
  let temporal := temporal_score (ch_occurred_at change) (incident_start r) in
  let semantic := if attributed : bool then weight "nsgDirectSemantic" else if semantic_match then weight "nsgCausalSemantic" else 0 in
  corroborated ← nsg_corroboration r (nc_flow chain) (nc_monitor chain) (nc_endpoint chain);
  let '(corroboration, corroboration_support) := corroborated in
  recovered ← (if semantic_match
               then recovery_assessment r (ch_target_resource_id change) (Some a) (EndpointObs <$> nc_endpoint chain)
               else Ok (0, [], []));
  let '(recovery, recovery_support, recovery_ids) := recovered in
  score ← score_of topology temporal semantic corroboration recovery;
  path_citation ← cite_option r (path_observation chain);
  contradictions ← network_contradictions r change change_citation claimed (nc_monitor chain);
  let n := {| ne_chain := chain; ne_claimed := claimed; ne_attributed := attributed; ne_semantic_match := semantic_match;
              ne_path_citation := path_citation; ne_support := [change_citation] ++ observed ++ recovery_support;
              ne_corroboration_support := corroboration_support; ne_contradictions := contradictions |} in
  let hard_conflict := existsb cn_hard_conflict contradictions in
  let confirmed := nsg_confirmed r change n (sc_raw_score score - recovery) in
  let unrecovered := confirmed && negb (match recovery_support with [] => true | _ => false end) in
  let support :=
    if unrecovered then select (fun c => negb (bool_decide (ci_evidence_id c ∈ ci_evidence_id <$> recovery_support))) (ne_support n)
    else ne_support n in
  score ← (if unrecovered then score_of topology temporal semantic corroboration 0 else Ok score);
  let gates := nsg_gates r change change_citation n in
  make_hypothesis {|
    pt_category := RcNetworkSecurityChange; pt_cause_resource_id := Some (ch_target_resource_id change);
    pt_path_id := dp_path_id <$> nc_path chain; pt_candidate_causal_at := Some (ch_occurred_at change); pt_score := score;
    pt_confidence := classify_confidence (sc_raw_score score) (nsg_caps change n) hard_conflict confirmed;
    pt_support := support; pt_contradictions := contradictions; pt_missing := nsg_missing r n;
    pt_gates := if confirmed then select (fun g => bool_decide (ga_code g ∈ NETWORK_SECURITY_CONFIRMED_GATES)) gates
                else gates ++ recovery_gate recovery_ids;
    pt_caps := nsg_caps change n; pt_omitted_candidate_count := None; pt_omitted_candidate_digest := None |}.

(** The affected resource is an end of the flow, or an endpoint shows its degradation. *)
Definition flow_reaches_incident (r : CorrelationRequest) (f : NetworkFlowObservation) : bool :=
  match path_by_id r !! nt_path_id (fl_tuple f) with
  | Some p =>
      bool_decide (affected_resource r ∈ dp_resource_ids p) &&
      (bool_decide (affected_resource r ∈ [mo_subject_resource_id (fl_base f); nt_source_resource_id (fl_tuple f);
                                           nt_destination_resource_id (fl_tuple f)]) ||
       negb (match matching_degraded_endpoints r (nt_destination_resource_id (fl_tuple f)) p with [] => true | _ => false end))
  | None => false
  end.

(** [sorted(groups)] of the elements grouped by key *)
Definition group_keys {A} (key : A -> list string) (l : list A) : list (list string) := sort_by id (remove_dups (key <$> l)).
Definition group {A} (key : A -> list string) (l : list A) (k : list string) : list A := select (fun x => bool_decide (key x = k)) l.

(** _network_security_hypotheses *)
Definition network_security_hypotheses (r : CorrelationRequest) (a : ChangeEvidenceArtifact) : result (list RootCauseHypothesis) :=
  digest ← artifact_digest a;
  candidates ← filterR (candidate_flow r a digest) (all_flows r);
  let flows := select (flow_reaches_incident r) candidates in
  match group_keys nsg_chain_key flows with
  | [] => h ← network_security_hypothesis r a digest []; Ok [h]
  | keys => mapR (fun k => network_security_hypothesis r a digest (sort_by flow_id (group nsg_chain_key flows k))) keys
  end.

(** ** Other causes *)

Definition is_empty {A} (l : list A) : bool := match l with [] => true | _ => false end.

(** The observed adverse citations a hypothesis of this path draws on *)
Definition relevant_adverse (r : CorrelationRequest) (adverse : gset string) (path : option DependencyPath) : list CorrelationEvidenceCitation :=
  select (fun c => bool_decide (ci_evidence_id c ∈ adverse) && citation_relevant r path c) (rq_evidence_index r).

(** _change_hypothesis *)
Definition change_category (change : NormalizedChangeEvidence) : RootCauseCategory :=
  if contains "routetables/routes" (casefold (ch_target_resource_type change)) then RcRoutingChange else RcDeploymentChange.
Definition change_gates (r : CorrelationRequest) (change : NormalizedChangeEvidence) (citation : CorrelationEvidenceCitation) (semantic_score : Z)
    (path_evidence : option CorrelationEvidenceCitation) (independent : list CorrelationEvidenceCitation) (recovery_ids : list string)
    (hard_conflict : bool) : list CorrelationGate :=
  when_ (bool_decide (ch_result change = ChangeSucceeded)) (gate_of GateSuccessfulChange citation) ++
  when_ (0 <? semantic_score) (gate_of GateSemanticMatch citation) ++
  when_ (ch_occurred_at change <=? incident_start r) (gate_of GateCorrectChronology citation) ++
  option_list (gate_of GateAffectedPath <$> path_evidence) ++
  corroboration_gate independent (present path_evidence) ++ recovery_gate recovery_ids ++ conflict_gate hard_conflict.
Definition change_caps (change : NormalizedChangeEvidence) (monitoring independent : list CorrelationEvidenceCitation)
    (path_evidence : option CorrelationEvidenceCitation) : list ConfidenceCap :=
  when_ (is_empty monitoring) (cap CapRecentChangeOnly None) ++
  when_ (negb (present path_evidence)) (cap CapMissingAffectedPath None) ++
  when_ ((Z.of_nat (length independent) <? 2) || negb (present path_evidence)) (cap CapMissingIndependentSupport None) ++
  [cap CapMissingDirectAttribution (Some (rc_generic_max_confidence CORRELATION_RULE_CATALOG))] ++
  when_ (existsb (fun c => ci_observed_start c <? ch_occurred_at change) monitoring) (cap CapAmbiguousObservationWindow None).
Definition change_hypothesis (r : CorrelationRequest) (adverse : gset string) (a : ChangeEvidenceArtifact) : result RootCauseHypothesis :=
  let change := art_evidence a in
  citation ← cite r (ch_evidence_id change);
  let category := change_category change in
  let path := path_for_resources r [affected_resource r; ch_target_resource_id change] in
  let monitoring := relevant_adverse r adverse path in
  let contradictions := change_contradictions r "The candidate change did not succeed."
    "The candidate change occurred after degradation began." change citation in
  let independent := independent_citations monitoring in
  let semantic := change_semantic_score a category in
  recovered ← recovery_assessment r (ch_target_resource_id change) (Some a) None;
  let '(recovery, recovery_support, recovery_ids) := recovered in
  score ← score_of (topology_score path (ch_target_resource_id change) (affected_resource r))
            (temporal_score (ch_occurred_at change) (incident_start r)) semantic
            (corroboration_score (Z.of_nat (length independent))) recovery;
  let path_evidence := first_path_citation r monitoring path in
  let hard_conflict := existsb cn_hard_conflict contradictions in
  let caps := change_caps change monitoring independent path_evidence in
  make_hypothesis {|
    pt_category := category; pt_cause_resource_id := Some (ch_target_resource_id change); pt_path_id := dp_path_id <$> path;
    pt_candidate_causal_at := Some (ch_occurred_at change); pt_score := score;
    pt_confidence := classify_confidence (sc_raw_score score) caps hard_conflict false;
    pt_support := [citation] ++ take 4 monitoring ++ recovery_support; pt_contradictions := contradictions; pt_missing := [];
    pt_gates := change_gates r change citation semantic path_evidence independent recovery_ids hard_conflict;
    pt_caps := caps; pt_omitted_candidate_count := None; pt_omitted_candidate_digest := None |}.

(** _dependency_hypotheses: denied flows and failed monitors of one network tuple *)
Definition denied_flows (r : CorrelationRequest) : list NetworkFlowObservation :=
  select (fun f => bool_decide (fl_decision f = FlowDenied) && before_and_during r (fl_base f)) (all_flows r).
Definition failed_monitors (r : CorrelationRequest) : list ConnectionMonitorObservation :=
  select (fun m => bool_decide (cm_status m = MonitorFailed) && before_and_during r (cm_base m)) (all_monitors r).
Definition dependency_keys (r : CorrelationRequest) : list (list string) :=
  group_keys id ((network_tuple_key ∘ fl_tuple <$> denied_flows r) ++ (network_tuple_key ∘ cm_tuple <$> failed_monitors r)).

(** The flow and the monitor of a group: covered first, then the most recent *)
Definition group_flow (r : CorrelationRequest) (key : list string) : option NetworkFlowObservation :=
  head (sort_by (fun f => (int_of (negb (present (matching_flow_coverage r f))), (recency r (fl_base f), flow_id f)))
    (group (network_tuple_key ∘ fl_tuple) (denied_flows r) key)).
Definition group_monitor (r : CorrelationRequest) (key : list string) : option ConnectionMonitorObservation :=
  head (sort_by (fun m => (int_of (negb (present (matching_monitor_coverage r m))), (recency r (cm_base m), monitor_id m)))
    (group (network_tuple_key ∘ cm_tuple) (failed_monitors r) key)).

(** The least and the greatest of a nonempty list; Python raises on an empty one *)
Definition least (l : list Z) : result Z := match l with x :: l => Ok (foldl Z.min x l) | [] => Raise (ValueError "min() arg is an empty sequence") end.
Definition greatest (l : list Z) : result Z := match l with x :: l => Ok (foldl Z.max x l) | [] => Raise (ValueError "max() arg is an empty sequence") end.

(** missing and caps of _dependency_hypothesis *)
Definition dependency_missing (f : option NetworkFlowObservation) (m : option ConnectionMonitorObservation) (e : option EndpointHealthObservation)
    (path_citation : option CorrelationEvidenceCitation) (complete_window : bool) : list MissingCorrelationEvidence :=
  when_ (negb (present path_citation)) (missing MissAffectedPath FamDeclaredContext
    "No governed dependency path binds the failed connection." CfMedium) ++
  when_ (negb (present f)) (missing MissDeniedFlow FamNetworkFlow
    "No matching denied flow is available for the failed dependency." CfHigh) ++
  when_ (negb (present m)) (missing MissConnectionMonitorResult FamConnectionMonitor
    "No matching failed Connection Monitor result is available." CfHigh) ++
  when_ (negb (present e)) (missing MissEndpointHealth FamEndpointHealth
    "No matching endpoint degradation is available." CfHigh) ++
  when_ (negb complete_window) (missing MissCompleteObservationWindow (if present f then FamNetworkFlow else FamConnectionMonitor)
    "Complete incident-window dependency evidence is unavailable." CfHigh).
Definition generic_caps (path_evidence : option CorrelationEvidenceCitation) (independent : list CorrelationEvidenceCitation)
    (complete_window : bool) : list ConfidenceCap :=
  [cap CapMissingDirectAttribution (Some (rc_generic_max_confidence CORRELATION_RULE_CATALOG))] ++
  when_ (negb (present path_evidence)) (cap CapMissingAffectedPath None) ++
  when_ ((Z.of_nat (length independent) <? 2) || negb (present path_evidence)) (cap CapMissingIndependentSupport None) ++
  when_ (negb complete_window) (cap CapAmbiguousObservationWindow None).

(** [all(coverage(item) is not None for item in selected)] *)
Definition all_covered (r : CorrelationRequest) (f : option NetworkFlowObservation) (m : option ConnectionMonitorObservation)
    (e : option EndpointHealthObservation) : bool :=
  forallb (fun f => present (matching_flow_coverage r f)) (option_list f) &&
  forallb (fun m => present (matching_monitor_coverage r m)) (option_list m) &&
  forallb (fun e => present (matching_endpoint_coverage r e)) (option_list e).

(** gates of _dependency_hypothesis *)
Definition dependency_gates (f : option NetworkFlowObservation) (m : option ConnectionMonitorObservation) (e : option EndpointHealthObservation)
    (path_citation : option CorrelationEvidenceCitation) (independent : list CorrelationEvidenceCitation) (recovery_ids : list string)
    (hard_conflict : bool) : list CorrelationGate :=
  option_list (gate_of GateAffectedPath <$> path_citation) ++
  option_list (gate GateMatchingDeniedFlow ∘ (fun f => [flow_id f]) <$> f) ++
  option_list (gate GateConnectionMonitorFailure ∘ (fun m => [monitor_id m]) <$> m) ++
  option_list (gate GateEndpointDegradation ∘ (fun e => [endpoint_id e]) <$> e) ++
  corroboration_gate independent (present path_citation) ++ recovery_gate recovery_ids ++ conflict_gate hard_conflict.

(** _dependency_hypothesis; a monitor of a group has failed *)
Definition dependency_hypothesis (r : CorrelationRequest) (f : option NetworkFlowObservation) (m : option ConnectionMonitorObservation)
    (e : option EndpointHealthObservation) (path : DependencyPath) : result RootCauseHypothesis :=
  support ← cite_all r (chain_ids f m e);
  let independent := independent_citations support in
  cause ← match f, m with
          | Some f, _ => Ok (nt_destination_resource_id (fl_tuple f))
          | None, Some m => Ok (nt_destination_resource_id (cm_tuple m))
          | None, None => Raise (ValueError "dependency hypothesis requires flow or monitor evidence")
          end;
  candidate_causal_at ← least (chain_starts f m e);
  recovered ← recovery_assessment r cause None (EndpointObs <$> e);
  let '(recovery, recovery_support, recovery_ids) := recovered in
  temporal ← greatest ((fun t => temporal_score t (incident_start r)) <$> chain_starts f m e);
  score ← score_of (topology_score (Some path) cause (affected_resource r)) temporal (weight "observationSemantic")
            (corroboration_score (Z.max 0 (Z.of_nat (length independent) - 1))) recovery;
  path_citation ← path_gate_citation r (Some path) f e;
  contradictions ← network_observation_contradictions r (option_list f) (option_list m);
  let hard_conflict := existsb cn_hard_conflict contradictions in
  let complete_window := all_covered r f m e in
  let caps := generic_caps path_citation independent complete_window in
  make_hypothesis {|
    pt_category := RcDependencyFailure; pt_cause_resource_id := Some cause; pt_path_id := Some (dp_path_id path);
    pt_candidate_causal_at := Some candidate_causal_at; pt_score := score;
    pt_confidence := classify_confidence (sc_raw_score score) caps hard_conflict false;
    pt_support := support ++ recovery_support; pt_contradictions := contradictions;
    pt_missing := dependency_missing f m e path_citation complete_window;
    pt_gates := dependency_gates f m e path_citation independent recovery_ids hard_conflict; pt_caps := caps;
    pt_omitted_candidate_count := None; pt_omitted_candidate_digest := None |}.

(** The hypothesis of one group, when its path and one of its ends reach the incident *)
Definition group_hypothesis (r : CorrelationRequest) (key : list string) : result (list RootCauseHypothesis) :=
  let f := group_flow r key in
  let m := group_monitor r key in
  match (match f, m with Some f, _ => Some (fl_tuple f) | None, Some m => Some (cm_tuple m) | None, None => None end) with
  | None => Ok []
  | Some t =>
      match path_by_id r !! nt_path_id t with
      | Some path =>
          let e := best_dependency_endpoint r (nt_destination_resource_id t) path in
          let directly_connected := bool_decide (affected_resource r ∈ [nt_source_resource_id t; nt_destination_resource_id t]) in
          let endpoint_bridge :=
            match e with
            | Some e =>
                let subject := mo_subject_resource_id (eh_base e) in
                String.eqb subject (affected_resource r) &&
                (String.eqb subject (nt_destination_resource_id t) || bool_decide (nt_destination_resource_id t ∈ eh_backend_resource_ids e))
            | None => false
            end in
          if bool_decide (affected_resource r ∈ dp_resource_ids path) && (directly_connected || endpoint_bridge)
          then h ← dependency_hypothesis r f m e path; Ok [h] else Ok []
      | None => Ok []
      end
  end.
Definition dependency_hypotheses (r : CorrelationRequest) : result (list RootCauseHypothesis) :=
  hs ← mapR (group_hypothesis r) (dependency_keys r); Ok (concat hs).

(** _observation_has_governed_connection *)
Definition governed_connection (r : CorrelationRequest) (o : MonitoringObservation) : bool :=
  let subject := mo_subject_resource_id (ob_base o) in
  String.eqb subject (affected_resource r) || present (path_for_resources r [affected_resource r; subject]).

(** The category of an observation: of _guest_hypothesis, or the one _compute_hypotheses passes *)
Definition observation_category (o : MonitoringObservation) : RootCauseCategory :=
  match o with
  | GuestObs g => if bool_decide (gs_signal g ∈ [HeartbeatLoss; ServiceFailure]) then RcGuestServiceFailure else RcGuestResourcePressure
  | PlatformObs _ => RcPlatformHealth
  | _ => RcBackendHealth
  end.

(** _observation_hypothesis *)
Definition observation_hypothesis (r : CorrelationRequest) (adverse : gset string) (o : MonitoringObservation) : result RootCauseHypothesis :=
  let subject := mo_subject_resource_id (ob_base o) in
  citation ← cite r (ob_id o);
  let path :=
    match o with
    | EndpointObs e => path_by_id r !! eh_path_id e
    | _ => path_for_resources r [affected_resource r; subject]
    end in
  let related := select (fun c => negb (String.eqb (ci_evidence_id c) (ci_evidence_id citation)) &&
                                  negb (bool_decide (ci_family c = FamResourceChange))) (relevant_adverse r adverse path) in
  let support := citation :: take 4 related in
  let independent := independent_citations support in
  let path_evidence := first_path_citation r support path in
  let topology :=
    if present path_evidence then weight "topologyExactPath"
    else if String.eqb subject (affected_resource r) then weight "topologyDeclaredPath" else 0 in
  recovered ← recovery_assessment r subject None (match o with PlatformObs _ => None | _ => Some o end);
  let '(recovery, recovery_support, recovery_ids) := recovered in
  score ← score_of topology (temporal_score (ob_start o) (incident_start r)) (weight "observationSemantic")
            (corroboration_score (Z.max 0 (Z.of_nat (length independent) - 1))) recovery;
  let complete_window := has_complete_coverage r o path in
  let caps := generic_caps path_evidence independent complete_window in
  make_hypothesis {|
    pt_category := observation_category o; pt_cause_resource_id := Some subject;
    pt_path_id := match path_evidence with Some _ => dp_path_id <$> path | None => None end;
    pt_candidate_causal_at := Some (ob_start o); pt_score := score;
    pt_confidence := classify_confidence (sc_raw_score score) caps false false;
    pt_support := support ++ recovery_support; pt_contradictions := [];
    pt_missing := when_ (negb complete_window) (missing MissCompleteObservationWindow (ci_family citation)
      "Complete incident-window coverage is unavailable for this signal." CfHigh);
    pt_gates := option_list (gate_of GateAffectedPath <$> path_evidence) ++
      corroboration_gate independent (present path_evidence) ++ recovery_gate recovery_ids ++ conflict_gate false;
    pt_caps := caps; pt_omitted_candidate_count := None; pt_omitted_candidate_digest := None |}.

(** The parts of a hypothesis without a cause *)
Definition unknown_parts (score : CorrelationScoreComponents) (support : list CorrelationEvidenceCitation)
    (absent : MissingCorrelationEvidence) (omitted_count : option Z) (omitted_digest : option string) : HypothesisParts := {|
  pt_category := RcUnknown; pt_cause_resource_id := None; pt_path_id := None; pt_candidate_causal_at := None; pt_score := score;
  pt_confidence := CfUnknown; pt_support := support; pt_contradictions := []; pt_missing := [absent]; pt_gates := [];
  pt_caps := [cap CapMissingAffectedPath None; cap CapMissingIndependentSupport None];
  pt_omitted_candidate_count := omitted_count; pt_omitted_candidate_digest := omitted_digest |}.

(** _unknown_hypothesis *)
Definition unknown_hypothesis (r : CorrelationRequest) : result RootCauseHypothesis :=
  score ← score_of 0 0 0 0 0;
  make_hypothesis (unknown_parts score (it_current_state_evidence (rq_incident_anchor r))
    (missing MissChangeDetails FamResourceChange "No sufficiently bound causal evidence produced a ranked explanation." CfLow) None None).

(** _overflow_hypothesis *)
Definition overflow_hypothesis (omitted : list RootCauseHypothesis) : result RootCauseHypothesis :=
  omitted_digest ← compute_artifact_digest (texts (hy_hypothesis_digest <$> omitted));
  score ← score_of 0 0 0 0 0;
  let count := Z.of_nat (length omitted) in
  make_hypothesis (unknown_parts score []
    (missing MissOmittedCandidates FamResourceChange
      (pretty count +:+ " lower-ranked candidates were omitted from the bounded report; digest " +:+ omitted_digest +:+ ".") CfLow)
    (Some count) (Some omitted_digest)).

(** _deduplicate_hypotheses *)
Definition duplicate_key (h : RootCauseHypothesis) : RootCauseCategory * (option string * (option string * string)) :=
  (hy_category h, (hy_cause_resource_id h, (hy_affected_path_id h, hy_hypothesis_digest h))).
Definition deduplicate_hypotheses (hs : list RootCauseHypothesis) : list RootCauseHypothesis :=
  snd <$> foldl (fun d h => odict_insert (duplicate_key h) h d) [] hs.

(** _hypothesis_sort_key; a hypothesis without a causal time comes last *)
Definition hypothesis_sort_key (h : RootCauseHypothesis) : list Z * (string * string) :=
  ([- confidence_rank (hy_confidence h); - sc_raw_score (hy_score h);
    Z.of_nat (length (select cn_hard_conflict (hy_contradictions h))); Z.of_nat (length (hy_contradictions h));
    Z.of_nat (length (hy_missing_evidence h))] ++
   match hy_candidate_causal_at h with Some t => [0; - t] | None => [1; 0] end ++ [category_order (hy_category h)],
   (casefold (default "" (hy_cause_resource_id h)), hy_hypothesis_digest h)).

(** ** The candidate budget *)

(** failed_monitor_roots and endpoint_roots: how many provenance roots an entry has *)
Definition failed_monitor_roots (r : CorrelationRequest) (key : list string) : Z :=
  Z.of_nat (length (remove_dups ((fun m => mo_provenance_root_digest (cm_base m)) <$> group (network_tuple_key ∘ cm_tuple) (failed_monitors r) key))).
Definition degraded_endpoints (r : CorrelationRequest) : list EndpointHealthObservation :=
  select (fun e => is_degraded (eh_status e) && before_and_during r (eh_base e)) (all_endpoints r).
Definition degraded_endpoint_roots (r : CorrelationRequest) (path_id resource_id : string) : Z :=
  Z.of_nat (length (remove_dups ((fun e => mo_provenance_root_digest (eh_base e)) <$>
    select (fun e => String.eqb (eh_path_id e) path_id &&
                     bool_decide (resource_id ∈ mo_subject_resource_id (eh_base e) :: eh_backend_resource_ids e)) (degraded_endpoints r)))).

(** The work of the chains that start from one flow *)
Definition flow_work (r : CorrelationRequest) (f : NetworkFlowObservation) : Z :=
  Z.max 1 (failed_monitor_roots r (network_tuple_key (fl_tuple f))) *
  Z.max 1 (1 + degraded_endpoint_roots r (nt_path_id (fl_tuple f)) (nt_destination_resource_id (fl_tuple f))).

Definition is_nsg_rule (change : NormalizedChangeEvidence) : bool :=
  String.eqb (casefold (ch_target_resource_type change)) "microsoft.network/networksecuritygroups/securityrules".
Definition observation_count (r : CorrelationRequest) : Z := Z.max 1 (Z.of_nat (length (observations r))).

(** What a change adds to (estimated, work_units) *)
Definition artifact_cost (r : CorrelationRequest) (a : ChangeEvidenceArtifact) : result (Z * Z) :=
  if is_nsg_rule (art_evidence a) then
    digest ← artifact_digest a;
    flows ← filterR (candidate_flow r a digest) (all_flows r);
    Ok (Z.max 1 (Z.of_nat (length (remove_dups (nsg_chain_key <$> flows)))),
        Z.max 1 (foldr Z.add 0 (flow_work r <$> flows)) * observation_count r * 3)
  else Ok (1, Z.of_nat (length (rq_evidence_index r)) + observation_count r).

Definition budget_exceeded (maximum maximum_work_units : Z) (spent : Z * Z) : bool :=
  (maximum <? spent.1) || (maximum_work_units <? spent.2).
Definition require_budget (maximum maximum_work_units : Z) (spent : Z * Z) : result (Z * Z) :=
  _ ← raise_if (ValueError "correlation candidate budget exceeded") (budget_exceeded maximum maximum_work_units spent); Ok spent.
Definition charge_artifact (r : CorrelationRequest) (maximum maximum_work_units : Z) (spent : Z * Z) (a : ChangeEvidenceArtifact)
    : result (Z * Z) :=
  if incident_start r <? ch_occurred_at (art_evidence a) then Ok spent
  else
    cost ← artifact_cost r a;
    require_budget maximum maximum_work_units (spent.1 + cost.1, spent.2 + cost.2).

(** An observation that _observation_hypothesis may explain *)
Definition is_generic (o : MonitoringObservation) : bool := match o with GuestObs _ | EndpointObs _ | PlatformObs _ => true | _ => false end.

(** _enforce_candidate_budget *)
Definition enforce_candidate_budget (r : CorrelationRequest) (adverse : gset string) (maximum maximum_work_units : Z) : result unit :=
  _ ← raise_if (ValueError "correlation candidate limit must be a positive integer") (maximum <? 1);
  _ ← raise_if (ValueError "correlation work limit must be a positive integer") (maximum_work_units <? 1);
  spent ← foldR (charge_artifact r maximum maximum_work_units) (0, 0) (rq_change_artifacts r);
  let dependency_groups := Z.of_nat (length (dependency_keys r)) in
  let generic_count := Z.of_nat (length (select (fun o =>
    before_and_during r (ob_base o) && is_generic o && bool_decide (ob_id o ∈ adverse)) (observations r))) in
  _ ← require_budget maximum maximum_work_units
        (spent.1 + dependency_groups + generic_count,
         spent.2 + (observation_count r + dependency_groups * observation_count r) +
         (observation_count r + generic_count * (Z.of_nat (length (rq_evidence_index r)) + observation_count r)));
  Ok tt.

(** ** All hypotheses *)

(** The hypotheses of one change *)
Definition artifact_hypotheses (r : CorrelationRequest) (adverse : gset string) (a : ChangeEvidenceArtifact) : result (list RootCauseHypothesis) :=
  if incident_start r <? ch_occurred_at (art_evidence a) then Ok []
  else if is_nsg_rule (art_evidence a) then network_security_hypotheses r a
  else h ← change_hypothesis r adverse a; Ok [h].

(** The hypothesis of one observation *)
Definition explains (r : CorrelationRequest) (o : MonitoringObservation) : bool :=
  before_and_during r (ob_base o) &&
  match o with
  | GuestObs g => is_degraded (gs_state g) && governed_connection r o
  | PlatformObs p => is_degraded (ph_status p) && governed_connection r o
  | EndpointObs e =>
      is_degraded (eh_status e) &&
      match path_by_id r !! eh_path_id e with Some p => bool_decide (affected_resource r ∈ dp_resource_ids p) | None => false end
  | _ => false
  end.
Definition observation_hypotheses (r : CorrelationRequest) (adverse : gset string) (o : MonitoringObservation) : result (list RootCauseHypothesis) :=
  if explains r o then h ← observation_hypothesis r adverse o; Ok [h] else Ok [].

(** The candidates before they are deduplicated *)
Definition candidate_hypotheses (r : CorrelationRequest) (adverse : gset string) : result (list RootCauseHypothesis) :=
  changes ← mapR (artifact_hypotheses r adverse) (rq_change_artifacts r);
  dependencies ← dependency_hypotheses r;
  observed ← mapR (observation_hypotheses r adverse) (observations r);
  Ok (concat changes ++ dependencies ++ concat observed).

(** _compute_hypotheses; the catalog is compatible with the contract *)
Definition compute_hypotheses (r : CorrelationRequest) (adverse : gset string) (budget_prechecked : bool) : result (list RootCauseHypothesis) :=
  _ ← guard_or (RuntimeError "WC-026 correlation contracts do not match the engine rule catalog")
        (contract_compatible CORRELATION_RULE_CATALOG);
  catalog_digest ← rule_catalog_digest;
  _ ← guard_or (ValueError "verified request does not match the engine rule catalog")
        (String.eqb (rq_rule_catalog_digest r) catalog_digest);
  _ ← (if budget_prechecked then Ok tt
       else enforce_candidate_budget r adverse (rc_maximum_candidate_hypotheses CORRELATION_RULE_CATALOG)
              (rc_maximum_evaluation_work_units CORRELATION_RULE_CATALOG));
  candidates ← candidate_hypotheses r adverse;
  hypotheses ← match deduplicate_hypotheses candidates with
               | [] => h ← unknown_hypothesis r; Ok [h]
               | hs => Ok hs
               end;
  Ok (sort_by hypothesis_sort_key hypotheses).

(** ** The report (correlation/verification.py) *)

(** RootCauseHypothesis.model_validate of a dumped hypothesis with another rank *)
Definition with_rank (h : RootCauseHypothesis) (rank : Z) : RootCauseHypothesis := {|
  hy_hypothesis_id := hy_hypothesis_id h; hy_rank := rank; hy_category := hy_category h; hy_cause_resource_id := hy_cause_resource_id h;
  hy_affected_path_id := hy_affected_path_id h; hy_candidate_causal_at := hy_candidate_causal_at h; hy_score := hy_score h;
  hy_confidence := hy_confidence h; hy_supporting_evidence := hy_supporting_evidence h; hy_contradictions := hy_contradictions h;
  hy_missing_evidence := hy_missing_evidence h; hy_omitted_candidate_count := hy_omitted_candidate_count h;
  hy_omitted_candidate_digest := hy_omitted_candidate_digest h; hy_gates := hy_gates h; hy_caps := hy_caps h;
  hy_hypothesis_digest := hy_hypothesis_digest h |}.
Definition rank_hypothesis (h : RootCauseHypothesis) (rank : Z) : result RootCauseHypothesis :=
  _ ← make_score (hy_score h);
  _ ← mapR make_citation (hy_supporting_evidence h);
  _ ← mapR make_contradiction (hy_contradictions h);
  _ ← mapR make_missing (hy_missing_evidence h);
  _ ← mapR make_gate (hy_gates h);
  make_hypothesis_model (with_rank h rank).

(** _rank_hypotheses *)
Fixpoint rank_from (rank : Z) (hs : list RootCauseHypothesis) : result (list RootCauseHypothesis) :=
  match hs with
  | [] => Ok []
  | h :: hs => h ← rank_hypothesis h rank; rest ← rank_from (rank + 1) hs; Ok (h :: rest)
  end.
Definition rank_hypotheses : list RootCauseHypothesis -> result (list RootCauseHypothesis) := rank_from 1.

(** _report_document: the fields of the report, with the digest of those that precede it *)
Definition report_values (r : CorrelationRequest) (hs : list RootCauseHypothesis) : list (string * json) := [
  ("schemaVersion", JStr "athena.wc026CorrelationReport.v1");
  ("algorithmId", JStr correlation_algorithm_id);
  ("ruleCatalogDigest", JStr (rq_rule_catalog_digest r));
  ("asOf", JTime (rq_trusted_as_of r));
  ("bindingMode", JStr (if is_published_runtime (rq_context_binding r) then "publishedRuntime" else "draftPreview"));
  ("contextBindingDigest", JStr (cb_binding_digest (binding_base (rq_context_binding r))));
  ("inputInventoryDigest", JStr (iv_inventory_digest (rq_evidence_inventory r)));
  ("requestDigest", JStr (rq_request_digest r));
  ("transitionDigest", JStr (it_transition_digest (rq_incident_anchor r)));
  ("incidentAnchorObservedStart", JTime (incident_start r));
  ("incidentAnchorObservedEnd", JTime (incident_end r));
  ("hypotheses", JArr (hypothesis_dump <$> hs));
  ("previewOnly", JBool false);
  ("noAutoRemediation", JBool true)].
Definition report_document (r : CorrelationRequest) (hs : list RootCauseHypothesis) : result CorrelationReport :=
  digest ← compute_artifact_digest (JObj (report_values r hs));
  Ok {| rp_report_id := digest_bound_id "report" digest; rp_rule_catalog_digest := rq_rule_catalog_digest r;
        rp_as_of := rq_trusted_as_of r; rp_published_runtime := is_published_runtime (rq_context_binding r);
        rp_context_binding_digest := cb_binding_digest (binding_base (rq_context_binding r));
        rp_input_inventory_digest := iv_inventory_digest (rq_evidence_inventory r); rp_request_digest := rq_request_digest r;
        rp_transition_digest := it_transition_digest (rq_incident_anchor r);
        rp_incident_anchor_observed_start := incident_start r; rp_incident_anchor_observed_end := incident_end r;
        rp_hypotheses := hs; rp_preview_only := false; rp_report_digest := digest |}.

(** _report_document_size: the document before it becomes a model *)
Definition report_document_size (r : CorrelationRequest) (hs : list RootCauseHypothesis) : result Z :=
  document ← report_document r hs;
  bytes ← canonical_bytes (JObj (report_values r hs ++
    [("reportId", JStr (rp_report_id document)); ("reportDigest", JStr (rp_report_digest document))]));
  Ok (Z.of_nat (String.length bytes)).

(** The report of the first [retained] hypotheses and of an omission record for the others *)
Definition retain (hs : list RootCauseHypothesis) (retained : nat) : result (list RootCauseHypothesis) :=
  omission ← overflow_hypothesis (drop retained hs);
  rank_hypotheses (take retained hs ++ [omission]).

(** The binary search of _bound_report_hypotheses, on an interval of at most [fuel] counts *)
Fixpoint search_retained (fuel : nat) (r : CorrelationRequest) (hs : list RootCauseHypothesis) (low high : nat)
    (best : option (list RootCauseHypothesis)) : result (option (list RootCauseHypothesis)) :=
  match fuel with
  | O => Ok best
  | S fuel =>
      if (high <? low)%nat then Ok best
      else
        let middle := ((low + high) / 2)%nat in
        ranked ← retain hs middle;
        size ← report_document_size r ranked;
        if size <=? CORRELATION_MAX_CANONICAL_BYTES
        then search_retained fuel r hs (S middle) high (Some ranked)
        else search_retained fuel r hs low (middle - 1) best
  end.

(** _bound_report_hypotheses *)
Definition bound_within (r : CorrelationRequest) (hs : list RootCauseHypothesis) (maximum_retained : nat) : result (list RootCauseHypothesis) :=
  best ← search_retained (S maximum_retained) r hs 1 maximum_retained None;
  match best with
  | Some ranked => Ok ranked
  | None => Raise (ValueError "top correlation hypothesis and omission record exceed the canonical report byte budget")
  end.
Definition bound_report_hypotheses (r : CorrelationRequest) (hs : list RootCauseHypothesis) : result (list RootCauseHypothesis) :=
  let maximum := Z.to_nat (rc_maximum_hypotheses CORRELATION_RULE_CATALOG) in
  if (length hs <=? maximum)%nat then
    complete ← rank_hypotheses hs;
    size ← report_document_size r complete;
    if size <=? CORRELATION_MAX_CANONICAL_BYTES then Ok complete else bound_within r hs (length hs - 1)
  else bound_within r hs (maximum - 1).

(** _build_verified_report *)
Definition build_verified_report (r : CorrelationRequest) (hs : list RootCauseHypothesis) : result CorrelationReport :=
  _ ← guard_or (RuntimeError "WC-026 correlation contracts do not match the engine rule catalog")
        (contract_compatible CORRELATION_RULE_CATALOG);
  bounded ← bound_report_hypotheses r hs;
  document ← report_document r bounded;
  report ← make_report document;
  bytes ← canonical_bytes (JObj (report_members report));
  _ ← raise_if (ValueError "correlation report exceeds its canonical byte budget")
        (CORRELATION_MAX_CANONICAL_BYTES <? Z.of_nat (String.length bytes));
  catalog_digest ← rule_catalog_digest;
  _ ← guard_or (ValueError "correlation report does not match the engine rule catalog")
        (String.eqb (rp_rule_catalog_digest report) catalog_digest);
  _ ← validate_correlation_report_binding report r;
  Ok report.

(** ** The incident anchor (correlation/verification.py) *)

(** _observation_health_state, _require_health_observation *)
Definition observation_health_state (o : MonitoringObservation) : option HealthState :=
  match o with
  | GuestObs g => Some (gs_state g)
  | EndpointObs e => Some (eh_status e)
  | PlatformObs p => Some (ph_status p)
  | FlowObs _ | MonitorObs _ => None
  end.
Definition require_health_observation (o : MonitoringObservation) : result MonitoringObservation :=
  if present (observation_health_state o) then Ok o else Raise (TypeError "incident evidence is not a supported health observation").

(** _health_stream_key, of a health observation *)
Definition health_stream_key (o : MonitoringObservation) : list string :=
  match o with
  | GuestObs g => ["guest"; guest_signal_text (gs_signal g); default "" (gs_service_reference g)]
  | EndpointObs e => ["endpoint"; eh_path_id e] ++ eh_backend_resource_ids e
  | PlatformObs p => ["platform"; platform_kind_text (ph_health_kind p)]
  | FlowObs _ | MonitorObs _ => []
  end.

(** One connected interval of a health stream and the observations in it *)
Record AnchorComponent := {
  ac_stream : list string;
  ac_start : Z;
  ac_end : Z;
  ac_ids : list string;
}.

(** The health observations that show the current state of the affected resource *)
Definition shows_current_state (r : CorrelationRequest) (o : MonitoringObservation) : bool :=
  String.eqb (mo_subject_resource_id (ob_base o)) (affected_resource r) &&
  bool_decide (observation_health_state o = Some (it_current_state (rq_incident_anchor r))).
Definition anchor_candidates (r : CorrelationRequest) : list MonitoringObservation := select (shows_current_state r) (observations r).

Definition start_component (stream : list string) (o : MonitoringObservation) : AnchorComponent :=
  {| ac_stream := stream; ac_start := ob_start o; ac_end := ob_end o; ac_ids := [ob_id o] |}.
Definition extend_component (c : AnchorComponent) (o : MonitoringObservation) : AnchorComponent :=
  {| ac_stream := ac_stream c; ac_start := ac_start c; ac_end := Z.max (ac_end c) (ob_end o); ac_ids := ob_id o :: ac_ids c |}.
Fixpoint merge_stream (current : AnchorComponent) (l : list MonitoringObservation) : list AnchorComponent :=
  match l with
  | [] => [current]
  | o :: l =>
      if ob_start o <=? ac_end current then merge_stream (extend_component current o) l
      else current :: merge_stream (start_component (ac_stream current) o) l
  end.
Definition stream_components (r : CorrelationRequest) (stream : list string) : list AnchorComponent :=
  match sort_by (fun o => ([ob_start o; ob_end o], ob_id o)) (group health_stream_key (anchor_candidates r) stream) with
  | o :: l => merge_stream (start_component stream o) l
  | [] => []
  end.
Definition anchor_components (r : CorrelationRequest) : list (nat * AnchorComponent) :=
  imap pair (concat (stream_components r <$> group_keys health_stream_key (anchor_candidates r))).

(** [_require_health_observation(observation_by_id[item.evidence_id])] *)
Definition anchor_seed (r : CorrelationRequest) (c : CorrelationEvidenceCitation) : result MonitoringObservation :=
  match observation_by_id r !! ci_evidence_id c with
  | Some o => require_health_observation o
  | None => Raise (KeyError (ci_evidence_id c))
  end.

(** [observation_component[seed.observation_id]]: observation ids are unique in a bundle *)
Definition seed_component (components : list (nat * AnchorComponent)) (seed : MonitoringObservation) : result (nat * AnchorComponent) :=
  match List.find (fun p => bool_decide (ob_id seed ∈ ac_ids p.2)) components with
  | Some p => Ok p
  | None => Raise (KeyError (ob_id seed))
  end.

(** The set of the components that hold the seeds *)
Fixpoint distinct_components (seen : list nat) (l : list (nat * AnchorComponent)) : list (nat * AnchorComponent) :=
  match l with
  | [] => []
  | p :: l => if bool_decide (p.1 ∈ seen) then distinct_components seen l else p :: distinct_components (p.1 :: seen) l
  end.

Definition disconnected : exn := ValueError "incident current-state evidence spans disconnected intervals".

(** The interval that connected components cover *)
Fixpoint connect (start stop : Z) (l : list AnchorComponent) : result (Z * Z) :=
  match l with
  | [] => Ok (start, stop)
  | c :: l => _ ← raise_if disconnected (stop <? ac_start c); connect start (Z.max stop (ac_end c)) l
  end.
Definition connected_interval (l : list AnchorComponent) : result (Z * Z) :=
  match sort_by (fun c => [ac_start c; ac_end c]) l with
  | c :: l => connect (ac_start c) (ac_end c) l
  | [] => Raise (IndexError "list index out of range")
  end.

(** selected_components with the incident interval they cover *)
Record AnchorSelection := {
  an_selected : list (nat * AnchorComponent);
  an_start : Z;
  an_end : Z;
  an_changed : bool;
}.

(** One turn of the inner loop: a component that touches the interval joins it *)
Definition touches (s : AnchorSelection) (c : AnchorComponent) : bool := (ac_start c <=? an_end s) && (an_start s <=? ac_end c).
Definition visit_component (s : AnchorSelection) (p : nat * AnchorComponent) : result AnchorSelection :=
  if bool_decide (p.1 ∈ fst <$> an_selected s) then Ok s
  else if touches s p.2 then
    _ ← raise_if disconnected (bool_decide (ac_stream p.2 ∈ (fun q => ac_stream q.2) <$> an_selected s));
    Ok {| an_selected := p :: an_selected s; an_start := Z.min (an_start s) (ac_start p.2);
          an_end := Z.max (an_end s) (ac_end p.2); an_changed := true |}
  else Ok s.

(** [while changed]: every pass that changes the selection adds a component *)
Definition reset_changed (s : AnchorSelection) : AnchorSelection :=
  {| an_selected := an_selected s; an_start := an_start s; an_end := an_end s; an_changed := false |}.
Fixpoint close_selection (fuel : nat) (components : list (nat * AnchorComponent)) (s : AnchorSelection) : result (option AnchorSelection) :=
  match fuel with
  | O => Ok None
  | S fuel =>
      s ← foldR visit_component (reset_changed s) components;
      if an_changed s then close_selection fuel components s else Ok (Some s)
  end.

(** _verify_canonical_incident_anchor *)
Definition verify_canonical_incident_anchor (r : CorrelationRequest) : result unit :=
  let components := anchor_components r in
  let evidence := it_current_state_evidence (rq_incident_anchor r) in
  seeds ← mapR (anchor_seed r) evidence;
  seeded ← mapR (seed_component components) seeds;
  let selected := distinct_components [] seeded in
  _ ← guard_or disconnected (unique ((fun p => ac_stream p.2) <$> selected));
  interval ← connected_interval (snd <$> selected);
  closed ← close_selection (S (length components)) components
             {| an_selected := selected; an_start := interval.1; an_end := interval.2; an_changed := true |};
  match closed with
  | None => Raise AssertionError
  | Some s =>
      guard_or (ValueError "incident anchor must include the complete current-state evidence interval")
        (bool_decide (list_to_set (C := gset string) (ci_evidence_id <$> evidence) =
                      list_to_set (concat ((fun p => ac_ids p.2) <$> an_selected s))))
  end.

(** _verify_network_rule_parents *)
Definition verify_network_rule_parents (r : CorrelationRequest) : result unit :=
  guard_or (ValueError "network flow rule does not belong to the enforcement NSG")
    (forallb (fun f =>
      match fl_rule_resource_id f with
      | None => true
      | Some rule =>
          match rpartition "/securityrules/" rule with
          | Some (String c p) => String.eqb (fl_enforcement_resource_id f) (String c p)
          | _ => false
          end
      end) (all_flows r)).
End engine.
