(* ===== verification/CorrelationProps.v ===== *)
(** * CorrelationProps: what the correlation engine promises

    Confidence: the classification is the greatest admissible level, a confirmed
    cause is a network security change backed by the complete chain of evidence,
    and every other cause stays at Medium. The candidate budget bounds the
    hypotheses, which are ordered and free of duplicates; the report keeps the
    best ones and records how many it left out. *)
From stdpp Require Import pretty.
From S2P Require Import Prelude Text Sha256 Time Json Events.
From S2P Require Export Correlate.
Local Open Scope Z_scope.

(** ** Confidence levels *)
Lemma rank_of_confidence level : confidence_of_rank (confidence_rank level) = level.
Proof. by destruct level. Qed.
Lemma confidence_rank_range level : 0 <= confidence_rank level <= 4.
Proof. destruct level; cbn; lia. Qed.
Lemma confidence_of_rank_rank rank : 0 <= rank <= 4 -> confidence_rank (confidence_of_rank rank) = rank.
Proof.
  intros Hr. unfold confidence_of_rank.
  destruct (Z.eqb_spec rank 0), (Z.eqb_spec rank 1), (Z.eqb_spec rank 2), (Z.eqb_spec rank 3); subst; cbn; lia.
Qed.

Lemma foldl_min_spec (l : list Z) x : foldl Z.min x l <= x /\ (forall y, y ∈ l -> foldl Z.min x l <= y) /\
  foldl Z.min x l ∈ x :: l.
Proof.
  revert x. induction l as [|z l IH]; intros x; cbn; [repeat split; [lia|set_solver|left]|].
  destruct (IH (Z.min x z)) as (Hx & Hl & Hin). split; [lia|split].
  - intros y [->|Hy]%elem_of_cons; [lia|auto].
  - apply elem_of_cons in Hin as [->|Hin]; [|by do 2 right].
    destruct (Z.min_spec x z) as [[_ ->]|[_ ->]]; [left|right; left].
Qed.

(** The strongest cap is the least rank of the caps, or the default without caps. *)
Lemma strongest_cap_le start caps c : c ∈ caps -> strongest_cap start caps <= confidence_rank (cc_maximum_confidence c).
Proof.
  intros Hc. destruct caps as [|d caps]; [by apply elem_of_nil in Hc|].
  unfold strongest_cap; cbn.
  destruct (foldl_min_spec ((fun c => confidence_rank (cc_maximum_confidence c)) <$> caps) (confidence_rank (cc_maximum_confidence d)))
    as (Hd & Hl & _).
  apply elem_of_cons in Hc as [->|Hc]; [exact Hd|]. apply Hl. apply list_elem_of_fmap. eauto.
Qed.
Lemma strongest_cap_glb start caps bound :
  bound <= start -> (forall c, c ∈ caps -> bound <= confidence_rank (cc_maximum_confidence c)) -> bound <= strongest_cap start caps.
Proof.
  intros Hs Hc. destruct caps as [|d caps]; [done|]. unfold strongest_cap; cbn.
  destruct (foldl_min_spec ((fun c => confidence_rank (cc_maximum_confidence c)) <$> caps) (confidence_rank (cc_maximum_confidence d)))
    as (_ & _ & Hin). apply elem_of_cons in Hin as [->|Hin]; [by apply Hc; left|].
  apply list_elem_of_fmap in Hin as (c & -> & Hin). apply Hc. by right.
Qed.
Lemma strongest_cap_range caps : 0 <= strongest_cap (confidence_rank CfConfirmed) caps <= 4.
Proof.
  split; [apply strongest_cap_glb; [cbn; lia|intros c _; pose proof (confidence_rank_range (cc_maximum_confidence c)); lia]|].
  destruct caps as [|c caps]; [cbn; lia|].
  etrans; [apply (strongest_cap_le _ _ c); left|apply confidence_rank_range].
Qed.

(** The level a score alone reaches *)
Definition score_level (raw_score : Z) (confirmed : bool) : ConfidenceLevel :=
  if confirmed && (confidence_threshold CfConfirmed <=? raw_score) then CfConfirmed
  else if confidence_threshold CfHigh <=? raw_score then CfHigh
  else if confidence_threshold CfMedium <=? raw_score then CfMedium else CfLow.

Lemma classify_unfold raw_score caps hard confirmed :
  confidence_rank (classify_confidence raw_score caps hard confirmed) =
  if hard || (raw_score <? confidence_threshold CfLow) then 0
  else Z.min (confidence_rank (score_level raw_score confirmed)) (strongest_cap (confidence_rank CfConfirmed) caps).
Proof.
  unfold classify_confidence. fold (score_level raw_score confirmed). case_match; [done|].
  apply confidence_of_rank_rank. pose proof (strongest_cap_range caps). pose proof (confidence_rank_range (score_level raw_score confirmed)). lia.
Qed.

(** What a level of confidence must respect *)
Definition admissible (raw_score : Z) (caps : list ConfidenceCap) (hard_conflict confirmed : bool) (level : ConfidenceLevel) : Prop :=
  level = CfUnknown \/
  (hard_conflict = false /\ confidence_threshold level <= raw_score /\ (level = CfConfirmed -> confirmed = true) /\
   forall c, c ∈ caps -> confidence_rank level <= confidence_rank (cc_maximum_confidence c)).

(** The classified confidence is the greatest level the evidence admits: its
    threshold is reached by the score, no cap is exceeded, Confirmed needs the
    confirmed chain, and a hard conflict leaves only Unknown. *)
Theorem classify_confidence_greatest (raw_score : Z) (caps : list ConfidenceCap) (hard_conflict confirmed : bool) :
  admissible raw_score caps hard_conflict confirmed (classify_confidence raw_score caps hard_conflict confirmed) /\
  forall level, admissible raw_score caps hard_conflict confirmed level ->
    confidence_rank level <= confidence_rank (classify_confidence raw_score caps hard_conflict confirmed).
Proof.
  set (level := classify_confidence raw_score caps hard_conflict confirmed).
  pose proof (classify_unfold raw_score caps hard_conflict confirmed) as E. fold level in E.
  pose proof (strongest_cap_range caps) as Hr. split.
  - destruct (hard_conflict || (raw_score <? confidence_threshold CfLow)) eqn:Eh.
    { left. by destruct level. }
    apply orb_false_elim in Eh as [-> Eh]. apply Z.ltb_ge in Eh. cbn in Eh. right. split; [done|]. split; [|split].
    + assert (Hle : confidence_rank level <= confidence_rank (score_level raw_score confirmed)) by lia.
      revert Hle. unfold score_level. repeat case_match; rewrite ?andb_true_iff, ?Z.leb_le in *; destruct level; cbn in *; lia.
    + intros El. destruct confirmed; [done|]. exfalso. rewrite El in E. revert E. unfold score_level.
      cbn [andb]. repeat case_match; cbn in *; lia.
    + intros c Hc. rewrite E. etrans; [apply Z.le_min_r|]. by apply strongest_cap_le.
  - intros l [->|(-> & Ht & Hcf & Hcaps)]; [pose proof (confidence_rank_range level); cbn; lia|]. rewrite E. cbn [orb].
    destruct (raw_score <? confidence_threshold CfLow) eqn:El.
    { apply Z.ltb_lt in El. destruct l; cbn in *; lia. }
    apply Z.min_glb; [|by apply strongest_cap_glb; [apply confidence_rank_range|]].
    unfold score_level. repeat case_match; destruct l; cbn in *; rewrite ?andb_false_iff, ?andb_true_iff, ?Z.leb_le, ?Z.leb_gt in *;
      try lia. by destruct confirmed; naive_solver lia.
Qed.

(** ** Lists keyed in insertion order *)
Section odict.
Context {K A : Type} `{EqDecision K}.

Lemma odict_insert_keys (k : K) (x : A) d :
  (odict_insert k x d).*1 = if bool_decide (k ∈ d.*1) then d.*1 else d.*1 ++ [k].
Proof.
  induction d as [|[k' y] d IH]; cbn; [done|].
  destruct (bool_decide_reflect (k = k')) as [<-|Hne]; cbn.
  - rewrite bool_decide_true by left. done.
  - rewrite IH. destruct (bool_decide_reflect (k ∈ d.*1)) as [Hin|Hin].
    + by rewrite bool_decide_true by by right.
    + rewrite bool_decide_false; [done|]. intros [->|?]%elem_of_cons; done.
Qed.

Lemma odict_insert_elem (k : K) (x : A) d p : p ∈ odict_insert k x d -> p = (k, x) \/ p ∈ d.
Proof.
  induction d as [|[k' y] d IH]; cbn; [set_solver|].
  case_bool_decide; rewrite !elem_of_cons; naive_solver.
Qed.

Lemma odict_insert_NoDup (k : K) (x : A) d : NoDup d.*1 -> NoDup (odict_insert k x d).*1.
Proof.
  intros Hd. rewrite odict_insert_keys. case_bool_decide; [done|].
  apply NoDup_app. split; [done|]. split; [|apply NoDup_singleton]. intros y ? ->%list_elem_of_singleton. done.
Qed.

(** [{key(x): x for x in l}] *)
Lemma odict_fold (key : A -> K) (l : list A) (d : list (K * A)) :
  NoDup d.*1 -> (forall p, p ∈ d -> p.1 = key p.2) ->
  let d' := foldl (fun d x => odict_insert (key x) x d) d l in
  NoDup d'.*1 /\ (forall p, p ∈ d' -> p.1 = key p.2 /\ (p ∈ d \/ p.2 ∈ l)) /\
  (forall k, k ∈ d'.*1 <-> k ∈ d.*1 \/ k ∈ key <$> l).
Proof.
  revert d. induction l as [|x l IH]; intros d Hd Hk; cbn; [split; [done|]; split; [naive_solver|set_solver]|].
  edestruct (IH (odict_insert (key x) x d)) as (Hd' & He & Hkeys).
  - by apply odict_insert_NoDup.
  - intros p [->|Hp]%odict_insert_elem; [done|by apply Hk].
  - split; [done|]. split.
    + intros p Hp. destruct (He p Hp) as [Hpk [Hq|Hl]]; (split; [done|]); [|right; by right].
      apply odict_insert_elem in Hq as [->|Hq]; [right; by left|by left].
    + intros k. rewrite Hkeys, odict_insert_keys. case_bool_decide as Hin; set_solver.
Qed.
End odict.

Lemma first_by_elem {K A} `{EqDecision K} (key : A -> K) seen l x : x ∈ first_by key seen l -> x ∈ l.
Proof. revert seen. induction l as [|y l IH]; intros seen; cbn; [done|]. case_bool_decide; set_solver. Qed.

(** Deduplication keeps one hypothesis of each key. *)
Lemma deduplicate_spec hs :
  NoDup (duplicate_key <$> deduplicate_hypotheses hs) /\ (forall h, h ∈ deduplicate_hypotheses hs -> h ∈ hs) /\
  (forall k, k ∈ duplicate_key <$> deduplicate_hypotheses hs <-> k ∈ duplicate_key <$> hs).
Proof.
  destruct (odict_fold duplicate_key hs []) as (Hd & He & Hk); [constructor|by intros ? ?%elem_of_nil|].
  assert (E : duplicate_key <$> deduplicate_hypotheses hs = (foldl (fun d h => odict_insert (duplicate_key h) h d) [] hs).*1).
  { unfold deduplicate_hypotheses. rewrite <- list_fmap_compose. apply list_fmap_ext.
    intros i p Hp%list_elem_of_lookup_2. symmetry. apply He, Hp. }
  rewrite E. split; [done|]. split.
  - intros h (p & -> & Hp)%list_elem_of_fmap. destruct (He p Hp) as [_ [Hn|?]]; [by apply elem_of_nil in Hn|done].
  - intros k. rewrite Hk. set_solver.
Qed.

Section props.
Context `{PyText, Rfc8785, PydanticJson, IpAddress, PyUuid}.
Implicit Types (r : CorrelationRequest) (h : RootCauseHypothesis).

(** ** Building a hypothesis *)

(** A validated hypothesis carries what its builder passed. *)
Lemma make_hypothesis_fields p h : make_hypothesis p = Ok h ->
  hy_category h = pt_category p /\ hy_confidence h = pt_confidence p /\ hy_score h = pt_score p /\
  hy_caps h = sorted_values (cap_by_code (pt_caps p)) /\
  hy_contradictions h = sort_by contradiction_key (pt_contradictions p) /\
  hy_missing_evidence h = sort_by missing_key (pt_missing p) /\
  hy_candidate_causal_at h = pt_candidate_causal_at p /\ hy_affected_path_id h = pt_path_id p /\
  hy_omitted_candidate_count h = pt_omitted_candidate_count p /\ hy_omitted_candidate_digest h = pt_omitted_candidate_digest p.
Proof.
  unfold make_hypothesis. intros Hh. inv_ok.
  rename select (make_hypothesis_model _ = _) into Hm. unfold make_hypothesis_model, validated in Hm.
  apply reraise_Ok in Hm. inv_ok. subst h. by repeat split.
Qed.

(** The caps of a hypothesis come from those of its builder. *)
Lemma cap_by_code_elem caps k c : cap_by_code caps !! k = Some c -> c ∈ caps.
Proof.
  unfold cap_by_code. intros Hk.
  enough (Hg : forall d, (forall k c, d !! k = Some c -> c ∈ caps) -> forall l, (forall c, c ∈ l -> c ∈ caps) ->
    foldl add_cap d l !! k = Some c -> c ∈ caps).
  { eapply (Hg ∅); [|done|exact Hk]. intros ? ? Hl. by rewrite lookup_empty in Hl. }
  intros d Hd l. revert d Hd. induction l as [|x l IH]; intros d Hd Hl Hc; cbn in Hc; [by eapply Hd|].
  eapply (IH (add_cap d x)); [|set_solver|exact Hc]. intros k' c'. unfold add_cap. case_match; [case_match|];
    [|apply Hd|]; rewrite lookup_insert_Some; intros [[_ <-]|[_ ?]]; try set_solver; eauto.
Qed.
Lemma hypothesis_caps p h c : make_hypothesis p = Ok h -> c ∈ hy_caps h -> c ∈ pt_caps p.
Proof.
  intros Hm Hc. apply make_hypothesis_fields in Hm as (_ & _ & _ & E & _). rewrite E in Hc.
  apply (elem_of_sorted_values (fun c => cap_text (cc_code c))) in Hc as [k Hk]. by apply cap_by_code_elem in Hk.
Qed.

(** A hypothesis whose confidence was classified under the generic cap stays at Medium. *)
Definition generic_cap : ConfidenceCap := cap CapMissingDirectAttribution (Some (rc_generic_max_confidence CORRELATION_RULE_CATALOG)).
Lemma generic_confidence raw_score caps hard confirmed :
  generic_cap ∈ caps -> confidence_rank (classify_confidence raw_score caps hard confirmed) <= confidence_rank CfMedium.
Proof.
  intros Hc. rewrite classify_unfold. case_match; [cbn; lia|]. etrans; [apply Z.le_min_r|].
  by apply (strongest_cap_le _ _ generic_cap).
Qed.

(** ** All hypotheses *)
Lemma compute_hypotheses_Ok r adverse prechecked hs : compute_hypotheses r adverse prechecked = Ok hs ->
  exists candidates hypotheses, candidate_hypotheses r adverse = Ok candidates /\ hs = sort_by hypothesis_sort_key hypotheses /\
    ((candidates <> [] /\ hypotheses = deduplicate_hypotheses candidates) \/
     (candidates = [] /\ exists u, unknown_hypothesis r = Ok u /\ hypotheses = [u])).
Proof.
  unfold compute_hypotheses. intros Hc. inv_ok. rename select (candidate_hypotheses _ _ = _) into Hcand.
  eexists _, _. split; [exact Hcand|]. split; [by symmetry; eassumption|].
  match type of Hcand with _ = Ok ?l => destruct l as [|c cs] end; [right|left].
  - cbn in *. inv_ok. split; [done|]. subst. eauto.
  - split; [done|]. destruct (deduplicate_hypotheses (c :: cs)) as [|d ds] eqn:E; [|by inv_ok].
    exfalso. pose proof (deduplicate_spec (c :: cs)) as (_ & _ & Hk). rewrite E in Hk. cbn in Hk.
    specialize (Hk (duplicate_key c)). set_solver.
Qed.

Lemma compute_hypotheses_elem r adverse prechecked hs h : compute_hypotheses r adverse prechecked = Ok hs -> h ∈ hs ->
  unknown_hypothesis r = Ok h \/ exists candidates, candidate_hypotheses r adverse = Ok candidates /\ h ∈ candidates.
Proof.
  intros (candidates & hypotheses & Hc & -> & Hcases)%compute_hypotheses_Ok Hh. rewrite elem_of_sort_by in Hh.
  destruct Hcases as [[_ ->]|(-> & u & Hu & ->)].
  - right. exists candidates. split; [done|]. by apply deduplicate_spec.
  - apply list_elem_of_singleton in Hh as ->. by left.
Qed.

(** What the engine returns is never empty, ordered by its ranking key, without
    two hypotheses of one cause, path and content, and exactly the candidates; only
    without a candidate it is one unknown hypothesis. *)
Theorem hypotheses_ranked_exactly r adverse prechecked hs :
  compute_hypotheses r adverse prechecked = Ok hs ->
  hs <> [] /\ StronglySorted (le_by hypothesis_sort_key) hs /\ NoDup (duplicate_key <$> hs) /\
  exists candidates, candidate_hypotheses r adverse = Ok candidates /\
    (candidates <> [] -> forall k, k ∈ duplicate_key <$> hs <-> k ∈ duplicate_key <$> candidates) /\
    (candidates = [] -> exists u, unknown_hypothesis r = Ok u /\ hs = [u]).
Proof.
  intros (candidates & hypotheses & Hc & -> & Hcases)%compute_hypotheses_Ok.
  assert (Hp : duplicate_key <$> sort_by hypothesis_sort_key hypotheses ≡ₚ duplicate_key <$> hypotheses) by (by rewrite sort_by_perm).
  destruct Hcases as [[Hne ->]|(-> & u & Hu & ->)].
  - pose proof (deduplicate_spec candidates) as (Hd & _ & Hk). split; [|split; [apply sort_by_sorted|split; [by rewrite Hp|]]].
    + intros E. rewrite E in Hp. cbn in Hp. destruct candidates as [|c cs]; [done|].
      specialize (Hk (duplicate_key c)). rewrite <- Hp in Hk. set_solver.
    + exists candidates. split; [done|]. split; [|done]. intros _ k. by rewrite Hp.
  - split; [done|]. split; [apply sort_by_sorted|]. split; [apply NoDup_singleton|]. exists []. split; [done|]. split; [done|]. eauto.
Qed.

(** ** The candidate budget *)
Lemma length_concat_mapR {A B} (f : A -> result (list B)) (size : A -> Z) l yss :
  (forall x ys, x ∈ l -> f x = Ok ys -> Z.of_nat (length ys) <= size x) -> mapR f l = Ok yss ->
  Z.of_nat (length (concat yss)) <= foldr Z.add 0 (size <$> l).
Proof.
  intros Hs Hm. apply mapR_Ok in Hm. induction Hm as [|x ys l yss Hx _ IH]; cbn; [lia|].
  rewrite length_app. specialize (Hs x ys ltac:(left) Hx) as Hx'. specialize (IH (fun x ys Hin => Hs x ys ltac:(by right))). lia.
Qed.

Lemma length_dedup_select {A K} `{EqDecision K} (key : A -> K) p (l : list A) :
  (length (remove_dups (key <$> select p l)) <= length (remove_dups (key <$> l)))%nat.
Proof.
  apply submseteq_length, NoDup_submseteq; [apply NoDup_remove_dups|].
  intros k. rewrite !elem_of_remove_dups, !list_elem_of_fmap. intros (x & -> & [Hx _]%elem_of_select). eauto.
Qed.

(** One change costs at least the hypotheses it yields. *)
Lemma artifact_hypotheses_cost r adverse a hs cost :
  artifact_hypotheses r adverse a = Ok hs -> incident_start r <? ch_occurred_at (art_evidence a) = false ->
  artifact_cost r a = Ok cost -> Z.of_nat (length hs) <= cost.1.
Proof.
  unfold artifact_hypotheses, artifact_cost. intros Hh Hl Hc. rewrite Hl in Hh. destruct (is_nsg_rule _).
  - unfold network_security_hypotheses in Hh. inv_ok. same_ok. subst; cbn [fst].
    match goal with E : filterR _ _ = Ok ?l |- _ => pose proof (length_dedup_select nsg_chain_key (flow_reaches_incident r) l) as Hd end.
    destruct (group_keys _ _) as [|k ks] eqn:Ek; [inv_ok; subst; cbn; lia|].
    match goal with E : mapR _ _ = Ok _ |- _ => apply mapR_Ok, Forall2_length in E; rewrite <- E, <- Ek end.
    unfold group_keys. rewrite length_sort_by. lia.
  - inv_ok. subst. cbn. lia.
Qed.

Lemma charged_artifacts r adverse maximum work l spent spent' hss :
  foldR (charge_artifact r maximum work) spent l = Ok spent' -> mapR (artifact_hypotheses r adverse) l = Ok hss ->
  spent.1 + Z.of_nat (length (concat hss)) <= spent'.1.
Proof.
  revert spent hss. induction l as [|a l IH]; intros spent hss; cbn [foldR mapR].
  { intros [= <-] [= <-]. cbn. lia. }
  intros (s & Hc & Hf)%bind_Ok (hs & Ha & (hss' & Hm & [= <-])%bind_Ok)%bind_Ok.
  specialize (IH s hss' Hf Hm). cbn [concat]. rewrite length_app. unfold charge_artifact in Hc.
  destruct (incident_start r <? _) eqn:El.
  - unfold artifact_hypotheses in Ha. rewrite El in Ha. injection Hc as <-. injection Ha as <-. cbn. lia.
  - apply bind_Ok in Hc as (cost & Hcost & Hc). pose proof (artifact_hypotheses_cost _ _ _ _ _ Ha El Hcost).
    unfold require_budget in Hc. inv_ok. subst. cbn in *. lia.
Qed.

Lemma group_hypothesis_length r key hs : group_hypothesis r key = Ok hs -> (length hs <= 1)%nat.
Proof. unfold group_hypothesis. intros Hg. repeat case_match; inv_ok; subst; cbn; lia. Qed.

Lemma sum_ones {A} (l : list A) : foldr Z.add 0 ((fun _ => 1) <$> l) = Z.of_nat (length l).
Proof. induction l as [|x l IH]; [done|]. rewrite fmap_cons. cbn [foldr length]. rewrite IH. lia. Qed.
Lemma sum_of_bools {A} (p : A -> bool) (l : list A) : foldr Z.add 0 ((fun x => int_of (p x)) <$> l) = Z.of_nat (length (select p l)).
Proof.
  induction l as [|x l IH]; [done|]. rewrite fmap_cons. cbn [foldr]. rewrite IH. unfold select. cbn.
  destruct (p x); cbn [int_of length]; lia.
Qed.
Lemma select_length_mono {A} (p q : A -> bool) l : (forall x, x ∈ l -> p x = true -> q x = true) ->
  (length (select p l) <= length (select q l))%nat.
Proof.
  induction l as [|x l IH]; intros Hpq; [done|]. unfold select in *. cbn.
  assert (IH' := IH (fun y Hy => Hpq y ltac:(by right))). specialize (Hpq x ltac:(left)).
  destruct (p x); [rewrite (Hpq eq_refl); cbn; lia|]. destruct (q x); cbn; lia.
Qed.

(** An explained observation is adverse. *)
Lemma explains_adverse r o : explains r o = true -> is_generic o = true /\ is_adverse_observation o = true /\ before_and_during r (ob_base o) = true.
Proof. unfold explains. intros [He Ho]%andb_true_iff. destruct o; try done; apply andb_true_iff in Ho as [Ho _]; done. Qed.
Lemma adverse_elem r o : o ∈ observations r -> is_adverse_observation o = true -> ob_id o ∈ adverse_observation_ids r.
Proof. intros Ho Ha. apply elem_of_list_to_set, list_elem_of_fmap. exists o. split; [done|]. by apply elem_of_select. Qed.

Lemma deduplicate_length hs : (length (deduplicate_hypotheses hs) <= length hs)%nat.
Proof.
  rewrite <- (length_fmap duplicate_key (deduplicate_hypotheses hs)), <- (length_fmap duplicate_key hs).
  destruct (deduplicate_spec hs) as (Hd & _ & Hk). apply submseteq_length, NoDup_submseteq; [done|]. intros k. apply Hk.
Qed.

(** A request that passes the candidate budget yields at most the budgeted number
    of hypotheses. *)
Theorem budget_bounds_hypotheses r maximum work prechecked hs :
  enforce_candidate_budget r (adverse_observation_ids r) maximum work = Ok tt ->
  compute_hypotheses r (adverse_observation_ids r) prechecked = Ok hs ->
  Z.of_nat (length hs) <= maximum.
Proof.
  set (adverse := adverse_observation_ids r). intros Hb (candidates & hypotheses & Hc & -> & Hcases)%compute_hypotheses_Ok.
  rewrite length_sort_by. unfold enforce_candidate_budget in Hb.
  apply bind_Ok in Hb as (? & Hmax%raise_if_Ok & (? & _ & (spent & Hf & (? & Hlast & _)%bind_Ok)%bind_Ok)%bind_Ok).
  assert (Hcand : Z.of_nat (length candidates) <= maximum).
  { unfold candidate_hypotheses, dependency_hypotheses in Hc.
    apply bind_Ok in Hc as (hss & Ha & (ds & (dss & Hd & [= <-])%bind_Ok & (oss & Ho & [= <-])%bind_Ok)%bind_Ok).
    pose proof (charged_artifacts _ _ _ _ _ _ _ _ Hf Ha) as L1. cbn in L1.
    pose proof (length_concat_mapR _ (fun _ => 1) _ _ (fun k ys _ Hy => inj_le _ 1 (group_hypothesis_length r k ys Hy)) Hd) as L2.
    rewrite sum_ones in L2.
    assert (L3 : Z.of_nat (length (concat oss)) <= Z.of_nat (length (select (explains r) (observations r)))).
    { rewrite <- sum_of_bools. eapply length_concat_mapR; [|exact Ho]. intros o ys _. unfold observation_hypotheses.
      destruct (explains r o); intros Hy; inv_ok; subst; cbn; lia. }
    assert (L4 : (length (select (explains r) (observations r)) <= length (select (fun o =>
      before_and_during r (ob_base o) && is_generic o && bool_decide (ob_id o ∈ adverse)) (observations r)))%nat).
    { apply select_length_mono. intros o Hin (Hg & Had & Hbd)%explains_adverse. rewrite Hg, Hbd. apply bool_decide_eq_true.
      by apply adverse_elem. }
    unfold require_budget in Hlast. inv_ok.
    match goal with E : budget_exceeded _ _ _ = false |- _ => unfold budget_exceeded in E; cbn [fst snd] in E; apply orb_false_elim in E as [E _] end.
    rewrite !length_app. lia. }
  destruct Hcases as [[_ ->]|(_ & u & _ & ->)]; [pose proof (deduplicate_length candidates)|cbn]; lia.
Qed.

(** ** Confirmed causes *)
Lemma classify_confirmed raw_score caps hard confirmed : classify_confidence raw_score caps hard confirmed = CfConfirmed ->
  hard = false /\ confirmed = true /\ confidence_threshold CfConfirmed <= raw_score.
Proof.
  intros Hc. pose proof (classify_unfold raw_score caps hard confirmed) as E. rewrite Hc in E.
  destruct hard; [done|]. cbn [orb] in E. case_match; [done|]. pose proof (strongest_cap_range caps).
  revert E. unfold score_level. repeat case_match; cbn [confidence_rank]; try lia. intros _.
  match goal with E : _ && _ = true |- _ => apply andb_true_iff in E as [? ?%Z.leb_le] end. done.
Qed.

(** No other builder confirms its cause. *)
Lemma unconfirmed p h raw_score caps hard : make_hypothesis p = Ok h -> pt_confidence p = classify_confidence raw_score caps hard false ->
  hy_confidence h <> CfConfirmed.
Proof. intros (_ & -> & _)%make_hypothesis_fields -> (_ & ? & _)%classify_confirmed. done. Qed.

Lemma change_unconfirmed r adverse a h : change_hypothesis r adverse a = Ok h -> hy_confidence h <> CfConfirmed.
Proof.
  unfold change_hypothesis. intros Hh. inv_ok. repeat case_match. inv_ok. by eapply unconfirmed.
Qed.
Lemma dependency_unconfirmed r f m e path h : dependency_hypothesis r f m e path = Ok h -> hy_confidence h <> CfConfirmed.
Proof. unfold dependency_hypothesis. intros Hh. inv_ok. repeat case_match; inv_ok; by eapply unconfirmed. Qed.
Lemma observation_unconfirmed r adverse o h : observation_hypothesis r adverse o = Ok h -> hy_confidence h <> CfConfirmed.
Proof. unfold observation_hypothesis. intros Hh. inv_ok. repeat case_match; inv_ok; by eapply unconfirmed. Qed.
Lemma unknown_unconfirmed r h : unknown_hypothesis r = Ok h -> hy_confidence h <> CfConfirmed.
Proof. unfold unknown_hypothesis. intros Hh. inv_ok. rename select (make_hypothesis _ = _) into Hm. by apply make_hypothesis_fields in Hm as (_ & -> & _). Qed.

(** The chain of a network security change consists of candidates that match. *)
Definition chain_matches (r : CorrelationRequest) (flows : list NetworkFlowObservation) (c : NsgChain) : Prop :=
  match nc_flow c with
  | None => nc_monitor c = None /\ nc_endpoint c = None
  | Some f => f ∈ flows /\ nc_path c = path_by_id r !! nt_path_id (fl_tuple f) /\
      (forall m, nc_monitor c = Some m -> m ∈ matching_failed_monitors r f) /\
      (forall e p, nc_endpoint c = Some e -> nc_path c = Some p -> e ∈ matching_degraded_endpoints r (nt_destination_resource_id (fl_tuple f)) p)
  end.

Lemma foldl_better_elem {A} (l : list (chain_rank * A)) best x : foldl better best l = Some x -> best = Some x \/ x ∈ l.
Proof.
  revert best. induction l as [|y l IH]; intros best Hx; cbn in Hx; [by left|].
  apply IH in Hx as [Hb|Hin]; [|by right; right]. unfold better in Hb. destruct best as [b|]; [|injection Hb as ->; right; left].
  destruct (key_leb _ _); [by left|injection Hb as ->; right; left].
Qed.

Lemma endpoint_options_elem roots excluded e : Some e ∈ endpoint_options roots excluded -> e ∈ roots.
Proof.
  unfold endpoint_options. intros ([k o] & Ho & Hin)%list_elem_of_fmap. cbn in Ho. subst o.
  enough (Hg : forall (l : list EndpointHealthObservation) d, (forall p, p ∈ d -> forall e, p.2 = Some e -> e ∈ roots) -> (forall e, e ∈ l -> e ∈ roots) ->
    forall p, p ∈ foldl (fun options e => if bool_decide (mo_provenance_root_digest (eh_base e) ∈ excluded) then odict_insert (endpoint_id e) (Some e) options
      else if existsb (fun p => String.eqb p.1 "independent") options then options else odict_insert "independent" (Some e) options) d l ->
    forall e, p.2 = Some e -> e ∈ roots).
  { eapply Hg; [| |exact Hin|done]; [|done]. intros p Hp e' He'.
    destruct roots as [|x roots]; [|apply odict_insert_elem in Hp as [->|Hp]; [injection He' as <-; left|]];
      (apply odict_insert_elem in Hp as [->|Hp]; [done|by apply elem_of_nil in Hp]). }
  induction l as [|x l IH]; intros d Hd Hl p Hp; cbn in Hp; [by apply Hd|].
  eapply (IH _); [|intros; apply Hl; by right|exact Hp]. intros q Hq e' He'.
  repeat case_match; try (by eapply Hd); (apply odict_insert_elem in Hq as [->|Hq]; [injection He' as <-; apply Hl; left|by eapply Hd]).
Qed.

Lemma select_chain_matches r a digest flows c : select_nsg_chain r a digest flows = Ok c -> chain_matches r flows c.
Proof.
  unfold select_nsg_chain. intros (candidates & Hc & [= <-])%bind_Ok.
  destruct (foldl better None candidates) as [[rank chain]|] eqn:E; [|by split].
  apply foldl_better_elem in E as [?|Hin]; [done|].
  unfold chain_candidates in Hc. apply mapR_Ok in Hc.
  apply list_elem_of_lookup in Hin as [i Hi]. destruct (Forall2_lookup_r _ _ _ _ _ Hc Hi) as ([[f m] e] & Hfme%list_elem_of_lookup_2 & Hr).
  unfold rank_chain in Hr. inv_ok. subst chain.
  apply list_elem_of_bind in Hfme as (f' & Hfme & Hf). apply list_elem_of_bind in Hfme as (m' & Hfme & Hm).
  apply list_elem_of_bind in Hfme as (e' & Hfme & He). apply list_elem_of_singleton in Hfme. injection Hfme as -> -> ->.
  unfold chain_matches. cbn. split; [by apply elem_of_sort_by in Hf|]. split; [done|]. split.
  - intros m -> . unfold monitor_options in Hm. destruct (first_by _ _ _) as [|b bs] eqn:E; [by apply list_elem_of_singleton in Hm|].
    apply list_elem_of_fmap in Hm as (m1 & [= <-] & Hm). rewrite <- E in Hm. apply first_by_elem in Hm. by apply elem_of_sort_by in Hm.
  - intros e p -> Hp. apply endpoint_options_elem in He. unfold endpoint_roots in He. rewrite Hp in He.
    apply first_by_elem in He. by apply elem_of_sort_by in He.
Qed.

(** A refutation leaves no trace only where nothing refutes the claim. *)
Lemma refutation_none r code prefix suffix pairs cs : refutation r code prefix suffix pairs = Ok cs -> is_hard_contradiction code = true ->
  existsb cn_hard_conflict cs = false -> pairs = [].
Proof.
  unfold refutation. intros Hr Hh Hc. destruct (sort_by _ pairs) as [|[coverage o] l] eqn:E.
  - by apply (f_equal length) in E; rewrite length_sort_by in E; apply nil_length_inv.
  - inv_ok. subst. cbn in Hc. by rewrite Hh in Hc.
Qed.

Lemma omap_nil {A B} (f : A -> option B) l x : omap f l = [] -> x ∈ l -> f x = None.
Proof.
  intros Hn Hx. destruct (f x) as [y|] eqn:E; [|done]. assert (Hy : y ∈ omap f l) by (apply list_elem_of_omap; eauto).
  rewrite Hn in Hy. by apply elem_of_nil in Hy.
Qed.

(** Evidence that refutes a chain: a covered flow of the same chain that was allowed,
    or a covered run of the same test that succeeded, during the incident *)
Definition refuting_flow (r : CorrelationRequest) (f g : NetworkFlowObservation) : Prop :=
  g ∈ all_flows r /\ fl_decision g = FlowAllowed /\ nsg_chain_key g = nsg_chain_key f /\ overlaps_incident (fl_base g) r = true /\
  is_Some (matching_flow_coverage r g).
Definition refuting_monitor (r : CorrelationRequest) (m n : ConnectionMonitorObservation) : Prop :=
  n ∈ all_monitors r /\ cm_status n = MonitorSucceeded /\ engine_same_monitor n m = true /\ overlaps_incident (cm_base n) r = true /\
  is_Some (matching_monitor_coverage r n).

Lemma network_contradictions_none r change citation denied m cs f :
  network_contradictions r change citation denied m = Ok cs -> existsb cn_hard_conflict cs = false -> f ∈ denied ->
  ch_occurred_at change <= incident_start r /\ (forall g, ~ refuting_flow r f g) /\ (forall n, m = Some n -> forall k, ~ refuting_monitor r n k).
Proof.
  unfold network_contradictions, network_observation_contradictions. intros Hc Hh Hf. inv_ok. subst.
  rewrite !existsb_app, !orb_false_iff in Hh. destruct Hh as [Hch [Ha Hm]].
  match goal with E : refutation r ContraCompleteAllowedFlow _ _ _ = Ok _ |- _ => apply refutation_none in E as Ef; [|done|done] end.
  match goal with E : refutation r ContraCompleteHealthyConnectionMonitor _ _ _ = Ok _ |- _ => apply refutation_none in E as Em; [|done|done] end.
  split; [|split].
  - unfold change_contradictions, when_ in Hch. rewrite existsb_app, orb_false_iff in Hch. destruct Hch as [_ Hch].
    destruct (Z.ltb_spec (incident_start r) (ch_occurred_at change)); [done|lia].
  - intros g (Hg & Hd & Hk & Ho & [c Hcov]). apply (omap_nil _ _ g) in Ef; [|done]. cbv beta in Ef.
    assert (Hx : existsb (fun d => bool_decide (nsg_chain_key g = nsg_chain_key d)) denied = true).
    { apply existsb_exists. exists f. split; [by apply list_elem_of_In|by apply bool_decide_true]. }
    by rewrite Hd, Hx, Ho, Hcov in Ef.
  - intros n -> k (Hk & Hs & Hsame & Ho & [c Hcov]). apply (omap_nil _ _ k) in Em; [|done]. cbv beta in Em.
    assert (Hx : existsb (engine_same_monitor k) (option_list (Some n)) = true) by (cbn; by rewrite Hsame).
    by rewrite Hs, Hx, Ho, Hcov in Em.
Qed.

Lemma claim_flow_keeps l claimed f : f ∈ claimed -> f ∈ foldl claim_flow claimed l.
Proof.
  revert claimed. induction l as [|x l IH]; intros claimed Hf; cbn; [done|]. apply IH. unfold claim_flow. case_match; [done|].
  apply elem_of_app. by left.
Qed.
Lemma claimed_chain_flow r a digest f claimed : claimed_chain_flows r a digest (Some f) = Ok claimed -> f ∈ claimed.
Proof. unfold claimed_chain_flows. intros Hc. inv_ok. subst. apply claim_flow_keeps. left. Qed.

(** The complete chain of evidence of a confirmed cause: a successful change of a
    security rule before the incident, a denied flow that the platform attributes to
    exactly that change, a failed connection test of the same traffic, a degradation
    of the affected resource on the same path, each covered for the whole incident, by
    three independent sources, with nothing that refutes them *)
Record evidence_chain (r : CorrelationRequest) (a : ChangeEvidenceArtifact) (f : NetworkFlowObservation) (m : ConnectionMonitorObservation)
    (e : EndpointHealthObservation) : Prop := {
  ev_change : is_nsg_rule (art_evidence a) = true /\ ch_result (art_evidence a) = ChangeSucceeded /\
    ch_occurred_at (art_evidence a) <= incident_start r /\
    exists q, q ∈ ch_changed_properties (art_evidence a) /\ is_nsg_property (cp_path q) = true;
  ev_flow : f ∈ all_flows r /\ fl_decision f = FlowDenied /\ before_and_during r (fl_base f) = true /\
    exists digest, artifact_digest a = Ok digest /\ flow_binds_change f a digest = Ok true;
  ev_monitor : m ∈ matching_failed_monitors r f;
  ev_endpoint : exists p, path_by_id r !! nt_path_id (fl_tuple f) = Some p /\
    e ∈ matching_degraded_endpoints r (nt_destination_resource_id (fl_tuple f)) p;
  ev_coverage : is_Some (matching_flow_coverage r f) /\ is_Some (matching_monitor_coverage r m) /\ is_Some (matching_endpoint_coverage r e);
  ev_independent : exists citations, cite_all r [flow_id f; monitor_id m; endpoint_id e] = Ok citations /\
    length (independent_citations citations) = 3%nat;
  ev_unrefuted : (forall g, ~ refuting_flow r f g) /\ (forall n, ~ refuting_monitor r m n);
}.

Lemma independent_from_length families roots l : (length (independent_from families roots l) <= length l)%nat.
Proof. revert families roots. induction l as [|c l IH]; intros families roots; cbn; [lia|]. case_match; cbn; [etrans; [apply IH|lia]|]. specialize (IH (ci_family c :: families) (ci_provenance_root_digest c :: roots)). lia. Qed.
Lemma independent_length l : (length (independent_citations l) <= length l)%nat.
Proof. unfold independent_citations. etrans; [apply independent_from_length|]. by rewrite length_sort_by. Qed.

Lemma cite_all_length r ids cs : cite_all r ids = Ok cs -> length cs = length ids.
Proof. intros Hc%mapR_Ok%Forall2_length. done. Qed.

(** What is missing for a confirmation *)
Lemma nsg_missing_none r n : existsb (fun m => bool_decide (me_required_for_confidence m = CfConfirmed)) (nsg_missing r n) = false ->
  ne_attributed n = true /\ present (nc_monitor (ne_chain n)) = true /\ present (nc_endpoint (ne_chain n)) = true /\
  has_complete_nsg_coverage r (nc_flow (ne_chain n)) (nc_monitor (ne_chain n)) (nc_endpoint (ne_chain n)) (nc_path (ne_chain n)) = true.
Proof.
  unfold nsg_missing, when_. rewrite !existsb_app, !orb_false_iff. intros (_ & M1 & _ & M2 & M3 & M4). split_and!.
  - by destruct (ne_attributed n).
  - by destruct (present (nc_monitor _)).
  - by destruct (present (nc_endpoint _)).
  - by destruct (has_complete_nsg_coverage _ _ _ _ _).
Qed.

Lemma nsg_confirmed_inv r change n raw : nsg_confirmed r change n raw = true ->
  ch_result change = ChangeSucceeded /\ ne_semantic_match n = true /\ is_Some (nc_flow (ne_chain n)) /\
  3 <= Z.of_nat (length (independent_citations (ne_corroboration_support n))) /\ existsb cn_hard_conflict (ne_contradictions n) = false /\
  existsb (fun m => bool_decide (me_required_for_confidence m = CfConfirmed)) (nsg_missing r n) = false.
Proof.
  unfold nsg_confirmed. cbv zeta. rewrite !andb_true_iff, !negb_true_iff, bool_decide_eq_true, !Z.leb_le.
  intros (((((((((_ & Hr) & Hs) & _) & Hf) & _) & _) & Hi) & Hh) & Hm). split_and!; try done. by destruct (nc_flow (ne_chain n)).
Qed.

Lemma elem_of_concat {A} (x : A) ls : x ∈ concat ls -> exists l, x ∈ l /\ l ∈ ls.
Proof. rewrite list_elem_of_In, in_concat. intros (l & Hl & Hx). exists l. by rewrite !list_elem_of_In. Qed.
Lemma mapR_source {A B} (g : A -> result B) l ys y : mapR g l = Ok ys -> y ∈ ys -> exists x, x ∈ l /\ g x = Ok y.
Proof.
  intros Hm%mapR_Ok [i Hi]%list_elem_of_lookup. destruct (Forall2_lookup_r _ _ _ _ _ Hm Hi) as (x & Hx%list_elem_of_lookup_2 & ?). eauto.
Qed.

Lemma network_security_confirmed r a digest flows h :
  is_nsg_rule (art_evidence a) = true -> artifact_digest a = Ok digest ->
  (forall f, f ∈ flows -> f ∈ all_flows r /\ candidate_flow r a digest f = Ok true) ->
  network_security_hypothesis r a digest flows = Ok h -> hy_confidence h = CfConfirmed ->
  hy_category h = RcNetworkSecurityChange /\ confidence_threshold CfConfirmed <= sc_raw_score (hy_score h) /\
  exists f m e, evidence_chain r a f m e.
Proof.
  intros Hnsg Hdig Hflows Hh Hconf. unfold network_security_hypothesis in Hh. cbv zeta in Hh.
  apply bind_Ok in Hh as (citation & _ & Hh). apply bind_Ok in Hh as (chain & Hchain & Hh).
  apply bind_Ok in Hh as (claimed & Hclaimed & Hh). apply bind_Ok in Hh as (attributed & Hattr & Hh).
  apply bind_Ok in Hh as (observed & _ & Hh). apply bind_Ok in Hh as ([corroboration support] & Hcorr & Hh).
  apply bind_Ok in Hh as ([[recovery recovery_support] recovery_ids] & _ & Hh). apply bind_Ok in Hh as (score0 & _ & Hh).
  apply bind_Ok in Hh as (path_citation & _ & Hh). apply bind_Ok in Hh as (contradictions & Hcon & Hh).
  apply bind_Ok in Hh as (score & _ & Hm).
  apply make_hypothesis_fields in Hm as (Hcat & Hc & Hs & _). cbn [pt_category pt_confidence pt_score] in Hcat, Hc, Hs.
  rewrite Hconf in Hc. symmetry in Hc. apply classify_confirmed in Hc as (Hhard & Hyes & Hraw).
  split; [done|]. rewrite Hs. split; [done|].
  apply nsg_confirmed_inv in Hyes as (Hsucc & Hsem & [f Hf] & Hind & _ & Hmiss).
  apply nsg_missing_none in Hmiss as (Hatt & Hmon & Hend & Hcov).
  cbn [ne_chain ne_attributed ne_semantic_match ne_corroboration_support] in Hsem, Hf, Hind, Hatt, Hmon, Hend, Hcov.
  apply select_chain_matches in Hchain. unfold chain_matches in Hchain. rewrite Hf in *.
  destruct (nc_monitor chain) as [m|] eqn:Em; [|done]. destruct (nc_endpoint chain) as [e|] eqn:Ee; [|done].
  destruct (nc_path chain) as [p|] eqn:Ep; [|done]. destruct Hchain as (Hin & Hp & Hmm & Hme). subst attributed.
  destruct (Hflows f Hin) as [Hall Hcand]. unfold candidate_flow in Hcand.
  destruct (bool_decide_reflect (fl_decision f = FlowDenied)) as [Hden|]; [|done].
  destruct (before_and_during r (fl_base f)) eqn:Hbd; [|done].
  destruct (network_contradictions_none _ _ _ _ _ _ f Hcon Hhard (claimed_chain_flow _ _ _ _ _ Hclaimed)) as (Hchr & Href & Hrefm).
  unfold nsg_corroboration in Hcorr. apply bind_Ok in Hcorr as (citations & Hcite & [= _ <-]).
  unfold has_complete_nsg_coverage, present in Hcov. rewrite !andb_true_iff in Hcov. destruct Hcov as [[Hc1 Hc2] Hc3].
  exists f, m, e. split.
  - split_and!; [done|done|done|]. apply existsb_exists in Hsem as (q & Hq%list_elem_of_In & Hq'). eauto.
  - split_and!; [done|done|done|]. eauto.
  - by apply Hmm.
  - exists p. split; [done|]. by apply Hme.
  - split_and!; [by destruct (matching_flow_coverage r f)|by destruct (matching_monitor_coverage r m)|by destruct (matching_endpoint_coverage r e)].
  - exists citations. split; [done|]. pose proof (independent_length citations) as Hle. rewrite (cite_all_length _ _ _ Hcite) in Hle. cbn in Hle. lia.
  - split; [done|]. by apply Hrefm.
Qed.

(** C?: No cause is confirmed without the complete chain of evidence. A confirmed
    hypothesis blames a successful change of a network security rule that precedes the
    incident, and rests on a denied flow attributed to exactly that change, a failed
    connection test of the same traffic and a degradation of the affected resource on
    the same path, all of them covered for the incident and independent of each other,
    while no covered observation of the same flow or test refutes them. *)
Theorem confirmed_cause_evidenced r adverse prechecked hs h :
  compute_hypotheses r adverse prechecked = Ok hs -> h ∈ hs -> hy_confidence h = CfConfirmed ->
  hy_category h = RcNetworkSecurityChange /\ confidence_threshold CfConfirmed <= sc_raw_score (hy_score h) /\
  exists a f m e, a ∈ rq_change_artifacts r /\ evidence_chain r a f m e.
Proof.
  intros Hc Hh Hconf. destruct (compute_hypotheses_elem _ _ _ _ _ Hc Hh) as [Hu|(candidates & Hcand & Hin)];
    [by apply unknown_unconfirmed in Hu|]. clear Hc Hh.
  unfold candidate_hypotheses, dependency_hypotheses in Hcand.
  apply bind_Ok in Hcand as (hss & Ha & (ds & (dss & Hd & [= <-])%bind_Ok & (oss & Ho & [= <-])%bind_Ok)%bind_Ok).
  rewrite !elem_of_app in Hin. destruct Hin as [Hin|[Hin|Hin]]; apply elem_of_concat in Hin as (l & Hl & Hin).
  - destruct (mapR_source _ _ _ _ Ha Hin) as (a & Hart & Hah). unfold artifact_hypotheses in Hah.
    destruct (incident_start r <? _); [injection Hah as <-; by apply elem_of_nil in Hl|].
    destruct (is_nsg_rule _) eqn:Hnsg; [|inv_ok; subst; apply list_elem_of_singleton in Hl as ->; by eapply change_unconfirmed in Hconf].
    unfold network_security_hypotheses in Hah. apply bind_Ok in Hah as (digest & Hdig & (flows & Hfl & Hah)%bind_Ok). cbv zeta in Hah.
    assert (Hone : exists fs, (forall f, f ∈ fs -> f ∈ all_flows r /\ candidate_flow r a digest f = Ok true) /\
      network_security_hypothesis r a digest fs = Ok h).
    { destruct (group_keys _ _) as [|k ks].
      - inv_ok. subst. apply list_elem_of_singleton in Hl as ->. exists []. split; [by intros f ?%elem_of_nil|done].
      - destruct (mapR_source _ _ _ _ Hah Hl) as (k' & _ & Hk). eexists. split; [|exact Hk].
        intros f Hf. apply elem_of_sort_by in Hf. unfold group in Hf. apply elem_of_select in Hf as [Hf _].
        apply elem_of_select in Hf as [Hf _]. by apply (elem_of_filterR _ _ _ _ Hfl). }
    destruct Hone as (fs & Hfs & Hone). destruct (network_security_confirmed _ _ _ _ _ Hnsg Hdig Hfs Hone Hconf) as (? & ? & f & m & e & ?).
    split_and!; [done|done|]. by exists a, f, m, e.
  - destruct (mapR_source _ _ _ _ Hd Hin) as (k & _ & Hk). exfalso. unfold group_hypothesis in Hk.
    repeat case_match; inv_ok; subst; try (by apply elem_of_nil in Hl); apply list_elem_of_singleton in Hl as ->;
      by eapply dependency_unconfirmed in Hconf.
  - destruct (mapR_source _ _ _ _ Ho Hin) as (o & _ & Hk). exfalso. unfold observation_hypotheses in Hk.
    destruct (explains r o); inv_ok; subst; [|by apply elem_of_nil in Hl]. apply list_elem_of_singleton in Hl as ->.
    by eapply observation_unconfirmed in Hconf.
Qed.

(** ** The bounded report *)

(** What ranking leaves alone: all but the rank and the spelling of the cause *)
Definition contents h : RootCauseHypothesis := {|
  hy_hypothesis_id := hy_hypothesis_id h; hy_rank := 0; hy_category := hy_category h; hy_cause_resource_id := None;
  hy_affected_path_id := hy_affected_path_id h; hy_candidate_causal_at := hy_candidate_causal_at h; hy_score := hy_score h;
  hy_confidence := hy_confidence h; hy_supporting_evidence := hy_supporting_evidence h; hy_contradictions := hy_contradictions h;
  hy_missing_evidence := hy_missing_evidence h; hy_omitted_candidate_count := hy_omitted_candidate_count h;
  hy_omitted_candidate_digest := hy_omitted_candidate_digest h; hy_gates := hy_gates h; hy_caps := hy_caps h;
  hy_hypothesis_digest := hy_hypothesis_digest h |}.

(** The hypotheses of a report: these, in this order, numbered from one *)
Definition ranking (hs ranked : list RootCauseHypothesis) : Prop :=
  contents <$> ranked = contents <$> hs /\ hy_rank <$> ranked = seqZ 1 (Z.of_nat (length hs)).

Lemma rank_hypothesis_Ok h rank h' : rank_hypothesis h rank = Ok h' -> contents h' = contents h /\ hy_rank h' = rank.
Proof.
  unfold rank_hypothesis. intros Hh. inv_ok. rename select (make_hypothesis_model _ = _) into Hm.
  unfold make_hypothesis_model, validated in Hm. apply reraise_Ok in Hm. inv_ok. by subst h'.
Qed.

Lemma rank_from_Ok start hs ranked : rank_from start hs = Ok ranked ->
  contents <$> ranked = contents <$> hs /\ hy_rank <$> ranked = seqZ start (Z.of_nat (length hs)).
Proof.
  revert start ranked. induction hs as [|h hs IH]; intros start ranked; cbn [rank_from]; [by intros [= <-]|].
  intros (h' & [Hc Hr]%rank_hypothesis_Ok & (rest & [IHc IHr]%IH & [= <-])%bind_Ok)%bind_Ok. rewrite !fmap_cons, Hc, IHc, Hr, IHr.
  split; [done|]. rewrite (seqZ_cons start) by (cbn [length]; lia). f_equal. f_equal; cbn [length]; lia.
Qed.

(** The document of these hypotheses respects the byte budget. *)
Definition fits (r : CorrelationRequest) (hs : list RootCauseHypothesis) : Prop :=
  exists size, report_document_size r hs = Ok size /\ size <= CORRELATION_MAX_CANONICAL_BYTES.

(** The binary search returns a prefix that fits while one more hypothesis does not;
    the interval has at most [fuel] counts, so the fuel is enough. *)
Lemma search_retained_spec r hs maximum fuel low high best res :
  (S high - low <= fuel)%nat -> (1 <= low <= S high)%nat -> (high <= maximum)%nat ->
  (forall l, best = Some l -> exists k, S k = low /\ (1 <= k)%nat /\ retain hs k = Ok l /\ fits r l) ->
  (high = maximum \/ exists larger, retain hs (S high) = Ok larger /\ ~ fits r larger) ->
  search_retained fuel r hs low high best = Ok res ->
  forall l, res = Some l -> exists k, (1 <= k <= maximum)%nat /\ retain hs k = Ok l /\ fits r l /\
    (k = maximum \/ exists larger, retain hs (S k) = Ok larger /\ ~ fits r larger).
Proof.
  assert (Hend : forall low high best, (1 <= low <= S high)%nat -> (high < low)%nat -> (high <= maximum)%nat ->
    (forall l, best = Some l -> exists k, S k = low /\ (1 <= k)%nat /\ retain hs k = Ok l /\ fits r l) ->
    (high = maximum \/ exists larger, retain hs (S high) = Ok larger /\ ~ fits r larger) ->
    forall l, best = Some l -> exists k, (1 <= k <= maximum)%nat /\ retain hs k = Ok l /\ fits r l /\
      (k = maximum \/ exists larger, retain hs (S k) = Ok larger /\ ~ fits r larger)).
  { intros low' high' best' Hl Hlt Hm Hb Hh l Hbl. destruct (Hb l Hbl) as (k & Hk & Hk1 & Hr & Hf).
    assert (k = high') as -> by lia. exists high'. split_and!; [lia|lia|done|done|done]. }
  revert low high best. induction fuel as [|fuel IH]; intros low high best Hfuel Hl Hm Hb Hh; cbn [search_retained].
  { intros [= <-]. apply (Hend low high best); try done. lia. }
  destruct (Nat.ltb_spec high low) as [Hlt|Hge]; [intros [= <-]; by apply (Hend low high best)|].
  set (middle := ((low + high) / 2)%nat).
  assert (Hmid : (low <= middle <= high)%nat).
  { unfold middle. split; [apply Nat.div_le_lower_bound; lia|apply Nat.Div0.div_le_upper_bound; lia]. }
  intros (ranked & Hr & (size & Hs & Hrest)%bind_Ok)%bind_Ok.
  destruct (Z.leb_spec size CORRELATION_MAX_CANONICAL_BYTES) as [Hle|Hgt].
  - eapply (IH (S middle) high (Some ranked)); [lia|lia|done| |done|exact Hrest].
    intros l [= <-]. exists middle. split_and!; [done|lia|done|]. by exists size.
  - eapply (IH low (middle - 1)%nat best); [lia|lia|lia|done| |exact Hrest].
    right. replace (S (middle - 1)) with middle by lia. exists ranked. split; [done|]. intros (s & Hs' & Hle). rewrite Hs in Hs'. injection Hs' as <-. lia.
Qed.

(** The record of what was left out *)
Lemma overflow_fields omitted h : overflow_hypothesis omitted = Ok h ->
  hy_confidence h = CfUnknown /\ hy_omitted_candidate_count h = Some (Z.of_nat (length omitted)) /\
  exists d, hy_omitted_candidate_digest h = Some d /\ compute_artifact_digest (texts (hy_hypothesis_digest <$> omitted)) = Ok d.
Proof.
  unfold overflow_hypothesis. intros (d & Hd & (score & _ & Hm)%bind_Ok)%bind_Ok. cbv zeta in Hm.
  apply make_hypothesis_fields in Hm as (_ & -> & _ & _ & _ & _ & _ & _ & -> & ->). split_and!; [done|done|]. by exists d.
Qed.

(** A report of the first [k] hypotheses and an omission record *)
Definition keeps (hs : list RootCauseHypothesis) (k : nat) (ranked : list RootCauseHypothesis) : Prop :=
  exists omission d, ranking (take k hs ++ [omission]) ranked /\ hy_confidence omission = CfUnknown /\
    hy_omitted_candidate_count omission = Some (Z.of_nat (length hs - k)) /\ hy_omitted_candidate_digest omission = Some d /\
    compute_artifact_digest (texts (hy_hypothesis_digest <$> drop k hs)) = Ok d.

Lemma retain_keeps hs k ranked : retain hs k = Ok ranked -> keeps hs k ranked.
Proof.
  unfold retain. intros (omission & Ho & Hr%rank_from_Ok)%bind_Ok.
  destruct (overflow_fields _ _ Ho) as (Hc & Hn & d & Hd & Hdig). rewrite length_drop in Hn. by exists omission, d.
Qed.

Lemma search_empty r hs ranked : bound_within r hs 0 = Ok ranked -> False.
Proof. by unfold bound_within. Qed.

(** C?: The report keeps the longest prefix of the ranked hypotheses that the budgets
    allow. It holds at most 64 hypotheses and its document respects the byte budget;
    it holds all of them, or the first [k] in their order and a record that counts the
    others and carries their digest; and then one more would exceed a budget: [k] is
    63, or the next longer report is too large. *)
Theorem report_keeps_longest_prefix r hs ranked : bound_report_hypotheses r hs = Ok ranked ->
  fits r ranked /\ (length ranked <= 64)%nat /\
  (ranking hs ranked \/
   exists k, (1 <= k < length hs)%nat /\ keeps hs k ranked /\
     (k = 63%nat \/ (exists larger, retain hs (S k) = Ok larger /\ ~ fits r larger) \/
      (S k = length hs /\ exists complete, ranking hs complete /\ ~ fits r complete))).
Proof.
  unfold bound_report_hypotheses. change (Z.to_nat (rc_maximum_hypotheses CORRELATION_RULE_CATALOG)) with 64%nat.
  assert (Hlen : forall hs' ranked', ranking hs' ranked' -> length ranked' = length hs').
  { intros hs' ranked' [Hc _]. by rewrite <- (length_fmap contents ranked'), Hc, length_fmap. }
  assert (Hbound : forall maximum, (maximum <= 63)%nat -> (maximum < length hs)%nat -> bound_within r hs maximum = Ok ranked ->
    fits r ranked /\ (length ranked <= 64)%nat /\ exists k, (1 <= k < length hs)%nat /\ keeps hs k ranked /\
      (k = maximum \/ exists larger, retain hs (S k) = Ok larger /\ ~ fits r larger)).
  { intros maximum Hm Hl (best & Hs & Hb)%bind_Ok. destruct best as [best|]; [|done]. injection Hb as ->.
    eapply (search_retained_spec r hs maximum) in Hs as (k & Hk & Hr & Hf & Hmax); [|lia|lia|lia|done|by left|done].
    apply retain_keeps in Hr. split; [done|]. split; [|exists k; split; [lia|by split]].
    destruct Hr as (omission & d & Hrank & _). rewrite (Hlen _ _ Hrank), length_app, length_take. cbn. lia. }
  destruct (Nat.leb_spec (length hs) 64) as [Hle|Hgt].
  - intros (complete & Hc & (size & Hs & Hrest)%bind_Ok)%bind_Ok. apply rank_from_Ok in Hc.
    destruct (Z.leb_spec size CORRELATION_MAX_CANONICAL_BYTES) as [Hsz|Hsz].
    + injection Hrest as <-. split; [by exists size|]. split; [by rewrite (Hlen _ _ Hc)|by left].
    + destruct hs as [|h hs]; [by apply search_empty in Hrest|].
      destruct (Hbound (length (h :: hs) - 1)%nat) as (Hf & Hl & k & Hk & Hkeeps & Hmax); [lia|cbn; lia|done|].
      split; [done|]. split; [done|]. right. exists k. split; [done|]. split; [done|].
      destruct Hmax as [->|?]; [|by right; left]. right; right. split; [cbn; lia|]. exists complete. split; [done|].
      intros (s & Hs' & Hle'). rewrite Hs in Hs'. injection Hs' as <-. lia.
  - intros Hrest. destruct (Hbound 63%nat) as (Hf & Hl & k & Hk & Hkeeps & Hmax); [lia|lia|done|].
    split; [done|]. split; [done|]. right. exists k. split; [done|]. split; [done|]. destruct Hmax as [->|?]; auto.
Qed.
End props.
