(* ===== verification/CorrelationDemo.v ===== *)
(** * CorrelationDemo: a closed port and its consequences

    A security rule is changed two minutes before a database stops answering. A
    denied flow that the platform attributes to the change, a failed connection test
    of the same traffic and a degraded endpoint on the path, all covered for the
    incident, let the engine confirm the change as the cause. The theorems on the
    engine and on its report are applied to this request. *)
From stdpp Require Import pretty.
From S2P Require Import Prelude Text Sha256 Time Json Events Concrete ProposeDemo.
From S2P Require Import CorrelationProps.
Local Open Scope Z_scope.

Module CorrelationDemo.
#[export] Existing Instance ascii_text.
#[export] Existing Instance ProposeDemo.brief_json.
#[export] Instance iso_json : PydanticJson := isoformat_z.
#[export] Instance no_address : IpAddress := fun _ => None.
#[export] Instance no_uuid : PyUuid := fun _ => None.

Definition digest (c : string) : string := "sha256:" +:+ String.concat "" (replicate 64 c).
Definition incident : Z := 1700000000 * second.
Definition minutes (n : Z) : Z := n * 60 * second.

(** ** Resources and the declared path *)
Definition group : string := "/subscriptions/00000000-0000-0000-0000-000000000001/resourcegroups/shop/providers/".
Definition web : string := group +:+ "microsoft.compute/virtualmachines/web".
Definition database : string := group +:+ "microsoft.compute/virtualmachines/db".
Definition nsg : string := group +:+ "microsoft.network/networksecuritygroups/nsg".
Definition rule : string := nsg +:+ "/securityrules/sql".
Definition path : DependencyPath := {|
  dp_path_id := "path-sql"; dp_path_class := PathDeclared; dp_source_role_ref := "web"; dp_target_role_ref := "database";
  dp_relationship_ids := ["web-database"]; dp_resource_ids := [database; web; nsg; rule]; dp_path_digest := digest "1" |}.

(** ** The change *)
Definition change : NormalizedChangeEvidence := {|
  ch_evidence_id := "change-1"; ch_deduplication_key := digest "2"; ch_change_key := digest "3"; ch_source_system := ChangeResourceGraph;
  ch_source_record_reference := "record-1"; ch_source_digest := digest "4"; ch_target_resource_id := rule;
  ch_target_resource_type := "Microsoft.Network/networkSecurityGroups/securityRules"; ch_operation := OpUpdate;
  ch_operation_name := "write"; ch_result := ChangeSucceeded;
  ch_changed_properties := [{| cp_path := "properties.access"; cp_before_evidence_reference := None; cp_after_evidence_reference := None;
                               cp_is_truncated := false |}];
  ch_actor_kind := ActorUser; ch_actor_reference := "actor"; ch_occurred_at := incident - minutes 2; ch_received_at := incident - minutes 1;
  ch_correlation_id := "correlation"; ch_deployment_source_kind := SourceAzurePortal; ch_deployment_source_reference := "portal";
  ch_policy_assignment_reference := None; ch_policy_definition_reference := None; ch_policy_enforcement_mode := EnforceUnknown;
  ch_before_evidence_reference := None; ch_after_evidence_reference := None |}.
Definition artifact : ChangeEvidenceArtifact := {|
  art_evidence := change;
  art_attestation := {| ct_key_vault_key_id := "key"; ct_signed_preimage_digest := digest "5"; ct_signature := "QQ" |} |}.

(** ** What monitoring observed *)
Definition root_reference (c : string) : string := "root:" +:+ digest c.
Definition observed (id subject root : string) : ObservationBase := {|
  mo_observation_id := id; mo_subject_resource_id := subject; mo_observed_start := incident - minutes 1;
  mo_observed_end := incident + minutes 5; mo_provenance_root_digest := sha256_hex (root_reference root); mo_source_root_reference := root_reference root;
  mo_source_record_reference := id; mo_summary_code := "observed"; mo_control_provenance := None; mo_query_execution_digest := None;
  mo_observation_digest := digest "6" |}.
Definition tuple : NetworkTuple := {|
  nt_path_id := "path-sql"; nt_direction := Inbound; nt_protocol := Tcp; nt_source_resource_id := web; nt_destination_resource_id := database;
  nt_source_address := "10.0.0.4"; nt_destination_address := "10.0.1.4"; nt_source_port := None; nt_destination_port := Some 1433;
  nt_five_tuple_digest := digest "7" |}.
Definition flow (decision : FlowDecision) (id : string) : NetworkFlowObservation := {|
  fl_base := observed id database "a"; fl_tuple := tuple; fl_decision := decision; fl_enforcement_resource_id := nsg;
  fl_rule_resource_id := Some rule; fl_effective_rule_attribution := true; fl_attribution_method := Some IpFlowVerify;
  fl_causal_effect := Some IntroducedDenyForTuple; fl_attribution_proof_digest := Some (digest "8");
  fl_matched_change_key := Some (digest "3"); fl_matched_change_evidence_id := Some "change-1";
  fl_matched_change_artifact_digest := match artifact_digest artifact with Ok d => Some d | Raise _ => None end;
  fl_matched_property_paths := ["properties.access"] |}.
Definition denied : NetworkFlowObservation := flow FlowDenied "flow-1".
Definition failed_test : ConnectionMonitorObservation := {|
  cm_base := observed "monitor-1" web "b"; cm_tuple := tuple; cm_monitor_resource_id := group +:+ "microsoft.network/networkwatchers/watcher";
  cm_status := MonitorFailed; cm_test_configuration_reference := "sql-test"; cm_test_configuration_digest := digest "9" |}.
Definition degraded : EndpointHealthObservation := {|
  eh_base := observed "endpoint-1" database "c"; eh_path_id := "path-sql"; eh_status := HsUnavailable; eh_backend_resource_ids := [] |}.

(** Complete coverage of one family *)
Definition coverage (family : EvidenceFamily) (id : string) : EvidenceCoverage := {|
  co_coverage_id := id; co_family := family;
  co_scope := {| es_scope_id := id; es_resource_ids := [database; web; nsg; rule]; es_path_id := Some "path-sql"; es_direction := Some Inbound;
                 es_five_tuple_digest := Some (digest "7"); es_endpoint_test_reference := Some "sql-test";
                 es_endpoint_test_digest := Some (digest "9"); es_query_scope_digest := digest "d"; es_scope_digest := digest "e" |};
  co_provenance_root_digest := sha256_hex (root_reference "f"); co_source_root_reference := root_reference "f"; co_source_record_reference := id;
  co_coverage_start := incident - minutes 30; co_coverage_end := incident + minutes 30; co_control_provenance := None;
  co_query_execution_digests := None; co_status := CovComplete; co_detail := None; co_coverage_digest := digest "0" |}.

(** ** The request *)
Definition blob : VersionPinnedBlobReference := {| vp_name := "blob"; vp_version := "1"; vp_content_digest := digest "0" |}.
Definition citation (family : EvidenceFamily) (id root : string) (resources : list string) (start : Z) : CorrelationEvidenceCitation := {|
  ci_evidence_id := id; ci_family := family; ci_provenance_root_digest := sha256_hex (root_reference root); ci_evidence_digest := digest "6";
  ci_source_reference := blob; ci_observed_start := start; ci_observed_end := incident + minutes 5;
  ci_source_root_reference := root_reference root; ci_resource_ids := resources; ci_summary_code := "observed" |}.
Definition during : Z := incident - minutes 1.
Definition citations : list CorrelationEvidenceCitation := [
  citation FamResourceChange "change-1" "2" [rule] (incident - minutes 2); citation FamNetworkFlow "flow-1" "a" [database; web; nsg; rule] during;
  citation FamConnectionMonitor "monitor-1" "b" [database; web] during; citation FamEndpointHealth "endpoint-1" "c" [database] during;
  citation FamNetworkFlow "flow-2" "a" [database; web; nsg; rule] during; citation FamNetworkFlow "coverage-flow" "f" [database] during].
Definition catalog_digest : string := match rule_catalog_digest with Ok d => d | Raise _ => "" end.

Definition request (observations : list MonitoringObservation) : CorrelationRequest := {|
  rq_schema_version := LegacyRequest; rq_request_id := "request"; rq_rule_catalog_digest := catalog_digest; rq_incident_revision := 1;
  rq_issued_at := incident + minutes 10; rq_trusted_as_of := incident + minutes 10; rq_expires_at := incident + minutes 20;
  rq_context_binding := DraftPreview {| cb_workload_id := "shop"; cb_manifest_id := "shop"; cb_manifest_version := "1.0.0";
    cb_manifest_digest := digest "0"; cb_profile_id := "production"; cb_resolved_profile_digest := digest "0";
    cb_dependency_graph_digest := digest "0"; cb_dependency_paths := [path]; cb_required_coverage_scope_digests := [];
    cb_binding_digest := digest "0" |} "draft" 1;
  rq_incident_anchor := {| it_transition_id := "transition"; it_affected_resource_id := database; it_previous_state := HsHealthy;
    it_current_state := HsUnavailable; it_observed_start := incident; it_observed_end := incident + minutes 5;
    it_previous_state_evidence := []; it_current_state_evidence := [citation FamEndpointHealth "endpoint-1" "c" [database] during];
    it_transition_digest := digest "0" |};
  rq_monitoring_handoff := {| mh_collector_contract_digest := digest "0"; mh_collection_id := "c"; mh_observed_at := incident;
    mh_evidence := blob; mh_trust_anchor_ref := "anchor"; mh_signed_preimage_digest := digest "0"; mh_signature := "QQ" |};
  rq_monitoring_bundle := {| mb_schema_version := LegacyBundle; mb_workload_id := "shop"; mb_monitoring_contract_digest := digest "0";
    mb_monitoring_intent_reference := None; mb_collected_at := None; mb_observed_start := incident - minutes 30;
    mb_observed_end := incident + minutes 30; mb_observations := observations;
    mb_coverage := [coverage FamNetworkFlow "coverage-flow"; coverage FamConnectionMonitor "coverage-monitor";
                    coverage FamEndpointHealth "coverage-endpoint"]; mb_expected_coverage_scope_digests := [] |};
  rq_change_artifacts := [artifact]; rq_change_handoffs := []; rq_evidence_index := citations;
  rq_evidence_inventory := {| iv_rule_catalog_digest := catalog_digest; iv_context_binding_digest := digest "0";
    iv_incident_transition_digest := digest "0"; iv_monitoring_handoff_digest := digest "0"; iv_monitoring_bundle_digest := digest "0";
    iv_change_artifact_digests := []; iv_evidence_index_digest := digest "0"; iv_monitoring_intent_asset_reference_digest := None;
    iv_monitoring_control_provenance_digest := None; iv_source_references := []; iv_inventory_digest := digest "0" |};
  rq_request_digest := digest "0" |}.
Definition closed_port : CorrelationRequest := request [FlowObs denied; MonitorObs failed_test; EndpointObs degraded].
(** The same, but a covered flow of the same chain was allowed *)
Definition open_port : CorrelationRequest :=
  request [FlowObs denied; FlowObs (flow FlowAllowed "flow-2"); MonitorObs failed_test; EndpointObs degraded].

Abbreviation hypotheses r := (compute_hypotheses r (adverse_observation_ids r) false).

Definition confirmed (h : RootCauseHypothesis) : bool := bool_decide (hy_confidence h = CfConfirmed).
Definition confidences (hs : list RootCauseHypothesis) : list (RootCauseCategory * ConfidenceLevel) :=
  (fun h => (hy_category h, hy_confidence h)) <$> hs.

(** The change is confirmed, the symptoms come after it, and the report fits. *)
Lemma closed_port_explained : exists hs ranked h, hypotheses closed_port = Ok hs /\
  bound_report_hypotheses closed_port hs = Ok ranked /\
  confidences ranked = [(RcNetworkSecurityChange, CfConfirmed); (RcBackendHealth, CfMedium); (RcDependencyFailure, CfMedium)] /\
  h ∈ hs /\ hy_confidence h = CfConfirmed.
Proof.
  assert (Hrun : match hypotheses closed_port with
    | Ok (h :: hs) => confirmed h && match bound_report_hypotheses closed_port (h :: hs) with
        | Ok ranked => bool_decide (confidences ranked =
            [(RcNetworkSecurityChange, CfConfirmed); (RcBackendHealth, CfMedium); (RcDependencyFailure, CfMedium)])
        | Raise _ => false
        end
    | _ => false
    end = true) by vm_cast_no_check (eq_refl true).
  destruct (hypotheses closed_port) as [[|h hs]|e]; try done. apply andb_true_iff in Hrun as [Hh%bool_decide_eq_true Hrun].
  exists (h :: hs). destruct (bound_report_hypotheses closed_port (h :: hs)) as [ranked|e]; [|done].
  exists ranked, h. apply bool_decide_eq_true in Hrun. split_and!; try done. left.
Qed.

(** An allowed flow of the same chain refutes the change. *)
Example open_port_unconfirmed : match hypotheses open_port with
  | Ok hs => existsb confirmed hs
  | Raise _ => true
  end = false.
Proof. vm_cast_no_check (eq_refl false). Qed.
End CorrelationDemo.

Module CorrelationWitnesses.
Import CorrelationDemo.

Lemma confirmed_cause_evidenced_witness : exists hs h, hypotheses closed_port = Ok hs /\ h ∈ hs /\ hy_confidence h = CfConfirmed /\
  exists a f m e, a ∈ rq_change_artifacts closed_port /\ evidence_chain closed_port a f m e.
Proof.
  destruct closed_port_explained as (hs & _ & h & Hc & _ & _ & Hh & Hf). exists hs, h.
  split; [exact Hc|]. split; [exact Hh|]. split; [exact Hf|].
  exact (proj2 (proj2 (confirmed_cause_evidenced closed_port (adverse_observation_ids closed_port) false hs h Hc Hh Hf))).
Defined.

Lemma report_keeps_longest_prefix_witness : exists hs ranked, hypotheses closed_port = Ok hs /\
  bound_report_hypotheses closed_port hs = Ok ranked /\ fits closed_port ranked /\ (length ranked <= 64)%nat.
Proof.
  destruct closed_port_explained as (hs & ranked & _ & Hc & Hb & _). exists hs, ranked.
  split; [exact Hc|]. split; [exact Hb|].
  destruct (report_keeps_longest_prefix closed_port hs ranked Hb) as (Hf & Hl & _). split; [exact Hf|exact Hl].
Defined.
End CorrelationWitnesses.
